(* ===== verification/_CoqProject ===== *)
-Q . S2P
Prelude.v
Kern.v
Bswap.v
Bitmap.v
Array.v
Interfaces.v
Copyinout.v
Uio.v
Vfs.v
VfsSpec.v
VfsDevs.v
Openfile.v
OpenfileSpec.v
FileOps.v
FileTables.v
FileProps.v
Pid.v
PidSpec.v
PidSys.v
PidProps.v
Vm.v
VmSpec.v
VmProps.v
VfsProc.v
UserSpace.v
Proc.v
Exec.v
Syscall.v
ProcFiles.v
ProcSpec.v
KernelMem.v
ProcOps.v
ProcFork.v
ProcExit.v
SyscallSpec.v
KernelDemo.v
KernelProps.v
SyscallProps.v
ExecProps.v
LongLong.v
QDivRem.v
Libc.v
LibcStr.v
Printf.v
Threadlist.v
Sched.v
SchedSpec.v
SchedOps.v
SchedNew.v
SchedMig.v
SchedProps.v
Synch.v
SynchSpec.v
SynchOps.v
SynchProps.v
Kmalloc.v
KmallocSpec.v
KmallocRefs.v
KmallocOps.v
KmallocSys.v
KmallocProps.v
KmallocCheck.v
Lhd.v
Sfs.v
LhdSpec.v
SfsSpec.v
SfsMap.v
SfsBmap.v
SfsTrunc.v
SfsUio.v
SfsIo.v
SfsDir.v
SfsCache.v
SfsVol.v
SfsDirOps.v
SfsFileOps.v
SfsClient.v
SfsMount.v
Mksfs.v
SfsProps.v
