(* ===== verification/Prelude.v ===== *)
(** * OS/161 with the COMP3891 system-call layer: a verification development

    The program is the OS/161 teaching kernel for a MIPS machine, with the
    system calls of an operating-systems assignment: files, processes and
    execv.  This library models the parts of it that the system calls go
    through, from the trap frame down to the disk and physical memory, the
    scheduler, locks and kernel heap below them, the program that formats disks,
    and the C library routines the kernel shares with its programs.

    ** Parts, and how they interact

    A system call enters in the dispatcher ([Syscall], arch/mips/syscall).  File
    calls go to the open-file layer ([Openfile], syscall/file.c and
    file_syscalls.c), which keeps one table of open files and one table of
    descriptors per process, and calls the VFS layer ([Vfs], kern/vfs) through
    the interface of [Interfaces].  The VFS layer keeps vnodes, devices, mounts
    and current directories; file systems and drivers are behind the [Backend]
    interface, which the file system SFS ([Sfs], kern/fs/sfs) on the disk driver
    ([Lhd], dev/lamebus/lhd.c) implements.  The volumes that SFS mounts are
    written by mksfs ([Mksfs], userland/sbin/mksfs).  Process calls go to [Proc] (proc.c, proc_syscalls.c), which uses the table of process ids
    ([Pid], thread/pid.c), address spaces ([Vm], dumbvm.c and ram.c) and the
    open-file layer.  execv and program loading are in [Exec] (execv.c,
    loadelf.c, runprogram.c).  User memory is read and written through
    [Copyinout] and [Uio].  Threads, wait channels and run queues ([Sched],
    thread/thread.c), semaphores, locks and condition variables ([Synch],
    thread/synch.c) and the kernel heap ([Kmalloc], vm/kmalloc.c) are models of
    their own, in which threads interleave; the layers above take from them that
    a section under a lock is one step and that an allocation gives a new block
    or fails.

    ** Files

    - [Prelude]: machine integers, the kernel monad, tactics, shared lemmas.
    - [Kern]: constants and wait statuses.  [Bswap], [Bitmap], [Array]:
      kern/lib/bswap.c, bitmap.c, array.c.
    - [Interfaces]: data and type classes at the vnode and user-memory
      interfaces.  [Copyinout], [Uio]: vm/copyinout.c, lib/uio.c.
    - [Vfs], [VfsSpec], [VfsDevs]: kern/vfs, its invariant, and a concrete
      system.
    - [Openfile], [OpenfileSpec], [FileOps], [FileTables], [FileProps]: open
      files: code, invariant, outcomes of each operation, properties.
    - [Pid], [PidSpec], [PidSys], [PidProps]: process ids: code, operations,
      systems of processes and their abstract machine, properties.
    - [Vm], [VmSpec], [VmProps]: address spaces and physical memory.
    - [VfsProc], [UserSpace], [Proc], [Exec], [Syscall]: the code of the
      process layer, programs and the dispatcher, over one kernel state.
    - [ProcFiles], [ProcSpec], [KernelMem], [ProcOps], [ProcFork], [ProcExit],
      [SyscallSpec]: the invariant of the kernel state and that every call
      keeps it.  [KernelDemo]: a concrete state.
    - [KernelProps], [SyscallProps], [ExecProps]: properties of the whole.
    - [Threadlist], [Sched]: threadlist.c and thread.c.  [SchedSpec],
      [SchedOps], [SchedNew], [SchedMig], [SchedProps]: the invariant of the
      queues, that each operation keeps it, and the properties of any run.
    - [Synch]: synch.c.  [SynchSpec], [SynchOps], [SynchProps]: the same for
      semaphores, locks and condition variables.
    - [Kmalloc]: kmalloc.c over an interface of the page allocator.
      [KmallocSpec], [KmallocRefs], [KmallocOps], [KmallocSys],
      [KmallocProps], [KmallocCheck]: the invariant of pages and lists, the
      operations, runs of many callers and their refinement of an abstract heap.
    - [Lhd], [Sfs]: the disk driver and the file system.  [LhdSpec]: what is
      asked of a disk, and a sector read or written.  [SfsSpec]: a view of one
      mounted volume and the rules to prove an operation on it.  [SfsMap],
      [SfsBmap], [SfsTrunc]: codecs, block allocation, the block map and
      truncation.  [SfsUio], [SfsIo]: reading and writing files.
      [SfsDir], [SfsCache]: directory entries and the table of loaded vnodes.
      [SfsVol]: the abstract state of a volume and what represents it.
      [SfsDirOps], [SfsFileOps]: each operation refines an abstract one.
      [SfsClient]: runs of operations.  [SfsMount]: volumes on the disk, mount
      and unmount.  [Mksfs]: mksfs and what it writes.  [SfsProps]: properties,
      and a disk in memory.
    - [LongLong], [QDivRem]: common/gcc-millicode.  [Libc], [LibcStr]:
      common/libc/string and atoi.c.  [Printf]: common/libc/printf.

    ** State and operations

    Code that has effects is a function in the monad [M S A] of this file: from
    a state it gives a value and a state, or a fault.  A fault is a failed
    KASSERT, a panic, a NULL or freed object, or an access out of range, so
    that "runs without fault" is part of every total result ([wp]).  Errors of
    the code are values of [res].  Objects the code reaches by pointer are in
    maps by address, 0 being NULL.  An allocation asks an oracle, which may
    refuse any request.  A C integer is a [Z] kept in the range of its type by
    the conversions of this file, applied where the code converts or can
    overflow.

    A call that sleeps is cut where it sleeps: the model of waitpid returns,
    and another step goes on when the thread has been woken.  Between these
    points a system call is one step, as on one processor with the big locks
    of the code; locks are modelled by their holder, and releasing one that is
    not held or acquiring one twice is a fault.  In [Sched], [Synch] and
    [Kmalloc] a step is a section between spinlock operations, and any thread or
    processor may take the next one.

    ** What the theorems show

    - Files: what open, close, read, write, lseek and dup2 do on each branch;
      reference counts are exact, so that an open file is closed with its last
      descriptor and only then; creating and destroying descriptor tables.
    - Process ids: every interleaving of fork, exit and wait refines an
      abstract machine; a status is delivered once, to the parent; an exit
      wakes the parent that sleeps.
    - Memory: copying an address space, handling a fault, copies between user
      and kernel memory and their round trips.
    - The kernel: from a state in which the invariant holds, any sequence of
      system calls, wake-ups, switches and user computation runs without fault
      and keeps the invariant; a step of one process leaves the memory and the
      descriptors of others alone; fork, _exit and waitpid on each branch; the
      register conventions of system calls.
    - Programs: execv's loops end, its arguments arrive on the new stack if they
      fit, and a vector for which its kernel buffer is overrun.
    - Threads: a thread is in one place at a time, a wakeup is not lost, and no
      run of the scheduler faults; semaphores count, locks exclude, and a
      condition variable wakes a waiter that is there.
    - The heap: blocks handed out are apart and keep their contents, and the
      heap loses no page when all are freed.
    - SFS: whatever operations a client chooses, by the results it has seen, a
      mounted volume behaves as an abstract file system of names, files and
      references, errors included; what is written is read back; sync, unmount
      and mount give the same volume; what mksfs writes is mounted as an empty
      volume.  All this on a disk whose writes do not fail; one that loses a write
      is shown too.
    - Library code: 64-bit arithmetic is the arithmetic of the integers,
      division included; memory and string functions against lists; snprintf
      stores a bounded, terminated text; numbers printed are read back.

    Some theorems show that the code does not do what it should:
    [bswap64_reverses_iff], [wait_last_pid_wild], [reused_pid_adopts],
    [execv_overflow], [stealmem_wraps], [lost_refs_panic], [lost_write].

    ** Bounds and fuel

    Loops over tables run over the length of the table.  Loops over strings are
    bounded by the number of bytes that are mapped, and the loops of execv over
    the argument vector by that number and the bytes of RAM, which they go on to
    read at the end of user space: each turn reads one more byte, so the bound
    is not reached ([execv_loops_end], [strlen_ok] and its like).  The loops of [QDivRem] have
    constant bounds, and the main theorem shows that they suffice.  The write
    loop of [Mksfs] takes one answer of write() per turn.

    A volume of SFS has at most 2^23 blocks, those of which offsets fit in 32
    bits, and mksfs makes volumes of at most 131072 blocks; a file has at most
    143 blocks of 512 bytes.  Clients of SFS write below offset 2^41 and cut files
    to lengths a file can have, which the code does not check.

    ** Conditions of the theorems

    - A disk may fail to read a sector ten times in a row, which is as often as
      the code tries again.  It may fail to write, too, but the theorems about
      SFS are about disks that will not ([lossless] in [LhdSpec]), since the code
      then reports success for a block it has not stored.
    - Kernel memory may run out at any allocation whose failure the code checks.
      Two are not checked: those of pid_create, which in [PidSys] and all that
      builds on it succeed, and that of the child's descriptor table in fork,
      its fourth, which the theorems about fork assume to succeed.
    - The theorems about runs and steps of the whole kernel ([kernel_safe],
      [kernel_isolation]), and that a call ends ([syscall_convention]), are
      about the calls of [call_ok].  It leaves out execv and reboot, fork when
      the table of process ids is full, and waitpid on a last entry of that table
      that was never written; so do [fork_spec], [waitpid_spec] and [pid_refines].
      The code goes wrong there.
    - Callers of the heap ask for at most 2^31 bytes, free what they have, and do
      not meet a root that failed page allocations have filled up
      ([lost_refs_panic]).
    - The words beyond the descriptor table, which the loop at exit reads, are
      arbitrary, a parameter [beyond].

    ** Not modelled

    - User accesses to mapped memory do not fault in the composed model: that
      the translation buffer fills up is shown for vm_fault alone.  The direct
      reads of memory by execv see the user memory of the caller and, above it,
      bytes of RAM that stand for whatever the kernel has there.
    - Spinlocks, interrupt levels and the deadlock detector: a section under a
      spinlock is one step.  The modes GUARDS, LABELS and CHECKBEEF of the heap,
      which are compiled out, and its statistics.
    - semfs, which is one more implementation of [Backend]; the drivers other
      than the disk's, and the disk itself, which is a parameter; assembly
      code; the menu, kernel tests and user programs other than mksfs, of which
      the variant that runs on the host is left out too.
    - String arguments of printf are lists of characters, not addresses. *)

From Stdlib Require Export ZArith Lia.
From stdpp Require Export base numbers list option gmap strings.

Open Scope Z_scope.

(** ** Machine integers

    Integers are [Z]; a value stored in a C object of width [w] is kept in
    range by the conversions below, applied wherever the C code converts or
    can overflow. *)

Definition u8 (z : Z) : Z := z mod 2 ^ 8.
Definition u16 (z : Z) : Z := z mod 2 ^ 16.
Definition u32 (z : Z) : Z := z mod 2 ^ 32.
Definition u64 (z : Z) : Z := z mod 2 ^ 64.
Definition s32 (z : Z) : Z := (z + 2 ^ 31) mod 2 ^ 32 - 2 ^ 31.
Definition s64 (z : Z) : Z := (z + 2 ^ 63) mod 2 ^ 64 - 2 ^ 63.
#[global] Arguments u8 : simpl never.
#[global] Arguments u16 : simpl never.
#[global] Arguments u32 : simpl never.
#[global] Arguments u64 : simpl never.
#[global] Arguments s32 : simpl never.
#[global] Arguments s64 : simpl never.

Definition is_u8 (z : Z) : Prop := 0 <= z < 2 ^ 8.
Definition is_u32 (z : Z) : Prop := 0 <= z < 2 ^ 32.
Definition is_u64 (z : Z) : Prop := 0 <= z < 2 ^ 64.
Definition is_s32 (z : Z) : Prop := - 2 ^ 31 <= z < 2 ^ 31.
Definition is_s64 (z : Z) : Prop := - 2 ^ 63 <= z < 2 ^ 63.

Ltac unfold_widths :=
  unfold u8, u16, u32, u64, s32, s64, is_u8, is_u32, is_u64, is_s32, is_s64 in *.

(** Arithmetic on widths: powers of two are turned into numerals so that
    [lia] sees them, and [mod] into its defining equations. *)
Ltac width_lia :=
  unfold_widths;
  change (2 ^ 8) with 256 in *; change (2 ^ 16) with 65536 in *;
  change (2 ^ 31) with 2147483648 in *; change (2 ^ 32) with 4294967296 in *;
  change (2 ^ 63) with 9223372036854775808 in *;
  change (2 ^ 64) with 18446744073709551616 in *;
  Z.div_mod_to_equations; lia.

Lemma u32_id z : is_u32 z -> u32 z = z.
Proof. intros. apply Z.mod_small. exact H. Qed.

Lemma u64_id z : is_u64 z -> u64 z = z.
Proof. intros. apply Z.mod_small. exact H. Qed.

Lemma s32_id z : is_s32 z -> s32 z = z.
Proof. intros. unfold s32. rewrite Z.mod_small; width_lia. Qed.

Lemma s64_id z : is_s64 z -> s64 z = z.
Proof. intros. unfold s64. rewrite Z.mod_small; width_lia. Qed.

Lemma u32_range z : is_u32 (u32 z).
Proof. apply Z.mod_pos_bound. lia. Qed.

Lemma u64_range z : is_u64 (u64 z).
Proof. apply Z.mod_pos_bound. lia. Qed.

Lemma s32_range z : is_s32 (s32 z).
Proof. width_lia. Qed.

Lemma s64_range z : is_s64 (s64 z).
Proof. width_lia. Qed.

(** Casting a signed 64-bit value to unsigned and back is the identity. *)
Lemma s64_u64 z : s64 (u64 z) = s64 z.
Proof. width_lia. Qed.

(** Or-ing a value into the bits below a shifted one adds it. *)
Lemma lor_add b n v : 0 <= n -> 0 <= v < 2 ^ n -> Z.lor (b * 2 ^ n) v = b * 2 ^ n + v.
Proof.
  intros Hn Hv.
  assert (Z.land (b * 2 ^ n) v = 0) as Hd.
  { apply Z.bits_inj'. intros i Hi. rewrite Z.land_spec, Z.bits_0.
    destruct (Z.lt_ge_cases i n).
    - by rewrite Z.mul_pow2_bits_low by lia.
    - replace v with (v mod 2 ^ n) by (apply Z.mod_small; lia).
      rewrite Z.mod_pow2_bits_high by lia. apply Bool.andb_false_r. }
  rewrite Z.add_nocarry_lxor by done. by rewrite Z.lxor_lor.
Qed.

(** ** Faults and the kernel monad

    A kernel routine either returns, with a new state, or goes wrong.  The
    ways of going wrong are those of the C code: [panic] (also through a
    failed [KASSERT]), a NULL dereference, an access outside an object, an
    access to freed memory, and waiting on something that nothing in the
    modelled run can provide. *)
Inductive fault : Type :=
| FPanic        (* panic() or a failed KASSERT *)
| FNull         (* dereference of a NULL pointer *)
| FBounds       (* access outside the bounds of an object *)
| FDangling     (* access to an object that was freed *)
| FBlocked      (* sleeps on a lock somebody else holds *)
| FFuel.        (* the iteration bound of a loop was reached *)

Inductive outcome (S A : Type) : Type :=
| Ok (a : A) (s : S)
| Fault (f : fault).
Arguments Ok {S A} a s.
Arguments Fault {S A} f.

Definition M (S A : Type) : Type := S -> outcome S A.

#[export] Instance M_ret {S} : MRet (M S) := fun A (a : A) s => Ok a s.

#[export] Instance M_bind {S} : MBind (M S) :=
  fun A B (k : A -> M S B) (m : M S A) s =>
    match m s with
    | Ok a s' => k a s'
    | Fault f => Fault f
    end.

Section MonadOps.
Context {S : Type}.

Definition get : M S S := fun s => Ok s s.
Definition gets {A} (f : S -> A) : M S A := fun s => Ok (f s) s.
Definition modify (f : S -> S) : M S unit := fun s => Ok tt (f s).
Definition raise {A} (f : fault) : M S A := fun _ => Fault f.

(** [KASSERT(b)]. *)
Definition kassert (b : bool) : M S unit :=
  fun s => if b then Ok tt s else Fault FPanic.

(** Dereference: the fault is the one of a missing object. *)
Definition deref {A} (f : fault) (o : option A) : M S A :=
  fun s => match o with Some a => Ok a s | None => Fault f end.

(** [for (i = ...; ...; i++) body(i)] over a known list of indices. *)
Fixpoint for_each {A} (l : list A) (body : A -> M S unit) : M S unit :=
  match l with
  | [] => mret tt
  | x :: l' => body x ;; for_each l' body
  end.
End MonadOps.

(** ** Weakest preconditions

    [wp m Q s]: run from [s], [m] goes wrong in no way, and its result and
    final state satisfy [Q]. *)
Definition wp {S A} (m : M S A) (Q : A -> S -> Prop) (s : S) : Prop :=
  match m s with
  | Ok a s' => Q a s'
  | Fault _ => False
  end.

Section Wp.
Context {S : Type}.
Implicit Types s : S.

Lemma wp_ret {A} (a : A) (Q : A -> S -> Prop) s : wp (mret a) Q s <-> Q a s.
Proof. reflexivity. Qed.

Lemma wp_bind {A B} (m : M S A) (k : A -> M S B) Q s :
  wp (m ≫= k) Q s <-> wp m (fun a => wp (k a) Q) s.
Proof. unfold wp, mbind, M_bind. destruct (m s); reflexivity. Qed.

Lemma wp_get (Q : S -> S -> Prop) s : wp get Q s <-> Q s s.
Proof. reflexivity. Qed.

Lemma wp_gets {A} (f : S -> A) Q s : wp (gets f) Q s <-> Q (f s) s.
Proof. reflexivity. Qed.

Lemma wp_modify (f : S -> S) Q s : wp (modify f) Q s <-> Q tt (f s).
Proof. reflexivity. Qed.

Lemma wp_kassert b Q s : wp (kassert b) Q s <-> b = true /\ Q tt s.
Proof. unfold wp, kassert. destruct b; naive_solver. Qed.

Lemma wp_deref {A} f (o : option A) Q s :
  wp (deref f o) Q s <-> exists a, o = Some a /\ Q a s.
Proof. unfold wp, deref. destruct o; naive_solver. Qed.

Lemma wp_mono {A} (m : M S A) (Q Q' : A -> S -> Prop) s :
  wp m Q s -> (forall a s', Q a s' -> Q' a s') -> wp m Q' s.
Proof. unfold wp. destruct (m s); naive_solver. Qed.

Lemma wp_ok {A} (m : M S A) Q s :
  wp m Q s <-> exists a s', m s = Ok a s' /\ Q a s'.
Proof. unfold wp. destruct (m s); naive_solver. Qed.

(** Running a computation step by step, on the nose. *)
Lemma bind_eq {A B} (m : M S A) (k : A -> M S B) s a s' : m s = Ok a s' -> (m ≫= k) s = k a s'.
Proof. intros Hm. unfold mbind, M_bind. by rewrite Hm. Qed.

Lemma modify_bind {B} (f : S -> S) (k : unit -> M S B) s : (modify f ≫= k) s = k tt (f s).
Proof. done. Qed.

Lemma get_bind {B} (k : S -> M S B) s : (get ≫= k) s = k s s.
Proof. done. Qed.

Lemma kassert_bind {B} b (k : unit -> M S B) s : b = true -> (kassert b ≫= k) s = k tt s.
Proof. by intros ->. Qed.

(** Loop rule: an invariant indexed by the part already done. *)
Lemma wp_for_each {A} (l : list A) (body : A -> M S unit) (I : list A -> S -> Prop) s :
  I [] s ->
  (forall done x rest s', l = done ++ x :: rest -> I done s' ->
     wp (body x) (fun _ => I (done ++ [x])) s') ->
  wp (for_each l body) (fun _ => I l) s.
Proof.
  intros H0 Hstep.
  cut (forall done rest, l = done ++ rest -> forall s', I done s' ->
         wp (for_each rest body) (fun _ => I l) s').
  { intros H. by apply (H []). }
  intros done rest. revert done. induction rest as [|x rest IH]; intros done Hl s' Hs'.
  - rewrite app_nil_r in Hl. by subst.
  - simpl. apply wp_bind. eapply wp_mono; [by eapply Hstep|].
    intros [] s'' Hs''. apply (IH (done ++ [x])); [|done].
    by rewrite <- app_assoc.
Qed.
End Wp.

(** ** Counting *)

(** The number of occurrences of [i] in a list. *)
Definition cnt (i : Z) (d : list Z) : Z := Z.of_nat (length (filter (fun e => e = i) d)).

Lemma count_insert {A} (P : A -> Prop) `{forall x, Decision (P x)} (l : list A) i x y :
  l !! i = Some x ->
  Z.of_nat (length (filter P (<[i := y]> l))) =
  Z.of_nat (length (filter P l)) - (if decide (P x) then 1 else 0) + (if decide (P y) then 1 else 0).
Proof.
  intros Hx. pose proof (lookup_lt_Some _ _ _ Hx) as Hlt.
  rewrite <- (take_drop_middle l i x Hx) at 2.
  rewrite insert_take_drop by done.
  rewrite !filter_app, !filter_cons. repeat case_decide; rewrite !length_app; simpl; lia.
Qed.

Lemma cnt_insert i d k e e' : d !! k = Some e ->
  cnt i (<[k := e']> d) = cnt i d - (if e =? i then 1 else 0) + (if e' =? i then 1 else 0).
Proof.
  intros Hk. unfold cnt. rewrite (count_insert _ d k e e' Hk).
  repeat case_decide; destruct (Z.eqb_spec e i), (Z.eqb_spec e' i); try congruence; lia.
Qed.

Lemma cnt_nonneg i d : 0 <= cnt i d.
Proof. unfold cnt. lia. Qed.

Lemma cnt_pos i d k : d !! k = Some i -> 0 < cnt i d.
Proof.
  intros Hk. unfold cnt. assert (i ∈ filter (fun e => e = i) d) as Hin.
  { apply list_elem_of_filter. split; [done|]. by eapply list_elem_of_lookup_2. }
  destruct (filter _ d); [by apply not_elem_of_nil in Hin|]. simpl. lia.
Qed.

Lemma cnt_absent i d : (forall k, d !! k <> Some i) -> cnt i d = 0.
Proof.
  intros Hn. unfold cnt. replace (filter (fun e => e = i) d) with (@nil Z); [done|].
  symmetry. apply length_zero_iff_nil. destruct (filter _ d) eqn:E; [done|].
  assert (z ∈ filter (fun e => e = i) d) as Hin by (rewrite E; left).
  apply list_elem_of_filter in Hin as [-> Hin]. apply list_elem_of_lookup in Hin as [k Hk].
  by apply Hn in Hk.
Qed.

(** ** Sizes of maps *)

(** Distinct keys at equal distances are at most as many as there are keys. *)
Lemma stride_size {A} (m : gmap Z A) p k n : 0 < k -> (forall j, 0 <= j < n -> is_Some (m !! (p + k * j))) ->
  n <= Z.of_nat (size m).
Proof.
  intros Hk Hm. destruct (Z.lt_ge_cases n 0); [lia|]. set (l := (fun j => p + k * j) <$> seqZ 0 n).
  assert (NoDup l) as Hnd by (apply NoDup_fmap_2; [intros x y; nia|apply NoDup_seqZ]).
  assert (size (list_to_set l : gset Z) <= size (dom m))%nat as Hle.
  { apply subseteq_size. intros x. rewrite elem_of_list_to_set. intros (j & -> & Hj)%list_elem_of_fmap.
    apply elem_of_seqZ in Hj. apply elem_of_dom, Hm. lia. }
  rewrite size_list_to_set, size_dom in Hle by done. unfold l in Hle. rewrite length_fmap, length_seqZ in Hle. lia.
Qed.

Create HintDb kern.
Create Rewrite HintDb wp.
#[export] Hint Rewrite @wp_ret @wp_bind @wp_get @wp_gets @wp_modify @wp_kassert
  @wp_deref : wp.

(** Push [wp] through a straight-line prefix. *)
Ltac wpsimp := autorewrite with wp; cbn beta.

(** Run a step whose result is known. *)
Ltac run H := rewrite (bind_eq _ _ _ _ _ H); cbn beta iota delta [negb].
