(* ===== verification/Kern.v ===== *)
(** * Kernel-wide constants and result types

    The constants of [src/kern/include/kern/] that the modelled code uses:
    error codes, limits, open flags, seek codes, and the encoding of exit
    statuses of [wait.h]. *)

From S2P Require Import Prelude.
Open Scope Z_scope.

(** ** Error codes ([src/kern/include/kern/errno.h]) *)

Inductive errno : Type :=
| ENOSYS | ENOMEM | EAGAIN | EINTR | EFAULT | ENAMETOOLONG | EINVAL | EPERM | EACCES
| EMPROC | ENPROC | ENOEXEC | E2BIG | ESRCH | ECHILD | ENOTDIR | EISDIR | ENOENT | ELOOP
| ENOTEMPTY | EEXIST | EMLINK | EXDEV | ENODEV | ENXIO | EBUSY | EMFILE | ENFILE | EBADF
| EIOCTL | EIO | ESPIPE | EPIPE | EROFS | ENOSPC | EDQUOT | EFBIG | EFTYPE | EDOM
| ERANGE | EILSEQ | ENOTSOCK | EISSOCK | EISCONN | ENOTCONN | ESHUTDOWN | EPFNOSUPPORT
| ESOCKTNOSUPPORT | EPROTONOSUPPORT | EPROTOTYPE | EAFNOSUPPORT | ENOPROTOOPT
| EADDRINUSE | EADDRNOTAVAIL | ENETDOWN | ENETUNREACH | EHOSTDOWN | EHOSTUNREACH
| ECONNREFUSED | ETIMEDOUT | ECONNRESET | EMSGSIZE | ENOTSUP.

#[export] Instance errno_eq_dec : EqDecision errno.
Proof. solve_decision. Defined.

(** The number of an error, as stored in [tf_v0] by the dispatcher. *)
Definition errno_code (e : errno) : Z :=
  match e with
  | ENOSYS => 1 | ENOMEM => 3 | EAGAIN => 4 | EINTR => 5 | EFAULT => 6
  | ENAMETOOLONG => 7 | EINVAL => 8 | EPERM => 9 | EACCES => 10 | EMPROC => 11
  | ENPROC => 12 | ENOEXEC => 13 | E2BIG => 14 | ESRCH => 15 | ECHILD => 16
  | ENOTDIR => 17 | EISDIR => 18 | ENOENT => 19 | ELOOP => 20 | ENOTEMPTY => 21
  | EEXIST => 22 | EMLINK => 23 | EXDEV => 24 | ENODEV => 25 | ENXIO => 26 | EBUSY => 27
  | EMFILE => 28 | ENFILE => 29 | EBADF => 30 | EIOCTL => 31 | EIO => 32 | ESPIPE => 33
  | EPIPE => 34 | EROFS => 35 | ENOSPC => 36 | EDQUOT => 37 | EFBIG => 38 | EFTYPE => 39
  | EDOM => 40 | ERANGE => 41 | EILSEQ => 42 | ENOTSOCK => 43 | EISSOCK => 44
  | EISCONN => 45 | ENOTCONN => 46 | ESHUTDOWN => 47 | EPFNOSUPPORT => 48
  | ESOCKTNOSUPPORT => 49 | EPROTONOSUPPORT => 50 | EPROTOTYPE => 51 | EAFNOSUPPORT => 52
  | ENOPROTOOPT => 53 | EADDRINUSE => 54 | EADDRNOTAVAIL => 55 | ENETDOWN => 56
  | ENETUNREACH => 57 | EHOSTDOWN => 58 | EHOSTUNREACH => 59 | ECONNREFUSED => 60
  | ETIMEDOUT => 61 | ECONNRESET => 62 | EMSGSIZE => 63 | ENOTSUP => 64
  end.

(** What an [int]-returning routine reports: 0 with its output arguments, or a
    nonzero error code. *)
Inductive res (A : Type) : Type :=
| Done (a : A)
| Err (e : errno).
Arguments Done {A} a.
Arguments Err {A} e.

Lemma errno_code_pos e : 0 < errno_code e <= 64.
Proof. destruct e; cbn; lia. Qed.

Lemma errno_code_inj e e' : errno_code e = errno_code e' -> e = e'.
Proof. destruct e, e'; cbn; first [reflexivity | discriminate]. Qed.

(** ** Limits ([src/kern/include/kern/limits.h]) *)

Definition NAME_MAX : Z := 255.
Definition PATH_MAX : Z := 1024.
Definition ARG_MAX : Z := 4 * 1024.
Definition PID_MIN : Z := 2.
Definition PID_MAX : Z := 32767.
Definition OPEN_MAX : Z := 32.

(** ** Flags for open() ([src/kern/include/kern/fcntl.h]) *)

Definition O_RDONLY : Z := 0.
Definition O_WRONLY : Z := 1.
Definition O_RDWR : Z := 2.
Definition O_CREAT : Z := 4.
Definition O_EXCL : Z := 8.
Definition O_TRUNC : Z := 16.
Definition O_APPEND : Z := 32.
Definition O_ACCMODE : Z := 3.

(** ** Seek codes ([src/kern/include/kern/seek.h]) *)

Definition SEEK_SET : Z := 0.
Definition SEEK_CUR : Z := 1.
Definition SEEK_END : Z := 2.

(** ** Exit statuses ([src/kern/include/kern/wait.h]); statuses are C ints. *)

Definition WNOHANG : Z := 1.
Definition WUNTRACED : Z := 2.

Definition _WWHAT (x : Z) : Z := Z.land x 3.
Definition _WVAL (x : Z) : Z := Z.shiftr x 2.
Definition _MKWVAL (x : Z) : Z := s32 (Z.shiftl x 2).

Definition __WEXITED : Z := 0.
Definition __WSIGNALED : Z := 1.
Definition __WCORED : Z := 2.
Definition __WSTOPPED : Z := 3.

Definition WIFEXITED (x : Z) : bool := _WWHAT x =? __WEXITED.
Definition WIFSIGNALED (x : Z) : bool :=
  (_WWHAT x =? __WSIGNALED) || (_WWHAT x =? __WCORED).
Definition WIFSTOPPED (x : Z) : bool := _WWHAT x =? __WSTOPPED.
Definition WEXITSTATUS (x : Z) : Z := _WVAL x.
Definition WTERMSIG (x : Z) : Z := _WVAL x.
Definition WSTOPSIG (x : Z) : Z := _WVAL x.
Definition WCOREDUMP (x : Z) : bool := _WWHAT x =? __WCORED.

Definition _MKWAIT_EXIT (x : Z) : Z := Z.lor (_MKWVAL x) __WEXITED.
Definition _MKWAIT_SIG (x : Z) : Z := Z.lor (_MKWVAL x) __WSIGNALED.
Definition _MKWAIT_CORE (x : Z) : Z := Z.lor (_MKWVAL x) __WCORED.
Definition _MKWAIT_STOP (x : Z) : Z := Z.lor (_MKWVAL x) __WSTOPPED.

(** [x] fits in the 30 bits the encoding leaves for a code. *)
Definition wait_code (x : Z) : Prop := - 2 ^ 29 <= x < 2 ^ 29.

Lemma mkwval_small x : wait_code x -> _MKWVAL x = x * 4.
Proof.
  unfold wait_code, _MKWVAL. intros H. rewrite Z.shiftl_mul_pow2 by lia.
  change (2 ^ 2) with 4. apply s32_id. width_lia.
Qed.

Lemma wait_fields x w : 0 <= w < 4 -> _WWHAT (Z.lor (x * 4) w) = w /\ _WVAL (Z.lor (x * 4) w) = x.
Proof.
  intros Hw. unfold _WWHAT, _WVAL.
  rewrite (lor_add x 2 w ltac:(lia) Hw : Z.lor (x * 4) w = x * 4 + w).
  change 3 with (Z.ones 2). rewrite Z.land_ones, Z.shiftr_div_pow2 by lia.
  change (2 ^ 2) with 4. Z.div_mod_to_equations. lia.
Qed.

(** The wait-status encoding is faithful: for every code of 30 bits,
    encoding an exit (a fatal signal, a core dump, a stop) and decoding it
    tells what happened and gives the code back. *)
Theorem wait_status_roundtrip x :
  wait_code x ->
  (WIFEXITED (_MKWAIT_EXIT x) = true /\ WEXITSTATUS (_MKWAIT_EXIT x) = x) /\
  (WIFSIGNALED (_MKWAIT_SIG x) = true /\ WTERMSIG (_MKWAIT_SIG x) = x) /\
  (WIFSIGNALED (_MKWAIT_CORE x) = true /\ WCOREDUMP (_MKWAIT_CORE x) = true /\
   WTERMSIG (_MKWAIT_CORE x) = x) /\
  (WIFSTOPPED (_MKWAIT_STOP x) = true /\ WSTOPSIG (_MKWAIT_STOP x) = x).
Proof.
  intros Hx.
  unfold _MKWAIT_EXIT, _MKWAIT_SIG, _MKWAIT_CORE, _MKWAIT_STOP,
    WIFEXITED, WIFSIGNALED, WIFSTOPPED, WCOREDUMP, WEXITSTATUS, WTERMSIG, WSTOPSIG.
  rewrite !mkwval_small by done.
  destruct (wait_fields x __WEXITED ltac:(done)) as [-> ->].
  destruct (wait_fields x __WSIGNALED ltac:(done)) as [-> ->].
  destruct (wait_fields x __WCORED ltac:(done)) as [-> ->].
  destruct (wait_fields x __WSTOPPED ltac:(done)) as [-> ->].
  done.
Qed.

Lemma wait_status_roundtrip_witness :
  wait_code 7 /\ WIFEXITED (_MKWAIT_EXIT 7) = true.
Proof.
  split; [unfold wait_code; lia|].
  apply (wait_status_roundtrip 7). unfold wait_code; lia.
Defined.

(** ** Allocation

    [kmalloc] either hands out a fresh object or fails; which of the two
    happens is not decided by the code that calls it.  A state that supports
    allocation carries the outcomes still to come; once they are used up,
    allocation succeeds. *)
Class HasAlloc (S : Type) := {
  allocs : S -> list bool;
  set_allocs : list bool -> S -> S
}.

#[export] Instance HasAlloc_list : HasAlloc (list bool) :=
  {| allocs := id; set_allocs l _ := l |}.

(** [p = kmalloc(...)]: true when [p != NULL]. *)
Definition kmalloc {S} `{HasAlloc S} : M S bool :=
  fun s => match allocs s with
           | [] => Ok true s
           | b :: l => Ok b (set_allocs l s)
           end.

(** ** Errors passed on

    [x ←? m; k] is [result = m; if (result) return result; k]. *)
Definition try {S A B} (m : M S (res A)) (k : A -> M S (res B)) : M S (res B) :=
  r ← m; match r with Done a => k a | Err e => mret (Err e) end.

Declare Scope kern_scope.
Notation "x ←? m ; k" := (try m (fun x => k))
  (at level 20, m at level 100, k at level 200, right associativity) : kern_scope.

(** A loop that ends with the first error of its body. *)
Fixpoint each {S A} (l : list A) (body : A -> M S (res unit)) : M S (res unit) :=
  match l with
  | [] => mret (Done tt)
  | x :: l' => try (body x) (fun _ => each l' body)
  end.

Lemma wp_try {S A B} (m : M S (res A)) (k : A -> M S (res B)) Q s :
  wp (try m k) Q s <-> wp m (fun r => match r with Done a => wp (k a) Q | Err e => Q (Err e) end) s.
Proof.
  unfold try. rewrite wp_bind. split; intros H; (eapply wp_mono; [exact H|]); by intros [a|e] s'.
Qed.
