(* ===== verification/Bswap.v ===== *)
(** * Byte order and 64-bit register pairs ([src/kern/lib/bswap.c])

    The unconditional byte swaps, the network-order conversions as compiled
    for the big-endian MIPS target, and [join32to64]/[split64to32], which the
    system-call dispatcher uses for 64-bit arguments and results. *)

From S2P Require Import Prelude.
Open Scope Z_scope.

Module Bswap.

(** uint16_t bswap16(uint16_t val) *)
Definition bswap16 (val : Z) : Z :=
  u16 (Z.lor (Z.shiftl (Z.land val 0x00ff) 8)
             (Z.shiftr (Z.land val 0xff00) 8)).

(** uint32_t bswap32(uint32_t val) *)
Definition bswap32 (val : Z) : Z :=
  Z.lor (Z.lor (Z.lor
    (u32 (Z.shiftl (Z.land val 0x000000ff) 24))
    (u32 (Z.shiftl (Z.land val 0x0000ff00) 8)))
    (Z.shiftr (Z.land val 0x00ff0000) 8))
    (Z.shiftr (Z.land val 0xff000000) 24).

(** uint64_t bswap64(uint64_t val), shift directions as in the source. *)
Definition bswap64 (val : Z) : Z :=
  Z.lor (Z.lor (Z.lor (Z.lor (Z.lor (Z.lor (Z.lor
    (u64 (Z.shiftl (Z.land val 0x00000000000000ff) 56))
    (u64 (Z.shiftl (Z.land val 0x000000000000ff00) 40)))
    (u64 (Z.shiftl (Z.land val 0x0000000000ff0000) 24)))
    (u64 (Z.shiftl (Z.land val 0x00000000ff000000) 8)))
    (u64 (Z.shiftl (Z.land val 0x000000ff00000000) 8)))
    (u64 (Z.shiftl (Z.land val 0x0000ff0000000000) 24)))
    (Z.shiftr (Z.land val 0x00ff000000000000) 40))
    (Z.shiftr (Z.land val 0xff00000000000000) 56).

(** The TO macro on a big-endian target: ntoh* and hton* return their argument. *)
Definition ntohs (val : Z) : Z := val.
Definition htons (val : Z) : Z := val.
Definition ntohl (val : Z) : Z := val.
Definition htonl (val : Z) : Z := val.
Definition ntohll (val : Z) : Z := val.
Definition htonll (val : Z) : Z := val.

(** void join32to64(uint32_t x1, uint32_t x2, uint64_t *y2), big-endian. *)
Definition join32to64 (x1 x2 : Z) : Z := Z.lor (u64 (Z.shiftl x1 32)) x2.

(** void split64to32(uint64_t x, uint32_t *y1, uint32_t *y2), big-endian. *)
Definition split64to32 (x : Z) : Z * Z :=
  (u32 (Z.shiftr x 32), u32 (Z.land x 0xffffffff)).

(** ** Reference: the big-endian bytes of a word, and their value *)

Fixpoint be_value (bs : list Z) : Z :=
  match bs with
  | [] => 0
  | b :: bs' => b * 2 ^ (8 * Z.of_nat (length bs')) + be_value bs'
  end.

(** Byte [k] of [x], 0 being the least significant. *)
Definition byte_of (x k : Z) : Z := x / 2 ^ (8 * k) mod 256.
Arguments byte_of : simpl never.

(** The [n] low bytes of [x], most significant first. *)
Fixpoint be_bytes (n : nat) (x : Z) : list Z :=
  match n with
  | O => []
  | S n' => byte_of x (Z.of_nat n') :: be_bytes n' x
  end.

(** The value whose big-endian bytes are those of [x] in reverse. *)
Definition byte_reverse (n : nat) (x : Z) : Z := be_value (rev (be_bytes n x)).

Lemma byte_of_range x k : 0 <= byte_of x k < 256.
Proof. apply Z.mod_pos_bound. lia. Qed.

Lemma be_bytes_length n x : length (be_bytes n x) = n.
Proof. induction n; simpl; congruence. Qed.

Lemma be_bytes_range n x : Forall is_u8 (be_bytes n x).
Proof. induction n; simpl; constructor; [apply byte_of_range|done]. Qed.

Lemma be_value_range bs :
  Forall is_u8 bs -> 0 <= be_value bs < 2 ^ (8 * Z.of_nat (length bs)).
Proof.
  induction 1 as [|b bs Hb _ IH]; [simpl; lia|]. cbn [be_value length].
  replace (8 * Z.of_nat (S (length bs))) with (8 + 8 * Z.of_nat (length bs)) by lia.
  rewrite Z.pow_add_r by lia. unfold is_u8 in Hb. nia.
Qed.

Lemma be_value_bytes n x : be_value (be_bytes n x) = x mod 2 ^ (8 * Z.of_nat n).
Proof.
  induction n as [|n IH]; [simpl; by rewrite Z.mod_1_r|].
  cbn [be_value be_bytes]. rewrite be_bytes_length, IH. unfold byte_of.
  replace (8 * Z.of_nat (S n)) with (8 * Z.of_nat n + 8) by lia.
  rewrite Z.pow_add_r, Z.rem_mul_r by lia. change (2 ^ 8) with 256. lia.
Qed.

Lemma byte_of_mod x k n : 0 <= k < n -> byte_of (x mod 2 ^ (8 * n)) k = byte_of x k.
Proof.
  intros H. unfold byte_of. change 256 with (2 ^ 8).
  rewrite <- !Z.land_ones, <- !Z.shiftr_div_pow2 by lia.
  apply Z.bits_inj'. intros i Hi.
  rewrite !Z.land_spec, !Z.shiftr_spec, Z.land_spec by lia.
  destruct (Z.lt_ge_cases i 8).
  - rewrite (Z.ones_spec_low (8 * n)) by lia. by rewrite Bool.andb_true_r.
  - rewrite (Z.ones_spec_high 8) by lia. by rewrite !Bool.andb_false_r.
Qed.

Lemma be_bytes_mod n m x : (n <= m)%nat ->
  be_bytes n (x mod 2 ^ (8 * Z.of_nat m)) = be_bytes n x.
Proof.
  induction n as [|n IH]; [done|]. intros Hnm. cbn [be_bytes].
  rewrite byte_of_mod, IH by lia. done.
Qed.

Lemma be_bytes_value bs : Forall is_u8 bs -> be_bytes (length bs) (be_value bs) = bs.
Proof.
  induction 1 as [|b bs Hb Hbs IH]; [done|]. cbn [length be_bytes be_value].
  pose proof (be_value_range bs Hbs) as Hr.
  set (p := 2 ^ (8 * Z.of_nat (length bs))) in *.
  f_equal.
  - unfold byte_of. fold p. rewrite Z.add_comm, Z.div_add by lia.
    rewrite Z.div_small by lia. apply Z.mod_small. exact Hb.
  - rewrite <- (be_bytes_mod _ (length bs)) by lia. fold p.
    rewrite Z.add_comm, Z.mod_add, Z.mod_small by lia. exact IH.
Qed.

Lemma byte_reverse_involutive n x :
  0 <= x < 2 ^ (8 * Z.of_nat n) -> byte_reverse n (byte_reverse n x) = x.
Proof.
  intros Hx. unfold byte_reverse.
  rewrite <- (be_bytes_length n x), <- length_rev at 1.
  rewrite be_bytes_value by (apply Forall_rev, be_bytes_range).
  rewrite rev_involutive, be_value_bytes. by apply Z.mod_small.
Qed.

(** ** Masks, shifts and ors in terms of bytes *)

Lemma mask_byte x k : 0 <= k ->
  Z.land x (Z.shiftl 255 (8 * k)) = Z.shiftl (byte_of x k) (8 * k).
Proof.
  intros Hk. unfold byte_of. change 256 with (2 ^ 8). change 255 with (Z.ones 8).
  rewrite <- Z.land_ones, <- Z.shiftr_div_pow2 by lia.
  apply Z.bits_inj'. intros i Hi. rewrite Z.land_spec, !Z.shiftl_spec by lia.
  destruct (Z.lt_ge_cases i (8 * k)).
  - rewrite !(Z.testbit_neg_r _ (i - 8 * k)) by lia. by rewrite Bool.andb_false_r.
  - rewrite Z.land_spec, Z.shiftr_spec by lia. do 2 f_equal. lia.
Qed.

(** A masked byte moved up by [j] bits inside a word of [w] bits... *)
Lemma mask_shl w x m k j :
  m = Z.shiftl 255 (8 * k) -> 0 <= k -> 0 <= j -> 8 * k + j + 8 <= w ->
  Z.shiftl (Z.land x m) j mod 2 ^ w = byte_of x k * 2 ^ (8 * k + j).
Proof.
  intros -> Hk Hj Hw. rewrite mask_byte, Z.shiftl_shiftl, Z.shiftl_mul_pow2 by lia.
  apply Z.mod_small. pose proof (byte_of_range x k) as Hb.
  assert (2 ^ (8 * k + j + 8) <= 2 ^ w) by (apply Z.pow_le_mono_r; lia).
  rewrite (Z.pow_add_r 2 (8 * k + j) 8) in * by lia.
  change (2 ^ 8) with 256 in *. nia.
Qed.

(** ... and moved down. *)
Lemma mask_shr x m k j : m = Z.shiftl 255 (8 * k) -> 0 <= j <= 8 * k ->
  Z.shiftr (Z.land x m) j = byte_of x k * 2 ^ (8 * k - j).
Proof.
  intros -> H. rewrite mask_byte, Z.shiftr_shiftl_l, Z.shiftl_mul_pow2 by lia. done.
Qed.

(** A masked byte moved entirely out of the word. *)
Lemma mask_out w x m k j :
  m = Z.shiftl 255 (8 * k) -> 0 <= k -> 0 <= j -> 0 <= w <= 8 * k + j ->
  Z.shiftl (Z.land x m) j mod 2 ^ w = 0.
Proof.
  intros -> Hk Hj Hw. rewrite mask_byte, Z.shiftl_shiftl, Z.shiftl_mul_pow2 by lia.
  replace (8 * k + j) with (8 * k + j - w + w) by lia.
  rewrite Z.pow_add_r, Z.mul_assoc by lia. apply Z.mod_mul. lia.
Qed.

Lemma bytes4 b0 b1 b2 b3 : is_u8 b0 -> is_u8 b1 -> is_u8 b2 -> is_u8 b3 ->
  Z.lor (Z.lor (Z.lor (b0 * 2 ^ 24) (b1 * 2 ^ 16)) (b2 * 2 ^ 8)) (b3 * 2 ^ 0)
  = be_value [b0; b1; b2; b3].
Proof.
  unfold is_u8. intros. rewrite <- !Z.lor_assoc, Z.mul_1_r.
  rewrite (lor_add b2 8), (lor_add b1 16), (lor_add b0 24) by lia.
  cbn. lia.
Qed.

Lemma bswap32_reverses x : bswap32 x = byte_reverse 4 x.
Proof.
  unfold bswap32, u32.
  rewrite (mask_shl 32 x _ 0 24), (mask_shl 32 x _ 1 8), (mask_shr x _ 2 8),
    (mask_shr x _ 3 24) by (reflexivity || lia).
  apply bytes4; apply byte_of_range.
Qed.

Lemma bswap16_reverses x : bswap16 x = byte_reverse 2 x.
Proof.
  pose proof (byte_of_range x 0). pose proof (byte_of_range x 1).
  unfold bswap16. rewrite (mask_shr x _ 1 8) by (reflexivity || lia).
  rewrite (mask_byte x 0 ltac:(lia) : Z.land x 255 = _).
  rewrite Z.shiftl_shiftl, Z.shiftl_mul_pow2 by lia.
  change (8 * 1 - 8) with 0. change (8 * 0 + 8) with 8.
  rewrite Z.mul_1_r, lor_add by lia.
  unfold u16. rewrite Z.mod_small by lia. unfold byte_reverse. cbn.
  change (Z.of_nat 0) with 0. change (Z.of_nat 1) with 1. lia.
Qed.

Lemma lor_byte b c : is_u8 b -> is_u8 c -> is_u8 (Z.lor b c).
Proof.
  unfold is_u8. intros Hb Hc. split; [apply Z.lor_nonneg; lia|].
  replace (Z.lor b c) with (Z.lor b c mod 2 ^ 8); [by apply Z.mod_pos_bound|].
  rewrite <- Z.land_ones, Z.land_lor_distr_l, !Z.land_ones by lia.
  by rewrite !Z.mod_small by lia.
Qed.

(** Where the bytes of a 64-bit value end up: bytes 4 and 5 (counted from the
    least significant) are not moved to positions 3 and 2; byte 4 is or-ed into
    position 5 and byte 5 is lost. *)
Lemma bswap64_bytes x :
  bswap64 x =
  be_value [byte_of x 0; byte_of x 1; Z.lor (byte_of x 2) (byte_of x 4); byte_of x 3;
            0; 0; byte_of x 6; byte_of x 7].
Proof.
  unfold bswap64, u64.
  rewrite (mask_shl 64 x _ 0 56), (mask_shl 64 x _ 1 40), (mask_shl 64 x _ 2 24),
    (mask_shl 64 x _ 3 8), (mask_shl 64 x _ 4 8), (mask_out 64 x _ 5 24),
    (mask_shr x _ 6 40), (mask_shr x _ 7 56) by (reflexivity || lia).
  change (8 * 0 + 56) with 56. change (8 * 1 + 40) with 48. change (8 * 2 + 24) with 40.
  change (8 * 3 + 8) with 32. change (8 * 4 + 8) with 40. change (8 * 6 - 40) with 8.
  change (8 * 7 - 56) with 0. rewrite Z.lor_0_r, Z.mul_1_r.
  pose proof (byte_of_range x 0). pose proof (byte_of_range x 1).
  pose proof (byte_of_range x 3). pose proof (byte_of_range x 6).
  pose proof (byte_of_range x 7).
  pose proof (lor_byte _ _ (byte_of_range x 2) (byte_of_range x 4)) as Hl.
  unfold is_u8 in Hl.
  rewrite <- !Z.lor_assoc, (Z.lor_assoc (byte_of x 3 * _)),
    (Z.lor_comm (byte_of x 3 * _)), <- !Z.lor_assoc, (Z.lor_assoc (byte_of x 2 * _)).
  rewrite <- !(Z.shiftl_mul_pow2 _ 40), <- Z.shiftl_lor, Z.shiftl_mul_pow2 by lia.
  rewrite (lor_add _ 8), (lor_add _ 32), (lor_add _ 40), (lor_add _ 48), (lor_add _ 56) by lia.
  cbn. lia.
Qed.

(** Bswap16 and bswap32 reverse the bytes of their argument, and so are
    their own inverses on values of their width. *)
Theorem bswap_involutive :
  (forall x, bswap16 x = byte_reverse 2 x) /\ (forall x, bswap32 x = byte_reverse 4 x) /\
  (forall x, 0 <= x < 2 ^ 16 -> bswap16 (bswap16 x) = x) /\
  (forall x, 0 <= x < 2 ^ 32 -> bswap32 (bswap32 x) = x).
Proof.
  split; [exact bswap16_reverses|]. split; [exact bswap32_reverses|].
  split; intros x Hx; rewrite ?bswap16_reverses, ?bswap32_reverses;
    by apply byte_reverse_involutive.
Qed.

(** Bswap64 reverses the bytes of a 64-bit value exactly when the value's
    bytes 4 and 5 are zero: the source shifts these two bytes left where it
    should shift them right. *)
Theorem bswap64_reverses_iff x :
  bswap64 x = byte_reverse 8 x <-> byte_of x 4 = 0 /\ byte_of x 5 = 0.
Proof.
  pose proof (byte_of_range x) as Hr. rewrite bswap64_bytes. unfold byte_reverse.
  change (rev (be_bytes 8 x)) with
    [byte_of x 0; byte_of x 1; byte_of x 2; byte_of x 3;
     byte_of x 4; byte_of x 5; byte_of x 6; byte_of x 7]. split.
  - intros Heq. apply (f_equal (be_bytes 8)) in Heq.
    rewrite (be_bytes_value [_; _; _; _; _; _; _; _]) in Heq.
    2: { repeat constructor; try apply Hr; try apply lor_byte; try apply Hr; done. }
    rewrite (be_bytes_value [_; _; _; _; _; _; _; _]) in Heq.
    2: { repeat constructor; apply Hr. }
    by simplify_eq.
  - intros [-> ->]. by rewrite Z.lor_0_r.
Qed.

(** [join32to64] and [split64to32] are inverse bijections between pairs of
    32-bit registers and 64-bit values. *)
Theorem join_split_roundtrip :
  (forall x1 x2, is_u32 x1 -> is_u32 x2 ->
     is_u64 (join32to64 x1 x2) /\ split64to32 (join32to64 x1 x2) = (x1, x2)) /\
  (forall x, is_u64 x ->
     let (y1, y2) := split64to32 x in
     is_u32 y1 /\ is_u32 y2 /\ join32to64 y1 y2 = x).
Proof.
  split.
  - intros x1 x2 H1 H2. unfold join32to64, split64to32, u64.
    rewrite Z.shiftl_mul_pow2, (Z.mod_small (x1 * 2 ^ 32)), lor_add by width_lia.
    split; [width_lia|]. f_equal.
    + rewrite Z.shiftr_div_pow2 by lia. width_lia.
    + change 0xffffffff with (Z.ones 32). rewrite Z.land_ones by lia. width_lia.
  - intros x Hx. unfold join32to64, split64to32, u64.
    split; [apply u32_range|]. split; [apply u32_range|].
    change 0xffffffff with (Z.ones 32). rewrite Z.land_ones by lia.
    rewrite Z.shiftr_div_pow2, Z.shiftl_mul_pow2 by lia.
    rewrite (Z.mod_small (_ * _)), lor_add by width_lia. width_lia.
Qed.

End Bswap.
