(* ===== verification/Bitmap.v ===== *)
(** * Fixed-size bitmaps ([src/kern/lib/bitmap.c])

    The bitmap is an array of bytes; bits past the end are marked in use when
    it is created.  The operations run in the kernel monad on the bitmap
    object; [KASSERT] failures and accesses outside the array are faults. *)

From S2P Require Import Prelude Kern.
Open Scope Z_scope.

Module Bitmap.

Definition BITS_PER_WORD : Z := 8.
Definition WORD_ALLBITS : Z := 0xff.

(** struct bitmap *)
Record bitmap := Bm { nbits : Z; v : list Z }.

(** DIVROUNDUP on 32-bit unsigned values. *)
Definition divroundup (a b : Z) : Z := u32 (a + b - 1) / b.

Definition read_word (ix : Z) : M bitmap Z :=
  b ← get; deref FBounds (v b !! Z.to_nat ix).

Definition write_word (ix w : Z) : M bitmap unit :=
  modify (fun b => Bm (nbits b) (<[Z.to_nat ix := w]> (v b))).

(** The loop of bitmap_create that marks the leftover bits of the last word. *)
Definition mark_leftover (overbits w : Z) : Z :=
  foldl (fun w j => Z.lor w (u8 (Z.shiftl 1 j))) w (seqZ overbits (BITS_PER_WORD - overbits)).

(** The part of bitmap_create that follows the two allocations: clear the words
    and mark any leftover bits at the end in use. *)
Definition bitmap_fill {S} (nb words : Z) : M S bitmap :=
  let zeros := replicate (Z.to_nat words) 0 in
  if words >? nb / BITS_PER_WORD then
    let ix := words - 1 in
    let overbits := nb - ix * BITS_PER_WORD in
    kassert (nb / BITS_PER_WORD =? words - 1) ;;
    kassert ((overbits >? 0) && (overbits <? BITS_PER_WORD)) ;;
    mret (Bm nb (<[Z.to_nat ix := mark_leftover overbits 0]> zeros))
  else mret (Bm nb zeros).

(** struct bitmap *bitmap_create(unsigned nbits); [None] is NULL. *)
Definition bitmap_create {S} `{HasAlloc S} (nb : Z) : M S (option bitmap) :=
  let words := divroundup nb BITS_PER_WORD in
  ok ← kmalloc;
  if negb ok then mret None else
  ok ← kmalloc;
  if negb ok then mret None else
  b ← bitmap_fill nb words;
  mret (Some b).

(** void *bitmap_getdata(struct bitmap *b) *)
Definition bitmap_getdata (b : bitmap) : list Z := v b.

(** The inner loop of bitmap_alloc: the first offset whose bit is clear. *)
Fixpoint alloc_offset (w : Z) (offsets : list Z) : option Z :=
  match offsets with
  | [] => None
  | offset :: rest =>
      let mask := u8 (Z.shiftl 1 offset) in
      if Z.land w mask =? 0 then Some offset else alloc_offset w rest
  end.

(** The outer loop of bitmap_alloc, from word [ix], [n] words to go. *)
Fixpoint alloc_from (n : nat) (ix : Z) : M bitmap (res Z) :=
  match n with
  | O => mret (Err ENOSPC)
  | S n' =>
      w ← read_word ix;
      if w =? WORD_ALLBITS then alloc_from n' (ix + 1) else
      match alloc_offset w (seqZ 0 BITS_PER_WORD) with
      | Some offset =>
          write_word ix (Z.lor w (u8 (Z.shiftl 1 offset))) ;;
          let index := ix * BITS_PER_WORD + offset in
          b ← get;
          kassert (index <? nbits b) ;;
          mret (Done index)
      | None => raise FPanic
      end
  end.

(** int bitmap_alloc(struct bitmap *b, unsigned *index) *)
Definition bitmap_alloc : M bitmap (res Z) :=
  b ← get;
  alloc_from (Z.to_nat (divroundup (nbits b) BITS_PER_WORD)) 0.

(** void bitmap_translate(unsigned bitno, unsigned *ix, WORD_TYPE *mask) *)
Definition bitmap_translate (bitno : Z) : Z * Z :=
  (bitno / BITS_PER_WORD, u8 (Z.shiftl 1 (bitno mod BITS_PER_WORD))).

(** void bitmap_mark(struct bitmap *b, unsigned index) *)
Definition bitmap_mark (index : Z) : M bitmap unit :=
  b ← get;
  kassert (index <? nbits b) ;;
  let (ix, mask) := bitmap_translate index in
  w ← read_word ix;
  kassert (Z.land w mask =? 0) ;;
  write_word ix (Z.lor w mask).

(** void bitmap_unmark(struct bitmap *b, unsigned index); [~mask] in a byte. *)
Definition bitmap_unmark (index : Z) : M bitmap unit :=
  b ← get;
  kassert (index <? nbits b) ;;
  let (ix, mask) := bitmap_translate index in
  w ← read_word ix;
  kassert (negb (Z.land w mask =? 0)) ;;
  write_word ix (Z.land w (u8 (Z.lnot mask))).

(** int bitmap_isset(struct bitmap *b, unsigned index) *)
Definition bitmap_isset (index : Z) : M bitmap Z :=
  let (ix, mask) := bitmap_translate index in
  w ← read_word ix;
  mret (Z.land w mask).

(** ** Abstraction: which indices are marked *)

Definition marked (b : bitmap) (i : Z) : bool :=
  match v b !! Z.to_nat (i / 8) with
  | Some w => Z.testbit w (i mod 8)
  | None => false
  end.

Definition nwords (b : bitmap) : Z := (nbits b + 7) / 8.

(** Well-formedness: as many bytes as needed, each a byte, and every bit past
    the end marked. *)
Record wf (b : bitmap) : Prop := Wf {
  wf_nbits : 0 <= nbits b < 2 ^ 32 - 8;
  wf_length : Z.of_nat (length (v b)) = nwords b;
  wf_bytes : Forall is_u8 (v b);
  wf_leftover : forall i, nbits b <= i < 8 * nwords b -> marked b i = true
}.

(** ** Bytes and masks *)

Lemma mask_pow2 k : 0 <= k < 8 -> u8 (Z.shiftl 1 k) = 2 ^ k.
Proof.
  intros Hk. rewrite Z.shiftl_1_l. apply Z.mod_small.
  split; [lia|]. apply Z.pow_lt_mono_r; lia.
Qed.

Lemma land_pow2_zero w k : 0 <= k -> (Z.land w (2 ^ k) =? 0) = negb (Z.testbit w k).
Proof.
  intros Hk. destruct (Z.testbit w k) eqn:E; simpl.
  - apply Z.eqb_neq. intros H. apply (f_equal (fun z => Z.testbit z k)) in H.
    rewrite Z.land_spec, Z.pow2_bits_true, E, Z.bits_0 in H by lia. done.
  - apply Z.eqb_eq, Z.bits_inj'. intros i Hi.
    rewrite Z.land_spec, Z.pow2_bits_eqb, Z.bits_0 by lia.
    destruct (Z.eqb_spec k i); [subst; by rewrite E|apply Bool.andb_false_r].
Qed.

Lemma lor_pow2_bit w k i : 0 <= k -> 0 <= i ->
  Z.testbit (Z.lor w (2 ^ k)) i = Z.testbit w i || (k =? i).
Proof. intros. by rewrite Z.lor_spec, Z.pow2_bits_eqb by lia. Qed.

Lemma clear_pow2_bit w k i : 0 <= k < 8 -> 0 <= i < 8 ->
  Z.testbit (Z.land w (u8 (Z.lnot (2 ^ k)))) i = Z.testbit w i && negb (k =? i).
Proof.
  intros. unfold u8. rewrite Z.land_spec, Z.mod_pow2_bits_low, Z.lnot_spec,
    Z.pow2_bits_eqb by lia. done.
Qed.

Lemma byte_bit_high w i : is_u8 w -> 8 <= i -> Z.testbit w i = false.
Proof.
  intros Hw Hi. rewrite <- (Z.mod_small w (2 ^ 8)) by exact Hw.
  apply Z.mod_pow2_bits_high. lia.
Qed.

Lemma byte_of_bits w : 0 <= w -> (forall i, 8 <= i -> Z.testbit w i = false) -> is_u8 w.
Proof.
  intros Hw Hb. unfold is_u8.
  replace w with (w mod 2 ^ 8); [by apply Z.mod_pos_bound|].
  apply Z.bits_inj'. intros i Hi. destruct (Z.lt_ge_cases i 8).
  - by rewrite Z.mod_pow2_bits_low by lia.
  - rewrite Z.mod_pow2_bits_high by lia. symmetry. by apply Hb.
Qed.

Lemma byte_lor_pow2 w k : is_u8 w -> 0 <= k < 8 -> is_u8 (Z.lor w (2 ^ k)).
Proof.
  intros Hw Hk. apply byte_of_bits; [apply Z.lor_nonneg; unfold is_u8 in Hw; lia|].
  intros i Hi. rewrite lor_pow2_bit, byte_bit_high by (done || lia).
  simpl. apply Z.eqb_neq. lia.
Qed.

Lemma byte_land w m : is_u8 w -> 0 <= m -> is_u8 (Z.land w m).
Proof.
  intros Hw Hm. apply byte_of_bits; [apply Z.land_nonneg; unfold is_u8 in Hw; lia|].
  intros i Hi. by rewrite Z.land_spec, byte_bit_high by (done || lia).
Qed.

Lemma allbits_iff w : is_u8 w ->
  w = WORD_ALLBITS <-> forall k, 0 <= k < 8 -> Z.testbit w k = true.
Proof.
  intros Hw. split.
  - intros -> k Hk. change WORD_ALLBITS with (Z.ones 8). by apply Z.ones_spec_low.
  - intros Hb. apply Z.bits_inj'. intros i Hi. change WORD_ALLBITS with (Z.ones 8).
    destruct (Z.lt_ge_cases i 8).
    + by rewrite Hb, Z.ones_spec_low by lia.
    + by rewrite byte_bit_high, Z.ones_spec_high by (done || lia).
Qed.

(** ** Words of a bitmap and marked indices *)

Lemma divroundup_nwords b : 0 <= nbits b < 2 ^ 32 - 8 -> divroundup (nbits b) 8 = nwords b.
Proof. intros H. unfold divroundup, nwords. rewrite u32_id; [f_equal; lia|width_lia]. Qed.

Lemma word_lookup b ix : wf b -> 0 <= ix < nwords b ->
  exists w, v b !! Z.to_nat ix = Some w /\ is_u8 w /\
    forall k, 0 <= k < 8 -> marked b (8 * ix + k) = Z.testbit w k.
Proof.
  intros Hwf Hix. destruct (lookup_lt_is_Some_2 (v b) (Z.to_nat ix)) as [w Hw].
  { pose proof (wf_length b Hwf). lia. }
  exists w. split; [done|]. split.
  - by eapply Forall_lookup_1; [apply wf_bytes|].
  - intros k Hk. unfold marked.
    replace ((8 * ix + k) / 8) with ix by (Z.div_mod_to_equations; lia).
    replace ((8 * ix + k) mod 8) with k by (Z.div_mod_to_equations; lia).
    by rewrite Hw.
Qed.

Lemma marked_write nb vs ix w i : (Z.to_nat ix < length vs)%nat -> 0 <= ix -> 0 <= i ->
  marked (Bm nb (<[Z.to_nat ix := w]> vs)) i =
  if i / 8 =? ix then Z.testbit w (i mod 8) else marked (Bm nb vs) i.
Proof.
  intros Hlt Hix Hi. unfold marked. simpl.
  destruct (Z.eqb_spec (i / 8) ix) as [->|Hne].
  - by rewrite list_lookup_insert_eq.
  - rewrite list_lookup_insert_ne; [done|]. Z.div_mod_to_equations; lia.
Qed.

Lemma index_word b i : wf b -> 0 <= i < nbits b -> 0 <= i / 8 < nwords b.
Proof. intros Hwf Hi. unfold nwords. Z.div_mod_to_equations; lia. Qed.

Lemma index_split i : i = 8 * (i / 8) + i mod 8 /\ 0 <= i mod 8 < 8.
Proof. Z.div_mod_to_equations; lia. Qed.

(** Storing a byte that differs from the old one in bit [k] only changes the
    mark of one index, and keeps the bitmap well formed. *)
Lemma wf_write b ix k w w' (f : bool -> bool) :
  wf b -> v b !! Z.to_nat ix = Some w -> 0 <= ix -> 0 <= k < 8 -> is_u8 w' ->
  8 * ix + k < nbits b ->
  (forall j, 0 <= j < 8 -> Z.testbit w' j = if k =? j then f (Z.testbit w j) else Z.testbit w j) ->
  wf (Bm (nbits b) (<[Z.to_nat ix := w']> (v b))) /\
  forall i, 0 <= i -> marked (Bm (nbits b) (<[Z.to_nat ix := w']> (v b))) i =
    if i =? 8 * ix + k then f (marked b i) else marked b i.
Proof.
  intros Hwf Hw Hix Hk Hw' Hlt Hbits. pose proof (lookup_lt_Some _ _ _ Hw) as Hlen.
  assert (forall i, 0 <= i -> marked (Bm (nbits b) (<[Z.to_nat ix := w']> (v b))) i =
    if i =? 8 * ix + k then f (marked b i) else marked b i) as Hm.
  { intros i Hi. rewrite marked_write by done. destruct (index_split i) as [Hs Hmod].
    destruct (Z.eqb_spec (i / 8) ix) as [He|Hne].
    - rewrite Hbits by done. unfold marked. rewrite He, Hw.
      destruct (Z.eqb_spec k (i mod 8)), (Z.eqb_spec i (8 * ix + k)); try done; lia.
    - destruct (Z.eqb_spec i (8 * ix + k)); [lia|]. by destruct b. }
  split; [|done]. split; simpl.
  - apply Hwf.
  - rewrite length_insert. apply (wf_length b Hwf).
  - apply Forall_insert; [apply (wf_bytes b Hwf)|done].
  - intros i Hi. pose proof (wf_nbits b Hwf). rewrite Hm by lia.
    destruct (Z.eqb_spec i (8 * ix + k)); [lia|]. by apply (wf_leftover b Hwf).
Qed.

(** ** Allocation *)

Lemma alloc_offset_spec w l :
  Forall (fun k => 0 <= k < 8) l ->
  match alloc_offset w l with
  | Some k => exists pre post, l = pre ++ k :: post /\ Z.testbit w k = false /\
                Forall (fun j => Z.testbit w j = true) pre
  | None => Forall (fun j => Z.testbit w j = true) l
  end.
Proof.
  induction 1 as [|k l Hk _ IH]; simpl; [constructor|].
  rewrite mask_pow2, land_pow2_zero by lia. destruct (Z.testbit w k) eqn:E; simpl.
  - destruct (alloc_offset w l) as [k'|].
    + destruct IH as (pre & post & -> & Hk' & Hpre). exists (k :: pre), post. auto.
    + auto.
  - exists [], l. auto.
Qed.

Lemma seqZ8 : seqZ 0 BITS_PER_WORD = [0; 1; 2; 3; 4; 5; 6; 7].
Proof. reflexivity. Qed.

(** The first clear bit of a byte that is not full. *)
Lemma alloc_offset_first w : is_u8 w -> w <> WORD_ALLBITS ->
  exists k, alloc_offset w (seqZ 0 BITS_PER_WORD) = Some k /\ 0 <= k < 8 /\
    Z.testbit w k = false /\ forall j, 0 <= j < k -> Z.testbit w j = true.
Proof.
  intros Hw Hne. pose proof (alloc_offset_spec w (seqZ 0 BITS_PER_WORD)) as H.
  assert (forall j, j ∈ seqZ 0 BITS_PER_WORD <-> 0 <= j < 8) as Hin.
  { intros j. rewrite elem_of_seqZ. unfold BITS_PER_WORD. lia. }
  specialize (H ltac:(apply Forall_forall; intros; by apply Hin)).
  destruct (alloc_offset w (seqZ 0 BITS_PER_WORD)) as [k|] eqn:E.
  - destruct H as (pre & post & Hl & Hk & Hpre).
    exists k. split; [done|]. split; [apply Hin; rewrite Hl; set_solver|].
    split; [done|]. intros j Hj.
    assert (j ∈ pre) as Hjp; [|by eapply Forall_forall in Hpre].
    assert (k = Z.of_nat (length pre)) as Hkl.
    { assert (seqZ 0 BITS_PER_WORD !! length pre = Some k) as Hlk
        by (rewrite Hl; by apply list_lookup_middle).
      apply lookup_seqZ in Hlk. lia. }
    assert (pre !! Z.to_nat j = Some j) as Hlj.
    { rewrite <- (lookup_app_l pre (k :: post)), <- Hl by lia.
      apply lookup_seqZ. unfold BITS_PER_WORD.
      assert (length pre < 8)%nat; [|lia].
      apply (f_equal length) in Hl. rewrite seqZ8, length_app in Hl. simpl in Hl. lia. }
    by eapply list_elem_of_lookup_2.
  - exfalso. apply Hne, allbits_iff; [done|]. intros j Hj.
    eapply Forall_forall in H; [done|]. by apply Hin.
Qed.

(** What a successful or failed allocation means for the set of marks. *)
Definition alloc_post (b : bitmap) (r : res Z) (b' : bitmap) : Prop :=
  wf b' /\ nbits b' = nbits b /\
  match r with
  | Done i => 0 <= i < nbits b /\ marked b i = false /\
      (forall j, 0 <= j < i -> marked b j = true) /\
      (forall j, 0 <= j -> marked b' j = if j =? i then true else marked b j)
  | Err e => e = ENOSPC /\ b' = b /\ forall j, 0 <= j < nbits b -> marked b j = true
  end.

Lemma alloc_from_spec n b ix :
  wf b -> 0 <= ix -> ix + Z.of_nat n = nwords b ->
  (forall j, 0 <= j < 8 * ix -> marked b j = true) ->
  wp (alloc_from n ix) (alloc_post b) b.
Proof.
  intros Hwf. revert ix. induction n as [|n IH]; intros ix Hix Hn Hfull; cbn [alloc_from].
  - apply wp_ret. split; [done|]. split; [done|]. split; [done|]. split; [done|].
    intros j Hj. apply Hfull. unfold nwords in Hn. Z.div_mod_to_equations; lia.
  - destruct (word_lookup b ix Hwf ltac:(lia)) as (w & Hw & Hbyte & Hbits).
    unfold read_word. rewrite !wp_bind, wp_get, wp_deref. exists w. split; [done|].
    destruct (Z.eqb_spec w WORD_ALLBITS) as [Hall|Hnall].
    + apply IH; [lia|lia|]. intros j Hj.
      destruct (Z.lt_ge_cases j (8 * ix)); [apply Hfull; lia|].
      replace j with (8 * ix + (j - 8 * ix)) by lia. rewrite Hbits by lia.
      apply allbits_iff; [done|done|lia].
    + destruct (alloc_offset_first w Hbyte Hnall) as (k & -> & Hk & Hclear & Hlow).
      assert (marked b (8 * ix + k) = false) as Hfree by (rewrite Hbits by lia; done).
      assert (8 * ix + k < nbits b) as Hin.
      { destruct (Z.lt_ge_cases (8 * ix + k) (nbits b)); [done|].
        rewrite (wf_leftover b Hwf) in Hfree; [done|]. lia. }
      rewrite mask_pow2 by lia.
      destruct (wf_write b ix k w (Z.lor w (2 ^ k)) (fun _ => true) Hwf Hw Hix Hk)
        as [Hwf' Hm]; [by apply byte_lor_pow2|done| |].
      { intros j Hj. rewrite lor_pow2_bit by lia.
        destruct (k =? j); [apply Bool.orb_true_r|apply Bool.orb_false_r]. }
      unfold write_word. rewrite wp_bind, wp_modify, wp_bind, wp_get, wp_bind, wp_kassert.
      cbn [nbits]. unfold BITS_PER_WORD. rewrite Z.mul_comm.
      split; [apply Z.ltb_lt; lia|]. apply wp_ret.
      split; [done|]. split; [done|]. split; [lia|]. split; [done|]. split; [|exact Hm].
      intros j Hj. destruct (Z.lt_ge_cases j (8 * ix)); [apply Hfull; lia|].
      replace j with (8 * ix + (j - 8 * ix)) by lia. rewrite Hbits by lia.
      apply Hlow. lia.
Qed.

(** On a well-formed bitmap [bitmap_alloc] never panics and is a first-fit
    allocator: it returns the least unmarked index and marks it and nothing
    else, or reports ENOSPC, changing nothing, exactly when every index is
    marked. *)
Theorem bitmap_alloc_first_fit b : wf b -> wp bitmap_alloc (alloc_post b) b.
Proof.
  intros Hwf. unfold bitmap_alloc. rewrite wp_bind, wp_get.
  rewrite divroundup_nwords by apply Hwf.
  pose proof (wf_nbits b Hwf). assert (0 <= nwords b) by (unfold nwords; Z.div_mod_to_equations; lia).
  apply alloc_from_spec; [done|lia|lia|]. intros; lia.
Qed.

(** ** Marking, unmarking, testing *)

(** The word and bit that [bitmap_translate] designates. *)
Lemma translate_spec b i : wf b -> 0 <= i < nbits b ->
  exists w, bitmap_translate i = (i / 8, 2 ^ (i mod 8)) /\
    v b !! Z.to_nat (i / 8) = Some w /\ is_u8 w /\ 0 <= i / 8 /\ 0 <= i mod 8 < 8 /\
    Z.testbit w (i mod 8) = marked b i /\ (i <? nbits b) = true.
Proof.
  intros Hwf Hi. destruct (index_split i) as [Hs Hmod].
  pose proof (index_word b i Hwf Hi) as Hix.
  destruct (word_lookup b (i / 8) Hwf Hix) as (w & Hw & Hbyte & Hbits).
  exists w. unfold bitmap_translate. rewrite mask_pow2 by done.
  split; [done|]. split; [done|]. split; [done|]. split; [lia|]. split; [done|].
  split; [rewrite <- Hbits by done; by rewrite <- Hs|]. apply Z.ltb_lt. lia.
Qed.

Definition set_mark_post (b : bitmap) (i : Z) (x : bool) (b' : bitmap) : Prop :=
  wf b' /\ nbits b' = nbits b /\
  forall j, 0 <= j -> marked b' j = if j =? i then x else marked b j.

Lemma bitmap_mark_spec b i : wf b -> 0 <= i < nbits b ->
  if marked b i then bitmap_mark i b = Fault FPanic
  else wp (bitmap_mark i) (fun _ => set_mark_post b i true) b.
Proof.
  intros Hwf Hi. destruct (translate_spec b i Hwf Hi) as (w & Ht & Hw & Hb & H0 & Hk & Hm & Hlt).
  pose proof (proj1 (index_split i)) as Hs.
  unfold bitmap_mark, read_word, write_word. rewrite Ht. destruct (marked b i) eqn:E.
  - unfold mbind, M_bind, get, kassert, deref. rewrite Hlt. simpl.
    by rewrite Hw, land_pow2_zero, Hm by lia.
  - rewrite wp_bind, wp_get, wp_bind, wp_kassert. split; [done|].
    rewrite !wp_bind, wp_get, wp_deref. exists w. split; [done|].
    rewrite wp_bind, wp_kassert, land_pow2_zero, Hm by lia. split; [done|]. apply wp_modify.
    destruct (wf_write b (i / 8) (i mod 8) w (Z.lor w (2 ^ (i mod 8))) (fun _ => true)
      Hwf Hw H0 Hk) as [Hwf' Hm']; [by apply byte_lor_pow2|lia| |by rewrite <- Hs in Hm'].
    intros j Hj. rewrite lor_pow2_bit by lia.
    destruct (_ =? j); [apply Bool.orb_true_r|apply Bool.orb_false_r].
Qed.

Lemma bitmap_unmark_spec b i : wf b -> 0 <= i < nbits b ->
  if marked b i then wp (bitmap_unmark i) (fun _ => set_mark_post b i false) b
  else bitmap_unmark i b = Fault FPanic.
Proof.
  intros Hwf Hi. destruct (translate_spec b i Hwf Hi) as (w & Ht & Hw & Hb & H0 & Hk & Hm & Hlt).
  pose proof (proj1 (index_split i)) as Hs.
  unfold bitmap_unmark, read_word, write_word. rewrite Ht. destruct (marked b i) eqn:E.
  - rewrite wp_bind, wp_get, wp_bind, wp_kassert. split; [done|].
    rewrite !wp_bind, wp_get, wp_deref. exists w. split; [done|].
    rewrite wp_bind, wp_kassert, land_pow2_zero, Hm by lia. split; [done|]. apply wp_modify.
    destruct (wf_write b (i / 8) (i mod 8) w (Z.land w (u8 (Z.lnot (2 ^ (i mod 8)))))
      (fun _ => false) Hwf Hw H0 Hk) as [Hwf' Hm']; [|lia| |by rewrite <- Hs in Hm'].
    { apply byte_land; [done|]. apply Z.mod_pos_bound. lia. }
    intros j Hj. rewrite clear_pow2_bit by lia.
    destruct (_ =? j); [apply Bool.andb_false_r|apply Bool.andb_true_r].
  - unfold mbind, M_bind, get, kassert, deref. rewrite Hlt. simpl.
    by rewrite Hw, land_pow2_zero, Hm by lia.
Qed.

(** Within range, [bitmap_mark] and [bitmap_unmark] change exactly the mark
    of their index, and panic exactly when the index is already in the
    requested state; [bitmap_isset] is nonzero exactly for marked indices. *)
Theorem bitmap_mark_unmark b i : wf b -> 0 <= i < nbits b ->
  (if marked b i then bitmap_mark i b = Fault FPanic
   else wp (bitmap_mark i) (fun _ => set_mark_post b i true) b) /\
  (if marked b i then wp (bitmap_unmark i) (fun _ => set_mark_post b i false) b
   else bitmap_unmark i b = Fault FPanic) /\
  wp (bitmap_isset i) (fun r b' => b' = b /\ (r =? 0) = negb (marked b i)) b.
Proof.
  intros Hwf Hi. split; [by apply bitmap_mark_spec|]. split; [by apply bitmap_unmark_spec|].
  destruct (translate_spec b i Hwf Hi) as (w & Ht & Hw & _ & _ & Hk & Hm & _).
  unfold bitmap_isset, read_word. rewrite Ht, !wp_bind, wp_get, wp_deref.
  exists w. split; [done|]. apply wp_ret. by rewrite land_pow2_zero, Hm by lia.
Qed.

(** ** Creation *)

Lemma mark_leftover_bits o j : 0 < o < 8 -> 0 <= j < 8 ->
  is_u8 (mark_leftover o 0) /\ Z.testbit (mark_leftover o 0) j = (o <=? j).
Proof.
  intros Ho Hj.
  assert (o = 1 \/ o = 2 \/ o = 3 \/ o = 4 \/ o = 5 \/ o = 6 \/ o = 7)
    as [->|[->|[->|[->|[->|[->| ->]]]]]] by lia;
  (split; [vm_compute; split; congruence|]);
  assert (j = 0 \/ j = 1 \/ j = 2 \/ j = 3 \/ j = 4 \/ j = 5 \/ j = 6 \/ j = 7)
    as [->|[->|[->|[->|[->|[->|[->| ->]]]]]]] by lia; reflexivity.
Qed.

Lemma marked_zeros nb n i : marked (Bm nb (replicate n 0)) i = false.
Proof.
  unfold marked. simpl. destruct (replicate n 0 !! _) eqn:E; [|done].
  apply lookup_replicate in E as [-> _]. apply Z.bits_0.
Qed.

Lemma kmalloc_ok {S} `{HasAlloc S} (s : S) : exists b s', kmalloc s = Ok b s'.
Proof. unfold kmalloc. destruct (allocs s); eauto. Qed.

(** The bitmap a successful [bitmap_create] builds. *)
Lemma create_wf nb (q := nb / 8) (r := nb mod 8) : 0 <= nb < 2 ^ 32 - 8 ->
  let b := if r =? 0 then Bm nb (replicate (Z.to_nat q) 0)
           else Bm nb (<[Z.to_nat q := mark_leftover r 0]> (replicate (Z.to_nat (q + 1)) 0)) in
  wf b /\ forall i, 0 <= i < nb -> marked b i = false.
Proof.
  intros Hnb. subst q r. destruct (Z.eqb_spec (nb mod 8) 0) as [Hr|Hr]; cbv zeta.
  - split; [|intros; apply marked_zeros]. split; simpl; [done| | |].
    + rewrite length_replicate. unfold nwords. simpl. Z.div_mod_to_equations; lia.
    + by apply Forall_replicate.
    + unfold nwords. simpl. intros i Hi. exfalso. Z.div_mod_to_equations; lia.
  - assert (forall i, 0 <= i < 8 * (nb / 8 + 1) ->
      marked (Bm nb (<[Z.to_nat (nb / 8) := mark_leftover (nb mod 8) 0]>
                (replicate (Z.to_nat (nb / 8 + 1)) 0))) i = (nb <=? i)) as Hm.
    { intros i Hi. rewrite marked_write;
        [|rewrite length_replicate; Z.div_mod_to_equations; lia|Z.div_mod_to_equations; lia|lia].
      rewrite marked_zeros. destruct (Z.eqb_spec (i / 8) (nb / 8)) as [He|He].
      - destruct (mark_leftover_bits (nb mod 8) (i mod 8)) as [_ ->];
          [Z.div_mod_to_equations; lia|Z.div_mod_to_equations; lia|].
        apply Bool.eq_true_iff_eq. rewrite !Z.leb_le. Z.div_mod_to_equations; lia.
      - symmetry. apply Z.leb_gt. Z.div_mod_to_equations; lia. }
    split; [split; simpl; [done| | |]|].
    + rewrite length_insert, length_replicate. unfold nwords. simpl. Z.div_mod_to_equations; lia.
    + apply Forall_insert; [by apply Forall_replicate|].
      apply (mark_leftover_bits (nb mod 8) 0); Z.div_mod_to_equations; lia.
    + unfold nwords. simpl. intros i Hi. rewrite Hm; [apply Z.leb_le; lia|].
      Z.div_mod_to_equations; lia.
    + intros i Hi. rewrite Hm; [apply Z.leb_gt; lia|]. Z.div_mod_to_equations; lia.
Qed.

Lemma bitmap_fill_spec {S} nb (s : S) : 0 <= nb < 2 ^ 32 - 8 ->
  exists b, bitmap_fill nb (divroundup nb BITS_PER_WORD) s = Ok b s /\
    wf b /\ nbits b = nb /\ forall i, 0 <= i < nb -> marked b i = false.
Proof.
  intros Hnb. pose proof (create_wf nb Hnb) as Hc. cbv zeta in Hc.
  assert (divroundup nb BITS_PER_WORD = nb / 8 + (if nb mod 8 =? 0 then 0 else 1)) as ->.
  { unfold divroundup, BITS_PER_WORD. rewrite u32_id by width_lia.
    destruct (Z.eqb_spec (nb mod 8) 0); Z.div_mod_to_equations; lia. }
  unfold bitmap_fill, BITS_PER_WORD. cbv zeta.
  destruct (Z.eqb_spec (nb mod 8) 0) as [Hr|Hr]; destruct Hc as [Hwf Hz].
  - rewrite Z.add_0_r. destruct (Z.gtb_spec (nb / 8) (nb / 8)); [lia|].
    eauto.
  - destruct (Z.gtb_spec (nb / 8 + 1) (nb / 8)); [|lia].
    replace (nb / 8 + 1 - 1) with (nb / 8) by lia. rewrite Z.eqb_refl.
    replace (nb - nb / 8 * 8) with (nb mod 8) by (Z.div_mod_to_equations; lia).
    replace ((nb mod 8 >? 0) && (nb mod 8 <? 8)) with true; [simpl; eauto|].
    symmetry. apply andb_true_intro.
    split; [apply Z.gtb_lt|apply Z.ltb_lt]; Z.div_mod_to_equations; lia.
Qed.

(** For every size below 2^32-8, [bitmap_create] never panics; it returns
    NULL exactly when one of its two allocations fails, and otherwise a
    well-formed bitmap of that size with no index marked. *)
Theorem bitmap_create_empty (nb : Z) (s : list bool) : 0 <= nb < 2 ^ 32 - 8 ->
  wp (bitmap_create nb)
     (fun r _ => match r with
        | Some b => (false ∉ take 2 s) /\ wf b /\ nbits b = nb /\
                    forall i, 0 <= i < nb -> marked b i = false
        | None => false ∈ take 2 s
        end) s.
Proof.
  intros Hnb. unfold bitmap_create, wp, mbind, M_bind, kmalloc.
  destruct s as [|[] [|[] s]]; simpl; try set_solver;
    match goal with |- context [bitmap_fill _ _ ?s'] =>
      destruct (bitmap_fill_spec nb s' Hnb) as (b & -> & Hb) end; set_solver.
Qed.

(** ** Concrete instances *)

Lemma bitmap_witness_wf : wf (Bm 10 [0x0f; 0xfc]).
Proof.
  split; simpl; [lia|reflexivity|repeat constructor; unfold is_u8; lia|].
  intros i Hi. assert (i = 10 \/ i = 11 \/ i = 12 \/ i = 13 \/ i = 14 \/ i = 15)
    as [->|[->|[->|[->|[->| ->]]]]] by (change (nwords _) with 2 in Hi; lia); reflexivity.
Qed.

Lemma bitmap_alloc_first_fit_witness :
  wp bitmap_alloc (fun r b' => r = Done 4 /\ v b' = [0x1f; 0xfc]) (Bm 10 [0x0f; 0xfc]) /\
  wp bitmap_alloc (alloc_post (Bm 10 [0x0f; 0xfc])) (Bm 10 [0x0f; 0xfc]).
Proof. split; [split; reflexivity|]. apply bitmap_alloc_first_fit, bitmap_witness_wf. Defined.

Lemma bitmap_mark_unmark_witness :
  (if marked (Bm 10 [0x0f; 0xfc]) 9 then bitmap_mark 9 (Bm 10 [0x0f; 0xfc]) = Fault FPanic
   else wp (bitmap_mark 9) (fun _ => set_mark_post (Bm 10 [0x0f; 0xfc]) 9 true)
          (Bm 10 [0x0f; 0xfc])) /\ marked (Bm 10 [0x0f; 0xfc]) 9 = false.
Proof.
  split; [|reflexivity].
  apply (bitmap_mark_unmark (Bm 10 [0x0f; 0xfc]) 9); [apply bitmap_witness_wf|simpl; lia].
Defined.

Lemma bitmap_create_empty_witness :
  wp (bitmap_create 10)
     (fun r _ => match r with
        | Some b => (false ∉ take 2 [true; true]) /\ wf b /\ nbits b = 10 /\
                    forall i, 0 <= i < 10 -> marked b i = false
        | None => false ∈ take 2 [true; true]
        end) [true; true].
Proof. apply bitmap_create_empty. lia. Defined.

End Bitmap.
