(* ===== verification/Array.v ===== *)
(** * Resizable arrays: [src/kern/lib/array.c], [src/kern/include/array.h]

    An array of pointers with a capacity that doubles.  An element that was
    never written is [None]. *)

From S2P Require Import Prelude Kern.
Open Scope Z_scope.

Module Array.

(** struct array: [v] has [max] cells. *)
Record array (A : Type) := Arr { arr_v : list (option A); arr_num : Z; arr_max : Z }.
Arguments Arr {A}. Arguments arr_v {A}. Arguments arr_num {A}. Arguments arr_max {A}.

(** The while loop of array_preallocate, on 32-bit unsigned numbers. *)
Fixpoint grow (fuel : nat) (num newmax : Z) : option Z :=
  if num >? newmax then
    match fuel with
    | O => None
    | S fuel' => grow fuel' num (if newmax =? 0 then 4 else u32 (newmax * 2))
    end
  else Some newmax.

Section Ops.
Context {A St : Type} `{HasAlloc St}.

(** void array_init(struct array *a) *)
Definition array_init : array A := Arr [] 0 0.

(** struct array *array_create(void) *)
Definition array_create : M St (option (array A)) :=
  ok ← kmalloc;
  mret (if (ok : bool) then Some array_init else None).

(** void array_cleanup(struct array *a), with the assertion that the array is
    empty; array_destroy also frees the structure. *)
Definition array_cleanup (a : array A) : M St unit := kassert (arr_num a =? 0).
Definition array_destroy (a : array A) : M St unit := array_cleanup a.

(** unsigned array_num(const struct array *a) *)
Definition array_num (a : array A) : Z := arr_num a.

(** void *array_get(const struct array *a, unsigned index) *)
Definition array_get (a : array A) (index : Z) : M St A :=
  kassert (index <? arr_num a) ;;
  c ← deref FBounds (arr_v a !! Z.to_nat index);
  deref FDangling c.

(** void array_set(const struct array *a, unsigned index, void *val) *)
Definition array_set (a : array A) (index : Z) (val : A) : M St (array A) :=
  kassert (index <? arr_num a) ;;
  mret (Arr (<[Z.to_nat index := Some val]> (arr_v a)) (arr_num a) (arr_max a)).

(** int array_preallocate(struct array *a, unsigned num) *)
Definition array_preallocate (a : array A) (num : Z) : M St (res unit * array A) :=
  if num >? arr_max a then
    newmax ← deref FFuel (grow 32 num (arr_max a));
    ok ← kmalloc;
    if negb ok then mret (Err ENOMEM, a) else
    let cells := take (Z.to_nat (arr_num a)) (arr_v a) in
    mret (Done tt, Arr (cells ++ replicate (Z.to_nat newmax - length cells) None) (arr_num a) newmax)
  else mret (Done tt, a).

(** int array_setsize(struct array *a, unsigned num) *)
Definition array_setsize (a : array A) (num : Z) : M St (res unit * array A) :=
  x ← array_preallocate a num;
  match x with
  | (Err e, a') => mret (Err e, a')
  | (Done _, a') => mret (Done tt, Arr (arr_v a') num (arr_max a'))
  end.

(** int array_add(struct array *a, void *val, unsigned *index_ret) *)
Definition array_add (a : array A) (val : A) : M St (res Z * array A) :=
  let index := arr_num a in
  x ← array_setsize a (u32 (index + 1));
  match x with
  | (Err e, a') => mret (Err e, a')
  | (Done _, a') =>
      mret (Done index, Arr (<[Z.to_nat index := Some val]> (arr_v a')) (arr_num a') (arr_max a'))
  end.

(** void array_remove(struct array *a, unsigned index): the cells above
    [index] move down by one; the last keeps its old value. *)
Definition array_remove (a : array A) (index : Z) : M St (array A) :=
  kassert (arr_num a <=? arr_max a) ;;
  kassert (index <? arr_num a) ;;
  let i := Z.to_nat index in
  let n := Z.to_nat (arr_num a) in
  mret (Arr (take i (arr_v a) ++ drop (S i) (take n (arr_v a)) ++ drop (n - 1) (arr_v a))
            (arr_num a - 1) (arr_max a)).
End Ops.

(** ** Correctness: an array is the list of its elements *)

(** [a] holds the elements [xs]. *)
Record holds {A} (a : array A) (xs : list A) : Prop := Holds {
  h_num : arr_num a = Z.of_nat (length xs);
  h_max : Z.of_nat (length (arr_v a)) = arr_max a;
  h_le : arr_num a <= arr_max a;
  h_u32 : is_u32 (arr_max a);
  h_cells : take (length xs) (arr_v a) = Some <$> xs
}.

Lemma grow_empty fuel num : grow (S fuel) num 0 = if num >? 0 then grow fuel num 4 else Some 0.
Proof. reflexivity. Qed.

Lemma pow_step (k : nat) : 4 * 2 ^ Z.of_nat k < 2 ^ 31 -> 4 * 2 ^ Z.of_nat k * 2 <= 2 ^ 31.
Proof.
  intros Hlt. destruct (decide (k <= 28)%nat) as [Hk|Hk].
  - assert (2 ^ Z.of_nat k <= 2 ^ 28) by (apply Z.pow_le_mono_r; lia).
    change (2 ^ 28) with 268435456 in *. change (2 ^ 31) with 2147483648 in *. lia.
  - assert (2 ^ 29 <= 2 ^ Z.of_nat k) by (apply Z.pow_le_mono_r; lia).
    change (2 ^ 29) with 536870912 in *. change (2 ^ 31) with 2147483648 in *. lia.
Qed.

Lemma grow_ok fuel num newmax : 0 <= newmax -> num <= 2 ^ 31 ->
  (exists k : nat, newmax = 4 * 2 ^ Z.of_nat k /\ (29 <= fuel + k)%nat) ->
  exists m, grow fuel num newmax = Some m /\ num <= m /\ m <= Z.max newmax (2 * num) /\
    newmax <= m /\ (m = newmax \/ m <= 2 ^ 31).
Proof.
  revert newmax. induction fuel as [|fuel IH]; intros newmax Hn Hnum (k & Hk & Hf); simpl;
    destruct (Z.gtb_spec num newmax) as [Hgt|Hle]; try (exists newmax; split; [done|lia]).
  - assert (2 ^ 29 <= 2 ^ Z.of_nat k) by (apply Z.pow_le_mono_r; lia).
    change (2 ^ 29) with 536870912 in *. change (2 ^ 31) with 2147483648 in *. lia.
  - assert (0 < 2 ^ Z.of_nat k) by (apply Z.pow_pos_nonneg; lia).
    destruct (Z.eqb_spec newmax 0); [lia|].
    assert (newmax * 2 <= 2 ^ 31) by (subst newmax; apply pow_step; lia).
    rewrite u32_id by (unfold is_u32; change (2 ^ 31) with 2147483648 in *; lia).
    destruct (IH (newmax * 2)) as (m & Hm & H1 & H2 & H3 & H4); [lia|done| |exists m; split; [done|lia]].
    exists (S k). split; [rewrite Nat2Z.inj_succ, Z.pow_succ_r by lia; lia|lia].
Qed.

Section Spec.
Context {A St : Type} `{HasAlloc St}.
Implicit Types (a : array A) (xs : list A) (s : St).

Lemma holds_init : holds (@array_init A) [].
Proof. split; simpl; unfold is_u32; try done; lia. Qed.

(** Capacities are 0 or a power of two from 4 on. *)
Definition cap_ok (m : Z) : Prop := m = 0 \/ exists k : nat, m = 4 * 2 ^ Z.of_nat k.

Lemma grow_cap fuel num newmax m : cap_ok newmax -> newmax <= 2 ^ 31 -> num <= 2 ^ 31 ->
  grow fuel num newmax = Some m -> cap_ok m.
Proof.
  revert newmax. induction fuel as [|fuel IH]; intros newmax Hc Hb Hnum; simpl;
    destruct (Z.gtb_spec num newmax) as [Hgt|Hle]; try done; try (by intros [= <-]).
  apply IH; [| |done].
  - right. destruct Hc as [->|(k & ->)]; [by exists 0%nat|].
    assert (0 < 2 ^ Z.of_nat k) by (apply Z.pow_pos_nonneg; lia).
    destruct (Z.eqb_spec (4 * 2 ^ Z.of_nat k) 0); [lia|]. exists (Datatypes.S k).
    rewrite u32_id by (unfold is_u32; change (2 ^ 31) with 2147483648 in *; lia).
    rewrite Nat2Z.inj_succ, Z.pow_succ_r by lia. lia.
  - change (2 ^ 31) with 2147483648 in *. destruct (Z.eqb_spec newmax 0); [lia|].
    destruct Hc as [->|(k & Hk)]; [lia|].
    rewrite u32_id by (unfold is_u32; lia). subst newmax.
    change 2147483648 with (2 ^ 31). apply pow_step. change (2 ^ 31) with 2147483648. lia.
Qed.

Lemma grow_total num m : cap_ok m -> m <= 2 ^ 31 -> num <= 2 ^ 31 -> m < num ->
  exists m', grow 32 num m = Some m' /\ num <= m' <= 2 ^ 31 /\ cap_ok m' /\ m' <= Z.max 4 (2 * num).
Proof.
  intros Hc Hm Hn Hlt. assert (forall k : nat, m = 4 * 2 ^ Z.of_nat k -> (k <= 29)%nat) as Hk29.
  { intros k ->. destruct (decide (k <= 29)%nat); [done|].
    assert (2 ^ 30 <= 2 ^ Z.of_nat k) by (apply Z.pow_le_mono_r; lia).
    change (2 ^ 30) with 1073741824 in *. change (2 ^ 31) with 2147483648 in *. lia. }
  assert (exists m', grow 32 num m = Some m' /\ num <= m' /\ m' <= 2 ^ 31 /\ m' <= Z.max 4 (2 * num))
    as (m' & Hg & H1 & H2 & H3).
  { destruct Hc as [->|(k & Hk)].
    - rewrite (grow_empty 31). destruct (Z.gtb_spec num 0); [|lia].
      destruct (grow_ok 31 num 4) as (m' & Hg & ?); [lia|done|exists 0%nat; simpl; lia|].
      exists m'. change (2 ^ 31) with 2147483648 in *. split; [exact Hg|lia].
    - destruct (grow_ok 32 num m) as (m' & Hg & ?); [|done|exists k; split; [done|lia]|].
      { subst m. assert (0 < 2 ^ Z.of_nat k) by (apply Z.pow_pos_nonneg; lia). lia. }
      exists m'. split; [exact Hg|lia]. }
  exists m'. split; [done|]. split; [done|]. split; [|done]. by apply (grow_cap 32 num m).
Qed.

(** At most the allocator moved. *)
Definition alloc_step (s s' : St) : Prop := s' = s \/ exists al, s' = set_allocs al s.

Lemma kmalloc_step s : exists b s', kmalloc s = Ok b s' /\ alloc_step s s'.
Proof. unfold kmalloc. destruct (allocs s) as [|b al]; [by exists true, s; split; [|left]|].
  exists b, (set_allocs al s). split; [done|]. right. eauto.
Qed.

(** The outcome of an operation on an array holding [xs]. *)
Lemma array_preallocate_ok a xs num s : holds a xs -> cap_ok (arr_max a) -> arr_max a <= 2 ^ 31 ->
  num <= 2 ^ 31 ->
  exists r a' s', array_preallocate a num s = Ok (r, a') s' /\ alloc_step s s' /\ holds a' xs /\
    cap_ok (arr_max a') /\ arr_max a' <= 2 ^ 31 /\
    match r with
    | Done _ => num <= arr_max a'
    | Err e => e = ENOMEM /\ a' = a
    end.
Proof.
  intros Hh Hc Hm Hn. unfold array_preallocate. destruct (Z.gtb_spec num (arr_max a)) as [Hgt|Hle].
  2:{ exists (Done tt), a, s. split; [done|]. split; [by left|]. done. }
  destruct (grow_total num (arr_max a) Hc Hm Hn Hgt) as (m' & Hg & Hm' & Hc' & _). rewrite Hg.
  unfold mbind, M_bind, deref, mret, M_ret. destruct (kmalloc_step s) as (ok & s' & Hk & Hst). rewrite Hk.
  destruct ok; simpl; [|by exists (Err ENOMEM), a, s'].
  eexists (Done tt), _, s'. split; [reflexivity|]. split; [done|]. destruct Hh as [H1 H2 H3 H4 H5].
  rewrite H1, Nat2Z.id, H5. split; [|simpl; split; [done|lia]].
  change (2 ^ 31) with 2147483648 in *. split; simpl; unfold is_u32 in *; try lia.
  - rewrite length_app, length_replicate, !length_fmap. lia.
  - rewrite take_app_le by (rewrite length_fmap; lia). apply take_ge. rewrite length_fmap. lia.
Qed.

Lemma array_add_ok a xs x s : holds a xs -> cap_ok (arr_max a) -> arr_max a <= 2 ^ 31 ->
  Z.of_nat (length xs) < 2 ^ 31 ->
  exists r a' s', array_add a x s = Ok (r, a') s' /\ alloc_step s s' /\ cap_ok (arr_max a') /\ arr_max a' <= 2 ^ 31 /\
    match r with
    | Done i => i = Z.of_nat (length xs) /\ holds a' (xs ++ [x])
    | Err e => e = ENOMEM /\ a' = a
    end.
Proof.
  intros Hh Hc Hm Hlen. pose proof (h_num _ _ Hh) as Hn.
  assert (u32 (arr_num a + 1) = arr_num a + 1) as Hu.
  { apply u32_id. unfold is_u32. change (2 ^ 31) with 2147483648 in *. lia. }
  destruct (array_preallocate_ok a xs (arr_num a + 1) s Hh Hc Hm) as (r & a' & s' & He & Hst & Hh' & Hc' & Hm' & Hr);
    [lia|]. unfold array_add, array_setsize, mbind, M_bind. rewrite Hu, He. destruct r as [[]|e].
  2:{ destruct Hr as [-> ->]. by exists (Err ENOMEM), a, s'. }
  eexists (Done _), _, s'. split; [reflexivity|]. simpl. split; [done|]. split; [done|]. split; [done|].
  split; [done|]. destruct Hh' as [H1 H2 H3 H4 H5]. rewrite Hn, Nat2Z.id.
  split; simpl; rewrite ?length_insert, ?length_app; simpl; try lia; [done|].
  assert ((length xs < length (arr_v a'))%nat) by lia.
  rewrite Nat.add_1_r, (take_S_r _ _ (Some x)) by (rewrite list_lookup_insert_eq; [done|lia]).
  rewrite take_insert_ge by lia. by rewrite H5, fmap_app.
Qed.

(** An array that holds the list [xs], with room below 2^31 elements: add
    appends at the index it returns, or leaves the array as it was with
    ENOMEM; it neither faults nor loops, and capacities stay 0 or a power of
    two at most twice what is needed. *)
Theorem array_add_spec a xs x s : holds a xs -> cap_ok (arr_max a) -> arr_max a <= 2 ^ 31 ->
  Z.of_nat (length xs) < 2 ^ 31 ->
  exists r a' s', array_add a x s = Ok (r, a') s' /\ alloc_step s s' /\ cap_ok (arr_max a') /\ arr_max a' <= 2 ^ 31 /\
    match r with
    | Done i => i = Z.of_nat (length xs) /\ holds a' (xs ++ [x])
    | Err e => e = ENOMEM /\ a' = a
    end.
Proof. apply array_add_ok. Qed.

(** Reading, writing and removing by index act on the list of elements;
    an index past the last element trips the assertion. *)
Theorem array_access_spec a xs i s : holds a xs -> 0 <= i ->
  match xs !! Z.to_nat i with
  | Some x =>
      array_get a i s = Ok x s /\
      (forall y, exists a', array_set a i y s = Ok a' s /\ holds a' (<[Z.to_nat i := y]> xs)) /\
      (exists a', array_remove a i s = Ok a' s /\ holds a' (delete (Z.to_nat i) xs))
  | None => array_get a i s = Fault FPanic /\ (forall y, array_set a i y s = Fault FPanic) /\
      array_remove a i s = Fault FPanic
  end.
Proof.
  intros [H1 H2 H3 H4 H5] Hi. unfold array_get, array_set, array_remove, mbind, M_bind, kassert.
  destruct (xs !! Z.to_nat i) as [x|] eqn:Hx.
  - pose proof (lookup_lt_Some _ _ _ Hx) as Hlt.
    destruct (Z.ltb_spec i (arr_num a)), (Z.leb_spec (arr_num a) (arr_max a)); try lia.
    assert (arr_v a !! Z.to_nat i = Some (Some x)) as Hc.
    { rewrite <- (lookup_take_lt _ (length xs)), H5, list_lookup_fmap by lia. by rewrite Hx. }
    split; [by rewrite Hc|]. split.
    + intros y. eexists. split; [reflexivity|].
      split; simpl; rewrite ?length_insert; try done.
      rewrite take_insert_lt by lia. by rewrite H5, list_fmap_insert.
    + eexists. split; [reflexivity|]. rewrite H1, Nat2Z.id, H5.
      assert (take (Z.to_nat i) (arr_v a) = Some <$> take (Z.to_nat i) xs) as Hti.
      { rewrite fmap_take, <- H5, take_take. f_equal. lia. }
      rewrite Hti, <- fmap_drop, app_assoc, <- fmap_app, <- delete_take_drop.
      assert (S (length (delete (Z.to_nat i) xs)) = length xs) by (rewrite length_delete; [lia|by eexists]).
      split; simpl; rewrite ?length_app, ?length_fmap, ?length_drop; try lia; [done|].
      rewrite take_app_le by (rewrite length_fmap; lia). apply take_ge. by rewrite length_fmap.
  - apply lookup_ge_None in Hx. by destruct (Z.ltb_spec i (arr_num a)); [lia|];
      destruct (arr_num a <=? arr_max a).
Qed.
End Spec.

(** ** Concrete arrays *)

Definition demo_array : array Z := Arr [Some 7; Some 8; Some 9; None] 3 4.

Lemma demo_holds : holds demo_array [7; 8; 9].
Proof. split; simpl; unfold is_u32; try done; lia. Qed.

Lemma array_add_spec_witness : exists a',
  array_add demo_array 10 ([] : list bool) = Ok (Done 3, a') [] /\ holds a' [7; 8; 9; 10].
Proof.
  destruct (array_add_spec demo_array [7; 8; 9] 10 ([] : list bool)) as (r & a' & s' & He & _ & _ & _ & Hr);
    [apply demo_holds|right; by exists 0%nat|simpl; lia|simpl; lia|].
  revert He. vm_compute. intros [= <- <- <-]. eexists. split; [reflexivity|]. apply Hr.
Defined.

Lemma array_access_spec_witness : exists a',
  array_get demo_array 1 ([] : list bool) = Ok 8 [] /\
  array_remove demo_array 1 ([] : list bool) = Ok a' [] /\ holds a' [7; 9].
Proof.
  destruct (array_access_spec demo_array [7; 8; 9] 1 ([] : list bool)) as (Hg & _ & a' & Hr & Hh);
    [apply demo_holds|lia|]. by exists a'.
Defined.

End Array.
