(* ===== verification/Interfaces.v ===== *)
(** * Interfaces below the system-call layer

    The data that crosses the vnode interface ([src/kern/include/uio.h],
    [src/kern/include/kern/iovec.h], [src/kern/include/kern/stat.h]), and the
    interface itself as type classes: what the open-file and process layers
    call ([vfs_open], [vfs_close], the VOP_* operations of
    [src/kern/include/vnode.h], and the user-memory copies of
    [src/kern/include/copyinout.h]) and what these calls promise about vnode
    references.  The clients are verified against the interface. *)

From S2P Require Import Prelude Kern.
Open Scope Z_scope.

(** enum uio_rw, enum uio_seg *)
Inductive uio_rw : Type := UIO_READ | UIO_WRITE.
Inductive uio_seg : Type := UIO_USERISPACE | UIO_USERSPACE | UIO_SYSSPACE.

#[export] Instance uio_rw_eq_dec : EqDecision uio_rw.
Proof. solve_decision. Defined.
#[export] Instance uio_seg_eq_dec : EqDecision uio_seg.
Proof. solve_decision. Defined.

(** struct iovec: a base address (user or kernel) and a length. *)
Record iovec := Iovec { iov_base : Z; iov_len : Z }.

(** struct uio; [uio_iov] lists the [uio_iovcnt] blocks still to be used, and a
    pointer to an address space is its address (0 for NULL). *)
Record uio := Uio {
  uio_iov : list iovec;
  uio_offset : Z;
  uio_resid : Z;
  uio_segflg : uio_seg;
  uio_dir : uio_rw;
  uio_space : Z
}.

(** The fields of struct stat that the modelled code reads or writes. *)
Record stat := Stat {
  st_size : Z; st_mode : Z; st_nlink : Z; st_blocks : Z; st_rdev : Z; st_blksize : Z
}.

(** void uio_kinit(iov, u, kbuf, len, pos, rw) *)
Definition uio_kinit (kbuf len pos : Z) (rw : uio_rw) : uio :=
  Uio [Iovec kbuf len] pos len UIO_SYSSPACE rw 0.

(** void uio_uinit(iov, u, ubuf, len, pos, rw); [space] is
    [curthread->t_proc->p_addrspace]. *)
Definition uio_uinit (space ubuf len pos : Z) (rw : uio_rw) : uio :=
  Uio [Iovec ubuf len] pos len UIO_USERSPACE rw space.

(** ** The operations *)

(** Vnodes are named by their address.  Path names are byte strings without
    their terminator. *)
Class VfsOps (L : Type) := {
  vfs_open : list Z -> Z -> Z -> M L (res Z);
  vfs_close : Z -> M L unit;
  VOP_READ : Z -> uio -> M L (res unit * uio);
  VOP_WRITE : Z -> uio -> M L (res unit * uio);
  VOP_ISSEEKABLE : Z -> M L bool;
  VOP_STAT : Z -> M L (res stat);
  curspace : L -> Z
}.

(** User memory ([src/kern/include/copyinout.h]).  [copyin] and [copyinstr]
    return the bytes read (a string without its terminator). *)
Class UserMem (L : Type) := {
  copyin : Z -> Z -> M L (res (list Z));
  copyout : list Z -> Z -> M L (res unit);
  copyinstr : Z -> Z -> M L (res (list Z));
  copyoutstr : list Z -> Z -> Z -> M L (res Z)
}.

(** ** What they promise

    [vrefs l u] is the number of references to vnode [u] that are accounted
    for in [l].  [vfs_open] hands back one reference to the caller and
    [vfs_close] takes one back; everything else leaves the counts alone; and
    nothing goes wrong when the caller holds the reference it uses. *)
Class LowSpec (L : Type) `{VfsOps L} `{HasAlloc L} `{UserMem L} := {
  vrefs : L -> Z -> Z;
  low_inv : L -> Prop;
  vrefs_nonneg : forall l u, low_inv l -> 0 <= vrefs l u;
  vfs_open_spec : forall l path flags mode, low_inv l ->
    wp (vfs_open path flags mode)
       (fun r l' => low_inv l' /\
          match r with
          | Done v => forall u, vrefs l' u = vrefs l u + (if u =? v then 1 else 0)
          | Err _ => forall u, vrefs l' u = vrefs l u
          end) l;
  vfs_close_spec : forall l v, low_inv l -> 0 < vrefs l v ->
    wp (vfs_close v)
       (fun _ l' => low_inv l' /\
          forall u, vrefs l' u = vrefs l u - (if u =? v then 1 else 0)) l;
  VOP_READ_spec : forall l v buf len pos, low_inv l -> 0 < vrefs l v ->
    wp (VOP_READ v (uio_uinit (curspace l) buf len pos UIO_READ))
       (fun _ l' => low_inv l' /\ forall w, vrefs l' w = vrefs l w) l;
  VOP_WRITE_spec : forall l v buf len pos, low_inv l -> 0 < vrefs l v ->
    wp (VOP_WRITE v (uio_uinit (curspace l) buf len pos UIO_WRITE))
       (fun _ l' => low_inv l' /\ forall w, vrefs l' w = vrefs l w) l;
  VOP_ISSEEKABLE_spec : forall l v, low_inv l -> 0 < vrefs l v ->
    wp (VOP_ISSEEKABLE v) (fun _ l' => low_inv l' /\ forall w, vrefs l' w = vrefs l w) l;
  VOP_STAT_spec : forall l v, low_inv l -> 0 < vrefs l v ->
    wp (VOP_STAT v) (fun _ l' => low_inv l' /\ forall w, vrefs l' w = vrefs l w) l;
  copyout_spec : forall l bs a, low_inv l ->
    wp (copyout bs a) (fun _ l' => low_inv l' /\ forall w, vrefs l' w = vrefs l w) l;
  copyin_spec : forall l a n, low_inv l ->
    wp (copyin a n) (fun _ l' => low_inv l' /\ forall w, vrefs l' w = vrefs l w) l;
  copyinstr_spec : forall l a n, low_inv l ->
    wp (copyinstr a n) (fun _ l' => low_inv l' /\ forall w, vrefs l' w = vrefs l w) l;
  low_inv_allocs : forall l a, low_inv l -> low_inv (set_allocs a l);
  vrefs_allocs : forall l a u, vrefs (set_allocs a l) u = vrefs l u
}.
