(* ===== verification/Copyinout.v ===== *)
(** * User memory access: [src/kern/vm/copyinout.c]

    Virtual memory is a finite map from addresses to bytes; an address that is
    absent is not mapped, and touching it faults.  User space is below
    [USERSPACETOP], the kernel above it.  While one of these functions copies,
    a fault resumes in [copyfail], which makes the function return EFAULT (the
    setjmp/longjmp pair); what was copied before the fault stays. *)

From S2P Require Import Prelude Kern Interfaces.
Open Scope Z_scope.

(** MIPS_KSEG0, from [src/kern/arch/mips/include/vm.h] *)
Definition USERSPACETOP : Z := 2147483648.
Definition USERSTACK : Z := USERSPACETOP.

Class HasMem (S : Type) := {
  vmem : S -> gmap Z Z;
  set_vmem : gmap Z Z -> S -> S;
  vmem_set : forall m s, vmem (set_vmem m s) = m
}.

Module Copyinout.

(** static int copycheck(const_userptr_t userptr, size_t len, size_t *stoplen) *)
Definition copycheck (userptr len : Z) : res Z :=
  let bot := userptr in
  let top := u32 (bot + len - 1) in
  if top <? bot then Err EFAULT else
  if bot >=? USERSPACETOP then Err EFAULT else
  if top >=? USERSPACETOP then Done (USERSPACETOP - bot) else Done len.

(** memcpy from and to mapped memory, byte by byte.  [None], and [false] in
    [store_bytes], is a fault. *)
Fixpoint load_bytes (m : gmap Z Z) (a : Z) (n : nat) : option (list Z) :=
  match n with
  | O => Some []
  | S n' => b ← m !! a; bs ← load_bytes m (a + 1) n'; Some (b :: bs)
  end.

Fixpoint store_bytes (m : gmap Z Z) (a : Z) (bs : list Z) : gmap Z Z * bool :=
  match bs with
  | [] => (m, true)
  | b :: bs' =>
      match m !! a with
      | Some _ => store_bytes (<[a := b]> m) (a + 1) bs'
      | None => (m, false)
      end
  end.

(** The loop of copystr, by the number of bytes it may still copy: the
    destination, and how the loop ended (with [i], where the terminator was
    copied). *)
Inductive copy_end := Terminator (i : Z) | OutOfRoom | Faulted.

Fixpoint copystr_loop {D} (src : Z -> option Z) (put : Z -> Z -> D -> option D)
    (room : nat) (i : Z) (d : D) : D * copy_end :=
  match room with
  | O => (d, OutOfRoom)
  | S room' =>
      match src i with
      | None => (d, Faulted)
      | Some b =>
          match put i b d with
          | None => (d, Faulted)
          | Some d' => if b =? 0 then (d', Terminator i) else copystr_loop src put room' (i + 1) d'
          end
      end
  end.

(** static int copystr(dest, src, maxlen, stoplen, gotlen), with the EFAULT of
    its callers when it faults. *)
Definition copystr {D} (src : Z -> option Z) (put : Z -> Z -> D -> option D)
    (maxlen stoplen : Z) (d : D) : D * res Z :=
  match copystr_loop src put (Z.to_nat (Z.min maxlen stoplen)) 0 d with
  | (d', Terminator i) => (d', Done (i + 1))
  | (d', Faulted) => (d', Err EFAULT)
  | (d', OutOfRoom) => (d', Err (if stoplen <? maxlen then EFAULT else ENAMETOOLONG))
  end.

Section Ops.
Context {S : Type} `{HasMem S}.

(** int copyin(const_userptr_t usersrc, void *dest, size_t len); the bytes
    that go to [dest]. *)
Definition copyin (usersrc len : Z) : M S (res (list Z)) :=
  match copycheck usersrc len with
  | Err e => mret (Err e)
  | Done stoplen =>
      if negb (stoplen =? len) then mret (Err EFAULT) else
      s ← get;
      match load_bytes (vmem s) usersrc (Z.to_nat len) with
      | Some bs => mret (Done bs)
      | None => mret (Err EFAULT)
      end
  end.

(** int copyout(const void *src, userptr_t userdest, size_t len), with the
    [len] bytes at [src]. *)
Definition copyout (src : list Z) (userdest : Z) : M S (res unit) :=
  let len := Z.of_nat (length src) in
  match copycheck userdest len with
  | Err e => mret (Err e)
  | Done stoplen =>
      if negb (stoplen =? len) then mret (Err EFAULT) else
      s ← get;
      let (m, ok) := store_bytes (vmem s) userdest src in
      modify (set_vmem m) ;;
      mret (if ok then Done tt else Err EFAULT)
  end.

(** int copyinstr(const_userptr_t usersrc, char *dest, size_t len, size_t
    *actual); the string that goes to [dest], without its terminator. *)
Definition copyinstr (usersrc len : Z) : M S (res (list Z)) :=
  match copycheck usersrc len with
  | Err e => mret (Err e)
  | Done stoplen =>
      s ← get;
      match copystr (fun i => vmem s !! (usersrc + i))
              (fun _ b d => Some (if b =? 0 then d else d ++ [b])) len stoplen [] with
      | (d, Done _) => mret (Done d)
      | (_, Err e) => mret (Err e)
      end
  end.

(** int copyoutstr(const char *src, userptr_t userdest, size_t len, size_t
    *actual), with [src] a string given without its terminator; the result is
    [*actual]. *)
Definition copyoutstr (src : list Z) (userdest len : Z) : M S (res Z) :=
  match copycheck userdest len with
  | Err e => mret (Err e)
  | Done stoplen =>
      s ← get;
      let (m, r) := copystr (fun i => Some (default 0 (src !! Z.to_nat i)))
        (fun i b m => if decide (is_Some (m !! (userdest + i)))
                      then Some (<[userdest + i := b]> m) else None)
        len stoplen (vmem s) in
      modify (set_vmem m) ;; mret r
  end.

#[export] Instance UserMem_vmem : UserMem S := {|
  Interfaces.copyin := copyin;
  Interfaces.copyout := copyout;
  Interfaces.copyinstr := copyinstr;
  Interfaces.copyoutstr := copyoutstr
|}.
End Ops.

(** ** Memory blocks *)

Lemma load_bytes_Some m a n bs : load_bytes m a n = Some bs <->
  length bs = n /\ forall i, (i < n)%nat -> m !! (a + Z.of_nat i) = bs !! i.
Proof.
  revert a bs. induction n as [|n IH]; intros a bs; simpl.
  { split; [intros [= <-]; split; [done|lia]|]. by intros [->%length_zero_iff_nil _]. }
  split.
  - intros (b & Hb & Hr)%bind_Some. apply bind_Some in Hr as (bs' & Hbs & [= <-]).
    apply IH in Hbs as [<- Hi]. split; [done|]. intros [|i] Hlt; simpl.
    + by rewrite Z.add_0_r.
    + rewrite <- Hi by lia. f_equal. lia.
  - intros [Hlen Hi]. destruct bs as [|b bs]; [done|].
    assert (m !! a = Some b) as -> by (rewrite <- (Z.add_0_r a); apply (Hi 0%nat); lia). simpl.
    assert (load_bytes m (a + 1) n = Some bs) as ->; [|done]. apply IH.
    split; [by simpl in Hlen; lia|]. intros i Hlt. specialize (Hi (S i)). simpl in Hi.
    rewrite <- Hi by lia. f_equal. lia.
Qed.

Lemma store_bytes_frame m a bs m' ok x : store_bytes m a bs = (m', ok) ->
  ~ (a <= x < a + Z.of_nat (length bs)) -> m' !! x = m !! x.
Proof.
  revert m a. induction bs as [|b bs IH]; intros m a; simpl; [by intros [= <- <-]|].
  destruct (m !! a); [|by intros [= <- <-]]. intros Hs Hx.
  rewrite (IH _ _ Hs) by lia. apply lookup_insert_ne. lia.
Qed.

Lemma store_bytes_mapped m a bs m' ok x : store_bytes m a bs = (m', ok) ->
  is_Some (m' !! x) <-> is_Some (m !! x).
Proof.
  revert m a. induction bs as [|b bs IH]; intros m a; simpl; [by intros [= <- <-]|].
  destruct (m !! a) eqn:Ha; [|by intros [= <- <-]]. intros Hs. rewrite (IH _ _ Hs).
  destruct (decide (x = a)) as [->|]; [rewrite lookup_insert_eq, Ha; naive_solver|].
  by rewrite lookup_insert_ne.
Qed.

(** A store ends normally exactly when the block is mapped; then it can be
    loaded back. *)
Lemma store_bytes_ok m a bs m' ok : store_bytes m a bs = (m', ok) ->
  (ok = true <-> forall i, (i < length bs)%nat -> is_Some (m !! (a + Z.of_nat i))) /\
  (ok = true -> load_bytes m' a (length bs) = Some bs).
Proof.
  revert m a. induction bs as [|b bs IH]; intros m a; simpl.
  { intros [= <- <-]. split; [|done]. split; [lia|done]. }
  destruct (m !! a) eqn:Ha.
  2:{ intros [= <- <-]. split; [|done]. split; [done|]. intros Hm.
      specialize (Hm 0%nat). rewrite Z.add_0_r, Ha in Hm. destruct Hm; [lia|done]. }
  intros Hs. destruct (IH _ _ Hs) as [Hok Hld]. split.
  - rewrite Hok. split; intros Hm i Hi.
    + destruct i as [|i]; [rewrite Z.add_0_r, Ha; by eexists|]. specialize (Hm i).
      rewrite lookup_insert_ne in Hm by lia. replace (a + Z.of_nat (S i)) with (a + 1 + Z.of_nat i) by lia.
      apply Hm. lia.
    + rewrite lookup_insert_ne by lia. specialize (Hm (S i)).
      replace (a + Z.of_nat (S i)) with (a + 1 + Z.of_nat i) in Hm by lia. apply Hm. lia.
  - intros Ht. rewrite (Hld Ht). rewrite (store_bytes_frame _ _ _ _ _ a Hs) by lia.
    by rewrite lookup_insert_eq.
Qed.

(** ** copycheck *)

(** The largest block from [a] that copycheck lets through. *)
Lemma copycheck_ok a len : is_u32 a -> is_u32 len ->
  copycheck a len = (if (a <? USERSPACETOP) && (0 <? len) && (a + len <=? 2 ^ 32)
                     then Done (Z.min len (USERSPACETOP - a))
                     else if (a =? 0) && (len =? 0) then Done USERSPACETOP else Err EFAULT).
Proof.
  unfold is_u32, copycheck, u32, USERSPACETOP. intros Ha Hl.
  destruct (Z.ltb_spec a 2147483648), (Z.ltb_spec 0 len); simpl.
  - destruct (Z.leb_spec (a + len) (2 ^ 32)) as [Hle|Hgt].
    + rewrite Z.mod_small by lia.
      destruct (Z.ltb_spec (a + len - 1) a), (Z.geb_spec a 2147483648); try lia.
      destruct (Z.geb_spec (a + len - 1) 2147483648); f_equal; lia.
    + rewrite <- (Z.mod_unique_pos (a + len - 1) (2 ^ 32) 1 (a + len - 1 - 2 ^ 32)) by lia.
      destruct (Z.ltb_spec (a + len - 1 - 2 ^ 32) a); [|lia].
      destruct (Z.eqb_spec len 0); [lia|]. by rewrite andb_false_r.
  - assert (len = 0) as -> by lia. destruct (Z.eqb_spec a 0) as [->|Hne]; simpl.
    + by vm_compute.
    + rewrite Z.mod_small by lia. destruct (Z.ltb_spec (a + 0 - 1) a); [done|lia].
  - destruct (Z.eqb_spec len 0); [lia|]. rewrite andb_false_r.
    destruct (_ <? a); [done|]. by destruct (Z.geb_spec a 2147483648); [|lia].
  - destruct (Z.eqb_spec a 0); [lia|]. simpl. destruct (_ <? a); [done|].
    by destruct (Z.geb_spec a 2147483648); [|lia].
Qed.

(** The guard that copyin and copyout share. *)
Lemma copycheck_whole a len : is_u32 a -> is_u32 len ->
  (exists stop, copycheck a len = Done stop /\ (stop =? len) = true) <->
  0 < len /\ a + len <= USERSPACETOP.
Proof.
  intros Ha Hl. rewrite (copycheck_ok a len Ha Hl). unfold is_u32, USERSPACETOP in *.
  destruct (Z.ltb_spec a 2147483648), (Z.ltb_spec 0 len), (Z.leb_spec (a + len) (2 ^ 32)),
    (Z.eqb_spec a 0), (Z.eqb_spec len 0); simpl; subst; split; intros Hx;
    try (destruct Hx as (stop & [= <-] & Hs%Z.eqb_eq); lia);
    try (eexists; split; [reflexivity|apply Z.eqb_eq; lia]); lia.
Qed.

(** ** Strings *)

(** How the search for a terminator from [a] ends: after [str], which has no
    NUL, there is the terminator, an unmapped address, or no room left. *)
Inductive scan (m : gmap Z Z) (a : Z) (room : nat) (str : list Z) : copy_end -> Prop :=
| scan_end : load_bytes m a (length str) = Some str -> (0 ∉ str) -> (length str < room)%nat ->
    m !! (a + Z.of_nat (length str)) = Some 0 ->
    scan m a room str (Terminator (Z.of_nat (length str)))
| scan_fault : load_bytes m a (length str) = Some str -> (0 ∉ str) -> (length str < room)%nat ->
    m !! (a + Z.of_nat (length str)) = None -> scan m a room str Faulted
| scan_room : load_bytes m a (length str) = Some str -> (0 ∉ str) -> length str = room ->
    scan m a room str OutOfRoom.

Definition shift_end (i : Z) (e : copy_end) : copy_end :=
  match e with Terminator j => Terminator (i + j) | _ => e end.

Lemma load_cons m a b str : m !! a = Some b ->
  load_bytes m (a + 1) (length str) = Some str ->
  load_bytes m a (length (b :: str)) = Some (b :: str).
Proof. intros Hb Hs. simpl. by rewrite Hb, Hs. Qed.

Lemma scan_step m a room str b e : m !! a = Some b -> b <> 0 -> scan m (a + 1) room str e ->
  scan m a (S room) (b :: str) (shift_end 1 e).
Proof.
  intros Hb Hne Hs. assert (0 ∉ str -> 0 ∉ b :: str) as Hn by (rewrite not_elem_of_cons; done).
  inversion Hs as [Hl H0 Hlt Hz|Hl H0 Hlt Hz|Hl H0 Heq]; subst; simpl shift_end.
  - replace (1 + Z.of_nat (length str)) with (Z.of_nat (length (b :: str))) by (simpl; lia).
    apply scan_end; [by apply load_cons|auto|simpl; lia|]. simpl. rewrite <- Hz. f_equal. lia.
  - apply scan_fault; [by apply load_cons|auto|simpl; lia|]. simpl. rewrite <- Hz. f_equal. lia.
  - apply scan_room; [by apply load_cons|auto|done].
Qed.

Lemma scan_loaded m a room str e : scan m a room str e ->
  load_bytes m a (length str) = Some str /\ (0 ∉ str) /\ (length str <= room)%nat.
Proof. inversion 1; subst; split_and!; try done; lia. Qed.

Lemma scan_longest m a room str e str' e' : scan m a room str e -> scan m a room str' e' ->
  (length str' <= length str)%nat.
Proof.
  intros Hs (Hl' & Hn' & Hr')%scan_loaded. destruct (decide (length str' <= length str)%nat); [done|].
  exfalso. apply load_bytes_Some in Hl' as [_ Hl']. specialize (Hl' (length str)).
  destruct (lookup_lt_is_Some_2 str' (length str)) as [b Hb]; [lia|]. rewrite Hb in Hl'.
  inversion Hs as [_ _ _ Hz|_ _ _ Hz|]; [..|lia]; rewrite Hz in Hl'.
  - apply Hn'. apply list_elem_of_lookup_2 in Hb. injection Hl' as <-; [done|lia].
  - discriminate Hl'. lia.
Qed.

Lemma scan_unique m a room str e str' e' : scan m a room str e -> scan m a room str' e' ->
  str = str' /\ e = e'.
Proof.
  intros Hs Hs'. pose proof (scan_longest _ _ _ _ _ _ _ Hs Hs').
  pose proof (scan_longest _ _ _ _ _ _ _ Hs' Hs).
  pose proof (scan_loaded _ _ _ _ _ Hs) as (Hl & _). pose proof (scan_loaded _ _ _ _ _ Hs') as (Hl' & _).
  replace (length str') with (length str) in Hl' by lia. assert (str = str') as <- by congruence.
  split; [done|]. inversion Hs; inversion Hs'; subst; try done; try lia; congruence.
Qed.

Definition keep_nonzero (_ b : Z) (d : list Z) : option (list Z) :=
  Some (if b =? 0 then d else d ++ [b]).

Lemma copystr_loop_scan m a room i d : exists str e,
  scan m (a + i) room str e /\
  copystr_loop (fun i => m !! (a + i)) keep_nonzero room i d = (d ++ str, shift_end i e).
Proof.
  revert i d. induction room as [|room IH]; intros i d; simpl.
  { exists [], OutOfRoom. rewrite app_nil_r. split; [|done]. by constructor; [|apply not_elem_of_nil|]. }
  destruct (m !! (a + i)) as [b|] eqn:Hb.
  2:{ exists [], Faulted. rewrite app_nil_r. split; [|done].
      apply scan_fault; simpl; [done|apply not_elem_of_nil|lia|by rewrite Z.add_0_r]. }
  simpl. destruct (Z.eqb_spec b 0) as [->|Hne].
  - exists [], (Terminator 0). rewrite app_nil_r. split; [|simpl; by rewrite Z.add_0_r].
    apply (scan_end m (a + i) (S room) []); simpl; [done|apply not_elem_of_nil|lia|by rewrite Z.add_0_r].
  - destruct (IH (i + 1) (d ++ [b])) as (str & e & Hs & ->). exists (b :: str), (shift_end 1 e).
    rewrite <- app_assoc. split; [apply scan_step; [done|done|by rewrite <- Z.add_assoc]|].
    destruct e; simpl; do 2 f_equal; lia.
Qed.

Section Spec.
Context {S : Type} `{HasMem S}.
Implicit Types s : S.

(** The guard of copyin and copyout. *)
Definition block_ok (a len : Z) : bool := (0 <? len) && (a + len <=? USERSPACETOP).

Lemma copycheck_guard {A} a len (k : res A) : is_u32 a -> is_u32 len ->
  match copycheck a len with
  | Err e => Err e
  | Done stop => if negb (stop =? len) then Err EFAULT else k
  end = if block_ok a len then k else Err EFAULT.
Proof.
  intros Ha Hl. pose proof (copycheck_whole a len Ha Hl) as Hw.
  assert (block_ok a len = true <-> 0 < len /\ a + len <= USERSPACETOP) as Hb.
  { unfold block_ok. rewrite andb_true_iff, Z.ltb_lt, Z.leb_le. done. }
  pose proof (copycheck_ok a len Ha Hl) as Hc. destruct (copycheck a len) as [stop|e].
  - clear Hc. destruct (stop =? len) eqn:Hs, (block_ok a len); try done; simpl.
    + exfalso. destruct Hb as [_ Hb], Hw as [Hw _]. discriminate (Hb (Hw (ex_intro _ stop (conj eq_refl Hs)))).
    + exfalso. destruct Hb as [Hb _], Hw as [_ Hw]. destruct (Hw (Hb eq_refl)) as (? & [= <-] & ?). congruence.
  - assert (e = EFAULT) as -> by (repeat case_match; congruence).
    destruct (block_ok a len); [|done]. destruct Hb as [Hb _], Hw as [_ Hw].
    by destruct (Hw (Hb eq_refl)) as (? & ? & ?).
Qed.

Lemma copyin_eq s a len : is_u32 a -> is_u32 len ->
  copyin a len s =
  Ok (if block_ok a len then
        match load_bytes (vmem s) a (Z.to_nat len) with Some bs => Done bs | None => Err EFAULT end
      else Err EFAULT) s.
Proof.
  intros Ha Hl. rewrite <- (copycheck_guard a len _ Ha Hl). unfold copyin.
  destruct (copycheck a len) as [stop|]; [|done]. destruct (negb (stop =? len)); [done|].
  unfold mbind, M_bind, get. by destruct (load_bytes _ _ _).
Qed.

Lemma copyout_eq s src a (len := Z.of_nat (length src)) : is_u32 a -> is_u32 len ->
  copyout src a s =
  if block_ok a len then
    let (m, ok) := store_bytes (vmem s) a src in
    Ok (if ok then Done tt else Err EFAULT) (set_vmem m s)
  else Ok (Err EFAULT) s.
Proof.
  intros Ha Hl. pose proof (copycheck_guard a len (Done tt) Ha Hl) as Hg. unfold copyout. fold len.
  destruct (copycheck a len) as [stop|e]; [destruct (negb (stop =? len))|];
    destruct (block_ok a len); try done; try congruence.
  - unfold mbind, M_bind, get. by destruct (store_bytes (vmem s) a src).
  - by injection Hg as ->.
Qed.

(** Neither can fault, and EFAULT is their only error. *)
Lemma copyin_wp s a len (Q : res (list Z) -> S -> Prop) : is_u32 a -> is_u32 len ->
  (forall bs, load_bytes (vmem s) a (Z.to_nat len) = Some bs -> Q (Done bs) s) ->
  Q (Err EFAULT) s -> wp (copyin a len) Q s.
Proof.
  intros Ha Hl HQ Hf. unfold wp. rewrite copyin_eq by done. destruct (block_ok a len); [|done].
  destruct (load_bytes _ _ _) eqn:E; auto.
Qed.

Lemma copyout_wp s src a (Q : res unit -> S -> Prop) : is_u32 a -> is_u32 (Z.of_nat (length src)) ->
  Q (Err EFAULT) s ->
  (forall m ok, store_bytes (vmem s) a src = (m, ok) ->
     Q (if ok then Done tt else Err EFAULT) (set_vmem m s)) -> wp (copyout src a) Q s.
Proof.
  intros Ha Hl Hf HQ. unfold wp. rewrite copyout_eq by done. destruct (block_ok a _); [|done].
  destruct (store_bytes _ _ _) eqn:E. by apply HQ.
Qed.

(** What copyinstr returns for each way the search may end. *)
Lemma copyinstr_scan s a len : is_u32 a -> is_u32 len -> 0 < len -> a + len <= 2 ^ 32 -> a < USERSPACETOP ->
  exists str e, scan (vmem s) a (Z.to_nat (Z.min len (USERSPACETOP - a))) str e /\
    copyinstr a len s = Ok (match e with
                            | Terminator _ => Done str
                            | Faulted => Err EFAULT
                            | OutOfRoom => Err (if USERSPACETOP - a <? len then EFAULT else ENAMETOOLONG)
                            end) s.
Proof.
  intros Ha Hlu Hl Ht Hu. unfold copyinstr. rewrite (copycheck_ok a len Ha Hlu).
  destruct (Z.ltb_spec a USERSPACETOP), (Z.ltb_spec 0 len), (Z.leb_spec (a + len) (2 ^ 32)); try lia.
  simpl. unfold mbind, M_bind, get, copystr.
  rewrite (Z.min_r len (Z.min len _)) by lia.
  destruct (copystr_loop_scan (vmem s) a (Z.to_nat (Z.min len (USERSPACETOP - a))) 0 [])
    as (str & e & Hs & He). unfold keep_nonzero in He. rewrite He. rewrite Z.add_0_r in Hs.
  exists str, e. split; [done|]. destruct e; simpl; try done.
  do 2 f_equal. destruct (Z.ltb_spec (Z.min len (USERSPACETOP - a)) len),
    (Z.ltb_spec (USERSPACETOP - a) len); try done; lia.
Qed.

(** The loop of copyoutstr stores the string and its terminator. *)
Definition put_user (a i b : Z) (m : gmap Z Z) : option (gmap Z Z) :=
  if decide (is_Some (m !! (a + i))) then Some (<[a + i := b]> m) else None.

Lemma copystr_loop_put src a room i m : (Z.to_nat i <= length src)%nat -> 0 <= i -> (0 ∉ src) ->
  (length src - Z.to_nat i < room)%nat ->
  (forall j, i <= j <= Z.of_nat (length src) -> is_Some (m !! (a + j))) ->
  copystr_loop (fun i => Some (default 0 (src !! Z.to_nat i))) (put_user a) room i m =
  ((store_bytes m (a + i) (drop (Z.to_nat i) src ++ [0])).1, Terminator (Z.of_nat (length src))).
Proof.
  revert i m. induction room as [|room IH]; intros i m Hle Hi Hn Hr Hm; [lia|].
  simpl. unfold put_user at 1. destruct (decide _) as [Hs|Hs]; [|exfalso; apply Hs, Hm; lia].
  destruct (src !! Z.to_nat i) as [b|] eqn:Hb; simpl.
  - pose proof (lookup_lt_Some _ _ _ Hb). rewrite (drop_S src b) by done. simpl.
    destruct Hs as [c ->]. assert (b <> 0) by (intros ->; by apply list_elem_of_lookup_2 in Hb).
    destruct (Z.eqb_spec b 0); [done|]. rewrite IH; try lia; try done.
    + replace (Z.to_nat (i + 1)) with (Datatypes.S (Z.to_nat i)) by lia. by rewrite Z.add_assoc.
    + intros j Hj. rewrite lookup_insert_ne by lia. apply Hm. lia.
  - apply lookup_ge_None in Hb. rewrite drop_ge by lia. simpl. destruct Hs as [c ->].
    do 2 f_equal. lia.
Qed.

(** Copyout succeeds exactly on a non-empty mapped block below
    USERSPACETOP, and copyin then reads the same bytes back; whatever the
    result, memory outside the block, and all kernel memory, is unchanged, and
    no address becomes mapped or unmapped. *)
Theorem copyout_copyin s src a (len := Z.of_nat (length src)) : is_u32 a -> is_u32 len ->
  exists r s', copyout src a s = Ok r s' /\
    (r = Done tt <-> 0 < len /\ a + len <= USERSPACETOP /\
       forall i, (i < length src)%nat -> is_Some (vmem s !! (a + Z.of_nat i))) /\
    (r = Done tt -> copyin a len s' = Ok (Done src) s') /\
    (forall x, ~ (a <= x < a + len) \/ USERSPACETOP <= x -> vmem s' !! x = vmem s !! x) /\
    (forall x, is_Some (vmem s' !! x) <-> is_Some (vmem s !! x)).
Proof.
  intros Ha Hl. rewrite copyout_eq by done. fold len.
  assert (block_ok a len = true <-> 0 < len /\ a + len <= USERSPACETOP) as Hb.
  { unfold block_ok. rewrite andb_true_iff, Z.ltb_lt, Z.leb_le. done. }
  destruct (block_ok a len) eqn:Hk.
  2:{ exists (Err EFAULT), s. split; [done|]. split; [|done]. split; [done|].
      intros (? & ? & _). destruct Hb as [_ Hb]. by discriminate Hb. }
  destruct Hb as [Hb _]. destruct (Hb eq_refl) as [Hpos Htop].
  destruct (store_bytes (vmem s) a src) as [m ok] eqn:Hs.
  destruct (store_bytes_ok _ _ _ _ _ Hs) as [Hok Hld].
  exists (if ok then Done tt else Err EFAULT), (set_vmem m s). rewrite vmem_set. split_and!; [done|..].
  - destruct ok; naive_solver.
  - intros Hr. rewrite copyin_eq by done. rewrite Hk, vmem_set. unfold len. rewrite Nat2Z.id.
    by destruct ok; [rewrite Hld|].
  - intros x Hx. apply (store_bytes_frame _ _ _ _ _ _ Hs). fold len. lia.
  - intros x. by apply (store_bytes_mapped _ _ _ _ _ _ Hs).
Qed.

(** Copyinstr, for a user address and a length that do not wrap around:
    it returns the string of non-NUL bytes before the terminator when that
    terminator is mapped, within [len] and below USERSPACETOP; ENAMETOOLONG
    when [len] mapped non-NUL bytes precede USERSPACETOP; EFAULT when it meets
    an unmapped address or USERSPACETOP first.  It changes nothing. *)
Theorem copyinstr_exact s a len : is_u32 a -> is_u32 len -> 0 < len -> a + len <= 2 ^ 32 ->
  a < USERSPACETOP ->
  exists r, copyinstr a len s = Ok r s /\
    match r with
    | Done str => (0 ∉ str) /\ Z.of_nat (length str) < len /\
        a + Z.of_nat (length str) < USERSPACETOP /\
        load_bytes (vmem s) a (length str) = Some str /\
        vmem s !! (a + Z.of_nat (length str)) = Some 0
    | Err ENAMETOOLONG => a + len <= USERSPACETOP /\
        exists str, (0 ∉ str) /\ load_bytes (vmem s) a (Z.to_nat len) = Some str
    | Err e => e = EFAULT /\
        exists str, (0 ∉ str) /\ load_bytes (vmem s) a (length str) = Some str /\
          Z.of_nat (length str) < len /\
          (vmem s !! (a + Z.of_nat (length str)) = None \/
           a + Z.of_nat (length str) = USERSPACETOP)
    end.
Proof.
  intros Ha Hlu Hl Ht Hu. destruct (copyinstr_scan s a len Ha Hlu Hl Ht Hu) as (str & e & Hs & ->).
  eexists. split; [reflexivity|]. inversion Hs as [Hld Hn Hlt Hz|Hld Hn Hlt Hz|Hld Hn Heq]; subst e.
  - split_and!; try done; lia.
  - split; [done|]. exists str. split_and!; try done; [lia|by left].
  - destruct (Z.ltb_spec (USERSPACETOP - a) len).
    + split; [done|]. exists str. split_and!; try done; [lia|right; lia].
    + split; [lia|]. exists str. split; [done|]. by replace (Z.to_nat len) with (length str) by lia.
Qed.

(** copyoutstr into mapped memory with room stores the string and NUL. *)
Lemma copyoutstr_store s src a len : is_u32 a -> is_u32 len -> a + len <= 2 ^ 32 ->
  (0 ∉ src) -> Z.of_nat (length src) < len -> a + Z.of_nat (length src) < USERSPACETOP ->
  (forall j, 0 <= j <= Z.of_nat (length src) -> is_Some (vmem s !! (a + j))) ->
  exists m, copyoutstr src a len s = Ok (Done (Z.of_nat (length src) + 1)) (set_vmem m s) /\
    store_bytes (vmem s) a (src ++ [0]) = (m, true).
Proof.
  intros Ha Hlu Ht Hn Hl Hu Hm. unfold copyoutstr. rewrite (copycheck_ok a len Ha Hlu).
  destruct (Z.ltb_spec a USERSPACETOP), (Z.ltb_spec 0 len), (Z.leb_spec (a + len) (2 ^ 32)); try lia.
  simpl. unfold mbind, M_bind, get, copystr. rewrite (Z.min_r len (Z.min len _)) by lia.
  pose proof (copystr_loop_put src a (Z.to_nat (Z.min len (USERSPACETOP - a))) 0 (vmem s)) as Hp.
  unfold put_user in Hp. rewrite Hp by (done || lia). clear Hp.
  rewrite drop_0, Z.add_0_r. destruct (store_bytes (vmem s) a (src ++ [0])) as [m ok] eqn:Hs.
  destruct (store_bytes_ok _ _ _ _ _ Hs) as [Hok _]. exists m. split; [done|]. f_equal.
  apply Hok. intros i Hi. rewrite length_app in Hi. simpl in Hi. apply Hm. lia.
Qed.

(** A string without NUL written by copyoutstr to mapped user memory with
    room for it is read back by copyinstr. *)
Theorem copyoutstr_copyinstr s src a len : is_u32 a -> is_u32 len -> a + len <= 2 ^ 32 ->
  (0 ∉ src) -> Z.of_nat (length src) < len -> a + Z.of_nat (length src) < USERSPACETOP ->
  (forall j, 0 <= j <= Z.of_nat (length src) -> is_Some (vmem s !! (a + j))) ->
  exists s', copyoutstr src a len s = Ok (Done (Z.of_nat (length src) + 1)) s' /\
    copyinstr a len s' = Ok (Done src) s' /\
    forall x, ~ (a <= x <= a + Z.of_nat (length src)) -> vmem s' !! x = vmem s !! x.
Proof.
  intros Ha Hlu Ht Hn Hl Hu Hm.
  destruct (copyoutstr_store s src a len Ha Hlu Ht Hn Hl Hu Hm) as (m & E & Hs).
  destruct (store_bytes_ok _ _ _ _ _ Hs) as [_ Hld]. specialize (Hld eq_refl).
  rewrite length_app in Hld. simpl in Hld. apply load_bytes_Some in Hld as [_ Hld].
  assert (load_bytes m a (length src) = Some src) as Hlds.
  { apply load_bytes_Some. split; [done|]. intros i Hi. rewrite Hld, lookup_app_l by lia. done. }
  exists (set_vmem m s). split; [exact E|]. split.
  - destruct (copyinstr_scan (set_vmem m s) a len Ha Hlu) as (str & e & Hscan & ->); [lia..|].
    rewrite vmem_set in Hscan.
    assert (scan m a (Z.to_nat (Z.min len (USERSPACETOP - a))) src (Terminator (Z.of_nat (length src))))
      as Hsrc.
    { apply scan_end; [done|done|lia|]. rewrite Hld, lookup_app_r, Nat.sub_diag by lia. done. }
    by destruct (scan_unique _ _ _ _ _ _ _ Hscan Hsrc) as [-> ->].
  - intros x Hx. rewrite vmem_set. apply (store_bytes_frame _ _ _ _ _ _ Hs).
    rewrite length_app. simpl. lia.
Qed.
End Spec.

(** ** Concrete memory *)

#[export] Instance HasMem_map : HasMem (gmap Z Z) :=
  {| vmem := id; set_vmem m _ := m; vmem_set _ _ := eq_refl |}.

(** Four mapped bytes at 4096, holding a string of two. *)
Definition demo_mem : gmap Z Z :=
  <[4096 := 104]> (<[4097 := 105]> (<[4098 := 0]> (<[4099 := 33]> ∅))).

Lemma copyout_copyin_witness : exists s',
  copyout [1; 2; 3] 4096 demo_mem = Ok (Done tt) s' /\ copyin 4096 3 s' = Ok (Done [1; 2; 3]) s'.
Proof.
  destruct (copyout_copyin demo_mem [1; 2; 3] 4096) as (r & s' & Hr & Hiff & Hback & _);
    [unfold is_u32; simpl; lia..|].
  assert (r = Done tt) as -> by (apply Hiff; split_and!; [done|done|];
    intros [|[|[|i]]] Hi; simpl in Hi; [by eexists..|lia]).
  exists s'. split; [exact Hr|]. by apply Hback.
Defined.

Lemma copyinstr_exact_witness : exists r, copyinstr 4096 10 demo_mem = Ok r demo_mem /\
  r = Done [104; 105].
Proof.
  destruct (copyinstr_exact demo_mem 4096 10) as (r & Hr & _); [unfold is_u32, USERSPACETOP; lia..|].
  exists r. split; [exact Hr|]. revert Hr. vm_compute. by intros [= <-].
Defined.

Lemma copyoutstr_copyinstr_witness : exists s',
  copyoutstr [65; 66; 67] 4096 4 demo_mem = Ok (Done 4) s' /\
  copyinstr 4096 4 s' = Ok (Done [65; 66; 67]) s'.
Proof.
  destruct (copyoutstr_copyinstr demo_mem [65; 66; 67] 4096 4) as (s' & H1 & H2 & _);
    [unfold is_u32, USERSPACETOP; simpl; lia..|set_solver|simpl; lia|unfold USERSPACETOP; simpl; lia| |].
  - intros j Hj. simpl in Hj. assert (j = 0 \/ j = 1 \/ j = 2 \/ j = 3) as Hc by lia.
    destruct Hc as [-> | [-> | [-> | ->]]]; by eexists.
  - exists s'. by split.
Defined.

End Copyinout.
