(* ===== verification/Uio.v ===== *)
(** * Moving data through a uio: [src/kern/lib/uio.c]

    [uiomove] copies between a kernel buffer and the blocks of a uio, in user
    or kernel space, and [uiomovezeros].  The kernel buffer is a list of bytes:
    the bytes sent for UIO_READ, the bytes received for UIO_WRITE. *)

From S2P Require Import Prelude Kern Interfaces Copyinout.
Open Scope Z_scope.

(** proc_getas(): the current process's address space. *)
Class HasSpace (S : Type) := { proc_getas : S -> Z }.

Module Uio.
Import Copyinout.

Section Ops.
Context {S : Type} `{HasMem S} `{HasSpace S}.

(** The transfer of one block of [size] bytes: memmove in kernel space,
    copyout or copyin in user space.  Gives the bytes received. *)
Definition move_block (u : uio) (base : Z) (out : list Z) (size : Z) : M S (res (list Z)) :=
  match uio_segflg u, uio_dir u with
  | UIO_SYSSPACE, UIO_READ =>
      s ← get;
      let (m, ok) := store_bytes (vmem s) base (take (Z.to_nat size) out) in
      if ok then modify (set_vmem m) ;; mret (Done []) else raise FBounds
  | UIO_SYSSPACE, UIO_WRITE =>
      s ← get;
      bs ← deref FBounds (load_bytes (vmem s) base (Z.to_nat size));
      mret (Done bs)
  | _, UIO_READ =>
      r ← copyout (take (Z.to_nat size) out) base;
      mret (match r with Done _ => Done [] | Err e => Err e end)
  | _, UIO_WRITE => copyin base size
  end.

(** The while loop of uiomove, with [n] bytes to go: the result, the uio, and
    the bytes received so far. *)
Fixpoint uiomove_loop (fuel : nat) (out : list Z) (n : Z) (u : uio) (got : list Z) :
    M S (res unit * uio * list Z) :=
  if negb ((n >? 0) && (uio_resid u >? 0)) then mret (Done tt, u, got) else
  match fuel, uio_iov u with
  | O, _ => raise FFuel
  | _, [] => raise FBounds
  | Datatypes.S fuel', iov :: rest =>
      let size := if iov_len iov >? n then n else iov_len iov in
      if size =? 0 then
        match rest with
        | [] => raise FPanic
        | _ => uiomove_loop fuel' out n
                 (Uio rest (uio_offset u) (uio_resid u) (uio_segflg u) (uio_dir u) (uio_space u)) got
        end
      else
      r ← move_block u (iov_base iov) out size;
      match r with
      | Err e => mret (Err e, u, got)
      | Done bs =>
          let iov' := Iovec (iov_base iov + size) (iov_len iov - size) in
          uiomove_loop fuel' (drop (Z.to_nat size) out) (n - size)
            (Uio (iov' :: rest) (s64 (uio_offset u + size)) (u32 (uio_resid u - size))
                 (uio_segflg u) (uio_dir u) (uio_space u)) (got ++ bs)
      end
  end.

(** int uiomove(void *ptr, size_t n, struct uio *uio).  The loop visits each
    block at most twice: once to use it and once to step over it. *)
Definition uiomove (out : list Z) (n : Z) (u : uio) : M S (res unit * uio * list Z) :=
  s ← get;
  (match uio_segflg u with
   | UIO_SYSSPACE => kassert (uio_space u =? 0)
   | _ => kassert (uio_space u =? proc_getas s)
   end) ;;
  uiomove_loop (2 * length (uio_iov u)) out n u [].

(** int uiomovezeros(size_t n, struct uio *uio), by the number of times the
    16-byte buffer is used. *)
Fixpoint uiomovezeros_loop (fuel : nat) (n : Z) (u : uio) : M S (res unit * uio) :=
  if negb (n >? 0) then mret (Done tt, u) else
  match fuel with
  | O => raise FFuel
  | Datatypes.S fuel' =>
      let amt := if 16 >? n then n else 16 in
      x ← uiomove (replicate (Z.to_nat amt) 0) amt u;
      match x with
      | (Err e, u', _) => mret (Err e, u')
      | (Done _, u', _) => uiomovezeros_loop fuel' (n - amt) u'
      end
  end.

Definition uiomovezeros (n : Z) (u : uio) : M S (res unit * uio) :=
  kassert (bool_decide (uio_dir u = UIO_READ)) ;;
  uiomovezeros_loop (Z.to_nat ((n + 15) / 16)) n u.
End Ops.

(** ** Correctness *)

(** The bytes the blocks of a uio have room for. *)
Definition room (iov : list iovec) : Z := foldr (fun v acc => iov_len v + acc) 0 iov.

(** A block whose addresses, the end included, are 32-bit. *)
Definition iov_ok (v : iovec) : Prop :=
  is_u32 (iov_base v) /\ 0 <= iov_len v /\ is_u32 (iov_base v + iov_len v).

(** A uio as its users set it up: [uio_resid] is the length of its blocks. *)
Record uio_ok (u : uio) : Prop := UioOk {
  uok_iov : Forall iov_ok (uio_iov u);
  uok_resid : uio_resid u = room (uio_iov u);
  uok_size : is_u32 (uio_resid u)
}.

Lemma room_nonneg iov : Forall iov_ok iov -> 0 <= room iov.
Proof. induction 1 as [|v iov (_ & Hl & _) _ IH]; simpl; lia. Qed.

(** [u'] is [u] after [k] bytes went through. *)
Record advanced (u u' : uio) (k : Z) : Prop := Advanced {
  adv_off : uio_offset u' = uio_offset u + k;
  adv_resid : uio_resid u' = uio_resid u - k;
  adv_room : room (uio_iov u') = room (uio_iov u) - k;
  adv_flags : uio_segflg u' = uio_segflg u /\ uio_dir u' = uio_dir u /\ uio_space u' = uio_space u
}.

Lemma advanced_refl u : advanced u u 0.
Proof. split; try lia. done. Qed.

Lemma advanced_trans u1 u2 u3 k1 k2 : advanced u1 u2 k1 -> advanced u2 u3 k2 -> advanced u1 u3 (k1 + k2).
Proof.
  intros [A1 A2 A3 (A4 & A5 & A6)] [B1 B2 B3 (B4 & B5 & B6)]. split; try lia.
  split_and!; congruence.
Qed.

Section Spec.
Context {S : Type} `{HasMem S} `{HasSpace S}.
Implicit Types s : S.

(** A block in user space is transferred without a kernel fault. *)
Lemma move_block_user u base out size s : uio_segflg u <> UIO_SYSSPACE -> is_u32 base -> is_u32 size ->
  wp (move_block u base out size) (fun r s' => forall e, r = Err e -> e = EFAULT) s.
Proof.
  intros Hu Hb Hs. assert (is_u32 (Z.of_nat (length (take (Z.to_nat size) out)))) as Hl.
  { rewrite length_take. unfold is_u32 in *. lia. }
  unfold move_block. destruct (uio_segflg u); try done; destruct (uio_dir u).
  1, 3: rewrite wp_bind; apply copyout_wp; [done|done|by intros e [= <-]|];
        intros m ok _; apply wp_ret; destruct ok; by intros e [= <-].
  all: apply copyin_wp; [done|done| |by intros e [= <-]]; done.
Qed.

(** Iterations the loop may need: two per block, one if it is used up. *)
Definition visits (iov : list iovec) : nat :=
  match iov with
  | [] => 0
  | v :: rest => (if Z.eqb (iov_len v) 0 then 1 else 2) + 2 * length rest
  end%nat.

Lemma visits_le iov : (visits iov <= 2 * length iov)%nat.
Proof. destruct iov as [|v iov]; simpl; [lia|]. destruct (Z.eqb _ _); lia. Qed.

(** The outcome of moving at most [n] bytes. *)
Definition moved (u : uio) (n : Z) (x : res unit * uio * list Z) : Prop :=
  let '(r, u', _) := x in
  exists k, 0 <= k <= Z.min n (uio_resid u) /\ advanced u u' k /\ uio_ok u' /\
    match r with Done _ => k = Z.min n (uio_resid u) | Err e => e = EFAULT end.

Lemma moved_stop u n got : uio_ok u -> 0 <= n -> n = 0 \/ uio_resid u = 0 ->
  moved u n (Done tt, u, got).
Proof.
  intros Hu Hn Hz. pose proof (uok_size _ Hu) as Hs. unfold is_u32 in Hs.
  exists 0. split; [lia|]. split; [apply advanced_refl|]. split; [done|lia].
Qed.

Lemma moved_step u u1 n n1 x size : advanced u u1 size -> n = n1 + size ->
  0 <= size <= Z.min n (uio_resid u) -> moved u1 n1 x -> moved u n x.
Proof.
  intros Ha -> Hs. destruct x as [[r u'] got]. intros (k & Hk & Ha1 & Hv & Hr).
  rewrite (adv_resid _ _ _ Ha) in *. exists (size + k). split; [lia|].
  split; [by eapply advanced_trans|]. split; [done|]. destruct r; [lia|done].
Qed.

(** The uio after [size] bytes of its first block are used. *)
Definition used (u : uio) (v : iovec) (rest : list iovec) (size : Z) : uio :=
  Uio (Iovec (iov_base v + size) (iov_len v - size) :: rest) (s64 (uio_offset u + size))
      (u32 (uio_resid u - size)) (uio_segflg u) (uio_dir u) (uio_space u).

Lemma used_ok u v rest size : uio_ok u -> uio_iov u = v :: rest -> 0 <= size <= iov_len v ->
  is_s64 (uio_offset u + size) -> advanced u (used u v rest size) size /\ uio_ok (used u v rest size).
Proof.
  intros [Hv Hr Hs] Hiov Hsz Ho. rewrite Hiov in Hv, Hr. simpl in Hr.
  inversion Hv as [|? ? (Hb & Hl & Hbe) Hrest]; subst. pose proof (room_nonneg _ Hrest).
  assert (u32 (uio_resid u - size) = uio_resid u - size) as Hu by (apply u32_id; unfold is_u32 in *; lia).
  unfold used. split; split; simpl; rewrite ?Hiov, ?Hu; simpl; try done; try lia.
  - by apply s64_id.
  - constructor; [|done]. unfold iov_ok, is_u32 in *. simpl. lia.
  - unfold is_u32 in *. lia.
Qed.

Lemma uiomove_loop_done fuel out n u got : n <= 0 ->
  uiomove_loop (S := S) fuel out n u got = mret (Done tt, u, got).
Proof. intros Hn. destruct fuel; simpl; by destruct (Z.gtb_spec n 0); [lia|]. Qed.

Lemma uiomove_loop_user fuel out n u got s :
  uio_segflg u <> UIO_SYSSPACE -> uio_ok u -> 0 <= n ->
  is_s64 (uio_offset u) -> is_s64 (uio_offset u + uio_resid u) ->
  (visits (uio_iov u) <= fuel)%nat ->
  wp (uiomove_loop fuel out n u got) (fun x s' => moved u n x) s.
Proof.
  revert out n u got s. induction fuel as [|fuel IH]; intros out n u got s Hsp Hu Hn Ho1 Ho2 Hf;
    pose proof (uok_size _ Hu) as Hsz; simpl uiomove_loop;
    destruct (Z.gtb_spec n 0), (Z.gtb_spec (uio_resid u) 0); simpl;
    try (apply moved_stop; [done|lia|unfold is_u32 in Hsz; lia]);
    destruct (uio_iov u) as [|v rest] eqn:Hiov; try (rewrite (uok_resid _ Hu), Hiov in *; simpl in *; lia);
    [simpl in Hf; destruct (iov_len v =? 0); simpl in Hf; lia|].
  pose proof (uok_iov _ Hu) as Hv. pose proof (uok_resid _ Hu) as Hr. rewrite Hiov in Hv, Hr.
  inversion Hv as [|? ? (Hb & Hl & Hbe) Hrest]; subst. pose proof (room_nonneg _ Hrest).
  set (size := if iov_len v >? n then n else iov_len v).
  assert (size = Z.min n (iov_len v)) as Hmin by (unfold size; destruct (Z.gtb_spec (iov_len v) n); lia).
  simpl in Hr, Hf. destruct (Z.eqb_spec size 0) as [Hz|Hz].
  - assert (iov_len v = 0) as Hv0 by lia. rewrite Hv0 in *. simpl in Hf.
    destruct rest as [|v2 rest]; [simpl in Hr; lia|].
    eapply wp_mono; [apply IH; simpl; try done; try lia|].
    { pose proof (visits_le (v2 :: rest)). simpl in *. lia. }
    intros x s' Hx. eapply (moved_step _ _ n n _ 0); [|lia|lia|exact Hx].
    split; simpl; rewrite ?Hiov; simpl; try lia; done.
  - rewrite wp_bind. eapply wp_mono; [apply move_block_user; [done|done|unfold is_u32 in *; lia]|].
    destruct (used_ok u v rest size Hu Hiov) as [Hadv Hok]; [lia|unfold is_s64 in *; lia|].
    intros [bs|e] s' He; cbn beta iota zeta.
    + destruct (decide (n <= size)) as [Hle|Hgt].
      { rewrite uiomove_loop_done by lia. apply wp_ret.
        eapply (moved_step _ (used u v rest size) _ (n - size)); [done|lia|lia|].
        apply moved_stop; [done|lia|lia]. }
      eapply wp_mono; [apply (IH _ (n - size) (used u v rest size)); try done; try lia|].
      * rewrite (adv_off _ _ _ Hadv). unfold is_s64 in *. lia.
      * rewrite (adv_off _ _ _ Hadv), (adv_resid _ _ _ Hadv). unfold is_s64 in *. lia.
      * simpl. destruct (Z.eqb_spec (iov_len v - size) 0); [|lia].
        rewrite (proj2 (Z.eqb_neq (iov_len v) 0)) in Hf by lia. lia.
      * intros x s'' Hx. eapply (moved_step _ _ _ (n - size)); [done|lia|lia|done].
    + apply wp_ret. rewrite (He e) by done. exists 0.
      split; [lia|]. split; [apply advanced_refl|]. done.
Qed.

(** Moving at most [n] bytes between the kernel and a user-space uio whose
    residue is the length of its blocks never faults in the kernel and always
    ends.  Some [k] bytes go through: offset and residue move by [k], the
    blocks lose [k] bytes, the uio stays well formed.  On success [k] is the
    smaller of [n] and the residue; the only error is EFAULT. *)
Theorem uiomove_user s out n u :
  uio_segflg u <> UIO_SYSSPACE -> uio_space u = proc_getas s -> uio_ok u -> 0 <= n ->
  is_s64 (uio_offset u) -> is_s64 (uio_offset u + uio_resid u) ->
  exists r u' got s', uiomove out n u s = Ok (r, u', got) s' /\
    exists k, 0 <= k <= Z.min n (uio_resid u) /\ advanced u u' k /\ uio_ok u' /\
      match r with Done _ => k = Z.min n (uio_resid u) | Err e => e = EFAULT end.
Proof.
  intros Hsp Has Hu Hn Ho1 Ho2.
  pose proof (uiomove_loop_user (2 * length (uio_iov u)) out n u [] s Hsp Hu Hn Ho1 Ho2
    (visits_le _)) as Hw.
  apply wp_ok in Hw as ([[r u'] got] & s' & He & Hm). exists r, u', got, s'. split; [|exact Hm].
  unfold uiomove, mbind, M_bind, get, kassert. rewrite Has, Z.eqb_refl.
  destruct (uio_segflg u); done.
Qed.

(** For a uio made by uio_uinit, one call of uiomove is one copyout (or
    copyin) of the smaller of [n] and the buffer's length. *)
Theorem uiomove_uinit s out n buf len pos dir :
  is_u32 buf -> 0 < len -> is_u32 (buf + len) -> 0 < n -> is_s64 pos -> is_s64 (pos + len) ->
  let size := Z.min n len in
  let u := uio_uinit (proc_getas s) buf len pos dir in
  let u' := Uio [Iovec (buf + size) (len - size)] (pos + size) (len - size)
                UIO_USERSPACE dir (proc_getas s) in
  uiomove out n u s =
  match dir with
  | UIO_READ => (r ← copyout (take (Z.to_nat size) out) buf;
                 mret (r, match r with Done _ => u' | Err _ => u end, [])) s
  | UIO_WRITE => (r ← copyin buf size;
                  mret (match r with Done bs => (Done tt, u', bs) | Err e => (Err e, u, []) end)) s
  end.
Proof.
  intros Hb Hl Hbl Hn Hp Hpl. cbv zeta. unfold uiomove, mbind, M_bind, get, kassert. simpl.
  rewrite Z.eqb_refl. destruct (Z.gtb_spec n 0), (Z.gtb_spec len 0); try lia. simpl.
  assert ((if len >? n then n else len) = Z.min n len) as -> by (destruct (Z.gtb_spec len n); lia).
  destruct (Z.eqb_spec (Z.min n len) 0); [lia|].
  rewrite s64_id by (unfold is_s64 in *; lia). rewrite u32_id by (unfold is_u32 in *; lia).
  assert (negb ((n - Z.min n len >? 0) && (len - Z.min n len >? 0)) = true) as Hstop.
  { destruct (Z.gtb_spec (n - Z.min n len) 0), (Z.gtb_spec (len - Z.min n len) 0); simpl; try done; lia. }
  destruct dir; unfold move_block, mbind, M_bind; cbn [uio_uinit uio_segflg uio_dir].
  - destruct (copyout (take (Z.to_nat (Z.min n len)) out) buf s) as [[[]|e] s'|f]; try done.
    unfold mret, M_ret. simpl. by rewrite Hstop.
  - destruct (copyin buf (Z.min n len) s) as [[bs|e] s'|f]; try done.
    unfold mret, M_ret. simpl. by rewrite Hstop.
Qed.
End Spec.

(** ** Concrete transfer *)

#[export] Instance HasSpace_map : HasSpace (gmap Z Z) := {| proc_getas _ := 1 |}.

(** A read of five bytes into two blocks of user memory, the first one empty. *)
Definition demo_uio : uio := Uio [Iovec 4096 0; Iovec 4097 3] 10 3 UIO_USERSPACE UIO_READ 1.

Lemma uiomove_user_witness : exists u' s',
  uiomove [7; 8; 9; 10; 11] 5 demo_uio demo_mem = Ok (Done tt, u', []) s' /\
  uio_offset u' = 13 /\ uio_resid u' = 0 /\ load_bytes s' 4096 4 = Some [104; 7; 8; 9].
Proof.
  destruct (uiomove_user demo_mem [7; 8; 9; 10; 11] 5 demo_uio) as (r & u' & got & s' & He & k & Hk);
    [done|done| |lia|unfold is_s64; simpl; lia..|].
  { split; [|done|unfold is_u32; simpl; lia].
    repeat constructor; unfold iov_ok, is_u32; simpl; lia. }
  clear Hk. assert (uiomove [7; 8; 9; 10; 11] 5 demo_uio demo_mem =
    Ok (Done tt, Uio [Iovec 4100 0] 13 0 UIO_USERSPACE UIO_READ 1, [])
       (store_bytes demo_mem 4097 [7; 8; 9]).1) as Hc by (vm_compute; reflexivity).
  rewrite Hc in He. injection He as <- <- <- <-.
  eexists _, _. split; [exact Hc|]. split; [done|]. split; [done|]. vm_compute. reflexivity.
Defined.

Lemma uiomove_uinit_witness : exists u' s',
  uiomove [7; 8] 2 (uio_uinit (proc_getas demo_mem) 4096 4 100 UIO_READ) demo_mem = Ok (Done tt, u', []) s' /\
  uio_offset u' = 102.
Proof.
  rewrite (uiomove_uinit demo_mem [7; 8] 2 4096 4 100 UIO_READ) by (unfold is_u32, is_s64; lia).
  eexists _, _. split; [vm_compute; reflexivity|done].
Defined.

End Uio.
