(* ===== verification/Vfs.v ===== *)
(** * The VFS layer: vnodes, devices, path names and mounts

    [src/kern/vfs/vnode.c], [device.c], [devnull.c], [vfslist.c],
    [vfslookup.c], [vfscwd.c], [vfspath.c] and [vfsfail.c], over the
    interfaces of [src/kern/include/vnode.h], [fs.h] and [device.h].

    Vnodes, devices and file systems are named by their address; address 0 is
    NULL.  File systems and hardware drivers are reached through tables of
    function pointers only ([struct vnode_ops], [fs_ops], [device_ops]); they
    are the class [Backend].  Path names are lists of bytes without terminator;
    the functions overwrite the path buffer of their caller, which no caller
    reads again.  Messages printed by kprintf are not modelled. *)

From S2P Require Import Prelude Kern Array Interfaces Copyinout Uio.
Open Scope Z_scope.

(** enum of the operation tables a vnode can have: the table of device.c, the
    tables of file systems, and NULL after vnode_cleanup. *)
Inductive vnode_ops : Type := dev_vnode_ops | fs_vnode_ops | no_vnode_ops.

(** struct vnode; [vn_fs] is 0 for devices. *)
Record vnode := Vnode { vn_refcount : Z; vn_fs : Z; vn_data : Z; vn_ops : vnode_ops }.

(** The device operations: those of devnull.c, and those of drivers. *)
Inductive device_ops : Type := null_devops | drv_devops.

(** struct device *)
Record device := Device {
  d_ops : device_ops; d_blocks : Z; d_blocksize : Z; d_devnumber : Z
}.

(** The field kd_fs: NULL, SWAP_FS, or a file system. *)
Inductive kfs : Type := NoFs | SWAP_FS | Fs (fs : Z).
#[export] Instance kfs_eq_dec : EqDecision kfs.
Proof. solve_decision. Defined.

(** struct knowndev; [kd_device] is 0 for a file system without device. *)
Record knowndev := Knowndev {
  kd_name : list Z; kd_rawname : option (list Z); kd_device : Z; kd_vnode : Z; kd_fs : kfs
}.

(** The state of the layer: the vnodes and devices that exist, the static
    variables of vfslist.c and vfslookup.c, the current directory of each
    process, and what the layer reads of its environment (current thread and
    process, memory, allocator, the state [G] of file systems and drivers). *)
Record vstate (G : Type) := VState {
  vnodes : gmap Z vnode;
  devices : gmap Z device;
  knowndevs : Array.array knowndev;
  biglock : option Z;
  biglock_depth : Z;
  bootfs_vnode : Z;
  p_cwd : gmap Z Z;
  v_thread : Z;
  v_proc : Z;
  v_space : Z;
  v_mem : gmap Z Z;
  v_allocs : list bool;
  v_next : Z;
  v_backend : G
}.
Arguments VState {G}. Arguments vnodes {G}. Arguments devices {G}. Arguments knowndevs {G}.
Arguments biglock {G}. Arguments biglock_depth {G}. Arguments bootfs_vnode {G}. Arguments p_cwd {G}.
Arguments v_thread {G}. Arguments v_proc {G}. Arguments v_space {G}. Arguments v_mem {G}.
Arguments v_allocs {G}. Arguments v_next {G}. Arguments v_backend {G}.

Section Setters.
Context {G : Type}.
Implicit Types s : vstate G.

Definition set_vnodes x s : vstate G :=
  VState x (devices s) (knowndevs s) (biglock s) (biglock_depth s) (bootfs_vnode s) (p_cwd s)
    (v_thread s) (v_proc s) (v_space s) (v_mem s) (v_allocs s) (v_next s) (v_backend s).
Definition set_devices x s : vstate G :=
  VState (vnodes s) x (knowndevs s) (biglock s) (biglock_depth s) (bootfs_vnode s) (p_cwd s)
    (v_thread s) (v_proc s) (v_space s) (v_mem s) (v_allocs s) (v_next s) (v_backend s).
Definition set_knowndevs x s : vstate G :=
  VState (vnodes s) (devices s) x (biglock s) (biglock_depth s) (bootfs_vnode s) (p_cwd s)
    (v_thread s) (v_proc s) (v_space s) (v_mem s) (v_allocs s) (v_next s) (v_backend s).
Definition set_biglock x d s : vstate G :=
  VState (vnodes s) (devices s) (knowndevs s) x d (bootfs_vnode s) (p_cwd s)
    (v_thread s) (v_proc s) (v_space s) (v_mem s) (v_allocs s) (v_next s) (v_backend s).
Definition set_bootfs x s : vstate G :=
  VState (vnodes s) (devices s) (knowndevs s) (biglock s) (biglock_depth s) x (p_cwd s)
    (v_thread s) (v_proc s) (v_space s) (v_mem s) (v_allocs s) (v_next s) (v_backend s).
Definition set_cwd x s : vstate G :=
  VState (vnodes s) (devices s) (knowndevs s) (biglock s) (biglock_depth s) (bootfs_vnode s) x
    (v_thread s) (v_proc s) (v_space s) (v_mem s) (v_allocs s) (v_next s) (v_backend s).
Definition set_mem x s : vstate G :=
  VState (vnodes s) (devices s) (knowndevs s) (biglock s) (biglock_depth s) (bootfs_vnode s) (p_cwd s)
    (v_thread s) (v_proc s) (v_space s) x (v_allocs s) (v_next s) (v_backend s).
Definition set_v_allocs x s : vstate G :=
  VState (vnodes s) (devices s) (knowndevs s) (biglock s) (biglock_depth s) (bootfs_vnode s) (p_cwd s)
    (v_thread s) (v_proc s) (v_space s) (v_mem s) x (v_next s) (v_backend s).
Definition set_next x s : vstate G :=
  VState (vnodes s) (devices s) (knowndevs s) (biglock s) (biglock_depth s) (bootfs_vnode s) (p_cwd s)
    (v_thread s) (v_proc s) (v_space s) (v_mem s) (v_allocs s) x (v_backend s).
Definition set_backend x s : vstate G :=
  VState (vnodes s) (devices s) (knowndevs s) (biglock s) (biglock_depth s) (bootfs_vnode s) (p_cwd s)
    (v_thread s) (v_proc s) (v_space s) (v_mem s) (v_allocs s) (v_next s) x.
End Setters.

#[export] Instance vstate_alloc {G} : HasAlloc (vstate G) :=
  {| allocs := v_allocs; set_allocs := set_v_allocs |}.
#[export] Instance vstate_mem {G} : HasMem (vstate G) :=
  {| vmem := v_mem; set_vmem := set_mem; vmem_set _ _ := eq_refl |}.
#[export] Instance vstate_space {G} : HasSpace (vstate G) := {| proc_getas := v_space |}.

(** What is behind the function pointers: the operations of file systems on
    their vnodes, of mounted file systems, and of device drivers. *)
Class Backend (G : Type) := {
  fop_eachopen : Z -> Z -> M (vstate G) (res unit);
  fop_reclaim : Z -> M (vstate G) (res unit);
  fop_read : Z -> uio -> M (vstate G) (res unit * uio);
  fop_readlink : Z -> uio -> M (vstate G) (res unit * uio);
  fop_getdirentry : Z -> uio -> M (vstate G) (res unit * uio);
  fop_write : Z -> uio -> M (vstate G) (res unit * uio);
  fop_ioctl : Z -> Z -> Z -> M (vstate G) (res unit);
  fop_stat : Z -> M (vstate G) (res stat);
  fop_gettype : Z -> M (vstate G) (res Z);
  fop_isseekable : Z -> M (vstate G) bool;
  fop_fsync : Z -> M (vstate G) (res unit);
  fop_truncate : Z -> Z -> M (vstate G) (res unit);
  fop_namefile : Z -> uio -> M (vstate G) (res unit * uio);
  fop_creat : Z -> list Z -> bool -> Z -> M (vstate G) (res Z);
  fop_symlink : Z -> list Z -> list Z -> M (vstate G) (res unit);
  fop_mkdir : Z -> list Z -> Z -> M (vstate G) (res unit);
  fop_link : Z -> list Z -> Z -> M (vstate G) (res unit);
  fop_remove : Z -> list Z -> M (vstate G) (res unit);
  fop_rmdir : Z -> list Z -> M (vstate G) (res unit);
  fop_rename : Z -> list Z -> Z -> list Z -> M (vstate G) (res unit);
  fop_lookup : Z -> list Z -> M (vstate G) (res Z);
  fop_lookparent : Z -> list Z -> Z -> M (vstate G) (res (Z * list Z));
  fsop_sync : Z -> M (vstate G) (res unit);
  fsop_getvolname : Z -> M (vstate G) (option (list Z));
  fsop_getroot : Z -> M (vstate G) (res Z);
  fsop_unmount : Z -> M (vstate G) (res unit);
  drv_eachopen : Z -> Z -> M (vstate G) (res unit);
  drv_io : Z -> uio -> M (vstate G) (res unit * uio);
  drv_ioctl : Z -> Z -> Z -> M (vstate G) (res unit)
}.

Module Vfs.

(** File types, [src/kern/include/kern/stattypes.h] *)
Definition S_IFREG : Z := 4096.
Definition S_IFDIR : Z := 8192.
Definition S_IFCHR : Z := 24576.
Definition S_IFBLK : Z := 28672.

(** O_* flags tested as bits. *)
Definition has_flag (flags f : Z) : bool := negb (Z.land flags f =? 0).

(** !strcmp(a, b) *)
Definition streq (a b : list Z) : bool := bool_decide (a = b).

Definition COLON : Z := 58.
Definition SLASH : Z := 47.

Section Ops.
Context {G : Type} `{Backend G}.
Abbreviation V := (vstate G).

(** A pointer to a vnode is followed. *)
Definition get_vnode (v : Z) : M V vnode :=
  if v =? 0 then raise FNull else s ← get; deref FDangling (vnodes s !! v).
Definition put_vnode (v : Z) (x : vnode) : M V unit :=
  modify (fun s => set_vnodes (<[v := x]> (vnodes s)) s).
Definition get_device (d : Z) : M V device :=
  if d =? 0 then raise FNull else s ← get; deref FDangling (devices s !! d).

(** kmalloc of an object whose address matters: 0 when out of memory. *)
Definition kmalloc_addr : M V Z :=
  ok ← kmalloc;
  if negb ok then mret 0 else
  s ← get; modify (set_next (v_next s + 1)) ;; mret (v_next s).

(** ** vnode.c *)

(** int vnode_init(vn, ops, fs, fsdata) *)
Definition vnode_init (vn : Z) (ops : vnode_ops) (fs fsdata : Z) : M V unit :=
  kassert (negb (vn =? 0)) ;; put_vnode vn (Vnode 1 fs fsdata ops).

(** void vnode_cleanup(struct vnode *vn) *)
Definition vnode_cleanup (vn : Z) : M V unit :=
  x ← get_vnode vn;
  kassert (vn_refcount x =? 1) ;;
  put_vnode vn (Vnode 0 0 0 no_vnode_ops).

(** void vnode_check(struct vnode *v, const char *opstr) *)
Definition vnode_check (v : Z) : M V vnode :=
  if v =? 0 then raise FPanic else
  x ← get_vnode v;
  kassert (match vn_ops x with no_vnode_ops => false | _ => true end) ;;
  kassert (vn_refcount x >? 0) ;;
  mret x.

(** void vnode_incref(struct vnode *vn) *)
Definition vnode_incref (vn : Z) : M V unit :=
  kassert (negb (vn =? 0)) ;;
  x ← get_vnode vn;
  put_vnode vn (Vnode (vn_refcount x + 1) (vn_fs x) (vn_data x) (vn_ops x)).

(** static int dev_reclaim(struct vnode *v) *)
Definition dev_reclaim (v : Z) : M V (res unit) := mret (Done tt).

Definition VOP_RECLAIM (vn : Z) : M V (res unit) :=
  x ← vnode_check vn;
  match vn_ops x with dev_vnode_ops => dev_reclaim vn | _ => fop_reclaim vn end.

(** void vnode_decref(struct vnode *vn); a failed reclaim is only reported
    on the console. *)
Definition vnode_decref (vn : Z) : M V unit :=
  kassert (negb (vn =? 0)) ;;
  x ← get_vnode vn;
  kassert (vn_refcount x >? 0) ;;
  if vn_refcount x >? 1 then
    put_vnode vn (Vnode (vn_refcount x - 1) (vn_fs x) (vn_data x) (vn_ops x))
  else VOP_RECLAIM vn ;; mret tt.

Definition VOP_INCREF := vnode_incref.
Definition VOP_DECREF := vnode_decref.

(** ** devnull.c *)

Definition nullopen (dev openflags : Z) : M V (res unit) := mret (Done tt).
(** static int nullio(struct device *dev, struct uio *uio) *)
Definition nullio (dev : Z) (u : uio) : M V (res unit * uio) :=
  mret (Done tt,
        match uio_dir u with
        | UIO_WRITE => Interfaces.Uio (uio_iov u) (uio_offset u) 0 (uio_segflg u) (uio_dir u) (uio_space u)
        | UIO_READ => u
        end).
Definition nullioctl (dev op data : Z) : M V (res unit) := mret (Err EINVAL).

(** DEVOP_EACHOPEN, DEVOP_IO, DEVOP_IOCTL of [src/kern/include/device.h] *)
Definition DEVOP_EACHOPEN (d flags : Z) : M V (res unit) :=
  x ← get_device d;
  match d_ops x with null_devops => nullopen d flags | drv_devops => drv_eachopen d flags end.
Definition DEVOP_IO (d : Z) (u : uio) : M V (res unit * uio) :=
  x ← get_device d;
  match d_ops x with null_devops => nullio d u | drv_devops => drv_io d u end.
Definition DEVOP_IOCTL (d op data : Z) : M V (res unit) :=
  x ← get_device d;
  match d_ops x with null_devops => nullioctl d op data | drv_devops => drv_ioctl d op data end.

(** ** device.c *)

(** static int dev_eachopen(struct vnode *v, int flags) *)
Definition dev_eachopen (v flags : Z) : M V (res unit) :=
  x ← get_vnode v;
  if has_flag flags (Z.lor (Z.lor (Z.lor O_CREAT O_TRUNC) O_EXCL) O_APPEND)
  then mret (Err EINVAL) else DEVOP_EACHOPEN (vn_data x) flags.

(** static int dev_tryseek(struct device *d, off_t pos): C's truncating
    division and remainder. *)
Definition dev_tryseek (d : device) (pos : Z) : res unit :=
  if d_blocks d >? 0 then
    if negb (Z.rem pos (d_blocksize d) =? 0) then Err EINVAL else
    if Z.quot pos (d_blocksize d) >=? d_blocks d then Err EINVAL else Done tt
  else Done tt.

(** static int dev_read, dev_write(struct vnode *v, struct uio *uio) *)
Definition dev_rw (dir : uio_rw) (v : Z) (u : uio) : M V (res unit * uio) :=
  x ← get_vnode v;
  d ← get_device (vn_data x);
  match dev_tryseek d (uio_offset u) with
  | Err e => mret (Err e, u)
  | Done _ => kassert (bool_decide (uio_dir u = dir)) ;; DEVOP_IO (vn_data x) u
  end.
Definition dev_read := dev_rw UIO_READ.
Definition dev_write := dev_rw UIO_WRITE.

(** static int dev_ioctl(struct vnode *v, int op, userptr_t data) *)
Definition dev_ioctl (v op data : Z) : M V (res unit) :=
  x ← get_vnode v; DEVOP_IOCTL (vn_data x) op data.

(** static int dev_gettype(struct vnode *v, mode_t *ret) *)
Definition dev_gettype (v : Z) : M V (res Z) :=
  x ← get_vnode v;
  d ← get_device (vn_data x);
  mret (Done (if d_blocks d >? 0 then S_IFBLK else S_IFCHR)).

(** The vnode operations, by the kind of vnode: device vnodes have the table
    dev_vnode_ops, with the failing operations of vfsfail.c. *)
Definition VOP {A} (v : Z) (dev fs : M V A) : M V A :=
  x ← vnode_check v;
  match vn_ops x with dev_vnode_ops => dev | _ => fs end.

Definition VOP_GETTYPE (v : Z) : M V (res Z) := VOP v (dev_gettype v) (fop_gettype v).

(** static int dev_stat(struct vnode *v, struct stat *statbuf); block counts
    and sizes are 32-bit, and so is their product. *)
Definition dev_stat (v : Z) : M V (res stat) :=
  x ← get_vnode v;
  d ← get_device (vn_data x);
  r ← VOP_GETTYPE v;
  match r with
  | Err e => mret (Err e)
  | Done ty =>
      let blocks := d_blocks d >? 0 in
      mret (Done (Stat (if blocks then u32 (d_blocks d * d_blocksize d) else 0)
                       (Z.lor ty 384) 1 (d_blocks d) (d_devnumber d)
                       (if blocks then d_blocksize d else 0)))
  end.

(** static bool dev_isseekable(struct vnode *v) *)
Definition dev_isseekable (v : Z) : M V bool :=
  x ← get_vnode v;
  d ← get_device (vn_data x);
  mret (negb (d_blocks d =? 0)).

(** static int dev_truncate(struct vnode *v, off_t len) *)
Definition dev_truncate (v len : Z) : M V (res unit) :=
  x ← get_vnode v;
  d ← get_device (vn_data x);
  mret (if (d_blocks d >? 0) && (u32 (d_blocks d * d_blocksize d) =? len) then Done tt else Err EINVAL).

(** static int dev_lookup(struct vnode *dir, char *pathname, ...) *)
Definition dev_lookup (dir : Z) (pathname : list Z) : M V (res Z) :=
  match pathname with
  | _ :: _ => mret (Err ENOENT)
  | [] => VOP_INCREF dir ;; mret (Done dir)
  end.

(** vfsfail.c: the failing operations a device's table is filled with, and
    the two trivial ones of device.c. *)
Definition vopfail_uio_notdir (v : Z) (u : uio) : M V (res unit * uio) := mret (Err ENOTDIR, u).
Definition vopfail_uio_inval (v : Z) (u : uio) : M V (res unit * uio) := mret (Err EINVAL, u).
Definition vopfail_creat_notdir (v : Z) (name : list Z) (excl : bool) (mode : Z) : M V (res Z) :=
  mret (Err ENOTDIR).
Definition vopfail_symlink_notdir (v : Z) (contents name : list Z) : M V (res unit) := mret (Err ENOTDIR).
Definition vopfail_mkdir_notdir (v : Z) (name : list Z) (mode : Z) : M V (res unit) := mret (Err ENOTDIR).
Definition vopfail_link_notdir (v : Z) (name : list Z) (file : Z) : M V (res unit) := mret (Err ENOTDIR).
Definition vopfail_string_notdir (v : Z) (name : list Z) : M V (res unit) := mret (Err ENOTDIR).
Definition vopfail_rename_notdir (v1 : Z) (n1 : list Z) (v2 : Z) (n2 : list Z) : M V (res unit) :=
  mret (Err ENOTDIR).
Definition vopfail_lookparent_notdir (v : Z) (path : list Z) (len : Z) : M V (res (Z * list Z)) :=
  mret (Err ENOTDIR).
Definition null_fsync (v : Z) : M V (res unit) := mret (Done tt).
Definition dev_namefile (v : Z) (u : uio) : M V (res unit * uio) := mret (Done tt, u).

(** The VOP_ macros of vnode.h. *)
Definition VOP_EACHOPEN (v flags : Z) : M V (res unit) := VOP v (dev_eachopen v flags) (fop_eachopen v flags).
Definition VOP_READ (v : Z) (u : uio) : M V (res unit * uio) := VOP v (dev_read v u) (fop_read v u).
Definition VOP_READLINK (v : Z) (u : uio) : M V (res unit * uio) :=
  VOP v (vopfail_uio_inval v u) (fop_readlink v u).
Definition VOP_GETDIRENTRY (v : Z) (u : uio) : M V (res unit * uio) :=
  VOP v (vopfail_uio_notdir v u) (fop_getdirentry v u).
Definition VOP_WRITE (v : Z) (u : uio) : M V (res unit * uio) := VOP v (dev_write v u) (fop_write v u).
Definition VOP_IOCTL (v op data : Z) : M V (res unit) := VOP v (dev_ioctl v op data) (fop_ioctl v op data).
Definition VOP_STAT (v : Z) : M V (res stat) := VOP v (dev_stat v) (fop_stat v).
Definition VOP_ISSEEKABLE (v : Z) : M V bool := VOP v (dev_isseekable v) (fop_isseekable v).
Definition VOP_FSYNC (v : Z) : M V (res unit) := VOP v (null_fsync v) (fop_fsync v).
Definition VOP_TRUNCATE (v len : Z) : M V (res unit) := VOP v (dev_truncate v len) (fop_truncate v len).
Definition VOP_NAMEFILE (v : Z) (u : uio) : M V (res unit * uio) := VOP v (dev_namefile v u) (fop_namefile v u).
Definition VOP_CREAT (v : Z) (name : list Z) (excl : bool) (mode : Z) : M V (res Z) :=
  VOP v (vopfail_creat_notdir v name excl mode) (fop_creat v name excl mode).
Definition VOP_SYMLINK (v : Z) (a b : list Z) : M V (res unit) := VOP v (vopfail_symlink_notdir v a b) (fop_symlink v a b).
Definition VOP_MKDIR (v : Z) (name : list Z) (mode : Z) : M V (res unit) :=
  VOP v (vopfail_mkdir_notdir v name mode) (fop_mkdir v name mode).
Definition VOP_LINK (v : Z) (name : list Z) (file : Z) : M V (res unit) :=
  VOP v (vopfail_link_notdir v name file) (fop_link v name file).
Definition VOP_REMOVE (v : Z) (name : list Z) : M V (res unit) := VOP v (vopfail_string_notdir v name) (fop_remove v name).
Definition VOP_RMDIR (v : Z) (name : list Z) : M V (res unit) := VOP v (vopfail_string_notdir v name) (fop_rmdir v name).
Definition VOP_RENAME (v1 : Z) (n1 : list Z) (v2 : Z) (n2 : list Z) : M V (res unit) :=
  VOP v1 (vopfail_rename_notdir v1 n1 v2 n2) (fop_rename v1 n1 v2 n2).
Definition VOP_LOOKUP (v : Z) (path : list Z) : M V (res Z) := VOP v (dev_lookup v path) (fop_lookup v path).
Definition VOP_LOOKPARENT (v : Z) (path : list Z) (len : Z) : M V (res (Z * list Z)) :=
  VOP v (vopfail_lookparent_notdir v path len) (fop_lookparent v path len).

(** struct vnode *dev_create_vnode(struct device *dev) *)
Definition dev_create_vnode (dev : Z) : M V Z :=
  v ← kmalloc_addr;
  if v =? 0 then mret 0 else
  vnode_init v dev_vnode_ops 0 dev ;; mret v.

(** void dev_uncreate_vnode(struct vnode *vn) *)
Definition dev_uncreate_vnode (vn : Z) : M V unit :=
  x ← get_vnode vn;
  kassert (match vn_ops x with dev_vnode_ops => true | _ => false end) ;;
  vnode_cleanup vn ;;
  modify (fun s => set_vnodes (delete vn (vnodes s)) s).

(** ** vfslist.c *)

(** The recursive big lock. *)
Definition biglock_held (s : V) : bool := bool_decide (biglock s = Some (v_thread s)).

Definition vfs_biglock_acquire : M V unit :=
  s ← get;
  if negb (biglock_held s) then
    match biglock s with
    | None => modify (set_biglock (Some (v_thread s)) (biglock_depth s + 1))
    | Some _ => raise FBlocked
    end
  else if biglock_depth s =? 0 then raise FPanic
  else modify (set_biglock (biglock s) (biglock_depth s + 1)).

Definition vfs_biglock_release : M V unit :=
  s ← get;
  kassert (biglock_held s) ;;
  kassert (biglock_depth s >? 0) ;;
  let d := biglock_depth s - 1 in
  modify (set_biglock (if d =? 0 then None else biglock s) d).

Definition vfs_biglock_do_i_hold : M V bool := gets biglock_held.

(** Return [a] after giving the big lock back. *)
Definition unlock_ret {A} (a : A) : M V A := vfs_biglock_release ;; mret a.

(** The elements of [knowndevs], in order. *)
Definition devs (s : V) : list knowndev :=
  omap id (take (Z.to_nat (Array.arr_num (knowndevs s))) (Array.arr_v (knowndevs s))).

(** A device other than through its file system: what vfs_getroot answers
    when it found the device itself. *)
Definition getroot_device (kd : knowndev) : M V (res Z) :=
  kassert (negb (kd_device kd =? 0)) ;;
  VOP_INCREF (kd_vnode kd) ;; mret (Done (kd_vnode kd)).

(** The tests of vfs_getroot for the device itself; [k] goes on with the next
    device. *)
Definition getroot_self (kd : knowndev) (devname : list Z) (k : M V (res Z)) : M V (res Z) :=
  if streq (kd_name kd) devname then
    kassert (match kd_fs kd with NoFs => true | _ => false end) ;;
    kassert (match kd_rawname kd with None => true | _ => false end) ;;
    getroot_device kd
  else match kd_rawname kd with
       | Some raw => if streq raw devname then getroot_device kd else k
       | None => k
       end.

(** The loop of vfs_getroot over the remaining devices. *)
Fixpoint getroot_loop (kds : list knowndev) (devname : list Z) : M V (res Z) :=
  match kds with
  | [] => mret (Err ENODEV)
  | kd :: kds' =>
      let next := getroot_self kd devname (getroot_loop kds' devname) in
      match kd_fs kd with
      | Fs fs =>
          volname ← fsop_getvolname fs;
          if streq (kd_name kd) devname ||
             match volname with Some vn => streq vn devname | None => false end
          then fsop_getroot fs else next
      | _ => match kd_rawname kd with
             | Some _ => if streq (kd_name kd) devname then mret (Err ENXIO) else next
             | None => next
             end
      end
  end.

(** int vfs_getroot(const char *devname, struct vnode **ret) *)
Definition vfs_getroot (devname : list Z) : M V (res Z) :=
  held ← vfs_biglock_do_i_hold;
  kassert held ;;
  s ← get;
  getroot_loop (devs s) devname.

(** const char *vfs_getdevname(struct fs *fs) *)
Definition vfs_getdevname (fs : Z) : M V (option (list Z)) :=
  kassert (negb (fs =? 0)) ;;
  held ← vfs_biglock_do_i_hold;
  kassert held ;;
  s ← get;
  mret ((fun x => kd_name x.2) <$> list_find (fun kd => kd_fs kd = Fs fs) (devs s)).

(** static char *mkrawname(const char *name): append "raw" *)
Definition mkrawname (name : list Z) : M V (option (list Z)) :=
  ok ← kmalloc;
  mret (if (ok : bool) then Some (name ++ [114; 97; 119]) else None).

(** static inline int samestring, samestring3 *)
Definition samestring (a b : option (list Z)) : bool :=
  match a, b with Some x, Some y => streq x y | _, _ => false end.
Definition samestring3 (a b c d : option (list Z)) : bool :=
  samestring a b || samestring a c || samestring a d.

(** static int badnames(const char *n1, const char *n2, const char *n3) *)
Fixpoint badnames_loop (kds : list knowndev) (n1 n2 n3 : option (list Z)) : M V bool :=
  match kds with
  | [] => mret false
  | kd :: kds' =>
      let rest : M V bool :=
        if samestring3 (kd_rawname kd) n1 n2 n3 || samestring3 (Some (kd_name kd)) n1 n2 n3
        then mret true else badnames_loop kds' n1 n2 n3 in
      match kd_fs kd with
      | Fs fs => volname ← fsop_getvolname fs;
                 if samestring3 volname n1 n2 n3 then mret true else rest
      | _ => rest
      end
  end.
Definition badnames (n1 n2 n3 : option (list Z)) : M V bool :=
  held ← vfs_biglock_do_i_hold;
  kassert held ;;
  s ← get;
  badnames_loop (devs s) n1 n2 n3.

(** The exit [fail:] of vfs_doadd, with the vnode made so far (0: none). *)
Definition doadd_fail (vnode : Z) (e : errno) : M V (res unit) :=
  (if vnode =? 0 then mret tt else dev_uncreate_vnode vnode) ;;
  unlock_ret (Err e).

(** static int vfs_doadd(dname, mountable, dev, fs); the first allocation is
    the one of kstrdup. *)
Definition vfs_doadd (dname : list Z) (mountable : bool) (dev fs : Z) : M V (res unit) :=
  vfs_biglock_acquire ;;
  ok ← kmalloc;
  if negb ok then doadd_fail 0 ENOMEM else
  let name := dname in
  raw ← (if mountable then mkrawname name else mret None);
  if mountable && match raw with None => true | _ => false end then doadd_fail 0 ENOMEM else
  vnode ← dev_create_vnode dev;
  if vnode =? 0 then doadd_fail 0 ENOMEM else
  ok ← kmalloc;
  if negb ok then doadd_fail vnode ENOMEM else
  let kd := Knowndev name raw dev vnode (if fs =? 0 then NoFs else Fs fs) in
  volname ← (if fs =? 0 then mret None else fsop_getvolname fs);
  bad ← badnames (Some name) raw volname;
  if (bad : bool) then doadd_fail vnode EEXIST else
  s ← get;
  x ← Array.array_add (knowndevs s) kd;
  modify (set_knowndevs x.2) ;;
  match x.1 with
  | Err e => doadd_fail vnode e
  | Done index =>
      (if dev =? 0 then mret tt else
       d ← get_device dev;
       modify (fun s => set_devices
         (<[dev := Device (d_ops d) (d_blocks d) (d_blocksize d) (index + 1)]> (devices s)) s)) ;;
      unlock_ret (Done tt)
  end.

(** int vfs_adddev(devname, dev, mountable), int vfs_addfs(devname, fs) *)
Definition vfs_adddev (devname : list Z) (dev : Z) (mountable : bool) : M V (res unit) :=
  vfs_doadd devname mountable dev 0.
Definition vfs_addfs (devname : list Z) (fs : Z) : M V (res unit) := vfs_doadd devname false 0 fs.

(** void devnull_create(void) *)
Definition devnull_create : M V unit :=
  d ← kmalloc_addr;
  if d =? 0 then raise FPanic else
  modify (fun s => set_devices (<[d := Device null_devops 0 1 0]> (devices s)) s) ;;
  r ← vfs_adddev [110; 117; 108; 108] d false;
  match r with Err _ => raise FPanic | Done _ => mret tt end.

(** static int findmount(const char *devname, struct knowndev **result); the
    index of the device. *)
Definition findmount (devname : list Z) : M V (res (Z * knowndev)) :=
  held ← vfs_biglock_do_i_hold;
  kassert held ;;
  s ← get;
  mret (match list_find (fun kd => is_Some (kd_rawname kd) /\ kd_name kd = devname) (devs s) with
        | Some (i, kd) => Done (Z.of_nat i, kd)
        | None => Err ENODEV
        end).

(** kd->kd_fs = fs, for the device at index [i]. *)
Definition set_kd_fs (i : Z) (kd : knowndev) (fs : kfs) : M V unit :=
  s ← get;
  a ← Array.array_set (knowndevs s) i
        (Knowndev (kd_name kd) (kd_rawname kd) (kd_device kd) (kd_vnode kd) fs);
  modify (set_knowndevs a).

(** int vfs_mount(devname, data, mountfunc); [mountfunc] is applied to the
    device. *)
Definition vfs_mount (devname : list Z) (mountfunc : Z -> M V (res Z)) : M V (res unit) :=
  vfs_biglock_acquire ;;
  r ← findmount devname;
  match r with
  | Err e => unlock_ret (Err e)
  | Done (i, kd) =>
      match kd_fs kd with
      | NoFs =>
          kassert (negb (kd_device kd =? 0)) ;;
          r ← mountfunc (kd_device kd);
          match r with
          | Err e => unlock_ret (Err e)
          | Done fs =>
              kassert (negb (fs =? 0)) ;;
              set_kd_fs i kd (Fs fs) ;;
              fsop_getvolname fs ;;
              unlock_ret (Done tt)
          end
      | _ => unlock_ret (Err EBUSY)
      end
  end.

(** A name without one trailing colon; the copy may run out of memory. *)
Definition strip_colon (devname : list Z) : M V (option (list Z)) :=
  match last devname with
  | Some c => if c =? COLON then ok ← kmalloc; mret (if (ok : bool) then Some (removelast devname) else None)
              else mret (Some devname)
  | None => mret (Some devname)
  end.

(** int vfs_swapon(const char *devname, struct vnode **ret) *)
Definition vfs_swapon (devname : list Z) : M V (res Z) :=
  n ← strip_colon devname;
  match n with
  | None => mret (Err ENOMEM)
  | Some devname =>
      vfs_biglock_acquire ;;
      r ← findmount devname;
      match r with
      | Err e => unlock_ret (Err e)
      | Done (i, kd) =>
          match kd_fs kd with
          | NoFs =>
              kassert (negb (kd_device kd =? 0)) ;;
              set_kd_fs i kd SWAP_FS ;;
              VOP_INCREF (kd_vnode kd) ;;
              unlock_ret (Done (kd_vnode kd))
          | _ => unlock_ret (Err EBUSY)
          end
      end
  end.

(** int vfs_unmount(const char *devname) *)
Definition vfs_unmount (devname : list Z) : M V (res unit) :=
  vfs_biglock_acquire ;;
  r ← findmount devname;
  match r with
  | Err e => unlock_ret (Err e)
  | Done (i, kd) =>
      match kd_fs kd with
      | Fs fs =>
          kassert (negb (kd_device kd =? 0)) ;;
          r ← fsop_sync fs;
          match r with
          | Err e => unlock_ret (Err e)
          | Done _ =>
              r ← fsop_unmount fs;
              match r with
              | Err e => unlock_ret (Err e)
              | Done _ => set_kd_fs i kd NoFs ;; unlock_ret (Done tt)
              end
          end
      | _ => unlock_ret (Err EINVAL)
      end
  end.

(** int vfs_swapoff(const char *devname) *)
Definition vfs_swapoff (devname : list Z) : M V (res unit) :=
  vfs_biglock_acquire ;;
  r ← findmount devname;
  match r with
  | Err e => unlock_ret (Err e)
  | Done (i, kd) =>
      match kd_fs kd with
      | SWAP_FS => set_kd_fs i kd NoFs ;; unlock_ret (Done tt)
      | _ => unlock_ret (Err EINVAL)
      end
  end.

(** One device of vfs_unmountall: a file system that cannot be synced twice
    over, or not unmounted, stays. *)
Definition unmount_one (i : Z) (kd : knowndev) : M V unit :=
  match kd_rawname kd, kd_fs kd with
  | None, _ | _, NoFs => mret tt
  | _, SWAP_FS => set_kd_fs i kd NoFs
  | _, Fs fs =>
      r ← fsop_sync fs;
      r ← match r with Err _ => fsop_sync fs | Done _ => mret (Done tt) end;
      match r with
      | Err _ => mret tt
      | Done _ =>
          r ← fsop_unmount fs;
          match r with Err _ => mret tt | Done _ => set_kd_fs i kd NoFs end
      end
  end.

(** int vfs_unmountall(void), int vfs_sync(void); the loops read the array
    at each step. *)
Definition vfs_unmountall : M V (res unit) :=
  vfs_biglock_acquire ;;
  s ← get;
  for_each (seqZ 0 (Array.arr_num (knowndevs s))) (fun i =>
    s ← get;
    kd ← Array.array_get (knowndevs s) i;
    unmount_one i kd) ;;
  unlock_ret (Done tt).

Definition vfs_sync : M V (res unit) :=
  vfs_biglock_acquire ;;
  s ← get;
  for_each (seqZ 0 (Array.arr_num (knowndevs s))) (fun i =>
    s ← get;
    kd ← Array.array_get (knowndevs s) i;
    match kd_fs kd with Fs fs => fsop_sync fs ;; mret tt | _ => mret tt end) ;;
  unlock_ret (Done tt).

(** ** vfscwd.c *)

(** int vfs_getcurdir(struct vnode **ret) *)
Definition vfs_getcurdir : M V (res Z) :=
  s ← get;
  match p_cwd s !! v_proc s with
  | Some d => VOP_INCREF d ;; mret (Done d)
  | None => mret (Err ENOENT)
  end.

(** Replace the current directory ([None]: none) and drop the old one. *)
Definition swap_cwd (dir : option Z) : M V unit :=
  s ← get;
  let old := p_cwd s !! v_proc s in
  modify (fun s => set_cwd (partial_alter (fun _ => dir) (v_proc s) (p_cwd s)) s) ;;
  match old with Some o => VOP_DECREF o | None => mret tt end.

(** int vfs_setcurdir(struct vnode *dir) *)
Definition vfs_setcurdir (dir : Z) : M V (res unit) :=
  r ← VOP_GETTYPE dir;
  match r with
  | Err e => mret (Err e)
  | Done vtype =>
      if negb (vtype =? S_IFDIR) then mret (Err ENOTDIR) else
      VOP_INCREF dir ;;
      swap_cwd (Some dir) ;;
      mret (Done tt)
  end.

(** int vfs_clearcurdir(void) *)
Definition vfs_clearcurdir : M V (res unit) := swap_cwd None ;; mret (Done tt).

(** ** vfslookup.c *)

(** The first colon or slash of a path: the values of [colon] and [slash]
    after the loop. *)
Fixpoint find_sep (path : list Z) (i : Z) : Z * Z :=
  match path with
  | [] => (-1, -1)
  | c :: path' => if c =? COLON then (i, -1) else if c =? SLASH then (-1, i) else find_sep path' (i + 1)
  end.

(** while (path[k] == '/') k++, as the rest of the path *)
Fixpoint skip_slashes (path : list Z) : list Z :=
  match path with
  | c :: path' => if c =? SLASH then skip_slashes path' else path
  | [] => []
  end.

(** static void change_bootfs(struct vnode *newvn) *)
Definition change_bootfs (newvn : Z) : M V unit :=
  s ← get;
  let oldvn := bootfs_vnode s in
  modify (set_bootfs newvn) ;;
  if oldvn =? 0 then mret tt else VOP_DECREF oldvn.

(** The vnode for /path and :path. *)
Definition get_start (c : Z) : M V (res Z) :=
  if c =? SLASH then
    s ← get;
    if bootfs_vnode s =? 0 then mret (Err ENOENT) else
    VOP_INCREF (bootfs_vnode s) ;; mret (Done (bootfs_vnode s))
  else
    kassert (c =? COLON) ;;
    r ← vfs_getcurdir;
    match r with
    | Err e => mret (Err e)
    | Done vn =>
        x ← get_vnode vn;
        kassert (negb (vn_fs x =? 0)) ;;
        r ← fsop_getroot (vn_fs x);
        VOP_DECREF vn ;;
        mret r
    end.

(** static int getdevice(char *path, char **subpath, struct vnode **startvn) *)
Definition getdevice (path : list Z) : M V (res (list Z * Z)) :=
  held ← vfs_biglock_do_i_hold;
  kassert held ;;
  match path with
  | [] => mret (Err EINVAL)
  | c :: path1 =>
      let (colon, slash) := find_sep path 0 in
      if (colon <? 0) && negb (slash =? 0) then
        r ← vfs_getcurdir;
        mret (match r with Err e => Err e | Done vn => Done (path, vn) end)
      else if colon >? 0 then
        let subpath := skip_slashes (drop (Z.to_nat (colon + 1)) path) in
        r ← vfs_getroot (take (Z.to_nat colon) path);
        mret (match r with Err e => Err e | Done vn => Done (subpath, vn) end)
      else
      kassert ((colon =? 0) || (slash =? 0)) ;;
      r ← get_start c;
      mret (match r with Err e => Err e | Done vn => Done (skip_slashes path1, vn) end)
  end.

(** int vfs_lookparent(path, retval, buf, buflen) *)
Definition vfs_lookparent (path : list Z) (buflen : Z) : M V (res (Z * list Z)) :=
  vfs_biglock_acquire ;;
  r ← getdevice path;
  match r with
  | Err e => unlock_ret (Err e)
  | Done (path, startvn) =>
      r ← match path with
          | [] => mret (Err EINVAL)
          | _ => VOP_LOOKPARENT startvn path buflen
          end;
      VOP_DECREF startvn ;;
      unlock_ret r
  end.

(** int vfs_lookup(char *path, struct vnode **retval) *)
Definition vfs_lookup (path : list Z) : M V (res Z) :=
  vfs_biglock_acquire ;;
  r ← getdevice path;
  match r with
  | Err e => unlock_ret (Err e)
  | Done ([], startvn) => unlock_ret (Done startvn)
  | Done (path, startvn) =>
      r ← VOP_LOOKUP startvn path;
      VOP_DECREF startvn ;;
      unlock_ret r
  end.

(** int vfs_chdir(char *path) *)
Definition vfs_chdir (path : list Z) : M V (res unit) :=
  r ← vfs_lookup path;
  match r with
  | Err e => mret (Err e)
  | Done vn => r ← vfs_setcurdir vn; VOP_DECREF vn ;; mret r
  end.

(** int vfs_setbootfs(const char *fsname); snprintf into NAME_MAX bytes keeps
    NAME_MAX - 1 characters.  The test strlen(s) > 0 is on the string from the
    colon on, which is never empty. *)
Definition vfs_setbootfs (fsname : list Z) : M V (res unit) :=
  vfs_biglock_acquire ;;
  let tmp := take (Z.to_nat (NAME_MAX - 1)) fsname in
  if bool_decide (COLON ∈ tmp) then unlock_ret (Err EINVAL) else
  r ← vfs_chdir (tmp ++ [COLON]);
  match r with
  | Err e => unlock_ret (Err e)
  | Done _ =>
      r ← vfs_getcurdir;
      match r with
      | Err e => unlock_ret (Err e)
      | Done newguy => change_bootfs newguy ;; unlock_ret (Done tt)
      end
  end.

(** void vfs_clearbootfs(void) *)
Definition vfs_clearbootfs : M V unit :=
  vfs_biglock_acquire ;; change_bootfs 0 ;; vfs_biglock_release.

(** int vfs_getcwd(struct uio *uio): the volume or device name, a colon, and
    the path VOP_NAMEFILE adds. *)
Definition vfs_getcwd (u : uio) : M V (res unit * uio) :=
  kassert (bool_decide (uio_dir u = UIO_READ)) ;;
  r ← vfs_getcurdir;
  match r with
  | Err e => mret (Err e, u)
  | Done cwd =>
      x ← get_vnode cwd;
      kassert (negb (vn_fs x =? 0)) ;;
      volname ← fsop_getvolname (vn_fs x);
      name ← match volname with
             | Some n => mret (Some n)
             | None => vfs_biglock_acquire ;;
                       n ← vfs_getdevname (vn_fs x);
                       unlock_ret n
             end;
      name ← deref FPanic name;
      r ← Uio.uiomove name (Z.of_nat (length name)) u;
      r ← match r with
          | (Err e, u, _) => mret (Err e, u)
          | (Done _, u, _) =>
              r ← Uio.uiomove [COLON] 1 u;
              match r with
              | (Err e, u, _) => mret (Err e, u)
              | (Done _, u, _) => VOP_NAMEFILE cwd u
              end
          end;
      VOP_DECREF cwd ;;
      mret r
  end.

(** ** vfspath.c *)

(** The lookups at the start of vfs_open. *)
Definition open_lookup (path : list Z) (openflags mode : Z) : M V (res Z) :=
  if has_flag openflags O_CREAT then
    r ← vfs_lookparent path (NAME_MAX + 1);
    match r with
    | Err e => mret (Err e)
    | Done (dir, name) =>
        r ← VOP_CREAT dir name (has_flag openflags O_EXCL) mode;
        VOP_DECREF dir ;;
        mret r
    end
  else vfs_lookup path.

(** int vfs_open(char *path, int openflags, mode_t mode, struct vnode **ret) *)
Definition vfs_open (path : list Z) (openflags mode : Z) : M V (res Z) :=
  let how := Z.land openflags O_ACCMODE in
  if negb ((how =? O_RDONLY) || (how =? O_WRONLY) || (how =? O_RDWR)) then mret (Err EINVAL) else
  let canwrite := negb (how =? O_RDONLY) in
  r ← open_lookup path openflags mode;
  match r with
  | Err e => mret (Err e)
  | Done vn =>
      kassert (negb (vn =? 0)) ;;
      r ← VOP_EACHOPEN vn openflags;
      match r with
      | Err e => VOP_DECREF vn ;; mret (Err e)
      | Done _ =>
          if has_flag openflags O_TRUNC then
            r ← (if negb canwrite then mret (Err EINVAL) else VOP_TRUNCATE vn 0);
            match r with
            | Err e => VOP_DECREF vn ;; mret (Err e)
            | Done _ => mret (Done vn)
            end
          else mret (Done vn)
      end
  end.

(** void vfs_close(struct vnode *vn) *)
Definition vfs_close (vn : Z) : M V unit := VOP_DECREF vn.

(** The common part of vfs_remove, vfs_symlink, vfs_mkdir and vfs_rmdir: an
    operation on the directory that holds the last component of a path. *)
Definition with_parent (path : list Z) (op : Z -> list Z -> M V (res unit)) : M V (res unit) :=
  r ← vfs_lookparent path (NAME_MAX + 1);
  match r with
  | Err e => mret (Err e)
  | Done (dir, name) => r ← op dir name; VOP_DECREF dir ;; mret r
  end.

(** int vfs_remove(char *path), vfs_mkdir(path, mode), vfs_rmdir(path) *)
Definition vfs_remove (path : list Z) : M V (res unit) := with_parent path VOP_REMOVE.
Definition vfs_mkdir (path : list Z) (mode : Z) : M V (res unit) :=
  with_parent path (fun dir name => VOP_MKDIR dir name mode).
Definition vfs_rmdir (path : list Z) : M V (res unit) := with_parent path VOP_RMDIR.

(** int vfs_symlink(const char *contents, char *path): the macro VOP_SYMLINK
    is given the name first. *)
Definition vfs_symlink (contents path : list Z) : M V (res unit) :=
  with_parent path (fun newdir newname => VOP_SYMLINK newdir newname contents).

(** int vfs_readlink(char *path, struct uio *uio) *)
Definition vfs_readlink (path : list Z) (u : uio) : M V (res unit * uio) :=
  r ← vfs_lookup path;
  match r with
  | Err e => mret (Err e, u)
  | Done vn => r ← VOP_READLINK vn u; VOP_DECREF vn ;; mret r
  end.

(** The vnodes of vfs_rename and vfs_link are on one file system. *)
Definition same_fs (a b : Z) : M V bool :=
  x ← get_vnode a;
  y ← get_vnode b;
  mret (negb ((vn_fs x =? 0) || (vn_fs y =? 0) || negb (vn_fs x =? vn_fs y))).

(** int vfs_rename(char *oldpath, char *newpath) *)
Definition vfs_rename (oldpath newpath : list Z) : M V (res unit) :=
  r ← vfs_lookparent oldpath (NAME_MAX + 1);
  match r with
  | Err e => mret (Err e)
  | Done (olddir, oldname) =>
      r ← vfs_lookparent newpath (NAME_MAX + 1);
      match r with
      | Err e => VOP_DECREF olddir ;; mret (Err e)
      | Done (newdir, newname) =>
          same ← same_fs olddir newdir;
          r ← (if negb same then mret (Err EXDEV)
               else VOP_RENAME olddir oldname newdir newname);
          VOP_DECREF newdir ;; VOP_DECREF olddir ;; mret r
      end
  end.

(** int vfs_link(char *oldpath, char *newpath) *)
Definition vfs_link (oldpath newpath : list Z) : M V (res unit) :=
  r ← vfs_lookup oldpath;
  match r with
  | Err e => mret (Err e)
  | Done oldfile =>
      r ← vfs_lookparent newpath (NAME_MAX + 1);
      match r with
      | Err e => VOP_DECREF oldfile ;; mret (Err e)
      | Done (newdir, newname) =>
          same ← same_fs oldfile newdir;
          r ← (if negb same then mret (Err EXDEV) else VOP_LINK newdir newname oldfile);
          VOP_DECREF newdir ;; VOP_DECREF oldfile ;; mret r
      end
  end.

(** void vfs_bootstrap(void); the semaphore file system is a [Backend], and
    adds itself by [semfs_bootstrap].  lock_create allocates three times. *)
Definition vfs_bootstrap (semfs_bootstrap : M V unit) : M V unit :=
  a ← Array.array_create;
  match a with
  | None => raise FPanic
  | Some a =>
      modify (set_knowndevs a) ;;
      ok1 ← kmalloc;
      ok2 ← (if (ok1 : bool) then kmalloc else mret false);
      ok3 ← (if (ok2 : bool) then kmalloc else mret false);
      kassert ok3 ;;
      modify (set_biglock None 0) ;;
      devnull_create ;;
      semfs_bootstrap
  end.
End Ops.
End Vfs.
