(* ===== verification/VfsSpec.v ===== *)
(** * Correctness of the VFS layer

    The reference-counting invariant of vnodes: every vnode that exists has a
    positive count, which covers the references of the layer's own tables (the
    device list, the boot file system, the current directories); what is left
    are references held by callers.  Each operation moves callers' references
    in one way only, and the layer discharges [LowSpec], the interface the
    open-file layer is verified against, for every file system and driver that
    keeps the promises of [BackendSpec]. *)

From S2P Require Import Prelude Kern Array Interfaces Copyinout Uio Vfs.
Open Scope Z_scope.
Import Vfs.

Module VfsSpec.

Ltac same_tac := split; simpl; try congruence; split_and!; congruence.

Section Defs.
Context {G : Type}.
Abbreviation V := (vstate G).
Implicit Types s : V.

(** The reference count of vnode [u], 0 if there is no such vnode. *)
Definition refs s (u : Z) : Z := match vnodes s !! u with Some x => vn_refcount x | None => 0 end.

(** The vnodes the tables of the layer hold references to. *)
Definition holders s : list Z :=
  (kd_vnode <$> devs s) ++ (if bootfs_vnode s =? 0 then [] else [bootfs_vnode s])
  ++ (map_to_list (p_cwd s)).*2.

(** The references callers hold. *)
Definition ext_refs s (u : Z) : Z := refs s u - cnt u (holders s).

(** A file system that is mounted or has vnodes. *)
Definition fs_live s (fs : Z) : Prop :=
  (exists kd, kd ∈ devs s /\ kd_fs kd = Fs fs) \/
  (exists u x, vnodes s !! u = Some x /\ vn_ops x = fs_vnode_ops /\ vn_fs x = fs).

Definition fs_node s (v : Z) : Prop :=
  exists x, vnodes s !! v = Some x /\ vn_ops x = fs_vnode_ops.

(** An entry of the device list: what can be mounted has a device, what has
    neither a file system nor a raw name has one too. *)
Record kd_ok s (kd : knowndev) : Prop := KdOk {
  kd_ok_vnode : exists x, vnodes s !! kd_vnode kd = Some x /\ vn_ops x = dev_vnode_ops /\
    vn_data x = kd_device kd;
  kd_ok_dev : kd_device kd <> 0 -> is_Some (devices s !! kd_device kd);
  kd_ok_raw : is_Some (kd_rawname kd) -> kd_device kd <> 0;
  kd_ok_plain : kd_rawname kd = None -> kd_fs kd = NoFs -> kd_device kd <> 0;
  kd_ok_swap : kd_rawname kd = None -> kd_fs kd <> SWAP_FS
}.

(** A vnode: a device vnode belongs to the device list, and one without a
    device is in nobody's hands; the others belong to a file system. *)
Record vnode_ok s (u : Z) (x : vnode) : Prop := VnodeOk {
  vok_addr : 0 < u < v_next s;
  vok_pos : 0 < vn_refcount x;
  vok_ops : vn_ops x <> no_vnode_ops;
  vok_dev : vn_ops x = dev_vnode_ops -> vn_fs x = 0 /\ u ∈ kd_vnode <$> devs s /\
    (vn_data x = 0 -> ext_refs s u = 0) /\
    (vn_data x <> 0 -> is_Some (devices s !! vn_data x));
  vok_fs : vn_ops x = fs_vnode_ops -> vn_fs x <> 0
}.

(** The big lock is free or the current thread has it. *)
Definition lock_ok s : Prop :=
  (biglock s = None /\ biglock_depth s = 0) \/
  (biglock s = Some (v_thread s) /\ 0 < biglock_depth s).

Record vfs_ok s : Prop := VfsOk {
  vfs_arr : Array.holds (knowndevs s) (devs s);
  vfs_vnodes : forall u x, vnodes s !! u = Some x -> vnode_ok s u x;
  vfs_held : forall u, cnt u (holders s) <= refs s u;
  vfs_devs : forall kd, kd ∈ devs s -> kd_ok s kd;
  vfs_cwd : forall p d, p_cwd s !! p = Some d -> fs_node s d;
  vfs_boot : bootfs_vnode s <> 0 -> fs_node s (bootfs_vnode s);
  vfs_lock : lock_ok s;
  vfs_cap : Array.cap_ok (Array.arr_max (knowndevs s)) /\ Array.arr_max (knowndevs s) <= 2 ^ 31;
  vfs_next : 0 < v_next s
}.

(** The tables of the layer and its environment are the same. *)
Record same s s' : Prop := Same {
  same_devices : devices s' = devices s;
  same_knowndevs : knowndevs s' = knowndevs s;
  same_lock : biglock s' = biglock s;
  same_depth : biglock_depth s' = biglock_depth s;
  same_boot : bootfs_vnode s' = bootfs_vnode s;
  same_cwd : p_cwd s' = p_cwd s;
  same_cur : v_thread s' = v_thread s /\ v_proc s' = v_proc s /\ v_space s' = v_space s
}.

Lemma same_refl s : same s s.
Proof. by split. Qed.

Lemma same_trans s1 s2 s3 : same s1 s2 -> same s2 s3 -> same s1 s3.
Proof.
  intros [A1 A2 A3 A4 A5 A6 (A7 & A8 & A9)] [B1 B2 B3 B4 B5 B6 (B7 & B8 & B9)].
  split; [congruence..|]. split_and!; congruence.
Qed.

Lemma same_holders s s' : same s s' -> holders s' = holders s.
Proof. intros [A1 A2 A3 A4 A5 A6 A7]. unfold holders, devs. by rewrite A2, A5, A6. Qed.

Lemma same_devs s s' : same s s' -> devs s' = devs s.
Proof. intros [A1 A2 A3 A4 A5 A6 A7]. unfold devs. by rewrite A2. Qed.
End Defs.

(** What of the layer's state belongs to file systems and drivers: their
    vnodes (without the counts), which of them are mounted, their devices. *)
Section Shared.
Context {G : Type}.
Implicit Types s : vstate G.

Definition fs_info s (u : Z) : option (Z * Z) :=
  match vnodes s !! u with
  | Some x => match vn_ops x with fs_vnode_ops => Some (vn_fs x, vn_data x) | _ => None end
  | None => None
  end.
Definition mounted s (fs : Z) : Prop := exists kd, kd ∈ devs s /\ kd_fs kd = Fs fs.
Definition drv_info s (d : Z) : option (Z * Z) :=
  match devices s !! d with
  | Some x => match d_ops x with drv_devops => Some (d_blocks x, d_blocksize x) | _ => None end
  | None => None
  end.

Record shared s s' : Prop := SharedEq {
  sh_backend : v_backend s' = v_backend s;
  sh_next : v_next s <= v_next s';
  sh_nodes : forall u, fs_info s' u = fs_info s u;
  sh_mounted : forall fs, mounted s' fs <-> mounted s fs;
  sh_drv : forall d, drv_info s' d = drv_info s d
}.
End Shared.

(** The invariant of file systems and drivers depends on nothing else. *)
Class BackendInv (G : Type) := {
  binv : vstate G -> Prop;
  binv_stable : forall s s', binv s -> shared s s' -> binv s'
}.

Section Moves.
Context {G : Type} `{BackendInv G}.
Abbreviation V := (vstate G).
Implicit Types s : V.

Definition vinv s : Prop := vfs_ok s /\ binv s.

(** Callers' references change by [d] and nothing else does. *)
Record moves (d : Z -> Z) s s' : Prop := Moves {
  mv_inv : vinv s';
  mv_same : same s s';
  mv_refs : forall u, refs s' u = refs s u + d u
}.

Definition zero (u : Z) : Z := 0.
Definition one (v u : Z) : Z := if u =? v then 1 else 0.
Definition minus (v u : Z) : Z := if u =? v then -1 else 0.

Lemma moves_refl s : vinv s -> moves zero s s.
Proof. intros Hs. split; [done|apply same_refl|]. intros u. unfold zero. lia. Qed.

(** A result that carries a reference to the vnode [v] picks out of it. *)
Definition gives {A} (v : A -> Z) s (r : res A) s' : Prop :=
  match r with Done a => moves (one (v a)) s s' | Err _ => moves zero s s' end.

Lemma moves_delta d d' s s' : moves d s s' -> (forall u, d u = d' u) -> moves d' s s'.
Proof. intros [A1 A2 A3] Hd. split; try done. intros u. by rewrite <- Hd. Qed.

Lemma moves_trans d1 d2 d s1 s2 s3 : moves d1 s1 s2 -> moves d2 s2 s3 ->
  (forall u, d u = d1 u + d2 u) -> moves d s1 s3.
Proof.
  intros [A1 A2 A3] [B1 B2 B3] Hd. split; [done|by eapply same_trans|].
  intros u. rewrite B3, A3, Hd. lia.
Qed.

Lemma moves_ext d s s' : moves d s s' -> forall u, ext_refs s' u = ext_refs s u + d u.
Proof.
  intros [A1 A2 A3] u. unfold ext_refs. rewrite (same_holders _ _ A2), A3. lia.
Qed.

(** Memory, the allocator and unused addresses do not matter. *)
Lemma moves_env s t : vinv s -> same s t -> vnodes t = vnodes s -> v_next s <= v_next t ->
  v_backend t = v_backend s -> moves zero s t.
Proof.
  intros [[Harr Hvn Hh Hkd Hcwd Hbt Hl Hcap Hnx] Hb] Hsame Hv Hn Hg.
  pose proof (same_holders _ _ Hsame) as Hho. pose proof (same_devs _ _ Hsame) as Hde.
  assert (forall u, refs t u = refs s u) as Hr by (intros u; unfold refs; by rewrite Hv).
  assert (forall u, fs_node s u -> fs_node t u) as Hfn by (unfold fs_node; by rewrite Hv).
  split; [|done|intros u; rewrite Hr; unfold zero; lia].
  destruct Hsame as [S1 S2 S3 S4 S5 S6 (S7 & S8 & S9)]. split; [split|].
  - by rewrite S2, Hde.
  - intros u x Hx. rewrite Hv in Hx. destruct (Hvn u x Hx) as [P1 P2 P3 P4 P5]. split; try done; [lia|].
    unfold ext_refs. by rewrite Hde, Hho, Hr, S1.
  - intros u. by rewrite Hho, Hr.
  - intros kd Hk. rewrite Hde in Hk. destruct (Hkd kd Hk) as [P1 P2 P3 P4 P5].
    split; try done; [by rewrite Hv|by rewrite S1].
  - intros p d Hp. rewrite S6 in Hp. apply Hfn. by eapply Hcwd.
  - rewrite S5. auto.
  - unfold lock_ok. by rewrite S3, S4, S7.
  - by rewrite S2.
  - lia.
  - apply (binv_stable s); [done|]. split; [done|done|..].
    + intros u. unfold fs_info. by rewrite Hv.
    + intros fs. unfold mounted. by rewrite Hde.
    + intros d. unfold drv_info. by rewrite S1.
Qed.

(** Changing the count of one vnode. *)
Definition set_count (v : Z) (x : vnode) (n : Z) s : V :=
  set_vnodes (<[v := Vnode n (vn_fs x) (vn_data x) (vn_ops x)]> (vnodes s)) s.

Lemma set_count_same v x n s : same s (set_count v x n s).
Proof. by split. Qed.

Lemma set_count_refs v x n s u : vnodes s !! v = Some x ->
  refs (set_count v x n s) u = refs s u + (if u =? v then n - vn_refcount x else 0).
Proof.
  intros Hv. unfold refs. simpl. destruct (Z.eqb_spec u v) as [->|].
  - rewrite lookup_insert_eq, Hv. simpl. lia.
  - rewrite lookup_insert_ne by done. lia.
Qed.

Lemma set_count_node v x n s d : vnodes s !! v = Some x -> fs_node s d ->
  fs_node (set_count v x n s) d.
Proof.
  intros Hv (y & Hy & Ho). unfold fs_node. simpl.
  destruct (decide (d = v)) as [->|]; [|rewrite lookup_insert_ne by done; eauto].
  rewrite lookup_insert_eq. eexists. split; [done|]. simpl. congruence.
Qed.

Lemma set_count_moves v x n s : vinv s -> vnodes s !! v = Some x -> 0 < n ->
  cnt v (holders s) <= n -> (vn_ops x = dev_vnode_ops -> vn_data x = 0 -> n = vn_refcount x) ->
  moves (fun u => if u =? v then n - vn_refcount x else 0) s (set_count v x n s).
Proof.
  intros [[Harr Hvn Hh Hkd Hcwd Hbt Hl Hcap Hnx] Hb] Hv Hn Hc Hdev.
  pose proof (set_count_same v x n s) as Hsame.
  split; [|done|intros u; by rewrite (set_count_refs _ _ _ _ _ Hv)]. split; [split|].
  - done.
  - intros u y Hy. simpl in Hy. apply lookup_insert_Some in Hy as [[<- <-]|[Hne Hy]].
    + destruct (Hvn v x Hv) as [P1 P2 P3 P4 P5]. split; simpl; try done.
      intros Ho. destruct (P4 Ho) as (Q1 & Q2 & Q3 & Q4). split_and!; try done.
      intros Hd. rewrite <- (Q3 Hd). unfold ext_refs. rewrite (same_holders _ _ Hsame).
      rewrite (set_count_refs _ _ _ _ _ Hv), Z.eqb_refl, (Hdev Ho Hd). lia.
    + destruct (Hvn u y Hy) as [P1 P2 P3 P4 P5]. split; simpl; try done.
      intros Ho. destruct (P4 Ho) as (Q1 & Q2 & Q3 & Q4). split_and!; try done.
      intros Hd. rewrite <- (Q3 Hd). unfold ext_refs. rewrite (same_holders _ _ Hsame).
      rewrite (set_count_refs _ _ _ _ _ Hv). destruct (Z.eqb_spec u v); [congruence|lia].
  - intros u. rewrite (same_holders _ _ Hsame), (set_count_refs _ _ _ _ _ Hv).
    specialize (Hh u). unfold refs in Hh |- *. destruct (Z.eqb_spec u v) as [->|]; [|lia].
    rewrite Hv in *. lia.
  - intros kd Hin. destruct (Hkd kd Hin) as [(y & Hy & Ho & Hd) P2 P3 P4 P5]. split; try done.
    simpl. destruct (decide (kd_vnode kd = v)) as [Heq|]; [rewrite Heq in *|rewrite lookup_insert_ne by done; eauto].
    rewrite lookup_insert_eq. eexists. split; [done|]. simpl. assert (y = x) as <- by congruence. done.
  - intros p d Hp. apply set_count_node; [done|]. by apply (Hcwd p).
  - intros Hnz. apply set_count_node; [done|]. by apply Hbt.
  - done.
  - done.
  - done.
  - eapply binv_stable; [done|]. split; try done. intros u. unfold fs_info. simpl.
    destruct (decide (u = v)) as [->|]; [by rewrite lookup_insert_eq, Hv|by rewrite lookup_insert_ne].
Qed.

(** The big lock: taken once more, and given back. *)
Definition lock_up s : V := set_biglock (Some (v_thread s)) (biglock_depth s + 1) s.

Lemma vinv_lock b n s : vinv s ->
  (b = None /\ n = 0) \/ (b = Some (v_thread s) /\ 0 < n) -> vinv (set_biglock b n s).
Proof.
  intros [[Harr Hvn Hh Hkd Hcwd Hbt Hl Hcap Hnx] Hb] Hbn. split; [split; try done|by eapply binv_stable; [|split]].
  - intros u x Hx. destruct (Hvn u x Hx). by split.
  - intros kd Hk. destruct (Hkd kd Hk). by split.
Qed.

Lemma lock_up_inv s : vinv s -> vinv (lock_up s).
Proof.
  intros Hs. apply vinv_lock; [done|]. right. split; [done|].
  destruct (vfs_lock _ (proj1 Hs)) as [[_ ->]|[_ ?]]; lia.
Qed.

Lemma wp_biglock_acquire s (Q : unit -> V -> Prop) : vinv s -> Q tt (lock_up s) ->
  wp vfs_biglock_acquire Q s.
Proof.
  intros Hs HQ. unfold vfs_biglock_acquire, wp, mbind, M_bind, get, biglock_held.
  destruct (vfs_lock _ (proj1 Hs)) as [[Hb Hd]|[Hb Hd]]; rewrite Hb.
  - done.
  - rewrite bool_decide_true by done. simpl. destruct (Z.eqb_spec (biglock_depth s) 0); [lia|].
    unfold lock_up in HQ. rewrite <- Hb in HQ. unfold modify. by rewrite Hb in *.
Qed.

Lemma wp_unlock_ret {A} d s0 s2 (a : A) (Q : A -> V -> Prop) : vinv s0 -> moves d (lock_up s0) s2 ->
  (forall s', moves d s0 s' -> v_backend s' = v_backend s2 -> Q a s') -> wp (unlock_ret a) Q s2.
Proof.
  intros Hs0 [Hi [A1 A2 A3 A4 A5 A6 (A7 & A8 & A9)] Hr] HQ. simpl in *.
  unfold unlock_ret, vfs_biglock_release, wp, mbind, M_bind, get, kassert, biglock_held, modify, mret, M_ret.
  rewrite A3, A4, A7, bool_decide_true by done.
  destruct (vfs_lock _ (proj1 Hs0)) as [[Hb Hd]|[Hb Hd]].
  - rewrite Hd. change (0 + 1 - 1) with 0. simpl. apply HQ; [|done]. split; [|by same_tac|done].
    apply vinv_lock; [done|by left].
  - destruct (Z.gtb_spec (biglock_depth s0 + 1) 0); [|lia].
    destruct (Z.eqb_spec (biglock_depth s0 + 1 - 1) 0); [lia|]. rewrite Z.add_simpl_r. apply HQ; [|done].
    split; [|by same_tac|done]. apply vinv_lock; [done|]. right. by rewrite A7.
Qed.

Lemma wp_biglock_held s (Q : bool -> V -> Prop) : biglock s = Some (v_thread s) ->
  Q true s -> wp vfs_biglock_do_i_hold Q s.
Proof.
  intros Hb HQ. unfold vfs_biglock_do_i_hold, wp, gets, biglock_held. by rewrite bool_decide_true.
Qed.

(** A vnode a caller holds exists, and is not one without a device. *)
Lemma live_vnode s v : vinv s -> 0 < ext_refs s v ->
  exists x, vnodes s !! v = Some x /\ vnode_ok s v x /\ v <> 0 /\
    (vn_ops x = dev_vnode_ops -> vn_data x <> 0).
Proof.
  intros [Hok _] Hr. unfold ext_refs, refs in Hr. pose proof (cnt_nonneg v (holders s)).
  destruct (vnodes s !! v) as [x|] eqn:Hv; [|lia]. pose proof (vfs_vnodes _ Hok v x Hv) as Hx.
  exists x. split; [done|]. split; [done|]. split; [destruct Hx; lia|]. intros Ho Hd.
  destruct (vok_dev _ _ _ Hx Ho) as (_ & _ & Hz & _). specialize (Hz Hd).
  unfold ext_refs, refs in Hz. rewrite Hv in Hz. lia.
Qed.

Lemma wp_get_vnode s v x (Q : vnode -> V -> Prop) : v <> 0 -> vnodes s !! v = Some x ->
  Q x s -> wp (get_vnode v) Q s.
Proof.
  intros Hv Hx HQ. unfold get_vnode. destruct (Z.eqb_spec v 0); [done|].
  rewrite wp_bind, wp_get, wp_deref. eauto.
Qed.

Lemma wp_vnode_check s v x (Q : vnode -> V -> Prop) : vinv s -> vnodes s !! v = Some x ->
  Q x s -> wp (vnode_check v) Q s.
Proof.
  intros [Hok _] Hx HQ. destruct (vfs_vnodes _ Hok v x Hx) as [P1 P2 P3 P4 P5].
  unfold vnode_check. destruct (Z.eqb_spec v 0); [lia|]. rewrite wp_bind.
  eapply wp_get_vnode; [lia|done|]. rewrite wp_bind, wp_kassert. split; [by destruct (vn_ops x)|].
  rewrite wp_bind, wp_kassert. split; [destruct (Z.gtb_spec (vn_refcount x) 0); [done|lia]|]. done.
Qed.

Lemma wp_VOP {A} s v x (dev fs : M V A) (Q : A -> V -> Prop) : vinv s -> vnodes s !! v = Some x ->
  (vn_ops x = dev_vnode_ops -> wp dev Q s) -> (vn_ops x = fs_vnode_ops -> wp fs Q s) ->
  wp (VOP v dev fs) Q s.
Proof.
  intros Hs Hx Hd Hf. unfold VOP. rewrite wp_bind. eapply wp_vnode_check; [done|done|].
  pose proof (vok_ops _ _ _ (vfs_vnodes _ (proj1 Hs) v x Hx)). destruct (vn_ops x); auto; done.
Qed.

Lemma cnt_elem u l : u ∈ l -> 0 < cnt u l.
Proof. intros [k Hk]%list_elem_of_lookup. by eapply cnt_pos. Qed.

Lemma dev_held s v x : vinv s -> vnodes s !! v = Some x -> vn_ops x = dev_vnode_ops ->
  0 < cnt v (holders s).
Proof.
  intros [Hok _] Hx Ho. destruct (vok_dev _ _ _ (vfs_vnodes _ Hok v x Hx) Ho) as (_ & Hin & _).
  apply cnt_elem. unfold holders. rewrite !elem_of_app. auto.
Qed.

Lemma wp_incref s v x : vinv s -> vnodes s !! v = Some x ->
  (vn_ops x = dev_vnode_ops -> vn_data x <> 0) ->
  wp (VOP_INCREF v) (fun _ s' => moves (one v) s s') s.
Proof.
  intros Hs Hx Hdev. pose proof (vfs_vnodes _ (proj1 Hs) v x Hx) as [P1 P2 P3 P4 P5].
  unfold VOP_INCREF, vnode_incref. rewrite wp_bind, wp_kassert.
  destruct (Z.eqb_spec v 0); [lia|]. split; [done|]. rewrite wp_bind.
  eapply wp_get_vnode; [done|done|]. unfold put_vnode. rewrite wp_modify.
  assert (cnt v (holders s) <= vn_refcount x) as Hc.
  { pose proof (vfs_held _ (proj1 Hs) v) as Hh. unfold refs in Hh. by rewrite Hx in Hh. }
  eapply moves_delta; [apply (set_count_moves v x (vn_refcount x + 1)); try done; try lia|].
  - intros Ho Hd. by destruct (Hdev Ho).
  - intros u. unfold one. destruct (u =? v); lia.
Qed.
End Moves.

(** What file systems and drivers promise.  An operation on a vnode of a file
    system may assume that the vnode exists; it leaves the references of
    callers alone, except that lookup, creat, lookparent and getroot hand out
    one reference to the vnode they return, and reclaim takes the last
    reference of its vnode.  Volume names are only read. *)
Class BackendSpec (G : Type) `{Backend G} `{BackendInv G} := {
  reclaim_spec : forall s v, vinv s -> fs_node s v -> refs s v = 1 -> cnt v (holders s) = 0 ->
    wp (fop_reclaim v) (fun _ s' => moves (minus v) s s') s;
  eachopen_spec : forall s v f, vinv s -> fs_node s v ->
    wp (fop_eachopen v f) (fun _ s' => moves zero s s') s;
  read_spec : forall s v u, vinv s -> fs_node s v -> uio_dir u = UIO_READ ->
    wp (fop_read v u) (fun _ s' => moves zero s s') s;
  write_spec : forall s v u, vinv s -> fs_node s v -> uio_dir u = UIO_WRITE ->
    wp (fop_write v u) (fun _ s' => moves zero s s') s;
  stat_spec : forall s v, vinv s -> fs_node s v -> wp (fop_stat v) (fun _ s' => moves zero s s') s;
  gettype_spec : forall s v, vinv s -> fs_node s v -> wp (fop_gettype v) (fun _ s' => moves zero s s') s;
  isseekable_spec : forall s v, vinv s -> fs_node s v ->
    wp (fop_isseekable v) (fun _ s' => moves zero s s') s;
  truncate_spec : forall s v n, vinv s -> fs_node s v ->
    wp (fop_truncate v n) (fun _ s' => moves zero s s') s;
  creat_spec : forall s v n e m, vinv s -> fs_node s v ->
    wp (fop_creat v n e m) (gives id s) s;
  lookup_spec : forall s v n, vinv s -> fs_node s v ->
    wp (fop_lookup v n) (gives id s) s;
  lookparent_spec : forall s v n len, vinv s -> fs_node s v ->
    wp (fop_lookparent v n len) (gives fst s) s;
  volname : G -> Z -> option (list Z);
  getvolname_spec : forall s fs, binv s -> lock_ok s -> fs_live s fs ->
    fsop_getvolname fs s = Ok (volname (v_backend s) fs) s;
  getroot_spec : forall s fs, vinv s -> fs_live s fs ->
    wp (fsop_getroot fs) (gives id s) s;
  drv_eachopen_spec : forall s d x f, vinv s -> devices s !! d = Some x -> d_ops x = drv_devops ->
    wp (drv_eachopen d f) (fun _ s' => moves zero s s') s;
  drv_io_spec : forall s d x u, vinv s -> devices s !! d = Some x -> d_ops x = drv_devops ->
    wp (drv_io d u) (fun _ s' => moves zero s s') s
}.

Section Ops.
Context {G : Type} `{BackendSpec G}.
Abbreviation V := (vstate G).
Implicit Types s : V.

Lemma wp_decref s v : vinv s -> 0 < ext_refs s v ->
  wp (VOP_DECREF v) (fun _ s' => moves (minus v) s s') s.
Proof.
  intros Hs Hr. destruct (live_vnode s v Hs Hr) as (x & Hx & [P1 P2 P3 P4 P5] & Hv & Hdev).
  assert (cnt v (holders s) + 1 <= vn_refcount x) as Hc.
  { unfold ext_refs, refs in Hr. rewrite Hx in Hr. lia. }
  pose proof (cnt_nonneg v (holders s)) as Hnn.
  unfold VOP_DECREF, vnode_decref. rewrite wp_bind, wp_kassert.
  destruct (Z.eqb_spec v 0); [done|]. split; [done|]. rewrite wp_bind.
  eapply wp_get_vnode; [done|done|]. rewrite wp_bind, wp_kassert.
  split; [destruct (Z.gtb_spec (vn_refcount x) 0); [done|lia]|].
  destruct (Z.gtb_spec (vn_refcount x) 1) as [Hgt|Hle].
  - unfold put_vnode. rewrite wp_modify.
    eapply moves_delta; [apply (set_count_moves v x (vn_refcount x - 1)); try done; try lia|].
    + intros Ho Hd. by destruct (Hdev Ho).
    + intros u. unfold minus. destruct (u =? v); lia.
  - assert (vn_ops x = fs_vnode_ops) as Ho.
    { destruct (vn_ops x) eqn:Ho; [|done|done]. pose proof (dev_held s v x Hs Hx Ho). lia. }
    rewrite wp_bind. unfold VOP_RECLAIM. rewrite wp_bind. eapply wp_vnode_check; [done|done|].
    rewrite Ho. eapply wp_mono.
    + apply reclaim_spec; [done|by exists x| |lia]. unfold refs. rewrite Hx. lia.
    + intros r s' Hm. by apply wp_ret.
Qed.

Lemma gives_after {A} (v : A -> Z) s s1 r s' : moves zero s s1 -> gives v s1 r s' -> gives v s r s'.
Proof.
  intros Hm. destruct r; intros Hg; eapply moves_trans; try done; unfold zero; intros; lia.
Qed.

(** A reference just handed out is a caller's. *)
Lemma moves_one_live s s' v : vinv s -> moves (one v) s s' -> 0 < ext_refs s' v.
Proof.
  intros [Hok _] Hm. rewrite (moves_ext _ _ _ Hm). unfold one, ext_refs. rewrite Z.eqb_refl.
  pose proof (vfs_held _ Hok v). lia.
Qed.

(** Giving back a reference to [v] after [v] was obtained. *)
Lemma moves_back s s1 s2 s3 v d : moves (one v) s s1 -> moves d s1 s2 -> moves (minus v) s2 s3 ->
  moves d s s3.
Proof.
  intros M1 M2 M3. eapply moves_trans; [exact M1|eapply moves_trans; [exact M2|exact M3|reflexivity]|].
  intros u. unfold one, minus. destruct (u =? v); lia.
Qed.

(** [v] is still held after a step that does not take it away. *)
Lemma still_live s s1 s2 v d : vinv s -> moves (one v) s s1 -> moves d s1 s2 -> (forall u, 0 <= d u) ->
  0 < ext_refs s2 v.
Proof.
  intros Hs Hm Hm2 Hd. rewrite (moves_ext _ _ _ Hm2). specialize (Hd v).
  pose proof (moves_one_live s s1 v Hs Hm). lia.
Qed.

(** The idiom of the layer: use a vnode, then give its reference back. *)
Lemma wp_decref_after {A B} (v' : A -> Z) s s1 v (op : M V (res A)) (k : res A -> M V B) Q :
  vinv s -> moves (one v) s s1 -> wp op (gives v' s1) s1 ->
  (forall r s3, gives v' s r s3 -> wp (k r) Q s3) ->
  wp (r ← op; VOP_DECREF v ;; k r) Q s1.
Proof.
  intros Hs Hm Hop Hk. rewrite wp_bind. eapply wp_mono; [exact Hop|]. intros r s2 Hg.
  rewrite wp_bind. eapply wp_mono.
  - apply wp_decref; [by destruct r; apply Hg|].
    destruct r; (eapply (still_live s s1); [done|done|done|]); intros u; unfold one, zero; try case_match; lia.
  - intros [] s3 Hm3. apply Hk. destruct r; by eapply moves_back.
Qed.

(** ** The starting vnode of a lookup *)

Lemma getcurdir_ok s : vinv s ->
  wp vfs_getcurdir (fun r s' => gives id s r s' /\ forall v, r = Done v -> fs_node s' v) s.
Proof.
  intros Hs. unfold vfs_getcurdir. rewrite wp_bind, wp_get.
  destruct (p_cwd s !! v_proc s) as [d|] eqn:Hd; [|by split; [apply moves_refl|]].
  destruct (vfs_cwd _ (proj1 Hs) _ _ Hd) as (x & Hx & Ho). rewrite wp_bind.
  eapply wp_mono; [apply (wp_incref s d x); [done|done|congruence]|]. intros [] s' Hm.
  split; [done|]. intros v [= <-]. apply (vfs_cwd _ (proj1 (mv_inv _ _ _ Hm)) (v_proc s)).
  by rewrite (same_cwd _ _ (mv_same _ _ _ Hm)).
Qed.

Lemma getroot_device_ok s kd : vinv s -> kd ∈ devs s -> kd_device kd <> 0 ->
  wp (getroot_device kd) (gives id s) s.
Proof.
  intros Hs Hin Hd. destruct (vfs_devs _ (proj1 Hs) kd Hin) as [(x & Hx & Ho & Hdx) _ _ _ _].
  unfold getroot_device. rewrite wp_bind, wp_kassert. destruct (Z.eqb_spec (kd_device kd) 0); [done|].
  split; [done|]. rewrite wp_bind.
  eapply wp_mono; [apply (wp_incref s _ x); [done|done|congruence]|]. intros [] s' Hm. done.
Qed.

Lemma kd_live s kd fs : kd ∈ devs s -> kd_fs kd = Fs fs -> fs_live s fs.
Proof. intros Hin Hf. left. eauto. Qed.

Lemma getroot_self_ok s kd devname k : vinv s -> kd ∈ devs s ->
  (streq (kd_name kd) devname = true -> kd_fs kd = NoFs /\ kd_rawname kd = None) ->
  wp k (gives id s) s -> wp (getroot_self kd devname k) (gives id s) s.
Proof.
  intros Hs Hin Hname Hk. pose proof (vfs_devs _ (proj1 Hs) kd Hin) as [_ _ Hraw Hplain _].
  unfold getroot_self. destruct (streq (kd_name kd) devname).
  - destruct (Hname eq_refl) as [Hf Hr]. rewrite wp_bind, wp_kassert, Hf. split; [done|].
    rewrite wp_bind, wp_kassert, Hr. split; [done|]. apply getroot_device_ok; auto.
  - destruct (kd_rawname kd) as [raw|] eqn:Hr; [|done]. destruct (streq raw devname); [|done].
    apply getroot_device_ok; [done|done|]. apply Hraw. by eexists.
Qed.

Lemma getroot_loop_ok kds devname s : vinv s -> (forall kd, kd ∈ kds -> kd ∈ devs s) ->
  wp (getroot_loop kds devname) (gives id s) s.
Proof.
  revert s. induction kds as [|kd kds IH]; intros s Hs Hsub; simpl; [by apply moves_refl|].
  assert (kd ∈ devs s) as Hin by (apply Hsub; left).
  assert (forall s', vinv s' -> same s s' ->
    wp (getroot_loop kds devname) (gives id s') s') as Hrest.
  { intros s' Hs' Hsame. apply IH; [done|]. intros kd' Hk. rewrite (same_devs _ _ Hsame).
    apply Hsub. by right. }
  pose proof (vfs_devs _ (proj1 Hs) kd Hin) as [_ _ Hraw Hplain Hswap].
  destruct (kd_fs kd) as [| |fs] eqn:Hf.
  - destruct (kd_rawname kd) eqn:Hr; [destruct (streq (kd_name kd) devname) eqn:Hn; [by apply moves_refl|]|];
      (apply getroot_self_ok; [done|done| |by apply Hrest]); intros; congruence || auto.
  - destruct (kd_rawname kd) eqn:Hr; [|by destruct Hswap].
    destruct (streq (kd_name kd) devname) eqn:Hn; [by apply moves_refl|].
    apply getroot_self_ok; [done|done|congruence|by apply Hrest].
  - rewrite wp_bind. unfold wp at 1.
    rewrite getvolname_spec by (apply Hs || by eapply kd_live).
    destruct (streq (kd_name kd) devname) eqn:Hn; simpl.
    + apply getroot_spec; [done|by eapply kd_live].
    + destruct (match volname _ _ with Some _ => _ | None => _ end).
      * apply getroot_spec; [done|by eapply kd_live].
      * apply getroot_self_ok; [done|done|congruence|by apply Hrest; [|apply same_refl]].
Qed.

Lemma get_start_ok s c : vinv s -> c = SLASH \/ c = COLON -> wp (get_start c) (gives id s) s.
Proof.
  intros Hs Hc. unfold get_start. destruct (Z.eqb_spec c SLASH) as [->|Hns].
  - rewrite wp_bind, wp_get. destruct (Z.eqb_spec (bootfs_vnode s) 0) as [|Hb]; [by apply moves_refl|].
    destruct (vfs_boot _ (proj1 Hs) Hb) as (x & Hx & Ho). rewrite wp_bind.
    eapply wp_mono; [apply (wp_incref s _ x); [done|done|congruence]|]. by intros [] s' Hm.
  - destruct Hc as [?| ->]; [done|]. rewrite wp_bind, wp_kassert. split; [done|].
    rewrite wp_bind. eapply wp_mono; [by apply getcurdir_ok|]. intros [vn|e] s1 [Hm1 Hfs]; [|done].
    simpl in Hm1. pose proof (mv_inv _ _ _ Hm1) as Hs1.
    pose proof (moves_one_live s s1 vn Hs Hm1) as Hl1.
    destruct (live_vnode s1 vn Hs1 Hl1) as (x & Hx & Hok & Hv0 & _).
    destruct (Hfs vn eq_refl) as (x' & Hx' & Ho). assert (x' = x) as -> by congruence.
    rewrite wp_bind. eapply wp_get_vnode; [done|done|]. rewrite wp_bind, wp_kassert.
    split; [by destruct (Z.eqb_spec (vn_fs x) 0); [destruct (vok_fs _ _ _ Hok Ho)|]|].
    apply (wp_decref_after id s s1 vn); [done|done|apply getroot_spec; [done|right; eauto]|].
    intros r s3 Hg. by apply wp_ret.
Qed.

Lemma find_sep_cases c path colon slash : find_sep (c :: path) 0 = (colon, slash) ->
  (colon < 0 /\ slash <> 0) \/ 0 < colon \/ (c = COLON /\ colon = 0) \/ (c = SLASH /\ slash = 0 /\ colon < 0).
Proof.
  assert (forall l i co sl, 0 < i -> find_sep l i = (co, sl) -> (co < 0 /\ sl <> 0) \/ 0 < co) as Hpos.
  { induction l as [|a l IH]; intros i co sl Hi; simpl; [intros [= <- <-]; lia|].
    destruct (a =? COLON); [intros [= <- <-]; lia|].
    destruct (a =? SLASH); [intros [= <- <-]; lia|]. apply IH. lia. }
  simpl. destruct (Z.eqb_spec c COLON) as [->|]; [intros [= <- <-]; auto|].
  destruct (Z.eqb_spec c SLASH) as [->|]; [intros [= <- <-]; right; right; right; split; [done|lia]|].
  intros Hf. destruct (Hpos _ _ _ _ Z.lt_0_1 Hf); auto.
Qed.

Lemma getdevice_ok s path : vinv s -> biglock s = Some (v_thread s) ->
  wp (getdevice path) (gives snd s) s.
Proof.
  intros Hs Hl. unfold getdevice. rewrite wp_bind. apply wp_biglock_held; [done|].
  rewrite wp_bind, wp_kassert. split; [done|]. destruct path as [|c path]; [by apply moves_refl|].
  destruct (find_sep (c :: path) 0) as [colon slash] eqn:Hf.
  destruct (find_sep_cases _ _ _ _ Hf) as [[Hc Hsl]|[Hc|[[-> ->]|(-> & -> & Hc)]]].
  - rewrite (proj2 (Z.ltb_lt colon 0)), (proj2 (Z.eqb_neq slash 0)) by done. simpl.
    rewrite wp_bind. eapply wp_mono; [by apply getcurdir_ok|]. by intros [v|e] s1 [Hm _].
  - destruct (Z.ltb_spec colon 0); [lia|]. simpl. destruct (Z.gtb_spec colon 0); [|lia].
    rewrite wp_bind. unfold vfs_getroot. rewrite wp_bind. apply wp_biglock_held; [done|].
    rewrite wp_bind, wp_kassert. split; [done|]. rewrite wp_bind, wp_get.
    eapply wp_mono; [by apply getroot_loop_ok|]. by intros [v|e] s1 Hm.
  - simpl. rewrite wp_bind, wp_kassert. split; [done|]. rewrite wp_bind.
    eapply wp_mono; [by apply get_start_ok; auto|]. by intros [v|e] s1 Hm.
  - simpl. rewrite andb_false_r. destruct (Z.gtb_spec colon 0); [lia|].
    rewrite wp_bind, wp_kassert, orb_true_r. split; [done|]. rewrite wp_bind.
    eapply wp_mono; [by apply get_start_ok; auto|]. by intros [v|e] s1 Hm.
Qed.

(** The final step of functions that hold the big lock. *)
Lemma gives_unlock {A B} (v : A -> Z) s r s2 (f : res A -> B) (Q : B -> V -> Prop) :
  vinv s -> gives v (lock_up s) r s2 -> (forall s', gives v s r s' -> Q (f r) s') ->
  wp (unlock_ret (f r)) Q s2.
Proof. intros Hs Hg HQ. destruct r; (eapply wp_unlock_ret; [done|exact Hg|auto]). Qed.

(** ** Operations on a vnode a caller holds *)

Section Held.
Context (s : V) (v : Z).
Hypothesis Hs : vinv s.
Hypothesis Hl : 0 < ext_refs s v.

(** A device operation reads the vnode and its device. *)
Lemma wp_held {A} (dev fs : M V A) Q :
  (forall x d, vnodes s !! v = Some x -> v <> 0 -> vn_data x <> 0 -> devices s !! vn_data x = Some d ->
     wp dev Q s) -> (fs_node s v -> wp fs Q s) -> wp (VOP v dev fs) Q s.
Proof.
  intros Hd Hf. destruct (live_vnode s v Hs Hl) as (x & Hx & Hok & Hv & Hdev).
  eapply wp_VOP; [done|done| |].
  - intros Ho. destruct (vok_dev _ _ _ Hok Ho) as (_ & _ & _ & Hex).
    destruct (Hex (Hdev Ho)) as [d Hdd]. by eapply Hd; [|..|by apply Hdev|].
  - intros Ho. apply Hf. by exists x.
Qed.

Lemma wp_get_device d y (Q : device -> V -> Prop) : d <> 0 -> devices s !! d = Some y ->
  Q y s -> wp (get_device d) Q s.
Proof.
  intros Hd Hy HQ. unfold get_device. destruct (Z.eqb_spec d 0); [done|].
  rewrite wp_bind, wp_get, wp_deref. eauto.
Qed.

Lemma VOP_EACHOPEN_ok f : wp (VOP_EACHOPEN v f) (fun _ s' => moves zero s s') s.
Proof.
  apply wp_held; [|intros; by apply eachopen_spec]. intros x d Hx Hv Hd Hdd. unfold dev_eachopen.
  rewrite wp_bind. eapply wp_get_vnode; [done|done|]. destruct (has_flag f _); [by apply moves_refl|].
  unfold DEVOP_EACHOPEN. rewrite wp_bind. eapply wp_get_device; [done|done|].
  destruct (d_ops d) eqn:Ho; [by apply moves_refl|by eapply drv_eachopen_spec].
Qed.

Lemma dev_rw_ok dir x d u : vnodes s !! v = Some x -> v <> 0 -> vn_data x <> 0 ->
  devices s !! vn_data x = Some d -> uio_dir u = dir ->
  wp (dev_rw dir v u) (fun _ s' => moves zero s s') s.
Proof.
  intros Hx Hv Hd Hdd Hu. unfold dev_rw. rewrite wp_bind. eapply wp_get_vnode; [done|done|].
  rewrite wp_bind. eapply wp_get_device; [done|done|].
  destruct (dev_tryseek d _); [|by apply moves_refl].
  rewrite wp_bind, wp_kassert. split; [by apply bool_decide_true|].
  unfold DEVOP_IO. rewrite wp_bind. eapply wp_get_device; [done|done|].
  destruct (d_ops d) eqn:Ho; [by apply moves_refl|by eapply drv_io_spec].
Qed.

Lemma VOP_READ_ok u : uio_dir u = UIO_READ -> wp (VOP_READ v u) (fun _ s' => moves zero s s') s.
Proof.
  intros Hu. apply wp_held; [intros x d ????; by eapply dev_rw_ok|]. intros. by apply read_spec.
Qed.

Lemma VOP_WRITE_ok u : uio_dir u = UIO_WRITE -> wp (VOP_WRITE v u) (fun _ s' => moves zero s s') s.
Proof.
  intros Hu. apply wp_held; [intros x d ????; by eapply dev_rw_ok|]. intros. by apply write_spec.
Qed.

Lemma VOP_GETTYPE_ok : wp (VOP_GETTYPE v) (fun r s' => moves zero s s' /\
  (r = Done S_IFDIR -> fs_node s v)) s.
Proof.
  apply wp_held.
  - intros x d Hx Hv Hd Hdd. unfold dev_gettype. rewrite wp_bind. eapply wp_get_vnode; [done|done|].
    rewrite wp_bind. eapply wp_get_device; [done|done|].
    split; [by apply moves_refl|]. by destruct (d_blocks d >? 0).
  - intros Hf. eapply wp_mono; [by apply gettype_spec|]. auto.
Qed.

Lemma VOP_STAT_ok : wp (VOP_STAT v) (fun _ s' => moves zero s s') s.
Proof.
  apply wp_held; [|intros; by apply stat_spec]. intros x d Hx Hv Hd Hdd. unfold dev_stat.
  rewrite wp_bind. eapply wp_get_vnode; [done|done|]. rewrite wp_bind. eapply wp_get_device; [done|done|].
  rewrite wp_bind. eapply wp_mono; [apply VOP_GETTYPE_ok|]. by intros [ty|e] s' [Hm _].
Qed.

Lemma VOP_ISSEEKABLE_ok : wp (VOP_ISSEEKABLE v) (fun _ s' => moves zero s s') s.
Proof.
  apply wp_held; [|intros; by apply isseekable_spec]. intros x d Hx Hv Hd Hdd. unfold dev_isseekable.
  rewrite wp_bind. eapply wp_get_vnode; [done|done|]. rewrite wp_bind. eapply wp_get_device; [done|done|].
  by apply moves_refl.
Qed.

Lemma VOP_TRUNCATE_ok n : wp (VOP_TRUNCATE v n) (fun _ s' => moves zero s s') s.
Proof.
  apply wp_held; [|intros; by apply truncate_spec]. intros x d Hx Hv Hd Hdd. unfold dev_truncate.
  rewrite wp_bind. eapply wp_get_vnode; [done|done|]. rewrite wp_bind. eapply wp_get_device; [done|done|].
  by apply moves_refl.
Qed.

Lemma VOP_CREAT_ok n e m : wp (VOP_CREAT v n e m) (gives id s) s.
Proof. apply wp_held; [intros; by apply moves_refl|intros; by apply creat_spec]. Qed.

Lemma VOP_LOOKPARENT_ok n len : wp (VOP_LOOKPARENT v n len) (gives fst s) s.
Proof. apply wp_held; [intros; by apply moves_refl|intros; by apply lookparent_spec]. Qed.

Lemma VOP_LOOKUP_ok n : wp (VOP_LOOKUP v n) (gives id s) s.
Proof.
  apply wp_held; [|intros; by apply lookup_spec]. intros x d Hx Hv Hd Hdd. unfold dev_lookup.
  destruct n; [|by apply moves_refl]. rewrite wp_bind.
  eapply wp_mono; [by apply (wp_incref s v x)|]. by intros [] s' Hm.
Qed.
End Held.

(** ** Lookups and open *)

Lemma vfs_lookup_ok s path : vinv s -> wp (vfs_lookup path) (gives id s) s.
Proof.
  intros Hs. unfold vfs_lookup. rewrite wp_bind. apply wp_biglock_acquire; [done|]. rewrite wp_bind.
  pose proof (lock_up_inv s Hs) as Hs1.
  eapply wp_mono; [apply getdevice_ok; [done|done]|]. intros [[sub start]|e] s1 Hm.
  2:{ by apply (wp_unlock_ret zero s). }
  simpl in Hm. destruct sub as [|c sub]; [by apply (wp_unlock_ret (one start) s)|].
  apply (wp_decref_after id (lock_up s) s1 start); [done|done|..].
  - apply VOP_LOOKUP_ok; [apply Hm|by eapply moves_one_live].
  - intros r s3 Hg. by apply (gives_unlock id s r s3 id).
Qed.

Lemma vfs_lookparent_ok s path len : vinv s -> wp (vfs_lookparent path len) (gives fst s) s.
Proof.
  intros Hs. unfold vfs_lookparent. rewrite wp_bind. apply wp_biglock_acquire; [done|]. rewrite wp_bind.
  pose proof (lock_up_inv s Hs) as Hs1.
  eapply wp_mono; [apply getdevice_ok; [done|done]|]. intros [[sub start]|e] s1 Hm.
  2:{ by apply (wp_unlock_ret zero s). }
  simpl in Hm. apply (wp_decref_after fst (lock_up s) s1 start); [done|done|..].
  - destruct sub; [by apply moves_refl; apply Hm|].
    apply VOP_LOOKPARENT_ok; [apply Hm|by eapply moves_one_live].
  - intros r s3 Hg. by apply (gives_unlock fst s r s3 id).
Qed.

(** Giving up a vnode just obtained, on the error paths of vfs_open. *)
Lemma wp_drop s s1 s2 v (e : errno) : vinv s -> moves (one v) s s1 -> moves zero s1 s2 ->
  wp (VOP_DECREF v ;; mret (Err e)) (gives id s) s2.
Proof.
  intros Hs M1 M2. rewrite wp_bind. eapply wp_mono.
  - apply wp_decref; [apply M2|]. eapply (still_live s s1); [done|done|done|]. done.
  - intros [] s3 M3. apply wp_ret. by eapply moves_back.
Qed.

Lemma vfs_open_ok s path flags mode : vinv s -> wp (vfs_open path flags mode) (gives id s) s.
Proof.
  intros Hs. unfold vfs_open. destruct (negb _); [by apply moves_refl|]. rewrite wp_bind.
  assert (wp (open_lookup path flags mode) (gives id s) s) as Hlk.
  { unfold open_lookup. destruct (has_flag flags O_CREAT); [|by apply vfs_lookup_ok].
    rewrite wp_bind. eapply wp_mono; [by apply vfs_lookparent_ok|]. intros [[dir name]|e] s1 Hm; [|done].
    apply (wp_decref_after id s s1 dir); [done|done|..].
    - apply VOP_CREAT_ok; [apply Hm|by eapply moves_one_live].
    - intros r s3 Hg. by apply wp_ret. }
  eapply wp_mono; [exact Hlk|]. intros [v|e] s1 Hm; [|done]. simpl in Hm. unfold id in Hm.
  pose proof (moves_one_live s s1 v Hs Hm) as Hl.
  destruct (live_vnode s1 v (mv_inv _ _ _ Hm) Hl) as (x & _ & _ & Hv & _).
  rewrite wp_bind, wp_kassert. destruct (Z.eqb_spec v 0); [done|]. split; [done|].
  rewrite wp_bind. eapply wp_mono; [apply VOP_EACHOPEN_ok; [apply Hm|done]|].
  intros [[]|e] s2 M2; [|by eapply wp_drop].
  assert (moves (one v) s s2) as Hm2.
  { eapply moves_trans; [exact Hm|exact M2|]. intros u. unfold zero. lia. }
  destruct (has_flag flags O_TRUNC); [|done]. rewrite wp_bind. eapply wp_mono.
  - instantiate (1 := fun _ s' => moves zero s2 s'). destruct (negb _); [by apply moves_refl, M2|].
    apply VOP_TRUNCATE_ok; [apply M2|by eapply moves_one_live].
  - intros [[]|e] s3 M3; [|by eapply wp_drop]. apply wp_ret. simpl.
    eapply moves_trans; [exact Hm2|exact M3|]. intros u. unfold zero, id. lia.
Qed.

(** ** The interface to the open-file layer *)

Lemma vinv_mem m s : vinv s -> moves zero s (set_mem m s).
Proof. intros Hs. by apply moves_env. Qed.

Lemma vinv_allocs a s : vinv s -> moves zero s (set_v_allocs a s).
Proof. intros Hs. by apply moves_env. Qed.

Lemma neutral_refs s s' : moves zero s s' -> vinv s' /\ forall w, ext_refs s' w = ext_refs s w.
Proof.
  intros Hm. split; [apply Hm|]. intros w. rewrite (moves_ext _ _ _ Hm). unfold zero. lia.
Qed.

Lemma copyin_ok s a n : vinv s -> wp (Copyinout.copyin a n) (fun _ s' => moves zero s s') s.
Proof.
  intros Hs. unfold Copyinout.copyin. destruct (Copyinout.copycheck a n); [|by apply moves_refl].
  destruct (negb _); [by apply moves_refl|]. rewrite wp_bind, wp_get.
  destruct (Copyinout.load_bytes _ _ _); by apply moves_refl.
Qed.

Lemma copyout_ok s bs a : vinv s -> wp (Copyinout.copyout bs a) (fun _ s' => moves zero s s') s.
Proof.
  intros Hs. unfold Copyinout.copyout. destruct (Copyinout.copycheck a _); [|by apply moves_refl].
  destruct (negb _); [by apply moves_refl|]. rewrite wp_bind, wp_get.
  destruct (Copyinout.store_bytes _ _ _). rewrite wp_bind, wp_modify. apply wp_ret. by apply vinv_mem.
Qed.

Lemma copyinstr_ok s a n : vinv s -> wp (Copyinout.copyinstr a n) (fun _ s' => moves zero s s') s.
Proof.
  intros Hs. unfold Copyinout.copyinstr. destruct (Copyinout.copycheck a _); [|by apply moves_refl].
  rewrite wp_bind, wp_get. destruct (Copyinout.copystr _ _ _ _ _) as [d [r|e]]; by apply moves_refl.
Qed.
End Ops.

#[export] Instance VfsOps_vfs {G} `{Backend G} : VfsOps (vstate G) := {|
  Interfaces.vfs_open := vfs_open;
  Interfaces.vfs_close := vfs_close;
  Interfaces.VOP_READ := VOP_READ;
  Interfaces.VOP_WRITE := VOP_WRITE;
  Interfaces.VOP_ISSEEKABLE := VOP_ISSEEKABLE;
  Interfaces.VOP_STAT := VOP_STAT;
  curspace := v_space
|}.

#[export] Instance UserMem_vfs {G} : UserMem (vstate G) := Copyinout.UserMem_vmem.

(** What every operation keeps besides the invariant: any fact about the
    tables of the layer and its environment. *)
Definition framed {G} (K : vstate G -> Prop) : Prop := forall s s', same s s' -> K s -> K s'.

(** The VFS layer keeps the promises of the interface, with callers'
    references as the references accounted for, and any framed fact. *)
Definition LowSpec_with {G} `{BackendSpec G} (K : vstate G -> Prop) (HK : framed K) : LowSpec (vstate G).
Proof.
  assert (forall s s', K s -> moves zero s s' -> (vinv s' /\ K s') /\ forall w, ext_refs s' w = ext_refs s w) as Hn.
  { intros s s' Hk Hm. destruct (neutral_refs s s' Hm). split; [|done]. split; [done|]. apply (HK s); [apply Hm|done]. }
  refine {| vrefs := ext_refs; low_inv s := vinv s /\ K s |}.
  - intros s u [[Hok _] _]. pose proof (vfs_held _ Hok u). unfold ext_refs. lia.
  - intros s path flags mode [Hs Hk]. eapply wp_mono; [by apply vfs_open_ok|].
    intros [v|e] s' Hg; simpl in Hg; (split; [split; [apply Hg|apply (HK s); [apply Hg|done]]|]); intros u;
      rewrite (moves_ext _ _ _ Hg); [done|unfold zero; lia].
  - intros s v [Hs Hk] Hl. eapply wp_mono; [by apply wp_decref|]. intros [] s' Hm.
    split; [split; [apply Hm|apply (HK s); [apply Hm|done]]|].
    intros u. rewrite (moves_ext _ _ _ Hm). unfold minus. case_match; lia.
  - intros s v buf len pos [Hs Hk] Hl. eapply wp_mono; [by apply VOP_READ_ok|]. auto.
  - intros s v buf len pos [Hs Hk] Hl. eapply wp_mono; [by apply VOP_WRITE_ok|]. auto.
  - intros s v [Hs Hk] Hl. eapply wp_mono; [by apply VOP_ISSEEKABLE_ok|]. auto.
  - intros s v [Hs Hk] Hl. eapply wp_mono; [by apply VOP_STAT_ok|]. auto.
  - intros s bs a [Hs Hk]. eapply wp_mono; [by apply copyout_ok|]. auto.
  - intros s a n [Hs Hk]. eapply wp_mono; [by apply copyin_ok|]. auto.
  - intros s a n [Hs Hk]. eapply wp_mono; [by apply copyinstr_ok|]. auto.
  - intros s a [Hs Hk]. apply (Hn s); [done|by apply vinv_allocs].
  - done.
Defined.

#[export] Instance LowSpec_vfs {G} `{BackendSpec G} : LowSpec (vstate G) :=
  LowSpec_with (fun _ => True) (fun _ _ _ _ => I).
End VfsSpec.
