(* ===== verification/VfsDevs.v ===== *)
(** * The device list

    Adding devices keeps the invariant of the VFS layer and the names in the
    list distinct; what vfs_getroot finds for a name; and a concrete system,
    the one vfs_bootstrap builds, with only the null device. *)

From S2P Require Import Prelude Kern Array Interfaces Copyinout Uio Vfs VfsSpec.
Open Scope Z_scope.
Import Vfs VfsSpec.

Module VfsDevs.

Section Names.
Context {G : Type} `{BackendSpec G}.
Abbreviation V := (vstate G).
Implicit Types (s : V) (kd : knowndev).

(** The names an entry of the device list answers to. *)
Definition vol_of (g : G) kd : option (list Z) :=
  match kd_fs kd with Fs fs => volname g fs | _ => None end.
Definition names_of (g : G) kd : list (list Z) :=
  kd_name kd :: option_list (kd_rawname kd) ++ option_list (vol_of g kd).
Definition all_names s : list (list Z) := devs s ≫= names_of (v_backend s).

Lemma streq_spec a b : streq a b = true <-> a = b.
Proof. apply bool_decide_eq_true. Qed.

Lemma samestring3_spec a n1 n2 n3 : samestring3 a n1 n2 n3 = true <->
  exists x, a = Some x /\ (n1 = Some x \/ n2 = Some x \/ n3 = Some x).
Proof.
  unfold samestring3, samestring. destruct a as [x|]; [|naive_solver].
  rewrite !orb_true_iff. destruct n1, n2, n3; rewrite ?streq_spec; naive_solver.
Qed.

Lemma elem_option_list {A} (o : option A) x : x ∈ option_list o <-> o = Some x.
Proof. destruct o; simpl; rewrite ?list_elem_of_singleton, ?elem_of_nil; naive_solver. Qed.

Lemma elem_names_cons g kd kds x : x ∈ (kd :: kds) ≫= names_of g <->
  kd_rawname kd = Some x \/ kd_name kd = x \/ vol_of g kd = Some x \/ x ∈ kds ≫= names_of g.
Proof.
  rewrite bind_cons, elem_of_app. unfold names_of.
  rewrite elem_of_cons, elem_of_app, !elem_option_list. naive_solver.
Qed.

(** [x] is one of the three names. *)
Definition among (n1 n2 n3 : option (list Z)) (x : list Z) : Prop :=
  n1 = Some x \/ n2 = Some x \/ n3 = Some x.

(** An entry answers to one of them. *)
Definition hit (g : G) n1 n2 n3 kd : bool :=
  samestring3 (vol_of g kd) n1 n2 n3 || samestring3 (kd_rawname kd) n1 n2 n3
  || samestring3 (Some (kd_name kd)) n1 n2 n3.

Lemma hit_spec g n1 n2 n3 kd : hit g n1 n2 n3 kd = true <->
  exists x, x ∈ names_of g kd /\ among n1 n2 n3 x.
Proof.
  unfold hit, names_of. rewrite !orb_true_iff, !samestring3_spec.
  setoid_rewrite elem_of_cons. setoid_rewrite elem_of_app. setoid_rewrite elem_option_list.
  split; [|naive_solver].
  intros [[(x & Hx & Ha)|(x & Hx & Ha)]|(x & [= <-] & Ha)]; exists x || exists (kd_name kd); auto.
Qed.

Lemma badnames_loop_eq kds n1 n2 n3 s : binv s -> lock_ok s -> (forall kd, kd ∈ kds -> kd ∈ devs s) ->
  badnames_loop kds n1 n2 n3 s = Ok (existsb (hit (v_backend s) n1 n2 n3) kds) s.
Proof.
  intros Hb Hl. induction kds as [|kd kds IH]; intros Hsub; [done|].
  specialize (IH (fun kd' Hk => Hsub kd' (list_elem_of_further _ _ _ Hk))).
  simpl. unfold hit at 1, vol_of. destruct (kd_fs kd) as [| |fs] eqn:Hf.
  1, 2: simpl; destruct (_ || _); [done|exact IH].
  unfold mbind at 1, M_bind at 1.
  rewrite getvolname_spec by (done || (eapply kd_live; [|done]; apply Hsub; left)).
  destruct (samestring3 (volname (v_backend s) fs) n1 n2 n3); [done|]. simpl.
  destruct (_ || _); [done|exact IH].
Qed.

(** badnames tells whether one of the names is taken. *)
Lemma badnames_eq n1 n2 n3 s : binv s -> lock_ok s -> biglock s = Some (v_thread s) ->
  exists b, badnames n1 n2 n3 s = Ok b s /\
    (b = true <-> exists x, x ∈ all_names s /\ among n1 n2 n3 x).
Proof.
  intros Hb Hok Hl. exists (existsb (hit (v_backend s) n1 n2 n3) (devs s)). split.
  - unfold badnames, mbind, M_bind, vfs_biglock_do_i_hold, gets, biglock_held, get, kassert.
    rewrite bool_decide_true by done. by apply badnames_loop_eq.
  - rewrite existsb_exists. unfold all_names. setoid_rewrite list_elem_of_bind.
    setoid_rewrite <- list_elem_of_In. setoid_rewrite hit_spec. firstorder.
Qed.
End Names.

Section Add.
Context {G : Type} `{BackendSpec G}.
Abbreviation V := (vstate G).
Implicit Types (s t : V) (kd : knowndev).

(** Between dev_create_vnode and the end of vfs_doadd, with the big lock
    held: [t] is [s] with one vnode more, which nobody knows yet. *)
Record pending s (v dev : Z) t : Prop := Pending {
  pd_new : v = v_next s;
  pd_vnodes : vnodes t = <[v := Vnode 1 0 dev dev_vnode_ops]> (vnodes s);
  pd_devices : devices t = devices s;
  pd_knowndevs : knowndevs t = knowndevs s;
  pd_lock : biglock t = Some (v_thread s) /\ biglock_depth t = biglock_depth s + 1;
  pd_rest : bootfs_vnode t = bootfs_vnode s /\ p_cwd t = p_cwd s /\ v_backend t = v_backend s;
  pd_cur : v_thread t = v_thread s /\ v_proc t = v_proc s /\ v_space t = v_space s;
  pd_next : v_next t = v_next s + 1
}.

Lemma wp_kmalloc s (Q : bool -> V -> Prop) : (forall b al, Q b (set_v_allocs al s)) -> wp kmalloc Q s.
Proof.
  intros HQ. unfold wp, kmalloc. simpl. destruct (v_allocs s) eqn:E; [|apply HQ].
  specialize (HQ true []). by destruct s; simpl in *; subst.
Qed.

Lemma fresh_vnode s : vinv s -> vnodes s !! v_next s = None.
Proof.
  intros [Hok _]. destruct (vnodes s !! v_next s) as [x|] eqn:Hx; [|done].
  destruct (vok_addr _ _ _ (vfs_vnodes _ Hok _ _ Hx)). lia.
Qed.

Lemma fresh_refs s : vinv s -> refs s (v_next s) = 0 /\ cnt (v_next s) (holders s) = 0.
Proof.
  intros Hs. assert (refs s (v_next s) = 0) as Hr by (unfold refs; by rewrite fresh_vnode).
  split; [done|]. pose proof (vfs_held _ (proj1 Hs) (v_next s)).
  pose proof (cnt_nonneg (v_next s) (holders s)). lia.
Qed.

Lemma pending_binv s v dev t : vinv s -> pending s v dev t -> binv t.
Proof.
  intros Hs Hp. apply (binv_stable s); [apply Hs|]. destruct Hp as [-> P1 P2 P3 P4 (P5 & P6 & P7) P8 P9].
  split; [done|lia| | |].
  - intros u. unfold fs_info. rewrite P1. destruct (decide (u = v_next s)) as [->|].
    + by rewrite lookup_insert_eq, fresh_vnode.
    + by rewrite lookup_insert_ne.
  - intros fs. unfold mounted, devs. by rewrite P3.
  - intros d. unfold drv_info. by rewrite P2.
Qed.

(** The exits of vfs_doadd. *)
Lemma doadd_fail_early s al e : vinv s ->
  wp (doadd_fail 0 e) (fun r s' => r = Err e /\ moves zero s s' /\ v_backend s' = v_backend s) (set_v_allocs al (lock_up s)).
Proof.
  intros Hs. unfold doadd_fail. simpl. rewrite wp_bind, wp_ret.
  apply (wp_unlock_ret zero s); [done|by apply vinv_allocs, lock_up_inv|]. done.
Qed.

Lemma doadd_fail_late s v dev t e : vinv s -> pending s v dev t ->
  wp (doadd_fail v e) (fun r s' => r = Err e /\ moves zero s s' /\ v_backend s' = v_backend s) t.
Proof.
  intros Hs Hp. pose proof (pending_binv _ _ _ _ Hs Hp) as Hb.
  destruct Hp as [-> P1 P2 P3 [P4 P4'] (P5 & P6 & P7) (P8 & P8' & P8'') P9].
  pose proof (vfs_next _ (proj1 Hs)) as Hpos. pose proof (fresh_vnode s Hs) as Hf.
  assert (vnodes t !! v_next s = Some (Vnode 1 0 dev dev_vnode_ops)) as Hv
    by (rewrite P1; apply lookup_insert_eq).
  unfold doadd_fail. destruct (Z.eqb_spec (v_next s) 0); [lia|]. rewrite wp_bind.
  unfold dev_uncreate_vnode. rewrite wp_bind. eapply wp_get_vnode; [done|done|].
  rewrite wp_bind, wp_kassert. split; [done|]. rewrite wp_bind. unfold vnode_cleanup.
  rewrite wp_bind. eapply wp_get_vnode; [done|done|]. rewrite wp_bind, wp_kassert. split; [done|].
  unfold put_vnode. rewrite wp_modify, wp_modify. simpl. rewrite P1.
  rewrite insert_insert_eq, delete_insert_id by done.
  apply (wp_unlock_ret zero s); [done| |intros s' Hm He; simpl in He; by rewrite P7 in He].
  assert (same (lock_up s) (set_vnodes (vnodes s) t)) as Hsame by (split; simpl; try congruence; auto).
  apply moves_env; simpl; [by apply lock_up_inv|done|done|lia|done].
Qed.

(** The device list with one entry more. *)
Record added s kd t : Prop := Added {
  ad_kd : kd_fs kd = NoFs /\ kd_vnode kd = v_next s /\ kd_device kd <> 0 /\
          is_Some (devices s !! kd_device kd);
  ad_vnodes : vnodes t = <[v_next s := Vnode 1 0 (kd_device kd) dev_vnode_ops]> (vnodes s);
  ad_devices : exists x n, devices s !! kd_device kd = Some x /\
    devices t = <[kd_device kd := Device (d_ops x) (d_blocks x) (d_blocksize x) n]> (devices s);
  ad_devs : devs t = devs s ++ [kd];
  ad_arr : Array.holds (knowndevs t) (devs t);
  ad_cap : Array.cap_ok (Array.arr_max (knowndevs t)) /\ Array.arr_max (knowndevs t) <= 2 ^ 31;
  ad_lock : biglock t = biglock s /\ biglock_depth t = biglock_depth s;
  ad_rest : bootfs_vnode t = bootfs_vnode s /\ p_cwd t = p_cwd s /\ v_backend t = v_backend s;
  ad_cur : v_thread t = v_thread s /\ v_proc t = v_proc s /\ v_space t = v_space s;
  ad_next : v_next t = v_next s + 1
}.

Section Added.
Context {s t : V} {kd : knowndev}.
Hypothesis Hs : vinv s.
Hypothesis Ha : added s kd t.

Lemma added_refs u : refs t u = refs s u + (if u =? v_next s then 1 else 0).
Proof.
  pose proof (fresh_refs s Hs) as [Hr _]. unfold refs in *. rewrite (ad_vnodes _ _ _ Ha).
  destruct (Z.eqb_spec u (v_next s)) as [->|].
  - rewrite lookup_insert_eq. rewrite Hr. done.
  - rewrite lookup_insert_ne by done. lia.
Qed.

Lemma added_holders u : cnt u (holders t) = cnt u (holders s) + (if u =? v_next s then 1 else 0).
Proof.
  destruct Ha as [(_ & Hv & _) _ _ Hd _ _ _ (R1 & R2 & _) _ _]. unfold holders.
  rewrite Hd, R1, R2, fmap_app. unfold cnt. rewrite !filter_app, !length_app. simpl.
  rewrite Hv, filter_cons, filter_nil, (Z.eqb_sym u (v_next s)).
  case_decide; destruct (Z.eqb_spec (v_next s) u); try done; simpl; lia.
Qed.

Lemma added_ext u : ext_refs t u = ext_refs s u.
Proof. unfold ext_refs. rewrite added_refs, added_holders. lia. Qed.

Lemma added_device d : is_Some (devices s !! d) -> is_Some (devices t !! d).
Proof.
  destruct (ad_devices _ _ _ Ha) as (x & n & Hx & ->). intros Hd.
  destruct (decide (d = kd_device kd)) as [->|]; [rewrite lookup_insert_eq; by eexists|].
  by rewrite lookup_insert_ne.
Qed.

Lemma added_node u x : vnodes s !! u = Some x -> vnodes t !! u = Some x.
Proof.
  intros Hx. rewrite (ad_vnodes _ _ _ Ha). rewrite lookup_insert_ne; [done|].
  intros <-. rewrite fresh_vnode in Hx; done.
Qed.

Lemma added_vnode_ok u x : vnodes t !! u = Some x -> vnode_ok t u x.
Proof.
  intros Hx. pose proof (vfs_next _ (proj1 Hs)) as Hpos. pose proof (ad_next _ _ _ Ha) as Hn.
  destruct (ad_kd _ _ _ Ha) as (Hf & Hv & Hd0 & Hdd).
  rewrite (ad_vnodes _ _ _ Ha) in Hx. apply lookup_insert_Some in Hx as [[<- <-]|[Hne Hx]].
  - split; simpl; try done; [lia|]. intros _. split; [done|]. split; [|split; [done|]].
    + rewrite (ad_devs _ _ _ Ha), fmap_app. apply elem_of_app. right. rewrite <- Hv. left.
    + intros _. by apply added_device.
  - destruct (vfs_vnodes _ (proj1 Hs) u x Hx) as [P1 P2 P3 P4 P5]. split; try done; [lia|].
    intros Ho. destruct (P4 Ho) as (Q1 & Q2 & Q3 & Q4). split; [done|]. split; [|split].
    + rewrite (ad_devs _ _ _ Ha), fmap_app. apply elem_of_app. by left.
    + intros Hd. by rewrite added_ext, Q3.
    + intros Hd. by apply added_device, Q4.
Qed.

Lemma added_binv : binv t.
Proof.
  apply (binv_stable s); [apply Hs|].
  destruct (ad_kd _ _ _ Ha) as (Hf & _). destruct (ad_rest _ _ _ Ha) as (R1 & R2 & R3).
  split; [done|rewrite (ad_next _ _ _ Ha); lia|..].
  - intros u. unfold fs_info. rewrite (ad_vnodes _ _ _ Ha).
    destruct (decide (u = v_next s)) as [->|]; [by rewrite lookup_insert_eq, fresh_vnode|].
    by rewrite lookup_insert_ne.
  - intros fs. unfold mounted. rewrite (ad_devs _ _ _ Ha). setoid_rewrite elem_of_app.
    setoid_rewrite list_elem_of_singleton. split; [|naive_solver].
    intros (kd' & [Hin| ->] & Hk); [eauto|congruence].
  - intros d. unfold drv_info. destruct (ad_devices _ _ _ Ha) as (x & n & Hx & ->).
    destruct (decide (d = kd_device kd)) as [->|]; [by rewrite lookup_insert_eq, Hx|].
    by rewrite lookup_insert_ne.
Qed.

Lemma added_inv : vinv t.
Proof.
  destruct (ad_kd _ _ _ Ha) as (Hf & Hv & Hd0 & Hdd). destruct (ad_rest _ _ _ Ha) as (R1 & R2 & R3).
  assert (forall u, fs_node s u -> fs_node t u) as Hfn.
  { intros u (x & Hx & Ho). exists x. split; [by apply added_node|done]. }
  split; [|apply added_binv]. destruct (proj1 Hs) as [Q1 Q2 Q3 Q4 Q5 Q6 Q7 Q8 Q9]. split.
  - apply Ha.
  - apply added_vnode_ok.
  - intros u. rewrite added_refs, added_holders. specialize (Q3 u). lia.
  - intros kd' Hin. rewrite (ad_devs _ _ _ Ha) in Hin. apply elem_of_app in Hin as [Hin|Hin].
    + destruct (Q4 kd' Hin) as [(x & Hx & Ho & Hd) P2 P3 P4 P5]. split; try done.
      * exists x. split; [by apply added_node|done].
      * intros Hd'. by apply added_device, P2.
    + apply list_elem_of_singleton in Hin as ->. split; try done; [|by intros; apply added_device|by rewrite Hf].
      eexists. split; [rewrite (ad_vnodes _ _ _ Ha), Hv; apply lookup_insert_eq|done].
  - intros p d Hp. rewrite R2 in Hp. apply Hfn. by eapply Q5.
  - rewrite R1. auto.
  - unfold lock_ok. destruct (ad_lock _ _ _ Ha) as [-> ->]. destruct (ad_cur _ _ _ Ha) as (-> & _). done.
  - apply Ha.
  - rewrite (ad_next _ _ _ Ha). lia.
Qed.
End Added.

(** The raw name vfs_doadd makes. *)
Definition raw_of (mountable : bool) (name : list Z) : option (list Z) :=
  if mountable then Some (name ++ [114; 97; 119]) else None.

(** The outcome of vfs_adddev. *)
Definition adddev_post s name dev mountable (r : res unit) s' : Prop :=
  let taken := exists x, x ∈ all_names s /\ among (Some name) (raw_of mountable name) None x in
  match r with
  | Done _ => ~ taken /\ exists kd, added s kd s' /\ kd_name kd = name /\
      kd_rawname kd = raw_of mountable name /\ kd_device kd = dev
  | Err e => (moves zero s s' /\ v_backend s' = v_backend s) /\ (e = ENOMEM \/ e = EEXIST /\ taken)
  end.

Lemma wp_dev_create s al dev (Q : Z -> V -> Prop) : vinv s ->
  (forall al', Q 0 (set_v_allocs al' (lock_up s))) ->
  (forall t, pending s (v_next s) dev t -> Q (v_next s) t) ->
  wp (dev_create_vnode dev) Q (set_v_allocs al (lock_up s)).
Proof.
  intros Hs Hno Hyes. pose proof (vfs_next _ (proj1 Hs)) as Hpos.
  unfold dev_create_vnode, kmalloc_addr. rewrite !wp_bind. apply wp_kmalloc. intros [] al'; simpl.
  - rewrite wp_bind, wp_get, wp_bind, wp_modify, wp_ret. simpl.
    destruct (Z.eqb_spec (v_next s) 0); [lia|]. rewrite wp_bind. unfold vnode_init.
    rewrite wp_bind, wp_kassert. split; [by destruct (Z.eqb_spec (v_next s) 0)|].
    unfold put_vnode. rewrite wp_modify, wp_ret. apply Hyes. by split.
  - rewrite wp_ret. simpl. rewrite wp_ret. apply (Hno al').
Qed.

Lemma pending_allocs s v dev t al : pending s v dev t -> pending s v dev (set_v_allocs al t).
Proof. intros []. by split. Qed.

Lemma wp_unlock_raw {A} t (a : A) (Q : A -> V -> Prop) : biglock t = Some (v_thread t) ->
  0 < biglock_depth t ->
  Q a (set_biglock (if biglock_depth t - 1 =? 0 then None else biglock t) (biglock_depth t - 1) t) ->
  wp (unlock_ret a) Q t.
Proof.
  intros Hl Hd HQ. unfold unlock_ret, vfs_biglock_release, wp, mbind, M_bind, get, kassert, biglock_held,
    modify, mret, M_ret. rewrite bool_decide_true by done.
  by destruct (Z.gtb_spec (biglock_depth t) 0); [|lia].
Qed.

Lemma devs_holds s xs : Array.holds (knowndevs s) xs -> devs s = xs.
Proof.
  intros [Hn _ _ _ Hc]. unfold devs. rewrite Hn, Nat2Z.id, Hc. clear.
  induction xs as [|x xs IH]; [done|]. change (x :: omap id (Some <$> xs) = x :: xs). by rewrite IH.
Qed.

Lemma added_final s v dev t a al x n name raw (kd := Knowndev name raw dev v NoFs) :
  vinv s -> pending s v dev t -> dev <> 0 -> devices s !! dev = Some x ->
  Array.holds a (devs s ++ [kd]) -> Array.cap_ok (Array.arr_max a) -> Array.arr_max a <= 2 ^ 31 ->
  added s kd
    (set_biglock (if biglock_depth t - 1 =? 0 then None else biglock t) (biglock_depth t - 1)
      (set_devices (<[dev := Device (d_ops x) (d_blocks x) (d_blocksize x) n]> (devices s))
        (set_knowndevs a (set_v_allocs al t)))).
Proof.
  intros Hs Hp Hd0 Hx Hh Hc1 Hc2.
  destruct Hp as [Hv P1 P2 P3 [P4 P4'] (P5 & P6 & P7) (P8 & P8' & P8'') P9].
  assert (devs (set_knowndevs a t) = devs s ++ [kd]) as Hdevs by (by apply devs_holds).
  split; simpl.
  - split_and!; try done.
  - by rewrite P1, Hv.
  - by exists x, n.
  - exact Hdevs.
  - change (Array.holds a (devs (set_knowndevs a t))). by rewrite Hdevs.
  - done.
  - rewrite P4', P4. replace (biglock_depth s + 1 - 1) with (biglock_depth s) by lia.
    split; [|done]. destruct (vfs_lock _ (proj1 Hs)) as [[-> ->]|[-> ?]]; [done|].
    by destruct (Z.eqb_spec (biglock_depth s) 0); [lia|].
  - done.
  - done.
  - done.
Qed.

(** From badnames to the end of vfs_doadd. *)
Lemma doadd_tail s v dev t name mountable (kd := Knowndev name (raw_of mountable name) dev v NoFs) :
  vinv s -> pending s v dev t -> dev <> 0 -> is_Some (devices s !! dev) ->
  Z.of_nat (length (devs s)) < 2 ^ 31 ->
  wp (bad ← badnames (Some name) (raw_of mountable name) None;
      if (bad : bool) then doadd_fail v EEXIST else
      s ← get;
      x ← Array.array_add (knowndevs s) kd;
      modify (set_knowndevs x.2) ;;
      match x.1 with
      | Err e => doadd_fail v e
      | Done index =>
          (if dev =? 0 then mret tt else
           d ← get_device dev;
           modify (fun s => set_devices
             (<[dev := Device (d_ops d) (d_blocks d) (d_blocksize d) (index + 1)]> (devices s)) s)) ;;
          unlock_ret (Done tt)
      end) (adddev_post s name dev mountable) t.
Proof.
  intros Hs Hp Hd0 Hdd Hlen. pose proof (pending_binv _ _ _ _ Hs Hp) as Hb.
  pose proof Hp as [Hv P1 P2 P3 [P4 P4'] (P5 & P6 & P7) (P8 & P8' & P8'') P9].
  assert (lock_ok t) as Hlk.
  { right. rewrite P4, P4', P8. split; [done|].
    destruct (vfs_lock _ (proj1 Hs)) as [[_ ->]|[_ ?]]; lia. }
  assert (all_names t = all_names s) as Hnames by (unfold all_names, devs; by rewrite P3, P7).
  destruct (badnames_eq (Some name) (raw_of mountable name) None t Hb Hlk) as (bad & Hbad & Htaken).
  { by rewrite P8. }
  rewrite Hnames in Htaken. rewrite wp_bind. unfold wp at 1. rewrite Hbad.
  destruct bad.
  { eapply wp_mono; [by eapply doadd_fail_late|]. intros r s' [-> Hm]. split; [done|]. right. tauto. }
  rewrite wp_bind, wp_get, wp_bind, P3.
  destruct (Array.array_add_ok (knowndevs s) (devs s) kd t) as (r & a & t' & Hadd & Hst & Hc1 & Hc2 & Hr);
    [apply Hs|apply Hs|apply Hs|done|].
  unfold wp at 1. rewrite Hadd.
  assert (exists al, t' = set_v_allocs al t) as (al & ->).
  { destruct Hst as [->|(al & ->)]; [exists (v_allocs t); by destruct t|by exists al]. }
  rewrite wp_bind, wp_modify. destruct r as [index|e].
  2:{ destruct Hr as [-> ->]. eapply wp_mono; [eapply doadd_fail_late; [done|]|].
      - by split; simpl.
      - intros r s' [-> Hm]. split; [done|by left]. }
  cbn [fst snd]. destruct Hr as [-> Hh]. destruct (Z.eqb_spec dev 0); [done|]. destruct Hdd as [x Hx].
  rewrite wp_bind, wp_bind. unfold get_device at 1. destruct (Z.eqb_spec dev 0); [done|].
  rewrite wp_bind, wp_get, wp_deref. exists x. split; [by simpl; rewrite P2|]. rewrite wp_modify.
  apply wp_unlock_raw; simpl.
  { by rewrite P4, P8. }
  { rewrite P4'. destruct (vfs_lock _ (proj1 Hs)) as [[_ ->]|[_ ?]]; lia. }
  split; [by rewrite <- Htaken|]. exists kd. split; [|done]. rewrite P2.
  by apply (added_final s v dev t).
Qed.

Lemma vfs_adddev_ok s name dev mountable : vinv s -> dev <> 0 -> is_Some (devices s !! dev) ->
  Z.of_nat (length (devs s)) < 2 ^ 31 ->
  wp (vfs_adddev name dev mountable) (adddev_post s name dev mountable) s.
Proof.
  intros Hs Hd Hdd Hlen.
  assert (forall al, wp (doadd_fail 0 ENOMEM) (adddev_post s name dev mountable)
    (set_v_allocs al (lock_up s))) as Hearly.
  { intros al. eapply wp_mono; [by apply doadd_fail_early|]. intros r s' [-> Hm]. split; [done|by left]. }
  unfold vfs_adddev, vfs_doadd. rewrite wp_bind. apply wp_biglock_acquire; [done|].
  rewrite wp_bind. apply wp_kmalloc. intros [] al1; simpl; [|apply Hearly].
  rewrite wp_bind. eapply (wp_mono _ (fun raw t => exists al, t = set_v_allocs al (lock_up s) /\
    (raw = raw_of mountable name \/ mountable = true /\ raw = None))).
  { unfold mkrawname, raw_of. destruct mountable; [|by exists al1; auto].
    rewrite wp_bind. apply wp_kmalloc. intros [] al2; exists al2; auto. }
  intros raw t (al2 & -> & Hraw).
  destruct (mountable && match raw with None => true | _ => false end) eqn:Hm; [apply Hearly|].
  assert (raw = raw_of mountable name) as ->.
  { destruct Hraw as [?|[-> ->]]; [done|]. done. }
  rewrite wp_bind. apply wp_dev_create; [done|by intros; apply Hearly|]. intros t Hp.
  pose proof (vfs_next _ (proj1 Hs)). destruct (Z.eqb_spec (v_next s) 0); [lia|].
  rewrite wp_bind. apply wp_kmalloc. intros [] al3; simpl.
  - rewrite wp_bind, wp_ret. by apply doadd_tail; [|apply pending_allocs|..].
  - eapply wp_mono; [by eapply doadd_fail_late; [|apply pending_allocs]|].
    intros r s' [-> Hmv]. split; [done|by left].
Qed.

(** Names stay distinct: a name is never its own raw name. *)
Lemma added_names s name mountable kd s' : NoDup (all_names s) ->
  ~ (exists x, x ∈ all_names s /\ among (Some name) (raw_of mountable name) None x) ->
  added s kd s' -> kd_name kd = name -> kd_rawname kd = raw_of mountable name ->
  NoDup (all_names s').
Proof.
  intros Hnd Hfree Ha Hn Hr. unfold all_names.
  rewrite (ad_devs _ _ _ Ha), bind_app. destruct (ad_rest _ _ _ Ha) as (_ & _ & ->).
  apply NoDup_app. split; [done|]. simpl. rewrite app_nil_r. unfold names_of, vol_of.
  destruct (ad_kd _ _ _ Ha) as (Hf & _). rewrite Hf, Hn, Hr. simpl. rewrite app_nil_r. split.
  - intros x Hx Hin. apply Hfree. exists x. split; [done|].
    apply elem_of_cons in Hin as [->|Hin]; [by left|]. right. left. by apply elem_option_list.
  - unfold raw_of. destruct mountable; simpl.
    + apply NoDup_cons. split; [|apply NoDup_singleton]. intros Heq%list_elem_of_singleton.
      apply (f_equal length) in Heq. rewrite length_app in Heq. simpl in Heq. lia.
    + apply NoDup_singleton.
Qed.

(** Registering a device either fails with ENOMEM or EEXIST and leaves
    the layer as it was, or appends one entry to the device list; EEXIST
    exactly when memory suffices and its name or raw name is taken.  Names
    stay distinct and no caller's reference changes. *)
Theorem vfs_adddev_spec s name dev mountable : vinv s -> dev <> 0 -> is_Some (devices s !! dev) ->
  Z.of_nat (length (devs s)) < 2 ^ 31 -> NoDup (all_names s) ->
  exists r s', vfs_adddev name dev mountable s = Ok r s' /\ vinv s' /\ NoDup (all_names s') /\
    (forall u, ext_refs s' u = ext_refs s u) /\
    match r with
    | Done _ => (name ∉ all_names s) /\
        exists kd, devs s' = devs s ++ [kd] /\ kd_name kd = name /\ kd_device kd = dev /\
          kd_rawname kd = raw_of mountable name /\ kd_fs kd = NoFs
    | Err e => devs s' = devs s /\ (e = ENOMEM \/ e = EEXIST)
    end.
Proof.
  intros Hs Hd Hdd Hlen Hnd. pose proof (vfs_adddev_ok s name dev mountable Hs Hd Hdd Hlen) as Hw.
  apply wp_ok in Hw as (r & s' & Hrun & Hpost). exists r, s'. split; [done|].
  destruct r as [[]|e].
  - destruct Hpost as (Hfree & kd & Ha & Hkn & Hkr & Hkd).
    split; [by eapply added_inv|]. split; [|split; [by intros; eapply added_ext|]].
    + by eapply added_names.
    + split; [intros Hin; apply Hfree; exists name; split; [done|by left]|].
      exists kd. split; [apply Ha|]. split; [done|]. split; [done|]. split; [done|apply Ha].
  - destruct Hpost as [[Hm Hg] He]. split; [apply Hm|].
    pose proof (same_devs _ _ (mv_same _ _ _ Hm)) as Hdv.
    split; [unfold all_names; by rewrite Hdv, Hg|].
    split; [intros u; rewrite (moves_ext _ _ _ Hm); unfold zero; lia|]. split; [done|tauto].
Qed.
End Add.

(** ** A system without file systems or drivers *)

(** No operation table but those of device.c and devnull.c exists, so none of
    these operations can be reached. *)
#[export] Instance NoBackend : Backend unit := {|
  fop_eachopen _ _ := raise FNull; fop_reclaim _ := raise FNull; fop_read _ _ := raise FNull;
  fop_readlink _ _ := raise FNull; fop_getdirentry _ _ := raise FNull; fop_write _ _ := raise FNull;
  fop_ioctl _ _ _ := raise FNull; fop_stat _ := raise FNull; fop_gettype _ := raise FNull;
  fop_isseekable _ := raise FNull; fop_fsync _ := raise FNull; fop_truncate _ _ := raise FNull;
  fop_namefile _ _ := raise FNull; fop_creat _ _ _ _ := raise FNull; fop_symlink _ _ _ := raise FNull;
  fop_mkdir _ _ _ := raise FNull; fop_link _ _ _ := raise FNull; fop_remove _ _ := raise FNull;
  fop_rmdir _ _ := raise FNull; fop_rename _ _ _ _ := raise FNull; fop_lookup _ _ := raise FNull;
  fop_lookparent _ _ _ := raise FNull; fsop_sync _ := raise FNull; fsop_getvolname _ := raise FNull;
  fsop_getroot _ := raise FNull; fsop_unmount _ := raise FNull; drv_eachopen _ _ := raise FNull;
  drv_io _ _ := raise FNull; drv_ioctl _ _ _ := raise FNull
|}.

#[export] Instance NoBackendInv : BackendInv unit.
Proof.
  refine {| binv s := (forall u, fs_info s u = None) /\ (forall fs, ~ mounted s fs) /\
                      (forall d, drv_info s d = None) |}.
  intros s s' (B1 & B2 & B3) [_ _ S1 S2 S3]. split_and!.
  - intros u. by rewrite S1.
  - intros fs. by rewrite S2.
  - intros d. by rewrite S3.
Defined.

Lemma no_fs_node (s : vstate unit) v : vinv s -> ~ fs_node s v.
Proof.
  intros [_ (B1 & _)] (x & Hx & Ho). specialize (B1 v). unfold fs_info in B1. by rewrite Hx, Ho in B1.
Qed.

Lemma no_fs_live (s : vstate unit) fs : binv s -> ~ fs_live s fs.
Proof.
  intros (B1 & B2 & _) [Hm|(u & x & Hx & Ho & _)]; [by eapply B2|].
  specialize (B1 u). unfold fs_info in B1. by rewrite Hx, Ho in B1.
Qed.

Lemma no_drv (s : vstate unit) d x : vinv s -> devices s !! d = Some x -> d_ops x <> drv_devops.
Proof.
  intros [_ (_ & _ & B3)] Hx Ho. specialize (B3 d). unfold drv_info in B3. by rewrite Hx, Ho in B3.
Qed.

#[export] Instance NoBackendSpec : BackendSpec unit.
Proof.
  refine {| volname _ _ := None |}; intros;
    try (exfalso; eapply no_fs_node; eassumption);
    try (exfalso; eapply no_drv; eassumption);
    exfalso; (eapply no_fs_live; [|eassumption]); first [assumption | by match goal with Hv : vinv _ |- _ => apply Hv end].
Defined.

(** The state before vfs_bootstrap, and the one it leaves. *)
Definition empty_vfs (mem : gmap Z Z) : vstate unit :=
  VState ∅ ∅ Array.array_init None 0 0 ∅ 7 3 1 mem [] 100 tt.
Definition null_kd : knowndev := Knowndev [110; 117; 108; 108] None 100 101 NoFs.
Definition boot_vfs (mem : gmap Z Z) : vstate unit :=
  VState {[101 := Vnode 1 0 100 dev_vnode_ops]} {[100 := Device null_devops 0 1 1]}
    (Array.Arr [Some null_kd; None; None; None] 1 4) None 0 0 ∅ 7 3 1 mem [] 102 tt.

Lemma boot_inv mem : vinv (boot_vfs mem).
Proof.
  split; [split|].
  - split; simpl; try done; lia.
  - intros u x Hx. simpl in Hx. apply lookup_singleton_Some in Hx as [<- <-]. split; simpl; try done; try lia.
    intros _. split; [done|]. split; [left|]. split; [done|]. intros _. by eexists.
  - intros u. unfold holders. simpl. unfold refs. simpl. destruct (decide (u = 101)) as [->|Hne]; [done|].
    rewrite lookup_singleton_ne by done. unfold cnt. simpl. rewrite filter_cons. case_decide; [lia|done].
  - intros kd Hin. apply list_elem_of_singleton in Hin as ->. split; simpl; try done; by eexists.
  - done.
  - done.
  - by left.
  - split; [right; by exists 0%nat|simpl; lia].
  - simpl. lia.
  - split_and!.
    + intros u. unfold fs_info. simpl. destruct (_ !! u) as [x|] eqn:Hx; [|done].
      by apply lookup_singleton_Some in Hx as [<- <-].
    + intros fs (kd & Hin & Hk). by apply list_elem_of_singleton in Hin as ->.
    + intros d. unfold drv_info. simpl. destruct (_ !! d) as [x|] eqn:Hx; [|done].
      by apply lookup_singleton_Some in Hx as [<- <-].
Qed.

(** Vfs_bootstrap, when memory suffices, builds a device list with the null
    device only, and the invariant of the layer holds from there on. *)
Theorem vfs_bootstrap_spec mem :
  vfs_bootstrap (mret tt) (empty_vfs mem) = Ok tt (boot_vfs mem) /\ vinv (boot_vfs mem) /\
  devs (boot_vfs mem) = [null_kd] /\ forall u, ext_refs (boot_vfs mem) u = 0.
Proof.
  split; [reflexivity|]. split; [apply boot_inv|]. split; [reflexivity|]. intros u.
  pose proof (vfs_held _ (proj1 (boot_inv mem)) u) as Hh.
  pose proof (cnt_nonneg u (holders (boot_vfs mem))) as Hn. unfold ext_refs in *.
  destruct (decide (u = 101)) as [->|Hne]; [done|].
  assert (refs (boot_vfs mem) u = 0) as Hr by (unfold refs; simpl; by rewrite lookup_singleton_ne). lia.
Qed.

Lemma vfs_adddev_spec_witness : exists r s',
  vfs_adddev [110; 117; 108; 108] 100 false (boot_vfs ∅) = Ok r s' /\ r = Err EEXIST /\
  devs s' = [null_kd].
Proof.
  destruct (vfs_adddev_spec (boot_vfs ∅) [110; 117; 108; 108] 100 false) as (r & s' & Hr & _ & _ & _ & Hp);
    [apply boot_inv|done|by eexists|simpl; lia|apply NoDup_singleton|].
  assert (r = Err EEXIST) as -> by (revert Hr; vm_compute; by intros [= <- _]).
  exists (Err EEXIST), s'. split; [done|]. split; [done|]. apply Hp.
Defined.
End VfsDevs.
