(* ===== verification/Openfile.v ===== *)
(** * Open files and file descriptors
    ([src/kern/syscall/file.c], [src/kern/syscall/file_syscalls.c],
     [src/kern/include/file.h])

    The per-process descriptor tables, the system-wide open-file table and the
    system calls on them.  The state below the VFS interface is the parameter
    [L]; see [Interfaces]. *)

From S2P Require Import Prelude Kern Interfaces.
Open Scope Z_scope.

Module Openfile.

Definition FILE_CLOSED : Z := -1.

(** struct open_file *)
Record open_file := OpenFile { vn : Z; am : Z; rc : Z; os : Z }.

(** struct file_table: the lock (by its holder) and the array of open files. *)
Record file_table := FileTable { oft_l : option Z; openfiles : list (option open_file) }.

(** The global [of_t]: NULL, allocated but not filled in, filled in, or left
    pointing to a freed table. *)
Inductive oft_ptr : Type :=
| OftNull
| OftRaw
| OftFreed
| Oft (t : file_table).

(** The state the file layer works on: [of_t], the descriptor table
    [fd_t->fd_entries] of every process that has one (a process is absent when
    its [fd_t] is NULL or freed), the current thread and process, and the state
    below. *)
Record fstate (L : Type) := FState {
  low : L;
  curthread : Z;
  curproc : Z;
  of_t : oft_ptr;
  fds : gmap Z (list Z)
}.
Arguments FState {L} _ _ _ _ _.
Arguments low {L} _.
Arguments curthread {L} _.
Arguments curproc {L} _.
Arguments of_t {L} _.
Arguments fds {L} _.

Section Ops.
Context {L : Type} `{VfsOps L} `{HasAlloc L} `{UserMem L}.
Abbreviation F := (fstate L).

Definition set_low (l : L) (s : F) : F :=
  FState l (curthread s) (curproc s) (of_t s) (fds s).
Definition set_of_t (t : oft_ptr) (s : F) : F :=
  FState (low s) (curthread s) (curproc s) t (fds s).
Definition set_fds (d : gmap Z (list Z)) (s : F) : F :=
  FState (low s) (curthread s) (curproc s) (of_t s) d.

(** Run an operation of the lower layer. *)
Definition lift {A} (m : M L A) : M F A :=
  fun s => match m (low s) with
           | Ok a l => Ok a (set_low l s)
           | Fault f => Fault f
           end.

(** [of_t->...] and [curproc->fd_t->...] *)
Definition the_oft : M F file_table :=
  s ← get;
  match of_t s with
  | OftNull => raise FNull
  | OftRaw => raise FDangling
  | OftFreed => raise FDangling
  | Oft t => mret t
  end.
Definition the_fds : M F (list Z) := s ← get; deref FNull (fds s !! curproc s).
Definition put_oft (t : file_table) : M F unit := modify (set_of_t (Oft t)).
Definition put_fds (d : list Z) : M F unit :=
  modify (fun s => set_fds (<[curproc s := d]> (fds s)) s).

(** lock_acquire, lock_release and lock_do_i_hold on [of_t->oft_l]. *)
Definition oft_acquire : M F unit :=
  t ← the_oft;
  s ← get;
  kassert (negb (bool_decide (oft_l t = Some (curthread s)))) ;;
  match oft_l t with
  | Some _ => raise FBlocked
  | None => put_oft (FileTable (Some (curthread s)) (openfiles t))
  end.

Definition oft_release : M F unit :=
  t ← the_oft;
  s ← get;
  kassert (bool_decide (oft_l t = Some (curthread s))) ;;
  put_oft (FileTable None (openfiles t)).

Definition oft_do_i_hold : M F bool :=
  t ← the_oft;
  s ← get;
  mret (bool_decide (oft_l t = Some (curthread s))).

(** [fd_entries[i]] and its assignment; [openfiles[i]] and its assignment. *)
Definition get_entry (i : Z) : M F Z :=
  d ← the_fds;
  if i <? 0 then raise FBounds else deref FBounds (d !! Z.to_nat i).
Definition set_entry (i x : Z) : M F unit :=
  d ← the_fds; put_fds (<[Z.to_nat i := x]> d).
Definition get_open (i : Z) : M F (option open_file) :=
  t ← the_oft;
  if i <? 0 then raise FBounds else deref FBounds (openfiles t !! Z.to_nat i).
Definition set_open (i : Z) (o : option open_file) : M F unit :=
  t ← the_oft; put_oft (FileTable (oft_l t) (<[Z.to_nat i := o]> (openfiles t))).

(** [for (i = 0; i < OPEN_MAX; i++) if (p(a[i])) { r = i; break; }], -1 if
    there is none. *)
Fixpoint first_index {A} (p : A -> bool) (l : list A) (i : Z) : Z :=
  match l with
  | [] => -1
  | x :: l' => if p x then i else first_index p l' (i + 1)
  end.

(** int file_open(char *filename, int flags, mode_t mode, int *fd_ret) *)
Definition file_open (filename : list Z) (flags mode : Z) : M F (res Z) :=
  r ← lift (vfs_open filename flags mode);
  match r with
  | Err e => mret (Err e)
  | Done v =>
      oft_acquire ;;
      d ← the_fds;
      t ← the_oft;
      let fd := first_index (fun e => e =? FILE_CLOSED) d 0 in
      let off := first_index (fun o => bool_decide (o = None)) (openfiles t) 0 in
      if (fd =? -1) || (off =? -1) then
        lift (vfs_close v) ;; oft_release ;; mret (Err EMFILE)
      else
      ok ← lift kmalloc;
      if negb ok then
        lift (vfs_close v) ;; oft_release ;; mret (Err ENOMEM)
      else
      set_entry fd off ;;
      set_open off (Some (OpenFile v flags 1 0)) ;;
      oft_release ;;
      mret (Done fd)
  end.

(** int file_read(int fd, userptr_t buf, size_t buflen, int *sz) *)
Definition file_read (fd buf buflen : Z) : M F (res Z) :=
  of_entry ← get_entry fd;
  if (of_entry <? 0) || (of_entry >=? OPEN_MAX) then mret (Err EBADF) else
  oft_acquire ;;
  o ← get_open of_entry;
  match o with
  | None => oft_release ;; mret (Err EBADF)
  | Some f =>
      if Z.land (am f) O_ACCMODE =? O_WRONLY then oft_release ;; mret (Err EBADF) else
      s ← get;
      x ← lift (VOP_READ (vn f) (uio_uinit (curspace (low s)) buf buflen (os f) UIO_READ));
      match x with
      | (Err e, _) => oft_release ;; mret (Err e)
      | (Done _, u) =>
          set_open of_entry (Some (OpenFile (vn f) (am f) (rc f) (uio_offset u))) ;;
          oft_release ;;
          mret (Done (s32 (uio_offset u - os f)))
      end
  end.

(** int file_write(int fd, userptr_t buf, size_t nbytes, int *sz) *)
Definition file_write (fd buf nbytes : Z) : M F (res Z) :=
  of_entry ← get_entry fd;
  if (of_entry <? 0) || (of_entry >=? OPEN_MAX) then mret (Err EBADF) else
  oft_acquire ;;
  o ← get_open of_entry;
  match o with
  | None => oft_release ;; mret (Err EBADF)
  | Some f =>
      if Z.land (am f) O_ACCMODE =? O_RDONLY then oft_release ;; mret (Err EBADF) else
      s ← get;
      x ← lift (VOP_WRITE (vn f) (uio_uinit (curspace (low s)) buf nbytes (os f) UIO_WRITE));
      match x with
      | (Err e, _) => oft_release ;; mret (Err e)
      | (Done _, u) =>
          set_open of_entry (Some (OpenFile (vn f) (am f) (rc f) (uio_offset u))) ;;
          oft_release ;;
          mret (Done (s32 (uio_offset u - os f)))
      end
  end.

(** int file_close(int fd); [sysCalled] says the caller holds the lock. *)
Definition file_close (fd : Z) : M F (res unit) :=
  if (fd <? 0) || (fd >=? OPEN_MAX) then mret (Err EBADF) else
  of_entry ← get_entry fd;
  if (of_entry <? 0) || (of_entry >=? OPEN_MAX) then mret (Err EBADF) else
  held ← oft_do_i_hold;
  let sysCalled := held in
  (if negb held then oft_acquire else mret tt) ;;
  o ← get_open of_entry;
  match o with
  | None => oft_release ;; mret (Err EBADF)
  | Some f =>
      set_entry fd FILE_CLOSED ;;
      (if rc f =? 1 then
         lift (vfs_close (vn f)) ;; set_open of_entry None
       else set_open of_entry (Some (OpenFile (vn f) (am f) (s32 (rc f - 1)) (os f)))) ;;
      (if negb sysCalled then oft_release else mret tt) ;;
      mret (Done tt)
  end.

(** void file_table_destroy().  The loop runs to PID_MAX although the table
    has OPEN_MAX entries; [beyond] is what the words after it hold. *)
Definition file_table_destroy (beyond : Z -> Z) : M F unit :=
  for_each (seqZ 0 PID_MAX) (fun i =>
    d ← the_fds;
    let e := default (beyond i) (d !! Z.to_nat i) in
    if e =? FILE_CLOSED then mret tt else file_close i ;; mret tt).

(** void open_file_table_destroy(): the table is freed, [of_t] keeps its
    value. *)
Definition open_file_table_destroy : M F unit :=
  s ← get;
  match of_t s with
  | OftNull => mret tt
  | OftFreed => raise FDangling
  | _ => modify (set_of_t OftFreed)
  end.

Definition drop_fds : M F unit :=
  modify (fun s => set_fds (delete (curproc s) (fds s)) s).

(** The part of file_table_init that creates the global table when there is
    none yet: the table, then lock_create's structure, name and wait channel,
    and only then the emptied array. *)
Definition oft_init : M F (res unit) :=
  s ← get;
  match of_t s with
  | OftNull =>
      ok ← lift kmalloc;
      if negb ok then mret (Err ENOMEM) else
      modify (set_of_t OftRaw) ;;
      lk ← lift kmalloc;
      if negb lk then mret (Err ENOMEM) else
      lk ← lift kmalloc;
      if negb lk then mret (Err ENOMEM) else
      lk ← lift kmalloc;
      if negb lk then mret (Err ENOMEM) else
      put_oft (FileTable None (replicate (Z.to_nat OPEN_MAX) None)) ;;
      mret (Done tt)
  | _ => mret (Done tt)
  end.

(** One of the three standard descriptors of file_table_init: on error the
    process's new table is freed and the error returned. *)
Definition open_std (path : list Z) (flags : Z) (k : M F (res unit)) : M F (res unit) :=
  r ← file_open path flags 0;
  match r with
  | Err e => drop_fds ;; mret (Err e)
  | Done _ => k
  end.

(** int file_table_init(stdin_path, stdout_path, stderr_path) *)
Definition file_table_init (stdin_path stdout_path stderr_path : list Z) : M F (res unit) :=
  r ← oft_init;
  match r with
  | Err e => mret (Err e)
  | Done _ =>
      ok ← lift kmalloc;
      if negb ok then drop_fds ;; mret (Err ENOMEM) else
      put_fds (replicate (Z.to_nat OPEN_MAX) FILE_CLOSED) ;;
      open_std stdin_path O_RDONLY (
      open_std stdout_path O_WRONLY (
      open_std stderr_path O_WRONLY (
      mret (Done tt))))
  end.

(** int sys_open(userptr_t filename, int flags, mode_t mode, int *fd_ret) *)
Definition sys_open (filename flags mode : Z) : M F (res Z) :=
  r ← lift (copyinstr filename PATH_MAX);
  match r with
  | Err e => mret (Err e)
  | Done fn => file_open fn flags mode
  end.

(** int sys_write(int fd, userptr_t buf, size_t nbytes, int *sz) *)
Definition sys_write (fd buf nbytes : Z) : M F (res Z) :=
  if (fd <? 0) || (fd >=? OPEN_MAX) then mret (Err EBADF) else file_write fd buf nbytes.

(** int sys_read(int fd, userptr_t buf, size_t buflen, int *sz) *)
Definition sys_read (fd buf buflen : Z) : M F (res Z) :=
  if (fd <? 0) || (fd >=? OPEN_MAX) then mret (Err EBADF) else file_read fd buf buflen.

(** int sys_dup2(int oldfd, int newfd, int *fd_ret) *)
Definition sys_dup2 (oldfd newfd : Z) : M F (res Z) :=
  if (oldfd <? 0) || (oldfd >=? OPEN_MAX) || (newfd <? 0) || (newfd >=? OPEN_MAX)
  then mret (Err EBADF) else
  if oldfd =? newfd then mret (Done newfd) else
  oft_acquire ;;
  old_of ← get_entry oldfd;
  new_of ← get_entry newfd;
  if old_of =? FILE_CLOSED then oft_release ;; mret (Err EBADF) else
  o ← get_open old_of;
  f ← deref FNull o;
  set_open old_of (Some (OpenFile (vn f) (am f) (s32 (rc f + 1)) (os f))) ;;
  (if negb (new_of =? FILE_CLOSED) then file_close newfd ;; mret tt else mret tt) ;;
  oft_release ;;
  e ← get_entry oldfd;
  set_entry newfd e ;;
  mret (Done newfd).

(** int sys_close(int fd) *)
Definition sys_close (fd : Z) : M F (res unit) := file_close fd.

(** The switch of sys_lseek: the new value of [of->os], or an error of
    VOP_STAT.  Additions are on 64-bit signed integers. *)
Definition lseek_target (f : open_file) (pos whence : Z) : M F (res Z) :=
  if whence =? SEEK_SET then mret (Done pos) else
  if whence =? SEEK_CUR then mret (Done (s64 (os f + pos))) else
  r ← lift (VOP_STAT (vn f));
  match r with
  | Err e => mret (Err e)
  | Done st => mret (Done (s64 (pos + st_size st)))
  end.

(** int sys_lseek(int fd, off_t pos, int whence, off_t *npos) *)
Definition sys_lseek (fd pos whence : Z) : M F (res Z) :=
  if (fd <? 0) || (fd >=? OPEN_MAX) then mret (Err EBADF) else
  if negb (whence =? SEEK_SET) && negb (whence =? SEEK_CUR) && negb (whence =? SEEK_END)
  then mret (Err EINVAL) else
  of_index ← get_entry fd;
  if of_index =? FILE_CLOSED then mret (Err EBADF) else
  oft_acquire ;;
  o ← get_open of_index;
  f ← deref FNull o;
  seekable ← lift (VOP_ISSEEKABLE (vn f));
  if negb seekable then oft_release ;; mret (Err ESPIPE) else
  let og_pos := os f in
  r ← lseek_target f pos whence;
  match r with
  | Err e => oft_release ;; mret (Err e)
  | Done new =>
      set_open of_index (Some (OpenFile (vn f) (am f) (rc f) new)) ;;
      if new <? 0 then
        set_open of_index (Some (OpenFile (vn f) (am f) (rc f) og_pos)) ;;
        oft_release ;; mret (Err EINVAL)
      else oft_release ;; mret (Done new)
  end.
End Ops.

End Openfile.
