(* ===== verification/OpenfileSpec.v ===== *)
(** * Correctness of the open-file layer

    The reference-counting invariant of the descriptor and open-file tables,
    its preservation by every operation of [Openfile], and what each operation
    does on each of its branches.  All results are total-correctness results
    ([wp]): no assertion fails, no NULL or freed object is used, the table lock
    is free again afterwards. *)

From S2P Require Import Prelude Kern Interfaces Openfile.
Open Scope Z_scope.
Import Openfile.

Module OpenfileSpec.

(** ** Counting references *)

(** The number of descriptors, in the tables of all processes, that designate
    slot [i]. *)
Definition refs_to (m : gmap Z (list Z)) (i : Z) : Z :=
  map_fold (fun _ d acc => cnt i d + acc) 0 m.

(** The number of open files on vnode [u]. *)
Definition on_vnode (u : Z) (o : option open_file) : bool :=
  match o with Some f => vn f =? u | None => false end.
Definition vcnt (u : Z) (ofs : list (option open_file)) : Z :=
  Z.of_nat (length (filter (fun o => on_vnode u o = true) ofs)).

Lemma vcnt_insert u ofs k o o' : ofs !! k = Some o ->
  vcnt u (<[k := o']> ofs) =
  vcnt u ofs - (if on_vnode u o then 1 else 0) + (if on_vnode u o' then 1 else 0).
Proof.
  intros Hk. unfold vcnt. rewrite (count_insert _ ofs k o o' Hk).
  repeat case_decide; destruct (on_vnode u o), (on_vnode u o'); try congruence; lia.
Qed.

Lemma refs_to_fresh m p d i : m !! p = None -> refs_to (<[p := d]> m) i = cnt i d + refs_to m i.
Proof.
  intros Hp. unfold refs_to. rewrite map_fold_insert_L; [done| |done]. intros; lia.
Qed.

Lemma refs_to_delete m p d i : m !! p = Some d -> refs_to m i = cnt i d + refs_to (delete p m) i.
Proof.
  intros Hp. rewrite <- (refs_to_fresh (delete p m) p d) by apply lookup_delete_eq.
  by rewrite insert_delete_id.
Qed.

Lemma refs_to_update m p d d' i : m !! p = Some d ->
  refs_to (<[p := d']> m) i = refs_to m i - cnt i d + cnt i d'.
Proof.
  intros Hp. rewrite (refs_to_delete m p d i Hp), <- insert_delete_eq.
  rewrite refs_to_fresh by apply lookup_delete_eq. lia.
Qed.

Lemma refs_to_nonneg m i : 0 <= refs_to m i.
Proof.
  unfold refs_to. apply (map_fold_weak_ind (fun r _ => 0 <= r)); [lia|].
  intros k d m' r _ Hr. pose proof (cnt_nonneg i d). lia.
Qed.

Lemma refs_to_zero m i : (forall p d, m !! p = Some d -> cnt i d = 0) -> refs_to m i = 0.
Proof.
  unfold refs_to. intros Hz. apply (map_fold_weak_ind (fun r m' => m' ⊆ m -> r = 0)); [done| |done].
  intros p d m' r Hp IH Hsub. rewrite IH by (etrans; [by apply insert_subseteq|done]).
  rewrite (Hz p d); [done|]. eapply lookup_weaken; [apply lookup_insert_eq|done].
Qed.

Lemma refs_to_ge m p d i : m !! p = Some d -> cnt i d <= refs_to m i.
Proof. intros Hp. rewrite (refs_to_delete m p d i Hp). pose proof (refs_to_nonneg (delete p m) i). lia. Qed.

(** ** The invariant *)

Definition slot (ofs : list (option open_file)) (i : Z) : option open_file :=
  if i <? 0 then None else match ofs !! Z.to_nat i with Some o => o | None => None end.

(** An entry is closed or designates an open file. *)
Definition entry_ok (ofs : list (option open_file)) (e : Z) : Prop :=
  e = FILE_CLOSED \/ (0 <= e < OPEN_MAX /\ is_Some (slot ofs e)).

(** The tables fit together: sizes, no dangling descriptor, and for each open
    file a reference count equal to the number of descriptors designating it,
    in all processes, plus [lk] references that no descriptor accounts for.
    [lk] is zero everywhere unless references were lost. *)
Record tables_ok (lk : Z -> Z) (ofs : list (option open_file)) (m : gmap Z (list Z)) : Prop :=
  TablesOk {
    ok_ofs : length ofs = Z.to_nat OPEN_MAX;
    ok_fds : forall p d, m !! p = Some d -> length d = Z.to_nat OPEN_MAX;
    ok_entries : forall p d k e, m !! p = Some d -> d !! k = Some e -> entry_ok ofs e;
    ok_rc : forall i f, slot ofs i = Some f -> rc f = refs_to m i + lk i /\ 0 < rc f < 2 ^ 31;
    ok_lk : forall i, 0 <= lk i;
    ok_free : forall i, slot ofs i = None -> lk i = 0
  }.

Lemma slot_lookup ofs i f : slot ofs i = Some f <->
  0 <= i /\ ofs !! Z.to_nat i = Some (Some f).
Proof.
  unfold slot. destruct (Z.ltb_spec i 0).
  - split; [done|lia].
  - destruct (ofs !! Z.to_nat i) as [[g|]|] eqn:E; naive_solver.
Qed.

Lemma slot_insert ofs i j o : 0 <= i -> (Z.to_nat i < length ofs)%nat ->
  slot (<[Z.to_nat i := o]> ofs) j = if j =? i then o else slot ofs j.
Proof.
  intros Hi Hlt. unfold slot. destruct (Z.ltb_spec j 0), (Z.eqb_spec j i); try lia; [done|..].
  - subst. by rewrite list_lookup_insert_eq.
  - by rewrite list_lookup_insert_ne by lia.
Qed.

Section Tables.
Context {lk : Z -> Z} {ofs : list (option open_file)} {m : gmap Z (list Z)}.
Hypothesis Hok : tables_ok lk ofs m.

Lemma slot_range i f : slot ofs i = Some f -> 0 <= i < OPEN_MAX.
Proof.
  intros Hs. apply slot_lookup in Hs as [Hi Hl]. apply lookup_lt_Some in Hl.
  rewrite (ok_ofs _ _ _ Hok) in Hl. lia.
Qed.

Lemma slot_none_refs i : i <> FILE_CLOSED -> slot ofs i = None -> refs_to m i = 0.
Proof.
  intros Hi Hs. apply refs_to_zero. intros p d Hp. apply cnt_absent. intros k Hk.
  destruct (ok_entries _ _ _ Hok p d k i Hp Hk) as [?|[_ [f Hf]]]; congruence.
Qed.

Lemma slot_lt i : 0 <= i < OPEN_MAX -> (Z.to_nat i < length ofs)%nat.
Proof. rewrite (ok_ofs _ _ _ Hok). lia. Qed.

End Tables.

(** [lk] with [n] more references unaccounted for at slot [i]. *)
Definition lend (lk : Z -> Z) (i n : Z) : Z -> Z := fun j => if j =? i then lk j + n else lk j.

#[export] Instance tables_ok_proper :
  Proper (pointwise_relation Z eq ==> eq ==> eq ==> impl) tables_ok.
Proof.
  intros lk lk' Hlk ofs ? <- m ? <- [H1 H2 H3 H4 H5 H6]. split; try done.
  - intros i f Hs. rewrite <- Hlk. by apply H4.
  - intros i. rewrite <- Hlk. apply H5.
  - intros i Hs. rewrite <- Hlk. by apply H6.
Qed.

(** The elementary moves of the tables.  Every operation is a sequence of them. *)
Section Moves.
Context {lk : Z -> Z} {ofs : list (option open_file)} {m : gmap Z (list Z)}.
Hypothesis Hok : tables_ok lk ofs m.

Lemma entry_refs p d k e e' j : m !! p = Some d -> d !! k = Some e ->
  refs_to (<[p := <[k := e']> d]> m) j =
  refs_to m j - (if e =? j then 1 else 0) + (if e' =? j then 1 else 0).
Proof. intros Hp Hk. rewrite (refs_to_update m p d _ j Hp), (cnt_insert j d k e e' Hk). lia. Qed.

(** Changing one descriptor, for entries that are closed or open. *)
Lemma entry_lengths p d k e' : m !! p = Some d ->
  forall q dq, <[p := <[k := e']> d]> m !! q = Some dq -> length dq = Z.to_nat OPEN_MAX.
Proof.
  intros Hp q dq Hq. apply lookup_insert_Some in Hq as [[_ <-]|[_ Hq]].
  - rewrite length_insert. by eapply ok_fds.
  - by eapply ok_fds.
Qed.

Lemma entry_entries p d k e' : m !! p = Some d -> entry_ok ofs e' ->
  forall q dq kq x, <[p := <[k := e']> d]> m !! q = Some dq -> dq !! kq = Some x -> entry_ok ofs x.
Proof.
  intros Hp He' q dq kq x Hq Hx. apply lookup_insert_Some in Hq as [[_ <-]|[_ Hq]].
  - apply list_lookup_insert_Some in Hx as [(_ & <- & _)|[_ Hx]]; [done|by eapply ok_entries].
  - by eapply ok_entries.
Qed.

(** A closed descriptor takes over an unaccounted reference. *)
Lemma move_take p d k i f : m !! p = Some d -> d !! k = Some FILE_CLOSED ->
  slot ofs i = Some f -> 1 <= lk i ->
  tables_ok (lend lk i (-1)) ofs (<[p := <[k := i]> d]> m).
Proof.
  intros Hp Hk Hs Hl. pose proof (slot_range Hok i f Hs) as Hi. split.
  - apply Hok.
  - by apply entry_lengths.
  - apply entry_entries; [done|]. right. split; [done|]. by exists f.
  - intros j g Hj. rewrite (entry_refs p d k _ i j Hp Hk). unfold lend.
    destruct (ok_rc _ _ _ Hok j g Hj). pose proof (slot_range Hok j g Hj).
    unfold FILE_CLOSED in *. rewrite (Z.eqb_sym i j).
    destruct (Z.eqb_spec (-1) j), (Z.eqb_spec j i); lia.
  - intros j. unfold lend. pose proof (ok_lk _ _ _ Hok j). destruct (Z.eqb_spec j i); subst; lia.
  - intros j Hj. unfold lend. destruct (Z.eqb_spec j i); [congruence|by apply Hok].
Qed.

(** An open descriptor gives up its reference. *)
Lemma move_drop p d k i f : m !! p = Some d -> d !! k = Some i -> slot ofs i = Some f ->
  tables_ok (lend lk i 1) ofs (<[p := <[k := FILE_CLOSED]> d]> m).
Proof.
  intros Hp Hk Hs. pose proof (slot_range Hok i f Hs) as Hi. split.
  - apply Hok.
  - by apply entry_lengths.
  - apply entry_entries; [done|]. by left.
  - intros j g Hj. rewrite (entry_refs p d k i _ j Hp Hk). unfold lend.
    destruct (ok_rc _ _ _ Hok j g Hj). pose proof (slot_range Hok j g Hj).
    unfold FILE_CLOSED in *. rewrite (Z.eqb_sym i j).
    destruct (Z.eqb_spec (-1) j), (Z.eqb_spec j i); lia.
  - intros j. unfold lend. pose proof (ok_lk _ _ _ Hok j). destruct (Z.eqb_spec j i); lia.
  - intros j Hj. unfold lend. destruct (Z.eqb_spec j i); [congruence|by apply Hok].
Qed.

Lemma slot_entries i o :
  0 <= i < OPEN_MAX -> (is_Some o \/ refs_to m i = 0) ->
  forall p d k e, m !! p = Some d -> d !! k = Some e -> entry_ok (<[Z.to_nat i := o]> ofs) e.
Proof.
  intros Hi Ho p d k e Hp Hk. destruct (ok_entries _ _ _ Hok p d k e Hp Hk) as [->|[He Hs]]; [by left|].
  right. split; [done|]. rewrite slot_insert by (lia || by apply (slot_lt Hok)).
  destruct (Z.eqb_spec e i) as [->|]; [|done]. destruct Ho as [Ho|Ho]; [done|].
  pose proof (refs_to_ge m p d i Hp). pose proof (cnt_pos i d k Hk). lia.
Qed.

(** The open file in slot [i] is replaced by one whose count differs by [n]. *)
Lemma move_count i f f' n : slot ofs i = Some f -> rc f' = rc f + n ->
  0 < rc f' < 2 ^ 31 -> 0 <= lk i + n ->
  tables_ok (lend lk i n) (<[Z.to_nat i := Some f']> ofs) m.
Proof.
  intros Hs Hrc Hpos Hl. pose proof (slot_range Hok i f Hs) as Hi.
  pose proof (slot_lt Hok i Hi) as Hlt. split.
  - rewrite length_insert. apply Hok.
  - apply Hok.
  - apply slot_entries; [done|]. left. by eexists.
  - intros j g. rewrite slot_insert by lia. unfold lend. destruct (Z.eqb_spec j i) as [->|].
    + intros [= <-]. destruct (ok_rc _ _ _ Hok i f Hs). lia.
    + apply Hok.
  - intros j. unfold lend. pose proof (ok_lk _ _ _ Hok j). destruct (Z.eqb_spec j i); subst; lia.
  - intros j. rewrite slot_insert by lia. unfold lend. destruct (Z.eqb_spec j i); [done|apply Hok].
Qed.

(** A fresh open file, its one reference not yet in any descriptor. *)
Lemma move_new i f : 0 <= i < OPEN_MAX -> slot ofs i = None -> rc f = 1 ->
  tables_ok (lend lk i 1) (<[Z.to_nat i := Some f]> ofs) m.
Proof.
  intros Hi Hs Hrc. pose proof (slot_lt Hok i Hi) as Hlt.
  assert (refs_to m i = 0) as Hr by (apply (slot_none_refs Hok); unfold FILE_CLOSED; [lia|done]).
  split.
  - rewrite length_insert. apply Hok.
  - apply Hok.
  - apply slot_entries; [done|]. left. by eexists.
  - intros j g. rewrite slot_insert by lia. unfold lend. destruct (Z.eqb_spec j i) as [->|].
    + intros [= <-]. rewrite (ok_free _ _ _ Hok i Hs). lia.
    + apply Hok.
  - intros j. unfold lend. pose proof (ok_lk _ _ _ Hok j). destruct (Z.eqb_spec j i); lia.
  - intros j. rewrite slot_insert by lia. unfold lend. destruct (Z.eqb_spec j i); [done|apply Hok].
Qed.

(** The last reference, already out of any descriptor, goes with its file. *)
Lemma move_free i f : slot ofs i = Some f -> rc f = 1 -> 1 <= lk i ->
  tables_ok (lend lk i (-1)) (<[Z.to_nat i := None]> ofs) m.
Proof.
  intros Hs Hrc Hl. pose proof (slot_range Hok i f Hs) as Hi.
  pose proof (slot_lt Hok i Hi) as Hlt. destruct (ok_rc _ _ _ Hok i f Hs) as [Hr _].
  pose proof (refs_to_nonneg m i) as Hn. split.
  - rewrite length_insert. apply Hok.
  - apply Hok.
  - apply slot_entries; [done|]. right. lia.
  - intros j g. rewrite slot_insert by lia. unfold lend. destruct (Z.eqb_spec j i) as [->|]; [done|].
    apply Hok.
  - intros j. unfold lend. pose proof (ok_lk _ _ _ Hok j). destruct (Z.eqb_spec j i); subst; lia.
  - intros j. rewrite slot_insert by lia. unfold lend.
    destruct (Z.eqb_spec j i) as [->|]; [lia|apply Hok].
Qed.
End Moves.

(** ** Primitive operations on explicit states *)

Abbreviation mk l th p h ofs m := (FState l th p (Oft (FileTable h ofs)) m).

Section Prim.
Context {L : Type} `{LowSpec L}.
Abbreviation F := (fstate L).
Implicit Types (l : L) (ofs : list (option open_file)) (m : gmap Z (list Z)) (d : list Z).

Lemma wp_acquire l th p ofs m (Q : unit -> F -> Prop) :
  Q tt (mk l th p (Some th) ofs m) -> wp oft_acquire Q (mk l th p None ofs m).
Proof. done. Qed.

Lemma wp_release l th p ofs m (Q : unit -> F -> Prop) :
  Q tt (mk l th p None ofs m) -> wp oft_release Q (mk l th p (Some th) ofs m).
Proof.
  intros HQ. unfold oft_release, the_oft, wp, mbind, M_bind, get, mret, M_ret, kassert. simpl.
  by rewrite bool_decide_true.
Qed.

Lemma wp_hold l th p h ofs m (Q : bool -> F -> Prop) :
  Q (bool_decide (h = Some th)) (mk l th p h ofs m) ->
  wp oft_do_i_hold Q (mk l th p h ofs m).
Proof. done. Qed.

Lemma wp_the_fds l th p h ofs m d (Q : list Z -> F -> Prop) :
  m !! p = Some d -> Q d (mk l th p h ofs m) -> wp the_fds Q (mk l th p h ofs m).
Proof. intros Hp HQ. unfold the_fds. rewrite wp_bind, wp_get, wp_deref. eauto. Qed.

Lemma wp_the_oft l th p h ofs m (Q : file_table -> F -> Prop) :
  Q (FileTable h ofs) (mk l th p h ofs m) -> wp the_oft Q (mk l th p h ofs m).
Proof. done. Qed.

Lemma wp_get_entry l th p h ofs m d i e (Q : Z -> F -> Prop) :
  m !! p = Some d -> 0 <= i -> d !! Z.to_nat i = Some e ->
  Q e (mk l th p h ofs m) -> wp (get_entry i) Q (mk l th p h ofs m).
Proof.
  intros Hp Hi He HQ. unfold get_entry. rewrite wp_bind. eapply wp_the_fds; [done|].
  destruct (Z.ltb_spec i 0); [lia|]. rewrite wp_deref. eauto.
Qed.

Lemma wp_set_entry l th p h ofs m d i x (Q : unit -> F -> Prop) :
  m !! p = Some d -> Q tt (mk l th p h ofs (<[p := <[Z.to_nat i := x]> d]> m)) ->
  wp (set_entry i x) Q (mk l th p h ofs m).
Proof. intros Hp HQ. unfold set_entry. rewrite wp_bind. by eapply wp_the_fds. Qed.

Lemma wp_get_open l th p h ofs m i o (Q : option open_file -> F -> Prop) :
  0 <= i -> ofs !! Z.to_nat i = Some o ->
  Q o (mk l th p h ofs m) -> wp (get_open i) Q (mk l th p h ofs m).
Proof.
  intros Hi Ho HQ. unfold get_open. rewrite wp_bind. apply wp_the_oft.
  destruct (Z.ltb_spec i 0); [lia|]. rewrite wp_deref. eauto.
Qed.

Lemma wp_set_open l th p h ofs m i o (Q : unit -> F -> Prop) :
  Q tt (mk l th p h (<[Z.to_nat i := o]> ofs) m) ->
  wp (set_open i o) Q (mk l th p h ofs m).
Proof. done. Qed.

Lemma wp_lift {A} l th p h ofs m (c : M L A) (Q : A -> F -> Prop) :
  wp c (fun a l' => Q a (mk l' th p h ofs m)) l ->
  wp (lift c) Q (mk l th p h ofs m).
Proof. unfold wp, lift. simpl. by destruct (c l). Qed.

(** An operation of the lower layer that keeps all references. *)
Definition keeps {A} (c : M L A) : Prop := forall l, low_inv l ->
  wp c (fun _ l' => low_inv l' /\ forall w, vrefs l' w = vrefs l w) l.

Lemma wp_keeps {A} l th p h ofs m (c : M L A) (Q : A -> F -> Prop) :
  keeps c -> low_inv l ->
  (forall a l', low_inv l' -> (forall w, vrefs l' w = vrefs l w) -> Q a (mk l' th p h ofs m)) ->
  wp (lift c) Q (mk l th p h ofs m).
Proof.
  intros Hc Hl HQ. apply wp_lift. eapply wp_mono; [by apply Hc|]. simpl. naive_solver.
Qed.

Lemma keeps_kmalloc : keeps kmalloc.
Proof.
  intros l Hl. unfold wp, kmalloc. destruct (allocs l); simpl; [done|].
  split; [by apply low_inv_allocs|]. intros w. apply vrefs_allocs.
Qed.
End Prim.

(** The descriptor [fd] of table [d], when it is in range and open. *)
Definition fd_slot (d : list Z) (fd : Z) : option Z :=
  if (fd <? 0) || (fd >=? OPEN_MAX) then None else
  match d !! Z.to_nat fd with
  | Some e => if e =? FILE_CLOSED then None else Some e
  | None => None
  end.

Lemma fd_slot_Some lk ofs m p d fd i : tables_ok lk ofs m -> m !! p = Some d ->
  fd_slot d fd = Some i ->
  0 <= fd < OPEN_MAX /\ d !! Z.to_nat fd = Some i /\ 0 <= i < OPEN_MAX /\ i <> FILE_CLOSED /\
  exists f, slot ofs i = Some f /\ ofs !! Z.to_nat i = Some (Some f).
Proof.
  intros Hok Hp. unfold fd_slot. destruct (Z.ltb_spec fd 0), (Z.geb_spec fd OPEN_MAX); try done; simpl.
  destruct (d !! Z.to_nat fd) as [e|] eqn:He; [|done].
  destruct (Z.eqb_spec e FILE_CLOSED) as [|Hne]; [done|]. intros [= <-].
  destruct (ok_entries _ _ _ Hok p d _ e Hp He) as [?|[Hr [f Hf]]]; [done|].
  split; [lia|]. split; [done|]. split; [done|]. split; [done|]. exists f.
  split; [done|]. by apply slot_lookup in Hf as [_ ?].
Qed.

Lemma fd_slot_None lk ofs m p d fd : tables_ok lk ofs m -> m !! p = Some d ->
  0 <= fd < OPEN_MAX -> fd_slot d fd = None -> d !! Z.to_nat fd = Some FILE_CLOSED.
Proof.
  intros Hok Hp Hfd. unfold fd_slot. destruct (Z.ltb_spec fd 0), (Z.geb_spec fd OPEN_MAX); try lia; simpl.
  destruct (lookup_lt_is_Some_2 d (Z.to_nat fd)) as [e He].
  { rewrite (ok_fds _ _ _ Hok p d Hp). lia. }
  rewrite He. destruct (Z.eqb_spec e FILE_CLOSED) as [->|]; done.
Qed.

(** ** Composite moves *)

Lemma tables_lk lk lk' ofs m : (forall j, lk j = lk' j) -> tables_ok lk ofs m -> tables_ok lk' ofs m.
Proof. intros E Hok. by rewrite <- (E : pointwise_relation Z eq lk lk'). Qed.

Ltac lend_simpl := intros ?; unfold lend; repeat (case_match; try lia).

(** What becomes of an open file when one of its references goes. *)
Definition drop_ref (f : open_file) : option open_file :=
  if rc f =? 1 then None else Some (OpenFile (vn f) (am f) (rc f - 1) (os f)).

(** Closing descriptor [k] of process [p], which designates slot [i]. *)
Lemma tables_close lk ofs m p d k i f : tables_ok lk ofs m -> m !! p = Some d ->
  d !! k = Some i -> slot ofs i = Some f ->
  tables_ok lk (<[Z.to_nat i := drop_ref f]> ofs) (<[p := <[k := FILE_CLOSED]> d]> m).
Proof.
  intros Hok Hp Hk Hs. destruct (ok_rc _ _ _ Hok i f Hs) as [_ Hrc].
  pose proof (ok_lk _ _ _ Hok i) as Hlk.
  pose proof (move_drop Hok p d k i f Hp Hk Hs) as Hd. unfold drop_ref.
  assert (lend lk i 1 i = lk i + 1) as Hli by (unfold lend; by rewrite Z.eqb_refl).
  apply (tables_lk (lend (lend lk i 1) i (-1))); [lend_simpl|].
  destruct (Z.eqb_spec (rc f) 1) as [H1|H1].
  - apply (move_free Hd i f); [done|done|lia].
  - apply (move_count Hd i f); simpl; [done|lia|lia|lia].
Qed.

(** Opening: a free slot and a closed descriptor are joined. *)
Lemma tables_open lk ofs m p d k i f : tables_ok lk ofs m -> m !! p = Some d ->
  d !! k = Some FILE_CLOSED -> 0 <= i < OPEN_MAX -> slot ofs i = None -> rc f = 1 ->
  tables_ok lk (<[Z.to_nat i := Some f]> ofs) (<[p := <[k := i]> d]> m).
Proof.
  intros Hok Hp Hk Hi Hs Hrc. pose proof (move_new Hok i f Hi Hs Hrc) as Hn.
  apply (tables_lk (lend (lend lk i 1) i (-1))); [lend_simpl|].
  eapply (move_take Hn p d k i f Hp Hk).
  - rewrite slot_insert, Z.eqb_refl; [done|lia|by apply (slot_lt Hok)].
  - unfold lend. rewrite Z.eqb_refl. pose proof (ok_lk _ _ _ Hok i). lia.
Qed.

(** The open file of a slot is replaced by one with the same count. *)
Lemma tables_same lk ofs m i f f' : tables_ok lk ofs m -> slot ofs i = Some f -> rc f' = rc f ->
  tables_ok lk (<[Z.to_nat i := Some f']> ofs) m.
Proof.
  intros Hok Hs Hrc. destruct (ok_rc _ _ _ Hok i f Hs).
  apply (tables_lk (lend lk i 0)); [lend_simpl|].
  pose proof (ok_lk _ _ _ Hok i). apply (move_count Hok i f); [done|lia|lia|lia].
Qed.

Lemma vcnt_zero u ofs : (forall i, slot ofs i = None) -> vcnt u ofs = 0.
Proof.
  intros Hn. unfold vcnt. replace (filter (fun o => on_vnode u o = true) ofs) with (@nil (option open_file)); [done|].
  symmetry. apply length_zero_iff_nil. destruct (filter _ ofs) as [|o l] eqn:E; [done|].
  assert (o ∈ filter (fun o => on_vnode u o = true) ofs) as Hin by (rewrite E; left).
  apply list_elem_of_filter in Hin as [Ho Hin]. destruct o as [f|]; [|done].
  apply list_elem_of_lookup in Hin as [k Hk].
  assert (slot ofs (Z.of_nat k) = Some f) as Hs by (apply slot_lookup; rewrite Nat2Z.id; split; [lia|done]).
  by rewrite Hn in Hs.
Qed.

Lemma vcnt_pos ofs i f : slot ofs i = Some f -> 0 < vcnt (vn f) ofs.
Proof.
  intros Hs. apply slot_lookup in Hs as [_ Hs]. unfold vcnt.
  assert (Some f ∈ filter (fun o => on_vnode (vn f) o = true) ofs) as Hin.
  { apply list_elem_of_filter. split; [apply Z.eqb_refl|]. by eapply list_elem_of_lookup_2. }
  destruct (filter _ ofs); [by apply not_elem_of_nil in Hin|]. simpl. lia.
Qed.

Section Spec.
Context {L : Type} `{LowSpec L}.
Abbreviation F := (fstate L).
Implicit Types (l : L) (ofs : list (option open_file)) (m : gmap Z (list Z)) (d : list Z).

(** The references to vnode [u] that no open file accounts for. *)
Definition spare l ofs (u : Z) : Z := vrefs l u - vcnt u ofs.

(** The invariant of the layer.  Each open file holds one reference to its
    vnode; [x u] further references to vnode [u] are held by other parts of
    the kernel, and [lk] counts descriptor references that were lost. *)
Record good (x lk : Z -> Z) l ofs m : Prop := Good {
  good_low : low_inv l;
  good_tables : tables_ok lk ofs m;
  good_vnodes : forall u, spare l ofs u = x u;
  good_spare : forall u, 0 <= x u
}.

Section Good.
Context {x lk : Z -> Z} {l : L} {ofs : list (option open_file)} {m : gmap Z (list Z)}.
Hypothesis Hg : good x lk l ofs m.

Lemma good_live i f : slot ofs i = Some f -> 0 < vrefs l (vn f).
Proof.
  intros Hs. pose proof (vcnt_pos ofs i f Hs). pose proof (good_vnodes _ _ _ _ _ Hg (vn f)).
  pose proof (good_spare _ _ _ _ _ Hg (vn f)). unfold spare in *. lia.
Qed.

(** The lower layer moves without touching references. *)
Lemma good_same l' : low_inv l' -> (forall w, vrefs l' w = vrefs l w) -> good x lk l' ofs m.
Proof.
  intros Hl Hr. destruct Hg as [_ Ht Hv Hx]. split; try done.
  intros u. unfold spare. rewrite Hr. apply Hv.
Qed.

(** A slot changes together with the references of the lower layer. *)
Lemma good_slot l' lk' m' i o o' : low_inv l' -> 0 <= i -> ofs !! Z.to_nat i = Some o ->
  tables_ok lk' (<[Z.to_nat i := o']> ofs) m' ->
  (forall u, vrefs l' u = vrefs l u - (if on_vnode u o then 1 else 0)
                          + (if on_vnode u o' then 1 else 0)) ->
  good x lk' l' (<[Z.to_nat i := o']> ofs) m'.
Proof.
  intros Hl _ Ho Ht Hr. destruct Hg as [_ _ Hv Hx]. split; try done.
  intros u. unfold spare. rewrite Hr, (vcnt_insert u ofs _ o o' Ho).
  specialize (Hv u). unfold spare in Hv. lia.
Qed.
End Good.

(** The form of all specifications below: from a state in which the tables
    are good, [c] ends normally, leaves the lock and the current thread and
    process as they were, and its result and the new components satisfy [P]. *)
Definition spec {A} (x lk : Z -> Z) l th p h ofs m (c : M F A)
    (P : A -> L -> list (option open_file) -> gmap Z (list Z) -> Prop) : Prop :=
  wp c (fun a s' => exists l' ofs' m', s' = mk l' th p h ofs' m' /\
          good x lk l' ofs' m' /\ P a l' ofs' m') (mk l th p h ofs m).

Lemma spec_ret {A} x lk l th p h ofs m (a : A) P :
  good x lk l ofs m -> P a l ofs m -> spec x lk l th p h ofs m (mret a) P.
Proof. intros Hg HP. by exists l, ofs, m. Qed.

Lemma spec_mono {A} x lk l th p h ofs m (c : M F A) (P P' : A -> _ -> _ -> _ -> Prop) :
  spec x lk l th p h ofs m c P ->
  (forall a l' ofs' m', good x lk l' ofs' m' -> P a l' ofs' m' -> P' a l' ofs' m') ->
  spec x lk l th p h ofs m c P'.
Proof. intros Hc HP. eapply wp_mono; [exact Hc|]. simpl. intros a s' (l'&ofs'&m'&->&Hg&?). naive_solver. Qed.

(** Error exits and the like: release the table lock, then return. *)
Lemma release_ret {A} l th p ofs m (a : A) (Q : A -> F -> Prop) :
  Q a (mk l th p None ofs m) -> wp (oft_release ;; mret a) Q (mk l th p (Some th) ofs m).
Proof. intros HQ. rewrite wp_bind. by apply wp_release. Qed.

Lemma wp_lift_eq {A} l l' th p h ofs m (c : M L A) a (Q : A -> F -> Prop) :
  c l = Ok a l' -> Q a (mk l' th p h ofs m) -> wp (lift c) Q (mk l th p h ofs m).
Proof. intros Hc HQ. apply wp_lift. unfold wp. by rewrite Hc. Qed.
End Spec.

End OpenfileSpec.
