(* ===== verification/FileOps.v ===== *)
(** * What each file operation does

    For each operation of [Openfile] an inductive description of all its
    outcomes, one constructor per branch, and the proof that the code from a
    good state always ends in one of them, in a good state.  Reference lemmas
    for the process layer; the properties stated for users of the layer are in
    [FileProps]. *)

From S2P Require Import Prelude Kern Interfaces Openfile OpenfileSpec.
Open Scope Z_scope.
Import Openfile OpenfileSpec.

Module FileOps.

(** ** The search loops *)

(** The loops of file_open find the first element, or leave -1. *)
Lemma first_index_find {A} (P : A -> Prop) `{forall a, Decision (P a)} (q : A -> bool) l k :
  (forall a, q a = true <-> P a) ->
  first_index q l k = match list_find P l with Some (i, _) => k + Z.of_nat i | None => -1 end.
Proof.
  intros Hq. revert k. induction l as [|a l IH]; intros k; simpl; [done|].
  case_decide as Ha; [apply Hq in Ha; rewrite Ha; simpl; lia|].
  destruct (q a) eqn:Hqa; [by apply Hq in Hqa|]. rewrite IH.
  destruct (list_find P l) as [[i y]|]; simpl; lia.
Qed.

(** The lowest closed descriptor of a table, the lowest free slot. *)
Definition free_fd (d : list Z) : option Z :=
  (fun r => Z.of_nat r.1) <$> list_find (fun e => e = FILE_CLOSED) d.
Definition free_slot (ofs : list (option open_file)) : option Z :=
  (fun r => Z.of_nat r.1) <$> list_find (fun o => o = None) ofs.

Lemma free_fd_index d : first_index (fun e => e =? FILE_CLOSED) d 0 = default (-1) (free_fd d).
Proof.
  rewrite (first_index_find (fun e => e = FILE_CLOSED)) by (intros; apply Z.eqb_eq).
  unfold free_fd. destruct (list_find _ d) as [[i e]|]; simpl; lia.
Qed.

Lemma free_slot_index ofs :
  first_index (fun o => bool_decide (o = None)) ofs 0 = default (-1) (free_slot ofs).
Proof.
  rewrite (first_index_find (fun o => o = None)) by (intros; apply bool_decide_eq_true).
  unfold free_slot. destruct (list_find _ ofs) as [[i o]|]; simpl; lia.
Qed.

Lemma free_fd_Some d k : free_fd d = Some k <->
  0 <= k /\ d !! Z.to_nat k = Some FILE_CLOSED /\
  forall j, 0 <= j < k -> d !! Z.to_nat j <> Some FILE_CLOSED.
Proof.
  unfold free_fd. rewrite fmap_Some. split.
  - intros ([i e] & (Hi & -> & Hmin)%list_find_Some & ->). simpl. rewrite Nat2Z.id.
    split; [lia|]. split; [done|]. intros j Hj Hc. by eapply (Hmin (Z.to_nat j)); [done|lia|].
  - intros (Hk & Hd & Hmin). exists (Z.to_nat k, FILE_CLOSED). simpl. split; [|lia].
    apply list_find_Some. split; [done|]. split; [done|]. intros j e Hj Hlt ->.
    apply (Hmin (Z.of_nat j)); [lia|]. by rewrite Nat2Z.id.
Qed.

Lemma free_slot_Some ofs k : free_slot ofs = Some k <->
  0 <= k /\ ofs !! Z.to_nat k = Some None /\
  forall j, 0 <= j < k -> ofs !! Z.to_nat j <> Some None.
Proof.
  unfold free_slot. rewrite fmap_Some. split.
  - intros ([i o] & (Hi & -> & Hmin)%list_find_Some & ->). simpl. rewrite Nat2Z.id.
    split; [lia|]. split; [done|]. intros j Hj Hc. by eapply (Hmin (Z.to_nat j)); [done|lia|].
  - intros (Hk & Hd & Hmin). exists (Z.to_nat k, None). simpl. split; [|lia].
    apply list_find_Some. split; [done|]. split; [done|]. intros j e Hj Hlt ->.
    apply (Hmin (Z.of_nat j)); [lia|]. by rewrite Nat2Z.id.
Qed.

Section Ops.
Context {L : Type} `{LowSpec L}.
Abbreviation F := (fstate L).
Implicit Types (l : L) (ofs : list (option open_file)) (m : gmap Z (list Z)) (d : list Z).

(** ** file_close *)

Inductive close_post l ofs m p d fd :
    res unit -> L -> list (option open_file) -> gmap Z (list Z) -> Prop :=
| close_bad : fd_slot d fd = None -> close_post l ofs m p d fd (Err EBADF) l ofs m
| close_shared i f : fd_slot d fd = Some i -> slot ofs i = Some f -> 1 < rc f ->
    close_post l ofs m p d fd (Done tt) l
      (<[Z.to_nat i := Some (OpenFile (vn f) (am f) (rc f - 1) (os f))]> ofs)
      (<[p := <[Z.to_nat fd := FILE_CLOSED]> d]> m)
| close_last i f l' : fd_slot d fd = Some i -> slot ofs i = Some f -> rc f = 1 ->
    vfs_close (vn f) l = Ok tt l' ->
    close_post l ofs m p d fd (Done tt) l'
      (<[Z.to_nat i := None]> ofs) (<[p := <[Z.to_nat fd := FILE_CLOSED]> d]> m).

Lemma close_locked {A} x lk l th p ofs m d fd i f (k : M F A) (Q : A -> F -> Prop) :
  good x lk l ofs m -> m !! p = Some d -> fd_slot d fd = Some i -> slot ofs i = Some f ->
  (forall l' ofs' m', good x lk l' ofs' m' ->
     close_post l ofs m p d fd (Done tt) l' ofs' m' -> wp k Q (mk l' th p (Some th) ofs' m')) ->
  wp (set_entry fd FILE_CLOSED ;;
      (if rc f =? 1 then lift (vfs_close (vn f)) ;; set_open i None
       else set_open i (Some (OpenFile (vn f) (am f) (s32 (rc f - 1)) (os f)))) ;; k) Q
     (mk l th p (Some th) ofs m).
Proof.
  intros Hg Hp Hfd Hs HQ. pose proof (good_tables _ _ _ _ _ Hg) as Hok.
  destruct (fd_slot_Some _ _ _ _ _ _ _ Hok Hp Hfd) as (Hr & He & Hi & Hne & f' & Hs' & Ho).
  assert (f' = f) as -> by congruence. clear Hs'.
  pose proof (tables_close lk ofs m p d _ i f Hok Hp He Hs) as Ht.
  destruct (ok_rc _ _ _ Hok i f Hs) as [_ Hrc]. unfold drop_ref in *.
  rewrite wp_bind. eapply wp_set_entry; [done|]. rewrite wp_bind.
  destruct (Z.eqb_spec (rc f) 1) as [Hone|Hone].
  - pose proof (vfs_close_spec l (vn f) (good_low _ _ _ _ _ Hg) (good_live Hg i f Hs)) as Hv.
    apply wp_ok in Hv as ([] & l' & Hc & Hl' & Hr').
    rewrite wp_bind. eapply wp_lift_eq; [done|]. apply wp_set_open. apply HQ.
    + eapply (good_slot Hg); [done|lia|done|done|]. intros u. rewrite Hr'. simpl.
      rewrite (Z.eqb_sym u). lia.
    + by econstructor 3.
  - apply wp_set_open. rewrite s32_id by width_lia. apply HQ.
    + eapply (good_slot Hg); [apply Hg|lia|done|done|]. intros u. simpl. lia.
    + econstructor 2; [done|done|lia].
Qed.

(** file_close, called with the table lock free or held by the caller. *)
Lemma file_close_core x lk l th p h ofs m d fd :
  h = None \/ h = Some th -> good x lk l ofs m -> m !! p = Some d ->
  spec x lk l th p h ofs m (file_close fd) (close_post l ofs m p d fd).
Proof.
  intros Hh Hg Hp. pose proof (good_tables _ _ _ _ _ Hg) as Hok. unfold spec, file_close.
  destruct (fd_slot d fd) as [i|] eqn:Hfd.
  - destruct (fd_slot_Some _ _ _ _ _ _ _ Hok Hp Hfd) as (Hr & He & Hi & Hne & f & Hs & Ho).
    destruct (Z.ltb_spec fd 0), (Z.geb_spec fd OPEN_MAX); try lia; simpl.
    rewrite wp_bind. eapply wp_get_entry; [done|lia|done|].
    destruct (Z.ltb_spec i 0), (Z.geb_spec i OPEN_MAX); try lia; simpl.
    rewrite wp_bind. apply wp_hold. rewrite wp_bind.
    assert (wp (if negb (bool_decide (h = Some th)) then oft_acquire else mret tt)
      (fun _ s => s = mk l th p (Some th) ofs m) (mk l th p h ofs m)) as Hacq.
    { destruct Hh as [-> | ->]; [by apply wp_acquire|]. by rewrite bool_decide_true. }
    eapply wp_mono; [exact Hacq|]. intros [] ? ->.
    rewrite wp_bind. eapply wp_get_open; [lia|done|].
    eapply close_locked; [done..|]. intros l' ofs' m' Hg' Hpost. rewrite wp_bind.
    assert (wp (if negb (bool_decide (h = Some th)) then oft_release else mret tt)
      (fun _ s => s = mk l' th p h ofs' m') (mk l' th p (Some th) ofs' m')) as Hrel.
    { destruct Hh as [-> | ->]; [by apply wp_release|]. by rewrite bool_decide_true. }
    eapply wp_mono; [exact Hrel|]. intros [] ? ->. by exists l', ofs', m'.
  - assert (spec x lk l th p h ofs m (mret (Err EBADF)) (close_post l ofs m p d fd)) as Hbad.
    { apply spec_ret; [done|by constructor]. }
    destruct (Z.ltb_spec fd 0), (Z.geb_spec fd OPEN_MAX); try exact Hbad; simpl.
    rewrite wp_bind.
    eapply wp_get_entry; [done|lia|eapply fd_slot_None|exact Hbad]; [done|done|lia|done].
Qed.

(** ** file_open *)

Inductive open_post fn flags mode l ofs m p d :
    res Z -> L -> list (option open_file) -> gmap Z (list Z) -> Prop :=
| open_error e l' : vfs_open fn flags mode l = Ok (Err e) l' ->
    open_post fn flags mode l ofs m p d (Err e) l' ofs m
| open_full v l1 l' : vfs_open fn flags mode l = Ok (Done v) l1 ->
    free_fd d = None \/ free_slot ofs = None -> vfs_close v l1 = Ok tt l' ->
    open_post fn flags mode l ofs m p d (Err EMFILE) l' ofs m
| open_nomem v l1 l2 l' : vfs_open fn flags mode l = Ok (Done v) l1 ->
    is_Some (free_fd d) -> is_Some (free_slot ofs) ->
    kmalloc l1 = Ok false l2 -> vfs_close v l2 = Ok tt l' ->
    open_post fn flags mode l ofs m p d (Err ENOMEM) l' ofs m
| open_ok v l1 l' fd i : vfs_open fn flags mode l = Ok (Done v) l1 ->
    free_fd d = Some fd -> free_slot ofs = Some i -> kmalloc l1 = Ok true l' ->
    open_post fn flags mode l ofs m p d (Done fd) l'
      (<[Z.to_nat i := Some (OpenFile v flags 1 0)]> ofs)
      (<[p := <[Z.to_nat fd := i]> d]> m).

(** Giving a reference just obtained back: the exits of file_open. *)
Lemma give_back {A} x lk l l1 th p ofs m v (a : A) (Q : A -> F -> Prop) :
  good x lk l ofs m -> low_inv l1 ->
  (forall u, vrefs l1 u = vrefs l u + (if u =? v then 1 else 0)) ->
  (forall l', vfs_close v l1 = Ok tt l' -> good x lk l' ofs m -> Q a (mk l' th p None ofs m)) ->
  wp (lift (vfs_close v) ;; oft_release ;; mret a) Q (mk l1 th p (Some th) ofs m).
Proof.
  intros Hg Hl1 Hr1 HQ. assert (0 < vrefs l1 v) as Hlive.
  { rewrite Hr1, Z.eqb_refl. pose proof (vrefs_nonneg l v (good_low _ _ _ _ _ Hg)). lia. }
  pose proof (vfs_close_spec l1 v Hl1 Hlive) as Hv.
  apply wp_ok in Hv as ([] & l' & Hc & Hl' & Hr').
  rewrite wp_bind. eapply wp_lift_eq; [done|]. apply release_ret. apply HQ; [done|].
  apply (good_same Hg); [done|]. intros w. rewrite Hr', Hr1. lia.
Qed.

(** Recording a vnode just opened in the tables. *)
Lemma good_open x lk l l' ofs m p d fd i v flags :
  good x lk l ofs m -> m !! p = Some d -> free_fd d = Some fd -> free_slot ofs = Some i ->
  low_inv l' -> (forall u, vrefs l' u = vrefs l u + (if u =? v then 1 else 0)) ->
  good x lk l' (<[Z.to_nat i := Some (OpenFile v flags 1 0)]> ofs) (<[p := <[Z.to_nat fd := i]> d]> m).
Proof.
  intros Hg Hp Hfd Hi Hl' Hr'. pose proof (good_tables _ _ _ _ _ Hg) as Hok.
  apply free_fd_Some in Hfd as (_ & Hfd & _). apply free_slot_Some in Hi as (Hi & Ho & _).
  assert (0 <= i < OPEN_MAX) as Hir.
  { apply lookup_lt_Some in Ho. rewrite (ok_ofs _ _ _ Hok) in Ho. lia. }
  eapply (good_slot Hg); [done|lia|done| |].
  - eapply tables_open; try done. unfold slot. destruct (Z.ltb_spec i 0); [done|]. by rewrite Ho.
  - intros u. rewrite Hr'. simpl. rewrite (Z.eqb_sym u). lia.
Qed.

Lemma kmalloc_lift l : low_inv l -> exists b l', kmalloc l = Ok b l' /\ low_inv l' /\
  forall w, vrefs l' w = vrefs l w.
Proof. intros Hl. pose proof (keeps_kmalloc l Hl) as Hk. by apply wp_ok in Hk. Qed.

Lemma file_open_core x lk l th p ofs m d fn flags mode :
  good x lk l ofs m -> m !! p = Some d ->
  spec x lk l th p None ofs m (file_open fn flags mode) (open_post fn flags mode l ofs m p d).
Proof.
  intros Hg Hp. unfold spec, file_open. rewrite wp_bind.
  pose proof (vfs_open_spec l fn flags mode (good_low _ _ _ _ _ Hg)) as Hv.
  apply wp_ok in Hv as (r & l1 & Hr & Hl1 & Hr1). eapply wp_lift_eq; [done|].
  destruct r as [v|e].
  2:{ apply spec_ret; [by apply (good_same Hg)|by constructor]. }
  rewrite wp_bind. apply wp_acquire. rewrite wp_bind. eapply wp_the_fds; [done|].
  rewrite wp_bind. apply wp_the_oft. simpl openfiles. rewrite free_fd_index, free_slot_index.
  destruct (decide (free_fd d = None \/ free_slot ofs = None)) as [Hfull|Hfull].
  { assert ((default (-1) (free_fd d) =? -1) || (default (-1) (free_slot ofs) =? -1) = true) as ->.
    { destruct Hfull as [-> | ->]; [done|]. simpl. apply orb_true_r. }
    eapply give_back; [done..|]. intros l' Hc Hg'. apply spec_ret; [done|by eapply open_full]. }
  destruct (free_fd d) as [fd|] eqn:Hfd; [|naive_solver].
  destruct (free_slot ofs) as [i|] eqn:Hi; [|naive_solver]. simpl.
  pose proof Hfd as (Hfd0 & _)%free_fd_Some. pose proof Hi as (Hi0 & _)%free_slot_Some.
  destruct (Z.eqb_spec fd (-1)), (Z.eqb_spec i (-1)); try lia. simpl.
  destruct (kmalloc_lift l1 Hl1) as (b & l2 & Hk & Hl2 & Hr2).
  rewrite wp_bind. eapply wp_lift_eq; [done|]. destruct b; simpl.
  - rewrite wp_bind. eapply wp_set_entry; [done|]. rewrite wp_bind. apply wp_set_open.
    apply release_ret. apply spec_ret; [|by eapply open_ok].
    eapply good_open; try done. intros u. by rewrite Hr2.
  - eapply give_back; [done|done|intros u; by rewrite Hr2|].
    intros l' Hc Hg'. apply spec_ret; [done|]. eapply open_nomem; try done; by rewrite ?Hfd, ?Hi.
Qed.

(** ** file_read and file_write *)

(** Both with the vnode operation [op], direction [dir] and refused access
    mode [deny]. *)
Inductive xfer_post (op : Z -> uio -> M L (res unit * uio)) dir deny buf len l ofs m d fd :
    res Z -> L -> list (option open_file) -> gmap Z (list Z) -> Prop :=
| xfer_closed : fd_slot d fd = None ->
    xfer_post op dir deny buf len l ofs m d fd (Err EBADF) l ofs m
| xfer_denied i f : fd_slot d fd = Some i -> slot ofs i = Some f ->
    Z.land (am f) O_ACCMODE = deny ->
    xfer_post op dir deny buf len l ofs m d fd (Err EBADF) l ofs m
| xfer_error i f e u l' : fd_slot d fd = Some i -> slot ofs i = Some f ->
    Z.land (am f) O_ACCMODE <> deny ->
    op (vn f) (uio_uinit (curspace l) buf len (os f) dir) l = Ok (Err e, u) l' ->
    xfer_post op dir deny buf len l ofs m d fd (Err e) l' ofs m
| xfer_ok i f u l' : fd_slot d fd = Some i -> slot ofs i = Some f ->
    Z.land (am f) O_ACCMODE <> deny ->
    op (vn f) (uio_uinit (curspace l) buf len (os f) dir) l = Ok (Done tt, u) l' ->
    xfer_post op dir deny buf len l ofs m d fd (Done (s32 (uio_offset u - os f))) l'
      (<[Z.to_nat i := Some (OpenFile (vn f) (am f) (rc f) (uio_offset u))]> ofs) m.

(** The open file of a slot is replaced by one that differs in its offset
    or access mode only. *)
Lemma good_same_slot x lk l l' ofs m i f f' :
  good x lk l ofs m -> slot ofs i = Some f -> vn f' = vn f -> rc f' = rc f ->
  low_inv l' -> (forall w, vrefs l' w = vrefs l w) ->
  good x lk l' (<[Z.to_nat i := Some f']> ofs) m.
Proof.
  intros Hg Hs Hvn Hrc Hl' Hr'. pose proof Hs as [Hi Ho]%slot_lookup.
  eapply (good_slot Hg); [done|lia|done| |].
  - eapply tables_same; [apply Hg|done|done].
  - intros u. rewrite Hr'. simpl. rewrite Hvn. lia.
Qed.

(** The common body of the two functions. *)
Definition xfer (op : Z -> uio -> M L (res unit * uio)) dir deny fd buf len : M F (res Z) :=
  of_entry ← get_entry fd;
  if (of_entry <? 0) || (of_entry >=? OPEN_MAX) then mret (Err EBADF) else
  oft_acquire ;;
  o ← get_open of_entry;
  match o with
  | None => oft_release ;; mret (Err EBADF)
  | Some f =>
      if Z.land (am f) O_ACCMODE =? deny then oft_release ;; mret (Err EBADF) else
      s ← get;
      r ← lift (op (vn f) (uio_uinit (curspace (low s)) buf len (os f) dir));
      match r with
      | (Err e, _) => oft_release ;; mret (Err e)
      | (Done _, u) =>
          set_open of_entry (Some (OpenFile (vn f) (am f) (rc f) (uio_offset u))) ;;
          oft_release ;;
          mret (Done (s32 (uio_offset u - os f)))
      end
  end.

Lemma xfer_core x lk l th p ofs m d fd op dir deny buf len :
  (forall l v pos, low_inv l -> 0 < vrefs l v ->
     wp (op v (uio_uinit (curspace l) buf len pos dir))
        (fun _ l' => low_inv l' /\ forall w, vrefs l' w = vrefs l w) l) ->
  good x lk l ofs m -> m !! p = Some d -> 0 <= fd < OPEN_MAX ->
  spec x lk l th p None ofs m (xfer op dir deny fd buf len) (xfer_post op dir deny buf len l ofs m d fd).
Proof.
  intros Hop Hg Hp Hfd. pose proof (good_tables _ _ _ _ _ Hg) as Hok. unfold spec, xfer.
  rewrite wp_bind. destruct (fd_slot d fd) as [i|] eqn:Hi.
  2:{ eapply wp_get_entry; [done|lia|by eapply fd_slot_None|].
      apply spec_ret; [done|by constructor]. }
  destruct (fd_slot_Some _ _ _ _ _ _ _ Hok Hp Hi) as (Hr & He & Hir & Hne & f & Hs & Ho).
  eapply wp_get_entry; [done|lia|done|].
  destruct (Z.ltb_spec i 0), (Z.geb_spec i OPEN_MAX); try lia; simpl.
  rewrite wp_bind. apply wp_acquire. rewrite wp_bind. eapply wp_get_open; [lia|done|]. cbn beta iota.
  destruct (Z.eqb_spec (Z.land (am f) O_ACCMODE) deny) as [Hd|Hd].
  { apply release_ret, spec_ret; [done|by eapply xfer_denied]. }
  rewrite wp_bind. apply wp_get. simpl low. rewrite wp_bind.
  pose proof (Hop l (vn f) (os f) (good_low _ _ _ _ _ Hg) (good_live Hg i f Hs)) as Hv.
  apply wp_ok in Hv as ([[[]|e] u] & l' & Hc & Hl' & Hr'); (eapply wp_lift_eq; [done|]).
  - rewrite wp_bind. apply wp_set_open. apply release_ret, spec_ret; [|by eapply xfer_ok].
    by eapply good_same_slot.
  - apply release_ret, spec_ret; [by apply (good_same Hg)|by eapply xfer_error].
Qed.

Lemma file_read_core x lk l th p ofs m d fd buf len :
  good x lk l ofs m -> m !! p = Some d -> 0 <= fd < OPEN_MAX ->
  spec x lk l th p None ofs m (file_read fd buf len)
    (xfer_post VOP_READ UIO_READ O_WRONLY buf len l ofs m d fd).
Proof. apply xfer_core. intros. by apply VOP_READ_spec. Qed.

Lemma file_write_core x lk l th p ofs m d fd buf len :
  good x lk l ofs m -> m !! p = Some d -> 0 <= fd < OPEN_MAX ->
  spec x lk l th p None ofs m (file_write fd buf len)
    (xfer_post VOP_WRITE UIO_WRITE O_RDONLY buf len l ofs m d fd).
Proof. apply xfer_core. intros. by apply VOP_WRITE_spec. Qed.

(** ** sys_dup2 *)

Definition fd_range (fd : Z) : bool := (0 <=? fd) && (fd <? OPEN_MAX).

(** Open file [f] with one more reference. *)
Definition shared (f : open_file) : open_file := OpenFile (vn f) (am f) (rc f + 1) (os f).

Inductive dup2_post l ofs m p d oldfd newfd :
    res Z -> L -> list (option open_file) -> gmap Z (list Z) -> Prop :=
| dup2_range : fd_range oldfd = false \/ fd_range newfd = false ->
    dup2_post l ofs m p d oldfd newfd (Err EBADF) l ofs m
| dup2_same : fd_range oldfd = true -> oldfd = newfd ->
    dup2_post l ofs m p d oldfd newfd (Done newfd) l ofs m
| dup2_closed : fd_range newfd = true -> oldfd <> newfd -> fd_slot d oldfd = None ->
    dup2_post l ofs m p d oldfd newfd (Err EBADF) l ofs m
| dup2_fresh i f : fd_range newfd = true -> oldfd <> newfd ->
    fd_slot d oldfd = Some i -> slot ofs i = Some f -> fd_slot d newfd = None ->
    dup2_post l ofs m p d oldfd newfd (Done newfd) l
      (<[Z.to_nat i := Some (shared f)]> ofs) (<[p := <[Z.to_nat newfd := i]> d]> m)
| dup2_replace i f l' ofs' m' : oldfd <> newfd ->
    fd_slot d oldfd = Some i -> slot ofs i = Some f -> is_Some (fd_slot d newfd) ->
    close_post l (<[Z.to_nat i := Some (shared f)]> ofs) m p d newfd (Done tt) l' ofs' m' ->
    dup2_post l ofs m p d oldfd newfd (Done newfd) l' ofs' (<[p := <[Z.to_nat newfd := i]> d]> m).

Lemma fd_range_spec fd : fd_range fd = true <-> 0 <= fd < OPEN_MAX.
Proof. unfold fd_range. rewrite andb_true_iff, Z.leb_le, Z.ltb_lt. lia. Qed.

Lemma good_share x lk l ofs m i f : good x lk l ofs m -> slot ofs i = Some f -> rc f + 1 < 2 ^ 31 ->
  good x (lend lk i 1) l (<[Z.to_nat i := Some (shared f)]> ofs) m.
Proof.
  intros Hg Hs Hb. pose proof Hs as [Hi Ho]%slot_lookup.
  pose proof (good_tables _ _ _ _ _ Hg) as Hok. destruct (ok_rc _ _ _ Hok i f Hs).
  eapply (good_slot Hg); [apply Hg|lia|done| |intros u; simpl; lia].
  pose proof (ok_lk _ _ _ Hok i). apply (move_count Hok i f); simpl; [done|lia|lia|lia].
Qed.

(** A closed descriptor takes over a pending reference. *)
Lemma good_take x lk l ofs m p d k i : good x (lend lk i 1) l ofs m -> (forall j, 0 <= lk j) ->
  m !! p = Some d -> d !! k = Some FILE_CLOSED -> good x lk l ofs (<[p := <[k := i]> d]> m).
Proof.
  intros Hg Hlk Hp Hk. pose proof (good_tables _ _ _ _ _ Hg) as Hok.
  assert (1 <= lend lk i 1 i) as Hli by (unfold lend; rewrite Z.eqb_refl; specialize (Hlk i); lia).
  destruct (slot ofs i) as [f|] eqn:Hs; [|rewrite (ok_free _ _ _ Hok i Hs) in Hli; lia].
  destruct Hg as [Hl _ Hv Hx]. split; try done.
  apply (tables_lk (lend (lend lk i 1) i (-1))); [lend_simpl|]. by eapply (move_take Hok).
Qed.

(** The descriptor table after file_close of an open descriptor. *)
Lemma close_done l ofs m p d fd l' ofs' m' : close_post l ofs m p d fd (Done tt) l' ofs' m' ->
  m' = <[p := <[Z.to_nat fd := FILE_CLOSED]> d]> m.
Proof. by inversion 1. Qed.

Lemma fd_slot_lt d fd i : fd_slot d fd = Some i -> (Z.to_nat fd < length d)%nat.
Proof.
  unfold fd_slot. destruct (_ || _); [done|]. destruct (d !! Z.to_nat fd) eqn:E; [|done].
  intros _. by eapply lookup_lt_Some.
Qed.

(** From the test of [new_of] to the end, in the case that [oldfd] is open. *)
Lemma dup2_tail x lk l th p ofs m d oldfd newfd i f e :
  good x lk l ofs m -> m !! p = Some d -> fd_slot d oldfd = Some i -> slot ofs i = Some f ->
  rc f + 1 < 2 ^ 31 -> fd_range newfd = true -> oldfd <> newfd -> d !! Z.to_nat newfd = Some e ->
  wp ((if negb (e =? FILE_CLOSED) then file_close newfd ;; mret tt else mret tt) ;;
      oft_release ;; e ← get_entry oldfd; set_entry newfd e ;; mret (Done newfd))
     (fun a s' => exists l' ofs' m', s' = mk l' th p None ofs' m' /\
        good x lk l' ofs' m' /\ dup2_post l ofs m p d oldfd newfd a l' ofs' m')
     (mk l th p (Some th) (<[Z.to_nat i := Some (shared f)]> ofs) m).
Proof.
  intros Hg Hp Ho Hs Hb Hn Hne He. pose proof (good_tables _ _ _ _ _ Hg) as Hok.
  destruct (fd_slot_Some _ _ _ _ _ _ _ Hok Hp Ho) as (Hr & Heo & Hi & Hic & _).
  pose proof Hn as Hnr%fd_range_spec. pose proof (good_share x lk l ofs m i f Hg Hs Hb) as Hg1.
  rewrite wp_bind. destruct (Z.eqb_spec e FILE_CLOSED) as [->|Hec]; simpl.
  - rewrite wp_ret, wp_bind. apply wp_release. rewrite wp_bind.
    eapply wp_get_entry; [done|lia|done|]. rewrite wp_bind. eapply wp_set_entry; [done|].
    apply spec_ret; [by eapply good_take; [done|apply Hok|done|]|].
    eapply dup2_fresh; try done. unfold fd_slot. rewrite He, Z.eqb_refl. by case_match.
  - rewrite wp_bind. eapply wp_mono; [by eapply (file_close_core _ _ _ _ _ (Some th) _ _ _ newfd); [right| |]|].
    assert (fd_slot d newfd = Some e) as Hfe.
    { unfold fd_slot. rewrite He. destruct (Z.ltb_spec newfd 0), (Z.geb_spec newfd OPEN_MAX); try lia.
      by destruct (Z.eqb_spec e FILE_CLOSED). }
    intros r s' (l' & ofs' & m' & -> & Hg' & Hpost). rewrite wp_ret, wp_bind. apply wp_release.
    destruct r as [[]|]; [|by inversion Hpost; congruence].
    pose proof (close_done _ _ _ _ _ _ _ _ _ Hpost) as ->.
    rewrite wp_bind. eapply wp_get_entry; [by rewrite lookup_insert_eq|lia| |].
    { rewrite list_lookup_insert_ne by lia. done. }
    rewrite wp_bind. eapply wp_set_entry; [by rewrite lookup_insert_eq|].
    rewrite insert_insert_eq, list_insert_insert_eq. apply spec_ret.
    + replace (<[p := <[Z.to_nat newfd := i]> d]> m) with
        (<[p := <[Z.to_nat newfd := i]> (<[Z.to_nat newfd := FILE_CLOSED]> d)]>
           (<[p := <[Z.to_nat newfd := FILE_CLOSED]> d]> m))
        by by rewrite insert_insert_eq, list_insert_insert_eq.
      eapply good_take; [done|apply Hok|by rewrite lookup_insert_eq|].
      apply list_lookup_insert_eq. by eapply lookup_lt_Some.
    + by eapply dup2_replace.
Qed.

Lemma sys_dup2_core x lk l th p ofs m d oldfd newfd :
  good x lk l ofs m -> m !! p = Some d ->
  (forall i f, slot ofs i = Some f -> rc f + 1 < 2 ^ 31) ->
  spec x lk l th p None ofs m (sys_dup2 oldfd newfd) (dup2_post l ofs m p d oldfd newfd).
Proof.
  intros Hg Hp Hb. pose proof (good_tables _ _ _ _ _ Hg) as Hok. unfold spec, sys_dup2.
  assert ((oldfd <? 0) || (oldfd >=? OPEN_MAX) || (newfd <? 0) || (newfd >=? OPEN_MAX) =
          negb (fd_range oldfd && fd_range newfd)) as ->.
  { unfold fd_range. lia. }
  destruct (fd_range oldfd) eqn:Hor, (fd_range newfd) eqn:Hnr; simpl;
    try (apply spec_ret; [done|constructor; auto]; fail).
  destruct (Z.eqb_spec oldfd newfd) as [Heq|Hne].
  { apply spec_ret; [done|by constructor]. }
  pose proof Hor as Hor'%fd_range_spec. pose proof Hnr as Hnr'%fd_range_spec.
  rewrite wp_bind. apply wp_acquire.
  destruct (lookup_lt_is_Some_2 d (Z.to_nat newfd)) as [e He].
  { rewrite (ok_fds _ _ _ Hok p d Hp). lia. }
  destruct (fd_slot d oldfd) as [i|] eqn:Hi.
  - destruct (fd_slot_Some _ _ _ _ _ _ _ Hok Hp Hi) as (Hr & Heo & Hir & Hic & f & Hs & Ho).
    rewrite wp_bind. eapply wp_get_entry; [done|lia|done|].
    rewrite wp_bind. eapply wp_get_entry; [done|lia|done|].
    destruct (Z.eqb_spec i FILE_CLOSED); [done|].
    rewrite wp_bind. eapply wp_get_open; [lia|done|]. rewrite wp_bind, wp_deref.
    exists f. split; [done|]. rewrite wp_bind. apply wp_set_open.
    destruct (ok_rc _ _ _ Hok i f Hs). specialize (Hb i f Hs). rewrite s32_id by width_lia.
    by eapply dup2_tail.
  - rewrite wp_bind. eapply wp_get_entry; [done|lia|by eapply fd_slot_None|].
    rewrite wp_bind. eapply wp_get_entry; [done|lia|done|].
    rewrite Z.eqb_refl. apply release_ret, spec_ret; [done|by constructor].
Qed.

(** ** sys_lseek *)

(** The position [pos] is added to, by [whence]. *)
Inductive seek_base l f : Z -> res Z -> L -> Prop :=
| base_set : seek_base l f SEEK_SET (Done 0) l
| base_cur : seek_base l f SEEK_CUR (Done (os f)) l
| base_end st l' : VOP_STAT (vn f) l = Ok (Done st) l' ->
    seek_base l f SEEK_END (Done (st_size st)) l'
| base_error e l' : VOP_STAT (vn f) l = Ok (Err e) l' -> seek_base l f SEEK_END (Err e) l'.

Definition whence_ok (whence : Z) : bool :=
  (whence =? SEEK_SET) || (whence =? SEEK_CUR) || (whence =? SEEK_END).

Inductive lseek_post l ofs m d fd pos whence :
    res Z -> L -> list (option open_file) -> gmap Z (list Z) -> Prop :=
| lseek_range : fd_range fd = false -> lseek_post l ofs m d fd pos whence (Err EBADF) l ofs m
| lseek_whence : fd_range fd = true -> whence_ok whence = false ->
    lseek_post l ofs m d fd pos whence (Err EINVAL) l ofs m
| lseek_closed : whence_ok whence = true -> fd_slot d fd = None ->
    lseek_post l ofs m d fd pos whence (Err EBADF) l ofs m
| lseek_pipe i f l' : whence_ok whence = true -> fd_slot d fd = Some i -> slot ofs i = Some f ->
    VOP_ISSEEKABLE (vn f) l = Ok false l' ->
    lseek_post l ofs m d fd pos whence (Err ESPIPE) l' ofs m
| lseek_stat i f e l1 l' : fd_slot d fd = Some i -> slot ofs i = Some f ->
    VOP_ISSEEKABLE (vn f) l = Ok true l1 -> seek_base l1 f whence (Err e) l' ->
    lseek_post l ofs m d fd pos whence (Err e) l' ofs m
| lseek_negative i f b l1 l' : fd_slot d fd = Some i -> slot ofs i = Some f ->
    VOP_ISSEEKABLE (vn f) l = Ok true l1 -> seek_base l1 f whence (Done b) l' ->
    s64 (b + pos) < 0 -> lseek_post l ofs m d fd pos whence (Err EINVAL) l' ofs m
| lseek_ok i f b l1 l' : fd_slot d fd = Some i -> slot ofs i = Some f ->
    VOP_ISSEEKABLE (vn f) l = Ok true l1 -> seek_base l1 f whence (Done b) l' ->
    0 <= s64 (b + pos) ->
    lseek_post l ofs m d fd pos whence (Done (s64 (b + pos))) l'
      (<[Z.to_nat i := Some (OpenFile (vn f) (am f) (rc f) (s64 (b + pos)))]> ofs) m.

Lemma lseek_target_core l th p h ofs m f pos whence (Q : res Z -> F -> Prop) :
  is_s64 pos -> whence_ok whence = true -> low_inv l -> 0 < vrefs l (vn f) ->
  (forall r l', seek_base l f whence r l' -> low_inv l' -> (forall w, vrefs l' w = vrefs l w) ->
     Q (match r with Done b => Done (s64 (b + pos)) | Err e => Err e end) (mk l' th p h ofs m)) ->
  wp (lseek_target f pos whence) Q (mk l th p h ofs m).
Proof.
  intros Hpos Hw Hl Hv HQ. unfold lseek_target, whence_ok in *.
  destruct (Z.eqb_spec whence SEEK_SET) as [->|].
  { specialize (HQ (Done 0) l). cbn beta iota in HQ. rewrite Z.add_0_l, s64_id in HQ by done. apply HQ; [constructor|done..]. }
  destruct (Z.eqb_spec whence SEEK_CUR) as [->|]; [by apply (HQ (Done (os f)) l); [constructor|..]|].
  destruct (Z.eqb_spec whence SEEK_END) as [->|]; [|done].
  pose proof (VOP_STAT_spec l (vn f) Hl Hv) as Hst.
  apply wp_ok in Hst as ([st|e] & l' & Hc & Hl' & Hr'); rewrite wp_bind; (eapply wp_lift_eq; [done|]).
  - cbn beta iota. rewrite Z.add_comm, wp_ret.
    by apply (HQ (Done (st_size st)) l'); [constructor|..].
  - by apply (HQ (Err e) l'); [constructor|..].
Qed.

Lemma sys_lseek_core x lk l th p ofs m d fd pos whence :
  good x lk l ofs m -> m !! p = Some d -> is_s64 pos ->
  spec x lk l th p None ofs m (sys_lseek fd pos whence) (lseek_post l ofs m d fd pos whence).
Proof.
  intros Hg Hp Hpos. pose proof (good_tables _ _ _ _ _ Hg) as Hok. unfold spec, sys_lseek.
  assert ((fd <? 0) || (fd >=? OPEN_MAX) = negb (fd_range fd)) as -> by (unfold fd_range; lia).
  destruct (fd_range fd) eqn:Hr; simpl; [|apply spec_ret; [done|by constructor]].
  assert (negb (whence =? SEEK_SET) && negb (whence =? SEEK_CUR) && negb (whence =? SEEK_END) =
          negb (whence_ok whence)) as -> by (unfold whence_ok; by rewrite !negb_orb).
  destruct (whence_ok whence) eqn:Hw; simpl; [|apply spec_ret; [done|by constructor]].
  pose proof Hr as Hr'%fd_range_spec.
  rewrite wp_bind. destruct (fd_slot d fd) as [i|] eqn:Hi.
  2:{ eapply wp_get_entry; [done|lia|by eapply fd_slot_None|].
      rewrite Z.eqb_refl. apply spec_ret; [done|by constructor]. }
  destruct (fd_slot_Some _ _ _ _ _ _ _ Hok Hp Hi) as (_ & He & Hir & Hic & f & Hs & Ho).
  eapply wp_get_entry; [done|lia|done|]. destruct (Z.eqb_spec i FILE_CLOSED); [done|].
  rewrite wp_bind. apply wp_acquire. rewrite wp_bind. eapply wp_get_open; [lia|done|].
  rewrite wp_bind, wp_deref. exists f. split; [done|]. rewrite wp_bind.
  pose proof (good_live Hg i f Hs) as Hv.
  pose proof (VOP_ISSEEKABLE_spec l (vn f) (good_low _ _ _ _ _ Hg) Hv) as Hsk.
  apply wp_ok in Hsk as (b & l1 & Hsk & Hl1 & Hr1). eapply wp_lift_eq; [done|].
  pose proof (good_same Hg l1 Hl1 Hr1) as Hg1. destruct b; simpl negb; cbn beta iota.
  2:{ apply release_ret, spec_ret; [done|by eapply lseek_pipe]. }
  rewrite wp_bind. apply lseek_target_core; [done|done|done|by rewrite Hr1|].
  intros r l' Hb Hl' Hrr. pose proof (good_same Hg1 l' Hl' Hrr) as Hg2. destruct r as [b|e].
  2:{ apply release_ret, spec_ret; [done|by eapply lseek_stat]. }
  rewrite wp_bind. apply wp_set_open. destruct (Z.ltb_spec (s64 (b + pos)) 0).
  - rewrite wp_bind. apply wp_set_open. rewrite list_insert_insert_eq.
    apply release_ret. rewrite list_insert_id by by destruct f.
    apply spec_ret; [done|by eapply lseek_negative].
  - apply release_ret, spec_ret; [by eapply good_same_slot|by eapply lseek_ok].
Qed.
End Ops.

End FileOps.
