(* ===== verification/FileTables.v ===== *)
(** * Creating and destroying descriptor tables

    file_table_destroy closes exactly the descriptors of the current process,
    whatever lies beyond its table, and file_table_init gives a process the
    three standard descriptors; with an account of the references that
    file_table_init drops when the process already had a table or when it fails
    half way. *)

From S2P Require Import Prelude Kern Interfaces Openfile OpenfileSpec FileOps.
Open Scope Z_scope.
Import Openfile OpenfileSpec FileOps.

Module FileTables.

(** ** Reference arithmetic *)

(** An open file after [n] of its references are gone. *)
Definition drop_refs (n : Z) (o : option open_file) : option open_file :=
  match o with
  | Some f => if rc f =? n then None else Some (OpenFile (vn f) (am f) (rc f - n) (os f))
  | None => None
  end.

Lemma drop_refs_0 o : (forall f, o = Some f -> 0 < rc f) -> drop_refs 0 o = o.
Proof.
  destruct o as [f|]; [|done]. intros Hpos. simpl. specialize (Hpos f eq_refl).
  destruct (Z.eqb_spec (rc f) 0); [lia|]. rewrite Z.sub_0_r. by destruct f.
Qed.

Lemma drop_refs_more n f o : drop_refs n o = Some f -> drop_refs (n + 1) o = drop_ref f.
Proof.
  destruct o as [g|]; [|done]. unfold drop_ref. simpl.
  destruct (Z.eqb_spec (rc g) n); [done|]. intros [= <-]. simpl.
  destruct (Z.eqb_spec (rc g) (n + 1)), (Z.eqb_spec (rc g - n) 1); try lia; [done|].
  do 2 f_equal. lia.
Qed.

Lemma seqZ_prefix n done x rest : seqZ 0 n = done ++ x :: rest -> x = Z.of_nat (length done).
Proof.
  intros Hs. assert (seqZ 0 n !! length done = Some x) as Hx.
  { rewrite Hs, lookup_app_r by lia. by rewrite Nat.sub_diag. }
  apply lookup_seqZ in Hx. lia.
Qed.

(** A table all of whose descriptors are closed. *)
Definition fresh : list Z := replicate (Z.to_nat OPEN_MAX) FILE_CLOSED.

Lemma cnt_fresh i : i <> FILE_CLOSED -> cnt i fresh = 0.
Proof. intros Hi. apply cnt_absent. intros k [? _]%lookup_replicate. congruence. Qed.

(** The references of table [o] become unaccounted for. *)
Definition leak (lk : Z -> Z) (o : option (list Z)) (i : Z) : Z :=
  match o with
  | Some d => if i =? FILE_CLOSED then lk i else lk i + cnt i d
  | None => lk i
  end.

Lemma tables_forget lk ofs m p : tables_ok lk ofs m -> tables_ok (leak lk (m !! p)) ofs (delete p m).
Proof.
  intros Hok. destruct (m !! p) as [d|] eqn:Hp.
  2:{ rewrite delete_id by done. by apply (tables_lk lk). }
  assert (forall i, i <> FILE_CLOSED -> slot ofs i = None -> cnt i d = 0) as Hd.
  { intros i Hi Hs. apply cnt_absent. intros k Hk.
    destruct (ok_entries _ _ _ Hok p d k i Hp Hk) as [?|[_ [f Hf]]]; congruence. }
  destruct Hok as [H1 H2 H3 H4 H5 H6]. split; [done| | | | |].
  - intros q dq [_ Hq]%lookup_delete_Some. by eapply H2.
  - intros q dq k e [_ Hq]%lookup_delete_Some. by eapply H3.
  - intros i f Hs. destruct (H4 i f Hs) as [Hr Hb]. rewrite (refs_to_delete m p d i Hp) in Hr.
    pose proof Hs as [Hi _]%slot_lookup. unfold leak, FILE_CLOSED. destruct (Z.eqb_spec i (-1)); lia.
  - intros i. specialize (H5 i). pose proof (cnt_nonneg i d). unfold leak. case_match; lia.
  - intros i Hs. specialize (H6 i Hs). unfold leak. destruct (Z.eqb_spec i FILE_CLOSED); [lia|].
    rewrite Hd by done. lia.
Qed.

Lemma tables_fresh lk ofs m p : tables_ok lk ofs m -> m !! p = None ->
  tables_ok lk ofs (<[p := fresh]> m).
Proof.
  intros [H1 H2 H3 H4 H5 H6] Hp. split; [done| | | |done|done].
  - intros q dq [[_ <-]|[_ Hq]]%lookup_insert_Some; [apply length_replicate|by eapply H2].
  - intros q dq k e [[_ <-]|[_ Hq]]%lookup_insert_Some; [|by eapply H3].
    intros [-> _]%lookup_replicate. by left.
  - intros i f Hs. rewrite refs_to_fresh by done. destruct (H4 i f Hs) as [Hr Hb].
    rewrite cnt_fresh; [lia|]. apply slot_lookup in Hs as [? _]. unfold FILE_CLOSED. lia.
Qed.

Section Tables.
Context {L : Type} `{LowSpec L}.
Abbreviation F := (fstate L).
Implicit Types (l : L) (ofs : list (option open_file)) (m : gmap Z (list Z)) (d : list Z).

(** ** file_table_destroy *)

(** The loop has done the descriptors below [n]: those are closed, the others
    are as in [d], and each open file has lost the references closed. *)
Definition closed_upto n d ofs d' ofs' : Prop :=
  (forall k, (k < n)%nat -> (k < length d)%nat -> d' !! k = Some FILE_CLOSED) /\
  (forall k, (n <= k)%nat -> d' !! k = d !! k) /\
  (forall i, 0 <= i -> slot ofs' i = drop_refs (cnt i d - cnt i d') (slot ofs i)).

(** One descriptor more, closed or beyond the table. *)
Lemma closed_upto_skip n d ofs d' ofs' : closed_upto n d ofs d' ofs' ->
  (forall e, d !! n = Some e -> e = FILE_CLOSED) -> closed_upto (S n) d ofs d' ofs'.
Proof.
  intros (Hlo & Hhi & Hs) Hn. split_and!; [|by intros k Hk; apply Hhi; lia|done].
  intros k Hk Hlt. destruct (decide (k = n)) as [->|]; [|apply Hlo; lia].
  rewrite Hhi by lia. apply lookup_lt_is_Some_2 in Hlt as [e He]. rewrite He. f_equal. by apply Hn.
Qed.

Lemma closed_upto_close n d ofs d' ofs' i f : closed_upto n d ofs d' ofs' ->
  (length ofs' = Z.to_nat OPEN_MAX) -> 0 <= i < OPEN_MAX ->
  d' !! n = Some i -> slot ofs' i = Some f ->
  closed_upto (S n) d ofs (<[n := FILE_CLOSED]> d') (<[Z.to_nat i := drop_ref f]> ofs').
Proof.
  intros (Hlo & Hhi & Hs) Hlen Hi Hn Hf. pose proof (lookup_lt_Some _ _ _ Hn) as Hlt. split_and!.
  - intros k Hk Hkd. destruct (decide (k = n)) as [->|]; [by apply list_lookup_insert_eq|].
    rewrite list_lookup_insert_ne by done. apply Hlo; lia.
  - intros k Hk. rewrite list_lookup_insert_ne by lia. apply Hhi. lia.
  - intros j Hj. rewrite slot_insert by lia. rewrite (cnt_insert j d' n i _ Hn).
    unfold FILE_CLOSED. rewrite (Z.eqb_sym i j). destruct (Z.eqb_spec (-1) j); [lia|].
    destruct (Z.eqb_spec j i) as [->|].
    + rewrite Hs in Hf by lia. apply drop_refs_more in Hf. rewrite <- Hf. f_equal. lia.
    + rewrite Hs by done. f_equal. lia.
Qed.

Lemma close_post_drop l ofs m p d fd i f r l' ofs' m' :
  close_post l ofs m p d fd r l' ofs' m' -> fd_slot d fd = Some i -> slot ofs i = Some f ->
  m' = <[p := <[Z.to_nat fd := FILE_CLOSED]> d]> m /\ ofs' = <[Z.to_nat i := drop_ref f]> ofs.
Proof.
  intros Hc Hi Hf. unfold drop_ref. inversion Hc; simplify_eq; split; try done.
  - by destruct (Z.eqb_spec (rc f) 1); [lia|].
  - by destruct (Z.eqb_spec (rc f) 1).
Qed.

Lemma destroy_step x lk l th p ofs m d beyond n ofs0 d0 :
  good x lk l ofs (<[p := d]> m) -> closed_upto n d0 ofs0 d ofs ->
  wp (dd ← the_fds;
      let e := default (beyond (Z.of_nat n)) (dd !! Z.to_nat (Z.of_nat n)) in
      if e =? FILE_CLOSED then mret tt else file_close (Z.of_nat n) ;; mret tt)
     (fun _ s' => exists l' ofs' d', s' = mk l' th p None ofs' (<[p := d']> m) /\
        good x lk l' ofs' (<[p := d']> m) /\ closed_upto (S n) d0 ofs0 d' ofs')
     (mk l th p None ofs (<[p := d]> m)).
Proof.
  intros Hg Hc. pose proof (good_tables _ _ _ _ _ Hg) as Hok.
  assert (<[p := d]> m !! p = Some d) as Hp by apply lookup_insert_eq.
  rewrite wp_bind. eapply wp_the_fds; [done|]. cbv zeta. rewrite Nat2Z.id.
  destruct (Z.eqb_spec (default (beyond (Z.of_nat n)) (d !! n)) FILE_CLOSED) as [He|He].
  { apply wp_ret. exists l, ofs, d. split; [done|]. split; [done|]. apply closed_upto_skip; [done|].
    intros e Hn. destruct Hc as (_ & Hhi & _). rewrite <- Hhi in Hn by lia. by rewrite Hn in He. }
  rewrite wp_bind. eapply wp_mono.
  { apply (file_close_core x lk l th p None ofs _ d (Z.of_nat n)); auto. }
  intros r s' (l' & ofs' & m' & -> & Hg' & Hpost). apply wp_ret.
  destruct (fd_slot d (Z.of_nat n)) as [i|] eqn:Hi.
  - destruct (fd_slot_Some _ _ _ _ _ _ _ Hok Hp Hi) as (_ & Hn & Hir & _ & f & Hf & _).
    destruct (close_post_drop _ _ _ _ _ _ _ _ _ _ _ _ Hpost Hi Hf) as [-> ->].
    rewrite Nat2Z.id in *. rewrite insert_insert_eq in *.
    eexists l', _, _. split; [done|]. split; [done|].
    apply closed_upto_close; try done. apply Hok.
  - inversion Hpost; simplify_eq. exists l', ofs', d. split; [done|]. split; [done|].
    apply closed_upto_skip; [done|]. intros e Hn. destruct Hc as (_ & Hhi & _).
    rewrite <- Hhi in Hn by lia. rewrite Hn in He. simpl in He.
    pose proof (lookup_lt_Some _ _ _ Hn) as Hlt. rewrite (ok_fds _ _ _ Hok p d Hp) in Hlt.
    assert (d !! Z.to_nat (Z.of_nat n) = Some FILE_CLOSED) as Hcl
      by (eapply fd_slot_None; [done|done|lia|done]).
    rewrite Nat2Z.id in Hcl. congruence.
Qed.

(** What remains of the open files when the references of table [d] go. *)
Definition destroy_post ofs m p d (_ : unit) (_ : L) ofs' m' : Prop :=
  m' = <[p := fresh]> m /\
  forall i, 0 <= i -> slot ofs' i = drop_refs (cnt i d) (slot ofs i).

Lemma closed_all d d' : length d = length d' ->
  (forall k, (k < length d)%nat -> d' !! k = Some FILE_CLOSED) ->
  length d = Z.to_nat OPEN_MAX -> d' = fresh.
Proof.
  intros Hlen Hall Hmax. apply list_eq. intros k. unfold fresh.
  destruct (decide (k < length d)%nat) as [Hlt|Hge].
  - rewrite Hall by done. symmetry. apply lookup_replicate. split; [done|lia].
  - rewrite !lookup_ge_None_2; [done| |lia]. rewrite length_replicate. lia.
Qed.

Lemma file_table_destroy_core x lk l th p ofs m d beyond :
  good x lk l ofs m -> m !! p = Some d ->
  spec x lk l th p None ofs m (file_table_destroy beyond) (destroy_post ofs m p d).
Proof.
  intros Hg Hp. pose proof (good_tables _ _ _ _ _ Hg) as Hok.
  pose proof (ok_fds _ _ _ Hok p d Hp) as Hld. unfold spec, file_table_destroy.
  eapply wp_mono.
  - eapply (wp_for_each _ _ (fun done s' => exists l' ofs' d',
      s' = mk l' th p None ofs' (<[p := d']> m) /\ good x lk l' ofs' (<[p := d']> m) /\
      closed_upto (length done) d ofs d' ofs')).
    + exists l, ofs, d. rewrite insert_id by done. split; [done|]. split; [done|].
      split; [simpl; lia|]. split; [done|]. intros i Hi. rewrite Z.sub_diag.
      symmetry. apply drop_refs_0. intros f Hf. destruct (ok_rc _ _ _ Hok i f Hf); lia.
    + intros done j rest s' Hsplit (l' & ofs' & d' & -> & Hg' & Hc).
      apply seqZ_prefix in Hsplit as ->. rewrite length_app. simpl length. rewrite Nat.add_1_r.
      by apply destroy_step.
  - cbn beta. intros [] s' (l' & ofs' & d' & -> & Hg' & Hlo & Hhi & Hs).
    rewrite length_seqZ in Hlo. exists l', ofs', (<[p := d']> m). split; [done|]. split; [done|].
    assert (length d' = Z.to_nat OPEN_MAX) as Hld'.
    { eapply (ok_fds _ _ _ (good_tables _ _ _ _ _ Hg')). apply lookup_insert_eq. }
    assert (d' = fresh) as ->.
    { apply (closed_all d); [lia| |lia]. intros k Hk. apply Hlo; [|done].
      rewrite Hld in Hk. unfold PID_MAX, OPEN_MAX in *. lia. }
    split; [done|]. intros i Hi. rewrite Hs by done. rewrite (cnt_fresh i); [f_equal; lia|].
    unfold FILE_CLOSED. lia.
Qed.

(** ** file_table_init *)

(** Opening paths in turn into table [d] of process [p]. *)
Inductive stds_post m p : list (list Z * Z) -> L -> list (option open_file) -> list Z ->
    res unit -> L -> list (option open_file) -> list Z -> Prop :=
| stds_nil l ofs d : stds_post m p [] l ofs d (Done tt) l ofs d
| stds_err path flags ps l ofs d e l' ofs' m' :
    open_post path flags 0 l ofs (<[p := d]> m) p d (Err e) l' ofs' m' ->
    stds_post m p ((path, flags) :: ps) l ofs d (Err e) l' ofs' d
| stds_ok path flags ps l ofs d fd l1 ofs1 d1 r l' ofs' d' :
    open_post path flags 0 l ofs (<[p := d]> m) p d (Done fd) l1 ofs1 (<[p := d1]> m) ->
    stds_post m p ps l1 ofs1 d1 r l' ofs' d' ->
    stds_post m p ((path, flags) :: ps) l ofs d r l' ofs' d'.

Fixpoint open_stds (ps : list (list Z * Z)) : M F (res unit) :=
  match ps with
  | [] => mret (Done tt)
  | (path, flags) :: ps' => open_std path flags (open_stds ps')
  end.

Lemma open_stds_core x lk l th p ofs m d ps : good x lk l ofs (<[p := d]> m) ->
  wp (open_stds ps)
     (fun r s' => exists l' ofs' d', stds_post m p ps l ofs d r l' ofs' d' /\
        good x lk l' ofs' (<[p := d']> m) /\
        s' = mk l' th p None ofs' (match r with Done _ => <[p := d']> m | Err _ => delete p m end))
     (mk l th p None ofs (<[p := d]> m)).
Proof.
  revert l ofs d. induction ps as [|[path flags] ps IH]; intros l ofs d Hg; simpl.
  { exists l, ofs, d. split; [constructor|]. done. }
  unfold open_std. rewrite wp_bind. eapply wp_mono.
  { apply file_open_core; [done|apply lookup_insert_eq]. }
  intros r s' (l1 & ofs1 & m1 & -> & Hg1 & Hpost). destruct r as [fd|e].
  - assert (exists d1, m1 = <[p := d1]> m) as [d1 ->].
    { inversion Hpost; subst. eexists. by rewrite insert_insert_eq. }
    eapply wp_mono; [by apply IH|]. intros r s' (l' & ofs' & d' & Hstds & Hg' & ->).
    exists l', ofs', d'. split; [by eapply stds_ok|]. done.
  - assert (m1 = <[p := d]> m /\ ofs1 = ofs) as [-> ->] by (by inversion Hpost).
    rewrite wp_bind. apply wp_modify, wp_ret. exists l1, ofs, d.
    split; [by eapply stds_err|]. split; [done|].
    unfold set_fds. simpl. by rewrite delete_insert_eq.
Qed.

Lemma good_forget x lk l ofs m p :
  good x lk l ofs m -> good x (leak lk (m !! p)) l ofs (delete p m).
Proof. intros [Hl Ht Hv Hx]. split; try done. by apply tables_forget. Qed.

Lemma good_fresh x lk l ofs m p : good x lk l ofs m ->
  good x (leak lk (m !! p)) l ofs (<[p := fresh]> m).
Proof.
  intros Hg. apply (good_forget _ _ _ _ _ p) in Hg as [Hl Ht Hv Hx]. split; try done.
  rewrite <- insert_delete_eq. apply tables_fresh; [done|apply lookup_delete_eq].
Qed.

Definition std_paths a b c : list (list Z * Z) := [(a, O_RDONLY); (b, O_WRONLY); (c, O_WRONLY)].

(** Outcomes of file_table_init once the global table exists.  The last
    component is the new count of lost references. *)
Inductive init_post ps lk l ofs m p :
    res unit -> L -> list (option open_file) -> gmap Z (list Z) -> (Z -> Z) -> Prop :=
| init_nomem l' : kmalloc l = Ok false l' ->
    init_post ps lk l ofs m p (Err ENOMEM) l' ofs (delete p m) (leak lk (m !! p))
| init_err e l1 l' ofs' d : kmalloc l = Ok true l1 ->
    stds_post m p ps l1 ofs fresh (Err e) l' ofs' d ->
    init_post ps lk l ofs m p (Err e) l' ofs' (delete p m) (leak (leak lk (m !! p)) (Some d))
| init_ok l1 l' ofs' d : kmalloc l = Ok true l1 ->
    stds_post m p ps l1 ofs fresh (Done tt) l' ofs' d ->
    init_post ps lk l ofs m p (Done tt) l' ofs' (<[p := d]> m) (leak lk (m !! p)).

Lemma init_tail x lk l th p ofs m a b c : good x lk l ofs m ->
  wp (ok ← lift kmalloc;
      if negb ok then drop_fds ;; mret (Err ENOMEM) else
      put_fds fresh ;; open_stds (std_paths a b c))
     (fun r s' => exists l' ofs' m' lk', s' = mk l' th p None ofs' m' /\
        good x lk' l' ofs' m' /\ init_post (std_paths a b c) lk l ofs m p r l' ofs' m' lk')
     (mk l th p None ofs m).
Proof.
  intros Hg. destruct (kmalloc_lift l (good_low _ _ _ _ _ Hg)) as (k & l1 & Hk & Hl1 & Hr1).
  pose proof (good_same Hg l1 Hl1 Hr1) as Hg1.
  rewrite wp_bind. eapply wp_lift_eq; [done|]. destruct k; cbn beta iota; simpl negb.
  - cbn beta iota. rewrite wp_bind. apply wp_modify. unfold set_fds. simpl.
    eapply wp_mono; [apply (open_stds_core x (leak lk (m !! p)) l1 th p ofs m fresh (std_paths a b c)),
      good_fresh, Hg1|].
    intros r s' (l' & ofs' & d' & Hstds & Hg' & ->). exists l', ofs'. destruct r as [[]|e].
    + eexists _, _. split; [done|]. split; [exact Hg'|]. by eapply init_ok.
    + eexists _, _. split; [done|]. apply (good_forget _ _ _ _ _ p) in Hg'.
      rewrite lookup_insert_eq, delete_insert_eq in Hg'.
      split; [exact Hg'|]. by eapply init_err.
  - cbn beta iota. rewrite wp_bind. apply wp_modify, wp_ret. unfold set_fds. simpl.
    eexists l1, ofs, _, _. split; [done|]. split; [by apply good_forget|]. by constructor.
Qed.

Lemma file_table_init_core x lk l th p ofs m a b c : good x lk l ofs m ->
  wp (file_table_init a b c)
     (fun r s' => exists l' ofs' m' lk', s' = mk l' th p None ofs' m' /\
        good x lk' l' ofs' m' /\ init_post (std_paths a b c) lk l ofs m p r l' ofs' m' lk')
     (mk l th p None ofs m).
Proof. intros Hg. unfold file_table_init. rewrite wp_bind. by apply init_tail. Qed.

Definition no_files : list (option open_file) := replicate (Z.to_nat OPEN_MAX) None.

Lemma good_boot l : low_inv l -> good (vrefs l) (fun _ => 0) l no_files ∅.
Proof.
  intros Hl. split; [done| | |intros u; by apply vrefs_nonneg].
  - split; try done.
    intros i f [_ [Hn _]%lookup_replicate]%slot_lookup. done.
  - intros u. unfold spare, vcnt.
    assert (filter (fun o => on_vnode u o = true) no_files = []) as ->; [|simpl; lia].
    unfold no_files. induction (Z.to_nat OPEN_MAX) as [|n IH]; [done|].
    simpl replicate. by rewrite filter_cons, IH.
Qed.

(** The first call of all creates the global table, or reports ENOMEM. *)
Lemma oft_init_core l th p m : low_inv l ->
  wp oft_init (fun r s' => exists l', low_inv l' /\ (forall w, vrefs l' w = vrefs l w) /\
     match r with
     | Done _ => s' = mk l' th p None no_files m
     | Err e => e = ENOMEM /\
         (s' = FState l' th p OftNull m \/ s' = FState l' th p OftRaw m)
     end) (FState l th p OftNull m).
Proof.
  intros Hl. unfold oft_init. rewrite wp_bind. apply wp_get. simpl.
  destruct (kmalloc_lift l Hl) as (k1 & l1 & Hk1 & Hl1 & Hr1).
  destruct (kmalloc_lift l1 Hl1) as (k2 & l2 & Hk2 & Hl2 & Hr2).
  destruct (kmalloc_lift l2 Hl2) as (k3 & l3 & Hk3 & Hl3 & Hr3).
  destruct (kmalloc_lift l3 Hl3) as (k4 & l4 & Hk4 & Hl4 & Hr4).
  unfold wp, mbind, M_bind, lift, modify, put_oft, mret, M_ret. simpl.
  rewrite Hk1. destruct k1; simpl; [|by exists l1; auto].
  rewrite Hk2. destruct k2; simpl; [|exists l2; split_and!; by auto || by intros w; rewrite Hr2].
  rewrite Hk3. destruct k3; simpl; [|exists l3; split_and!; by auto || by intros w; rewrite Hr3, Hr2].
  rewrite Hk4. destruct k4; simpl; exists l4; split_and!; by auto || by intros w; rewrite Hr4, Hr3, Hr2.
Qed.
End Tables.

End FileTables.
