(* ===== verification/FileProps.v ===== *)
(** * Properties of the file system calls

    What the open-file layer guarantees, stated for any VFS layer that keeps
    the promises of [LowSpec]; each with a run on the concrete system of
    [VfsDevs], in which process 3 has an empty descriptor table. *)

From S2P Require Import Prelude Kern Interfaces Copyinout Vfs VfsSpec VfsDevs.
From S2P Require Import Openfile OpenfileSpec FileOps FileTables.
Open Scope Z_scope.
Import Openfile OpenfileSpec FileOps FileTables.

Module FileProps.

(** No reference is lost. *)
Definition no_leak : Z -> Z := fun _ => 0.

Section Bounds.
Lemma cnt_le i d : cnt i d <= Z.of_nat (length d).
Proof. unfold cnt. pose proof (length_filter (fun e => e = i) d). lia. Qed.

(** With as many processes as there are process ids, counts stay small. *)
Lemma refs_to_le m i n : (forall p d, m !! p = Some d -> Z.of_nat (length d) <= n) ->
  refs_to m i <= Z.of_nat (size m) * n.
Proof.
  unfold refs_to. revert n. induction m as [|p d m Hp IH] using map_ind; intros n Hn.
  - rewrite map_fold_empty. rewrite map_size_empty. lia.
  - rewrite map_fold_insert_L; [|intros; lia|done]. rewrite map_size_insert_None by done.
    assert (cnt i d <= n) by (etrans; [apply cnt_le|by apply (Hn p), lookup_insert_eq]).
    assert (refs_to m i <= Z.of_nat (size m) * n); [|unfold refs_to in *; lia].
    apply IH. intros q e Hq. apply (Hn q). rewrite lookup_insert_ne; [done|congruence].
Qed.

Lemma rc_bound ofs m i f : tables_ok no_leak ofs m -> Z.of_nat (size m) <= PID_MAX ->
  slot ofs i = Some f -> rc f + 1 < 2 ^ 31.
Proof.
  intros Hok Hm Hs. destruct (ok_rc _ _ _ Hok i f Hs) as [Hr _].
  assert (refs_to m i <= Z.of_nat (size m) * OPEN_MAX).
  { apply refs_to_le. intros p d Hp. rewrite (ok_fds _ _ _ Hok p d Hp). unfold OPEN_MAX. lia. }
  unfold no_leak, PID_MAX, OPEN_MAX in *. lia.
Qed.
End Bounds.

Section Props.
Context {L : Type} `{LowSpec L}.
Abbreviation F := (fstate L).
Implicit Types (l : L) (ofs : list (option open_file)) (m : gmap Z (list Z)) (d : list Z).

Lemma spec_ok {A} x lk l th p h ofs m (c : M F A) P : spec x lk l th p h ofs m c P ->
  exists r l' ofs' m', c (mk l th p h ofs m) = Ok r (mk l' th p h ofs' m') /\
    good x lk l' ofs' m' /\ P r l' ofs' m'.
Proof.
  intros Hs. apply wp_ok in Hs as (r & s' & Hr & l' & ofs' & m' & -> & Hg & HP). eauto 8.
Qed.

(** C3: open.  From a good state, the call copies in the path and either
    reports the error of the copy, or opens the vnode and takes the lowest
    closed descriptor and the lowest free slot, with count 1, offset 0 and the
    given flags; with the descriptor table or the system's open-file table full
    it reports EMFILE, for the latter too, where the manual has ENFILE; without
    memory ENOMEM; and in each error case the vnode is closed again.  It cannot
    fault, the table lock is free again, and the state stays good: reference
    counts and vnode references agree. *)
Theorem sys_open_spec x lk l th p ofs m d filename flags mode :
  good x lk l ofs m -> m !! p = Some d ->
  exists r l' ofs' m', sys_open filename flags mode (mk l th p None ofs m) = Ok r (mk l' th p None ofs' m') /\
    good x lk l' ofs' m' /\
    ((exists e, copyinstr filename PATH_MAX l = Ok (Err e) l' /\ r = Err e /\ ofs' = ofs /\ m' = m) \/
     (exists fn l1, copyinstr filename PATH_MAX l = Ok (Done fn) l1 /\
        open_post fn flags mode l1 ofs m p d r l' ofs' m')).
Proof.
  intros Hg Hp. apply (spec_ok x lk l th p None ofs m (sys_open filename flags mode)).
  unfold spec, sys_open. rewrite wp_bind.
  pose proof (copyinstr_spec l filename PATH_MAX (good_low _ _ _ _ _ Hg)) as Hc.
  apply wp_ok in Hc as (r & l1 & Hc & Hl1 & Hr1). eapply wp_lift_eq; [done|].
  pose proof (good_same Hg l1 Hl1 Hr1) as Hg1. destruct r as [fn|e].
  - eapply spec_mono; [by apply file_open_core|]. intros. right. eauto.
  - apply spec_ret; [done|]. left. eauto.
Qed.

(** C4: close.  EBADF exactly for a descriptor that is out of range or not
    open, and then nothing changes; otherwise the descriptor becomes closed,
    and the open file loses one reference or, with the last one, goes away
    together with its vnode reference. *)
Theorem sys_close_spec x lk l th p ofs m d fd :
  good x lk l ofs m -> m !! p = Some d ->
  exists r l' ofs' m', sys_close fd (mk l th p None ofs m) = Ok r (mk l' th p None ofs' m') /\
    good x lk l' ofs' m' /\ close_post l ofs m p d fd r l' ofs' m' /\
    (r = Err EBADF <-> fd_slot d fd = None).
Proof.
  intros Hg Hp. destruct (spec_ok _ _ _ _ _ _ _ _ _ _ (file_close_core x lk l th p None ofs m d fd
    (or_introl eq_refl) Hg Hp)) as (r & l' & ofs' & m' & Hr & Hg' & Hpost).
  exists r, l', ofs', m'. split; [done|]. split; [done|]. split; [done|].
  inversion Hpost; subst; split; intros; congruence.
Qed.



Lemma is_Some_fd_slot d fd : is_Some (fd_slot d fd) -> fd_range fd = true /\ is_Some (fd_slot d fd).
Proof.
  intros Hs. split; [|done]. destruct Hs as [i Hs]. unfold fd_slot in Hs. unfold fd_range.
  destruct (Z.ltb_spec fd 0), (Z.geb_spec fd OPEN_MAX); try done; simpl in Hs. lia.
Qed.

(** The open file two descriptors share after dup2: one more reference, unless
    newfd designated it already. *)
Lemma dup2_count x l ofs m p d oldfd newfd l' ofs' m' i f : good x no_leak l ofs m -> oldfd <> newfd ->
  dup2_post l ofs m p d oldfd newfd (Done newfd) l' ofs' m' -> fd_slot d oldfd = Some i -> slot ofs i = Some f ->
  slot ofs' i = Some (OpenFile (vn f) (am f) (rc f + if decide (fd_slot d newfd = Some i) then 0 else 1) (os f)).
Proof.
  intros Hg Hne Hpost Hi Hf. pose proof (good_tables _ _ _ _ _ Hg) as Hok. destruct (ok_rc _ _ _ Hok i f Hf) as [_ Hrc].
  pose proof (slot_range Hok i f Hf) as Hir. pose proof (slot_lt Hok i Hir) as Hlt. pose proof (ok_ofs _ _ _ Hok) as Hlen.
  inversion Hpost as [| | |j g _ _ Hj Hg2 Hn|j g l2 ofs2 m2 _ Hj Hg2 Hn Hcl]; subst; [done|..]; assert (j = i) as -> by congruence; assert (g = f) as -> by congruence.
  - rewrite decide_False by congruence. by rewrite slot_insert, Z.eqb_refl by lia.
  - inversion Hcl as [|k h Hk Hs Hh|k h l3 Hk Hs Hh]; subst; pose proof Hs as [Hk0 Hkl%lookup_lt_Some]%slot_lookup; rewrite length_insert in Hkl;
      rewrite slot_insert in Hs by lia; rewrite slot_insert by (rewrite ?length_insert; lia); rewrite Hk.
    + destruct (Z.eqb_spec k i) as [->|Hki].
      * rewrite Z.eqb_refl, decide_True by done. injection Hs as <-. cbn. do 2 f_equal. lia.
      * rewrite (proj2 (Z.eqb_neq i k)), slot_insert, Z.eqb_refl by lia. by rewrite decide_False by congruence.
    + destruct (Z.eqb_spec k i) as [->|Hki]; [injection Hs as <-; cbn in Hh; lia|].
      rewrite (proj2 (Z.eqb_neq i k)), slot_insert, Z.eqb_refl by lia. by rewrite decide_False by congruence.
Qed.

(** C2: dup2, with at most as many processes as process ids and no lost
    references.  Two equal descriptors in range give success and no change at
    all, whether the descriptor is open or not.  With different ones success
    means that oldfd is open, and then both designate its open file, whose count
    went up by one if newfd did not designate it before; another open file that
    newfd designated loses a reference, or goes away with its vnode reference.
    EBADF for a descriptor out of range or a closed oldfd, without effect.  The
    counter does not overflow. *)
Theorem sys_dup2_spec x l th p ofs m d oldfd newfd :
  good x no_leak l ofs m -> m !! p = Some d -> Z.of_nat (size m) <= PID_MAX ->
  exists r l' ofs' m', sys_dup2 oldfd newfd (mk l th p None ofs m) = Ok r (mk l' th p None ofs' m') /\
    good x no_leak l' ofs' m' /\ dup2_post l ofs m p d oldfd newfd r l' ofs' m' /\
    (oldfd = newfd -> fd_range oldfd = true -> r = Done newfd /\ l' = l /\ ofs' = ofs /\ m' = m) /\
    (oldfd <> newfd -> r = Done newfd ->
     exists d' i f, m' !! p = Some d' /\ fd_slot d oldfd = Some i /\ slot ofs i = Some f /\
       fd_slot d' newfd = Some i /\ fd_slot d' oldfd = Some i /\
       slot ofs' i = Some (OpenFile (vn f) (am f) (rc f + if decide (fd_slot d newfd = Some i) then 0 else 1) (os f))).
Proof.
  intros Hg Hp Hm. pose proof (good_tables _ _ _ _ _ Hg) as Hok.
  destruct (spec_ok _ _ _ _ _ _ _ _ _ _ (sys_dup2_core x no_leak l th p ofs m d oldfd newfd Hg Hp
    (fun i f => rc_bound ofs m i f Hok Hm))) as (r & l' & ofs' & m' & Hr & Hg' & Hpost).
  exists r, l', ofs', m'. split; [done|]. split; [done|]. split; [done|].
  split; [intros -> Hin; inversion Hpost as [[Hx|Hx]| | | |]; subst; (done || congruence)|]. intros Hne Hrd.
  assert (exists i, fd_slot d oldfd = Some i /\ fd_range newfd = true /\
    m' = <[p := <[Z.to_nat newfd := i]> d]> m) as (i & Hi & Hn & Em).
  { inversion Hpost; subst; try done; eexists; split_and!; try done.
    match goal with Hx : is_Some (fd_slot d newfd) |- _ => by apply is_Some_fd_slot in Hx as [? _] end. }
  destruct (fd_slot_Some _ _ _ _ _ _ _ Hok Hp Hi) as (Hor & Ho & _ & Hic & f & Hf & _). subst r.
  exists (<[Z.to_nat newfd := i]> d), i, f. rewrite Em, lookup_insert_eq. split; [done|]. split; [done|]. split; [done|].
  pose proof Hn as Hnr%fd_range_spec. pose proof (ok_fds _ _ _ Hok p d Hp) as Hlen.
  split; [|split; [|exact (dup2_count x l ofs m p d oldfd newfd _ _ _ i f Hg Hne Hpost Hi Hf)]].
  - unfold fd_slot. destruct (Z.ltb_spec newfd 0), (Z.geb_spec newfd OPEN_MAX); try lia. simpl.
    rewrite list_lookup_insert_eq by lia. by destruct (Z.eqb_spec i FILE_CLOSED).
  - rewrite <- Hi. unfold fd_slot. by rewrite list_lookup_insert_ne by lia.
Qed.

(** The range check of the system calls. *)
Lemma range_guard fd : (fd <? 0) || (fd >=? OPEN_MAX) = negb (fd_range fd).
Proof. unfold fd_range. lia. Qed.

Lemma out_of_range d fd : fd_range fd = false -> fd_slot d fd = None.
Proof. intros Hr. unfold fd_slot. by rewrite range_guard, Hr. Qed.

(** C5: read.  EBADF for a descriptor that is out of range, closed or open
    for writing only, with no effect; otherwise one VOP_READ at the file's
    offset, whose error is passed on with the offset unchanged, and whose
    success advances the offset by the number of bytes returned. *)
Theorem sys_read_spec x lk l th p ofs m d fd buf len :
  good x lk l ofs m -> m !! p = Some d ->
  exists r l' ofs', sys_read fd buf len (mk l th p None ofs m) = Ok r (mk l' th p None ofs' m) /\
    good x lk l' ofs' m /\ xfer_post VOP_READ UIO_READ O_WRONLY buf len l ofs m d fd r l' ofs' m.
Proof.
  intros Hg Hp. unfold sys_read. rewrite range_guard. destruct (fd_range fd) eqn:Hr; simpl.
  - destruct (spec_ok _ _ _ _ _ _ _ _ _ _ (file_read_core x lk l th p ofs m d fd buf len Hg Hp
      (proj1 (fd_range_spec fd) Hr))) as (r & l' & ofs' & m' & Hrun & Hg' & Hpost).
    assert (m' = m) as -> by (by inversion Hpost). eauto 6.
  - exists (Err EBADF), l, ofs. split; [done|]. split; [done|]. constructor. by apply out_of_range.
Qed.

(** C6: write, with the same branches; refused for a descriptor open for
    reading only. *)
Theorem sys_write_spec x lk l th p ofs m d fd buf nbytes :
  good x lk l ofs m -> m !! p = Some d ->
  exists r l' ofs', sys_write fd buf nbytes (mk l th p None ofs m) = Ok r (mk l' th p None ofs' m) /\
    good x lk l' ofs' m /\ xfer_post VOP_WRITE UIO_WRITE O_RDONLY buf nbytes l ofs m d fd r l' ofs' m.
Proof.
  intros Hg Hp. unfold sys_write. rewrite range_guard. destruct (fd_range fd) eqn:Hr; simpl.
  - destruct (spec_ok _ _ _ _ _ _ _ _ _ _ (file_write_core x lk l th p ofs m d fd buf nbytes Hg Hp
      (proj1 (fd_range_spec fd) Hr))) as (r & l' & ofs' & m' & Hrun & Hg' & Hpost).
    assert (m' = m) as -> by (by inversion Hpost). eauto 6.
  - exists (Err EBADF), l, ofs. split; [done|]. split; [done|]. constructor. by apply out_of_range.
Qed.

(** C7: lseek.  EBADF, EINVAL and ESPIPE as documented, in this order: range,
    whence, closed descriptor, device that cannot seek; a negative result is
    EINVAL with the offset restored.  On success the new offset is the base
    for [whence] plus [pos], it is not negative, it is stored and returned. *)
Theorem sys_lseek_spec x lk l th p ofs m d fd pos whence :
  good x lk l ofs m -> m !! p = Some d -> is_s64 pos ->
  exists r l' ofs', sys_lseek fd pos whence (mk l th p None ofs m) = Ok r (mk l' th p None ofs' m) /\
    good x lk l' ofs' m /\ lseek_post l ofs m d fd pos whence r l' ofs' m /\
    match r with
    | Done n => 0 <= n /\ exists i f, fd_slot d fd = Some i /\ slot ofs' i = Some f /\ os f = n
    | Err _ => ofs' = ofs
    end.
Proof.
  intros Hg Hp Hpos. destruct (spec_ok _ _ _ _ _ _ _ _ _ _ (sys_lseek_core x lk l th p ofs m d fd pos whence
    Hg Hp Hpos)) as (r & l' & ofs' & m' & Hrun & Hg' & Hpost).
  assert (m' = m) as -> by (by inversion Hpost).
  exists r, l', ofs'. split; [done|]. split; [done|]. split; [done|].
  pose proof (good_tables _ _ _ _ _ Hg) as Hok. destruct Hpost; try done.
  match goal with Hi : fd_slot d fd = Some i |- _ =>
    destruct (fd_slot_Some _ _ _ _ _ _ _ Hok Hp Hi) as (_ & _ & Hir & _) end.
  split; [done|]. eexists i, _. split; [done|].
  rewrite slot_insert, Z.eqb_refl by (lia || by apply (slot_lt Hok)). done.
Qed.

(** C8: the loop at process exit, although it runs far past the end of the
    descriptor table, closes exactly the open descriptors of the process,
    whatever words lie beyond the table: afterwards all are closed, every open
    file has lost as many references as the process had to it, and goes away
    when these were all. *)
Theorem file_table_destroy_spec x lk l th p ofs m d beyond :
  good x lk l ofs m -> m !! p = Some d ->
  exists l' ofs' m', file_table_destroy beyond (mk l th p None ofs m) = Ok tt (mk l' th p None ofs' m') /\
    good x lk l' ofs' m' /\ m' = <[p := fresh]> m /\
    forall i, 0 <= i -> slot ofs' i = drop_refs (cnt i d) (slot ofs i).
Proof.
  intros Hg Hp. destruct (spec_ok _ _ _ _ _ _ _ _ _ _ (file_table_destroy_core x lk l th p ofs m d beyond
    Hg Hp)) as ([] & l' & ofs' & m' & Hrun & Hg' & Hm & Hs). eauto 8.
Qed.

(** C9: when the last process exits and no reference was lost, no file stays
    open and every vnode reference of the layer is returned. *)
Theorem last_exit_closes_all x l th p ofs d beyond :
  good x no_leak l ofs {[p := d]} ->
  exists l' ofs' m', file_table_destroy beyond (mk l th p None ofs {[p := d]}) =
      Ok tt (mk l' th p None ofs' m') /\
    (forall i, slot ofs' i = None) /\ forall u, vrefs l' u = x u.
Proof.
  intros Hg. pose proof (good_tables _ _ _ _ _ Hg) as Hok.
  assert ({[p := d]} !! p = Some d) as Hp by apply lookup_singleton_eq.
  destruct (spec_ok _ _ _ _ _ _ _ _ _ _ (file_table_destroy_core x no_leak l th p ofs {[p := d]} d beyond
    Hg Hp)) as ([] & l' & ofs' & m' & Hrun & Hg' & -> & Hs).
  exists l', ofs', (<[p := fresh]> {[p := d]}). split; [done|].
  assert (forall i, slot ofs' i = None) as Hnone.
  { intros i. destruct (slot ofs' i) as [f|] eqn:Hf; [|done].
    destruct (ok_rc _ _ _ (good_tables _ _ _ _ _ Hg') i f Hf) as [Hrc Hpos].
    apply slot_lookup in Hf as [Hi _]. exfalso. assert (refs_to (<[p := fresh]> {[p := d]}) i = 0).
    - apply refs_to_zero. intros q dq [[<- <-]|[Hne Hq]]%lookup_insert_Some.
      + apply cnt_fresh. unfold FILE_CLOSED. lia.
      + by apply lookup_singleton_Some in Hq as [? _].
    - unfold no_leak in Hrc. lia. }
  split; [done|]. intros u. rewrite <- (good_vnodes _ _ _ _ _ Hg' u). unfold spare.
  assert (vcnt u ofs' = 0); [|lia]. by apply vcnt_zero.
Qed.

(** ** The standard descriptors *)

(** The first [k] descriptors of [d] are open, the others closed. *)
Definition open_prefix (k : nat) d : Prop :=
  (forall j, (j < k)%nat -> exists i, d !! j = Some i /\ 0 <= i) /\
  (forall j, (k <= j)%nat -> (j < length d)%nat -> d !! j = Some FILE_CLOSED).

Lemma open_prefix_free k d fd : open_prefix k d -> (k < length d)%nat -> free_fd d = Some fd ->
  fd = Z.of_nat k.
Proof.
  intros [Hlo Hhi] Hk Hf. assert (free_fd d = Some (Z.of_nat k)) as Hk'; [|congruence].
  apply free_fd_Some. rewrite Nat2Z.id. split; [lia|]. split; [by apply Hhi|].
  intros j Hj Hc. destruct (Hlo (Z.to_nat j)) as (i & Hi & Hpos); [lia|].
  rewrite Hi in Hc. injection Hc as ->. unfold FILE_CLOSED in Hpos. lia.
Qed.

Lemma open_prefix_S k d i : open_prefix k d -> (k < length d)%nat -> 0 <= i ->
  open_prefix (S k) (<[k := i]> d).
Proof.
  intros [Hlo Hhi] Hk Hi. split.
  - intros j Hj. destruct (decide (j = k)) as [->|]; [by rewrite list_lookup_insert_eq; eauto|].
    rewrite list_lookup_insert_ne by done. apply Hlo. lia.
  - intros j Hj Hlt. rewrite length_insert in Hlt. rewrite list_lookup_insert_ne by lia. apply Hhi; lia.
Qed.

(** Opening paths in turn fills descriptors in turn, each with a new open file
    that has the flags asked for, until all are open or one fails. *)
Lemma stds_fill m p ps l ofs d r l' ofs' d' k :
  stds_post m p ps l ofs d r l' ofs' d' -> open_prefix k d -> (k + length ps <= length d)%nat ->
  exists n, match r with Done _ => n = length ps | Err _ => (n < length ps)%nat end /\
  length d' = length d /\ open_prefix (k + n) d' /\
  (forall j, (j < k)%nat -> d' !! j = d !! j) /\
  (forall i f, slot ofs i = Some f -> slot ofs' i = Some f) /\
  (forall j path flags, (j < n)%nat -> ps !! j = Some (path, flags) -> exists i f,
     d' !! (k + j)%nat = Some i /\ slot ofs i = None /\ slot ofs' i = Some f /\ am f = flags /\ rc f = 1 /\ os f = 0).
Proof.
  intros Hst. revert k.
  induction Hst as [l ofs d|path flags ps l ofs d e l' ofs' m' Ho|path flags ps l ofs d fd l1 ofs1 d1 r l' ofs' d' Ho Hst IH];
    intros k Hpre Hlen.
  { exists 0%nat. rewrite Nat.add_0_r. by split_and!. }
  { exists 0%nat. rewrite Nat.add_0_r. assert (ofs' = ofs) as -> by (by inversion Ho). split_and!; try done; simpl; intros; lia. }
  simpl in Hlen. inversion Ho as [| | |v l2 l3 fd' i Hv Hfd Hslot Hk]; subst.
  apply (open_prefix_free k) in Hfd as ->; [|done|lia]. rewrite Nat2Z.id in *.
  apply free_slot_Some in Hslot as (Hi & Hio & _). pose proof (lookup_lt_Some _ _ _ Hio) as Hil.
  assert (d1 = <[k := i]> d) as ->.
  { match goal with He : _ = <[p := d1]> m |- _ => rewrite insert_insert_eq in He;
      apply (f_equal (fun x => x !! p)) in He; rewrite !lookup_insert_eq in He; congruence end. }
  destruct (IH (S k)) as (n & Hn & Hl & Hp & Hlow & Hold & Hnew);
    [apply open_prefix_S; [done|lia|done]|rewrite length_insert; lia|].
  assert (slot ofs i = None) as Hi0 by (unfold slot; rewrite Hio; by destruct (i <? 0)).
  rewrite length_insert in Hl. exists (S n). split; [destruct r; simpl; lia|]. split; [done|]. split; [by rewrite Nat.add_succ_r|]. split_and!.
  - intros j Hj. rewrite Hlow by lia. by rewrite list_lookup_insert_ne by lia.
  - intros j f Hf. apply Hold. rewrite slot_insert by lia. by destruct (Z.eqb_spec j i) as [->|]; [congruence|].
  - intros [|j] pa fl Hj Hps; simpl in Hps.
    + injection Hps as <- <-. rewrite Nat.add_0_r. exists i, (OpenFile v flags 1 0).
      split; [rewrite Hlow by lia; apply list_lookup_insert_eq; lia|]. split; [done|]. split; [|done].
      apply Hold. by rewrite slot_insert, Z.eqb_refl by lia.
    + destruct (Hnew j pa fl ltac:(lia) Hps) as (i' & f & H1' & H2' & H3'). exists i', f.
      rewrite Nat.add_succ_r. split; [done|]. split; [|done]. rewrite slot_insert in H2' by lia. by destruct (Z.eqb_spec i' i).
Qed.

(** The [n] first standard descriptors are open in [d], on open files that were
    not in the table [ofs] and are in [ofs'], each with one reference. *)
Definition stds_open (n : nat) ofs ofs' d : Prop := open_prefix n d /\
  forall j flags, (j < n)%nat -> [O_RDONLY; O_WRONLY; O_WRONLY] !! j = Some flags -> exists i f,
    fd_slot d (Z.of_nat j) = Some i /\ slot ofs i = None /\ slot ofs' i = Some f /\ am f = flags /\ rc f = 1 /\ os f = 0.
Lemma stds_opened m p a b c l ofs r l' ofs' d : stds_post m p (std_paths a b c) l ofs fresh r l' ofs' d ->
  exists n, match r with Done _ => n = 3%nat | Err _ => (n < 3)%nat end /\ stds_open n ofs ofs' d.
Proof.
  intros Hst. destruct (stds_fill m p _ _ _ _ _ _ _ _ 0 Hst) as (n & Hn & _ & Hpre & _ & _ & Hnew).
  { split; [lia|]. intros j _ Hj. apply lookup_replicate. unfold fresh in Hj. rewrite length_replicate in Hj. done. }
  { unfold fresh. rewrite length_replicate. unfold OPEN_MAX. simpl. lia. }
  exists n. split; [done|]. split; [done|]. intros j flags Hj Hfl.
  assert (exists path, std_paths a b c !! j = Some (path, flags)) as [path Hps].
  { destruct j as [|[|[|j]]]; simpl in Hfl; try done; injection Hfl as <-; eexists; reflexivity. }
  destruct (Hnew j path flags Hj Hps) as (i & f & Hd & Hs & Hs' & Hf). exists i, f. split; [|done].
  apply lookup_lt_Some in Hps as Hlt. simpl in Hlt. pose proof Hs' as [Hi _]%slot_lookup. unfold fd_slot. rewrite Nat2Z.id. simpl in Hd. rewrite Hd.
  destruct (Z.ltb_spec (Z.of_nat j) 0), (Z.geb_spec (Z.of_nat j) OPEN_MAX); unfold OPEN_MAX in *; try lia.
  by destruct (Z.eqb_spec i FILE_CLOSED); [unfold FILE_CLOSED in *; lia|].
Qed.

(** The table of open files is there, or this is the first call of all. *)
Definition oft_at (o : oft_ptr) (x lk : Z -> Z) l ofs m : Prop :=
  (o = Oft (FileTable None ofs) /\ good x lk l ofs m) \/
  (o = OftNull /\ low_inv l /\ (forall u, x u = vrefs l u) /\ lk = no_leak /\ ofs = no_files /\ m = ∅).
(** The references that a freed descriptor table held *)
Definition held_in d (i : Z) : Z := if i =? FILE_CLOSED then 0 else cnt i d.

(** What file_table_init promises a process without a descriptor table *)
Definition init_outcome x lk l th p o ofs m (r : res unit) (s' : F) : Prop :=
  exists l' o' ofs' m', s' = FState l' th p o' m' /\
  match r with
  | Done _ => o' = Oft (FileTable None ofs') /\ good x lk l' ofs' m' /\
      exists d, m' = <[p := d]> m /\ stds_open 3 ofs ofs' d
  | Err e => m' = m /\
      ((o = OftNull /\ e = ENOMEM /\ (o' = OftNull \/ o' = OftRaw) /\ forall u, vrefs l' u = vrefs l u) \/
       (o' = Oft (FileTable None ofs') /\ exists n d, (n < 3)%nat /\ stds_open n ofs ofs' d /\
          good x (fun i => lk i + held_in d i) l' ofs' m'))
  end.

Lemma init_tables x lk l th p ofs m a b c : good x lk l ofs m -> m !! p = None ->
  wp (ok ← lift kmalloc;
      if negb ok then drop_fds ;; mret (Err ENOMEM) else
      put_fds fresh ;; open_stds (std_paths a b c))
     (init_outcome x lk l th p (Oft (FileTable None ofs)) ofs m) (mk l th p None ofs m).
Proof.
  intros Hg Hp. eapply wp_mono; [by apply init_tail|]. intros r s' (l' & ofs' & m' & lk' & -> & Hg' & Hpost).
  exists l', (Oft (FileTable None ofs')), ofs', m'. split; [done|].
  inversion Hpost as [l1 Hk|e l1 l2 o2 d Hk Hst|l1 l2 o2 d Hk Hst]; subst; rewrite Hp in Hg'; cbn [leak] in Hg'.
  - split; [by apply delete_id|]. right. split; [done|]. exists 0%nat, fresh. split; [lia|]. split; [split; [|lia]|].
    + split; [lia|]. intros j _ Hj. apply lookup_replicate. unfold fresh in Hj. by rewrite length_replicate in Hj.
    + destruct Hg' as [G1 G2 G3 G4]. split; try done. apply (tables_lk lk); [|done]. intros i. unfold held_in. destruct (Z.eqb_spec i FILE_CLOSED) as [|Hne]; [lia|].
      rewrite cnt_absent; [lia|]. intros k Hk'. by apply lookup_replicate in Hk' as [-> _].
  - split; [by apply delete_id|]. right. split; [done|]. destruct (stds_opened m p a b c _ _ _ _ _ _ Hst) as (n & Hn & Hop). exists n, d. split; [done|]. split; [done|].
    destruct Hg' as [G1 G2 G3 G4]. split; try done. eapply tables_lk; [|exact G2]. intros i. unfold leak, held_in. destruct (i =? FILE_CLOSED); lia.
  - split; [done|]. split; [done|]. destruct (stds_opened m p a b c _ _ _ _ _ _ Hst) as (n & -> & Hop). by exists d.
Qed.

(** C10: a process without descriptor table gets the standard descriptors.  On
    success descriptors 0, 1 and 2 are open on new open files, for reading,
    writing and writing, the others are closed, and no reference is lost.  On an
    error the process is left without a table.  If a standard stream could not be
    opened, the [n] streams before it were, and the table that held their
    references is gone: exactly those references are lost.  The first call of all
    makes the table of open files; if there is no memory for that it fails with
    ENOMEM, and no vnode has gained or lost a reference. *)
Theorem file_table_init_spec x lk l th p o ofs m a b c : oft_at o x lk l ofs m -> m !! p = None ->
  exists r s', file_table_init a b c (FState l th p o m) = Ok r s' /\ init_outcome x lk l th p o ofs m r s'.
Proof.
  intros Ho Hp. apply (proj1 (wp_ok _ _ _)). destruct Ho as [[-> Hg]|(-> & Hl & Hx & -> & -> & ->)].
  - unfold file_table_init. rewrite wp_bind. by apply init_tables.
  - unfold file_table_init. rewrite wp_bind. eapply wp_mono; [by apply oft_init_core|]. intros r s1 (l1 & Hl1 & Hr1 & Hs1). destruct r as [[]|e].
    + rewrite Hs1. eapply wp_mono; [apply (init_tables x no_leak l1 th p no_files ∅ a b c); [|done]|].
      { destruct (good_boot l1 Hl1) as [G1 G2 G3 G4]. split; [done|done|intros u; by rewrite G3, Hr1, Hx|intros u; rewrite Hx; by apply vrefs_nonneg]. }
      intros r s2 (l2 & o2 & ofs2 & m2 & -> & Hpost). exists l2, o2, ofs2, m2. split; [done|]. destruct r as [[]|e]; [done|].
      destruct Hpost as [-> [[? _]|Hpost]]; [done|]. split; [done|by right].
    + destruct Hs1 as [-> Hs1]. apply wp_ret. destruct Hs1 as [-> | ->]; eexists l1, _, no_files, ∅; (split; [done|]; split; [done|]; left; by auto).
Qed.
End Props.

(** ** Runs on the concrete system *)

#[local] Existing Instances VfsSpec.VfsOps_vfs VfsSpec.UserMem_vfs VfsSpec.LowSpec_vfs.
#[local] Existing Instances VfsDevs.NoBackend VfsDevs.NoBackendInv VfsDevs.NoBackendSpec.

(** User memory at 4096 with the path "null:" and room for a buffer. *)
Definition user_mem : gmap Z Z :=
  list_to_map (zip (seqZ 4096 16) ([110; 117; 108; 108; 58; 0] ++ replicate 10 0)).
Definition null_path : list Z := [110; 117; 108; 108; 58].

(** The state before and after process 3 opens the null device. *)
Definition l0 : vstate unit := VfsDevs.boot_vfs user_mem.
Definition l1 : vstate unit := set_vnodes {[101 := Vnode 2 0 100 dev_vnode_ops]} l0.
Definition m0 : gmap Z (list Z) := {[3 := fresh]}.
Definition ofs1 : list (option open_file) := <[0%nat := Some (OpenFile 101 O_RDWR 1 0)]> no_files.
Definition m1 : gmap Z (list Z) := {[3 := <[0%nat := 0]> fresh]}.
Definition ext0 : Z -> Z := VfsSpec.ext_refs l0.

Lemma good0 : good ext0 no_leak l0 no_files m0.
Proof.
  exact (good_fresh _ _ _ _ _ 3 (good_boot l0 (conj (VfsDevs.boot_inv user_mem) I))).
Qed.

Lemma run_open : file_open null_path O_RDWR 0 (mk l0 7 3 None no_files m0) =
  Ok (Done 0) (mk l1 7 3 None ofs1 m1).
Proof. vm_compute. reflexivity. Qed.

Lemma good1 : good ext0 no_leak l1 ofs1 m1.
Proof.
  destruct (spec_ok _ _ _ _ _ _ _ _ _ _ (file_open_core ext0 no_leak l0 7 3 no_files m0 fresh null_path
    O_RDWR 0 good0 eq_refl)) as (r & l' & ofs' & m' & Hr & Hg & _).
  rewrite run_open in Hr. by injection Hr as <- <- <- <-.
Qed.

Lemma sys_open_spec_witness : exists l' ofs' m',
  sys_open 4096 O_RDWR 0 (mk l0 7 3 None no_files m0) = Ok (Done 0) (mk l' 7 3 None ofs' m') /\
  good ext0 no_leak l' ofs' m'.
Proof.
  destruct (sys_open_spec ext0 no_leak l0 7 3 no_files m0 fresh 4096 O_RDWR 0 good0 eq_refl)
    as (r & l' & ofs' & m' & Hr & Hg & _).
  assert (r = Done 0) as -> by (revert Hr; vm_compute; by intros [= <- _ _ _]).
  by exists l', ofs', m'.
Defined.

Lemma sys_close_spec_witness : exists l' ofs' m',
  sys_close 0 (mk l1 7 3 None ofs1 m1) = Ok (Done tt) (mk l' 7 3 None ofs' m') /\
  good ext0 no_leak l' ofs' m'.
Proof.
  destruct (sys_close_spec ext0 no_leak l1 7 3 ofs1 m1 (<[0%nat := 0]> fresh) 0 good1 eq_refl)
    as (r & l' & ofs' & m' & Hr & Hg & _).
  assert (r = Done tt) as -> by (revert Hr; vm_compute; by intros [= <- _ _ _]).
  by exists l', ofs', m'.
Defined.


Lemma sys_dup2_spec_witness : exists l' ofs' m' d',
  sys_dup2 0 5 (mk l1 7 3 None ofs1 m1) = Ok (Done 5) (mk l' 7 3 None ofs' m') /\
  m' !! 3 = Some d' /\ fd_slot d' 5 = Some 0.
Proof.
  destruct (sys_dup2_spec ext0 l1 7 3 ofs1 m1 (<[0%nat := 0]> fresh) 0 5 good1 eq_refl)
    as (r & l' & ofs' & m' & Hr & _ & _ & _ & Hd); [by vm_compute|].
  assert (r = Done 5) as -> by (revert Hr; vm_compute; by intros [= <- _ _ _]).
  destruct Hd as (d' & i & f & Hd' & Hi & _ & Hs & _); [done|done|]. injection Hi as <-. by exists l', ofs', m', d'.
Defined.

Lemma sys_read_spec_witness : exists l' ofs',
  sys_read 0 4100 8 (mk l1 7 3 None ofs1 m1) = Ok (Done 0) (mk l' 7 3 None ofs' m1).
Proof.
  destruct (sys_read_spec ext0 no_leak l1 7 3 ofs1 m1 (<[0%nat := 0]> fresh) 0 4100 8 good1 eq_refl)
    as (r & l' & ofs' & Hr & _).
  assert (r = Done 0) as -> by (revert Hr; vm_compute; by intros [= <- _ _]). by exists l', ofs'.
Defined.

Lemma sys_write_spec_witness : exists l' ofs',
  sys_write 0 4100 8 (mk l1 7 3 None ofs1 m1) = Ok (Done 0) (mk l' 7 3 None ofs' m1).
Proof.
  destruct (sys_write_spec ext0 no_leak l1 7 3 ofs1 m1 (<[0%nat := 0]> fresh) 0 4100 8 good1 eq_refl)
    as (r & l' & ofs' & Hr & _).
  assert (r = Done 0) as -> by (revert Hr; vm_compute; by intros [= <- _ _]). by exists l', ofs'.
Defined.

Lemma sys_lseek_spec_witness : exists l' ofs',
  sys_lseek 0 10 SEEK_SET (mk l1 7 3 None ofs1 m1) = Ok (Err ESPIPE) (mk l' 7 3 None ofs' m1).
Proof.
  destruct (sys_lseek_spec ext0 no_leak l1 7 3 ofs1 m1 (<[0%nat := 0]> fresh) 0 10 SEEK_SET good1 eq_refl)
    as (r & l' & ofs' & Hr & _); [unfold is_s64; lia|].
  assert (r = Err ESPIPE) as -> by (revert Hr; vm_compute; by intros [= <- _ _]). by exists l', ofs'.
Defined.

Lemma file_table_destroy_spec_witness : exists l' ofs' m',
  file_table_destroy (fun _ => 42) (mk l1 7 3 None ofs1 m1) = Ok tt (mk l' 7 3 None ofs' m') /\
  slot ofs' 0 = None.
Proof.
  destruct (file_table_destroy_spec ext0 no_leak l1 7 3 ofs1 m1 (<[0%nat := 0]> fresh) (fun _ => 42)
    good1 eq_refl) as (l' & ofs' & m' & Hr & _ & _ & Hs).
  exists l', ofs', m'. split; [exact Hr|]. by rewrite Hs.
Defined.

Lemma last_exit_closes_all_witness : exists l' ofs' m',
  file_table_destroy (fun _ => 42) (mk l1 7 3 None ofs1 m1) = Ok tt (mk l' 7 3 None ofs' m') /\
  (forall i, slot ofs' i = None) /\ vrefs l' 101 = 0.
Proof.
  destruct (last_exit_closes_all ext0 l1 7 3 ofs1 (<[0%nat := 0]> fresh) (fun _ => 42) good1)
    as (l' & ofs' & m' & Hr & Hs & Hu). exists l', ofs', m'. split; [exact Hr|]. split; [done|].
  by rewrite Hu.
Defined.

(** A process opens its standard streams, the first one to do so. *)
Lemma oft_at0 : oft_at OftNull ext0 no_leak l0 no_files ∅.
Proof.
  right. split; [reflexivity|]. split; [exact (conj (VfsDevs.boot_inv user_mem) I)|]. split; [reflexivity|]. split; [reflexivity|]. split; reflexivity.
Qed.
Definition succeeds {S A} (o : outcome S (res A)) : bool := match o with Ok (Done _) _ => true | _ => false end.
Lemma init_succeeds : succeeds (file_table_init null_path null_path null_path (FState l0 7 3 OftNull ∅)) = true.
Proof. vm_compute. reflexivity. Qed.
Lemma file_table_init_spec_witness : exists r s', file_table_init null_path null_path null_path (FState l0 7 3 OftNull ∅) = Ok (Done r) s' /\
  init_outcome ext0 no_leak l0 7 3 OftNull no_files ∅ (Done r) s'.
Proof.
  destruct (file_table_init_spec ext0 no_leak l0 7 3 OftNull no_files ∅ null_path null_path null_path) as (r & s' & Hr & Hp); [exact oft_at0|reflexivity|].
  pose proof init_succeeds as Hs. rewrite Hr in Hs. destruct r as [r|e]; [|discriminate Hs]. exists r, s'. split; [exact Hr|exact Hp].
Defined.
End FileProps.
