(* ===== verification/Pid.v ===== *)
(** * The process id table

    Model of kern/thread/pid.c: the table of [proc_pid] structures indexed by
    process id, its lock, and the condition variable each structure carries.
    Structures and condition variables live in a heap and are reached through
    addresses, 0 being NULL, so that freed and missing objects show up as
    faults.  A call that sleeps returns to its caller at the point where it
    sleeps; what it does once awake is a definition of its own. *)

From S2P Require Import Prelude Kern.
Open Scope Z_scope.

(** A global pointer: NULL, dangling, or pointing to an object. *)
Inductive ptr (A : Type) : Type := PNull | PFreed | PObj (a : A).
Arguments PNull {A}.
Arguments PFreed {A}.
Arguments PObj {A} a.

(** struct proc_pid *)
Record proc_pid := ProcPid {
  pid_id : Z; ppid_id : Z; pid_estatus : Z; pid_exited : Z; pid_cv : Z
}.

(** The globals of pid.c, the heap they point into, the running thread, and
    what allocation will do next.  [pid_table] holds the words of the table
    that are not NULL, [pt_lock] the holder of the lock, [cvs] the sleepers of
    each condition variable in order. *)
Record pstate := PState {
  pid_table : ptr (gmap Z Z);
  pt_lock : ptr (option Z);
  pps : gmap Z proc_pid;
  cvs : gmap Z (list Z);
  p_curthread : Z;
  p_allocs : list bool;
  p_next : Z
}.

#[export] Instance pstate_alloc : HasAlloc pstate :=
  {| allocs := p_allocs;
     set_allocs l s := PState (pid_table s) (pt_lock s) (pps s) (cvs s) (p_curthread s) l (p_next s) |}.

Module Pid.
Definition set_table t s :=
  PState t (pt_lock s) (pps s) (cvs s) (p_curthread s) (p_allocs s) (p_next s).
Definition set_lock l s :=
  PState (pid_table s) l (pps s) (cvs s) (p_curthread s) (p_allocs s) (p_next s).
Definition set_pps m s :=
  PState (pid_table s) (pt_lock s) m (cvs s) (p_curthread s) (p_allocs s) (p_next s).
Definition set_cvs m s :=
  PState (pid_table s) (pt_lock s) (pps s) m (p_curthread s) (p_allocs s) (p_next s).
Definition set_pnext n s :=
  PState (pid_table s) (pt_lock s) (pps s) (cvs s) (p_curthread s) (p_allocs s) n.

Definition PID_INVALID : Z := s32 0xcafebabe.
Definition PID_BOOT : Z := 1.

(** ** The primitives pid.c uses *)

Definition use {A} (p : ptr A) : M pstate A :=
  match p with PNull => raise FNull | PFreed => raise FDangling | PObj a => mret a end.

(** void lock_acquire(struct lock *lock), lock_release and lock_destroy, on
    [pt_lock] *)
Definition lock_acquire : M pstate unit :=
  s ← get;
  h ← use (pt_lock s);
  match h with
  | None => modify (set_lock (PObj (Some (p_curthread s))))
  | Some t => raise (if t =? p_curthread s then FPanic else FBlocked)
  end.
Definition lock_release : M pstate unit :=
  s ← get;
  h ← use (pt_lock s);
  kassert (bool_decide (h = Some (p_curthread s))) ;;
  modify (set_lock (PObj None)).
Definition lock_destroy : M pstate unit :=
  s ← get;
  match pt_lock s with
  | PNull => raise FPanic
  | PFreed => raise FDangling
  | PObj h => kassert (bool_decide (h = None)) ;; modify (set_lock PFreed)
  end.

(** struct lock *lock_create(name): the structure, its name and its wait
    channel are allocated. *)
Definition lock_create : M pstate (ptr (option Z)) :=
  a ← kmalloc; if negb a then mret PNull else
  b ← kmalloc; if negb b then mret PNull else
  c ← kmalloc; if negb c then mret PNull else
  mret (PObj None).

Definition new_addr : M pstate Z :=
  s ← get; modify (set_pnext (p_next s + 1)) ;; mret (p_next s).

(** struct cv *cv_create(name) *)
Definition cv_create : M pstate Z :=
  a ← kmalloc; if negb a then mret 0 else
  b ← kmalloc; if negb b then mret 0 else
  c ← kmalloc; if negb c then mret 0 else
  cv ← new_addr;
  modify (fun s => set_cvs (<[cv := []]> (cvs s)) s) ;;
  mret cv.

Definition get_cv (cv : Z) : M pstate (list Z) :=
  if cv =? 0 then raise FNull else s ← get; deref FDangling (cvs s !! cv).

(** void cv_destroy(struct cv *cv); destroying the wait channel asserts that
    nobody sleeps on it. *)
Definition cv_destroy (cv : Z) : M pstate unit :=
  kassert (negb (cv =? 0)) ;;
  ws ← get_cv cv;
  kassert (bool_decide (ws = [])) ;;
  modify (fun s => set_cvs (delete cv (cvs s)) s).

(** void cv_wait(cv, pt_lock), up to the point where the thread sleeps. *)
Definition cv_sleep (cv : Z) : M pstate unit :=
  ws ← get_cv cv;
  lock_release ;;
  modify (fun s => set_cvs (<[cv := ws ++ [p_curthread s]]> (cvs s)) s).

(** ... and from there, once another thread has woken it. *)
Definition cv_woken (cv : Z) : M pstate unit :=
  get_cv cv ;; lock_acquire.

(** void cv_broadcast(cv, lock); the result is the threads made runnable. *)
Definition cv_broadcast (cv : Z) : M pstate (list Z) :=
  ws ← get_cv cv;
  modify (fun s => set_cvs (<[cv := []]> (cvs s)) s) ;;
  mret ws.

(** [pid_table[i]] and its assignment *)
Definition get_slot (i : Z) : M pstate Z :=
  s ← get;
  t ← use (pid_table s);
  if (i <? 0) || (i >? PID_MAX) then raise FBounds else mret (default 0 (t !! i)).
Definition set_slot (i a : Z) : M pstate unit :=
  s ← get;
  t ← use (pid_table s);
  if (i <? 0) || (i >? PID_MAX) then raise FBounds else
  modify (set_table (PObj (if a =? 0 then delete i t else <[i := a]> t))).

Definition get_pp (pp : Z) : M pstate proc_pid :=
  if pp =? 0 then raise FNull else s ← get; deref FDangling (pps s !! pp).
Definition put_pp (pp : Z) (x : proc_pid) : M pstate unit :=
  modify (fun s => set_pps (<[pp := x]> (pps s)) s).

(** ** pid.c *)

(** void pidtable_init().  The entry PID_MAX is not cleared; [junk] is the word
    kmalloc left there. *)
Definition pidtable_init (junk : Z) : M pstate unit :=
  ok ← kmalloc;
  if negb ok then modify (set_table PNull) ;; raise FNull else
  modify (set_table (PObj (if junk =? 0 then ∅ else {[PID_MAX := junk]}))) ;;
  l ← lock_create;
  modify (set_lock l).

(** pid_t pid_next(): the loop from [i], with [n] entries to go. *)
Fixpoint pid_scan (n : nat) (i : Z) : M pstate Z :=
  match n with
  | O => mret (-1)
  | S n' => w ← get_slot i; if w =? 0 then mret i else pid_scan n' (i + 1)
  end.
Definition pid_next : M pstate Z := pid_scan (Z.to_nat (PID_MAX - PID_MIN + 1)) PID_MIN.

(** pid_t pid_create(pid_t ppid) *)
Definition pid_create (ppid : Z) : M pstate Z :=
  lock_acquire ;;
  pid ← pid_next;
  if pid =? -1 then lock_release ;; mret (-1) else
  ok ← kmalloc;
  if negb ok then raise FNull else
  pp ← new_addr;
  put_pp pp (ProcPid pid ppid 0 0 0) ;;
  cv ← cv_create;
  put_pp pp (ProcPid pid ppid 0 0 cv) ;;
  set_slot pid pp ;;
  lock_release ;;
  mret pid.

(** void pid_destroy(struct proc_pid *pp) *)
Definition pid_destroy (pp : Z) : M pstate unit :=
  if pp =? 0 then mret tt else
  x ← get_pp pp;
  set_slot (pid_id x) 0 ;;
  cv_destroy (pid_cv x) ;;
  modify (fun s => set_pps (delete pp (pps s)) s).

(** void pidtable_destroy() *)
Definition pidtable_destroy : M pstate unit :=
  lock_destroy ;;
  for_each (seqZ 0 PID_MAX) (fun i => pp ← get_slot i; pid_destroy pp) ;;
  modify (set_table PFreed).

(** What pid_wait comes to when it runs: it returns, or it sleeps, keeping the
    structure and the condition variable it waits for. *)
Inductive waiting : Type :=
| WRet (r : res Z)
| WSleep (pp cv : Z).

(** The end of pid_wait, with the lock held: take the status and destroy the
    entry. *)
Definition wait_finish (pp : Z) : M pstate (res Z) :=
  x ← get_pp pp;
  put_pp pp (ProcPid (pid_id x) PID_INVALID (pid_estatus x) (pid_exited x) (pid_cv x)) ;;
  pid_destroy pp ;;
  lock_release ;;
  mret (Done (pid_estatus x)).

(** pid_t pid_wait(pid, ppid, exit_status), up to the point where it sleeps *)
Definition pid_wait (pid ppid : Z) : M pstate waiting :=
  lock_acquire ;;
  pp ← get_slot pid;
  if pp =? 0 then lock_release ;; mret (WRet (Err ESRCH)) else
  x ← get_pp pp;
  if negb (ppid_id x =? ppid) then lock_release ;; mret (WRet (Err ECHILD)) else
  if pid_exited x =? 0 then cv_sleep (pid_cv x) ;; mret (WSleep pp (pid_cv x)) else
  r ← wait_finish pp; mret (WRet r).

(** ... and from there, once awake. *)
Definition pid_wait_woken (pp cv : Z) : M pstate (res Z) :=
  cv_woken cv ;; wait_finish pp.

(** void pid_exit(pid, exit_status), as far as the table is concerned; the
    result is the threads it wakes. *)
Definition pid_exit (pid exit_status : Z) : M pstate (list Z) :=
  lock_acquire ;;
  pp ← get_slot pid;
  x ← get_pp pp;
  put_pp pp (ProcPid (pid_id x) (ppid_id x) exit_status 1 (pid_cv x)) ;;
  ws ← cv_broadcast (pid_cv x);
  lock_release ;;
  mret ws.
End Pid.
