(* ===== verification/PidSpec.v ===== *)
(** * The process id table: invariant and operations

    What each operation of pid.c does to the table, seen as a map from process
    ids to a parent and, once the process has exited, its status. *)

From S2P Require Import Prelude Kern Pid.
Open Scope Z_scope.
Import Pid.

Module PidSpec.

(** States whose table and lock exist, the lock being held by [h]. *)
Abbreviation pst t h P C th al nx := (PState (PObj t) (PObj h) P C th al nx).

(** The next [n] allocations succeed. *)
Definition plenty (n : nat) (al : list bool) : Prop := Forall (fun b => b = true) (take n al).

(** The table is well formed: every entry but possibly the never cleared last
    one points to a structure that knows its index, structures and condition
    variables belong to exactly one entry, and nobody sleeps on a process that
    has exited. *)
Record pid_ok (t : gmap Z Z) (P : gmap Z proc_pid) (C : gmap Z (list Z)) (nx : Z) : Prop := {
  ok_slot : forall i a, t !! i = Some a -> PID_MIN <= i <= PID_MAX /\ 0 < a < nx /\
    match P !! a with Some x => pid_id x = i | None => i = PID_MAX end;
  ok_pp : forall a x, P !! a = Some x -> t !! pid_id x = Some a /\
    (pid_exited x = 0 \/ pid_exited x = 1);
  ok_cv : forall a x, P !! a = Some x -> 0 < pid_cv x < nx /\
    exists ws, C !! pid_cv x = Some ws /\ (pid_exited x = 1 -> ws = []);
  ok_own : forall a b x y, P !! a = Some x -> P !! b = Some y -> pid_cv x = pid_cv y -> a = b;
  ok_cvs : forall c ws, C !! c = Some ws -> exists a x, P !! a = Some x /\ pid_cv x = c;
  ok_next : 0 < nx
}.

(** The structure of a process, and what the table says of it: parent, and
    status when it has exited. *)
Definition pp_of (t : gmap Z Z) (P : gmap Z proc_pid) (pid : Z) : option proc_pid :=
  a ← t !! pid; P !! a.
Definition seen (x : proc_pid) : Z * option Z :=
  (ppid_id x, if pid_exited x =? 0 then None else Some (pid_estatus x)).
Definition entry (t : gmap Z Z) (P : gmap Z proc_pid) (pid : Z) : option (Z * option Z) :=
  seen <$> pp_of t P pid.
Definition sleepers (t : gmap Z Z) (P : gmap Z proc_pid) (C : gmap Z (list Z)) (pid : Z) : list Z :=
  match pp_of t P pid with Some x => default [] (C !! pid_cv x) | None => [] end.

(** ** Primitives *)

Lemma plenty_kmalloc n t h P C th al nx : plenty (S n) al ->
  kmalloc (pst t h P C th al nx) = Ok true (pst t h P C th (tail al) nx) /\ plenty n (tail al).
Proof.
  destruct al as [|b al]; [intros _; split; [done|]; unfold plenty; cbn [tail]; by rewrite take_nil|].
  intros H. apply Forall_cons in H as [-> H]. done.
Qed.

Lemma acquire_eq t P C th al nx :
  lock_acquire (pst t None P C th al nx) = Ok tt (pst t (Some th) P C th al nx).
Proof. done. Qed.

Lemma release_eq t P C th al nx :
  lock_release (pst t (Some th) P C th al nx) = Ok tt (pst t None P C th al nx).
Proof.
  unfold lock_release, use, kassert, get, modify, mbind, M_bind. cbn.
  by rewrite bool_decide_true.
Qed.

Lemma get_slot_eq i t h P C th al nx : 0 <= i <= PID_MAX ->
  get_slot i (pst t h P C th al nx) = Ok (default 0 (t !! i)) (pst t h P C th al nx).
Proof.
  intros Hi. unfold get_slot. unfold use, get, mbind, M_bind. cbn.
  by destruct (Z.ltb_spec i 0), (Z.gtb_spec i PID_MAX); try lia.
Qed.

Lemma set_slot_eq i a t h P C th al nx : 0 <= i <= PID_MAX ->
  set_slot i a (pst t h P C th al nx) =
    Ok tt (pst (if a =? 0 then delete i t else <[i := a]> t) h P C th al nx).
Proof.
  intros Hi. unfold set_slot. unfold use, get, mbind, M_bind. cbn.
  by destruct (Z.ltb_spec i 0), (Z.gtb_spec i PID_MAX); try lia.
Qed.

Lemma get_pp_eq a x t h P C th al nx : P !! a = Some x -> a <> 0 ->
  get_pp a (pst t h P C th al nx) = Ok x (pst t h P C th al nx).
Proof.
  intros Hx Ha. unfold get_pp. destruct (Z.eqb_spec a 0); [done|].
  unfold get, deref, mbind, M_bind. cbn. by rewrite Hx.
Qed.

Lemma get_cv_eq c ws t h P C th al nx : C !! c = Some ws -> c <> 0 ->
  get_cv c (pst t h P C th al nx) = Ok ws (pst t h P C th al nx).
Proof.
  intros Hx Ha. unfold get_cv. destruct (Z.eqb_spec c 0); [done|].
  unfold get, deref, mbind, M_bind. cbn. by rewrite Hx.
Qed.

Ltac run_modify := rewrite modify_bind; unfold set_pps;
  cbn [pps pid_table pt_lock cvs p_curthread p_allocs p_next].

(** ** Creation *)

Lemma scan_eq n i t h P C th al nx : 0 <= i -> i + Z.of_nat n <= PID_MAX + 1 ->
  (forall j a, t !! j = Some a -> 0 < a) ->
  exists r, pid_scan n i (pst t h P C th al nx) = Ok r (pst t h P C th al nx) /\
    ((r = -1 /\ forall j, i <= j < i + Z.of_nat n -> is_Some (t !! j)) \/
     (i <= r < i + Z.of_nat n /\ t !! r = None /\ forall j, i <= j < r -> is_Some (t !! j))).
Proof.
  revert i. induction n as [|n IH]; intros i Hi Hn Hpos; cbn [pid_scan].
  { exists (-1). split; [done|]. left. split; [done|]. lia. }
  rewrite (bind_eq _ _ _ _ _ (get_slot_eq i t h P C th al nx ltac:(lia))).
  destruct (t !! i) as [a|] eqn:Ha; cbn -[Z.of_nat].
  2:{ exists i. split; [done|]. right. split; [lia|]. split; [done|]. lia. }
  destruct (Z.eqb_spec a 0) as [->|_]; [apply Hpos in Ha; lia|].
  assert (forall j k, (forall j', i + 1 <= j' < k -> is_Some (t !! j')) -> i <= j < k -> is_Some (t !! j)) as Hcons.
  { intros j k Hk Hj. destruct (decide (j = i)) as [->|]; [by rewrite Ha|apply Hk; lia]. }
  destruct (IH (i + 1)) as (r & Hr & [[-> Hall]|(Hrange & Hnone & Hall)]); [lia|lia|done|..].
  - exists (-1). split; [done|]. left. split; [done|]. intros j Hj. apply (Hcons j (i + 1 + Z.of_nat n)); [done|lia].
  - exists r. split; [done|]. right. split; [lia|]. split; [done|]. intros j Hj. by apply (Hcons j r).
Qed.

(** pid_next: the least free id, or -1 when there is none. *)
Lemma next_eq t h P C th al nx : (forall i a, t !! i = Some a -> 0 < a) ->
  exists r, pid_next (pst t h P C th al nx) = Ok r (pst t h P C th al nx) /\
    ((r = -1 /\ forall i, PID_MIN <= i <= PID_MAX -> is_Some (t !! i)) \/
     (PID_MIN <= r <= PID_MAX /\ t !! r = None /\ forall i, PID_MIN <= i < r -> is_Some (t !! i))).
Proof.
  intros Hpos. unfold pid_next.
  destruct (scan_eq (Z.to_nat (PID_MAX - PID_MIN + 1)) PID_MIN t h P C th al nx) as (r & Hr & Hc); [done| |done|].
  { rewrite Z2Nat.id; unfold PID_MIN, PID_MAX; lia. }
  rewrite Z2Nat.id in Hc by (unfold PID_MIN, PID_MAX; lia).
  exists r. split; [exact Hr|]. destruct Hc as [[-> Hall]|(Hrange & Hn & Hall)].
  - left. split; [done|]. intros i Hi. apply Hall. lia.
  - right. split; [lia|]. split; [done|]. intros i Hi. apply Hall. lia.
Qed.

(** A new entry keeps the table well formed. *)
Lemma created_ok t P C nx r ppid : pid_ok t P C nx -> PID_MIN <= r <= PID_MAX -> t !! r = None ->
  pid_ok (<[r := nx]> t) (<[nx := ProcPid r ppid 0 0 (nx + 1)]> P) (<[nx + 1 := []]> C) (nx + 1 + 1).
Proof.
  intros [Hs Hp Hc Ho Hcs Hn] Hr Hf.
  assert (P !! nx = None) as HP.
  { destruct (P !! nx) as [x|] eqn:E; [|done]. apply Hp in E as [E _]. apply Hs in E. lia. }
  assert (forall a x, P !! a = Some x -> a <> nx /\ pid_id x <> r /\ pid_cv x <> nx + 1) as Hold.
  { intros a x Hx. split_and!.
    - congruence.
    - intros He. apply Hp in Hx as [Hx _]. congruence.
    - apply Hc in Hx. lia. }
  split.
  - intros i a Hi. apply lookup_insert_Some in Hi as [[<- <-]|[Hne Hi]].
    + rewrite lookup_insert_eq. simpl. lia.
    + destruct (Hs i a Hi) as (? & ? & Hm). split; [done|]. split; [lia|].
      rewrite lookup_insert_ne by lia. done.
  - intros a x Hx. apply lookup_insert_Some in Hx as [[<- <-]|[Hne Hx]]; simpl.
    + rewrite lookup_insert_eq. auto.
    + destruct (Hold _ _ Hx) as (? & ? & ?). rewrite lookup_insert_ne by done. by apply Hp.
  - intros a x Hx. apply lookup_insert_Some in Hx as [[<- <-]|[Hne Hx]]; simpl.
    + split; [lia|]. exists []. by rewrite lookup_insert_eq.
    + destruct (Hold _ _ Hx) as (? & ? & ?), (Hc _ _ Hx) as [? Hw]. split; [lia|].
      by rewrite lookup_insert_ne.
  - intros a b x y Hx Hy He.
    apply lookup_insert_Some in Hx as [[<- <-]|[Hne Hx]]; apply lookup_insert_Some in Hy as [[<- <-]|[Hne' Hy]]; simpl in *.
    + done.
    + destruct (Hold _ _ Hy) as (_ & _ & ?). congruence.
    + destruct (Hold _ _ Hx) as (_ & _ & ?). congruence.
    + by eapply Ho.
  - intros c ws Hw. apply lookup_insert_Some in Hw as [[<- <-]|[Hne Hw]].
    + eexists nx, _. rewrite lookup_insert_eq. done.
    + destruct (Hcs _ _ Hw) as (a & x & Hx & Hxc). exists a, x. destruct (Hold _ _ Hx) as (? & _).
      by rewrite lookup_insert_ne.
  - lia.
Qed.

Lemma cv_create_eq t h P C th al nx : plenty 3 al ->
  cv_create (pst t h P C th al nx) =
    Ok nx (pst t h P (<[nx := []]> C) th (tail (tail (tail al))) (nx + 1)).
Proof.
  intros Hal. unfold cv_create.
  destruct (plenty_kmalloc 2 t h P C th al nx Hal) as [E1 Hal1]. run E1.
  destruct (plenty_kmalloc 1 t h P C th _ nx Hal1) as [E2 Hal2]. run E2.
  destruct (plenty_kmalloc 0 t h P C th _ nx Hal2) as [E3 Hal3]. run E3. done.
Qed.

Lemma pid_create_core t P C th al nx ppid : pid_ok t P C nx -> plenty 4 al ->
  exists r s', pid_create ppid (pst t None P C th al nx) = Ok r s' /\
    ((r = -1 /\ s' = pst t None P C th al nx /\ forall i, PID_MIN <= i <= PID_MAX -> is_Some (t !! i)) \/
     (PID_MIN <= r <= PID_MAX /\ t !! r = None /\ (forall i, PID_MIN <= i < r -> is_Some (t !! i)) /\
      s' = pst (<[r := nx]> t) None (<[nx := ProcPid r ppid 0 0 (nx + 1)]> P) (<[nx + 1 := []]> C) th
             (tail (tail (tail (tail al)))) (nx + 1 + 1))).
Proof.
  intros Hok Hal. pose proof (ok_next _ _ _ _ Hok) as Hnx.
  destruct (next_eq t (Some th) P C th al nx) as (r & Hr & Hc).
  { intros i a Hi. apply (ok_slot _ _ _ _ Hok) in Hi. lia. }
  exists r. unfold pid_create. run (acquire_eq t P C th al nx). run Hr.
  destruct Hc as [[-> Hfull]|(Hrange & Hfree & Hleast)].
  { eexists. rewrite Z.eqb_refl. run (release_eq t P C th al nx). split; [done|]. by left. }
  destruct (Z.eqb_spec r (-1)) as [->|_]; [unfold PID_MIN in *; lia|].
  destruct (plenty_kmalloc 3 t (Some th) P C th al nx Hal) as [Hk1 Hal1]. run Hk1.
  assert (new_addr (pst t (Some th) P C th (tail al) nx) = Ok nx (pst t (Some th) P C th (tail al) (nx + 1)))
    as Hnew by done.
  run Hnew. unfold put_pp. run_modify.
  run (cv_create_eq t (Some th) (<[nx := ProcPid r ppid 0 0 0]> P) C th _ (nx + 1) Hal1).
  run_modify.
  run (set_slot_eq r nx t (Some th) (<[nx := ProcPid r ppid 0 0 (nx + 1)]> (<[nx := ProcPid r ppid 0 0 0]> P))
    (<[nx + 1 := []]> C) th (tail (tail (tail (tail al)))) (nx + 1 + 1) ltac:(unfold PID_MIN in *; lia)).
  run (release_eq (if nx =? 0 then delete r t else <[r := nx]> t)
    (<[nx := ProcPid r ppid 0 0 (nx + 1)]> (<[nx := ProcPid r ppid 0 0 0]> P)) (<[nx + 1 := []]> C) th
    (tail (tail (tail (tail al)))) (nx + 1 + 1)).
  eexists. split; [done|]. right. split_and!; try done; try lia.
  destruct (Z.eqb_spec nx 0); [lia|]. by rewrite insert_insert_eq.
Qed.

(** ** Destruction and waiting *)

Lemma pid_destroy_eq t h P C th al nx a x : P !! a = Some x -> 0 < a ->
  0 <= pid_id x <= PID_MAX -> 0 < pid_cv x -> C !! pid_cv x = Some [] ->
  pid_destroy a (pst t h P C th al nx) =
    Ok tt (pst (delete (pid_id x) t) h (delete a P) (delete (pid_cv x) C) th al nx).
Proof.
  intros Hx Ha Hi Hcv Hc. unfold pid_destroy. destruct (Z.eqb_spec a 0); [lia|].
  run (get_pp_eq a x t h P C th al nx Hx ltac:(lia)).
  run (set_slot_eq (pid_id x) 0 t h P C th al nx Hi).
  assert (cv_destroy (pid_cv x) (pst (delete (pid_id x) t) h P C th al nx) =
    Ok tt (pst (delete (pid_id x) t) h P (delete (pid_cv x) C) th al nx)) as Hd; [|by run Hd].
  unfold cv_destroy. destruct (Z.eqb_spec (pid_cv x) 0); [lia|].
  cbn [negb]. rewrite kassert_bind by done.
  run (get_cv_eq (pid_cv x) [] (delete (pid_id x) t) h P C th al nx Hc ltac:(lia)). done.
Qed.

Lemma removed_ok t P C nx a x : pid_ok t P C nx -> P !! a = Some x ->
  pid_ok (delete (pid_id x) t) (delete a P) (delete (pid_cv x) C) nx.
Proof.
  intros [Hs Hp Hc Ho Hcs Hn] Hx. destruct (Hp a x Hx) as [Ht _].
  split; [| | | | |done].
  - intros i b Hi. apply lookup_delete_Some in Hi as [Hne Hi]. destruct (Hs i b Hi) as (? & ? & Hm).
    split_and!; try done; try lia. assert (a <> b) as Hab by (intros ->; rewrite Hx in Hm; congruence).
    by rewrite lookup_delete_ne.
  - intros b y Hy. apply lookup_delete_Some in Hy as [Hne Hy]. destruct (Hp b y Hy) as [Hb He].
    rewrite lookup_delete_ne; [done|congruence].
  - intros b y Hy. apply lookup_delete_Some in Hy as [Hne Hy]. destruct (Hc b y Hy) as [? Hw].
    split; [done|]. rewrite lookup_delete_ne; [done|]. intros He. by apply Hne, (Ho a b x y).
  - intros b d y z Hy Hz. apply lookup_delete_Some in Hy as [_ Hy]. apply lookup_delete_Some in Hz as [_ Hz].
    by apply Ho.
  - intros c ws Hw. apply lookup_delete_Some in Hw as [Hne Hw]. destruct (Hcs c ws Hw) as (b & y & Hy & <-).
    exists b, y. split; [|done]. rewrite lookup_delete_ne; [done|congruence].
Qed.

(** The facts about the structure found in an entry. *)
Lemma pp_of_slot t P C nx pid x : pid_ok t P C nx -> pp_of t P pid = Some x ->
  exists a, t !! pid = Some a /\ P !! a = Some x /\ 0 < a /\ pid_id x = pid /\
    PID_MIN <= pid <= PID_MAX /\ 0 < pid_cv x.
Proof.
  intros Hok Hx. unfold pp_of in Hx. apply bind_Some in Hx as (a & Ha & Hx). exists a.
  destruct (ok_slot _ _ _ _ Hok _ _ Ha) as (? & ? & Hm). rewrite Hx in Hm.
  destruct (ok_cv _ _ _ _ Hok _ _ Hx) as [? _]. repeat split; try done; lia.
Qed.

Lemma wait_finish_eq t P C th al nx pid a x : pid_ok t P C nx ->
  t !! pid = Some a -> P !! a = Some x -> pid_exited x = 1 ->
  wait_finish a (pst t (Some th) P C th al nx) =
    Ok (Done (pid_estatus x)) (pst (delete pid t) None (delete a P) (delete (pid_cv x) C) th al nx).
Proof.
  intros Hok Ha Hx He.
  destruct (pp_of_slot t P C nx pid x Hok) as (a' & Ha' & _ & Hpos & <- & Hr & Hcv).
  { unfold pp_of. by rewrite Ha. }
  assert (a' = a) as -> by congruence.
  destruct (ok_cv _ _ _ _ Hok _ _ Hx) as [_ (ws & Hws & Hnil)]. rewrite (Hnil He) in Hws.
  unfold wait_finish, put_pp. run (get_pp_eq a x t (Some th) P C th al nx Hx ltac:(lia)).
  set (y := ProcPid (pid_id x) PID_INVALID (pid_estatus x) (pid_exited x) (pid_cv x)).
  run_modify.
  run (pid_destroy_eq t (Some th) (<[a := y]> P) C th al nx a y
    (lookup_insert_eq _ _ _) Hpos ltac:(unfold PID_MIN in *; simpl; lia) Hcv Hws).
  run (release_eq (delete (pid_id y) t) (delete a (<[a := y]> P)) (delete (pid_cv y) C) th al nx).
  by rewrite delete_insert_eq.
Qed.

(** The four outcomes of pid_wait. *)
Lemma pid_wait_absent t P C th al nx pid ppid : 0 <= pid <= PID_MAX -> t !! pid = None ->
  pid_wait pid ppid (pst t None P C th al nx) = Ok (WRet (Err ESRCH)) (pst t None P C th al nx).
Proof.
  intros Hr Hn. unfold pid_wait. run (acquire_eq t P C th al nx).
  run (get_slot_eq pid t (Some th) P C th al nx Hr). rewrite Hn. cbn [default]. rewrite Z.eqb_refl.
  by run (release_eq t P C th al nx).
Qed.

(** With an entry, up to the comparison of the parent. *)
Lemma pid_wait_found t P C th al nx pid ppid a x : pid_ok t P C nx ->
  t !! pid = Some a -> P !! a = Some x ->
  pid_wait pid ppid (pst t None P C th al nx) =
    (if negb (ppid_id x =? ppid) then lock_release ;; mret (WRet (Err ECHILD)) else
     if pid_exited x =? 0 then cv_sleep (pid_cv x) ;; mret (WSleep a (pid_cv x)) else
     r ← wait_finish a; mret (WRet r)) (pst t (Some th) P C th al nx).
Proof.
  intros Hok Ha Hx. destruct (ok_slot _ _ _ _ Hok _ _ Ha) as (Hr & Hpos & _).
  unfold pid_wait. run (acquire_eq t P C th al nx).
  run (get_slot_eq pid t (Some th) P C th al nx ltac:(unfold PID_MIN in *; lia)).
  rewrite Ha. cbn [default from_option id]. destruct (Z.eqb_spec a 0); [lia|].
  by run (get_pp_eq a x t (Some th) P C th al nx Hx ltac:(lia)).
Qed.

Lemma pid_wait_foreign t P C th al nx pid ppid a x : pid_ok t P C nx ->
  t !! pid = Some a -> P !! a = Some x -> ppid_id x <> ppid ->
  pid_wait pid ppid (pst t None P C th al nx) = Ok (WRet (Err ECHILD)) (pst t None P C th al nx).
Proof.
  intros Hok Ha Hx Hne. rewrite (pid_wait_found _ _ _ _ _ _ _ _ a x) by done.
  destruct (Z.eqb_spec (ppid_id x) ppid); [done|]. cbn [negb]. by run (release_eq t P C th al nx).
Qed.

Lemma pid_wait_zombie t P C th al nx pid a x : pid_ok t P C nx ->
  t !! pid = Some a -> P !! a = Some x -> pid_exited x = 1 ->
  pid_wait pid (ppid_id x) (pst t None P C th al nx) =
    Ok (WRet (Done (pid_estatus x))) (pst (delete pid t) None (delete a P) (delete (pid_cv x) C) th al nx).
Proof.
  intros Hok Ha Hx He. rewrite (pid_wait_found _ _ _ _ _ _ _ _ a x) by done.
  rewrite Z.eqb_refl, He. cbn [negb Z.eqb]. by run (wait_finish_eq t P C th al nx pid a x Hok Ha Hx He).
Qed.

Lemma pid_wait_sleeps t P C th al nx pid a x ws : pid_ok t P C nx ->
  t !! pid = Some a -> P !! a = Some x -> pid_exited x = 0 -> C !! pid_cv x = Some ws ->
  pid_wait pid (ppid_id x) (pst t None P C th al nx) =
    Ok (WSleep a (pid_cv x)) (pst t None P (<[pid_cv x := ws ++ [th]]> C) th al nx).
Proof.
  intros Hok Ha Hx He Hw. rewrite (pid_wait_found _ _ _ _ _ _ _ _ a x) by done.
  destruct (ok_cv _ _ _ _ Hok _ _ Hx) as [? _].
  rewrite Z.eqb_refl, He. cbn [negb Z.eqb].
  assert (cv_sleep (pid_cv x) (pst t (Some th) P C th al nx) =
    Ok tt (pst t None P (<[pid_cv x := ws ++ [th]]> C) th al nx)) as Hs; [|by run Hs].
  unfold cv_sleep. run (get_cv_eq (pid_cv x) ws t (Some th) P C th al nx Hw ltac:(lia)).
  by run (release_eq t P C th al nx).
Qed.

Lemma pid_wait_woken_eq t P C th al nx pid a x : pid_ok t P C nx ->
  t !! pid = Some a -> P !! a = Some x -> pid_exited x = 1 ->
  pid_wait_woken a (pid_cv x) (pst t None P C th al nx) =
    Ok (Done (pid_estatus x)) (pst (delete pid t) None (delete a P) (delete (pid_cv x) C) th al nx).
Proof.
  intros Hok Ha Hx He. destruct (ok_cv _ _ _ _ Hok _ _ Hx) as [? (ws & Hw & _)].
  unfold pid_wait_woken, cv_woken.
  assert ((get_cv (pid_cv x) ;; lock_acquire) (pst t None P C th al nx) =
    Ok tt (pst t (Some th) P C th al nx)) as Hl.
  { by run (get_cv_eq (pid_cv x) ws t None P C th al nx Hw ltac:(lia)). }
  run Hl. by apply wait_finish_eq.
Qed.

(** ** Exit *)

Definition exited (x : proc_pid) (st : Z) : proc_pid := ProcPid (pid_id x) (ppid_id x) st 1 (pid_cv x).

Lemma pid_exit_eq t P C th al nx pid a x ws st : pid_ok t P C nx ->
  t !! pid = Some a -> P !! a = Some x -> C !! pid_cv x = Some ws ->
  pid_exit pid st (pst t None P C th al nx) =
    Ok ws (pst t None (<[a := exited x st]> P) (<[pid_cv x := []]> C) th al nx).
Proof.
  intros Hok Ha Hx Hw. destruct (ok_slot _ _ _ _ Hok _ _ Ha) as (Hr & Hpos & _).
  destruct (ok_cv _ _ _ _ Hok _ _ Hx) as [? _].
  unfold pid_exit, put_pp, cv_broadcast. run (acquire_eq t P C th al nx).
  run (get_slot_eq pid t (Some th) P C th al nx ltac:(unfold PID_MIN in *; lia)).
  rewrite Ha. cbn [default from_option id]. run (get_pp_eq a x t (Some th) P C th al nx Hx ltac:(lia)).
  run_modify.
  assert ((ws ← get_cv (pid_cv x); modify (fun s => set_cvs (<[pid_cv x := []]> (cvs s)) s) ;; mret ws)
    (pst t (Some th) (<[a := exited x st]> P) C th al nx) =
    Ok ws (pst t (Some th) (<[a := exited x st]> P) (<[pid_cv x := []]> C) th al nx)) as Hb.
  { by run (get_cv_eq (pid_cv x) ws t (Some th) (<[a := exited x st]> P) C th al nx Hw ltac:(lia)). }
  run Hb. by run (release_eq t (<[a := exited x st]> P) (<[pid_cv x := []]> C) th al nx).
Qed.

(** Changing the sleepers of one process, and its exit fields, keeps the table
    well formed, provided nobody is left asleep on an exited process. *)
Lemma updated_ok t P C nx a x y ws : pid_ok t P C nx -> P !! a = Some x ->
  pid_id y = pid_id x -> pid_cv y = pid_cv x -> (pid_exited y = 0 \/ pid_exited y = 1) ->
  (pid_exited y = 1 -> ws = []) ->
  pid_ok t (<[a := y]> P) (<[pid_cv x := ws]> C) nx.
Proof.
  intros [Hs Hp Hc Ho Hcs Hn] Hx Hid Hcv He Hnil.
  assert (forall b z, <[a := y]> P !! b = Some z ->
    exists z', P !! b = Some z' /\ pid_id z = pid_id z' /\ pid_cv z = pid_cv z' /\
      ((b = a /\ z = y) \/ (b <> a /\ z' = z))) as Hold.
  { intros b z Hz. apply lookup_insert_Some in Hz as [[<- <-]|[Hne Hz]]; eauto 10. }
  split; [| | | | |done].
  - intros i b Hi. destruct (Hs i b Hi) as (? & ? & Hm). split; [done|]. split; [done|].
    destruct (decide (b = a)) as [->|]; [rewrite lookup_insert_eq|by rewrite lookup_insert_ne].
    rewrite Hx in Hm. congruence.
  - intros b z Hz. destruct (Hold b z Hz) as (z' & Hz' & Hi & _ & Hcase). rewrite Hi.
    destruct (Hp b z' Hz') as [? ?]. split; [done|]. destruct Hcase as [[_ ->]|[_ <-]]; done.
  - intros b z Hz. destruct (Hold b z Hz) as (z' & Hz' & _ & Hi & Hcase). rewrite Hi.
    destruct (Hc b z' Hz') as [? (ws' & Hw & Hn')]. split; [done|].
    destruct Hcase as [[-> ->]|[Hne <-]].
    + assert (z' = x) as E by congruence. exists ws. rewrite E, lookup_insert_eq. done.
    + exists ws'. rewrite lookup_insert_ne; [done|]. intros E. by apply Hne, (Ho b a z' x).
  - intros b d z w Hz Hw E. destruct (Hold b z Hz) as (z' & Hz' & _ & Ez & _), (Hold d w Hw) as (w' & Hw' & _ & Ew & _).
    apply (Ho b d z' w'); congruence.
  - intros c ws' Hw. assert (exists b z, P !! b = Some z /\ pid_cv z = c) as (b & z & Hz & Ec).
    { apply lookup_insert_Some in Hw as [[<- <-]|[_ Hw]]; eauto. }
    destruct (decide (b = a)) as [->|]; [exists a, y|exists b, z].
    + rewrite lookup_insert_eq. split; congruence.
    + by rewrite lookup_insert_ne.
Qed.
End PidSpec.
