(* ===== verification/PidSys.v ===== *)
(** * Processes that fork, wait and exit

    The calls of pid.c made by several processes, in any order, as steps of a
    system; every process has one thread, named by the process id.  The system
    refines an abstract machine in which a process runs, waits for a child, or
    is a zombie with a status. *)

From S2P Require Import Prelude Kern Pid PidSpec.
Open Scope Z_scope.
Import Pid PidSpec.

Module PidSys.

(** What the thread of a process is doing. *)
Inductive act : Type :=
| Running
| Sleeping (child pp cv : Z)
| Woken (child pp cv : Z).

Record world := World { w_pids : pstate; w_acts : gmap Z act }.

Inductive call : Type := Fork | Wait (pid : Z) | Exit (st : Z) | Resume.

Inductive event : Type :=
| Forked (p c : Z)
| Full (p : Z)
| WaitErr (p c : Z) (e : errno)
| Slept (p c : Z)
| Reaped (p c st : Z)
| Exited (p st : Z).

(** A routine of pid.c run by the thread of process [p]. *)
Definition as_thread {A} (p : Z) (m : M pstate A) : M world A := fun w =>
  let s := w_pids w in
  match m (PState (pid_table s) (pt_lock s) (pps s) (cvs s) p (p_allocs s) (p_next s)) with
  | Ok a s' => Ok a (World s' (w_acts w))
  | Fault f => Fault f
  end.
Definition set_act (p : Z) (a : act) : M world unit :=
  modify (fun w => World (w_pids w) (<[p := a]> (w_acts w))).

(** A thread made runnable, and the end of a thread. *)
Definition wake (p : Z) : M world unit :=
  w ← get;
  match w_acts w !! p with
  | Some (Sleeping c pp cv) => set_act p (Woken c pp cv)
  | _ => raise FPanic
  end.
Definition end_thread (p : Z) : M world unit :=
  modify (fun w => World (w_pids w) (delete p (w_acts w))).

Definition exec (p : Z) (c : call) : M world event :=
  w ← get;
  match w_acts w !! p, c with
  | Some Running, Fork =>
      q ← as_thread p (pid_create p);
      if q =? -1 then mret (Full p) else set_act q Running ;; mret (Forked p q)
  | Some Running, Wait pid =>
      r ← as_thread p (pid_wait pid p);
      match r with
      | WRet (Done st) => mret (Reaped p pid st)
      | WRet (Err e) => mret (WaitErr p pid e)
      | WSleep pp cv => set_act p (Sleeping pid pp cv) ;; mret (Slept p pid)
      end
  | Some Running, Exit st =>
      ws ← as_thread p (pid_exit p st);
      end_thread p ;; for_each ws wake ;; mret (Exited p st)
  | Some (Woken pid pp cv), Resume =>
      r ← as_thread p (pid_wait_woken pp cv);
      set_act p Running ;;
      match r with Done st => mret (Reaped p pid st) | Err e => mret (WaitErr p pid e) end
  | _, _ => raise FPanic
  end.

(** Entries of the table that were never written. *)
Definition wild (s : pstate) (pid : Z) : Prop :=
  match pid_table s with
  | PObj t => exists a, t !! pid = Some a /\ pps s !! a = None
  | _ => True
  end.

(** The calls a process can make: a running one any but Resume, with process
    ids in range; the kernel process does not exit; a woken one resumes. *)
Definition enabled (w : world) (p : Z) (c : call) : Prop :=
  match w_acts w !! p, c with
  | Some Running, Fork => True
  | Some Running, Wait pid => PID_MIN <= pid <= PID_MAX /\ ~ wild (w_pids w) pid
  | Some Running, Exit _ => p <> PID_BOOT
  | Some (Woken _ _ _), Resume => True
  | _, _ => False
  end.

Inductive step : world -> event -> world -> Prop :=
| Step w p c e w' : enabled w p c -> exec p c w = Ok e w' -> step w e w'.

(** Runs, the latest event first. *)
Inductive runs (w : world) : list event -> world -> Prop :=
| Runs_refl : runs w [] w
| Runs_step tr w1 e w2 : runs w tr w1 -> step w1 e w2 -> runs w (e :: tr) w2.

(** The system at boot: only the kernel process, and the word [junk] in the
    last entry of the table. *)
Definition boot (junk nx : Z) : world :=
  World (PState (PObj (if junk =? 0 then ∅ else {[PID_MAX := junk]})) (PObj None) ∅ ∅ 0 [] nx)
    {[PID_BOOT := Running]}.

(** ** The abstract machine *)

Inductive life : Type := ARun | AWait (child : Z) | AZombie (st : Z).

(** The parent and the life of every process that exists. *)
Abbreviation astate := (gmap Z (Z * life)).

Inductive astep : astate -> event -> astate -> Prop :=
| A_fork A p q pp : A !! p = Some (pp, ARun) -> A !! q = None -> PID_MIN <= q <= PID_MAX ->
    (forall j, PID_MIN <= j < q -> is_Some (A !! j)) ->
    astep A (Forked p q) (<[q := (p, ARun)]> A)
| A_full A p pp : A !! p = Some (pp, ARun) -> (forall j, PID_MIN <= j < PID_MAX -> is_Some (A !! j)) ->
    astep A (Full p) A
| A_esrch A p q pp : A !! p = Some (pp, ARun) -> A !! q = None -> astep A (WaitErr p q ESRCH) A
| A_echild A p q pp r l : A !! p = Some (pp, ARun) -> A !! q = Some (r, l) -> r <> p ->
    astep A (WaitErr p q ECHILD) A
| A_sleep A p q pp l : A !! p = Some (pp, ARun) -> A !! q = Some (p, l) -> (forall st, l <> AZombie st) ->
    astep A (Slept p q) (<[p := (pp, AWait q)]> A)
| A_reap A p q pp l st : A !! p = Some (pp, l) -> (l = ARun \/ l = AWait q) ->
    A !! q = Some (p, AZombie st) ->
    astep A (Reaped p q st) (delete q (<[p := (pp, ARun)]> A))
| A_exit A p pp st : A !! p = Some (pp, ARun) -> p <> PID_BOOT ->
    astep A (Exited p st) (<[p := (pp, AZombie st)]> A).

Definition a_boot : astate := {[PID_BOOT := (0, ARun)]}.

(** ** The simulation *)

Definition life_of (a : act) : life :=
  match a with Running => ARun | Sleeping c _ _ | Woken c _ _ => AWait c end.

(** What a process that waits holds on to: the structure of its child. *)
Definition waits_for (t : gmap Z Z) (P : gmap Z proc_pid) (p c pp cv : Z) (ex : Z) : Prop :=
  t !! c = Some pp /\ exists x, P !! pp = Some x /\ ppid_id x = p /\ pid_cv x = cv /\ pid_exited x = ex.

Definition act_ok (t : gmap Z Z) (P : gmap Z proc_pid) (C : gmap Z (list Z)) (p : Z) (a : act) : Prop :=
  match a with
  | Running => True
  | Sleeping c pp cv => waits_for t P p c pp cv 0 /\ C !! cv = Some [p]
  | Woken c pp cv => waits_for t P p c pp cv 1
  end.

(** One process, in the table, in the system and in the abstract machine. *)
Definition agree (e : option (Z * option Z)) (o : option act) (l : option (Z * life)) : Prop :=
  match e with
  | None => o = None /\ l = None
  | Some (pp, Some st) => o = None /\ l = Some (pp, AZombie st)
  | Some (pp, None) => exists a, o = Some a /\ l = Some (pp, life_of a)
  end.

Record sim_ok (t : gmap Z Z) P C (acts : gmap Z act) (A : astate) : Prop := {
  sim_procs : forall p, p <> PID_BOOT -> agree (entry t P p) (acts !! p) (A !! p);
  sim_boot : exists a, acts !! PID_BOOT = Some a /\ A !! PID_BOOT = Some (0, life_of a);
  sim_acts : forall p a, acts !! p = Some a -> act_ok t P C p a;
  sim_cvs : forall cv ws p, C !! cv = Some ws -> p ∈ ws ->
    exists c pp, acts !! p = Some (Sleeping c pp cv)
}.

Definition sim (w : world) (A : astate) : Prop :=
  exists t P C th nx, w_pids w = pst t None P C th [] nx /\ pid_ok t P C nx /\ sim_ok t P C (w_acts w) A.

(** ** Entries before and after *)

Lemma entry_created t P C nx r ppid q : pid_ok t P C nx -> t !! r = None ->
  entry (<[r := nx]> t) (<[nx := ProcPid r ppid 0 0 (nx + 1)]> P) q =
    if decide (q = r) then Some (ppid, None) else entry t P q.
Proof.
  intros Hok Hf. unfold entry, pp_of. case_decide as Hq.
  - subst. by rewrite lookup_insert_eq; cbn; rewrite lookup_insert_eq.
  - rewrite lookup_insert_ne by done. destruct (t !! q) as [a|] eqn:Ha; [|done]. cbn.
    apply (ok_slot _ _ _ _ Hok) in Ha. by rewrite lookup_insert_ne by lia.
Qed.

Lemma entry_removed t P C nx c a x q : pid_ok t P C nx -> t !! c = Some a -> P !! a = Some x ->
  entry (delete c t) (delete a P) q = if decide (q = c) then None else entry t P q.
Proof.
  intros Hok Ha Hx. unfold entry, pp_of. case_decide as Hq.
  - subst. by rewrite lookup_delete_eq.
  - rewrite lookup_delete_ne by done. destruct (t !! q) as [b|] eqn:Hb; [|done]. cbn.
    rewrite lookup_delete_ne; [done|]. intros <-.
    destruct (ok_slot _ _ _ _ Hok _ _ Ha) as (_ & _ & E1), (ok_slot _ _ _ _ Hok _ _ Hb) as (_ & _ & E2).
    rewrite Hx in E1, E2. congruence.
Qed.

Lemma entry_updated t P C nx c a x y q : pid_ok t P C nx -> t !! c = Some a -> P !! a = Some x ->
  entry t (<[a := y]> P) q = if decide (q = c) then Some (seen y) else entry t P q.
Proof.
  intros Hok Ha Hx. unfold entry, pp_of. case_decide as Hq.
  - subst. rewrite Ha. cbn. by rewrite lookup_insert_eq.
  - destruct (t !! q) as [b|] eqn:Hb; [|done]. cbn. rewrite lookup_insert_ne; [done|]. intros <-.
    destruct (ok_slot _ _ _ _ Hok _ _ Ha) as (_ & _ & E1), (ok_slot _ _ _ _ Hok _ _ Hb) as (_ & _ & E2).
    rewrite Hx in E1, E2. congruence.
Qed.

Lemma entry_found t P q a x : t !! q = Some a -> P !! a = Some x -> entry t P q = Some (seen x).
Proof. intros Ha Hx. unfold entry, pp_of. by rewrite Ha; cbn; rewrite Hx. Qed.

Lemma entry_absent t P q : t !! q = None -> entry t P q = None.
Proof. intros Ha. unfold entry, pp_of. by rewrite Ha. Qed.

Lemma seen_alive x : pid_exited x = 0 -> seen x = (ppid_id x, None).
Proof. intros He. unfold seen. by rewrite He. Qed.

Lemma seen_exited x : pid_exited x = 1 -> seen x = (ppid_id x, Some (pid_estatus x)).
Proof. intros He. unfold seen. by rewrite He. Qed.

(** ** Facts about related states *)

Section Sim.
Context {t : gmap Z Z} {P : gmap Z proc_pid} {C : gmap Z (list Z)} {nx : Z}.
Context {acts : gmap Z act} {A : astate}.
Hypothesis Hok : pid_ok t P C nx.
Hypothesis Hsim : sim_ok t P C acts A.

(** A process of the system exists in the abstract machine, with its life. *)
Lemma sim_alive p a : acts !! p = Some a -> exists pp, A !! p = Some (pp, life_of a).
Proof.
  intros Ha. destruct (decide (p = PID_BOOT)) as [->|Hp].
  - destruct (sim_boot _ _ _ _ _ Hsim) as (b & Hb & HA). exists 0. congruence.
  - pose proof (sim_procs _ _ _ _ _ Hsim p Hp) as Hag. unfold agree in Hag.
    destruct (entry t P p) as [[pp [st|]]|].
    + destruct Hag. congruence.
    + destruct Hag as (b & Hb & HA). exists pp. congruence.
    + destruct Hag. congruence.
Qed.

Lemma sim_zombie c a x : t !! c = Some a -> P !! a = Some x -> pid_exited x = 1 ->
  acts !! c = None /\ A !! c = Some (ppid_id x, AZombie (pid_estatus x)).
Proof.
  intros Ha Hx He. destruct (ok_slot _ _ _ _ Hok _ _ Ha) as (Hr & _).
  pose proof (sim_procs _ _ _ _ _ Hsim c ltac:(unfold PID_BOOT, PID_MIN in *; lia)) as Hag.
  by rewrite (entry_found _ _ _ a x), seen_exited in Hag.
Qed.

Lemma sim_live c a x : t !! c = Some a -> P !! a = Some x -> pid_exited x = 0 ->
  exists b, acts !! c = Some b /\ A !! c = Some (ppid_id x, life_of b).
Proof.
  intros Ha Hx He. destruct (ok_slot _ _ _ _ Hok _ _ Ha) as (Hr & _).
  pose proof (sim_procs _ _ _ _ _ Hsim c ltac:(unfold PID_BOOT, PID_MIN in *; lia)) as Hag.
  by rewrite (entry_found _ _ _ a x), seen_alive in Hag.
Qed.

Lemma sim_present c a : t !! c = Some a -> c < PID_MAX -> is_Some (A !! c).
Proof.
  intros Ha Hc. destruct (ok_slot _ _ _ _ Hok _ _ Ha) as (Hr & _ & Hm).
  destruct (P !! a) as [x|] eqn:Hx; [|lia].
  destruct (ok_pp _ _ _ _ Hok _ _ Hx) as [_ [He|He]].
  - destruct (sim_live c a x Ha Hx He) as (b & _ & ->). eauto.
  - destruct (sim_zombie c a x Ha Hx He) as (_ & ->). eauto.
Qed.

Lemma sim_absent c : PID_MIN <= c -> t !! c = None -> acts !! c = None /\ A !! c = None.
Proof.
  intros Hc Hn. pose proof (sim_procs _ _ _ _ _ Hsim c ltac:(unfold PID_BOOT, PID_MIN in *; lia)) as Hag.
  by rewrite entry_absent in Hag.
Qed.

(** Whoever sleeps on a process is its parent, and nobody else does. *)
Lemma sim_sleepers a x ws p : P !! a = Some x -> C !! pid_cv x = Some ws -> p ∈ ws ->
  ws = [p] /\ ppid_id x = p /\ acts !! p = Some (Sleeping (pid_id x) a (pid_cv x)).
Proof.
  intros Hx Hw Hp. destruct (sim_cvs _ _ _ _ _ Hsim _ _ _ Hw Hp) as (c & pp & Hact).
  destruct (sim_acts _ _ _ _ _ Hsim _ _ Hact) as [(Hc & y & Hy & Hpp & Hcv & He) Hone].
  assert (pp = a) as -> by (by eapply (ok_own _ _ _ _ Hok)).
  assert (y = x) as -> by congruence.
  destruct (ok_slot _ _ _ _ Hok _ _ Hc) as (_ & _ & Hid). rewrite Hx in Hid. subst c.
  split_and!; [congruence|done|done].
Qed.

Lemma sim_no_sleepers a x ws : P !! a = Some x -> C !! pid_cv x = Some ws ->
  acts !! ppid_id x = Some Running -> ws = [].
Proof.
  intros Hx Hw Hrun. destruct ws as [|w ws]; [done|].
  destruct (sim_sleepers a x (w :: ws) w Hx Hw) as (_ & E & Hact); [set_solver|]. congruence.
Qed.

(** *** The states after each kind of step are related again *)

(** The life of one process changes with what its thread does. *)
Lemma sim_act p a b pp : acts !! p = Some a -> A !! p = Some (pp, life_of a) ->
  (forall q, q <> PID_BOOT -> agree (entry t P q) (<[p := b]> acts !! q) (<[p := (pp, life_of b)]> A !! q)) /\
  exists c, <[p := b]> acts !! PID_BOOT = Some c /\
    <[p := (pp, life_of b)]> A !! PID_BOOT = Some (0, life_of c).
Proof.
  intros Ha HA. split.
  - intros q Hq. pose proof (sim_procs _ _ _ _ _ Hsim q Hq) as Hag.
    destruct (decide (p = q)) as [<-|Hne]; [|rewrite !lookup_insert_ne by done; exact Hag].
    rewrite !lookup_insert_eq. unfold agree in *. rewrite Ha, HA in Hag.
    destruct (entry t P p) as [[r [st|]]|]; [by destruct Hag| |by destruct Hag].
    destruct Hag as (c & _ & [= -> _]). eauto.
  - destruct (sim_boot _ _ _ _ _ Hsim) as (c & Hc & HB).
    destruct (decide (p = PID_BOOT)) as [->|Hne]; [|rewrite !lookup_insert_ne by done; eauto].
    rewrite !lookup_insert_eq. exists b. split; [done|]. congruence.
Qed.

Lemma sim_forked r p : t !! r = None -> PID_MIN <= r <= PID_MAX ->
  sim_ok (<[r := nx]> t) (<[nx := ProcPid r p 0 0 (nx + 1)]> P) (<[nx + 1 := []]> C)
    (<[r := Running]> acts) (<[r := (p, ARun)]> A).
Proof.
  intros Hf Hr. destruct (sim_absent r ltac:(lia) Hf) as [Hact HA].
  assert (r <> PID_BOOT) as Hrb by (unfold PID_BOOT, PID_MIN in *; lia).
  assert (forall q c pp cv ex, waits_for t P q c pp cv ex ->
    waits_for (<[r := nx]> t) (<[nx := ProcPid r p 0 0 (nx + 1)]> P) q c pp cv ex /\ cv <> nx + 1) as Hwait.
  { intros q c pp cv ex (Hc & x & Hx & ? & ? & ?). pose proof (ok_slot _ _ _ _ Hok _ _ Hc) as (_ & ? & _).
    pose proof (ok_cv _ _ _ _ Hok _ _ Hx) as [? _]. split; [|lia]. split.
    - rewrite lookup_insert_ne; [done|congruence].
    - exists x. by rewrite lookup_insert_ne by lia. }
  split.
  - intros q Hq. rewrite (entry_created _ _ _ _ _ _ _ Hok Hf). case_decide as Hqr.
    + subst. rewrite !lookup_insert_eq. by exists Running.
    + rewrite !lookup_insert_ne by done. by apply (sim_procs _ _ _ _ _ Hsim).
  - rewrite !lookup_insert_ne by done. apply (sim_boot _ _ _ _ _ Hsim).
  - intros q a Ha. apply lookup_insert_Some in Ha as [[<- <-]|[Hne Ha]]; [done|].
    apply (sim_acts _ _ _ _ _ Hsim) in Ha. destruct a as [|c pp cv|c pp cv]; simpl in *; [done| |by apply Hwait].
    destruct Ha as [Hw Hc]. apply Hwait in Hw as [Hw ?]. split; [done|]. by rewrite lookup_insert_ne.
  - intros cv ws q Hw Hin. apply lookup_insert_Some in Hw as [[<- <-]|[Hne Hw]]; [by apply not_elem_of_nil in Hin|].
    destruct (sim_cvs _ _ _ _ _ Hsim _ _ _ Hw Hin) as (c & pp & E). exists c, pp.
    rewrite lookup_insert_ne; [done|congruence].
Qed.

Lemma sim_slept c a x p pp : t !! c = Some a -> P !! a = Some x -> pid_exited x = 0 -> ppid_id x = p ->
  acts !! p = Some Running -> A !! p = Some (pp, ARun) ->
  sim_ok t P (<[pid_cv x := [p]]> C) (<[p := Sleeping c a (pid_cv x)]> acts) (<[p := (pp, AWait c)]> A).
Proof.
  intros Hc Hx He Hp Hrun HA.
  destruct (sim_act p Running (Sleeping c a (pid_cv x)) pp Hrun HA) as [Hprocs Hboot].
  split; [done|done| |].
  - intros q b Hb. apply lookup_insert_Some in Hb as [[<- <-]|[Hne Hb]].
    + split; [by split; eauto|]. by rewrite lookup_insert_eq.
    + apply (sim_acts _ _ _ _ _ Hsim) in Hb. destruct b as [|c' pp' cv'|]; simpl in *; [done| |done].
      destruct Hb as [Hw Hone]. split; [done|]. destruct Hw as (_ & y & Hy & Hpy & Hcv & _).
      rewrite lookup_insert_ne; [done|]. intros E.
      assert (a = pp') as -> by (eapply (ok_own _ _ _ _ Hok); [done..|congruence]). congruence.
  - intros cv ws q Hw Hin. apply lookup_insert_Some in Hw as [[<- <-]|[Hne Hw]].
    + apply list_elem_of_singleton in Hin as ->. rewrite lookup_insert_eq. eauto.
    + destruct (sim_cvs _ _ _ _ _ Hsim _ _ _ Hw Hin) as (c' & pp' & E). exists c', pp'.
      rewrite lookup_insert_ne; [done|congruence].
Qed.

Lemma sim_reaped c a x p b pp : t !! c = Some a -> P !! a = Some x -> pid_exited x = 1 -> ppid_id x = p ->
  acts !! p = Some b -> (forall c' pp' cv', b <> Sleeping c' pp' cv') -> A !! p = Some (pp, life_of b) ->
  sim_ok (delete c t) (delete a P) (delete (pid_cv x) C) (<[p := Running]> acts)
    (delete c (<[p := (pp, ARun)]> A)).
Proof.
  intros Hc Hx He Hp Hb Hns HA.
  destruct (sim_act p b Running pp Hb HA) as [Hprocs Hboot]. simpl in *.
  destruct (sim_zombie c a x Hc Hx He) as [Hcn _].
  assert (p <> c) as Hpc by congruence.
  assert (c <> PID_BOOT) as Hcb.
  { destruct (ok_slot _ _ _ _ Hok _ _ Hc) as (Hr & _). unfold PID_BOOT, PID_MIN in *. lia. }
  assert (forall q c' pp' cv' ex, q <> p -> waits_for t P q c' pp' cv' ex ->
    waits_for (delete c t) (delete a P) q c' pp' cv' ex /\ cv' <> pid_cv x) as Hwait.
  { intros q c' pp' cv' ex Hq (Hc' & y & Hy & Hpy & Hcv & Hex).
    assert (pp' <> a) as Hne by (intros ->; congruence). split; [split|].
    - rewrite lookup_delete_ne; [done|]. intros <-. congruence.
    - exists y. by rewrite lookup_delete_ne by done.
    - intros E. apply Hne. eapply (ok_own _ _ _ _ Hok); [done..|congruence]. }
  split.
  - intros q Hq. rewrite (entry_removed _ _ _ _ _ _ _ _ Hok Hc Hx). case_decide as Hqc.
    + subst q. rewrite lookup_insert_ne, lookup_delete_eq by done. done.
    + rewrite lookup_delete_ne by done. by apply Hprocs.
  - by rewrite lookup_delete_ne by done.
  - intros q d Hd. apply lookup_insert_Some in Hd as [[<- <-]|[Hne Hd]]; [done|].
    apply (sim_acts _ _ _ _ _ Hsim) in Hd. destruct d as [|c' pp' cv'|c' pp' cv']; simpl in *; [done| |by apply Hwait].
    destruct Hd as [Hw Hone]. apply Hwait in Hw as [Hw ?]; [|done]. split; [done|]. by rewrite lookup_delete_ne by done.
  - intros cv ws q Hw Hin. apply lookup_delete_Some in Hw as [Hne Hw].
    destruct (sim_cvs _ _ _ _ _ Hsim _ _ _ Hw Hin) as (c' & pp' & E). exists c', pp'.
    rewrite lookup_insert_ne; [done|]. intros <-. rewrite Hb in E. injection E as ->. by eapply Hns.
Qed.

(** The threads woken by an exit. *)
Definition woken (ws : list Z) (c a cv : Z) (m : gmap Z act) : gmap Z act :=
  match ws with [] => m | w :: _ => <[w := Woken c a cv]> m end.

Lemma woken_acts p a x ws : t !! p = Some a -> P !! a = Some x -> C !! pid_cv x = Some ws ->
  acts !! p = Some Running ->
  let m := woken ws p a (pid_cv x) (delete p acts) in
  m !! p = None /\ forall q, q <> p -> (m !! q = acts !! q /\ ws <> [q]) \/
    (ws = [q] /\ m !! q = Some (Woken p a (pid_cv x)) /\ acts !! q = Some (Sleeping p a (pid_cv x)) /\
     ppid_id x = q).
Proof.
  intros Ha Hx Hw Hrun m. destruct (ok_slot _ _ _ _ Hok _ _ Ha) as (_ & _ & Hid). rewrite Hx in Hid.
  destruct ws as [|w ws]; simpl in m.
  - split; [by apply lookup_delete_eq|]. intros q Hq. left. unfold m. by rewrite lookup_delete_ne by done.
  - destruct (sim_sleepers a x (w :: ws) w Hx Hw) as (E & Hpp & Hact); [set_solver|].
    rewrite Hid in Hact. assert (w <> p) as Hwp by congruence. rewrite E.
    split; [unfold m; by rewrite lookup_insert_ne, lookup_delete_eq by done|].
    intros q Hq. destruct (decide (w = q)) as [<-|Hne]; [right|left]; unfold m.
    + by rewrite lookup_insert_eq.
    + rewrite lookup_insert_ne, lookup_delete_ne by done. split; [done|congruence].
Qed.

Lemma sim_exited p a x ws pp st : t !! p = Some a -> P !! a = Some x -> C !! pid_cv x = Some ws ->
  acts !! p = Some Running -> A !! p = Some (pp, ARun) -> pid_exited x = 0 -> p <> PID_BOOT ->
  sim_ok t (<[a := exited x st]> P) (<[pid_cv x := []]> C)
    (woken ws p a (pid_cv x) (delete p acts)) (<[p := (pp, AZombie st)]> A).
Proof.
  intros Ha Hx Hw Hrun HA He Hp.
  destruct (woken_acts p a x ws Ha Hx Hw Hrun) as [Hgone Hother].
  set (m := woken ws p a (pid_cv x) (delete p acts)) in *. clearbody m.
  assert (ppid_id x = pp) as Hpp.
  { destruct (sim_live p a x Ha Hx He) as (b & _ & E). congruence. }
  assert (forall q, q <> p -> life_of <$> (m !! q) = life_of <$> (acts !! q)) as Hlife.
  { intros q Hq. destruct (Hother q Hq) as [[-> _]|(_ & -> & -> & _)]; done. }
  split.
  - intros q Hq. rewrite (entry_updated _ _ _ _ _ _ _ _ _ Hok Ha Hx). case_decide as Hqp.
    { subst q. rewrite Hgone, lookup_insert_eq. simpl. by rewrite Hpp. }
    rewrite lookup_insert_ne by done. pose proof (sim_procs _ _ _ _ _ Hsim q Hq) as Hag.
    specialize (Hlife q Hqp). unfold agree in *. destruct (entry t P q) as [[r [st'|]]|].
    + destruct Hag as [Hn ?]. rewrite Hn in Hlife. split; [by apply fmap_None in Hlife|done].
    + destruct Hag as (b & Hb & HAb). rewrite Hb in Hlife. apply fmap_Some in Hlife as (d & Hd & El).
      exists d. split; [done|]. congruence.
    + destruct Hag as [Hn ?]. rewrite Hn in Hlife. split; [by apply fmap_None in Hlife|done].
  - destruct (sim_boot _ _ _ _ _ Hsim) as (b & Hb & HB). specialize (Hlife PID_BOOT ltac:(congruence)).
    rewrite Hb in Hlife. apply fmap_Some in Hlife as (d & Hd & El). exists d.
    rewrite lookup_insert_ne by done. split; [done|]. congruence.
  - intros q b Hb. assert (q <> p) as Hqp by congruence.
    destruct (Hother q Hqp) as [[E Hne]|(Ews & E & Hs & Hq)]; rewrite E in Hb.
    2:{ injection Hb as <-. split; [done|]. exists (exited x st). by rewrite lookup_insert_eq. }
    apply (sim_acts _ _ _ _ _ Hsim) in Hb. destruct b as [|c pp' cv|c pp' cv]; simpl in *; [done|..].
    + destruct Hb as [(Hc & y & Hy & Hpy & Hcv & Hey) Hone].
      assert (pp' <> a) as Hpa.
      { intros ->. assert (y = x) as -> by congruence. congruence. }
      split; [split; [done|]|].
      * exists y. by rewrite lookup_insert_ne by done.
      * rewrite lookup_insert_ne; [done|]. intros Ecv. apply Hpa. eapply (ok_own _ _ _ _ Hok); [done..|congruence].
    + destruct Hb as (Hc & y & Hy & Hpy & Hcv & Hey). split; [done|]. exists y.
      rewrite lookup_insert_ne; [done|]. intros <-. congruence.
  - intros cv ws' q Hw' Hin. apply lookup_insert_Some in Hw' as [[<- <-]|[Hne Hw']]; [by apply not_elem_of_nil in Hin|].
    destruct (sim_cvs _ _ _ _ _ Hsim _ _ _ Hw' Hin) as (c & pp' & E). exists c, pp'.
    assert (q <> p) as Hqp by congruence.
    destruct (Hother q Hqp) as [[-> _]|(_ & _ & Hs & _)]; [done|]. congruence.
Qed.
End Sim.

(** ** Every step of the system is a step of the abstract machine *)

Lemma as_thread_eq {R} p (m : M pstate R) t h P C th al nx acts r s' :
  m (pst t h P C p al nx) = Ok r s' ->
  as_thread p m (World (pst t h P C th al nx) acts) = Ok r (World s' acts).
Proof. intros Hm. unfold as_thread. simpl. by rewrite Hm. Qed.

Lemma sim_intro t P C th nx acts A : pid_ok t P C nx -> sim_ok t P C acts A ->
  sim (World (pst t None P C th [] nx) acts) A.
Proof. intros Hok Hsim. by exists t, P, C, th, nx. Qed.

Section Step.
Context {t : gmap Z Z} {P : gmap Z proc_pid} {C : gmap Z (list Z)} {th nx : Z}.
Context {acts : gmap Z act} {A : astate}.
Hypothesis Hok : pid_ok t P C nx.
Hypothesis Hsim : sim_ok t P C acts A.
Abbreviation w0 := (World (pst t None P C th [] nx) acts).

Lemma step_fork p : acts !! p = Some Running ->
  exists e w' A', exec p Fork w0 = Ok e w' /\ astep A e A' /\ sim w' A'.
Proof.
  intros Hrun. destruct (sim_alive Hsim p Running Hrun) as [pp HA].
  destruct (pid_create_core t P C p [] nx p Hok ltac:(apply Forall_nil_2)) as (r & s' & Hr & Hc).
  unfold exec. rewrite (bind_eq get _ _ _ _ eq_refl). cbn [w_acts]. rewrite Hrun.
  run (as_thread_eq p _ t None P C th [] nx acts r s' Hr).
  destruct Hc as [(-> & -> & Hfull)|(Hrange & Hfree & Hleast & ->)].
  - rewrite Z.eqb_refl. do 3 eexists. split; [done|]. split; [|by apply sim_intro].
    eapply A_full; [done|]. intros j Hj. destruct (Hfull j ltac:(lia)) as [a Ha].
    apply (sim_present Hok Hsim j a Ha). lia.
  - destruct (Z.eqb_spec r (-1)); [unfold PID_MIN in *; lia|].
    do 3 eexists. split; [done|]. split.
    + eapply A_fork; [done|apply (sim_absent Hsim); [lia|done]|done|]. intros j Hj.
      destruct (Hleast j Hj) as [a Ha]. apply (sim_present Hok Hsim j a Ha). lia.
    + apply sim_intro; [by apply created_ok|by apply sim_forked].
Qed.

Lemma step_wait p q : acts !! p = Some Running -> PID_MIN <= q <= PID_MAX ->
  ~ wild (w_pids w0) q ->
  exists e w' A', exec p (Wait q) w0 = Ok e w' /\ astep A e A' /\ sim w' A'.
Proof.
  intros Hrun Hq Hwild. destruct (sim_alive Hsim p Running Hrun) as [pp HA].
  unfold exec. rewrite (bind_eq get _ _ _ _ eq_refl). cbn [w_acts]. rewrite Hrun.
  destruct (t !! q) as [a|] eqn:Ha.
  2:{ run (as_thread_eq p _ t None P C th [] nx acts _ _ (pid_wait_absent t P C p [] nx q p ltac:(unfold PID_MIN in *; lia) Ha)).
      do 3 eexists. split; [done|]. split; [|by apply sim_intro]. eapply A_esrch; [done|].
      apply (sim_absent Hsim); [lia|done]. }
  destruct (P !! a) as [x|] eqn:Hx; [|exfalso; apply Hwild; unfold wild; cbn; eauto].
  destruct (decide (ppid_id x = p)) as [Hp|Hp].
  2:{ run (as_thread_eq p _ t None P C th [] nx acts _ _ (pid_wait_foreign t P C p [] nx q p a x Hok Ha Hx Hp)).
      do 3 eexists. split; [done|]. split; [|by apply sim_intro].
      destruct (ok_pp _ _ _ _ Hok _ _ Hx) as [_ [He|He]].
      - destruct (sim_live Hok Hsim q a x Ha Hx He) as (b & _ & E). by eapply A_echild.
      - destruct (sim_zombie Hok Hsim q a x Ha Hx He) as (_ & E). by eapply A_echild. }
  destruct (ok_pp _ _ _ _ Hok _ _ Hx) as [_ [He|He]].
  - destruct (ok_cv _ _ _ _ Hok _ _ Hx) as [_ (ws & Hw & _)].
    assert (ws = []) as -> by (apply (sim_no_sleepers Hok Hsim a x ws Hx Hw); by rewrite Hp).
    pose proof (pid_wait_sleeps t P C p [] nx q a x [] Hok Ha Hx He Hw) as Hr. rewrite Hp in Hr.
    run (as_thread_eq p _ t None P C th [] nx acts _ _ Hr).
    destruct (sim_live Hok Hsim q a x Ha Hx He) as (b & _ & E). rewrite Hp in E.
    do 3 eexists. split; [done|]. split; [by eapply A_sleep; [done|done|destruct b]|].
    apply sim_intro; [|by apply (sim_slept Hok Hsim)].
    pose proof (updated_ok t P C nx a x x [p] Hok Hx eq_refl eq_refl (or_introl He)) as Hu.
    rewrite insert_id in Hu by done. apply Hu. lia.
  - pose proof (pid_wait_zombie t P C p [] nx q a x Hok Ha Hx He) as Hr. rewrite Hp in Hr.
    run (as_thread_eq p _ t None P C th [] nx acts _ _ Hr).
    destruct (sim_zombie Hok Hsim q a x Ha Hx He) as (_ & E). rewrite Hp in E.
    do 3 eexists. split; [done|]. split; [eapply A_reap; [done|by left|done]|].
    destruct (ok_slot _ _ _ _ Hok _ _ Ha) as (_ & _ & Hid). rewrite Hx in Hid.
    pose proof (sim_reaped Hok Hsim q a x p Running pp Ha Hx He Hp Hrun ltac:(done) HA) as Hs.
    rewrite insert_id in Hs by done. apply sim_intro; [|done]. rewrite <- Hid. by apply removed_ok.
Qed.

Lemma step_exit p st : acts !! p = Some Running -> p <> PID_BOOT ->
  exists e w' A', exec p (Exit st) w0 = Ok e w' /\ astep A e A' /\ sim w' A'.
Proof.
  intros Hrun Hp. destruct (sim_alive Hsim p Running Hrun) as [pp HA].
  pose proof (sim_procs _ _ _ _ _ Hsim p Hp) as Hag. rewrite Hrun in Hag.
  destruct (entry t P p) as [e|] eqn:He; [|by destruct Hag]. apply fmap_Some in He as (x & Hx & ->).
  destruct (pp_of_slot t P C nx p x Hok Hx) as (a & Ha & Hx' & _).
  destruct (ok_pp _ _ _ _ Hok _ _ Hx') as [_ [He|He]]; [|rewrite seen_exited in Hag by done; by destruct Hag].
  destruct (ok_cv _ _ _ _ Hok _ _ Hx') as [_ (ws & Hw & _)].
  unfold exec. rewrite (bind_eq get _ _ _ _ eq_refl). cbn [w_acts]. rewrite Hrun.
  run (as_thread_eq p _ t None P C th [] nx acts _ _ (pid_exit_eq t P C p [] nx p a x ws st Hok Ha Hx' Hw)).
  unfold end_thread. rewrite modify_bind. cbn [w_pids w_acts].
  assert (forall s, for_each ws wake (World s (delete p acts)) =
    Ok tt (World s (woken ws p a (pid_cv x) (delete p acts)))) as Hwake.
  { intros s. destruct (woken_acts Hok Hsim p a x ws Ha Hx' Hw Hrun) as [_ Hother].
    destruct ws as [|w ws]; [done|].
    destruct (sim_sleepers Hok Hsim a x (w :: ws) w Hx' Hw) as ([= ->] & _); [set_solver|].
    assert (w <> p) as Hwp.
    { intros ->. destruct (sim_sleepers Hok Hsim a x [p] p Hx' Hw) as (_ & _ & E); [set_solver|]. congruence. }
    destruct (Hother w Hwp) as [[_ E]|(_ & _ & Hs & _)]; [done|]. simpl.
    unfold wake, get, set_act, modify, mbind, M_bind. cbn. rewrite lookup_delete_ne by done. by rewrite Hs. }
  rewrite (bind_eq _ _ _ _ _ (Hwake _)).
  do 3 eexists. split; [done|]. split; [by eapply A_exit|].
  apply sim_intro; [apply (updated_ok t P C nx a x (exited x st) []); auto|by apply (sim_exited Hok Hsim)].
Qed.

Lemma step_resume p c a cv : acts !! p = Some (Woken c a cv) ->
  exists e w' A', exec p Resume w0 = Ok e w' /\ astep A e A' /\ sim w' A' /\
    exists st, e = Reaped p c st /\ A !! c = Some (p, AZombie st).
Proof.
  intros Hw. destruct (sim_alive Hsim p _ Hw) as [pp HA].
  destruct (sim_acts _ _ _ _ _ Hsim _ _ Hw) as (Ha & x & Hx & Hp & <- & He).
  unfold exec. rewrite (bind_eq get _ _ _ _ eq_refl). cbn [w_acts]. rewrite Hw.
  run (as_thread_eq p _ t None P C th [] nx acts _ _ (pid_wait_woken_eq t P C p [] nx c a x Hok Ha Hx He)).
  destruct (sim_zombie Hok Hsim c a x Ha Hx He) as (_ & E). rewrite Hp in E.
  do 3 eexists. split; [done|]. split; [eapply A_reap; [done|by right|done]|]. split; [|by eexists].
  destruct (ok_slot _ _ _ _ Hok _ _ Ha) as (_ & _ & Hid). rewrite Hx in Hid.
  apply sim_intro; [rewrite <- Hid; by apply removed_ok|].
  by apply (sim_reaped Hok Hsim c a x p (Woken c a (pid_cv x)) pp).
Qed.
End Step.

Lemma sim_step w A p c : sim w A -> enabled w p c ->
  exists e w' A', exec p c w = Ok e w' /\ astep A e A' /\ sim w' A'.
Proof.
  intros (t & P & C & th & nx & Hw & Hok & Hsim) Hen. destruct w as [s acts]. simpl in Hw. subst s.
  unfold enabled in Hen. simpl in Hen, Hsim.
  destruct (acts !! p) as [[|c1 a1 cv1|c1 a1 cv1]|] eqn:Hact; [|done| |done].
  - destruct c; [by apply step_fork|destruct Hen; by apply step_wait|by apply step_exit|done].
  - destruct c; [done..|]. destruct (step_resume (th := th) Hok Hsim p c1 a1 cv1 Hact) as (e & w' & A' & ? & ? & ? & _).
    by exists e, w', A'.
Qed.

Lemma sim_boots junk nx : 0 <= junk < nx -> sim (boot junk nx) a_boot.
Proof.
  intros Hj. apply sim_intro.
  - split; try (intros; by rewrite lookup_empty in *); [|lia].
    intros i a Hi. destruct (Z.eqb_spec junk 0); [done|].
    apply lookup_singleton_Some in Hi as [<- <-]. rewrite lookup_empty. unfold PID_MIN, PID_MAX. lia.
  - split.
    + intros p Hp. unfold a_boot. simpl. rewrite !lookup_singleton_ne by done.
      assert (forall t, entry t ∅ p = None) as ->; [|done]. intros t. unfold entry, pp_of.
      destruct (t !! p) as [a|]; [|done]. cbn. by rewrite lookup_empty.
    + by exists Running.
    + intros p a Ha. by apply lookup_singleton_Some in Ha as [_ <-].
    + intros cv ws p Hw. by rewrite lookup_empty in Hw.
Qed.
End PidSys.
