(* ===== verification/PidProps.v ===== *)
(** * Properties of fork, wait and exit

    Over all interleavings of the calls of pid.c made by any number of
    processes: the table behaves like the abstract machine of [PidSys], a
    status is delivered to the parent that asks for it, once, and a parent that
    sleeps is woken.  Memory does not run out in these runs. *)

From S2P Require Import Prelude Kern Pid PidSpec PidSys.
Open Scope Z_scope.
Import Pid PidSpec PidSys.

Module PidProps.

Inductive aruns (A0 : astate) : list event -> astate -> Prop :=
| ARuns_refl : aruns A0 [] A0
| ARuns_step tr A1 e A2 : aruns A0 tr A1 -> astep A1 e A2 -> aruns A0 (e :: tr) A2.

(** The event creates, ends or removes process [c]. *)
Definition about (c : Z) (e : event) : bool :=
  match e with
  | Forked _ q | Reaped _ q _ | Exited q _ => q =? c
  | _ => false
  end.
Definition quiet (c : Z) (tr : list event) : Prop := Forall (fun e => about c e = false) tr.

(** What the past says of a process that exists. *)
Definition past (tr : list event) (c pp : Z) (l : life) : Prop :=
  match l with
  | AZombie st => exists tr1 tr2 tr3, tr = tr1 ++ Exited c st :: tr2 ++ Forked pp c :: tr3 /\
      quiet c tr1 /\ quiet c tr2
  | _ => exists tr2 tr3, tr = tr2 ++ Forked pp c :: tr3 /\ quiet c tr2
  end.

Lemma past_cons tr c pp l e : about c e = false -> past tr c pp l -> past (e :: tr) c pp l.
Proof.
  intros He Hp. destruct l as [|c'|st]; simpl in *.
  - destruct Hp as (tr2 & tr3 & -> & Hq). exists (e :: tr2), tr3. by repeat constructor.
  - destruct Hp as (tr2 & tr3 & -> & Hq). exists (e :: tr2), tr3. by repeat constructor.
  - destruct Hp as (tr1 & tr2 & tr3 & -> & Hq1 & Hq2). exists (e :: tr1), tr2, tr3. by repeat constructor.
Qed.

Lemma past_alive tr c pp l l' : (forall st, l <> AZombie st) -> (forall st, l' <> AZombie st) ->
  past tr c pp l -> past tr c pp l'.
Proof. intros Hl Hl'. destruct l; destruct l'; simpl; naive_solver. Qed.

(** The kernel process is never forked and never reaped. *)
Lemma aruns_boot tr A : aruns a_boot tr A -> exists l, A !! PID_BOOT = Some (0, l) /\ forall st, l <> AZombie st.
Proof.
  induction 1 as [|tr A1 e A2 _ IH Hstep]; [by exists ARun|].
  destruct IH as (l & Hl & Hnz).
  destruct Hstep as [A p q pp Hp Hq Hr Hlo|A p pp Hp Hall|A p q pp Hp Hq|A p q pp r l' Hp Hq Hrp
    |A p q pp l' Hp Hq Hz|A p q pp l' st Hp Hl' Hq|A p pp st Hp Hnb]; eauto.
  - rewrite lookup_insert_ne by congruence. eauto.
  - destruct (decide (p = PID_BOOT)) as [->|]; [|rewrite lookup_insert_ne by done; eauto].
    rewrite lookup_insert_eq. assert (pp = 0) as -> by congruence. eauto.
  - rewrite lookup_delete_ne by (intros ->; rewrite Hl in Hq; injection Hq as _ ->; by eapply Hnz).
    destruct (decide (p = PID_BOOT)) as [->|]; [|rewrite lookup_insert_ne by done; eauto].
    rewrite lookup_insert_eq. assert (pp = 0) as -> by congruence. eauto.
  - rewrite lookup_insert_ne by done. eauto.
Qed.

Lemma aruns_past tr A : aruns a_boot tr A ->
  forall c pp l, c <> PID_BOOT -> A !! c = Some (pp, l) -> past tr c pp l.
Proof.
  induction 1 as [|tr A1 e A2 Hruns IH Hstep]; intros c pc lc Hc HA.
  { unfold a_boot in HA. by rewrite lookup_singleton_ne in HA. }
  destruct Hstep as [A p q pp Hp Hq Hr Hlo|A p pp Hp Hall|A p q pp Hp Hq|A p q pp r l' Hp Hq Hrp
    |A p q pp l' Hp Hq Hz|A p q pp l' st Hp Hl' Hq|A p pp st Hp Hnb].
  - apply lookup_insert_Some in HA as [[<- [= <- <-]]|[Hne HA]]; [exists [], tr; split; [done|constructor]|].
    apply past_cons; [by apply Z.eqb_neq|auto].
  - apply past_cons; auto.
  - apply past_cons; auto.
  - apply past_cons; auto.
  - apply past_cons; [done|]. apply lookup_insert_Some in HA as [[<- [= <- <-]]|[Hne HA]]; [|auto].
    apply (past_alive _ _ _ ARun); [done|done|]. auto.
  - apply lookup_delete_Some in HA as [Hqc HA]. apply past_cons; [by apply Z.eqb_neq|].
    apply lookup_insert_Some in HA as [[<- [= <- <-]]|[Hne HA]]; [|auto].
    apply (past_alive _ _ _ l'); [destruct Hl' as [-> | ->]; done|done|auto].
  - apply lookup_insert_Some in HA as [[<- [= <- <-]]|[Hne HA]].
    + destruct (IH p pp ARun Hc Hp) as (tr2 & tr3 & -> & Hq). exists [], tr2, tr3. by repeat constructor.
    + apply past_cons; [by apply Z.eqb_neq|auto].
Qed.

(** Conversely, a process whose last event is its exit is a zombie. *)
Lemma aruns_exit tr1 tr2 c st A : aruns a_boot (tr1 ++ Exited c st :: tr2) A -> quiet c tr1 ->
  exists pp, A !! c = Some (pp, AZombie st).
Proof.
  revert A. induction tr1 as [|e tr1 IH]; intros A Hr Hq; simpl in Hr; inversion Hr as [|? A1 ? ? Hr1 Hstep]; subst.
  - inversion Hstep; subst. eexists. by rewrite lookup_insert_eq.
  - apply Forall_cons in Hq as [He Hq]. destruct (IH A1 Hr1 Hq) as (pp & HA). exists pp.
    assert (forall p r, A1 !! p = Some (r, ARun) -> p <> c) as Hrun by (intros p r Hp ->; congruence).
    inversion Hstep; subst; simpl in He; try done.
    + rewrite lookup_insert_ne; [done|congruence].
    + rewrite lookup_insert_ne; [done|eauto].
    + apply Z.eqb_neq in He. rewrite lookup_delete_ne by done. rewrite lookup_insert_ne; [done|].
      intros ->. match goal with Hl : _ \/ _ |- _ => destruct Hl as [-> | ->] end; congruence.
    + rewrite lookup_insert_ne; [done|eauto].
Qed.

Lemma runs_sim junk nx tr w : 0 <= junk < nx -> runs (boot junk nx) tr w ->
  exists A, aruns a_boot tr A /\ sim w A.
Proof.
  intros Hj. induction 1 as [|tr w1 e w2 _ IH Hstep].
  { exists a_boot. split; [constructor|by apply sim_boots]. }
  destruct IH as (A & Har & Hs). destruct Hstep as [w p c e w' Hen He].
  destruct (sim_step w A p c Hs Hen) as (e2 & w2 & A' & He2 & Ha & Hs'). rewrite He in He2. injection He2 as <- <-.
  exists A'. split; [by econstructor|done].
Qed.

(** C28: the table of pid.c refines the abstract machine of processes that run,
    wait for a child or are zombies, in every interleaving: each run of the
    system is a run of the machine, with the lowest free id given out and
    ESRCH, ECHILD and full tables reported as the machine does; and no call
    that a process can make ever goes wrong.  The calls are fork, exit, a wait
    on an entry of the table that was written, and going on after a wake-up; the
    allocations of pid_create, which the code does not check, succeed. *)
Theorem pid_refines junk nx tr w : 0 <= junk < nx -> runs (boot junk nx) tr w ->
  (exists A, aruns a_boot tr A /\ sim w A) /\
  forall p c, enabled w p c -> exists e w', exec p c w = Ok e w' /\ step w e w'.
Proof.
  intros Hj Hr. destruct (runs_sim junk nx tr w Hj Hr) as (A & Har & Hs). split; [by exists A|].
  intros p c Hen. destruct (sim_step w A p c Hs Hen) as (e & w' & _ & He & _). exists e, w'.
  split; [done|by econstructor].
Qed.

(** C29: a wait that succeeds returns the status its child exited with: between
    the fork of the child by this process (id) and the return there is exactly
    one exit of the child, with this status, and the child has not been reaped
    before. *)
Theorem reaped_status junk nx tr w p c st : 0 <= junk < nx ->
  runs (boot junk nx) (Reaped p c st :: tr) w ->
  exists tr1 tr2 tr3, tr = tr1 ++ Exited c st :: tr2 ++ Forked p c :: tr3 /\ quiet c tr1 /\ quiet c tr2.
Proof.
  intros Hj Hr. destruct (runs_sim junk nx _ w Hj Hr) as (A & Har & _).
  inversion Har as [|? A1 ? ? Har1 Hstep]; subst. inversion Hstep; subst.
  apply (aruns_past tr A1 Har1 c p (AZombie st)); [|done]. intros ->.
  destruct (aruns_boot tr A1 Har1) as (l' & Hl & Hnz). congruence.
Qed.

(** C30: no wakeup is lost: when a child has exited and its parent waits for it,
    the parent's thread is runnable, and its call returns the child's status. *)
Theorem exit_wakes_parent junk nx tr1 tr2 w p c st a : 0 <= junk < nx ->
  runs (boot junk nx) (tr1 ++ Exited c st :: tr2) w -> quiet c tr1 ->
  w_acts w !! p = Some a -> life_of a = AWait c ->
  exists w', exec p Resume w = Ok (Reaped p c st) w'.
Proof.
  intros Hj Hr Hq Ha Hl. destruct (runs_sim junk nx _ w Hj Hr) as (A & Har & Hs).
  destruct (aruns_exit tr1 tr2 c st A Har Hq) as (pp & HA).
  destruct Hs as (t & P & C & th & n & Hw & Hok & Hsim). destruct w as [s acts]. simpl in *. subst s.
  pose proof (sim_acts _ _ _ _ _ Hsim _ _ Ha) as Hact.
  destruct a as [|c' b cv|c' b cv]; simpl in *; [done|injection Hl as ->..].
  - destruct Hact as [(Hb & x & Hx & _ & _ & He) _].
    destruct (sim_live Hok Hsim c b x Hb Hx He) as (d & _ & E). rewrite HA in E. by destruct d.
  - destruct (step_resume (th := th) Hok Hsim p c b cv Ha) as (e & w' & A' & Hex & _ & _ & st' & -> & E).
    exists w'. rewrite HA in E. by injection E as _ <-.
Qed.

(** ** Concrete runs *)

Definition after (p : Z) (c : call) (w : world) : world :=
  match exec p c w with Ok _ w' => w' | Fault _ => w end.

Lemma step_after w p c e : enabled w p c ->
  match exec p c w with Ok e' _ => e' = e | Fault _ => False end -> step w e (after p c w).
Proof.
  intros Hen He. unfold after. apply (Step w p c); [done|].
  destruct (exec p c w) as [e' w'|]; [by rewrite He|done].
Qed.

(** No entry of the table is wild, as long as the last one is NULL or used. *)
Lemma enabled_wait w p q : w_acts w !! p = Some Running -> PID_MIN <= q <= PID_MAX ->
  match pid_table (w_pids w) with
  | PObj t => match t !! q with Some a => is_Some (pps (w_pids w) !! a) | None => True end
  | _ => False
  end -> enabled w p (Wait q).
Proof.
  intros Hrun Hq Hw. unfold enabled. rewrite Hrun. split; [done|]. unfold wild.
  destruct (pid_table (w_pids w)) as [| |t]; [done|done|]. intros (a & Ha & Hn). rewrite Ha, Hn in Hw.
  by destruct Hw.
Qed.

Ltac go w p c := eapply (Runs_step _ _ w _ (after p c w)); [|apply step_after; [|vm_compute; reflexivity]].

(** The kernel process forks process 2 and waits for it; 2 exits with 7. *)
Definition wa : world := after PID_BOOT Fork (boot 0 1).
Definition wb : world := after PID_BOOT (Wait 2) wa.
Definition wc : world := after 2 (Exit 7) wb.
Definition wd : world := after PID_BOOT Resume wc.

Lemma runs_wc : runs (boot 0 1) [Exited 2 7; Slept 1 2; Forked 1 2] wc.
Proof.
  go wb 2 (Exit 7); [|vm_compute; discriminate].
  go wa 1 (Wait 2); [|apply enabled_wait; [vm_compute; reflexivity|unfold PID_MIN, PID_MAX; lia|by vm_compute; eauto]].
  go (boot 0 1) 1 Fork; [constructor|by vm_compute].
Qed.

Lemma runs_wd : runs (boot 0 1) [Reaped 1 2 7; Exited 2 7; Slept 1 2; Forked 1 2] wd.
Proof. go wc 1 Resume; [apply runs_wc|by vm_compute]. Qed.

Lemma pid_refines_witness : exists A,
  aruns a_boot [Reaped 1 2 7; Exited 2 7; Slept 1 2; Forked 1 2] A /\ sim wd A.
Proof. apply (pid_refines 0 1 _ wd ltac:(lia) runs_wd). Defined.

Lemma reaped_status_witness : exists tr1 tr2 tr3,
  [Exited 2 7; Slept 1 2; Forked 1 2] = tr1 ++ Exited 2 7 :: tr2 ++ Forked 1 2 :: tr3 /\
  quiet 2 tr1 /\ quiet 2 tr2.
Proof. apply (reaped_status 0 1 _ wd 1 2 7 ltac:(lia) runs_wd). Defined.

Lemma exit_wakes_parent_witness : exists w', exec 1 Resume wc = Ok (Reaped 1 2 7) w'.
Proof.
  apply (exit_wakes_parent 0 1 [] [Slept 1 2; Forked 1 2] wc 1 2 7 (Woken 2 1 2) ltac:(lia) runs_wc);
    [constructor|vm_compute; reflexivity|reflexivity].
Defined.

(** a process id that is given out again carries the children of its former
    owner: a run exists in which the second process 2 is put to sleep waiting
    for process 3, which was forked by the first process 2, where waitpid should
    report that 3 is not its child. *)
Theorem reused_pid_adopts : exists w,
  runs (boot 0 1) [Slept 2 3; Forked 1 2; Reaped 1 2 0; Exited 2 0; Forked 2 3; Forked 1 2] w.
Proof.
  pose (w1 := after 1 Fork (boot 0 1)). pose (w2 := after 2 Fork w1). pose (w3 := after 2 (Exit 0) w2).
  pose (w4 := after 1 (Wait 2) w3). pose (w5 := after 1 Fork w4). exists (after 2 (Wait 3) w5).
  go w5 2 (Wait 3); [|apply enabled_wait; [vm_compute; reflexivity|unfold PID_MIN, PID_MAX; lia|by vm_compute; eauto]].
  go w4 1 Fork; [|by vm_compute].
  go w3 1 (Wait 2); [|apply enabled_wait; [vm_compute; reflexivity|unfold PID_MIN, PID_MAX; lia|by vm_compute; eauto]].
  go w2 2 (Exit 0); [|vm_compute; discriminate].
  go w1 2 Fork; [|by vm_compute].
  go (boot 0 1) 1 Fork; [constructor|by vm_compute].
Qed.

(** the entry of the largest process id is read before it was ever written:
    unless the allocator happened to leave a NULL there, waiting for that id
    right after boot follows a wild pointer. *)
Theorem wait_last_pid_wild junk nx : junk <> 0 ->
  exec PID_BOOT (Wait PID_MAX) (boot junk nx) = Fault FDangling.
Proof.
  intros Hj.
  assert (pid_wait PID_MAX PID_BOOT (pst {[PID_MAX := junk]} None ∅ ∅ PID_BOOT [] nx) = Fault FDangling) as Hf.
  { unfold pid_wait. run (acquire_eq {[PID_MAX := junk]} ∅ ∅ PID_BOOT [] nx).
    run (get_slot_eq PID_MAX {[PID_MAX := junk]} (Some PID_BOOT) ∅ ∅ PID_BOOT [] nx ltac:(unfold PID_MAX; lia)).
    rewrite lookup_singleton_eq. cbn [default from_option id]. unfold get_pp.
    by destruct (Z.eqb_spec junk 0). }
  unfold exec, boot. rewrite (bind_eq get _ _ _ _ eq_refl). cbn [w_acts]. rewrite lookup_singleton_eq.
  destruct (Z.eqb_spec junk 0); [done|].
  unfold as_thread at 1, mbind, M_bind. cbn -[PID_MAX pid_wait PID_BOOT]. by rewrite Hf.
Qed.

Lemma wait_last_pid_wild_witness : exec PID_BOOT (Wait PID_MAX) (boot 5 9) = Fault FDangling.
Proof. apply (wait_last_pid_wild 5 9). lia. Defined.
End PidProps.
