(* ===== verification/Vm.v ===== *)
(** * Physical memory and address spaces

    Model of kern/arch/mips/vm/ram.c and dumbvm.c: a bump allocator of physical
    pages, address spaces of two regions and a stack, each one contiguous piece
    of physical memory, and the translation buffer filled on faults.  Addresses
    and sizes are 32 bits wide and wrap around. *)

From S2P Require Import Prelude Kern Copyinout.
Open Scope Z_scope.

(** struct addrspace *)
Record addrspace := Addrspace {
  as_vbase1 : Z; as_pbase1 : Z; as_npages1 : Z;
  as_vbase2 : Z; as_pbase2 : Z; as_npages2 : Z;
  as_stackpbase : Z
}.

(** The globals of ram.c, physical memory by byte, the address spaces in the
    kernel heap, the translation buffer as pairs of registers, and the current
    process and its address space (0 when there is none). *)
Record vmstate := VmState {
  firstpaddr : Z; lastpaddr : Z;
  pmem : Z -> Z;
  spaces : gmap Z addrspace;
  tlb : list (Z * Z);
  vm_curproc : Z; vm_curas : Z;
  vm_allocs : list bool; vm_next : Z
}.

#[export] Instance vmstate_alloc : HasAlloc vmstate :=
  {| allocs := vm_allocs;
     set_allocs l s := VmState (firstpaddr s) (lastpaddr s) (pmem s) (spaces s) (tlb s)
       (vm_curproc s) (vm_curas s) l (vm_next s) |}.

Module Vm.
Definition PAGE_SIZE : Z := 4096.
Definition PAGE_FRAME : Z := 0xfffff000.
Definition MIPS_KSEG0 : Z := 0x80000000.
Definition DUMBVM_STACKPAGES : Z := 18.
Definition NUM_TLB : Z := 64.
Definition TLBLO_DIRTY : Z := 0x400.
Definition TLBLO_VALID : Z := 0x200.
Definition TLBHI_INVALID (entryno : Z) : Z := u32 (Z.shiftl (0x80000 + entryno) 12).
Definition TLBLO_INVALID : Z := 0.
Definition VM_FAULT_READ : Z := 0.
Definition VM_FAULT_WRITE : Z := 1.
Definition VM_FAULT_READONLY : Z := 2.

Definition set_first a s := VmState a (lastpaddr s) (pmem s) (spaces s) (tlb s)
  (vm_curproc s) (vm_curas s) (vm_allocs s) (vm_next s).
Definition set_pmem m s := VmState (firstpaddr s) (lastpaddr s) m (spaces s) (tlb s)
  (vm_curproc s) (vm_curas s) (vm_allocs s) (vm_next s).
Definition set_spaces m s := VmState (firstpaddr s) (lastpaddr s) (pmem s) m (tlb s)
  (vm_curproc s) (vm_curas s) (vm_allocs s) (vm_next s).
Definition set_tlb t s := VmState (firstpaddr s) (lastpaddr s) (pmem s) (spaces s) t
  (vm_curproc s) (vm_curas s) (vm_allocs s) (vm_next s).
Definition set_vnext n s := VmState (firstpaddr s) (lastpaddr s) (pmem s) (spaces s) (tlb s)
  (vm_curproc s) (vm_curas s) (vm_allocs s) n.

(** ** ram.c *)

(** void ram_bootstrap(void), with the memory size of mainbus_ramsize() and the
    first free kernel address that start.S leaves in [firstfree] *)
Definition ram_bootstrap (ramsize firstfree : Z) : M vmstate unit :=
  let ramsize := if ramsize >? 512 * 1024 * 1024 then 512 * 1024 * 1024 else ramsize in
  modify (fun s => VmState (u32 (firstfree - MIPS_KSEG0)) ramsize (pmem s) (spaces s) (tlb s)
    (vm_curproc s) (vm_curas s) (vm_allocs s) (vm_next s)).

(** paddr_t ram_stealmem(unsigned long npages) *)
Definition ram_stealmem (npages : Z) : M vmstate Z :=
  s ← get;
  let size := u32 (npages * PAGE_SIZE) in
  if u32 (firstpaddr s + size) >? lastpaddr s then mret 0 else
  modify (set_first (u32 (firstpaddr s + size))) ;;
  mret (firstpaddr s).

(** paddr_t ram_getsize(void), paddr_t ram_getfirstfree(void) *)
Definition ram_getsize : M vmstate Z := gets lastpaddr.
Definition ram_getfirstfree : M vmstate Z :=
  s ← get;
  modify (fun s => VmState 0 0 (pmem s) (spaces s) (tlb s)
    (vm_curproc s) (vm_curas s) (vm_allocs s) (vm_next s)) ;;
  mret (firstpaddr s).

(** ** dumbvm.c *)

Definition getppages (npages : Z) : M vmstate Z := ram_stealmem npages.

(** vaddr_t alloc_kpages(unsigned npages), void free_kpages(vaddr_t addr) *)
Definition alloc_kpages (npages : Z) : M vmstate Z :=
  pa ← getppages npages;
  if pa =? 0 then mret 0 else mret (u32 (pa + MIPS_KSEG0)).
Definition free_kpages (addr : Z) : M vmstate unit := mret tt.

Definition get_as (a : Z) : M vmstate addrspace :=
  if a =? 0 then raise FNull else s ← get; deref FDangling (spaces s !! a).
Definition put_as (a : Z) (x : addrspace) : M vmstate unit :=
  modify (fun s => set_spaces (<[a := x]> (spaces s)) s).

(** bzero and memmove on physical memory, through kseg0 *)
Definition zeroed (dst n : Z) (m : Z -> Z) : Z -> Z :=
  fun a => if (dst <=? a) && (a <? dst + n) then 0 else m a.
Definition moved (dst src n : Z) (m : Z -> Z) : Z -> Z :=
  fun a => if (dst <=? a) && (a <? dst + n) then m (src + (a - dst)) else m a.

(** The assertions of vm_fault on the address space. *)
Definition page_aligned (a : Z) : bool := Z.land a PAGE_FRAME =? a.
Definition as_asserts (x : addrspace) : bool :=
  negb (as_vbase1 x =? 0) && negb (as_pbase1 x =? 0) && negb (as_npages1 x =? 0) &&
  negb (as_vbase2 x =? 0) && negb (as_pbase2 x =? 0) && negb (as_npages2 x =? 0) &&
  negb (as_stackpbase x =? 0) &&
  page_aligned (as_vbase1 x) && page_aligned (as_pbase1 x) &&
  page_aligned (as_vbase2 x) && page_aligned (as_pbase2 x) && page_aligned (as_stackpbase x).

(** The choice of the region of vm_fault: the physical address, if any. *)
Definition fault_paddr (x : addrspace) (faultaddress : Z) : option Z :=
  let vtop1 := u32 (as_vbase1 x + u32 (as_npages1 x * PAGE_SIZE)) in
  let vtop2 := u32 (as_vbase2 x + u32 (as_npages2 x * PAGE_SIZE)) in
  let stackbase := USERSTACK - DUMBVM_STACKPAGES * PAGE_SIZE in
  if (faultaddress >=? as_vbase1 x) && (faultaddress <? vtop1) then
    Some (u32 (faultaddress - as_vbase1 x + as_pbase1 x))
  else if (faultaddress >=? as_vbase2 x) && (faultaddress <? vtop2) then
    Some (u32 (faultaddress - as_vbase2 x + as_pbase2 x))
  else if (faultaddress >=? stackbase) && (faultaddress <? USERSTACK) then
    Some (u32 (faultaddress - stackbase + as_stackpbase x))
  else None.

(** The loop over the translation buffer: the first entry that is not valid
    is overwritten. *)
Fixpoint tlb_fill (l : list (Z * Z)) (e : Z * Z) : option (list (Z * Z)) :=
  match l with
  | [] => None
  | (hi, lo) :: l' =>
      if negb (Z.land lo TLBLO_VALID =? 0) then ((hi, lo) ::.) <$> tlb_fill l' e
      else Some (e :: l')
  end.

(** int vm_fault(int faulttype, vaddr_t faultaddress) *)
Definition vm_fault (faulttype faultaddress : Z) : M vmstate (res unit) :=
  let faultaddress := Z.land faultaddress PAGE_FRAME in
  if faulttype =? VM_FAULT_READONLY then raise FPanic else
  if negb (faulttype =? VM_FAULT_READ) && negb (faulttype =? VM_FAULT_WRITE) then mret (Err EINVAL) else
  s ← get;
  if vm_curproc s =? 0 then mret (Err EFAULT) else
  if vm_curas s =? 0 then mret (Err EFAULT) else
  x ← get_as (vm_curas s);
  kassert (as_asserts x) ;;
  match fault_paddr x faultaddress with
  | None => mret (Err EFAULT)
  | Some paddr =>
      kassert (page_aligned paddr) ;;
      match tlb_fill (tlb s) (faultaddress, Z.lor (Z.lor paddr TLBLO_DIRTY) TLBLO_VALID) with
      | Some l => modify (set_tlb l) ;; mret (Done tt)
      | None => mret (Err EFAULT)
      end
  end.

(** struct addrspace *as_create(void) *)
Definition as_create : M vmstate Z :=
  ok ← kmalloc;
  if negb ok then mret 0 else
  s ← get;
  modify (set_vnext (vm_next s + 1)) ;;
  put_as (vm_next s) (Addrspace 0 0 0 0 0 0 0) ;;
  mret (vm_next s).

(** void as_destroy(struct addrspace *as): only the structure is freed *)
Definition as_destroy (a : Z) : M vmstate unit :=
  if a =? 0 then mret tt else
  x ← get_as a;
  modify (fun s => set_spaces (delete a (spaces s)) s).

(** void as_activate(void), void as_deactivate(void) *)
Definition as_activate : M vmstate unit :=
  s ← get;
  if vm_curas s =? 0 then mret tt else
  modify (set_tlb ((fun i => (TLBHI_INVALID i, TLBLO_INVALID)) <$> seqZ 0 NUM_TLB)).
Definition as_deactivate : M vmstate unit := mret tt.

(** int as_define_region(as, vaddr, sz, readable, writeable, executable) *)
Definition as_define_region (a vaddr sz : Z) : M vmstate (res unit) :=
  let sz := u32 (sz + Z.land vaddr (u32 (Z.lnot PAGE_FRAME))) in
  let vaddr := Z.land vaddr PAGE_FRAME in
  let sz := Z.land (u32 (sz + PAGE_SIZE - 1)) PAGE_FRAME in
  let npages := sz / PAGE_SIZE in
  x ← get_as a;
  if as_vbase1 x =? 0 then
    put_as a (Addrspace vaddr (as_pbase1 x) npages (as_vbase2 x) (as_pbase2 x) (as_npages2 x)
      (as_stackpbase x)) ;; mret (Done tt)
  else if as_vbase2 x =? 0 then
    put_as a (Addrspace (as_vbase1 x) (as_pbase1 x) (as_npages1 x) vaddr (as_pbase2 x) npages
      (as_stackpbase x)) ;; mret (Done tt)
  else mret (Err ENOSYS).

(** static void as_zero_region(paddr_t paddr, unsigned npages) *)
Definition as_zero_region (paddr npages : Z) : M vmstate unit :=
  modify (fun s => set_pmem (zeroed paddr (u32 (npages * PAGE_SIZE)) (pmem s)) s).

(** int as_prepare_load(struct addrspace *as) *)
Definition as_prepare_load (a : Z) : M vmstate (res unit) :=
  x ← get_as a;
  kassert (as_pbase1 x =? 0) ;; kassert (as_pbase2 x =? 0) ;; kassert (as_stackpbase x =? 0) ;;
  p1 ← getppages (as_npages1 x);
  put_as a (Addrspace (as_vbase1 x) p1 (as_npages1 x) (as_vbase2 x) 0 (as_npages2 x) 0) ;;
  if p1 =? 0 then mret (Err ENOMEM) else
  p2 ← getppages (as_npages2 x);
  put_as a (Addrspace (as_vbase1 x) p1 (as_npages1 x) (as_vbase2 x) p2 (as_npages2 x) 0) ;;
  if p2 =? 0 then mret (Err ENOMEM) else
  p3 ← getppages DUMBVM_STACKPAGES;
  put_as a (Addrspace (as_vbase1 x) p1 (as_npages1 x) (as_vbase2 x) p2 (as_npages2 x) p3) ;;
  if p3 =? 0 then mret (Err ENOMEM) else
  as_zero_region p1 (as_npages1 x) ;;
  as_zero_region p2 (as_npages2 x) ;;
  as_zero_region p3 DUMBVM_STACKPAGES ;;
  mret (Done tt).

Definition as_complete_load (a : Z) : M vmstate (res unit) := mret (Done tt).

(** int as_define_stack(struct addrspace *as, vaddr_t *stackptr) *)
Definition as_define_stack (a : Z) : M vmstate (res Z) :=
  x ← get_as a; kassert (negb (as_stackpbase x =? 0)) ;; mret (Done USERSTACK).

Definition memmove_pages (dst src npages : Z) : M vmstate unit :=
  modify (fun s => set_pmem (moved dst src (u32 (npages * PAGE_SIZE)) (pmem s)) s).

(** int as_copy(struct addrspace *old, struct addrspace **ret) *)
Definition as_copy (old : Z) : M vmstate (res Z) :=
  new ← as_create;
  if new =? 0 then mret (Err ENOMEM) else
  o ← get_as old;
  put_as new (Addrspace (as_vbase1 o) 0 (as_npages1 o) (as_vbase2 o) 0 (as_npages2 o) 0) ;;
  r ← as_prepare_load new;
  match r with
  | Err _ => as_destroy new ;; mret (Err ENOMEM)
  | Done _ =>
      n ← get_as new;
      kassert (negb (as_pbase1 n =? 0)) ;; kassert (negb (as_pbase2 n =? 0)) ;;
      kassert (negb (as_stackpbase n =? 0)) ;;
      memmove_pages (as_pbase1 n) (as_pbase1 o) (as_npages1 o) ;;
      memmove_pages (as_pbase2 n) (as_pbase2 o) (as_npages2 o) ;;
      memmove_pages (as_stackpbase n) (as_stackpbase o) DUMBVM_STACKPAGES ;;
      mret (Done new)
  end.
End Vm.
