(* ===== verification/VmSpec.v ===== *)
(** * Address spaces: what copying and faulting do

    The user's view of memory is the byte a user address is translated to by
    the region tables.  Copying an address space gives the same view on fresh
    frames; handling a fault puts the right translation in the buffer. *)

From S2P Require Import Prelude Kern Copyinout Vm.
Open Scope Z_scope.
Import Vm.

Module VmSpec.

(** ** Pages *)

Lemma land_frame a : is_u32 a -> Z.land a PAGE_FRAME = a / 4096 * 4096.
Proof.
  intros Ha. change PAGE_FRAME with (Z.shiftl (Z.ones 20) 12).
  transitivity (Z.shiftl (Z.shiftr a 12) 12).
  2:{ rewrite Z.shiftl_mul_pow2, Z.shiftr_div_pow2 by lia. done. }
  apply Z.bits_inj'. intros n Hn. rewrite Z.land_spec, !Z.shiftl_spec by lia.
  destruct (decide (n < 12)).
  { rewrite !(Z.testbit_neg_r _ (n - 12)) by lia. apply andb_false_r. }
  rewrite Z.shiftr_spec by lia. replace (n - 12 + 12) with n by lia.
  destruct (decide (n < 32)).
  { rewrite Z.ones_spec_low by lia. apply andb_true_r. }
  rewrite Z.ones_spec_high by lia. rewrite andb_false_r. symmetry.
  apply (Z.bits_above_log2 a n); [unfold is_u32 in *; lia|].
  destruct (decide (a = 0)) as [->|]; [simpl; lia|].
  apply Z.log2_lt_pow2; unfold is_u32 in *; [lia|]. apply Z.lt_le_trans with (2 ^ 32); [lia|].
  apply Z.pow_le_mono_r; lia.
Qed.

Lemma aligned_iff a : is_u32 a -> page_aligned a = true <-> a mod 4096 = 0.
Proof.
  intros Ha. unfold page_aligned. rewrite Z.eqb_eq, land_frame by done.
  pose proof (Z.div_mod a 4096). lia.
Qed.

(** A frame with its flags: the flags are seen, and the frame is recovered. *)
Lemma tlb_word p : is_u32 p -> p mod 4096 = 0 ->
  let lo := Z.lor (Z.lor p TLBLO_DIRTY) TLBLO_VALID in
  Z.land lo TLBLO_VALID = TLBLO_VALID /\ Z.land lo PAGE_FRAME = p.
Proof.
  intros Hp Hm lo. unfold lo. split.
  - rewrite Z.land_lor_distr_l, Z.land_diag.
    apply Z.bits_inj'. intros n Hn. rewrite Z.lor_spec, Z.land_spec.
    destruct (Z.testbit TLBLO_VALID n); [by rewrite orb_true_r|by rewrite andb_false_r].
  - rewrite !Z.land_lor_distr_l.
    change (Z.land TLBLO_DIRTY PAGE_FRAME) with 0. change (Z.land TLBLO_VALID PAGE_FRAME) with 0.
    rewrite !Z.lor_0_r. rewrite land_frame by done. pose proof (Z.div_mod p 4096). lia.
Qed.

(** ** Well-formed address spaces *)

(** A region of the layout. *)
Definition region_ok (vbase npages : Z) : Prop :=
  0 < vbase /\ vbase mod 4096 = 0 /\ 0 < npages /\ vbase + npages * PAGE_SIZE <= USERSPACETOP.

(** Its frames, all handed out by the allocator. *)
Definition frames_ok (lo hi pbase npages : Z) : Prop :=
  0 < pbase /\ pbase mod 4096 = 0 /\ lo <= pbase /\ pbase + npages * PAGE_SIZE <= hi.

Record as_ok (lo hi : Z) (x : addrspace) : Prop := {
  ok_r1 : region_ok (as_vbase1 x) (as_npages1 x);
  ok_r2 : region_ok (as_vbase2 x) (as_npages2 x);
  ok_f1 : frames_ok lo hi (as_pbase1 x) (as_npages1 x);
  ok_f2 : frames_ok lo hi (as_pbase2 x) (as_npages2 x);
  ok_fs : frames_ok lo hi (as_stackpbase x) DUMBVM_STACKPAGES
}.

Definition ram_ok (s : vmstate) : Prop :=
  0 < firstpaddr s /\ firstpaddr s mod 4096 = 0 /\ firstpaddr s <= lastpaddr s <= 512 * 1024 * 1024.

(** The physical address of a user address, and the byte there. *)
Definition translate (x : addrspace) (va : Z) : option Z :=
  p ← fault_paddr x (Z.land va PAGE_FRAME); Some (p + va mod 4096).
Definition view (m : Z -> Z) (x : addrspace) (va : Z) : option Z := m <$> translate x va.

(** The offset of a user address in the regions, in the order they are tried. *)
Inductive place : Type := In1 (off : Z) | In2 (off : Z) | InStack (off : Z) | Nowhere.

Definition stackbase : Z := USERSTACK - DUMBVM_STACKPAGES * PAGE_SIZE.

Definition place_of (x : addrspace) (va : Z) : place :=
  if (as_vbase1 x <=? va) && (va <? as_vbase1 x + as_npages1 x * PAGE_SIZE) then In1 (va - as_vbase1 x)
  else if (as_vbase2 x <=? va) && (va <? as_vbase2 x + as_npages2 x * PAGE_SIZE) then In2 (va - as_vbase2 x)
  else if (stackbase <=? va) && (va <? USERSTACK) then InStack (va - stackbase)
  else Nowhere.

Definition at_place (x : addrspace) (p : place) : option Z :=
  match p with
  | In1 o => Some (as_pbase1 x + o)
  | In2 o => Some (as_pbase2 x + o)
  | InStack o => Some (as_stackpbase x + o)
  | Nowhere => None
  end.

(** A page is in a region exactly when each of its addresses is. *)
Lemma page_in_region base n va : base mod 4096 = 0 ->
  let page := va / 4096 * 4096 in
  (base <= page /\ page < base + n * 4096) <-> (base <= va /\ va < base + n * 4096).
Proof.
  intros Hb page. unfold page. pose proof (Z.div_mod va 4096). pose proof (Z.mod_pos_bound va 4096).
  pose proof (Z.div_mod base 4096). nia.
Qed.

Lemma u32_small a : 0 <= a < 2 ^ 32 -> u32 a = a.
Proof. intros Ha. by apply u32_id. Qed.

(** The test of vm_fault on the page is the test on the address. *)
Lemma region_test base n va : is_u32 va -> base mod 4096 = 0 -> 0 <= base -> 0 <= n ->
  base + n * 4096 <= 2 ^ 31 ->
  let page := Z.land va PAGE_FRAME in
  (page >=? base) && (page <? u32 (base + u32 (n * PAGE_SIZE))) =
  (base <=? va) && (va <? base + n * PAGE_SIZE).
Proof.
  intros Hva Hb Hb0 Hn Hsz page. unfold page. rewrite land_frame by done. change PAGE_SIZE with 4096.
  rewrite (u32_small (n * 4096)) by lia. rewrite (u32_small (base + n * 4096)) by lia.
  pose proof (page_in_region base n va Hb) as P. cbv zeta in P.
  apply eq_true_iff_eq. rewrite !andb_true_iff, Z.geb_le, Z.leb_le, !Z.ltb_lt. exact P.
Qed.

(** The physical address computed in a region, without wrap-around. *)
Lemma region_paddr base n pbase va : is_u32 va -> base mod 4096 = 0 -> 0 <= base -> 0 < pbase ->
  pbase + n * PAGE_SIZE <= 512 * 1024 * 1024 -> base <= va < base + n * PAGE_SIZE ->
  Some (u32 (Z.land va PAGE_FRAME - base + pbase) + va mod 4096) = Some (pbase + (va - base)).
Proof.
  intros Hva Hb Hb0 Hp Hsz Hin. rewrite land_frame by done. change PAGE_SIZE with 4096 in *.
  pose proof (page_in_region base n va Hb) as P. cbv zeta in P. apply P in Hin as Hpage.
  pose proof (Z.div_mod va 4096 ltac:(lia)). f_equal. rewrite u32_small; lia.
Qed.

(** Without wrap-around the translation is the plain one. *)
Lemma translate_place lo hi x va : as_ok lo hi x -> hi <= 512 * 1024 * 1024 -> is_u32 va ->
  translate x va = at_place x (place_of x va).
Proof.
  intros [(A1 & A2 & A3 & A4) (B1 & B2 & B3 & B4) (C1 & C2 & C3 & C4) (D1 & D2 & D3 & D4) (E1 & E2 & E3 & E4)] Hhi Hva.
  unfold translate, fault_paddr, place_of. cbv zeta.
  change (USERSTACK - DUMBVM_STACKPAGES * PAGE_SIZE) with stackbase.
  change (_ <? USERSTACK) with (Z.land va PAGE_FRAME <? u32 (stackbase + u32 (DUMBVM_STACKPAGES * PAGE_SIZE))) at 1.
  change (va <? USERSTACK) with (va <? stackbase + DUMBVM_STACKPAGES * PAGE_SIZE).
  unfold USERSPACETOP in *. change PAGE_SIZE with 4096 in A4, B4.
  rewrite (region_test (as_vbase1 x)), (region_test (as_vbase2 x)), (region_test stackbase)
    by (done || lia).
  destruct ((as_vbase1 x <=? va) && _) eqn:T1.
  { apply andb_true_iff in T1 as [T1%Z.leb_le T1'%Z.ltb_lt]. cbn. apply (region_paddr _ (as_npages1 x)); lia || done. }
  destruct ((as_vbase2 x <=? va) && _) eqn:T2.
  { apply andb_true_iff in T2 as [T2%Z.leb_le T2'%Z.ltb_lt]. cbn. apply (region_paddr _ (as_npages2 x)); lia || done. }
  destruct ((stackbase <=? va) && _) eqn:T3; [|done].
  apply andb_true_iff in T3 as [T3%Z.leb_le T3'%Z.ltb_lt]. cbn [mbind option_bind at_place].
  apply (region_paddr _ DUMBVM_STACKPAGES); lia || done.
Qed.

(** Translated addresses are in the frames. *)
Lemma translate_range lo hi x va p : as_ok lo hi x -> hi <= 512 * 1024 * 1024 -> is_u32 va ->
  translate x va = Some p -> lo <= p < hi.
Proof.
  intros Hx Hhi Hva. rewrite (translate_place lo hi) by done.
  destruct Hx as [_ _ (C1 & C2 & C3 & C4) (D1 & D2 & D3 & D4) (E1 & E2 & E3 & E4)].
  unfold place_of. destruct ((as_vbase1 x <=? va) && _) eqn:T1.
  { apply andb_true_iff in T1 as [T1%Z.leb_le T1'%Z.ltb_lt]. simpl. intros [= <-]. lia. }
  destruct ((as_vbase2 x <=? va) && _) eqn:T2.
  { apply andb_true_iff in T2 as [T2%Z.leb_le T2'%Z.ltb_lt]. simpl. intros [= <-]. lia. }
  destruct ((stackbase <=? va) && _) eqn:T3; [|done].
  apply andb_true_iff in T3 as [T3%Z.leb_le T3'%Z.ltb_lt]. simpl. intros [= <-].
  change USERSTACK with (stackbase + DUMBVM_STACKPAGES * PAGE_SIZE) in T3'. lia.
Qed.

(** ** Allocation *)

Lemma stealmem_eq s n : ram_ok s -> 0 <= n -> n * 4096 <= 2 ^ 31 ->
  ram_stealmem n s = if firstpaddr s + n * PAGE_SIZE <=? lastpaddr s
                     then Ok (firstpaddr s) (set_first (firstpaddr s + n * PAGE_SIZE) s)
                     else Ok 0 s.
Proof.
  intros (H1 & H2 & H3) Hn Hsz. unfold ram_stealmem. change PAGE_SIZE with 4096.
  rewrite (bind_eq get _ _ _ _ eq_refl). cbv zeta. cbn beta.
  rewrite (u32_small (n * 4096)), (u32_small (firstpaddr s + n * 4096)) by lia.
  destruct (Z.gtb_spec (firstpaddr s + n * 4096) (lastpaddr s)), (Z.leb_spec (firstpaddr s + n * 4096) (lastpaddr s)); try lia; done.
Qed.

Lemma ram_ok_first s n : ram_ok s -> 0 <= n -> firstpaddr s + n * PAGE_SIZE <= lastpaddr s ->
  ram_ok (set_first (firstpaddr s + n * PAGE_SIZE) s).
Proof.
  intros (H1 & H2 & H3) Hn Hsz. change PAGE_SIZE with 4096 in *. split_and!; simpl; try lia.
  rewrite Z_mod_plus_full. done.
Qed.

(** The address space after as_prepare_load. *)
Definition loaded (f : Z) (x : addrspace) : addrspace :=
  Addrspace (as_vbase1 x) f (as_npages1 x) (as_vbase2 x) (f + as_npages1 x * PAGE_SIZE) (as_npages2 x)
    (f + as_npages1 x * PAGE_SIZE + as_npages2 x * PAGE_SIZE).

Lemma zeroed_out dst n m b : b < dst -> zeroed dst n m b = m b.
Proof. intros Hb. unfold zeroed. by destruct (Z.leb_spec dst b); [lia|]. Qed.

Lemma moved_out dst src n m b : b < dst \/ dst + n <= b -> moved dst src n m b = m b.
Proof. intros Hb. unfold moved. destruct (Z.leb_spec dst b), (Z.ltb_spec b (dst + n)); try done. lia. Qed.

Lemma moved_in dst src n m off : 0 <= off < n -> moved dst src n m (dst + off) = m (src + off).
Proof.
  intros Ho. unfold moved. destruct (Z.leb_spec dst (dst + off)), (Z.ltb_spec (dst + off) (dst + n)); try lia.
  simpl. f_equal. lia.
Qed.

Abbreviation vst f la pm sp tl cp ca al nx := (VmState f la pm sp tl cp ca al nx).

Lemma wp_getppages f la pm sp tl cp ca al nx n Q : ram_ok (vst f la pm sp tl cp ca al nx) ->
  0 <= n -> n * 4096 <= 2 ^ 31 ->
  (f + n * PAGE_SIZE <= la -> Q f (vst (f + n * PAGE_SIZE) la pm sp tl cp ca al nx)) ->
  (la < f + n * PAGE_SIZE -> Q 0 (vst f la pm sp tl cp ca al nx)) ->
  wp (getppages n) Q (vst f la pm sp tl cp ca al nx).
Proof.
  intros Hr Hn Hsz H1 H2. unfold wp, getppages. rewrite stealmem_eq by done. simpl.
  destruct (Z.leb_spec (f + n * PAGE_SIZE) la); auto.
Qed.

Lemma wp_get_as a x f la pm sp tl cp ca al nx Q : a <> 0 -> sp !! a = Some x ->
  Q x (vst f la pm sp tl cp ca al nx) -> wp (get_as a) Q (vst f la pm sp tl cp ca al nx).
Proof.
  intros Ha Hx HQ. unfold get_as. destruct (Z.eqb_spec a 0); [done|]. wpsimp. eauto.
Qed.

Lemma wp_put_as a y f la pm sp tl cp ca al nx Q :
  Q tt (vst f la pm (<[a := y]> sp) tl cp ca al nx) -> wp (put_as a y) Q (vst f la pm sp tl cp ca al nx).
Proof. done. Qed.

(** Where the allocator stands when there was not enough memory for two regions and
    a stack: what fitted before the failure stays taken. *)
Definition short_end (f la n1 n2 : Z) : Z :=
  let g := f + n1 * PAGE_SIZE in let h := g + n2 * PAGE_SIZE in if la <? g then f else if la <? h then g else h.

Lemma prepare_core f la pm sp tl cp ca al nx a v1 n1 v2 n2 :
  ram_ok (vst f la pm sp tl cp ca al nx) -> a <> 0 -> sp !! a = Some (Addrspace v1 0 n1 v2 0 n2 0) ->
  0 <= n1 -> n1 * 4096 <= 2 ^ 31 -> 0 <= n2 -> n2 * 4096 <= 2 ^ 31 ->
  let g := f + n1 * PAGE_SIZE in let h := g + n2 * PAGE_SIZE in
  wp (as_prepare_load a) (fun r s' => match r with
    | Done _ => h + DUMBVM_STACKPAGES * PAGE_SIZE <= la /\
        s' = vst (h + DUMBVM_STACKPAGES * PAGE_SIZE) la
          (zeroed h (DUMBVM_STACKPAGES * PAGE_SIZE) (zeroed g (n2 * PAGE_SIZE) (zeroed f (n1 * PAGE_SIZE) pm)))
          (<[a := Addrspace v1 f n1 v2 g n2 h]> sp) tl cp ca al nx
    | Err e => e = ENOMEM /\ la < h + DUMBVM_STACKPAGES * PAGE_SIZE /\ exists y,
        s' = vst (short_end f la n1 n2) la pm (<[a := y]> sp) tl cp ca al nx /\ ram_ok s'
    end) (vst f la pm sp tl cp ca al nx).
Proof.
  intros Hr Ha Hx Hn1 Hs1 Hn2 Hs2 g h. unfold as_prepare_load. apply wp_bind.
  apply (wp_get_as a _ _ _ _ _ _ _ _ _ _ _ Ha Hx). wpsimp. simpl. do 3 (split; [done|]).
  assert (0 <= n1 * PAGE_SIZE /\ 0 <= n2 * PAGE_SIZE) as [Hp1 Hp2] by (unfold PAGE_SIZE; lia).
  assert (0 < DUMBVM_STACKPAGES * PAGE_SIZE) as Hp3 by done.
  apply wp_getppages; [done|lia|lia| |]; intros Hle; wpsimp.
  2:{ apply wp_put_as. rewrite Z.eqb_refl. wpsimp. split; [done|]. unfold short_end. fold g. rewrite (proj2 (Z.ltb_lt la g)) by done. split; [unfold h, g; lia|]. by eexists _. }
  apply wp_put_as. destruct (Z.eqb_spec f 0); [destruct Hr as [Hr _]; simpl in Hr; lia|].
  assert (ram_ok (vst g la pm (<[a := Addrspace v1 f n1 v2 0 n2 0]> sp) tl cp ca al nx)) as Hr1.
  { exact (ram_ok_first _ n1 Hr Hn1 Hle). }
  wpsimp. apply wp_getppages; [exact Hr1|lia|lia| |]; intros Hle2; wpsimp.
  2:{ apply wp_put_as. rewrite Z.eqb_refl. wpsimp. rewrite insert_insert_eq. split; [done|]. split; [unfold h, g; lia|].
      unfold short_end. fold g h. rewrite (proj2 (Z.ltb_ge la g)), (proj2 (Z.ltb_lt la h)) by done. eexists _. split; [reflexivity|exact Hr1]. }
  apply wp_put_as. destruct (Z.eqb_spec (f + n1 * PAGE_SIZE) 0);
    [destruct Hr as [Hr _]; change PAGE_SIZE with 4096 in *; simpl in Hr; lia|].
  assert (ram_ok (vst h la pm (<[a := Addrspace v1 f n1 v2 g n2 0]> sp) tl cp ca al nx)) as Hr2.
  { exact (ram_ok_first _ n2 Hr1 Hn2 Hle2). }
  wpsimp. apply wp_getppages; [exact Hr2|done|done| |]; intros Hle3; wpsimp.
  2:{ apply wp_put_as. rewrite Z.eqb_refl. wpsimp. rewrite !insert_insert_eq. split; [done|]. split; [done|].
      unfold short_end. fold g h. rewrite (proj2 (Z.ltb_ge la g)), (proj2 (Z.ltb_ge la h)) by done. eexists _. split; [reflexivity|exact Hr2]. }
  apply wp_put_as. destruct Hr as [Hr0 Hr']. simpl in Hr0, Hr'.
  match goal with |- context [if ?b =? 0 then _ else _] =>
    destruct (Z.eqb_spec b 0); [change PAGE_SIZE with 4096 in *; lia|] end.
  unfold as_zero_region. wpsimp. split; [unfold h, g; change PAGE_SIZE with 4096 in *; lia|].
  rewrite !insert_insert_eq. change PAGE_SIZE with 4096 in *.
  rewrite (u32_small (n1 * 4096)), (u32_small (n2 * 4096)) by lia. reflexivity.
Qed.

(** ** Copying an address space *)

(** Physical memory after as_copy. *)
Definition copied (f : Z) (o : addrspace) (pm : Z -> Z) : Z -> Z :=
  let g := f + as_npages1 o * PAGE_SIZE in
  let h := g + as_npages2 o * PAGE_SIZE in
  moved h (as_stackpbase o) (DUMBVM_STACKPAGES * PAGE_SIZE)
   (moved g (as_pbase2 o) (as_npages2 o * PAGE_SIZE)
    (moved f (as_pbase1 o) (as_npages1 o * PAGE_SIZE)
     (zeroed h (DUMBVM_STACKPAGES * PAGE_SIZE)
      (zeroed g (as_npages2 o * PAGE_SIZE) (zeroed f (as_npages1 o * PAGE_SIZE) pm))))).

Definition the_copy (f : Z) (o : addrspace) : addrspace :=
  Addrspace (as_vbase1 o) f (as_npages1 o) (as_vbase2 o) (f + as_npages1 o * PAGE_SIZE) (as_npages2 o)
    (f + as_npages1 o * PAGE_SIZE + as_npages2 o * PAGE_SIZE).
Definition copy_end (f : Z) (o : addrspace) : Z :=
  f + as_npages1 o * PAGE_SIZE + as_npages2 o * PAGE_SIZE + DUMBVM_STACKPAGES * PAGE_SIZE.

Lemma copied_old f o pm b : as_ok 0 f o -> b < f -> copied f o pm b = pm b.
Proof.
  intros Ho Hb. destruct (ok_r1 _ _ _ Ho) as (_ & _ & ? & _), (ok_r2 _ _ _ Ho) as (_ & _ & ? & _).
  unfold copied, PAGE_SIZE. rewrite !moved_out, !zeroed_out by lia. done.
Qed.

Lemma the_copy_ok f o : as_ok 0 f o -> 0 < f -> f mod 4096 = 0 ->
  as_ok f (copy_end f o) (the_copy f o).
Proof.
  intros Ho Hf Hm. pose proof (ok_r1 _ _ _ Ho) as R1. pose proof (ok_r2 _ _ _ Ho) as R2.
  destruct R1 as (? & ? & ? & ?), R2 as (? & ? & ? & ?). unfold PAGE_SIZE in *.
  split; unfold region_ok, frames_ok, copy_end, the_copy, PAGE_SIZE, DUMBVM_STACKPAGES; simpl; try done.
  - split_and!; lia || done.
  - rewrite Z_mod_plus_full. split_and!; lia || done.
  - rewrite !Z_mod_plus_full. unfold DUMBVM_STACKPAGES. split_and!; lia || done.
Qed.

Lemma copied_view f o pm va : as_ok 0 f o -> 0 < f -> f mod 4096 = 0 ->
  copy_end f o <= 512 * 1024 * 1024 -> is_u32 va ->
  view (copied f o pm) (the_copy f o) va = view pm o va.
Proof.
  intros Ho Hf Hm Hend Hva. unfold view.
  pose proof (the_copy_ok f o Ho Hf Hm) as Hc.
  destruct (ok_r1 _ _ _ Ho) as (_ & _ & ? & _), (ok_r2 _ _ _ Ho) as (_ & _ & ? & _).
  destruct (ok_f1 _ _ _ Ho) as (_ & _ & _ & ?), (ok_f2 _ _ _ Ho) as (_ & _ & _ & ?), (ok_fs _ _ _ Ho) as (_ & _ & _ & ?).
  rewrite (translate_place f (copy_end f o)) by done.
  rewrite (translate_place 0 f) by (done || unfold copy_end, PAGE_SIZE, DUMBVM_STACKPAGES in *; lia).
  replace (place_of (the_copy f o) va) with (place_of o va) by done.
  unfold place_of. destruct ((as_vbase1 o <=? va) && _) eqn:T1.
  { apply andb_true_iff in T1 as [T1%Z.leb_le T1'%Z.ltb_lt]. simpl. f_equal. unfold copied, PAGE_SIZE in *.
    rewrite !(moved_out (_ + _)) by lia. rewrite moved_in by lia. by rewrite !zeroed_out by lia. }
  destruct ((as_vbase2 o <=? va) && _) eqn:T2.
  { apply andb_true_iff in T2 as [T2%Z.leb_le T2'%Z.ltb_lt]. simpl. f_equal. unfold copied, PAGE_SIZE in *.
    rewrite (moved_out (_ + _ + _)) by lia. rewrite moved_in by lia. rewrite moved_out by lia.
    by rewrite !zeroed_out by lia. }
  destruct ((stackbase <=? va) && _) eqn:T3; [|done].
  apply andb_true_iff in T3 as [T3%Z.leb_le T3'%Z.ltb_lt]. simpl. f_equal. unfold copied, PAGE_SIZE in *.
  change USERSTACK with (stackbase + DUMBVM_STACKPAGES * 4096) in T3'.
  rewrite moved_in by lia. unfold stackbase, DUMBVM_STACKPAGES, USERSTACK, USERSPACETOP, PAGE_SIZE in *.
  rewrite !moved_out by lia. by rewrite !zeroed_out by lia.
Qed.

Definition copy_post (f la : Z) (pm : Z -> Z) (sp : gmap Z addrspace) (al : list bool) (nx : Z) (o : addrspace)
    (r : res Z) (s' : vmstate) : Prop :=
  match r with
  | Done new => new = nx /\ hd true al = true /\ copy_end f o <= la /\ firstpaddr s' = copy_end f o /\
      spaces s' = <[nx := the_copy f o]> sp /\ pmem s' = copied f o pm
  | Err e => e = ENOMEM /\ spaces s' = sp /\ pmem s' = pm /\
      (hd true al = false /\ firstpaddr s' = f \/
       hd true al = true /\ la < copy_end f o /\ firstpaddr s' = short_end f la (as_npages1 o) (as_npages2 o))
  end.

Lemma wp_as_create f la pm sp tl cp ca al nx Q :
  (forall al', hd true al = false -> Q 0 (vst f la pm sp tl cp ca al' nx)) ->
  (forall al', hd true al = true -> Q nx (vst f la pm (<[nx := Addrspace 0 0 0 0 0 0 0]> sp) tl cp ca al' (nx + 1))) ->
  wp as_create Q (vst f la pm sp tl cp ca al nx).
Proof.
  intros H0 H1. unfold as_create. apply wp_bind. destruct al as [|[] al]; [exact (H1 [] eq_refl)|exact (H1 al eq_refl)|exact (H0 al eq_refl)].
Qed.

Lemma as_copy_core f la pm sp tl cp ca al nx old o :
  ram_ok (vst f la pm sp tl cp ca al nx) -> old <> 0 -> sp !! old = Some o -> as_ok 0 f o ->
  0 < nx -> sp !! nx = None ->
  wp (as_copy old) (fun r s' => copy_post f la pm sp al nx o r s' /\ ram_ok s' /\
    lastpaddr s' = la /\ tlb s' = tl /\ vm_curproc s' = cp /\ vm_curas s' = ca /\
    nx <= vm_next s' /\ forall n, r = Done n -> n < vm_next s')
    (vst f la pm sp tl cp ca al nx).
Proof.
  intros Hr Hold Ho Hok Hnx Hfresh. unfold as_copy.
  destruct (ok_r1 _ _ _ Hok) as (? & _ & ? & ?), (ok_r2 _ _ _ Hok) as (? & _ & ? & ?).
  unfold USERSPACETOP, PAGE_SIZE in *.
  apply wp_bind. apply wp_as_create; intros al' Hal.
  { rewrite Z.eqb_refl. wpsimp. split; [|by split_and!]. simpl. split_and!; try done. by left. }
  destruct (Z.eqb_spec nx 0); [lia|]. wpsimp.
  apply (wp_get_as old o); [done|by rewrite lookup_insert_ne by congruence|]. wpsimp.
  apply wp_put_as. wpsimp. rewrite insert_insert_eq.
  eapply wp_mono.
  { apply (prepare_core f la pm _ tl cp ca al' (nx + 1) nx (as_vbase1 o) (as_npages1 o) (as_vbase2 o) (as_npages2 o));
      [exact Hr|done|by rewrite lookup_insert_eq|lia|lia|lia|lia]. }
  intros [[]|e] s' Hp; cbv beta iota in Hp.
  2:{ destruct Hp as (-> & Hla & y & -> & Hr'). unfold as_destroy. destruct (Z.eqb_spec nx 0); [lia|]. wpsimp.
      apply (wp_get_as nx y); [done|by rewrite lookup_insert_eq|]. wpsimp. cbn -[delete].
      rewrite insert_insert_eq, delete_insert_id by done. split_and!; try done; [|lia]. by right. }
  destruct Hp as [Hle ->]. wpsimp. apply (wp_get_as nx (the_copy f o)); [done|by rewrite lookup_insert_eq|].
  wpsimp. destruct Hr as (Hr1 & Hr2 & Hr3). simpl in Hr1, Hr2, Hr3.
  assert (forall z, 0 < z -> negb (z =? 0) = true) as Hnz.
  { intros z Hz. by destruct (Z.eqb_spec z 0); [lia|]. }
  unfold PAGE_SIZE, DUMBVM_STACKPAGES in *.
  do 3 (split; [apply Hnz; unfold the_copy, PAGE_SIZE; simpl; lia|]).
  unfold memmove_pages. wpsimp. split; [|split; [|split_and!; try done; cbn; [lia|intros ? [= <-]; lia]]].
  - unfold copy_post, copy_end, set_pmem, PAGE_SIZE, DUMBVM_STACKPAGES. cbn [firstpaddr spaces pmem].
    split_and!; try done.
    + by rewrite insert_insert_eq.
    + unfold copied, PAGE_SIZE, DUMBVM_STACKPAGES. cbn [as_pbase1 as_pbase2 as_stackpbase the_copy].
      rewrite (u32_small (as_npages1 o * 4096)), (u32_small (as_npages2 o * 4096)) by lia. reflexivity.
  - unfold ram_ok. cbn [firstpaddr lastpaddr set_pmem]. split; [lia|]. split; [|lia].
    by rewrite !Z_mod_plus_full.
Qed.
End VmSpec.
