(* ===== verification/VmProps.v ===== *)
(** * Properties of address spaces

    Copying, faulting and physical allocation, each on a concrete machine
    too. *)

From S2P Require Import Prelude Kern Copyinout Vm VmSpec.
Open Scope Z_scope.
Import Vm VmSpec.

Module VmProps.

(** C39: as_copy fails with ENOMEM when there is no memory for the structure, or
    when the regions and the stack do not all fit below the end of memory, and
    then leaves every address space and the contents of memory as they were; but
    the frames of those regions that did fit stay taken, since nothing gives
    frames back.  Otherwise it returns a new address space in which
    every user address shows the byte it shows in the old one, on frames that
    nobody had before; memory handed out earlier is untouched, so that later
    writes through one of the two are not seen through the other. *)
Theorem as_copy_spec f la pm sp tl cp ca al nx old o :
  ram_ok (vst f la pm sp tl cp ca al nx) -> old <> 0 -> sp !! old = Some o -> as_ok 0 f o ->
  0 < nx -> sp !! nx = None ->
  exists r s', as_copy old (vst f la pm sp tl cp ca al nx) = Ok r s' /\ ram_ok s' /\ tlb s' = tl /\
    match r with
    | Done new => hd true al = true /\ copy_end f o <= la /\ firstpaddr s' = copy_end f o /\
        exists n, spaces s' = <[new := n]> sp /\ sp !! new = None /\
        as_ok f (firstpaddr s') n /\
        (forall b, b < f -> pmem s' b = pm b) /\
        (forall va, is_u32 va -> view (pmem s') n va = view pm o va) /\
        (forall va p q, is_u32 va -> translate n va = Some p -> translate o va = Some q -> q < f <= p)
    | Err e => e = ENOMEM /\ spaces s' = sp /\ pmem s' = pm /\
        (hd true al = false /\ firstpaddr s' = f \/
         hd true al = true /\ la < copy_end f o /\ firstpaddr s' = short_end f la (as_npages1 o) (as_npages2 o))
    end.
Proof.
  intros Hr Hold Ho Hok Hnx Hfresh.
  destruct (proj1 (wp_ok _ _ _) (as_copy_core f la pm sp tl cp ca al nx old o Hr Hold Ho Hok Hnx Hfresh))
    as (r & s' & Hrun & Hpost & Hr' & _ & Htlb & _).
  exists r, s'. split; [done|]. split; [done|]. split; [done|].
  destruct Hr as (Hf & Hm & Hla). simpl in Hf, Hm, Hla.
  destruct r as [new|e]; [|done].
  destruct Hpost as (-> & Hal & Hend & -> & -> & ->). split; [done|]. split; [done|]. split; [done|]. exists (the_copy f o).
  pose proof (the_copy_ok f o Hok Hf Hm) as Hc.
  split; [done|]. split; [done|]. split; [done|]. split; [by intros; apply copied_old|]. split.
  - intros va Hva. apply copied_view; done || lia.
  - intros va p q Hva Hp Hq.
    pose proof (translate_range f (copy_end f o) (the_copy f o) va p Hc ltac:(lia) Hva Hp).
    pose proof (translate_range 0 f o va q Hok ltac:(lia) Hva Hq). lia.
Qed.

(** ** The translation buffer *)

Definition tlb_valid (lo : Z) : bool := negb (Z.land lo TLBLO_VALID =? 0).

(** The hardware translates [page] to the frame [p]. *)
Definition tlb_maps (l : list (Z * Z)) (page p : Z) : Prop :=
  exists lo, (page, lo) ∈ l /\ tlb_valid lo = true /\ Z.land lo PAGE_FRAME = p.

(** Valid entries translate as the address space says, and no page has two. *)
Record tlb_ok (x : addrspace) (l : list (Z * Z)) : Prop := {
  tlb_right : forall hi lo, (hi, lo) ∈ l -> tlb_valid lo = true ->
    exists p, fault_paddr x hi = Some p /\ Z.land lo PAGE_FRAME = p;
  tlb_once : NoDup (fst <$> filter (fun e => tlb_valid e.2 = true) l)
}.

Lemma tlb_fill_spec l e l' : tlb_fill l e = Some l' ->
  exists pre old post, l = pre ++ old :: post /\ l' = pre ++ e :: post /\
    tlb_valid old.2 = false /\ Forall (fun d => tlb_valid d.2 = true) pre.
Proof.
  revert l'. induction l as [|[hi lo] l IH]; intros l' Hl; [done|]. simpl in Hl.
  fold (tlb_valid lo) in Hl. destruct (tlb_valid lo) eqn:Hv.
  - apply fmap_Some in Hl as (l1 & Hl1 & ->). destruct (IH l1 Hl1) as (pre & old & post & -> & -> & Ho & Hpre).
    exists ((hi, lo) :: pre), old, post. repeat split; try done. by constructor.
  - injection Hl as <-. exists [], (hi, lo), l. done.
Qed.

Lemma tlb_fill_full l e : tlb_fill l e = None <-> Forall (fun d => tlb_valid d.2 = true) l.
Proof.
  induction l as [|[hi lo] l IH]; simpl; [done|]. fold (tlb_valid lo). rewrite Forall_cons. simpl.
  destruct (tlb_valid lo); [|by split; [|intros [? _]]].
  rewrite fmap_None, IH. tauto.
Qed.

(** A well-formed address space passes the assertions of vm_fault, and the
    address it computes is the start of a frame. *)
Lemma as_ok_asserts lo hi x : as_ok lo hi x -> 0 <= lo -> hi <= 512 * 1024 * 1024 -> as_asserts x = true.
Proof.
  intros [(A1 & A2 & A3 & A4) (B1 & B2 & B3 & B4) (C1 & C2 & C3 & C4) (D1 & D2 & D3 & D4) (E1 & E2 & E3 & E4)] Hlo Hhi.
  unfold as_asserts, USERSPACETOP, PAGE_SIZE, DUMBVM_STACKPAGES in *.
  assert (forall z, 0 < z -> negb (z =? 0) = true) as Hnz by (intros z Hz; by destruct (Z.eqb_spec z 0); [lia|]).
  assert (forall z, 0 < z < 2 ^ 32 -> z mod 4096 = 0 -> page_aligned z = true) as Hal.
  { intros z Hz Hm. apply aligned_iff; [unfold is_u32; lia|done]. }
  rewrite !Hnz by lia. by rewrite !Hal by (done || lia).
Qed.

Lemma fault_frame lo hi x va p : as_ok lo hi x -> 0 <= lo -> hi <= 512 * 1024 * 1024 -> is_u32 va ->
  fault_paddr x (Z.land va PAGE_FRAME) = Some p -> is_u32 p /\ p mod 4096 = 0.
Proof.
  intros Hx Hlo Hhi Hva Hp.
  set (page := Z.land va PAGE_FRAME) in *.
  assert (page = va / 4096 * 4096) as Epage by (by apply land_frame). clearbody page.
  assert (is_u32 page) as Hpg by (unfold is_u32 in *; pose proof (Z.div_mod va 4096); pose proof (Z.mod_pos_bound va 4096); lia).
  assert (page mod 4096 = 0) as Hal by (rewrite Epage; apply Z_mod_mult).
  assert (translate x page = Some p) as Ht.
  { unfold translate. rewrite land_frame by done.
    replace (page / 4096 * 4096) with page by (pose proof (Z.div_mod page 4096); lia).
    rewrite Hp. cbn. f_equal. lia. }
  pose proof (translate_range lo hi x page p Hx Hhi Hpg Ht). split; [unfold is_u32; lia|].
  rewrite (translate_place lo hi) in Ht by done. unfold place_of in Ht.
  destruct Hx as [(_ & A2 & _) (_ & B2 & _) (_ & C2 & _) (_ & D2 & _) (_ & E2 & _)].
  assert (stackbase mod 4096 = 0) as Hs by done.
  repeat case_match; simpl in Ht; try done; injection Ht as <-;
    rewrite Z.add_mod, Zminus_mod by lia; rewrite ?C2, ?D2, ?E2, ?Hal, ?A2, ?B2, ?Hs; done.
Qed.

(** Putting the translation of a page that has none in a free entry. *)
Lemma tlb_filled x pre old post page p lo :
  tlb_ok x (pre ++ old :: post) -> tlb_valid old.2 = false -> tlb_valid lo = true ->
  fault_paddr x page = Some p -> Z.land lo PAGE_FRAME = p ->
  (forall q, ~ tlb_maps (pre ++ old :: post) page q) ->
  tlb_ok x (pre ++ (page, lo) :: post) /\ tlb_maps (pre ++ (page, lo) :: post) page p /\
  forall q r, q <> page -> tlb_maps (pre ++ (page, lo) :: post) q r <-> tlb_maps (pre ++ old :: post) q r.
Proof.
  intros [Hright Honce] Hold Hlo Hp Hfr Hmiss.
  assert (forall hi l', tlb_valid l' = true ->
    ((hi, l') ∈ pre ++ old :: post <-> (hi, l') ∈ pre ++ post)) as Helem.
  { intros hi l' Hv. rewrite !elem_of_app, elem_of_cons. split; [|tauto].
    intros [?|[<-|?]]; [tauto| |tauto]. simpl in Hold. congruence. }
  assert (forall hi l', (hi, l') ∈ pre ++ (page, lo) :: post <-> (hi, l') = (page, lo) \/ (hi, l') ∈ pre ++ post) as Helem'.
  { intros hi l'. rewrite !elem_of_app, elem_of_cons. tauto. }
  split; [split|split].
  - intros hi l' [[= -> ->]|Hin]%Helem' Hv; [by exists p|]. apply (Hright hi); [by apply Helem|done].
  - rewrite filter_app, filter_cons, decide_False in Honce by (simpl; by rewrite Hold).
    rewrite filter_app, filter_cons, decide_True by done. rewrite fmap_app in Honce |- *. rewrite fmap_cons. simpl.
    apply NoDup_app in Honce as (N1 & N2 & N3).
    assert (forall l', l' ⊆ pre ++ post -> page ∉ fst <$> filter (fun e : Z * Z => tlb_valid e.2 = true) l') as Hnew.
    { intros l' Hl' [[hi lo'] [-> Hin]]%list_elem_of_fmap. apply list_elem_of_filter in Hin as [Hv Hin]. simpl in Hv.
      apply (Hmiss (Z.land lo' PAGE_FRAME)). exists lo'. split; [|done]. by apply Helem, Hl'. }
    apply NoDup_app. split_and!; [done| |].
    + intros k Hk [->|Hk']%elem_of_cons; [|by apply (N2 k)]. revert Hk. apply Hnew. set_solver.
    + constructor; [|done]. apply Hnew. set_solver.
  - exists lo. split; [|done]. apply Helem'. by left.
  - intros q r Hq. split; intros (l' & Hin & Hv & Hl); exists l'; (split; [|done]).
    + apply Helem' in Hin as [[= -> _]|Hin]; [done|]. by apply Helem.
    + apply Helem'. right. by apply Helem.
Qed.

(** C40: a fault on a user address that the buffer does not translate is
    answered by the right translation: the page of the address is mapped to the
    frame the address space gives it, valid and writable, in the first free
    entry; all other pages keep theirs, and the buffer stays consistent with
    the address space.  EFAULT, without any change, exactly when the address is
    in no region or the buffer has no free entry. *)
Theorem vm_fault_spec f la pm sp tl cp ca al nx x t va (page := Z.land va PAGE_FRAME) :
  cp <> 0 -> ca <> 0 -> sp !! ca = Some x -> as_ok 0 f x -> f <= 512 * 1024 * 1024 ->
  is_u32 va -> t = VM_FAULT_READ \/ t = VM_FAULT_WRITE ->
  tlb_ok x tl -> (forall q, ~ tlb_maps tl page q) ->
  exists r tl', vm_fault t va (vst f la pm sp tl cp ca al nx) = Ok r (vst f la pm sp tl' cp ca al nx) /\
    tlb_ok x tl' /\
    match r with
    | Done _ => exists p, fault_paddr x page = Some p /\ tlb_maps tl' page p /\
        (page, Z.lor (Z.lor p TLBLO_DIRTY) TLBLO_VALID) ∈ tl' /\
        forall q p', q <> page -> tlb_maps tl' q p' <-> tlb_maps tl q p'
    | Err e => e = EFAULT /\ tl' = tl /\
        (fault_paddr x page = None \/ Forall (fun d => tlb_valid d.2 = true) tl)
    end.
Proof.
  intros Hcp Hca Hx Hok Hf Hva Ht Htlb Hmiss. unfold vm_fault. fold page.
  assert ((t =? VM_FAULT_READONLY) = false /\ negb (t =? VM_FAULT_READ) && negb (t =? VM_FAULT_WRITE) = false)
    as [-> ->] by (destruct Ht as [-> | ->]; split; reflexivity).
  rewrite get_bind. cbn [vm_curproc vm_curas tlb].
  destruct (Z.eqb_spec cp 0); [done|]. destruct (Z.eqb_spec ca 0) as [|_]; [done|].
  assert (get_as ca (vst f la pm sp tl cp ca al nx) = Ok x (vst f la pm sp tl cp ca al nx)) as Hget.
  { unfold get_as. destruct (Z.eqb_spec ca 0); [done|]. rewrite get_bind. cbn. by rewrite Hx. }
  run Hget. rewrite kassert_bind by (by apply (as_ok_asserts 0 f)).
  destruct (fault_paddr x page) as [p|] eqn:Hp.
  2:{ exists (Err EFAULT), tl. do 4 (split; [done|]). by left. }
  destruct (fault_frame 0 f x va p Hok ltac:(lia) Hf Hva Hp) as [Hp32 Hpm].
  rewrite kassert_bind by (by apply aligned_iff).
  destruct (tlb_word p Hp32 Hpm) as [Hv Hfr].
  set (lo := Z.lor (Z.lor p TLBLO_DIRTY) TLBLO_VALID) in *.
  destruct (tlb_fill tl (page, lo)) as [tl'|] eqn:Hfill.
  2:{ exists (Err EFAULT), tl. apply tlb_fill_full in Hfill. do 4 (split; [done|]). by right. }
  apply tlb_fill_spec in Hfill as (pre & old & post & -> & -> & Hold & _).
  exists (Done tt), (pre ++ (page, lo) :: post). split; [done|].
  destruct (tlb_filled x pre old post page p lo) as (T1 & T2 & T3); try done.
  { unfold tlb_valid. by rewrite Hv. }
  split; [done|]. exists p. split; [done|]. split; [done|]. split; [|done]. apply elem_of_app. right. left.
Qed.

(** A request for 2^20 - 1 pages, more than any machine has, is granted:
    the size wraps around, the allocator moves back by one page, and the next
    page it hands out is one that somebody already owns. *)
Theorem stealmem_wraps s : ram_ok s ->
  exists s1 s2, ram_stealmem (2 ^ 20 - 1) s = Ok (firstpaddr s) s1 /\
    ram_stealmem 1 s1 = Ok (firstpaddr s - PAGE_SIZE) s2.
Proof.
  intros (Hf & Hm & Hla). unfold ram_stealmem. rewrite get_bind. cbv zeta.
  assert (4096 <= firstpaddr s) by (pose proof (Z.div_mod (firstpaddr s) 4096); lia).
  replace (u32 (firstpaddr s + u32 ((2 ^ 20 - 1) * PAGE_SIZE))) with (firstpaddr s - PAGE_SIZE).
  2:{ change (u32 ((2 ^ 20 - 1) * PAGE_SIZE)) with (2 ^ 32 - 4096). unfold PAGE_SIZE.
      replace (firstpaddr s + (2 ^ 32 - 4096)) with (firstpaddr s - 4096 + 1 * 2 ^ 32) by lia.
      unfold u32. rewrite Z_mod_plus_full, Z.mod_small by lia. done. }
  destruct (Z.gtb_spec (firstpaddr s - PAGE_SIZE) (lastpaddr s)); [unfold PAGE_SIZE in *; lia|].
  do 2 eexists. split; [reflexivity|]. rewrite get_bind. cbv zeta.
  change (u32 (1 * PAGE_SIZE)) with PAGE_SIZE. cbn [firstpaddr lastpaddr set_first].
  rewrite u32_small by (unfold PAGE_SIZE; lia).
  destruct (Z.gtb_spec (firstpaddr s - PAGE_SIZE + PAGE_SIZE) (lastpaddr s)); [lia|]. reflexivity.
Qed.

(** ** A machine with one loaded program *)

Definition demo_as : addrspace := Addrspace 0x400000 0x1000 2 0x10000000 0x3000 1 0x4000.
Definition demo_vm (tl : list (Z * Z)) : vmstate :=
  vst 0x16000 0x100000 (fun a => a mod 251) {[7 := demo_as]} tl 3 7 [] 8.

(** The value a computation returns. *)
Definition result {S A} (o : outcome S A) : option A := match o with Ok a _ => Some a | Fault _ => None end.

Lemma demo_ram tl : ram_ok (demo_vm tl).
Proof. unfold ram_ok. simpl. split; [lia|]. split; [done|lia]. Qed.

Lemma demo_as_ok : as_ok 0 0x16000 demo_as.
Proof. split; vm_compute; repeat split; done. Qed.

Lemma as_copy_spec_witness : exists s', as_copy 7 (demo_vm []) = Ok (Done 8) s' /\ ram_ok s'.
Proof.
  destruct (as_copy_spec 0x16000 0x100000 (fun a => a mod 251) {[7 := demo_as]} [] 3 7 [] 8 7 demo_as
    (demo_ram []) ltac:(done) eq_refl demo_as_ok ltac:(lia) eq_refl) as (r & s' & Hr & Hok & _).
  assert (result (as_copy 7 (demo_vm [])) = Some (Done 8)) as Hc by (vm_compute; reflexivity).
  unfold demo_vm in Hc. rewrite Hr in Hc. injection Hc as ->. by exists s'.
Defined.

Lemma vm_fault_spec_witness : exists tl',
  vm_fault VM_FAULT_READ 0x400123 (demo_vm [(0x80000000, 0)]) = Ok (Done tt) (demo_vm tl') /\ tlb_ok demo_as tl'.
Proof.
  destruct (vm_fault_spec 0x16000 0x100000 (fun a => a mod 251) {[7 := demo_as]} [(0x80000000, 0)] 3 7 [] 8 demo_as
    VM_FAULT_READ 0x400123 ltac:(done) ltac:(done) eq_refl demo_as_ok ltac:(lia) ltac:(unfold is_u32; lia) (or_introl eq_refl))
    as (r & tl' & Hr & Hok & _).
  - split; [|vm_compute; constructor].
    intros hi lo Hin Hv. apply list_elem_of_singleton in Hin as [= -> ->]. done.
  - intros q (lo & Hin & Hv & _). by apply list_elem_of_singleton in Hin as [= _ ->].
  - assert (result (vm_fault VM_FAULT_READ 0x400123 (demo_vm [(0x80000000, 0)])) = Some (Done tt)) as Hc
      by (vm_compute; reflexivity).
    unfold demo_vm in Hc. rewrite Hr in Hc. injection Hc as ->. by exists tl'.
Defined.

Lemma stealmem_wraps_witness : exists s1 s2, ram_stealmem (2 ^ 20 - 1) (demo_vm []) = Ok 0x16000 s1 /\
  ram_stealmem 1 s1 = Ok 0x15000 s2.
Proof. apply (stealmem_wraps (demo_vm []) (demo_ram [])). Defined.
End VmProps.
