(* ===== verification/VfsProc.v ===== *)
(** * Current directories of processes that come and go

    The parts of kern/proc/proc.c that touch current directories: a new process
    shares the directory of its creator, and a destroyed one drops its own. *)

From S2P Require Import Prelude Kern Interfaces Copyinout Array Uio Vfs VfsSpec VfsDevs.
Open Scope Z_scope.
Import Vfs VfsSpec.
#[local] Existing Instances VfsDevs.NoBackend VfsDevs.NoBackendInv VfsDevs.NoBackendSpec.

Module VfsProc.
Section Ops.
Context {G : Type} `{Backend G}.
Abbreviation V := (vstate G).

(** In proc_create_runprogram: [newproc->p_cwd = curproc->p_cwd]. *)
Definition proc_share_cwd (newproc : Z) : M V unit :=
  s ← get;
  match p_cwd s !! v_proc s with
  | Some d => VOP_INCREF d ;; modify (fun s => set_cwd (<[newproc := d]> (p_cwd s)) s)
  | None => mret tt
  end.

(** In proc_destroy: [VOP_DECREF(proc->p_cwd); proc->p_cwd = NULL]. *)
Definition proc_drop_cwd (proc : Z) : M V unit :=
  s ← get;
  match p_cwd s !! proc with
  | Some d => VOP_DECREF d ;; modify (fun s => set_cwd (delete proc (p_cwd s)) s)
  | None => mret tt
  end.
End Ops.

(** File systems do not look at the current directories of processes when they
    reclaim a vnode. *)
Class ReclaimCwd (G : Type) `{Backend G} := {
  reclaim_cwd : forall v c (s : vstate G), fop_reclaim v (set_cwd c s) =
    match fop_reclaim v s with Ok r s' => Ok r (set_cwd c s') | Fault f => Fault f end
}.

#[export] Instance NoReclaimCwd : ReclaimCwd unit.
Proof. by split. Defined.

Section Spec.
Context {G : Type} `{BackendSpec G}.
Implicit Types s : vstate G.

Definition cwd_list (c : gmap Z Z) : list Z := (map_to_list c).*2.

Lemma cnt_app u l l' : cnt u (l ++ l') = cnt u l + cnt u l'.
Proof. unfold cnt. rewrite filter_app, length_app. lia. Qed.

Lemma cnt_cons u a l : cnt u (a :: l) = (if u =? a then 1 else 0) + cnt u l.
Proof.
  unfold cnt. rewrite filter_cons. destruct (Z.eqb_spec u a) as [->|].
  - rewrite decide_True by done. simpl. lia.
  - rewrite decide_False by congruence. lia.
Qed.

Lemma cnt_perm u l l' : l ≡ₚ l' -> cnt u l = cnt u l'.
Proof. intros Hp. unfold cnt. by rewrite Hp. Qed.

Lemma cwd_list_insert u c p d : c !! p = None ->
  cnt u (cwd_list (<[p := d]> c)) = (if u =? d then 1 else 0) + cnt u (cwd_list c).
Proof.
  intros Hp. unfold cwd_list. rewrite (cnt_perm _ _ (d :: (map_to_list c).*2)); [apply cnt_cons|].
  by rewrite map_to_list_insert.
Qed.

Lemma cwd_list_delete u c p d : c !! p = Some d ->
  cnt u (cwd_list c) = (if u =? d then 1 else 0) + cnt u (cwd_list (delete p c)).
Proof.
  intros Hp. rewrite <- (insert_delete_id c p d Hp) at 1. apply cwd_list_insert, lookup_delete_eq.
Qed.

(** The references held by tables other than the current directories. *)
Definition held (u : Z) s : Z :=
  cnt u ((kd_vnode <$> devs s) ++ (if bootfs_vnode s =? 0 then [] else [bootfs_vnode s])).

Lemma holders_cwd u s : cnt u (holders s) = held u s + cnt u (cwd_list (p_cwd s)).
Proof. unfold holders, held. rewrite app_assoc, cnt_app. done. Qed.

Lemma ext_refs_cwd u c s : ext_refs (set_cwd c s) u = refs s u - held u s - cnt u (cwd_list c).
Proof.
  unfold ext_refs. rewrite holders_cwd. change (held u (set_cwd c s)) with (held u s).
  change (refs (set_cwd c s) u) with (refs s u). simpl. lia.
Qed.

(** A current directory is not a device. *)
Lemma cwd_not_dev u s c : (forall p d, c !! p = Some d -> fs_node s d) ->
  (forall x, vnodes s !! u = Some x -> vn_ops x = dev_vnode_ops -> cnt u (cwd_list c) = 0).
Proof.
  intros Hc x Hx Ho. apply cnt_absent. intros k Hk. unfold cwd_list in Hk.
  rewrite list_lookup_fmap in Hk. apply fmap_Some in Hk as ([p d] & Hk & ->).
  apply list_elem_of_lookup_2, elem_of_map_to_list in Hk. destruct (Hc p d Hk) as (y & Hy & Hoy).
  simpl in *. congruence.
Qed.

(** Replacing the current directories, with counts that cover the new ones. *)
Lemma vinv_cwd s c : vinv s -> (forall p d, c !! p = Some d -> fs_node s d) ->
  (forall u, held u s + cnt u (cwd_list c) <= refs s u) -> vinv (set_cwd c s).
Proof.
  intros [[Harr Hvn Hh Hkd Hcwd Hbt Hl Hcap Hnx] Hb] Hc Hle. split; [split; try done|].
  - intros u x Hx. destruct (Hvn u x Hx) as [P1 P2 P3 P4 P5]. split; try done.
    intros Ho. destruct (P4 Ho) as (Q1 & Q2 & Q3 & Q4). split_and!; try done.
    intros Hd. specialize (Q3 Hd). unfold ext_refs in *. rewrite holders_cwd in *.
    change (refs (set_cwd c s) u) with (refs s u). change (held u (set_cwd c s)) with (held u s). simpl.
    rewrite (cwd_not_dev u s c Hc x Hx Ho). rewrite (cwd_not_dev u s (p_cwd s) Hcwd x Hx Ho) in Q3. lia.
  - intros u. rewrite holders_cwd. apply Hle.
  - intros kd Hk. destruct (Hkd kd Hk). by split.
  - by apply (binv_stable s).
Qed.

Lemma cwd_fs_node s p d : vinv s -> p_cwd s !! p = Some d -> fs_node s d.
Proof. intros [Hs _]. apply (vfs_cwd _ Hs). Qed.

Lemma proc_share_cwd_ok s child : vinv s -> p_cwd s !! child = None ->
  wp (proc_share_cwd child) (fun _ s' => vinv s' /\ (forall u, ext_refs s' u = ext_refs s u) /\
    p_cwd s' = partial_alter (fun _ => p_cwd s !! v_proc s) child (p_cwd s) /\
    biglock s' = biglock s /\ v_mem s' = v_mem s) s.
Proof.
  intros Hs Hchild. unfold proc_share_cwd. rewrite wp_bind, wp_get.
  destruct (p_cwd s !! v_proc s) as [d|] eqn:Hd.
  2:{ apply wp_ret. split; [done|]. split; [done|]. split; [|done]. symmetry. exact (delete_id _ child Hchild). }
  destruct (cwd_fs_node s _ d Hs Hd) as (x & Hx & Ho).
  rewrite wp_bind. unfold VOP_INCREF, vnode_incref, put_vnode. rewrite wp_bind, wp_kassert.
  pose proof (vfs_vnodes _ (proj1 Hs) d x Hx) as [P1 P2 _ _ _]. destruct (Z.eqb_spec d 0); [lia|]. split; [done|].
  rewrite wp_bind. eapply wp_get_vnode; [done|done|]. rewrite wp_modify, wp_modify.
  assert (moves (one d) s (set_count d x (vn_refcount x + 1) s)) as Hm.
  { pose proof (vfs_held _ (proj1 Hs) d) as Hh. unfold refs in Hh. rewrite Hx in Hh.
    eapply moves_delta; [apply set_count_moves; try done; [lia|lia|congruence]|].
    intros u. unfold one. case_match; lia. }
  set (s1 := set_count d x (vn_refcount x + 1) s) in *.
  change (vinv (set_cwd (<[child := d]> (p_cwd s1)) s1) /\
    (forall u, ext_refs (set_cwd (<[child := d]> (p_cwd s1)) s1) u = ext_refs s u) /\
    <[child := d]> (p_cwd s1) = partial_alter (fun _ => Some d) child (p_cwd s) /\
    biglock s = biglock s /\ v_mem s = v_mem s).
  assert (forall u, cnt u (cwd_list (<[child := d]> (p_cwd s1))) = (if u =? d then 1 else 0) + cnt u (cwd_list (p_cwd s1))) as Hcnt.
  { intros u. by apply cwd_list_insert. }
  pose proof (mv_refs _ _ _ Hm) as Hr. pose proof (same_holders _ _ (mv_same _ _ _ Hm)) as Hho.
  split; [|split; [|done]].
  - apply vinv_cwd; [apply Hm| |].
    + intros q e [[_ <-]|[_ Hq]]%lookup_insert_Some; [by eapply (cwd_fs_node s1 (v_proc s)); [apply Hm|]|].
      by eapply (cwd_fs_node s1 q); [apply Hm|].
    + intros u. rewrite Hcnt, Hr. unfold one. pose proof (vfs_held _ (proj1 Hs) u) as Hh.
      rewrite <- Hho, holders_cwd in Hh. case_match; lia.
  - intros u. rewrite ext_refs_cwd, Hcnt, Hr. unfold ext_refs.
    rewrite <- Hho, holders_cwd. unfold one. case_match; lia.
Qed.

(** Dropping a reference and clearing the field commute. *)
Lemma decref_cwd `{!ReclaimCwd G} v c s : VOP_DECREF v (set_cwd c s) =
  match VOP_DECREF v s with Ok r s' => Ok r (set_cwd c s') | Fault f => Fault f end.
Proof.
  unfold VOP_DECREF, vnode_decref, VOP_RECLAIM, vnode_check, get_vnode, put_vnode, dev_reclaim.
  unfold mbind, M_bind, kassert, get, deref, modify, raise, mret, M_ret. simpl.
  destruct (v =? 0); [done|]. simpl. destruct (vnodes s !! v) as [x|] eqn:Hx; [|done].
  destruct (vn_refcount x >? 0) eqn:Hp; [|done]. destruct (vn_refcount x >? 1); [done|].
  change (vnodes (set_cwd c s)) with (vnodes s). rewrite Hx. cbn beta iota.
  destruct (vn_ops x) eqn:Ho; cbn beta iota; rewrite ?Hp; cbn beta iota; rewrite ?Ho; [done| |done].
  rewrite reclaim_cwd. by destruct (fop_reclaim v s).
Qed.

Lemma vinv_drop s (p d : Z) : vinv s -> p_cwd s !! p = Some d ->
  vinv (set_cwd (delete p (p_cwd s)) s) /\
  (forall u, ext_refs (set_cwd (delete p (p_cwd s)) s) u = ext_refs s u + one d u).
Proof.
  intros Hs Hd. pose proof (fun u => cwd_list_delete u _ _ _ Hd) as Hc. split.
  - apply vinv_cwd; [done| |].
    + intros q e [_ Hq]%lookup_delete_Some. by apply (cwd_fs_node s q).
    + intros u. specialize (Hc u). pose proof (vfs_held _ (proj1 Hs) u) as Hh.
      rewrite holders_cwd in Hh. case_match; lia.
  - intros u. rewrite ext_refs_cwd. specialize (Hc u). unfold ext_refs, one.
    rewrite holders_cwd. case_match; lia.
Qed.

Lemma proc_drop_cwd_ok `{!ReclaimCwd G} s p : vinv s ->
  wp (proc_drop_cwd p) (fun _ s' => vinv s' /\ (forall u, ext_refs s' u = ext_refs s u) /\
    p_cwd s' = delete p (p_cwd s) /\
    biglock s' = biglock s) s.
Proof.
  intros Hs. unfold proc_drop_cwd. rewrite wp_bind, wp_get. destruct (p_cwd s !! p) as [d|] eqn:Hd.
  2:{ apply wp_ret. split; [done|]. split; [done|]. split; [|done]. symmetry. by apply delete_id. }
  destruct (vinv_drop s p d Hs Hd) as [Hv He].
  pose proof (wp_decref _ d Hv) as Hw. rewrite He in Hw. unfold one in Hw. rewrite Z.eqb_refl in Hw.
  assert (0 < ext_refs s d + 1) as Hpos by (pose proof (vfs_held _ (proj1 Hs) d); unfold ext_refs; lia).
  specialize (Hw Hpos). unfold wp in Hw. rewrite decref_cwd in Hw.
  unfold wp, mbind, M_bind, modify. destruct (VOP_DECREF d s) as [r s'|f] eqn:Hrun; [|done].
  assert (p_cwd s' = p_cwd s) as Hcwd. {
    pose proof (decref_cwd d (p_cwd s) s) as Hid. destruct s. simpl in *. unfold set_cwd in Hid at 1. simpl in Hid.
    rewrite Hrun in Hid. injection Hid as Hid. by rewrite Hid. }
  rewrite Hcwd. pose proof (mv_same _ _ _ Hw) as [_ _ Hlk _ _ _ _].
  split; [apply Hw|]. split; [|done].
  intros u. rewrite (moves_ext _ _ _ Hw), He. unfold one, minus. case_match; lia.
Qed.
End Spec.
End VfsProc.
