(* ===== verification/UserSpace.v ===== *)
(** * User memory in physical memory

    What the processor shows of physical memory through an address space: the
    user bytes by address, and physical memory after user bytes have been
    written.  Different address spaces do not see each other's writes. *)

From S2P Require Import Prelude Kern Copyinout Vm VmSpec.
Open Scope Z_scope.
Import Vm VmSpec.

Module UserSpace.

(** The bytes an address space shows, by user address, and physical memory
    after the bytes at user addresses have been changed. *)
Definition user_addrs (x : addrspace) : list Z :=
  seqZ (as_vbase1 x) (as_npages1 x * PAGE_SIZE) ++ seqZ (as_vbase2 x) (as_npages2 x * PAGE_SIZE) ++
  seqZ stackbase (DUMBVM_STACKPAGES * PAGE_SIZE).
Definition user_map (x : addrspace) (pm : Z -> Z) : gmap Z Z :=
  list_to_map (omap (fun va => (fun p => (va, pm p)) <$> translate x va) (user_addrs x)).

(** The user address that shows the physical byte [pa]. *)
Definition shown_at (x : addrspace) (pa : Z) : option Z :=
  head (filter (fun va => translate x va = Some pa)
    [as_vbase1 x + (pa - as_pbase1 x); as_vbase2 x + (pa - as_pbase2 x);
     stackbase + (pa - as_stackpbase x)]).
Definition write_back (x : addrspace) (m : gmap Z Z) (pm : Z -> Z) : Z -> Z := fun pa =>
  match shown_at x pa with Some va => default (pm pa) (m !! va) | None => pm pa end.

(** The frames of the three regions lie in the order they are handed out. *)
Definition own_frames (x : addrspace) : Prop :=
  as_pbase1 x + as_npages1 x * PAGE_SIZE <= as_pbase2 x /\
  as_pbase2 x + as_npages2 x * PAGE_SIZE <= as_stackpbase x.

(** No physical byte is shown by both. *)
Definition apart (x y : addrspace) : Prop := forall va vb p,
  translate x va = Some p -> translate y vb <> Some p.

Lemma apart_sym x y : apart x y -> apart y x.
Proof. intros Ha va vb p Hy Hx. by apply (Ha vb va p). Qed.

(** Only the 32 bits of an address matter. *)
Lemma translate_u32 x va : translate x va = translate x (u32 va).
Proof.
  unfold translate. replace (u32 va mod 4096) with (va mod 4096) by width_lia.
  replace (Z.land (u32 va) PAGE_FRAME) with (Z.land va PAGE_FRAME); [done|].
  unfold u32. rewrite <- Z.land_ones by lia. by rewrite <- Z.land_assoc.
Qed.

Lemma shown_at_Some x pa va : shown_at x pa = Some va -> translate x va = Some pa.
Proof.
  unfold shown_at. intros Hh. assert (va ∈ filter (fun va => translate x va = Some pa)
    [as_vbase1 x + (pa - as_pbase1 x); as_vbase2 x + (pa - as_pbase2 x); stackbase + (pa - as_stackpbase x)]) as Hin.
  { destruct (filter _ _); [done|]. injection Hh as ->. left. }
  by apply list_elem_of_filter in Hin as [? _].
Qed.

Section Space.
Context {lo hi : Z} {x : addrspace}.
Hypothesis Hok : as_ok lo hi x.
Hypothesis Hhi : hi <= 512 * 1024 * 1024.

Lemma translate_user va p : is_u32 va -> translate x va = Some p -> va ∈ user_addrs x /\ va < USERSPACETOP.
Proof.
  intros Hva. rewrite (translate_place lo hi) by done. unfold place_of, user_addrs.
  destruct Hok as [(A1 & A2 & A3 & A4) (B1 & B2 & B3 & B4) _ _ _].
  rewrite !elem_of_app, !elem_of_seqZ. change USERSTACK with (stackbase + DUMBVM_STACKPAGES * PAGE_SIZE).
  assert (stackbase + DUMBVM_STACKPAGES * PAGE_SIZE = USERSPACETOP) as E by done.
  destruct ((as_vbase1 x <=? va) && _) eqn:T1; [apply andb_true_iff in T1; lia|].
  destruct ((as_vbase2 x <=? va) && _) eqn:T2; [apply andb_true_iff in T2; lia|].
  destruct ((stackbase <=? va) && _) eqn:T3; [apply andb_true_iff in T3; lia|done].
Qed.

Lemma user_addr_u32 va : va ∈ user_addrs x -> is_u32 va.
Proof.
  unfold user_addrs. rewrite !elem_of_app, !elem_of_seqZ. unfold is_u32.
  destruct Hok as [(A1 & A2 & A3 & A4) (B1 & B2 & B3 & B4) _ _ _].
  assert (stackbase + DUMBVM_STACKPAGES * PAGE_SIZE = USERSPACETOP) as E by done.
  assert (0 <= stackbase) by done. unfold USERSPACETOP in *. lia.
Qed.

(** User memory is the view of physical memory. *)
Lemma user_map_lookup pm va : is_u32 va -> user_map x pm !! va = view pm x va.
Proof.
  intros Hva. unfold user_map, view. destruct (translate x va) as [p|] eqn:Hp; simpl.
  - apply elem_of_list_to_map_1'.
    + intros b Hb. apply list_elem_of_omap in Hb as (w & Hw & E). apply fmap_Some in E as (q & Hq & [= -> ->]). congruence.
    + apply list_elem_of_omap. exists va. split; [by apply (translate_user va p)|]. by rewrite Hp.
  - apply not_elem_of_list_to_map_1. intros Hin. apply list_elem_of_fmap in Hin as ([w b] & -> & Hin).
    apply list_elem_of_omap in Hin as (w' & _ & E). apply fmap_Some in E as (q & Hq & [= -> ->]).
    simpl in *. congruence.
Qed.

Lemma user_map_user pm va : is_Some (user_map x pm !! va) -> is_u32 va.
Proof.
  intros [b Hb]. unfold user_map in Hb. apply elem_of_list_to_map_2, list_elem_of_omap in Hb as (w & Hw & E).
  apply fmap_Some in E as (q & Hq & [= -> ->]). by apply user_addr_u32.
Qed.

(** The three cases of a translation. *)
Lemma translate_cases va p : is_u32 va -> translate x va = Some p ->
  (as_pbase1 x <= p < as_pbase1 x + as_npages1 x * PAGE_SIZE /\ va = as_vbase1 x + (p - as_pbase1 x)) \/
  (as_pbase2 x <= p < as_pbase2 x + as_npages2 x * PAGE_SIZE /\ va = as_vbase2 x + (p - as_pbase2 x)) \/
  (as_stackpbase x <= p < as_stackpbase x + DUMBVM_STACKPAGES * PAGE_SIZE /\
   va = stackbase + (p - as_stackpbase x)).
Proof.
  intros Hva. rewrite (translate_place lo hi) by done. unfold place_of.
  assert (stackbase + DUMBVM_STACKPAGES * PAGE_SIZE = USERSTACK) as E by done.
  destruct ((as_vbase1 x <=? va) && _) eqn:T1; [apply andb_true_iff in T1; intros [= <-]; lia|].
  destruct ((as_vbase2 x <=? va) && _) eqn:T2; [apply andb_true_iff in T2; intros [= <-]; lia|].
  destruct ((stackbase <=? va) && _) eqn:T3; [apply andb_true_iff in T3; intros [= <-]; lia|done].
Qed.

Hypothesis Hown : own_frames x.

Lemma translate_inj va vb p : is_u32 va -> is_u32 vb ->
  translate x va = Some p -> translate x vb = Some p -> va = vb.
Proof.
  intros Hva Hvb Ha Hb. apply translate_cases in Ha; [|done]. apply translate_cases in Hb; [|done].
  destruct Hok as [(_ & _ & A3 & _) (_ & _ & B3 & _) _ _ _]. destruct Hown as [O1 O2].
  unfold PAGE_SIZE, DUMBVM_STACKPAGES in *. lia.
Qed.

Lemma shown_at_own va p : is_u32 va -> translate x va = Some p -> shown_at x p = Some va.
Proof.
  intros Hva Hp. pose proof (translate_cases va p Hva Hp) as Hc.
  pose proof (translate_user va p Hva Hp) as [_ Htop].
  pose proof (translate_range lo hi x va p Hok Hhi Hva Hp) as Hr.
  set (cs := [as_vbase1 x + (p - as_pbase1 x); as_vbase2 x + (p - as_pbase2 x); stackbase + (p - as_stackpbase x)]).
  assert (forall c, c ∈ filter (fun va => translate x va = Some p) cs -> c = va) as Hall.
  { intros c Hin. apply list_elem_of_filter in Hin as [Hc' Hin].
    assert (u32 c = va) as Hu.
    { apply (translate_inj _ va p); [apply u32_range|done|by rewrite <- translate_u32|done]. }
    destruct Hok as [(A1 & _ & A3 & A4) (B1 & _ & B3 & B4) (C1 & _ & C3 & C4) (D1 & _ & D3 & D4) (E1 & _ & E3 & E4)].
    unfold USERSPACETOP, PAGE_SIZE, DUMBVM_STACKPAGES in *.
    assert (- 2 ^ 30 < c < 2 ^ 32) as Hrange.
    { unfold cs in Hin. rewrite !elem_of_cons in Hin. assert (stackbase = 2147409920) as Es by done.
      unfold is_u32 in *. destruct Hin as [->|[->|[->|Hin]]]; [lia..|by apply not_elem_of_nil in Hin]. }
    revert Hu Htop Hrange. clear. intros. width_lia. }
  assert (va ∈ filter (fun va => translate x va = Some p) cs) as Hin.
  { apply list_elem_of_filter. split; [done|]. unfold cs. rewrite !elem_of_cons. intuition lia. }
  change (shown_at x p) with (head (filter (fun va => translate x va = Some p) cs)).
  destruct (filter _ cs) as [|c l]; [by apply not_elem_of_nil in Hin|]. simpl. f_equal. apply Hall. left.
Qed.

(** After writing, the address space shows what was written. *)
Lemma write_back_own m pm va : is_u32 va -> is_Some (translate x va) ->
  (forall p, translate x va = Some p -> is_Some (m !! va)) ->
  view (write_back x m pm) x va = m !! va.
Proof.
  intros Hva [p Hp] Hm. unfold view, write_back. rewrite Hp. simpl.
  rewrite (shown_at_own va p Hva Hp). destruct (Hm p Hp) as [b ->]. done.
Qed.
End Space.

(** An address space apart from the one written through does not change. *)
Lemma write_back_other x y m pm va : apart x y -> view (write_back x m pm) y va = view pm y va.
Proof.
  intros Ha. unfold view, write_back. destruct (translate y va) as [p|] eqn:Hp; [|done]. simpl.
  destruct (shown_at x p) as [w|] eqn:Hw; [|done]. by destruct (Ha w va p (shown_at_Some x p w Hw)).
Qed.

Lemma as_ok_mono lo hi lo' hi' x : as_ok lo hi x -> lo' <= lo -> hi <= hi' -> as_ok lo' hi' x.
Proof.
  intros [A B (C1 & C2 & C3 & C4) (D1 & D2 & D3 & D4) (E1 & E2 & E3 & E4)] Hl Hh.
  split; [done|done|..]; split_and!; done || lia.
Qed.

(** Frames handed out at different times are apart. *)
Lemma as_ok_apart lo1 hi1 lo2 hi2 x y : as_ok lo1 hi1 x -> as_ok lo2 hi2 y -> hi1 <= lo2 ->
  hi1 <= 512 * 1024 * 1024 -> hi2 <= 512 * 1024 * 1024 -> apart x y.
Proof.
  intros Hx Hy Hle H1 H2 va vb p Ha Hb. rewrite translate_u32 in Ha, Hb.
  apply (translate_range lo1 hi1) in Ha; [|done|done|apply u32_range].
  apply (translate_range lo2 hi2) in Hb; [|done|done|apply u32_range]. lia.
Qed.
End UserSpace.
