(* ===== verification/Proc.v ===== *)
(** * Processes and the kernel state

    Model of kern/proc/proc.c, kern/syscall/proc_syscalls.c, the end of
    kern/thread/pid.c and the parts of kern/thread/thread.c and
    kern/arch/mips/syscall/syscall.c that create and end processes.

    The kernel state puts the states of the open-file layer, of the process id
    table and of the memory system together with the process structures and
    the threads.  Each component runs on a view of the kernel state, in which
    the current thread, process and address space are those of the kernel, and
    user memory is what the current address space shows of physical memory.

    A process structure is named by its address.  A thread is named by the
    process id of its process, or by a fresh negative number where that is
    -1.  The current directory and the descriptor table of a process are
    fields of its structure; they are kept by the layers they belong to, in
    maps from process structures. *)

From S2P Require Import Prelude Kern Bswap Interfaces Copyinout Uio Vfs VfsSpec VfsProc.
From S2P Require Import Openfile Pid Vm VmSpec UserSpace.
Open Scope Z_scope.
Import UserSpace.
#[local] Existing Instances VfsSpec.VfsOps_vfs VfsSpec.UserMem_vfs.

(** struct trapframe: a value for each field. *)
Inductive tf_reg : Type :=
| tf_vaddr | tf_status | tf_cause | tf_lo | tf_hi | tf_ra | tf_at | tf_v0 | tf_v1
| tf_a0 | tf_a1 | tf_a2 | tf_a3
| tf_t0 | tf_t1 | tf_t2 | tf_t3 | tf_t4 | tf_t5 | tf_t6 | tf_t7
| tf_s0 | tf_s1 | tf_s2 | tf_s3 | tf_s4 | tf_s5 | tf_s6 | tf_s7
| tf_t8 | tf_t9 | tf_gp | tf_sp | tf_s8 | tf_epc.
#[export] Instance tf_reg_eq_dec : EqDecision tf_reg.
Proof. solve_decision. Defined.

Definition trapframe : Type := tf_reg -> Z.
Definition set_reg (r : tf_reg) (x : Z) (tf : trapframe) : trapframe :=
  fun q => if decide (q = r) then x else tf q.

(** struct proc, without the fields kept elsewhere. *)
Record proc := Proc { p_name : list Z; p_numthreads : Z; p_addrspace : Z; p_pid : Z }.

(** Where a thread of a user process is between the steps of the kernel: about
    to run child_execute, in user mode with these registers, or in waitpid for
    a child, asleep or woken up. *)
Inductive tstate : Type :=
| TStart (tf : trapframe)
| TUser (tf : trapframe)
| TSleep (tf : trapframe) (pid status pp cv : Z)
| TWoken (tf : trapframe) (pid status pp cv : Z).

Record kstate (G : Type) := KState {
  k_low : vstate G;
  k_oft : Openfile.oft_ptr;
  k_fds : gmap Z (list Z);
  k_pids : pstate;
  k_vm : vmstate;
  k_procs : gmap Z proc;
  t_proc : gmap Z Z;
  t_state : gmap Z tstate;
  k_cur : Z;
  kproc : Z;
  k_allocs : list bool;
  k_next : Z
}.
Arguments KState {G}. Arguments k_low {G}. Arguments k_oft {G}. Arguments k_fds {G}.
Arguments k_pids {G}. Arguments k_vm {G}. Arguments k_procs {G}. Arguments t_proc {G}.
Arguments t_state {G}. Arguments k_cur {G}. Arguments kproc {G}. Arguments k_allocs {G}.
Arguments k_next {G}.

#[export] Instance kstate_alloc {G} : HasAlloc (kstate G) := {|
  allocs := k_allocs;
  set_allocs l s := KState (k_low s) (k_oft s) (k_fds s) (k_pids s) (k_vm s) (k_procs s) (t_proc s)
    (t_state s) (k_cur s) (kproc s) l (k_next s)
|}.

Module Proc.
Section Setters.
Context {G : Type}.
Implicit Types s : kstate G.
Definition set_files l o d s : kstate G :=
  KState l o d (k_pids s) (k_vm s) (k_procs s) (t_proc s) (t_state s) (k_cur s) (kproc s) (k_allocs s) (k_next s).
Definition set_pids x s : kstate G :=
  KState (k_low s) (k_oft s) (k_fds s) x (k_vm s) (k_procs s) (t_proc s) (t_state s) (k_cur s) (kproc s)
    (k_allocs s) (k_next s).
Definition set_vm x s : kstate G :=
  KState (k_low s) (k_oft s) (k_fds s) (k_pids s) x (k_procs s) (t_proc s) (t_state s) (k_cur s) (kproc s)
    (k_allocs s) (k_next s).
Definition set_procs x s : kstate G :=
  KState (k_low s) (k_oft s) (k_fds s) (k_pids s) (k_vm s) x (t_proc s) (t_state s) (k_cur s) (kproc s)
    (k_allocs s) (k_next s).
Definition set_threads p t s : kstate G :=
  KState (k_low s) (k_oft s) (k_fds s) (k_pids s) (k_vm s) (k_procs s) p t (k_cur s) (kproc s)
    (k_allocs s) (k_next s).
Definition set_k_cur x s : kstate G :=
  KState (k_low s) (k_oft s) (k_fds s) (k_pids s) (k_vm s) (k_procs s) (t_proc s) (t_state s) x (kproc s)
    (k_allocs s) (k_next s).
Definition set_kproc x s : kstate G :=
  KState (k_low s) (k_oft s) (k_fds s) (k_pids s) (k_vm s) (k_procs s) (t_proc s) (t_state s) (k_cur s) x
    (k_allocs s) (k_next s).
Definition set_k_next x s : kstate G :=
  KState (k_low s) (k_oft s) (k_fds s) (k_pids s) (k_vm s) (k_procs s) (t_proc s) (t_state s) (k_cur s)
    (kproc s) (k_allocs s) x.
End Setters.

(** The part of sys_fork that is about files: the descriptor table is copied,
    and every open descriptor of the copy counts as one more reference. *)
Section Files.
Context {L : Type}.
Abbreviation F := (Openfile.fstate L).

Definition share_open (ofd : Z) : M F unit :=
  Openfile.oft_acquire ;;
  o ← Openfile.get_open ofd;
  f ← deref FNull o;
  Openfile.set_open ofd (Some (Openfile.OpenFile (Openfile.vn f) (Openfile.am f)
    (s32 (Openfile.rc f + 1)) (Openfile.os f))) ;;
  Openfile.oft_release.

Definition fork_fds (new_proc : Z) : M F unit :=
  d ← Openfile.the_fds;
  modify (fun s => Openfile.set_fds (<[new_proc := d]> (Openfile.fds s)) s) ;;
  for_each (seqZ 0 OPEN_MAX) (fun i =>
    s ← get;
    d ← deref FNull (Openfile.fds s !! new_proc);
    e ← deref FBounds (d !! Z.to_nat i);
    if e =? Openfile.FILE_CLOSED then mret tt else share_open e).
End Files.

Section Ops.
Context {G : Type} `{Backend G}.
Abbreviation K := (kstate G).

(** ** The current process, and views of the state *)

(** The macro curproc: [curthread->t_proc], 0 for NULL. *)
Definition curproc (s : K) : Z := default 0 (t_proc s !! k_cur s).
Definition curas (s : K) : Z :=
  match k_procs s !! curproc s with Some p => p_addrspace p | None => 0 end.
Definition cur_map (s : K) : gmap Z Z :=
  match spaces (k_vm s) !! curas s with Some x => user_map x (pmem (k_vm s)) | None => ∅ end.
Definition cur_write (s : K) (m : gmap Z Z) : Z -> Z :=
  match spaces (k_vm s) !! curas s with Some x => write_back x m (pmem (k_vm s)) | None => pmem (k_vm s) end.

Definition set_env (th p sp : Z) (m : gmap Z Z) (l : vstate G) : vstate G :=
  VState (vnodes l) (devices l) (knowndevs l) (biglock l) (biglock_depth l) (bootfs_vnode l) (p_cwd l)
    th p sp m (v_allocs l) (v_next l) (v_backend l).

Definition low_view (s : K) : vstate G := set_env (k_cur s) (curproc s) (curas s) (cur_map s) (k_low s).
Definition fs_view (s : K) : Openfile.fstate (vstate G) :=
  Openfile.FState (low_view s) (k_cur s) (curproc s) (k_oft s) (k_fds s).
Definition pid_view (s : K) : pstate :=
  let p := k_pids s in PState (pid_table p) (pt_lock p) (pps p) (cvs p) (k_cur s) (p_allocs p) (p_next p).
Definition vm_view (s : K) : vmstate :=
  let v := k_vm s in VmState (firstpaddr v) (lastpaddr v) (pmem v) (spaces v) (tlb v) (curproc s) (curas s)
    (vm_allocs v) (vm_next v).

Definition in_fs {A} (m : M (Openfile.fstate (vstate G)) A) : M K A := fun s =>
  match m (fs_view s) with
  | Ok a f => Ok a (set_files (Openfile.low f) (Openfile.of_t f) (Openfile.fds f)
                     (set_vm (Vm.set_pmem (cur_write s (v_mem (Openfile.low f))) (k_vm s)) s))
  | Fault f => Fault f
  end.
Definition in_low {A} (m : M (vstate G) A) : M K A := in_fs (Openfile.lift m).
Definition in_pid {A} (m : M pstate A) : M K A := fun s =>
  match m (pid_view s) with Ok a p => Ok a (set_pids p s) | Fault f => Fault f end.
Definition in_vm {A} (m : M vmstate A) : M K A := fun s =>
  match m (vm_view s) with Ok a v => Ok a (set_vm v s) | Fault f => Fault f end.

Definition get_proc (p : Z) : M K proc :=
  if p =? 0 then raise FNull else s ← get; deref FDangling (k_procs s !! p).
Definition put_proc (p : Z) (x : proc) : M K unit :=
  modify (fun s => set_procs (<[p := x]> (k_procs s)) s).
Definition cur_proc : M K proc := s ← get; get_proc (curproc s).

(** ** proc.c *)

(** static struct proc *proc_create(const char *name) *)
Definition proc_create (name : list Z) : M K Z :=
  ok ← kmalloc; if negb ok then mret 0 else
  ok ← kmalloc; if negb ok then mret 0 else
  s ← get;
  modify (set_k_next (k_next s + 1)) ;;
  put_proc (k_next s) (Proc name 0 0 0) ;;
  mret (k_next s).

(** struct addrspace *proc_getas(void), struct addrspace *proc_setas(newas) *)
Definition proc_getas : M K Z := gets curas.
Definition proc_setas (newas : Z) : M K Z :=
  s ← get;
  kassert (negb (curproc s =? 0)) ;;
  x ← get_proc (curproc s);
  put_proc (curproc s) (Proc (p_name x) (p_numthreads x) newas (p_pid x)) ;;
  mret (p_addrspace x).

(** void proc_destroy(struct proc *proc); with the structure its descriptor
    table becomes unreachable. *)
Definition proc_destroy (p : Z) : M K unit :=
  kassert (negb (p =? 0)) ;;
  s ← get;
  kassert (negb (p =? kproc s)) ;;
  in_low (VfsProc.proc_drop_cwd p) ;;
  x ← get_proc p;
  (if p_addrspace x =? 0 then mret tt else
   s ← get;
   if p =? curproc s then
     a ← proc_setas 0; in_vm Vm.as_deactivate ;; in_vm (Vm.as_destroy a)
   else
     put_proc p (Proc (p_name x) (p_numthreads x) 0 (p_pid x)) ;;
     in_vm (Vm.as_destroy (p_addrspace x))) ;;
  x ← get_proc p;
  kassert (p_numthreads x =? 0) ;;
  modify (fun s => set_files (k_low s) (k_oft s) (delete p (k_fds s)) (set_procs (delete p (k_procs s)) s)).

(** void proc_bootstrap(void) *)
Definition proc_bootstrap : M K unit :=
  p ← proc_create [91; 107; 101; 114; 110; 101; 108; 93];
  modify (set_kproc p) ;;
  if p =? 0 then raise FPanic else
  x ← get_proc p; put_proc p (Proc (p_name x) (p_numthreads x) (p_addrspace x) 1).

(** struct proc *proc_create_runprogram(const char *name) *)
Definition proc_create_runprogram (name : list Z) : M K Z :=
  newproc ← proc_create name;
  if newproc =? 0 then mret 0 else
  in_low (VfsProc.proc_share_cwd newproc) ;;
  c ← cur_proc;
  pid ← in_pid (Pid.pid_create (p_pid c));
  x ← get_proc newproc;
  put_proc newproc (Proc (p_name x) (p_numthreads x) 0 pid) ;;
  mret newproc.

(** int proc_addthread(proc, t), void proc_remthread(t) *)
Definition proc_addthread (p t : Z) : M K (res unit) :=
  s ← get;
  kassert (bool_decide (t_proc s !! t = None)) ;;
  x ← get_proc p;
  put_proc p (Proc (p_name x) (u32 (p_numthreads x + 1)) (p_addrspace x) (p_pid x)) ;;
  modify (fun s => set_threads (<[t := p]> (t_proc s)) (t_state s) s) ;;
  mret (Done tt).
Definition proc_remthread (t : Z) : M K unit :=
  s ← get;
  let p := default 0 (t_proc s !! t) in
  kassert (negb (p =? 0)) ;;
  x ← get_proc p;
  kassert (p_numthreads x >? 0) ;;
  put_proc p (Proc (p_name x) (p_numthreads x - 1) (p_addrspace x) (p_pid x)) ;;
  modify (fun s => set_threads (delete t (t_proc s)) (t_state s) s).

(** ** Threads of processes *)

(** static struct thread *thread_create(name): structure and name *)
Definition thread_create : M K bool :=
  ok ← kmalloc; if negb ok then mret false else kmalloc.

Definition thread_name (pid next : Z) : Z := if pid =? -1 then - next else pid.

(** int thread_fork(name, proc, entrypoint, data1, data2), with the state the
    new thread starts in for the last three *)
Definition thread_fork (p : Z) (start : tstate) : M K (res unit) :=
  ok ← thread_create; if negb ok then mret (Err ENOMEM) else
  ok ← kmalloc; if negb ok then mret (Err ENOMEM) else
  x ← get_proc p;
  s ← get;
  let t := thread_name (p_pid x) (k_next s) in
  modify (set_k_next (k_next s + 1)) ;;
  r ← proc_addthread p t;
  match r with
  | Err e => mret (Err e)
  | Done _ => modify (fun s => set_threads (t_proc s) (<[t := start]> (t_state s)) s) ;; mret (Done tt)
  end.

(** void thread_exit(void): no thread runs until one is chosen *)
Definition thread_exit : M K unit :=
  s ← get;
  kassert (bool_decide (t_proc s !! k_cur s = None)) ;;
  modify (fun s => set_k_cur 0 (set_threads (t_proc s) (delete (k_cur s) (t_state s)) s)).

(** A thread that is asleep in pid_wait is made runnable. *)
Definition wake (t : Z) : M K unit :=
  s ← get;
  match t_state s !! t with
  | Some (TSleep tf pid st pp cv) =>
      modify (fun s => set_threads (t_proc s) (<[t := TWoken tf pid st pp cv]> (t_state s)) s)
  | _ => raise FPanic
  end.

(** ** fork *)

(** void enter_forked_process(struct trapframe *tf), up to user mode *)
Definition enter_forked_process (tf : trapframe) : trapframe :=
  set_reg tf_a3 0 (set_reg tf_epc (u32 (tf tf_epc + 4)) tf).

(** static void child_execute(void *tf, long unsigned int pid) *)
Definition child_execute (tf : trapframe) (pid : Z) : trapframe :=
  enter_forked_process (set_reg tf_v0 (u32 pid) tf).

(** int sys_fork(struct trapframe *tf, pid_t *pid).  The new descriptor table
    is used without checking its allocation. *)
Definition sys_fork (tf : trapframe) : M K (res Z) :=
  ok ← kmalloc; if negb ok then mret (Err ENOMEM) else
  c ← cur_proc;
  r ← in_vm (Vm.as_copy (p_addrspace c));
  match r with
  | Err _ => mret (Err ENOMEM)
  | Done as_child =>
      new_proc ← proc_create_runprogram (p_name c);
      if new_proc =? 0 then mret (Err ENOMEM) else
      ok ← kmalloc; if negb ok then raise FNull else
      in_fs (fork_fds new_proc) ;;
      x ← get_proc new_proc;
      put_proc new_proc (Proc (p_name x) (p_numthreads x) as_child (p_pid x)) ;;
      r ← thread_fork new_proc (TStart tf);
      match r with
      | Err e => mret (Err e)
      | Done _ => x ← get_proc new_proc; mret (Done (p_pid x))
      end
  end.

(** int sys_getpid(pid_t *pid) *)
Definition sys_getpid : M K (res Z) := c ← cur_proc; mret (Done (p_pid c)).

(** ** exit *)

(** void pid_exit(pid_t pid, int exit_status); [beyond] as in
    file_table_destroy *)
Definition pid_exit (beyond : Z -> Z) (pid exit_status : Z) : M K unit :=
  ws ← in_pid (Pid.pid_exit pid exit_status);
  for_each ws wake ;;
  s ← get;
  let p := curproc s in
  in_fs (Openfile.file_table_destroy beyond) ;;
  proc_remthread (k_cur s) ;;
  proc_destroy p ;;
  thread_exit.

(** int sys__exit(int exit_status) *)
Definition sys__exit (beyond : Z -> Z) (exit_status : Z) : M K unit :=
  c ← cur_proc; pid_exit beyond (p_pid c) exit_status.

(** ** waitpid *)

(** How the call ends: it returns, or it sleeps in pid_wait. *)
Inductive waitres : Type :=
| WDone (r : res Z)
| WBlock (pp cv : Z).

(** The end of sys_waitpid, with the result of pid_wait. *)
Definition waitpid_end (pid status : Z) (r : res Z) : M K (res Z) :=
  match r with
  | Err e => mret (Err e)
  | Done estatus =>
      if status =? 0 then mret (Done pid) else
      r ← in_low (copyout (Bswap.be_bytes 4 estatus) status);
      match r with Err e => mret (Err e) | Done _ => mret (Done pid) end
  end.

(** int sys_waitpid(pid, status, options, retPid) *)
Definition sys_waitpid (pid status options : Z) : M K waitres :=
  if (pid <? PID_MIN) || (pid >? PID_MAX) then mret (WDone (Err ESRCH)) else
  if status >=? USERSPACETOP then mret (WDone (Err EFAULT)) else
  if negb (options =? 0) && negb (options =? WUNTRACED) && negb (options =? WNOHANG)
  then mret (WDone (Err EINVAL)) else
  c ← cur_proc;
  r ← in_pid (Pid.pid_wait pid (p_pid c));
  match r with
  | Pid.WSleep pp cv => mret (WBlock pp cv)
  | Pid.WRet r => r ← waitpid_end pid status r; mret (WDone r)
  end.

(** ... and from where it sleeps, once awake. *)
Definition sys_waitpid_woken (pid status pp cv : Z) : M K (res Z) :=
  r ← in_pid (Pid.pid_wait_woken pp cv); waitpid_end pid status r.
End Ops.
End Proc.
