(* ===== verification/Exec.v ===== *)
(** * Programs: loadelf.c, execv.c and runprogram.c

    Loading an executable into the current address space, execv with its
    argument strings, the first program of a process, and enter_new_process of
    kern/arch/mips/locore/trap.c.

    A local variable that VOP_READ fills is a block of kernel memory at an
    address [kbuf], there for the time of the call.  The page tables of an
    address space are asserted to be complete when user memory is touched for
    the first time; the model checks that where a segment is loaded and where
    arguments are copied out.  The messages of kprintf are not modelled. *)

From S2P Require Import Prelude Kern Bswap Interfaces Copyinout Uio Vfs VfsSpec VfsProc.
From S2P Require Import Openfile Pid Vm VmSpec UserSpace Proc.
Open Scope Z_scope.
Open Scope kern_scope.
Import UserSpace.
#[local] Existing Instances VfsSpec.VfsOps_vfs VfsSpec.UserMem_vfs.

(** The fields of Elf32_Ehdr and Elf32_Phdr that load_elf reads. *)
Record Elf_Ehdr := Ehdr {
  e_ident : list Z; e_type : Z; e_machine : Z; e_version : Z; e_entry : Z; e_phoff : Z;
  e_phentsize : Z; e_phnum : Z
}.
Record Elf_Phdr := Phdr {
  p_type : Z; p_offset : Z; p_vaddr : Z; p_filesz : Z; p_memsz : Z; p_flags : Z
}.

Module Exec.
Definition ELFMAG0 : Z := 0x7f.
Definition ELFMAG1 : Z := 69.
Definition ELFMAG2 : Z := 76.
Definition ELFMAG3 : Z := 70.
Definition ELFCLASS32 : Z := 1.
Definition ELFDATA2MSB : Z := 2.
Definition EV_CURRENT : Z := 1.
Definition ET_EXEC : Z := 2.
Definition EM_MACHINE : Z := 8.
Definition PT_NULL : Z := 0.
Definition PT_LOAD : Z := 1.
Definition PT_PHDR : Z := 6.
Definition PT_MIPS_REGINFO : Z := 0x70000000.
Definition PF_X : Z := 1.

(** The bytes of a structure as the machine, which is big-endian, sees them. *)
Definition field (bs : list Z) (off len : nat) : Z := Bswap.be_value (take len (drop off bs)).

Definition SIZEOF_EHDR : Z := 52.
Definition SIZEOF_PHDR : Z := 32.
Definition ehdr_of (bs : list Z) : Elf_Ehdr :=
  Ehdr (take 16 bs) (field bs 16 2) (field bs 18 2) (field bs 20 4) (field bs 24 4) (field bs 28 4)
    (field bs 42 2) (field bs 44 2).
Definition phdr_of (bs : list Z) : Elf_Phdr :=
  Phdr (field bs 0 4) (field bs 4 4) (field bs 8 4) (field bs 16 4) (field bs 20 4) (field bs 24 4).

(** The test on the header in load_elf. *)
Definition ehdr_ok (eh : Elf_Ehdr) : bool :=
  bool_decide (take 7 (e_ident eh) =
    [ELFMAG0; ELFMAG1; ELFMAG2; ELFMAG3; ELFCLASS32; ELFDATA2MSB; EV_CURRENT]) &&
  (e_version eh =? EV_CURRENT) && (e_type eh =? ET_EXEC) && (e_machine eh =? EM_MACHINE).

(** [off_t offset = eh.e_phoff + i*eh.e_phentsize] *)
Definition phdr_offset (eh : Elf_Ehdr) (i : Z) : Z := u32 (e_phoff eh + i * e_phentsize eh).

Section Ops.
Context {G : Type} `{Backend G}.
Abbreviation K := (kstate G).
Abbreviation V := (vstate G).

(** ** loadelf.c *)

Definition block (a : Z) (n : Z) : list Z := seqZ a n.

(** VOP_READ into a local variable of [len] bytes at [kbuf]: its error, the
    bytes that were not read, and the variable. *)
Definition read_local (kbuf v len pos : Z) : M V (res (Z * list Z)) :=
  modify (fun s => set_mem (foldr (fun a m => <[a := 0]> m) (v_mem s) (block kbuf len)) s) ;;
  x ← Vfs.VOP_READ v (uio_kinit kbuf len pos UIO_READ);
  s ← get;
  bs ← deref FBounds (Copyinout.load_bytes (v_mem s) kbuf (Z.to_nat len));
  modify (fun s => set_mem (foldr delete (v_mem s) (block kbuf len)) s) ;;
  mret (match x with (Done _, u) => Done (uio_resid u, bs) | (Err e, _) => Err e end).

(** ... where a short read is ENOEXEC. *)
Definition read_exact (kbuf v len pos : Z) : M K (res (list Z)) :=
  x ←? Proc.in_low (read_local kbuf v len pos);
  if negb (x.1 =? 0) then mret (Err ENOEXEC) else mret (Done x.2).

(** User memory is touched: vm_fault asserts that the space is complete. *)
Definition touch_user : M K unit :=
  s ← get;
  x ← deref FDangling (spaces (k_vm s) !! Proc.curas s);
  kassert (Vm.as_asserts x).

(** static int load_segment(as, v, offset, vaddr, memsize, filesize,
    is_executable) *)
Definition load_segment (as_ v offset vaddr memsize filesize : Z) (is_executable : bool) : M K (res unit) :=
  let filesize := if filesize >? memsize then memsize else filesize in
  (if filesize =? 0 then mret tt else touch_user) ;;
  x ← Proc.in_low (Vfs.VOP_READ v (Uio [Iovec vaddr memsize] offset filesize
        (if is_executable then UIO_USERISPACE else UIO_USERSPACE) UIO_READ as_));
  match x with
  | (Err e, _) => mret (Err e)
  | (Done _, u) => if negb (uio_resid u =? 0) then mret (Err ENOEXEC) else mret (Done tt)
  end.

(** The switch on p_type: skip, load, or refuse. *)
Definition on_load (ph : Elf_Phdr) (k : M K (res unit)) : M K (res unit) :=
  if (p_type ph =? PT_NULL) || (p_type ph =? PT_PHDR) || (p_type ph =? PT_MIPS_REGINFO) then mret (Done tt) else
  if p_type ph =? PT_LOAD then k else mret (Err ENOEXEC).

(** int load_elf(struct vnode *v, vaddr_t *entrypoint) *)
Definition load_elf (kbuf v : Z) : M K (res Z) :=
  as_ ← Proc.proc_getas;
  bs ←? read_exact kbuf v SIZEOF_EHDR 0;
  let eh := ehdr_of bs in
  if negb (ehdr_ok eh) then mret (Err ENOEXEC) else
  _ ←? each (seqZ 0 (e_phnum eh)) (fun i =>
    ps ←? read_exact kbuf v SIZEOF_PHDR (phdr_offset eh i);
    let ph := phdr_of ps in
    on_load ph (Proc.in_vm (Vm.as_define_region as_ (p_vaddr ph) (p_memsz ph))));
  _ ←? Proc.in_vm (Vm.as_prepare_load as_);
  _ ←? each (seqZ 0 (e_phnum eh)) (fun i =>
    ps ←? read_exact kbuf v SIZEOF_PHDR (phdr_offset eh i);
    let ph := phdr_of ps in
    on_load ph (load_segment as_ v (p_offset ph) (p_vaddr ph) (p_memsz ph) (p_filesz ph)
                  (negb (Z.land (p_flags ph) PF_X =? 0))));
  _ ←? Proc.in_vm (Vm.as_complete_load as_);
  mret (Done (e_entry eh)).

(** ** enter_new_process *)

Definition CST_IEp : Z := 0x4.
Definition CST_KUp : Z := 0x8.
Definition CST_IRQMASK : Z := 0xff00.

(** void enter_new_process(argc, argv, env, stack, entry): the registers with
    which user mode is entered *)
Definition enter_new_process (argc argv env stack entry : Z) : trapframe :=
  set_reg tf_sp stack (set_reg tf_a2 env (set_reg tf_a1 argv (set_reg tf_a0 argc
    (set_reg tf_epc entry (set_reg tf_status (Z.lor (Z.lor CST_IRQMASK CST_IEp) CST_KUp) (fun _ => 0)))))).

(** ** runprogram.c *)

Definition con : list Z := [99; 111; 110; 58].

(** int runprogram(char *progname); on success, the registers with which user
    mode is entered *)
Definition runprogram (kbuf : Z) (progname : list Z) : M K (res trapframe) :=
  _ ←? Proc.in_fs (Openfile.file_table_init con con con);
  v ←? Proc.in_low (Vfs.vfs_open progname O_RDONLY 0);
  a ← Proc.proc_getas;
  kassert (a =? 0) ;;
  as_ ← Proc.in_vm Vm.as_create;
  if as_ =? 0 then Proc.in_low (Vfs.vfs_close v) ;; mret (Err ENOMEM) else
  Proc.proc_setas as_ ;;
  Proc.in_vm Vm.as_activate ;;
  r ← load_elf kbuf v;
  Proc.in_low (Vfs.vfs_close v) ;;
  match r with
  | Err e => mret (Err e)
  | Done entrypoint =>
      stackptr ←? Proc.in_vm (Vm.as_define_stack as_);
      mret (Done (enter_new_process 0 0 0 stackptr entrypoint))
  end.

(** ** execv.c *)

(** [ *p ] for a word read directly, with no copyin: a fault in the kernel
    where the word is not aligned or not mapped.  At USERSPACETOP the direct
    map of physical memory starts, MIPS_KSEG0, where the kernel reads on, up to
    the end of RAM, past which the bus errs. *)
Definition user_word (p : Z) : M K Z :=
  if negb (p mod 4 =? 0) then raise FPanic else
  s ← get;
  if p >=? USERSPACETOP then
    let pa := p - Vm.MIPS_KSEG0 in
    if pa + 4 <=? lastpaddr (k_vm s) then mret (Bswap.be_value (pmem (k_vm s) <$> seqZ pa 4)) else raise FPanic
  else
    bs ← deref FPanic (Copyinout.load_bytes (Proc.cur_map s) p 4);
    mret (Bswap.be_value bs).

(** The bytes that [user_word] can read: those the process has mapped, and
    those of RAM.  Each turn of the two loops below reads another word, so that
    their number bounds the turns. *)
Definition arg_words (s : K) : nat := size (Proc.cur_map s) + Z.to_nat (lastpaddr (k_vm s)).

(** The loop that counts the arguments. *)
Fixpoint count_args (fuel : nat) (userargs i : Z) : M K (res Z) :=
  if u32 (userargs + 4 * i) =? 0 then mret (Done i) else
  if u32 (userargs + 4) >=? USERSPACETOP then mret (Err EFAULT) else
  p ← user_word (u32 (userargs + 4 * i));
  if p =? 0 then mret (Done i) else
  match fuel with
  | O => raise FFuel
  | S fuel' => count_args fuel' userargs (i + 1)
  end.

(** copyinstr into a kernel buffer of [size] bytes at index [at_], of which
    [room] are offered: a fault where it writes past the end.  The string, and
    *actual. *)
Definition copyinstr_at (usersrc at_ room size : Z) : M V (res (list Z * Z)) :=
  match Copyinout.copycheck usersrc room with
  | Err e => mret (Err e)
  | Done stoplen =>
      s ← get;
      match Copyinout.copystr (fun i => v_mem s !! (usersrc + i)) (fun _ b d => Some (d ++ [b])) room stoplen [] with
      | (d, r) =>
          if at_ + Z.of_nat (length d) >? size then raise FBounds else
          mret (match r with Done n => Done (take (length d - 1) d, n) | Err e => Err e end)
      end
  end.

(** The loop that copies the arguments in; [argv] holds those copied so far. *)
Fixpoint copy_args (fuel : nat) (userargs i argv_index argv_length : Z) (argv : list (list Z)) :
    M K (res (list (list Z))) :=
  p ← user_word (u32 (userargs + 4 * i));
  if p =? 0 then mret (Done argv) else
  x ←? Proc.in_low (copyinstr_at p argv_index (u32 (ARG_MAX - argv_length)) ARG_MAX);
  let argv_length := x.2 in
  if u32 (argv_index + argv_length - 1) >=? ARG_MAX then mret (Err E2BIG) else
  match fuel with
  | O => raise FFuel
  | S fuel' => copy_args fuel' userargs (i + 1) (argv_index + argv_length) argv_length (argv ++ [x.1])
  end.

(** The first loop over the arguments, from the last: strings below
    [stackptr].  The result of copyoutstr is not looked at. *)
Fixpoint push_strings (argv : list (list Z)) (stackptr : Z) : M K (list Z * Z) :=
  match argv with
  | [] => mret ([], stackptr)
  | a :: argv' =>
      x ← push_strings argv' stackptr;
      let tmp := Z.of_nat (length a) + 1 in
      let stackptr := u32 (x.2 - tmp) in
      Proc.in_low (copyoutstr a stackptr tmp) ;;
      mret (stackptr :: x.1, stackptr)
  end.

(** The second loop: the pointers, from the last. *)
Fixpoint push_pointers (ptrs : list Z) (stackptr : Z) : M K (res Z) :=
  match ptrs with
  | [] => mret (Done stackptr)
  | p :: ptrs' =>
      sp ←? push_pointers ptrs' stackptr;
      _ ←? Proc.in_low (copyout (Bswap.be_bytes 4 p) sp);
      mret (Done (u32 (sp - 4)))
  end.

(** From as_define_stack to the new stack: the address of argv and the stack
    pointer. *)
Definition push_args (argv : list (list Z)) (stackptr : Z) : M K (res (Z * Z)) :=
  let stackptr := u32 (stackptr - 4) in
  touch_user ;;
  _ ←? Proc.in_low (copyout [0; 0; 0; 0] stackptr);
  x ← push_strings argv stackptr;
  let stackptr := u32 (x.2 - 4) in
  let stackptr := if negb (stackptr mod 4 =? 0) then stackptr - stackptr mod 4 else stackptr in
  _ ←? Proc.in_low (copyout [0; 0; 0; 0] stackptr);
  sp ←? push_pointers x.1 (u32 (stackptr - 4));
  mret (Done (u32 (sp + 4), u32 (sp - 4))).

(** proc_setas(oldas); as_destroy(as); return result *)
Definition exec_fail {A} (oldas as_ : Z) (e : errno) : M K (res A) :=
  Proc.proc_setas oldas ;; Proc.in_vm (Vm.as_destroy as_) ;; mret (Err e).

(** The part of sys_execv after the arguments are read. *)
Definition exec_load (kbuf : Z) (progname : list Z) (argv : list (list Z)) : M K (res trapframe) :=
  v ←? Proc.in_low (Vfs.vfs_open progname O_RDONLY 0);
  a ← Proc.proc_getas;
  kassert (negb (a =? 0)) ;;
  as_ ← Proc.in_vm Vm.as_create;
  if as_ =? 0 then Proc.in_low (Vfs.vfs_close v) ;; mret (Err ENOMEM) else
  oldas ← Proc.proc_setas as_;
  Proc.in_vm Vm.as_activate ;;
  r ← load_elf kbuf v;
  match r with
  | Err e =>
      Proc.proc_setas oldas ;; Proc.in_vm (Vm.as_destroy as_) ;;
      Proc.in_low (Vfs.vfs_close v) ;; mret (Err e)
  | Done entrypoint =>
      Proc.in_low (Vfs.vfs_close v) ;;
      r ← Proc.in_vm (Vm.as_define_stack as_);
      match r with
      | Err e => exec_fail oldas as_ e
      | Done stackptr =>
          r ← push_args argv stackptr;
          match r with
          | Err e => exec_fail oldas as_ e
          | Done (argv_ptr, stackptr) =>
              Proc.in_vm (Vm.as_destroy oldas) ;;
              mret (Done (enter_new_process (Z.of_nat (length argv)) argv_ptr 0 stackptr entrypoint))
          end
      end
  end.

(** int sys_execv(userptr_t userprog, userptr_t *userargs); on success, the
    registers with which user mode is entered *)
Definition sys_execv (kbuf userprog userargs : Z) : M K (res trapframe) :=
  if (userargs =? 0) || (userprog =? 0) then mret (Err EFAULT) else
  if (userprog >=? USERSPACETOP) || (userargs >=? USERSPACETOP) then mret (Err EFAULT) else
  s ← get;
  let words := arg_words s in
  argc ←? count_args words userargs 0;
  ok ← kmalloc; if negb ok then mret (Err ENOMEM) else
  ok ← kmalloc; if negb ok then mret (Err ENOMEM) else
  ok ← kmalloc; if negb ok then mret (Err ENOMEM) else
  x ←? Proc.in_low (copyinstr_at userprog 0 PATH_MAX ARG_MAX);
  if x.2 =? 0 then mret (Err ENOEXEC) else
  argv ←? copy_args words userargs 0 0 x.2 [];
  _ ←? Proc.in_fs (Openfile.file_table_init con con con);
  progname ←? Proc.in_low (copyinstr userprog PATH_MAX);
  exec_load kbuf progname argv.
End Ops.
End Exec.
