(* ===== verification/Syscall.v ===== *)
(** * The system call dispatcher and the steps of the kernel

    Model of kern/arch/mips/syscall/syscall.c, kern/syscall/time_syscalls.c and
    sys_reboot of kern/main/main.c, and of how threads of user processes move
    through the kernel: a thread in user mode makes a system call, a new thread
    starts in child_execute, and a thread that was woken up goes on in
    waitpid.

    The kernel runs on one processor and is not preempted, so that a system
    call runs from its start to its end or to the point where it sleeps. *)

From S2P Require Import Prelude Kern Bswap Interfaces Copyinout Uio Vfs VfsSpec VfsProc.
From S2P Require Import Openfile Pid Vm VmSpec UserSpace Proc Exec.
Open Scope Z_scope.
Open Scope kern_scope.
Import UserSpace.
#[local] Existing Instances VfsSpec.VfsOps_vfs VfsSpec.UserMem_vfs.

(** What a system call depends on besides the state: the clock (seconds and
    nanoseconds), the words after the descriptor table, the uninitialised
    variable [whence] of the dispatcher, and the address of the local
    variables of load_elf. *)
Record env := Env { e_now : Z * Z; e_beyond : Z -> Z; e_whence : Z; e_kbuf : Z }.

(** How a system call ends: back to user mode with these registers, asleep in
    waitpid, with the end of the thread, or with the machine halted. *)
Inductive sysout : Type :=
| SReturn (tf : trapframe)
| SSleep (pid status pp cv : Z)
| SExit
| SHalt (code : Z).

Module Syscall.
Definition SYS_fork : Z := 0.
Definition SYS_execv : Z := 2.
Definition SYS__exit : Z := 3.
Definition SYS_waitpid : Z := 4.
Definition SYS_getpid : Z := 5.
Definition SYS_open : Z := 45.
Definition SYS_dup2 : Z := 48.
Definition SYS_close : Z := 49.
Definition SYS_read : Z := 50.
Definition SYS_write : Z := 55.
Definition SYS_lseek : Z := 59.
Definition SYS___time : Z := 113.
Definition SYS_reboot : Z := 119.
Definition RB_REBOOT : Z := 0.
Definition RB_HALT : Z := 1.
Definition RB_POWEROFF : Z := 2.

Section Ops.
Context {G : Type} `{Backend G}.
Abbreviation K := (kstate G).

(** int sys___time(user_seconds_ptr, user_nanoseconds_ptr) *)
Definition sys___time (now : Z * Z) (sec_ptr nsec_ptr : Z) : M K (res unit) :=
  _ ←? Proc.in_low (copyout (Bswap.be_bytes 8 now.1) sec_ptr);
  Proc.in_low (copyout (Bswap.be_bytes 4 now.2) nsec_ptr).

(** static void shutdown(void), without the hardware *)
Definition shutdown : M K unit :=
  Proc.in_low Vfs.vfs_clearbootfs ;;
  Proc.in_low Vfs.vfs_clearcurdir ;;
  Proc.in_low Vfs.vfs_unmountall ;;
  mret tt.

(** int sys_reboot(int code): it returns only to report EINVAL *)
Definition sys_reboot (code : Z) : M K (res sysout) :=
  if (code =? RB_REBOOT) || (code =? RB_HALT) || (code =? RB_POWEROFF)
  then shutdown ;; mret (Done (SHalt code)) else mret (Err EINVAL).

(** The end of the dispatcher: result registers and program counter. *)
Definition advance (tf : trapframe) : trapframe := set_reg tf_epc (u32 (tf tf_epc + 4)) tf.
Definition ret_err (tf : trapframe) (e : errno) : trapframe :=
  advance (set_reg tf_a3 1 (set_reg tf_v0 (errno_code e) tf)).
Definition ret_val (tf : trapframe) (retval : Z) : trapframe :=
  advance (set_reg tf_a3 0 (set_reg tf_v0 (u32 retval) tf)).
Definition ret_val64 (tf : trapframe) (retval64 : Z) : trapframe :=
  let (hi, lo) := Bswap.split64to32 (u64 retval64) in
  advance (set_reg tf_a3 0 (set_reg tf_v1 lo (set_reg tf_v0 hi tf))).

Definition returns (tf : trapframe) (m : M K (res Z)) : M K sysout :=
  r ← m; mret (SReturn (match r with Done v => ret_val tf v | Err e => ret_err tf e end)).
Definition returns_none (tf : trapframe) (m : M K (res unit)) : M K sysout :=
  r ← m; mret (SReturn (match r with Done _ => ret_val tf 0 | Err e => ret_err tf e end)).

(** The case SYS_lseek: the result of copyin is not looked at. *)
Definition syscall_lseek (e : env) (tf : trapframe) : M K sysout :=
  let offset := Bswap.join32to64 (tf tf_a2) (tf tf_a3) in
  r ← Proc.in_low (copyin (u32 (tf tf_sp + 16)) 4);
  let whence := match r with Done bs => s32 (Bswap.be_value bs) | Err _ => e_whence e end in
  r ← Proc.in_fs (Openfile.sys_lseek (s32 (tf tf_a0)) (s64 offset) whence);
  mret (SReturn (match r with Done v => ret_val64 tf v | Err er => ret_err tf er end)).

(** void syscall(struct trapframe *tf) *)
Definition syscall (e : env) (tf : trapframe) : M K sysout :=
  let callno := s32 (tf tf_v0) in
  if callno =? SYS_reboot then
    r ← sys_reboot (s32 (tf tf_a0));
    mret (match r with Done o => o | Err er => SReturn (ret_err tf er) end)
  else if callno =? SYS_fork then returns tf (Proc.sys_fork tf)
  else if callno =? SYS_getpid then returns tf Proc.sys_getpid
  else if callno =? SYS__exit then Proc.sys__exit (e_beyond e) (s32 (tf tf_a0)) ;; mret SExit
  else if callno =? SYS_waitpid then
    r ← Proc.sys_waitpid (s32 (tf tf_a0)) (tf tf_a1) (s32 (tf tf_a2));
    match r with
    | Proc.WDone r => mret (SReturn (match r with Done v => ret_val tf v | Err er => ret_err tf er end))
    | Proc.WBlock pp cv => mret (SSleep (s32 (tf tf_a0)) (tf tf_a1) pp cv)
    end
  else if callno =? SYS_open then
    returns tf (Proc.in_fs (Openfile.sys_open (tf tf_a0) (s32 (tf tf_a1)) (tf tf_a2)))
  else if callno =? SYS_write then
    returns tf (Proc.in_fs (Openfile.sys_write (s32 (tf tf_a0)) (tf tf_a1) (tf tf_a2)))
  else if callno =? SYS_read then
    returns tf (Proc.in_fs (Openfile.sys_read (s32 (tf tf_a0)) (tf tf_a1) (tf tf_a2)))
  else if callno =? SYS___time then returns_none tf (sys___time (e_now e) (tf tf_a0) (tf tf_a1))
  else if callno =? SYS_dup2 then
    returns tf (Proc.in_fs (Openfile.sys_dup2 (s32 (tf tf_a0)) (s32 (tf tf_a1))))
  else if callno =? SYS_lseek then syscall_lseek e tf
  else if callno =? SYS_close then returns_none tf (Proc.in_fs (Openfile.sys_close (s32 (tf tf_a0))))
  else if callno =? SYS_execv then
    r ← Exec.sys_execv (e_kbuf e) (tf tf_a0) (tf tf_a1);
    mret (SReturn (match r with Done tf' => tf' | Err er => ret_err tf er end))
  else mret (SReturn (ret_err tf ENOSYS)).

(** ** Steps *)

Definition set_state (t : Z) (st : tstate) : M K unit :=
  modify (fun s => Proc.set_threads (t_proc s) (<[t := st]> (t_state s)) s).

(** A system call of the current thread, up to where another thread can run. *)
Definition do_syscall (e : env) (tf : trapframe) : M K unit :=
  s ← get;
  o ← syscall e tf;
  match o with
  | SReturn tf' => set_state (k_cur s) (TUser tf')
  | SSleep pid status pp cv => set_state (k_cur s) (TSleep tf pid status pp cv)
  | SExit | SHalt _ => mret tt
  end.

(** The current thread goes on in waitpid. *)
Definition do_resume (tf : trapframe) (pid status pp cv : Z) : M K unit :=
  s ← get;
  r ← Proc.sys_waitpid_woken pid status pp cv;
  set_state (k_cur s) (TUser (match r with Done v => ret_val tf v | Err er => ret_err tf er end)).

(** The user program of the current thread runs: it changes its registers and
    what it can write of its memory. *)
Definition do_user (tf : trapframe) (um : gmap Z Z) : M K unit :=
  s ← get;
  modify (fun s => Proc.set_vm (Vm.set_pmem (Proc.cur_write s um) (k_vm s)) s) ;;
  set_state (k_cur s) (TUser tf).

(** static void thread_switch(...), as far as user processes see it: another
    thread becomes the current one, and as_activate *)
Definition do_switch (t : Z) : M K unit :=
  modify (Proc.set_k_cur t) ;; Proc.in_vm Vm.as_activate.

(** The choices that are not the kernel's. *)
Inductive choice : Type :=
| CSwitch (t : Z)
| CUser (tf : trapframe) (um : gmap Z Z)
| CKernel (e : env).

(** One step: another thread is scheduled, the user program runs, or the
    kernel does what the state of the current thread asks for. *)
Definition kstep (c : choice) : M K unit :=
  match c with
  | CSwitch t => do_switch t
  | CUser tf um => do_user tf um
  | CKernel e =>
      s ← get;
      match t_state s !! k_cur s with
      | Some (TUser tf) => do_syscall e tf
      | Some (TStart tf) => set_state (k_cur s) (TUser (Proc.child_execute tf 0))
      | Some (TWoken tf pid status pp cv) => do_resume tf pid status pp cv
      | Some (TSleep _ _ _ _ _) | None => mret tt
      end
  end.
End Ops.
End Syscall.
