(* ===== verification/ProcFiles.v ===== *)
(** * Sharing open files with a new process

    The loop of sys_fork over the descriptors: counts stay exact. *)

From S2P Require Import Prelude Kern Interfaces Openfile OpenfileSpec FileOps FileProps Proc.
Open Scope Z_scope.
Import Openfile OpenfileSpec Proc.

Module ProcFiles.

(** An open file with [n] more references. *)
Definition bump (n : Z) (o : option open_file) : option open_file :=
  (fun f => OpenFile (vn f) (am f) (rc f + n) (os f)) <$> o.

Lemma bump_0 o : bump 0 o = o.
Proof. destruct o as [[v a r k]|]; [|done]. unfold bump. cbn. by rewrite Z.add_0_r. Qed.

Lemma bump_bump n k o : bump n (bump k o) = bump (k + n) o.
Proof. destruct o as [f|]; [|done]. unfold bump. cbn. by rewrite Z.add_assoc. Qed.

Lemma cnt_take_S i d k e : d !! k = Some e ->
  cnt i (take (S k) d) = cnt i (take k d) + (if e =? i then 1 else 0).
Proof.
  intros Hk. rewrite (take_S_r d k e Hk). unfold cnt. rewrite filter_app, length_app, filter_cons, filter_nil.
  case_decide; destruct (Z.eqb_spec e i); simpl; congruence || lia.
Qed.

Section Fork.
Context {L : Type} `{LowSpec L}.
Implicit Types (l : L) (ofs : list (option open_file)) (m : gmap Z (list Z)) (d : list Z).

Lemma share_open_eq l th p ofs m i f (Q : unit -> fstate L -> Prop) :
  slot ofs i = Some f -> 0 <= rc f + 1 < 2 ^ 31 ->
  Q tt (mk l th p None (<[Z.to_nat i := bump 1 (Some f)]> ofs) m) ->
  wp (share_open i) Q (mk l th p None ofs m).
Proof.
  intros Hs Hrc HQ. apply slot_lookup in Hs as [Hi Hs]. unfold share_open.
  rewrite wp_bind. apply wp_acquire. rewrite wp_bind. eapply wp_get_open; [done|done|].
  rewrite wp_bind, wp_deref. exists f. split; [done|]. rewrite wp_bind. apply wp_set_open. apply wp_release.
  by rewrite s32_id by (unfold is_s32; lia).
Qed.

(** The tables with the first [k] descriptors of the copy counted. *)
Record counted (d : list Z) (k : nat) ofs ofs' : Prop := {
  cd_len : length ofs' = length ofs;
  cd_slot : forall i, 0 <= i -> slot ofs' i = bump (cnt i (take k d)) (slot ofs i);
  cd_vnode : forall u, vcnt u ofs' = vcnt u ofs
}.

Lemma counted_step d k ofs ofs' e f : counted d k ofs ofs' -> d !! k = Some e -> 0 <= e ->
  slot ofs' e = Some f -> counted d (S k) ofs (<[Z.to_nat e := bump 1 (Some f)]> ofs').
Proof.
  intros [C1 C2 C3] Hk He Hf. pose proof Hf as Hl. apply slot_lookup in Hl as [_ Hl].
  pose proof (lookup_lt_Some _ _ _ Hl) as Hlt. split.
  - by rewrite length_insert.
  - intros i Hi. rewrite slot_insert, (cnt_take_S i d k e Hk), <- bump_bump, <- C2 by lia.
    rewrite (Z.eqb_sym e i). destruct (Z.eqb_spec i e) as [->|]; [by rewrite Hf|by rewrite bump_0].
  - intros u. rewrite (vcnt_insert u ofs' _ (Some f) _ Hl), C3. simpl. lia.
Qed.

(** Every count has room for the references the new table adds. *)
Lemma fork_room ofs m d k i f : tables_ok FileProps.no_leak ofs m -> Z.of_nat (size m) < PID_MAX ->
  length d = Z.to_nat OPEN_MAX -> slot ofs i = Some f ->
  0 < rc f /\ 0 <= rc f + cnt i (take k d) + 1 < 2 ^ 31.
Proof.
  intros Ht Hsz Hlen Hf. destruct (ok_rc _ _ _ Ht i f Hf) as [Hr Hpos]. unfold FileProps.no_leak in Hr.
  assert (refs_to m i <= Z.of_nat (size m) * OPEN_MAX).
  { apply FileProps.refs_to_le. intros q e Hq. rewrite (ok_fds _ _ _ Ht q e Hq). unfold OPEN_MAX. lia. }
  pose proof (FileProps.cnt_le i (take k d)) as Hc. rewrite length_take in Hc. pose proof (cnt_nonneg i (take k d)).
  unfold PID_MAX, OPEN_MAX in *. lia.
Qed.

(** One turn of the loop. *)
Lemma fork_turn l th p ofs m d np done i rest s' : tables_ok FileProps.no_leak ofs m -> m !! p = Some d ->
  Z.of_nat (size m) < PID_MAX -> seqZ 0 OPEN_MAX = done ++ i :: rest ->
  (exists ofs', s' = mk l th p None ofs' (<[np := d]> m) /\ counted d (length done) ofs ofs') ->
  wp (s ← get; d ← deref FNull (Openfile.fds s !! np); e ← deref FBounds (d !! Z.to_nat i);
      if e =? Openfile.FILE_CLOSED then mret tt else share_open e)
    (fun _ s' => exists ofs', s' = mk l th p None ofs' (<[np := d]> m) /\ counted d (length (done ++ [i])) ofs ofs') s'.
Proof.
  intros Ht Hp Hsz Hsplit (ofs' & -> & Hc). pose proof (ok_fds _ _ _ Ht p d Hp) as Hlen.
  assert (i = Z.of_nat (length done) /\ (length done < length d)%nat) as [-> Hk].
  { assert (seqZ 0 OPEN_MAX !! length done = Some i) as Hi by (rewrite Hsplit; by apply list_lookup_middle).
    apply lookup_seqZ in Hi. split; [lia|]. rewrite Hlen. lia. }
  destruct (lookup_lt_is_Some_2 d (length done) Hk) as [e He].
  rewrite wp_bind, wp_get, wp_bind, wp_deref. exists d. split; [apply lookup_insert_eq|].
  rewrite wp_bind, wp_deref. exists e. rewrite Nat2Z.id. split; [done|].
  rewrite length_app, Nat.add_1_r.
  destruct (Z.eqb_spec e FILE_CLOSED) as [->|Hne].
  { apply wp_ret. exists ofs'. split; [done|]. destruct Hc as [C1 C2 C3]. split; [done| |done].
    intros j Hj. rewrite (cnt_take_S j d _ _ He), C2 by done. unfold FILE_CLOSED.
    destruct (Z.eqb_spec (-1) j); [lia|]. by rewrite Z.add_0_r. }
  destruct (ok_entries _ _ _ Ht p d _ e Hp He) as [?|[Her [f Hf]]]; [done|].
  assert (slot ofs' e = bump (cnt e (take (length done) d)) (Some f)) as Hf'.
  { rewrite (cd_slot _ _ _ _ Hc) by lia. by rewrite Hf. }
  cbn in Hf'. destruct (fork_room ofs m d (length done) e f Ht Hsz Hlen Hf).
  eapply share_open_eq; [exact Hf'|cbn; lia|].
  eexists. split; [done|]. eapply counted_step; [done|done|lia|done].
Qed.

(** The tables stay right with the new process's table in them. *)
Lemma fork_tables ofs ofs' m d p np : tables_ok FileProps.no_leak ofs m -> m !! p = Some d -> m !! np = None ->
  Z.of_nat (size m) < PID_MAX -> counted d (length d) ofs ofs' -> tables_ok FileProps.no_leak ofs' (<[np := d]> m).
Proof.
  intros Ht Hp Hnp Hsz [C1 C2 C3]. pose proof (ok_fds _ _ _ Ht p d Hp) as Hlen. rewrite firstn_all in C2.
  assert (forall e, entry_ok ofs e -> entry_ok ofs' e) as He.
  { intros e [->|[Hr [f Hf]]]; [by left|]. right. split; [done|]. rewrite C2, Hf by lia. by eexists. }
  pose proof Ht as [T1 T2 T3 T4 T5 T6]. split.
  - by rewrite C1.
  - intros q e [[<- <-]|[_ Hq]]%lookup_insert_Some; [done|by eapply T2].
  - intros q e k v [[<- <-]|[_ Hq]]%lookup_insert_Some Hv; apply He; [by eapply (T3 p)|by eapply (T3 q)].
  - intros i f Hf. assert (0 <= i) as Hi by (apply slot_lookup in Hf; lia). rewrite C2 in Hf by done.
    destruct (slot ofs i) as [g|] eqn:Hg; [|done]. injection Hf as <-. simpl. rewrite refs_to_fresh by done.
    destruct (T4 i g Hg) as [Hr _]. destruct (fork_room ofs m d (length d) i g Ht Hsz Hlen Hg) as [Hr1 Hr2].
    rewrite firstn_all in Hr2. pose proof (cnt_nonneg i d). lia.
  - done.
  - done.
Qed.

Lemma fork_fds_core x l th p ofs m d np : good x FileProps.no_leak l ofs m -> m !! p = Some d ->
  m !! np = None -> Z.of_nat (size m) < PID_MAX ->
  spec x FileProps.no_leak l th p None ofs m (fork_fds np) (fun _ l' ofs' m' =>
    l' = l /\ m' = <[np := d]> m /\ forall i, 0 <= i -> slot ofs' i = bump (cnt i d) (slot ofs i)).
Proof.
  intros [Hl Ht Hv Hx] Hp Hnp Hsz. unfold spec, fork_fds. rewrite wp_bind. eapply wp_the_fds; [done|].
  rewrite wp_bind, wp_modify. pose proof (ok_fds _ _ _ Ht p d Hp) as Hlen. eapply wp_mono.
  - apply (wp_for_each _ _ (fun done s' => exists ofs', s' = mk l th p None ofs' (<[np := d]> m) /\
      counted d (length done) ofs ofs')).
    { exists ofs. split; [done|]. split; [done| |done]. intros i _. cbn. rewrite take_0.
      change (cnt i []) with 0. by rewrite bump_0. }
    intros done i rest s' Hsplit. by eapply fork_turn.
  - intros [] s' (ofs' & -> & Hc). rewrite length_seqZ, <- Hlen in Hc.
    exists l, ofs', (<[np := d]> m). split; [done|].
    pose proof (cd_slot _ _ _ _ Hc) as C2. rewrite firstn_all in C2.
    split; [|by split_and!]. split; [done|by eapply fork_tables| |done].
    intros u. unfold spare. rewrite (cd_vnode _ _ _ _ Hc). apply Hv.
Qed.
End Fork.
End ProcFiles.
