(* ===== verification/ProcSpec.v ===== *)
(** * The invariant of the kernel state

    The invariants of the components, and what ties them together: who runs,
    which process structures exist, and which address spaces, descriptor
    tables and process ids belong to them. *)

From S2P Require Import Prelude Kern Bswap Interfaces Copyinout Uio Vfs VfsSpec VfsProc.
From S2P Require Import Openfile OpenfileSpec FileOps FileTables FileProps.
From S2P Require Import Pid PidSpec PidSys Vm VmSpec UserSpace Proc.
Open Scope Z_scope.
Import VfsSpec UserSpace Proc.
#[local] Existing Instances VfsSpec.VfsOps_vfs VfsSpec.UserMem_vfs.

Module ProcSpec.

(** What a thread does, as the process id table sees it. *)
Definition act_of (st : tstate) : PidSys.act :=
  match st with
  | TStart _ | TUser _ => PidSys.Running
  | TSleep _ pid _ pp cv => PidSys.Sleeping pid pp cv
  | TWoken _ pid _ pp cv => PidSys.Woken pid pp cv
  end.

Record vm_ok (v : vmstate) : Prop := VmOk {
  vm_ram : VmSpec.ram_ok v;
  vm_fresh : 0 < vm_next v;
  vm_space : forall a x, spaces v !! a = Some x ->
    0 < a < vm_next v /\ VmSpec.as_ok 0 (firstpaddr v) x /\ own_frames x;
  vm_apart : forall a b x y, a <> b -> spaces v !! a = Some x -> spaces v !! b = Some y -> apart x y
}.

Abbreviation table ofs := (Openfile.Oft (Openfile.FileTable None ofs)).

Section Inv.
Context {G : Type} `{BackendSpec G}.
Abbreviation K := (kstate G).
Implicit Types (s : K) (l : vstate G) (m : gmap Z (list Z)).

Record fs_ok (x : Z -> Z) l (o : Openfile.oft_ptr) m : Prop := FsOk {
  fs_vfs : vinv l;
  fs_lock : biglock l = None;
  fs_tables : exists ofs, o = Openfile.Oft (Openfile.FileTable None ofs) /\
    OpenfileSpec.tables_ok FileProps.no_leak ofs m /\
    forall u, ext_refs l u - OpenfileSpec.vcnt u ofs = x u;
  fs_spare : forall u, 0 <= x u
}.

(** The structure of a process that has run or can run. *)
Definition user_proc s (p : Z) (pr : proc) : Prop :=
  k_procs s !! p = Some pr /\ p <> kproc s /\ is_Some (k_fds s !! p) /\ p_addrspace pr <> 0.

Record procs_ok (acts : gmap Z PidSys.act) s : Prop := ProcsOk {
  po_thread : forall t p, t_proc s !! t = Some p -> t <> Pid.PID_BOOT ->
    exists pr, user_proc s p pr /\ p_pid pr = t /\ p_numthreads pr = 1;
  po_state : forall t, is_Some (t_proc s !! t) <-> is_Some (t_state s !! t);
  po_acts : forall t st, t_state s !! t = Some st -> acts !! t = Some (act_of st);
  po_sleep : forall t a, acts !! t = Some a -> a = PidSys.Running \/ is_Some (t_state s !! t);
  po_proc : forall p pr, k_procs s !! p = Some pr -> 0 < p < k_next s;
  po_pid : forall p pr, k_procs s !! p = Some pr -> p <> kproc s ->
    PID_MIN <= p_pid pr <= PID_MAX /\ is_Some (acts !! p_pid pr);
  po_pid_inj : forall p q pr qr, k_procs s !! p = Some pr -> k_procs s !! q = Some qr ->
    p <> kproc s -> q <> kproc s -> p_pid pr = p_pid qr -> p = q;
  po_as : forall p pr, k_procs s !! p = Some pr -> p_addrspace pr <> 0 ->
    is_Some (spaces (k_vm s) !! p_addrspace pr);
  po_as_inj : forall p q pr qr, k_procs s !! p = Some pr -> k_procs s !! q = Some qr ->
    p_addrspace pr <> 0 -> p_addrspace pr = p_addrspace qr -> p = q;
  po_fds : forall p, is_Some (k_fds s !! p) -> p <> kproc s /\ is_Some (k_procs s !! p);
  po_cwd : forall p, is_Some (p_cwd (k_low s) !! p) -> is_Some (k_procs s !! p);
  po_kproc : 0 < kproc s < k_next s
}.

Record kinv (x : Z -> Z) s : Prop := KInv {
  inv_fs : fs_ok x (k_low s) (k_oft s) (k_fds s);
  inv_vm : vm_ok (k_vm s);
  inv_procs : exists acts A, PidSys.sim (PidSys.World (k_pids s) acts) A /\ procs_ok acts s
}.

(** The current thread belongs to a user process and is in the kernel. *)
Definition running s (tf : trapframe) : Prop :=
  t_state s !! k_cur s = Some (TUser tf) /\ k_cur s <> Pid.PID_BOOT.

Lemma running_proc acts s tf : procs_ok acts s -> running s tf ->
  exists pr, user_proc s (curproc s) pr /\ p_pid pr = k_cur s /\ p_numthreads pr = 1 /\
    t_proc s !! k_cur s = Some (curproc s) /\ acts !! k_cur s = Some PidSys.Running.
Proof.
  intros Hp [Hst Hb]. destruct (proj2 (po_state _ _ Hp (k_cur s)) ltac:(by eexists)) as [p Ht].
  destruct (po_thread _ _ Hp _ _ Ht Hb) as (pr & Hu & Hpid & Hn).
  unfold curproc. rewrite Ht. exists pr. split_and!; try done. by rewrite (po_acts _ _ Hp _ _ Hst).
Qed.

(** ** Views *)

Lemma vinv_env th p sp um l : vinv l -> biglock l = None -> vinv (set_env th p sp um l).
Proof.
  intros [[Harr Hvn Hh Hkd Hcwd Hbt Hl Hcap Hnx] Hb] Hn. split; [split; try done|by apply (binv_stable l)].
  - intros u x Hx. destruct (Hvn u x Hx). by split.
  - intros kd Hk. destruct (Hkd kd Hk). by split.
  - left. destruct Hl as [[_ Hd]|[Hx _]]; [done|congruence].
Qed.

(** The facts the open-file layer leaves alone when the kernel calls it. *)
Definition frame s l : Prop :=
  biglock l = None /\ v_thread l = k_cur s /\ v_proc l = curproc s /\ v_space l = curas s /\
  p_cwd l = p_cwd (k_low s).

Lemma frame_framed s : framed (frame s).
Proof.
  intros l l' [S1 S2 S3 S4 S5 S6 (S7 & S8 & S9)] (F1 & F2 & F3 & F4 & F5).
  unfold frame. by rewrite S3, S6, S7, S8, S9.
Qed.

Definition Frame s : LowSpec (vstate G) := LowSpec_with (frame s) (frame_framed s).

Lemma fs_good x s ofs : fs_ok x (k_low s) (k_oft s) (k_fds s) -> k_oft s = table ofs ->
  OpenfileSpec.good (H2 := Frame s) x FileProps.no_leak (low_view s) ofs (k_fds s).
Proof.
  intros [Hv Hl (ofs' & Ho & Ht & Hr) Hx] E. rewrite E in Ho. injection Ho as <-.
  split; [|done|done|done]. split; [by apply vinv_env|]. by split_and!.
Qed.

(** The state after a call into the open-file layer. *)
Definition after_fs s l o m : K :=
  set_files l o m (set_vm (Vm.set_pmem (cur_write s (v_mem l)) (k_vm s)) s).

Lemma fs_ok_of x s l ofs m : OpenfileSpec.good (H2 := Frame s) x FileProps.no_leak l ofs m ->
  fs_ok x l (table ofs) m /\ frame s l.
Proof. intros [[Hv Hf] Ht Hr Hx]. split; [|done]. split; [done|apply Hf|by exists ofs|done]. Qed.

Lemma wp_in_fs {A} x s ofs (c : M (Openfile.fstate (vstate G)) A) P Q :
  fs_ok x (k_low s) (k_oft s) (k_fds s) -> k_oft s = table ofs ->
  OpenfileSpec.spec (H2 := Frame s) x FileProps.no_leak (low_view s) (k_cur s) (curproc s) None ofs (k_fds s) c P ->
  (forall r l' ofs' m', fs_ok x l' (table ofs') m' -> frame s l' -> P r l' ofs' m' ->
     Q r (after_fs s l' (table ofs') m')) ->
  wp (in_fs c) Q s.
Proof.
  intros Hfs Ho Hc HQ. unfold OpenfileSpec.spec, wp in Hc. unfold wp, in_fs, fs_view. rewrite Ho.
  destruct (c _) as [r f|]; [|done]. destruct Hc as (l' & ofs' & m' & -> & Hg & HP).
  apply fs_ok_of in Hg as [Hfs' Hfr]. by apply HQ.
Qed.

(** Physical memory does not matter to the invariant. *)
Lemma vm_ok_pmem v pm : vm_ok v -> vm_ok (Vm.set_pmem pm v).
Proof. intros [V1 V2 V3 V4]. by split. Qed.

(** A call into the open-file layer that gives or takes no table keeps the
    invariant. *)
Lemma kinv_after_fs x s l o m : kinv x s -> fs_ok x l o m -> p_cwd l = p_cwd (k_low s) ->
  (forall p, is_Some (m !! p) <-> is_Some (k_fds s !! p)) -> kinv x (after_fs s l o m).
Proof.
  intros [_ Hv (acts & A & Hsim & Hp)] Hfs Hcwd Hdom. split; [done|by apply vm_ok_pmem|].
  exists acts, A. split; [done|]. destruct Hp as [P1 P2 P3 P4 P5 P6 P7 P8 P9 P10 P11 P12]. split; try done.
  - intros t p Ht Hb. destruct (P1 t p Ht Hb) as (pr & (U1 & U2 & U3 & U4) & ?). exists pr.
    split; [|done]. split_and!; try done. by apply Hdom.
  - intros p Hm. apply P10. by apply Hdom.
  - intros p. simpl. rewrite Hcwd. apply P11.
Qed.

Lemma running_after_fs s l o m tf : running s tf -> running (after_fs s l o m) tf.
Proof. done. Qed.

(** What such a call does to memory: other address spaces do not change. *)
Lemma view_after_fs s l o m a y va : vm_ok (k_vm s) -> a <> curas s -> spaces (k_vm s) !! a = Some y ->
  VmSpec.view (pmem (k_vm (after_fs s l o m))) y va = VmSpec.view (pmem (k_vm s)) y va.
Proof.
  intros Hv Ha Hy. simpl. unfold cur_write. destruct (spaces (k_vm s) !! curas s) as [x|] eqn:Hx; [|done].
  apply write_back_other. by apply (vm_apart _ Hv (curas s) a).
Qed.

(** No more descriptor tables than process ids. *)
Lemma few_tables acts s : procs_ok acts s -> Z.of_nat (size (k_fds s)) < PID_MAX.
Proof.
  intros Hp. set (f := fun p => match k_procs s !! p with Some pr => p_pid pr | None => 0 end).
  assert (forall p, p ∈ (map_to_list (k_fds s)).*1 -> exists pr, k_procs s !! p = Some pr /\ p <> kproc s) as Hin.
  { intros p Hin. apply list_elem_of_fmap in Hin as ([q d] & -> & Hq). apply elem_of_map_to_list in Hq.
    destruct (po_fds _ _ Hp q) as [? [pr Hpr]]; [by eexists|]. by exists pr. }
  assert (f <$> (map_to_list (k_fds s)).*1 ⊆+ seqZ PID_MIN (PID_MAX - PID_MIN + 1)) as Hsub.
  { apply NoDup_submseteq.
    - apply NoDup_fmap_2_strong; [|apply NoDup_fst_map_to_list]. intros p q Hp1 Hq1 E.
      destruct (Hin p Hp1) as (pr & Hpr & ?), (Hin q Hq1) as (qr & Hqr & ?). unfold f in E.
      rewrite Hpr, Hqr in E. by apply (po_pid_inj _ _ Hp p q pr qr).
    - intros i Hi. apply list_elem_of_fmap in Hi as (p & -> & Hp1). destruct (Hin p Hp1) as (pr & Hpr & ?).
      unfold f. rewrite Hpr. destruct (po_pid _ _ Hp p pr) as [? _]; [done|done|]. apply elem_of_seqZ. lia. }
  apply submseteq_length in Hsub. rewrite !length_fmap, length_map_to_list, length_seqZ in Hsub.
  unfold PID_MIN, PID_MAX in *. lia.
Qed.
End Inv.
End ProcSpec.
