(* ===== verification/KernelMem.v ===== *)
(** * User memory of the current process

    What copies to and from user space do to the memory the current process
    sees. *)

From S2P Require Import Prelude Kern Bswap Interfaces Copyinout Uio Vfs VfsSpec VfsProc.
From S2P Require Import Openfile Pid Vm VmSpec UserSpace Proc ProcSpec.
Open Scope Z_scope.
Import UserSpace Proc ProcSpec.
#[local] Existing Instances VfsSpec.VfsOps_vfs VfsSpec.UserMem_vfs.

Module KernelMem.

(** Writing a whole map back and reading it again. *)
Lemma user_map_write_back lo hi y m pm : VmSpec.as_ok lo hi y -> hi <= 512 * 1024 * 1024 -> own_frames y ->
  (forall va, is_Some (m !! va) <-> is_Some (user_map y pm !! va)) -> user_map y (write_back y m pm) = m.
Proof.
  intros Hok Hhi Hown Hdom. apply map_eq. intros va.
  destruct (m !! va) as [b|] eqn:Hm.
  - assert (is_Some (user_map y pm !! va)) as Hu by (apply Hdom; by eexists).
    pose proof (user_map_user Hok pm va Hu) as Hva. rewrite (user_map_lookup Hok Hhi) in Hu |- * by done.
    rewrite (write_back_own Hok Hhi Hown); [done|done| |by eexists].
    destruct Hu as [c Hc]. unfold VmSpec.view in Hc. by apply fmap_Some in Hc as (p & Hp & _); eexists.
  - destruct (user_map y (write_back y m pm) !! va) as [b|] eqn:Hw; [|done].
    pose proof (user_map_user Hok _ va ltac:(by eexists)) as Hva. rewrite (user_map_lookup Hok Hhi) in Hw by done.
    unfold VmSpec.view in Hw. apply fmap_Some in Hw as (p & Hp & _).
    assert (is_Some (m !! va)) as [? ?]; [|congruence]. apply Hdom. rewrite (user_map_lookup Hok Hhi) by done.
    unfold VmSpec.view. rewrite Hp. by eexists.
Qed.

Section Mem.
Context {G : Type} `{Backend G}.
Abbreviation K := (kstate G).
Implicit Types s : K.

(** The current process has an address space in order. *)
Definition has_space s : Prop := vm_ok (k_vm s) /\ is_Some (spaces (k_vm s) !! curas s).

Lemma cur_map_write s um : has_space s ->
  (forall va, is_Some (um !! va) <-> is_Some (cur_map s !! va)) ->
  cur_map (set_vm (Vm.set_pmem (cur_write s um) (k_vm s)) s) = um.
Proof.
  intros [Hv [y Hy]] Hdom. unfold cur_map, cur_write in *.
  change (curas (set_vm _ s)) with (curas s). cbn [k_vm set_vm spaces pmem Vm.set_pmem].
  rewrite Hy in *. destruct (vm_space _ Hv _ _ Hy) as (_ & Hok & Hown), (vm_ram _ Hv) as (R1 & R2 & R3).
  by apply (user_map_write_back 0 (firstpaddr (k_vm s))); [done|lia| |].
Qed.

(** A call on user memory that leaves mapped what is mapped. *)
Lemma in_low_mem {R} (c : M (vstate G) R) s r l : has_space s -> c (low_view s) = Ok r l ->
  (forall va, is_Some (v_mem l !! va) <-> is_Some (cur_map s !! va)) ->
  exists s', in_low c s = Ok r s' /\ s' = after_fs s l (k_oft s) (k_fds s) /\ cur_map s' = v_mem l /\ has_space s'.
Proof.
  intros Hs Hc Hdom. exists (after_fs s l (k_oft s) (k_fds s)).
  split; [unfold in_low, in_fs, Openfile.lift; simpl; by rewrite Hc|]. split; [done|]. split.
  - exact (cur_map_write s (v_mem l) Hs Hdom).
  - destruct Hs as [Hv Hy]. split; [by apply vm_ok_pmem|done].
Qed.

(** A block of user space that is mapped. *)
Definition mapped (um : gmap Z Z) (a n : Z) : Prop :=
  0 < n /\ a + n <= USERSPACETOP /\ forall i, 0 <= i < n -> is_Some (um !! (a + i)).

(** copyout in the memory of the current process. *)
Lemma in_low_copyout bs a s (n := Z.of_nat (length bs)) : has_space s -> is_u32 a -> is_u32 n ->
  exists r s', in_low (copyout bs a) s = Ok r s' /\ has_space s' /\
    (exists l, s' = after_fs s l (k_oft s) (k_fds s) /\ p_cwd l = p_cwd (k_low s)) /\
    (forall va, is_Some (cur_map s' !! va) <-> is_Some (cur_map s !! va)) /\
    (forall va, ~ (a <= va < a + n) -> cur_map s' !! va = cur_map s !! va) /\
    match r with
    | Done _ => mapped (cur_map s) a n /\ Copyinout.load_bytes (cur_map s') a (length bs) = Some bs
    | Err e => e = EFAULT /\ ~ mapped (cur_map s) a n
    end.
Proof.
  intros Hs Ha Hn. pose proof (Copyinout.copyout_eq (low_view s) bs a Ha Hn) as Hc.
  change (Copyinout.copyout bs a (low_view s)) with (copyout bs a (low_view s)) in Hc.
  change (vmem (low_view s)) with (cur_map s) in Hc. unfold Copyinout.block_ok in Hc. fold n in Hc.
  destruct ((0 <? n) && (a + n <=? USERSPACETOP)) eqn:Hb.
  - destruct (Copyinout.store_bytes (cur_map s) a bs) as [m ok] eqn:Hst.
    destruct (Copyinout.store_bytes_ok _ _ _ _ _ Hst) as [Hok Hld].
    destruct (in_low_mem (copyout bs a) s _ _ Hs Hc) as (s' & Hr & E & Hm & Hs').
    { intros va. exact (Copyinout.store_bytes_mapped _ _ _ _ _ va Hst). }
    change (v_mem (set_vmem m (low_view s))) with m in Hm. rewrite <- Hm in *.
    eexists _, s'. split; [exact Hr|]. split; [done|]. split; [by eexists; split; [exact E|]|].
    split; [intros va; exact (Copyinout.store_bytes_mapped _ _ _ _ _ va Hst)|].
    split; [intros va; exact (Copyinout.store_bytes_frame _ _ _ _ _ va Hst)|].
    assert (ok = true <-> mapped (cur_map s) a n) as Hmap.
    { rewrite Hok. unfold mapped. split.
      - intros Hi. split_and!; [lia..|]. intros i Hi'. replace i with (Z.of_nat (Z.to_nat i)) by lia. apply Hi. lia.
      - intros (_ & _ & Hi) i Hi'. apply Hi. lia. }
    destruct ok; [by split; [apply Hmap|apply Hld]|]. split; [done|]. intros Hx. by apply Hmap in Hx.
  - destruct (in_low_mem (copyout bs a) s _ _ Hs Hc) as (s' & Hr & E & Hm & Hs'); [done|].
    change (v_mem (low_view s)) with (cur_map s) in Hm.
    eexists _, s'. rewrite Hm. split; [exact Hr|]. split; [done|]. split; [by eexists; split; [exact E|]|]. split; [done|]. split; [done|].
    split; [done|]. intros (? & ? & _). lia.
Qed.
End Mem.
End KernelMem.
