(* ===== verification/ProcOps.v ===== *)
(** * Steps of the kernel that keep its invariant

    One lemma per operation of proc.c and per call into another component:
    what it returns, and that the invariant holds again. *)

From S2P Require Import Prelude Kern Bswap Interfaces Copyinout Uio Vfs VfsSpec VfsProc.
From S2P Require Import Openfile OpenfileSpec FileOps FileTables FileProps.
From S2P Require Import Pid PidSpec PidSys Vm VmSpec VmProps UserSpace Proc ProcSpec.
Open Scope Z_scope.
Import VfsSpec UserSpace Proc ProcSpec.
#[local] Existing Instances VfsSpec.VfsOps_vfs VfsSpec.UserMem_vfs.

Module ProcOps.

Section Ops.
Context {G : Type} `{BackendSpec G}.
Abbreviation K := (kstate G).
Implicit Types (s : K) (l : vstate G) (m : gmap Z (list Z)).

(** The invariant with the threads and processes it speaks of. *)
Record parts (x : Z -> Z) (acts : gmap Z PidSys.act) (A : PidSys.astate) s : Prop := Parts {
  pt_fs : fs_ok x (k_low s) (k_oft s) (k_fds s);
  pt_vm : vm_ok (k_vm s);
  pt_sim : PidSys.sim (PidSys.World (k_pids s) acts) A;
  pt_procs : procs_ok acts s
}.

Lemma kinv_parts x s : kinv x s <-> exists acts A, parts x acts A s.
Proof. split; [intros [? ? (acts & A & ? & ?)]; by exists acts, A|intros (acts & A & [])]. split; eauto. Qed.

(** ** Simple changes *)

Lemma parts_allocs x acts A s al : parts x acts A s -> parts x acts A (set_allocs al s).
Proof. intros [? ? ? [P1 P2 P3 P4 P5 P6 P7 P8 P9 P10 P11 P12]]. by split. Qed.

Lemma wp_kmalloc_k (Q : bool -> K -> Prop) s :
  Q (hd true (k_allocs s)) (set_allocs (tail (k_allocs s)) s) -> wp kmalloc Q s.
Proof.
  unfold wp, kmalloc. simpl. destruct (k_allocs s) as [|[] al] eqn:E; simpl; try done.
  destruct s; simpl in *. by subst.
Qed.

Lemma set_allocs_twice al al' s : set_allocs al (set_allocs al' s) = set_allocs al s.
Proof. done. Qed.

(** Memory changes; no address space goes away. *)
Lemma parts_vm x acts A s v : parts x acts A s -> vm_ok v ->
  (forall a, is_Some (spaces (k_vm s) !! a) -> is_Some (spaces v !! a)) -> parts x acts A (set_vm v s).
Proof.
  intros [? ? ? [P1 P2 P3 P4 P5 P6 P7 P8 P9 P10 P11 P12]] Hv' Hsub. split; [done..|].
  split; try done. intros p pr Hp Hn. by apply Hsub, (P8 p).
Qed.

(** ** Address spaces *)

Lemma short_end_ge f la al o g P : VmSpec.as_ok 0 f o ->
  (P /\ g = f) \/ (al /\ la < VmSpec.copy_end f o /\ g = VmSpec.short_end f la (as_npages1 o) (as_npages2 o)) -> f <= g.
Proof.
  intros [(_ & _ & ? & _) (_ & _ & ? & _) _ _ _] [[_ ->]|(_ & _ & ->)]; [lia|]. unfold VmSpec.short_end, Vm.PAGE_SIZE. cbv zeta.
  repeat case_match; lia.
Qed.

Lemma wp_as_copy s a o (Q : res Z -> K -> Prop) : vm_ok (k_vm s) -> spaces (k_vm s) !! a = Some o ->
  (forall v, vm_ok v -> spaces v = spaces (k_vm s) -> pmem v = pmem (k_vm s) -> Q (Err ENOMEM) (set_vm v s)) ->
  (forall v new n, vm_ok v -> spaces v = <[new := n]> (spaces (k_vm s)) -> spaces (k_vm s) !! new = None ->
     new <> 0 -> (forall va, is_u32 va -> VmSpec.view (pmem v) n va = VmSpec.view (pmem (k_vm s)) o va) ->
     (forall b y va, spaces (k_vm s) !! b = Some y ->
        VmSpec.view (pmem v) y va = VmSpec.view (pmem (k_vm s)) y va) ->
     Q (Done new) (set_vm v s)) ->
  wp (in_vm (Vm.as_copy a)) Q s.
Proof.
  intros [V1 V2 V3 V4] Ho HE HD. destruct (V3 a o Ho) as (Ha & Hok & Hown).
  assert (spaces (k_vm s) !! vm_next (k_vm s) = None) as Hfresh.
  { destruct (_ !! vm_next _) as [y|] eqn:E; [|done]. apply V3 in E. lia. }
  pose proof (VmSpec.as_copy_core (firstpaddr (k_vm s)) (lastpaddr (k_vm s)) (pmem (k_vm s)) (spaces (k_vm s))
    (tlb (k_vm s)) (curproc s) (curas s) (vm_allocs (k_vm s)) (vm_next (k_vm s)) a o V1 ltac:(lia) Ho Hok V2 Hfresh) as Hw.
  unfold wp, in_vm, vm_view in *. destruct (Vm.as_copy a _) as [r v|]; [|done].
  destruct Hw as (Hpost & Hr & _ & _ & _ & _ & Hnx & Hnew). destruct V1 as (R1 & R2 & R3).
  destruct r as [new|e]; cbn in Hpost.
  2:{ destruct Hpost as (-> & Hsp & Hpm & Hf). apply short_end_ge in Hf; [|done]. apply HE; [|done|done]. split; [done|lia| |by rewrite Hsp].
      intros b y Hy. rewrite Hsp in Hy. destruct (V3 b y Hy) as (? & Hb & ?). split; [lia|]. split; [|done].
      by eapply as_ok_mono. }
  destruct Hpost as (-> & _ & Hend & Hf & Hsp & Hpm). destruct Hr as (Q1 & Q2 & Q3).
  specialize (Hnew _ eq_refl). pose proof (VmSpec.the_copy_ok _ _ Hok R1 R2) as Hc.
  assert (firstpaddr (k_vm s) <= firstpaddr v) as Hle.
  { rewrite Hf. unfold VmSpec.copy_end, Vm.PAGE_SIZE, Vm.DUMBVM_STACKPAGES.
    destruct Hok as [(_ & _ & ? & _) (_ & _ & ? & _) _ _ _]. lia. }
  assert (forall b y, spaces (k_vm s) !! b = Some y -> apart y (VmSpec.the_copy (firstpaddr (k_vm s)) o)) as Hap.
  { intros b y Hy. destruct (V3 b y Hy) as (? & Hb & _). eapply as_ok_apart; [exact Hb|exact Hc|lia..]. }
  apply (HD v (vm_next (k_vm s)) (VmSpec.the_copy (firstpaddr (k_vm s)) o)); [|done|done|lia| |].
  - split; [done|lia| |].
    + intros b y. rewrite Hsp, lookup_insert_Some. intros [[<- <-]|[_ Hy]].
      * split; [lia|]. split; [rewrite Hf; eapply as_ok_mono; [exact Hc|lia|done]|].
        unfold own_frames. simpl. lia.
      * destruct (V3 b y Hy) as (? & Hb & ?). split; [lia|]. split; [|done]. by eapply as_ok_mono.
    + intros b c y z Hne. rewrite Hsp, !lookup_insert_Some. intros [[<- <-]|[_ Hy]] [[<- <-]|[_ Hz]]; [done| | |].
      * by eapply apart_sym, Hap.
      * by eapply Hap.
      * by apply (V4 b c).
  - intros va Hva. rewrite Hpm. apply VmSpec.copied_view; try done. rewrite <- Hf. lia.
  - intros b y va Hy. rewrite Hpm. destruct (V3 b y Hy) as (? & Hb & _). unfold VmSpec.view.
    destruct (VmSpec.translate y va) as [q|] eqn:Hq; [|done]. simpl. f_equal.
    rewrite translate_u32 in Hq. apply (VmSpec.translate_range 0 (firstpaddr (k_vm s))) in Hq; [|done|lia|apply u32_range].
    apply VmSpec.copied_old; [done|lia].
Qed.

(** ** Process ids *)

Lemma as_thread_in_pid {R} (c : M pstate R) s acts :
  in_pid c s = match PidSys.as_thread (k_cur s) c (PidSys.World (k_pids s) acts) with
               | Ok r w => Ok r (set_pids (PidSys.w_pids w) s)
               | Fault f => Fault f
               end.
Proof. unfold in_pid, PidSys.as_thread, pid_view. simpl. by destruct (c _). Qed.

Lemma as_thread_acts {R} p (c : M pstate R) w r w' : PidSys.as_thread p c w = Ok r w' ->
  w' = PidSys.World (PidSys.w_pids w') (PidSys.w_acts w).
Proof. unfold PidSys.as_thread. destruct (c _); [|done]. by intros [= _ <-]. Qed.

(** An id is free in the table. *)
Definition pid_free s : Prop :=
  exists t i, pid_table (k_pids s) = PObj t /\ PID_MIN <= i <= PID_MAX /\ t !! i = None.

Lemma wp_pid_create s acts A (Q : Z -> K -> Prop) :
  PidSys.sim (PidSys.World (k_pids s) acts) A -> acts !! k_cur s = Some PidSys.Running ->
  (forall r P' acts' A', PidSys.sim (PidSys.World P' acts') A' ->
     (r = -1 /\ ~ pid_free s /\ acts' = acts /\ A' = A) \/
     (PID_MIN <= r <= PID_MAX /\ acts !! r = None /\ acts' = <[r := PidSys.Running]> acts /\
      PidSys.astep A (PidSys.Forked (k_cur s) r) A') ->
     Q r (set_pids P' s)) ->
  wp (in_pid (Pid.pid_create (k_cur s))) Q s.
Proof.
  intros (t & P & C & th & nx & Hw & Hok & Hs) Hrun HQ. simpl in Hw.
  destruct (PidSys.sim_alive Hs _ _ Hrun) as [pp HA].
  unfold wp, in_pid, pid_view. rewrite Hw. simpl.
  destruct (PidSpec.pid_create_core t P C (k_cur s) [] nx (k_cur s) Hok ltac:(apply Forall_nil_2))
    as (r & s' & -> & [(-> & -> & Hfull)|(Hr & Hfree & Hleast & ->)]).
  - apply (HQ _ _ acts A); [by apply PidSys.sim_intro|]. left. split_and!; try done.
    intros (t' & i & Ht & Hi & Hn). rewrite Hw in Ht. injection Ht as <-. destruct (Hfull i Hi). congruence.
  - destruct (PidSys.sim_absent Hs r ltac:(lia) Hfree) as [Hacts HAr].
    apply (HQ _ _ (<[r := PidSys.Running]> acts) (<[r := (k_cur s, PidSys.ARun)]> A)).
    + apply PidSys.sim_intro; [by apply PidSpec.created_ok|by apply (PidSys.sim_forked Hok Hs)].
    + right. split_and!; try done; try lia. eapply PidSys.A_fork; [done|done|lia|].
      intros j Hj. destruct (Hleast j Hj) as [a Ha]. apply (PidSys.sim_present Hok Hs j a Ha). lia.
Qed.

(** The table holds no pointer that was never written. *)
Definition not_wild s (pid : Z) : Prop := ~ PidSys.wild (k_pids s) pid.

Lemma wp_pid_wait s acts A pid (Q : Pid.waiting -> K -> Prop) :
  PidSys.sim (PidSys.World (k_pids s) acts) A -> acts !! k_cur s = Some PidSys.Running ->
  PID_MIN <= pid <= PID_MAX -> not_wild s pid ->
  (forall r P' acts' A' e, PidSys.sim (PidSys.World P' acts') A' -> PidSys.astep A e A' ->
     match r with
     | Pid.WRet (Done st) => acts' = acts /\ e = PidSys.Reaped (k_cur s) pid st
     | Pid.WRet (Err er) => acts' = acts /\ e = PidSys.WaitErr (k_cur s) pid er
     | Pid.WSleep pp cv => acts' = <[k_cur s := PidSys.Sleeping pid pp cv]> acts /\
         e = PidSys.Slept (k_cur s) pid
     end -> Q r (set_pids P' s)) ->
  wp (in_pid (Pid.pid_wait pid (k_cur s))) Q s.
Proof.
  intros Hsim Hrun Hr Hw HQ.
  destruct (PidSys.sim_step _ A (k_cur s) (PidSys.Wait pid) Hsim) as (e & w' & A' & He & Ha & Hs').
  { unfold PidSys.enabled. simpl. by rewrite Hrun. }
  unfold PidSys.exec in He. rewrite get_bind in He. cbn [PidSys.w_acts] in He. rewrite Hrun in He.
  unfold wp. rewrite (as_thread_in_pid _ s acts).
  unfold mbind at 1, M_bind at 1 in He.
  destruct (PidSys.as_thread _ _ _) as [r w1|] eqn:E1; [|done].
  apply as_thread_acts in E1. cbn [PidSys.w_acts] in E1. destruct w1 as [P1 acts1]. injection E1 as ->.
  cbn [PidSys.w_pids]. destruct r as [[st|er]|pp cv]; cbn in He; injection He as <- <-.
  - by eapply HQ; [exact Hs'|exact Ha|].
  - by eapply HQ; [exact Hs'|exact Ha|].
  - by eapply HQ; [exact Hs'|exact Ha|].
Qed.

Lemma wp_pid_woken s acts A pid pp cv (Q : res Z -> K -> Prop) :
  PidSys.sim (PidSys.World (k_pids s) acts) A -> acts !! k_cur s = Some (PidSys.Woken pid pp cv) ->
  (forall st P' A', PidSys.sim (PidSys.World P' (<[k_cur s := PidSys.Running]> acts)) A' ->
     PidSys.astep A (PidSys.Reaped (k_cur s) pid st) A' -> Q (Done st) (set_pids P' s)) ->
  wp (in_pid (Pid.pid_wait_woken pp cv)) Q s.
Proof.
  intros (t & P & C & th & nx & Hw & Hok & Hs) Hrun HQ. simpl in Hw.
  destruct (PidSys.step_resume (th := th) Hok Hs (k_cur s) pid pp cv Hrun)
    as (e & w' & A' & He & Ha & Hs' & st & -> & _).
  unfold PidSys.exec in He. rewrite get_bind in He. cbn [PidSys.w_acts] in He. rewrite Hrun in He.
  unfold wp. rewrite (as_thread_in_pid _ s acts), Hw. unfold mbind at 1, M_bind at 1 in He.
  destruct (PidSys.as_thread _ _ _) as [r w1|] eqn:E1; [|done].
  apply as_thread_acts in E1. cbn [PidSys.w_acts] in E1. destruct w1 as [P1 acts1]. injection E1 as ->.
  cbn [PidSys.w_pids]. destruct r as [st'|er]; cbn in He; [|done]. injection He as -> <-. by eapply HQ.
Qed.

(** Threads as the id table sees them and as they are, apart from one that is
    about to end. *)
Record acts_rel (cur : Z) (acts : gmap Z PidSys.act) (ts : gmap Z tstate) : Prop := {
  ar_acts : forall t st, ts !! t = Some st -> t <> cur -> acts !! t = Some (act_of st);
  ar_sleep : forall t a, acts !! t = Some a -> a = PidSys.Running \/ is_Some (ts !! t);
  ar_gone : acts !! cur = None
}.

(** [ts'] differs from [ts] in sleepers that have been woken. *)
Definition woke (cur : Z) (ts ts' : gmap Z tstate) : Prop :=
  ts' !! cur = ts !! cur /\ forall t, ts' !! t = ts !! t \/
    exists tf pid st pp cv, ts !! t = Some (TSleep tf pid st pp cv) /\ ts' !! t = Some (TWoken tf pid st pp cv).

Lemma woke_dom cur ts ts' t : woke cur ts ts' -> is_Some (ts' !! t) <-> is_Some (ts !! t).
Proof. intros [_ Hw]. destruct (Hw t) as [->|(? & ? & ? & ? & ? & -> & ->)]; [done|]. by split; eexists. Qed.

Lemma wake_eq cur P acts acts' s t : acts_rel cur acts (t_state s) ->
  PidSys.wake t (PidSys.World P acts) = Ok tt (PidSys.World P acts') ->
  exists ts', wake t s = Ok tt (set_threads (t_proc s) ts' s) /\ acts_rel cur acts' ts' /\
    woke cur (t_state s) ts' /\ dom acts' = dom acts.
Proof.
  intros [R1 R2 R3] Hw. unfold PidSys.wake in Hw. rewrite get_bind in Hw. cbn [PidSys.w_acts] in Hw.
  destruct (acts !! t) as [[|c pp cv|]|] eqn:Ha; [done| |done|done].
  injection Hw as <-. assert (t <> cur) as Ht by congruence.
  destruct (R2 t _ Ha) as [?|[st Hst]]; [done|]. pose proof (R1 t st Hst Ht) as Ha'. rewrite Ha in Ha'.
  injection Ha' as Ha'. destruct st as [|tf|tf c' status pp' cv'|]; try done. injection Ha' as <- <- <-.
  exists (<[t := TWoken tf c status pp cv]> (t_state s)). unfold wake. rewrite get_bind, Hst.
  split; [done|]. split; [split|split; [split|]].
  - intros u st [[<- <-]|[Hne Hu]]%lookup_insert_Some Hu'; [by rewrite lookup_insert_eq|].
    rewrite lookup_insert_ne by done. by apply R1.
  - intros u a [[<- <-]|[Hne Hu]]%lookup_insert_Some; [right; by rewrite lookup_insert_eq|].
    rewrite lookup_insert_ne by done. by apply (R2 u).
  - by rewrite lookup_insert_ne.
  - by rewrite lookup_insert_ne.
  - intros u. destruct (decide (u = t)) as [->|]; [right|left; by rewrite lookup_insert_ne].
    rewrite lookup_insert_eq. eauto 10.
  - rewrite dom_insert_L. apply elem_of_dom_2 in Ha. set_solver.
Qed.

Lemma woke_trans cur a b c : woke cur a b -> woke cur b c -> woke cur a c.
Proof.
  intros [A1 A2] [B1 B2]. split; [congruence|]. intros t.
  destruct (A2 t) as [Ea|(tf & pid & st & pp & cv & Ea & Eb)], (B2 t) as [Ec|(tf' & pid' & st' & pp' & cv' & Ec & Ed)];
    rewrite ?Ea, ?Ec in *; eauto 10; congruence.
Qed.

Lemma set_threads_twice p t p' t' s : set_threads p t (set_threads p' t' s) = set_threads p t s.
Proof. done. Qed.

Lemma wakes_eq cur P ws : forall acts acts' s, acts_rel cur acts (t_state s) ->
  for_each ws PidSys.wake (PidSys.World P acts) = Ok tt (PidSys.World P acts') ->
  exists ts', for_each ws wake s = Ok tt (set_threads (t_proc s) ts' s) /\ acts_rel cur acts' ts' /\
    woke cur (t_state s) ts' /\ dom acts' = dom acts.
Proof.
  induction ws as [|t ws IH]; intros acts acts' s Hr Hw; simpl in *.
  { injection Hw as <-. exists (t_state s). split; [by destruct s|]. split; [done|]. split; [|done]. by split; auto. }
  destruct (PidSys.wake t (PidSys.World P acts)) as [[] [P1 acts1]|] eqn:E;
    [rewrite (bind_eq _ _ _ _ _ E) in Hw|unfold mbind, M_bind in Hw; by rewrite E in Hw].
  assert (P1 = P) as ->.
  { unfold PidSys.wake in E. rewrite get_bind in E. destruct (_ !! t) as [[]|]; try done. by injection E. }
  destruct (wake_eq cur P acts acts1 s t Hr E) as (ts1 & E1 & Hr1 & Hk1 & Hd1).
  destruct (IH acts1 acts' (set_threads (t_proc s) ts1 s) Hr1 Hw) as (ts' & E2 & Hr2 & Hk2 & Hd2).
  exists ts'. rewrite (bind_eq _ _ _ _ _ E1), E2. split; [done|]. split; [done|].
  split; [by eapply woke_trans|congruence].
Qed.

Lemma wp_pid_exit s acts A st (Q : unit -> K -> Prop) :
  PidSys.sim (PidSys.World (k_pids s) acts) A -> procs_ok acts s ->
  acts !! k_cur s = Some PidSys.Running -> k_cur s <> Pid.PID_BOOT ->
  (forall P' acts' A' ts', PidSys.sim (PidSys.World P' acts') A' ->
     PidSys.astep A (PidSys.Exited (k_cur s) st) A' -> acts_rel (k_cur s) acts' ts' ->
     woke (k_cur s) (t_state s) ts' -> dom acts' = dom acts ∖ {[k_cur s]} ->
     Q tt (set_threads (t_proc s) ts' (set_pids P' s))) ->
  wp (ws ← in_pid (Pid.pid_exit (k_cur s) st); for_each ws wake) Q s.
Proof.
  intros Hsim Hp Hrun Hb HQ.
  destruct (PidSys.sim_step _ A (k_cur s) (PidSys.Exit st) Hsim) as (e & w' & A' & He & Ha & Hs').
  { unfold PidSys.enabled. simpl. by rewrite Hrun. }
  unfold PidSys.exec in He. rewrite get_bind in He. cbn [PidSys.w_acts] in He. rewrite Hrun in He.
  unfold wp, mbind at 1, M_bind at 1. rewrite (as_thread_in_pid _ s acts).
  unfold mbind at 1, M_bind at 1 in He.
  destruct (PidSys.as_thread _ _ _) as [ws w1|] eqn:E1; [|done].
  apply as_thread_acts in E1. cbn [PidSys.w_acts] in E1. destruct w1 as [P1 acts1]. injection E1 as ->.
  unfold PidSys.end_thread in He. rewrite modify_bind in He. cbn [PidSys.w_acts PidSys.w_pids] in *.
  destruct (for_each ws PidSys.wake (PidSys.World P1 (delete (k_cur s) acts))) as [[] [P2 acts2]|] eqn:E2;
    [rewrite (bind_eq _ _ _ _ _ E2) in He|unfold mbind, M_bind in He; by rewrite E2 in He].
  injection He as <- <-. assert (P2 = P1) as ->.
  { clear -E2. revert E2. generalize (delete (k_cur s) acts). induction ws as [|t ws IH]; intros a E; simpl in E.
    - by injection E.
    - destruct (PidSys.wake t (PidSys.World P1 a)) as [[] [P3 a3]|] eqn:E3;
        [rewrite (bind_eq _ _ _ _ _ E3) in E|unfold mbind, M_bind in E; by rewrite E3 in E].
      unfold PidSys.wake in E3. rewrite get_bind in E3. destruct (_ !! t) as [[]|]; try done.
      injection E3 as <- <-. by eapply IH. }
  destruct (wakes_eq (k_cur s) P1 ws (delete (k_cur s) acts) acts2 (set_pids P1 s)) as (ts' & -> & Hr & Hk & Hd); [|done|].
  { destruct Hp as [P1' P2 P3 P4 _ _ _ _ _ _ _ _]. split.
    - intros t st' Ht Hne. rewrite lookup_delete_ne by done. by apply P3.
    - intros t a Hta. apply lookup_delete_Some in Hta as [_ Hta]. by apply (P4 t).
    - apply lookup_delete_eq. }
  apply (HQ P1 acts2 A' ts'); try done. rewrite Hd. apply dom_delete_L.
Qed.

(** ** New processes *)

Lemma wp_in_low {R} s (c : M (vstate G) R) Q :
  wp c (fun r l' => Q r (after_fs s l' (k_oft s) (k_fds s))) (low_view s) -> wp (in_low c) Q s.
Proof. unfold wp, in_low, in_fs, Openfile.lift, fs_view. simpl. by destruct (c _). Qed.

(** Writing back what is there changes nothing. *)
Lemma cur_write_same s pa : vm_ok (k_vm s) -> cur_write s (cur_map s) pa = pmem (k_vm s) pa.
Proof.
  intros [(R1 & R2 & R3) V2 V3 V4]. unfold cur_write, cur_map.
  destruct (spaces (k_vm s) !! curas s) as [y|] eqn:Hy; [|done]. destruct (V3 _ _ Hy) as (_ & Hok & Hown).
  unfold write_back. destruct (shown_at y pa) as [va|] eqn:Hs; [|done].
  apply shown_at_Some in Hs. destruct (user_map y _ !! va) as [b|] eqn:Hb; [|done]. simpl.
  assert (is_u32 va) as Hva by (eapply (user_map_user Hok); eauto).
  rewrite (user_map_lookup Hok) in Hb by (done || lia). unfold VmSpec.view in Hb. rewrite Hs in Hb. by injection Hb.
Qed.

Definition same_mem s s' : Prop := forall pa, pmem (k_vm s') pa = pmem (k_vm s) pa.

(** The states before and after a call that makes a step of the id table. *)
Definition pids_step s (e : PidSys.event) s' : Prop :=
  exists acts A acts' A', PidSys.sim (PidSys.World (k_pids s) acts) A /\ procs_ok acts s /\
    PidSys.sim (PidSys.World (k_pids s') acts') A' /\ procs_ok acts' s' /\ PidSys.astep A e A'.

(** What stays when a process structure is made. *)
Record spawned s (np : Z) (pr : proc) s' : Prop := Spawned {
  sp_procs : k_procs s' = <[np := pr]> (k_procs s);
  sp_fresh : k_procs s !! np = None /\ k_fds s !! np = None /\ 0 < np;
  sp_fds : k_fds s' = k_fds s;
  sp_oft : k_oft s' = k_oft s;
  sp_threads : t_proc s' = t_proc s /\ t_state s' = t_state s /\ k_cur s' = k_cur s /\ kproc s' = kproc s;
  sp_spaces : spaces (k_vm s') = spaces (k_vm s) /\ firstpaddr (k_vm s') = firstpaddr (k_vm s);
  sp_mem : same_mem s s';
  sp_allocs : k_allocs s' = drop 2 (k_allocs s);
  sp_cwd : p_cwd (k_low s') = partial_alter (fun _ => p_cwd (k_low s) !! curproc s) np (p_cwd (k_low s))
}.

Lemma fresh_proc acts s : procs_ok acts s ->
  k_procs s !! k_next s = None /\ k_fds s !! k_next s = None /\ p_cwd (k_low s) !! k_next s = None /\
  kproc s <> k_next s /\ 0 < k_next s.
Proof.
  intros Hp. assert (k_procs s !! k_next s = None) as Hn.
  { destruct (_ !! _) as [pr|] eqn:E; [|done]. apply (po_proc _ _ Hp) in E. lia. }
  pose proof (po_kproc _ _ Hp). split_and!; [done|..]; try lia.
  - destruct (k_fds s !! _) eqn:E; [|done]. destruct (po_fds _ _ Hp (k_next s)) as [_ [? ?]]; [by eexists|]. congruence.
  - destruct (p_cwd _ !! _) eqn:E; [|done]. destruct (po_cwd _ _ Hp (k_next s)) as [? ?]; [by eexists|]. congruence.
Qed.

Lemma procs_new acts s l pm P' pid name al :
  procs_ok acts s -> acts !! pid = None -> PID_MIN <= pid <= PID_MAX ->
  p_cwd l = partial_alter (fun _ => p_cwd (k_low s) !! curproc s) (k_next s) (p_cwd (k_low s)) ->
  procs_ok (<[pid := PidSys.Running]> acts)
    (KState l (k_oft s) (k_fds s) P' (Vm.set_pmem pm (k_vm s)) (<[k_next s := Proc name 0 0 pid]> (k_procs s))
       (t_proc s) (t_state s) (k_cur s) (kproc s) al (k_next s + 1)).
Proof.
  intros Hp Hpid Hr Hcwd. destruct (fresh_proc acts s Hp) as (Hf1 & Hf2 & Hf3 & Hf4 & Hf5).
  destruct Hp as [P1 P2 P3 P4 P5 P6 P7 P8 P9 P10 P11 P12].
  assert (forall t, is_Some (acts !! t) -> t <> pid) as Hpn by (intros t [a Ha] ->; congruence).
  split; simpl; try done.
  - intros t p Ht Hb. destruct (P1 t p Ht Hb) as (pr & (U1 & U2 & U3 & U4) & ?). exists pr.
    split; [|done]. split_and!; simpl; try done. rewrite lookup_insert_ne; [done|congruence].
  - intros t st Ht. rewrite lookup_insert_ne; [by apply P3|]. intros <-. apply P3 in Ht. congruence.
  - intros t a [[<- <-]|[Hne Ha]]%lookup_insert_Some; [by left|by apply (P4 t)].
  - intros p pr [[<- <-]|[Hne Hpr]]%lookup_insert_Some; [lia|]. apply P5 in Hpr. lia.
  - intros p pr [[<- <-]|[Hne Hpr]]%lookup_insert_Some Hk; simpl; [by rewrite lookup_insert_eq|].
    destruct (P6 p pr Hpr Hk) as [? Ha]. split; [done|]. rewrite lookup_insert_ne; [done|]. by apply not_eq_sym, Hpn.
  - intros p q pr qr [[<- <-]|[Hne Hpr]]%lookup_insert_Some [[<- <-]|[Hne' Hqr]]%lookup_insert_Some Hkp Hkq E; simpl in *; [done|..].
    + destruct (P6 q qr Hqr Hkq) as [_ Ha]. by apply Hpn in Ha.
    + destruct (P6 p pr Hpr Hkp) as [_ Ha]. by apply Hpn in Ha.
    + by apply (P7 p q pr qr).
  - intros p pr [[<- <-]|[Hne Hpr]]%lookup_insert_Some Ha; [done|]. by apply (P8 p).
  - intros p q pr qr [[<- <-]|[Hne Hpr]]%lookup_insert_Some [[<- <-]|[Hne' Hqr]]%lookup_insert_Some Ha E; simpl in *; [done|done|congruence|].
    by apply (P9 p q pr qr).
  - intros p Hm. destruct (P10 p Hm) as [? Hpr]. split; [done|]. rewrite lookup_insert_ne; [done|]. intros <-. by rewrite Hf1 in Hpr; destruct Hpr.
  - intros p. rewrite Hcwd. destruct (decide (p = k_next s)) as [->|Hne]; [by rewrite lookup_insert_eq|].
    rewrite lookup_partial_alter_ne, lookup_insert_ne by done. apply P11.
  - lia.
Qed.

Lemma wp_get_proc s p pr (Q : proc -> K -> Prop) : k_procs s !! p = Some pr -> p <> 0 -> Q pr s ->
  wp (get_proc p) Q s.
Proof.
  intros Hp Hn HQ. unfold get_proc. destruct (Z.eqb_spec p 0); [done|]. rewrite wp_bind, wp_get, wp_deref. eauto.
Qed.

Lemma wp_put_proc s p pr (Q : unit -> K -> Prop) : Q tt (set_procs (<[p := pr]> (k_procs s)) s) ->
  wp (put_proc p pr) Q s.
Proof. done. Qed.

(** A new process structure, before anything knows it. *)
Definition with_proc s (np : Z) (pr : proc) (al : list bool) : K :=
  KState (k_low s) (k_oft s) (k_fds s) (k_pids s) (k_vm s) (<[np := pr]> (k_procs s)) (t_proc s) (t_state s)
    (k_cur s) (kproc s) al (np + 1).

Lemma wp_proc_create s name (Q : Z -> K -> Prop) : (forall al, Q 0 (set_allocs al s)) ->
  Q (k_next s) (with_proc s (k_next s) (Proc name 0 0 0) (drop 2 (k_allocs s))) -> wp (proc_create name) Q s.
Proof.
  intros H0' H1'. unfold proc_create. rewrite wp_bind. apply wp_kmalloc_k.
  destruct (hd true (k_allocs s)); [|apply H0']. simpl. rewrite wp_bind. apply wp_kmalloc_k. simpl.
  destruct (hd true (tail (k_allocs s))); [|apply H0']. by destruct (k_allocs s) as [|? [|? ?]].
Qed.

Section Current.
Context {x : Z -> Z} {s : K} {tf : trapframe} {acts : gmap Z PidSys.act}.
Hypothesis Hp : procs_ok acts s.
Hypothesis Hrun : running s tf.

(** With a new structure the current process and its memory are the same. *)
Lemma cur_with_proc pr al : low_view (with_proc s (k_next s) pr al) = low_view s /\
  curas (with_proc s (k_next s) pr al) = curas s.
Proof.
  destruct (running_proc _ _ _ Hp Hrun) as (c & (U1 & _) & _). pose proof (po_proc _ _ Hp _ _ U1).
  assert (curas (with_proc s (k_next s) pr al) = curas s) as Ha.
  { unfold curas. change (curproc (with_proc s (k_next s) pr al)) with (curproc s). simpl.
    by rewrite lookup_insert_ne by lia. }
  split; [|done]. unfold low_view, cur_map. by rewrite Ha.
Qed.
End Current.

Lemma wp_proc_create_runprogram x s acts A tf name (Q : Z -> K -> Prop) :
  parts x acts A s -> running s tf -> pid_free s ->
  (forall al, Q 0 (set_allocs al s)) ->
  (forall s' A' pid, parts x (<[pid := PidSys.Running]> acts) A' s' ->
     spawned s (k_next s) (Proc name 0 0 pid) s' -> acts !! pid = None ->
     PidSys.astep A (PidSys.Forked (k_cur s) pid) A' -> PID_MIN <= pid <= PID_MAX ->
     Q (k_next s) s') ->
  wp (proc_create_runprogram name) Q s.
Proof.
  intros [Hfs Hvm Hsim Hp] Hrun Hfree Q0 Q1.
  destruct (fresh_proc acts s Hp) as (Hf1 & Hf2 & Hf3 & Hf4 & Hf5).
  destruct (running_proc _ _ _ Hp Hrun) as (c & (U1 & U2 & U3 & U4) & Hpid & Hn & Ht & Hact).
  pose proof (po_proc _ _ Hp _ _ U1) as Hcp.
  unfold proc_create_runprogram. rewrite wp_bind. set (al := drop 2 (k_allocs s)).
  apply wp_proc_create; [intros al'; rewrite Z.eqb_refl; apply Q0|]. fold al.
  destruct (Z.eqb_spec (k_next s) 0); [lia|]. rewrite wp_bind. apply wp_in_low.
  destruct (cur_with_proc Hp Hrun (Proc name 0 0 0) al) as [El Ea]. rewrite El.
  destruct Hfs as [Hv Hl (ofs & Ho & Htab & Hr) Hx].
  eapply wp_mono; [apply (VfsProc.proc_share_cwd_ok (low_view s) (k_next s)); [by apply vinv_env|done]|].
  intros [] l' (Hv' & Hr' & Hcwd & Hlk & Hmem). simpl in Hcwd.
  set (pm := cur_write (with_proc s (k_next s) (Proc name 0 0 0) al) (v_mem l')).
  set (s1 := after_fs _ l' _ _). rewrite wp_bind. unfold cur_proc. rewrite wp_bind, wp_get.
  apply (wp_get_proc s1 _ c); [simpl; rewrite lookup_insert_ne; [done|change (curproc s1) with (curproc s); lia]|
    change (curproc s1) with (curproc s); lia|].
  rewrite wp_bind, Hpid. change (k_cur s) with (k_cur s1). eapply (wp_pid_create s1 acts A); [done|done|].
  intros pid P' acts' A' Hsim' [(-> & Hnf & _)|(Hrange & Hnone & -> & Hstep)]; [by destruct Hnf|].
  rewrite wp_bind. apply (wp_get_proc _ _ (Proc name 0 0 0)); [simpl; by rewrite lookup_insert_eq|done|].
  rewrite wp_bind. apply wp_put_proc. apply wp_ret.
  set (s2 := KState l' (k_oft s) (k_fds s) P' (Vm.set_pmem pm (k_vm s)) (<[k_next s := Proc name 0 0 pid]> (k_procs s))
       (t_proc s) (t_state s) (k_cur s) (kproc s) al (k_next s + 1)).
  match goal with |- Q _ ?t => assert (t = s2) as -> end.
  { unfold s2, set_procs, set_pids. simpl. by rewrite insert_insert_eq. }
  pose proof (procs_new acts s l' pm P' pid name al Hp Hnone Hrange Hcwd) as Hp2. fold s2 in Hp2.
  apply (Q1 s2 A' pid); [| |done..].
  - split; [|by apply vm_ok_pmem|done|done]. split; [done|exact (eq_trans Hlk Hl)| |done].
    exists ofs. split; [done|]. split; [done|]. intros u. rewrite Hr'. apply Hr.
  - split; try done. intros pa. simpl. unfold pm. rewrite Hmem.
    change (v_mem (low_view s)) with (cur_map s). rewrite <- (cur_write_same s pa Hvm). unfold cur_write. by rewrite Ea.
Qed.
End Ops.
End ProcOps.
