(* ===== verification/ProcFork.v ===== *)
(** * Fork

    What sys_fork does to the kernel: the new process, and everything that was
    there before. *)

From S2P Require Import Prelude Kern Bswap Interfaces Copyinout Uio Vfs VfsSpec VfsProc.
From S2P Require Import Openfile OpenfileSpec FileOps FileTables FileProps.
From S2P Require Import Pid PidSpec PidSys Vm VmSpec VmProps UserSpace Proc ProcFiles ProcSpec ProcOps.
Open Scope Z_scope.
Import VfsSpec UserSpace Proc ProcSpec ProcOps.
#[local] Existing Instances VfsSpec.VfsOps_vfs VfsSpec.UserMem_vfs.

Module ProcFork.

Section Fork.
Context {G : Type} `{BackendSpec G}.
Abbreviation K := (kstate G).
Implicit Types (s : K) (l : vstate G) (m : gmap Z (list Z)).

(** ** Threads *)

(** A process without an address space has no thread. *)
Lemma no_thread acts s np pr : procs_ok acts s -> k_procs s !! np = Some pr -> np <> kproc s ->
  p_addrspace pr = 0 -> t_proc s !! p_pid pr = None.
Proof.
  intros Hp Hpr Hk Ha. destruct (t_proc s !! p_pid pr) as [q|] eqn:Ht; [|done].
  destruct (po_pid _ _ Hp np pr Hpr Hk) as [Hr _].
  destruct (po_thread _ _ Hp _ _ Ht) as (qr & (U1 & U2 & U3 & U4) & Hpid & _);
    [unfold PID_MIN, Pid.PID_BOOT in *; lia|].
  assert (q = np) as -> by (by apply (po_pid_inj _ _ Hp q np qr pr)). congruence.
Qed.

(** An id the table does not have is no thread's name. *)
Lemma free_pid acts s pid : procs_ok acts s -> acts !! pid = None ->
  t_proc s !! pid = None /\ t_state s !! pid = None.
Proof.
  intros Hp Hn. assert (t_state s !! pid = None) as Hs.
  { destruct (t_state s !! pid) eqn:E; [|done]. apply (po_acts _ _ Hp) in E. congruence. }
  split; [|done]. destruct (t_proc s !! pid) eqn:E; [|done].
  destruct (proj1 (po_state _ _ Hp pid) ltac:(by eexists)). congruence.
Qed.

(** The new process gets its address space. *)
Lemma procs_space acts s np pr a : procs_ok acts s -> k_procs s !! np = Some pr -> p_addrspace pr = 0 ->
  is_Some (spaces (k_vm s) !! a) -> (forall p qr, k_procs s !! p = Some qr -> p_addrspace qr <> a) ->
  procs_ok acts (set_procs (<[np := Proc (p_name pr) (p_numthreads pr) a (p_pid pr)]> (k_procs s)) s).
Proof.
  intros Hp Hnp H0' Ha Hun. destruct Hp as [P1 P2 P3 P4 P5 P6 P7 P8 P9 P10 P11 P12]. split; simpl; try done.
  - intros t p Ht Hb. destruct (P1 t p Ht Hb) as (qr & (U1 & U2 & U3 & U4) & ?). exists qr.
    split; [|done]. split_and!; simpl; try done. rewrite lookup_insert_ne; [done|congruence].
  - intros p qr [[<- <-]|[_ Hq]]%lookup_insert_Some; [apply (P5 _ _ Hnp)|apply (P5 _ _ Hq)].
  - intros p qr [[<- <-]|[_ Hq]]%lookup_insert_Some; [apply (P6 _ _ Hnp)|apply (P6 _ _ Hq)].
  - intros p q qr rr [[<- <-]|[_ Hq]]%lookup_insert_Some [[<- <-]|[_ Hr]]%lookup_insert_Some ?? E; simpl in *;
      [done|by apply (P7 _ _ _ _ Hnp Hr)|by apply (P7 _ _ _ _ Hq Hnp)|by apply (P7 _ _ _ _ Hq Hr)].
  - intros p qr [[<- <-]|[_ Hq]]%lookup_insert_Some ?; [done|by apply (P8 _ _ Hq)].
  - intros p q qr rr [[<- <-]|[_ Hq]]%lookup_insert_Some [[<- <-]|[_ Hr]]%lookup_insert_Some ? E; simpl in *;
      [done|by edestruct Hun|by edestruct Hun|by apply (P9 _ _ _ _ Hq Hr)].
  - intros p Hm. destruct (P10 p Hm) as [? ?]. split; [done|]. apply lookup_insert_is_Some'. by right.
  - intros p Hm. apply lookup_insert_is_Some'. right. by apply P11.
Qed.

(** The state in which the thread of [np] has started. *)
Definition threaded s (np : Z) (pr : proc) (st : tstate) (al : list bool) : K :=
  KState (k_low s) (k_oft s) (k_fds s) (k_pids s) (k_vm s)
    (<[np := Proc (p_name pr) (u32 (p_numthreads pr + 1)) (p_addrspace pr) (p_pid pr)]> (k_procs s))
    (<[p_pid pr := np]> (t_proc s)) (<[p_pid pr := st]> (t_state s)) (k_cur s) (kproc s) al (k_next s + 1).

Lemma wp_thread_fork s np pr st (Q : res unit -> K -> Prop) :
  k_procs s !! np = Some pr -> np <> 0 -> p_pid pr <> -1 -> t_proc s !! p_pid pr = None ->
  (forall al, Q (Err ENOMEM) (set_allocs al s)) -> (forall al, Q (Done tt) (threaded s np pr st al)) ->
  wp (thread_fork np st) Q s.
Proof.
  intros Hnp H0' Hpid Ht QE QD. unfold thread_fork, thread_create. rewrite !wp_bind. apply wp_kmalloc_k.
  destruct (hd true (k_allocs s)); simpl; [|apply QE]. apply wp_kmalloc_k. simpl.
  destruct (hd true (tail (k_allocs s))); simpl; [|apply QE]. rewrite wp_bind. apply wp_kmalloc_k. simpl.
  destruct (hd true (tail (tail (k_allocs s)))); simpl; [|apply QE].
  rewrite wp_bind. apply (wp_get_proc _ np pr); [done|done|]. rewrite wp_bind, wp_get, wp_bind, wp_modify.
  unfold thread_name. destruct (Z.eqb_spec (p_pid pr) (-1)); [done|]. simpl.
  unfold proc_addthread. rewrite !wp_bind, wp_get, wp_bind, wp_kassert. simpl. split; [by rewrite bool_decide_true|].
  rewrite wp_bind. apply (wp_get_proc _ np pr); [done|done|]. rewrite wp_bind. apply wp_put_proc.
  rewrite wp_bind, wp_modify. apply wp_ret. rewrite wp_bind, wp_modify. apply wp_ret. apply QD.
Qed.

Lemma procs_thread acts s np nm a pid tf al : procs_ok acts s -> k_procs s !! np = Some (Proc nm 0 a pid) ->
  np <> kproc s -> a <> 0 -> is_Some (k_fds s !! np) -> t_proc s !! pid = None ->
  procs_ok acts (threaded s np (Proc nm 0 a pid) (TStart tf) al).
Proof.
  intros Hp Hnp Hk Ha Hd Ht0. destruct Hp as [P1 P2 P3 P4 P5 P6 P7 P8 P9 P10 P11 P12].
  assert (t_state s !! pid = None) as Hs0.
  { destruct (t_state s !! pid) eqn:E; [|done]. destruct (proj2 (P2 pid) ltac:(by eexists)). congruence. }
  split; simpl; try done.
  - intros t p [[<- <-]|[Hne Ht]]%lookup_insert_Some Hb.
    { eexists. split; [split_and!; [apply lookup_insert_eq|done..]|done]. }
    destruct (P1 t p Ht Hb) as (qr & (U1 & U2 & U3 & U4) & Hq & ?). exists qr.
    split; [|done]. split_and!; simpl; try done. rewrite lookup_insert_ne; [done|]. intros ->.
    rewrite Hnp in U1. by injection U1 as <-.
  - intros t. rewrite !lookup_insert_is_Some'. by rewrite P2.
  - intros t st [[<- <-]|[Hne Ht]]%lookup_insert_Some; [|by apply P3].
    destruct (P6 np _ Hnp Hk) as [_ [b Hb]]. simpl in Hb. destruct (P4 pid b Hb) as [->|[? ?]]; [done|congruence].
  - intros t b Hb. destruct (P4 t b Hb); [by left|]. right. apply lookup_insert_is_Some'. by right.
  - intros p qr [[<- <-]|[_ Hq]]%lookup_insert_Some; [apply P5 in Hnp|apply P5 in Hq]; lia.
  - intros p qr [[<- <-]|[_ Hq]]%lookup_insert_Some; [apply (P6 _ _ Hnp)|apply (P6 _ _ Hq)].
  - intros p q qr rr [[<- <-]|[_ Hq]]%lookup_insert_Some [[<- <-]|[_ Hr]]%lookup_insert_Some ?? E; simpl in *;
      [done|by apply (P7 _ _ _ _ Hnp Hr)|by apply (P7 _ _ _ _ Hq Hnp)|by apply (P7 _ _ _ _ Hq Hr)].
  - intros p qr [[<- <-]|[_ Hq]]%lookup_insert_Some ?; [by apply (P8 _ _ Hnp)|by apply (P8 _ _ Hq)].
  - intros p q qr rr [[<- <-]|[_ Hq]]%lookup_insert_Some [[<- <-]|[_ Hr]]%lookup_insert_Some ? E; simpl in *;
      [done|by apply (P9 _ _ _ _ Hnp Hr)|by apply (P9 _ _ _ _ Hq Hnp)|by apply (P9 _ _ _ _ Hq Hr)].
  - intros p Hm. destruct (P10 p Hm) as [? ?]. split; [done|]. apply lookup_insert_is_Some'. by right.
  - intros p Hm. apply lookup_insert_is_Some'. right. by apply P11.
  - lia.
Qed.

(** ** What a call leaves alone *)

Record kept s s' : Prop := Kept {
  kp_cur : k_cur s' = k_cur s /\ kproc s' = kproc s;
  kp_procs : forall p pr, k_procs s !! p = Some pr -> k_procs s' !! p = Some pr;
  kp_fds : forall p d, k_fds s !! p = Some d -> k_fds s' !! p = Some d;
  kp_cwd : forall p, is_Some (k_procs s !! p) -> p_cwd (k_low s') !! p = p_cwd (k_low s) !! p;
  kp_thread : forall t q, t_proc s !! t = Some q -> t_proc s' !! t = Some q;
  kp_state : forall t st, t_state s !! t = Some st -> t_state s' !! t = Some st;
  kp_space : forall a y, spaces (k_vm s) !! a = Some y -> spaces (k_vm s') !! a = Some y /\
    forall va, VmSpec.view (pmem (k_vm s')) y va = VmSpec.view (pmem (k_vm s)) y va
}.

Lemma kept_trans s1 s2 s3 : kept s1 s2 -> kept s2 s3 -> kept s1 s3.
Proof.
  intros [(A1 & A1') A2 A3 A4 A5 A6 A7] [(B1 & B1') B2 B3 B4 B5 B6 B7].
  split; [split; congruence|auto|auto| |auto|auto|].
  - intros p Hp. rewrite B4, A4; [done|done|]. destruct Hp as [pr Hp]. exists pr. auto.
  - intros a y Hy. destruct (A7 a y Hy) as [Hy2 V]. destruct (B7 a y Hy2) as [Hy3 V'].
    split; [done|]. intros va. by rewrite V', V.
Qed.

Lemma kept_allocs s al : kept s (set_allocs al s).
Proof. by split. Qed.

Lemma view_ext pm pm' y va : (forall pa, pm' pa = pm pa) -> VmSpec.view pm' y va = VmSpec.view pm y va.
Proof. intros E. unfold VmSpec.view. destruct (VmSpec.translate y va); [|done]. simpl. by rewrite E. Qed.

Lemma kept_spawned s np pr s' : spawned s np pr s' -> kept s s'.
Proof.
  intros [S1 (S2 & S2' & _) S3 S4 (S5 & S6 & S7 & S8) (S9 & _) S10 S11 S12]. split; [done|..].
  - intros p qr Hq. rewrite S1, lookup_insert_ne; [done|congruence].
  - by rewrite S3.
  - intros p [qr Hq]. rewrite S12, lookup_partial_alter_ne; [done|congruence].
  - by rewrite S5.
  - by rewrite S6.
  - intros a y Hy. rewrite S9. split; [done|]. intros va. by apply view_ext.
Qed.

Lemma kept_fds s s' l o np d : kept s s' -> k_fds s !! np = None -> vm_ok (k_vm s') -> l = low_view s' ->
  kept s (after_fs s' l o (<[np := d]> (k_fds s'))).
Proof.
  intros [K1 K2 K3 K4 K5 K6 K7] Hnp Hvm ->. split; try done.
  - intros p e He. simpl. rewrite lookup_insert_ne; [auto|congruence].
  - intros a y Hy. destruct (K7 a y Hy) as [Hy' V]. split; [done|]. intros va. rewrite <- V. apply view_ext.
    intros pa. by apply cur_write_same.
Qed.

Lemma kept_put s s' np pr : kept s s' -> k_procs s !! np = None ->
  kept s (set_procs (<[np := pr]> (k_procs s')) s').
Proof.
  intros [K1 K2 K3 K4 K5 K6 K7] Hnp. split; try done. intros p qr Hq. simpl. rewrite lookup_insert_ne; [auto|congruence].
Qed.

Lemma kept_threaded s s' np pr st al : kept s s' -> k_procs s !! np = None ->
  t_proc s !! p_pid pr = None -> t_state s !! p_pid pr = None -> kept s (threaded s' np pr st al).
Proof.
  intros [K1 K2 K3 K4 K5 K6 K7] Hnp Ht Hs. split; try done.
  - intros p qr Hq. simpl. rewrite lookup_insert_ne; [auto|congruence].
  - intros t q Hq. simpl. rewrite lookup_insert_ne; [auto|congruence].
  - intros t q Hq. simpl. rewrite lookup_insert_ne; [auto|congruence].
Qed.

(** ** The new descriptor table *)

Lemma wp_fork_fds x acts A s np pr d (Q : unit -> K -> Prop) :
  parts x acts A s -> k_fds s !! curproc s = Some d -> k_fds s !! np = None ->
  k_procs s !! np = Some pr -> np <> kproc s ->
  (forall ofs ofs', k_oft s = table ofs -> (forall i, 0 <= i ->
      OpenfileSpec.slot ofs' i = ProcFiles.bump (cnt i d) (OpenfileSpec.slot ofs i)) ->
     let s' := after_fs s (low_view s) (table ofs') (<[np := d]> (k_fds s)) in
     parts x acts A s' -> Q tt s') ->
  wp (in_fs (fork_fds np)) Q s.
Proof.
  intros [Hfs Hvm Hsim Hp] Hd Hnp Hpr Hk HQ. destruct (fs_tables _ _ _ _ Hfs) as (ofs & Ho & _).
  eapply wp_in_fs; [done|done|apply ProcFiles.fork_fds_core|].
  - by apply fs_good.
  - done.
  - done.
  - by eapply few_tables.
  - intros [] l' ofs' m' Hfs' Hfr (-> & -> & Hslot). apply (HQ ofs ofs'); [done|done|].
    split; [done|by apply vm_ok_pmem|done|]. destruct Hp as [P1 P2 P3 P4 P5 P6 P7 P8 P9 P10 P11 P12].
    split; try done.
    + intros t p Ht Hb. destruct (P1 t p Ht Hb) as (qr & (U1 & U2 & U3 & U4) & ?). exists qr.
      split; [|done]. split_and!; try done. simpl. apply lookup_insert_is_Some'. by right.
    + intros p. simpl. rewrite lookup_insert_is_Some'. intros [<-|Hm]; [by eauto|by apply P10].
Qed.

(** ** The child *)

(** A process [pid] with [k] threads was made: a copy of the caller's address
    space, name, descriptor table and working directory. *)
Record born s (k pid : Z) s' : Prop := Born {
  bn_range : PID_MIN <= pid <= PID_MAX;
  bn_proc : exists c a o n, k_procs s !! curproc s = Some c /\ k_procs s !! k_next s = None /\
    k_procs s' = <[k_next s := Proc (p_name c) k a pid]> (k_procs s) /\
    spaces (k_vm s) !! p_addrspace c = Some o /\ spaces (k_vm s) !! a = None /\
    spaces (k_vm s') = <[a := n]> (spaces (k_vm s)) /\
    forall va, is_u32 va -> VmSpec.view (pmem (k_vm s')) n va = VmSpec.view (pmem (k_vm s)) o va;
  bn_files : exists d ofs ofs', k_fds s !! curproc s = Some d /\ k_fds s' = <[k_next s := d]> (k_fds s) /\
    k_oft s = table ofs /\ k_oft s' = table ofs' /\ forall i, 0 <= i ->
      OpenfileSpec.slot ofs' i = ProcFiles.bump (cnt i d) (OpenfileSpec.slot ofs i);
  bn_cwd : p_cwd (k_low s') !! k_next s = p_cwd (k_low s) !! curproc s;
  bn_pids : pids_step s (PidSys.Forked (k_cur s) pid) s'
}.

(** The child runs, with the registers of the parent. *)
Record forked s (tf : trapframe) (pid : Z) s' : Prop := Forked {
  fk_born : born s 1 pid s';
  fk_fresh : t_proc s !! pid = None;
  fk_thread : t_proc s' = <[pid := k_next s]> (t_proc s);
  fk_state : t_state s' = <[pid := TStart tf]> (t_state s)
}.

(** What a failing fork leaves behind.  Either no process: at most the copy of
    the address space, which nobody uses, is left.  Or a process without a
    thread, with its id and its descriptors, for want of memory for the
    thread. *)
Definition unborn s s' : Prop := exists v al, s' = set_vm v (set_allocs al s) /\
  (spaces v = spaces (k_vm s) \/ exists a n, spaces (k_vm s) !! a = None /\ spaces v = <[a := n]> (spaces (k_vm s))).
Definition stillborn s s' : Prop :=
  (exists pid, born s 0 pid s') /\ t_proc s' = t_proc s /\ t_state s' = t_state s.

(** The end of sys_fork: the address space and the thread. *)
Definition fork_start (tf : trapframe) (np a : Z) : M K (res Z) :=
  x ← get_proc np;
  put_proc np (Proc (p_name x) (p_numthreads x) a (p_pid x)) ;;
  r ← thread_fork np (TStart tf);
  match r with
  | Err e => mret (Err e)
  | Done _ => x ← get_proc np; mret (Done (p_pid x))
  end.

Lemma fork_start_core x acts A s nm pid tf np a (Q : res Z -> K -> Prop) :
  parts x acts A s -> k_procs s !! np = Some (Proc nm 0 0 pid) -> np <> kproc s -> a <> 0 ->
  is_Some (spaces (k_vm s) !! a) -> (forall p qr, k_procs s !! p = Some qr -> p_addrspace qr <> a) ->
  is_Some (k_fds s !! np) ->
  (forall al, let s1 := set_allocs al (set_procs (<[np := Proc nm 0 a pid]> (k_procs s)) s) in
     parts x acts A s1 -> Q (Err ENOMEM) s1) ->
  (forall al, let s1 := set_procs (<[np := Proc nm 0 a pid]> (k_procs s)) s in
     let s2 := threaded s1 np (Proc nm 0 a pid) (TStart tf) al in
     parts x acts A s2 -> Q (Done pid) s2) ->
  wp (fork_start tf np a) Q s.
Proof.
  intros [Hfs Hvm Hsim Hp] Hnp Hk Ha Hsp Hun Hd QE QD. pose proof (po_proc _ _ Hp _ _ Hnp) as H0'.
  destruct (po_pid _ _ Hp _ _ Hnp Hk) as [Hr _]. simpl in Hr.
  unfold fork_start. rewrite wp_bind. eapply wp_get_proc; [done|lia|]. rewrite wp_bind. apply wp_put_proc. simpl.
  pose proof (procs_space _ _ _ _ a Hp Hnp eq_refl Hsp Hun) as Hp1. simpl in Hp1.
  set (s1 := set_procs _ s) in *. rewrite wp_bind.
  assert (k_procs s1 !! np = Some (Proc nm 0 a pid)) as Hnp1 by apply lookup_insert_eq.
  assert (t_proc s1 !! pid = None) as Ht by (by apply (no_thread acts s np (Proc nm 0 0 pid))).
  apply (wp_thread_fork _ np (Proc nm 0 a pid)); [done|lia|simpl; unfold PID_MIN in *; lia|done|..]; intros al.
  - apply wp_ret, QE. apply parts_allocs. by split.
  - rewrite wp_bind. eapply wp_get_proc; [apply lookup_insert_eq|lia|]. apply wp_ret. apply (QD al).
    split; [done..|]. by apply procs_thread.
Qed.

(** The middle of sys_fork: the process and its descriptors. *)
Definition fork_proc (tf : trapframe) (nm : list Z) (a : Z) : M K (res Z) :=
  np ← proc_create_runprogram nm;
  if np =? 0 then mret (Err ENOMEM) else
  ok ← kmalloc; if negb ok then raise FNull else
  in_fs (fork_fds np) ;; fork_start tf np a.

(** What sys_fork promises, for a call made in [s]. *)
Definition fork_post (x : Z -> Z) (tf : trapframe) s (r : res Z) s' : Prop :=
  kinv x s' /\ kept s s' /\ match r with
  | Done pid => forked s tf pid s'
  | Err e => e = ENOMEM /\ (unborn s s' \/ stillborn s s')
  end.

Section Middle.
Context {x : Z -> Z} {acts : gmap Z PidSys.act} {A : PidSys.astate} {s : K} {tf : trapframe} {c : proc}.
Context {v : vmstate} {a : Z} {o n : addrspace}.
Hypothesis HP : parts x acts A s.
Hypothesis Hrun : running s tf.
Hypothesis Hfree : pid_free s.
Hypothesis Hc : k_procs s !! curproc s = Some c.
Hypothesis Ho : spaces (k_vm s) !! p_addrspace c = Some o.
Hypothesis Hvm : vm_ok v.
Hypothesis Hsp : spaces v = <[a := n]> (spaces (k_vm s)).
Hypothesis Ha : spaces (k_vm s) !! a = None.
Hypothesis Ha0 : a <> 0.
Hypothesis Hn : forall va, is_u32 va -> VmSpec.view (pmem v) n va = VmSpec.view (pmem (k_vm s)) o va.
Hypothesis Hold : forall b y va, spaces (k_vm s) !! b = Some y ->
  VmSpec.view (pmem v) y va = VmSpec.view (pmem (k_vm s)) y va.

Lemma copied_parts al : parts x acts A (set_vm v (set_allocs al s)) /\ kept s (set_vm v (set_allocs al s)).
Proof.
  split.
  - apply parts_vm; [by apply parts_allocs|done|]. intros b Hb. rewrite Hsp. apply lookup_insert_is_Some'. by right.
  - split; try done. intros b y Hy. simpl. rewrite Hsp, lookup_insert_ne by congruence. split; [done|]. intros va. by apply (Hold b).
Qed.

(** No process uses the new address space. *)
Lemma copied_unused p pr : k_procs s !! p = Some pr -> p_addrspace pr <> a.
Proof. intros Hpr E. destruct (po_as _ _ (pt_procs _ _ _ _ HP) p pr Hpr) as [y Hy]; congruence. Qed.

Lemma fork_proc_core al : nth 2 al true = true ->
  wp (fork_proc tf (p_name c) a) (fork_post x tf s) (set_vm v (set_allocs al s)).
Proof.
  intros Hal. destruct (copied_parts al) as [HP2 HK2]. set (s2 := set_vm v _) in *.
  pose proof HP as [_ _ Hsim Hp]. destruct (fresh_proc acts s Hp) as (Hf1 & Hf2 & _ & Hf4 & Hf5).
  destruct (running_proc _ _ _ Hp Hrun) as (c' & (_ & _ & [d Hd] & _) & _).
  unfold fork_proc. rewrite wp_bind. eapply (wp_proc_create_runprogram x s2); [done|done|done|intros al'|].
  { rewrite Z.eqb_refl. apply wp_ret. split; [apply kinv_parts; eauto using parts_allocs|].
    split; [eapply kept_trans; [done|apply kept_allocs]|]. split; [done|]. left. exists v, al'. split; [done|].
    right. by exists a, n. }
  intros s3 A' pid HP3 Hspawn Hpid Hstep Hr. pose proof (kept_trans _ _ _ HK2 (kept_spawned _ _ _ _ Hspawn)) as HK3.
  destruct Hspawn as [S1 (S2 & S2' & _) S3 S4 (S5 & S6 & S7 & S8) (S9 & _) S10 S11 S12].
  change (k_next s2) with (k_next s) in *. destruct (Z.eqb_spec (k_next s) 0); [lia|]. rewrite wp_bind.
  apply wp_kmalloc_k. set (s4 := set_allocs _ s3). rewrite S11. change (k_allocs s2) with al.
  replace (hd true (drop 2 al)) with (nth 2 al true) by (by destruct al as [|? [|? []]]). rewrite Hal. cbn [negb].
  assert (curproc s3 = curproc s) as Ecp by (unfold curproc; by rewrite S5, S7).
  rewrite wp_bind.
  eapply (wp_fork_fds x _ A' s4 (k_next s) _ d); [by apply parts_allocs|
    change (curproc s4) with (curproc s3); rewrite Ecp; simpl; by rewrite S3|simpl; by rewrite S3|
    simpl; by rewrite S1, lookup_insert_eq|simpl; by rewrite S8|].
  intros ofs ofs' Hofs Hslot s5 HP5. pose proof (kept_trans _ _ _ HK3 (kept_allocs s3 (tail (k_allocs s3)))) as HK4.
  assert (kept s s5) as HK5 by (apply kept_fds; [done|done|apply HP3|done]).
  assert (k_procs s5 = <[k_next s := Proc (p_name c) 0 0 pid]> (k_procs s)) as Eps by done.
  assert (spaces (k_vm s5) = <[a := n]> (spaces (k_vm s))) as Esp by (simpl; rewrite S9; done).
  assert (t_proc s !! pid = None /\ t_state s !! pid = None) as [Htp Hts] by by apply (free_pid acts).
  assert (forall k s', parts x (<[pid := PidSys.Running]> acts) A' s' ->
    k_procs s' = <[k_next s := Proc (p_name c) k a pid]> (k_procs s) -> k_vm s' = k_vm s5 -> k_fds s' = k_fds s5 ->
    k_oft s' = k_oft s5 -> k_low s' = k_low s5 -> born s k pid s') as Hborn.
  { intros k s' HP' E1 E2 E3 E4 E5. split; [done|..].
    - exists c, a, o, n. split_and!; try done; [by rewrite E2|].
      intros va Hva. rewrite <- Hn by done. apply view_ext. intros pa. rewrite E2. simpl.
      rewrite (cur_write_same s4) by apply HP3. apply S10.
    - exists d, ofs, ofs'. split_and!; try done; [rewrite E3; simpl; by rewrite S3|]. rewrite <- Hofs. simpl. by rewrite S4.
    - rewrite E5. simpl. by rewrite S12, lookup_partial_alter_eq.
    - exists acts, A, (<[pid := PidSys.Running]> acts), A'. split_and!; try done; apply HP'. }
  eapply (fork_start_core x _ A' s5 (p_name c) pid); [done|rewrite Eps; apply lookup_insert_eq|
    simpl; by rewrite S8|done|rewrite Esp; by rewrite lookup_insert_eq| |simpl; by rewrite lookup_insert_eq| |].
  - intros p qr. rewrite Eps. intros [[_ <-]|[_ Hq]]%lookup_insert_Some; [by apply not_eq_sym|by apply (copied_unused p)].
  - intros al' s6 HP6. split; [apply kinv_parts; eauto|].
    split; [eapply kept_trans; [|apply kept_allocs]; by apply kept_put|]. split; [done|]. right.
    split; [|done]. exists pid. eapply Hborn; try done. simpl. by rewrite S1, insert_insert_eq.
  - intros al' s6 s7 HP7. split; [apply kinv_parts; eauto|]. split; [apply kept_threaded; [by apply kept_put|done..]|].
    split; [|done|simpl; by rewrite S5|simpl; by rewrite S6]. eapply Hborn; try done. simpl. by rewrite S1, !insert_insert_eq.
Qed.
End Middle.

Lemma sys_fork_core x s tf : kinv x s -> running s tf -> pid_free s -> nth 3 (k_allocs s) true = true ->
  wp (sys_fork tf) (fork_post x tf s) s.
Proof.
  intros [acts [A HP]]%kinv_parts Hrun Hfree Hmem. pose proof HP as [Hfs Hvm Hsim Hp].
  destruct (running_proc _ _ _ Hp Hrun) as (c & (U1 & U2 & _ & U4) & _).
  pose proof (po_proc _ _ Hp _ _ U1) as Hcp. destruct (po_as _ _ Hp _ _ U1 U4) as [o Ho].
  unfold sys_fork. rewrite wp_bind. apply wp_kmalloc_k. set (s1 := set_allocs _ s).
  assert (parts x acts A s1) as HP1 by by apply parts_allocs.
  destruct (hd true (k_allocs s)).
  2:{ apply wp_ret. split; [apply kinv_parts; eauto|]. split; [apply kept_allocs|]. split; [done|].
      left. exists (k_vm s), (tail (k_allocs s)). split; [by destruct s|by left]. }
  simpl. unfold cur_proc. rewrite !wp_bind, wp_get.
  apply (wp_get_proc s1 _ c); [done|change (curproc s1) with (curproc s); lia|]. rewrite wp_bind.
  apply (wp_as_copy s1 _ o); [done|done|intros v Hv Hsv Hpv|intros v a n Hv Hsv Ha Ha0 Hvn Hvo].
  { apply wp_ret. split; [|split; [|split; [done|left; exists v, (tail (k_allocs s)); split; [done|by left]]]].
    - apply kinv_parts. exists acts, A. apply parts_vm; [done|done|by rewrite Hsv].
    - split; try done. intros b y Hy. simpl. rewrite Hsv. split; [done|]. by rewrite Hpv. }
  apply (fork_proc_core HP Hrun Hfree U1 Ho Hv Hsv Ha Ha0 Hvn Hvo). by destruct (k_allocs s).
Qed.
End Fork.
End ProcFork.
