(* ===== verification/ProcExit.v ===== *)
(** * Exit

    What sys__exit does to the kernel: the process goes, its parent can
    collect its status, and everything else stays. *)

From S2P Require Import Prelude Kern Bswap Interfaces Copyinout Uio Vfs VfsSpec VfsProc.
From S2P Require Import Openfile OpenfileSpec FileOps FileTables FileProps.
From S2P Require Import Pid PidSpec PidSys Vm VmSpec VmProps UserSpace Proc ProcSpec ProcOps ProcFork.
Open Scope Z_scope.
Import VfsSpec UserSpace Proc ProcSpec ProcOps ProcFork.
#[local] Existing Instances VfsSpec.VfsOps_vfs VfsSpec.UserMem_vfs.

Module ProcExit.

Section Exit.
Context {G : Type} `{BackendSpec G}.
Abbreviation K := (kstate G).
Implicit Types (s : K) (l : vstate G) (m : gmap Z (list Z)).

(** ** The files of the process *)

(** A table without an open descriptor can go. *)
Lemma tables_drop lk ofs m p : OpenfileSpec.tables_ok lk ofs (<[p := FileTables.fresh]> m) ->
  OpenfileSpec.tables_ok lk ofs (delete p m).
Proof.
  intros [T1 T2 T3 T4 T5 T6]. split; [done| | | |done|done].
  - intros q d [Hne Hq]%lookup_delete_Some. apply (T2 q d). by rewrite lookup_insert_ne.
  - intros q d k e [Hne Hq]%lookup_delete_Some. apply (T3 q d k e). by rewrite lookup_insert_ne.
  - intros i f Hf. destruct (T4 i f Hf) as [Hr Hb]. split; [|done]. rewrite Hr. f_equal.
    rewrite (OpenfileSpec.refs_to_delete _ p FileTables.fresh) by apply lookup_insert_eq.
    rewrite delete_insert_eq, FileTables.cnt_fresh; [lia|].
    apply OpenfileSpec.slot_lookup in Hf as [? _]. unfold Openfile.FILE_CLOSED. lia.
Qed.

Lemma fs_drop x l o m p : fs_ok x l o (<[p := FileTables.fresh]> m) -> fs_ok x l o (delete p m).
Proof.
  intros [F1 F2 (ofs & -> & F3 & F4) F5]. split; try done. exists ofs. split; [done|].
  split; [by apply tables_drop|done].
Qed.

(** ** The processes that remain *)

(** The state in which process [p] of thread [t] is gone. *)
Definition without s (p : Z) l o (P : pstate) (v : vmstate) (ts : gmap Z tstate) : K :=
  KState l o (delete p (k_fds s)) P v
    (delete p (k_procs s)) (delete (k_cur s) (t_proc s)) (delete (k_cur s) ts) 0 (kproc s) (k_allocs s) (k_next s).

Lemma procs_without acts acts' s c l o P v ts tf : procs_ok acts s -> running s tf ->
  k_procs s !! curproc s = Some c -> acts_rel (k_cur s) acts' ts -> woke (k_cur s) (t_state s) ts ->
  dom acts' = dom acts ∖ {[k_cur s]} -> p_cwd l = delete (curproc s) (p_cwd (k_low s)) ->
  spaces v = delete (p_addrspace c) (spaces (k_vm s)) -> procs_ok acts' (without s (curproc s) l o P v ts).
Proof.
  intros Hp Hrun Hc Hr Hw Hd Hcwd Hsp.
  destruct (running_proc _ _ _ Hp Hrun) as (c' & (U1 & U2 & _ & U4) & Hpid & _ & Ht & _).
  rewrite Hc in U1. injection U1 as <-. destruct Hr as [R1 R2 R3].
  assert (forall p pr, k_procs s !! p = Some pr -> p <> kproc s -> p <> curproc s -> p_pid pr <> k_cur s) as Hne.
  { intros p pr Hpr Hk Hn E. apply Hn, (po_pid_inj _ _ Hp p _ pr c); congruence. }
  destruct Hp as [P1 P2 P3 P4 P5 P6 P7 P8 P9 P10 P11 P12]. split; simpl; try done.
  - intros t q [Htc Hq]%lookup_delete_Some Hb. destruct (P1 t q Hq Hb) as (pr & (V1 & V2 & V3 & V4) & E & ?).
    assert (q <> curproc s) by congruence. exists pr. split; [|done].
    split_and!; simpl; try done; by rewrite lookup_delete_ne.
  - intros t. rewrite !lookup_delete_is_Some, (woke_dom _ _ _ t Hw). by rewrite P2.
  - intros t st [Htc Hst]%lookup_delete_Some. by apply R1.
  - intros t b Hb. assert (t <> k_cur s) by congruence. rewrite lookup_delete_ne by done. by apply (R2 t).
  - intros p pr [_ Hpr]%lookup_delete_Some. by apply (P5 p pr).
  - intros p pr [Hn Hpr]%lookup_delete_Some Hk. destruct (P6 p pr Hpr Hk) as [? Ha]. split; [done|].
    apply elem_of_dom. rewrite Hd. apply elem_of_dom in Ha. pose proof (Hne p pr Hpr Hk ltac:(done)). set_solver.
  - intros p q pr qr [_ Hpr]%lookup_delete_Some [_ Hqr]%lookup_delete_Some. by apply (P7 p q pr qr).
  - intros p pr [Hn Hpr]%lookup_delete_Some Ha. rewrite Hsp, lookup_delete_ne; [by apply (P8 p)|].
    intros E. apply Hn. by apply (P9 (curproc s) p c pr).
  - intros p q pr qr [_ Hpr]%lookup_delete_Some [_ Hqr]%lookup_delete_Some. by apply (P9 p q pr qr).
  - intros p [Hn Hm]%lookup_delete_is_Some. destruct (P10 p Hm). by rewrite lookup_delete_ne.
  - intros p. rewrite Hcwd. intros [Hn Hm]%lookup_delete_is_Some. rewrite lookup_delete_ne by done. by apply P11.
Qed.

Lemma vm_without v v' a : vm_ok v -> spaces v' = delete a (spaces v) -> firstpaddr v' = firstpaddr v ->
  lastpaddr v' = lastpaddr v -> vm_next v' = vm_next v -> vm_ok v'.
Proof.
  intros [V1 V2 V3 V4] Es Ef El En. split; rewrite ?Es, ?Ef, ?En; [|done|..].
  - unfold VmSpec.ram_ok in *. by rewrite Ef, El.
  - intros b y [_ Hy]%lookup_delete_Some. by apply V3.
  - intros b c y z Hn [_ Hy]%lookup_delete_Some [_ Hz]%lookup_delete_Some. by apply (V4 b c).
Qed.

(** ** The end of a process *)

(** Without a current process there is no user memory. *)
Lemma no_memory s um : t_proc s !! k_cur s = None -> k_procs s !! 0 = None -> spaces (k_vm s) !! 0 = None ->
  curproc s = 0 /\ cur_write s um = pmem (k_vm s).
Proof.
  intros Ht Hp Hs. assert (curproc s = 0) as E by (unfold curproc; by rewrite Ht).
  split; [done|]. unfold cur_write, curas. rewrite E, Hp. by rewrite Hs.
Qed.

Lemma wp_proc_remthread s c (Q : unit -> K -> Prop) : t_proc s !! k_cur s = Some (curproc s) ->
  k_procs s !! curproc s = Some c -> curproc s <> 0 -> p_numthreads c = 1 ->
  Q tt (set_threads (delete (k_cur s) (t_proc s)) (t_state s)
    (set_procs (<[curproc s := Proc (p_name c) 0 (p_addrspace c) (p_pid c)]> (k_procs s)) s)) ->
  wp (proc_remthread (k_cur s)) Q s.
Proof.
  intros Ht Hc H0' Hn HQ. unfold proc_remthread. rewrite wp_bind, wp_get, Ht. simpl.
  rewrite wp_bind, wp_kassert. split; [by destruct (Z.eqb_spec (curproc s) 0)|].
  rewrite wp_bind. eapply wp_get_proc; [done|done|]. rewrite Hn. rewrite wp_bind, wp_kassert. split; [done|].
  rewrite wp_bind. apply wp_put_proc. apply wp_modify. apply HQ.
Qed.

Lemma wp_as_destroy s a y (Q : unit -> K -> Prop) : spaces (k_vm s) !! a = Some y -> a <> 0 ->
  Q tt (set_vm (Vm.set_spaces (delete a (spaces (k_vm s))) (vm_view s)) s) -> wp (in_vm (Vm.as_destroy a)) Q s.
Proof.
  intros Hy Ha HQ. unfold wp, in_vm, Vm.as_destroy, Vm.get_as. destruct (Z.eqb_spec a 0); [done|].
  unfold mbind, M_bind, get, deref, modify. simpl. by rewrite Hy.
Qed.

(** Freeing the structure of a process whose thread is gone. *)
Lemma wp_proc_destroy `{!VfsProc.ReclaimCwd G} s p c y (Q : unit -> K -> Prop) :
  vinv (k_low s) -> biglock (k_low s) = None ->
  t_proc s !! k_cur s = None -> k_procs s !! 0 = None -> spaces (k_vm s) !! 0 = None ->
  k_procs s !! p = Some c -> p <> 0 -> p <> kproc s -> p_numthreads c = 0 -> p_addrspace c <> 0 ->
  spaces (k_vm s) !! p_addrspace c = Some y ->
  (forall l v, vinv l -> biglock l = None -> (forall u, ext_refs l u = ext_refs (k_low s) u) ->
     p_cwd l = delete p (p_cwd (k_low s)) ->
     spaces v = delete (p_addrspace c) (spaces (k_vm s)) -> pmem v = pmem (k_vm s) ->
     firstpaddr v = firstpaddr (k_vm s) -> lastpaddr v = lastpaddr (k_vm s) -> vm_next v = vm_next (k_vm s) ->
     Q tt (KState l (k_oft s) (delete p (k_fds s)) (k_pids s) v (delete p (k_procs s)) (t_proc s) (t_state s)
       (k_cur s) (kproc s) (k_allocs s) (k_next s))) ->
  wp (proc_destroy p) Q s.
Proof.
  intros Hv Hlk Ht Hp0 Hs0 Hc Hp Hk Hn Ha Hy HQ. unfold proc_destroy.
  rewrite wp_bind, wp_kassert. split; [by destruct (Z.eqb_spec p 0)|]. rewrite wp_bind, wp_get.
  rewrite wp_bind, wp_kassert. split; [by destruct (Z.eqb_spec p (kproc s))|]. rewrite wp_bind. apply wp_in_low.
  eapply wp_mono; [apply VfsProc.proc_drop_cwd_ok; by apply vinv_env|].
  intros [] l (Hv' & Hr' & Hcwd & Hlk'). set (s1 := after_fs s l _ _).
  destruct (no_memory s (v_mem l) Ht Hp0 Hs0) as [Ecp Ecw].
  rewrite wp_bind. apply (wp_get_proc s1 p c); [done|done|]. rewrite wp_bind.
  destruct (Z.eqb_spec (p_addrspace c) 0); [done|]. rewrite wp_bind, wp_get.
  change (curproc s1) with (curproc s). rewrite Ecp. destruct (Z.eqb_spec p 0); [done|].
  rewrite wp_bind. apply wp_put_proc. set (s2 := set_procs _ s1).
  apply (wp_as_destroy s2 _ y); [done|done|]. set (s3 := set_vm _ s2).
  rewrite wp_bind. eapply (wp_get_proc s3); [apply lookup_insert_eq|done|].
  rewrite wp_bind, wp_kassert. split; [simpl; by rewrite Hn|]. rewrite wp_modify.
  assert (Q tt (KState l (k_oft s) (delete p (k_fds s)) (k_pids s)
    (Vm.set_spaces (delete (p_addrspace c) (spaces (k_vm s))) (vm_view s2)) (delete p (k_procs s)) (t_proc s) (t_state s)
    (k_cur s) (kproc s) (k_allocs s) (k_next s))) as Hq.
  { apply HQ; try done. exact (eq_trans Hlk' Hlk). }
  rewrite <- (delete_insert_eq (k_procs s) p (Proc (p_name c) (p_numthreads c) 0 (p_pid c))) in Hq. exact Hq.
Qed.

(** ** sys__exit *)

(** What exit promises: only the process and its thread go. *)
Record exited s (st : Z) s' : Prop := Exited {
  ex_pids : pids_step s (PidSys.Exited (k_cur s) st) s';
  ex_procs : k_procs s' = delete (curproc s) (k_procs s) /\ k_fds s' = delete (curproc s) (k_fds s) /\
    p_cwd (k_low s') = delete (curproc s) (p_cwd (k_low s));
  ex_threads : t_proc s' = delete (k_cur s) (t_proc s) /\ k_cur s' = 0 /\
    exists ts, woke (k_cur s) (t_state s) ts /\ t_state s' = delete (k_cur s) ts;
  ex_files : exists d ofs ofs', k_fds s !! curproc s = Some d /\ k_oft s = table ofs /\ k_oft s' = table ofs' /\
    forall i, 0 <= i -> OpenfileSpec.slot ofs' i = FileTables.drop_refs (cnt i d) (OpenfileSpec.slot ofs i);
  ex_space : spaces (k_vm s') = delete (curas s) (spaces (k_vm s)) /\
    forall a y va, a <> curas s -> spaces (k_vm s) !! a = Some y ->
      VmSpec.view (pmem (k_vm s')) y va = VmSpec.view (pmem (k_vm s)) y va
}.


(** The rest of pid_exit once the parent knows: files, thread, process. *)
Definition exit_rest (beyond : Z -> Z) : M K unit :=
  s ← get;
  let p := curproc s in
  in_fs (Openfile.file_table_destroy beyond) ;;
  proc_remthread (k_cur s) ;;
  proc_destroy p ;;
  thread_exit.

Section Current.
Context {x : Z -> Z} {s : K} {tf : trapframe} {acts : gmap Z PidSys.act} {A : PidSys.astate} {c : proc}.
Hypothesis HP : parts x acts A s.
Hypothesis Hrun : running s tf.
Hypothesis Hc : k_procs s !! curproc s = Some c.

Lemma exit_rest_core `{!VfsProc.ReclaimCwd G} beyond P' ts (Q : unit -> K -> Prop) :
  (forall l d ofs ofs' v pm, fs_ok x l (table ofs') (delete (curproc s) (k_fds s)) ->
     p_cwd l = delete (curproc s) (p_cwd (k_low s)) ->
     k_fds s !! curproc s = Some d -> k_oft s = table ofs -> (forall i, 0 <= i ->
       OpenfileSpec.slot ofs' i = FileTables.drop_refs (cnt i d) (OpenfileSpec.slot ofs i)) ->
     vm_ok v -> spaces v = delete (p_addrspace c) (spaces (k_vm s)) -> pmem v = cur_write s pm ->
     Q tt (without s (curproc s) l (table ofs') P' v ts)) ->
  wp (exit_rest beyond) Q (set_threads (t_proc s) ts (set_pids P' s)).
Proof.
  intros HQ. set (s1 := set_threads _ _ _). pose proof HP as [Hfs Hvm Hsim Hp].
  destruct (running_proc _ _ _ Hp Hrun) as (c' & (U1 & U2 & [d U3] & U4) & Hpid & Hn & Ht & Hact).
  rewrite Hc in U1. injection U1 as <-.
  pose proof (po_proc _ _ Hp _ _ Hc) as Hcp. destruct (po_as _ _ Hp _ _ Hc U4) as [o Ho].
  assert (k_procs s !! 0 = None) as Hp0.
  { destruct (k_procs s !! 0) eqn:E; [|done]. apply (po_proc _ _ Hp) in E. lia. }
  assert (spaces (k_vm s) !! 0 = None) as Hs0.
  { destruct (spaces (k_vm s) !! 0) eqn:E; [|done]. apply (vm_space _ Hvm) in E. lia. }
  unfold exit_rest. rewrite wp_bind, wp_get, wp_bind. destruct (fs_tables _ _ _ _ Hfs) as (ofs & Hofs & _).
  eapply (wp_in_fs x s1 ofs); [done|done|apply FileTables.file_table_destroy_core; [by apply fs_good|done]|].
  intros [] l1 ofs1 m1 Hfs1 Hfr (-> & Hslot). set (s2 := after_fs s1 _ _ _). rewrite wp_bind.
  apply (wp_proc_remthread s2 c); [done|done|change (curproc s2) with (curproc s); lia|done|].
  set (s3 := set_threads _ _ _). rewrite wp_bind.
  assert (k_procs s3 !! 0 = None) as Hp3.
  { apply lookup_insert_None. split; [done|]. change (curproc s2) with (curproc s). lia. }
  eapply (wp_proc_destroy s3 _ (Proc (p_name c) 0 (p_addrspace c) (p_pid c)) o); [apply Hfs1|apply Hfs1|apply lookup_delete_eq
    |done|done|apply lookup_insert_eq|
    change (curproc s1) with (curproc s); lia|done|done|done|done|].
  intros l v Hv Hlk Hr Hcwd Hsp Hpm Hf Hl Hnx. set (s4 := KState _ _ _ _ _ _ _ _ _ _ _ _).
  unfold thread_exit. rewrite wp_bind, wp_get, wp_bind, wp_kassert.
  split; [apply bool_decide_eq_true_2, lookup_delete_eq|]. rewrite wp_modify.
  assert (Q tt (without s (curproc s) l (table ofs1) P' v ts)) as Hq.
  { apply (HQ l d ofs ofs1 v (v_mem l1)); try done.
    - destruct (fs_drop _ _ _ _ _ Hfs1) as [F1 F2 (ofs2 & E & F3 & F4) F5]. split; try done.
      exists ofs2. split; [done|]. split; [done|]. intros u. rewrite Hr. apply F4.
    - rewrite Hcwd. destruct Hfr as (_ & _ & _ & _ & E). simpl. by rewrite E.
    - by eapply vm_without. }
  unfold without in Hq. rewrite <- (delete_insert_eq (k_fds s) (curproc s) FileTables.fresh) in Hq.
  rewrite <- (delete_insert_eq (k_procs s) (curproc s) (Proc (p_name c) 0 (p_addrspace c) (p_pid c))) in Hq.
  exact Hq.
Qed.
End Current.

Lemma sys__exit_core `{!VfsProc.ReclaimCwd G} x s tf beyond st : kinv x s -> running s tf ->
  wp (sys__exit beyond st) (fun _ s' => kinv x s' /\ exited s st s') s.
Proof.
  intros [acts [A HP]]%kinv_parts Hrun. pose proof HP as [Hfs Hvm Hsim Hp].
  destruct (running_proc _ _ _ Hp Hrun) as (c & (U1 & U2 & _ & U4) & Hpid & _ & _ & Hact).
  pose proof (po_proc _ _ Hp _ _ U1) as Hcp.
  assert (curas s = p_addrspace c) as Ea by (unfold curas; by rewrite U1).
  unfold sys__exit, cur_proc. rewrite !wp_bind, wp_get. apply (wp_get_proc s _ c); [done|lia|].
  unfold pid_exit. rewrite Hpid, wp_bind.
  pose proof (wp_pid_exit s acts A st) as Hx. setoid_rewrite wp_bind in Hx.
  eapply wp_mono; [eapply (Hx (fun _ s1 => exists P' acts' A' ts',
    s1 = set_threads (t_proc s) ts' (set_pids P' s) /\ PidSys.sim (PidSys.World P' acts') A' /\
    PidSys.astep A (PidSys.Exited (k_cur s) st) A' /\ acts_rel (k_cur s) acts' ts' /\
    woke (k_cur s) (t_state s) ts' /\ dom acts' = dom acts ∖ {[k_cur s]})); [done|done|done|apply Hrun|by eauto 12]|].
  intros ws sw Hw. rewrite wp_bind. eapply wp_mono; [exact Hw|]. clear Hx ws sw Hw.
  intros [] s1 (P' & acts' & A' & ts & -> & Hsim' & Hstep & Hrel & Hwoke & Hdom).
  eapply (exit_rest_core HP Hrun U1).
  intros l d ofs ofs' v pm Hfs' Hcwd Hd Ho Hslot Hv Hsp Hpm.
  pose proof (procs_without acts acts' s c l (table ofs') P' v ts tf Hp Hrun U1 Hrel Hwoke Hdom Hcwd Hsp) as Hp'.
  split; [split; [done|done|by exists acts', A']|]. split.
  - by exists acts, A, acts', A'.
  - done.
  - split_and!; try done. by exists ts.
  - by exists d, ofs, ofs'.
  - rewrite Ea. split; [done|]. intros a y va Ha Hy. simpl. rewrite Hpm. rewrite <- Ea in Ha.
    unfold cur_write. destruct (spaces (k_vm s) !! curas s) as [z|] eqn:Hz; [|done].
    apply write_back_other. by apply (vm_apart _ Hvm (curas s) a).
Qed.
End Exit.
End ProcExit.
