(* ===== verification/SyscallSpec.v ===== *)
(** * System calls keep the kernel's invariant

    What each system call leaves alone, and that none of them goes wrong. *)

From S2P Require Import Prelude Kern Bswap Interfaces Copyinout Uio Vfs VfsSpec VfsProc.
From S2P Require Import Openfile OpenfileSpec FileOps FileTables FileProps.
From S2P Require Import Pid PidSpec PidSys Vm VmSpec VmProps UserSpace Proc Exec Syscall.
From S2P Require Import ProcSpec ProcOps ProcFork ProcExit.
Open Scope Z_scope.
Import VfsSpec UserSpace Proc ProcSpec ProcOps ProcFork ProcExit Syscall.
#[local] Existing Instances VfsSpec.VfsOps_vfs VfsSpec.UserMem_vfs.

Module SyscallSpec.

(** One table of descriptors may have changed. *)
Definition only_at (p : Z) (m m' : gmap Z (list Z)) : Prop := m' = m \/ exists d, m' = <[p := d]> m.

Section Spec.
Context {G : Type} `{BackendSpec G}.
Abbreviation K := (kstate G).
Implicit Types (s : K) (l : vstate G) (m : gmap Z (list Z)).

(** What a call on files and memory of the current process leaves alone:
    processes, threads, ids, the memory, descriptors and directories of
    others. *)
Record called s s' : Prop := Called {
  cl_threads : t_proc s' = t_proc s /\ t_state s' = t_state s /\ k_cur s' = k_cur s /\ kproc s' = kproc s;
  cl_procs : k_procs s' = k_procs s /\ k_pids s' = k_pids s;
  cl_cwd : p_cwd (k_low s') = p_cwd (k_low s);
  cl_spaces : spaces (k_vm s') = spaces (k_vm s);
  cl_fds : only_at (curproc s) (k_fds s) (k_fds s');
  cl_view : forall a y va, a <> curas s -> spaces (k_vm s) !! a = Some y ->
    VmSpec.view (pmem (k_vm s')) y va = VmSpec.view (pmem (k_vm s)) y va
}.

Lemma called_refl s : called s s.
Proof. split; try done. by left. Qed.

Lemma called_cur s s' : called s s' -> curproc s' = curproc s /\ curas s' = curas s.
Proof.
  intros [(T1 & T2 & T3 & T4) (P1 & P2) _ _ _ _].
  assert (curproc s' = curproc s) as E by (unfold curproc; by rewrite T1, T3).
  split; [done|]. unfold curas. by rewrite E, P1.
Qed.

Lemma only_at_trans p m1 m2 m3 : only_at p m1 m2 -> only_at p m2 m3 -> only_at p m1 m3.
Proof.
  intros [->|[d ->]] [->|[d' ->]]; [by left|right; eauto|right; eauto|right; exists d']. by rewrite insert_insert_eq.
Qed.

Lemma called_trans s1 s2 s3 : called s1 s2 -> called s2 s3 -> called s1 s3.
Proof.
  intros C1 C2. destruct (called_cur _ _ C1) as [E1 E2].
  destruct C1 as [(A1 & A2 & A3 & A4) (A5 & A6) A7 A8 A9 A10], C2 as [(B1 & B2 & B3 & B4) (B5 & B6) B7 B8 B9 B10].
  split; [split_and!; congruence|split; congruence|congruence|congruence| |].
  - rewrite E1 in B9. by eapply only_at_trans.
  - intros a y va Ha Hy. rewrite (B10 a), (A10 a); [done|done|done|congruence|congruence].
Qed.

Lemma called_running s s' tf : called s s' -> running s tf -> running s' tf.
Proof. intros [(_ & T2 & T3 & _) _ _ _ _ _] [R1 R2]. split; congruence. Qed.

(** ** Isolation

    What the kernel does for one process does not touch the others: the
    address spaces they have and what these show, their descriptors, their
    current directories, and their registers. *)
Record isolated s s' : Prop := Isolated {
  iso_mem : forall a y, a <> curas s -> spaces (k_vm s) !! a = Some y -> spaces (k_vm s') !! a = Some y /\
    forall va, VmSpec.view (pmem (k_vm s')) y va = VmSpec.view (pmem (k_vm s)) y va;
  iso_fds : forall p d, p <> curproc s -> k_fds s !! p = Some d -> k_fds s' !! p = Some d;
  iso_cwd : forall p, p <> curproc s -> is_Some (k_procs s !! p) -> p_cwd (k_low s') !! p = p_cwd (k_low s) !! p;
  iso_regs : forall t st, t <> k_cur s -> t_state s !! t = Some st -> t_state s' !! t = Some st \/
    exists tf pid status pp cv, st = TSleep tf pid status pp cv /\ t_state s' !! t = Some (TWoken tf pid status pp cv)
}.

Lemma isolated_refl s : isolated s s.
Proof. split; auto. Qed.

Lemma isolated_called s s' : called s s' -> isolated s s'.
Proof.
  intros [(T1 & T2 & T3 & T4) (P1 & P2) C S F V]. split.
  - intros a y Ha Hy. rewrite S. split; [done|]. intros va. by apply (V a).
  - intros p d Hp Hd. destruct F as [->|[e ->]]; [done|]. by rewrite lookup_insert_ne.
  - intros p _ _. by rewrite C.
  - intros t st _ Hst. left. by rewrite T2.
Qed.

Lemma isolated_kept s s' : kept s s' -> isolated s s'.
Proof.
  intros [K1 K2 K3 K4 K5 K6 K7]. split; auto.
Qed.

Lemma isolated_exited s st s' : exited s st s' -> isolated s s'.
Proof.
  intros [_ (E1 & E2 & E3) (T1 & T2 & ts & Hw & T3) _ (S1 & S2)]. split.
  - intros a y Ha Hy. rewrite S1, lookup_delete_ne by done. split; [done|]. intros va. by apply (S2 a).
  - intros p d Hp Hd. by rewrite E2, lookup_delete_ne.
  - intros p Hp _. by rewrite E3, lookup_delete_ne.
  - intros t st' Ht Hst. rewrite T3, lookup_delete_ne by done. destruct Hw as [_ Hw].
    destruct (Hw t) as [->|(tf & pid & x & pp & cv & E & E')]; [by left|right].
    rewrite Hst in E. injection E as ->. eauto 10.
Qed.

(** The state of the current thread may change on top. *)
Lemma isolated_state s s' st : isolated s s' ->
  isolated s (set_threads (t_proc s') (<[k_cur s := st]> (t_state s')) s').
Proof.
  intros [I1 I2 I3 I4]. split; try done. intros t st' Ht Hst. simpl. rewrite lookup_insert_ne by done. by apply I4.
Qed.

(** The process id table does not matter. *)
Lemma isolated_pids s P s' : isolated (set_pids P s) s' -> isolated s s'.
Proof. intros [I1 I2 I3 I4]. by split. Qed.

(** ** Calls into the open-file layer *)

Lemma only_at_dom p m m' q : only_at p m m' -> is_Some (m !! p) -> is_Some (m' !! q) <-> is_Some (m !! q).
Proof.
  intros [->|[d ->]] Hp; [done|]. rewrite lookup_insert_is_Some'. split; [|by right]. by intros [<-|].
Qed.

Lemma wp_fs_call {R} x s tf (c : M (Openfile.fstate (vstate G)) R) (P : R -> Prop) :
  kinv x s -> running s tf ->
  (forall ofs d, k_oft s = table ofs -> k_fds s !! curproc s = Some d ->
     Z.of_nat (size (k_fds s)) < PID_MAX ->
     OpenfileSpec.good (H2 := Frame s) x FileProps.no_leak (low_view s) ofs (k_fds s) ->
     OpenfileSpec.spec (H2 := Frame s) x FileProps.no_leak (low_view s) (k_cur s) (curproc s) None ofs (k_fds s) c
       (fun r _ _ m' => P r /\ only_at (curproc s) (k_fds s) m')) ->
  wp (in_fs c) (fun r s' => P r /\ kinv x s' /\ called s s') s.
Proof.
  intros Hk Hrun Hc. pose proof Hk as [Hfs Hvm (acts & A & Hsim & Hp)].
  destruct (running_proc _ _ _ Hp Hrun) as (pr & (U1 & U2 & [d U3] & U4) & _).
  destruct (fs_tables _ _ _ _ Hfs) as (ofs & Ho & _).
  eapply wp_in_fs; [done|done|apply (Hc ofs d Ho U3); [by eapply few_tables|by apply fs_good]|].
  intros r l' ofs' m' Hfs' Hfr (HP & Hm). split; [done|]. split.
  - apply kinv_after_fs; [done|done|apply Hfr|]. intros q. apply (only_at_dom (curproc s)); [done|by eexists].
  - split; try done; [apply Hfr|]. intros a y va. by apply view_after_fs.
Qed.

Lemma spec_only {R} x s ofs p (c : M (Openfile.fstate (vstate G)) R)
    (P : R -> vstate G -> list (option Openfile.open_file) -> gmap Z (list Z) -> Prop) m :
  OpenfileSpec.spec (H2 := Frame s) x FileProps.no_leak (low_view s) (k_cur s) p None ofs m c P ->
  (forall r l' ofs' m', P r l' ofs' m' -> only_at p m m') ->
  OpenfileSpec.spec (H2 := Frame s) x FileProps.no_leak (low_view s) (k_cur s) p None ofs m c
    (fun r _ _ m' => True /\ only_at p m m').
Proof. intros Hs HP. eapply OpenfileSpec.spec_mono; [exact Hs|]. intros. split; [done|]. by eapply HP. Qed.

Ltac only_cases := intros ? ? ? ? Hpost; inversion Hpost; subst; first [by left|right; by eexists].

Section Calls.
Context {x : Z -> Z} {s : K} {tf : trapframe}.
Hypothesis Hk : kinv x s.
Hypothesis Hrun : running s tf.

Lemma wp_sys_close fd : wp (in_fs (Openfile.sys_close fd)) (fun _ s' => True /\ kinv x s' /\ called s s') s.
Proof.
  apply (wp_fs_call x s tf); [done|done|]. intros ofs d Ho Hd Hsz Hg.
  eapply spec_only; [apply FileOps.file_close_core; [by left|done|done]|]. only_cases.
Qed.

Lemma wp_sys_dup2 o n : wp (in_fs (Openfile.sys_dup2 o n)) (fun _ s' => True /\ kinv x s' /\ called s s') s.
Proof.
  apply (wp_fs_call x s tf); [done|done|]. intros ofs d Ho Hd Hsz Hg.
  eapply spec_only; [apply FileOps.sys_dup2_core; [done|done|]|only_cases].
  intros i f. apply (FileProps.rc_bound ofs (k_fds s)); [apply Hg|lia].
Qed.

Lemma wp_sys_lseek fd pos wh : is_s64 pos ->
  wp (in_fs (Openfile.sys_lseek fd pos wh)) (fun _ s' => True /\ kinv x s' /\ called s s') s.
Proof.
  intros Hpos. apply (wp_fs_call x s tf); [done|done|]. intros ofs d Ho Hd Hsz Hg.
  eapply spec_only; [by apply FileOps.sys_lseek_core|only_cases].
Qed.

Lemma wp_sys_read fd buf len :
  wp (in_fs (Openfile.sys_read fd buf len)) (fun _ s' => True /\ kinv x s' /\ called s s') s.
Proof.
  apply (wp_fs_call x s tf); [done|done|]. intros ofs d Ho Hd Hsz Hg. unfold Openfile.sys_read.
  destruct (Z.ltb_spec fd 0); simpl; [apply OpenfileSpec.spec_ret; [done|split; [done|by left]]|].
  destruct (Z.geb_spec fd OPEN_MAX); simpl; [apply OpenfileSpec.spec_ret; [done|split; [done|by left]]|].
  eapply spec_only; [apply FileOps.file_read_core; [done|done|lia]|only_cases].
Qed.

Lemma wp_sys_write fd buf len :
  wp (in_fs (Openfile.sys_write fd buf len)) (fun _ s' => True /\ kinv x s' /\ called s s') s.
Proof.
  apply (wp_fs_call x s tf); [done|done|]. intros ofs d Ho Hd Hsz Hg. unfold Openfile.sys_write.
  destruct (Z.ltb_spec fd 0); simpl; [apply OpenfileSpec.spec_ret; [done|split; [done|by left]]|].
  destruct (Z.geb_spec fd OPEN_MAX); simpl; [apply OpenfileSpec.spec_ret; [done|split; [done|by left]]|].
  eapply spec_only; [apply FileOps.file_write_core; [done|done|lia]|only_cases].
Qed.

Lemma wp_sys_open fn flags mode :
  wp (in_fs (Openfile.sys_open fn flags mode)) (fun _ s' => True /\ kinv x s' /\ called s s') s.
Proof.
  apply (wp_fs_call x s tf); [done|done|]. intros ofs d Ho Hd Hsz Hg.
  unfold OpenfileSpec.spec, Openfile.sys_open. rewrite wp_bind.
  pose proof (copyinstr_spec (low_view s) fn PATH_MAX (OpenfileSpec.good_low _ _ _ _ _ Hg)) as Hc.
  apply wp_ok in Hc as (r & l1 & Hc & Hl1 & Hr1). eapply OpenfileSpec.wp_lift_eq; [done|].
  pose proof (OpenfileSpec.good_same Hg l1 Hl1 Hr1) as Hg1. destruct r as [fn'|e].
  - eapply OpenfileSpec.spec_mono; [by apply FileOps.file_open_core|]. intros r l' ofs' m' _ Hpost.
    split; [done|]. inversion Hpost; subst; first [by left|right; by eexists].
  - apply OpenfileSpec.spec_ret; [done|]. split; [done|by left].
Qed.

(** ** Calls on user memory *)

Lemma wp_low_call {R} (c : M (vstate G) R) :
  (low_inv (LowSpec := Frame s) (low_view s) -> wp c (fun _ l' => low_inv (LowSpec := Frame s) l' /\
     forall w, vrefs (LowSpec := Frame s) l' w = vrefs (LowSpec := Frame s) (low_view s) w) (low_view s)) ->
  wp (in_low c) (fun _ s' => True /\ kinv x s' /\ called s s') s.
Proof.
  intros Hc. apply (wp_fs_call x s tf); [done|done|]. intros ofs d Ho Hd Hsz Hg.
  specialize (Hc (OpenfileSpec.good_low _ _ _ _ _ Hg)). apply wp_ok in Hc as (r & l1 & Hc & Hl1 & Hr1).
  unfold OpenfileSpec.spec, wp, Openfile.lift. simpl. rewrite Hc.
  exists l1, ofs, (k_fds s). split; [done|]. split; [by apply (OpenfileSpec.good_same Hg)|]. split; [done|by left].
Qed.

Lemma wp_copyout bs a : wp (in_low (copyout bs a)) (fun _ s' => True /\ kinv x s' /\ called s s') s.
Proof. apply wp_low_call. intros Hl. by apply (copyout_spec (LowSpec := Frame s)). Qed.

Lemma wp_copyin a n : wp (in_low (copyin a n)) (fun _ s' => True /\ kinv x s' /\ called s s') s.
Proof. apply wp_low_call. intros Hl. by apply (copyin_spec (LowSpec := Frame s)). Qed.

(** ** Processes *)

Lemma wp_sys_getpid (Q : res Z -> K -> Prop) : Q (Done (k_cur s)) s -> wp sys_getpid Q s.
Proof.
  intros HQ. destruct Hk as [_ _ (acts & A & _ & Hp)].
  destruct (running_proc _ _ _ Hp Hrun) as (c & (U1 & _) & Hpid & _).
  unfold sys_getpid, cur_proc. rewrite !wp_bind, wp_get. apply (wp_get_proc _ _ c); [done| |].
  - apply (po_proc _ _ Hp) in U1. lia.
  - apply wp_ret. by rewrite Hpid.
Qed.

Lemma wp_waitpid_end pid status r :
  wp (waitpid_end pid status r) (fun _ s' => kinv x s' /\ called s s') s.
Proof.
  unfold waitpid_end. destruct r as [st|e]; [|apply wp_ret; split; [done|apply called_refl]].
  destruct (status =? 0); [apply wp_ret; split; [done|apply called_refl]|].
  rewrite wp_bind. eapply wp_mono; [apply wp_copyout|]. intros [u|e] s' (_ & Hk' & Hc); by apply wp_ret.
Qed.
End Calls.

(** ** The state of a thread *)

Lemma kinv_state x s acts A t st : fs_ok x (k_low s) (k_oft s) (k_fds s) -> vm_ok (k_vm s) ->
  PidSys.sim (PidSys.World (k_pids s) (<[t := act_of st]> acts)) A -> procs_ok acts s ->
  is_Some (t_state s !! t) -> kinv x (set_threads (t_proc s) (<[t := st]> (t_state s)) s).
Proof.
  intros Hfs Hvm Hsim [P1 P2 P3 P4 P5 P6 P7 P8 P9 P10 P11 P12] Ht. split; [done|done|].
  exists (<[t := act_of st]> acts), A. split; [done|]. split; try done; simpl.
  - intros u. rewrite P2, lookup_insert_is_Some'. split; [by right|]. by intros [<-|].
  - intros u st' [[<- <-]|[Hne Hu]]%lookup_insert_Some; [by rewrite lookup_insert_eq|].
    rewrite lookup_insert_ne by done. by apply P3.
  - intros u a [[<- <-]|[Hne Hu]]%lookup_insert_Some; [right; by rewrite lookup_insert_eq|].
    destruct (P4 u a Hu); [by left|right]. by rewrite lookup_insert_ne.
  - intros p pr Hp Hn. destruct (P6 p pr Hp Hn) as [? ?]. split; [done|]. apply lookup_insert_is_Some'. by right.
Qed.

(** A running thread goes on in user mode. *)
Lemma kinv_user x s tf tf' : kinv x s -> running s tf ->
  kinv x (set_threads (t_proc s) (<[k_cur s := TUser tf']> (t_state s)) s).
Proof.
  intros [Hfs Hvm (acts & A & Hsim & Hp)] Hrun. destruct (running_proc _ _ _ Hp Hrun) as (c & _ & _ & _ & _ & Ha).
  apply (kinv_state x s acts A); try done; [|destruct Hrun as [-> _]; by eexists]. simpl. by rewrite insert_id.
Qed.

Lemma wp_sys_waitpid x s tf pid status opt : kinv x s -> running s tf -> not_wild s pid ->
  wp (sys_waitpid pid status opt) (fun r s' => match r with
    | WDone _ => kinv x s' /\ running s' tf /\ k_cur s' = k_cur s /\ isolated s s'
    | WBlock pp cv => k_cur s' = k_cur s /\ isolated s s' /\
        kinv x (set_threads (t_proc s') (<[k_cur s := TSleep tf pid status pp cv]> (t_state s')) s')
    end) s.
Proof.
  intros Hk Hrun Hw. unfold sys_waitpid.
  destruct ((pid <? PID_MIN) || (pid >? PID_MAX)) eqn:Hrange; [by apply wp_ret; auto using isolated_refl|].
  destruct (status >=? USERSPACETOP); [by apply wp_ret; auto using isolated_refl|].
  destruct (negb (opt =? 0) && _ && _); [by apply wp_ret; auto using isolated_refl|].
  pose proof Hk as [Hfs Hvm (acts & A & Hsim & Hp)].
  destruct (running_proc _ _ _ Hp Hrun) as (c & (U1 & _) & Hpid & _ & _ & Hact).
  pose proof (po_proc _ _ Hp _ _ U1). unfold cur_proc. rewrite !wp_bind, wp_get.
  apply (wp_get_proc _ _ c); [done|lia|]. rewrite wp_bind, Hpid.
  apply (wp_pid_wait s acts A pid); [done|done|lia|done|].
  intros r P' acts' A' e Hsim' Hstep Hr.
  assert (acts' = acts -> kinv x (set_pids P' s)) as Hk'.
  { intros ->. split; [done|done|]. exists acts, A'. split; [done|]. by destruct Hp. }
  assert (forall r0, acts' = acts -> wp (r1 ← waitpid_end pid status r0; mret (WDone r1)) (fun r s' => match r with
    | WDone _ => kinv x s' /\ running s' tf /\ k_cur s' = k_cur s /\ isolated s s'
    | WBlock pp cv => k_cur s' = k_cur s /\ isolated s s' /\
        kinv x (set_threads (t_proc s') (<[k_cur s := TSleep tf pid status pp cv]> (t_state s')) s')
    end) (set_pids P' s)) as Hend.
  { intros r0 E. rewrite wp_bind. eapply wp_mono; [apply (wp_waitpid_end (x := x) (tf := tf)); [by apply Hk'|done]|].
    intros r1 s1 [Hk1 Hc1]. apply wp_ret. split; [done|].
    split; [by apply (called_running (set_pids P' s))|]. split; [apply Hc1|].
    by apply (isolated_pids s P'), isolated_called. }
  destruct r as [[st|er]|pp cv]; destruct Hr as [-> _]; [by apply Hend|by apply Hend|].
  apply wp_ret. split; [done|]. split; [apply (isolated_pids s P'), isolated_refl|].
  apply (kinv_state x (set_pids P' s) acts A'); try done; [by destruct Hp|].
  destruct Hrun as [E _]. simpl. rewrite E. by eexists.
Qed.
(** Copies to user memory do not look at what threads do. *)
Lemma in_low_threads {R} (c : M (vstate G) R) ts s : in_low c (set_threads (t_proc s) ts s) =
  match in_low c s with Ok r s' => Ok r (set_threads (t_proc s') ts s') | Fault f => Fault f end.
Proof. unfold in_low, in_fs. change (fs_view (set_threads (t_proc s) ts s)) with (fs_view s). by destruct (Openfile.lift c _). Qed.

Lemma waitpid_end_threads pid status r ts s : waitpid_end pid status r (set_threads (t_proc s) ts s) =
  match waitpid_end pid status r s with Ok r s' => Ok r (set_threads (t_proc s') ts s') | Fault f => Fault f end.
Proof.
  unfold waitpid_end. destruct r; [|done]. destruct (status =? 0); [done|]. unfold mbind, M_bind.
  rewrite in_low_threads. by destruct (in_low _ s) as [[]|].
Qed.

Lemma waitpid_end_same pid status r s r' s' : waitpid_end pid status r s = Ok r' s' ->
  t_state s' = t_state s /\ k_cur s' = k_cur s.
Proof.
  unfold waitpid_end. destruct r; [|by intros [= _ <-]]. destruct (status =? 0); [by intros [= _ <-]|].
  unfold mbind, M_bind, in_low, in_fs. destruct (Openfile.lift _ _) as [[u|e] f|]; [| |done]; by intros [= _ <-].
Qed.

Lemma wp_do_resume x s tf pid status pp cv : kinv x s ->
  t_state s !! k_cur s = Some (TWoken tf pid status pp cv) -> k_cur s <> Pid.PID_BOOT ->
  wp (do_resume tf pid status pp cv) (fun _ s' => kinv x s' /\ k_cur s' = k_cur s /\ isolated s s') s.
Proof.
  intros [Hfs Hvm (acts & A & Hsim & Hp)] Hst Hb. unfold do_resume. rewrite wp_bind, wp_get, wp_bind.
  unfold sys_waitpid_woken. rewrite wp_bind. pose proof (po_acts _ _ Hp _ _ Hst) as Hact.
  apply (wp_pid_woken s acts A pid pp cv); [done|done|]. intros st P' A' Hsim' Hstep.
  set (s1 := set_pids P' s). set (ts := <[k_cur s := TUser tf]> (t_state s)).
  assert (kinv x (set_threads (t_proc s1) ts s1)) as Hk.
  { apply (kinv_state x s1 acts A' (k_cur s) (TUser tf)); try done; by destruct Hp. }
  assert (running (set_threads (t_proc s1) ts s1) tf) as Hrun by (split; [apply lookup_insert_eq|done]).
  pose proof (wp_waitpid_end Hk Hrun pid status (Done st)) as Hw.
  unfold wp in Hw. rewrite waitpid_end_threads in Hw. unfold wp at 1.
  destruct (waitpid_end pid status (Done st) s1) as [r s2|] eqn:E; [|done]. destruct Hw as [Hk2 Hc2].
  pose proof (kinv_user x _ tf (match r with Done v => ret_val tf v | Err er => ret_err tf er end) Hk2
    (called_running _ _ _ Hc2 Hrun)) as Hk3.
  apply waitpid_end_same in E as [E1 E2]. unfold ts in Hk3. simpl in Hk3. rewrite E2, insert_insert_eq in Hk3.
  unfold wp, set_state, modify. rewrite E1. split; [exact Hk3|]. split; [exact E2|].
  destruct (isolated_called _ _ Hc2) as [I1 I2 I3 I4]. split; try done.
  intros t st' Ht Hst'. left. simpl. by rewrite lookup_insert_ne.
Qed.
End Spec.
End SyscallSpec.
