(* ===== verification/KernelDemo.v ===== *)
(** * A concrete kernel state

    One user process, with process id 2, in user mode; the null device; no
    open file.  The invariant holds in it. *)

From S2P Require Import Prelude Kern Interfaces Vfs VfsSpec VfsDevs VfsProc Openfile OpenfileSpec FileTables FileProps.
From S2P Require Import Pid PidSpec PidSys PidProps Vm VmSpec VmProps UserSpace Proc ProcSpec ProcOps.
Open Scope Z_scope.
Import VfsSpec UserSpace Proc ProcSpec ProcOps.
#[local] Existing Instances VfsDevs.NoBackend VfsDevs.NoBackendInv VfsDevs.NoBackendSpec.

Module KernelDemo.

(** Registers at a system call with number [n] and arguments [a0], [a1]. *)
Definition demo_tf (n a0 a1 : Z) : trapframe :=
  set_reg tf_v0 n (set_reg tf_a0 a0 (set_reg tf_a1 a1 (set_reg tf_epc 0x400100 (fun _ => 0)))).

Definition no_files : list (option Openfile.open_file) := replicate 32 None.

Definition demo_k (tf : trapframe) : kstate unit :=
  KState (VfsDevs.boot_vfs ∅) (Openfile.Oft (Openfile.FileTable None no_files))
    {[10 := FileTables.fresh]} (PidSys.w_pids PidProps.wa) (VmProps.demo_vm [])
    {[1 := Proc [91; 107; 93] 0 0 1; 10 := Proc [115; 104] 1 7 2]} {[2 := 10]} {[2 := TUser tf]} 2 1 [] 11.

Definition no_spare (u : Z) : Z := 0.

Lemma demo_sim : exists A, PidSys.sim (PidSys.World (PidSys.w_pids PidProps.wa)
  {[1 := PidSys.Running; 2 := PidSys.Running]}) A.
Proof.
  destruct (PidSys.sim_step (PidSys.boot 0 1) PidSys.a_boot 1 PidSys.Fork (PidSys.sim_boots 0 1 ltac:(lia)) I)
    as (e & w & A & He & _ & Hs).
  assert (PidSys.World (PidSys.w_pids PidProps.wa) {[1 := PidSys.Running; 2 := PidSys.Running]} = w) as ->; [|by exists A].
  replace w with PidProps.wa by (unfold PidProps.wa, PidProps.after; change Pid.PID_BOOT with 1; by rewrite He). vm_compute. reflexivity.
Qed.

Lemma demo_fs tf : fs_ok no_spare (k_low (demo_k tf)) (k_oft (demo_k tf)) (k_fds (demo_k tf)).
Proof.
  split; [apply VfsDevs.boot_inv|done| |done]. change (k_fds (demo_k tf)) with ({[10 := FileTables.fresh]} : gmap Z (list Z)).
  exists no_files. split; [done|]. split.
  - split.
    + done.
    + intros p d [<- <-]%lookup_singleton_Some. done.
    + intros p d k e [<- <-]%lookup_singleton_Some He. apply lookup_replicate in He as [-> _]. by left.
    + intros i f Hs. apply OpenfileSpec.slot_lookup in Hs as [_ Hs]. unfold no_files in Hs. by apply lookup_replicate in Hs as [? _].
    + done.
    + done.
  - intros u. destruct (VfsDevs.vfs_bootstrap_spec ∅) as (_ & _ & _ & ->). done.
Qed.

Lemma demo_vm_ok : vm_ok (VmProps.demo_vm []).
Proof.
  assert (forall a x, spaces (VmProps.demo_vm []) !! a = Some x -> a = 7 /\ x = VmProps.demo_as) as Hs.
  { intros a x Hx. change (({[7 := VmProps.demo_as]} : gmap Z addrspace) !! a = Some x) in Hx.
    by apply lookup_singleton_Some in Hx as [<- <-]. }
  split; [apply VmProps.demo_ram|done| |].
  - intros a x [-> ->]%Hs. split; [simpl; lia|]. split; [apply VmProps.demo_as_ok|]. done.
  - intros a b x y Hne [-> ->]%Hs [-> ->]%Hs. done.
Qed.

Lemma demo_procs p pr : ({[1 := Proc [91; 107; 93] 0 0 1; 10 := Proc [115; 104] 1 7 2]} : gmap Z proc) !! p = Some pr ->
  (p = 1 /\ pr = Proc [91; 107; 93] 0 0 1) \/ (p = 10 /\ pr = Proc [115; 104] 1 7 2).
Proof. intros [[<- <-]|[_ [<- <-]%lookup_singleton_Some]]%lookup_insert_Some; auto. Qed.

Lemma demo_procs_ok tf : procs_ok {[1 := PidSys.Running; 2 := PidSys.Running]} (demo_k tf).
Proof.
  split; simpl.
  - intros t p [<- <-]%lookup_singleton_Some _. exists (Proc [115; 104] 1 7 2). split; [|done].
    by split_and!.
  - intros t. destruct (decide (t = 2)) as [->|]; [by split; eexists|]. by rewrite !lookup_singleton_ne.
  - intros t st [<- <-]%lookup_singleton_Some. done.
  - intros t a [[<- <-]|[_ [<- <-]%lookup_singleton_Some]]%lookup_insert_Some; by left.
  - intros p pr [[-> ->]|[-> ->]]%demo_procs; lia.
  - intros p pr [[-> ->]|[-> ->]]%demo_procs Hk; [done|]. simpl. split; [unfold PID_MIN, PID_MAX; lia|by eexists].
  - intros p q pr qr [[-> ->]|[-> ->]]%demo_procs [[-> ->]|[-> ->]]%demo_procs; done.
  - intros p pr [[-> ->]|[-> ->]]%demo_procs Ha; [done|]. by eexists.
  - intros p q pr qr [[-> ->]|[-> ->]]%demo_procs [[-> ->]|[-> ->]]%demo_procs; done.
  - intros p [d [<- _]%lookup_singleton_Some]. split; [done|by eexists].
  - intros p [d Hd]. by rewrite lookup_empty in Hd.
  - lia.
Qed.

Lemma demo_kinv tf : kinv no_spare (demo_k tf).
Proof.
  split; [apply demo_fs|apply demo_vm_ok|]. destruct demo_sim as [A HA].
  eexists _, A. split; [exact HA|apply demo_procs_ok].
Qed.

Lemma demo_running tf : running (demo_k tf) tf.
Proof. done. Qed.

Lemma demo_free tf : pid_free (demo_k tf).
Proof. exists {[2 := 1]}, 3. split; [vm_compute; reflexivity|]. split; [unfold PID_MIN, PID_MAX; lia|done]. Qed.
End KernelDemo.
