(* ===== verification/KernelProps.v ===== *)
(** * The kernel as a whole

    Fork, exit and the steps of the kernel: the theorems about the composition
    of processes, files, process ids and memory, and a state in which they
    apply. *)

From S2P Require Import Prelude Kern Bswap Interfaces Copyinout Uio Vfs VfsSpec VfsDevs VfsProc.
From S2P Require Import Openfile OpenfileSpec FileOps FileTables FileProps.
From S2P Require Import Pid PidSpec PidSys Vm VmSpec VmProps UserSpace Proc Exec Syscall KernelMem KernelDemo.
From S2P Require Import ProcFiles ProcSpec ProcOps ProcFork ProcExit SyscallSpec.
Open Scope Z_scope.
Import VfsSpec UserSpace Proc ProcSpec ProcOps ProcFork ProcExit Syscall SyscallSpec KernelMem KernelDemo.
#[local] Existing Instances VfsSpec.VfsOps_vfs VfsSpec.UserMem_vfs.

Module KernelProps.

Section Steps.
Context {G : Type} `{BackendSpec G} `{!VfsProc.ReclaimCwd G}.
Abbreviation K := (kstate G).
Implicit Types s : K.

(** The calls the theorems speak of: neither execv nor reboot; fork with a
    free process id and memory for the descriptor table, whose allocation is
    not checked; waitpid with an id whose table entry has been written. *)
Definition call_ok s (tf : trapframe) : Prop :=
  let n := s32 (tf tf_v0) in
  n <> SYS_execv /\ n <> SYS_reboot /\
  (n = SYS_fork -> pid_free s /\ nth 3 (k_allocs s) true = true) /\
  (n = SYS_waitpid -> not_wild s (s32 (tf tf_a0))).

(** How a system call leaves the state, before the registers are stored. *)
Definition sys_post (x : Z -> Z) s (tf : trapframe) (o : sysout) s' : Prop :=
  isolated s s' /\
  match o with
  | SReturn _ => kinv x s' /\ running s' tf /\ k_cur s' = k_cur s
  | SSleep pid status pp cv => k_cur s' = k_cur s /\
      kinv x (set_threads (t_proc s') (<[k_cur s := TSleep tf pid status pp cv]> (t_state s')) s')
  | SExit => kinv x s' /\ k_cur s' = 0
  | SHalt _ => False
  end.

Section Calls.
Context {x : Z -> Z} {s : K} {tf : trapframe}.
Hypothesis Hk : kinv x s.
Hypothesis Hrun : running s tf.

Lemma post_called s' tf' : kinv x s' -> called s s' -> sys_post x s tf (SReturn tf') s'.
Proof. intros Hk' Hc. split; [by apply isolated_called|]. split; [done|]. split; [by apply (called_running s)|apply Hc]. Qed.

Lemma wp_returns (m : M K (res Z)) :
  wp m (fun _ s' => True /\ kinv x s' /\ called s s') s -> wp (returns tf m) (sys_post x s tf) s.
Proof.
  intros Hm. unfold returns. rewrite wp_bind. eapply wp_mono; [exact Hm|]. intros r s' (_ & Hk' & Hc).
  apply wp_ret. by apply post_called.
Qed.

Lemma wp_returns_none (m : M K (res unit)) :
  wp m (fun _ s' => True /\ kinv x s' /\ called s s') s -> wp (returns_none tf m) (sys_post x s tf) s.
Proof.
  intros Hm. unfold returns_none. rewrite wp_bind. eapply wp_mono; [exact Hm|]. intros r s' (_ & Hk' & Hc).
  apply wp_ret. by apply post_called.
Qed.

Lemma wp_sys___time now a b : wp (sys___time now a b) (fun _ s' => True /\ kinv x s' /\ called s s') s.
Proof.
  unfold sys___time. rewrite wp_try. eapply wp_mono; [by apply (wp_copyout Hk Hrun)|].
  intros [u|e] s1 (_ & Hk1 & Hc1); [|done].
  eapply wp_mono; [apply (wp_copyout Hk1 (called_running _ _ _ Hc1 Hrun))|].
  intros r s2 (_ & Hk2 & Hc2). split; [done|]. split; [done|]. by eapply called_trans.
Qed.

Lemma wp_syscall_lseek e : wp (syscall_lseek e tf) (sys_post x s tf) s.
Proof.
  unfold syscall_lseek. rewrite wp_bind. eapply wp_mono; [by apply (wp_copyin Hk Hrun)|].
  intros r s1 (_ & Hk1 & Hc1). rewrite wp_bind.
  eapply wp_mono; [apply (wp_sys_lseek Hk1 (called_running _ _ _ Hc1 Hrun)); apply s64_range|].
  intros r2 s2 (_ & Hk2 & Hc2). apply wp_ret. apply post_called; [done|]. by eapply called_trans.
Qed.

Lemma wp_syscall_fork : pid_free s -> nth 3 (k_allocs s) true = true ->
  wp (returns tf (sys_fork tf)) (sys_post x s tf) s.
Proof.
  intros Hf Hm. unfold returns. rewrite wp_bind. eapply wp_mono; [by apply (sys_fork_core x s tf)|].
  intros r s' (Hk' & Hkept & _). apply wp_ret. split; [by apply isolated_kept|]. split; [done|].
  destruct Hkept as [(K1 & _) _ _ _ _ K6 _], Hrun as [R1 R2]. split; [|done]. split; [rewrite K1; by apply K6|by rewrite K1].
Qed.

Lemma wp_syscall_waitpid pid status opt : not_wild s pid ->
  wp (r ← sys_waitpid pid status opt;
      match r with
      | WDone r => mret (SReturn (match r with Done v => ret_val tf v | Err er => ret_err tf er end))
      | WBlock pp cv => mret (SSleep pid status pp cv)
      end) (sys_post x s tf) s.
Proof.
  intros Hw. rewrite wp_bind. eapply wp_mono; [by apply (wp_sys_waitpid x s tf)|].
  intros [r|pp cv] s'; [intros (Hk' & Hr & Hc & Hi)|intros (Hc & Hi & Hk')]; apply wp_ret; by split.
Qed.

Lemma syscall_core e : call_ok s tf -> wp (syscall e tf) (sys_post x s tf) s.
Proof.
  intros (Hne & Hnr & Hf & Hw). unfold syscall. set (n := s32 (tf tf_v0)) in *.
  destruct (Z.eqb_spec n SYS_reboot); [done|].
  destruct (Z.eqb_spec n SYS_fork) as [E|_]; [destruct (Hf E); by apply wp_syscall_fork|].
  destruct (Z.eqb_spec n SYS_getpid).
  { apply wp_returns. apply (wp_sys_getpid Hk Hrun). split; [done|]. split; [done|apply called_refl]. }
  destruct (Z.eqb_spec n SYS__exit).
  { rewrite wp_bind. eapply wp_mono; [by apply (sys__exit_core x s tf)|]. intros [] s' (Hk' & He). apply wp_ret.
    split; [by eapply isolated_exited|]. split; [done|]. by destruct He as [_ _ (_ & -> & _) _ _]. }
  destruct (Z.eqb_spec n SYS_waitpid) as [E|_]; [by apply wp_syscall_waitpid, Hw|].
  destruct (Z.eqb_spec n SYS_open); [by apply wp_returns, (wp_sys_open Hk Hrun)|].
  destruct (Z.eqb_spec n SYS_write); [by apply wp_returns, (wp_sys_write Hk Hrun)|].
  destruct (Z.eqb_spec n SYS_read); [by apply wp_returns, (wp_sys_read Hk Hrun)|].
  destruct (Z.eqb_spec n SYS___time); [by apply wp_returns_none, wp_sys___time|].
  destruct (Z.eqb_spec n SYS_dup2); [by apply wp_returns, (wp_sys_dup2 Hk Hrun)|].
  destruct (Z.eqb_spec n SYS_lseek); [by apply wp_syscall_lseek|].
  destruct (Z.eqb_spec n SYS_close); [by apply wp_returns_none, (wp_sys_close Hk Hrun)|].
  destruct (Z.eqb_spec n SYS_execv); [done|]. apply wp_ret, post_called; [done|apply called_refl].
Qed.

Lemma do_syscall_core e : call_ok s tf ->
  wp (do_syscall e tf) (fun _ s' => kinv x s' /\ isolated s s' /\ (k_cur s' = k_cur s \/ k_cur s' = 0)) s.
Proof.
  intros Hc. unfold do_syscall. rewrite wp_bind, wp_get, wp_bind. eapply wp_mono; [by apply syscall_core|].
  intros o s' [Hi Ho]. destruct o as [tf'|pid st pp cv| |code]; [| | |done].
  - destruct Ho as (Hk' & Hr' & Hcur). apply wp_modify. split; [rewrite <- Hcur; by apply (kinv_user x s' tf)|].
    split; [by apply isolated_state|by left].
  - destruct Ho as (Hcur & Hk'). apply wp_modify. split; [done|]. split; [by apply isolated_state|by left].
  - destruct Ho as (Hk' & Hcur). apply wp_ret. split; [done|]. split; [done|by right].
Qed.
End Calls.

(** ** Steps *)

Definition choice_ok s (c : choice) : Prop :=
  match c with
  | CSwitch t => t <> Pid.PID_BOOT
  | CUser _ _ => exists tf, t_state s !! k_cur s = Some (TUser tf)
  | CKernel _ => forall tf, t_state s !! k_cur s = Some (TUser tf) -> call_ok s tf
  end.

(** The invariant between steps: the current thread is not the kernel's own. *)
Definition safe (x : Z -> Z) s : Prop := kinv x s /\ k_cur s <> Pid.PID_BOOT.

Lemma do_user_core x s tf um : kinv x s -> k_cur s <> Pid.PID_BOOT -> choice_ok s (CUser tf um) ->
  wp (do_user tf um) (fun _ s' => kinv x s' /\ isolated s s' /\ k_cur s' = k_cur s) s.
Proof.
  intros Hk Hb [tf0 Hst]. unfold do_user. rewrite wp_bind, wp_get, wp_bind, wp_modify.
  set (s1 := set_vm _ s). apply wp_modify. pose proof Hk as [Hfs Hvm (acts & A & Hsim & Hp)].
  assert (kinv x s1) as Hk1.
  { apply kinv_parts. exists acts, A. apply parts_vm; [done|by apply vm_ok_pmem|done]. }
  split; [by apply (kinv_user x s1 tf0)|]. split; [|done]. apply (isolated_state s s1). split; try done; [|by left].
  intros a y Ha Hy. split; [done|]. intros va. simpl. unfold cur_write.
  destruct (spaces (k_vm s) !! curas s) as [z|] eqn:Hz; [|done]. apply write_back_other. by apply (vm_apart _ Hvm (curas s) a).
Qed.

Lemma wp_as_activate s (Q : unit -> K -> Prop) :
  (forall v, spaces v = spaces (k_vm s) -> pmem v = pmem (k_vm s) -> firstpaddr v = firstpaddr (k_vm s) ->
     lastpaddr v = lastpaddr (k_vm s) -> vm_next v = vm_next (k_vm s) -> Q tt (set_vm v s)) ->
  wp (in_vm Vm.as_activate) Q s.
Proof.
  intros HQ. unfold wp, in_vm, Vm.as_activate, mbind, M_bind, get, modify. simpl. destruct (curas s =? 0); by apply HQ.
Qed.

Lemma do_switch_core x s t : kinv x s -> wp (do_switch t) (fun _ s' => kinv x s' /\ isolated s s' /\ k_cur s' = t) s.
Proof.
  intros [Hfs [V1 V2 V3 V4] (acts & A & Hsim & Hp)]. unfold do_switch. rewrite wp_bind, wp_modify.
  apply wp_as_activate. intros v E1 E2 E3 E4 E5. simpl in E1, E2, E3, E4, E5. split; [|split; [|done]].
  - apply kinv_parts. exists acts, A. apply (parts_vm x acts A (set_k_cur t s)).
    + split; [done|done|done|]. by destruct Hp.
    + split; [unfold VmSpec.ram_ok in *; congruence|congruence|by rewrite E1, E3, E5|by rewrite E1].
    + by rewrite E1.
  - split; try done; [|by left]. intros a y _ Hy. simpl. by rewrite E1, E2.
Qed.

Lemma kstep_core x s c : safe x s -> choice_ok s c ->
  wp (kstep c) (fun _ s' => safe x s' /\ isolated s s') s.
Proof.
  intros [Hk Hb] Hc. unfold kstep. destruct c as [t|tf um|e].
  - eapply wp_mono; [by apply (do_switch_core x)|]. intros [] s' (Hk' & Hi & E). split; [|done]. split; [done|by rewrite E].
  - eapply wp_mono; [by apply (do_user_core x)|]. intros [] s' (Hk' & Hi & E). split; [|done]. split; [done|by rewrite E].
  - rewrite wp_bind, wp_get. destruct (t_state s !! k_cur s) as [[tf|tf|tf pid st pp cv|tf pid st pp cv]|] eqn:Hst.
    + apply wp_modify. split; [|apply isolated_state, isolated_refl]. split; [|done].
      pose proof Hk as [Hfs Hvm (acts & A & Hsim & Hp)]. pose proof (po_acts _ _ Hp _ _ Hst) as Ha.
      apply (kinv_state x s acts A); try done. simpl. by rewrite insert_id.
    + eapply wp_mono; [by apply (do_syscall_core (x := x)); [|split|apply Hc]|].
      intros [] s' (Hk' & Hi & E). split; [|done]. split; [done|]. unfold Pid.PID_BOOT in *. lia.
    + apply wp_ret. split; [by split|apply isolated_refl].
    + eapply wp_mono; [by apply (wp_do_resume x)|]. intros [] s' (Hk' & E & Hi). split; [|done]. split; [done|by rewrite E].
    + apply wp_ret. split; [by split|apply isolated_refl].
Qed.

(** The states the kernel reaches from [s]. *)
Inductive reach s : K -> Prop :=
| reach_here : reach s s
| reach_step s1 c s2 : reach s s1 -> choice_ok s1 c -> kstep c s1 = Ok tt s2 -> reach s s2.

(** ** waitpid *)

(** A process as the table of process ids has it: its parent and its life. *)
Definition life_in s (pid : Z) (e : option (Z * PidSys.life)) : Prop :=
  exists acts A, PidSys.sim (PidSys.World (k_pids s) acts) A /\ procs_ok acts s /\ A !! pid = e.

(** Only the table of process ids is changed. *)
Definition only_pids s s' : Prop := s' = set_pids (k_pids s') s.

(** The caller sleeps: the lock of the table is free, [pp] is the child's
    entry, which names the caller as parent and has no status yet, and the
    caller is the one in the queue of its condition variable [cv]. *)
Definition sleeps s (pid pp cv : Z) s' : Prop := only_pids s s' /\
  (exists acts A A', PidSys.sim (PidSys.World (k_pids s) acts) A /\ procs_ok acts s /\
     PidSys.astep A (PidSys.Slept (k_cur s) pid) A' /\
     PidSys.sim (PidSys.World (k_pids s') (<[k_cur s := PidSys.Sleeping pid pp cv]> acts)) A') /\
  exists t P C th nx, k_pids s' = PidSpec.pst t None P C th [] nx /\
    PidSys.waits_for t P (k_cur s) pid pp cv 0 /\ C !! cv = Some [k_cur s].

(** The child is gone from the table, and the caller's memory is as it was but
    for the word at [status]. *)
Definition reaps s (pid status st : Z) s' : Prop :=
  pids_step s (PidSys.Reaped (k_cur s) pid st) s' /\ (status = 0 -> only_pids s s') /\
  forall va, ~ (status <= va < status + 4) -> cur_map s' !! va = cur_map s !! va.

Definition wait_post s (pid status opt : Z) (o : waitres) s' : Prop :=
  match o with
  | WDone (Done r) => r = pid /\ exists st, reaps s pid status st s' /\
      (status <> 0 -> Copyinout.load_bytes (cur_map s') status 4 = Some (Bswap.be_bytes 4 st))
  | WDone (Err e) =>
      (e = ESRCH /\ ~ PID_MIN <= pid <= PID_MAX /\ s' = s) \/
      (e = EFAULT /\ USERSPACETOP <= status /\ s' = s) \/
      (e = EINVAL /\ opt <> 0 /\ opt <> WUNTRACED /\ opt <> WNOHANG /\ s' = s) \/
      (e = ESRCH /\ life_in s pid None /\ only_pids s s' /\ pids_step s (PidSys.WaitErr (k_cur s) pid e) s') \/
      (e = ECHILD /\ (exists q l, q <> k_cur s /\ life_in s pid (Some (q, l))) /\ only_pids s s' /\
         pids_step s (PidSys.WaitErr (k_cur s) pid e) s') \/
      (e = EFAULT /\ status <> 0 /\ ~ mapped (cur_map s) status 4 /\ exists st, reaps s pid status st s')
  | WBlock pp cv => (exists l, life_in s pid (Some (k_cur s, l)) /\ forall st, l <> PidSys.AZombie st) /\
      sleeps s pid pp cv s'
  end.

Lemma running_space x s tf : kinv x s -> running s tf -> has_space s.
Proof.
  intros [_ Hvm (acts & A & _ & Hp)] Hrun. split; [done|].
  destruct (running_proc _ _ _ Hp Hrun) as (c & (U1 & _ & _ & U4) & _).
  unfold curas. rewrite U1. by apply (po_as _ _ Hp (curproc s)).
Qed.

Lemma sys_waitpid_core x s tf pid status opt : kinv x s -> running s tf -> not_wild s pid -> is_u32 status ->
  wp (sys_waitpid pid status opt) (wait_post s pid status opt) s.
Proof.
  intros Hk Hrun Hw Hst. unfold sys_waitpid.
  destruct ((pid <? PID_MIN) || (pid >? PID_MAX)) eqn:Hrange; [apply wp_ret; left; split; [done|]; split; [lia|done]|].
  destruct (Z.geb_spec status USERSPACETOP); [apply wp_ret; right; left; split; [done|]; split; [lia|done]|].
  destruct (negb (opt =? 0) && _ && _) eqn:Hopt; [apply wp_ret; right; right; left; split; [done|]; split_and!; lia || done|].
  pose proof Hk as [Hfs Hvm (acts & A & Hsim & Hp)].
  destruct (running_proc _ _ _ Hp Hrun) as (c & (U1 & _) & Hpid & _ & _ & Hact).
  pose proof (po_proc _ _ Hp _ _ U1). unfold cur_proc. rewrite !wp_bind, wp_get.
  apply (wp_get_proc _ _ c); [done|lia|]. rewrite wp_bind, Hpid.
  assert (forall e, A !! pid = e -> life_in s pid e) as Hlife by (intros e <-; by exists acts, A).
  apply (wp_pid_wait s acts A pid); [done|done|lia|done|]. intros r P' acts' A' e Hsim' Hstep Hr.
  assert (forall s', k_pids s' = P' -> procs_ok acts' s' -> pids_step s e s') as Hps.
  { intros s' <- Hp'. by exists acts, A, acts', A'. }
  destruct r as [[st|er]|pp cv]; destruct Hr as [-> ->]; [|rewrite wp_bind; apply wp_ret, wp_ret|apply wp_ret].
  - rewrite wp_bind. unfold waitpid_end.
    destruct (Z.eqb_spec status 0) as [->|].
    { apply wp_ret, wp_ret. split; [done|]. exists st. split; [|done]. split; [by apply Hps; [|destruct Hp]|done]. }
    rewrite wp_bind. destruct (in_low_copyout (Bswap.be_bytes 4 st) status (set_pids P' s)
      (running_space x s tf Hk Hrun) Hst ltac:(unfold is_u32; simpl; lia)) as (r & s' & Hc & _ & (lw & Elw & Ecwd) & _ & Hfr & Hpost).
    assert (reaps s pid status st s').
    { split; [subst s'; apply Hps; [done|]; destruct Hp; by split; try done; simpl; rewrite Ecwd|]. split; [done|exact Hfr]. }
    apply (proj2 (wp_ok _ _ _)). exists r, s'. split; [exact Hc|]. destruct r as [u|er]; apply wp_ret, wp_ret.
    + split; [done|]. exists st. split; [done|]. intros _. apply Hpost.
    + right; right; right; right; right. destruct Hpost. split; [done|]. split; [done|]. split; [done|]. by exists st.
  - specialize (Hps (set_pids P' s) eq_refl ltac:(by destruct Hp)). inversion Hstep; subst; simpl.
    + right; right; right; left. split; [done|]. split; [by apply Hlife|done].
    + right; right; right; right; left. split; [done|]. split; [|done]. eexists _, _. split; [done|]. by apply Hlife.
  - split; [inversion Hstep; subst; eexists; split; [by apply Hlife|done]|]. split; [done|]. split; [by exists acts, A, A'|].
    destruct Hsim' as (t & P & C & th & nx & E & _ & Hok). exists t, P, C, th, nx. split; [exact E|].
    apply (PidSys.sim_acts _ _ _ _ _ Hok (k_cur s) (PidSys.Sleeping pid pp cv)). apply lookup_insert_eq.
Qed.
End Steps.

(** ** The theorems *)

Section Theorems.
Context {G : Type} `{BackendSpec G} `{!VfsProc.ReclaimCwd G}.
Implicit Types s : kstate G.

(** C19: the kernel is safe.  From a state in which its invariant holds, by
    whatever schedule, user programs and system calls that [call_ok] admits, the
    invariant holds again in every state it reaches, and from there no step goes
    wrong: no null or dangling pointer, no index out of range, no failed
    assertion.  Not admitted are execv and reboot, fork without a free process id
    or when there is no memory for the descriptor table, whose allocation it
    does not check, and waitpid on an entry of the table of process ids that was
    never written; the allocations of that table, unchecked too, succeed. *)
Theorem kernel_safe x s s' : safe x s -> reach s s' ->
  safe x s' /\ forall c, choice_ok s' c -> exists s'', kstep c s' = Ok tt s''.
Proof.
  intros Hs Hr. assert (safe x s') as Hs'.
  { induction Hr as [|s1 c s2 Hr IH Hc Hk]; [done|]. pose proof (kstep_core x s1 c (IH) Hc) as Hw.
    unfold wp in Hw. rewrite Hk in Hw. apply Hw. }
  split; [done|]. intros c Hc. pose proof (kstep_core x s' c Hs' Hc) as Hw.
  apply wp_ok in Hw as ([] & s'' & E & _). by exists s''.
Qed.

(** C23: processes are isolated.  A step of the kernel for one process, be it
    the user program that runs, a system call that [call_ok] admits (not execv
    and reboot; fork with a free id and memory for its table; waitpid on an entry
    that was written), or the end of the process, changes no byte another process
    can see, none of its descriptors, not its current directory and none of its
    registers. *)
Theorem kernel_isolation x s c : safe x s -> choice_ok s c ->
  exists s', kstep c s = Ok tt s' /\ isolated s s'.
Proof.
  intros Hs Hc. pose proof (kstep_core x s c Hs Hc) as Hw. apply wp_ok in Hw as ([] & s' & E & _ & Hi). by exists s'.
Qed.

(** C24: fork, called with a free process id and memory for the descriptor
    table, whose allocation it does not check.  On success the child has a
    fresh process id and the caller as parent; a copy of the memory in an
    address space of its own; the same descriptors, with every open file
    counting them; the parent's current directory; and a thread that starts
    with the parent's registers; no other process, thread, descriptor table or
    address space appears.  It fails only with ENOMEM, and what it then leaves
    is either nothing but an address space that no process has, or a whole
    child without a thread.  Whatever was there before stays, and the invariant
    of the kernel holds again. *)
Theorem fork_spec x s tf : kinv x s -> running s tf -> pid_free s -> nth 3 (k_allocs s) true = true ->
  exists r s', sys_fork tf s = Ok r s' /\ kinv x s' /\ kept s s' /\
    match r with
    | Done pid => forked s tf pid s'
    | Err e => e = ENOMEM /\ (unborn s s' \/ stillborn s s')
    end.
Proof. intros Hk Hr Hf Hm. apply (proj1 (wp_ok _ _ _)). by apply sys_fork_core. Qed.

(** C25: exit.  The process, its thread, its descriptors, its address space and
    its current directory are gone; every open file lost exactly its
    references; the parent finds the status, and who waits for it is woken up;
    nothing else changes. *)
Theorem exit_spec x s tf beyond st : kinv x s -> running s tf ->
  exists s', sys__exit beyond st s = Ok tt s' /\ kinv x s' /\ exited s st s'.
Proof.
  intros Hk Hr. pose proof (sys__exit_core x s tf beyond st Hk Hr) as Hw.
  apply wp_ok in Hw as ([] & s' & E & Hp). by exists s'.
Qed.

(** C26: waitpid, on every branch, for an entry of the table that was written
    (the last one may hold a word that never was).  It returns the child's id
    exactly when the child has exited, with the status the child gave to exit
    stored as a big-endian word in the caller's memory.  When the child has not
    exited the caller ends up as the only one in the queue of the child's
    condition variable, with the table's lock released, and nothing else is
    changed.  Each error has its cause: the wrong arguments change nothing at
    all, a process that is not there or not a child nothing but the lock.  Both
    on success and when the status cannot be stored the child is gone from the
    table, and the rest of the caller's memory is as it was. *)
Theorem waitpid_spec x s tf pid status opt :
  kinv x s -> running s tf -> not_wild s pid -> is_u32 status ->
  exists o s', sys_waitpid pid status opt s = Ok o s' /\ wait_post s pid status opt o s'.
Proof. intros Hk Hr Hw Hs. apply (proj1 (wp_ok _ _ _)). by apply (sys_waitpid_core x s tf). Qed.
End Theorems.

(** ** Witnesses *)

#[local] Existing Instances VfsDevs.NoBackend VfsDevs.NoBackendInv VfsDevs.NoBackendSpec VfsProc.NoReclaimCwd.

Definition env0 : env := Env (0, 0) (fun _ => 42) 0 0x80010000.

Lemma demo_safe tf : safe (G := unit) no_spare (demo_k tf).
Proof. split; [apply demo_kinv|done]. Qed.

Lemma demo_fork_ok : choice_ok (G := unit) (demo_k (demo_tf SYS_fork 0 0)) (CKernel env0).
Proof.
  intros tf E. injection E as <-. split_and!; try done. intros _. split; [apply demo_free|done].
Qed.

Lemma demo_exit_ok : choice_ok (G := unit) (demo_k (demo_tf SYS__exit 7 0)) (CKernel env0).
Proof. intros tf E. injection E as <-. by split_and!. Qed.

Lemma kernel_safe_witness : exists s', kstep (G := unit) (CKernel env0) (demo_k (demo_tf SYS_fork 0 0)) = Ok tt s'.
Proof.
  apply (kernel_safe no_spare _ _ (demo_safe _) (reach_here (demo_k (demo_tf SYS_fork 0 0)))). apply demo_fork_ok.
Defined.

Lemma kernel_isolation_witness : exists s',
  kstep (G := unit) (CKernel env0) (demo_k (demo_tf SYS__exit 7 0)) = Ok tt s' /\
  isolated (demo_k (demo_tf SYS__exit 7 0)) s'.
Proof. apply (kernel_isolation no_spare); [apply demo_safe|apply demo_exit_ok]. Defined.

Lemma fork_spec_witness : exists r s', sys_fork (G := unit) (demo_tf SYS_fork 0 0) (demo_k (demo_tf SYS_fork 0 0)) = Ok r s' /\
  kinv no_spare s'.
Proof.
  destruct (fork_spec no_spare (demo_k (demo_tf SYS_fork 0 0)) (demo_tf SYS_fork 0 0)
    (demo_kinv _) (demo_running _) (demo_free _) eq_refl) as (r & s' & E & Hk & _).
  exists r, s'. split; [exact E|exact Hk].
Defined.

Lemma exit_spec_witness : exists s', sys__exit (G := unit) (fun _ => 42) 7 (demo_k (demo_tf SYS__exit 7 0)) = Ok tt s' /\
  k_procs s' = {[1 := Proc [91; 107; 93] 0 0 1]} /\ k_fds s' = ∅.
Proof.
  destruct (exit_spec no_spare (demo_k (demo_tf SYS__exit 7 0)) (demo_tf SYS__exit 7 0) (fun _ => 42) 7
    (demo_kinv _) (demo_running _)) as (s' & E & _ & [_ (E1 & E2 & _) _ _ _]). exists s'. split; [exact E|]. rewrite E1, E2. split; reflexivity.
Defined.

Lemma waitpid_spec_witness : exists o s',
  sys_waitpid (G := unit) 2 0x400000 0 (demo_k (demo_tf SYS_waitpid 2 0x400000)) = Ok o s' /\
  wait_post (demo_k (demo_tf SYS_waitpid 2 0x400000)) 2 0x400000 0 o s'.
Proof.
  apply (waitpid_spec no_spare _ (demo_tf SYS_waitpid 2 0x400000)); [apply demo_kinv|apply demo_running| |unfold is_u32; lia].
  vm_compute. intros (a & [= <-] & ?). done.
Defined.
End KernelProps.
