(* ===== verification/SyscallProps.v ===== *)
(** * Registers across system calls

    The conventions of the dispatcher: which registers a system call changes,
    and what parent and child find after fork. *)

From S2P Require Import Prelude Kern Bswap Interfaces Copyinout Uio Vfs VfsSpec VfsDevs VfsProc.
From S2P Require Import Openfile Pid PidSys Vm VmSpec UserSpace Proc Exec Syscall.
From S2P Require Import ProcSpec ProcOps ProcFork ProcExit SyscallSpec KernelDemo KernelProps.
Open Scope Z_scope.
Import VfsSpec UserSpace Proc ProcSpec ProcOps ProcFork ProcExit Syscall SyscallSpec KernelProps.
#[local] Existing Instances VfsSpec.VfsOps_vfs VfsSpec.UserMem_vfs.

Module SyscallProps.

(** Registers hold 32-bit words. *)
Definition regs_u32 (tf : trapframe) : Prop := forall r, is_u32 (tf r).

(** What the function behind a system call answers: a word, a 64-bit value, the
    registers of a new program; or that the caller sleeps, is gone, or that the
    machine is halted. *)
Inductive answer : Type :=
| Word (r : res Z)
| Long (r : res Z)
| Program (tf : trapframe)
| Wait (pp cv : Z)
| Gone
| Halt (code : Z).

Definition nothing (r : res unit) : res Z := match r with Done _ => Done 0 | Err e => Err e end.

Definition known : list Z :=
  [SYS_reboot; SYS_fork; SYS_getpid; SYS__exit; SYS_waitpid; SYS_open; SYS_write; SYS_read; SYS___time; SYS_dup2;
   SYS_lseek; SYS_close; SYS_execv].

(** The functions behind the numbers: which one runs, on which arguments, and
    what it answers.  lseek's offset is the pair a2, a3, and its whence the
    word at sp + 16. *)
Section Answers.
Context {G : Type} `{Backend G} (e : env) (tf : trapframe) (s : kstate G).
Abbreviation callno := (s32 (tf tf_v0)).
Abbreviation arg n := (s32 (tf n)).

Inductive answered : answer -> kstate G -> Prop :=
| an_fork r s' : callno = SYS_fork -> sys_fork tf s = Ok r s' -> answered (Word r) s'
| an_getpid r s' : callno = SYS_getpid -> sys_getpid s = Ok r s' -> answered (Word r) s'
| an_exit s' : callno = SYS__exit -> sys__exit (e_beyond e) (arg tf_a0) s = Ok tt s' -> answered Gone s'
| an_waitpid r s' : callno = SYS_waitpid ->
    sys_waitpid (arg tf_a0) (tf tf_a1) (arg tf_a2) s = Ok (WDone r) s' -> answered (Word r) s'
| an_waits pp cv s' : callno = SYS_waitpid ->
    sys_waitpid (arg tf_a0) (tf tf_a1) (arg tf_a2) s = Ok (WBlock pp cv) s' -> answered (Wait pp cv) s'
| an_open r s' : callno = SYS_open ->
    in_fs (Openfile.sys_open (tf tf_a0) (arg tf_a1) (tf tf_a2)) s = Ok r s' -> answered (Word r) s'
| an_write r s' : callno = SYS_write ->
    in_fs (Openfile.sys_write (arg tf_a0) (tf tf_a1) (tf tf_a2)) s = Ok r s' -> answered (Word r) s'
| an_read r s' : callno = SYS_read ->
    in_fs (Openfile.sys_read (arg tf_a0) (tf tf_a1) (tf tf_a2)) s = Ok r s' -> answered (Word r) s'
| an_time r s' : callno = SYS___time ->
    sys___time (e_now e) (tf tf_a0) (tf tf_a1) s = Ok r s' -> answered (Word (nothing r)) s'
| an_dup2 r s' : callno = SYS_dup2 ->
    in_fs (Openfile.sys_dup2 (arg tf_a0) (arg tf_a1)) s = Ok r s' -> answered (Word r) s'
| an_lseek c s1 r s' : callno = SYS_lseek -> in_low (copyin (u32 (tf tf_sp + 16)) 4) s = Ok c s1 ->
    in_fs (Openfile.sys_lseek (arg tf_a0) (s64 (Bswap.join32to64 (tf tf_a2) (tf tf_a3)))
      (match c with Done bs => s32 (Bswap.be_value bs) | Err _ => e_whence e end)) s1 = Ok r s' ->
    answered (Long r) s'
| an_close r s' : callno = SYS_close ->
    in_fs (Openfile.sys_close (arg tf_a0)) s = Ok r s' -> answered (Word (nothing r)) s'
| an_execv r s' : callno = SYS_execv -> Exec.sys_execv (e_kbuf e) (tf tf_a0) (tf tf_a1) s = Ok r s' ->
    answered (match r with Done tf' => Program tf' | Err er => Word (Err er) end) s'
| an_reboot : callno = SYS_reboot -> arg tf_a0 <> RB_REBOOT -> arg tf_a0 <> RB_HALT -> arg tf_a0 <> RB_POWEROFF ->
    answered (Word (Err EINVAL)) s
| an_halt s' : callno = SYS_reboot -> arg tf_a0 = RB_REBOOT \/ arg tf_a0 = RB_HALT \/ arg tf_a0 = RB_POWEROFF ->
    shutdown s = Ok tt s' -> answered (Halt (arg tf_a0)) s'
| an_unknown : callno ∉ known -> answered (Word (Err ENOSYS)) s.
End Answers.

(** The result registers: a3 tells success from failure; v0 holds the result,
    or the number of the error; a 64-bit result has its high half in v0 and its
    low half in v1. *)
Definition results (tf : trapframe) (a : answer) (tf' : trapframe) : Prop :=
  match a with
  | Word (Done v) => tf' tf_a3 = 0 /\ tf' tf_v0 = u32 v /\ tf' tf_v1 = tf tf_v1
  | Long (Done v) => tf' tf_a3 = 0 /\ is_u32 (tf' tf_v0) /\ is_u32 (tf' tf_v1) /\
      Bswap.join32to64 (tf' tf_v0) (tf' tf_v1) = u64 v
  | Word (Err e) | Long (Err e) => tf' tf_a3 = 1 /\ tf' tf_v0 = errno_code e /\ tf' tf_v1 = tf tf_v1
  | _ => False
  end.

(** What user code finds when a system call made with [tf] has returned: the
    next instruction, the results, and every other register as it was. *)
Record returned (tf : trapframe) (a : answer) (tf' : trapframe) : Prop := Returned {
  rt_epc : tf' tf_epc = u32 (tf tf_epc + 4);
  rt_kept : forall r, r <> tf_v0 -> r <> tf_v1 -> r <> tf_a3 -> r <> tf_epc -> tf' r = tf r;
  rt_results : results tf a tf';
  rt_u32 : regs_u32 tf -> regs_u32 tf'
}.

(** A new program starts in user mode, interrupts on, with its arguments and its
    stack, and no other register of the old one. *)
Definition starts (tf' : trapframe) : Prop := exists argc argv stack entry,
  tf' tf_epc = entry /\ tf' tf_sp = stack /\ tf' tf_a0 = argc /\ tf' tf_a1 = argv /\ tf' tf_status = 0xff0c /\
  forall r, r <> tf_epc -> r <> tf_sp -> r <> tf_a0 -> r <> tf_a1 -> r <> tf_status -> tf' r = 0.

Definition shape (tf : trapframe) (a : answer) (o : sysout) : Prop :=
  match a with
  | Word _ | Long _ => exists tf', o = SReturn tf' /\ returned tf a tf'
  | Program tf' => o = SReturn tf' /\ starts tf'
  | Wait pp cv => o = SSleep (s32 (tf tf_a0)) (tf tf_a1) pp cv
  | Gone => o = SExit
  | Halt code => o = SHalt code
  end.

Lemma errno_u32 e : is_u32 (errno_code e).
Proof. pose proof (errno_code_pos e). unfold is_u32. lia. Qed.

Lemma set_reg_u32 r x tf : is_u32 x -> regs_u32 tf -> regs_u32 (set_reg r x tf).
Proof. intros Hx Ht q. unfold set_reg. case_decide; auto. Qed.

Ltac regs := repeat (apply set_reg_u32; [first [apply u32_range|apply errno_u32|unfold is_u32; lia]|]); done.

Lemma word_ok tf r : shape tf (Word r) (SReturn (match r with Done v => ret_val tf v | Err e => ret_err tf e end)).
Proof.
  eexists. split; [done|]. destruct r as [v|er]; split; [done|by intros []|done|intros; unfold ret_val, advance; regs|
    done|by intros []|done|intros; unfold ret_err, advance; regs].
Qed.

Lemma long_ok tf r : shape tf (Long r) (SReturn (match r with Done v => ret_val64 tf v | Err e => ret_err tf e end)).
Proof.
  eexists. split; [done|]. destruct r as [v|er].
  - destruct (proj2 Bswap.join_split_roundtrip (u64 v) (u64_range v)) as (H1 & H2 & H3).
    split; [done|by intros []|by split_and!|intros; unfold ret_val64, advance; simpl; regs].
  - split; [done|by intros []|done|intros; unfold ret_err, advance; regs].
Qed.

Section Shape.
Context {G : Type} `{Backend G}.
Implicit Types s : kstate G.

Lemma bind_inv {A B} (m : M (kstate G) A) (k : A -> M (kstate G) B) s b s' :
  (m ≫= k) s = Ok b s' -> exists a s1, m s = Ok a s1 /\ k a s1 = Ok b s'.
Proof. unfold mbind, M_bind. destruct (m s) as [a s1|]; [|done]. eauto. Qed.

Lemma try_inv {A B} (m : M (kstate G) (res A)) (k : A -> M (kstate G) (res B)) s b s' :
  try m k s = Ok (Done b) s' -> exists a s1, m s = Ok (Done a) s1 /\ k a s1 = Ok (Done b) s'.
Proof. unfold try. intros ([a|er] & s1 & E & Hk)%bind_inv; [eauto|done]. Qed.

(** Every program that execv starts is started by enter_new_process. *)
Lemma exec_load_starts kbuf nm argv s tf' s' : Exec.exec_load (G := G) kbuf nm argv s = Ok (Done tf') s' -> starts tf'.
Proof.
  unfold Exec.exec_load. intros (v & s1 & _ & E)%try_inv. apply bind_inv in E as (a & s2 & _ & E).
  apply bind_inv in E as (u & s3 & _ & E). apply bind_inv in E as (as_ & s4 & _ & E). destruct (as_ =? 0).
  { by apply bind_inv in E as (w & s5 & _ & E). }
  apply bind_inv in E as (old & s5 & _ & E). apply bind_inv in E as (w & s6 & _ & E).
  apply bind_inv in E as ([entry|er] & s7 & _ & E); apply bind_inv in E as (w1 & s8 & _ & E);
    apply bind_inv in E as (r & s9 & _ & E); [|by apply bind_inv in E as (w2 & s10 & _ & E)].
  assert (forall er r s s', Exec.exec_fail (G := G) (A := trapframe) old as_ er s = Ok r s' -> r = Err er) as Hf.
  { intros er r0 t t'. unfold Exec.exec_fail. intros (y & t1 & _ & F)%bind_inv.
    apply bind_inv in F as (y1 & t2 & _ & F). by injection F as <-. }
  destruct r as [sp|er]; [|by apply Hf in E]. apply bind_inv in E as ([[av sp']|er] & s10 & _ & E); [|by apply Hf in E].
  apply bind_inv in E as (w2 & s11 & _ & E). injection E as <- _. eexists _, _, _, _. do 5 (split; [done|]). by intros [].
Qed.

Lemma sys_execv_starts kbuf prog args s tf' s' : Exec.sys_execv (G := G) kbuf prog args s = Ok (Done tf') s' -> starts tf'.
Proof.
  unfold Exec.sys_execv. destruct (_ || _); [done|]. destruct (_ || _); [done|]. rewrite get_bind.
  intros (argc & s1 & _ & E)%try_inv.
  do 3 (apply bind_inv in E as (? & ? & _ & E); case_match; [done|]).
  apply try_inv in E as (str & s2 & _ & E). case_match; [done|]. apply try_inv in E as (argv & s3 & _ & E).
  apply try_inv in E as (? & ? & _ & E). apply try_inv in E as (? & ? & _ & E). by apply exec_load_starts in E.
Qed.

Lemma returns_shape tf (m : M (kstate G) (res Z)) s o s' : returns tf m s = Ok o s' ->
  exists r, m s = Ok r s' /\ shape tf (Word r) o.
Proof. unfold returns. intros (r & s1 & Em & E)%bind_inv. injection E as <- <-. exists r. split; [done|apply word_ok]. Qed.

Lemma returns_none_shape tf (m : M (kstate G) (res unit)) s o s' : returns_none tf m s = Ok o s' ->
  exists r, m s = Ok r s' /\ shape tf (Word (nothing r)) o.
Proof.
  unfold returns_none. intros (r & s1 & Em & E)%bind_inv. injection E as <- <-. exists r. split; [done|].
  replace (match r with Done _ => _ | Err _ => _ end) with
    (match nothing r with Done v => ret_val tf v | Err e => ret_err tf e end) by (by destruct r). apply word_ok.
Qed.

Lemma reboot_shape e tf s o s' : s32 (tf tf_v0) = SYS_reboot ->
  (r ← sys_reboot (s32 (tf tf_a0)); mret (match r with Done o => o | Err er => SReturn (ret_err tf er) end)) s = Ok o s' ->
  exists a, answered e tf s a s' /\ shape tf a o.
Proof.
  intros En (r & s1 & Hr & E)%bind_inv. injection E as <- <-. unfold sys_reboot in Hr.
  destruct (_ || _ || _) eqn:Hcode.
  - apply bind_inv in Hr as ([] & s2 & Hd & Hr). injection Hr as <- <-. eexists. split; [eapply an_halt; [done|lia|exact Hd]|done].
  - injection Hr as <- <-. eexists. split; [apply an_reboot; [done|lia..]|apply (word_ok tf (Err EINVAL))].
Qed.

Lemma waitpid_shape e tf s o s' : s32 (tf tf_v0) = SYS_waitpid ->
  (r ← sys_waitpid (s32 (tf tf_a0)) (tf tf_a1) (s32 (tf tf_a2));
   match r with
   | WDone r => mret (SReturn (match r with Done v => ret_val tf v | Err er => ret_err tf er end))
   | WBlock pp cv => mret (SSleep (s32 (tf tf_a0)) (tf tf_a1) pp cv)
   end) s = Ok o s' -> exists a, answered e tf s a s' /\ shape tf a o.
Proof.
  intros En (r & s1 & Hr & E)%bind_inv. destruct r as [r|pp cv]; injection E as <- <-.
  - eexists. split; [by eapply an_waitpid|apply word_ok].
  - eexists. split; [by eapply an_waits|done].
Qed.

Lemma execv_shape e tf s o s' : s32 (tf tf_v0) = SYS_execv ->
  (r ← Exec.sys_execv (e_kbuf e) (tf tf_a0) (tf tf_a1);
   mret (SReturn (match r with Done tf' => tf' | Err er => ret_err tf er end))) s = Ok o s' ->
  exists a, answered e tf s a s' /\ shape tf a o.
Proof.
  intros En (r & s1 & Hr & E)%bind_inv. injection E as <- <-. eexists. split; [by eapply an_execv|].
  destruct r as [tf'|er]; [|apply (word_ok tf (Err er))]. split; [done|]. by eapply sys_execv_starts.
Qed.

Lemma syscall_shape e tf s o s' : syscall e tf s = Ok o s' -> exists a, answered e tf s a s' /\ shape tf a o.
Proof.
  unfold syscall. set (n := s32 (tf tf_v0)).
  destruct (Z.eqb_spec n SYS_reboot); [by apply reboot_shape|].
  destruct (Z.eqb_spec n SYS_fork); [intros (r & E & Hs)%returns_shape; eexists; split; [by eapply an_fork|done]|].
  destruct (Z.eqb_spec n SYS_getpid); [intros (r & E & Hs)%returns_shape; eexists; split; [by eapply an_getpid|done]|].
  destruct (Z.eqb_spec n SYS__exit).
  { intros ([] & s1 & Hr & E)%bind_inv. injection E as <- <-. eexists. split; [by eapply an_exit|done]. }
  destruct (Z.eqb_spec n SYS_waitpid); [by apply waitpid_shape|].
  destruct (Z.eqb_spec n SYS_open); [intros (r & E & Hs)%returns_shape; eexists; split; [by eapply an_open|done]|].
  destruct (Z.eqb_spec n SYS_write); [intros (r & E & Hs)%returns_shape; eexists; split; [by eapply an_write|done]|].
  destruct (Z.eqb_spec n SYS_read); [intros (r & E & Hs)%returns_shape; eexists; split; [by eapply an_read|done]|].
  destruct (Z.eqb_spec n SYS___time); [intros (r & E & Hs)%returns_none_shape; eexists; split; [by eapply an_time|done]|].
  destruct (Z.eqb_spec n SYS_dup2); [intros (r & E & Hs)%returns_shape; eexists; split; [by eapply an_dup2|done]|].
  destruct (Z.eqb_spec n SYS_lseek).
  { unfold syscall_lseek. intros (c & s1 & Hc & E)%bind_inv. apply bind_inv in E as (r & s2 & Hr & E).
    injection E as <- <-. eexists. split; [by eapply an_lseek|apply long_ok]. }
  destruct (Z.eqb_spec n SYS_close); [intros (r & E & Hs)%returns_none_shape; eexists; split; [by eapply an_close|done]|].
  destruct (Z.eqb_spec n SYS_execv); [by apply execv_shape|].
  intros [= <- <-]. eexists. split; [apply an_unknown|apply (word_ok tf (Err ENOSYS))].
  unfold known. fold n. rewrite !not_elem_of_cons. split_and!; try done. apply not_elem_of_nil.
Qed.
End Shape.

Section Theorems.
Context {G : Type} `{BackendSpec G} `{!VfsProc.ReclaimCwd G}.
Implicit Types s : kstate G.

(** C31: the calling convention of system calls.  A call that ends, execv and
    reboot included, has run the function of its number on its arguments, and
    user code gets what that function answered: a3 = 0 and the result in v0 (for
    lseek its high half in v0 and its low half in v1), or a3 = 1 and the number
    of the very error in v0; the program counter is at the next instruction and
    every other register is as it was.  Only a successful execv returns
    elsewhere, to a new program with its own registers; an unknown number is
    ENOSYS.  In a state of the invariant the calls that [call_ok] admits (not
    execv and reboot; fork with a free id and memory for its table; waitpid on
    an entry that was written) always end. *)
Theorem syscall_convention x s tf e :
  (forall o s', syscall e tf s = Ok o s' -> exists a, answered e tf s a s' /\ shape tf a o) /\
  (kinv x s -> running s tf -> call_ok s tf -> exists o s', syscall e tf s = Ok o s').
Proof.
  split; [apply syscall_shape|]. intros Hk Hr Hc. pose proof (syscall_core Hk Hr e Hc) as Hw.
  apply wp_ok in Hw as (o & s' & E & _). by exists o, s'.
Qed.

(** C27: fork returns twice.  When it succeeds the parent goes on with the
    child's id in v0, and the child, once it is scheduled, with 0; apart from
    that both have the registers that the parent had, and both are at the next
    instruction with a3 = 0. *)
Theorem fork_returns_twice x s tf e e' : kinv x s -> running s tf -> s32 (tf tf_v0) = SYS_fork -> call_ok s tf ->
  exists s', do_syscall e tf s = Ok tt s' /\
    (t_state s' !! k_cur s = Some (TUser (ret_err tf ENOMEM)) \/
     exists pid, PID_MIN <= pid <= PID_MAX /\ t_state s !! pid = None /\
       t_state s' !! k_cur s = Some (TUser (ret_val tf pid)) /\
       exists s'' tfc, (kstep (CSwitch pid) ;; kstep (CKernel e')) s' = Ok tt s'' /\
         t_state s'' !! pid = Some (TUser tfc) /\ forall r, tfc r = ret_val tf 0 r).
Proof.
  intros Hk Hr Hn Hc. destruct Hc as (_ & _ & Hf & _). destruct (Hf Hn) as [Hfree Hm].
  pose proof (sys_fork_core x s tf Hk Hr Hfree Hm) as Hw. apply wp_ok in Hw as (r & s1 & E & Hk1 & Hkept & Hpost).
  eexists. split.
  { unfold do_syscall, syscall. rewrite get_bind, Hn. simpl. unfold returns. run (bind_eq (sys_fork tf) (fun r => mret (SReturn
      (match r with Done v => ret_val tf v | Err e => ret_err tf e end))) _ _ _ E). reflexivity. }
  destruct r as [pid|er]; [right|left; destruct Hpost as [-> _]; simpl; by rewrite lookup_insert_eq].
  destruct Hpost as [[F1 _ _ _ _] F2 F3 F4]. destruct Hk as [_ _ (acts & A & _ & Hp)].
  assert (t_state s !! pid = None) as Hs0.
  { destruct (t_state s !! pid) eqn:Es; [|done]. destruct (proj2 (po_state _ _ Hp pid) ltac:(by eexists)). congruence. }
  assert (pid <> k_cur s) as Hne by (intros ->; destruct Hr; congruence).
  exists pid. split; [done|]. split; [done|]. split; [apply lookup_insert_eq|].
  set (s2 := set_threads _ _ _).
  assert (wp (kstep (CSwitch pid) ;; kstep (CKernel e')) (fun _ s'' =>
    t_state s'' !! pid = Some (TUser (child_execute tf 0))) s2) as Hw.
  { rewrite wp_bind. unfold kstep at 1, do_switch. rewrite wp_bind, wp_modify. apply wp_as_activate.
    intros v _ _ _ _ _. unfold kstep. rewrite wp_bind, wp_get. simpl. rewrite lookup_insert_ne, F4, lookup_insert_eq by done.
    apply wp_modify. simpl. by rewrite lookup_insert_eq. }
  apply wp_ok in Hw as ([] & s3 & E3 & Hst). exists s3, (child_execute tf 0). split; [exact E3|]. split; [exact Hst|].
  by intros [].
Qed.
End Theorems.

(** ** Witnesses *)

#[local] Existing Instances VfsDevs.NoBackend VfsDevs.NoBackendInv VfsDevs.NoBackendSpec VfsProc.NoReclaimCwd.
Import KernelDemo.

Lemma demo_call_ok : call_ok (G := unit) (demo_k (demo_tf SYS_fork 0 0)) (demo_tf SYS_fork 0 0).
Proof. exact (demo_fork_ok _ eq_refl). Qed.

Lemma syscall_convention_witness : exists o s' a,
  syscall (G := unit) env0 (demo_tf SYS_fork 0 0) (demo_k (demo_tf SYS_fork 0 0)) = Ok o s' /\
  answered env0 (demo_tf SYS_fork 0 0) (demo_k (demo_tf SYS_fork 0 0)) a s' /\ shape (demo_tf SYS_fork 0 0) a o.
Proof.
  destruct (syscall_convention no_spare (demo_k (demo_tf SYS_fork 0 0)) (demo_tf SYS_fork 0 0) env0) as [C T].
  destruct (T (demo_kinv _) (demo_running _) demo_call_ok) as (o & s' & E). destruct (C o s' E) as (a & Ha & Hs).
  exists o, s', a. split; [exact E|]. split; [exact Ha|exact Hs].
Defined.

Lemma fork_returns_twice_witness : exists s',
  do_syscall (G := unit) env0 (demo_tf SYS_fork 0 0) (demo_k (demo_tf SYS_fork 0 0)) = Ok tt s'.
Proof.
  destruct (fork_returns_twice no_spare (demo_k (demo_tf SYS_fork 0 0)) (demo_tf SYS_fork 0 0) env0 env0
    (demo_kinv _) (demo_running _) eq_refl demo_call_ok) as (s' & E & _). exists s'. exact E.
Defined.
End SyscallProps.
