(* ===== verification/ExecProps.v ===== *)
(** * Arguments of programs

    execv reads the argument strings of the old program and lays them out on
    the stack of the new one: the loops end, and the new program finds the
    arguments the old one gave. *)

From S2P Require Import Prelude Kern Bswap Interfaces Copyinout Uio Vfs VfsSpec VfsDevs VfsProc.
From S2P Require Import Openfile Pid Vm VmSpec VmProps UserSpace Proc Exec ProcSpec KernelMem KernelDemo.
Open Scope Z_scope.
Import UserSpace Proc ProcSpec KernelMem Exec.
#[local] Existing Instances VfsSpec.VfsOps_vfs VfsSpec.UserMem_vfs.

Module ExecProps.

(** ** Blocks of memory *)

Lemma load_bytes_ext m m' a n : (forall va, a <= va < a + Z.of_nat n -> m' !! va = m !! va) ->
  Copyinout.load_bytes m' a n = Copyinout.load_bytes m a n.
Proof.
  revert a. induction n as [|n IH]; intros a E; [done|]. simpl. rewrite E by lia.
  destruct (m !! a); [|done]. simpl. by rewrite (IH (a + 1)) by (intros; apply E; lia).
Qed.

(** The bytes the argument strings take, with their terminators. *)
Definition total (argv : list (list Z)) : Z := foldr (fun a n => Z.of_nat (length a) + 1 + n) 0 argv.

Lemma total_nonneg argv : 0 <= total argv.
Proof. induction argv; simpl; lia. Qed.

Lemma total_argc argv : Z.of_nat (length argv) <= total argv.
Proof. induction argv; simpl; lia. Qed.

Lemma total_snoc argv a : total (argv ++ [a]) = total argv + Z.of_nat (length a) + 1.
Proof. induction argv; simpl; lia. Qed.

(** The string [a] is at [p], and argv is at [av], as main() expects it. *)
Definition string_at (um : gmap Z Z) (p : Z) (a : list Z) : Prop :=
  (0 ∉ a) /\ Copyinout.load_bytes um p (length a + 1) = Some (a ++ [0]).
Definition word_at (um : gmap Z Z) (p w : Z) : Prop :=
  exists bs, Copyinout.load_bytes um p 4 = Some bs /\ Bswap.be_value bs = w.
Definition argv_at (um : gmap Z Z) (av : Z) (argv : list (list Z)) : Prop :=
  (forall i a, argv !! i = Some a -> exists p, word_at um (av + 4 * Z.of_nat i) p /\ string_at um p a) /\
  word_at um (av + 4 * Z.of_nat (length argv)) 0.

Section Write.
Context {G : Type} `{Backend G}.
Abbreviation K := (kstate G).
Implicit Types s : K.

(** Only memory of the current process in [a, a + n) may have changed. *)
Record wrote s (a n : Z) s' : Prop := Wrote {
  w_space : has_space s';
  w_dom : forall va, is_Some (cur_map s' !! va) <-> is_Some (cur_map s !! va);
  w_out : forall va, ~ (a <= va < a + n) -> cur_map s' !! va = cur_map s !! va;
  w_cur : curas s' = curas s /\ spaces (k_vm s') = spaces (k_vm s)
}.

Lemma wrote_refl s a n : has_space s -> wrote s a n s.
Proof. by split. Qed.

Lemma wrote_trans s1 s2 s3 a n b k lo hi : wrote s1 a n s2 -> wrote s2 b k s3 ->
  lo <= a -> a + n <= hi -> lo <= b -> b + k <= hi -> wrote s1 lo (hi - lo) s3.
Proof.
  intros [A1 A2 A3 (A4 & A5)] [B1 B2 B3 (B4 & B5)] ????. split; [done| | |].
  - intros va. by rewrite B2, A2.
  - intros va Hva. rewrite B3, A3 by lia. done.
  - split; congruence.
Qed.

Lemma wrote_wider s a n s' lo m : wrote s a n s' -> lo <= a -> a + n <= lo + m -> wrote s lo m s'.
Proof. intros [A1 A2 A3 A4] ??. split; [done|done| |done]. intros va Hva. apply A3. lia. Qed.

Lemma wrote_load s a n s' p k : wrote s a n s' -> p + Z.of_nat k <= a \/ a + n <= p ->
  Copyinout.load_bytes (cur_map s') p k = Copyinout.load_bytes (cur_map s) p k.
Proof. intros Hw Hd. apply load_bytes_ext. intros va Hva. apply (w_out _ _ _ _ Hw). lia. Qed.

Lemma in_low_wrote {R} (c : M (vstate G) R) s r l a n : has_space s -> c (low_view s) = Ok r l ->
  (forall va, is_Some (v_mem l !! va) <-> is_Some (cur_map s !! va)) ->
  (forall va, ~ (a <= va < a + n) -> v_mem l !! va = cur_map s !! va) ->
  exists s', in_low c s = Ok r s' /\ wrote s a n s' /\ cur_map s' = v_mem l.
Proof.
  intros Hs Hc Hd Ho. destruct (in_low_mem c s r l Hs Hc Hd) as (s' & E & -> & Hm & Hs').
  eexists. split; [exact E|]. split; [|done]. split; [done|by rewrite Hm|by rewrite Hm|done].
Qed.

Lemma stack_copyout bs a s (n := Z.of_nat (length bs)) : has_space s -> 0 <= a -> mapped (cur_map s) a n ->
  exists s', in_low (copyout bs a) s = Ok (Done tt) s' /\ wrote s a n s' /\
    Copyinout.load_bytes (cur_map s') a (length bs) = Some bs.
Proof.
  intros Hs Ha Hm. pose proof Hm as (Hn & Ht & _). unfold USERSPACETOP in Ht.
  destruct (in_low_copyout bs a s Hs ltac:(unfold is_u32; lia) ltac:(fold n; unfold is_u32; lia))
    as (r & s' & E & Hs' & (l & -> & _) & Hd & Ho & Hr). destruct r as [[]|e].
  - destruct Hr as [_ Hl]. eexists. split; [exact E|]. by split; [split|].
  - destruct Hr as [_ []]. done.
Qed.

Lemma stack_copyoutstr a p s (n := Z.of_nat (length a) + 1) : has_space s -> 0 <= p -> mapped (cur_map s) p n ->
  (0 ∉ a) -> exists r s', in_low (copyoutstr a p n) s = Ok r s' /\ wrote s p n s' /\ string_at (cur_map s') p a.
Proof.
  intros Hs Hp (Hn & Ht & Hm) H0'. unfold USERSPACETOP in Ht.
  destruct (Copyinout.copyoutstr_store (low_view s) a p n) as (m & E & Hst);
    [unfold is_u32; lia|unfold is_u32; lia|lia|done|lia|unfold USERSPACETOP; lia|
     intros j Hj; apply Hm; lia|]. change (vmem (low_view s)) with (cur_map s) in Hst.
  change (Copyinout.copyoutstr a p n (low_view s)) with (copyoutstr a p n (low_view s)) in E.
  destruct (in_low_wrote (copyoutstr a p n) s _ _ p n Hs E) as (s' & Hr & Hw & Hcm).
  - intros va. exact (Copyinout.store_bytes_mapped _ _ _ _ _ va Hst).
  - intros va Hva. apply (Copyinout.store_bytes_frame _ _ _ _ _ va Hst). rewrite length_app. simpl. lia.
  - eexists _, s'. split; [exact Hr|]. split; [done|]. split; [done|]. rewrite Hcm.
    destruct (Copyinout.store_bytes_ok _ _ _ _ _ Hst) as [_ Hld]. specialize (Hld eq_refl).
    by rewrite length_app in Hld.
Qed.

(** ** The strings *)

Definition all_mapped (um : gmap Z Z) (lo hi : Z) : Prop := forall va, lo <= va < hi -> is_Some (um !! va).

Lemma all_mapped_mapped um lo hi a n : all_mapped um lo hi -> lo <= a -> a + n <= hi -> hi <= USERSPACETOP -> 0 < n ->
  mapped um a n.
Proof. intros Hm ????. split; [done|]. split; [lia|]. intros i Hi. apply Hm. lia. Qed.

Lemma all_mapped_wrote s a n s' lo hi : wrote s a n s' -> all_mapped (cur_map s) lo hi -> all_mapped (cur_map s') lo hi.
Proof. intros Hw Hm va Hva. apply (w_dom _ _ _ _ Hw). by apply Hm. Qed.

Lemma string_kept s a n s' p str : wrote s a n s' -> p + Z.of_nat (length str) + 1 <= a \/ a + n <= p ->
  string_at (cur_map s) p str -> string_at (cur_map s') p str.
Proof. intros Hw Hd [Hz Hl]. split; [done|]. rewrite (wrote_load _ _ _ _ _ _ Hw); [done|lia]. Qed.

Lemma push_strings_ok argv : forall s sp, has_space s -> sp <= USERSPACETOP -> 0 <= sp - total argv ->
  all_mapped (cur_map s) (sp - total argv) sp -> Forall (fun a => 0 ∉ a) argv ->
  exists ptrs s', push_strings argv sp s = Ok (ptrs, sp - total argv) s' /\
    wrote s (sp - total argv) (total argv) s' /\
    Forall2 (fun a p => string_at (cur_map s') p a /\ sp - total argv <= p /\ p + Z.of_nat (length a) + 1 <= sp) argv ptrs.
Proof.
  induction argv as [|a argv IH]; intros s sp Hs Htop Hlow Hm Hz.
  - exists [], s. simpl. rewrite Z.sub_0_r. split; [done|]. split; [by apply wrote_refl|constructor].
  - apply Forall_cons in Hz as [Ha Hz]. simpl in *. pose proof (total_nonneg argv).
    destruct (IH s sp Hs Htop ltac:(lia) ltac:(intros va Hva; apply Hm; lia) Hz) as (ptrs & s1 & E & Hw & Hf).
    set (q := sp - total argv - (Z.of_nat (length a) + 1)).
    destruct (stack_copyoutstr a q s1 (w_space _ _ _ _ Hw)) as (r & s2 & E2 & Hw2 & Hat); [lia| |done|].
    { apply (all_mapped_mapped _ q sp); [|lia|lia|done|lia].
      apply (all_mapped_wrote _ _ _ _ _ _ Hw). intros va Hva. apply Hm. lia. }
    exists (q :: ptrs), s2. split; [|split].
    + rewrite (bind_eq _ _ _ _ _ E). cbn [fst snd]. rewrite u32_id by (unfold is_u32, USERSPACETOP in *; lia).
      fold q. rewrite (bind_eq _ _ _ _ _ E2). unfold mret, M_ret. do 2 f_equal. lia.
    + replace (Z.of_nat (length a) + 1 + total argv) with (sp - q) by lia.
      replace (sp - (sp - q)) with q by lia. eapply wrote_trans; [exact Hw|exact Hw2|lia..].
    + constructor; [split; [done|lia]|]. eapply Forall2_impl; [exact Hf|]. intros b p (Hb & ? & ?).
      split; [|lia]. apply (string_kept _ _ _ _ _ _ Hw2); [right; lia|done].
Qed.

(** ** The pointers *)

Lemma word_be um p w : is_u32 w -> Copyinout.load_bytes um p 4 = Some (Bswap.be_bytes 4 w) -> word_at um p w.
Proof.
  intros Hw Hl. eexists. split; [exact Hl|]. rewrite Bswap.be_value_bytes. apply Z.mod_small. unfold is_u32 in Hw. lia.
Qed.

Lemma word_kept s a n s' p w : wrote s a n s' -> p + 4 <= a \/ a + n <= p ->
  word_at (cur_map s) p w -> word_at (cur_map s') p w.
Proof. intros Hw Hd (bs & Hl & E). exists bs. split; [|done]. rewrite (wrote_load _ _ _ _ _ _ Hw); [done|lia]. Qed.

Lemma push_pointers_ok ptrs : forall s sp (n := Z.of_nat (length ptrs)), has_space s -> sp + 4 <= USERSPACETOP ->
  0 <= sp - 4 * n -> all_mapped (cur_map s) (sp + 4 - 4 * n) (sp + 4) -> Forall is_u32 ptrs ->
  exists s', push_pointers ptrs sp s = Ok (Done (sp - 4 * n)) s' /\ wrote s (sp + 4 - 4 * n) (4 * n) s' /\
    forall i p, ptrs !! i = Some p -> word_at (cur_map s') (sp + 4 - 4 * n + 4 * Z.of_nat i) p.
Proof.
  induction ptrs as [|q ptrs IH]; intros s sp n Hs Htop Hlow Hm Hu; unfold n in *; simpl in *.
  - exists s. rewrite Z.sub_0_r. split; [done|]. split; [by apply wrote_refl|done].
  - apply Forall_cons in Hu as [Hq Hu]. set (k := Z.of_nat (length ptrs)) in *.
    replace (Z.of_nat (S (length ptrs))) with (k + 1) in * by lia.
    destruct (IH s sp Hs Htop ltac:(lia) ltac:(intros va Hva; apply Hm; lia) Hu) as (s1 & E & Hw & Hf). fold k in E, Hw, Hf.
    destruct (stack_copyout (Bswap.be_bytes 4 q) (sp - 4 * k) s1 (w_space _ _ _ _ Hw)) as (s2 & E2 & Hw2 & Hat); [lia| |].
    { apply (all_mapped_mapped _ (sp + 4 - 4 * (k + 1)) (sp + 4)); [|simpl; lia..].
      apply (all_mapped_wrote _ _ _ _ _ _ Hw). done. }
    simpl in Hw2. exists s2. split; [|split].
    + unfold try. run E. run E2. unfold mret, M_ret. do 2 f_equal. rewrite u32_id; [lia|].
      unfold is_u32, USERSPACETOP in *. lia.
    + replace (4 * (k + 1)) with (sp + 4 - (sp + 4 - 4 * (k + 1))) at 2 by lia.
      eapply wrote_trans; [exact Hw|exact Hw2|lia..].
    + intros [|i] p Hp; simpl in Hp.
      * injection Hp as <-. apply word_be; [done|]. replace (sp + 4 - 4 * (k + 1) + 4 * Z.of_nat 0) with (sp - 4 * k) by lia. done.
      * apply (word_kept _ _ _ _ _ _ Hw2); [right; lia|].
        replace (sp + 4 - 4 * (k + 1) + 4 * Z.of_nat (S i)) with (sp + 4 - 4 * k + 4 * Z.of_nat i) by lia. by apply Hf.
Qed.

(** ** The stack of the new program *)

Lemma stack_mapped s : has_space s -> all_mapped (cur_map s) VmSpec.stackbase USERSPACETOP.
Proof.
  intros [Hv [y Hy]] va Hva. unfold cur_map. rewrite Hy.
  destruct (vm_space _ Hv _ _ Hy) as (_ & Hok & _), (vm_ram _ Hv) as (R1 & R2 & R3).
  assert (is_u32 va) as Hu.
  { assert (0 <= VmSpec.stackbase) by done. unfold is_u32, USERSPACETOP in *. lia. }
  rewrite (user_map_lookup Hok) by (done || lia). unfold VmSpec.view. rewrite (VmSpec.translate_place 0 (firstpaddr (k_vm s)))
    by (done || lia). unfold VmSpec.place_of. destruct ((as_vbase1 y <=? va) && _); [by eexists|].
  destruct ((as_vbase2 y <=? va) && _); [by eexists|]. change USERSTACK with USERSPACETOP.
  destruct (Z.leb_spec VmSpec.stackbase va), (Z.ltb_spec va USERSPACETOP); [by eexists|lia..].
Qed.

Lemma touch_user_ok s : has_space s -> touch_user s = Ok tt s.
Proof.
  intros [Hv [y Hy]]. destruct (vm_space _ Hv _ _ Hy) as (_ & Hok & _), (vm_ram _ Hv) as (R1 & R2 & R3).
  unfold touch_user. rewrite get_bind. unfold mbind, M_bind, deref. rewrite Hy. unfold kassert.
  by rewrite (VmProps.as_ok_asserts 0 (firstpaddr (k_vm s))) by (done || lia).
Qed.

Lemma argv_strings argv ptrs um av sp lo :
  Forall2 (fun a p => string_at um p a /\ lo <= p /\ p + Z.of_nat (length a) + 1 <= sp) argv ptrs ->
  (forall i p, ptrs !! i = Some p -> word_at um (av + 4 * Z.of_nat i) p) ->
  word_at um (av + 4 * Z.of_nat (length argv)) 0 -> argv_at um av argv.
Proof.
  intros Hf Hw H0'. split; [|done]. intros i a Ha. destruct (Forall2_lookup_l _ _ _ _ _ Hf Ha) as (p & Hp & Hs & _).
  exists p. split; [by apply Hw|done].
Qed.

(** The end of push_args: the vector below [e], with its terminator. *)
Lemma push_vector_ok ptrs e s (n := Z.of_nat (length ptrs)) : has_space s -> e + 4 <= USERSPACETOP -> 8 <= e - 4 * n ->
  all_mapped (cur_map s) (e - 4 * n) (e + 4) -> Forall is_u32 ptrs ->
  exists s', try (in_low (copyout [0; 0; 0; 0] e)) (fun _ => try (push_pointers ptrs (u32 (e - 4)))
      (fun sp => mret (Done (u32 (sp + 4), u32 (sp - 4))))) s = Ok (Done (e - 4 * n, e - 4 * n - 8)) s' /\
    wrote s (e - 4 * n) (4 * n + 4) s' /\
    (forall i p, ptrs !! i = Some p -> word_at (cur_map s') (e - 4 * n + 4 * Z.of_nat i) p) /\ word_at (cur_map s') e 0.
Proof.
  intros Hs Htop Hlow Hm Hu. unfold USERSPACETOP in Htop.
  destruct (stack_copyout [0; 0; 0; 0] e s Hs) as (s1 & E1 & Hw1 & Hl1); [lia| |].
  { apply (all_mapped_mapped _ (e - 4 * n) (e + 4)); [done|simpl; unfold USERSPACETOP; lia..]. }
  simpl in Hw1. destruct (push_pointers_ok ptrs s1 (e - 4) (w_space _ _ _ _ Hw1)) as (s2 & E2 & Hw2 & Hp).
  { unfold USERSPACETOP. lia. } { fold n. lia. }
  { fold n. apply (all_mapped_wrote _ _ _ _ _ _ Hw1). intros va Hva. apply Hm. lia. } { done. }
  fold n in E2, Hw2, Hp. replace (e - 4 + 4 - 4 * n) with (e - 4 * n) in * by lia.
  exists s2. split; [|split; [|split; [done|]]].
  - unfold try. run E1. rewrite (u32_id (e - 4)) by (unfold is_u32; lia). run E2. unfold mret, M_ret. do 3 f_equal;
      rewrite u32_id by (unfold is_u32; lia); lia.
  - replace (4 * n + 4) with (e + 4 - (e - 4 * n)) by lia. eapply wrote_trans; [exact Hw1|exact Hw2|lia..].
  - apply (word_kept _ _ _ _ _ _ Hw2); [right; lia|]. by exists [0; 0; 0; 0].
Qed.

(** Where the argument vector goes. *)
Definition argv_end (argv : list (list Z)) : Z := (USERSPACETOP - 4 - total argv - 4) / 4 * 4.

Lemma push_args_ok argv s : has_space s -> Forall (fun a => 0 ∉ a) argv -> total argv <= ARG_MAX ->
  exists s', push_args argv USERSPACETOP s =
      Ok (Done (argv_end argv - 4 * Z.of_nat (length argv), argv_end argv - 4 * Z.of_nat (length argv) - 8)) s' /\
    wrote s VmSpec.stackbase (USERSPACETOP - VmSpec.stackbase) s' /\
    argv_at (cur_map s') (argv_end argv - 4 * Z.of_nat (length argv)) argv.
Proof.
  intros Hs Hz Ht. pose proof (stack_mapped s Hs) as Hm. pose proof (total_nonneg argv). pose proof (total_argc argv) as Hc.
  assert (VmSpec.stackbase = USERSPACETOP - 73728) as Eb by done.
  set (n := Z.of_nat (length argv)) in *. set (T := USERSPACETOP) in *. assert (T = 2147483648) as ET by done.
  unfold ARG_MAX in Ht. set (e := argv_end argv). assert (T - 12 - total argv < e <= T - 8 - total argv /\ e mod 4 = 0) as [He He4].
  { unfold e, argv_end. fold T. split; [|apply Z.mod_mul; lia]. Z.div_mod_to_equations. lia. }
  unfold push_args. rewrite u32_id by (unfold is_u32; lia). rewrite (bind_eq _ _ _ _ _ (touch_user_ok s Hs)).
  destruct (stack_copyout [0; 0; 0; 0] (T - 4) s Hs) as (s1 & E1 & Hw1 & _); [lia| |].
  { apply (all_mapped_mapped _ VmSpec.stackbase T); [done|simpl; lia..]. }
  unfold try at 1. run E1. simpl in Hw1.
  destruct (push_strings_ok argv s1 (T - 4) (w_space _ _ _ _ Hw1)) as (ptrs & s2 & E2 & Hw2 & Hf); [fold T; lia|lia| |done|].
  { apply (all_mapped_wrote _ _ _ _ _ _ Hw1). intros va Hva. apply Hm. lia. }
  rewrite (bind_eq _ _ _ _ _ E2). cbn [fst snd]. rewrite (u32_id (T - 4 - total argv - 4)) by (unfold is_u32; lia).
  assert ((if negb ((T - 4 - total argv - 4) mod 4 =? 0) then T - 4 - total argv - 4 - (T - 4 - total argv - 4) mod 4
    else T - 4 - total argv - 4) = e) as ->.
  { unfold e, argv_end. fold T. set (z := T - 4 - total argv - 4). clearbody z.
    destruct (Z.eqb_spec (z mod 4) 0); simpl; Z.div_mod_to_equations; lia. }
  assert (length ptrs = length argv) as Elen by (symmetry; by eapply Forall2_length).
  assert (Forall is_u32 ptrs) as Hu.
  { apply Forall_lookup. intros i p Hp. destruct (Forall2_lookup_r _ _ _ _ _ Hf Hp) as (a & _ & _ & ? & ?). unfold is_u32. lia. }
  destruct (push_vector_ok ptrs e s2 (w_space _ _ _ _ Hw2)) as (s3 & E3 & Hw3 & Hp & H0'); rewrite ?Elen; fold n; try (done || lia).
  { intros va Hva. apply (w_dom _ _ _ _ Hw2), (w_dom _ _ _ _ Hw1), Hm. lia. }
  rewrite Elen in E3, Hw3, Hp. fold n in E3, Hw3, Hp. exists s3. split; [exact E3|]. split.
  - eapply wrote_trans; [|exact Hw3|..]; [eapply (wrote_trans _ _ _ _ _ _ _ VmSpec.stackbase T); [exact Hw1|exact Hw2|lia..]|lia..].
  - apply (argv_strings argv ptrs _ _ (T - 4) (T - 4 - total argv)); [|done|].
    + eapply Forall2_impl; [exact Hf|]. intros a p (Ha & ? & ?). split; [|done].
      apply (string_kept _ _ _ _ _ _ Hw3); [right; lia|done].
    + fold n. by replace (e - 4 * n + 4 * n) with e by lia.
Qed.

(** ** Reading the arguments *)

Lemma copystr_string m p room : forall i d d' j,
  Copyinout.copystr_loop (fun k => m !! (p + k)) (fun _ b d => Some (d ++ [b])) room i d = (d', Copyinout.Terminator j) ->
  exists str, d' = d ++ str ++ [0] /\ (0 ∉ str) /\ j = i + Z.of_nat (length str) /\
    Copyinout.load_bytes m (p + i) (length str + 1) = Some (str ++ [0]).
Proof.
  induction room as [|room IH]; intros i d d' j; simpl; [done|]. destruct (m !! (p + i)) as [b|] eqn:Hb; [|done].
  destruct (Z.eqb_spec b 0) as [->|Hn].
  - intros [= <- <-]. exists []. simpl. rewrite Hb. split_and!; [done|by apply not_elem_of_nil|lia|done].
  - intros (str & -> & Hz & -> & Hl)%IH. exists (b :: str). rewrite <- app_assoc. simpl. rewrite Hb. simpl.
    rewrite Z.add_assoc in Hl. rewrite Hl. split_and!; [done| |lia|done].
    rewrite not_elem_of_cons. by split; [apply not_eq_sym|].
Qed.

Lemma copyinstr_at_ok p at_ room size l r l' : copyinstr_at (G := G) p at_ room size l = Ok r l' ->
  l' = l /\ forall str n, r = Done (str, n) ->
    string_at (v_mem l) p str /\ n = Z.of_nat (length str) + 1 /\ at_ + n <= size.
Proof.
  unfold copyinstr_at. destruct (Copyinout.copycheck p room) as [stop|e]; [|by intros [= <- <-]].
  rewrite get_bind. unfold Copyinout.copystr.
  destruct (Copyinout.copystr_loop _ _ _ _ _) as [d en] eqn:E.
  assert (forall r0, (if at_ + Z.of_nat (length d) >? size then raise FBounds else mret r0) l = Ok r l' ->
    l' = l /\ r = r0 /\ at_ + Z.of_nat (length d) <= size) as Hif.
  { intros r0. destruct (Z.gtb_spec (at_ + Z.of_nat (length d)) size); [done|]. intros [= <- <-]. split_and!; [done|done|lia]. }
  destruct en as [j| |]; intros Hr; apply Hif in Hr as (-> & -> & Hle); (split; [done|]); intros str n [=].
  apply copystr_string in E as (str' & -> & Hz & -> & Hl). simpl in *.
  rewrite Z.add_0_r in Hl. rewrite length_app in *. simpl in *. subst n.
  assert (str = str') as ->; [|split_and!; [by split|lia|lia]].
  subst str. replace (length str' + 1 - 1)%nat with (length str') by lia. by rewrite take_app_length.
Qed.

(** The word at [a] can be read by the kernel. *)
Definition readable (s : kstate G) (a : Z) : Prop :=
  if a <? USERSPACETOP then is_Some (cur_map s !! a) else a - Vm.MIPS_KSEG0 + 4 <= lastpaddr (k_vm s).

Lemma user_word_ok p s w s' : user_word p s = Ok w s' -> s' = s /\ readable s p.
Proof.
  unfold user_word, readable. destruct (negb _); [done|]. rewrite get_bind.
  destruct (Z.geb_spec p USERSPACETOP), (Z.ltb_spec p USERSPACETOP); try lia.
  - destruct (Z.leb_spec (p - Vm.MIPS_KSEG0 + 4) (lastpaddr (k_vm s))); [|done]. by intros [= _ <-].
  - unfold mbind, M_bind, deref. destruct (Copyinout.load_bytes (cur_map s) p 4) as [bs|] eqn:E; [|done].
    intros [= _ <-]. split; [done|]. simpl in E. destruct (cur_map s !! p); [by eexists|done].
Qed.

(** A call that only looks at the memory of the process. *)
Lemma in_low_look {R} (c : M (vstate G) R) s r s' : has_space s -> in_low c s = Ok r s' ->
  (forall r l', c (low_view s) = Ok r l' -> l' = low_view s) ->
  c (low_view s) = Ok r (low_view s) /\ cur_map s' = cur_map s /\ has_space s' /\
  curas s' = curas s /\ curproc s' = curproc s /\ lastpaddr (k_vm s') = lastpaddr (k_vm s).
Proof.
  intros Hs E Hc. destruct (c (low_view s)) as [r0 l|] eqn:Ec.
  2:{ unfold in_low, in_fs, Openfile.lift in E. simpl in E. by rewrite Ec in E. }
  pose proof (Hc _ _ eq_refl) as ->.
  destruct (in_low_mem c s r0 (low_view s) Hs Ec ltac:(done)) as (s1 & E1 & -> & Hm & Hs1).
  rewrite E in E1. injection E1 as -> ->. done.
Qed.

(** ** The loops end *)

(** The first [i] words of the vector can be read. *)
Definition scanned (s : kstate G) (ua i : Z) : Prop :=
  0 <= i /\ is_u32 ua /\ forall j, 0 <= j < i -> readable s (ua + 4 * j).

Lemma scanned_bound s ua i : has_space s -> scanned s ua i -> is_u32 (ua + 4 * i).
Proof.
  intros [Hv _] (Hi & Hu & Hr). destruct (vm_ram _ Hv) as (_ & _ & _ & Hl). clear Hv. unfold is_u32 in *.
  destruct (decide (i = 0)) as [->|]; [lia|]. specialize (Hr (i - 1) ltac:(lia)). unfold readable in Hr.
  set (la := lastpaddr (k_vm s)) in *. clearbody la.
  destruct (Z.ltb_spec (ua + 4 * (i - 1)) USERSPACETOP); unfold USERSPACETOP, Vm.MIPS_KSEG0 in *; lia.
Qed.

Lemma scanned_size s ua i : scanned s ua i -> i <= Z.of_nat (arg_words s).
Proof.
  intros (Hi & Hu & Hr). unfold arg_words.
  assert (exists k, 0 <= k <= i /\ (0 < k -> ua + 4 * (k - 1) < USERSPACETOP) /\ (k < i -> USERSPACETOP <= ua + 4 * k))
    as (k & Hki & Hlo & Hhi).
  { exists (Z.max 0 (Z.min i ((USERSPACETOP - ua + 3) / 4))). unfold USERSPACETOP. Z.div_mod_to_equations; lia. }
  assert (k <= Z.of_nat (size (cur_map s))) as Hk.
  { apply (stride_size _ ua 4); [lia|]. intros j Hj. specialize (Hr j ltac:(lia)). unfold readable in Hr.
    destruct (Z.ltb_spec (ua + 4 * j) USERSPACETOP); [done|lia]. }
  destruct (decide (i <= k)); [lia|]. specialize (Hr (i - 1) ltac:(lia)). unfold readable in Hr.
  set (la := lastpaddr (k_vm s)) in *. clearbody la.
  destruct (Z.ltb_spec (ua + 4 * (i - 1)) USERSPACETOP); unfold USERSPACETOP, Vm.MIPS_KSEG0 in *; lia.
Qed.

Lemma scanned_next s ua i w s' : has_space s -> scanned s ua i -> user_word (u32 (ua + 4 * i)) s = Ok w s' ->
  s' = s /\ scanned s ua (i + 1).
Proof.
  intros Hs Hsc. rewrite u32_id by by apply scanned_bound in Hsc. intros [-> Hr]%user_word_ok. split; [done|].
  destruct Hsc as (Hi & Hu & Hm). split; [lia|]. split; [done|]. intros j Hj.
  destruct (decide (j = i)) as [->|]; [done|apply Hm; lia].
Qed.

Lemma user_word_fuel p s : user_word p s <> Fault FFuel.
Proof.
  unfold user_word. destruct (negb _); [done|]. rewrite get_bind. destruct (p >=? _); [by destruct (_ <=? _)|].
  unfold mbind, M_bind, deref. by destruct (Copyinout.load_bytes _ _ _).
Qed.

Lemma count_args_fuel fuel : forall ua i s, has_space s -> scanned s ua i ->
  Z.of_nat (arg_words s) <= i + Z.of_nat fuel -> count_args fuel ua i s <> Fault FFuel.
Proof.
  induction fuel as [|fuel IH]; intros ua i s Hs Hsc Hf; simpl; destruct (_ =? 0); try done; destruct (_ >=? _); try done;
    unfold mbind, M_bind; (destruct (user_word _ s) as [w s1|f] eqn:E; [|intros [= ->]; by apply user_word_fuel in E]);
    destruct (scanned_next _ _ _ _ _ Hs Hsc E) as [-> Hsc']; destruct (w =? 0); try done.
  - apply scanned_size in Hsc'. lia.
  - apply IH; [done..|lia].
Qed.

Lemma copyinstr_at_fuel p at_ room size l : copyinstr_at (G := G) p at_ room size l <> Fault FFuel.
Proof.
  unfold copyinstr_at. destruct (Copyinout.copycheck p room); [|done]. rewrite get_bind.
  destruct (Copyinout.copystr _ _ _ _ _). by destruct (_ >? size).
Qed.

Lemma copy_args_fuel fuel : forall ua i idx len argv s, has_space s -> scanned s ua i ->
  Z.of_nat (arg_words s) <= i + Z.of_nat fuel -> copy_args fuel ua i idx len argv s <> Fault FFuel.
Proof.
  induction fuel as [|fuel IH]; intros ua i idx len argv s Hs Hsc Hf; simpl; unfold mbind at 1, M_bind at 1;
    (destruct (user_word _ s) as [w s1|f] eqn:E; [|intros [= ->]; by apply user_word_fuel in E]);
    destruct (scanned_next _ _ _ _ _ Hs Hsc E) as [-> Hsc']; destruct (w =? 0); try done;
    unfold try, mbind, M_bind; (destruct (in_low _ s) as [r s1|f] eqn:El;
      [|unfold in_low, in_fs, Openfile.lift in El; simpl in El;
        destruct (copyinstr_at _ _ _ _ _) eqn:Ec in El; [done|]; intros [= ->]; injection El as ->;
        by apply copyinstr_at_fuel in Ec]).
  - apply scanned_size in Hsc'. lia.
  - destruct (in_low_look _ _ _ _ Hs El) as (_ & Hm & Hs1 & _ & _ & Hlast); [intros r0 l0 E0; by apply copyinstr_at_ok in E0 as [-> _]|].
    destruct r as [[str n]|e]; [|done]. cbn [fst snd]. destruct (_ >=? ARG_MAX); [done|].
    unfold scanned, readable, arg_words in *. apply IH; [done|by rewrite Hm, Hlast|rewrite Hm, Hlast; lia].
Qed.

(** ** The theorems *)

(** C33: execv's loops over the argument vector end.  For every 32-bit address
    of the vector and whatever it holds, neither the loop that counts the
    arguments nor the one that copies them takes more turns than there are
    bytes it can read, those the process has mapped and, since the loops do not
    stop at USERSPACETOP, those of RAM in the kernel's direct map: it ends with
    a result, an error, or the fault of the word it cannot read. *)
Theorem execv_loops_end s userargs len : has_space s -> is_u32 userargs ->
  count_args (arg_words s) userargs 0 s <> Fault FFuel /\
  copy_args (arg_words s) userargs 0 0 len [] s <> Fault FFuel.
Proof.
  intros Hs Hu. assert (scanned s userargs 0) as Hsc by (split_and!; [done..|intros j; lia]).
  split; [apply count_args_fuel|apply copy_args_fuel]; done || lia.
Qed.

(** ** What is in memory is read *)

Lemma copystr_loop_complete m p str : forall room i d, (0 ∉ str) -> (length str < room)%nat ->
  Copyinout.load_bytes m (p + i) (length str + 1) = Some (str ++ [0]) ->
  Copyinout.copystr_loop (fun k => m !! (p + k)) (fun _ b d => Some (d ++ [b])) room i d =
    (d ++ str ++ [0], Copyinout.Terminator (i + Z.of_nat (length str))).
Proof.
  induction str as [|b str IH]; intros [|room] i d Hz Hr Hl; simpl in *; try lia.
  - destruct (m !! (p + i)) as [c|]; [|done]. injection Hl as ->. simpl. by rewrite Z.add_0_r.
  - apply not_elem_of_cons in Hz as [Hb Hz]. destruct (m !! (p + i)) as [c|]; [|done]. simpl in Hl.
    destruct (Copyinout.load_bytes m (p + i + 1) (length str + 1)) as [bs|] eqn:E; [|done]. injection Hl as -> ->.
    destruct (Z.eqb_spec b 0); [done|]. rewrite (IH room (i + 1)), <- app_assoc; [|done|lia|by rewrite Z.add_assoc].
    do 2 f_equal. lia.
Qed.

Lemma copyinstr_at_eq p at_ room size (l : vstate G) str (n := Z.of_nat (length str) + 1) :
  string_at (v_mem l) p str -> 0 <= p -> p + n <= USERSPACETOP -> n <= room <= ARG_MAX ->
  copyinstr_at p at_ room size l = if at_ + n >? size then Fault FBounds else Ok (Done (str, n)) l.
Proof.
  intros [Hz Hl] Hp Htop Hroom. unfold copyinstr_at.
  rewrite (Copyinout.copycheck_ok p room) by (unfold is_u32, ARG_MAX, USERSPACETOP in *; lia).
  unfold ARG_MAX in Hroom. assert (p + room <= 2 ^ 32) by (unfold USERSPACETOP in *; lia).
  destruct (Z.ltb_spec p USERSPACETOP), (Z.ltb_spec 0 room), (Z.leb_spec (p + room) (2 ^ 32)); try lia. simpl. rewrite get_bind.
  unfold Copyinout.copystr. rewrite (copystr_loop_complete _ _ str); [|done|unfold n in *; lia|by rewrite Z.add_0_r].
  simpl. rewrite length_app. simpl. replace (at_ + Z.of_nat (length str + 1)) with (at_ + n) by (unfold n; lia).
  destruct (at_ + n >? size); [done|].
  replace (length str + 1 - 1)%nat with (length str) by lia. by rewrite take_app_length.
Qed.

Lemma user_word_complete s p w : word_at (cur_map s) p w -> p mod 4 = 0 -> p < USERSPACETOP -> user_word p s = Ok w s.
Proof.
  intros (bs & Hl & <-) Hp Ht. unfold user_word. rewrite Hp. change (negb (0 =? 0)) with false. cbv iota.
  rewrite get_bind. destruct (Z.geb_spec p USERSPACETOP); [lia|]. unfold mbind, M_bind, deref. by rewrite Hl.
Qed.

(** Addresses that are mapped are user addresses. *)
Lemma cur_map_user s va : has_space s -> is_Some (cur_map s !! va) -> 0 <= va < USERSPACETOP.
Proof.
  intros [Hv [y Hy]] Hm. unfold cur_map in Hm. rewrite Hy in Hm.
  destruct (vm_space _ Hv _ _ Hy) as (_ & Hok & _), (vm_ram _ Hv) as (R1 & R2 & R3).
  pose proof (user_map_user Hok _ _ Hm) as Hu. split; [apply Hu|].
  rewrite (user_map_lookup Hok) in Hm by (done || lia). destruct Hm as [b Hb]. unfold VmSpec.view in Hb.
  apply fmap_Some in Hb as (q & Hq & _). by apply (translate_user Hok ltac:(lia) va q).
Qed.

Lemma load_last um p n bs : Copyinout.load_bytes um p (n + 1) = Some bs -> is_Some (um !! (p + Z.of_nat n)).
Proof.
  intros [Hlen Hi]%Copyinout.load_bytes_Some. rewrite Hi by lia. apply lookup_lt_is_Some. lia.
Qed.

Lemma load_first um p n bs : Copyinout.load_bytes um p (S n) = Some bs -> is_Some (um !! p).
Proof. simpl. destruct (um !! p); [by eexists|done]. Qed.

(** Argument vectors of programs: aligned, with pointers that are not null. *)
Definition vector_at (um : gmap Z Z) (ua : Z) (argv : list (list Z)) : Prop :=
  ua mod 4 = 0 /\ 0 <= ua /\ word_at um (ua + 4 * Z.of_nat (length argv)) 0 /\
  forall i a, argv !! i = Some a -> exists p, p <> 0 /\ word_at um (ua + 4 * Z.of_nat i) p /\ string_at um p a.

Lemma vector_cons um ua a argv : vector_at um ua (a :: argv) ->
  (exists p, p <> 0 /\ word_at um ua p /\ string_at um p a) /\ vector_at um (ua + 4) argv.
Proof.
  intros (Ha & H0' & Hn & Hi). split.
  - destruct (Hi 0%nat a eq_refl) as (p & Hp & Hw & Hs). rewrite Z.add_0_r in Hw. eauto.
  - split; [Z.div_mod_to_equations; lia|]. split; [lia|]. split.
    + simpl in Hn. replace (ua + 4 + 4 * Z.of_nat (length argv)) with (ua + 4 * Z.of_nat (S (length argv))) by lia. done.
    + intros i b Hb. destruct (Hi (S i) b Hb) as (p & Hp & Hw & Hs). exists p. split; [done|].
      replace (ua + 4 + 4 * Z.of_nat i) with (ua + 4 * Z.of_nat (S i)) by lia. done.
Qed.

Lemma word_user s p w : has_space s -> word_at (cur_map s) p w -> 0 <= p < USERSPACETOP.
Proof. intros Hs (bs & Hl & _). apply (cur_map_user s p Hs). by eapply (load_first _ _ 3). Qed.

Lemma vector_size s ua argv : has_space s -> vector_at (cur_map s) ua argv -> (length argv < arg_words s)%nat.
Proof.
  intros Hs (Ha & H0' & Hn & Hi). unfold arg_words.
  cut (Z.of_nat (length argv) + 1 <= Z.of_nat (size (cur_map s))); [lia|]. apply (stride_size _ ua 4); [lia|].
  intros j Hj. destruct (decide (j = Z.of_nat (length argv))) as [->|].
  - destruct Hn as (bs & Hl & _). by eapply (load_first _ _ 3).
  - destruct (lookup_lt_is_Some_2 argv (Z.to_nat j)) as [a Ha']; [lia|].
    destruct (Hi _ _ Ha') as (p & _ & (bs & Hl & _) & _). replace (Z.of_nat (Z.to_nat j)) with j in Hl by lia.
    by eapply (load_first _ _ 3).
Qed.

(** A string in memory lies in user space. *)
Lemma string_user s p a : has_space s -> string_at (cur_map s) p a ->
  0 <= p /\ p + (Z.of_nat (length a) + 1) <= USERSPACETOP.
Proof.
  intros Hs [_ Hl]. pose proof (cur_map_user s _ Hs (load_last _ _ _ _ Hl)) as Hlast.
  rewrite Nat.add_1_r in Hl. apply load_first, (cur_map_user s _ Hs) in Hl. lia.
Qed.

(** One turn of the loop, up to copyinstr. *)
Lemma copy_args_turn fuel ua i idx len done s p : has_space s -> word_at (cur_map s) (ua + 4 * i) p ->
  p <> 0 -> (ua + 4 * i) mod 4 = 0 -> copy_args (S fuel) ua i idx len done s =
  try (in_low (copyinstr_at p idx (u32 (ARG_MAX - len)) ARG_MAX)) (fun x =>
    if u32 (idx + x.2 - 1) >=? ARG_MAX then mret (Err E2BIG) else
    copy_args fuel ua (i + 1) (idx + x.2) x.2 (done ++ [x.1])) s.
Proof.
  intros Hs Hw Hp Ha. pose proof (word_user _ _ _ Hs Hw) as Hb. cbn [copy_args].
  rewrite (u32_id (ua + _)) by (unfold is_u32, USERSPACETOP in *; lia).
  run (user_word_complete _ _ _ Hw Ha ltac:(lia)). by destruct (Z.eqb_spec p 0) as [|_].
Qed.

(** A string that fits. *)
Lemma copy_args_step fuel ua i idx len done s p a (n := Z.of_nat (length a) + 1) : has_space s ->
  word_at (cur_map s) (ua + 4 * i) p -> p <> 0 -> (ua + 4 * i) mod 4 = 0 -> string_at (cur_map s) p a ->
  0 <= len -> 0 <= idx -> len + n <= ARG_MAX -> idx + n <= ARG_MAX ->
  exists s1, copy_args (S fuel) ua i idx len done s = copy_args fuel ua (i + 1) (idx + n) n (done ++ [a]) s1 /\
    has_space s1 /\ cur_map s1 = cur_map s.
Proof.
  intros Hs Hw Hp Ha Hst Hl Hi H1' H2'. unfold ARG_MAX in H1', H2'. destruct (string_user s p a Hs Hst) as [Hp0 Hp1].
  pose proof (copyinstr_at_eq p idx (u32 (ARG_MAX - len)) ARG_MAX (low_view s) a Hst Hp0 Hp1
    ltac:(rewrite u32_id by (unfold is_u32, ARG_MAX; lia); unfold ARG_MAX; lia)) as Hc.
  destruct (Z.gtb_spec (idx + (Z.of_nat (length a) + 1)) ARG_MAX); [unfold ARG_MAX in *; lia|].
  destruct (in_low_mem _ s _ _ Hs Hc ltac:(done)) as (s1 & E1 & _ & Hm & Hs1).
  exists s1. split; [|done]. rewrite (copy_args_turn fuel ua i idx len done s p) by done.
  unfold try. run E1. cbn [fst snd]. fold n. destruct (Z.geb_spec (u32 (idx + n - 1)) ARG_MAX) as [Hbig|_]; [|done].
  rewrite u32_id in Hbig by (unfold is_u32; lia). unfold ARG_MAX in Hbig. lia.
Qed.

Lemma copy_args_complete rest : forall fuel ua len done s, has_space s ->
  vector_at (cur_map s) (ua + 4 * Z.of_nat (length done)) rest -> 0 <= ua -> (length rest <= fuel)%nat ->
  0 <= len -> len + total rest <= ARG_MAX -> total done + total rest <= ARG_MAX ->
  exists s', copy_args fuel ua (Z.of_nat (length done)) (total done) len done s = Ok (Done (done ++ rest)) s' /\
    has_space s' /\ cur_map s' = cur_map s.
Proof.
  induction rest as [|a rest IH]; intros fuel ua len done s Hs Hv Hua Hf Hlen Hl1 Hl2.
  - destruct Hv as (Ha & H0' & Hn & _). cbn [length] in Hn. change (4 * Z.of_nat 0) with 0 in Hn. rewrite Z.add_0_r in Hn.
    pose proof (word_user _ _ _ Hs Hn) as Hb. exists s. rewrite app_nil_r. split; [|done]. unfold USERSPACETOP in Hb.
    destruct fuel; cbn [copy_args]; rewrite (u32_id (ua + _)) by (unfold is_u32; lia);
      by run (user_word_complete _ _ _ Hn Ha ltac:(unfold USERSPACETOP; lia)).
  - pose proof (proj1 Hv) as Ha4. apply vector_cons in Hv as ((p & Hp & Hw & Hst) & Hv).
    destruct fuel as [|fuel]; [simpl in Hf; lia|]. simpl in Hf, Hl1, Hl2.
    pose proof (total_nonneg rest). pose proof (total_nonneg done).
    destruct (copy_args_step fuel ua (Z.of_nat (length done)) (total done) len done s p a) as (s1 & E1 & Hs1 & Hm);
      try done; try lia.
    destruct (IH fuel ua (Z.of_nat (length a) + 1) (done ++ [a]) s1 Hs1) as (s2 & E2 & Hs2 & Hm2); try done; try lia.
    + rewrite Hm, length_app. simpl. replace (ua + 4 * Z.of_nat (length done + 1)) with (ua + 4 * Z.of_nat (length done) + 4) by lia. done.
    + rewrite total_snoc. lia.
    + exists s2. split; [|by rewrite Hm2]. rewrite E1, <- app_assoc in *. simpl in E2. rewrite <- E2.
      f_equal; [rewrite length_app; simpl; lia|rewrite total_snoc; lia].
Qed.

(** execv writes past its argument buffer.  The room given to copyinstr is
    that of the string before, not what is left of the buffer, and the check
    against ARG_MAX comes after the copy: with three arguments that do not fit
    together, each of which is short enough, the third one is written beyond
    the buffer of ARG_MAX bytes. *)
Theorem execv_overflow s userargs len a b c : has_space s -> vector_at (cur_map s) userargs [a; b; c] ->
  0 <= len -> len + total [a] <= ARG_MAX -> total [a; b] <= ARG_MAX -> total [b; c] <= ARG_MAX ->
  ARG_MAX < total [a; b; c] ->
  copy_args (arg_words s) userargs 0 0 len [] s = Fault FBounds.
Proof.
  intros Hs Hv Hlen H1' H2' H3' Hbig. pose proof (vector_size _ _ _ Hs Hv) as Hsz. pose proof (proj1 Hv) as A4. simpl in *.
  destruct (arg_words s) as [|[|[|fuel]]]; [lia..|].
  apply vector_cons in Hv as ((p & Hp & Hw & Hst) & Hv). pose proof (proj1 Hv) as B4.
  apply vector_cons in Hv as ((q & Hq & Hwq & Hsq) & Hv). pose proof (proj1 Hv) as C4.
  apply vector_cons in Hv as ((r & Hr & Hwr & Hsr) & _).
  destruct (copy_args_step (S (S fuel)) userargs 0 0 len [] s p a Hs) as (s1 & -> & Hs1 & Hm1);
    [by replace (userargs + 4 * 0) with userargs by lia|done|by replace (userargs + 4 * 0) with userargs by lia|done|lia..|].
  destruct (copy_args_step (S fuel) userargs (0 + 1) (0 + (Z.of_nat (length a) + 1)) (Z.of_nat (length a) + 1) ([] ++ [a]) s1 q b Hs1)
    as (s2 & -> & Hs2 & Hm2); rewrite ?Hm1;
    [by replace (userargs + 4 * (0 + 1)) with (userargs + 4) by lia|done|by replace (userargs + 4 * (0 + 1)) with (userargs + 4) by lia|done|lia..|].
  assert (string_at (cur_map s2) r c) as Hsr2 by (by rewrite Hm2, Hm1).
  rewrite (copy_args_turn fuel _ _ _ _ _ s2 r Hs2);
    [|rewrite Hm2, Hm1; by replace (userargs + 4 * (0 + 1 + 1)) with (userargs + 4 + 4) by lia|done|
      by replace (userargs + 4 * (0 + 1 + 1)) with (userargs + 4 + 4) by lia].
  destruct (string_user s2 r c Hs2 Hsr2) as [Hr0 Hr1]. unfold ARG_MAX in H3', Hbig.
  pose proof (copyinstr_at_eq r (0 + (Z.of_nat (length a) + 1) + (Z.of_nat (length b) + 1)) (u32 (ARG_MAX - (Z.of_nat (length b) + 1)))
    ARG_MAX (low_view s2) c Hsr2 Hr0 Hr1 ltac:(rewrite u32_id by (unfold is_u32, ARG_MAX; lia); unfold ARG_MAX; lia)) as Hc.
  destruct (Z.gtb_spec (0 + (Z.of_nat (length a) + 1) + (Z.of_nat (length b) + 1) + (Z.of_nat (length c) + 1)) ARG_MAX);
    [|unfold ARG_MAX in *; lia].
  unfold try, mbind, M_bind, in_low, in_fs, Openfile.lift. cbn [fs_view Openfile.low]. by rewrite Hc.
Qed.

(** C32: execv hands the arguments over.  When the old program gives a vector of
    strings that, with the [len] bytes of the program's name, fit in ARG_MAX
    bytes, the copy loop reads exactly these strings; laid out in the new address
    space, always with success, they form a word-aligned vector of pointers to
    the same strings, ended by a null pointer, and the stack pointer is below
    it. *)
Theorem execv_arguments s userargs len argv s2 : has_space s -> has_space s2 ->
  vector_at (cur_map s) userargs argv -> 0 <= len -> len + total argv <= ARG_MAX ->
  exists s1 av sp s3,
    copy_args (arg_words s) userargs 0 0 len [] s = Ok (Done argv) s1 /\
    push_args argv USERSTACK s2 = Ok (Done (av, sp)) s3 /\
    argv_at (cur_map s3) av argv /\ av mod 4 = 0 /\ sp mod 4 = 0 /\ sp < av.
Proof.
  intros Hs Hs2 Hv Hlen Hfit. pose proof (vector_size _ _ _ Hs Hv) as Hsz.
  assert (Forall (fun a => 0 ∉ a) argv) as Hz.
  { apply Forall_lookup. intros i a Ha. destruct Hv as (_ & _ & _ & Hi). by destruct (Hi i a Ha) as (p & _ & _ & ? & _). }
  destruct (copy_args_complete argv (arg_words s) userargs len [] s Hs) as (s1 & E1 & _);
    [simpl; by rewrite Z.add_0_r|apply Hv|lia|done|done|simpl; lia|].
  destruct (push_args_ok argv s2 Hs2 Hz ltac:(lia)) as (s3 & E3 & _ & Hat).
  eexists s1, _, _, s3. split; [exact E1|]. split; [exact E3|]. split; [done|].
  assert (argv_end argv mod 4 = 0) as He by (apply Z.mod_mul; lia).
  set (e := argv_end argv) in *. clearbody e. split_and!; [Z.div_mod_to_equations; lia..|lia].
Qed.
End Write.

(** ** Witnesses *)

#[local] Existing Instance VfsDevs.NoBackend.

(** A process whose memory starts with a vector of one pointer, to the string
    [hi] 16 bytes further on. *)
Definition arg_vm : vmstate :=
  VmState 0x16000 0x100000 (fun a => default 0 (({[0x1001 := 0x40; 0x1003 := 0x10; 0x1010 := 104; 0x1011 := 105]} : gmap Z Z) !! a))
    {[7 := VmProps.demo_as]} [] 3 7 [] 8.
Definition arg_k : kstate unit := set_vm arg_vm (KernelDemo.demo_k (fun _ => 0)).

Lemma arg_space : has_space arg_k.
Proof.
  destruct KernelDemo.demo_vm_ok as [V1 V2 V3 V4]. split; [by split|by eexists].
Qed.

Lemma execv_loops_end_witness : count_args (arg_words arg_k) 0x400000 0 arg_k <> Fault FFuel.
Proof. apply (execv_loops_end arg_k 0x400000 4 arg_space). unfold is_u32. lia. Defined.

Lemma arg_lookup va : is_u32 va -> cur_map arg_k !! va = VmSpec.view (pmem arg_vm) VmProps.demo_as va.
Proof.
  intros Hva. unfold cur_map. assert (spaces (k_vm arg_k) !! curas arg_k = Some VmProps.demo_as) as -> by reflexivity.
  exact (user_map_lookup VmProps.demo_as_ok ltac:(lia) (pmem arg_vm) va Hva).
Qed.

(** Reading what a concrete physical memory shows. *)
Lemma load_shown um pm p n bs : (forall va, is_u32 va -> um !! va = VmSpec.view pm VmProps.demo_as va) ->
  0 <= p -> 0 <= n -> p + n <= 2 ^ 31 ->
  (fun i => VmSpec.view pm VmProps.demo_as (p + i)) <$> seqZ 0 n = Some <$> bs ->
  Copyinout.load_bytes um p (Z.to_nat n) = Some bs.
Proof.
  intros Hum Hp Hn Ht E. apply Copyinout.load_bytes_Some. pose proof (f_equal length E) as El.
  rewrite !length_fmap, length_seqZ in El. split; [done|]. intros i Hi. rewrite Hum by (unfold is_u32; lia).
  pose proof (f_equal (fun l => l !! i) E) as Ei. simpl in Ei. rewrite !list_lookup_fmap, lookup_seqZ_lt in Ei by lia.
  destruct (bs !! i); [|done]. simpl in Ei. injection Ei as <-. done.
Qed.

Lemma arg_vector : vector_at (cur_map arg_k) 0x400000 [[104; 105]].
Proof.
  split; [done|]. split; [done|]. split.
  - exists [0; 0; 0; 0]. split; [|done]. apply (load_shown _ (pmem arg_vm) _ 4); [apply arg_lookup|simpl; lia..|].
    vm_compute. reflexivity.
  - intros [|i] a Ha; [|done]. injection Ha as <-. exists 0x400010. split; [done|]. split; [|split; [by vm_compute; set_solver|]].
    + exists [0; 0x40; 0; 0x10]. split; [|done]. apply (load_shown _ (pmem arg_vm) _ 4); [apply arg_lookup|simpl; lia..|].
      vm_compute. reflexivity.
    + apply (load_shown _ (pmem arg_vm) _ 3); [apply arg_lookup|simpl; lia..|]. vm_compute. reflexivity.
Qed.

Lemma execv_arguments_witness : exists s1 av sp s3,
  copy_args (arg_words arg_k) 0x400000 0 0 4 [] arg_k = Ok (Done [[104; 105]]) s1 /\
  push_args [[104; 105]] USERSTACK arg_k = Ok (Done (av, sp)) s3 /\
  argv_at (cur_map s3) av [[104; 105]] /\ av mod 4 = 0 /\ sp mod 4 = 0 /\ sp < av.
Proof.
  apply (execv_arguments arg_k 0x400000 4 [[104; 105]] arg_k arg_space arg_space arg_vector); [lia|].
  unfold ARG_MAX. simpl. lia.
Defined.
(** A process with three long arguments: the strings in its first region, the
    vector in its second one. *)
Definition long_pm (pa : Z) : Z :=
  if pa <? 0x3000 then (if (pa =? 0x17d0) || (pa =? 0x17d2) || (pa =? 0x238b) then 0 else 65)
  else default 0 (({[0x3001 := 0x40; 0x3005 := 0x40; 0x3006 := 0x07; 0x3007 := 0xd1;
                     0x3009 := 0x40; 0x300a := 0x07; 0x300b := 0xd3]} : gmap Z Z) !! pa).
Definition long_k : kstate unit :=
  set_vm (VmState 0x16000 0x100000 long_pm {[7 := VmProps.demo_as]} [] 3 7 [] 8) (KernelDemo.demo_k (fun _ => 0)).

Lemma long_space : has_space long_k.
Proof. destruct KernelDemo.demo_vm_ok as [V1 V2 V3 V4]. split; [by split|by eexists]. Qed.

Lemma long_lookup va : is_u32 va -> cur_map long_k !! va = VmSpec.view long_pm VmProps.demo_as va.
Proof.
  intros Hva. unfold cur_map. assert (spaces (k_vm long_k) !! curas long_k = Some VmProps.demo_as) as -> by reflexivity.
  exact (user_map_lookup VmProps.demo_as_ok ltac:(lia) long_pm va Hva).
Qed.

Lemma long_region1 va : 0x400000 <= va < 0x402000 -> cur_map long_k !! va = Some (long_pm (va - 0x400000 + 0x1000)).
Proof.
  intros Hva. rewrite long_lookup by (unfold is_u32; lia). unfold VmSpec.view.
  rewrite (VmSpec.translate_place 0 0x16000 VmProps.demo_as va VmProps.demo_as_ok) by (unfold is_u32; lia).
  unfold VmSpec.place_of. cbn [as_vbase1 as_npages1 VmProps.demo_as]. unfold Vm.PAGE_SIZE.
  destruct (Z.leb_spec 0x400000 va), (Z.ltb_spec va (0x400000 + 2 * 4096)); try lia. simpl. do 2 f_equal. lia.
Qed.

#[local] Ltac lia_tests := repeat match goal with
  | |- context [?a <? ?b] => destruct (Z.ltb_spec a b)
  | |- context [?a =? ?b] => destruct (Z.eqb_spec a b)
  end; simpl; lia.

Definition long_str (n : Z) : list Z := replicate (Z.to_nat n) 65.

Lemma long_str_length n : length (long_str n) = Z.to_nat n.
Proof. apply length_replicate. Qed.

Lemma long_string p n : 0x400000 <= p -> 0 <= n -> p + n < 0x402000 ->
  (forall i, 0 <= i < n -> long_pm (p + i - 0x400000 + 0x1000) = 65) ->
  long_pm (p + n - 0x400000 + 0x1000) = 0 -> string_at (cur_map long_k) p (long_str n).
Proof.
  intros Hp Hn0 Hn Hi H0. unfold long_str. split; [intros [? _]%elem_of_replicate; done|].
  apply Copyinout.load_bytes_Some. rewrite length_app, length_replicate. split; [done|]. intros i Hlt.
  rewrite long_region1 by lia. destruct (decide (Z.of_nat i = n)) as [E|].
  - rewrite E, H0, lookup_app_r, length_replicate by (rewrite length_replicate; lia).
    by replace (i - Z.to_nat n)%nat with 0%nat by lia.
  - rewrite Hi, lookup_app_l by (rewrite ?length_replicate; lia). by rewrite lookup_replicate_2 by lia.
Qed.
#[local] Opaque long_str.

Lemma long_word p bs : 0x10000000 <= p < 0x10001000 ->
  (fun i => VmSpec.view long_pm VmProps.demo_as (p + i)) <$> seqZ 0 4 = Some <$> bs ->
  word_at (cur_map long_k) p (Bswap.be_value bs).
Proof. intros Hp E. exists bs. split; [|done]. apply (load_shown _ long_pm _ 4); [apply long_lookup|lia..|done]. Qed.

Lemma long_vector : vector_at (cur_map long_k) 0x10000000 [long_str 2000; long_str 1; long_str 3000].
Proof.
  split; [done|]. split; [done|]. split.
  - apply (long_word _ [0; 0; 0; 0]); [simpl length; lia|]. vm_compute. reflexivity.
  - intros [|[|[|i]]] a Ha; [injection Ha as <-..|done].
    + exists 0x400000. split; [done|]. split.
      * apply (long_word _ [0; 0x40; 0; 0]); [lia|]. vm_compute. reflexivity.
      * apply long_string; [lia..| |done]. intros i Hi. unfold long_pm. lia_tests.
    + exists 0x4007d1. split; [done|]. split.
      * apply (long_word _ [0; 0x40; 0x07; 0xd1]); [lia|]. vm_compute. reflexivity.
      * apply long_string; [lia..| |done]. intros i Hi. unfold long_pm. lia_tests.
    + exists 0x4007d3. split; [done|]. split.
      * apply (long_word _ [0; 0x40; 0x07; 0xd3]); [lia|]. vm_compute. reflexivity.
      * apply long_string; [lia..| |done]. intros i Hi. unfold long_pm. lia_tests.
Qed.

Lemma execv_overflow_witness : copy_args (arg_words long_k) 0x10000000 0 0 4 [] long_k = Fault FBounds.
Proof.
  apply (execv_overflow long_k 0x10000000 4 (long_str 2000) (long_str 1) (long_str 3000) long_space long_vector);
    [lia|cbn [total foldr]; rewrite ?long_str_length; unfold ARG_MAX; lia..].
Defined.
End ExecProps.
