(* ===== verification/LongLong.v ===== *)
(** * 64-bit arithmetic on a 32-bit machine

    Model of common/gcc-millicode but for qdivrem.c: the routines the compiler
    calls for operations on [long long], which work on the two halves of a
    value.  Each is proved to be the operation on integers, reduced to the
    range of [long long].

    A value of type [long long] is an integer in range; [union uu] is the pair
    of its halves, so that storing through [ll] or [ull] and reading [ui] or
    [si] are conversions.  The machine is big-endian: [ui[0]] is the high
    half. *)

From S2P Require Import Prelude.
Open Scope Z_scope.

(** union uu *)
Record uu := Uu { ui_H : Z; ui_L : Z }.

Module LongLong.
Definition INT_BITS : Z := 32.
Definition HALF_BITS : Z := 16.
Definition HHALF (x : Z) : Z := Z.shiftr (u32 x) HALF_BITS.
Definition LHALF (x : Z) : Z := Z.land (u32 x) (Z.shiftl 1 HALF_BITS - 1).
Definition LHUP (x : Z) : Z := u32 (Z.shiftl (u32 x) HALF_BITS).

(** The members of the union: written through [ll] or [ull], and read through
    [ull], [ll] and [si[H]]. *)
Definition of_ll (a : Z) : uu := Uu (u32 (Z.shiftr a 32)) (u32 a).
Definition ull (x : uu) : Z := ui_H x * 2 ^ 32 + ui_L x.
Definition ll (x : uu) : Z := s64 (ull x).
Definition si_H (x : uu) : Z := s32 (ui_H x).

(** ** The operations *)

Definition __adddi3 (a b : Z) : Z :=
  let aa := of_ll a in let bb := of_ll b in
  let sumL := u32 (ui_L aa + ui_L bb) in
  let sumH := u32 (ui_H aa + ui_H bb + Z.b2z (sumL <? ui_L bb)) in
  ll (Uu sumH sumL).

Definition __subdi3 (a b : Z) : Z :=
  let aa := of_ll a in let bb := of_ll b in
  let diffL := u32 (ui_L aa - ui_L bb) in
  let diffH := u32 (ui_H aa - ui_H bb - Z.b2z (diffL >? ui_L aa)) in
  ll (Uu diffH diffL).

Definition __negdi2 (a : Z) : Z :=
  let aa := of_ll a in
  let resL := u32 (- ui_L aa) in
  let resH := u32 (u32 (- ui_H aa) - Z.b2z (resL >? 0)) in
  ll (Uu resH resL).

Definition __anddi3 (a b : Z) : Z :=
  let aa := of_ll a in let bb := of_ll b in
  ll (Uu (Z.land (ui_H aa) (ui_H bb)) (Z.land (ui_L aa) (ui_L bb))).
Definition __iordi3 (a b : Z) : Z :=
  let aa := of_ll a in let bb := of_ll b in
  ll (Uu (Z.lor (ui_H aa) (ui_H bb)) (Z.lor (ui_L aa) (ui_L bb))).
Definition __xordi3 (a b : Z) : Z :=
  let aa := of_ll a in let bb := of_ll b in
  ll (Uu (Z.lxor (ui_H aa) (ui_H bb)) (Z.lxor (ui_L aa) (ui_L bb))).
Definition __one_cmpldi2 (a : Z) : Z :=
  let aa := of_ll a in ll (Uu (u32 (Z.lnot (ui_H aa))) (u32 (Z.lnot (ui_L aa)))).

Definition __ashldi3 (a shift : Z) : Z :=
  if shift =? 0 then a else
  let aa := of_ll a in
  ll (if shift >=? INT_BITS then Uu (u32 (Z.shiftl (ui_L aa) (shift - INT_BITS))) 0
      else Uu (Z.lor (u32 (Z.shiftl (ui_H aa) shift)) (Z.shiftr (ui_L aa) (INT_BITS - shift)))
              (u32 (Z.shiftl (ui_L aa) shift))).
Definition __lshldi3 (a shift : Z) : Z :=
  if shift =? 0 then a else
  let aa := of_ll a in
  ll (if shift >=? INT_BITS then Uu (u32 (Z.shiftl (ui_L aa) (shift - INT_BITS))) 0
      else Uu (Z.lor (u32 (Z.shiftl (ui_H aa) shift)) (Z.shiftr (ui_L aa) (INT_BITS - shift)))
              (u32 (Z.shiftl (ui_L aa) shift))).

Definition __ashrdi3 (a shift : Z) : Z :=
  if shift =? 0 then a else
  let aa := of_ll a in
  ll (if shift >=? INT_BITS then
        let s := Z.shiftr (Z.shiftr (si_H aa) (INT_BITS - 1)) 1 in
        Uu (u32 s) (u32 (Z.shiftr (si_H aa) (shift - INT_BITS)))
      else Uu (u32 (Z.shiftr (si_H aa) shift))
              (Z.lor (Z.shiftr (ui_L aa) shift) (u32 (Z.shiftl (ui_H aa) (INT_BITS - shift))))).

Definition __lshrdi3 (a shift : Z) : Z :=
  if shift =? 0 then a else
  let aa := of_ll a in
  ll (if shift >=? INT_BITS then Uu 0 (Z.shiftr (ui_H aa) (shift - INT_BITS))
      else Uu (Z.shiftr (ui_H aa) shift)
              (Z.lor (Z.shiftr (ui_L aa) shift) (u32 (Z.shiftl (ui_H aa) (INT_BITS - shift))))).

Definition __cmpdi2 (a b : Z) : Z :=
  let aa := of_ll a in let bb := of_ll b in
  if si_H aa <? si_H bb then 0 else if si_H aa >? si_H bb then 2 else
  if ui_L aa <? ui_L bb then 0 else if ui_L aa >? ui_L bb then 2 else 1.
Definition __ucmpdi2 (a b : Z) : Z :=
  let aa := of_ll a in let bb := of_ll b in
  if ui_H aa <? ui_H bb then 0 else if ui_H aa >? ui_H bb then 2 else
  if ui_L aa <? ui_L bb then 0 else if ui_L aa >? ui_L bb then 2 else 1.

(** static long long __lmulq(unsigned int u, unsigned int v); from the three
    partial products on: *)
Definition lmulq_sum (high mid low : Z) (neg : bool) : Z :=
  let prodh := u32 (high + HHALF high) in
  let prodl := LHUP high in
  let (prodh, prodl) :=
    if neg then
      let was := prodl in
      let prodl := u32 (prodl - LHUP mid) in
      (u32 (prodh - (HHALF mid + Z.b2z (prodl >? was))), prodl)
    else
      let was := prodl in
      let prodl := u32 (prodl + LHUP mid) in
      (u32 (prodh + (HHALF mid + Z.b2z (prodl <? was))), prodl) in
  let was := prodl in
  let prodl := u32 (prodl + LHUP low) in
  let prodh := u32 (prodh + (HHALF low + Z.b2z (prodl <? was))) in
  let prodl := u32 (prodl + low) in
  let prodh := if prodl <? low then u32 (prodh + 1) else prodh in
  ll (Uu prodh prodl).
Definition __lmulq (u v : Z) : Z :=
  let u1 := HHALF u in let u0 := LHALF u in let v1 := HHALF v in let v0 := LHALF v in
  let low := u32 (u0 * v0) in
  if (u1 =? 0) && (v1 =? 0) then low else
  let (udiff, neg) := if u1 >=? u0 then (u1 - u0, false) else (u0 - u1, true) in
  let (vdiff, neg) := if v0 >=? v1 then (v0 - v1, neg) else (v1 - v0, xorb neg true) in
  let mid := u32 (udiff * vdiff) in
  let high := u32 (u1 * v1) in
  lmulq_sum high mid low neg.

(** long long __muldi3(long long a, long long b); for arguments made
    positive: *)
Definition mul_halves (u v : uu) : Z :=
  if (ui_H u =? 0) && (ui_H v =? 0) then __lmulq (ui_L u) (ui_L v) else
  let low := of_ll (__lmulq (ui_L u) (ui_L v)) in
  let (udiff, negmid) := if ui_H u >=? ui_L u then (ui_H u - ui_L u, false) else (ui_L u - ui_H u, true) in
  let (vdiff, negmid) := if ui_L v >=? ui_H v then (ui_L v - ui_H v, negmid) else (ui_H v - ui_L v, xorb negmid true) in
  let mid := u32 (udiff * vdiff) in
  let high := u32 (ui_H u * ui_H v) in
  ll (Uu (u32 (high + (if negmid then u32 (- mid) else mid) + ui_L low + ui_H low)) (ui_L low)).
Definition __muldi3 (a b : Z) : Z :=
  let (u, negall) := if a >=? 0 then (of_ll a, false) else (of_ll (s64 (- a)), true) in
  let (v, negall) := if b >=? 0 then (of_ll b, negall) else (of_ll (s64 (- b)), xorb negall true) in
  let prod := mul_halves u v in
  if negall then s64 (- prod) else prod.

(** ** Halves and values *)

Lemma of_ll_H a : is_u32 (ui_H (of_ll a)).
Proof. apply u32_range. Qed.
Lemma of_ll_L a : is_u32 (ui_L (of_ll a)).
Proof. apply u32_range. Qed.

Lemma ull_of_ll a : ull (of_ll a) = u64 a.
Proof. unfold ull, of_ll. simpl. rewrite Z.shiftr_div_pow2 by lia. width_lia. Qed.

(** Values that agree modulo 2^64 convert to the same [long long]. *)
Lemma s64_cong x y k : x = y + k * 2 ^ 64 -> s64 x = s64 y.
Proof. intros ->. unfold s64. f_equal. replace (y + k * 2 ^ 64 + 2 ^ 63) with (y + 2 ^ 63 + k * 2 ^ 64) by lia. apply Z.mod_add. lia. Qed.

Lemma u32_split a : exists k, u32 a = a + k * 2 ^ 32 /\ 0 <= u32 a < 2 ^ 32.
Proof. exists (- (a / 2 ^ 32)). unfold u32. pose proof (Z.div_mod a (2 ^ 32)). pose proof (Z.mod_pos_bound a (2 ^ 32)). lia. Qed.

Lemma ll_split a : exists h l k, of_ll a = Uu h l /\ 0 <= h < 2 ^ 32 /\ 0 <= l < 2 ^ 32 /\
  a = h * 2 ^ 32 + l + k * 2 ^ 64 /\ (is_u64 a -> k = 0).
Proof.
  exists (ui_H (of_ll a)), (ui_L (of_ll a)), (a / 2 ^ 64). pose proof (ull_of_ll a) as E. unfold ull in E.
  split; [by destruct (of_ll a)|]. split; [apply of_ll_H|]. split; [apply of_ll_L|].
  rewrite E. unfold u64. pose proof (Z.div_mod a (2 ^ 64)). split; [lia|]. apply Z.div_small.
Qed.

(** Name the halves of [a], and the quotient of a conversion. *)
Ltac halves a h l :=
  let k := fresh "k" in let E := fresh "E" in let Hh := fresh "Hh" in let Hl := fresh "Hl" in
  let Ha := fresh "Ha" in let Hk := fresh "Hk" in
  destruct (ll_split a) as (h & l & k & E & Hh & Hl & Ha & Hk); rewrite ?E; cbn [ui_H ui_L].
Ltac wrap x :=
  let k := fresh "q" in let E := fresh "Eq" in let H := fresh "Rq" in
  destruct (u32_split x) as (k & E & H).

Lemma adddi3_ok a b : __adddi3 a b = s64 (a + b).
Proof.
  unfold __adddi3. halves a ah al. halves b bh bl. wrap (al + bl).
  wrap (ah + bh + Z.b2z (u32 (al + bl) <? bl)). unfold ll, ull. cbn [ui_H ui_L].
  apply (s64_cong _ _ (q0 - k - k0)). destruct (Z.ltb_spec (u32 (al + bl)) bl); cbn [Z.b2z] in *; lia.
Qed.

Lemma subdi3_ok a b : __subdi3 a b = s64 (a - b).
Proof.
  unfold __subdi3. halves a ah al. halves b bh bl. wrap (al - bl).
  wrap (ah - bh - Z.b2z (u32 (al - bl) >? al)). unfold ll, ull. cbn [ui_H ui_L].
  apply (s64_cong _ _ (q0 - k + k0)). destruct (Z.gtb_spec (u32 (al - bl)) al); cbn [Z.b2z] in *; lia.
Qed.

Lemma negdi2_ok a : __negdi2 a = s64 (- a).
Proof.
  unfold __negdi2. halves a ah al. wrap (- al). wrap (- ah).
  wrap (u32 (- ah) - Z.b2z (u32 (- al) >? 0)). unfold ll, ull. cbn [ui_H ui_L].
  apply (s64_cong _ _ (q0 + q1 + k)). destruct (Z.gtb_spec (u32 (- al)) 0); cbn [Z.b2z] in *; lia.
Qed.
(** ** Bits *)

Lemma u32_bits x i : Z.testbit (u32 x) i = (i <? 32) && Z.testbit x i.
Proof.
  unfold u32. destruct (Z.lt_ge_cases i 0); [rewrite !Z.testbit_neg_r by done; by rewrite andb_false_r|]. destruct (Z.ltb_spec i 32); [by rewrite Z.mod_pow2_bits_low|].
  by rewrite Z.mod_pow2_bits_high by lia.
Qed.

Lemma u64_bits x i : Z.testbit (u64 x) i = (i <? 64) && Z.testbit x i.
Proof.
  unfold u64. destruct (Z.lt_ge_cases i 0); [rewrite !Z.testbit_neg_r by done; by rewrite andb_false_r|].
  destruct (Z.ltb_spec i 64); [by rewrite Z.mod_pow2_bits_low|]. by rewrite Z.mod_pow2_bits_high by lia.
Qed.

Lemma s32_bits x i : Z.testbit (s32 x) i = Z.testbit x (Z.min i 31).
Proof.
  destruct (Z.lt_ge_cases i 0) as [|Hi]; [by rewrite !Z.testbit_neg_r by lia|]. set (b := Z.b2z (Z.testbit x 31)).
  assert (s32 x = x mod 2 ^ 31 - b * 2 ^ 31) as ->.
  { subst b. pose proof (Z.testbit_spec' x 31 ltac:(lia)) as E. rewrite E. width_lia. }
  destruct (Z.lt_ge_cases i 31).
  - rewrite Z.min_l by lia. rewrite <- (Z.mod_pow2_bits_low _ 31) by lia.
    rewrite <- (Z.mod_pow2_bits_low x 31) by lia. f_equal.
    replace (x mod 2 ^ 31 - b * 2 ^ 31) with (x mod 2 ^ 31 + (- b) * 2 ^ 31) by lia.
    rewrite Z.mod_add by lia. by rewrite Zmod_mod.
  - rewrite Z.min_r by lia. pose proof (Z.mod_pos_bound x (2 ^ 31)).
    assert (b = 0 \/ b = 1) as Hb by (subst b; destruct (Z.testbit x 31); auto).
    rewrite Z.testbit_odd, Z.shiftr_div_pow2 by lia.
    assert ((x mod 2 ^ 31 - b * 2 ^ 31) / 2 ^ i = - b) as ->.
    { assert (2 ^ 31 <= 2 ^ i) by (apply Z.pow_le_mono_r; lia).
      destruct Hb as [-> | ->]; symmetry; [apply (Z.div_unique _ _ _ (x mod 2 ^ 31)); lia|].
      apply (Z.div_unique _ _ _ (2 ^ i + x mod 2 ^ 31 - 2 ^ 31)); lia. }
    subst b. by destruct (Z.testbit x 31).
Qed.

(** From bit 63 on, the bits of a [long long] are its sign. *)
Lemma s64_bits a i j : is_s64 a -> i = j \/ 63 <= i /\ 63 <= j -> Z.testbit a i = Z.testbit a j.
Proof.
  intros Ha [->|[Hi Hj]]; [done|]. rewrite !Z.testbit_odd, !Z.shiftr_div_pow2 by lia. f_equal.
  assert (forall k, 63 <= k -> a / 2 ^ k = if a <? 0 then -1 else 0) as Hd; [|by rewrite !Hd].
  intros k Hk. assert (2 ^ 63 <= 2 ^ k) by (apply Z.pow_le_mono_r; lia). unfold is_s64 in Ha.
  destruct (Z.ltb_spec a 0); [|by rewrite Z.div_small by lia].
  symmetry. apply (Z.div_unique _ _ _ (a + 2 ^ k)); lia.
Qed.

Lemma ull_bits h l i : 0 <= l < 2 ^ 32 -> 0 <= i ->
  Z.testbit (ull (Uu h l)) i = if i <? 32 then Z.testbit l i else Z.testbit h (i - 32).
Proof.
  intros Hl Hi. unfold ull. cbn [ui_H ui_L]. rewrite <- lor_add, Z.lor_spec by lia.
  destruct (Z.ltb_spec i 32); [by rewrite Z.mul_pow2_bits_low|].
  rewrite Z.mul_pow2_bits by lia. replace l with (l mod 2 ^ 32) by (apply Z.mod_small; lia).
  rewrite (Z.mod_pow2_bits_high l) by lia. apply orb_false_r.
Qed.

(** A [long long] is what its 64 bits say. *)
Lemma ll_eq h l y : 0 <= l < 2 ^ 32 ->
  (forall i, 0 <= i < 64 -> (if i <? 32 then Z.testbit l i else Z.testbit h (i - 32)) = Z.testbit y i) ->
  ll (Uu h l) = s64 y.
Proof.
  intros Hl Hb. unfold ll. rewrite <- s64_u64, <- (s64_u64 y). f_equal. apply Z.bits_inj'. intros i Hi.
  unfold u64. destruct (Z.lt_ge_cases i 64); [|by rewrite !Z.mod_pow2_bits_high by lia].
  rewrite !Z.mod_pow2_bits_low by lia. rewrite ull_bits by lia. by apply Hb.
Qed.

Lemma bits_u32 x : (forall i, 32 <= i -> Z.testbit x i = false) -> 0 <= x < 2 ^ 32.
Proof.
  intros Hx. assert (u32 x = x) as <-; [|apply u32_range]. apply Z.bits_inj'. intros i Hi.
  rewrite u32_bits. destruct (Z.ltb_spec i 32); [done|]. by rewrite Hx.
Qed.
Lemma shiftr_bits x n i : Z.testbit (Z.shiftr x n) i = (0 <=? i) && Z.testbit x (i + n).
Proof.
  destruct (Z.leb_spec 0 i); [by apply Z.shiftr_spec|]. by rewrite Z.testbit_neg_r.
Qed.

(** Bits of compound words, then cases on the position. *)
Ltac bits :=
  repeat first [rewrite u32_bits | rewrite u64_bits | rewrite s32_bits | rewrite Z.lor_spec | rewrite Z.land_spec
    | rewrite Z.lxor_spec | rewrite Z.lnot_spec by lia | rewrite Z.shiftl_spec by lia | rewrite shiftr_bits].
Ltac bit_cases :=
  repeat match goal with
    | |- context [?x <? ?y] => destruct (Z.ltb_spec x y); try lia
    | |- context [?x <=? ?y] => destruct (Z.leb_spec x y); try lia
    end;
  cbn [andb]; rewrite ?Z.testbit_0_l, ?andb_false_r, ?orb_false_r, ?orb_false_l; try lia;
  rewrite ?Z.testbit_neg_r by lia; try done; try solve [repeat (f_equal; try lia)].
Ltac by_bits :=
  apply ll_eq; [apply bits_u32; intros i Hi; bits; bit_cases; try done|intros i Hi; destruct (Z.ltb_spec i 32); bits; bit_cases].

Lemma bitwise_ok a b :
  __anddi3 a b = s64 (Z.land a b) /\ __iordi3 a b = s64 (Z.lor a b) /\
  __xordi3 a b = s64 (Z.lxor a b) /\ __one_cmpldi2 a = s64 (Z.lnot a).
Proof.
  unfold __anddi3, __iordi3, __xordi3, __one_cmpldi2, of_ll. cbn [ui_H ui_L].
  split_and!; by_bits.
Qed.

Lemma ashldi3_ok a shift : 0 <= shift < 64 -> is_s64 a -> __ashldi3 a shift = s64 (Z.shiftl a shift).
Proof.
  intros Hs Ha. unfold __ashldi3, of_ll, INT_BITS. destruct (Z.eqb_spec shift 0) as [->|]; [by rewrite s64_id|].
  cbn [ui_H ui_L]. destruct (Z.geb_spec shift 32).
  all: by_bits.
Qed.

Lemma lshldi3_ok a shift : 0 <= shift < 64 -> is_s64 a -> __lshldi3 a shift = s64 (Z.shiftl a shift).
Proof. apply ashldi3_ok. Qed.

Lemma lshrdi3_ok a shift : 0 <= shift < 64 -> is_s64 a -> __lshrdi3 a shift = s64 (Z.shiftr (u64 a) shift).
Proof.
  intros Hs Ha. unfold __lshrdi3, of_ll, INT_BITS. destruct (Z.eqb_spec shift 0) as [->|].
  { rewrite Z.shiftr_0_r, s64_u64. by rewrite s64_id. }
  cbn [ui_H ui_L]. destruct (Z.geb_spec shift 32); by_bits.
Qed.

Lemma ashrdi3_ok a shift : 0 <= shift < 64 -> is_s64 a -> __ashrdi3 a shift = Z.shiftr a shift.
Proof.
  intros Hs Ha. unfold __ashrdi3, of_ll, INT_BITS, si_H. destruct (Z.eqb_spec shift 0) as [->|]; [by rewrite Z.shiftr_0_r|].
  transitivity (s64 (Z.shiftr a shift)).
  - cbn [ui_H ui_L]. destruct (Z.geb_spec shift 32); by_bits; try (apply s64_bits; [done|lia]).
  - apply s64_id. unfold is_s64 in *. rewrite Z.shiftr_div_pow2 by lia.
    assert (1 <= 2 ^ shift) by (pose proof (Z.pow_pos_nonneg 2 shift); lia).
    split; [apply Z.div_le_lower_bound|apply Z.div_lt_upper_bound]; nia.
Qed.
(** ** Comparison *)

Lemma si_H_ll a : is_s64 a -> si_H (of_ll a) = a / 2 ^ 32.
Proof. intros Ha. unfold si_H, of_ll. cbn [ui_H]. rewrite Z.shiftr_div_pow2 by lia. width_lia. Qed.
Lemma ui_H_ull a : is_u64 a -> ui_H (of_ll a) = a / 2 ^ 32.
Proof. intros Ha. unfold of_ll. cbn [ui_H]. rewrite Z.shiftr_div_pow2 by lia. width_lia. Qed.

Lemma compare_ok a b (c := match a ?= b with Lt => 0 | Eq => 1 | Gt => 2 end) :
  (is_s64 a -> is_s64 b -> __cmpdi2 a b = c) /\ (is_u64 a -> is_u64 b -> __ucmpdi2 a b = c).
Proof.
  subst c. pose proof (Z.div_mod a (2 ^ 32) ltac:(lia)). pose proof (Z.div_mod b (2 ^ 32) ltac:(lia)).
  pose proof (Z.mod_pos_bound a (2 ^ 32)). pose proof (Z.mod_pos_bound b (2 ^ 32)).
  split; intros Ha Hb; unfold __cmpdi2, __ucmpdi2; rewrite ?si_H_ll, ?ui_H_ull by done; cbn [ui_L of_ll]; unfold u32;
    set (ah := a / 2 ^ 32) in *; set (al := a mod 2 ^ 32) in *; set (bh := b / 2 ^ 32) in *; set (bl := b mod 2 ^ 32) in *;
    clearbody ah al bh bl;
    destruct (Z.ltb_spec ah bh), (Z.gtb_spec ah bh), (Z.ltb_spec al bl), (Z.gtb_spec al bl), (Z.compare_spec a b);
    try done; lia.
Qed.

(** ** Multiplication *)

Lemma HHALF_div x : is_u32 x -> HHALF x = x / 2 ^ 16.
Proof. intros Hx. unfold HHALF. rewrite u32_id by done. by apply Z.shiftr_div_pow2. Qed.
Lemma LHALF_mod x : LHALF x = x mod 2 ^ 16.
Proof.
  unfold LHALF, HALF_BITS. change (Z.shiftl 1 16 - 1) with (Z.ones 16). rewrite Z.land_ones by lia. width_lia.
Qed.
Lemma half_split x : is_u32 x -> x = HHALF x * 2 ^ 16 + LHALF x /\ 0 <= HHALF x < 2 ^ 16 /\ 0 <= LHALF x < 2 ^ 16.
Proof. intros Hx. rewrite HHALF_div, LHALF_mod by done. width_lia. Qed.
Lemma half_up x : is_u32 x -> x * 2 ^ 16 = HHALF x * 2 ^ 32 + LHUP x /\ 0 <= HHALF x < 2 ^ 16 /\ 0 <= LHUP x < 2 ^ 32.
Proof.
  intros Hx. rewrite HHALF_div by done. unfold LHUP, HALF_BITS. rewrite (u32_id x), Z.shiftl_mul_pow2 by done. width_lia.
Qed.

(** One step of the sum: a double word plus another one, with the carry the
    comparison finds. *)
Lemma add_step h l x y : 0 <= l < 2 ^ 32 -> 0 <= y < 2 ^ 32 -> exists k,
  u32 (h + (x + Z.b2z (u32 (l + y) <? l))) * 2 ^ 32 + u32 (l + y) = (h + x) * 2 ^ 32 + (l + y) + k * 2 ^ 64.
Proof.
  intros Hl Hy. wrap (l + y). wrap (h + (x + Z.b2z (u32 (l + y) <? l))). exists q0.
  destruct (Z.ltb_spec (u32 (l + y)) l); cbn [Z.b2z] in *; lia.
Qed.
Lemma sub_step h l x y : 0 <= l < 2 ^ 32 -> 0 <= y < 2 ^ 32 -> exists k,
  u32 (h - (x + Z.b2z (u32 (l - y) >? l))) * 2 ^ 32 + u32 (l - y) = (h - x) * 2 ^ 32 + (l - y) + k * 2 ^ 64.
Proof.
  intros Hl Hy. wrap (l - y). wrap (h - (x + Z.b2z (u32 (l - y) >? l))). exists q0.
  destruct (Z.gtb_spec (u32 (l - y)) l); cbn [Z.b2z] in *; lia.
Qed.
Lemma last_step h l y : 0 <= l < 2 ^ 32 -> 0 <= y < 2 ^ 32 -> exists k,
  (if u32 (l + y) <? y then u32 (h + 1) else h) * 2 ^ 32 + u32 (l + y) = h * 2 ^ 32 + (l + y) + k * 2 ^ 64.
Proof.
  intros Hl Hy. wrap (l + y). wrap (h + 1). destruct (Z.ltb_spec (u32 (l + y)) y); [exists q0|exists 0]; lia.
Qed.

Lemma lmulq_sum_ok high mid low neg : is_u32 high -> is_u32 mid -> is_u32 low ->
  lmulq_sum high mid low neg = s64 (high * 2 ^ 32 + (high + (if neg then - mid else mid) + low) * 2 ^ 16 + low).
Proof.
  intros Hh Hm Hl. unfold lmulq_sum. destruct (half_up _ Hh) as (Eh & _ & Lh), (half_up _ Hm) as (Em & _ & Lm), (half_up _ Hl) as (El & _ & Ll).
  wrap (high + HHALF high). set (ph := u32 (high + HHALF high)) in *.
  assert (exists p k, (if neg then
      (u32 (ph - (HHALF mid + Z.b2z (u32 (LHUP high - LHUP mid) >? LHUP high))), u32 (LHUP high - LHUP mid))
    else (u32 (ph + (HHALF mid + Z.b2z (u32 (LHUP high + LHUP mid) <? LHUP high))), u32 (LHUP high + LHUP mid))) = p /\
    p.1 * 2 ^ 32 + p.2 = ph * 2 ^ 32 + LHUP high + (if neg then - mid else mid) * 2 ^ 16 + k * 2 ^ 64 /\ is_u32 p.2)
    as (p & k1 & -> & E1 & Hp).
  { destruct neg; [destruct (sub_step ph (LHUP high) (HHALF mid) (LHUP mid) Lh Lm) as [k E]
                  |destruct (add_step ph (LHUP high) (HHALF mid) (LHUP mid) Lh Lm) as [k E]];
      eexists _, k; (split; [done|]); (split; [cbn [fst snd]; rewrite E; lia|apply u32_range]). }
  destruct p as [ph1 pl1]. cbn [fst snd] in E1, Hp. destruct (add_step ph1 pl1 (HHALF low) (LHUP low) Hp Ll) as [k2 E2].
  set (ph2 := u32 (ph1 + _)) in *. set (pl2 := u32 (pl1 + LHUP low)) in *.
  destruct (last_step ph2 pl2 low (u32_range _) Hl) as [k3 E3].
  unfold ll, ull. cbn [ui_H ui_L]. rewrite E3. apply (s64_cong _ _ (k1 + k2 + k3 + q)). lia.
Qed.

(** The signed product of two differences, as it is computed from the signs. *)
Lemma mid_ok x y z w (d := if x >=? y then (x - y, false) else (y - x, true))
    (e := if z >=? w then (z - w, d.2) else (w - z, xorb d.2 true)) :
  (if e.2 then - (d.1 * e.1) else d.1 * e.1) = (x - y) * (z - w).
Proof. subst d e. destruct (x >=? y), (z >=? w); simpl; lia. Qed.

Lemma lmulq_ok u v : is_u32 u -> is_u32 v -> __lmulq u v = s64 (u * v).
Proof.
  intros Hu Hv. unfold __lmulq. destruct (half_split _ Hu) as (Eu & Hu1 & Hu0), (half_split _ Hv) as (Ev & Hv1 & Hv0).
  set (u1 := HHALF u) in *. set (u0 := LHALF u) in *. set (v1 := HHALF v) in *. set (v0 := LHALF v) in *. clearbody u1 u0 v1 v0.
  assert (is_u32 (u0 * v0)) by (unfold is_u32; nia). assert (is_u32 (u1 * v1)) by (unfold is_u32; nia).
  destruct ((u1 =? 0) && (v1 =? 0)) eqn:Ez.
  { rewrite u32_id by done. assert (u = u0 /\ v = v0) as [-> ->] by lia. rewrite s64_id; [done|]. width_lia. }
  pose proof (mid_ok u1 u0 v0 v1) as Hmid. cbn zeta in Hmid.
  destruct (if u1 >=? u0 then (u1 - u0, false) else (u0 - u1, true)) as [udiff n1] eqn:E1.
  cbn [fst snd] in Hmid. destruct (if v0 >=? v1 then (v0 - v1, n1) else (v1 - v0, xorb n1 true)) as [vdiff n2] eqn:E2.
  cbn [fst snd] in Hmid. assert (0 <= udiff < 2 ^ 16) by (destruct (Z.geb_spec u1 u0); simplify_eq; lia).
  assert (0 <= vdiff < 2 ^ 16) by (destruct (Z.geb_spec v0 v1); simplify_eq; lia).
  assert (is_u32 (udiff * vdiff)) by (unfold is_u32; nia).
  rewrite !u32_id by done. rewrite lmulq_sum_ok by done. rewrite Hmid, Eu, Ev. f_equal. lia.
Qed.
Lemma mul_halves_ok u v : is_u32 (ui_H u) -> is_u32 (ui_L u) -> is_u32 (ui_H v) -> is_u32 (ui_L v) ->
  mul_halves u v = s64 (ull u * ull v).
Proof.
  destruct u as [u1 u0], v as [v1 v0]. unfold mul_halves, ull. cbn [ui_H ui_L]. intros Hu1 Hu0 Hv1 Hv0.
  rewrite lmulq_ok by done.
  destruct ((u1 =? 0) && (v1 =? 0)) eqn:Ez; [f_equal; assert (u1 = 0 /\ v1 = 0) as [-> ->] by lia; lia|].
  destruct (ll_split (s64 (u0 * v0))) as (lh & l & k & -> & Hlh & Hl & El & _). cbn [ui_H ui_L].
  assert (exists k', s64 (u0 * v0) = u0 * v0 + k' * 2 ^ 64) as [k' E'].
  { exists (- ((u0 * v0 + 2 ^ 63) / 2 ^ 64)). unfold s64. pose proof (Z.div_mod (u0 * v0 + 2 ^ 63) (2 ^ 64)). lia. }
  pose proof (mid_ok u1 u0 v0 v1) as Hmid. cbn zeta in Hmid.
  destruct (if u1 >=? u0 then (u1 - u0, false) else (u0 - u1, true)) as [udiff n1] eqn:E1. cbn [fst snd] in Hmid.
  destruct (if v0 >=? v1 then (v0 - v1, n1) else (v1 - v0, xorb n1 true)) as [vdiff n2] eqn:E2. cbn [fst snd] in Hmid.
  wrap (udiff * vdiff). set (mid := u32 (udiff * vdiff)) in *.
  assert (exists kn, (if n2 then u32 (- mid) else mid) = (u1 - u0) * (v0 - v1) + kn * 2 ^ 32) as [kn ->].
  { rewrite <- Hmid. destruct n2; [|exists q; lia]. wrap (- mid). exists (q0 - q). lia. }
  wrap (u1 * v1). wrap (u32 (u1 * v1) + ((u1 - u0) * (v0 - v1) + kn * 2 ^ 32) + l + lh).
  unfold ll, ull. cbn [ui_H ui_L]. rewrite Eq1. apply (s64_cong _ _ (q0 + kn + q1 - u1 * v1 - lh + (2 ^ 32 + 1) * (k' - k))).
  clear -El E' Eq0. lia.
Qed.

Lemma s64_neg x : s64 (- s64 x) = s64 (- x).
Proof.
  apply (s64_cong _ _ ((x + 2 ^ 63) / 2 ^ 64)). unfold s64. pose proof (Z.div_mod (x + 2 ^ 63) (2 ^ 64)). lia.
Qed.

(** The product of two values that agree with [a] and [b] modulo 2^64. *)
Lemma mul_cong a b x y i j : x = a + i * 2 ^ 64 -> y = b + j * 2 ^ 64 -> s64 (x * y) = s64 (a * b).
Proof. intros -> ->. apply (s64_cong _ _ (a * j + i * b + i * j * 2 ^ 64)). lia. Qed.

(** 64-bit multiplication.  The product from 16-bit pieces is the product
    of the integers, reduced to 64 bits, whatever the signs. *)
Theorem muldi3_ok a b : __muldi3 a b = s64 (a * b).
Proof.
  assert (forall x, exists i, ull (of_ll x) = x + i * 2 ^ 64) as Hof.
  { intros x. exists (- (x / 2 ^ 64)). rewrite ull_of_ll. unfold u64. pose proof (Z.div_mod x (2 ^ 64)). lia. }
  assert (forall x, exists i, ull (of_ll (s64 (- x))) = - x + i * 2 ^ 64) as Hneg.
  { intros x. exists (- (- x / 2 ^ 64)). rewrite ull_of_ll. replace (u64 (s64 (- x))) with (u64 (- x)) by width_lia.
    unfold u64. pose proof (Z.div_mod (- x) (2 ^ 64)). lia. }
  unfold __muldi3. destruct (a >=? 0), (b >=? 0); cbn [xorb]; rewrite mul_halves_ok by apply u32_range;
    rewrite ?s64_neg.
  - destruct (Hof a) as [i Ei], (Hof b) as [j Ej]. by apply (mul_cong _ _ _ _ i j).
  - destruct (Hof a) as [i Ei], (Hneg b) as [j Ej]. rewrite <- Z.mul_opp_r. apply (mul_cong _ _ _ _ i (- j)); lia.
  - destruct (Hneg a) as [i Ei], (Hof b) as [j Ej]. rewrite <- Z.mul_opp_l. apply (mul_cong _ _ _ _ (- i) j); lia.
  - destruct (Hneg a) as [i Ei], (Hneg b) as [j Ej]. rewrite <- (Z.mul_opp_opp a b). by apply (mul_cong _ _ _ _ i j).
Qed.

(** The other operations on [long long].  Sums, differences and negation
    are those of integers reduced to 64 bits; bitwise operations, shifts by less
    than 64 and both comparisons agree with the integers. *)
Theorem longlong_ops a b shift : is_s64 a -> is_s64 b -> 0 <= shift < 64 ->
  (__adddi3 a b = s64 (a + b) /\ __subdi3 a b = s64 (a - b) /\ __negdi2 a = s64 (- a)) /\
  (__anddi3 a b = s64 (Z.land a b) /\ __iordi3 a b = s64 (Z.lor a b) /\
   __xordi3 a b = s64 (Z.lxor a b) /\ __one_cmpldi2 a = s64 (Z.lnot a)) /\
  (__ashldi3 a shift = s64 (Z.shiftl a shift) /\ __lshldi3 a shift = s64 (Z.shiftl a shift) /\
   __ashrdi3 a shift = Z.shiftr a shift /\ __lshrdi3 a shift = s64 (Z.shiftr (u64 a) shift)) /\
  let c x y := match x ?= y with Lt => 0 | Eq => 1 | Gt => 2 end in
  __cmpdi2 a b = c a b /\ __ucmpdi2 (u64 a) (u64 b) = c (u64 a) (u64 b).
Proof.
  intros Ha Hb Hs. split; [auto using adddi3_ok, subdi3_ok, negdi2_ok|]. split; [apply bitwise_ok|].
  split; [auto using ashldi3_ok, lshldi3_ok, ashrdi3_ok, lshrdi3_ok|].
  split; [by apply compare_ok|]. apply compare_ok; apply u64_range.
Qed.

Lemma longlong_ops_witness : __ashrdi3 (- 2 ^ 62) 40 = Z.shiftr (- 2 ^ 62) 40.
Proof. apply (longlong_ops (- 2 ^ 62) 3 40); unfold is_s64; lia. Defined.
End LongLong.
