(* ===== verification/QDivRem.v ===== *)
(** * Division of 64-bit integers

    Model of common/gcc-millicode/qdivrem.c and of its callers (divdi3.c,
    moddi3.c, udivdi3.c, umoddi3.c): Knuth's algorithm D in base 2^16, on
    arrays of five digits with the pointers [u], [v] and [q] into them.

    An access outside an array, a division by zero and a loop that exceeds its
    bound give [None].  The main theorem is that, for a divisor other than
    zero, none of these happens and the results are the quotient and the
    remainder. *)

From S2P Require Import Prelude LongLong.
Open Scope Z_scope.
Import LongLong.

Module QDivRem.
Definition B : Z := Z.shiftl 1 HALF_BITS.
Definition COMBINE (a b : Z) : Z := Z.lor (u32 (Z.shiftl a HALF_BITS)) b.

(** Conversion to the type of digits. *)
Definition digit (x : Z) : Z := u16 x.

Definition wr (a : list Z) (i : nat) (x : Z) : option (list Z) :=
  if decide (i < length a)%nat then Some (<[i := x]> a) else None.

(** static void shl(digit *p, int len, int sh), with [p] an index *)
Fixpoint shl (a : list Z) (p len : nat) (sh : Z) : option (list Z) :=
  match len with
  | O => x ← a !! p; wr a p (digit (LHALF (Z.shiftl x sh)))
  | S len' =>
      x ← a !! p; y ← a !! S p;
      a ← wr a p (digit (Z.lor (LHALF (Z.shiftl x sh)) (Z.shiftr y (HALF_BITS - sh))));
      shl a (S p) len' sh
  end.

(** The dividend by a divisor of one digit [t]. *)
Definition short_division (u : list Z) (t : Z) : option (Z * Z) :=
  if t =? 0 then None else
  u1 ← u !! 1%nat; u2 ← u !! 2%nat; u3 ← u !! 3%nat; u4 ← u !! 4%nat;
  let q1 := digit (u1 / t) in
  let rbj := COMBINE (u1 mod t) u2 in
  let q2 := digit (rbj / t) in
  let rbj := COMBINE (rbj mod t) u3 in
  let q3 := digit (rbj / t) in
  let rbj := COMBINE (rbj mod t) u4 in
  let q4 := digit (rbj / t) in
  Some (ull (Uu (COMBINE q1 q2) (COMBINE q3 q4)), rbj mod t).

(** The loop over the leading zeros of the divisor: the pointer [v] and the
    number of digits, or, with one digit, that digit. *)
Fixpoint skip_v (n : nat) (vspace : list Z) (v : nat) : option (Z + nat * nat) :=
  x ← vspace !! S v;
  if negb (x =? 0) then Some (inr (n, v)) else
  match n with
  | O => None
  | S n' => if decide (n' = 1%nat) then t ← vspace !! S (S v); Some (inl t) else skip_v n' vspace (S v)
  end.

(** The same for the dividend; it has at least as many digits. *)
Fixpoint skip_u (m : nat) (uspace : list Z) (u : nat) : option (nat * nat) :=
  x ← uspace !! S u;
  if negb (x =? 0) then Some (m, u) else
  match m with O => None | S m' => skip_u m' uspace (S u) end.

(** [for (i = 4 - m; --i >= 0;) q[i] = 0;] *)
Fixpoint zero_q (i : nat) (q : list Z) : option (list Z) :=
  match i with O => Some q | S i' => q ← wr q i' 0; zero_q i' q end.

(** D1: [for (t = v[1]; t < B / 2; t <<= 1) d++;] *)
Fixpoint normalise (fuel : nat) (t d : Z) : option Z :=
  if t <? B / 2 then
    match fuel with O => None | S fuel' => normalise fuel' (u32 (Z.shiftl t 1)) (d + 1) end
  else Some d.

(** D3: the loop over qhat; with [enter] it starts at qhat_too_big. *)
Fixpoint qhat_loop (fuel : nat) (enter : bool) (v1 v2 uj2 qhat rhat : Z) : option Z :=
  if enter || (u32 (v2 * qhat) >? COMBINE rhat uj2) then
    match fuel with
    | O => None
    | S fuel' =>
        let qhat := u32 (qhat - 1) in
        let rhat := u32 (rhat + v1) in
        if rhat >=? B then Some qhat else qhat_loop fuel' false v1 v2 uj2 qhat rhat
    end
  else Some qhat.
Definition qhat_of (v1 v2 uj0 uj1 uj2 : Z) : option Z :=
  if uj0 =? v1 then qhat_loop 2 true v1 v2 uj2 B uj1
  else if v1 =? 0 then None else
    let nn := COMBINE uj0 uj1 in qhat_loop 2 false v1 v2 uj2 (nn / v1) (nn mod v1).

(** D4: multiply and subtract, for [i] down to 1; the array and the borrow. *)
Fixpoint mulsub (i : nat) (us vs : list Z) (uj v : nat) (qhat t : Z) : option (list Z * Z) :=
  match i with
  | O => Some (us, t)
  | S i' =>
      x ← us !! (uj + i)%nat; y ← vs !! (v + i)%nat;
      let t := u32 (x - y * qhat - t) in
      us ← wr us (uj + i) (digit (LHALF t));
      mulsub i' us vs uj v qhat (Z.land (B - HHALF t) (B - 1))
  end.

(** D6: add back; the array and the carry. *)
Fixpoint addback (i : nat) (us vs : list Z) (uj v : nat) (t : Z) : option (list Z * Z) :=
  match i with
  | O => Some (us, t)
  | S i' =>
      x ← us !! (uj + i)%nat; y ← vs !! (v + i)%nat;
      let t := u32 (t + (x + y)) in
      us ← wr us (uj + i) (digit (LHALF t));
      addback i' us vs uj v (HHALF t)
  end.

(** D3 to D6 for one digit of the quotient, with [uj] the index of u[j]. *)
Definition div_digit (n : nat) (us vs : list Z) (uj v : nat) (v1 v2 : Z) : option (list Z * Z) :=
  uj0 ← us !! uj; uj1 ← us !! S uj; uj2 ← us !! S (S uj);
  qhat ← qhat_of v1 v2 uj0 uj1 uj2;
  '(us, t) ← mulsub n us vs uj v qhat 0;
  x ← us !! uj;
  let t := u32 (x - t) in
  us ← wr us uj (digit (LHALF t));
  if negb (HHALF t =? 0) then
    '(us, t) ← addback n us vs uj v 0;
    x ← us !! uj;
    us ← wr us uj (digit (LHALF (x + t)));
    Some (us, u32 (qhat - 1))
  else Some (us, qhat).

(** The loop over [j], [k] turns of it. *)
Fixpoint div_loop (k n : nat) (us vs qs : list Z) (uj v qj : nat) (v1 v2 : Z) : option (list Z * list Z) :=
  match k with
  | O => Some (us, qs)
  | S k' =>
      '(us, qhat) ← div_digit n us vs uj v v1 v2;
      qs ← wr qs qj (digit qhat);
      div_loop k' n us vs qs (S uj) v (S qj) v1 v2
  end.

(** [for (i = m + n; i > m; --i) u[i] = (u[i] >> d) | ...; u[i] = 0;] for the
    [k] digits up to index [i]. *)
Fixpoint unshift (k i : nat) (us : list Z) (d : Z) : option (list Z) :=
  match k with
  | O => wr us i 0
  | S k' =>
      match i with
      | O => None
      | S i' =>
          x ← us !! i; y ← us !! i';
          us ← wr us i (digit (Z.lor (Z.shiftr x d) (LHALF (Z.shiftl y (HALF_BITS - d)))));
          unshift k' i' us d
      end
  end.

(** Four digits as a number. *)
Definition four (a : list Z) : option Z :=
  a1 ← a !! 1%nat; a2 ← a !! 2%nat; a3 ← a !! 3%nat; a4 ← a !! 4%nat;
  Some (ull (Uu (COMBINE a1 a2) (COMBINE a3 a4))).

Definition split4 (x0 x : Z) : list Z :=
  let tmp := of_ll x in
  [x0; digit (HHALF (ui_H tmp)); digit (LHALF (ui_H tmp)); digit (HHALF (ui_L tmp)); digit (LHALF (ui_L tmp))].

(** unsigned long long __qdivrem(ull, vll, arq): quotient and remainder.
    [junk] is what the arrays hold before they are written. *)
Definition __qdivrem (junk ull_ vll : Z) : option (Z * Z) :=
  if vll =? 0 then None else
  if ull_ <? vll then Some (0, ull_) else
  let uspace := split4 0 ull_ in
  let vspace := split4 junk vll in
  s ← skip_v 4 vspace 0;
  match s with
  | inl t => short_division uspace t
  | inr (n, v) =>
      '(m, u) ← skip_u (4 - n) uspace 0;
      qspace ← zero_q (4 - m) (replicate 5 junk);
      let q := (4 - m)%nat in
      t ← vspace !! S v;
      d ← normalise 16 t 0;
      us ← (if d >? 0 then shl uspace u (m + n) d else Some uspace);
      vs ← (if d >? 0 then shl vspace (S v) (n - 1) d else Some vspace);
      v1 ← vs !! S v; v2 ← vs !! S (S v);
      '(us, qs) ← div_loop (S m) n us vs qspace u v q v1 v2;
      us ← (if d =? 0 then Some us else unshift n (u + m + n) us d);
      rem ← four us;
      quo ← four qs;
      Some (quo, rem)
  end.

(** ** The callers *)

Definition __udivdi3 (junk a b : Z) : option Z := fst <$> __qdivrem junk a b.
Definition __umoddi3 (junk a b : Z) : option Z := snd <$> __qdivrem junk a b.

Definition __divdi3 (junk a b : Z) : option Z :=
  let ua := if a <? 0 then u64 (- u64 a) else u64 a in
  let ub := if b <? 0 then u64 (- u64 b) else u64 b in
  '(uq, _) ← __qdivrem junk ua ub;
  Some (s64 (if xorb (a <? 0) (b <? 0) then u64 (- uq) else uq)).
Definition __moddi3 (junk a b : Z) : option Z :=
  let ua := if a <? 0 then u64 (- u64 a) else u64 a in
  let ub := if b <? 0 then u64 (- u64 b) else u64 b in
  '(_, ur) ← __qdivrem junk ua ub;
  Some (s64 (if a <? 0 then u64 (- ur) else ur)).

(** ** Digits and numbers *)

Definition pw (k : nat) : Z := 65536 ^ Z.of_nat k.

Lemma pw_S k : pw (S k) = 65536 * pw k.
Proof. unfold pw. rewrite Nat2Z.inj_succ, Z.pow_succ_r by lia. done. Qed.
Lemma pw_pos k : 0 < pw k.
Proof. apply Z.pow_pos_nonneg; lia. Qed.
Lemma pw_add k l : pw (k + l) = pw k * pw l.
Proof. unfold pw. rewrite Nat2Z.inj_add, Z.pow_add_r by lia. done. Qed.

(** The number that the [k] digits from index [i] on write. *)
Fixpoint num (a : list Z) (i k : nat) : Z :=
  match k with O => 0 | S k' => num a i k' * 65536 + default 0 (a !! (i + k')%nat) end.

Definition is_digit (x : Z) : Prop := 0 <= x < 65536.
Definition digits (a : list Z) : Prop := forall i x, a !! i = Some x -> is_digit x.

Lemma digits_default a i : digits a -> is_digit (default 0 (a !! i)).
Proof. intros Ha. destruct (a !! i) eqn:E; [by eapply Ha|]. unfold is_digit. simpl. lia. Qed.

Lemma digits_insert a i x : digits a -> is_digit x -> digits (<[i := x]> a).
Proof. intros Ha Hx j y. rewrite list_lookup_insert_Some. naive_solver. Qed.

Lemma num_bound a i k : digits a -> 0 <= num a i k < pw k.
Proof.
  intros Ha. induction k as [|k IH]; simpl; [pose proof (pw_pos 0); lia|].
  rewrite pw_S. pose proof (digits_default a (i + k) Ha) as Hd. unfold is_digit in Hd. lia.
Qed.

Lemma num_ext a b i k : (forall x, (i <= x < i + k)%nat -> a !! x = b !! x) -> num a i k = num b i k.
Proof. induction k as [|k IH]; intros He; simpl; [done|]. rewrite IH, He by (lia || (intros; apply He; lia)). done. Qed.

Lemma num_insert_out a i k j x : (j < i \/ i + k <= j)%nat -> num (<[j := x]> a) i k = num a i k.
Proof. intros Hj. apply num_ext. intros y Hy. apply list_lookup_insert_ne. lia. Qed.

Lemma num_split a i k l : num a i (k + l) = num a i k * pw l + num a (i + k) l.
Proof.
  induction l as [|l IH]; [rewrite Nat.add_0_r; simpl; change (pw 0) with 1; lia|].
  rewrite Nat.add_succ_r. cbn [num]. rewrite IH, pw_S, Nat.add_assoc. lia.
Qed.

Lemma num_first a i k : num a i (S k) = default 0 (a !! i) * pw k + num a (S i) k.
Proof. pose proof (num_split a i 1 k) as E. cbn [num] in E. rewrite Nat.add_0_r, Nat.add_1_r in E. simpl Nat.add in E. lia. Qed.

(** Leading zeros do not count. *)
Lemma num_zeros a i k : (forall x, (i <= x < i + k)%nat -> default 0 (a !! x) = 0) -> num a i k = 0.
Proof. induction k as [|k IH]; intros Hz; simpl; [done|]. rewrite IH, Hz by (lia || (intros; apply Hz; lia)). lia. Qed.

Lemma wr_ok a i x : (i < length a)%nat -> wr a i x = Some (<[i := x]> a).
Proof. intros Hi. unfold wr. by rewrite decide_True. Qed.

Lemma digit_id x : is_digit x -> digit x = x.
Proof. intros Hx. apply Z.mod_small. exact Hx. Qed.

Lemma LHALF_digit x : is_digit (LHALF x).
Proof. rewrite LHALF_mod. apply Z.mod_pos_bound. lia. Qed.

Lemma COMBINE_ok a b : is_digit a -> is_digit b -> COMBINE a b = a * 65536 + b.
Proof.
  intros Ha Hb. unfold COMBINE, HALF_BITS. rewrite Z.shiftl_mul_pow2, u32_id by (lia || (unfold is_digit, is_u32 in *; lia)).
  by apply lor_add.
Qed.
(** ** Multiply and subtract, add back *)

Lemma borrow_ok x y q t (w := u32 (x - y * q - t)) (t' := Z.land (B - HHALF w) (B - 1)) :
  is_digit x -> is_digit y -> is_digit q -> is_digit t ->
  is_digit t' /\ x - y * q - t = LHALF w - t' * 65536.
Proof.
  unfold is_digit. intros Hx Hy Hq Ht. subst t'. change (B - 1) with (Z.ones 16). rewrite Z.land_ones by lia.
  rewrite HHALF_div by apply u32_range. rewrite LHALF_mod. subst w. change B with 65536.
  assert (0 <= y * q <= 65535 * 65535) as Hp by nia. set (p := y * q) in *. clearbody p. width_lia.
Qed.

Lemma mulsub_ok i us vs uj v q t : digits us -> digits vs -> is_digit q -> is_digit t ->
  (uj + i < length us)%nat -> (v + i < length vs)%nat -> exists us' t',
  mulsub i us vs uj v q t = Some (us', t') /\ digits us' /\ is_digit t' /\ length us' = length us /\
  num us' (S uj) i = num us (S uj) i - q * num vs (S v) i - t + t' * pw i /\
  (forall x, ~ (uj < x <= uj + i)%nat -> us' !! x = us !! x).
Proof.
  intros Hus Hvs Hq. revert us t Hus. induction i as [|i IH]; intros us t Hus Ht Hlu Hlv.
  { exists us, t. change (pw 0) with 1. simpl. split_and!; try done. lia. }
  destruct (lookup_lt_is_Some_2 us (uj + S i)) as [x Hx]; [lia|].
  destruct (lookup_lt_is_Some_2 vs (v + S i)) as [y Hy]; [lia|].
  destruct (borrow_ok x y q t) as [Ht' Eb]; [by eapply Hus|by eapply Hvs|done..|].
  cbn [mulsub]. rewrite Hx, Hy. cbn [mbind option_bind]. rewrite wr_ok by lia. cbn [mbind option_bind].
  rewrite digit_id by apply LHALF_digit. set (w := u32 (x - y * q - t)) in *.
  destruct (IH (<[(uj + S i)%nat := LHALF w]> us) (Z.land (B - HHALF w) (B - 1))) as (us' & t' & -> & Hd & Htd & Hl & En & Ho);
    [by apply digits_insert, LHALF_digit|done|rewrite length_insert; lia|lia|].
  exists us', t'. split; [done|]. split; [done|]. split; [done|]. split; [by rewrite Hl, length_insert|]. split.
  - cbn [num]. rewrite En, Ho, num_insert_out by lia. replace (S uj + i)%nat with (uj + S i)%nat by lia.
    replace (S v + i)%nat with (v + S i)%nat by lia. rewrite list_lookup_insert_eq, Hx, Hy by lia. cbn [default id].
    rewrite pw_S. lia.
  - intros z Hz. rewrite Ho by lia. apply list_lookup_insert_ne. lia.
Qed.

Lemma addback_ok i us vs uj v t : digits us -> digits vs -> 0 <= t <= 1 ->
  (uj + i < length us)%nat -> (v + i < length vs)%nat -> exists us' t',
  addback i us vs uj v t = Some (us', t') /\ digits us' /\ 0 <= t' <= 1 /\ length us' = length us /\
  num us' (S uj) i + t' * pw i = num us (S uj) i + num vs (S v) i + t /\
  (forall x, ~ (uj < x <= uj + i)%nat -> us' !! x = us !! x).
Proof.
  intros Hus Hvs. revert us t Hus. induction i as [|i IH]; intros us t Hus Ht Hlu Hlv.
  { exists us, t. change (pw 0) with 1. simpl. split_and!; try done; lia. }
  destruct (lookup_lt_is_Some_2 us (uj + S i)) as [x Hx]; [lia|].
  destruct (lookup_lt_is_Some_2 vs (v + S i)) as [y Hy]; [lia|].
  assert (is_digit x) by (by eapply Hus). assert (is_digit y) by (by eapply Hvs). unfold is_digit in *.
  cbn [addback]. rewrite Hx, Hy. cbn [mbind option_bind]. rewrite wr_ok by lia. cbn [mbind option_bind].
  rewrite digit_id by apply LHALF_digit. set (w := u32 (t + (x + y))) in *.
  assert (0 <= HHALF w <= 1 /\ t + (x + y) = HHALF w * 65536 + LHALF w) as [Hc Ew].
  { rewrite HHALF_div by apply u32_range. rewrite LHALF_mod. subst w. width_lia. }
  destruct (IH (<[(uj + S i)%nat := LHALF w]> us) (HHALF w)) as (us' & t' & -> & Hd & Htd & Hl & En & Ho);
    [by apply digits_insert, LHALF_digit|done|rewrite length_insert; lia|lia|].
  exists us', t'. split; [done|]. split; [done|]. split; [done|]. split; [by rewrite Hl, length_insert|]. split.
  - cbn [num]. rewrite Ho by lia. rewrite num_insert_out in En by lia. replace (S uj + i)%nat with (uj + S i)%nat by lia.
    replace (S v + i)%nat with (v + S i)%nat by lia. rewrite list_lookup_insert_eq, Hx, Hy by lia. cbn [default id].
    rewrite pw_S. lia.
  - intros z Hz. rewrite Ho by lia. apply list_lookup_insert_ne. lia.
Qed.

(** ** Estimating a digit of the quotient *)

(** While the loop runs, qhat is at least the digit [q] looked for, and with
    rhat it divides the first two digits; when it ends, qhat times the first
    two digits of the divisor is at most the first three of the dividend. *)
Lemma qhat_loop_ok fuel (enter : bool) v1 v2 uj2 qhat rhat nn q : is_digit v1 -> is_digit v2 -> is_digit uj2 ->
  32768 <= v1 -> qhat * v1 + rhat = nn -> 0 <= rhat < 65536 -> 65536 - rhat <= Z.of_nat fuel * 32768 ->
  0 <= q <= qhat -> qhat <= 65536 -> q * (v1 * 65536 + v2) <= nn * 65536 + uj2 ->
  (if enter then q < qhat else qhat < 65536) -> exists qhat',
  qhat_loop fuel enter v1 v2 uj2 qhat rhat = Some qhat' /\ q <= qhat' < 65536 /\
  qhat' * (v1 * 65536 + v2) <= nn * 65536 + uj2.
Proof.
  unfold is_digit. intros Hv1 Hv2 Hu Hb. revert enter qhat rhat.
  induction fuel as [|fuel IH]; intros enter qhat rhat En Hr Hf Hq Hqb Hle He; cbn [qhat_loop].
  { lia. }
  rewrite COMBINE_ok by done.
  destruct (enter || (u32 (v2 * qhat) >? rhat * 65536 + uj2)) eqn:Et.
  - assert (q < qhat) as Hlt.
    { destruct enter; [done|]. simpl in Et. rewrite u32_id in Et by (unfold is_u32; nia). nia. }
    rewrite (u32_id (qhat - 1)), (u32_id (rhat + v1)) by (unfold is_u32; lia). change B with 65536.
    destruct (Z.geb_spec (rhat + v1) 65536).
    + exists (qhat - 1). split; [done|]. split; [lia|]. nia.
    + apply IH; try done; lia.
  - apply orb_false_iff in Et as [-> Et]. exists qhat. split; [done|]. split; [lia|].
    rewrite u32_id in Et by (unfold is_u32; nia). nia.
Qed.
(** The estimate is the digit or one more. *)
Lemma qhat_of_ok v1 v2 vr uj0 uj1 uj2 ur p U V : is_digit v1 -> is_digit v2 -> is_digit uj0 -> is_digit uj1 ->
  is_digit uj2 -> 32768 <= v1 -> 0 < p -> 0 <= ur < p -> 0 <= vr < p ->
  U = ((uj0 * 65536 + uj1) * 65536 + uj2) * p + ur -> V = (v1 * 65536 + v2) * p + vr -> U < V * 65536 ->
  exists qhat, qhat_of v1 v2 uj0 uj1 uj2 = Some qhat /\ U / V <= qhat <= U / V + 1 /\ 0 <= qhat < 65536.
Proof.
  intros Hv1 Hv2 Hu0 Hu1 Hu2 Hb Hp Hur Hvr EU EV HUV. unfold is_digit in *.
  assert (0 < V) by nia. set (q := U / V).
  assert (0 <= q < 65536) as Hq by (subst q; split; [apply Z.div_pos; nia|apply Z.div_lt_upper_bound; lia]).
  assert (q * V <= U < q * V + V) as Hqv by (subst q; pose proof (Z.div_mod U V); pose proof (Z.mod_pos_bound U V); lia).
  set (nn := uj0 * 65536 + uj1) in *. assert (nn = uj0 * 65536 + uj1) as Enn by done. clearbody nn.
  assert (q * (v1 * 65536 + v2) <= nn * 65536 + uj2) as Hle.
  { cut (q * (v1 * 65536 + v2) < nn * 65536 + uj2 + 1); [lia|]. apply (Z.mul_lt_mono_pos_r p); [done|]. nia. }
  assert (exists qhat, qhat_of v1 v2 uj0 uj1 uj2 = Some qhat /\ q <= qhat < 65536 /\
    qhat * (v1 * 65536 + v2) <= nn * 65536 + uj2) as (qhat & -> & Hqh & Hfin).
  { unfold qhat_of. change B with 65536. destruct (Z.eqb_spec uj0 v1) as [->|].
    - apply (qhat_loop_ok 2 true v1 v2 uj2 65536 uj1 nn q); unfold is_digit; try done; try lia.
    - destruct (Z.eqb_spec v1 0); [lia|]. rewrite COMBINE_ok by done. rewrite <- Enn.
      assert (uj0 < v1) by (cut (uj0 <= v1); [lia|]; cut (uj0 < v1 + 1); [lia|]; apply (Z.mul_lt_mono_pos_r (65536 * 65536 * p)); nia).
      pose proof (Z.div_mod nn v1 ltac:(lia)). pose proof (Z.mod_pos_bound nn v1 ltac:(lia)).
      assert (0 <= nn / v1 < 65536) by (split; [apply Z.div_pos; lia|apply Z.div_lt_upper_bound; lia]).
      apply (qhat_loop_ok 2 false v1 v2 uj2 (nn / v1) (nn mod v1) nn q); unfold is_digit; try done; try lia.
      split; [lia|]. apply Z.div_le_lower_bound; [lia|]. cut (v1 * q < nn + 1); [lia|].
      assert (0 <= q * v2) by (apply Z.mul_nonneg_nonneg; lia). lia. }
  exists qhat. split; [done|]. split; [|lia]. split; [lia|]. cut (qhat < q + 2); [lia|].
  assert (qhat * vr < V).
  { assert (qhat * vr <= 65535 * vr) by (apply Z.mul_le_mono_nonneg_r; lia).
    assert (65536 * p <= (v1 * 65536 + v2) * p) by (apply Z.mul_le_mono_nonneg_r; lia). lia. }
  assert (qhat * (v1 * 65536 + v2) * p <= (nn * 65536 + uj2) * p) by (apply Z.mul_le_mono_nonneg_r; lia).
  apply (Z.mul_lt_mono_pos_r V); [done|]. rewrite EV at 1. lia.
Qed.
(** ** One digit of the quotient *)

Lemma lookup_num a i : (i < length a)%nat -> a !! i = Some (default 0 (a !! i)).
Proof. intros Hi. by destruct (lookup_lt_is_Some_2 a i Hi) as [x ->]. Qed.

(** Subtracting from the top digit: no borrow when qhat is the digit, a borrow
    of one when it is one more. *)
Lemma top_digit U V q qhat x t w P : q = U / V -> 0 < V < P -> q <= qhat <= q + 1 -> is_digit x -> is_digit t ->
  0 <= w < P -> U - qhat * V = (x - t) * P + w ->
  qhat = q /\ x = t /\ w = U mod V \/ qhat = q + 1 /\ x - t = -1 /\ w + V = U mod V + P.
Proof.
  intros Hq HV Hqh Hx Ht Hw E. pose proof (Z.div_mod U V ltac:(lia)). pose proof (Z.mod_pos_bound U V ltac:(lia)).
  assert (qhat = q \/ qhat = q + 1) as [->| ->] by lia; [left|right].
  - assert (U mod V = (x - t) * P + w) by lia. assert (x = t) by nia. split_and!; lia.
  - assert (U mod V - V = (x - t) * P + w) by lia. assert (x - t = -1) by nia. split_and!; lia.
Qed.

Lemma estimate_ok n us vs uj v (U := num us uj (S (S (S n)))) (V := num vs (S v) (S (S n))) :
  digits us -> digits vs -> 32768 <= default 0 (vs !! S v) -> U < V * 65536 -> exists qhat,
  qhat_of (default 0 (vs !! S v)) (default 0 (vs !! S (S v))) (default 0 (us !! uj)) (default 0 (us !! S uj))
    (default 0 (us !! S (S uj))) = Some qhat /\ U / V <= qhat <= U / V + 1 /\ is_digit qhat.
Proof.
  intros Hus Hvs Hv1 HUV. apply (qhat_of_ok _ _ (num vs (S (S (S v))) n) _ _ _ (num us (S (S (S uj))) n) (pw n));
    auto using digits_default, pw_pos, num_bound; [subst U|subst V]; rewrite !num_first, !pw_S; lia.
Qed.

(** The end of the step: test of the top digit, and the correction. *)
Lemma div_digit_ok n us vs uj v (U := num us uj (S n)) (V := num vs (S v) n) :
  digits us -> digits vs -> (2 <= n)%nat -> (uj + n < length us)%nat -> (v + n < length vs)%nat ->
  32768 <= default 0 (vs !! S v) -> U < V * 65536 -> exists us',
  div_digit n us vs uj v (default 0 (vs !! S v)) (default 0 (vs !! S (S v))) = Some (us', U / V) /\
  digits us' /\ length us' = length us /\ default 0 (us' !! uj) = 0 /\ num us' (S uj) n = U mod V /\
  is_digit (U / V) /\ (forall x, ~ (uj <= x <= uj + n)%nat -> us' !! x = us !! x).
Proof.
  intros Hus Hvs Hn Hlu Hlv Hv1 HUV. unfold div_digit.
  rewrite (lookup_num us uj), (lookup_num us (S uj)), (lookup_num us (S (S uj))) by lia. cbn [mbind option_bind].
  pose proof (num_bound vs (S v) n Hvs) as HVb. fold V in HVb. pose proof (pw_pos n).
  destruct n as [|[|n]]; [lia..|]. destruct (estimate_ok n us vs uj v Hus Hvs Hv1 HUV) as (qhat & -> & Hq & Hqd).
  set (k := S (S n)) in *. fold U V in Hq. cbn [mbind option_bind].
  assert (0 < V) as HV. { subst V k. rewrite num_first, pw_S. pose proof (pw_pos n). pose proof (num_bound vs (S (S v)) (S n) Hvs). nia. }
  assert (is_digit (U / V)) as Hqd'.
  { pose proof (num_bound us uj (S k) Hus). split; [apply Z.div_pos; lia|apply Z.div_lt_upper_bound; lia]. }
  destruct (mulsub_ok k us vs uj v qhat 0 Hus Hvs Hqd ltac:(done) Hlu Hlv) as (us1 & t & -> & Hd1 & Ht & Hl1 & E1 & Ho1).
  cbn [mbind option_bind]. rewrite (lookup_num us1 uj) by lia. cbn [mbind option_bind]. rewrite wr_ok by lia.
  cbn [mbind option_bind]. rewrite digit_id by apply LHALF_digit. rewrite Ho1 by lia.
  pose proof (digits_default us uj Hus) as Hx. pose proof (num_bound us1 (S uj) k Hd1) as Hw.
  set (x := default 0 (us !! uj)) in *.
  assert (U - qhat * V = (x - t) * pw k + num us1 (S uj) k) as E by (rewrite E1; subst U; rewrite num_first; fold V x; lia).
  destruct (top_digit U V (U / V) qhat x t _ (pw k) ltac:(done) ltac:(lia) Hq Hx Ht Hw E) as [(-> & -> & Ew)|(-> & Ext & Ew)].
  - replace (t - t) with 0 by lia. change (u32 0) with 0. change (LHALF 0) with 0. change (HHALF 0) with 0. simpl negb. cbn iota.
    eexists. split; [done|]. split; [by apply digits_insert|]. split; [by rewrite length_insert|].
    split; [by rewrite list_lookup_insert_eq by lia|]. split; [by rewrite num_insert_out by lia|]. split; [done|].
    intros y Hy. rewrite list_lookup_insert_ne by lia. apply Ho1. lia.
  - rewrite Ext. change (LHALF (u32 (-1))) with 65535. change (HHALF (u32 (-1))) with 65535. simpl negb. cbn iota.
    destruct (addback_ok k (<[uj := 65535]> us1) vs uj v 0) as (us2 & t2 & -> & Hd2 & Ht2 & Hl2 & E2 & Ho2);
      [by apply digits_insert|done|lia|rewrite length_insert; lia|done|].
    rewrite length_insert in Hl2. cbn [mbind option_bind]. rewrite Ho2, list_lookup_insert_eq by lia. cbn [mbind option_bind].
    rewrite wr_ok by lia. cbn [mbind option_bind]. rewrite num_insert_out in E2 by lia. fold V in E2.
    pose proof (num_bound us2 (S uj) k Hd2). pose proof (Z.mod_pos_bound U V HV).
    assert (t2 = 1) as -> by nia. change (digit (LHALF (65535 + 1))) with 0.
    rewrite u32_id by (unfold is_digit, is_u32 in *; lia). replace (U / V + 1 - 1) with (U / V) by lia.
    eexists. split; [done|]. split; [by apply digits_insert|]. split; [rewrite length_insert; lia|].
    split; [by rewrite list_lookup_insert_eq by lia|]. split; [rewrite num_insert_out by lia; lia|]. split; [done|].
    intros y Hy. rewrite list_lookup_insert_ne, Ho2, list_lookup_insert_ne by lia. apply Ho1. lia.
Qed.
(** ** All digits *)

(** Dividing the first digits first. *)
Lemma div_step U V P r : 0 < V -> 0 < P -> 0 <= r < P ->
  (U * P + r) / V = U / V * P + (U mod V * P + r) / V /\ (U * P + r) mod V = (U mod V * P + r) mod V.
Proof.
  intros HV HP Hr. pose proof (Z.div_mod U V ltac:(lia)) as E.
  replace (U * P + r) with (U mod V * P + r + (U / V * P) * V) by (rewrite E at 3; lia).
  rewrite Z.div_add, Z.mod_add by lia. split; [lia|done].
Qed.

Lemma div_loop_ok k n us vs qs uj v qj (T := num us uj (n + k)) (V := num vs (S v) n) :
  digits us -> digits vs -> digits qs -> (2 <= n)%nat -> (uj + n + k <= length us)%nat -> (v + n < length vs)%nat ->
  (qj + k <= length qs)%nat -> 32768 <= default 0 (vs !! S v) -> num us uj n < V -> exists us' qs',
  div_loop k n us vs qs uj v qj (default 0 (vs !! S v)) (default 0 (vs !! S (S v))) = Some (us', qs') /\
  digits us' /\ digits qs' /\ length us' = length us /\ length qs' = length qs /\
  num us' uj (n + k) = T mod V /\ num qs' qj k = T / V /\
  (forall x, (x < uj)%nat -> us' !! x = us !! x) /\ (forall x, (x < qj)%nat -> qs' !! x = qs !! x).
Proof.
  intros Hus Hvs. subst T. revert us qs uj qj Hus. induction k as [|k IH]; intros us qs uj qj Hus Hqs Hn Hlu Hlv Hlq Hv1 Hlt.
  { exists us, qs. rewrite Nat.add_0_r. pose proof (num_bound us uj n Hus).
    rewrite Z.mod_small, Z.div_small by lia. by split_and!. }
  assert (0 < V) as HV by (pose proof (num_bound us uj n Hus); lia).
  cbn [div_loop]. pose proof (num_split us uj (S n) k) as ET. replace (S n + k)%nat with (n + S k)%nat in ET by lia.
  assert (num us uj (S n) < V * 65536) as HUV.
  { pose proof (digits_default us (uj + n) Hus) as Hd. unfold is_digit in Hd. cbn [num]. lia. }
  destruct (div_digit_ok n us vs uj v Hus Hvs Hn ltac:(lia) Hlv Hv1 HUV) as (us1 & -> & Hd1 & Hl1 & Hz & En & Hqd & Ho).
  fold V in En, Hqd |- *. set (U := num us uj (S n)) in *. cbn [mbind option_bind]. rewrite wr_ok by lia. cbn [mbind option_bind].
  rewrite digit_id by done. pose proof (Z.mod_pos_bound U V HV).
  destruct (IH us1 (<[qj := U / V]> qs) (S uj) (S qj)) as (us' & qs' & -> & Hd' & Hq' & Hlu' & Hlq' & Er & Eq & Ho1 & Ho2);
    [done|by apply digits_insert|done|lia|done|rewrite length_insert; lia|done|lia|].
  rewrite (num_split us1), En in Er, Eq. rewrite (num_ext us1 us (S uj + n) k) in Er, Eq by (intros; apply Ho; lia).
  replace (S uj + n)%nat with (uj + S n)%nat in Er, Eq by lia.
  destruct (div_step U V (pw k) (num us (uj + S n) k) HV (pw_pos k) (num_bound _ _ _ Hus)) as [Ed Em].
  exists us', qs'. rewrite ET, Ed, Em. split; [done|]. split; [done|]. split; [done|].
  rewrite length_insert in Hlq'. split; [lia|]. split; [lia|]. split.
  { rewrite Nat.add_succ_r, num_first, Er, Ho1 by lia. rewrite Hz. lia. }
  split; [rewrite num_first, Eq, Ho2, list_lookup_insert_eq by lia; done|].
  split; intros x Hx; [rewrite Ho1, Ho by lia; done|]. rewrite Ho2, list_lookup_insert_ne by lia. done.
Qed.

(** ** Shifting *)

Lemma shl_digit x y sh : is_digit x -> is_digit y -> 0 < sh < 16 ->
  Z.lor (LHALF (Z.shiftl x sh)) (Z.shiftr y (HALF_BITS - sh)) = x * 2 ^ sh mod 65536 + y / 2 ^ (16 - sh) /\
  is_digit (x * 2 ^ sh mod 65536 + y / 2 ^ (16 - sh)) /\ 0 <= y / 2 ^ (16 - sh) < 2 ^ sh.
Proof.
  unfold is_digit. intros Hx Hy Hs. rewrite LHALF_mod, Z.shiftl_mul_pow2, Z.shiftr_div_pow2 by (unfold HALF_BITS; lia).
  change HALF_BITS with 16. change (2 ^ 16) with 65536.
  assert (65536 = 2 ^ (16 - sh) * 2 ^ sh) as E by (rewrite <- Z.pow_add_r by lia; replace (16 - sh + sh) with 16 by lia; done).
  pose proof (Z.pow_pos_nonneg 2 sh ltac:(lia) ltac:(lia)). pose proof (Z.pow_pos_nonneg 2 (16 - sh) ltac:(lia) ltac:(lia)).
  assert (x * 2 ^ sh mod 65536 = x mod 2 ^ (16 - sh) * 2 ^ sh) as -> by (rewrite E, Z.mul_mod_distr_r by lia; done).
  pose proof (Z.mod_pos_bound x (2 ^ (16 - sh)) ltac:(lia)).
  assert (0 <= y / 2 ^ (16 - sh) < 2 ^ sh) as Hyb by (split; [apply Z.div_pos; lia|apply Z.div_lt_upper_bound; lia]).
  rewrite lor_add by lia. split; [done|]. split; [nia|done].
Qed.
Lemma pow_half sh : 0 < sh < 16 -> 65536 = 2 ^ (16 - sh) * 2 ^ sh /\ 0 < 2 ^ sh /\ 0 < 2 ^ (16 - sh).
Proof.
  intros Hs. split; [rewrite <- Z.pow_add_r by lia; by replace (16 - sh + sh) with 16 by lia|].
  split; apply Z.pow_pos_nonneg; lia.
Qed.

(** What a digit passes on to the one before it. *)
Lemma shl_carry y Y P sh : 0 < sh < 16 -> 0 <= Y < P -> (y * P + Y) * 2 ^ sh / (65536 * P) = y / 2 ^ (16 - sh).
Proof.
  intros Hs HY. destruct (pow_half sh Hs) as (E & H1 & H2).
  replace (65536 * P) with (P * 2 ^ (16 - sh) * 2 ^ sh) by (rewrite E; lia).
  rewrite Z.div_mul_cancel_r by nia. rewrite <- Z.div_div by lia. f_equal.
  symmetry. apply (Z.div_unique _ _ _ Y); lia.
Qed.

Lemma shl_math x X Q c sh : 0 < Q -> X * 2 ^ sh / Q = c -> is_digit (x * 2 ^ sh mod 65536 + c) ->
  (x * 2 ^ sh mod 65536 + c) * Q + X * 2 ^ sh mod Q = (x * Q + X) * 2 ^ sh mod (65536 * Q).
Proof.
  intros HQ Hc Hd. unfold is_digit in Hd. pose proof (Z.div_mod (x * 2 ^ sh) 65536 ltac:(lia)).
  pose proof (Z.div_mod (X * 2 ^ sh) Q ltac:(lia)). pose proof (Z.mod_pos_bound (X * 2 ^ sh) Q HQ).
  set (m := X * 2 ^ sh mod Q) in *. set (xm := x * 2 ^ sh mod 65536) in *.
  apply (Z.mod_unique _ _ (x * 2 ^ sh / 65536)); [left; nia|]. rewrite Z.mul_add_distr_r.
  replace (x * Q * 2 ^ sh) with (x * 2 ^ sh * Q) by lia. rewrite H, H0, Hc at 1. lia.
Qed.

Lemma shl_ok len a p sh : digits a -> (p + len < length a)%nat -> 0 < sh < 16 -> exists a',
  shl a p len sh = Some a' /\ digits a' /\ length a' = length a /\
  num a' p (S len) = num a p (S len) * 2 ^ sh mod pw (S len) /\
  (forall x, ~ (p <= x <= p + len)%nat -> a' !! x = a !! x).
Proof.
  intros Ha Hl Hs. revert a p Ha Hl. induction len as [|len IH]; intros a p Ha Hl; cbn [shl].
  - rewrite (lookup_num a p) by lia. cbn [mbind option_bind]. rewrite wr_ok, digit_id by (lia || apply LHALF_digit).
    eexists. split; [done|]. split; [by apply digits_insert, LHALF_digit|]. split; [apply length_insert|].
    split; [|intros x Hx; apply list_lookup_insert_ne; lia].
    cbn [num]. rewrite Nat.add_0_r, list_lookup_insert_eq by lia. cbn [default id].
    rewrite LHALF_mod, Z.shiftl_mul_pow2 by lia. done.
  - rewrite (lookup_num a p), (lookup_num a (S p)) by lia. cbn [mbind option_bind].
    destruct (shl_digit _ _ sh (digits_default a p Ha) (digits_default a (S p) Ha) Hs) as (-> & Hd & _).
    rewrite wr_ok, digit_id by (lia || done). cbn [mbind option_bind].
    set (D := default 0 (a !! p) * 2 ^ sh mod 65536 + default 0 (a !! S p) / 2 ^ (16 - sh)) in *.
    destruct (IH (<[p := D]> a) (S p)) as (a' & -> & Hd' & Hl' & En & Ho);
      [by apply digits_insert|rewrite length_insert; lia|].
    rewrite length_insert in Hl'. exists a'. split; [done|]. split; [done|]. split; [done|]. split.
    + rewrite num_first, En, Ho, list_lookup_insert_eq, num_insert_out, (num_first a p), (pw_S (S len)) by lia.
      cbn [default id]. apply shl_math; [apply pw_pos| |done].
      rewrite num_first, pw_S. apply shl_carry; [done|by apply num_bound].
    + intros x Hx. rewrite Ho by lia. apply list_lookup_insert_ne. lia.
Qed.

(** The right shift of the remainder. *)
Lemma unshift_math A x y d : 0 < d < 16 -> is_digit x -> is_digit y -> 0 <= A ->
  Z.lor (Z.shiftr x d) (LHALF (Z.shiftl y (HALF_BITS - d))) = ((A * 65536 + y) * 65536 + x) / 2 ^ d mod 65536.
Proof.
  intros Hd Hx Hy HA. unfold is_digit in *. destruct (pow_half (16 - d) ltac:(lia)) as (E & H1 & H2).
  replace (16 - (16 - d)) with d in * by lia. rewrite Z.shiftr_div_pow2, Z.lor_comm by lia.
  rewrite LHALF_mod, Z.shiftl_mul_pow2 by (unfold HALF_BITS; lia). change HALF_BITS with 16. change (2 ^ 16) with 65536.
  assert (0 <= x / 2 ^ d < 2 ^ (16 - d)) as Hxd by (split; [apply Z.div_pos; lia|apply Z.div_lt_upper_bound; lia]).
  replace (y * 2 ^ (16 - d) mod 65536) with (y mod 2 ^ d * 2 ^ (16 - d)) by (rewrite E, Z.mul_mod_distr_r by lia; done).
  rewrite lor_add by lia.
  assert (forall W, W * 65536 + x = x + W * 2 ^ (16 - d) * 2 ^ d) as -> by (intros W; rewrite E; lia).
  rewrite Z.div_add by lia. pose proof (Z.mod_pos_bound y (2 ^ d) ltac:(lia)). pose proof (Z.div_mod y (2 ^ d) ltac:(lia)).
  apply (Z.mod_unique _ _ (A * 2 ^ (16 - d) + y / 2 ^ d)); nia.
Qed.
Lemma unshift_ok k b us d : digits us -> (b + k < length us)%nat -> 0 < d < 16 -> exists us',
  unshift k (b + k) us d = Some us' /\ digits us' /\ length us' = length us /\ us' !! b = Some 0 /\
  num us' (S b) k = num us b (S k) / 2 ^ d mod pw k /\
  (forall x, ~ (b <= x <= b + k)%nat -> us' !! x = us !! x).
Proof.
  intros Hus Hl Hd. revert us Hus Hl. induction k as [|k IH]; intros us Hus Hl.
  - rewrite Nat.add_0_r in *. cbn [unshift]. rewrite wr_ok by done. eexists. split; [done|].
    split; [by apply digits_insert|]. split; [apply length_insert|]. split; [by apply list_lookup_insert_eq|].
    change (pw 0) with 1. rewrite Z.mod_1_r. split; [done|]. intros x Hx. apply list_lookup_insert_ne. lia.
  - rewrite Nat.add_succ_r in *. cbn [unshift]. rewrite (lookup_num us (S (b + k))), (lookup_num us (b + k)) by lia.
    cbn [mbind option_bind].
    rewrite (unshift_math (num us b k)) by (try apply digits_default; try apply num_bound; done).
    assert (num us b (S (S k)) = (num us b k * 65536 + default 0 (us !! (b + k)%nat)) * 65536 + default 0 (us !! S (b + k))) as EN
      by (cbn [num]; by rewrite Nat.add_succ_r).
    rewrite <- EN. set (N := num us b (S (S k))) in *.
    rewrite wr_ok, digit_id by (lia || (apply Z.mod_pos_bound; lia)). cbn [mbind option_bind].
    destruct (IH (<[S (b + k) := N / 2 ^ d mod 65536]> us)) as (us' & -> & Hd' & Hl' & Hz & En & Ho);
      [by apply digits_insert, Z.mod_pos_bound|rewrite length_insert; lia|].
    rewrite length_insert in Hl'. exists us'. split; [done|]. split; [done|]. split; [done|]. split; [done|]. split.
    + cbn [num]. rewrite num_insert_out in En by lia. rewrite En, Nat.add_succ_l, Ho, list_lookup_insert_eq by lia. cbn [default id].
      rewrite pw_S, Z.rem_mul_r by (pose proof (pw_pos k); lia). rewrite Z.div_div by (lia || apply Z.pow_nonzero; lia).
      rewrite (Z.mul_comm (2 ^ d)), <- Z.div_div by (lia || (apply Z.pow_pos_nonneg; lia)).
      replace (N / 65536) with (num us b (S k)); [lia|]. rewrite EN. cbn [num].
      apply (Z.div_unique _ _ _ (default 0 (us !! S (b + k)))); [left; by apply digits_default|lia].
    + intros x Hx. rewrite Ho by lia. apply list_lookup_insert_ne. lia.
Qed.

(** ** Leading zeros, and the normalisation *)

Lemma split4_ok x0 x : is_digit x0 -> is_u64 x ->
  digits (split4 x0 x) /\ length (split4 x0 x) = 5%nat /\ num (split4 x0 x) 1 4 = x.
Proof.
  intros H0 Hx. unfold split4. pose proof (ull_of_ll x) as E. rewrite u64_id in E by done. unfold ull in E.
  destruct (half_split _ (of_ll_H x)) as (EH & Ha & Hb), (half_split _ (of_ll_L x)) as (EL & Hc & Hd).
  change (2 ^ 16) with 65536 in *. rewrite !digit_id by done.
  set (h := ui_H (of_ll x)) in *. set (l := ui_L (of_ll x)) in *. clearbody h l.
  split; [|split; [done|]]; [|cbn [num Nat.add lookup list_lookup default id]; simpl; lia].
  intros i y Hi. do 5 (destruct i as [|i]; [simpl in Hi; injection Hi as <-; done|]). done.
Qed.

Lemma skip_v_ok n vs v : digits vs -> length vs = 5%nat -> (v + n = 4)%nat -> (2 <= n)%nat -> num vs (S v) n <> 0 ->
  (exists t, skip_v n vs v = Some (inl t) /\ t = num vs (S v) n /\ 0 < t < 65536) \/
  exists n' v', skip_v n vs v = Some (inr (n', v')) /\ (v' + n' = 4)%nat /\ (2 <= n' <= n)%nat /\
    num vs (S v') n' = num vs (S v) n /\ default 0 (vs !! S v') <> 0.
Proof.
  intros Hd Hl. revert v. induction n as [|n IH]; intros v Hv Hn Hnz; [lia|]. cbn [skip_v].
  rewrite (lookup_num vs (S v)) by lia. cbn [mbind option_bind].
  destruct (Z.eqb_spec (default 0 (vs !! S v)) 0) as [Hz|Hz]; simpl negb; cbn iota.
  - rewrite num_first, Hz, Z.mul_0_l, Z.add_0_l in Hnz |- *. destruct (decide (n = 1%nat)) as [->|Hn1].
    + left. rewrite (lookup_num vs (S (S v))) by lia. cbn [mbind option_bind]. eexists. split; [done|].
      cbn [num] in *. rewrite Nat.add_0_r in *. pose proof (digits_default vs (S (S v)) Hd) as Hx. unfold is_digit in Hx. split; lia.
    + destruct (IH (S v)) as [H|(n' & v' & H1 & H2 & H3 & H4 & H5)]; [lia..|done|by left|right].
      exists n', v'. split_and!; try done; lia.
  - right. exists (S n), v. split_and!; try done; lia.
Qed.

Lemma skip_u_ok m n us u : digits us -> length us = 5%nat -> (u + m + n = 4)%nat -> (1 <= n)%nat ->
  pw (n - 1) <= num us (S u) (m + n) -> exists m' u', skip_u m us u = Some (m', u') /\ (u' + m' + n = 4)%nat /\
    (u <= u')%nat /\ (m' <= m)%nat /\ num us (S u') (m' + n) = num us (S u) (m + n) /\
    (forall x, (u < x <= u')%nat -> default 0 (us !! x) = 0).
Proof.
  intros Hd Hl. revert u. induction m as [|m IH]; intros u Hu Hn Hge; cbn [skip_u];
    rewrite (lookup_num us (S u)) by lia; cbn [mbind option_bind];
    destruct (Z.eqb_spec (default 0 (us !! S u)) 0) as [Hz|Hz]; simpl negb; cbn iota;
    try (eexists _, u; split_and!; [done|lia..|done|lia]).
  - exfalso. destruct n as [|n]; [lia|]. simpl Nat.add in Hge. rewrite num_first, Hz in Hge.
    replace (S n - 1)%nat with n in Hge by lia. pose proof (num_bound us (S (S u)) n Hd). lia.
  - simpl Nat.add in Hge |- *. rewrite num_first, Hz, Z.mul_0_l, Z.add_0_l in Hge |- *.
    destruct (IH (S u)) as (m' & u' & H1 & H2 & H3 & H4 & H5 & H6); [lia..|done|]. exists m', u'.
    split_and!; try done; try lia. intros x Hx. destruct (decide (x = S u)) as [->|]; [done|]. apply H6. lia.
Qed.
Lemma normalise_ok fuel t d : 0 < t < 65536 -> 32768 <= t * 2 ^ Z.of_nat fuel -> exists e, 0 <= e <= Z.of_nat fuel /\
  normalise fuel t d = Some (d + e) /\ 32768 <= t * 2 ^ e < 65536.
Proof.
  revert t d. induction fuel as [|fuel IH]; intros t d Ht Hf; cbn [normalise]; change (B / 2) with 32768.
  { change (2 ^ Z.of_nat 0) with 1 in Hf. destruct (Z.ltb_spec t 32768); [lia|]. exists 0. rewrite Z.add_0_r. split; [lia|]. split; [done|]. lia. }
  destruct (Z.ltb_spec t 32768); [|exists 0; rewrite Z.add_0_r; split; [lia|]; split; [done|]; change (2 ^ 0) with 1; lia].
  rewrite Nat2Z.inj_succ, Z.pow_succ_r in Hf by lia. rewrite Z.shiftl_mul_pow2, u32_id by (unfold is_u32; lia).
  destruct (IH (t * 2 ^ 1) (d + 1)) as (e & He & -> & Hr); [lia|lia|]. exists (e + 1). split; [lia|]. split; [f_equal; lia|].
  rewrite Z.pow_add_r by lia. lia.
Qed.

Lemma zero_q_ok i q : (i <= length q)%nat -> digits q -> exists q', zero_q i q = Some q' /\ digits q' /\ length q' = length q /\
  (forall x, (x < i)%nat -> q' !! x = Some 0) /\ (forall x, (i <= x)%nat -> q' !! x = q !! x).
Proof.
  revert q. induction i as [|i IH]; intros q Hi Hd; cbn [zero_q]; [exists q; split_and!; try done; lia|].
  rewrite wr_ok by lia. cbn [mbind option_bind].
  destruct (IH (<[i := 0]> q)) as (q' & -> & H1 & H2 & H3 & H4); [rewrite length_insert; lia|by apply digits_insert|].
  rewrite length_insert in H2. exists q'. split_and!; try done.
  - intros x Hx. destruct (decide (x = i)) as [->|]; [rewrite H4 by lia; apply list_lookup_insert_eq; lia|]. apply H3. lia.
  - intros x Hx. rewrite H4 by lia. apply list_lookup_insert_ne. lia.
Qed.

Lemma four_ok a : digits a -> length a = 5%nat -> four a = Some (num a 1 4).
Proof.
  intros Hd Hl. unfold four. rewrite (lookup_num a 1), (lookup_num a 2), (lookup_num a 3), (lookup_num a 4) by lia.
  cbn [mbind option_bind]. rewrite !COMBINE_ok by (by apply digits_default). unfold ull. cbn [ui_H ui_L num Nat.add]. f_equal. lia.
Qed.

(** A number that fits in the last digits has zeros before them. *)
Lemma num_last a b n R : digits a -> (b + S n = 5)%nat -> (n <= 4)%nat -> num a 0 5 = R -> R < pw n ->
  num a 0 b = 0 /\ num a b (S n) = R /\ num a 1 4 = R.
Proof.
  intros Hd Hb Hn HR Hlt. rewrite <- Hb, num_split in HR. simpl Nat.add in HR. rewrite pw_S in HR. pose proof (pw_pos n).
  pose proof (num_bound a 0 b Hd). pose proof (num_bound a b (S n) Hd). assert (num a 0 b = 0) by nia.
  split; [done|]. split; [lia|]. pose proof (num_first a 0 4) as E. replace 5%nat with (b + S n)%nat in E by lia.
  rewrite num_split in E. simpl Nat.add in E. pose proof (num_bound a 1 4 Hd). pose proof (digits_default a 0 Hd) as H0'.
  unfold is_digit in H0'. assert (pw n <= pw 4) by (unfold pw; apply Z.pow_le_mono_r; lia).
  assert (default 0 (a !! 0%nat) = 0) by nia. lia.
Qed.

Lemma rem_ok b n us d R : digits us -> length us = 5%nat -> (b + n = 4)%nat -> 0 <= d < 16 ->
  num us 0 5 = R * 2 ^ d -> 0 <= R -> R * 2 ^ d < pw n -> exists us',
  (if d =? 0 then Some us else unshift n (b + n) us d) = Some us' /\ four us' = Some R.
Proof.
  intros Hd Hl Hb Hd16 HR HR0 Hlt. pose proof (Z.pow_pos_nonneg 2 d ltac:(lia) ltac:(lia)).
  destruct (num_last us b n _ Hd ltac:(lia) ltac:(lia) HR Hlt) as (Hz & Hn & H4).
  destruct (Z.eqb_spec d 0) as [->|].
  { exists us. split; [done|]. rewrite four_ok, H4 by done. f_equal. change (2 ^ 0) with 1. lia. }
  destruct (unshift_ok n b us d Hd ltac:(lia) ltac:(lia)) as (us' & -> & Hd' & Hl' & Hb' & En & Ho).
  exists us'. split; [done|]. rewrite Hn, Z.div_mul, Z.mod_small in En by nia. rewrite four_ok by (done || lia). f_equal.
  apply (num_last us' b n R); [done|lia|lia| |nia]. replace 5%nat with (b + S n)%nat by lia.
  rewrite num_split, Nat.add_0_l, num_first, Hb', En. rewrite (num_ext us' us) by (intros; apply Ho; lia). rewrite Hz. simpl. lia.
Qed.
Lemma short_division_ok us t : digits us -> length us = 5%nat -> 0 < t < 65536 ->
  short_division us t = Some (num us 1 4 / t, num us 1 4 mod t).
Proof.
  intros Hd Hl Ht. unfold short_division. destruct (Z.eqb_spec t 0); [lia|].
  rewrite (lookup_num us 1), (lookup_num us 2), (lookup_num us 3), (lookup_num us 4) by lia. cbn [mbind option_bind].
  cbn [num Nat.add].
  pose proof (digits_default us 1 Hd) as H1. pose proof (digits_default us 2 Hd) as H2.
  pose proof (digits_default us 3 Hd) as H3. pose proof (digits_default us 4 Hd) as H4.
  set (u1 := default 0 (us !! 1%nat)) in *. set (u2 := default 0 (us !! 2%nat)) in *.
  set (u3 := default 0 (us !! 3%nat)) in *. set (u4 := default 0 (us !! 4%nat)) in *. clearbody u1 u2 u3 u4.
  assert (forall x, is_digit (x mod t)) as Hm by (intros x; pose proof (Z.mod_pos_bound x t); unfold is_digit; lia).
  assert (forall x y, is_digit y -> is_digit ((x mod t * 65536 + y) / t)) as Hq.
  { intros x y Hy. unfold is_digit in *. pose proof (Z.mod_pos_bound x t ltac:(lia)).
    split; [apply Z.div_pos; lia|apply Z.div_lt_upper_bound; nia]. }
  assert (is_digit (u1 / t)) as Hq1.
  { unfold is_digit in *. split; [apply Z.div_pos; lia|apply Z.div_lt_upper_bound; nia]. }
  assert (forall N y, is_digit y -> (N * 65536 + y) / t = N / t * 65536 + (N mod t * 65536 + y) / t /\
    (N * 65536 + y) mod t = (N mod t * 65536 + y) mod t) as Hs by (intros N y Hy; apply div_step; [lia|lia|exact Hy]).
  rewrite (COMBINE_ok _ u2), (COMBINE_ok _ u3), (COMBINE_ok _ u4) by auto. rewrite !digit_id by auto.
  rewrite !COMBINE_ok by auto. unfold ull. cbn [ui_H ui_L].
  destruct (Hs u1 u2 H2) as [D2 M2], (Hs (u1 * 65536 + u2) u3 H3) as [D3 M3],
    (Hs ((u1 * 65536 + u2) * 65536 + u3) u4 H4) as [D4 M4].
  rewrite Z.mul_0_l, Z.add_0_l, M4, D4, M3, D3, M2, D2. f_equal. f_equal. lia.
Qed.

(** Shifting or not, the digits are multiplied by 2^d. *)
Lemma shift_ok a p len d : digits a -> (p + len < length a)%nat -> 0 <= d < 16 ->
  num a p (S len) * 2 ^ d < pw (S len) -> exists a',
  (if d >? 0 then shl a p len d else Some a) = Some a' /\ digits a' /\ length a' = length a /\
  num a' p (S len) = num a p (S len) * 2 ^ d /\ (forall x, ~ (p <= x <= p + len)%nat -> a' !! x = a !! x).
Proof.
  intros Ha Hl Hd Hlt. pose proof (num_bound a p (S len) Ha). pose proof (Z.pow_pos_nonneg 2 d ltac:(lia) ltac:(lia)).
  destruct (Z.gtb_spec d 0); [|exists a; replace d with 0 by lia; change (2 ^ 0) with 1; split_and!; try done; lia].
  destruct (shl_ok len a p d Ha Hl ltac:(lia)) as (a' & -> & Hd' & Hl' & En & Ho). exists a'.
  rewrite Z.mod_small in En by nia. by split_and!.
Qed.

(** The shifted divisor: its value and its first digit. *)
Lemma shift_v v n vs d : digits vs -> length vs = 5%nat -> (v + S n = 4)%nat -> 0 <= d < 16 ->
  32768 <= default 0 (vs !! S v) * 2 ^ d < 65536 -> exists vs',
  (if d >? 0 then shl vs (S v) n d else Some vs) = Some vs' /\ digits vs' /\ length vs' = 5%nat /\
  num vs' (S v) (S n) = num vs (S v) (S n) * 2 ^ d /\ 32768 <= default 0 (vs' !! S v).
Proof.
  intros Hvs Hl Hv Hd Hv1. pose proof (Z.pow_pos_nonneg 2 d ltac:(lia) ltac:(lia)).
  pose proof (num_bound vs (S (S v)) n Hvs) as Hb. pose proof (pw_pos n).
  assert (num vs (S v) (S n) * 2 ^ d < pw (S n)) as Hlt.
  { rewrite num_first, pw_S. set (x := default 0 (vs !! S v)) in *.
    assert (65536 = 2 ^ (16 - d) * 2 ^ d) as E by (rewrite <- Z.pow_add_r by lia; by replace (16 - d + d) with 16 by lia).
    assert ((x + 1) * 2 ^ d <= 65536) by (rewrite E in Hv1 |- *; apply Z.mul_le_mono_pos_r; nia). nia. }
  destruct (shift_ok vs (S v) n d Hvs ltac:(lia) Hd Hlt) as (vs' & -> & Hd' & Hl' & En & _).
  exists vs'. split; [done|]. split; [done|]. split; [lia|]. split; [done|].
  rewrite !num_first in En. pose proof (num_bound vs' (S (S v)) n Hd').
  set (x := default 0 (vs !! S v)) in *. set (x' := default 0 (vs' !! S v)) in *. nia.
Qed.

(** The main loop on the arrays as they are set up: the quotient in [qs], the
    remainder times 2^d in [us]. *)
Lemma long_division u m v n us vs qs d x y : digits us -> length us = 5%nat -> digits vs -> length vs = 5%nat ->
  digits qs -> length qs = 5%nat -> (u + m + S n = 4)%nat -> (v + S n = 4)%nat -> (1 <= n)%nat -> 0 <= d < 16 ->
  (forall z, (z <= u)%nat -> default 0 (us !! z) = 0) -> num us (S u) (m + S n) = x -> num vs (S v) (S n) = y ->
  (forall z, (z < 4 - m)%nat -> qs !! z = Some 0) -> 32768 <= default 0 (vs !! S v) * 2 ^ d < 65536 ->
  exists us1 vs1 us2 qs2 us3,
    (if d >? 0 then shl us u (m + S n) d else Some us) = Some us1 /\
    (if d >? 0 then shl vs (S v) n d else Some vs) = Some vs1 /\ length vs1 = 5%nat /\
    div_loop (S m) (S n) us1 vs1 qs u v (4 - m) (default 0 (vs1 !! S v)) (default 0 (vs1 !! S (S v))) = Some (us2, qs2) /\
    (if d =? 0 then Some us2 else unshift (S n) (u + m + S n) us2 d) = Some us3 /\
    four qs2 = Some (x / y) /\ four us3 = Some (x mod y).
Proof.
  intros Hus Hlu Hvs Hlv Hqs Hlq Hu Hv Hn Hd Hz Ex Ey Hq0 Hv1.
  pose proof (Z.pow_pos_nonneg 2 d ltac:(lia) ltac:(lia)) as Hp.
  assert (2 ^ d < 65536) by (change 65536 with (2 ^ 16); apply Z.pow_lt_mono_r; lia).
  assert (num us u (S (m + S n)) = x) as Ex' by (rewrite num_first, Hz by lia; lia).
  assert (0 <= x < pw (m + S n)) as Hx by (rewrite <- Ex; by apply num_bound).
  assert (0 < y < pw (S n) /\ pw n <= y) as [Hy Hyn].
  { rewrite <- Ey. pose proof (num_bound vs (S v) (S n) Hvs). pose proof (num_bound vs (S (S v)) n Hvs).
    pose proof (pw_pos n). rewrite num_first in *. set (v1 := default 0 (vs !! S v)) in *. assert (1 <= v1) by nia. nia. }
  destruct (shift_ok us u (m + S n) d Hus ltac:(lia) Hd) as (us1 & -> & Hd1 & Hl1 & E1 & Ho1); [rewrite Ex', pw_S; nia|].
  destruct (shift_v v n vs d Hvs Hlv Hv Hd Hv1) as (vs1 & -> & Hdv & Hlv1 & Ev & Hv1').
  rewrite Ex' in E1. rewrite Ey in Ev.
  destruct (div_loop_ok (S m) (S n) us1 vs1 qs u v (4 - m)) as (us2 & qs2 & Hloop & Hd2 & Hdq & Hl2 & Hlq2 & Er & Eq & Ho2 & Hoq);
    [done|done|done|lia|lia|lia|lia|done| |].
  { rewrite Ev. pose proof (num_split us1 u (S n) (S m)) as Es. replace (S n + S m)%nat with (S (m + S n)) in Es by lia.
    rewrite E1 in Es. pose proof (num_bound us1 (u + S n) (S m) Hd1). pose proof (pw_pos (S m)).
    apply (Z.mul_lt_mono_pos_r (pw (S m))); [done|]. apply Z.le_lt_trans with (x * 2 ^ d); [lia|].
    replace (m + S n)%nat with (n + S m)%nat in Hx by lia. rewrite pw_add in Hx.
    assert (x < y * pw (S m)) by (apply Z.lt_le_trans with (pw n * pw (S m)); [lia|apply Z.mul_le_mono_nonneg_r; lia]).
    replace (y * 2 ^ d * pw (S m)) with (y * pw (S m) * 2 ^ d) by lia. by apply Z.mul_lt_mono_pos_r. }
  replace (S n + S m)%nat with (S (m + S n)) in Er, Eq by lia. rewrite E1, Ev in Er, Eq.
  rewrite Z.div_mul_cancel_r in Eq by lia. rewrite Z.mul_mod_distr_r in Er by lia.
  pose proof (Z.mod_pos_bound x y ltac:(lia)).
  destruct (rem_ok (u + m) (S n) us2 d (x mod y)) as (us3 & E3 & H3); [done|lia|lia|done| |lia| |].
  { replace 5%nat with (u + S (m + S n))%nat by lia. rewrite num_split, Nat.add_0_l, Er.
    rewrite num_zeros; [lia|]. intros z Hzu. rewrite Ho2, Ho1 by lia. apply Hz. lia. }
  { pose proof (num_bound vs1 (S v) (S n) Hdv) as Hb. rewrite Ev in Hb. nia. }
  exists us1, vs1, us2, qs2, us3. split_and!; try done. rewrite four_ok by (done || lia). f_equal.
  assert (0 <= x / y) by (apply Z.div_pos; lia).
  apply (num_last qs2 0 4 (x / y)); [done|lia|lia| |].
  - replace 5%nat with (4 - m + S m)%nat by lia. rewrite num_split, Nat.add_0_l, Eq.
    rewrite num_zeros; [lia|]. intros z Hzu. by rewrite Hoq, Hq0 by lia.
  - apply Z.le_lt_trans with x; [apply Z.div_le_upper_bound; nia|]. apply Z.lt_le_trans with (pw (m + S n)); [lia|].
    unfold pw. apply Z.pow_le_mono_r; lia.
Qed.
Lemma qdivrem_ok junk x y : is_digit junk -> is_u64 x -> is_u64 y -> y <> 0 ->
  __qdivrem junk x y = Some (x / y, x mod y).
Proof.
  intros Hj Hx Hy Hy0. unfold __qdivrem. destruct (Z.eqb_spec y 0) as [|_]; [done|].
  destruct (Z.ltb_spec x y).
  { unfold is_u64 in *. by rewrite Z.div_small, Z.mod_small by lia. }
  destruct (split4_ok 0 x ltac:(done) Hx) as (Hdu & Hlu & Eu), (split4_ok junk y Hj Hy) as (Hdv & Hlv & Ev).
  assert (default 0 (split4 0 x !! 0%nat) = 0) as Hu0 by done.
  set (us := split4 0 x) in *. set (vs := split4 junk y) in *. clearbody us vs.
  destruct (skip_v_ok 4 vs 0 Hdv Hlv ltac:(lia) ltac:(lia) ltac:(by rewrite Ev)) as
    [(t & -> & -> & Ht)|(n & v & -> & Hvn & Hn & Evn & Hv1)]; cbn [mbind option_bind].
  { rewrite Ev in *. by rewrite short_division_ok, Eu. }
  destruct n as [|n]; [lia|].
  assert (pw n <= y) as Hge.
  { rewrite <- Ev, <- Evn, num_first. pose proof (num_bound vs (S (S v)) n Hdv). pose proof (pw_pos n).
    pose proof (digits_default vs (S v) Hdv). unfold is_digit in *. nia. }
  destruct (skip_u_ok (4 - S n) (S n) us 0 Hdu Hlu) as (m & u & -> & Hu & _ & Hm & Eun & Hz); [lia|lia| |].
  { replace (4 - S n + S n)%nat with 4%nat by lia. rewrite Eu. replace (S n - 1)%nat with n by lia. lia. }
  replace (4 - S n + S n)%nat with 4%nat in Eun by lia. rewrite Eu in Eun. cbn [mbind option_bind].
  destruct (zero_q_ok (4 - m) (replicate 5 junk)) as (qs & -> & Hdq & Hlq & Hq0 & _); [rewrite length_replicate; lia| |].
  { intros i z [-> _]%lookup_replicate. done. }
  cbn [mbind option_bind]. rewrite (lookup_num vs (S v)) by lia. cbn [mbind option_bind].
  pose proof (digits_default vs (S v) Hdv) as Hd1.
  destruct (normalise_ok 16 (default 0 (vs !! S v)) 0) as (d & Hd & -> & Hvd); [unfold is_digit in *; lia|unfold is_digit in *; lia|].
  cbn [mbind option_bind]. rewrite Z.add_0_l. replace (S n - 1)%nat with n by lia.
  assert (d < 16) by (destruct (decide (d = 16)) as [->|]; unfold is_digit in *; lia).
  destruct (long_division u m v n us vs qs d x y) as (us1 & vs1 & us2 & qs2 & us3 & -> & -> & Hl1 & Hloop & H3 & Hq & Hr);
    try done; try lia; [intros z Hzu; destruct (decide (z = 0%nat)) as [->|]; [done|apply Hz; lia]|].
  cbn [mbind option_bind]. rewrite (lookup_num vs1 (S v)), (lookup_num vs1 (S (S v))) by lia. cbn [mbind option_bind].
  rewrite Hloop. cbn [mbind option_bind]. rewrite H3. cbn [mbind option_bind]. by rewrite Hr, Hq.
Qed.
(** The absolute value, as the signed routines take it. *)
Lemma abs_ok a : is_s64 a -> (if a <? 0 then u64 (- u64 a) else u64 a) = Z.abs a /\ is_u64 (Z.abs a).
Proof. intros Ha. destruct (Z.ltb_spec a 0); width_lia. Qed.

Lemma sign_ok (neg : bool) q : is_u64 q -> s64 (if neg then u64 (- q) else q) = s64 (if neg then - q else q).
Proof. intros Hq. destruct neg; [apply s64_u64|done]. Qed.

(** C34: 64-bit division.  For every divisor but zero the routine ends without
    an access outside its arrays, whatever they held before; unsigned division
    gives the quotient and the remainder of integers, signed division the
    quotient truncated towards zero, reduced to 64 bits, and the remainder with
    the sign of the dividend.  Division by zero gives no value. *)
Theorem division_spec junk a b : is_digit junk ->
  (is_u64 a -> is_u64 b -> b <> 0 ->
     __udivdi3 junk a b = Some (a / b) /\ __umoddi3 junk a b = Some (a mod b)) /\
  (is_s64 a -> is_s64 b -> b <> 0 ->
     __divdi3 junk a b = Some (s64 (Z.quot a b)) /\ __moddi3 junk a b = Some (Z.rem a b)) /\
  __qdivrem junk a 0 = None.
Proof.
  intros Hj. split; [|split; [|done]].
  - intros Ha Hb Hb0. unfold __udivdi3, __umoddi3. by rewrite qdivrem_ok.
  - intros Ha Hb Hb0. unfold __divdi3, __moddi3. destruct (abs_ok a Ha) as [-> Ha'], (abs_ok b Hb) as [-> Hb'].
    rewrite qdivrem_ok by (done || lia). cbn [mbind option_bind].
    rewrite <- Z.quot_div_nonneg, <- Z.rem_mod_nonneg by lia.
    assert (is_u64 (Z.abs a ÷ Z.abs b) /\ is_u64 (Z.rem (Z.abs a) (Z.abs b))) as [Hq Hr].
    { rewrite Z.quot_div_nonneg, Z.rem_mod_nonneg by lia. unfold is_u64 in *. pose proof (Z.mod_pos_bound (Z.abs a) (Z.abs b) ltac:(lia)).
      split; [|lia]. split; [apply Z.div_pos; lia|]. apply Z.le_lt_trans with (Z.abs a); [apply Z.div_le_upper_bound; nia|lia]. }
    rewrite !sign_ok by done. split; f_equal.
    + f_equal. destruct (Z.ltb_spec a 0), (Z.ltb_spec b 0); cbn [xorb];
        rewrite ?(Z.abs_neq a), ?(Z.abs_neq b), ?(Z.abs_eq a), ?(Z.abs_eq b) by lia.
      * by rewrite Z.quot_opp_opp by lia.
      * rewrite Z.quot_opp_l by lia. lia.
      * rewrite Z.quot_opp_r by lia. lia.
      * done.
    + rewrite s64_id.
      * rewrite Z.rem_abs_r by lia. destruct (Z.ltb_spec a 0); rewrite ?(Z.abs_neq a), ?(Z.abs_eq a) by lia; [|done].
        rewrite Z.rem_opp_l by lia. lia.
      * pose proof (Z.rem_bound_pos (Z.abs a) (Z.abs b) ltac:(lia) ltac:(lia)). unfold is_s64 in *.
        destruct (Z.ltb_spec a 0); lia.
Qed.

Lemma division_spec_witness :
  __divdi3 0 (- 2 ^ 63) (-1) = Some (- 2 ^ 63) /\ __umoddi3 9 (2 ^ 64 - 1) 0x123456789 = Some ((2 ^ 64 - 1) mod 0x123456789) /\
  is_digit 9.
Proof.
  split; [|split; [|done]].
  - refine (proj1 (proj1 (proj2 (division_spec 0 (- 2 ^ 63) (-1) _)) _ _ _)); done.
  - refine (proj2 (proj1 (division_spec 9 (2 ^ 64 - 1) 0x123456789 _) _ _ _)); done.
Defined.
End QDivRem.
