(* ===== verification/Libc.v ===== *)
(** * Memory and string functions of libc

    Model of common/libc/string and common/libc/stdlib/atoi.c, which the kernel
    and user programs share.  The state is a memory of bytes; an access to an
    address that is not there is a fault.  A [long] is four bytes, big-endian.

    A loop that ends when it finds a byte runs at most as often as there are
    bytes in memory, a bound that no string in memory reaches. *)

From S2P Require Import Prelude Bswap Copyinout.
Open Scope Z_scope.

(** Cases on the comparisons in the goal. *)
Ltac zcases :=
  repeat match goal with
    | |- context [?a <=? ?b] => destruct (Z.leb_spec a b)
    | |- context [?a <? ?b] => destruct (Z.ltb_spec a b)
    end; cbn [andb orb negb]; try lia.

Module Libc.
Abbreviation mem := (gmap Z Z).

(** ** Access to memory *)

(** Reading and writing an object of [k] bytes: [char] with 1, [long] with 4. *)
Definition ld (k : nat) (p : Z) : M mem Z :=
  m ← get; bs ← deref FBounds (Copyinout.load_bytes m p k); mret (Bswap.be_value bs).
Definition st (k : nat) (p v : Z) : M mem unit := fun m =>
  match Copyinout.store_bytes m p (Bswap.be_bytes k v) with
  | (m', true) => Ok tt m'
  | (_, false) => Fault FBounds
  end.

(** ** memcpy, memmove, memset, bzero *)

Definition SIZEOF_LONG : Z := 4.

(** [for (i=0; i<n; i++) d[i] = s[i];] for objects of [k] bytes *)
Fixpoint copy_up (k : nat) (dst src : Z) (n i : nat) : M mem unit :=
  match n with
  | O => mret tt
  | S n' =>
      v ← ld k (src + Z.of_nat k * Z.of_nat i);
      st k (dst + Z.of_nat k * Z.of_nat i) v ;;
      copy_up k dst src n' (S i)
  end.
(** [for (i=n; i>0; i--) d[i-1] = s[i-1];] *)
Fixpoint copy_down (k : nat) (dst src : Z) (i : nat) : M mem unit :=
  match i with
  | O => mret tt
  | S i' =>
      v ← ld k (src + Z.of_nat k * Z.of_nat i');
      st k (dst + Z.of_nat k * Z.of_nat i') v ;;
      copy_down k dst src i'
  end.

Definition aligned (p : Z) : bool := p mod SIZEOF_LONG =? 0.

Definition memcpy (dst src len : Z) : M mem Z :=
  (if aligned dst && aligned src && aligned len
   then copy_up 4 dst src (Z.to_nat (len / SIZEOF_LONG)) 0
   else copy_up 1 dst src (Z.to_nat len) 0) ;;
  mret dst.

Definition memmove (dst src len : Z) : M mem Z :=
  if dst <? src then memcpy dst src len else
  (if aligned dst && aligned src && aligned len
   then copy_down 4 dst src (Z.to_nat (len / SIZEOF_LONG))
   else copy_down 1 dst src (Z.to_nat len)) ;;
  mret dst.

(** [for (i=0; i<n; i++) p[i] = v;] *)
Fixpoint fill (k : nat) (p v : Z) (n i : nat) : M mem unit :=
  match n with
  | O => mret tt
  | S n' => st k (p + Z.of_nat k * Z.of_nat i) v ;; fill k p v n' (S i)
  end.

Definition memset (ptr ch len : Z) : M mem Z := fill 1 ptr ch (Z.to_nat len) 0 ;; mret ptr.
Definition bzero (vblock len : Z) : M mem unit :=
  if aligned vblock && aligned len then fill 4 vblock 0 (Z.to_nat (len / SIZEOF_LONG)) 0
  else fill 1 vblock 0 (Z.to_nat len) 0.

(** ** Strings *)

(** The bound of the loops over strings. *)
Definition bound : M mem nat := gets size.

(** A loop that moves a pointer [p] on while it is not at the end of the string
    and the character passes a test: where it stops. *)
Fixpoint scan_while (fuel : nat) (test : Z -> M mem bool) (p : Z) : M mem Z :=
  c ← ld 1 p;
  if c =? 0 then mret p else
  b ← test c;
  if negb b then mret p else
  match fuel with O => raise FFuel | S fuel' => scan_while fuel' test (p + 1) end.

Fixpoint strlen_loop (fuel : nat) (str ret : Z) : M mem Z :=
  c ← ld 1 (str + ret);
  if c =? 0 then mret ret else
  match fuel with O => raise FFuel | S fuel' => strlen_loop fuel' str (ret + 1) end.
Definition strlen (str : Z) : M mem Z := n ← bound; strlen_loop n str 0.

Fixpoint strcpy_loop (fuel : nat) (dest src i : Z) : M mem unit :=
  c ← ld 1 (src + i);
  if c =? 0 then st 1 (dest + i) 0 else
  st 1 (dest + i) c ;;
  match fuel with O => raise FFuel | S fuel' => strcpy_loop fuel' dest src (i + 1) end.
Definition strcpy (dest src : Z) : M mem Z := n ← bound; strcpy_loop n dest src 0 ;; mret dest.

Definition strcat (dest src : Z) : M mem Z :=
  offset ← strlen dest; strcpy (dest + offset) src ;; mret dest.

(** 0 for NULL *)
Fixpoint strchr_loop (fuel : nat) (s ch : Z) : M mem Z :=
  c ← ld 1 s;
  if c =? 0 then mret (if c =? ch then s else 0) else
  if c =? ch then mret s else
  match fuel with O => raise FFuel | S fuel' => strchr_loop fuel' (s + 1) ch end.
Definition strchr (s ch_arg : Z) : M mem Z := n ← bound; strchr_loop n s (u8 ch_arg).

Fixpoint strrchr_loop (s ch : Z) (i : nat) : M mem Z :=
  match i with
  | O => mret 0
  | S i' => c ← ld 1 (s + Z.of_nat i'); if c =? ch then mret (s + Z.of_nat i') else strrchr_loop s ch i'
  end.
Definition strrchr (s ch_arg : Z) : M mem Z :=
  n ← strlen s; strrchr_loop s (u8 ch_arg) (Z.to_nat (n + 1)).

Fixpoint strcmp_loop (fuel : nat) (a b i : Z) : M mem Z :=
  x ← ld 1 (a + i);
  if x =? 0 then mret i else
  y ← ld 1 (b + i);
  if negb (x =? y) then mret i else
  match fuel with O => raise FFuel | S fuel' => strcmp_loop fuel' a b (i + 1) end.
Definition strcmp (a b : Z) : M mem Z :=
  n ← bound;
  i ← strcmp_loop n a b 0;
  x ← ld 1 (a + i); y ← ld 1 (b + i);
  mret (if x >? y then 1 else if x =? y then 0 else -1).

(** char *strtok_r(string, seps, context): the word, 0 for NULL, and the
    value of *context after the call *)
Definition strtok_r (string seps context : Z) : M mem (Z * Z) :=
  let head := if negb (string =? 0) then string else context in
  if head =? 0 then mret (0, head) else
  n ← bound;
  head ← scan_while n (fun c => r ← strchr seps c; mret (negb (r =? 0))) head;
  c ← ld 1 head;
  if c =? 0 then mret (0, 0) else
  tail ← scan_while n (fun c => r ← strchr seps c; mret (r =? 0)) head;
  c ← ld 1 tail;
  if c =? 0 then mret (head, 0) else
  st 1 tail 0 ;; mret (head, tail + 1).

(** ** atoi *)

Definition digits : list Z := [48; 49; 50; 51; 52; 53; 54; 55; 56; 57].

(** strchr in a string constant: the index *)
Fixpoint index_in (l : list Z) (ch : Z) : option Z :=
  match l with
  | [] => None
  | x :: l' => if x =? ch then Some 0 else Z.succ <$> index_in l' ch
  end.

Fixpoint atoi_blanks (fuel : nat) (s : Z) : M mem Z :=
  c ← ld 1 s;
  if negb ((c =? 32) || (c =? 9)) then mret s else
  match fuel with O => raise FFuel | S fuel' => atoi_blanks fuel' (s + 1) end.
Fixpoint atoi_digits (fuel : nat) (s val : Z) : M mem Z :=
  c ← ld 1 s;
  if c =? 0 then mret val else
  match index_in digits c with
  | None => mret val
  | Some digit =>
      let val := u32 (val * 10 + digit) in
      match fuel with O => raise FFuel | S fuel' => atoi_digits fuel' (s + 1) val end
  end.
Definition atoi (s : Z) : M mem Z :=
  n ← bound;
  s ← atoi_blanks n s;
  c ← ld 1 s;
  val ← atoi_digits n (if (c =? 45) || (c =? 43) then s + 1 else s) 0;
  mret (s32 (if c =? 45 then u32 (- val) else val)).
(** ** Objects of one byte, and of [k] bytes *)

Lemma ld1_eq p m : ld 1 p m = match m !! p with Some b => Ok b m | None => Fault FBounds end.
Proof.
  unfold ld. rewrite get_bind. cbn [Copyinout.load_bytes]. destruct (m !! p) as [b|]; [|done].
  unfold mbind, M_bind, deref. cbn. by rewrite Z.mul_1_r, Z.add_0_r.
Qed.
Lemma ld1_ok p m b : m !! p = Some b -> ld 1 p m = Ok b m.
Proof. intros Hb. by rewrite ld1_eq, Hb. Qed.

Lemma st1_ok p v m : is_Some (m !! p) -> st 1 p v m = Ok tt (<[p := u8 v]> m).
Proof.
  intros [b Hb]. unfold st. cbn [Bswap.be_bytes Copyinout.store_bytes]. rewrite Hb.
  replace (Bswap.byte_of v (Z.of_nat 0)) with (u8 v); [done|]. unfold Bswap.byte_of. by rewrite Z.mul_0_r, Z.div_1_r.
Qed.

(** Memory holds bytes. *)
Definition bytes_ok (m : mem) : Prop := forall a b, m !! a = Some b -> is_u8 b.
Definition mapped (m : mem) (p n : Z) : Prop := forall i, 0 <= i < n -> is_Some (m !! (p + i)).

(** The memory that holds the bytes [l] at [p] and nothing else. *)
Definition bytes_at (p : Z) (l : list Z) : mem := list_to_map (zip (seqZ p (Z.of_nat (length l))) l).

Lemma bytes_at_lookup p l a b : bytes_at p l !! a = Some b -> b ∈ l.
Proof. intros H. apply elem_of_list_to_map_2 in H. by apply elem_of_zip_r in H. Qed.
Lemma bytes_at_ok p l : Forall is_u8 l -> bytes_ok (bytes_at p l).
Proof. intros Hl a b H%bytes_at_lookup. by apply (proj1 (Forall_forall _ _) Hl). Qed.

(** An object copied from [src] to [dst]. *)
Lemma move_object k dst src m : bytes_ok m -> mapped m src (Z.of_nat k) -> mapped m dst (Z.of_nat k) -> exists m',
  (v ← ld k src; st k dst v) m = Ok tt m' /\ bytes_ok m' /\
  (forall a, m' !! a = if (dst <=? a) && (a <? dst + Z.of_nat k) then m !! (src + (a - dst)) else m !! a).
Proof.
  intros Hb Hs Hd.
  assert (exists bs, Copyinout.load_bytes m src k = Some bs) as [bs Hbs].
  { clear Hd. revert src Hs. induction k as [|k IH]; intros src Hs; [by exists []|]. cbn [Copyinout.load_bytes].
    destruct (Hs 0) as [b Eb]; [lia|]. rewrite Z.add_0_r in Eb. rewrite Eb.
    destruct (IH (src + 1)) as [bs ->]; [|by eexists]. intros i Hi. rewrite <- Z.add_assoc. apply Hs. lia. }
  pose proof Hbs as [Hlen Hl]%Copyinout.load_bytes_Some.
  assert (Bswap.be_bytes k (Bswap.be_value bs) = bs) as Hrt.
  { rewrite <- Hlen. apply Bswap.be_bytes_value, Forall_lookup. intros i x Hx. eapply Hb.
    rewrite (Hl i); [done|]. rewrite <- Hlen. by eapply lookup_lt_Some. }
  assert (ld k src m = Ok (Bswap.be_value bs) m) as E by (unfold ld; rewrite get_bind; unfold mbind, M_bind, deref; by rewrite Hbs).
  run E. unfold st. rewrite Hrt.
  destruct (Copyinout.store_bytes m dst bs) as [m' ok] eqn:Es. destruct (Copyinout.store_bytes_ok _ _ _ _ _ Es) as [Hok Hld].
  assert (ok = true) as -> by (apply Hok; intros i Hi; apply Hd; lia).
  apply Copyinout.load_bytes_Some in Hld as [_ Hld]; [|done].
  assert (forall a, m' !! a = if (dst <=? a) && (a <? dst + Z.of_nat k) then m !! (src + (a - dst)) else m !! a) as Hm'.
  { intros a. destruct ((dst <=? a) && (a <? dst + Z.of_nat k)) eqn:Ea.
    - replace a with (dst + Z.of_nat (Z.to_nat (a - dst))) at 1 by lia. rewrite Hld by lia.
      rewrite <- Hl by lia. f_equal. lia.
    - apply (Copyinout.store_bytes_frame _ _ _ _ _ _ Es). lia. }
  exists m'. split; [done|]. split; [|done]. intros a b. rewrite Hm'. by destruct (_ && _); apply Hb.
Qed.
(** ** Copying blocks *)

(** [m'] is [m] with the [n] bytes from [src] copied to [dst]. *)
Definition copied (m : mem) (dst src n : Z) (m' : mem) : Prop :=
  bytes_ok m' /\ forall a, m' !! a = if (dst <=? a) && (a <? dst + n) then m !! (src + (a - dst)) else m !! a.

Lemma copied_mapped m dst src n m' p l : copied m dst src n m' -> mapped m src n -> mapped m p l -> mapped m' p l.
Proof.
  intros [_ Hm'] Hs Hp i Hi. rewrite Hm'. destruct ((dst <=? p + i) && (p + i <? dst + n)) eqn:E; [|by apply Hp].
  apply Hs. lia.
Qed.

(** One turn of a copy loop. *)
Lemma copy_turn {A} k dst src m (K : M mem A) :
  bytes_ok m -> mapped m src (Z.of_nat k) -> mapped m dst (Z.of_nat k) -> exists m',
  (v ← ld k src; st k dst v ;; K) m = K m' /\ copied m dst src (Z.of_nat k) m'.
Proof.
  intros Hb Hs Hd. destruct (move_object k dst src m Hb Hs Hd) as (m' & E & Hb' & Hm'). exists m'. split; [|by split].
  unfold mbind, M_bind in E |- *. destruct (ld k src m) as [v m1|]; [|done]. by rewrite E.
Qed.

(** Both directions need to read what was not yet overwritten. *)
Lemma copied_add m dst src n m1 k m2 : 0 <= n -> 0 <= k ->
  copied m dst src n m1 -> copied m1 (dst + n) (src + n) k m2 ->
  (dst <= src \/ src + n + k <= dst) -> copied m dst src (n + k) m2.
Proof.
  intros Hn Hk [_ H1] [Hb H2] Ho. split; [done|]. intros a. rewrite H2.
  destruct ((dst + n <=? a) && (a <? dst + n + k)) eqn:E1, ((dst <=? a) && (a <? dst + (n + k))) eqn:E2; try lia;
    rewrite H1; destruct ((dst <=? _) && (_ <? dst + n)) eqn:E3; try lia; try done.
  f_equal. lia.
Qed.

Lemma copy_up_ok k dst src n i m0 m (w := Z.of_nat k) :
  copied m0 dst src (w * Z.of_nat i) m -> mapped m0 src (w * Z.of_nat (i + n)) -> mapped m0 dst (w * Z.of_nat (i + n)) ->
  (dst <= src \/ src + w * Z.of_nat (i + n) <= dst) ->
  exists m', copy_up k dst src n i m = Ok tt m' /\ copied m0 dst src (w * Z.of_nat (i + n)) m'.
Proof.
  assert (Z.of_nat k = w) as Ek by done. clearbody w.
  revert i m. induction n as [|n IH]; intros i m Hm Hs Hd Ho.
  { rewrite Nat.add_0_r in *. by exists m. }
  cbn [copy_up]. rewrite Ek. set (wi := w * Z.of_nat i) in *.
  assert (w * Z.of_nat (i + S n) = wi + w + w * Z.of_nat n) as Ew by (subst wi; lia).
  assert (0 <= w /\ 0 <= w * Z.of_nat n /\ 0 <= wi) as (Hw & Hwn & Hwi) by (subst wi; lia).
  assert (mapped m0 src wi) as Hsi by (intros j Hj; apply Hs; lia).
  destruct (copy_turn k (dst + wi) (src + wi) m (copy_up k dst src n (S i))) as (m1 & -> & H1); rewrite ?Ek in *; [apply Hm|..].
  { apply (copied_mapped _ _ _ _ _ _ _ Hm Hsi). intros j Hj. rewrite <- Z.add_assoc. apply Hs. lia. }
  { apply (copied_mapped _ _ _ _ _ _ _ Hm Hsi). intros j Hj. rewrite <- Z.add_assoc. apply Hd. lia. }
  rewrite <- Nat.add_succ_comm in *. apply IH; [|done..].
  replace (w * Z.of_nat (S i)) with (wi + w) by (subst wi; lia). apply (copied_add _ _ _ _ m); try done; lia.
Qed.

(** From the top: what is left to copy is still as it was. *)
Lemma copy_down_ok k dst src i m (w := Z.of_nat k) : bytes_ok m -> src <= dst ->
  mapped m src (w * Z.of_nat i) -> mapped m dst (w * Z.of_nat i) ->
  exists m', copy_down k dst src i m = Ok tt m' /\ copied m dst src (w * Z.of_nat i) m'.
Proof.
  intros Hb Ho. assert (Z.of_nat k = w) as Ek by done. clearbody w. revert m Hb. induction i as [|i IH]; intros m Hb Hs Hd.
  { exists m. split; [done|]. split; [done|]. intros a. rewrite Z.mul_0_r, Z.add_0_r.
    destruct ((dst <=? a) && (a <? dst)) eqn:E; [lia|done]. }
  cbn [copy_down]. rewrite Ek. set (wi := w * Z.of_nat i) in *.
  assert (w * Z.of_nat (S i) = wi + w) as Ew by (subst wi; lia). rewrite Ew in *.
  assert (0 <= w /\ 0 <= wi) as (Hw & Hwi) by (subst wi; lia).
  destruct (copy_turn k (dst + wi) (src + wi) m (copy_down k dst src i)) as (m1 & -> & H1); rewrite ?Ek in *; [done|..].
  { intros j Hj. rewrite <- Z.add_assoc. apply Hs. lia. }
  { intros j Hj. rewrite <- Z.add_assoc. apply Hd. lia. }
  assert (mapped m (src + wi) w) as Hsw by (intros j Hj; rewrite <- Z.add_assoc; apply Hs; lia).
  destruct (IH m1) as (m' & -> & Hb' & Hm'); [apply H1|..].
  { apply (copied_mapped _ _ _ _ _ _ _ H1 Hsw). intros j Hj. apply Hs. lia. }
  { apply (copied_mapped _ _ _ _ _ _ _ H1 Hsw). intros j Hj. apply Hd. lia. }
  exists m'. split; [done|]. split; [done|]. destruct H1 as [_ H1]. intros a. rewrite Hm', !H1.
  destruct ((dst <=? a) && (a <? dst + wi)) eqn:E1, ((dst <=? a) && (a <? dst + (wi + w))) eqn:E2; try lia;
    destruct ((dst + wi <=? _) && (_ <? dst + wi + w)) eqn:E3; try lia; try done.
  f_equal. lia.
Qed.
Lemma copied_refl m dst src : bytes_ok m -> copied m dst src 0 m.
Proof. intros Hb. split; [done|]. intros a. rewrite Z.add_0_r. destruct ((dst <=? a) && (a <? dst)) eqn:E; [lia|done]. Qed.

(** A length in words. *)
Lemma aligned_words len : 0 <= len -> aligned len = true -> 4 * Z.of_nat (Z.to_nat (len / SIZEOF_LONG)) = len.
Proof. unfold aligned, SIZEOF_LONG. intros Hl Ha. apply Z.eqb_eq in Ha.
  pose proof (Z.div_mod len 4). pose proof (Z.div_pos len 4). lia. Qed.

Lemma memcpy_ok dst src len m : 0 <= len -> bytes_ok m -> mapped m src len -> mapped m dst len ->
  (dst <= src \/ src + len <= dst) -> exists m', memcpy dst src len m = Ok dst m' /\ copied m dst src len m'.
Proof.
  intros Hl Hb Hs Hd Ho. unfold memcpy.
  assert (exists m', (if aligned dst && aligned src && aligned len then copy_up 4 dst src (Z.to_nat (len / SIZEOF_LONG)) 0
     else copy_up 1 dst src (Z.to_nat len) 0) m = Ok tt m' /\ copied m dst src len m') as (m' & E & Hm').
  { destruct (aligned dst && aligned src && aligned len) eqn:Ea.
    - apply andb_prop in Ea as [_ Ea]. pose proof (aligned_words len Hl Ea) as Ew.
      pose proof (copy_up_ok 4 dst src (Z.to_nat (len / SIZEOF_LONG)) 0 m m) as H. cbv zeta in H.
      change (Z.of_nat 4) with 4 in H. rewrite Nat.add_0_l, Z.mul_0_r, Ew in H. auto using copied_refl.
    - pose proof (copy_up_ok 1 dst src (Z.to_nat len) 0 m m) as H. cbv zeta in H.
      rewrite Nat.add_0_l, Z.mul_0_r, Z.mul_1_l, Z2Nat.id in H by done. auto using copied_refl. }
  exists m'. by run E.
Qed.

(** C37: memmove copies its block whatever the overlap, by words or by bytes,
    and changes nothing else: afterwards the destination holds what the source
    held before. *)
Theorem memmove_spec dst src len m : 0 <= len -> bytes_ok m -> mapped m src len -> mapped m dst len ->
  exists m', memmove dst src len m = Ok dst m' /\ copied m dst src len m'.
Proof.
  intros Hl Hb Hs Hd. unfold memmove. destruct (Z.ltb_spec dst src); [apply memcpy_ok; auto with lia|].
  assert (exists m', (if aligned dst && aligned src && aligned len then copy_down 4 dst src (Z.to_nat (len / SIZEOF_LONG))
     else copy_down 1 dst src (Z.to_nat len)) m = Ok tt m' /\ copied m dst src len m') as (m' & E & Hm').
  { destruct (aligned dst && aligned src && aligned len) eqn:Ea.
    - apply andb_prop in Ea as [_ Ea]. pose proof (aligned_words len Hl Ea) as Ew.
      pose proof (copy_down_ok 4 dst src (Z.to_nat (len / SIZEOF_LONG)) m) as H'. cbv zeta in H'.
      change (Z.of_nat 4) with 4 in H'. rewrite Ew in H'. auto.
    - pose proof (copy_down_ok 1 dst src (Z.to_nat len) m) as H'. cbv zeta in H'.
      rewrite Z.mul_1_l, Z2Nat.id in H' by done. auto. }
  exists m'. by run E.
Qed.

Lemma memmove_spec_witness : exists m', memmove 101 100 3 (bytes_at 100 [1; 2; 3; 4]) = Ok 101 m' /\
  copied (bytes_at 100 [1; 2; 3; 4]) 101 100 3 m'.
Proof.
  apply memmove_spec; [lia|apply bytes_at_ok; repeat constructor; unfold is_u8; lia|..];
    intros i Hi; (destruct (decide (i = 0)) as [->|]; [by eexists|]); (destruct (decide (i = 1)) as [->|]; [by eexists|]);
    assert (i = 2) as -> by lia; by eexists.
Defined.

(** ** Filling blocks *)

Definition filled (m : mem) (p n c : Z) (m' : mem) : Prop :=
  forall a, m' !! a = if (p <=? a) && (a <? p + n) then Some c else m !! a.

Lemma fill_ok k p v c n i m (w := Z.of_nat k) : Bswap.be_bytes k v = replicate k c -> mapped m (p + w * Z.of_nat i) (w * Z.of_nat n) ->
  exists m', fill k p v n i m = Ok tt m' /\ filled m (p + w * Z.of_nat i) (w * Z.of_nat n) c m'.
Proof.
  intros Ev. assert (Z.of_nat k = w) as Ek by done. clearbody w. revert i m. induction n as [|n IH]; intros i m Hm.
  { exists m. split; [done|]. intros a. rewrite Z.mul_0_r, Z.add_0_r. destruct ((_ <=? a) && _) eqn:E; [lia|done]. }
  cbn [fill]. rewrite Ek. set (q := p + w * Z.of_nat i) in *.
  assert (w * Z.of_nat (S n) = w + w * Z.of_nat n /\ 0 <= w /\ 0 <= w * Z.of_nat n) as (Ew & Hw & Hwn) by lia. rewrite Ew in *.
  destruct (Copyinout.store_bytes m q (replicate k c)) as [m1 ok] eqn:Es.
  destruct (Copyinout.store_bytes_ok _ _ _ _ _ Es) as [Hok Hld]. rewrite length_replicate in *.
  assert (ok = true) as -> by (apply Hok; intros j Hj; apply Hm; lia).
  assert (filled m q w c m1) as H1.
  { intros a. apply Copyinout.load_bytes_Some in Hld as [_ Hld]; [|done].
    destruct ((q <=? a) && (a <? q + w)) eqn:E.
    - replace a with (q + Z.of_nat (Z.to_nat (a - q))) by lia. rewrite Hld by lia. apply lookup_replicate_2. lia.
    - apply (Copyinout.store_bytes_frame _ _ _ _ _ _ Es). rewrite length_replicate. lia. }
  assert (st k q v m = Ok tt m1) as E1 by (unfold st; by rewrite Ev, Es). run E1.
  destruct (IH (S i) m1) as (m' & -> & H2).
  { replace (p + w * Z.of_nat (S i)) with (q + w) by (subst q; lia). intros j Hj. rewrite H1.
    destruct ((q <=? q + w + j) && _) eqn:E; [lia|]. rewrite <- Z.add_assoc. apply Hm. lia. }
  replace (p + w * Z.of_nat (S i)) with (q + w) in H2 by (subst q; lia).
  exists m'. split; [done|]. intros a. rewrite H2, H1.
  destruct ((q + w <=? a) && (a <? q + w + w * Z.of_nat n)) eqn:E2, ((q <=? a) && (a <? q + (w + w * Z.of_nat n))) eqn:E3; try lia; try done;
    destruct ((q <=? a) && (a <? q + w)) eqn:E4; try lia; done.
Qed.

Lemma be_bytes_1 v : Bswap.be_bytes 1 v = replicate 1 (u8 v).
Proof. cbn. unfold Bswap.byte_of. by rewrite Z.mul_0_r, Z.div_1_r. Qed.

Lemma memset_ok p ch len m : 0 <= len -> mapped m p len ->
  exists m', memset p ch len m = Ok p m' /\ filled m p len (u8 ch) m'.
Proof.
  intros Hl Hm. pose proof (fill_ok 1 p ch (u8 ch) (Z.to_nat len) 0 m (be_bytes_1 ch)) as H. cbv zeta in H.
  rewrite Z.mul_0_r, Z.add_0_r, Z.mul_1_l, Z2Nat.id in H by done. destruct (H Hm) as (m' & E & H').
  exists m'. split; [|done]. unfold memset. by run E.
Qed.

Lemma bzero_ok p len m : 0 <= len -> mapped m p len ->
  exists m', bzero p len m = Ok tt m' /\ filled m p len 0 m'.
Proof.
  intros Hl Hm. unfold bzero. destruct (aligned p && aligned len) eqn:Ea.
  - apply andb_prop in Ea as [_ Ea]. pose proof (aligned_words len Hl Ea) as Ew.
    pose proof (fill_ok 4 p 0 0 (Z.to_nat (len / SIZEOF_LONG)) 0 m ltac:(reflexivity)) as H. cbv zeta in H.
    change (Z.of_nat 4) with 4 in H. rewrite Z.mul_0_r, Z.add_0_r, Ew in H. auto.
  - pose proof (fill_ok 1 p 0 0 (Z.to_nat len) 0 m ltac:(reflexivity)) as H. cbv zeta in H.
    rewrite Z.mul_0_r, Z.add_0_r, Z.mul_1_l, Z2Nat.id in H by done. auto.
Qed.
End Libc.
