(* ===== verification/LibcStr.v ===== *)
(** * The string functions are what they should be

    Strings in memory against lists of characters: length, copy, append,
    search, comparison, splitting into words, and decimal numbers. *)

From S2P Require Import Prelude Bswap Copyinout Libc.
Open Scope Z_scope.
Import Libc.

Module LibcStr.
(** The string [s] is at [p], with its terminator. *)
Definition str_at (m : mem) (p : Z) (s : list Z) : Prop :=
  (0 ∉ s) /\ forall i, (i <= length s)%nat -> m !! (p + Z.of_nat i) = (s ++ [0]) !! i.

Lemma str_char m p s i c : str_at m p s -> s !! i = Some c -> m !! (p + Z.of_nat i) = Some c /\ c <> 0.
Proof.
  intros [H0 Hs] Hc. pose proof (lookup_lt_Some _ _ _ Hc). split; [|by intros ->; apply list_elem_of_lookup_2 in Hc].
  rewrite Hs by lia. by apply lookup_app_l_Some.
Qed.
Lemma str_end m p s : str_at m p s -> m !! (p + Z.of_nat (length s)) = Some 0.
Proof. intros [_ Hs]. rewrite Hs by lia. by rewrite lookup_app_r, Nat.sub_diag by lia. Qed.

Lemma str_cons m p c s : str_at m p (c :: s) <-> m !! p = Some c /\ c <> 0 /\ str_at m (p + 1) s.
Proof.
  split.
  - intros Hs. destruct (str_char _ _ _ 0 c Hs eq_refl) as [Hc Hn]. rewrite Z.add_0_r in Hc. split; [done|]. split; [done|].
    destruct Hs as [H0 Hs]. split; [set_solver|]. intros i Hi. specialize (Hs (S i) ltac:(simpl; lia)).
    rewrite <- Z.add_assoc. replace (1 + Z.of_nat i) with (Z.of_nat (S i)) by lia. exact Hs.
  - intros (Hc & Hn & H0 & Hs). split; [set_solver|]. intros [|i] Hi; [by rewrite Z.add_0_r|]. simpl in Hi.
    simpl. rewrite <- Hs by lia. f_equal. lia.
Qed.
Lemma str_nil m p : str_at m p [] <-> m !! p = Some 0.
Proof.
  split; [intros Hs%str_end; by rewrite Z.add_0_r in Hs|]. intros Hp. split; [set_solver|].
  intros i Hi. simpl in Hi. assert (i = 0)%nat as -> by lia. by rewrite Z.add_0_r.
Qed.

Lemma string_size m p s : str_at m p s -> (length s < size m)%nat.
Proof.
  intros [_ Hs]. cut (Z.of_nat (length s) + 1 <= Z.of_nat (size m)); [lia|]. apply (stride_size m p 1); [lia|].
  intros j Hj. rewrite Z.mul_1_l. replace j with (Z.of_nat (Z.to_nat j)) by lia. rewrite Hs by lia.
  apply lookup_lt_is_Some. rewrite length_app. simpl. lia.
Qed.

(** ** Length and copies *)

Lemma strlen_loop_ok fuel p r m s : str_at m (p + r) s -> (length s <= fuel)%nat ->
  strlen_loop fuel p r m = Ok (r + Z.of_nat (length s)) m.
Proof.
  revert fuel r. induction s as [|c s IH]; intros fuel r Hs Hf.
  - apply str_nil in Hs. destruct fuel; cbn [strlen_loop]; run (ld1_ok _ _ _ Hs); simpl; by rewrite Z.add_0_r.
  - apply str_cons in Hs as (Hc & Hn & Hs). destruct fuel as [|fuel]; [simpl in Hf; lia|]. cbn [strlen_loop].
    run (ld1_ok _ _ _ Hc). destruct (Z.eqb_spec c 0); [done|]. rewrite IH; [f_equal; simpl; lia| |simpl in Hf; lia].
    by rewrite Z.add_assoc.
Qed.

Lemma strlen_ok p m s : str_at m p s -> strlen p m = Ok (Z.of_nat (length s)) m.
Proof.
  intros Hs. unfold strlen, bound. pose proof (string_size _ _ _ Hs).
  change ((gets size ≫= fun n => strlen_loop n p 0) m) with (strlen_loop (size m) p 0 m).
  apply (strlen_loop_ok _ p 0 m s); [by rewrite Z.add_0_r|lia].
Qed.

(** The characters [cs] written from [p] on. *)
Definition written (m : mem) (p : Z) (cs : list Z) (m' : mem) : Prop :=
  forall a, m' !! a = if (p <=? a) && (a <? p + Z.of_nat (length cs)) then cs !! Z.to_nat (a - p) else m !! a.

Lemma written_cons m p c cs m' : written (<[p := c]> m) (p + 1) cs m' -> written m p (c :: cs) m'.
Proof.
  intros Hw a. rewrite Hw. simpl length. destruct (decide (a = p)) as [->|].
  - zcases. by rewrite lookup_insert_eq, Z.sub_diag.
  - rewrite lookup_insert_ne by done. zcases; try done.
    by replace (Z.to_nat (a - p)) with (S (Z.to_nat (a - (p + 1)))) by lia.
Qed.

Lemma written_str m p s m' : (0 ∉ s) -> written m p (s ++ [0]) m' -> str_at m' p s.
Proof.
  intros H0 Hw. split; [done|]. intros i Hi. rewrite Hw, length_app. simpl.
  zcases. f_equal. lia.
Qed.

(** A string that is not written to stays. *)
Lemma written_other m p cs m' q s : written m p cs m' -> str_at m q s ->
  (q + Z.of_nat (length s) < p \/ p + Z.of_nat (length cs) <= q) -> str_at m' q s.
Proof.
  intros Hw [H0 Hs] Hd. split; [done|]. intros i Hi. rewrite Hw.
  zcases; by apply Hs.
Qed.

Lemma strcpy_loop_ok fuel dest src i m s : bytes_ok m -> str_at m (src + i) s -> (length s <= fuel)%nat ->
  mapped m (dest + i) (Z.of_nat (length s) + 1) -> (dest < src \/ src + i + Z.of_nat (length s) < dest + i) ->
  exists m', strcpy_loop fuel dest src i m = Ok tt m' /\ written m (dest + i) (s ++ [0]) m'.
Proof.
  revert fuel i m. induction s as [|c s IH]; intros fuel i m Hb Hs Hf Hm Hd.
  - apply str_nil in Hs. assert (is_Some (m !! (dest + i))) as Hp by (rewrite <- (Z.add_0_r (dest + i)); apply Hm; simpl; lia).
    exists (<[dest + i := 0]> m). split; [|apply written_cons; intros a; simpl; zcases; done].
    destruct fuel; cbn [strcpy_loop]; run (ld1_ok _ _ _ Hs); simpl; by rewrite st1_ok.
  - apply str_cons in Hs as (Hc & Hn & Hs). destruct fuel as [|fuel]; [simpl in Hf; lia|]. cbn [strcpy_loop]. simpl length in *.
    assert (is_Some (m !! (dest + i))) as Hp by (rewrite <- (Z.add_0_r (dest + i)); apply Hm; lia).
    run (ld1_ok _ _ _ Hc). destruct (Z.eqb_spec c 0); [done|]. run (st1_ok _ c _ Hp).
    assert (u8 c = c) as -> by (apply Z.mod_small; by apply (Hb _ _ Hc)).
    destruct (IH fuel (i + 1) (<[dest + i := c]> m)) as (m' & -> & Hw).
    + intros a b. rewrite lookup_insert_Some. intros [[_ <-]|[_ Ha]]; [by apply (Hb _ _ Hc)|by apply (Hb _ _ Ha)].
    + rewrite Z.add_assoc. destruct Hs as [H0 Hs]. split; [done|]. intros j Hj. rewrite lookup_insert_ne by lia. by apply Hs.
    + lia.
    + intros j Hj. apply lookup_insert_is_Some'. right. rewrite <- !Z.add_assoc. rewrite Z.add_assoc. apply Hm. lia.
    + lia.
    + exists m'. split; [done|]. simpl. apply written_cons. by rewrite <- Z.add_assoc.
Qed.
Lemma bound_eq {A} (k : nat -> M mem A) m : (bound ≫= k) m = k (size m) m.
Proof. done. Qed.

Lemma strcpy_ok dest src m s : bytes_ok m -> str_at m src s -> mapped m dest (Z.of_nat (length s) + 1) ->
  (dest < src \/ src + Z.of_nat (length s) < dest) ->
  exists m', strcpy dest src m = Ok dest m' /\ written m dest (s ++ [0]) m' /\ str_at m' dest s.
Proof.
  intros Hb Hs Hm Hd. pose proof (string_size _ _ _ Hs). unfold strcpy. rewrite bound_eq.
  destruct (strcpy_loop_ok (size m) dest src 0 m s) as (m' & E & Hw); rewrite ?Z.add_0_r in *; [done..|lia|done|lia|].
  exists m'. run E. split; [done|]. split; [done|]. eapply written_str; [apply Hs|done].
Qed.

Lemma strcat_ok dest src m d s : bytes_ok m -> str_at m dest d -> str_at m src s ->
  mapped m dest (Z.of_nat (length d) + Z.of_nat (length s) + 1) ->
  (dest + Z.of_nat (length d) + Z.of_nat (length s) < src \/ src + Z.of_nat (length s) < dest) ->
  exists m', strcat dest src m = Ok dest m' /\ str_at m' dest (d ++ s).
Proof.
  intros Hb Hd Hs Hm Ho. unfold strcat. run (strlen_ok _ _ _ Hd).
  destruct (strcpy_ok (dest + Z.of_nat (length d)) src m s Hb Hs) as (m' & E & Hw & _); [|lia|].
  { intros i Hi. rewrite <- Z.add_assoc. apply Hm. lia. }
  run E. exists m'. split; [done|]. split; [destruct Hd, Hs; set_solver|]. intros i Hi. rewrite length_app in Hi.
  rewrite Hw, length_app. simpl. rewrite <- app_assoc. destruct (decide (i < length d)%nat).
  - zcases. rewrite lookup_app_l by done. rewrite (proj2 Hd) by lia. by rewrite lookup_app_l.
  - zcases. rewrite (lookup_app_r d) by lia. f_equal. lia.
Qed.

(** ** Search *)

Lemma index_in_bound l ch i : index_in l ch = Some i -> 0 <= i < Z.of_nat (length l).
Proof.
  revert i. induction l as [|x l IH]; intros i; cbn [index_in]; [done|].
  destruct (x =? ch); [intros [= <-]; simpl; lia|]. destruct (index_in l ch) as [j|]; [|done].
  intros [= <-]. specialize (IH j eq_refl). simpl. lia.
Qed.

Lemma strchr_loop_ok fuel p ch m s : str_at m p s -> (length s <= fuel)%nat ->
  strchr_loop fuel p ch m = Ok (match index_in (s ++ [0]) ch with Some i => p + i | None => 0 end) m.
Proof.
  revert fuel p. induction s as [|c s IH]; intros fuel p Hs Hf.
  - apply str_nil in Hs. destruct fuel; cbn [strchr_loop]; run (ld1_ok _ _ _ Hs); cbn [index_in app]; simpl;
      destruct ch; by rewrite ?Z.add_0_r.
  - apply str_cons in Hs as (Hc & Hn & Hs). destruct fuel as [|fuel]; [simpl in Hf; lia|]. cbn [strchr_loop].
    run (ld1_ok _ _ _ Hc). destruct (Z.eqb_spec c 0); [done|]. cbn [app index_in].
    destruct (Z.eqb_spec c ch); [by rewrite Z.add_0_r|]. rewrite IH by (done || (simpl in Hf; lia)).
    destruct (index_in (s ++ [0]) ch); simpl; [f_equal; lia|done].
Qed.
Lemma strchr_ok p ch m s : str_at m p s ->
  strchr p ch m = Ok (match index_in (s ++ [0]) (u8 ch) with Some i => p + i | None => 0 end) m.
Proof. intros Hs. unfold strchr. rewrite bound_eq. apply strchr_loop_ok; [done|]. pose proof (string_size _ _ _ Hs). lia. Qed.

(** The last occurrence among the first [i] characters. *)
Lemma strrchr_loop_ok p ch m cs i : (forall j, (j < i)%nat -> m !! (p + Z.of_nat j) = cs !! j) -> (i <= length cs)%nat ->
  exists r, strrchr_loop p ch i m = Ok r m /\
    ((exists j, (j < i)%nat /\ r = p + Z.of_nat j /\ cs !! j = Some ch /\ forall k, (j < k < i)%nat -> cs !! k <> Some ch) \/
     r = 0 /\ forall k, (k < i)%nat -> cs !! k <> Some ch).
Proof.
  intros Hm. induction i as [|i IH]; intros Hi; cbn [strrchr_loop]; [exists 0; split; [done|right; split; [done|lia]]|].
  destruct (lookup_lt_is_Some_2 cs i) as [c Hc]; [lia|].
  assert (m !! (p + Z.of_nat i) = Some c) as Hp by (rewrite Hm by lia; done). run (ld1_ok _ _ _ Hp).
  destruct (Z.eqb_spec c ch) as [->|Hne].
  - eexists. split; [done|]. left. exists i. split; [lia|]. split; [done|]. split; [done|]. lia.
  - destruct IH as (r & -> & Hr); [intros; apply Hm; lia|lia|]. exists r. split; [done|].
    assert (cs !! i <> Some ch) as Hni by (rewrite Hc; congruence).
    destruct Hr as [(j & H1 & H2 & H3 & H4)|[H1 H2]]; [left; exists j|right]; split_and!; try done; try lia;
      intros k Hk; (destruct (decide (k = i)) as [->|]; [done|]); [apply H4|apply H2]; lia.
Qed.
Lemma strrchr_ok p ch m s : str_at m p s -> exists r, strrchr p ch m = Ok r m /\
  ((exists j, (j <= length s)%nat /\ r = p + Z.of_nat j /\ (s ++ [0]) !! j = Some (u8 ch) /\
      forall k, (j < k <= length s)%nat -> (s ++ [0]) !! k <> Some (u8 ch)) \/ r = 0 /\ u8 ch ∉ s ++ [0]).
Proof.
  intros Hs. unfold strrchr. run (strlen_ok _ _ _ Hs).
  replace (Z.to_nat (Z.of_nat (length s) + 1)) with (S (length s)) by lia.
  destruct (strrchr_loop_ok p (u8 ch) m (s ++ [0]) (S (length s))) as (r & -> & Hr).
  { intros j Hj. apply Hs. lia. } { rewrite length_app. simpl. lia. }
  exists r. split; [done|]. destruct Hr as [(j & H1 & H2 & H3 & H4)|[H1 H2]]; [left; exists j|right].
  - split; [lia|]. split; [done|]. split; [done|]. intros k Hk. apply H4. lia.
  - split; [done|]. intros [k Hk]%list_elem_of_lookup. apply (H2 k); [|done].
    apply lookup_lt_Some in Hk. rewrite length_app in Hk. simpl in Hk. lia.
Qed.

(** ** Comparison *)

Fixpoint order (a b : list Z) : Z :=
  match a, b with
  | [], [] => 0
  | [], _ :: _ => -1
  | _ :: _, [] => 1
  | x :: a', y :: b' => if x =? y then order a' b' else if x >? y then 1 else -1
  end.

Lemma order_eq a b : order a b = 0 <-> a = b.
Proof.
  revert b. induction a as [|x a IH]; intros [|y b]; cbn [order]; try done.
  destruct (Z.eqb_spec x y) as [->|]; [rewrite IH; naive_solver|]. destruct (x >? y); split; try done; congruence.
Qed.
(** The loop stops at the first difference, or at the end of both. *)
Lemma strcmp_loop_ok fuel a b i m x y : bytes_ok m -> str_at m (a + i) x -> str_at m (b + i) y -> (length x <= fuel)%nat ->
  exists j c d, strcmp_loop fuel a b i m = Ok j m /\ m !! (a + j) = Some c /\ m !! (b + j) = Some d /\
    order x y = (if c >? d then 1 else if c =? d then 0 else -1).
Proof.
  intros Hbytes. revert fuel i y. induction x as [|c x IH]; intros fuel i y Ha Hb Hf.
  - apply str_nil in Ha. exists i, 0. destruct y as [|d y]; [apply str_nil in Hb|apply str_cons in Hb as (Hb & Hn & _)].
    + exists 0. split; [|by split_and!]. destruct fuel; cbn [strcmp_loop]; by run (ld1_ok _ _ _ Ha).
    + exists d. split; [destruct fuel; cbn [strcmp_loop]; by run (ld1_ok _ _ _ Ha)|]. split; [done|]. split; [done|].
      pose proof (Hbytes _ _ Hb). unfold is_u8 in *. cbn [order]. destruct (Z.gtb_spec 0 d), (Z.eqb_spec 0 d); lia.
  - apply str_cons in Ha as (Ha & Hn & Ha'). destruct fuel as [|fuel]; [simpl in Hf; lia|]. cbn [strcmp_loop].
    run (ld1_ok _ _ _ Ha). destruct (Z.eqb_spec c 0); [done|]. pose proof (Hbytes _ _ Ha) as Hu. unfold is_u8 in Hu.
    destruct y as [|d y]; [apply str_nil in Hb|apply str_cons in Hb as (Hb & Hnd & Hb')]; run (ld1_ok _ _ _ Hb); cbn [order].
    + destruct (Z.eqb_spec c 0); [done|]. cbn [negb]. exists i, c, 0. split_and!; try done. destruct (Z.gtb_spec c 0); lia.
    + destruct (Z.eqb_spec c d) as [->|]; cbn [negb].
      * rewrite <- Z.add_assoc in Ha', Hb'. apply IH; [done..|simpl in Hf; lia].
      * exists i, c, d. split_and!; try done. destruct (Z.eqb_spec c d); done.
Qed.

Lemma strcmp_ok a b m x y : bytes_ok m -> str_at m a x -> str_at m b y -> strcmp a b m = Ok (order x y) m.
Proof.
  intros Hby Ha Hb. pose proof (string_size _ _ _ Ha). unfold strcmp. rewrite bound_eq.
  destruct (strcmp_loop_ok (size m) a b 0 m x y) as (j & c & d & E & Hc & Hd & ->); rewrite ?Z.add_0_r; [done..|lia|].
  run E. run (ld1_ok _ _ _ Hc). by run (ld1_ok _ _ _ Hd).
Qed.

(** ** Splitting into words *)

Lemma index_in_Some l c : is_Some (index_in l c) <-> c ∈ l.
Proof.
  induction l as [|x l IH]; cbn [index_in]; [split; [by intros []|set_solver]|].
  rewrite elem_of_cons, <- IH. destruct (Z.eqb_spec x c) as [->|]; [split; eauto|].
  rewrite fmap_is_Some. naive_solver.
Qed.

Fixpoint take_while (f : Z -> bool) (s : list Z) : list Z :=
  match s with c :: s' => if f c then c :: take_while f s' else [] | [] => [] end.
Fixpoint drop_while (f : Z -> bool) (s : list Z) : list Z :=
  match s with c :: s' => if f c then drop_while f s' else s | [] => [] end.

Lemma take_drop_while f s : s = take_while f s ++ drop_while f s /\ Forall (fun c => f c = true) (take_while f s) /\
  (forall c s', drop_while f s = c :: s' -> f c = false).
Proof.
  induction s as [|c s (IH1 & IH2 & IH3)]; cbn [take_while drop_while]; [done|]. destruct (f c) eqn:E; cbn [app].
  - split; [by rewrite <- IH1|]. split; [by constructor|done].
  - split; [done|]. split; [done|]. by intros c' s' [= <- _].
Qed.

Lemma scan_while_ok fuel test f p m s : (forall c, c ∈ s -> test c m = Ok (f c) m) -> str_at m p s -> (length s <= fuel)%nat ->
  scan_while fuel test p m = Ok (p + Z.of_nat (length (take_while f s))) m /\
  str_at m (p + Z.of_nat (length (take_while f s))) (drop_while f s).
Proof.
  revert fuel p. induction s as [|c s IH]; intros fuel p Ht Hs Hf.
  - pose proof Hs as Hs'. apply str_nil in Hs. cbn [take_while drop_while length]. rewrite Z.add_0_r. split; [|done].
    destruct fuel; cbn [scan_while]; by run (ld1_ok _ _ _ Hs).
  - pose proof Hs as Hs'. apply str_cons in Hs as (Hc & Hn & Hs). destruct fuel as [|fuel]; [simpl in Hf; lia|].
    cbn [scan_while take_while drop_while]. run (ld1_ok _ _ _ Hc). destruct (Z.eqb_spec c 0); [done|].
    run (Ht c ltac:(left)). destruct (f c); cbn [negb length]; [|by rewrite Z.add_0_r].
    destruct (IH fuel (p + 1)) as [-> H2]; [intros; apply Ht; by right|done|simpl in Hf; lia|].
    replace (p + Z.of_nat (S (length (take_while f s)))) with (p + 1 + Z.of_nat (length (take_while f s))) by lia. done.
Qed.

(** A string cut in two by a terminator. *)
Lemma str_cut m p w c r : str_at m p (w ++ c :: r) ->
  str_at (<[p + Z.of_nat (length w) := 0]> m) p w /\
  str_at (<[p + Z.of_nat (length w) := 0]> m) (p + Z.of_nat (length w) + 1) r.
Proof.
  intros [H0 Hs]. rewrite length_app in Hs. simpl in Hs. split; (split; [set_solver|]); intros i Hi.
  - destruct (decide (i = length w)) as [->|].
    + by rewrite lookup_insert_eq, lookup_app_r, Nat.sub_diag by lia.
    + rewrite lookup_insert_ne, Hs, <- app_assoc, !lookup_app_l by lia. done.
  - rewrite lookup_insert_ne by lia. replace (p + Z.of_nat (length w) + 1 + Z.of_nat i) with (p + Z.of_nat (length w + S i)) by lia.
    rewrite Hs, <- app_assoc, lookup_app_r by lia. by replace (length w + S i - length w)%nat with (S i) by lia.
Qed.
(** What one call of strtok_r does with the string [s] at [p]: there is no
    word left, or the first word is cut out and the rest is for the next call. *)
Inductive token (m : mem) (p : Z) (s seps : list Z) : Z * Z -> mem -> Prop :=
| token_none : Forall (fun c => c ∈ seps) s -> token m p s seps (0, 0) m
| token_last a w : s = a ++ w -> Forall (fun c => c ∈ seps) a -> w <> [] -> Forall (fun c => c ∉ seps) w ->
    str_at m (p + Z.of_nat (length a)) w -> token m p s seps (p + Z.of_nat (length a), 0) m
| token_next a w c r m' : s = a ++ w ++ c :: r -> Forall (fun c => c ∈ seps) a -> w <> [] ->
    Forall (fun c => c ∉ seps) w -> c ∈ seps ->
    m' = <[p + Z.of_nat (length a) + Z.of_nat (length w) := 0]> m ->
    str_at m' (p + Z.of_nat (length a)) w ->
    str_at m' (p + Z.of_nat (length a) + Z.of_nat (length w) + 1) r ->
    token m p s seps (p + Z.of_nat (length a), p + Z.of_nat (length a) + Z.of_nat (length w) + 1) m'.

Lemma sep_test q seps m c : 0 < q -> str_at m q seps -> is_u8 c -> c <> 0 ->
  (r ← strchr q c; mret (negb (r =? 0))) m = Ok (bool_decide (c ∈ seps)) m /\
  (r ← strchr q c; mret (r =? 0)) m = Ok (negb (bool_decide (c ∈ seps))) m.
Proof.
  intros Hq Hs Hc Hc0. assert (u8 c = c) as Eu by (by apply Z.mod_small).
  pose proof (strchr_ok q c m seps Hs) as E. rewrite Eu in E.
  pose proof (index_in_Some (seps ++ [0]) c) as Hi. rewrite elem_of_app, list_elem_of_singleton in Hi.
  destruct (index_in (seps ++ [0]) c) as [i|] eqn:Ei.
  - apply index_in_bound in Ei. rewrite bool_decide_eq_true_2 by naive_solver.
    assert ((q + i =? 0) = false) as E0 by lia. split; run E; rewrite E0; done.
  - rewrite bool_decide_eq_false_2; [split; by run E|]. intros Hin. destruct (proj2 Hi (or_introl Hin)). done.
Qed.

(** One call of strtok_r, on the string given or kept in the context: it
    returns the first word, a longest non-empty run of characters that are not
    separators, as a string of its own, with the rest of the string in the
    context; or NULL when only separators are left. *)
Theorem strtok_r_spec string seps context m s sp (p := if negb (string =? 0) then string else context) :
  bytes_ok m -> 0 < p -> 0 < seps -> str_at m p s -> str_at m seps sp ->
  exists r m', strtok_r string seps context m = Ok r m' /\ token m p s sp r m'.
Proof.
  intros Hb Hp Hq Hs Hsp. unfold strtok_r. fold p. destruct (Z.eqb_spec p 0); [lia|]. rewrite bound_eq.
  pose proof (string_size _ _ _ Hs) as Hsz.
  assert (forall c, c ∈ s -> is_u8 c /\ c <> 0) as Hch.
  { intros c [i Hi]%list_elem_of_lookup. destruct (str_char _ _ _ _ _ Hs Hi). split; [by eapply Hb|done]. }
  set (f := fun c => bool_decide (c ∈ sp)). set (g := fun c => negb (bool_decide (c ∈ sp))).
  destruct (scan_while_ok (size m) (fun c => r ← strchr seps c; mret (negb (r =? 0))) f p m s) as [E1 H1]; [|done|lia|].
  { intros c Hc. destruct (Hch c Hc). by apply sep_test. }
  run E1. clear E1. destruct (take_drop_while f s) as (Es & Ha & Hf).
  set (a := take_while f s) in *. set (t := drop_while f s) in *. clearbody a t.
  assert (Forall (fun c => c ∈ sp) a) as Ha' by (apply (Forall_impl _ _ _ Ha); intros c Hc; by apply bool_decide_eq_true in Hc).
  destruct t as [|c0 t0] eqn:Et.
  { pose proof (proj1 (str_nil _ _) H1) as H0'. run (ld1_ok _ _ _ H0'). rewrite app_nil_r in Es. subst a.
    eexists _, m. split; [done|]. by constructor. }
  pose proof (proj1 (str_cons _ _ _ _) H1) as (Hc0 & Hn0 & _). run (ld1_ok _ _ _ Hc0).
  destruct (Z.eqb_spec c0 0); [done|]. rewrite <- Et in *.
  destruct (scan_while_ok (size m) (fun c => r ← strchr seps c; mret (r =? 0)) g (p + Z.of_nat (length a)) m t) as [E2 H2]; [|done|..].
  { intros c Hc. destruct (Hch c); [rewrite Es; set_solver|]. by apply sep_test. }
  { rewrite Es, length_app in Hsz. lia. }
  run E2. clear E2. destruct (take_drop_while g t) as (Ew & Hw & Hg). specialize (Hf c0 t0 Et).
  assert (take_while g t <> []) as Hwn.
  { rewrite Et. cbn [take_while]. change (g c0) with (negb (f c0)). by rewrite Hf. }
  set (w := take_while g t) in *. set (r := drop_while g t) in *. clearbody w r.
  assert (Forall (fun c => c ∉ sp) w) as Hw'.
  { apply (Forall_impl _ _ _ Hw). intros c Hc. apply negb_true_iff in Hc. by apply bool_decide_eq_false in Hc. }
  destruct r as [|c r].
  - pose proof (proj1 (str_nil _ _) H2) as H0'. run (ld1_ok _ _ _ H0'). rewrite app_nil_r in Ew.
    eexists _, m. split; [done|]. apply (token_last _ _ _ _ a w); [by rewrite Es, Ew|done..|by rewrite <- Ew].
  - pose proof (proj1 (str_cons _ _ _ _) H2) as (Hc & Hn & _). run (ld1_ok _ _ _ Hc). destruct (Z.eqb_spec c 0); [done|].
    run (st1_ok _ 0 m (mk_is_Some _ _ Hc)). change (u8 0) with 0. rewrite Ew in H1. destruct (str_cut _ _ _ _ _ H1) as [H3 H4].
    eexists _, _. split; [done|]. apply (token_next _ _ _ _ a w c r); try done; [by rewrite Es, Ew|].
    specialize (Hg c r eq_refl). apply negb_false_iff in Hg. by apply bool_decide_eq_true in Hg.
Qed.

Lemma strtok_r_spec_witness : exists r m', strtok_r 100 106 0 (bytes_at 100 [32; 65; 66; 32; 67; 0; 32; 0]) = Ok r m' /\
  token (bytes_at 100 [32; 65; 66; 32; 67; 0; 32; 0]) 100 [32; 65; 66; 32; 67] [32] r m'.
Proof.
  apply (strtok_r_spec 100 106 0); [apply bytes_at_ok; repeat constructor; unfold is_u8; lia|done|done|..].
  - split; [apply (bool_decide_unpack _); by vm_compute|]. intros i Hi. do 6 (destruct i as [|i]; [done|]). simpl in Hi. lia.
  - split; [apply (bool_decide_unpack _); by vm_compute|]. intros i Hi. do 2 (destruct i as [|i]; [done|]). simpl in Hi. lia.
Defined.

(** ** Decimal numbers *)

Definition is_dec (c : Z) : Prop := 48 <= c <= 57.
(** The value of a list of digits, after [v]. *)
Definition dec (v : Z) (ds : list Z) : Z := foldl (fun v c => v * 10 + (c - 48)) v ds.

Lemma index_digit c : is_dec c -> index_in digits c = Some (c - 48).
Proof.
  intros Hc. unfold is_dec in Hc. assert (c ∈ seqZ 48 10) as Hin by (apply elem_of_seqZ; lia). revert Hin. clear Hc.
  cbn. intros Hin. repeat (apply elem_of_cons in Hin as [->|Hin]; [reflexivity|]). by apply elem_of_nil in Hin.
Qed.
Lemma index_no_digit c : ~ is_dec c -> index_in digits c = None.
Proof.
  intros Hc. apply eq_None_not_Some. rewrite index_in_Some. intros Hin. apply Hc. unfold is_dec.
  assert (c ∈ seqZ 48 10) as Hs by exact Hin. apply elem_of_seqZ in Hs. lia.
Qed.

Lemma u32_dec v ds : u32 (dec (u32 v) ds) = u32 (dec v ds).
Proof.
  revert v. induction ds as [|c ds IH]; intros v; cbn [dec foldl]; [width_lia|].
  rewrite <- IH. symmetry. rewrite <- IH. f_equal. f_equal. width_lia.
Qed.

Definition no_digit (r : list Z) : Prop := forall c r', r = c :: r' -> ~ is_dec c.

Lemma atoi_digits_ok fuel p v m ds r : str_at m p (ds ++ r) -> (length (ds ++ r) <= fuel)%nat -> is_u32 v ->
  Forall is_dec ds -> no_digit r -> atoi_digits fuel p v m = Ok (u32 (dec v ds)) m.
Proof.
  revert fuel p v. induction ds as [|c ds IH]; intros fuel p v Hs Hf Hv Hd Hr; cbn [app dec foldl] in *.
  - rewrite u32_id by done. destruct r as [|c r].
    + apply str_nil in Hs. destruct fuel; cbn [atoi_digits]; by run (ld1_ok _ _ _ Hs).
    + apply str_cons in Hs as (Hc & Hn & _). destruct fuel; cbn [atoi_digits]; run (ld1_ok _ _ _ Hc);
        (destruct (Z.eqb_spec c 0); [done|]); by rewrite index_no_digit by (by eapply Hr).
  - apply str_cons in Hs as (Hc & Hn & Hs). inversion Hd as [|? ? Hc' Hd']; subst.
    destruct fuel as [|fuel]; [simpl in Hf; lia|]. cbn [atoi_digits]. run (ld1_ok _ _ _ Hc). destruct (Z.eqb_spec c 0); [done|].
    rewrite index_digit by done. rewrite IH; [|done|simpl in Hf; lia|apply u32_range|done|done]. f_equal. apply u32_dec.
Qed.

Lemma atoi_blanks_ok fuel p m bl c s : str_at m p (bl ++ c :: s) -> (length bl <= fuel)%nat ->
  Forall (fun c => c = 32 \/ c = 9) bl -> c <> 32 -> c <> 9 ->
  atoi_blanks fuel p m = Ok (p + Z.of_nat (length bl)) m /\ str_at m (p + Z.of_nat (length bl)) (c :: s).
Proof.
  intros Hs Hf Hb H1 H2. revert fuel p Hs Hf. induction Hb as [|b bl Hb Hbl IH]; intros fuel p Hs Hf; cbn [app] in Hs.
  - simpl. rewrite Z.add_0_r. split; [|done]. apply str_cons in Hs as (Hc & _).
    assert ((c =? 32) || (c =? 9) = false) as E by lia. destruct fuel; cbn [atoi_blanks]; run (ld1_ok _ _ _ Hc); by rewrite E.
  - apply str_cons in Hs as (Hc & Hn & Hs). destruct fuel as [|fuel]; [simpl in Hf; lia|]. cbn [atoi_blanks]. run (ld1_ok _ _ _ Hc).
    assert ((b =? 32) || (b =? 9) = true) as -> by lia. cbn [negb]. simpl in Hf.
    destruct (IH fuel (p + 1) Hs) as [-> Hs']; [lia|]. simpl length.
    replace (p + Z.of_nat (S (length bl))) with (p + 1 + Z.of_nat (length bl)) by lia. done.
Qed.

(** Blanks, a sign, digits, and anything that is not a digit. *)
Lemma atoi_ok p m bl sg ds r : str_at m p (bl ++ sg ++ ds ++ r) -> Forall (fun c => c = 32 \/ c = 9) bl ->
  sg = [] \/ sg = [45] \/ sg = [43] -> ds <> [] -> Forall is_dec ds -> no_digit r ->
  atoi p m = Ok (s32 (if decide (sg = [45]) then - dec 0 ds else dec 0 ds)) m.
Proof.
  intros Hs Hb Hsg Hds Hd Hr. unfold atoi. rewrite bound_eq. pose proof (string_size _ _ _ Hs) as Hsz. rewrite !length_app in Hsz.
  destruct ds as [|d ds]; [done|]. assert (is_dec d) as Hdd by (by inversion Hd). unfold is_dec in Hdd.
  assert (exists c t, sg ++ (d :: ds) ++ r = c :: t /\ c <> 32 /\ c <> 9 /\
    (sg = [] /\ c <> 45 /\ c <> 43 \/ sg = [c] /\ t = (d :: ds) ++ r /\ ((c =? 45) || (c =? 43)) = true)) as (c & t & Ec & H1 & H2 & Hc).
  { destruct Hsg as [->|[->| ->]]; eexists _, _; (split; [done|]); split_and!; try lia; [left|right..]; split_and!; done || lia. }
  rewrite Ec in Hs. destruct (atoi_blanks_ok (size m) p m bl c t Hs ltac:(lia) Hb H1 H2) as [E Hs']. run E. clear E.
  pose proof (proj1 (str_cons _ _ _ _) Hs') as (Hp & Hn & Ht). run (ld1_ok _ _ _ Hp).
  assert (forall q, str_at m q ((d :: ds) ++ r) -> atoi_digits (size m) q 0 m = Ok (u32 (dec 0 (d :: ds))) m) as Hdig.
  { intros q Hq. apply (atoi_digits_ok _ _ _ _ _ r); try done. rewrite length_app. simpl in *. lia. }
  destruct Hc as [(-> & Hc1 & Hc2)|(-> & -> & Hc)].
  - assert ((c =? 45) || (c =? 43) = false) as -> by lia. assert ((c =? 45) = false) as -> by lia. cbn [app] in Ec.
    rewrite <- Ec in Hs'. run (Hdig _ Hs'). rewrite decide_False by done. f_equal. width_lia.
  - rewrite Hc. run (Hdig _ Ht). destruct (Z.eqb_spec c 45) as [->|].
    + rewrite decide_True by done. f_equal. set (x := dec 0 (d :: ds)). clearbody x. width_lia.
    + rewrite decide_False by congruence. f_equal. width_lia.
Qed.
End LibcStr.
