(* ===== verification/Printf.v ===== *)
(** * Formatted output

    Model of common/libc/printf: the formatter __vprintf, which hands its
    output on piece by piece, and snprintf, which collects it in a buffer.

    A string argument is the list of its characters.  An argument list gives
    each argument with its size; fetching an argument of another size is a
    fault, as C leaves it undefined. *)

From S2P Require Import Prelude Kern Bswap Copyinout Libc LibcStr.
Open Scope Z_scope.
Import Libc LibcStr.

(** A variable argument: a 32-bit word, a 64-bit one, or a string. *)
Inductive varg : Type :=
| V32 (w : Z)
| V64 (w : Z)
| VStr (s : option (list Z)).

Inductive intsize : Type := INTSZ | LONGSZ | LLONGSZ | SIZETSZ.

(** PF, the state of the formatter *)
Record PF := Pf {
  ap : list varg; charcount : Z; in_pct : bool; pf_size : intsize; pf_num : Z; pf_sign : Z;
  spacing : Z; rightspc : bool; fillchar : Z; pf_base : Z; baseprefix : bool; altformat : bool
}.

Module Printf.
Section Format.
Context {C : Type} (sendfunc : list Z -> M C unit).

Definition __pf_print (pf : PF) (txt : list Z) : M C PF :=
  sendfunc txt ;;
  mret (Pf (ap pf) (s32 (charcount pf + Z.of_nat (length txt))) (in_pct pf) (pf_size pf) (pf_num pf) (pf_sign pf)
    (spacing pf) (rightspc pf) (fillchar pf) (pf_base pf) (baseprefix pf) (altformat pf)).

Definition __pf_endfield (pf : PF) : PF := Pf (ap pf) (charcount pf) false INTSZ 0 0 0 false 32 0 false false.

Definition set_spacing (n : Z) (pf : PF) : PF :=
  Pf (ap pf) (charcount pf) (in_pct pf) (pf_size pf) (pf_num pf) (pf_sign pf) n (rightspc pf) (fillchar pf)
    (pf_base pf) (baseprefix pf) (altformat pf).
Definition set_size (x : intsize) (pf : PF) : PF :=
  Pf (ap pf) (charcount pf) (in_pct pf) x (pf_num pf) (pf_sign pf) (spacing pf) (rightspc pf) (fillchar pf)
    (pf_base pf) (baseprefix pf) (altformat pf).

Definition __pf_modifier (pf : PF) (ch : Z) : M C PF :=
  if ch =? 35 (* # *) then
    mret (Pf (ap pf) (charcount pf) (in_pct pf) (pf_size pf) (pf_num pf) (pf_sign pf) (spacing pf) (rightspc pf)
      (fillchar pf) (pf_base pf) (baseprefix pf) true)
  else if ch =? 45 (* - *) then
    mret (Pf (ap pf) (charcount pf) (in_pct pf) (pf_size pf) (pf_num pf) (pf_sign pf) (spacing pf) true
      (fillchar pf) (pf_base pf) (baseprefix pf) (altformat pf))
  else if ch =? 108 (* l *) then
    mret (set_size (match pf_size pf with LONGSZ => LLONGSZ | _ => LONGSZ end) pf)
  else if ch =? 122 (* z *) then mret (set_size SIZETSZ pf)
  else if ch =? 48 (* 0 *) then
    mret (if spacing pf >? 0 then set_spacing (s32 (spacing pf * 10)) pf else
      Pf (ap pf) (charcount pf) (in_pct pf) (pf_size pf) (pf_num pf) (pf_sign pf) (spacing pf) (rightspc pf)
        48 (pf_base pf) (baseprefix pf) (altformat pf))
  else
    kassert ((ch >? 48) && (ch <=? 57)) ;;
    mret (set_spacing (s32 (spacing pf * 10 + (ch - 48))) pf).

(** va_arg for the integer types *)
Definition arg32 (l : list varg) : M C (Z * list varg) :=
  match l with V32 w :: l' => mret (u32 w, l') | _ => raise FBounds end.
Definition arg64 (l : list varg) : M C (Z * list varg) :=
  match l with V64 w :: l' => mret (u64 w, l') | _ => raise FBounds end.

Definition set_num (l : list varg) (num sign : Z) (pf : PF) : PF :=
  Pf l (charcount pf) (in_pct pf) (pf_size pf) num sign (spacing pf) (rightspc pf) (fillchar pf)
    (pf_base pf) (baseprefix pf) (altformat pf).

Definition __pf_getnum (pf : PF) (ch : Z) : M C PF :=
  if ch =? 112 (* p *) then x ← arg32 (ap pf); mret (set_num x.2 x.1 (pf_sign pf) pf)
  else if ch =? 100 (* d *) then
    x ← (match pf_size pf with LLONGSZ => arg64 (ap pf) | _ => arg32 (ap pf) end);
    let signednum := match pf_size pf with LLONGSZ => s64 x.1 | _ => s32 x.1 end in
    mret (if signednum <? 0 then set_num x.2 (u64 (- signednum)) (-1) pf
          else set_num x.2 (u64 signednum) (pf_sign pf) pf)
  else
    x ← (match pf_size pf with LLONGSZ => arg64 (ap pf) | _ => arg32 (ap pf) end);
    mret (set_num x.2 x.1 (pf_sign pf) pf).

Definition __pf_setbase (pf : PF) (ch : Z) : PF :=
  let base := if (ch =? 100) || (ch =? 117) then 10 else if (ch =? 120) || (ch =? 112) then 16
              else if ch =? 111 then 8 else pf_base pf in
  Pf (ap pf) (charcount pf) (in_pct pf) (pf_size pf) (pf_num pf) (pf_sign pf) (spacing pf) (rightspc pf)
    (fillchar pf) base (if altformat pf || (ch =? 112) then true else baseprefix pf) (altformat pf).

Fixpoint fill_loop (pf : PF) (f : Z) (n : nat) : M C PF :=
  match n with O => mret pf | S n' => pf ← __pf_print pf [f]; fill_loop pf f n' end.
Definition __pf_fill (pf : PF) (spc : Z) : M C PF := fill_loop pf (fillchar pf) (Z.to_nat spc).

Definition __pf_printstuff (pf : PF) (prefix prefix2 stuff : list Z) : M C PF :=
  let len := Z.of_nat (length prefix) + Z.of_nat (length prefix2) + Z.of_nat (length stuff) in
  let spc := if spacing pf >? len then spacing pf - len else 0 in
  pf ← (if (spc >? 0) && negb (rightspc pf) && negb (fillchar pf =? 48) then __pf_fill pf spc else mret pf);
  pf ← __pf_print pf prefix;
  pf ← __pf_print pf prefix2;
  pf ← (if (spc >? 0) && negb (rightspc pf) && (fillchar pf =? 48) then __pf_fill pf spc else mret pf);
  pf ← __pf_print pf stuff;
  if (spc >? 0) && rightspc pf then __pf_fill pf spc else mret pf.

Definition NUMBER_BUF_SIZE : Z := 64 / 3 + 2.
Definition number_digits : list Z := [48; 49; 50; 51; 52; 53; 54; 55; 56; 57; 97; 98; 99; 100; 101; 102].

(** The loop that converts a number, with [x] slots of the buffer left to the
    left: the text from there on. *)
Fixpoint convert (x : nat) (base xnum : Z) (text : list Z) : M C (list Z) :=
  match x with
  | O => raise FBounds
  | S x' =>
      d ← deref FBounds (number_digits !! Z.to_nat (xnum mod base));
      let xnum := xnum / base in
      if xnum >? 0 then convert x' base xnum (d :: text) else mret (d :: text)
  end.

Definition __pf_printnum (pf : PF) : M C PF :=
  text ← convert (Z.to_nat (NUMBER_BUF_SIZE - 1)) (pf_base pf) (pf_num pf) [];
  let bprefix := if baseprefix pf && (pf_base pf =? 16) then [48; 120]
                 else if baseprefix pf && (pf_base pf =? 8) then [48] else [] in
  let sprefix := if negb (pf_sign pf =? 0) then [45] else [] in
  __pf_printstuff pf sprefix bprefix text.

Definition modifiers : list Z := [35; 45; 108; 122; 48; 49; 50; 51; 52; 53; 54; 55; 56; 57].
Definition integers : list Z := [100; 111; 117; 112; 120].
Definition null_text : list Z := [40; 110; 117; 108; 108; 41].

Definition set_pct (pf : PF) : PF :=
  Pf (ap pf) (charcount pf) true (pf_size pf) (pf_num pf) (pf_sign pf) (spacing pf) (rightspc pf) (fillchar pf)
    (pf_base pf) (baseprefix pf) (altformat pf).
Definition set_ap (l : list varg) (pf : PF) : PF :=
  Pf l (charcount pf) (in_pct pf) (pf_size pf) (pf_num pf) (pf_sign pf) (spacing pf) (rightspc pf) (fillchar pf)
    (pf_base pf) (baseprefix pf) (altformat pf).

(** A string of one character, as the code prints it: up to its NUL. *)
Definition one_char (c : Z) : list Z := if u8 c =? 0 then [] else [u8 c].

Definition __pf_send (pf : PF) (ch : Z) : M C PF :=
  kassert (negb (ch =? 0)) ;;
  if negb (in_pct pf) && negb (ch =? 37) then __pf_print pf [ch]
  else if negb (in_pct pf) then mret (set_pct pf)
  else if bool_decide (is_Some (index_in modifiers ch)) then __pf_modifier pf ch
  else if bool_decide (is_Some (index_in integers ch)) then
    pf ← __pf_getnum pf ch;
    pf ← __pf_printnum (__pf_setbase pf ch);
    mret (__pf_endfield pf)
  else if ch =? 115 (* s *) then
    match ap pf with
    | VStr s :: l =>
        pf ← __pf_printstuff (set_ap l pf) [] [] (default null_text s);
        mret (__pf_endfield pf)
    | _ => raise FBounds
    end
  else
    x ← (if ch =? 99 (* c *) then arg32 (ap pf) else mret (ch, ap pf));
    pf ← __pf_printstuff (set_ap x.2 pf) [] [] (one_char x.1);
    mret (__pf_endfield pf).

Fixpoint send_all (pf : PF) (format : list Z) : M C PF :=
  match format with
  | [] => mret pf
  | ch :: format' => pf ← __pf_send pf ch; send_all pf format'
  end.

(** int __vprintf(func, clientdata, format, ap) *)
Definition __vprintf (format : list Z) (args : list varg) : M C Z :=
  pf ← send_all (__pf_endfield (Pf args 0 false INTSZ 0 0 0 false 0 0 false false)) format;
  mret (charcount pf).
End Format.

(** ** snprintf *)

(** The context SNP, with the memory the buffer is in. *)
Record SNP := Snp { snp_mem : mem; bufpos : Z }.

Fixpoint __snprintf_send (buf buflen : Z) (data : list Z) : M SNP unit :=
  match data with
  | [] => mret tt
  | c :: data' =>
      s ← get;
      (if bufpos s <? buflen then
         match st 1 (buf + bufpos s) c (snp_mem s) with
         | Ok _ m => modify (fun _ => Snp m (bufpos s + 1))
         | Fault f => raise f
         end
       else mret tt) ;;
      __snprintf_send buf buflen data'
  end.

Definition vsnprintf (buf len : Z) (fmt : list Z) (args : list varg) : M mem Z := fun m =>
  let buflen := if len =? 0 then 0 else len - 1 in
  match __vprintf (__snprintf_send buf buflen) fmt args (Snp m 0) with
  | Fault f => Fault f
  | Ok chars snp =>
      if len >? 0 then (st 1 (buf + bufpos snp) 0 ;; mret chars) (snp_mem snp) else Ok chars (snp_mem snp)
  end.

(** int snprintf(char *buf, size_t len, const char *fmt, ...) *)
Definition snprintf (buf len : Z) (fmt : list Z) (args : list varg) : M mem Z := vsnprintf buf len fmt args.

(** ** Sending in pieces

    An output function that does not depend on how its input is cut. *)
Class Stream {C} (send : list Z -> M C unit) : Prop := {
  send_nil c : send [] c = Ok tt c;
  send_app a b c : send (a ++ b) c = (send a ;; send b) c
}.

(** Whatever the output function, [m] sends [o] and returns [a]. *)
Definition sends {A} (m : forall C, (list Z -> M C unit) -> M C A) (o : list Z) (a : A) : Prop :=
  forall C (send : list Z -> M C unit), Stream send -> forall c, m C send c = (send o ;; mret a) c.

Lemma sends_ret {A} (a : A) : sends (fun C send => mret a) [] a.
Proof. intros C send Hs c. unfold mbind, M_bind. by rewrite send_nil. Qed.

Lemma sends_bind {A B} (m : forall C, (list Z -> M C unit) -> M C A) (k : A -> forall C, (list Z -> M C unit) -> M C B) o a o' b :
  sends m o a -> sends (k a) o' b -> sends (fun C send => x ← m C send; k x C send) (o ++ o') b.
Proof.
  intros Hm Hk C send Hs c. specialize (Hm C send Hs c). unfold mbind, M_bind in *. rewrite Hm, send_app.
  unfold mbind, M_bind. destruct (send o c) as [[] c1|]; [|done]. cbn. by rewrite (Hk C send Hs c1).
Qed.

(** Text that was sent, counted. *)
Definition count (o : list Z) (pf : PF) : PF :=
  Pf (ap pf) (s32 (charcount pf + Z.of_nat (length o))) (in_pct pf) (pf_size pf) (pf_num pf) (pf_sign pf)
    (spacing pf) (rightspc pf) (fillchar pf) (pf_base pf) (baseprefix pf) (altformat pf).

Lemma count_app o o' pf : count o' (count o pf) = count (o ++ o') pf.
Proof. unfold count. cbn. f_equal. rewrite length_app. width_lia. Qed.

Lemma print_sends pf txt : sends (fun C send => __pf_print send pf txt) txt (count txt pf).
Proof. by intros C send Hs c. Qed.

(** The same for a computation that ends with the count of its output. *)
Definition prints (m : forall C, (list Z -> M C unit) -> M C PF) (o : list Z) (pf : PF) : Prop := sends m o (count o pf).

Lemma prints_seq (m : forall C, (list Z -> M C unit) -> M C PF) k o o' pf :
  prints m o pf -> (forall pf', pf' = count o pf -> prints (k pf') o' pf') ->
  prints (fun C send => x ← m C send; k x C send) (o ++ o') pf.
Proof.
  intros Hm Hk. unfold prints. rewrite <- count_app. apply sends_bind with (a := count o pf); [done|]. by apply Hk.
Qed.

Lemma count_nil pf : is_s32 (charcount pf) -> count [] pf = pf.
Proof. intros Hc. unfold count. simpl. rewrite Z.add_0_r, s32_id by done. by destruct pf. Qed.

Lemma prints_ret pf : is_s32 (charcount pf) -> prints (fun C send => mret pf) [] pf.
Proof. intros Hc. unfold prints. rewrite count_nil by done. apply sends_ret. Qed.

Lemma fill_loop_prints f n pf : is_s32 (charcount pf) -> prints (fun C send => fill_loop send pf f n) (replicate n f) pf.
Proof.
  revert pf. induction n as [|n IH]; intros pf Hc; [by apply prints_ret|]. cbn [fill_loop replicate].
  change (f :: replicate n f) with ([f] ++ replicate n f).
  apply (prints_seq (fun C send => __pf_print send pf [f]) (fun pf C send => fill_loop send pf f n)); [apply print_sends|].
  intros pf' ->. apply IH. apply s32_range.
Qed.

(** ** A field *)

Definition padding (pf : PF) (text : list Z) : list Z :=
  replicate (Z.to_nat (spacing pf - Z.of_nat (length text))) (fillchar pf).
Definition field (pf : PF) (prefix prefix2 stuff : list Z) : list Z :=
  let pad := padding pf (prefix ++ prefix2 ++ stuff) in
  if rightspc pf then prefix ++ prefix2 ++ stuff ++ pad
  else if fillchar pf =? 48 then prefix ++ prefix2 ++ pad ++ stuff
  else pad ++ prefix ++ prefix2 ++ stuff.

(** A part of a field that is there only under a condition. *)
Lemma pad_prints (b : bool) n pf : is_s32 (charcount pf) ->
  prints (fun C send => if b then __pf_fill send pf n else mret pf) (if b then replicate (Z.to_nat n) (fillchar pf) else []) pf.
Proof. intros Hc. destruct b; [by apply fill_loop_prints|by apply prints_ret]. Qed.

Lemma printstuff_prints pf prefix prefix2 stuff : is_s32 (charcount pf) ->
  prints (fun C send => __pf_printstuff send pf prefix prefix2 stuff) (field pf prefix prefix2 stuff) pf.
Proof.
  intros Hc. set (spc := if spacing pf >? Z.of_nat (length prefix) + Z.of_nat (length prefix2) + Z.of_nat (length stuff)
    then spacing pf - (Z.of_nat (length prefix) + Z.of_nat (length prefix2) + Z.of_nat (length stuff)) else 0).
  set (pad (b : bool) := if b then replicate (Z.to_nat spc) (fillchar pf) else []).
  assert (field pf prefix prefix2 stuff = pad ((spc >? 0) && negb (rightspc pf) && negb (fillchar pf =? 48)) ++ prefix ++ prefix2 ++
    pad ((spc >? 0) && negb (rightspc pf) && (fillchar pf =? 48)) ++ stuff ++ pad ((spc >? 0) && rightspc pf)) as ->.
  { unfold field, padding. rewrite !length_app, !Nat2Z.inj_add, Z.add_assoc. subst pad spc. cbn beta.
    set (len := Z.of_nat (length prefix) + Z.of_nat (length prefix2) + Z.of_nat (length stuff)).
    destruct (Z.gtb_spec (spacing pf) len) as [Hlt|Hge].
    - destruct (Z.gtb_spec (spacing pf - len) 0); [|lia]. destruct (rightspc pf), (fillchar pf =? 48); cbn [andb negb app]; by rewrite ?app_nil_r.
    - replace (Z.to_nat (spacing pf - len)) with 0%nat by lia. cbn [replicate Z.gtb].
      destruct (rightspc pf), (fillchar pf =? 48); cbn [andb negb app]; by rewrite ?app_nil_r. }
  unfold __pf_printstuff. fold spc.
  eapply prints_seq; [by apply pad_prints|]. intros pf1 E1.
  eapply prints_seq; [apply print_sends|]. intros pf2 E2.
  eapply prints_seq; [apply print_sends|]. intros pf3 E3.
  replace (pad ((spc >? 0) && negb (rightspc pf) && (fillchar pf =? 48))) with
    (if (spc >? 0) && negb (rightspc pf3) && (fillchar pf3 =? 48) then replicate (Z.to_nat spc) (fillchar pf3) else []) by (by subst).
  eapply prints_seq; [apply pad_prints; subst; apply s32_range|]. intros pf4 E4.
  eapply prints_seq; [apply print_sends|]. intros pf5 E5.
  replace (pad ((spc >? 0) && rightspc pf)) with
    (if (spc >? 0) && rightspc pf5 then replicate (Z.to_nat spc) (fillchar pf5) else []) by (by subst).
  apply pad_prints. subst. apply s32_range.
Qed.

(** ** Numbers *)

Definition number (base : Z) (ds : list Z) : Z := foldl (fun v d => v * base + d) 0 ds.
(** [ds] is [n] written in a base, without leading zeros. *)
Definition numeral (base n : Z) (ds : list Z) : Prop :=
  Forall (fun d => 0 <= d < base) ds /\ number base ds = n /\ ds <> [] /\ (hd 0 ds = 0 -> ds = [0]).
Definition text_of (ds : list Z) : list Z := (fun d => default 0 (number_digits !! Z.to_nat d)) <$> ds.

Lemma number_snoc base ds d : number base (ds ++ [d]) = number base ds * base + d.
Proof. unfold number. by rewrite foldl_app. Qed.

Lemma convert_S x base n text C (c : C) d : number_digits !! Z.to_nat (n mod base) = Some d ->
  convert (S x) base n text c = if n / base >? 0 then convert x base (n / base) (d :: text) c else Ok (d :: text) c.
Proof. intros Hd. cbn [convert]. unfold mbind, M_bind, deref. rewrite Hd. by destruct (n / base >? 0). Qed.

Lemma convert_ok x base n text : 2 <= base <= 16 -> 0 <= n < base ^ Z.of_nat (S x) -> exists ds,
  numeral base n ds /\ forall C (c : C), convert (S x) base n text c = Ok (text_of ds ++ text) c.
Proof.
  intros Hb. revert n text. induction x as [|x IH]; intros n text Hn.
  all: assert (0 <= n mod base < base) as Hm by (apply Z.mod_pos_bound; lia).
  all: assert (number_digits !! Z.to_nat (n mod base) = Some (default 0 (number_digits !! Z.to_nat (n mod base)))) as Hd
    by (destruct (lookup_lt_is_Some_2 number_digits (Z.to_nat (n mod base))) as [e ->]; [simpl; lia|done]).
  all: setoid_rewrite (fun C (c : C) => convert_S _ _ _ _ _ c _ Hd).
  - change (base ^ Z.of_nat 1) with (base ^ 1) in Hn. rewrite Z.pow_1_r in Hn. rewrite Z.div_small, Z.mod_small in * by lia.
    exists [n]. split; [|done]. split; [by apply Forall_singleton|]. split; [done|]. split; [done|]. by intros [= ->].
  - pose proof (Z.div_mod n base ltac:(lia)). destruct (Z.gtb_spec (n / base) 0).
    + destruct (IH (n / base) (default 0 (number_digits !! Z.to_nat (n mod base)) :: text)) as (ds & (H1 & H2 & H3 & H4) & E).
      { split; [lia|]. apply Z.div_lt_upper_bound; [lia|]. rewrite <- Z.pow_succ_r by lia. rewrite <- Nat2Z.inj_succ. lia. }
      exists (ds ++ [n mod base]). split.
      * split; [apply Forall_app; by rewrite Forall_singleton|]. split; [rewrite number_snoc, H2; lia|].
        split; [by destruct ds|]. destruct ds as [|d ds]; [done|]. simpl. intros ->. specialize (H4 eq_refl). injection H4 as ->.
        unfold number in H2. simpl in H2. lia.
      * intros C c. rewrite E. unfold text_of. by rewrite fmap_app, <- app_assoc.
    + assert (n / base = 0) by (pose proof (Z.div_pos n base); lia). exists [n mod base]. split; [|done].
      split; [by apply Forall_singleton|]. split; [unfold number; simpl; lia|]. split; [done|]. by intros [= ->].
Qed.

Definition bprefix (pf : PF) : list Z :=
  if baseprefix pf && (pf_base pf =? 16) then [48; 120] else if baseprefix pf && (pf_base pf =? 8) then [48] else [].
Definition sprefix (pf : PF) : list Z := if negb (pf_sign pf =? 0) then [45] else [].

Lemma printnum_prints pf : is_s32 (charcount pf) -> is_u64 (pf_num pf) -> 8 <= pf_base pf <= 16 -> exists ds,
  numeral (pf_base pf) (pf_num pf) ds /\
  prints (fun C send => __pf_printnum send pf) (field pf (sprefix pf) (bprefix pf) (text_of ds)) pf.
Proof.
  intros Hc Hn Hb. change (Z.to_nat (NUMBER_BUF_SIZE - 1)) with 22%nat.
  destruct (convert_ok 21 (pf_base pf) (pf_num pf) []) as (ds & Hds & E); [lia| |].
  { unfold is_u64 in Hn. split; [lia|]. apply Z.lt_le_trans with (8 ^ 22); [lia|]. apply Z.pow_le_mono_l. lia. }
  exists ds. split; [done|]. intros C send Hs c. unfold __pf_printnum. change (Z.to_nat (NUMBER_BUF_SIZE - 1)) with 22%nat.
  specialize (E C c). rewrite app_nil_r in E. run E. by apply printstuff_prints.
Qed.

(** ** Formats and arguments *)

Inductive kind : Type := K32 | K64 | KStr.
Definition has_kind (k : kind) (a : varg) : Prop :=
  match k, a with K32, V32 _ | K64, V64 _ | KStr, VStr _ => True | _, _ => False end.

(** What one character of the format takes, in a field or not, with a size. *)
Definition needs (pct : bool) (sz : intsize) (ch : Z) : list kind :=
  if negb pct then [] else if bool_decide (is_Some (index_in modifiers ch)) then [] else
  if bool_decide (is_Some (index_in integers ch)) then
    (if ch =? 112 then [K32] else match sz with LLONGSZ => [K64] | _ => [K32] end)
  else if ch =? 115 then [KStr] else if ch =? 99 then [K32] else [].
(** ... and what the state is after it. *)
Definition next (pct : bool) (sz : intsize) (ch : Z) : bool * intsize :=
  if negb pct then (ch =? 37, sz) else
  if bool_decide (is_Some (index_in modifiers ch)) then
    (true, if ch =? 108 then match sz with LONGSZ => LLONGSZ | _ => LONGSZ end else if ch =? 122 then SIZETSZ else sz)
  else (false, INTSZ).
Fixpoint expects (pct : bool) (sz : intsize) (format : list Z) : list kind :=
  match format with
  | [] => []
  | ch :: format' => let st := next pct sz ch in needs pct sz ch ++ expects st.1 st.2 format'
  end.

(** The state between two characters of the format: what the arguments are for
    and that the count is an [int]. *)
Definition ready (pct : bool) (sz : intsize) (ks : list kind) (pf : PF) : Prop :=
  in_pct pf = pct /\ pf_size pf = sz /\ is_s32 (charcount pf) /\ exists extra rest, ap pf = rest ++ extra /\ Forall2 has_kind ks rest.

Lemma ready_arg pct sz k ks pf : ready pct sz (k :: ks) pf -> exists a l, ap pf = a :: l /\ has_kind k a /\
  exists extra rest, l = rest ++ extra /\ Forall2 has_kind ks rest.
Proof.
  intros (_ & _ & _ & extra & rest & Ea & HF). inversion HF as [|? a ? l Hk HF']; subst. rewrite Ea. cbn [app]. eauto 10.
Qed.

Lemma modifier_ok pct sz ks pf ch : ready pct sz ks pf -> pct = true -> is_Some (index_in modifiers ch) -> exists pf',
  (forall C (c : C), __pf_modifier pf ch c = Ok pf' c) /\ charcount pf' = charcount pf /\
  ready (next pct sz ch).1 (next pct sz ch).2 ks pf'.
Proof.
  intros (Hp & Hs & Hc & Ha) -> Hi. unfold next. cbn [negb]. rewrite bool_decide_eq_true_2 by done.
  apply index_in_Some in Hi. unfold modifiers in Hi.
  repeat (apply elem_of_cons in Hi as [->|Hi]; [eexists; split; [intros C c; reflexivity|]|]); [..|by apply elem_of_nil in Hi].
  all: cbn; try (split; [done|]; split_and!; try done; by rewrite ?Hs).
  destruct (spacing pf >? 0); (split; [done|]); by split_and!.
Qed.

Lemma endfield_ready o ks pf l : (exists extra rest, l = rest ++ extra /\ Forall2 has_kind ks rest) -> ap pf = l ->
  ready false INTSZ ks (__pf_endfield (count o pf)).
Proof. intros Hl <-. split; [done|]. split; [done|]. split; [apply s32_range|done]. Qed.

(** A field that was printed: the count, and ready for the next one. *)
Lemma field_ok (m : forall C, (list Z -> M C unit) -> M C PF) o pf ks : prints m o pf ->
  (exists extra rest, ap pf = rest ++ extra /\ Forall2 has_kind ks rest) -> exists o' pf',
  sends (fun C send => x ← m C send; mret (__pf_endfield x)) o' pf' /\
  charcount pf' = s32 (charcount pf + Z.of_nat (length o')) /\ ready false INTSZ ks pf'.
Proof.
  intros Hm Hl. exists (o ++ []), (__pf_endfield (count o pf)). split.
  - apply (sends_bind m (fun x C send => mret (__pf_endfield x)) o (count o pf)); [done|]. apply sends_ret.
  - rewrite app_nil_r. split; [done|]. by eapply endfield_ready.
Qed.

Lemma integer_ok sz ks pf ch : ready true sz (needs true sz ch ++ ks) pf -> ~ is_Some (index_in modifiers ch) ->
  is_Some (index_in integers ch) -> exists o pf',
  sends (fun C send => pf ← __pf_getnum pf ch; pf ← __pf_printnum send (__pf_setbase pf ch); mret (__pf_endfield pf)) o pf' /\
  charcount pf' = s32 (charcount pf + Z.of_nat (length o)) /\ ready false INTSZ ks pf'.
Proof.
  intros Hr Hm Hi. unfold needs in Hr. cbn [negb] in Hr. rewrite bool_decide_eq_false_2, bool_decide_eq_true_2 in Hr by done.
  pose proof Hr as (_ & Hs & Hc & _).
  assert (exists num sign l, (forall C (c : C), __pf_getnum pf ch c = Ok (set_num l num sign pf) c) /\ is_u64 num /\
    exists extra rest, l = rest ++ extra /\ Forall2 has_kind ks rest) as (num & sign & l & Hg & Hn & Hl).
  { destruct (ready_arg true sz (if ch =? 112 then K32 else match sz with LLONGSZ => K64 | _ => K32 end) ks pf) as (a & l & Ea & Hk & Hl).
    { by destruct (ch =? 112), sz. }
    assert (forall x, is_u64 (u64 x)) as Hu64 by apply u64_range.
    assert (forall x, is_u64 (u32 x)) as Hu32 by (intros x; pose proof (u32_range x); unfold is_u32, is_u64 in *; lia).
    unfold __pf_getnum. rewrite Ea, Hs. destruct (ch =? 112).
    { destruct a; try done. eexists _, _, l. split; [intros C c; reflexivity|]. eauto. }
    destruct (ch =? 100).
    - assert (forall x : Z, (x <? 0) = true \/ (x <? 0) = false) as Hsign by (intros x; destruct (x <? 0); auto).
      destruct sz, a; try done;
        [destruct (Hsign (s32 (u32 w))) as [Eb|Eb]..|destruct (Hsign (s64 (u64 w))) as [Eb|Eb]|destruct (Hsign (s32 (u32 w))) as [Eb|Eb]];
        eexists _, _, l; (split; [intros C c; unfold mbind, M_bind, arg32, arg64, mret, M_ret; cbn [fst snd]; rewrite Eb; reflexivity|eauto]).
    - destruct sz, a; try done; eexists _, _, l; (split; [intros C c; reflexivity|eauto]). }
  set (pf1 := __pf_setbase (set_num l num sign pf) ch).
  assert (8 <= pf_base pf1 <= 16) as Hb.
  { apply index_in_Some in Hi. unfold integers in Hi. subst pf1. cbn [pf_base __pf_setbase].
    repeat (apply elem_of_cons in Hi as [->|Hi]; [cbn; lia|]). by apply elem_of_nil in Hi. }
  destruct (printnum_prints pf1) as (ds & _ & Hp); [done|done|done|].
  destruct (field_ok _ _ pf1 ks Hp Hl) as (o & pf' & Hsend & Hcount & Hready).
  exists o, pf'. split; [|done]. intros C send Hst c. run (Hg C c). by apply Hsend.
Qed.

Lemma send_ok pct sz ks pf ch : ch <> 0 -> ready pct sz (needs pct sz ch ++ ks) pf -> exists o pf',
  sends (fun C send => __pf_send send pf ch) o pf' /\ charcount pf' = s32 (charcount pf + Z.of_nat (length o)) /\
  ready (next pct sz ch).1 (next pct sz ch).2 ks pf'.
Proof.
  intros Hch Hr. pose proof Hr as (Hp & Hs & Hc & _). unfold __pf_send. rewrite Hp.
  assert (negb (ch =? 0) = true) as H0 by lia. rewrite H0.
  assert (forall A (m : forall C, (list Z -> M C unit) -> M C A) o a, sends m o a -> sends (fun C send => kassert true ;; m C send) o a) as Hk
    by (intros A m o a Hm; exact Hm).
  destruct pct; cbn [negb andb].
  - destruct (decide (is_Some (index_in modifiers ch))) as [Hm|Hm].
    { replace (needs true sz ch) with (@nil kind) in Hr by (unfold needs; cbn; by rewrite bool_decide_eq_true_2). cbn [app] in Hr.
      destruct (modifier_ok true sz ks pf ch Hr eq_refl Hm) as (pf' & E & Ec & Hr'). exists [], pf'. split; [|split; [|done]].
      - apply Hk. intros C send Hst c. rewrite bool_decide_eq_true_2 by done. rewrite E. by apply (sends_ret pf' C send).
      - rewrite Ec. simpl. by rewrite Z.add_0_r, s32_id. }
    unfold next. cbn [negb]. rewrite (bool_decide_eq_false_2 _ Hm). cbn [fst snd].
    destruct (decide (is_Some (index_in integers ch))) as [Hi|Hi].
    { destruct (integer_ok sz ks pf ch Hr Hm Hi) as (o & pf' & Hsend & Hcr). exists o, pf'. split; [|done].
      apply Hk. intros C send Hst c. rewrite bool_decide_eq_true_2 by done. by apply Hsend. }
    rewrite (bool_decide_eq_false_2 _ Hi). unfold needs in Hr. cbn [negb] in Hr.
    rewrite (bool_decide_eq_false_2 _ Hm), (bool_decide_eq_false_2 _ Hi) in Hr. destruct (ch =? 115).
    { destruct (ready_arg _ _ _ _ _ Hr) as (a & l & -> & Hka & Hl). destruct a as [| |str]; [done..|].
      destruct (field_ok _ _ (set_ap l pf) ks (printstuff_prints (set_ap l pf) [] [] (default null_text str) Hc) Hl) as (o & pf' & H).
      exists o, pf'. destruct H as [H H']. split; [|done]. by apply Hk. }
    destruct (ch =? 99).
    + destruct (ready_arg _ _ _ _ _ Hr) as (a & l & -> & Hka & Hl). destruct a as [w| |]; [|done..].
      destruct (field_ok _ _ (set_ap l pf) ks (printstuff_prints (set_ap l pf) [] [] (one_char (u32 w)) Hc) Hl) as (o & pf' & H).
      exists o, pf'. destruct H as [H H']. split; [|done]. by apply Hk.
    + destruct Hr as (_ & _ & _ & Hr).
      destruct (field_ok _ _ (set_ap (ap pf) pf) ks (printstuff_prints (set_ap (ap pf) pf) [] [] (one_char ch) Hc) Hr) as (o & pf' & H).
      exists o, pf'. destruct H as [H H']. split; [|done]. by apply Hk.
  - cbn [needs negb app] in Hr. unfold next. cbn [negb fst snd]. destruct (Z.eqb_spec ch 37); cbn [negb].
    + exists [], (set_pct pf). split; [apply Hk, sends_ret|]. split; [simpl; by rewrite Z.add_0_r, s32_id|].
      destruct Hr as (_ & _ & _ & Ha). by split_and!.
    + exists [ch], (count [ch] pf). split; [apply Hk, print_sends|]. split; [done|]. split; [done|]. split; [done|].
      split; [apply s32_range|apply Hr].
Qed.

Lemma send_all_ok pct sz pf format : (0 ∉ format) -> ready pct sz (expects pct sz format) pf -> exists o pf',
  sends (fun C send => send_all send pf format) o pf' /\ charcount pf' = s32 (charcount pf + Z.of_nat (length o)).
Proof.
  revert pct sz pf. induction format as [|ch format IH]; intros pct sz pf H0 Hr.
  { exists [], pf. split; [apply sends_ret|]. simpl. rewrite Z.add_0_r, s32_id; [done|]. apply Hr. }
  cbn [expects] in Hr. destruct (send_ok pct sz _ pf ch ltac:(set_solver) Hr) as (o & pf1 & H1 & E1 & Hr1).
  destruct (IH _ _ pf1 ltac:(set_solver) Hr1) as (o' & pf' & H2 & E2). exists (o ++ o'), pf'. split.
  - cbn [send_all]. by apply (sends_bind _ (fun pf C send => send_all send pf format) o pf1).
  - rewrite E2, E1, length_app. width_lia.
Qed.

Definition args_fit (format : list Z) (args : list varg) : Prop :=
  exists rest extra, args = rest ++ extra /\ Forall2 has_kind (expects false INTSZ format) rest.

Lemma vprintf_ok format args : (0 ∉ format) -> args_fit format args -> exists o,
  sends (fun C send => __vprintf send format args) o (s32 (Z.of_nat (length o))).
Proof.
  intros H0 (rest & extra & Ea & HF).
  destruct (send_all_ok false INTSZ (__pf_endfield (Pf args 0 false INTSZ 0 0 0 false 0 0 false false)) format H0) as (o & pf' & H & E).
  { split; [done|]. split; [done|]. split; [by unfold is_s32|]. by exists extra, rest. }
  exists o. intros C send Hs c. specialize (H C send Hs c). unfold __vprintf. unfold mbind, M_bind in *. rewrite H.
  destruct (send o c); [|done]. cbn [mret M_ret]. by rewrite E.
Qed.

(** ** snprintf *)

#[export] Instance snprintf_stream buf buflen : Stream (__snprintf_send buf buflen).
Proof.
  split; [done|]. intros a b c. revert c. induction a as [|x a IH]; intros c; [done|]. cbn [app __snprintf_send].
  unfold mbind, M_bind in IH |- *. cbn [get]. destruct (bufpos c <? buflen); [|apply IH].
  destruct (st 1 (buf + bufpos c) x (snp_mem c)) as [[] m|]; [apply IH|done].
Qed.

(** What is stored of a text: as much as there is room for. *)
Lemma snprintf_send_ok buf buflen data m pos : bytes_ok m -> 0 <= pos <= buflen ->
  mapped m buf buflen -> exists m',
  __snprintf_send buf buflen data (Snp m pos) = Ok tt (Snp m' (Z.min buflen (pos + Z.of_nat (length data)))) /\
  written m (buf + pos) (take (Z.to_nat (buflen - pos)) (u8 <$> data)) m'.
Proof.
  revert m pos. induction data as [|x data IH]; intros m pos Hb Hp Hm.
  { exists m. simpl. rewrite Z.add_0_r, Z.min_r, take_nil by lia. split; [done|]. intros a. simpl. zcases; done. }
  cbn [__snprintf_send]. unfold mbind, M_bind. cbn [get bufpos snp_mem]. destruct (Z.ltb_spec pos buflen).
  - rewrite st1_ok by (apply Hm; lia). cbn [modify].
    destruct (IH (<[buf + pos := u8 x]> m) (pos + 1)) as (m' & E & Hw); [|lia|..].
    { intros a y. rewrite lookup_insert_Some. intros [[_ <-]|[_ Ha]]; [apply Z.mod_pos_bound; lia|by eapply Hb]. }
    { intros i Hi. apply lookup_insert_is_Some'. right. by apply Hm. }
    exists m'. rewrite E. split; [simpl length; do 2 f_equal; lia|].
    replace (Z.to_nat (buflen - pos)) with (S (Z.to_nat (buflen - (pos + 1)))) by lia. cbn [fmap list_fmap take].
    apply written_cons. by rewrite <- Z.add_assoc.
  - cbn [mret M_ret]. destruct (IH m pos) as (m' & E & Hw); [done..|]. exists m'. rewrite E.
    split; [simpl length; do 2 f_equal; lia|]. replace (Z.to_nat (buflen - pos)) with 0%nat in * by lia. done.
Qed.

Lemma written_snoc m p cs m1 c : written m p cs m1 -> written m p (cs ++ [c]) (<[p + Z.of_nat (length cs) := c]> m1).
Proof.
  intros Hw a. rewrite length_app. simpl. destruct (decide (a = p + Z.of_nat (length cs))) as [->|].
  - rewrite lookup_insert_eq. zcases. rewrite lookup_app_r by lia.
    by replace (Z.to_nat (p + Z.of_nat (length cs) - p) - length cs)%nat with 0%nat by lia.
  - rewrite lookup_insert_ne by done. rewrite Hw. zcases; try done. by rewrite lookup_app_l by lia.
Qed.

(** C36: snprintf.  For a format and the arguments it asks for there is one text
    that the formatter sends, whatever it is sent to and however it is cut into
    pieces.  snprintf stores as much of it as fits in the buffer, ends it with
    a NUL, touches nothing else, and returns the length of the whole text; with
    no buffer it stores nothing. *)
Theorem snprintf_spec fmt args : (0 ∉ fmt) -> args_fit fmt args -> exists text,
  (forall C (send : list Z -> M C unit), Stream send ->
     forall c, __vprintf send fmt args c = (send text ;; mret (s32 (Z.of_nat (length text)))) c) /\
  forall buf len m, 0 <= len -> bytes_ok m -> mapped m buf len -> exists m',
    snprintf buf len fmt args m = Ok (s32 (Z.of_nat (length text))) m' /\
    (if len =? 0 then m' = m else written m buf (take (Z.to_nat (len - 1)) (u8 <$> text) ++ [0]) m').
Proof.
  intros H0 Hfit. destruct (vprintf_ok fmt args H0 Hfit) as (text & Ht). exists text. split; [exact Ht|].
  intros buf len m Hl Hb Hm. unfold snprintf, vsnprintf. set (buflen := if len =? 0 then 0 else len - 1).
  rewrite (Ht _ (__snprintf_send buf buflen) _ (Snp m 0)). unfold mbind, M_bind.
  assert (0 <= buflen <= len /\ (len <> 0 -> buflen = len - 1)) as [Hbl Hbl'] by (subst buflen; destruct (Z.eqb_spec len 0); lia).
  destruct (snprintf_send_ok buf buflen text m 0 Hb) as (m1 & -> & Hw); [lia|intros i Hi; apply Hm; lia|].
  cbn [mret M_ret bufpos snp_mem]. rewrite Z.sub_0_r, Z.add_0_r in Hw. destruct (Z.eqb_spec len 0) as [->|].
  - exists m1. split; [done|]. subst buflen. cbn in Hw. apply map_eq. intros a. rewrite Hw. simpl. zcases; done.
  - destruct (Z.gtb_spec len 0); [|lia]. rewrite Z.add_0_l. rewrite st1_ok.
    2: { rewrite Hw. specialize (Hm (Z.min buflen (Z.of_nat (length text)))). rewrite length_take, length_fmap. zcases; apply Hm; lia. }
    eexists. split; [done|]. change (u8 0) with 0. rewrite <- Hbl' by done.
    replace (Z.min buflen (Z.of_nat (length text))) with (Z.of_nat (length (take (Z.to_nat buflen) (u8 <$> text))))
      by (rewrite length_take, length_fmap; lia). by apply written_snoc.
Qed.

Lemma snprintf_spec_witness : exists text,
  (forall C (send : list Z -> M C unit), Stream send ->
     forall c, __vprintf send [97; 37; 48; 52; 120] [V32 255] c = (send text ;; mret (s32 (Z.of_nat (length text)))) c) /\
  forall buf len m, 0 <= len -> bytes_ok m -> mapped m buf len -> exists m',
    snprintf buf len [97; 37; 48; 52; 120] [V32 255] m = Ok (s32 (Z.of_nat (length text))) m' /\
    (if len =? 0 then m' = m else written m buf (take (Z.to_nat (len - 1)) (u8 <$> text) ++ [0]) m').
Proof.
  apply snprintf_spec; [apply (bool_decide_unpack _); by vm_compute|].
  exists [V32 255], []. split; [done|]. repeat constructor.
Defined.

(** ** Printing and parsing *)

Lemma numeral_length base n ds k : 2 <= base -> numeral base n ds -> n < base ^ k -> 1 <= k -> Z.of_nat (length ds) <= k.
Proof.
  intros Hb (Hd & Hn & Hne & Hz) Hlt Hk. destruct ds as [|d ds]; [done|]. simpl in Hz.
  destruct (decide (d = 0)) as [->|Hd0]; [rewrite Hz by done; simpl; lia|].
  assert (base ^ Z.of_nat (length ds) <= number base (d :: ds)) as Hge.
  { clear Hz Hn Hlt Hne. apply Forall_cons in Hd as [Hd Hds]. induction ds as [|e ds IH] using rev_ind; [unfold number; simpl; lia|].
    apply Forall_app in Hds as [Hds He]. rewrite Forall_singleton in He. specialize (IH Hds).
    change (d :: ds ++ [e]) with ((d :: ds) ++ [e]). rewrite number_snoc, length_app, Nat2Z.inj_add.
    rewrite Z.pow_add_r, Z.pow_1_r by lia. nia. }
  cut (Z.of_nat (length ds) < k); [simpl; lia|]. apply (Z.pow_lt_mono_r_iff base); lia.
Qed.

(** Decimal text, as atoi reads it. *)
Lemma text_digit d : 0 <= d < 10 -> default 0 (number_digits !! Z.to_nat d) = 48 + d.
Proof.
  intros Hd. assert (d ∈ seqZ 0 10) as Hin by (apply elem_of_seqZ; lia). cbn in Hin.
  repeat (apply elem_of_cons in Hin as [->|Hin]; [reflexivity|]). by apply elem_of_nil in Hin.
Qed.
Lemma text_dec ds : Forall (fun d => 0 <= d < 10) ds ->
  Forall is_dec (text_of ds) /\ forall v, dec v (text_of ds) = foldl (fun v d => v * 10 + d) v ds.
Proof.
  induction 1 as [|d ds Hd _ [IH1 IH2]]; [by split|]. unfold text_of. cbn [fmap list_fmap]. rewrite text_digit by done.
  split; [constructor; [unfold is_dec; lia|done]|]. intros v. cbn [dec foldl]. fold (text_of ds). unfold dec in IH2. rewrite IH2.
  f_equal. lia.
Qed.

(** The text that "%d" gives. *)
Lemma printf_d n : is_s32 n -> exists ds, numeral 10 (Z.abs n) ds /\
  forall C (send : list Z -> M C unit), Stream send -> forall c, exists k,
    __vprintf send [37; 100] [V32 n] c = (send ((if n <? 0 then [45] else []) ++ text_of ds) ;; mret k) c.
Proof.
  intros Hn. set (pf := Pf [] 0 true INTSZ (Z.abs n) (if n <? 0 then -1 else 0) 0 false 32 10 false false).
  destruct (printnum_prints pf) as (ds & Hds & Hp); [by unfold is_s32|unfold is_u64, is_s32 in *; cbn; lia|cbn; lia|].
  exists ds. split; [done|]. intros C send Hs c. specialize (Hp C send Hs c).
  replace (field pf (sprefix pf) (bprefix pf) (text_of ds)) with ((if n <? 0 then [45] else []) ++ text_of ds) in Hp.
  2: { unfold field, padding, sprefix, bprefix. cbn [pf spacing rightspc fillchar baseprefix pf_sign andb].
       replace (Z.to_nat (0 - _)) with 0%nat by lia. by destruct (n <? 0). }
  set (pf0 := Pf [V32 n] 0 true INTSZ 0 0 0 false 32 0 false false).
  assert (__vprintf send [37; 100] [V32 n] c = (pf1 ← __pf_printnum send pf; mret (charcount pf1)) c) as ->.
  { assert (__pf_getnum pf0 100 c = Ok (Pf [] 0 true INTSZ (Z.abs n) (if n <? 0 then -1 else 0) 0 false 32 0 false false) c) as Hg.
    { unfold __pf_getnum, mbind, M_bind. cbn [Z.eqb Pos.eqb pf0 ap pf_size arg32 mret M_ret fst snd].
      replace (s32 (u32 n)) with n by width_lia. destruct (Z.ltb_spec n 0); unfold set_num; cbn; do 2 f_equal; width_lia. }
    assert (__pf_send send pf0 100 c = (pf1 ← __pf_printnum send pf; mret (__pf_endfield pf1)) c) as E.
    { change (__pf_send send pf0 100 c) with ((x ← __pf_getnum pf0 100; y ← __pf_printnum send (__pf_setbase x 100); mret (__pf_endfield y)) c).
      by run Hg. }
    change (__vprintf send [37; 100] [V32 n] c) with ((x ← (x ← __pf_send send pf0 100; mret x); mret (charcount x)) c).
    unfold mbind, M_bind in E |- *. rewrite E. by destruct (__pf_printnum send pf c). }
  unfold mbind, M_bind in Hp |- *. rewrite Hp. destruct (send _ c); eauto.
Qed.

(** C35: printing and parsing.  A number printed with %d into a buffer that is
    large enough, and read back with atoi, is the same number. *)
Theorem print_parse n buf len m : is_s32 n -> 12 <= len -> bytes_ok m -> mapped m buf len -> exists k m',
  snprintf buf len [37; 100] [V32 n] m = Ok k m' /\ atoi buf m' = Ok n m'.
Proof.
  intros Hn Hlen Hb Hm. destruct (printf_d n Hn) as (ds & Hds & Hd). unfold is_s32 in Hn.
  pose proof (numeral_length 10 (Z.abs n) ds 10 ltac:(lia) Hds ltac:(lia) ltac:(lia)) as Hl. destruct Hds as (Hd1 & Hd2 & Hd3 & _).
  destruct (text_dec ds Hd1) as [Ht1 Ht2]. set (sg := if n <? 0 then [45] else []) in *. set (text := sg ++ text_of ds) in *.
  assert (length (text_of ds) = length ds) as Elen by apply length_fmap.
  assert (Z.of_nat (length text) <= 11) as Htl by (subst text sg; rewrite length_app; destruct (n <? 0); simpl; lia).
  destruct (Hd _ (__snprintf_send buf (len - 1)) _ (Snp m 0)) as [k E].
  destruct (snprintf_send_ok buf (len - 1) text m 0 Hb) as (m1 & E1 & Hw); [lia|intros i Hi; apply Hm; lia|].
  assert (u8 <$> text = text) as Eu.
  { subst text sg. rewrite fmap_app. f_equal; [by destruct (n <? 0)|]. rewrite <- (list_fmap_id (text_of ds)) at 2.
    apply list_fmap_ext. intros i x Hx. pose proof (proj1 (Forall_lookup _ _) Ht1 i x Hx) as Hi. unfold is_dec in Hi. apply Z.mod_small. simpl. lia. }
  rewrite Eu, Z.add_0_r, Z.sub_0_r, take_ge in Hw by lia.
  exists k, (<[buf + Z.of_nat (length text) := 0]> m1). split.
  - unfold snprintf, vsnprintf. destruct (Z.eqb_spec len 0); [lia|]. rewrite E. unfold mbind, M_bind. rewrite E1. cbn [mret M_ret bufpos snp_mem].
    destruct (Z.gtb_spec len 0); [|lia]. rewrite Z.min_r, Z.add_0_l by lia. rewrite st1_ok; [done|].
    rewrite Hw. zcases. apply Hm. lia.
  - assert (str_at (<[buf + Z.of_nat (length text) := 0]> m1) buf text) as Hs.
    { eapply (written_str m); [|by apply written_snoc]. subst text sg. intros [Hin|Hin]%elem_of_app.
      - destruct (n <? 0); set_solver.
      - apply (proj1 (Forall_forall _ _) Ht1) in Hin. unfold is_dec in Hin. lia. }
    rewrite (atoi_ok _ _ [] sg (text_of ds) []); rewrite ?app_nil_r; try done.
    + rewrite Ht2. fold (number 10 ds). rewrite Hd2. f_equal. subst sg. destruct (Z.ltb_spec n 0);
        [rewrite decide_True by done|rewrite decide_False by done]; rewrite s32_id; unfold is_s32; lia.
    + subst sg. destruct (n <? 0); auto.
    + intros Hnil. apply Hd3. by apply fmap_nil_inv in Hnil.
Qed.

Lemma print_parse_witness : exists k m',
  snprintf 100 12 [37; 100] [V32 (-42)] (bytes_at 100 (replicate 12 7)) = Ok k m' /\ atoi 100 m' = Ok (-42) m'.
Proof.
  apply print_parse; [unfold is_s32; lia|lia|apply bytes_at_ok; repeat constructor; unfold is_u8; lia|].
  intros i Hi. assert (i ∈ seqZ 0 12) as Hin by (apply elem_of_seqZ; lia). cbn in Hin.
  repeat (apply elem_of_cons in Hin as [->|Hin]; [by eexists|]). by apply elem_of_nil in Hin.
Defined.
End Printf.
