(* ===== verification/Threadlist.v ===== *)
(** * Lists of threads

    Model of kern/thread/threadlist.c: doubly linked lists with a head and a
    tail node of their own, threaded through a node in each thread.  The nodes
    are in a heap and point to each other.  The lists refine sequences: any run
    of the operations on nodes gives the results, and leaves the sequences,
    that the operations on sequences give.

    A list and a thread are named by their address.  DEBUGASSERT is compiled
    out, as the code has it. *)

From S2P Require Import Prelude.
Open Scope Z_scope.

(** Where a node is: the two ends of a list, or inside a thread. *)
Inductive loc : Type := Head (tl : Z) | Tail (tl : Z) | Node (t : Z).

#[export] Instance loc_eq_dec : EqDecision loc.
Proof. solve_decision. Defined.
#[export] Instance loc_countable : Countable loc.
Proof.
  refine (inj_countable' (fun l => match l with Head a => inl a | Tail a => inr (inl a) | Node t => inr (inr t) end)
    (fun x => match x with inl a => Head a | inr (inl a) => Tail a | inr (inr t) => Node t end) _).
  by intros [].
Defined.

(** struct threadlistnode; NULL is [None] *)
Record threadlistnode := Tln { tln_prev : option loc; tln_next : option loc; tln_self : option Z }.

(** The nodes, and the count of each list. *)
Record tlstate := TlState { nodes : gmap loc threadlistnode; tl_count : gmap Z Z }.

Module Threadlist.

(** ** Access to nodes *)

Definition node (p : option loc) : M tlstate threadlistnode :=
  l ← deref FNull p; s ← get; deref FDangling (nodes s !! l).

Definition put (l : loc) (n : threadlistnode) (s : tlstate) : tlstate := TlState (<[l := n]> (nodes s)) (tl_count s).
Definition set_prev (p : option loc) (v : option loc) : M tlstate unit :=
  l ← deref FNull p; n ← node p; modify (put l (Tln v (tln_next n) (tln_self n))).
Definition set_next (p : option loc) (v : option loc) : M tlstate unit :=
  l ← deref FNull p; n ← node p; modify (put l (Tln (tln_prev n) v (tln_self n))).

Definition count_of (tl : Z) : M tlstate Z := s ← get; deref FDangling (tl_count s !! tl).
Definition set_count (tl c : Z) : M tlstate unit :=
  modify (fun s => TlState (nodes s) (<[tl := u32 c]> (tl_count s))).

(** ** threadlist.c *)

Definition threadlistnode_init (t : Z) : M tlstate unit :=
  kassert (negb (t =? 0)) ;; modify (put (Node t) (Tln None None (Some t))).

Definition threadlistnode_cleanup (t : Z) : M tlstate unit :=
  n ← node (Some (Node t));
  kassert (bool_decide (tln_next n = None)) ;;
  kassert (bool_decide (tln_prev n = None)) ;;
  kassert (negb (bool_decide (tln_self n = None))).

Definition threadlist_init (tl : Z) : M tlstate unit :=
  modify (fun s => TlState
    (<[Head tl := Tln None (Some (Tail tl)) None]> (<[Tail tl := Tln (Some (Head tl)) None None]> (nodes s)))
    (<[tl := 0]> (tl_count s))).

Definition threadlist_isempty (tl : Z) : M tlstate bool := c ← count_of tl; mret (c =? 0).

Definition threadlist_cleanup (tl : Z) : M tlstate unit :=
  b ← threadlist_isempty tl; kassert b ;; c ← count_of tl; kassert (c =? 0).

Definition threadlist_insertafternode (onlist : loc) (t : Z) : M tlstate unit :=
  let addee := Some (Node t) in
  set_prev addee (Some onlist) ;;
  o ← node (Some onlist); set_next addee (tln_next o) ;;
  a ← node addee; set_next (tln_prev a) addee ;;
  a ← node addee; set_prev (tln_next a) addee.

Definition threadlist_insertbeforenode (t : Z) (onlist : loc) : M tlstate unit :=
  let addee := Some (Node t) in
  o ← node (Some onlist); set_prev addee (tln_prev o) ;;
  set_next addee (Some onlist) ;;
  a ← node addee; set_next (tln_prev a) addee ;;
  a ← node addee; set_prev (tln_next a) addee.

Definition threadlist_removenode (tln : loc) : M tlstate unit :=
  n ← node (Some tln); set_next (tln_prev n) (tln_next n) ;;
  n ← node (Some tln); set_prev (tln_next n) (tln_prev n) ;;
  set_prev (Some tln) None ;;
  set_next (Some tln) None.

Definition threadlist_addhead (tl t : Z) : M tlstate unit :=
  threadlist_insertafternode (Head tl) t ;; c ← count_of tl; set_count tl (c + 1).
Definition threadlist_addtail (tl t : Z) : M tlstate unit :=
  threadlist_insertbeforenode t (Tail tl) ;; c ← count_of tl; set_count tl (c + 1).

(** The thread, [None] for NULL. *)
Definition threadlist_remhead (tl : Z) : M tlstate (option Z) :=
  h ← node (Some (Head tl));
  n ← node (tln_next h);
  if bool_decide (tln_next n = None) then mret None else
  tln ← deref FNull (tln_next h);
  threadlist_removenode tln ;;
  c ← count_of tl; set_count tl (c - 1) ;;
  n ← node (Some tln); mret (tln_self n).
Definition threadlist_remtail (tl : Z) : M tlstate (option Z) :=
  h ← node (Some (Tail tl));
  n ← node (tln_prev h);
  if bool_decide (tln_prev n = None) then mret None else
  tln ← deref FNull (tln_prev h);
  threadlist_removenode tln ;;
  c ← count_of tl; set_count tl (c - 1) ;;
  n ← node (Some tln); mret (tln_self n).

Definition threadlist_insertafter (tl onlist addee : Z) : M tlstate unit :=
  threadlist_insertafternode (Node onlist) addee ;; c ← count_of tl; set_count tl (c + 1).
Definition threadlist_insertbefore (tl addee onlist : Z) : M tlstate unit :=
  threadlist_insertbeforenode addee (Node onlist) ;; c ← count_of tl; set_count tl (c + 1).
Definition threadlist_remove (tl t : Z) : M tlstate unit :=
  threadlist_removenode (Node t) ;; c ← count_of tl; set_count tl (c - 1).

(** THREADLIST_FORALL and THREADLIST_FORALL_REV: the threads visited, in
    order, by a loop body that leaves the list alone. *)
Fixpoint forall_from (fuel : nat) (p : option loc) : M tlstate (list Z) :=
  n ← node p;
  match tln_self n with
  | None => mret []
  | Some t =>
      match fuel with
      | O => raise FFuel
      | S fuel' => m ← node (Some (Node t)); l ← forall_from fuel' (tln_next m); mret (t :: l)
      end
  end.
Definition THREADLIST_FORALL (tl : Z) : M tlstate (list Z) :=
  s ← get; h ← node (Some (Head tl)); forall_from (size (nodes s)) (tln_next h).
Fixpoint forall_rev_from (fuel : nat) (p : option loc) : M tlstate (list Z) :=
  n ← node p;
  match tln_self n with
  | None => mret []
  | Some t =>
      match fuel with
      | O => raise FFuel
      | S fuel' => m ← node (Some (Node t)); l ← forall_rev_from fuel' (tln_prev m); mret (t :: l)
      end
  end.
Definition THREADLIST_FORALL_REV (tl : Z) : M tlstate (list Z) :=
  s ← get; h ← node (Some (Tail tl)); forall_rev_from (size (nodes s)) (tln_prev h).

(** ** The heap of nodes *)

Abbreviation heap := (gmap loc threadlistnode).
Definition nx (h : heap) (l : loc) : option (option loc) := tln_next <$> h !! l.
Definition pv (h : heap) (l : loc) : option (option loc) := tln_prev <$> h !! l.
Definition upd_next (l : loc) (v : option loc) (h : heap) : heap := alter (fun n => Tln (tln_prev n) v (tln_self n)) l h.
Definition upd_prev (l : loc) (v : option loc) (h : heap) : heap := alter (fun n => Tln v (tln_next n) (tln_self n)) l h.
Abbreviation with_heap s h := (TlState h (tl_count s)).

Lemma nx_upd_next l v h r : nx (upd_next l v h) r = if decide (r = l) then (fun _ => v) <$> nx h r else nx h r.
Proof. unfold nx, upd_next. case_decide as E; [subst|]; rewrite ?lookup_alter_eq, ?lookup_alter_ne by done; [|done]. by destruct (h !! l). Qed.
Lemma pv_upd_prev l v h r : pv (upd_prev l v h) r = if decide (r = l) then (fun _ => v) <$> pv h r else pv h r.
Proof. unfold pv, upd_prev. case_decide as E; [subst|]; rewrite ?lookup_alter_eq, ?lookup_alter_ne by done; [|done]. by destruct (h !! l). Qed.
Lemma nx_upd_prev l v h r : nx (upd_prev l v h) r = nx h r.
Proof. unfold nx, upd_prev. destruct (decide (r = l)) as [->|]; rewrite ?lookup_alter_eq, ?lookup_alter_ne by done; [|done]. by destruct (h !! l). Qed.
Lemma pv_upd_next l v h r : pv (upd_next l v h) r = pv h r.
Proof. unfold pv, upd_next. destruct (decide (r = l)) as [->|]; rewrite ?lookup_alter_eq, ?lookup_alter_ne by done; [|done]. by destruct (h !! l). Qed.
Lemma nx_node h l v : nx h l = Some v -> exists n, h !! l = Some n /\ tln_next n = v.
Proof. unfold nx. destruct (h !! l) as [n|]; [|done]. intros [= <-]. eauto. Qed.
Lemma pv_node h l v : pv h l = Some v -> exists n, h !! l = Some n /\ tln_prev n = v.
Proof. unfold pv. destruct (h !! l) as [n|]; [|done]. intros [= <-]. eauto. Qed.

Lemma node_ok s l n : nodes s !! l = Some n -> node (Some l) s = Ok n s.
Proof. intros Hn. unfold node, mbind, M_bind, deref, get. cbn. by rewrite Hn. Qed.
Lemma set_next_ok s l v : is_Some (nodes s !! l) -> set_next (Some l) v s = Ok tt (with_heap s (upd_next l v (nodes s))).
Proof.
  intros [n Hn]. unfold set_next. run (eq_refl : deref FNull (Some l) s = Ok l s). run (node_ok s l n Hn). unfold modify, put, upd_next. do 2 f_equal.
  apply map_eq. intros r. destruct (decide (r = l)) as [->|]; [by rewrite lookup_insert_eq, lookup_alter_eq, Hn|].
  by rewrite lookup_insert_ne, lookup_alter_ne by done.
Qed.
Lemma set_prev_ok s l v : is_Some (nodes s !! l) -> set_prev (Some l) v s = Ok tt (with_heap s (upd_prev l v (nodes s))).
Proof.
  intros [n Hn]. unfold set_prev. run (eq_refl : deref FNull (Some l) s = Ok l s). run (node_ok s l n Hn). unfold modify, put, upd_prev. do 2 f_equal.
  apply map_eq. intros r. destruct (decide (r = l)) as [->|]; [by rewrite lookup_insert_eq, lookup_alter_eq, Hn|].
  by rewrite lookup_insert_ne, lookup_alter_ne by done.
Qed.

(** Putting a node between two neighbours, and taking it out. *)
Definition link (p x q : loc) (h : heap) : heap :=
  upd_prev q (Some x) (upd_next p (Some x) (upd_next x (Some q) (upd_prev x (Some p) h))).
Definition unlink (p x q : loc) (h : heap) : heap :=
  upd_next x None (upd_prev x None (upd_prev q (Some p) (upd_next p (Some q) h))).

Lemma upd_next_is_Some l v h r : is_Some (h !! r) -> is_Some (upd_next l v h !! r).
Proof. unfold upd_next. destruct (decide (r = l)) as [->|]; rewrite ?lookup_alter_eq, ?lookup_alter_ne by done; [|done]. intros [n ->]. by eexists. Qed.
Lemma upd_prev_is_Some l v h r : is_Some (h !! r) -> is_Some (upd_prev l v h !! r).
Proof. unfold upd_prev. destruct (decide (r = l)) as [->|]; rewrite ?lookup_alter_eq, ?lookup_alter_ne by done; [|done]. intros [n ->]. by eexists. Qed.
Lemma nx_is_Some h l : is_Some (nx h l) <-> is_Some (h !! l).
Proof. apply fmap_is_Some. Qed.
Lemma pv_is_Some h l : is_Some (pv h l) <-> is_Some (h !! l).
Proof. apply fmap_is_Some. Qed.

Create HintDb tlist.
Create Rewrite HintDb tlist.
#[local] Hint Resolve upd_next_is_Some upd_prev_is_Some : tlist.
#[local] Hint Rewrite nx_upd_next pv_upd_prev nx_upd_prev pv_upd_next : tlist.

(** Evaluates links of an updated heap where the locations are known apart. *)
Ltac links := autorewrite with tlist; repeat first [rewrite decide_True by done | rewrite decide_False by done].

Lemma read_next s l v : nx (nodes s) l = Some v -> exists n, node (Some l) s = Ok n s /\ tln_next n = v.
Proof. intros (n & Hn & Hv)%nx_node. eauto using node_ok. Qed.
Lemma read_prev s l v : pv (nodes s) l = Some v -> exists n, node (Some l) s = Ok n s /\ tln_prev n = v.
Proof. intros (n & Hn & Hv)%pv_node. eauto using node_ok. Qed.

Section Link.
Variables (s : tlstate) (p q : loc) (t : Z).
Let h := nodes s.
Hypothesis Hpq : nx h p = Some (Some q).
Hypothesis Hqp : pv h q = Some (Some p).
Hypothesis Hpx : p <> Node t.
Hypothesis Hqx : q <> Node t.
Hypothesis Ht : is_Some (h !! Node t).

Let Hp : is_Some (h !! p).
Proof. apply nx_is_Some. eauto. Qed.
Let Hq : is_Some (h !! q).
Proof. apply pv_is_Some. eauto. Qed.

(** Both insertions, once the links of the new node are set. *)
Lemma link_end : (a ← node (Some (Node t)); set_next (tln_prev a) (Some (Node t)) ;;
    a ← node (Some (Node t)); set_prev (tln_next a) (Some (Node t)))
    (with_heap s (upd_next (Node t) (Some q) (upd_prev (Node t) (Some p) h))) = Ok tt (with_heap s (link p (Node t) q h)).
Proof.
  destruct (proj2 (pv_is_Some h _) Ht) as [vp Evp]. destruct (proj2 (nx_is_Some h _) Ht) as [vn Evn].
  destruct (read_prev (with_heap s (upd_next (Node t) (Some q) (upd_prev (Node t) (Some p) h))) (Node t) (Some p)) as (n & E & En).
  { cbn [nodes]. links. by rewrite Evp. }
  run E. rewrite En. run (set_next_ok (with_heap s (upd_next (Node t) (Some q) (upd_prev (Node t) (Some p) h))) p (Some (Node t)) ltac:(cbn; eauto with tlist)).
  cbn [nodes tl_count].
  destruct (read_next (with_heap s (upd_next p (Some (Node t)) (upd_next (Node t) (Some q) (upd_prev (Node t) (Some p) h)))) (Node t) (Some q)) as (n' & E' & En').
  { cbn [nodes]. links. by rewrite Evn. }
  run E'. rewrite En'. by rewrite set_prev_ok by (cbn; eauto with tlist).
Qed.

Lemma insertafter_ok : threadlist_insertafternode p t s = Ok tt (with_heap s (link p (Node t) q h)).
Proof.
  unfold threadlist_insertafternode. run (set_prev_ok s (Node t) (Some p) Ht).
  destruct (read_next (with_heap s (upd_prev (Node t) (Some p) h)) p (Some q)) as (n & E & En); [cbn; by links|].
  fold h. run E. rewrite En. run (set_next_ok (with_heap s (upd_prev (Node t) (Some p) h)) (Node t) (Some q) ltac:(cbn; eauto with tlist)).
  apply link_end.
Qed.
Lemma insertbefore_ok : threadlist_insertbeforenode t q s = Ok tt (with_heap s (link p (Node t) q h)).
Proof.
  unfold threadlist_insertbeforenode. destruct (read_prev s q (Some p) Hqp) as (n & E & En). run E. rewrite En.
  run (set_prev_ok s (Node t) (Some p) Ht). fold h.
  run (set_next_ok (with_heap s (upd_prev (Node t) (Some p) h)) (Node t) (Some q) ltac:(cbn; eauto with tlist)).
  apply link_end.
Qed.
End Link.

Lemma remove_ok s p x q (h := nodes s) : nx h p = Some (Some x) -> pv h x = Some (Some p) -> nx h x = Some (Some q) ->
  pv h q = Some (Some x) -> p <> x -> q <> x -> threadlist_removenode x s = Ok tt (with_heap s (unlink p x q h)).
Proof.
  intros Hpx Hxp Hxq Hqx Np Nq. unfold threadlist_removenode.
  assert (is_Some (h !! p)) as Hp by (apply nx_is_Some; eauto). assert (is_Some (h !! q)) as Hq by (apply pv_is_Some; eauto).
  assert (is_Some (h !! x)) as Hx by (apply nx_is_Some; eauto). pose proof Hx as [n Hn].
  assert (tln_prev n = Some p /\ tln_next n = Some q) as [En1 En2] by (unfold pv, nx in Hxp, Hxq; rewrite Hn in Hxp, Hxq; naive_solver).
  run (node_ok s x n Hn). rewrite En1, En2. run (set_next_ok s p (Some q) Hp). fold h.
  assert (nodes (with_heap s (upd_next p (Some q) h)) !! x = Some n) as Hn' by (cbn; unfold upd_next; by rewrite lookup_alter_ne).
  run (node_ok _ _ _ Hn'). rewrite En1, En2.
  run (set_prev_ok (with_heap s (upd_next p (Some q) h)) q (Some p) ltac:(cbn; eauto with tlist)).
  run (set_prev_ok (with_heap s (upd_prev q (Some p) (upd_next p (Some q) h))) x None ltac:(cbn; eauto with tlist)).
  by rewrite set_next_ok by (cbn; eauto with tlist).
Qed.

(** ** Chains of nodes *)

(** Every node of the chain and its successor point to each other. *)
Fixpoint dll (h : heap) (l : list loc) : Prop :=
  match l with
  | p :: l' => match l' with q :: _ => nx h p = Some (Some q) /\ pv h q = Some (Some p) | [] => True end /\ dll h l'
  | [] => True
  end.

Lemma dll_app h a p b : dll h (a ++ p :: b) <-> dll h (a ++ [p]) /\ dll h (p :: b).
Proof.
  induction a as [|x a IH]; [simpl; tauto|]. cbn [app]. change (dll h (x :: a ++ p :: b)) with
    (match a ++ p :: b with q :: _ => nx h x = Some (Some q) /\ pv h q = Some (Some x) | [] => True end /\ dll h (a ++ p :: b)).
  change (dll h (x :: a ++ [p])) with
    (match a ++ [p] with q :: _ => nx h x = Some (Some q) /\ pv h q = Some (Some x) | [] => True end /\ dll h (a ++ [p])).
  rewrite IH. destruct a; cbn [app]; tauto.
Qed.

(** A chain depends on the forward links of all but its last node, and on the
    backward links of all but its first. *)
Lemma dll_ext h h' l : (forall x, x ∈ l -> nx h' x = nx h x \/ last l = Some x) ->
  (forall x, x ∈ l -> pv h' x = pv h x \/ head l = Some x) -> NoDup l -> dll h l -> dll h' l.
Proof.
  induction l as [|p l IH]; [done|]. intros Hn Hp [Hnot Hnd]%NoDup_cons. destruct l as [|q l]; [done|]. intros [[H1 H2] Hd].
  assert (last (p :: q :: l) = last (q :: l)) as El by done. split; [split|].
  - destruct (Hn p) as [->|Hl]; [left|done|]. rewrite El in Hl. apply last_Some_elem_of in Hl. done.
  - destruct (Hp q) as [->|[= ->]]; [right; left|done|]. destruct Hnot. left.
  - apply IH; [|intros x Hx; left|done|done].
    + intros x Hx. rewrite <- El. apply Hn. by right.
    + destruct (Hp x) as [|[= ->]]; [by right|done|done].
Qed.

Lemma dll_frame h h' l : (forall x, x ∈ l -> nx h' x = nx h x /\ pv h' x = pv h x) -> NoDup l -> dll h l -> dll h' l.
Proof. intros Hx. apply dll_ext; intros x Hl; left; by apply Hx. Qed.

Section Chain.
Variables (h : heap) (a b : list loc) (p x q : loc).

Lemma links_link : p <> x -> q <> x -> p <> q -> is_Some (h !! p) -> is_Some (h !! x) -> is_Some (h !! q) ->
  (forall r, nx (link p x q h) r = if decide (r = p) then Some (Some x) else if decide (r = x) then Some (Some q) else nx h r) /\
  (forall r, pv (link p x q h) r = if decide (r = q) then Some (Some x) else if decide (r = x) then Some (Some p) else pv h r).
Proof.
  intros Np Nq Npq [n1 E1]%nx_is_Some [n2 E2]%nx_is_Some Hq. pose proof (ltac:(apply nx_is_Some; eauto) : is_Some (h !! x)) as [n3 E3]%pv_is_Some.
  apply pv_is_Some in Hq as [n4 E4]. unfold link. split; intros r; autorewrite with tlist; repeat case_decide; subst; by rewrite ?E1, ?E2, ?E3, ?E4.
Qed.
Lemma links_unlink : p <> x -> q <> x -> is_Some (h !! p) -> is_Some (h !! x) -> is_Some (h !! q) ->
  (forall r, nx (unlink p x q h) r = if decide (r = p) then Some (Some q) else if decide (r = x) then Some None else nx h r) /\
  (forall r, pv (unlink p x q h) r = if decide (r = q) then Some (Some p) else if decide (r = x) then Some None else pv h r).
Proof.
  intros Np Nq [n1 E1]%nx_is_Some [n2 E2]%nx_is_Some Hq. pose proof (ltac:(apply nx_is_Some; eauto) : is_Some (h !! x)) as [n3 E3]%pv_is_Some.
  apply pv_is_Some in Hq as [n4 E4]. unfold unlink. split; intros r; autorewrite with tlist; repeat case_decide; subst; by rewrite ?E1, ?E2, ?E3, ?E4.
Qed.

(** Only the outer halves of a chain stay when something changes between. *)
Lemma dll_halves h' : NoDup (a ++ p :: q :: b) -> dll h (a ++ [p]) -> dll h (q :: b) ->
  (forall r, r ∈ a ++ p :: q :: b -> (nx h' r = nx h r \/ r = p) /\ (pv h' r = pv h r \/ r = q)) ->
  dll h' (a ++ [p]) /\ dll h' (q :: b).
Proof.
  intros Hnd H1 H2 Hx. assert (NoDup (a ++ [p]) /\ NoDup (q :: b) /\ forall r, r ∈ a ++ [p] -> r ∉ q :: b) as (N1 & N2 & N3).
  { change (p :: q :: b) with ([p] ++ q :: b) in Hnd. rewrite app_assoc in Hnd. apply NoDup_app in Hnd. naive_solver. }
  assert (forall r, r ∈ a ++ [p] \/ r ∈ q :: b -> r ∈ a ++ p :: q :: b) as Hin by set_solver.
  split; (eapply dll_ext; [..|done|eassumption]); intros r Hr.
  - destruct (Hx r ltac:(auto)) as [[?| ->] _]; [by left|right; by rewrite last_snoc].
  - destruct (Hx r ltac:(auto)) as [_ [?| ->]]; [by left|]. destruct (N3 q); [done|left].
  - destruct (Hx r ltac:(auto)) as [[?| ->] _]; [by left|]. destruct (N3 p); [set_solver|done].
  - destruct (Hx r ltac:(auto)) as [_ [?| ->]]; [by left|by right].
Qed.

Lemma dll_link : NoDup (a ++ p :: q :: b) -> (x ∉ a ++ p :: q :: b) -> is_Some (h !! x) ->
  dll h (a ++ p :: q :: b) -> dll (link p x q h) (a ++ p :: x :: q :: b).
Proof.
  intros Hnd Hx Hsx Hd. pose proof Hd as [H1 [[Hp Hq] H2]]%dll_app.
  assert (p <> x /\ q <> x /\ p <> q) as (Np & Nq & Npq).
  { split_and!; [set_solver|set_solver|]. intros ->. apply NoDup_app in Hnd as (_ & _ & Hnd). apply NoDup_cons in Hnd. set_solver. }
  destruct links_link as [Ln Lp]; try done; [apply nx_is_Some; eauto|apply pv_is_Some; eauto|].
  destruct (dll_halves (link p x q h)) as [D1 D2]; try done.
  { intros r Hr. rewrite Ln, Lp. assert (r <> x) by congruence. split; repeat case_decide; auto; done. }
  apply dll_app. split; [done|]. split; [|split; [|done]]; rewrite Ln, Lp; split; repeat case_decide; congruence.
Qed.

Lemma dll_unlink : NoDup (a ++ p :: x :: q :: b) -> dll h (a ++ p :: x :: q :: b) -> dll (unlink p x q h) (a ++ p :: q :: b).
Proof.
  intros Hnd Hd. pose proof Hd as [H1 [[Hp Hxp] [[Hxq Hq] H2]]]%dll_app.
  assert ((x ∉ a ++ p :: q :: b) /\ NoDup (a ++ p :: q :: b)) as [Hx Hnd'].
  { replace (a ++ p :: x :: q :: b) with ((a ++ [p]) ++ x :: q :: b) in Hnd by (by rewrite <- app_assoc).
    rewrite <- Permutation_middle in Hnd. apply NoDup_cons in Hnd. by rewrite <- app_assoc in Hnd. }
  destruct links_unlink as [Ln Lp]; [set_solver|set_solver|apply nx_is_Some; eauto|apply nx_is_Some; eauto|apply pv_is_Some; eauto|].
  destruct (dll_halves (unlink p x q h)) as [D1 D2]; try done.
  { intros r Hr. rewrite Ln, Lp. assert (r <> x) by congruence. split; repeat case_decide; auto; done. }
  apply dll_app. split; [done|]. split; [|done]. rewrite Ln, Lp. by rewrite !decide_True.
Qed.
End Chain.

(** ** Sequences *)

(** What the lists stand for: a sequence for each list, and the threads whose
    nodes have been initialised. *)
Record seqs := Seqs { lists : gmap Z (list Z); known : gset Z }.

Definition on_list (t : Z) (m : gmap Z (list Z)) : Prop := exists tl xs, m !! tl = Some xs /\ t ∈ xs.

Definition path (tl : Z) (xs : list Z) : list loc := Head tl :: (Node <$> xs) ++ [Tail tl].

Record abs (s : tlstate) (a : seqs) : Prop := {
  abs_path tl xs : lists a !! tl = Some xs -> dll (nodes s) (path tl xs);
  abs_ends tl xs : lists a !! tl = Some xs -> pv (nodes s) (Head tl) = Some None /\ nx (nodes s) (Tail tl) = Some None;
  abs_dom : dom (lists a) = dom (tl_count s);
  abs_count tl xs : lists a !! tl = Some xs -> tl_count s !! tl = Some (Z.of_nat (length xs)) /\ is_u32 (Z.of_nat (length xs));
  abs_nodup tl xs : lists a !! tl = Some xs -> NoDup xs;
  abs_apart tl tl' xs xs' t : lists a !! tl = Some xs -> lists a !! tl' = Some xs' -> t ∈ xs -> t ∈ xs' -> tl = tl';
  abs_known tl xs t : lists a !! tl = Some xs -> t ∈ xs -> t ∈ known a;
  abs_self l n : nodes s !! l = Some n -> tln_self n = match l with Node t => Some t | _ => None end;
  abs_off t : t ∈ known a -> is_Some (nodes s !! Node t) /\
    (~ on_list t (lists a) -> pv (nodes s) (Node t) = Some None /\ nx (nodes s) (Node t) = Some None)
}.

Lemma path_nodup tl xs : NoDup xs -> NoDup (path tl xs).
Proof.
  intros Hx. unfold path. constructor; [rewrite elem_of_app, list_elem_of_fmap; intros [(t & ? & _)|?%list_elem_of_singleton]; done|].
  apply NoDup_app. split; [by apply NoDup_fmap; [intros ?? [=]|]|]. split; [|apply NoDup_singleton].
  intros l (t & -> & _)%list_elem_of_fmap ?%list_elem_of_singleton. done.
Qed.
Lemma path_elem tl xs l : l ∈ path tl xs <-> l = Head tl \/ l = Tail tl \/ exists t, l = Node t /\ t ∈ xs.
Proof. unfold path. rewrite elem_of_cons, elem_of_app, list_elem_of_fmap, list_elem_of_singleton. naive_solver. Qed.

(** The nodes around a place in a list. *)
Definition before (tl : Z) (xs : list Z) : loc := match last xs with Some t => Node t | None => Head tl end.
Definition after (tl : Z) (xs : list Z) : loc := match head xs with Some t => Node t | None => Tail tl end.

Lemma path_split tl xs1 xs2 : exists a b, forall mid,
  path tl (xs1 ++ mid ++ xs2) = a ++ before tl xs1 :: (Node <$> mid) ++ after tl xs2 :: b.
Proof.
  assert (exists a, Head tl :: (Node <$> xs1) = a ++ [before tl xs1]) as [a Ea].
  { unfold before. destruct xs1 as [|y ys _] using rev_ind; [by exists []|]. rewrite last_snoc, fmap_app. by eexists (_ :: _). }
  assert (exists b, (Node <$> xs2) ++ [Tail tl] = after tl xs2 :: b) as [b Eb] by (destruct xs2; simpl; eauto).
  exists a, b. intros mid. unfold path. rewrite !fmap_app, <- !app_assoc, Eb, app_comm_cons, Ea, <- app_assoc. done.
Qed.

Lemma path_apart s a tl tl' xs xs' l : abs s a -> lists a !! tl = Some xs -> lists a !! tl' = Some xs' -> tl <> tl' ->
  l ∈ path tl xs -> l ∉ path tl' xs'.
Proof.
  intros Ha H1 H2 Hne. rewrite !path_elem. intros [->|[->|(t & -> & Ht)]] [|[|(t' & ? & Ht')]]; simplify_eq.
  destruct Hne. by eapply abs_apart.
Qed.

(** Links change in some nodes only, and the thread of a node never. *)
Definition same_but (P : loc -> Prop) (h h' : heap) : Prop :=
  (forall l, ~ P l -> nx h' l = nx h l /\ pv h' l = pv h l) /\
  (forall l, tln_self <$> h' !! l = tln_self <$> h !! l).

Lemma self_upd_next l v h r : tln_self <$> upd_next l v h !! r = tln_self <$> h !! r.
Proof. unfold upd_next. destruct (decide (r = l)) as [->|]; rewrite ?lookup_alter_eq, ?lookup_alter_ne by done; [|done]. by destruct (h !! l). Qed.
Lemma self_upd_prev l v h r : tln_self <$> upd_prev l v h !! r = tln_self <$> h !! r.
Proof. unfold upd_prev. destruct (decide (r = l)) as [->|]; rewrite ?lookup_alter_eq, ?lookup_alter_ne by done; [|done]. by destruct (h !! l). Qed.

Lemma link_same p x q h : same_but (fun l => l = p \/ l = x \/ l = q) h (link p x q h).
Proof.
  split; [|intros l; unfold link; by rewrite self_upd_prev, !self_upd_next, self_upd_prev].
  intros l Hl. unfold link. autorewrite with tlist. by rewrite !decide_False by tauto.
Qed.
Lemma unlink_same p x q h : same_but (fun l => l = p \/ l = x \/ l = q) h (unlink p x q h).
Proof.
  split; [|intros l; unfold unlink; by rewrite self_upd_next, !self_upd_prev, self_upd_next].
  intros l Hl. unfold unlink. autorewrite with tlist. by rewrite !decide_False by tauto.
Qed.

(** One list changes, and the links of it and of the thread [t] that comes or
    goes; everything else stays. *)
Lemma abs_change s a tl xs xs' t h' :
  abs s a -> lists a !! tl = Some xs -> t ∈ known a ->
  same_but (fun l => l ∈ path tl xs \/ l = Node t) (nodes s) h' -> (forall y, y <> t -> (y ∈ xs' <-> y ∈ xs)) ->
  dll h' (path tl xs') -> pv h' (Head tl) = Some None -> nx h' (Tail tl) = Some None ->
  NoDup xs' -> is_u32 (Z.of_nat (length xs')) -> (on_list t (lists a) -> t ∈ xs) ->
  (t ∉ xs' -> pv h' (Node t) = Some None /\ nx h' (Node t) = Some None) ->
  abs (TlState h' (<[tl := Z.of_nat (length xs')]> (tl_count s))) (Seqs (<[tl := xs']> (lists a)) (known a)).
Proof.
  intros Ha Hl Ht [Hs1 Hs2] Hin Hd He1 He2 Hnd Hlen Honly Hoff.
  assert (forall tl' ys y, tl' <> tl -> lists a !! tl' = Some ys -> y ∈ ys -> y <> t /\ y ∉ xs) as Hother.
  { intros tl' ys y Hne Hys Hy. assert (y ∉ xs) as Hyx by (intros Hyx; destruct Hne; by eapply abs_apart). split; [|done].
    intros ->. apply Hyx, Honly. by exists tl', ys. }
  assert (forall tl' ys l, tl' <> tl -> lists a !! tl' = Some ys -> l ∈ path tl' ys -> nx h' l = nx (nodes s) l /\ pv h' l = pv (nodes s) l) as Hfr.
  { intros tl' ys l Hne Hys Hl'. apply Hs1. intros [Hp| ->]; [by eapply (path_apart s a tl tl' xs ys l)|].
    apply path_elem in Hl' as [|[|(y & [= ->] & Hy)]]; [done..|]. by destruct (Hother _ _ _ Hne Hys Hy). }
  split; cbn [nodes lists known tl_count].
  - intros tl' ys [[<- <-]|[Hne Hys]]%lookup_insert_Some; [done|]. apply (dll_frame (nodes s)); [|by eapply path_nodup, abs_nodup|by eapply abs_path].
    intros l. eapply Hfr; [by apply not_eq_sym|done].
  - intros tl' ys [[<- <-]|[Hne Hys]]%lookup_insert_Some; [done|]. apply not_eq_sym in Hne.
    destruct (Hfr tl' ys (Head tl') Hne Hys) as [_ ->]; [apply path_elem; auto|].
    destruct (Hfr tl' ys (Tail tl') Hne Hys) as [-> _]; [apply path_elem; auto|]. by eapply abs_ends.
  - rewrite !dom_insert_L. f_equal. apply Ha.
  - intros tl' ys [[<- <-]|[Hne Hys]]%lookup_insert_Some; [by rewrite lookup_insert_eq|]. rewrite lookup_insert_ne by done. by eapply abs_count.
  - intros tl' ys [[<- <-]|[Hne Hys]]%lookup_insert_Some; [done|]. by eapply abs_nodup.
  - intros t1 t2 ys1 ys2 y [[<- <-]|[Hne1 H1]]%lookup_insert_Some [[<- <-]|[Hne2 H2]]%lookup_insert_Some Hy1 Hy2; [done|..|by eapply abs_apart].
    + destruct (Hother _ _ _ (not_eq_sym Hne2) H2 Hy2) as [? Hn]. by apply Hin in Hy1.
    + destruct (Hother _ _ _ (not_eq_sym Hne1) H1 Hy1) as [? Hn]. by apply Hin in Hy2.
  - intros tl' ys y [[<- <-]|[Hne Hys]]%lookup_insert_Some Hy; [|by eapply abs_known].
    destruct (decide (y = t)) as [->|]; [done|]. eapply abs_known; [done..|]. by apply Hin.
  - intros l n Hn. specialize (Hs2 l). rewrite Hn in Hs2. cbn in Hs2. destruct (nodes s !! l) as [n0|] eqn:E0; [|done].
    injection Hs2 as ->. by eapply abs_self.
  - intros y Hy. destruct (abs_off _ _ Ha y Hy) as [Hsome Hnone]. split.
    { specialize (Hs2 (Node y)). destruct Hsome as [n0 E0]. rewrite E0 in Hs2. destruct (h' !! Node y); [by eexists|done]. }
    intros Hno. destruct (decide (y = t)) as [->|Hyt].
    + apply Hoff. intros Hx. apply Hno. exists tl, xs'. by rewrite lookup_insert_eq.
    + assert (~ on_list y (lists a)) as Hno'.
      { intros (tl' & ys & Hys & Hy'). apply Hno. destruct (decide (tl' = tl)) as [->|].
        - exists tl, xs'. rewrite lookup_insert_eq. split; [done|]. simplify_eq. by apply Hin.
        - exists tl', ys. by rewrite lookup_insert_ne. }
      destruct (Hs1 (Node y)) as [-> ->]; [|by apply Hnone].
      intros [[|[|(z & [= ->] & Hz)]]%path_elem|[= ->]]; [done..| |done]. apply Hno'. by exists tl, xs.
Qed.

(** ** The operations on nodes *)

Definition put_list (tl : Z) (xs : list Z) (a : seqs) : seqs := Seqs (<[tl := xs]> (lists a)) (known a).

Lemma count_step s tl c d : tl_count s !! tl = Some c -> is_u32 (c + d) ->
  (c ← count_of tl; set_count tl (c + d)) s = Ok tt (TlState (nodes s) (<[tl := c + d]> (tl_count s))).
Proof. intros Hc Hd. unfold count_of, set_count, mbind, M_bind, get, deref, modify. rewrite Hc. cbn. by rewrite u32_id. Qed.

Lemma insert_abs s a tl xs1 xs2 t (p := before tl xs1) (q := after tl xs2) (s' := with_heap s (link p (Node t) q (nodes s))) :
  abs s a -> lists a !! tl = Some (xs1 ++ xs2) -> t ∈ known a -> ~ on_list t (lists a) ->
  is_u32 (Z.of_nat (length (xs1 ++ xs2)) + 1) ->
  threadlist_insertafternode p t s = Ok tt s' /\ threadlist_insertbeforenode t q s = Ok tt s' /\
  exists s2, (c ← count_of tl; set_count tl (c + 1)) s' = Ok tt s2 /\ abs s2 (put_list tl (xs1 ++ t :: xs2) a).
Proof.
  intros Ha Hl Ht Hoff Hlen. destruct (path_split tl xs1 xs2) as (l1 & l2 & Hpath). fold p q in Hpath.
  pose proof (Hpath []) as Hp0. cbn in Hp0. pose proof (Hpath [t]) as Hp1. cbn in Hp1.
  assert (t ∉ xs1 ++ xs2) as Htx by (intros Hx; apply Hoff; by exists tl, (xs1 ++ xs2)).
  assert (Node t ∉ path tl (xs1 ++ xs2)) as Hnt by (rewrite path_elem; naive_solver).
  pose proof (abs_path _ _ Ha _ _ Hl) as Hd. pose proof (path_nodup tl _ (abs_nodup _ _ Ha _ _ Hl)) as Hnd.
  destruct (abs_ends _ _ Ha _ _ Hl) as [He1 He2]. destruct (abs_count _ _ Ha _ _ Hl) as [Hc Hc'].
  destruct (proj1 (abs_off _ _ Ha t Ht)) as [n Hn].
  assert (dll (link p (Node t) q (nodes s)) (path tl (xs1 ++ t :: xs2))) as Hd'.
  { rewrite Hp1. apply dll_link; rewrite <- ?Hp0; eauto. }
  rewrite Hp0 in Hnt, Hnd. pose proof Hd as Hd0. rewrite Hp0 in Hd0. apply dll_app in Hd0 as [_ [[Hpq Hqp] _]].
  assert (p <> Node t /\ q <> Node t) as [Np Nq] by set_solver.
  split_and!; [by apply insertafter_ok|by apply insertbefore_ok|]. eexists. split; [by apply count_step|]. cbn [s' nodes tl_count].
  replace (Z.of_nat (length (xs1 ++ xs2)) + 1) with (Z.of_nat (length (xs1 ++ t :: xs2))) in * by (rewrite !length_app; simpl; lia).
  destruct (link_same p (Node t) q (nodes s)) as [Hs1 Hs2].
  assert (p ∈ path tl (xs1 ++ xs2) /\ q ∈ path tl (xs1 ++ xs2)) as [Hpin Hqin] by (rewrite Hp0; set_solver).
  eapply (abs_change _ _ _ _ _ t); try done.
  - split; [|done]. intros l Hno. apply Hs1. intros [->|[->| ->]]; tauto.
  - intros y Hy. rewrite !elem_of_app, elem_of_cons. naive_solver.
  - unfold link. autorewrite with tlist. rewrite !decide_False; [done|done|]. unfold q, after. by destruct (head xs2).
  - unfold link. autorewrite with tlist. rewrite !decide_False; [done|done|]. unfold p, before. by destruct (last xs1).
  - rewrite <- Permutation_middle. constructor; [done|by eapply abs_nodup].
  - intros []. apply elem_of_app. right. left.
Qed.

Lemma remove_abs s a tl xs1 xs2 t (p := before tl xs1) (q := after tl xs2) (s' := with_heap s (unlink p (Node t) q (nodes s))) :
  abs s a -> lists a !! tl = Some (xs1 ++ t :: xs2) ->
  nx (nodes s) p = Some (Some (Node t)) /\ pv (nodes s) q = Some (Some (Node t)) /\
  nx (nodes s) (Node t) = Some (Some q) /\ pv (nodes s) (Node t) = Some (Some p) /\
  threadlist_removenode (Node t) s = Ok tt s' /\
  exists s2, (c ← count_of tl; set_count tl (c - 1)) s' = Ok tt s2 /\ abs s2 (put_list tl (xs1 ++ xs2) a) /\
    exists n, nodes s2 !! Node t = Some n.
Proof.
  intros Ha Hl. destruct (path_split tl xs1 xs2) as (l1 & l2 & Hpath). fold p q in Hpath.
  pose proof (Hpath []) as Hp0. cbn in Hp0. pose proof (Hpath [t]) as Hp1. cbn in Hp1.
  pose proof (abs_path _ _ Ha _ _ Hl) as Hd. pose proof (abs_nodup _ _ Ha _ _ Hl) as Hnx.
  pose proof (path_nodup tl _ Hnx) as Hnd. rewrite <- Permutation_middle in Hnx. apply NoDup_cons in Hnx as [Htx Hnx].
  destruct (abs_ends _ _ Ha _ _ Hl) as [He1 He2]. destruct (abs_count _ _ Ha _ _ Hl) as [Hc Hc'].
  assert (t ∈ known a) as Ht by (eapply abs_known; [done..|set_solver]).
  destruct (proj1 (abs_off _ _ Ha t Ht)) as [n Hn].
  assert (dll (unlink p (Node t) q (nodes s)) (path tl (xs1 ++ xs2))) as Hd' by (rewrite Hp0; apply dll_unlink; by rewrite <- Hp1).
  assert (Node t ∉ path tl (xs1 ++ xs2)) as Hnt by (rewrite path_elem; naive_solver). rewrite Hp0 in Hnt.
  pose proof Hd as Hd0. rewrite Hp1 in Hd0. apply dll_app in Hd0 as [_ [[Hpx Hxp] [[Hxq Hqx] _]]].
  assert (p <> Node t /\ q <> Node t) as [Np Nq] by set_solver.
  split_and!; [done..|by apply remove_ok|]. eexists. split.
  { unfold Z.sub. apply count_step; [done|]. unfold is_u32 in *. rewrite length_app in *. simpl in *. lia. }
  cbn [s' nodes tl_count].
  replace (Z.of_nat (length (xs1 ++ t :: xs2)) + - (1)) with (Z.of_nat (length (xs1 ++ xs2))) by (rewrite !length_app; simpl; lia).
  destruct (links_unlink (nodes s) p (Node t) q) as [Ln Lp]; [done..|by apply nx_is_Some|by eexists|by apply pv_is_Some|].
  destruct (unlink_same p (Node t) q (nodes s)) as [Hs1 Hs2].
  assert (p ∈ path tl (xs1 ++ t :: xs2) /\ q ∈ path tl (xs1 ++ t :: xs2)) as [Hpin Hqin] by (rewrite Hp1; set_solver).
  split; [|specialize (Hs2 (Node t)); rewrite Hn in Hs2; destruct (unlink _ _ _ _ !! Node t); [by eexists|done]].
  eapply (abs_change _ _ _ _ _ t); try done.
  - split; [|done]. intros l Hno. apply Hs1. intros [->|[->| ->]]; tauto.
  - intros y Hy. rewrite !elem_of_app, elem_of_cons. naive_solver.
  - rewrite Lp, !decide_False; [done|done|]. unfold q, after. by destruct (head xs2).
  - rewrite Ln, !decide_False; [done|done|]. unfold p, before. by destruct (last xs1).
  - unfold is_u32 in *. rewrite length_app in *. simpl in *. lia.
  - intros _. apply elem_of_app. right. left.
  - intros _. rewrite Ln, Lp. by rewrite (decide_False (P := Node t = q)), (decide_False (P := Node t = p)), !decide_True by congruence.
Qed.

Lemma head_abs s a tl xs : abs s a -> lists a !! tl = Some xs ->
  nx (nodes s) (Head tl) = Some (Some (after tl xs)) /\ pv (nodes s) (Tail tl) = Some (Some (before tl xs)).
Proof.
  intros Ha Hl. pose proof (abs_path _ _ Ha _ _ Hl) as Hd. split.
  - destruct (path_split tl [] xs) as (l1 & l2 & Hp). specialize (Hp []). cbn in Hp. rewrite Hp in Hd. by apply dll_app in Hd as [_ [[? _] _]].
  - destruct (path_split tl xs []) as (l1 & l2 & Hp). specialize (Hp []). rewrite !app_nil_r in Hp. rewrite Hp in Hd.
    by apply dll_app in Hd as [_ [[_ ?] _]].
Qed.

Lemma bind_seq {S A B C} (m : M S A) (f : A -> M S B) (g : B -> M S C) s b s' :
  (m ≫= f) s = Ok b s' -> (x ← m; y ← f x; g y) s = g b s'.
Proof. unfold mbind, M_bind. destruct (m s) as [x s1|]; [|done]. by intros ->. Qed.

(** Taking the first or the last thread of a list. *)
Lemma remhead_abs s a tl xs : abs s a -> lists a !! tl = Some xs -> exists s',
  threadlist_remhead tl s = Ok (head xs) s' /\ abs s' (put_list tl (tail xs) a).
Proof.
  intros Ha Hl. unfold threadlist_remhead. destruct (head_abs _ _ _ _ Ha Hl) as [Hh _].
  destruct (read_next _ _ _ Hh) as (n & E & En). run E. rewrite En. destruct xs as [|t xs].
  - destruct (abs_ends _ _ Ha _ _ Hl) as [_ Ht]. destruct (read_next _ _ _ Ht) as (n' & E' & En'). cbn [after head].
    run E'. rewrite bool_decide_eq_true_2 by done. exists s. split; [done|]. unfold put_list. cbn. rewrite insert_id by done. by destruct a.
  - destruct (remove_abs s a tl [] xs t Ha Hl) as (_ & _ & Hn & _ & Hr & s2 & Ec & Ha2 & m & Hm). cbn [before last] in *.
    destruct (read_next _ _ _ Hn) as (n' & E' & En'). cbn [after head]. run E'. rewrite bool_decide_eq_false_2 by (by rewrite En').
    run (eq_refl : deref FNull (Some (Node t)) s = Ok (Node t) s). run Hr.
    rewrite (bind_seq _ _ _ _ _ _ Ec). run (node_ok s2 _ _ Hm). exists s2. split; [|done].
    by rewrite (abs_self _ _ Ha2 _ _ Hm).
Qed.
Lemma remtail_abs s a tl xs : abs s a -> lists a !! tl = Some xs -> exists s',
  threadlist_remtail tl s = Ok (last xs) s' /\ abs s' (put_list tl (removelast xs) a).
Proof.
  intros Ha Hl. unfold threadlist_remtail. destruct (head_abs _ _ _ _ Ha Hl) as [_ Hh].
  destruct (read_prev _ _ _ Hh) as (n & E & En). run E. rewrite En. destruct xs as [|t xs _] using rev_ind.
  - destruct (abs_ends _ _ Ha _ _ Hl) as [Ht _]. destruct (read_prev _ _ _ Ht) as (n' & E' & En'). cbn [before last].
    run E'. rewrite bool_decide_eq_true_2 by done. exists s. split; [done|]. unfold put_list. cbn. rewrite insert_id by done. by destruct a.
  - destruct (remove_abs s a tl xs [] t Ha Hl) as (_ & _ & _ & Hn & Hr & s2 & Ec & Ha2 & m & Hm).
    rewrite removelast_last, last_snoc. rewrite app_nil_r in Ha2.
    assert (before tl (xs ++ [t]) = Node t) as -> by (unfold before; by rewrite last_snoc).
    destruct (read_prev _ _ _ Hn) as (n' & E' & En'). run E'. rewrite bool_decide_eq_false_2 by (by rewrite En').
    run (eq_refl : deref FNull (Some (Node t)) s = Ok (Node t) s). run Hr.
    rewrite (bind_seq _ _ _ _ _ _ Ec). run (node_ok s2 _ _ Hm). exists s2. split; [|done].
    by rewrite (abs_self _ _ Ha2 _ _ Hm).
Qed.

(** The loops over a list. *)
Lemma forall_abs s a tl xs1 xs2 fuel : abs s a -> lists a !! tl = Some (xs1 ++ xs2) -> (length xs2 <= fuel)%nat ->
  forall_from fuel (Some (after tl xs2)) s = Ok xs2 s.
Proof.
  intros Ha Hl. revert xs1 fuel Hl. induction xs2 as [|t xs IH]; intros xs1 fuel Hl Hf.
  - destruct (abs_ends _ _ Ha _ _ Hl) as [_ Ht]. destruct (nx_node _ _ _ Ht) as (n & Hn & _). cbn [after head].
    destruct fuel; cbn [forall_from]; run (node_ok _ _ _ Hn); by rewrite (abs_self _ _ Ha _ _ Hn).
  - destruct (remove_abs s a tl xs1 xs t Ha Hl) as (_ & _ & Hn & _). destruct (nx_node _ _ _ Hn) as (n & Hn1 & Hn2).
    cbn [after head]. destruct fuel as [|fuel]; [simpl in Hf; lia|]. cbn [forall_from]. run (node_ok _ _ _ Hn1).
    rewrite (abs_self _ _ Ha _ _ Hn1). run (node_ok _ _ _ Hn1). rewrite Hn2.
    assert (forall_from fuel (Some (after tl xs)) s = Ok xs s) as E
      by (apply (IH (xs1 ++ [t])); [by rewrite <- app_assoc|simpl in Hf; lia]).
    by run E.
Qed.
Lemma forall_rev_abs s a tl xs1 xs2 fuel : abs s a -> lists a !! tl = Some (xs1 ++ xs2) -> (length xs1 <= fuel)%nat ->
  forall_rev_from fuel (Some (before tl xs1)) s = Ok (reverse xs1) s.
Proof.
  intros Ha Hl. revert xs2 fuel Hl. induction xs1 as [|t xs IH] using rev_ind; intros xs2 fuel Hl Hf.
  - destruct (abs_ends _ _ Ha _ _ Hl) as [Ht _]. destruct (pv_node _ _ _ Ht) as (n & Hn & _). cbn [before last].
    destruct fuel; cbn [forall_rev_from]; run (node_ok _ _ _ Hn); by rewrite (abs_self _ _ Ha _ _ Hn).
  - rewrite <- app_assoc in Hl. destruct (remove_abs s a tl xs xs2 t Ha Hl) as (_ & _ & _ & Hn & _). destruct (pv_node _ _ _ Hn) as (n & Hn1 & Hn2).
    rewrite length_app in Hf. unfold before. rewrite last_snoc. destruct fuel as [|fuel]; [simpl in Hf; lia|]. cbn [forall_rev_from].
    run (node_ok _ _ _ Hn1). rewrite (abs_self _ _ Ha _ _ Hn1). run (node_ok _ _ _ Hn1). rewrite Hn2.
    assert (forall_rev_from fuel (Some (before tl xs)) s = Ok (reverse xs) s) as E by (eapply IH; [done|simpl in Hf; lia]).
    run E. by rewrite reverse_app.
Qed.

Lemma length_nodes s a tl xs : abs s a -> lists a !! tl = Some xs -> (length xs <= size (nodes s))%nat.
Proof.
  intros Ha Hl. rewrite <- size_dom, <- (length_fmap Node xs).
  pose proof (abs_nodup _ _ Ha _ _ Hl) as Hnd. rewrite <- (size_list_to_set (C := gset loc)) by (by apply NoDup_fmap; [intros ?? [=]|]).
  apply subseteq_size. intros l (t & -> & Ht)%elem_of_list_to_set%list_elem_of_fmap. apply elem_of_dom.
  eapply abs_off, abs_known; done.
Qed.

(** ** The lists refine sequences *)

Inductive op : Type :=
| NodeInit (t : Z) | NodeCleanup (t : Z) | Init (tl : Z) | Cleanup (tl : Z) | IsEmpty (tl : Z)
| AddHead (tl t : Z) | AddTail (tl t : Z) | RemHead (tl : Z) | RemTail (tl : Z)
| InsertAfter (tl onlist addee : Z) | InsertBefore (tl addee onlist : Z) | Remove (tl t : Z)
| Forall_ (tl : Z) | ForallRev (tl : Z).

Inductive answer : Type := Unit | Bool (b : bool) | Thread (t : option Z) | Threads (l : list Z).

Definition exec (o : op) : M tlstate answer :=
  match o with
  | NodeInit t => threadlistnode_init t ;; mret Unit
  | NodeCleanup t => threadlistnode_cleanup t ;; mret Unit
  | Init tl => threadlist_init tl ;; mret Unit
  | Cleanup tl => threadlist_cleanup tl ;; mret Unit
  | IsEmpty tl => b ← threadlist_isempty tl; mret (Bool b)
  | AddHead tl t => threadlist_addhead tl t ;; mret Unit
  | AddTail tl t => threadlist_addtail tl t ;; mret Unit
  | RemHead tl => t ← threadlist_remhead tl; mret (Thread t)
  | RemTail tl => t ← threadlist_remtail tl; mret (Thread t)
  | InsertAfter tl onlist addee => threadlist_insertafter tl onlist addee ;; mret Unit
  | InsertBefore tl addee onlist => threadlist_insertbefore tl addee onlist ;; mret Unit
  | Remove tl t => threadlist_remove tl t ;; mret Unit
  | Forall_ tl => l ← THREADLIST_FORALL tl; mret (Threads l)
  | ForallRev tl => l ← THREADLIST_FORALL_REV tl; mret (Threads l)
  end.
Fixpoint exec_all (os : list op) : M tlstate (list answer) :=
  match os with [] => mret [] | o :: os' => r ← exec o; rs ← exec_all os'; mret (r :: rs) end.

(** The threads before and after [t]. *)
Fixpoint cut (t : Z) (xs : list Z) : option (list Z * list Z) :=
  match xs with
  | [] => None
  | x :: xs' => if x =? t then Some ([], xs') else '(l, r) ← cut t xs'; Some (x :: l, r)
  end.

(** A thread may be added when it is initialised and on no list. *)
Definition addable (t : Z) (a : seqs) : bool :=
  bool_decide (t ∈ known a) && bool_decide (map_Forall (fun _ xs => t ∉ xs) (lists a)).
Definition add (tl t : Z) (xs1 xs2 : list Z) (a : seqs) : option (seqs * answer) :=
  if addable t a && (Z.of_nat (length (xs1 ++ xs2)) + 1 <? 2 ^ 32) then Some (put_list tl (xs1 ++ t :: xs2) a, Unit) else None.

(** What each operation means, where its caller may call it. *)
Definition meaning (o : op) (a : seqs) : option (seqs * answer) :=
  match o with
  | NodeInit t =>
      if negb (t =? 0) && bool_decide (map_Forall (fun _ xs => t ∉ xs) (lists a))
      then Some (Seqs (lists a) ({[t]} ∪ known a), Unit) else None
  | NodeCleanup t => if addable t a then Some (a, Unit) else None
  | Init tl => match lists a !! tl with Some (_ :: _) => None | _ => Some (put_list tl [] a, Unit) end
  | Cleanup tl => match lists a !! tl with Some [] => Some (a, Unit) | _ => None end
  | IsEmpty tl => xs ← lists a !! tl; Some (a, Bool (bool_decide (xs = [])))
  | AddHead tl t => xs ← lists a !! tl; add tl t [] xs a
  | AddTail tl t => xs ← lists a !! tl; add tl t xs [] a
  | RemHead tl => xs ← lists a !! tl; Some (put_list tl (tail xs) a, Thread (head xs))
  | RemTail tl => xs ← lists a !! tl; Some (put_list tl (removelast xs) a, Thread (last xs))
  | InsertAfter tl onlist t => xs ← lists a !! tl; '(l, r) ← cut onlist xs; add tl t (l ++ [onlist]) r a
  | InsertBefore tl t onlist => xs ← lists a !! tl; '(l, r) ← cut onlist xs; add tl t l (onlist :: r) a
  | Remove tl t => xs ← lists a !! tl; '(l, r) ← cut t xs; Some (put_list tl (l ++ r) a, Unit)
  | Forall_ tl => xs ← lists a !! tl; Some (a, Threads xs)
  | ForallRev tl => xs ← lists a !! tl; Some (a, Threads (reverse xs))
  end.
Fixpoint meaning_all (os : list op) (a : seqs) : option (seqs * list answer) :=
  match os with
  | [] => Some (a, [])
  | o :: os' => '(a1, r) ← meaning o a; '(a2, rs) ← meaning_all os' a1; Some (a2, r :: rs)
  end.

Lemma cut_Some t xs l r : cut t xs = Some (l, r) -> xs = l ++ t :: r.
Proof.
  revert l r. induction xs as [|x xs IH]; intros l r; [done|]. cbn. destruct (Z.eqb_spec x t) as [->|]; [naive_solver|].
  destruct (cut t xs) as [[l' r']|]; [|done]. intros [= <- <-]. cbn. f_equal. by apply IH.
Qed.

Lemma off_lists t a : map_Forall (fun _ xs => t ∉ xs) (lists a) <-> ~ on_list t (lists a).
Proof. split; [intros H (tl & xs & Hl & Ht); by eapply H|]. intros H tl xs Hl Ht. apply H. by exists tl, xs. Qed.
Lemma addable_Some t a : addable t a = true -> t ∈ known a /\ ~ on_list t (lists a).
Proof. intros [H1%bool_decide_eq_true H2%bool_decide_eq_true]%andb_prop. by rewrite off_lists in H2. Qed.

(** An insertion at the place that [xs1] and [xs2] give. *)
Lemma add_abs s a tl t xs1 xs2 a' r : abs s a -> lists a !! tl = Some (xs1 ++ xs2) -> add tl t xs1 xs2 a = Some (a', r) ->
  r = Unit /\ exists s',
  (threadlist_insertafternode (before tl xs1) t ;; c ← count_of tl; set_count tl (c + 1)) s = Ok tt s' /\
  (threadlist_insertbeforenode t (after tl xs2) ;; c ← count_of tl; set_count tl (c + 1)) s = Ok tt s' /\ abs s' a'.
Proof.
  unfold add. intros Ha Hl. destruct (addable t a && _) eqn:E; [|done]. intros [= <- <-]. split; [done|].
  apply andb_prop in E as [[Hk Ho]%addable_Some Hlen%Z.ltb_lt].
  destruct (insert_abs s a tl xs1 xs2 t Ha Hl Hk Ho) as (E1 & E2 & s2 & Ec & Ha2); [unfold is_u32; lia|].
  exists s2. split_and!; [run E1|run E2|]; done.
Qed.

Lemma nx_insert h l n r : nx (<[l := n]> h) r = if decide (r = l) then Some (tln_next n) else nx h r.
Proof. unfold nx. case_decide; [subst; by rewrite lookup_insert_eq|by rewrite lookup_insert_ne]. Qed.
Lemma pv_insert h l n r : pv (<[l := n]> h) r = if decide (r = l) then Some (tln_prev n) else pv h r.
Proof. unfold pv. case_decide; [subst; by rewrite lookup_insert_eq|by rewrite lookup_insert_ne]. Qed.

Lemma node_init_abs s a t : abs s a -> ~ on_list t (lists a) ->
  abs (put (Node t) (Tln None None (Some t)) s) (Seqs (lists a) ({[t]} ∪ known a)).
Proof.
  intros Ha Hoff. assert (forall tl xs l, lists a !! tl = Some xs -> l ∈ path tl xs -> l <> Node t) as Hp.
  { intros tl xs l Hl [->|[->|(y & -> & Hy)]]%path_elem; [done..|]. intros [= ->]. apply Hoff. by exists tl, xs. }
  split; cbn [put nodes lists known tl_count].
  - intros tl xs Hl. apply (dll_frame (nodes s)); [|by eapply path_nodup, abs_nodup|by eapply abs_path].
    intros l Hin. rewrite nx_insert, pv_insert. by rewrite !decide_False by eauto.
  - intros tl xs Hl. rewrite nx_insert, pv_insert, !decide_False by done. by eapply abs_ends.
  - apply Ha.
  - intros tl xs Hl. by eapply abs_count.
  - intros tl xs Hl. by eapply abs_nodup.
  - intros tl tl' xs xs' y. by apply abs_apart with s.
  - intros tl xs y Hl Hy. apply elem_of_union_r. by eapply abs_known.
  - intros l n [[<- <-]|[_ Hn]]%lookup_insert_Some; [done|by eapply abs_self].
  - intros y Hy. rewrite nx_insert, pv_insert. destruct (decide (y = t)) as [->|Hne].
    + rewrite lookup_insert_eq. repeat case_decide; by simplify_eq.
    + rewrite lookup_insert_ne by congruence. rewrite !decide_False by congruence.
      apply elem_of_union in Hy as [?%elem_of_singleton|Hy]; [done|]. by eapply abs_off.
Qed.

(** The node of a thread that is on no list can go. *)
Lemma node_free_abs s a t : abs s a -> ~ on_list t (lists a) ->
  abs (TlState (delete (Node t) (nodes s)) (tl_count s)) (Seqs (lists a) (known a ∖ {[t]})).
Proof.
  intros Ha Hoff. assert (forall l, l <> Node t -> nx (delete (Node t) (nodes s)) l = nx (nodes s) l /\ pv (delete (Node t) (nodes s)) l = pv (nodes s) l) as Hl.
  { intros l Hne. unfold nx, pv. by rewrite lookup_delete_ne. }
  assert (forall tl xs l, lists a !! tl = Some xs -> l ∈ path tl xs -> l <> Node t) as Hp.
  { intros tl xs l Hxs [->|[->|(y & -> & Hy)]]%path_elem; [done..|]. intros [= ->]. apply Hoff. by exists tl, xs. }
  split; cbn [nodes lists known tl_count].
  - intros tl xs Hxs. apply (dll_frame (nodes s)); [eauto|by eapply path_nodup, abs_nodup|by eapply abs_path].
  - intros tl xs Hxs. destruct (Hl (Head tl)) as [_ ->]; [done|]. destruct (Hl (Tail tl)) as [-> _]; [done|]. by eapply abs_ends.
  - apply Ha.
  - intros tl xs. by apply abs_count.
  - intros tl xs. by eapply abs_nodup.
  - intros tl tl' xs xs' y. by apply abs_apart with s.
  - intros tl xs y Hxs Hy. apply elem_of_difference. split; [by eapply abs_known|]. intros ->%elem_of_singleton. apply Hoff. by exists tl, xs.
  - intros l n [_ Hn]%lookup_delete_Some. by eapply abs_self.
  - intros y [Hy Hne]%elem_of_difference. rewrite elem_of_singleton in Hne. destruct (Hl (Node y)) as [-> ->]; [congruence|].
    rewrite lookup_delete_ne by congruence. by eapply abs_off.
Qed.

Lemma init_abs s a tl : abs s a -> lists a !! tl = None \/ lists a !! tl = Some [] ->
  abs (TlState (<[Head tl := Tln None (Some (Tail tl)) None]> (<[Tail tl := Tln (Some (Head tl)) None None]> (nodes s)))
    (<[tl := 0]> (tl_count s))) (put_list tl [] a).
Proof.
  intros Ha Hno. assert (forall y, on_list y (<[tl := []]> (lists a)) <-> on_list y (lists a)) as Hon.
  { intros y. split; intros (tl' & xs & Hl & Hy).
    - apply lookup_insert_Some in Hl as [[_ <-]|[_ Hl]]; [by apply elem_of_nil in Hy|by exists tl', xs].
    - exists tl', xs. split; [|done]. rewrite lookup_insert_ne; [done|]. intros ->. destruct Hno as [Hno|Hno]; [congruence|].
      rewrite Hl in Hno. injection Hno as ->. by apply elem_of_nil in Hy. }
  split; cbn [nodes put_list lists known tl_count].
  - intros tl' xs [[<- <-]|[Hne Hl]]%lookup_insert_Some.
    + unfold path. cbn [fmap list_fmap app dll]. rewrite !nx_insert, !pv_insert. repeat case_decide; by simplify_eq.
    + apply (dll_frame (nodes s)); [|by eapply path_nodup, abs_nodup|by eapply abs_path].
      intros l Hin. rewrite !nx_insert, !pv_insert. apply path_elem in Hin. rewrite !decide_False; naive_solver.
  - intros tl' xs [[<- <-]|[Hne Hl]]%lookup_insert_Some; rewrite !nx_insert, !pv_insert.
    + repeat case_decide; by simplify_eq.
    + rewrite !decide_False by congruence. by eapply abs_ends.
  - rewrite !dom_insert_L. f_equal. apply Ha.
  - intros tl' xs [[<- <-]|[Hne Hl]]%lookup_insert_Some; [by rewrite lookup_insert_eq|].
    rewrite lookup_insert_ne by done. by eapply abs_count.
  - intros tl' xs [[<- <-]|[Hne Hl]]%lookup_insert_Some; [apply NoDup_nil_2|by eapply abs_nodup].
  - intros t1 t2 ys1 ys2 y [[<- <-]|[_ H1]]%lookup_insert_Some [[<- <-]|[_ H2]]%lookup_insert_Some H3 H4;
      [done|by apply elem_of_nil in H3|by apply elem_of_nil in H4|by eapply abs_apart].
  - intros tl' xs y [[<- <-]|[Hne Hl]]%lookup_insert_Some Hy; [by apply elem_of_nil in Hy|by eapply abs_known].
  - intros l n [[<- <-]|[_ [[<- <-]|[_ Hn]]%lookup_insert_Some]]%lookup_insert_Some; [done..|by eapply abs_self].
  - intros y Hy. rewrite !nx_insert, !pv_insert, !lookup_insert_ne, !decide_False by done. rewrite Hon. by eapply abs_off.
Qed.

Lemma isempty_abs s a tl xs : abs s a -> lists a !! tl = Some xs -> threadlist_isempty tl s = Ok (bool_decide (xs = [])) s.
Proof.
  intros Ha Hl. destruct (abs_count _ _ Ha _ _ Hl) as [Hc _]. unfold threadlist_isempty, count_of, mbind, M_bind, get, deref. rewrite Hc.
  cbn. f_equal. destruct xs; [done|]. rewrite bool_decide_eq_false_2 by done. simpl. lia.
Qed.

Lemma forall_loops s a tl xs : abs s a -> lists a !! tl = Some xs ->
  THREADLIST_FORALL tl s = Ok xs s /\ THREADLIST_FORALL_REV tl s = Ok (reverse xs) s.
Proof.
  intros Ha El. unfold THREADLIST_FORALL, THREADLIST_FORALL_REV. rewrite !get_bind. destruct (head_abs _ _ _ _ Ha El) as [Hn Hp]. split.
  - destruct (read_next _ _ _ Hn) as (n & E & En). run E. rewrite En. eapply (forall_abs _ _ _ []); eauto using length_nodes.
  - destruct (read_prev _ _ _ Hp) as (n & E & En). run E. rewrite En.
    eapply (forall_rev_abs _ _ _ _ []); eauto using length_nodes. by rewrite app_nil_r.
Qed.

Lemma exec_abs o s a a' r : abs s a -> meaning o a = Some (a', r) -> exists s', exec o s = Ok r s' /\ abs s' a'.
Proof.
  intros Ha. destruct o as [t|t|tl|tl|tl|tl t|tl t|tl|tl|tl onl t|tl t onl|tl t|tl|tl]; cbn [meaning exec].
  - destruct (negb (t =? 0) && _) eqn:E; [|done]. intros [= <- <-]. apply andb_prop in E as [E1 E2%bool_decide_eq_true%off_lists].
    eexists. split; [|by apply node_init_abs]. unfold threadlistnode_init, mbind, M_bind, kassert. by rewrite E1.
  - destruct (addable t a) eqn:E; [|done]. intros [= <- <-]. apply addable_Some in E as [Hk Ho]. exists s. split; [|done].
    destruct (abs_off _ _ Ha t Hk) as [[n Hn] [H1 H2]%(fun f => f Ho)]. unfold nx, pv in H1, H2. rewrite Hn in H1, H2. injection H1 as H1. injection H2 as H2.
    unfold threadlistnode_cleanup, mbind, M_bind. rewrite (node_ok _ _ _ Hn), H1, H2, (abs_self _ _ Ha _ _ Hn). done.
  - intros Hm. assert ((lists a !! tl = None \/ lists a !! tl = Some []) /\ a' = put_list tl [] a /\ r = Unit) as (Hno & -> & ->)
      by (destruct (lists a !! tl) as [[]|]; naive_solver). eexists. split; [done|]. by apply init_abs.
  - destruct (lists a !! tl) as [[|]|] eqn:El; [|done..]. intros [= <- <-]. exists s. split; [|done].
    pose proof (isempty_abs _ _ _ _ Ha El) as E. destruct (abs_count _ _ Ha _ _ El) as [Hc _].
    unfold threadlist_cleanup, count_of, mbind, M_bind, get, deref. rewrite E. cbn. by rewrite Hc.
  - destruct (lists a !! tl) as [xs|] eqn:El; [|done]. intros [= <- <-]. exists s. split; [|done]. by run (isempty_abs _ _ _ _ Ha El).
  - destruct (lists a !! tl) as [xs|] eqn:El; [|done]. intros Hm. destruct (add_abs s a tl t [] xs a' r) as (-> & s' & E & _ & Ha'); [done..|].
    exists s'. split; [|done]. unfold threadlist_addhead. by run E.
  - destruct (lists a !! tl) as [xs|] eqn:El; [|done]. intros Hm.
    destruct (add_abs s a tl t xs [] a' r) as (-> & s' & _ & E & Ha'); [done|by rewrite app_nil_r|done|].
    exists s'. split; [|done]. unfold threadlist_addtail. by run E.
  - destruct (lists a !! tl) as [xs|] eqn:El; [|done]. intros [= <- <-]. destruct (remhead_abs _ _ _ _ Ha El) as (s' & E & Ha'). exists s'. by run E.
  - destruct (lists a !! tl) as [xs|] eqn:El; [|done]. intros [= <- <-]. destruct (remtail_abs _ _ _ _ Ha El) as (s' & E & Ha'). exists s'. by run E.
  - destruct (lists a !! tl) as [xs|] eqn:El; [|done]. cbn. destruct (cut onl xs) as [[xl xr]|] eqn:Ec; [|done]. apply cut_Some in Ec as ->.
    cbn. intros Hm. destruct (add_abs s a tl t (xl ++ [onl]) xr a' r) as (-> & s' & E & _ & Ha'); [done|by rewrite <- app_assoc|done|].
    exists s'. split; [|done]. unfold threadlist_insertafter. unfold before in E. rewrite last_snoc in E. by run E.
  - destruct (lists a !! tl) as [xs|] eqn:El; [|done]. cbn. destruct (cut onl xs) as [[xl xr]|] eqn:Ec; [|done]. apply cut_Some in Ec as ->.
    cbn. intros Hm. destruct (add_abs s a tl t xl (onl :: xr) a' r) as (-> & s' & _ & E & Ha'); [done..|].
    exists s'. split; [|done]. unfold threadlist_insertbefore. by run E.
  - destruct (lists a !! tl) as [xs|] eqn:El; [|done]. cbn. destruct (cut t xs) as [[xl xr]|] eqn:Ec; [|done]. apply cut_Some in Ec as ->.
    cbn. intros [= <- <-]. destruct (remove_abs s a tl xl xr t Ha El) as (_ & _ & _ & _ & E & s2 & Ec & Ha2 & _).
    exists s2. split; [|done]. unfold threadlist_remove. cut ((threadlist_removenode (Node t) ;; c ← count_of tl; set_count tl (c - 1)) s = Ok tt s2); [intros E'; by run E'|by run E].
  - destruct (lists a !! tl) as [xs|] eqn:El; [|done]. intros [= <- <-]. exists s. split; [|done].
    by run (proj1 (forall_loops _ _ _ _ Ha El)).
  - destruct (lists a !! tl) as [xs|] eqn:El; [|done]. intros [= <- <-]. exists s. split; [|done].
    by run (proj2 (forall_loops _ _ _ _ Ha El)).
Qed.

Lemma abs_empty : abs (TlState ∅ ∅) (Seqs ∅ ∅).
Proof. split; cbn; intros *; rewrite ?lookup_empty; done. Qed.

(** C22: thread lists.  Every sequence of operations on the linked nodes that the
    sequences of threads allow (a thread is added when it is on no list and
    removed from the list it is on) runs without a fault and gives the results
    that the same operations on sequences give; afterwards the nodes stand for
    the sequences again.  A thread is on at most one list. *)
Theorem threadlist_refines os a' rs : meaning_all os (Seqs ∅ ∅) = Some (a', rs) ->
  exists s', exec_all os (TlState ∅ ∅) = Ok rs s' /\ abs s' a'.
Proof.
  pose proof abs_empty as Ha. revert Ha. generalize (TlState ∅ ∅) (Seqs ∅ ∅). intros s a Ha. revert s a rs Ha.
  induction os as [|o os IH]; intros s a rs Ha; cbn [meaning_all exec_all]; [intros [= <- <-]; eauto|].
  destruct (meaning o a) as [[a1 r]|] eqn:E1; [|done]. cbn. destruct (meaning_all os a1) as [[a2 rs']|] eqn:E2; [|done]. intros [= <- <-].
  destruct (exec_abs _ _ _ _ _ Ha E1) as (s1 & X1 & Ha1). destruct (IH _ _ _ Ha1 E2) as (s2 & X2 & Ha2).
  exists s2. split; [|done]. run X1. by run X2.
Qed.

Lemma threadlist_refines_witness : let os := [Init 100; NodeInit 1; NodeInit 2; NodeInit 3; AddTail 100 1; AddHead 100 2; InsertAfter 100 2 3;
    Forall_ 100; Remove 100 3; ForallRev 100; RemHead 100; RemTail 100; RemHead 100; IsEmpty 100] in
  exists a' rs s', exec_all os (TlState ∅ ∅) = Ok rs s' /\ abs s' a' /\
    rs = [Unit; Unit; Unit; Unit; Unit; Unit; Unit; Threads [2; 3; 1]; Unit; Threads [1; 2]; Thread (Some 2); Thread (Some 1); Thread None; Bool true].
Proof.
  intros os. eexists _, _. edestruct (threadlist_refines os) as (s' & E & Ha); [vm_compute; reflexivity|].
  exists s'. split; [exact E|]. split; [exact Ha|reflexivity].
Defined.
End Threadlist.
