(* ===== verification/Sched.v ===== *)
(** * The thread scheduler

    Model of the machine-independent part of kern/thread/thread.c: processors
    with their run queues, thread creation and end, switching, wait channels
    and the migration of threads between processors, on the linked lists of
    [Threadlist].

    A locked section of the code is one step, and steps of the processors are
    interleaved in any order.  thread_switch is cut in two: what it does until
    the processor is idle, and the turn of its loop that finds a thread to run.
    thread_consider_migration, which takes and releases the locks of several run
    queues, is cut at each of them.  The channel name and the stack guard words
    of a thread are left out. *)

From S2P Require Import Prelude Kern Threadlist.
Open Scope Z_scope.

Module Sched.

(** ** State *)

Inductive threadstate : Type := S_RUN | S_READY | S_SLEEP | S_ZOMBIE.
#[export] Instance threadstate_eq_dec : EqDecision threadstate.
Proof. solve_decision. Defined.

Record thread := Thread { t_state : threadstate; t_cpu : Z; t_proc : Z }.
Record cpu := Cpu { c_curthread : Z; c_isidle : bool; c_ipi_pending : Z; c_hardclocks : Z }.

(** Where a processor is in thread_consider_migration. *)
Inductive mig : Type :=
| MCount (i : nat) (my_count total_count : Z)
| MTake (to_send one_share : Z)
| MSend (i : nat) (to_send one_share : Z)
| MBack
| MDone.

Record sched := Sched {
  tls : tlstate; threads : gmap Z thread; cpus : gmap Z cpu; allcpus : list Z; migs : gmap Z mig;
  s_next : Z; s_allocs : list bool
}.
#[export] Instance sched_alloc : HasAlloc sched :=
  {| allocs := s_allocs; set_allocs l s := Sched (tls s) (threads s) (cpus s) (allcpus s) (migs s) (s_next s) l |}.

(** The lists inside a processor structure and a wait channel, and the lists
    that are local variables of the code running on a processor. *)
Definition c_runqueue (c : Z) : Z := 5 * c.
Definition c_zombies (c : Z) : Z := 5 * c + 1.
Definition victims (c : Z) : Z := 5 * c + 2.
Definition woken_list (c : Z) : Z := 5 * c + 3.
Definition wc_threads (wc : Z) : Z := 5 * wc + 4.

Definition on_lists {A} (m : M tlstate A) : M sched A := fun s =>
  match m (tls s) with
  | Ok a l => Ok a (Sched l (threads s) (cpus s) (allcpus s) (migs s) (s_next s) (s_allocs s))
  | Fault f => Fault f
  end.
Definition get_thread (t : Z) : M sched thread := s ← get; deref FDangling (threads s !! t).
Definition get_cpu (c : Z) : M sched cpu := s ← get; deref FDangling (cpus s !! c).
Definition put_thread (t : Z) (x : thread) : M sched unit :=
  modify (fun s => Sched (tls s) (<[t := x]> (threads s)) (cpus s) (allcpus s) (migs s) (s_next s) (s_allocs s)).
Definition put_cpu (c : Z) (x : cpu) : M sched unit :=
  modify (fun s => Sched (tls s) (threads s) (<[c := x]> (cpus s)) (allcpus s) (migs s) (s_next s) (s_allocs s)).
Definition set_mig (c : Z) (m : option mig) : M sched unit :=
  modify (fun s => Sched (tls s) (threads s) (cpus s) (allcpus s) (partial_alter (fun _ => m) c (migs s)) (s_next s) (s_allocs s)).
Definition set_state (t : Z) (st : threadstate) : M sched unit :=
  x ← get_thread t; put_thread t (Thread st (t_cpu x) (t_proc x)).

Definition IPI_UNIDLE : Z := 2.
Definition ipi_send (target code : Z) : M sched unit :=
  kassert ((0 <=? code) && (code <? 32)) ;;
  c ← get_cpu target;
  put_cpu target (Cpu (c_curthread c) (c_isidle c) (Z.lor (c_ipi_pending c) (u32 (Z.shiftl 1 code))) (c_hardclocks c)).

(** ** Creation and destruction *)

(** An object from [kmalloc]: [None] for NULL.  Addresses are 32 bits wide and
    are not used twice. *)
Definition kmalloc_obj : M sched (option Z) :=
  ok ← kmalloc;
  s ← get;
  if negb (ok && (s_next s <? 2 ^ 32)) then mret None else
  modify (fun s => Sched (tls s) (threads s) (cpus s) (allcpus s) (migs s) (s_next s + 1) (s_allocs s)) ;;
  mret (Some (s_next s)).

(** struct thread *thread_create(name) *)
Definition thread_create : M sched (option Z) :=
  t ← kmalloc_obj;
  match t with
  | None => mret None
  | Some t =>
      ok ← kmalloc; (* kstrdup *)
      if negb ok then mret None else
      on_lists (Threadlist.threadlistnode_init t) ;;
      put_thread t (Thread S_READY 0 0) ;;
      mret (Some t)
  end.

(** void thread_destroy(thread), on processor [me] *)
Definition thread_destroy (me t : Z) : M sched unit :=
  c ← get_cpu me;
  kassert (negb (t =? c_curthread c)) ;;
  x ← get_thread t;
  kassert (negb (bool_decide (t_state x = S_RUN))) ;;
  kassert (t_proc x =? 0) ;;
  on_lists (Threadlist.threadlistnode_cleanup t) ;;
  modify (fun s => Sched (TlState (delete (Node t) (nodes (tls s))) (tl_count (tls s))) (delete t (threads s))
    (cpus s) (allcpus s) (migs s) (s_next s) (s_allocs s)).

Fixpoint exorcise_loop (fuel : nat) (me : Z) : M sched unit :=
  z ← on_lists (Threadlist.threadlist_remhead (c_zombies me));
  match z with
  | None => mret tt
  | Some z =>
      c ← get_cpu me;
      kassert (negb (z =? c_curthread c)) ;;
      x ← get_thread z;
      kassert (bool_decide (t_state x = S_ZOMBIE)) ;;
      thread_destroy me z ;;
      match fuel with O => raise FFuel | S fuel' => exorcise_loop fuel' me end
  end.
Definition exorcise (me : Z) : M sched unit := s ← get; exorcise_loop (size (threads s)) me.

(** ** Switching *)

(** void thread_make_runnable(target, already_have_lock), on processor [me] *)
Definition thread_make_runnable (me target : Z) : M sched unit :=
  x ← get_thread target;
  let targetcpu := t_cpu x in
  set_state target S_READY ;;
  on_lists (Threadlist.threadlist_addtail (c_runqueue targetcpu) target) ;;
  c ← get_cpu targetcpu;
  if c_isidle c && negb (targetcpu =? me) then ipi_send targetcpu IPI_UNIDLE else mret tt.

(** thread_switch up to the point where the processor is idle: true when it
    got there, false when it returned at once *)
Definition thread_switch (me : Z) (newstate : threadstate) (wc : Z) : M sched bool :=
  c ← get_cpu me;
  if c_isidle c then mret false else
  let cur := c_curthread c in
  empty ← on_lists (Threadlist.threadlist_isempty (c_runqueue me));
  if bool_decide (newstate = S_READY) && empty then mret false else
  match newstate with
  | S_RUN => raise FPanic
  | S_READY => thread_make_runnable me cur
  | S_SLEEP => on_lists (Threadlist.threadlist_addtail (wc_threads wc) cur)
  | S_ZOMBIE => on_lists (Threadlist.threadlist_addtail (c_zombies me) cur)
  end ;;
  set_state cur newstate ;;
  c ← get_cpu me;
  put_cpu me (Cpu (c_curthread c) true (c_ipi_pending c) (c_hardclocks c)) ;;
  mret true.

(** A turn of the loop of thread_switch, and, when there is a thread to run,
    the switch to it up to the end of thread_switch or the start of
    thread_startup: true when a thread was found *)
Definition thread_next (me : Z) : M sched bool :=
  next ← on_lists (Threadlist.threadlist_remhead (c_runqueue me));
  match next with
  | None => mret false
  | Some next =>
      c ← get_cpu me;
      put_cpu me (Cpu next false (c_ipi_pending c) (c_hardclocks c)) ;;
      set_state next S_RUN ;;
      exorcise me ;;
      mret true
  end.

Definition thread_yield (me : Z) : M sched bool := thread_switch me S_READY 0.

(** void thread_exit(void), up to the switch *)
Definition thread_exit (me : Z) : M sched bool :=
  c ← get_cpu me;
  x ← get_thread (c_curthread c);
  kassert (t_proc x =? 0) ;;
  thread_switch me S_ZOMBIE 0.

(** int thread_fork(name, proc, entrypoint, data1, data2); the thread gets on
    the list of its process as [kmalloc] allows *)
Definition thread_fork (me proc : Z) : M sched (res unit) :=
  t ← thread_create;
  match t with
  | None => mret (Err ENOMEM)
  | Some t =>
      ok ← kmalloc;
      if negb ok then thread_destroy me t ;; mret (Err ENOMEM) else
      c ← get_cpu me;
      cur ← get_thread (c_curthread c);
      x ← get_thread t;
      put_thread t (Thread (t_state x) (t_cpu cur) (t_proc x)) ;;
      let proc := if proc =? 0 then t_proc cur else proc in
      ok ← kmalloc; (* proc_addthread *)
      if negb ok then thread_destroy me t ;; mret (Err ENOMEM) else
      x ← get_thread t;
      put_thread t (Thread (t_state x) (t_cpu x) proc) ;;
      thread_make_runnable me t ;;
      mret (Done tt)
  end.

(** ** Wait channels *)

(** struct wchan *wchan_create(name): [None] for NULL; void wchan_destroy(wc) *)
Definition wchan_create : M sched (option Z) :=
  wc ← kmalloc_obj;
  match wc with
  | None => mret None
  | Some wc => on_lists (Threadlist.threadlist_init (wc_threads wc)) ;; mret (Some wc)
  end.
Definition wchan_destroy (wc : Z) : M sched unit := on_lists (Threadlist.threadlist_cleanup (wc_threads wc)).

(** void wchan_sleep(wc, lk), up to the point where another thread runs *)
Definition wchan_sleep (me wc : Z) : M sched bool := thread_switch me S_SLEEP wc.

Definition wchan_wakeone (me wc : Z) : M sched unit :=
  target ← on_lists (Threadlist.threadlist_remhead (wc_threads wc));
  match target with
  | None => mret tt
  | Some target => thread_make_runnable me target
  end.

(** The loops of wchan_wakeall: to a list of its own, and from there to the
    run queues. *)
Fixpoint grab (fuel : nat) (from to : Z) : M tlstate unit :=
  target ← Threadlist.threadlist_remhead from;
  match target with
  | None => mret tt
  | Some target =>
      Threadlist.threadlist_addtail to target ;;
      match fuel with O => raise FFuel | S fuel' => grab fuel' from to end
  end.
Fixpoint make_all_runnable (fuel : nat) (me : Z) : M sched unit :=
  target ← on_lists (Threadlist.threadlist_remhead (woken_list me));
  match target with
  | None => mret tt
  | Some target =>
      thread_make_runnable me target ;;
      match fuel with O => raise FFuel | S fuel' => make_all_runnable fuel' me end
  end.
Definition wchan_wakeall (me wc : Z) : M sched unit :=
  s ← get;
  on_lists (Threadlist.threadlist_init (woken_list me)) ;;
  on_lists (grab (size (threads s)) (wc_threads wc) (woken_list me)) ;;
  make_all_runnable (size (threads s)) me ;;
  on_lists (Threadlist.threadlist_cleanup (woken_list me)).

Definition wchan_isempty (wc : Z) : M sched bool := on_lists (Threadlist.threadlist_isempty (wc_threads wc)).

(** ** Migration *)

Definition DIVROUNDUP (a b : Z) : Z := u32 (a + b - 1) / b.
Definition queue_count (c : Z) : M sched Z := on_lists (Threadlist.count_of (c_runqueue c)).

(** Taking [n] threads from the end of the run queue. *)
Fixpoint take_victims (n : nat) (me : Z) : M tlstate unit :=
  match n with
  | O => mret tt
  | S n' =>
      t ← Threadlist.threadlist_remtail (c_runqueue me);
      t ← deref FNull t;
      Threadlist.threadlist_addhead (victims me) t ;;
      take_victims n' me
  end.

(** The loop that hands threads to processor [c]: how many are left to send *)
Fixpoint send_victims (fuel : nat) (me c one_share to_send : Z) : M sched Z :=
  n ← queue_count c;
  if negb ((n <? one_share) && (to_send >? 0)) then mret to_send else
  match fuel with
  | O => raise FFuel
  | S fuel' =>
      t ← on_lists (Threadlist.threadlist_remhead (victims me));
      x ← get_cpu me;
      t ← deref FNull t;
      if t =? c_curthread x then
        on_lists (Threadlist.threadlist_addtail (victims me) t) ;;
        send_victims fuel' me c one_share (to_send - 1)
      else
        y ← get_thread t;
        put_thread t (Thread (t_state y) c (t_proc y)) ;;
        on_lists (Threadlist.threadlist_addtail (c_runqueue c) t) ;;
        z ← get_cpu c;
        (if c_isidle z then ipi_send c IPI_UNIDLE else mret tt) ;;
        send_victims fuel' me c one_share (to_send - 1)
  end.

(** One section of thread_consider_migration. *)
Definition migration_step (me : Z) (m : mig) : M sched unit :=
  s ← get;
  let numcpus := length (allcpus s) in
  match m with
  | MCount i my_count total_count =>
      match allcpus s !! i with
      | Some c =>
          n ← queue_count c;
          set_mig me (Some (MCount (S i) (if c =? me then n else my_count) (u32 (total_count + n))))
      | None =>
          let one_share := DIVROUNDUP total_count (Z.of_nat numcpus) in
          if my_count <? one_share then set_mig me (Some MDone)
          else set_mig me (Some (MTake (my_count - one_share) one_share))
      end
  | MTake to_send one_share =>
      on_lists (Threadlist.threadlist_init (victims me)) ;;
      on_lists (take_victims (Z.to_nat to_send) me) ;;
      set_mig me (Some (MSend 0 to_send one_share))
  | MSend i to_send one_share =>
      match allcpus s !! i with
      | Some c =>
          if negb (to_send >? 0) then set_mig me (Some MBack) else
          if c =? me then set_mig me (Some (MSend (S i) to_send one_share)) else
          n ← send_victims (Z.to_nat to_send) me c one_share to_send;
          set_mig me (Some (MSend (S i) n one_share))
      | None => set_mig me (Some MBack)
      end
  | MBack =>
      empty ← on_lists (Threadlist.threadlist_isempty (victims me));
      (if negb empty then on_lists (grab (size (threads s)) (victims me) (c_runqueue me)) else mret tt) ;;
      empty ← on_lists (Threadlist.threadlist_isempty (victims me));
      kassert empty ;;
      on_lists (Threadlist.threadlist_cleanup (victims me)) ;;
      set_mig me (Some MDone)
  | MDone => set_mig me None ;; _ ← thread_yield me; mret tt (* back in hardclock *)
  end.

(** ** Processors *)

(** struct cpu *cpu_create(hardware_number): the first thread of a processor is
    the one it runs already.  Running out of memory is a panic. *)
Definition cpu_create (kproc : Z) : M sched Z :=
  c ← kmalloc_obj;
  c ← deref FPanic c;
  on_lists (Threadlist.threadlist_init (c_zombies c)) ;;
  on_lists (Threadlist.threadlist_init (c_runqueue c)) ;;
  ok ← kmalloc; kassert ok ;; (* cpuarray_add *)
  t ← thread_create;
  t ← deref FPanic t;
  s ← get;
  (* the boot processor already has a stack *)
  ok ← (if bool_decide (allcpus s = []) then mret true else kmalloc); kassert ok ;;
  ok ← kmalloc; kassert ok ;; (* proc_addthread *)
  modify (fun s => Sched (tls s) (<[t := Thread S_READY c kproc]> (threads s)) (<[c := Cpu t false 0 0]> (cpus s))
    (allcpus s ++ [c]) (delete c (migs s)) (s_next s) (s_allocs s)) ;;
  mret c.

(** void hardclock(void): with a migration it goes on at [MDone]; schedule()
    does nothing *)
Definition MIGRATE_HARDCLOCKS : Z := 16.
Definition hardclock (me : Z) : M sched unit :=
  c ← get_cpu me;
  let n := u32 (c_hardclocks c + 1) in
  put_cpu me (Cpu (c_curthread c) (c_isidle c) (c_ipi_pending c) n) ;;
  if n mod MIGRATE_HARDCLOCKS =? 0 then set_mig me (Some (MCount 0 0 0)) else
  _ ← thread_yield me; mret tt.
End Sched.
