(* ===== verification/SchedSpec.v ===== *)
(** * The scheduler keeps every thread in its place

    The invariant of [Sched]: every thread is on the processor that runs it or
    on one list, the one its state says; the thread whose stack a processor
    uses, also while it is idle, belongs to that processor.  The building
    blocks of the operations are taking a thread off a list, changing it while
    it is in hand, and putting it on a list. *)

From S2P Require Import Prelude Kern Threadlist Sched.
Open Scope Z_scope.
Import Threadlist Sched.

Module SchedSpec.

(** ** List operations on the scheduler's state *)

Definition with_tls (s : sched) (l : tlstate) : sched :=
  Sched l (threads s) (cpus s) (allcpus s) (migs s) (s_next s) (s_allocs s).

Lemma wp_on_lists {A} (m : M tlstate A) Q s : wp (on_lists m) Q s <-> wp m (fun x l => Q x (with_tls s l)) (tls s).
Proof. unfold wp, on_lists. by destruct (m (tls s)). Qed.

Lemma with_tls_id s : with_tls s (tls s) = s.
Proof. by destruct s. Qed.

Definition addresses (a : seqs) : Prop := forall t, t ∈ known a -> 0 < t < 2 ^ 32.

(** There are fewer threads than counts. *)
Lemma length_bound s a l xs t : abs s a -> addresses a -> lists a !! l = Some xs -> t ∈ known a -> (t ∉ xs) -> is_u32 (Z.of_nat (length xs) + 1).
Proof.
  intros Ha Had Hl Ht Hx. assert (NoDup (t :: xs)) as Hnd by (constructor; [done|by eapply abs_nodup]).
  assert (t :: xs ⊆+ seqZ 1 (2 ^ 32 - 1)) as Hsub.
  { apply NoDup_submseteq; [done|]. intros y Hy. apply elem_of_seqZ. cut (0 < y < 2 ^ 32); [lia|]. apply Had.
    apply elem_of_cons in Hy as [->|Hy]; [done|]. by eapply abs_known. }
  apply submseteq_length in Hsub. rewrite length_seqZ in Hsub. cbn [length] in Hsub. unfold is_u32. lia.
Qed.

Section Lists.
Variables (s : tlstate) (a : seqs) (l : Z) (xs : list Z).
Hypotheses (Ha : abs s a) (Had : addresses a) (Hl : lists a !! l = Some xs).

Lemma wp_addtail t Q : t ∈ known a -> ~ on_list t (lists a) -> (forall s', abs s' (put_list l (xs ++ [t]) a) -> Q tt s') ->
  wp (threadlist_addtail l t) Q s.
Proof.
  intros Ht Ho HQ. assert (t ∉ xs) as Hx by (intros Hx; apply Ho; by exists l, xs). unfold wp, threadlist_addtail.
  destruct (insert_abs s a l xs [] t Ha) as (_ & E & s2 & Ec & Ha2); rewrite ?app_nil_r; eauto using length_bound.
  run E. rewrite Ec. by apply HQ.
Qed.
Lemma wp_addhead t Q : t ∈ known a -> ~ on_list t (lists a) -> (forall s', abs s' (put_list l (t :: xs) a) -> Q tt s') ->
  wp (threadlist_addhead l t) Q s.
Proof.
  intros Ht Ho HQ. assert (t ∉ xs) as Hx by (intros Hx; apply Ho; by exists l, xs). unfold wp, threadlist_addhead.
  destruct (insert_abs s a l [] xs t Ha) as (E & _ & s2 & Ec & Ha2); eauto using length_bound.
  run E. rewrite Ec. by apply HQ.
Qed.
Lemma wp_remhead Q : (forall s', abs s' (put_list l (tail xs) a) -> Q (head xs) s') -> wp (threadlist_remhead l) Q s.
Proof. intros HQ. destruct (remhead_abs s a l xs Ha Hl) as (s' & E & Ha'). unfold wp. rewrite E. by apply HQ. Qed.
Lemma wp_remtail Q : (forall s', abs s' (put_list l (removelast xs) a) -> Q (last xs) s') -> wp (threadlist_remtail l) Q s.
Proof. intros HQ. destruct (remtail_abs s a l xs Ha Hl) as (s' & E & Ha'). unfold wp. rewrite E. by apply HQ. Qed.
Lemma wp_isempty (Q : bool -> tlstate -> Prop) : Q (bool_decide (xs = [])) s -> wp (threadlist_isempty l) Q s.
Proof. intros HQ. unfold wp. by rewrite (isempty_abs s a l xs Ha Hl). Qed.
Lemma wp_count (Q : Z -> tlstate -> Prop) : Q (Z.of_nat (length xs)) s -> wp (count_of l) Q s.
Proof. intros HQ. unfold count_of. wpsimp. rewrite (proj1 (abs_count _ _ Ha _ _ Hl)). eauto. Qed.
Lemma wp_cleanup (Q : unit -> tlstate -> Prop) : xs = [] -> Q tt s -> wp (threadlist_cleanup l) Q s.
Proof.
  intros E HQ. unfold threadlist_cleanup. wpsimp. apply wp_isempty. wpsimp. split; [by apply bool_decide_eq_true_2|].
  apply wp_count. wpsimp. by rewrite E.
Qed.
End Lists.

Definition absent (a : seqs) (l : Z) : Prop := lists a !! l = None \/ lists a !! l = Some [].
Lemma wp_init s a l Q : abs s a -> absent a l -> (forall s', abs s' (put_list l [] a) -> Q tt s') -> wp (threadlist_init l) Q s.
Proof. intros Ha Hno HQ. by apply HQ, init_abs. Qed.

(** ** The invariant *)

Definition at_ (a : seqs) (t l : Z) : Prop := exists xs, lists a !! l = Some xs /\ t ∈ xs.

(** A thread on a list is in the state the list is for. *)
Definition fits (l : Z) (x : thread) : Prop :=
  (t_state x = S_READY /\ (l = c_runqueue (t_cpu x) \/ l = victims (t_cpu x))) \/
  (t_state x = S_ZOMBIE /\ l = c_zombies (t_cpu x) /\ t_proc x = 0) \/
  (t_state x = S_SLEEP /\ exists w, l = wc_threads w \/ l = woken_list w).

Definition running (s : sched) (t : Z) : Prop := exists c x, cpus s !! c = Some x /\ c_curthread x = t /\ c_isidle x = false.

Definition len (a : seqs) (l n : Z) : Prop := exists xs, lists a !! l = Some xs /\ n <= Z.of_nat (length xs).

(** What the code of thread_consider_migration relies on. *)
Definition mig_ok (a : seqs) (c : Z) (m : option mig) : Prop :=
  match m with
  | None | Some MDone => absent a (victims c)
  | Some (MCount _ my_count _) => absent a (victims c) /\ 0 <= my_count /\ len a (c_runqueue c) my_count
  | Some (MTake to_send _) => absent a (victims c) /\ 0 <= to_send /\ len a (c_runqueue c) to_send
  | Some (MSend _ to_send _) => 0 <= to_send /\ len a (victims c) to_send
  | Some MBack => len a (victims c) 0
  end.

(** The invariant, while the thread [h] is in hand and the structure of the
    processor [e] is being changed. *)
Record inv (h e : option Z) (s : sched) (a : seqs) : Prop := {
  inv_abs : abs (tls s) a;
  inv_known : known a = dom (threads s);
  inv_addr : addresses a;
  inv_hand t : h = Some t -> t ∈ known a /\ ~ on_list t (lists a);
  inv_place t l : at_ a t l -> exists x, threads s !! t = Some x /\ fits l x;
  inv_home t x : threads s !! t = Some x -> h <> Some t -> (exists l, at_ a t l) \/ running s t;
  inv_tcpu t x : threads s !! t = Some x -> h <> Some t -> is_Some (cpus s !! t_cpu x);
  inv_cpu c x : cpus s !! c = Some x -> exists y, threads s !! c_curthread x = Some y /\ t_cpu y = c /\
    (e = Some c \/ if c_isidle x then exists l, at_ a (c_curthread x) l
                   else ~ on_list (c_curthread x) (lists a) /\ (t_state y = S_RUN \/ t_state y = S_READY));
  inv_queues c : is_Some (cpus s !! c) -> is_Some (lists a !! c_runqueue c) /\ is_Some (lists a !! c_zombies c);
  inv_all : forall c, c ∈ allcpus s <-> is_Some (cpus s !! c);
  inv_fresh : 0 < s_next s /\ (forall t, is_Some (threads s !! t) -> t < s_next s) /\ (forall c, is_Some (cpus s !! c) -> 0 < c < s_next s) /\
    (forall l, is_Some (lists a !! l) -> 0 < l < 5 * s_next s)
}.

Ltac slots := unfold c_runqueue, c_zombies, victims, woken_list, wc_threads in *; lia.

(** ** Threads that move *)

Lemma at_put a t l l' xs : at_ (put_list l' xs a) t l <-> (l = l' /\ t ∈ xs) \/ (l <> l' /\ at_ a t l).
Proof.
  unfold at_, put_list. cbn. split.
  - intros (ys & [[<- <-]|[Hne Hy]]%lookup_insert_Some & Ht); [by left|]. right. split; [done|]. by exists ys.
  - intros [[-> Ht]|[Hne (ys & Hy & Ht)]]; [exists xs; by rewrite lookup_insert_eq|]. exists ys. by rewrite lookup_insert_ne.
Qed.
Lemma on_list_at t a : on_list t (lists a) <-> exists l, at_ a t l.
Proof. unfold on_list, at_. naive_solver. Qed.
Lemma at_unique s a t l l' : abs s a -> at_ a t l -> at_ a t l' -> l = l'.
Proof. intros Ha (xs & H1 & H2) (ys & H3 & H4). by eapply abs_apart. Qed.

Lemma len_put a l l' xs n : len a l n -> (l = l' -> n <= Z.of_nat (length xs)) -> len (put_list l' xs a) l n.
Proof.
  intros (ys & Hy & Hn) Hl. unfold len, put_list. cbn. destruct (decide (l = l')) as [->|]; [exists xs; rewrite lookup_insert_eq; eauto|].
  exists ys. by rewrite lookup_insert_ne.
Qed.
Lemma absent_put a l l' xs : absent a l -> (l = l' -> xs = []) -> absent (put_list l' xs a) l.
Proof.
  intros Hl Hx. unfold absent, put_list. cbn. destruct (decide (l = l')) as [->|]; [rewrite lookup_insert_eq; right; f_equal; auto|].
  by rewrite lookup_insert_ne.
Qed.

(** Run queues that only get longer at their end, and lists of victims that stay
    the same, do not disturb a migration. *)
Definition keeps (except : Z -> Prop) (a a' : seqs) : Prop := forall c, ~ except c ->
  (forall xs, lists a !! c_runqueue c = Some xs -> exists ys, lists a' !! c_runqueue c = Some (xs ++ ys)) /\
  lists a' !! victims c = lists a !! victims c.
Definition migs_ok (s : sched) (a : seqs) : Prop := forall c, is_Some (cpus s !! c) -> mig_ok a c (migs s !! c).

Lemma keeps_refl P a : keeps P a a.
Proof. intros c _. split; [|done]. intros xs Hx. exists []. by rewrite app_nil_r. Qed.
Lemma keeps_trans P a a1 a2 : keeps P a a1 -> keeps P a1 a2 -> keeps P a a2.
Proof.
  intros H1 H2 c Hc. destruct (H1 c Hc) as [A1 A2], (H2 c Hc) as [B1 B2]. split; [|congruence]. intros xs Hx.
  destruct (A1 xs Hx) as [ys Hy]. destruct (B1 _ Hy) as [zs Hz]. exists (ys ++ zs). by rewrite app_assoc.
Qed.
Lemma mig_keep P a a' c m : keeps P a a' -> ~ P c -> mig_ok a c m -> mig_ok a' c m.
Proof.
  intros Hk Hc. destruct (Hk c Hc) as [H1 H2]. unfold mig_ok, absent, len. rewrite H2.
  destruct m as [[i n tot|n sh|i n sh| |]|]; try done; intros (? & ? & xs & Hx & Hn); (split_and!; [done..|]);
    destruct (H1 xs Hx) as [ys Hy]; exists (xs ++ ys); (split; [done|]); rewrite length_app; lia.
Qed.
Lemma migs_keep s s' a a' : keeps (fun _ => False) a a' -> migs s' = migs s -> dom (cpus s') = dom (cpus s) -> migs_ok s a -> migs_ok s' a'.
Proof. intros Hk Hm Hd Hok c Hc. rewrite Hm. eapply mig_keep; [exact Hk|tauto|]. apply Hok. apply elem_of_dom. rewrite <- Hd. by apply elem_of_dom. Qed.

Lemma keeps_put P a l ys : (forall c, ~ P c -> l = c_runqueue c -> forall xs, lists a !! l = Some xs -> exists zs, ys = xs ++ zs) ->
  (forall c, ~ P c -> l <> victims c) -> keeps P a (put_list l ys a).
Proof.
  intros H1 H2 c Hc. cbn. split.
  - intros xs Hx. destruct (decide (l = c_runqueue c)) as [->|]; [rewrite lookup_insert_eq|rewrite lookup_insert_ne by done].
    + destruct (H1 c Hc eq_refl xs Hx) as [zs ->]. eauto.
    + exists []. by rewrite app_nil_r.
  - rewrite lookup_insert_ne; [done|]. by apply H2.
Qed.

(** Taking a thread off a list. *)
Lemma inv_take s a l xs1 xs2 t L : inv None None s a -> lists a !! l = Some (xs1 ++ t :: xs2) -> abs L (put_list l (xs1 ++ xs2) a) ->
  forall e, (forall c x, cpus s !! c = Some x -> c_curthread x = t -> e = Some c) ->
  inv (Some t) e (with_tls s L) (put_list l (xs1 ++ xs2) a).
Proof.
  intros Hi Hl Ha e He. assert (at_ a t l) as Ht by (exists (xs1 ++ t :: xs2); split; [done|set_solver]).
  assert (forall y k, y <> t -> at_ (put_list l (xs1 ++ xs2) a) y k <-> at_ a y k) as Hat.
  { intros y k Hy. rewrite at_put. destruct (decide (k = l)) as [->|]; [|naive_solver]. split; [|intros (ys & ? & Hys); left; split; [done|]].
    - intros [[_ Hx]|[? _]]; [|done]. exists (xs1 ++ t :: xs2). split; [done|]. rewrite elem_of_app, elem_of_cons. rewrite elem_of_app in Hx. tauto.
    - simplify_eq. rewrite elem_of_app, elem_of_cons in Hys. rewrite elem_of_app. naive_solver. }
  assert (~ on_list t (<[l := xs1 ++ xs2]> (lists a))) as Hno.
  { intros (k & ys & [[<- <-]|[Hne Hk]]%lookup_insert_Some & Hy).
    - pose proof (abs_nodup _ _ (inv_abs _ _ _ _ Hi) _ _ Hl) as Hnd. rewrite <- Permutation_middle in Hnd. by apply NoDup_cons in Hnd as [? _].
    - apply Hne. eapply abs_apart; [apply Hi|exact Hl|exact Hk| |done]. apply elem_of_app. right. left. }
  split; cbn [tls with_tls threads cpus migs allcpus s_next put_list lists known]; try apply Hi; [done|..].
  - intros t' [= <-]. split; [|done]. eapply abs_known; [apply Hi|done|]. apply elem_of_app. right. left.
  - intros y k Hy. destruct (decide (y = t)) as [->|Hne]; [destruct Hno; apply (on_list_at t (put_list l (xs1 ++ xs2) a)); eauto|]. apply Hat in Hy; [|done]. by eapply inv_place.
  - intros y x Hx Hne. destruct (inv_home _ _ _ _ Hi y x Hx) as [[k Hk]|Hr]; [done|left; exists k; apply Hat; congruence|by right].
  - intros y x Hx _. eapply inv_tcpu; [apply Hi|done|done].
  - intros c x Hx. destruct (inv_cpu _ _ _ _ Hi c x Hx) as (y & Hy & Hc & [|Hst]); [done|]. exists y. split_and!; [done..|].
    destruct (decide (c_curthread x = t)) as [Et|Et]; [left; by eapply He|right]. destruct (c_isidle x).
    + destruct Hst as [k Hk]. exists k. by apply Hat.
    + destruct Hst as [Hst ?]. split; [|done]. intros Ho. apply Hst. apply on_list_at. apply (on_list_at _ (put_list l (xs1 ++ xs2) a)) in Ho as [k Hk].
      exists k. by apply Hat in Hk.
  - intros c Hc. destruct (inv_queues _ _ _ _ Hi c Hc) as [H1 H2]. rewrite !lookup_insert_is_Some. split; destruct (decide (l = c_runqueue c)), (decide (l = c_zombies c)); auto.
  - destruct (inv_fresh _ _ _ _ Hi) as (H1 & H2 & H3 & H4). split_and!; [done..|]. intros k [<-|[_ Hk]]%lookup_insert_is_Some; apply H4; eauto.
Qed.

(** Putting the thread in hand on a list. *)
Lemma inv_put s a l xs ys t x L e e' : inv (Some t) e s a -> threads s !! t = Some x -> fits l x -> is_Some (cpus s !! t_cpu x) ->
  lists a !! l = Some xs -> ys ≡ₚ t :: xs -> abs L (put_list l ys a) ->
  (forall c y, cpus s !! c = Some y -> c_curthread y = t \/ e = Some c -> e' = Some c \/ (c_curthread y = t /\ c_isidle y = true)) ->
  inv None e' (with_tls s L) (put_list l ys a).
Proof.
  intros Hi Hx Hf Hc Hl Hp Ha He. destruct (inv_hand _ _ _ _ Hi t eq_refl) as [Hk Hno].
  assert (forall y k, y <> t -> at_ (put_list l ys a) y k <-> at_ a y k) as Hat.
  { intros y k Hy. rewrite at_put, Hp, elem_of_cons. destruct (decide (k = l)) as [->|]; [|naive_solver].
    unfold at_. rewrite Hl. naive_solver. }
  assert (at_ (put_list l ys a) t l) as Ht by (apply at_put; left; split; [done|rewrite Hp; left]).
  split; cbn [tls with_tls threads cpus migs allcpus s_next put_list lists known]; try apply Hi; [done|done|..].
  - intros y k Hy. destruct (decide (y = t)) as [->|Hne]; [|apply Hat in Hy; [by eapply inv_place|done]].
    replace k with l; [eauto|]. by eapply at_unique.
  - intros y z Hz _. destruct (decide (y = t)) as [->|Hne]; [left; eauto|].
    destruct (inv_home _ _ _ _ Hi y z Hz) as [[k Hk']|Hr]; [congruence|left; exists k; by apply Hat|by right].
  - intros y z Hz _. destruct (decide (y = t)) as [->|Hne]; [by simplify_eq|]. eapply inv_tcpu; [apply Hi|done|congruence].
  - intros c z Hz. destruct (inv_cpu _ _ _ _ Hi c z Hz) as (y & Hy & Hcy & Hst). exists y. split_and!; [done..|].
    destruct (decide (c_curthread z = t)) as [Et|Et].
    + destruct (He c z Hz (or_introl Et)) as [|[_ ->]]; [by left|right]. exists l. by rewrite Et.
    + destruct Hst as [->|Hst]; [destruct (He c z Hz (or_intror eq_refl)) as [|[? _]]; [by left|done]|right]. destruct (c_isidle z).
      * destruct Hst as [k Hk']. exists k. by apply Hat.
      * destruct Hst as [Hst ?]. split; [|done]. intros Ho. apply Hst, on_list_at. apply (on_list_at _ (put_list l ys a)) in Ho as [k Hk'].
        exists k. by apply Hat in Hk'.
  - intros c Hc'. destruct (inv_queues _ _ _ _ Hi c Hc') as [H1 H2]. rewrite !lookup_insert_is_Some.
    split; destruct (decide (l = c_runqueue c)), (decide (l = c_zombies c)); auto.
  - destruct (inv_fresh _ _ _ _ Hi) as (H1 & H2 & H3 & H4). split_and!; [done..|]. intros k [<-|[_ Hk']]%lookup_insert_is_Some; apply H4; eauto.
Qed.

(** Changing the thread in hand. *)
Definition with_thread (s : sched) (t : Z) (x : thread) : sched :=
  Sched (tls s) (<[t := x]> (threads s)) (cpus s) (allcpus s) (migs s) (s_next s) (s_allocs s).
Definition with_cpu (s : sched) (c : Z) (x : cpu) : sched :=
  Sched (tls s) (threads s) (<[c := x]> (cpus s)) (allcpus s) (migs s) (s_next s) (s_allocs s).

Lemma inv_edit s a t x e : inv (Some t) e s a -> (forall c y, cpus s !! c = Some y -> c_curthread y = t -> t_cpu x = c /\ e = Some c) ->
  inv (Some t) e (with_thread s t x) a.
Proof.
  intros Hi Hx. destruct (inv_hand _ _ _ _ Hi t eq_refl) as [Hk Hno].
  assert (is_Some (threads s !! t)) as [x0 Hx0] by (apply elem_of_dom; by rewrite <- (inv_known _ _ _ _ Hi)).
  split; cbn [tls with_thread threads cpus migs allcpus s_next]; try apply Hi.
  - rewrite dom_insert_lookup_L by eauto. apply Hi.
  - intros y l Hy. destruct (decide (y = t)) as [->|]; [destruct Hno; apply on_list_at; eauto|]. rewrite lookup_insert_ne by done. by eapply inv_place.
  - intros y z Hz Hne. rewrite lookup_insert_ne in Hz by congruence. exact (inv_home _ _ _ _ Hi y z Hz Hne).
  - intros y z Hz Hne. rewrite lookup_insert_ne in Hz by congruence. exact (inv_tcpu _ _ _ _ Hi y z Hz Hne).
  - intros c z Hz. destruct (inv_cpu _ _ _ _ Hi c z Hz) as (y & Hy & Hc & Hst). destruct (decide (c_curthread z = t)) as [Et|Et].
    + destruct (Hx c z Hz Et) as [E1 E2]. exists x. rewrite Et, lookup_insert_eq. auto.
    + exists y. by rewrite lookup_insert_ne.
  - destruct (inv_fresh _ _ _ _ Hi) as (H1 & H2 & H3 & H4). split_and!; [done| |done..].
    intros y [<-|[_ Hy]]%lookup_insert_is_Some; apply H2; eauto.
Qed.

(** ** Processors that change *)

Lemma inv_weaken h s a e : inv h None s a -> inv h e s a.
Proof.
  intros Hi. split; try apply Hi. intros c x Hx. destruct (inv_cpu _ _ _ _ Hi c x Hx) as (y & ? & ? & [|]); [done|]. eauto.
Qed.

Lemma cur_on s a e h me x : inv h e s a -> cpus s !! me = Some x -> exists y, threads s !! c_curthread x = Some y /\ t_cpu y = me.
Proof. intros Hi Hx. destruct (inv_cpu _ _ _ _ Hi me x Hx) as (y & ? & ? & _). eauto. Qed.

(** No two processors use the same thread. *)
Lemma cur_unique h e s a c c' x x' : inv h e s a -> cpus s !! c = Some x -> cpus s !! c' = Some x' -> c_curthread x = c_curthread x' -> c = c'.
Proof.
  intros Hi H1 H2 E. destruct (cur_on _ _ _ _ _ _ Hi H1) as (y & Hy & <-), (cur_on _ _ _ _ _ _ Hi H2) as (y' & Hy' & <-). congruence.
Qed.

Lemma inv_hold s a me x : inv None None s a -> cpus s !! me = Some x -> c_isidle x = false -> inv (Some (c_curthread x)) (Some me) s a.
Proof.
  intros Hi Hx Hidle. destruct (inv_cpu _ _ _ _ Hi me x Hx) as (y & Hy & Hc & [|Hst]); [done|]. rewrite Hidle in Hst.
  split; try apply Hi.
  - intros t [= <-]. split; [|apply Hst]. rewrite (inv_known _ _ _ _ Hi). apply elem_of_dom. eauto.
  - intros t z Hz _. by eapply inv_home.
  - intros t z Hz _. by eapply inv_tcpu.
  - intros c z Hz. destruct (inv_cpu _ _ _ _ Hi c z Hz) as (y' & ? & ? & [|]); [done|]. eauto.
Qed.

Lemma running_with_cpu s me x t : (forall y, cpus s !! me = Some y -> c_curthread y = t -> c_isidle y = false -> c_curthread x = t /\ c_isidle x = false) ->
  running s t -> running (with_cpu s me x) t.
Proof.
  intros H (c & y & Hy & Ht & Hi). unfold running. cbn. destruct (decide (c = me)) as [->|].
  - exists me, x. rewrite lookup_insert_eq. naive_solver.
  - exists c, y. by rewrite lookup_insert_ne.
Qed.

(** A processor's structure with new contents. *)
Lemma inv_with_cpu h e e' s a me x0 x : inv h e s a -> cpus s !! me = Some x0 ->
  (h = Some (c_curthread x0) \/ (exists l, at_ a (c_curthread x0) l) \/ c_isidle x0 = true \/ (c_curthread x = c_curthread x0 /\ c_isidle x = c_isidle x0)) ->
  (exists y, threads s !! c_curthread x = Some y /\ t_cpu y = me /\
    (e' = Some me \/ if c_isidle x then exists l, at_ a (c_curthread x) l
                   else ~ on_list (c_curthread x) (lists a) /\ (t_state y = S_RUN \/ t_state y = S_READY))) ->
  (e = e' \/ e = Some me) -> inv h e' (with_cpu s me x) a.
Proof.
  intros Hi H0 Hhome Hcur He. assert (forall c, is_Some (<[me := x]> (cpus s) !! c) <-> is_Some (cpus s !! c)) as Hd.
  { intros c. rewrite lookup_insert_is_Some. destruct (decide (me = c)) as [->|]; naive_solver. }
  split; cbn [tls with_cpu threads cpus migs allcpus s_next]; try apply Hi.
  - intros t z Hz Hne. destruct (inv_home _ _ _ _ Hi t z Hz Hne) as [|Hr]; [by left|].
    destruct Hhome as [->|[[l Hl]|[Hidle|[E1 E2]]]].
    + right. apply running_with_cpu; [|done]. intros y Hy Et. simplify_eq.
    + destruct (decide (t = c_curthread x0)) as [->|]; [left; eauto|]. right. apply running_with_cpu; [|done]. intros y Hy Et. simplify_eq.
    + right. apply running_with_cpu; [|done]. intros y Hy Et. simplify_eq. congruence.
    + right. apply running_with_cpu; [|done]. intros y Hy Et Ey. simplify_eq. by rewrite E1, E2.
  - intros t z Hz Hne. apply Hd. by eapply inv_tcpu.
  - intros c z [[<- <-]|[Hne Hz]]%lookup_insert_Some; [done|]. destruct (inv_cpu _ _ _ _ Hi c z Hz) as (y & Hy & Hc & Hst).
    exists y. split_and!; [done..|]. destruct Hst as [->|]; [|by right]. destruct He as [<-|[= ->]]; [by left|done].
  - intros c Hc. by apply Hi, Hd.
  - intros c. rewrite Hd. apply Hi.
  - destruct (inv_fresh _ _ _ _ Hi) as (H1 & H2 & H3 & H4). split_and!; [done..| |done]. intros c Hc. by apply H3, Hd.
Qed.

(** The thread in hand runs. *)
Lemma inv_run s a t me x y : inv (Some t) (Some me) s a -> cpus s !! me = Some x -> c_curthread x = t -> c_isidle x = false ->
  threads s !! t = Some y -> t_state y = S_RUN -> inv None None s a.
Proof.
  intros Hi Hx Ht Hidle Hy Hst. destruct (inv_hand _ _ _ _ Hi t eq_refl) as [_ Hno]. split; try apply Hi; [done|..].
  - intros t' z Hz _. destruct (decide (t' = t)) as [->|]; [right; by exists me, x|]. eapply inv_home; [apply Hi|done|congruence].
  - intros t' z Hz _. destruct (decide (t' = t)) as [->|]; [|eapply inv_tcpu; [apply Hi|done|congruence]].
    destruct (cur_on _ _ _ _ _ _ Hi Hx) as (y' & Hy' & E). rewrite Ht in Hy'. simplify_eq. eauto.
  - intros c z Hz. destruct (inv_cpu _ _ _ _ Hi c z Hz) as (y' & Hy' & Hc & [[= ->]|]); [|eauto].
    rewrite Hx in Hz. injection Hz as <-. exists y'. split_and!; [done..|]. right. rewrite Hidle. rewrite Ht in *.
    rewrite Hy in Hy'. injection Hy' as <-. auto.
Qed.

(** A thread that nobody uses goes. *)
Definition without_thread (s : sched) (t : Z) : sched :=
  Sched (TlState (delete (Node t) (nodes (tls s))) (tl_count (tls s))) (delete t (threads s))
    (cpus s) (allcpus s) (migs s) (s_next s) (s_allocs s).
Lemma inv_free s a t : inv (Some t) None s a -> (forall c x, cpus s !! c = Some x -> c_curthread x <> t) ->
  inv None None (without_thread s t) (Seqs (lists a) (known a ∖ {[t]})).
Proof.
  intros Hi Hcur. destruct (inv_hand _ _ _ _ Hi t eq_refl) as [Hk Hno].
  split; cbn [tls without_thread threads cpus migs allcpus s_next lists known]; try apply Hi.
  - apply node_free_abs; [apply Hi|done].
  - by rewrite dom_delete_L, (inv_known _ _ _ _ Hi).
  - intros y [Hy _]%elem_of_difference. by apply Hi.
  - done.
  - intros y l Hy. rewrite lookup_delete_ne; [by eapply inv_place|]. intros <-. apply Hno, on_list_at. eauto.
  - intros y z [Hne Hz]%lookup_delete_Some _. exact (inv_home _ _ _ _ Hi y z Hz ltac:(congruence)).
  - intros y z [Hne Hz]%lookup_delete_Some _. exact (inv_tcpu _ _ _ _ Hi y z Hz ltac:(congruence)).
  - intros c x Hx. destruct (inv_cpu _ _ _ _ Hi c x Hx) as (y & Hy & H'). exists y. rewrite lookup_delete_ne by (apply not_eq_sym; eauto). done.
  - destruct (inv_fresh _ _ _ _ Hi) as (H1 & H2 & H3 & H4). split_and!; [done| |done..]. intros y [z [_ Hz]%lookup_delete_Some]. eauto.
Qed.
End SchedSpec.
