(* ===== verification/SchedOps.v ===== *)
(** * What the scheduler's operations do

    Every operation of [Sched], called where it may be, runs without a fault
    and keeps the invariant of [SchedSpec]. *)

From S2P Require Import Prelude Kern Threadlist Sched SchedSpec.
Open Scope Z_scope.
Import Threadlist Sched SchedSpec.

Module SchedOps.

Lemma wp_get_cpu c x (Q : cpu -> sched -> Prop) s : cpus s !! c = Some x -> Q x s -> wp (get_cpu c) Q s.
Proof. intros Hc HQ. unfold get_cpu. wpsimp. rewrite Hc. eauto. Qed.
Lemma wp_get_thread t x (Q : thread -> sched -> Prop) s : threads s !! t = Some x -> Q x s -> wp (get_thread t) Q s.
Proof. intros Hc HQ. unfold get_thread. wpsimp. rewrite Hc. eauto. Qed.
Lemma wp_set_state t x st (Q : unit -> sched -> Prop) s : threads s !! t = Some x ->
  Q tt (with_thread s t (Thread st (t_cpu x) (t_proc x))) -> wp (set_state t st) Q s.
Proof. intros Hx HQ. unfold set_state. wpsimp. eapply wp_get_thread; [done|]. unfold put_thread. by wpsimp. Qed.

(** ** Making a thread runnable *)

Lemma rq_apart c c' : c_runqueue c <> victims c' /\ c_runqueue c <> woken_list c' /\ c_runqueue c <> c_zombies c'.
Proof. split_and!; slots. Qed.

(** The processors as seen by the rest of the code. *)
Definition same_cpus (s s' : sched) : Prop :=
  allcpus s' = allcpus s /\ migs s' = migs s /\ dom (cpus s') = dom (cpus s) /\
  forall c x, cpus s !! c = Some x -> exists x', cpus s' !! c = Some x' /\ c_curthread x' = c_curthread x /\ c_isidle x' = c_isidle x.

Lemma same_cpus_refl s : same_cpus s s.
Proof. split_and!; eauto. Qed.
Lemma same_cpus_trans s1 s2 s3 : same_cpus s1 s2 -> same_cpus s2 s3 -> same_cpus s1 s3.
Proof.
  intros (A1 & A2 & A3 & A4) (B1 & B2 & B3 & B4). split_and!; [congruence..|]. intros c x Hx.
  destruct (A4 c x Hx) as (x' & Hx' & E1 & E2), (B4 c x' Hx') as (x'' & Hx'' & E3 & E4). exists x''. split_and!; congruence.
Qed.

Lemma wp_ipi h e s a c x Q : inv h e s a -> cpus s !! c = Some x ->
  (forall s', inv h e s' a -> same_cpus s s' -> threads s' = threads s -> tls s' = tls s -> Q tt s') -> wp (ipi_send c IPI_UNIDLE) Q s.
Proof.
  intros Hi Hc HQ. unfold ipi_send. wpsimp. split; [done|]. eapply wp_get_cpu; [done|]. unfold put_cpu. wpsimp. apply HQ; [|split_and!; cbn; try done|done..].
  - apply (inv_with_cpu h e e s a c x); [done|done|by right; right; right| |by left]. exact (inv_cpu _ _ _ _ Hi c x Hc).
  - rewrite dom_insert_lookup_L by eauto. done.
  - intros c' x' Hx'. destruct (decide (c' = c)) as [->|]; [rewrite lookup_insert_eq; eexists; split; [done|]; simplify_eq; done|].
    rewrite lookup_insert_ne by done. eauto.
Qed.

Section Runnable.
Variables (me t : Z) (x : thread) (s : sched) (a : seqs) (e e' : option Z) (xs : list Z).
Hypothesis Hi : inv (Some t) e s a.
Hypothesis Hx : threads s !! t = Some x.
Hypothesis Hc : is_Some (cpus s !! t_cpu x).
Hypothesis Hq : lists a !! c_runqueue (t_cpu x) = Some xs.
Hypothesis Hcur : forall c y, cpus s !! c = Some y -> c_curthread y = t -> e = Some c.
Hypothesis He : forall c y, cpus s !! c = Some y -> c_curthread y = t \/ e = Some c -> e' = Some c \/ (c_curthread y = t /\ c_isidle y = true).

Lemma wp_make_runnable Q :
  (forall s', inv None e' s' (put_list (c_runqueue (t_cpu x)) (xs ++ [t]) a) -> same_cpus s s' ->
     threads s' = <[t := Thread S_READY (t_cpu x) (t_proc x)]> (threads s) -> Q tt s') ->
  wp (thread_make_runnable me t) Q s.
Proof using All.
  intros HQ. unfold thread_make_runnable. wpsimp. eapply wp_get_thread; [done|]. wpsimp. eapply wp_set_state; [done|].
  set (x' := Thread S_READY (t_cpu x) (t_proc x)).
  assert (inv (Some t) e (with_thread s t x') a) as Hi'.
  { apply inv_edit; [done|]. intros c y Hy Et. split; [|by eapply Hcur]. cbn.
    destruct (cur_on _ _ _ _ _ _ Hi Hy) as (z & Hz & E). rewrite Et in Hz. congruence. }
  destruct (inv_hand _ _ _ _ Hi t eq_refl) as [Hk Hno].
  wpsimp. rewrite wp_on_lists. apply (wp_addtail _ a _ xs); [apply Hi|apply Hi|done..|]. intros L HL. wpsimp.
  assert (inv None e' (with_tls (with_thread s t x') L) (put_list (c_runqueue (t_cpu x)) (xs ++ [t]) a)) as Hi2.
  { eapply (inv_put _ _ _ _ _ t x'); try done.
    - cbn. by rewrite lookup_insert_eq.
    - left. split; [done|]. by left.
    - by rewrite <- Permutation_cons_append. }
  destruct Hc as [y Hy]. eapply wp_get_cpu; [done|]. destruct (c_isidle y && _); [|wpsimp; apply HQ; [done|exact (same_cpus_refl s)|done]].
  eapply wp_ipi; [done|done|]. intros s' Hi3 Hsame Hth _. apply HQ; [done| |by rewrite Hth].
  exact Hsame.
Qed.
End Runnable.

(** ** Switching away *)

Lemma inv_idle s a me x : inv None (Some me) s a -> cpus s !! me = Some x -> (exists l, at_ a (c_curthread x) l) ->
  inv None None (with_cpu s me (Cpu (c_curthread x) true (c_ipi_pending x) (c_hardclocks x))) a.
Proof.
  intros Hi Hx Hl. eapply inv_with_cpu; [done|done|by right; left| |by right].
  destruct (cur_on _ _ _ _ _ _ Hi Hx) as (y & Hy & Hc). exists y. split_and!; [done..|by right].
Qed.

(** The processors, but [ex], run what they ran. *)
Definition others_same (ex : option Z) (s s' : sched) : Prop :=
  forall c x, ex <> Some c -> cpus s !! c = Some x -> exists x', cpus s' !! c = Some x' /\ c_curthread x' = c_curthread x /\ c_isidle x' = c_isidle x.
Lemma same_others ex s s' : same_cpus s s' -> others_same ex s s'.
Proof. intros (_ & _ & _ & H) c x _. apply H. Qed.

(** What a switch leaves: the processor idle, its thread where the new state
    puts it. *)
Definition switched (s s' : sched) (me cur : Z) (x : thread) (st : threadstate) : Prop :=
  threads s' = <[cur := Thread st (t_cpu x) (t_proc x)]> (threads s) /\ migs s' = migs s /\ allcpus s' = allcpus s /\
  (exists y, cpus s' !! me = Some y /\ c_curthread y = cur /\ c_isidle y = true) /\ others_same (Some me) s s'.

Section Switch.
Variables (me : Z) (c : cpu) (s : sched) (a : seqs).
Let cur := c_curthread c.
Hypothesis Hi : inv None None s a.
Hypothesis Hc : cpus s !! me = Some c.
Hypothesis Hrun : c_isidle c = false.

Lemma cur_thread : exists x, threads s !! cur = Some x /\ t_cpu x = me.
Proof using Hi Hc. eapply cur_on; done. Qed.

Lemma cur_only c' y : cpus s !! c' = Some y -> c_curthread y = cur -> me = c'.
Proof using Hi Hc. intros Hy E. eapply cur_unique; done. Qed.

(** The thread goes to a list that is for the new state. *)
Lemma wp_switch_list st l xs x Q : threads s !! cur = Some x -> lists a !! l = Some xs -> fits l (Thread st (t_cpu x) (t_proc x)) ->
  (forall s', inv None None s' (put_list l (xs ++ [cur]) a) -> switched s s' me cur x st -> Q true s') ->
  wp (on_lists (threadlist_addtail l cur) ;; set_state cur st ;; c ← get_cpu me;
      put_cpu me (Cpu (c_curthread c) true (c_ipi_pending c) (c_hardclocks c)) ;; mret true) Q s.
Proof using All.
  intros Hx Hl Hf HQ. pose proof (inv_hold _ _ _ _ Hi Hc Hrun) as Hh. fold cur in Hh.
  destruct (inv_hand _ _ _ _ Hh cur eq_refl) as [Hk Hoff]. destruct cur_thread as (x0 & Hx0 & Hme). rewrite Hx in Hx0. injection Hx0 as <-.
  set (x' := Thread st (t_cpu x) (t_proc x)). wpsimp. rewrite wp_on_lists. apply (wp_addtail _ a _ xs); [apply Hi|apply Hi|done..|]. intros L HL.
  wpsimp. eapply wp_set_state; [done|]. fold x'. wpsimp. eapply wp_get_cpu; [exact Hc|]. unfold put_cpu. wpsimp.
  assert (inv None (Some me) (with_tls (with_thread s cur x') L) (put_list l (xs ++ [cur]) a)) as Hi2.
  { eapply (inv_put _ _ _ _ _ cur x'); [|cbn; by rewrite lookup_insert_eq|done|cbn; rewrite Hme; eauto|done|by rewrite <- Permutation_cons_append|done|..].
    - apply inv_edit; [done|]. intros c' y Hy E. rewrite <- (cur_only c' y Hy E). done.
    - cbn. intros c' y Hy [E|[= ->]]; [|by left]. left. by rewrite (cur_only c' y Hy E). }
  apply HQ.
  - apply (inv_idle _ _ me c Hi2 Hc). exists l. apply at_put. left. split; [done|]. apply elem_of_app. right. by apply list_elem_of_singleton.
  - split_and!; [done..|eexists; cbn; by rewrite lookup_insert_eq|]. intros c' y Hne Hy. exists y. cbn. by rewrite lookup_insert_ne by congruence.
Qed.

Lemma wp_switch_sleep wc xs x Q : threads s !! cur = Some x -> lists a !! wc_threads wc = Some xs ->
  (forall s', inv None None s' (put_list (wc_threads wc) (xs ++ [cur]) a) -> switched s s' me cur x S_SLEEP -> Q true s') ->
  wp (wchan_sleep me wc) Q s.
Proof using All.
  intros Hx Hl HQ. unfold wchan_sleep, thread_switch. wpsimp. eapply wp_get_cpu; [done|]. rewrite Hrun. fold cur. wpsimp. rewrite wp_on_lists.
  destruct (inv_queues _ _ _ _ Hi me) as [[qs Hq] _]; [eauto|]. eapply wp_isempty; [apply Hi|done|]. rewrite with_tls_id.
  change (bool_decide (S_SLEEP = S_READY)) with false. cbn [andb].
  eapply wp_switch_list; [done|done| |done]. right. right. split; [done|]. eauto.
Qed.

Lemma wp_switch_zombie x Q : threads s !! cur = Some x -> t_proc x = 0 ->
  (forall s' xs, lists a !! c_zombies me = Some xs -> inv None None s' (put_list (c_zombies me) (xs ++ [cur]) a) ->
     switched s s' me cur x S_ZOMBIE -> Q true s') ->
  wp (thread_exit me) Q s.
Proof using All.
  intros Hx Hp HQ. unfold thread_exit, thread_switch. wpsimp. eapply wp_get_cpu; [done|]. wpsimp. eapply wp_get_thread; [done|]. wpsimp.
  split; [by rewrite Hp|]. eapply wp_get_cpu; [done|]. rewrite Hrun. fold cur. wpsimp. rewrite wp_on_lists.
  destruct (inv_queues _ _ _ _ Hi me) as [[qs Hq] [zs Hz]]; [eauto|]. eapply wp_isempty; [apply Hi|done|]. rewrite with_tls_id.
  change (bool_decide (S_ZOMBIE = S_READY)) with false. cbn [andb]. destruct cur_thread as (x0 & Hx0 & Hme). rewrite Hx in Hx0. injection Hx0 as <-.
  eapply wp_switch_list; [done|done| |by eauto]. right. left. cbn. by rewrite Hme.
Qed.

(** A thread that yields goes to the end of the run queue, if there is another
    one to run. *)
Lemma wp_yield x Q : threads s !! cur = Some x -> (lists a !! c_runqueue me = Some [] -> Q false s) ->
  (forall s' xs, lists a !! c_runqueue me = Some xs -> xs <> [] -> inv None None s' (put_list (c_runqueue me) (xs ++ [cur]) a) ->
     switched s s' me cur x S_READY -> Q true s') ->
  wp (thread_yield me) Q s.
Proof using All.
  intros Hx HQ0 HQ. unfold thread_yield, thread_switch. wpsimp. eapply wp_get_cpu; [done|]. rewrite Hrun. fold cur. wpsimp. rewrite wp_on_lists.
  destruct (inv_queues _ _ _ _ Hi me) as [[qs Hq] [zs Hz]]; [eauto|]. eapply wp_isempty; [apply Hi|done|]. rewrite with_tls_id.
  change (bool_decide (S_READY = S_READY)) with true. cbn [andb]. case_bool_decide as Eq; [wpsimp; subst; by apply HQ0|]. wpsimp.
  destruct cur_thread as (x0 & Hx0 & Hme). rewrite Hx in Hx0. injection Hx0 as <-.
  assert (lists a !! c_runqueue (t_cpu x) = Some qs) as Hq' by (by rewrite Hme).
  apply (wp_make_runnable me cur x s a (Some me) (Some me) qs); try done.
  - by apply inv_hold.
  - rewrite Hme. eauto.
  - intros c' y Hy E. by rewrite (cur_only c' y Hy E).
  - intros c' y Hy [E|[= ->]]; [rewrite (cur_only c' y Hy E)|]; by left.
  - rewrite Hme. intros s1 Hi1 (S1 & S2 & S3 & S4) Hth. wpsimp. eapply wp_set_state; [rewrite Hth; by rewrite lookup_insert_eq|]. wpsimp.
    destruct (S4 me c Hc) as (c1 & Hc1 & E1 & E2). eapply wp_get_cpu; [exact Hc1|]. unfold put_cpu. wpsimp. cbn [t_cpu t_proc].
    assert (with_thread s1 cur (Thread S_READY me (t_proc x)) = s1) as Es.
    { unfold with_thread. rewrite Hth, insert_insert_eq. rewrite <- Hth. by destruct s1. }
    rewrite Es. eapply HQ; [done|done| |].
    + apply inv_idle; [done|done|]. rewrite E1. fold cur. exists (c_runqueue me). apply at_put. left. split; [done|]. apply elem_of_app. right. by apply list_elem_of_singleton.
    + split_and!; cbn; [by rewrite Hth, Hme|done..|eexists; by rewrite lookup_insert_eq|].
      intros c' y Hne Hy. cbn. rewrite lookup_insert_ne by congruence. by apply S4.
Qed.
End Switch.

(** ** Destroying threads *)

Lemma inv_thread h e s a t : inv h e s a -> t ∈ known a -> exists x, threads s !! t = Some x.
Proof. intros Hi Ht. rewrite (inv_known _ _ _ _ Hi) in Ht. by apply elem_of_dom in Ht as [x Hx]; eauto. Qed.

Lemma wp_destroy me s a t x Q : inv (Some t) None s a -> threads s !! t = Some x -> t_state x <> S_RUN -> t_proc x = 0 ->
  is_Some (cpus s !! me) -> (forall c y, cpus s !! c = Some y -> c_curthread y <> t) ->
  (inv None None (without_thread s t) (Seqs (lists a) (known a ∖ {[t]})) -> Q tt (without_thread s t)) -> wp (thread_destroy me t) Q s.
Proof.
  intros Hi Hx Hst Hp [c Hc] Hcur HQ. unfold thread_destroy. wpsimp. eapply wp_get_cpu; [done|]. wpsimp.
  split; [apply negb_true_iff, Z.eqb_neq; specialize (Hcur _ _ Hc); congruence|].
  eapply wp_get_thread; [done|]. wpsimp. rewrite bool_decide_eq_false_2 by done. split; [done|]. split; [by rewrite Hp|]. rewrite wp_on_lists.
  destruct (inv_hand _ _ _ _ Hi t eq_refl) as [Hk Hno].
  destruct (exec_abs (NodeCleanup t) (tls s) a a Unit) as (L & E & _); [apply Hi| |].
  { cbn. unfold addable. by rewrite !bool_decide_eq_true_2 by (done || by apply off_lists). }
  cbn in E. unfold mbind, M_bind in E. unfold wp.
  assert (threadlistnode_cleanup t (tls s) = Ok tt (tls s)) as ->; [|rewrite with_tls_id; apply HQ; by apply inv_free].
  destruct (abs_off _ _ (inv_abs _ _ _ _ Hi) t Hk) as [[n Hn] _]. unfold threadlistnode_cleanup, mbind, M_bind in E |- *. rewrite (node_ok _ _ _ Hn) in E |- *.
  unfold kassert in E |- *. by repeat (destruct (bool_decide _) in E |- *; try done).
Qed.

(** A zombie is not the thread of any processor that runs. *)
Lemma zombie_free s a me c z x : inv None None s a -> cpus s !! me = Some c -> c_isidle c = false -> at_ a z (c_zombies me) ->
  threads s !! z = Some x -> t_state x = S_ZOMBIE /\ t_proc x = 0 /\ forall c' y, cpus s !! c' = Some y -> c_curthread y <> z.
Proof.
  intros Hi Hc Hrun Hz Hx. destruct (inv_place _ _ _ _ Hi z _ Hz) as (x' & Hx' & Hf). rewrite Hx in Hx'. injection Hx' as <-.
  assert (t_state x = S_ZOMBIE /\ t_proc x = 0 /\ t_cpu x = me) as (H1 & H2 & H3).
  { destruct Hf as [[_ [Hf|Hf]]|[(H1 & H2 & H3)|[_ [w [Hf|Hf]]]]]; try (exfalso; clear -Hf; slots). split_and!; [done..|]. clear -H2. slots. }
  split_and!; [done..|]. intros c' y Hy Ey. destruct (cur_on _ _ _ _ _ _ Hi Hy) as (x' & Hx' & Hc'). rewrite Ey, Hx in Hx'. injection Hx' as <-.
  assert (c' = me) as -> by congruence. rewrite Hc in Hy. injection Hy as <-.
  destruct (inv_cpu _ _ _ _ Hi me c Hc) as (x' & _ & _ & [|Hst]); [done|]. rewrite Hrun in Hst. apply Hst, on_list_at. rewrite Ey. eauto.
Qed.

(** What exorcise leaves: the zombies of the processor are gone. *)
Definition exorcised (s s' : sched) (me : Z) (a a' : seqs) : Prop :=
  cpus s' = cpus s /\ migs s' = migs s /\ allcpus s' = allcpus s /\ lists a' = <[c_zombies me := []]> (lists a) /\
  (forall t x, threads s !! t = Some x -> t_state x <> S_ZOMBIE -> threads s' !! t = Some x).

Lemma wp_exorcise_loop me c fuel Q : forall s a zs, inv None None s a -> cpus s !! me = Some c -> c_isidle c = false ->
  lists a !! c_zombies me = Some zs -> (length zs <= fuel)%nat ->
  (forall s' a', inv None None s' a' -> exorcised s s' me a a' -> Q tt s') -> wp (exorcise_loop fuel me) Q s.
Proof.
  induction fuel as [|fuel IH]; intros s a zs Hi Hc Hrun Hz Hlen HQ; cbn [exorcise_loop]; wpsimp; rewrite wp_on_lists;
    (eapply wp_remhead; [apply Hi|done|]; intros L HL; destruct zs as [|z zs]; cbn [head tail] in *).
  1, 3: wpsimp; apply (HQ _ (put_list (c_zombies me) [] a)); [|by split_and!].
  3: simpl in Hlen; lia.
  1, 2: replace (put_list (c_zombies me) [] a) with a in *;
    [|destruct a; unfold put_list; cbn in *; by rewrite insert_id];
    destruct Hi; split; cbn; done.
  assert (at_ a z (c_zombies me)) as Hat by (exists (z :: zs); split; [done|left]).
  destruct (inv_place _ _ _ _ Hi z _ Hat) as (x & Hx & _). destruct (zombie_free s a me c z x) as (Hst & Hp & Hcur); try done.
  assert (inv (Some z) None (with_tls s L) (put_list (c_zombies me) zs a)) as Hi'.
  { eapply (inv_take s a _ [] zs); [done|done|done|]. intros c' y Hy Ey. by destruct (Hcur c' y Hy). }
  wpsimp. eapply wp_get_cpu; [exact Hc|]. wpsimp. split; [apply negb_true_iff, Z.eqb_neq; specialize (Hcur _ _ Hc); congruence|].
  eapply wp_get_thread; [exact Hx|]. wpsimp. split; [by apply bool_decide_eq_true_2|].
  eapply wp_destroy; [exact Hi'|exact Hx|by rewrite Hst|done|cbn; eauto|exact Hcur|]. intros Hi2.
  eapply IH; [exact Hi2|exact Hc|done|cbn; by rewrite lookup_insert_eq|simpl in Hlen; lia|].
  intros s' a' Hi3 (E1 & E2 & E3 & E4 & E5). apply (HQ s' a'); [done|]. split_and!; try done.
  - rewrite E4. cbn. by rewrite insert_insert_eq.
  - intros t y Hy Hne. apply E5; [|done]. cbn. rewrite lookup_delete_ne; [done|]. intros <-. congruence.
Qed.

Lemma list_size h e s a l xs : inv h e s a -> lists a !! l = Some xs -> (length xs <= size (threads s))%nat.
Proof.
  intros Hi Hl. pose proof (abs_nodup _ _ (inv_abs _ _ _ _ Hi) _ _ Hl) as Hnd.
  rewrite <- size_dom, <- (size_list_to_set (C := gset Z)), <- (inv_known _ _ _ _ Hi) by done. apply subseteq_size.
  intros t Ht%elem_of_list_to_set. eapply abs_known; [apply Hi|done..].
Qed.
Lemma put_same l a : lists a !! l = Some [] -> put_list l [] a = a.
Proof. intros Hl. unfold put_list. rewrite insert_id by done. by destruct a. Qed.
Lemma inv_tls h e s a L : inv h e s a -> abs L a -> inv h e (with_tls s L) a.
Proof. intros Hi HL. split; try apply Hi. done. Qed.

(** The threads of the run queue of [me] are its own and can run. *)
Lemma queued s a me t : inv None None s a -> at_ a t (c_runqueue me) -> exists x, threads s !! t = Some x /\ t_cpu x = me /\ t_state x = S_READY.
Proof.
  intros Hi Ht. destruct (inv_place _ _ _ _ Hi t _ Ht) as (x & Hx & Hf). exists x. split; [done|].
  destruct Hf as [[H1 [Hf|Hf]]|[(_ & Hf & _)|[_ [w [Hf|Hf]]]]]; try (exfalso; clear -Hf; slots). split; [clear -Hf; slots|done].
Qed.

(** ** Running the next thread *)

Definition runs (s s' : sched) (me t : Z) (x : thread) : Prop :=
  migs s' = migs s /\ allcpus s' = allcpus s /\
  (exists c, cpus s !! me = Some c /\ cpus s' = <[me := Cpu t false (c_ipi_pending c) (c_hardclocks c)]> (cpus s)) /\
  forall t' y, <[t := Thread S_RUN (t_cpu x) (t_proc x)]> (threads s) !! t' = Some y -> t_state y <> S_ZOMBIE -> threads s' !! t' = Some y.

Lemma wp_next me c s a qs Q : inv None None s a -> cpus s !! me = Some c -> c_isidle c = true ->
  lists a !! c_runqueue me = Some qs ->
  (forall L, qs = [] -> inv None None (with_tls s L) a -> Q false (with_tls s L)) ->
  (forall t ts x s' a', qs = t :: ts -> threads s !! t = Some x -> inv None None s' a' ->
     lists a' = <[c_zombies me := []]> (<[c_runqueue me := ts]> (lists a)) -> runs s s' me t x -> Q true s') ->
  wp (thread_next me) Q s.
Proof.
  intros Hi Hc Hidle Hq HQ0 HQ. unfold thread_next. wpsimp. rewrite wp_on_lists. eapply wp_remhead; [apply Hi|done|]. intros L HL.
  destruct qs as [|t ts]; cbn [head tail] in *; [wpsimp; rewrite (put_same _ _ Hq) in HL; apply HQ0; [done|by apply inv_tls]|].
  destruct (queued s a me t Hi) as (x & Hx & Hme & _); [exists (t :: ts); split; [done|left]|].
  assert (inv (Some t) (Some me) (with_tls s L) (put_list (c_runqueue me) ts a)) as Hi1.
  { eapply (inv_take s a _ [] ts); [done|done|done|].
    intros c' y Hy Ey. destruct (cur_on _ _ _ _ _ _ Hi Hy) as (x' & Hx' & Hc'). rewrite Ey, Hx in Hx'. congruence. }
  wpsimp. eapply wp_get_cpu; [exact Hc|]. unfold put_cpu. wpsimp. set (c1 := Cpu t false (c_ipi_pending c) (c_hardclocks c)).
  assert (inv (Some t) (Some me) (with_cpu (with_tls s L) me c1) (put_list (c_runqueue me) ts a)) as Hi2.
  { eapply inv_with_cpu; [exact Hi1|exact Hc|by right; right; left| |by left]. exists x. cbn. auto. }
  eapply wp_set_state; [exact Hx|]. wpsimp. set (x1 := Thread S_RUN (t_cpu x) (t_proc x)).
  assert (inv (Some t) (Some me) (with_thread (with_cpu (with_tls s L) me c1) t x1) (put_list (c_runqueue me) ts a)) as Hi3.
  { apply inv_edit; [done|]. intros c' y Hy Ey. destruct (cur_on _ _ _ _ _ _ Hi2 Hy) as (x' & Hx' & Hc'). cbn in Hx'. rewrite Ey, Hx in Hx'.
    injection Hx' as <-. cbn. split; congruence. }
  eapply inv_run in Hi3; [|cbn; by rewrite lookup_insert_eq|done|done|cbn; by rewrite lookup_insert_eq|done].
  destruct (inv_queues _ _ _ _ Hi me) as [_ [zs Hz]]; [eauto|].
  assert (lists (put_list (c_runqueue me) ts a) !! c_zombies me = Some zs) as Hz' by (cbn; rewrite lookup_insert_ne by slots; done).
  unfold exorcise. wpsimp. eapply wp_exorcise_loop; [exact Hi3|cbn; by rewrite lookup_insert_eq|done|exact Hz'|by eapply list_size|].
  intros s' a' Hi4 (E1 & E2 & E3 & E4 & E5). wpsimp. eapply HQ; [done|done|exact Hi4|by rewrite E4|]. split_and!; [done..| |exact E5].
  exists c. split; [done|]. by rewrite E1.
Qed.

(** ** Wait channels *)

(** A sleeping thread that was taken from its channel. *)
Lemma taken_idle s a t l : inv None None s a -> at_ a t l ->
  forall c y, cpus s !! c = Some y -> c_curthread y = t -> c_isidle y = true.
Proof.
  intros Hi Ht c y Hy Ey. destruct (inv_cpu _ _ _ _ Hi c y Hy) as (x & Hx & Hc & [|Hst]); [done|]. destruct (c_isidle y); [done|].
  destruct Hst as [Hno _]. destruct Hno. apply on_list_at. rewrite Ey. eauto.
Qed.

Definition woken (s s' : sched) (me t : Z) (x : thread) : Prop :=
  same_cpus s s' /\ threads s' = <[t := Thread S_READY (t_cpu x) (t_proc x)]> (threads s).

Lemma sleeper s a t l w : inv None None s a -> at_ a t l -> l = wc_threads w \/ l = woken_list w ->
  exists x, threads s !! t = Some x /\ t_state x = S_SLEEP /\ is_Some (cpus s !! t_cpu x).
Proof.
  intros Hi Ht Hl. destruct (inv_place _ _ _ _ Hi t _ Ht) as (x & Hx & Hf). exists x. split; [done|].
  split; [|eapply inv_tcpu; [apply Hi|done|done]].
  destruct Hf as [[_ [Hf|Hf]]|[(_ & Hf & _)|[Hs _]]]; [exfalso; clear -Hf Hl; destruct Hl; slots..|done].
Qed.

(** Taking a thread off a list: only an idle processor can still use it. *)
Lemma inv_take_exact s a l xs1 xs2 t x L : inv None None s a -> threads s !! t = Some x -> lists a !! l = Some (xs1 ++ t :: xs2) -> abs L (put_list l (xs1 ++ xs2) a) ->
  exists e, inv (Some t) e (with_tls s L) (put_list l (xs1 ++ xs2) a) /\
    forall c z, cpus s !! c = Some z -> (c_curthread z = t <-> e = Some c) /\ (c_curthread z = t -> c_isidle z = true).
Proof.
  intros Hi Hx Hl HL. assert (at_ a t l) as Hat by (exists (xs1 ++ t :: xs2); split; [done|apply elem_of_app; right; left]).
  pose proof (inv_tcpu _ _ _ _ Hi t x Hx ltac:(done)) as [y Hy].
  set (e := if decide (c_curthread y = t) then Some (t_cpu x) else None).
  assert (forall c z, cpus s !! c = Some z -> c_curthread z = t <-> e = Some c) as He.
  { intros c z Hz. subst e. split.
    - intros Ez. destruct (cur_on _ _ _ _ _ _ Hi Hz) as (x' & Hx' & <-). rewrite Ez, Hx in Hx'. injection Hx' as <-.
      rewrite Hy in Hz. injection Hz as <-. by rewrite decide_True.
    - case_decide; [|done]. intros [= <-]. congruence. }
  exists e. split; [eapply inv_take; [done..|]; intros c z Hz; by apply He|].
  intros c z Hz. split; [by apply He|]. by eapply taken_idle.
Qed.

(** A thread that goes from one list to another. *)
Lemma inv_move s a l xs1 xs2 l' ys zs t x L1 L : inv None None s a -> threads s !! t = Some x -> lists a !! l = Some (xs1 ++ t :: xs2) ->
  abs L1 (put_list l (xs1 ++ xs2) a) -> lists (put_list l (xs1 ++ xs2) a) !! l' = Some ys -> zs ≡ₚ t :: ys -> fits l' x ->
  abs L (put_list l' zs (put_list l (xs1 ++ xs2) a)) -> inv None None (with_tls s L) (put_list l' zs (put_list l (xs1 ++ xs2) a)).
Proof.
  intros Hi Hx Hl H1 Hy Hz Hf HL. destruct (inv_take_exact _ _ _ _ _ _ _ _ Hi Hx Hl H1) as (e & Hi1 & He).
  eapply (inv_put (with_tls s L1) _ l' ys zs t x L e None Hi1); [done|done|exact (inv_tcpu _ _ _ _ Hi t x Hx ltac:(done))|done..|].
  cbn. intros c y Hc Hor. destruct (He c y Hc) as [E1 E2]. right. rewrite <- E1 in Hor. tauto.
Qed.

(** The first thread of a list of sleepers goes to its run queue. *)
Lemma wp_wake_first me s a l w t ts L Q : inv None None s a -> l = wc_threads w \/ l = woken_list w -> lists a !! l = Some (t :: ts) ->
  abs L (put_list l ts a) ->
  (forall x xs s', threads s !! t = Some x -> lists a !! c_runqueue (t_cpu x) = Some xs ->
     inv None None s' (put_list (c_runqueue (t_cpu x)) (xs ++ [t]) (put_list l ts a)) -> woken s s' me t x -> Q tt s') ->
  wp (thread_make_runnable me t) Q (with_tls s L).
Proof.
  intros Hi Hw Hl HL HQ. assert (at_ a t l) as Hat by (exists (t :: ts); split; [done|left]).
  destruct (sleeper s a t l w Hi Hat Hw) as (x & Hx & Hst & Hc). destruct (inv_queues _ _ _ _ Hi _ Hc) as [[xs Hq] _].
  assert (l <> c_runqueue (t_cpu x)) as Hne by (destruct Hw; slots).
  destruct (inv_take_exact s a l [] ts t x L Hi Hx Hl HL) as (e & Hi1 & He).
  eapply (wp_make_runnable me t x _ (put_list l ts a) e None xs Hi1 Hx Hc); [cbn; by rewrite lookup_insert_ne|..].
  - intros c z Hz. by apply He.
  - intros c z Hz Ez. right. destruct (He c z Hz) as [E1 E2]. rewrite <- E1 in Ez. tauto.
  - intros s' Hi' Hs Hth. eapply HQ; [done|done|done|]. by split.
Qed.

Lemma wp_wakeone me wc s a xs Q : inv None None s a -> lists a !! wc_threads wc = Some xs ->
  (forall L, xs = [] -> inv None None (with_tls s L) a -> Q tt (with_tls s L)) ->
  (forall t ts x qs s', xs = t :: ts -> threads s !! t = Some x -> lists a !! c_runqueue (t_cpu x) = Some qs ->
     inv None None s' (put_list (c_runqueue (t_cpu x)) (qs ++ [t]) (put_list (wc_threads wc) ts a)) -> woken s s' me t x -> Q tt s') ->
  wp (wchan_wakeone me wc) Q s.
Proof.
  intros Hi Hl HQ0 HQ. unfold wchan_wakeone. wpsimp. rewrite wp_on_lists. eapply wp_remhead; [apply Hi|done|]. intros L HL.
  destruct xs as [|t ts]; cbn [head tail] in *; [wpsimp; rewrite (put_same _ _ Hl) in HL; apply HQ0; [done|by apply inv_tls]|].
  eapply wp_wake_first; [done|by left|done|done|]. intros x qs s' Hx Hq Hi' Hw. by eapply HQ.
Qed.

(** ** Waking all sleepers *)

Abbreviation keeps_all := (keeps (fun _ => False)).

Lemma keeps_append a c xs ys : lists a !! c_runqueue c = Some xs -> keeps_all a (put_list (c_runqueue c) (xs ++ ys) a).
Proof. intros Hx. apply keeps_put; [|intros c' _; slots]. intros c' _ _ zs Hz. simplify_eq. eauto. Qed.
Lemma keeps_other a l xs : (forall c, l <> c_runqueue c /\ l <> victims c) -> keeps_all a (put_list l xs a).
Proof. intros Hl. apply keeps_put; intros c' _; [|apply Hl]. intros E. by destruct (Hl c'). Qed.

Definition only_lists (P : Z -> Prop) (a a' : seqs) : Prop := forall l, ~ P l -> lists a' !! l = lists a !! l.

Lemma taken_off s a l t ts : inv None None s a -> lists a !! l = Some (t :: ts) -> ~ on_list t (<[l := ts]> (lists a)) /\ t ∈ known a.
Proof.
  intros Hi Hx. split; [|eapply abs_known; [apply Hi|exact Hx|left]].
  intros (k & zs & [[<- <-]|[Hnk Hk]]%lookup_insert_Some & Hz).
  - pose proof (abs_nodup _ _ (inv_abs _ _ _ _ Hi) _ _ Hx) as Hnd. by apply NoDup_cons in Hnd as [? _].
  - apply Hnk. eapply abs_apart; [apply Hi|exact Hx|exact Hk|left|done].
Qed.

(** All threads of a list go to the end of another one that fits them. *)
Lemma wp_grab from to s fuel Q : from <> to -> forall L a xs ys, inv None None (with_tls s L) a -> lists a !! from = Some xs -> lists a !! to = Some ys ->
  (forall t x, t ∈ xs -> threads s !! t = Some x -> fits to x) -> (length xs <= fuel)%nat ->
  (forall L' a', inv None None (with_tls s L') a' -> lists a' = <[to := ys ++ xs]> (<[from := []]> (lists a)) -> Q tt L') ->
  wp (grab fuel from to) Q L.
Proof.
  intros Hne. induction fuel as [|fuel IH]; intros L a xs ys Hi Hx Hy Hf Hlen HQ; cbn [grab]; wpsimp;
    (eapply wp_remhead; [apply Hi|done|]; intros L1 HL1; destruct xs as [|t ts]; cbn [head tail] in *).
  1, 3: wpsimp; rewrite (put_same _ _ Hx) in HL1; eapply (HQ L1 a);
    [by apply (inv_tls _ _ _ _ L1 Hi)|rewrite app_nil_r, (insert_id (lists a)), insert_id by done; done].
  1: simpl in Hlen; lia.
  destruct (taken_off _ _ _ _ _ Hi Hx) as [Hno Hk]. destruct (inv_thread _ _ _ _ _ Hi Hk) as [x Ht].
  assert (lists (put_list from ts a) !! to = Some ys) as Hy' by (cbn; by rewrite lookup_insert_ne).
  wpsimp. eapply (wp_addtail L1 (put_list from ts a) _ ys); [done|apply Hi|done..|]. intros L2 HL2. wpsimp.
  assert (inv None None (with_tls s L2) (put_list to (ys ++ [t]) (put_list from ts a))) as Hi2.
  { eapply (inv_move (with_tls s L) a from [] ts to ys _ t x L1 L2 Hi); [done..|by rewrite <- Permutation_cons_append| |done].
    eapply Hf; [left|done]. }
  eapply IH; [exact Hi2|cbn; rewrite lookup_insert_ne by done; by rewrite lookup_insert_eq|cbn; by rewrite lookup_insert_eq|
    intros t' x' Ht' Hx'; eapply Hf; [by right|done]|simpl in Hlen; lia|].
  intros L' a' Hi' E. eapply HQ; [done|]. rewrite E. cbn. rewrite <- app_assoc. cbn.
  rewrite (insert_insert_ne _ from to) by done. by rewrite !insert_insert_eq.
Qed.

(** The sleepers that were collected become ready, in order, each on the queue
    of its processor. *)
Definition all_woken (s s' : sched) (ts : list Z) : Prop :=
  same_cpus s s' /\ forall t, threads s' !! t = if decide (t ∈ ts) then (fun x => Thread S_READY (t_cpu x) (t_proc x)) <$> threads s !! t else threads s !! t.

Lemma wp_make_all me fuel Q : forall s a ts, inv None None s a -> lists a !! woken_list me = Some ts -> (length ts <= fuel)%nat ->
  (forall s' a', inv None None s' a' -> only_lists (fun l => l = woken_list me \/ exists c, l = c_runqueue c) a a' ->
     keeps_all a a' -> lists a' !! woken_list me = Some [] -> all_woken s s' ts -> Q tt s') ->
  wp (make_all_runnable fuel me) Q s.
Proof.
  induction fuel as [|fuel IH]; intros s a ts Hi Hl Hlen HQ; cbn [make_all_runnable]; wpsimp; rewrite wp_on_lists;
    (eapply wp_remhead; [apply Hi|done|]; intros L HL; destruct ts as [|t ts]; cbn [head tail] in *).
  1, 3: wpsimp; rewrite (put_same _ _ Hl) in HL; apply (HQ _ a);
    [by apply inv_tls|done|apply keeps_refl|done|split; [exact (same_cpus_refl s)|intros t; by rewrite decide_False by apply not_elem_of_nil]].
  1: simpl in Hlen; lia.
  pose proof (abs_nodup _ _ (inv_abs _ _ _ _ Hi) _ _ Hl) as [Hnot _]%NoDup_cons.
  wpsimp. eapply (wp_wake_first me s a _ me); [done|by right|done|done|]. intros x qs s1 Hx Hq Hi1 [Hs1 Hth1].
  eapply IH; [exact Hi1|cbn; rewrite lookup_insert_ne by slots; by rewrite lookup_insert_eq|simpl in Hlen; lia|].
  intros s' a' Hi' Ho Hk Hnil [Hs' Hth']. eapply HQ; [done| | |done|].
  - intros l Hl'. rewrite Ho by done. cbn. rewrite !lookup_insert_ne; [done|..]; intros <-; apply Hl'; eauto.
  - eapply keeps_trans; [|exact Hk]. eapply keeps_trans; [apply (keeps_other a (woken_list me) ts); intros c; split; slots|].
    apply keeps_append. cbn. rewrite lookup_insert_ne by slots. done.
  - split; [by eapply same_cpus_trans|]. intros t'. rewrite Hth', Hth1. destruct (decide (t' = t)) as [->|Hne].
    + rewrite (decide_False (P := t ∈ ts)) by done. rewrite lookup_insert_eq, decide_True by left. by rewrite Hx.
    + rewrite lookup_insert_ne by done. repeat case_decide; try done; exfalso; set_solver.
Qed.
End SchedOps.
