(* ===== verification/SchedNew.v ===== *)
(** * Creating threads and channels, and migration

    The rest of the operations of [Sched]: waking every sleeper of a channel,
    new threads, new wait channels, new processors, and the sections of
    thread_consider_migration. *)

From S2P Require Import Prelude Kern Threadlist Sched SchedSpec SchedOps.
Open Scope Z_scope.
Import Threadlist Sched SchedSpec SchedOps.

Module SchedNew.

(** A list that was not there, or was empty, is initialised. *)
Lemma inv_newlist h s a l L : inv h None s a -> absent a l -> 0 < l < 5 * s_next s -> abs L (put_list l [] a) ->
  inv h None (with_tls s L) (put_list l [] a).
Proof.
  intros Hi Hno Hl HL. assert (forall t k, at_ (put_list l [] a) t k <-> at_ a t k) as Hat.
  { intros t k. rewrite at_put. destruct (decide (k = l)) as [->|]; [|naive_solver]. split; [intros [[_ []%elem_of_nil]|[? _]]; done|].
    intros (xs & Hxs & Ht). destruct Hno; simplify_eq; by apply elem_of_nil in Ht. }
  assert (forall t, on_list t (lists (put_list l [] a)) <-> on_list t (lists a)) as Hon.
  { intros t. rewrite !on_list_at. by setoid_rewrite Hat. }
  split; cbn [with_tls tls threads cpus migs allcpus s_next]; try apply Hi; [done|..].
  - intros t Ht. rewrite Hon. by apply Hi.
  - intros t k Hk%Hat. by eapply inv_place.
  - intros t x Hx Hne. setoid_rewrite Hat. exact (inv_home _ _ _ _ Hi t x Hx Hne).
  - intros c x Hx. destruct (inv_cpu _ _ _ _ Hi c x Hx) as (y & Hy & Hc & [|Hst]); [done|]. exists y. split_and!; [done..|]. right.
    destruct (c_isidle x); [by setoid_rewrite Hat|]. by rewrite Hon.
  - intros c Hc. destruct (inv_queues _ _ _ _ Hi c Hc) as [H1 H2]. cbn. rewrite !lookup_insert_is_Some.
    split; destruct (decide (l = c_runqueue c)), (decide (l = c_zombies c)); auto.
  - destruct (inv_fresh _ _ _ _ Hi) as (H1 & H2 & H3 & H4). split_and!; [done..|]. cbn. intros k [<-|[_ Hk]]%lookup_insert_is_Some; [done|by apply H4].
Qed.

(** Between operations the private lists of wchan_wakeall are empty. *)
Definition quiet (a : seqs) : Prop := forall c, absent a (woken_list c).

Lemma absent_eq a a' l : lists a' !! l = lists a !! l -> absent a l -> absent a' l.
Proof. unfold absent. by intros ->. Qed.

Lemma wp_wakeall me wc s a xs Q : inv None None s a -> quiet a -> is_Some (cpus s !! me) -> lists a !! wc_threads wc = Some xs ->
  (forall s' a', inv None None s' a' -> only_lists (fun l => l = wc_threads wc \/ l = woken_list me \/ exists c, l = c_runqueue c) a a' ->
     keeps_all a a' -> lists a' !! wc_threads wc = Some [] -> lists a' !! woken_list me = Some [] -> all_woken s s' xs -> Q tt s') ->
  wp (wchan_wakeall me wc) Q s.
Proof.
  intros Hi Hq Hme Hx HQ. assert (woken_list me <> wc_threads wc) as Hne by slots. unfold wchan_wakeall. wpsimp. rewrite wp_on_lists.
  destruct (inv_fresh _ _ _ _ Hi) as (F1 & F2 & F3 & F4). pose proof (F3 me Hme) as Hm. pose proof (Hq me) as Habs.
  eapply wp_init; [apply Hi|done|]. intros L HL. wpsimp. rewrite wp_on_lists.
  assert (inv None None (with_tls s L) (put_list (woken_list me) [] a)) as Hi1 by (apply inv_newlist; [done|done|slots|done]).
  eapply (wp_grab _ _ s _ _ (not_eq_sym Hne) _ (put_list (woken_list me) [] a) xs []);
    [exact Hi1|cbn; by rewrite lookup_insert_ne|cbn; by rewrite lookup_insert_eq| |by eapply list_size|].
  { intros t x Ht Htx. destruct (sleeper s a t (wc_threads wc) wc Hi) as (x' & Hx' & Hst & _); [by exists xs|by left|]. simplify_eq.
    right. right. split; [done|]. eauto. }
  intros L2 a2 Hi2 E2. cbn [app lists put_list] in E2. wpsimp.
  eapply (wp_make_all me _ _ (with_tls s L2) a2 xs); [exact Hi2|rewrite E2; by rewrite lookup_insert_eq|by eapply list_size|].
  intros s3 a3 Hi3 Ho Hk Hnil Hw. rewrite wp_on_lists. eapply wp_cleanup; [apply Hi3|exact Hnil|done|]. rewrite with_tls_id.
  eapply HQ; [done| | | |done|exact Hw].
  - intros l Hl. rewrite Ho by tauto. rewrite E2. rewrite !lookup_insert_ne; [done|..]; intros <-; tauto.
  - eapply keeps_trans; [|exact Hk]. intros c _. rewrite E2. rewrite !lookup_insert_ne by slots. split; [|done]. intros ys Hy. exists []. by rewrite app_nil_r.
  - rewrite Ho; [|intros [?|[c ?]]; slots]. rewrite E2. rewrite lookup_insert_ne by done. by rewrite lookup_insert_eq.
Qed.

(** ** Objects *)

Definition with_mem (s : sched) (n : Z) (l : list bool) : sched :=
  Sched (tls s) (threads s) (cpus s) (allcpus s) (migs s) n l.

Lemma inv_mem h e s a n l : inv h e s a -> s_next s <= n -> inv h e (with_mem s n l) a.
Proof.
  intros Hi Hn. destruct (inv_fresh _ _ _ _ Hi) as (F1 & F2 & F3 & F4). split; try apply Hi. cbn. split_and!; [lia|..].
  - intros t Ht. specialize (F2 t Ht). lia.
  - intros c Hc. specialize (F3 c Hc). lia.
  - intros k Hk. specialize (F4 k Hk). lia.
Qed.

Lemma wp_kmalloc_s s Q : (forall b l, Q b (with_mem s (s_next s) l)) -> wp kmalloc Q s.
Proof. intros HQ. unfold wp, kmalloc. cbn. destruct (s_allocs s) as [|b l] eqn:E; [|apply HQ]. specialize (HQ true []). rewrite <- E in HQ. by destruct s. Qed.

Lemma wp_obj s Q : (forall l, Q None (with_mem s (s_next s) l)) -> (forall l, s_next s < 2 ^ 32 -> Q (Some (s_next s)) (with_mem s (s_next s + 1) l)) ->
  wp kmalloc_obj Q s.
Proof.
  intros H1 H2. unfold kmalloc_obj. wpsimp. apply wp_kmalloc_s. intros b l. wpsimp. cbn [with_mem s_next].
  destruct b; cbn [andb negb]; [|wpsimp; apply H1]. destruct (Z.ltb_spec (s_next s) (2 ^ 32)); cbn [negb]; wpsimp; [by apply H2|apply H1].
Qed.

Lemma wp_wchan_create s a Q : inv None None s a ->
  (forall l, inv None None (with_mem s (s_next s) l) a -> Q None (with_mem s (s_next s) l)) ->
  (forall s' a' wc, inv None None s' a' -> a' = put_list (wc_threads wc) [] a -> lists a !! wc_threads wc = None -> wc = s_next s ->
     threads s' = threads s -> cpus s' = cpus s -> allcpus s' = allcpus s -> migs s' = migs s -> Q (Some wc) s') ->
  wp wchan_create Q s.
Proof.
  intros Hi H1 H2. unfold wchan_create. wpsimp. apply wp_obj; [intros l; wpsimp; apply H1; by apply inv_mem|]. intros l Hlt. wpsimp. rewrite wp_on_lists.
  destruct (inv_fresh _ _ _ _ Hi) as (F1 & F2 & F3 & F4).
  assert (lists a !! wc_threads (s_next s) = None) as Hno.
  { apply eq_None_not_Some. intros Hs. specialize (F4 _ Hs). slots. }
  eapply wp_init; [apply Hi|by left|]. intros L HL. wpsimp. eapply H2; try done.
  apply (inv_newlist None (with_mem s (s_next s + 1) l)); [apply inv_mem; [done|lia]|by left|cbn; slots|done].
Qed.

(** ** New threads *)

Definition with_new (s : sched) (L : tlstate) (t : Z) (n : Z) (l : list bool) : sched :=
  Sched L (<[t := Thread S_READY 0 0]> (threads s)) (cpus s) (allcpus s) (migs s) n l.

Lemma inv_new s a t l : inv None None s a -> t = s_next s -> t < 2 ^ 32 ->
  inv (Some t) None (with_new s (put (Node t) (Tln None None (Some t)) (tls s)) t (s_next s + 1) l) (Seqs (lists a) ({[t]} ∪ known a)).
Proof.
  intros Hi -> Hlt. destruct (inv_fresh _ _ _ _ Hi) as (F1 & F2 & F3 & F4). set (t := s_next s) in *.
  assert (threads s !! t = None) as Hnone by (apply eq_None_not_Some; intros Hs; specialize (F2 _ Hs); lia).
  assert (~ on_list t (lists a)) as Hno.
  { intros Hon. apply on_list_at in Hon as [k Hk]. destruct (inv_place _ _ _ _ Hi t k Hk) as (x & Hx & _). congruence. }
  split; cbn [with_new tls threads cpus migs allcpus s_next lists known]; try apply Hi.
  - apply node_init_abs; [apply Hi|done].
  - by rewrite dom_insert_L, (inv_known _ _ _ _ Hi).
  - intros y [->%elem_of_singleton|Hy]%elem_of_union; [lia|by apply Hi].
  - intros y [= <-]. split; [set_solver|done].
  - intros y k Hk. destruct (inv_place _ _ _ _ Hi y k Hk) as (x & Hx & Hf). exists x. rewrite lookup_insert_ne; [done|congruence].
  - intros y x Hx Hne. rewrite lookup_insert_ne in Hx by congruence. exact (inv_home _ _ _ _ Hi y x Hx ltac:(done)).
  - intros y x Hx Hne. rewrite lookup_insert_ne in Hx by congruence. exact (inv_tcpu _ _ _ _ Hi y x Hx ltac:(done)).
  - intros c x Hx. destruct (inv_cpu _ _ _ _ Hi c x Hx) as (y & Hy & H'). exists y. rewrite lookup_insert_ne; [done|congruence].
  - split_and!; [lia| |intros c Hc; specialize (F3 c Hc); lia|intros k Hk; specialize (F4 k Hk); lia].
    intros y [<-|[_ Hy]]%lookup_insert_is_Some; [lia|]. specialize (F2 y Hy). lia.
Qed.

Lemma wp_create s a Q : inv None None s a ->
  (forall n l, s_next s <= n -> inv None None (with_mem s n l) a -> Q None (with_mem s n l)) ->
  (forall s' t, inv (Some t) None s' (Seqs (lists a) ({[t]} ∪ known a)) -> threads s !! t = None ->
     threads s' = <[t := Thread S_READY 0 0]> (threads s) -> cpus s' = cpus s -> allcpus s' = allcpus s -> migs s' = migs s -> Q (Some t) s') ->
  wp thread_create Q s.
Proof.
  intros Hi H1 H2. destruct (inv_fresh _ _ _ _ Hi) as (F1 & F2 & _).
  unfold thread_create. wpsimp. apply wp_obj; [intros l; wpsimp; apply H1; [lia|by apply inv_mem]|]. intros l Hlt. wpsimp.
  apply wp_kmalloc_s. intros [] l2; cbn [negb]; wpsimp; [|apply H1; [cbn; lia|apply inv_mem; [done|cbn; lia]]].
  rewrite wp_on_lists. unfold threadlistnode_init. wpsimp. split; [apply negb_true_iff, Z.eqb_neq; lia|]. unfold put_thread. wpsimp.
  apply H2; try done; [exact (inv_new s a (s_next s) l2 Hi eq_refl Hlt)|]. apply eq_None_not_Some. intros Hs. specialize (F2 _ Hs). lia.
Qed.

(** What thread_fork leaves alone. *)
Definition forks (s s' : sched) (a a' : seqs) : Prop :=
  same_cpus s s' /\ only_lists (fun l => exists c, l = c_runqueue c) a a' /\ keeps_all a a' /\ (forall t x, threads s !! t = Some x -> threads s' !! t = Some x).

(** A new thread that cannot be finished is destroyed again. *)
Lemma wp_fork_undo me s0 a s t x Q : inv (Some t) None s (Seqs (lists a) ({[t]} ∪ known a)) -> threads s !! t = Some x -> t_state x = S_READY -> t_proc x = 0 ->
  is_Some (cpus s !! me) -> (forall c y, cpus s !! c = Some y -> c_curthread y <> t) -> threads s0 !! t = None ->
  (forall y z, threads s0 !! y = Some z -> threads s !! y = Some z) -> same_cpus s0 s ->
  (forall s' a', inv None None s' a' -> forks s0 s' a a' -> Q (Err ENOMEM) s') ->
  wp (thread_destroy me t ;; mret (Err ENOMEM : res unit)) Q s.
Proof.
  intros Hi Hx Hst Hp Hme Hcur Hnew Hold Hsame HQ. wpsimp. eapply wp_destroy; [exact Hi|exact Hx|by rewrite Hst|done|done|done|]. intros Hi'. wpsimp.
  eapply HQ; [exact Hi'|]. split_and!; [exact Hsame|done|exact (keeps_refl (fun _ => False) a)|]. intros y z Hz. cbn. rewrite lookup_delete_ne; [by apply Hold|congruence].
Qed.

Lemma wp_fork me proc s a c Q : inv None None s a -> cpus s !! me = Some c -> c_isidle c = false ->
  (forall r s' a', inv None None s' a' -> forks s s' a a' -> Q r s') -> wp (thread_fork me proc) Q s.
Proof.
  intros Hi Hc Hrun HQ. unfold thread_fork. wpsimp. apply (wp_create s a); [done|intros n l Hn Hi'; wpsimp; eapply HQ; [exact Hi'|]|].
  { split_and!; [exact (same_cpus_refl s)|done|apply keeps_refl|done]. }
  intros s1 t Hi1 Hnew Hth E1 E2 E3. destruct (cur_on _ _ _ _ _ _ Hi Hc) as (x & Hx & Hcx).
  assert (forall c y, cpus s !! c = Some y -> c_curthread y <> t) as Hcur.
  { intros c' y Hy Ey. destruct (cur_on _ _ _ _ _ _ Hi Hy) as (z & Hz & _). congruence. }
  assert (c_curthread c <> t) as Hct by eauto.
  assert (same_cpus s s1) as Hs1 by (split_and!; [done..|by rewrite E1|rewrite E1; eauto]).
  assert (forall y z, threads s !! y = Some z -> y <> t) as Hne by congruence.
  wpsimp. apply wp_kmalloc_s. intros [] l1; cbn [negb].
  2: { eapply (wp_fork_undo me s a _ t); [apply inv_mem; [exact Hi1|lia]|cbn; rewrite Hth; by rewrite lookup_insert_eq|done|done|cbn; rewrite E1; eauto|
         cbn; rewrite E1; done|done|cbn; intros y z Hz; rewrite Hth, lookup_insert_ne; [done|apply not_eq_sym; eauto]|exact Hs1|eauto]. }
  set (s2 := with_mem s1 (s_next s1) l1). assert (inv (Some t) None s2 (Seqs (lists a) ({[t]} ∪ known a))) as Hi2 by (by apply inv_mem).
  wpsimp. eapply wp_get_cpu; [cbn; rewrite E1; exact Hc|]. wpsimp. eapply wp_get_thread; [cbn; rewrite Hth, lookup_insert_ne by done; exact Hx|]. wpsimp.
  eapply wp_get_thread; [cbn; rewrite Hth; by rewrite lookup_insert_eq|]. unfold put_thread. wpsimp. cbn [t_state t_cpu t_proc]. rewrite Hcx.
  assert (inv (Some t) None (with_thread s2 t (Thread S_READY me 0)) (Seqs (lists a) ({[t]} ∪ known a))) as Hi3.
  { apply inv_edit; [done|]. cbn. rewrite E1. intros c' y Hy Ey. by destruct (Hcur c' y Hy). }
  apply wp_kmalloc_s. intros [] l2; cbn [negb].
  2: { eapply (wp_fork_undo me s a _ t); [apply inv_mem; [exact Hi3|cbn; lia]|cbn; by rewrite lookup_insert_eq|done|done|cbn; rewrite E1; eauto|
         cbn; rewrite E1; done|done|cbn; intros y z Hz; rewrite lookup_insert_ne, Hth, lookup_insert_ne; [done|apply not_eq_sym; eauto..]|exact Hs1|eauto]. }
  wpsimp. eapply wp_get_thread; [cbn; by rewrite lookup_insert_eq|]. wpsimp. cbn [t_state t_cpu t_proc].
  set (p := if proc =? 0 then t_proc x else proc).
  set (s3 := with_thread (with_mem (with_thread s2 t (Thread S_READY me 0)) (s_next s2) l2) t (Thread S_READY me p)).
  assert (inv (Some t) None s3 (Seqs (lists a) ({[t]} ∪ known a))) as Hi4.
  { apply inv_edit; [apply inv_mem; [done|cbn; lia]|]. cbn. rewrite E1. intros c' y Hy Ey. by destruct (Hcur c' y Hy). }
  destruct (inv_queues _ _ _ _ Hi me) as [[qs Hq] _]; [eauto|].
  eapply (wp_make_runnable me t (Thread S_READY me p) s3 _ None None qs Hi4); [cbn; by rewrite lookup_insert_eq|cbn; rewrite E1; eauto|exact Hq|..].
  - cbn. rewrite E1. intros c' y Hy Ey. by destruct (Hcur c' y Hy).
  - cbn. rewrite E1. intros c' y Hy [Ey|]; [|done]. by destruct (Hcur c' y Hy).
  - intros s' Hi' Hs' Hth'. wpsimp. eapply HQ; [exact Hi'|]. split_and!.
    + eapply same_cpus_trans; [exact Hs1|exact Hs'].
    + intros k Hk. cbn. rewrite lookup_insert_ne; [done|]. intros <-. apply Hk. eauto.
    + exact (keeps_append a me qs [t] Hq).
    + intros y z Hz. rewrite Hth'. cbn. rewrite !lookup_insert_ne, Hth, lookup_insert_ne by (apply not_eq_sym; eauto). done.
Qed.
End SchedNew.
