(* ===== verification/SchedMig.v ===== *)
(** * Migration of threads between processors

    The sections of thread_consider_migration.  While a processor is between
    two of them the others go on; what it relies on is in [migs_ok]. *)

From S2P Require Import Prelude Kern Threadlist Sched SchedSpec SchedOps SchedNew.
Open Scope Z_scope.
Import Threadlist Sched SchedSpec SchedOps SchedNew.

Module SchedMig.

Lemma last_take {A} (xs : list A) x n : (S n <= length (xs ++ [x]))%nat ->
  take (length (xs ++ [x]) - S n) (xs ++ [x]) = take (length xs - n) xs /\ drop (length (xs ++ [x]) - S n) (xs ++ [x]) = drop (length xs - n) xs ++ [x].
Proof.
  intros Hn. rewrite length_app in *. cbn [length] in *. replace (length xs + 1 - S n)%nat with (length xs - n)%nat by lia.
  rewrite take_app_le, drop_app_le by lia. done.
Qed.

(** A thread that is ready fits the queue and the victims of its processor. *)
Lemma ready_fits s a me l t : inv None None s a -> at_ a t l -> l = c_runqueue me \/ l = victims me ->
  exists x, threads s !! t = Some x /\ t_cpu x = me /\ t_state x = S_READY /\ fits (c_runqueue me) x /\ fits (victims me) x.
Proof.
  intros Hi Ht Hl. destruct (inv_place _ _ _ _ Hi t _ Ht) as (x & Hx & Hf). exists x. split; [done|].
  assert (t_cpu x = me /\ t_state x = S_READY) as [<- Hst].
  { destruct Hf as [[H1 [Hf|Hf]]|[(_ & Hf & _)|[_ [w [Hf|Hf]]]]]; (split; [|done]) || (exfalso; clear -Hf Hl; destruct Hl; slots); clear -Hf Hl; destruct Hl; slots. }
  split_and!; [done..|left|left]; split; auto.
Qed.

Lemma wp_take me s n Q : forall L a qs vs, inv None None (with_tls s L) a -> lists a !! c_runqueue me = Some qs -> lists a !! victims me = Some vs ->
  (n <= length qs)%nat ->
  (forall L' a', inv None None (with_tls s L') a' ->
     lists a' = <[victims me := drop (length qs - n) qs ++ vs]> (<[c_runqueue me := take (length qs - n) qs]> (lists a)) -> Q tt L') ->
  wp (take_victims n me) Q L.
Proof.
  assert (c_runqueue me <> victims me) as Hne by slots. induction n as [|n IH]; intros L a qs vs Hi Hq Hv Hn HQ; cbn [take_victims].
  { wpsimp. eapply HQ; [exact Hi|]. rewrite Nat.sub_0_r, firstn_all, skipn_all. cbn. by rewrite (insert_id (lists a)), insert_id by done. }
  destruct qs as [|t qs _] using rev_ind; [simpl in Hn; lia|]. destruct (last_take qs t n Hn) as [E1 E2].
  wpsimp. eapply wp_remtail; [apply Hi|done|]. rewrite last_snoc, removelast_last. intros L1 HL1. wpsimp. exists t. split; [done|].
  assert (at_ a t (c_runqueue me)) as Hat by (exists (qs ++ [t]); split; [done|apply elem_of_app; right; left]).
  destruct (ready_fits _ _ me _ t Hi Hat) as (x & Hx & _ & _ & _ & Hf); [by left|].
  assert (lists (put_list (c_runqueue me) qs a) !! victims me = Some vs) as Hv' by (cbn; by rewrite lookup_insert_ne).
  destruct (inv_take_exact _ a (c_runqueue me) qs [] t x L1 Hi Hx) as (e & Hi1 & _); rewrite ?app_nil_r; [done..|]. rewrite app_nil_r in Hi1.
  destruct (inv_hand _ _ _ _ Hi1 t eq_refl) as [Hk Hno]. wpsimp. eapply (wp_addhead L1 (put_list (c_runqueue me) qs a) _ vs); [done|apply Hi|done..|]. intros L2 HL2.
  assert (inv None None (with_tls s L2) (put_list (victims me) (t :: vs) (put_list (c_runqueue me) qs a))) as Hi2.
  { pose proof (inv_move (with_tls s L) a (c_runqueue me) qs [] (victims me) vs (t :: vs) t x L1 L2 Hi Hx) as Hmv. rewrite !app_nil_r in Hmv. by apply Hmv. }
  wpsimp. eapply IH; [exact Hi2|cbn; rewrite lookup_insert_ne by done; by rewrite lookup_insert_eq|cbn; by rewrite lookup_insert_eq|rewrite length_app in Hn; simpl in Hn; lia|].
  intros L' a' Hi' E. eapply HQ; [done|]. rewrite E, E1, E2. cbn. rewrite <- app_assoc. cbn.
  rewrite (insert_insert_ne _ (c_runqueue me) (victims me)) by done. by rewrite !insert_insert_eq.
Qed.

(** Threads that have not ended. *)
Definition alive (s : sched) (t : Z) : Prop := exists x, threads s !! t = Some x /\ t_state x <> S_ZOMBIE.

(** Handing victims to processor [c]. *)
Definition sent (s s' : sched) (me c : Z) (a a' : seqs) : Prop :=
  same_cpus s s' /\ only_lists (fun l => l = victims me \/ l = c_runqueue c) a a' /\ keeps (fun c => c = me) a a' /\
  forall t, alive s t -> alive s' t.

Lemma wp_send me c share fuel Q : c <> me -> forall s a vs n, inv None None s a -> lists a !! victims me = Some vs ->
  is_Some (cpus s !! me) -> is_Some (cpus s !! c) -> 0 <= n <= Z.of_nat (length vs) -> n <= Z.of_nat fuel ->
  (forall s' a' n' vs', inv None None s' a' -> sent s s' me c a a' -> lists a' !! victims me = Some vs' -> 0 <= n' <= Z.of_nat (length vs') -> Q n' s') ->
  wp (send_victims fuel me c share n) Q s.
Proof.
  intros Hcm. assert (c_runqueue c <> victims me /\ c_runqueue c <> c_runqueue me /\ c_runqueue me <> victims me) as (N1 & N2 & N3) by (split_and!; slots).
  induction fuel as [|fuel IH]; intros s a vs n Hi Hv Hme Hc Hn Hf HQ; cbn [send_victims];
    (destruct (inv_queues _ _ _ _ Hi c Hc) as [[qs Hq] _]; unfold queue_count; wpsimp; rewrite wp_on_lists; eapply wp_count; [apply Hi|exact Hq|]; rewrite with_tls_id;
     destruct (negb ((Z.of_nat (length qs) <? share) && (n >? 0))) eqn:Eg;
     [wpsimp; eapply HQ; [exact Hi| |exact Hv|done]; split_and!; [apply same_cpus_refl|done|apply keeps_refl|done]|]);
    apply negb_false_iff, andb_prop in Eg as [_ Eg%Z.gtb_lt]; [lia|].
  destruct vs as [|t vs]; [simpl in Hn; lia|]. wpsimp. rewrite wp_on_lists. eapply wp_remhead; [apply Hi|exact Hv|]. cbn [head tail]. intros L1 HL1. wpsimp.
  destruct Hme as [y Hy]. eapply wp_get_cpu; [exact Hy|]. wpsimp. exists t. split; [done|].
  destruct (ready_fits s a me (victims me) t Hi) as (x & Hx & Hme & Hst & _ & Hfv); [exists (t :: vs); split; [done|left]|by right|].
  destruct (taken_off _ _ _ _ _ Hi Hv) as [Hno Hk].
  destruct (inv_take_exact s a (victims me) [] vs t x L1 Hi Hx Hv HL1) as (e & Hi1 & He). cbn [app] in Hi1.
  destruct (Z.eqb_spec t (c_curthread y)) as [Et|Et].
  - wpsimp. rewrite wp_on_lists. eapply (wp_addtail L1 (put_list (victims me) vs a) _ vs); [done|apply Hi|cbn; by rewrite lookup_insert_eq|done|done|]. intros L2 HL2.
    assert (inv None None (with_tls s L2) (put_list (victims me) (vs ++ [t]) (put_list (victims me) vs a))) as Hi2.
    { eapply (inv_move s a (victims me) [] vs (victims me) vs _ t x L1 L2 Hi Hx Hv); [done|cbn; by rewrite lookup_insert_eq|by rewrite <- Permutation_cons_append|done|done]. }
    wpsimp. eapply IH; [exact Hi2|cbn; by rewrite lookup_insert_eq|eauto|done|rewrite length_app; simpl in *; lia|lia|].
    intros s' a' n' vs' Hi' (S1 & S2 & S3 & S4) Hv' Hn'. eapply HQ; [done| |done|done]. split_and!; [exact S1|..].
    + intros l Hl. rewrite S2 by done. cbn. rewrite !lookup_insert_ne by (intros <-; tauto). done.
    + eapply keeps_trans; [|exact S3]. intros c' Hc'. cbn. rewrite !lookup_insert_ne by slots. split; [|done]. intros ys Hys. exists []. by rewrite app_nil_r.
    + exact S4.
  - assert (forall c' z, cpus s !! c' = Some z -> c_curthread z <> t) as Hcur.
    { intros c' z Hz Ez. destruct (cur_on _ _ _ _ _ _ Hi Hz) as (x' & Hx' & Ec). rewrite Ez, Hx in Hx'. injection Hx' as <-.
      rewrite Hme in Ec. subst c'. rewrite Hy in Hz. injection Hz as <-. congruence. }
    wpsimp. eapply wp_get_thread; [exact Hx|]. unfold put_thread. wpsimp. rewrite wp_on_lists.
    eapply (wp_addtail L1 (put_list (victims me) vs a) _ qs); [done|apply Hi|cbn; by rewrite lookup_insert_ne|done|done|]. intros L2 HL2.
    set (x' := Thread (t_state x) c (t_proc x)). set (a2 := put_list (c_runqueue c) (qs ++ [t]) (put_list (victims me) vs a)) in *.
    assert (inv None None (with_tls (with_thread (with_tls s L1) t x') L2) a2) as Hi2.
    { eapply (inv_put _ _ (c_runqueue c) qs _ t x' L2 None None); [|cbn; by rewrite lookup_insert_eq|left; split; [done|by left]|done|cbn; by rewrite lookup_insert_ne|by rewrite <- Permutation_cons_append|done|].
      - apply inv_edit; [|intros c' z Hz Ez; by destruct (Hcur c' z Hz)]. eapply (inv_take s a _ [] vs); [done..|]. intros c' z Hz Ez. by destruct (Hcur c' z Hz).
      - cbn. intros c' z Hz [Ez|]; [by destruct (Hcur c' z Hz)|done]. }
    assert (forall t', alive s t' -> alive (with_thread s t x') t') as Hal.
    { intros t' (z & Hz & Hzs). destruct (decide (t' = t)) as [->|]; [exists x'; cbn; rewrite lookup_insert_eq; by simplify_eq|].
      exists z. cbn. by rewrite lookup_insert_ne. }
    assert (forall s1, inv None None s1 a2 -> same_cpus s s1 -> (forall t', alive s t' -> alive s1 t') -> wp (send_victims fuel me c share (n - 1)) Q s1) as Hrec.
    { intros s1 Hi3 Hs1 Ha1. pose proof Hs1 as (_ & _ & D1 & _).
      eapply (IH s1 a2 vs); [exact Hi3|cbn; rewrite lookup_insert_ne by done; by rewrite lookup_insert_eq|
        apply elem_of_dom; rewrite D1; apply elem_of_dom; eauto|apply elem_of_dom; rewrite D1; by apply elem_of_dom|simpl in Hn; lia|lia|].
      intros s' a' n' vs' Hi' (S1 & S2 & S3 & S4) Hv' Hn'. eapply HQ; [done| |done|done]. split_and!.
      - by eapply same_cpus_trans.
      - intros l Hl. rewrite S2 by done. cbn. rewrite !lookup_insert_ne by (intros <-; tauto). done.
      - eapply keeps_trans; [|exact S3]. intros c' Hc'. cbn. split; [|by rewrite !lookup_insert_ne by slots].
        intros xs Hxs. destruct (decide (c = c')) as [->|]; [rewrite lookup_insert_eq; simplify_eq; eauto|].
        rewrite !lookup_insert_ne by slots. exists []. by rewrite app_nil_r.
      - intros t' Ht'. by apply S4, Ha1. }
    pose proof Hc as [z Hz]. wpsimp. eapply wp_get_cpu; [exact Hz|]. destruct (c_isidle z); wpsimp.
    + eapply wp_ipi; [exact Hi2|exact Hz|]. intros s' Hi' Hs' Eth _. apply Hrec; [done|done|]. intros t' Ht'%Hal. unfold alive. by rewrite Eth.
    + apply Hrec; [exact Hi2|exact (same_cpus_refl s)|exact Hal].
Qed.

(** ** The state between operations *)

Definition good_at (s : sched) (a : seqs) : Prop := inv None None s a /\ quiet a /\ migs_ok s a.
Definition good (s : sched) : Prop := exists a, good_at s a.

(** The threads that sleep on a wait channel, first come first. *)
Definition chan (a : seqs) (w : Z) : option (list Z) := lists a !! wc_threads w.

(** What a step leaves behind: the channels as in [ch], up to new ones, all
    threads alive but the one that is [gone], and the processors but [ex] with
    their threads. *)
Definition becomes (s : sched) (ex : option Z) (ch : Z -> option (list Z)) (gone : option Z) (s' : sched) : Prop :=
  exists a', good_at s' a' /\ (forall w, chan a' w = ch w \/ ch w = None /\ chan a' w = Some []) /\
    (forall t, gone <> Some t -> alive s t -> alive s' t) /\ others_same ex s s'.
Lemma becomes_good s ex ch gone s' : becomes s ex ch gone s' -> good s'.
Proof. intros (a & Ha & _). by exists a. Qed.
Lemma becomes_at s ex a s' a' : good_at s' a' -> (forall w, chan a' w = chan a w) -> (forall t, alive s t -> alive s' t) -> others_same ex s s' ->
  becomes s ex (chan a) None s'.
Proof. intros Hg Hc Ha Ho. exists a'. split_and!; auto. Qed.
Lemma others_refl ex s : others_same ex s s.
Proof. intros c x _ Hx. eauto. Qed.

Definition with_mig (s : sched) (c : Z) (m : option mig) : sched :=
  Sched (tls s) (threads s) (cpus s) (allcpus s) (partial_alter (fun _ => m) c (migs s)) (s_next s) (s_allocs s).

Lemma good_mig s a me m : inv None None s a -> quiet a -> (forall c, c <> me -> is_Some (cpus s !! c) -> mig_ok a c (migs s !! c)) -> mig_ok a me m ->
  good_at (with_mig s me m) a.
Proof.
  intros Hi Hq Hm Hme. split_and!; [|done|].
  - split; apply Hi.
  - intros c Hc. cbn. destruct (decide (c = me)) as [->|]; [by rewrite lookup_partial_alter_eq|rewrite lookup_partial_alter_ne by done; by apply Hm].
Qed.

(** An operation that keeps run queues and victims keeps the state good. *)
Lemma good_step s a s' a' : good_at s a -> inv None None s' a' -> keeps_all a a' -> migs s' = migs s -> dom (cpus s') = dom (cpus s) ->
  (forall c, absent a (woken_list c) -> absent a' (woken_list c)) -> good_at s' a'.
Proof. intros (Hi & Hq & Hm) Hi' Hk E1 E2 Ha. split_and!; [done|intros c; by apply Ha|by eapply migs_keep]. Qed.

Lemma wp_set_mig me m Q s : Q tt (with_mig s me m) -> wp (set_mig me m) Q s.
Proof. done. Qed.

(** A switch changes one processor and one list at its end. *)
Lemma good_switched s a s' me cur x st l xs : good_at s a -> lists a !! l = Some xs -> inv None None s' (put_list l (xs ++ [cur]) a) ->
  switched s s' me cur x st -> (l = c_runqueue me \/ forall c, l <> c_runqueue c /\ l <> victims c) -> (forall c, l <> woken_list c) ->
  good_at s' (put_list l (xs ++ [cur]) a).
Proof.
  intros Hg Hl Hi' (_ & E1 & E2 & _) Hk Hw. eapply good_step; [exact Hg|exact Hi'| |done| |].
  - destruct Hk as [->|Hk]; [by apply keeps_append|by apply keeps_other].
  - apply set_eq. intros c. rewrite !elem_of_dom, <- (inv_all _ _ _ _ Hi'), <- (inv_all _ _ _ _ (proj1 Hg)). by rewrite E2.
  - intros c. apply absent_eq. cbn. by rewrite lookup_insert_ne.
Qed.
Lemma switched_alive s s' me cur x st t : switched s s' me cur x st -> st <> S_ZOMBIE \/ cur <> t -> alive s t -> alive s' t.
Proof.
  intros (E & _) Hst (y & Hy & Hz). unfold alive. rewrite E. destruct (decide (t = cur)) as [->|]; [|rewrite lookup_insert_ne by done; eauto].
  rewrite lookup_insert_eq. eexists. split; [done|]. cbn. naive_solver.
Qed.

Lemma becomes_yield s a me c : good_at s a -> cpus s !! me = Some c -> wp (thread_yield me) (fun _ => becomes s (Some me) (chan a) None) s.
Proof.
  intros Hg Hc. pose proof Hg as (Hi & _). destruct (c_isidle c) eqn:Hidle.
  { unfold thread_yield, thread_switch. wpsimp. eapply wp_get_cpu; [done|]. rewrite Hidle. wpsimp. eapply becomes_at; [done..|apply others_refl]. }
  destruct (cur_on _ _ _ _ _ _ Hi Hc) as (x & Hx & _). eapply (wp_yield me c s a Hi Hc Hidle x); [done|intros _; eapply becomes_at; [done..|apply others_refl]|].
  intros s' xs Hl _ Hi' Hs. eapply becomes_at; [eapply good_switched; [exact Hg|exact Hl|exact Hi'|exact Hs|by left|intros c'; slots]|..].
  - intros w. unfold chan. cbn. by rewrite lookup_insert_ne by slots.
  - intros t. eapply switched_alive; [exact Hs|by left].
  - apply Hs.
Qed.

Section Step.
Variables (s : sched) (a : seqs) (me : Z).
Hypothesis Hg : good_at s a.
Hypothesis Hme : is_Some (cpus s !! me).
Let Hi : inv None None s a := proj1 Hg.
Let Hq : quiet a := proj1 (proj2 Hg).
Let Hm : migs_ok s a := proj2 (proj2 Hg).

Lemma set_ok m : mig_ok a me m -> wp (set_mig me m) (fun _ => becomes s (Some me) (chan a) None) s.
Proof using Hg. intros Hok. apply wp_set_mig. eapply becomes_at; [|done|done|exact (others_refl _ s)]. apply good_mig; [exact Hi|exact Hq| |done]. intros c _ Hc. by apply Hm. Qed.

Lemma others_ok : forall c, c <> me -> is_Some (cpus s !! c) -> mig_ok a c (migs s !! c).
Proof using Hg. intros c _ Hc. by apply Hm. Qed.

Lemma wp_mig_count i my tot : mig_ok a me (Some (MCount i my tot)) -> wp (migration_step me (MCount i my tot)) (fun _ => becomes s (Some me) (chan a) None) s.
Proof using Hg Hme.
  intros (Hv & Hmy & Hlen). unfold migration_step. wpsimp. destruct (allcpus s !! i) as [c|] eqn:Ec.
  - assert (is_Some (cpus s !! c)) as Hc by (apply (inv_all _ _ _ _ Hi), list_elem_of_lookup; eauto).
    destruct (inv_queues _ _ _ _ Hi c Hc) as [[qs Hqs] _]. unfold queue_count. wpsimp. rewrite wp_on_lists. eapply wp_count; [apply Hi|exact Hqs|].
    rewrite with_tls_id. apply set_ok. cbn. split; [done|].
    destruct (Z.eqb_spec c me) as [->|]; [|done]. split; [lia|]. exists qs. split; [done|lia].
  - assert (0 <= DIVROUNDUP tot (Z.of_nat (length (allcpus s)))) as Hsh.
    { unfold DIVROUNDUP. destruct (decide (length (allcpus s) = 0%nat)) as [->|]; [by rewrite Z.div_0_r|]. apply Z.div_pos; [|lia].
      pose proof (u32_range (tot + Z.of_nat (length (allcpus s)) - 1)) as Hr. unfold is_u32 in Hr. lia. }
    destruct (Z.ltb_spec my (DIVROUNDUP tot (Z.of_nat (length (allcpus s))))); apply set_ok; [done|].
    cbn. split; [done|]. destruct Hlen as (qs & Hqs & Hn). split; [lia|]. exists qs. split; [done|lia].
Qed.

Lemma wp_mig_take n sh : mig_ok a me (Some (MTake n sh)) -> wp (migration_step me (MTake n sh)) (fun _ => becomes s (Some me) (chan a) None) s.
Proof using Hg Hme.
  intros (Hv & Hn & qs & Hqs & Hlen). unfold migration_step. wpsimp. rewrite wp_on_lists. eapply wp_init; [apply Hi|done|]. intros L HL. wpsimp. rewrite wp_on_lists.
  destruct (inv_fresh _ _ _ _ Hi) as (F1 & F2 & F3 & F4). pose proof (F3 me Hme).
  assert (inv None None (with_tls s L) (put_list (victims me) [] a)) as Hi1 by (apply inv_newlist; [exact Hi|done|slots|done]).
  eapply (wp_take me s _ _ L _ qs []); [exact Hi1|cbn; by rewrite lookup_insert_ne by slots|cbn; by rewrite lookup_insert_eq|lia|].
  intros L2 a2 Hi2 E. wpsimp. apply wp_set_mig. rewrite app_nil_r in E.
  apply (becomes_at _ _ _ _ a2); [|intros w; unfold chan; rewrite E; cbn; by rewrite !lookup_insert_ne by slots|done|exact (others_refl _ s)].
  eapply (good_mig (with_tls s L2) a2); [exact Hi2| | |].
  - intros c. eapply absent_eq; [|apply Hq]. rewrite E. cbn. by rewrite !lookup_insert_ne by slots.
  - intros c Hc Hcc. eapply (mig_keep (fun c => c = me) a); [|done|by apply Hm]. intros c' Hc'. rewrite E. cbn.
    rewrite !lookup_insert_ne by slots. split; [|done]. intros xs Hxs. exists []. by rewrite app_nil_r.
  - cbn. split; [done|]. eexists. rewrite E, lookup_insert_eq. split; [done|]. rewrite length_drop. lia.
Qed.

Lemma wp_mig_send i n sh : mig_ok a me (Some (MSend i n sh)) -> wp (migration_step me (MSend i n sh)) (fun _ => becomes s (Some me) (chan a) None) s.
Proof using Hg Hme.
  intros (Hn & vs & Hv & Hlen). assert (mig_ok a me (Some MBack)) as Hback by (exists vs; split; [done|lia]).
  unfold migration_step. wpsimp. destruct (allcpus s !! i) as [c|] eqn:Ec; [|by apply set_ok].
  destruct (negb (n >? 0)); [by apply set_ok|].
  destruct (Z.eqb_spec c me) as [->|Hne]; [apply set_ok; split; [done|by exists vs]|].
  assert (is_Some (cpus s !! c)) as Hc by (apply (inv_all _ _ _ _ Hi), list_elem_of_lookup; eauto).
  wpsimp. eapply (wp_send me c sh _ _ Hne s a vs); [exact Hi|done|done|done|lia|lia|].
  intros s' a' n' vs' Hi' (Hsc & S3 & S4 & S5) Hv' Hn'. pose proof Hsc as (S0 & S1 & S2 & _). apply wp_set_mig.
  apply (becomes_at _ _ _ _ a'); [|intros w; apply S3; intros [?|?]; slots|exact S5|exact (same_others _ _ _ Hsc)]. apply (good_mig s' a'); [exact Hi'| | |].
  - intros c'. eapply absent_eq; [|apply Hq]. apply S3. intros [?|?]; slots.
  - intros c' Hc' Hcc. rewrite S1. eapply (mig_keep (fun c => c = me) a); [exact S4|done|]. apply Hm. apply elem_of_dom. rewrite <- S2. by apply elem_of_dom.
  - split; [lia|]. exists vs'. split; [done|lia].
Qed.

Lemma wp_mig_back : mig_ok a me (Some MBack) -> wp (migration_step me MBack) (fun _ => becomes s (Some me) (chan a) None) s.
Proof using Hg Hme.
  intros (vs & Hv & _). destruct (inv_queues _ _ _ _ Hi me Hme) as [[qs Hqs] _]. unfold migration_step. wpsimp. rewrite wp_on_lists.
  eapply wp_isempty; [apply Hi|exact Hv|]. rewrite with_tls_id.
  assert (forall L a', inv None None (with_tls s L) a' -> lists a' !! victims me = Some [] -> (forall c, absent a (woken_list c) -> absent a' (woken_list c)) ->
    keeps (fun c => c = me) a a' -> (forall w, chan a' w = chan a w) ->
    wp (empty ← on_lists (threadlist_isempty (victims me)); kassert empty ;; on_lists (threadlist_cleanup (victims me)) ;; set_mig me (Some MDone)) (fun _ => becomes s (Some me) (chan a) None) (with_tls s L)) as Hend.
  { intros L a' Hi' Hnil Hw Hk Hwc. wpsimp. rewrite wp_on_lists. eapply wp_isempty; [apply Hi'|exact Hnil|]. wpsimp. split; [done|]. rewrite wp_on_lists.
    eapply wp_cleanup; [apply Hi'|exact Hnil|done|]. apply wp_set_mig. cbn [with_tls tls]. apply (becomes_at _ _ _ _ a'); [|done|done|exact (others_refl _ s)].
    eapply (good_mig (with_tls s L) a'); [exact Hi'| | |by right].
    - intros c. apply Hw, Hq.
    - intros c Hc Hcc. eapply mig_keep; [exact Hk|done|by apply Hm]. }
  case_bool_decide as Ev; cbn [negb].
  - rewrite wp_bind, wp_ret. subst vs. rewrite <- (with_tls_id s). eapply Hend; [rewrite with_tls_id; exact Hi|done|done|apply keeps_refl|done].
  - rewrite wp_bind, wp_on_lists.
    eapply (wp_grab (victims me) (c_runqueue me) s _ _ ltac:(slots) (tls s) a vs qs); [rewrite with_tls_id; exact Hi|done|done| |by eapply list_size|].
    + intros t x Ht Hx. destruct (ready_fits s a me (victims me) t Hi) as (x' & Hx' & _ & _ & Hf & _); [by exists vs|by right|]. by simplify_eq.
    + intros L a' Hi' E. eapply Hend; [exact Hi'|..].
      * rewrite E, lookup_insert_ne by slots. by rewrite lookup_insert_eq.
      * intros c. apply absent_eq. rewrite E. by rewrite !lookup_insert_ne by slots.
      * intros c Hc. rewrite E. rewrite !lookup_insert_ne by slots. split; [|done]. intros xs Hxs. exists []. by rewrite app_nil_r.
      * intros w. unfold chan. rewrite E. by rewrite !lookup_insert_ne by slots.
Qed.

Lemma wp_mig_done : mig_ok a me (Some MDone) -> wp (migration_step me MDone) (fun _ => becomes s (Some me) (chan a) None) s.
Proof using Hg Hme.
  intros Hok. unfold migration_step. wpsimp. apply wp_set_mig. rewrite wp_bind. pose proof Hme as [c Hc].
  eapply wp_mono; [eapply (becomes_yield (with_mig s me None) a me c); [|exact Hc]|].
  - apply good_mig; [exact Hi|exact Hq|apply others_ok|done].
  - intros b s'. by wpsimp.
Qed.

Lemma wp_migration m : migs s !! me = Some m -> wp (migration_step me m) (fun _ => becomes s (Some me) (chan a) None) s.
Proof using Hg Hme.
  intros Em. pose proof (Hm me Hme) as Hok. rewrite Em in Hok.
  destruct m; [by apply wp_mig_count|by apply wp_mig_take|by apply wp_mig_send|by apply wp_mig_back|by apply wp_mig_done].
Qed.
End Step.
End SchedMig.
