(* ===== verification/SchedProps.v ===== *)
(** * Properties of the scheduler

    From boot on, whatever the processors do and however their steps are
    interleaved: no assertion of thread.c fails, every thread is in exactly one
    place, and no two processors use the stack of the same thread. *)

From S2P Require Import Prelude Kern Threadlist Sched SchedSpec SchedOps SchedNew SchedMig.
Open Scope Z_scope.
Import Threadlist Sched SchedSpec SchedOps SchedNew SchedMig.

Module SchedProps.

(** ** Processors that come up *)

Lemma good_empty l : good (Sched (TlState ∅ ∅) ∅ ∅ [] ∅ 1 l).
Proof.
  exists (Seqs ∅ ∅). split_and!; [|by left|by intros c [x Hx]].
  split; cbn [tls threads cpus allcpus migs s_next].
  - apply abs_empty.
  - by rewrite dom_empty_L.
  - by intros t ?%not_elem_of_empty.
  - done.
  - by intros t l' (xs & Hx & _).
  - done.
  - done.
  - done.
  - by intros c [x Hx].
  - intros c. split; [by intros ?%elem_of_nil|by intros [x Hx]].
  - split_and!; [lia|..]; by intros ? [? Hx].
Qed.

(** A processor whose lists are there and empty, with the thread in hand. *)
Lemma inv_newcpu s a t c kproc : inv (Some t) None s a -> cpus s !! c = None -> 0 < c < s_next s ->
  lists a !! c_runqueue c = Some [] -> lists a !! c_zombies c = Some [] -> (forall c x, cpus s !! c = Some x -> c_curthread x <> t) ->
  inv None None (Sched (tls s) (<[t := Thread S_READY c kproc]> (threads s)) (<[c := Cpu t false 0 0]> (cpus s))
    (allcpus s ++ [c]) (delete c (migs s)) (s_next s) (s_allocs s)) a.
Proof.
  intros Hi Hc Hlt Hq Hz Hcur. destruct (inv_hand _ _ _ _ Hi t eq_refl) as [Hk Hno].
  assert (forall c', is_Some (<[c := Cpu t false 0 0]> (cpus s) !! c') <-> c' = c \/ is_Some (cpus s !! c')) as Hd.
  { intros c'. rewrite lookup_insert_is_Some. destruct (decide (c = c')) as [->|]; naive_solver. }
  assert (forall y x, y <> t -> <[t := Thread S_READY c kproc]> (threads s) !! y = Some x <-> threads s !! y = Some x) as Hth by (intros y x Hy; by rewrite lookup_insert_ne).
  split; cbn [tls threads cpus migs allcpus s_next]; try apply Hi; [|done|..].
  - rewrite dom_insert_L, <- (inv_known _ _ _ _ Hi). set_solver.
  - intros y l Hy. destruct (inv_place _ _ _ _ Hi y l Hy) as (x & Hx & Hf). exists x. split; [|done]. apply Hth; [|done].
    intros ->. apply Hno, on_list_at. eauto.
  - intros y x Hx _. destruct (decide (y = t)) as [->|Hne].
    + right. exists c, (Cpu t false 0 0). cbn. by rewrite lookup_insert_eq.
    + apply Hth in Hx; [|done]. destruct (inv_home _ _ _ _ Hi y x Hx) as [|(c' & z & Hz' & H')]; [congruence|by left|right].
      exists c', z. cbn. rewrite lookup_insert_ne; [done|congruence].
  - intros y x Hx _. apply Hd. destruct (decide (y = t)) as [->|Hne]; [rewrite lookup_insert_eq in Hx; injection Hx as <-; by left|].
    apply Hth in Hx; [|done]. right. eapply inv_tcpu; [apply Hi|done|congruence].
  - intros c' x [[<- <-]|[Hne Hx]]%lookup_insert_Some; cbn.
    + eexists. rewrite lookup_insert_eq. split; [done|]. cbn. auto.
    + destruct (inv_cpu _ _ _ _ Hi c' x Hx) as (y & Hy & Hc' & Hst). exists y. rewrite Hth by eauto. done.
  - intros c' [->|Hc']%Hd; [rewrite Hq, Hz; eauto|by apply Hi].
  - intros c'. rewrite elem_of_app, list_elem_of_singleton, (inv_all _ _ _ _ Hi), Hd. tauto.
  - destruct (inv_fresh _ _ _ _ Hi) as (F1 & F2 & F3 & F4). split_and!; [done| | |done].
    + intros y [<-|[_ Hy]]%lookup_insert_is_Some; [|by apply F2]. apply F2. rewrite (inv_known _ _ _ _ Hi) in Hk. by apply elem_of_dom.
    + intros c' [->|Hc']%Hd; [done|by apply F3].
Qed.

Lemma kmalloc_free s : s_allocs s = [] -> kmalloc s = Ok true s.
Proof. intros E. unfold kmalloc. cbn. by rewrite E. Qed.
Lemma obj_free s : s_allocs s = [] -> s_next s < 2 ^ 32 -> kmalloc_obj s = Ok (Some (s_next s)) (with_mem s (s_next s + 1) []).
Proof.
  intros E Hn. unfold kmalloc_obj. run (kmalloc_free s E). rewrite get_bind. destruct (Z.ltb_spec (s_next s) (2 ^ 32)); [|lia]. cbn. unfold with_mem. by rewrite <- E.
Qed.

(** While memory lasts, a new processor comes up in a good state. *)
Lemma cpu_create_good kproc s : good s -> s_allocs s = [] -> s_next s + 2 <= 2 ^ 32 ->
  wp (cpu_create kproc) (fun c s' => good s' /\ s_allocs s' = [] /\ s_next s' = s_next s + 2 /\ dom (cpus s') = {[c]} ∪ dom (cpus s)) s.
Proof.
  intros (a & Hi & Hq & Hm) Hall Hn. destruct (inv_fresh _ _ _ _ Hi) as (F1 & F2 & F3 & F4). set (c := s_next s) in *.
  assert (forall l, 5 * c <= l -> lists a !! l = None) as Hfresh by (intros l Hl; apply eq_None_not_Some; intros Hs; specialize (F4 l Hs); lia).
  assert (cpus s !! c = None) as Hcn by (apply eq_None_not_Some; intros Hs; specialize (F3 c Hs); lia).
  assert (threads s !! (c + 1) = None) as Htn by (apply eq_None_not_Some; intros Hs; specialize (F2 (c + 1) Hs); lia).
  set (s1 := with_mem s (c + 1) []). assert (inv None None s1 a) as Hi1 by (apply inv_mem; [done|lia]).
  unfold wp, cpu_create. run (obj_free s Hall ltac:(lia)). fold c s1. run (eq_refl : deref FPanic (Some c) s1 = Ok c s1).
  pose proof (init_abs _ _ (c_zombies c) (inv_abs _ _ _ _ Hi1) (or_introl (Hfresh (c_zombies c) ltac:(slots)))) as Ha2. set (L2 := TlState _ _) in Ha2.
  set (a2 := put_list (c_zombies c) [] a) in *. assert (inv None None (with_tls s1 L2) a2) as Hi2 by (apply inv_newlist; [done|left; apply Hfresh; slots|cbn; slots|done]).
  assert (on_lists (threadlist_init (c_zombies c)) s1 = Ok tt (with_tls s1 L2)) as E2 by done. run E2.
  assert (lists a2 !! c_runqueue c = None) as Hrq by (cbn; rewrite lookup_insert_ne by slots; apply Hfresh; slots).
  pose proof (init_abs _ _ (c_runqueue c) (inv_abs _ _ _ _ Hi2) (or_introl Hrq)) as Ha3. set (L3 := TlState _ _) in Ha3.
  set (a3 := put_list (c_runqueue c) [] a2) in *. set (s3 := with_tls s1 L3). assert (inv None None s3 a3) as Hi3 by (apply (inv_newlist None (with_tls s1 L2)); [done|by left|cbn; slots|done]).
  assert (on_lists (threadlist_init (c_runqueue c)) (with_tls s1 L2) = Ok tt s3) as E3 by done. run E3.
  assert (kmalloc s3 = Ok true s3) as Ek by (by apply kmalloc_free). run Ek. run (eq_refl : kassert true s3 = Ok tt s3).
  set (t := c + 1). pose proof (inv_new s3 a3 t [] Hi3 eq_refl ltac:(cbn; lia)) as Hi4.
  set (s4 := with_new s3 (put (Node t) (Tln None None (Some t)) (tls s3)) t (s_next s3 + 1) []) in *.
  assert (thread_create s3 = Ok (Some t) s4) as E4.
  { unfold thread_create. run (obj_free s3 eq_refl ltac:(cbn; lia)). rewrite (bind_eq _ _ _ true (with_mem s3 (s_next s3 + 1) [])) by done. cbn [negb].
    assert (on_lists (threadlistnode_init (s_next s3)) (with_mem s3 (s_next s3 + 1) []) = Ok tt (with_tls (with_mem s3 (s_next s3 + 1) []) (put (Node t) (Tln None None (Some t)) (tls s3)))) as E.
    { unfold on_lists, threadlistnode_init, kassert, mbind, M_bind. cbn [tls with_mem]. replace (negb (s_next s3 =? 0)) with true; [done|].
      symmetry. apply negb_true_iff, Z.eqb_neq. cbn. lia. }
    by run E. }
  run E4. run (eq_refl : deref FPanic (Some t) s4 = Ok t s4). rewrite get_bind.
  assert ((if bool_decide (allcpus s4 = []) then mret true else kmalloc) s4 = Ok true s4) as Hif by (by destruct (bool_decide _)).
  run Hif. run (eq_refl : kassert true s4 = Ok tt s4). assert (kmalloc s4 = Ok true s4) as Ek4 by done. run Ek4.
  run (eq_refl : kassert true s4 = Ok tt s4). rewrite modify_bind. cbn [mret M_ret]. split_and!; [|done|cbn; lia|cbn; by rewrite dom_insert_L].
  exists (Seqs (lists a3) ({[t]} ∪ known a3)). split_and!.
  - apply (inv_newcpu s4 _ t c kproc Hi4);
      [done|cbn; lia|cbn; by rewrite lookup_insert_eq|cbn; rewrite lookup_insert_ne by slots; by rewrite lookup_insert_eq|].
    intros c' x Hx Ex. destruct (cur_on _ _ _ _ _ _ Hi Hx) as (y & Hy & _). rewrite Ex in Hy. unfold t in Hy. congruence.
  - intros c'. unfold absent. cbn. rewrite !lookup_insert_ne by slots. apply Hq.
  - intros c' Hc'. cbn in Hc' |- *. apply lookup_insert_is_Some in Hc' as [<-|[Hne Hc']].
    + rewrite lookup_delete_eq. left. cbn. rewrite !lookup_insert_ne by slots. apply Hfresh. slots.
    + rewrite lookup_delete_ne by done. eapply (mig_keep (fun c' => c' = c) a); [|congruence|by apply Hm]. intros c2 Hc2. cbn. rewrite !lookup_insert_ne by slots.
      split; [|done]. intros xs Hxs. exists []. by rewrite app_nil_r.
Qed.

(** ** What processors do *)

Inductive sop : Type :=
| Fork (proc : Z) | Yield | Exit | Detach | Sleep (wc : Z) | WakeOne (wc : Z) | WakeAll (wc : Z)
| Next | Clock | Migrate | NewChannel | DestroyChannel (wc : Z).

(** proc_remthread, as far as the thread itself goes *)
Definition detach (me : Z) : M sched unit :=
  c ← get_cpu me; x ← get_thread (c_curthread c); put_thread (c_curthread c) (Thread (t_state x) (t_cpu x) 0).

Definition run_op (me : Z) (o : sop) : M sched unit :=
  match o with
  | Fork proc => _ ← thread_fork me proc; mret tt
  | Yield => _ ← thread_yield me; mret tt
  | Exit => _ ← thread_exit me; mret tt
  | Detach => detach me
  | Sleep wc => _ ← wchan_sleep me wc; mret tt
  | WakeOne wc => wchan_wakeone me wc
  | WakeAll wc => wchan_wakeall me wc
  | Next => _ ← thread_next me; mret tt
  | Clock => hardclock me
  | Migrate => s ← get; m ← deref FPanic (migs s !! me); migration_step me m
  | NewChannel => _ ← wchan_create; mret tt
  | DestroyChannel wc => wchan_destroy wc
  end.

Definition channel (s : sched) (wc : Z) : bool := bool_decide (is_Some (tl_count (tls s) !! wc_threads wc)).

(** When a processor may do an operation: it exists, and is in a migration
    exactly when it goes on with one; an idle one looks for the next thread and
    serves interrupts only; a thread leaves its process before it ends. *)
Definition allowed (s : sched) (me : Z) (o : sop) : bool :=
  match cpus s !! me with
  | None => false
  | Some c =>
      match o with Migrate => bool_decide (is_Some (migs s !! me)) | _ => bool_decide (migs s !! me = None) end &&
      match o with
      | Fork _ | Detach | NewChannel => negb (c_isidle c)
      | Exit => negb (c_isidle c) && match threads s !! c_curthread c with Some x => t_proc x =? 0 | None => false end
      | Sleep wc => negb (c_isidle c) && channel s wc
      | WakeOne wc | WakeAll wc => channel s wc
      | Next => c_isidle c
      | Yield | Clock | Migrate => true
      | DestroyChannel wc => bool_decide (tl_count (tls s) !! wc_threads wc = Some 0)
      end
  end.

Lemma channel_list s a wc : abs (tls s) a -> channel s wc = true -> exists xs, lists a !! wc_threads wc = Some xs.
Proof.
  intros Ha Hc%bool_decide_eq_true. apply elem_of_dom in Hc. rewrite <- (abs_dom _ _ Ha) in Hc. by apply elem_of_dom in Hc as [xs Hx]; eauto.
Qed.

Lemma good_mem s n l : good s -> s_next s <= n -> good (with_mem s n l).
Proof. intros (a & Hi & Hq & Hm) Hn. exists a. split_and!; [by apply inv_mem|done|done]. Qed.
Lemma becomes_tls s ex a L : good_at s a -> abs L a -> becomes s ex (chan a) None (with_tls s L).
Proof. intros (Hi & Hq & Hm) HL. apply (becomes_at _ _ _ _ a); [|done|done|exact (others_refl _ s)]. split_and!; [by apply inv_tls|done|done]. Qed.

Lemma dom_with {A} (m : gmap Z A) k x : is_Some (m !! k) -> dom (<[k := x]> m) = dom m.
Proof. apply dom_insert_lookup_L. Qed.

Lemma wp_bind_ret {S A} (m : M S A) (Q : S -> Prop) s : wp m (fun _ => Q) s -> wp (_ ← m; mret tt) (fun _ => Q) s.
Proof. intros Hm. wpsimp. eapply wp_mono; [exact Hm|]. intros x s'. by wpsimp. Qed.

(** The effect of an operation on the wait channels: they are queues. *)
Definition set_chan (w : Z) (f : list Z -> list Z) (ch : Z -> option (list Z)) (w' : Z) : option (list Z) :=
  if decide (w' = w) then f <$> ch w' else ch w'.
Definition chan_effect (o : sop) (cur : Z) (ch : Z -> option (list Z)) : Z -> option (list Z) :=
  match o with
  | Sleep w => set_chan w (fun xs => xs ++ [cur]) ch
  | WakeOne w => set_chan w (@tail Z) ch
  | WakeAll w => set_chan w (fun _ => []) ch
  | _ => ch
  end.
Lemma chan_put a l xs w : chan (put_list l xs a) w = if decide (l = wc_threads w) then Some xs else chan a w.
Proof. unfold chan. cbn. case_decide as E; [rewrite E; by rewrite lookup_insert_eq|by rewrite lookup_insert_ne]. Qed.
Lemma set_chan_put a w xs f w' : chan a w = Some xs -> chan (put_list (wc_threads w) (f xs) a) w' = set_chan w f (chan a) w'.
Proof.
  intros Hx. rewrite chan_put. unfold set_chan. destruct (decide (w' = w)) as [->|Hne]; [rewrite decide_True by done; by rewrite Hx|].
  rewrite decide_False; [done|]. slots.
Qed.
Lemma becomes_exact s ex ch gone s' a' : good_at s' a' -> (forall w, chan a' w = ch w) -> (forall t, gone <> Some t -> alive s t -> alive s' t) ->
  others_same ex s s' -> becomes s ex ch gone s'.
Proof. intros Hg Hc Ha Ho. exists a'. split_and!; auto. Qed.

(** Operations on a processor that runs a thread. *)
Section Running.
Variables (s : sched) (a : seqs) (me : Z) (c : cpu).
Hypothesis Hg : good_at s a.
Hypothesis Hc : cpus s !! me = Some c.
Let Hi : inv None None s a := proj1 Hg.
Hypothesis Hrun : c_isidle c = false.

Lemma becomes_sleep wc xs : chan a wc = Some xs ->
  wp (wchan_sleep me wc) (fun _ => becomes s (Some me) (set_chan wc (fun xs => xs ++ [c_curthread c]) (chan a)) None) s.
Proof using All.
  intros Hl. destruct (cur_on _ _ _ _ _ _ Hi Hc) as (x & Hx & _).
  eapply (wp_switch_sleep me c s a Hi Hc Hrun wc xs x); [done..|]. intros s' Hi' Hs.
  eapply becomes_exact; [eapply good_switched; [exact Hg|exact Hl|exact Hi'|exact Hs|right; intros c'; split; slots|intros c'; slots]|..].
  - intros w. by apply (set_chan_put a wc xs (fun xs => xs ++ [c_curthread c])).
  - intros t _. eapply switched_alive; [exact Hs|by left].
  - apply Hs.
Qed.
Lemma becomes_exit x : threads s !! c_curthread c = Some x -> t_proc x = 0 -> wp (thread_exit me) (fun _ => becomes s (Some me) (chan a) (Some (c_curthread c))) s.
Proof using All.
  intros Hx Hp. eapply (wp_switch_zombie me c s a Hi Hc Hrun x); [done..|]. intros s' xs Hl Hi' Hs.
  eapply becomes_exact; [eapply good_switched; [exact Hg|exact Hl|exact Hi'|exact Hs|right; intros c'; split; slots|intros c'; slots]|..].
  - intros w. rewrite chan_put, decide_False by slots. done.
  - intros t Ht. eapply switched_alive; [exact Hs|right; congruence].
  - apply Hs.
Qed.
Lemma becomes_fork ex proc : wp (thread_fork me proc) (fun _ => becomes s ex (chan a) None) s.
Proof using All.
  eapply wp_fork; [exact Hi|exact Hc|done|]. intros r s' a' Hi' (Hs & S5 & S6 & S7). pose proof Hs as (S1 & S2 & S3 & S4).
  apply (becomes_at _ _ _ _ a'); [eapply good_step; [exact Hg|exact Hi'|done|done|done|]; intros c'; apply absent_eq, S5; intros [? ?]; slots|..].
  - intros w. apply S5. intros [? ?]. slots.
  - intros t (x & Hx & Hz). exists x. auto.
  - by apply same_others.
Qed.
Lemma becomes_detach ex : wp (detach me) (fun _ => becomes s ex (chan a) None) s.
Proof using All.
  destruct (inv_cpu _ _ _ _ Hi me c Hc) as (x & Hx & Hme & [|Hst]); [done|]. rewrite Hrun in Hst. destruct Hst as [Hno Hst].
  unfold detach. wpsimp. eapply wp_get_cpu; [done|]. wpsimp. eapply wp_get_thread; [done|]. unfold put_thread. wpsimp.
  set (x' := Thread (t_state x) (t_cpu x) 0). set (cur := c_curthread c) in *.
  apply (becomes_at _ _ _ _ a); [split_and!; [|exact (proj1 (proj2 Hg))|exact (proj2 (proj2 Hg))]|done| |exact (others_refl _ s)].
  2: { intros t (y & Hy & Hz). unfold alive. cbn. destruct (decide (t = cur)) as [->|]; [|rewrite lookup_insert_ne by done; eauto].
    rewrite lookup_insert_eq. exists x'. split; [done|]. simpl. congruence. }
  assert (inv (Some cur) (Some me) (with_thread s cur x') a) as Hi'.
  { apply inv_edit; [by apply inv_hold|]. intros c' y Hy Ey. assert (me = c') as <- by (exact (cur_unique _ _ _ _ _ _ _ _ Hi Hc Hy (eq_sym Ey))). done. }
  change (inv None None (with_thread s cur x') a). split; try apply Hi'; [done|..].
  - intros t z Hz _. destruct (decide (t = cur)) as [->|]; [right; by exists me, c|]. eapply inv_home; [apply Hi'|done|congruence].
  - intros t z Hz _. destruct (decide (t = cur)) as [->|]; [|eapply inv_tcpu; [apply Hi'|done|congruence]].
    cbn in Hz. rewrite lookup_insert_eq in Hz. injection Hz as <-. cbn. rewrite Hme. eauto.
  - intros c' y Hy. destruct (inv_cpu _ _ _ _ Hi' c' y Hy) as (z & Hz & Hcz & [[= <-]|]); [|eauto]. exists z. split_and!; [done..|]. right.
    cbn in Hy. rewrite Hc in Hy. injection Hy as <-. rewrite Hrun. cbn in Hz. fold cur in Hz. rewrite lookup_insert_eq in Hz. by injection Hz as <-.
Qed.
End Running.

Lemma becomes_wakeone s a me ex wc xs : good_at s a -> chan a wc = Some xs -> wp (wchan_wakeone me wc) (fun _ => becomes s ex (set_chan wc (@tail Z) (chan a)) None) s.
Proof.
  intros Hg Hl. pose proof Hg as (Hi & _).
  assert (forall w, chan (put_list (wc_threads wc) (tail xs) a) w = set_chan wc (@tail Z) (chan a) w) as Heff by (intros w; by apply set_chan_put).
  eapply wp_wakeone; [done|exact Hl|..].
  - intros L -> [HL _ _ _ _ _ _ _ _ _ _]. destruct (becomes_tls s ex a L Hg HL) as (a' & Hg' & Hc & H'). exists a'. split; [done|]. split; [|done].
    intros w. rewrite <- Heff. unfold chan in *. cbn [tail]. rewrite put_same by done. apply Hc.
  - intros t ts x qs s' -> Hx Hq Hi' (Hs & Hth). pose proof Hs as (_ & E1 & E2 & _).
    eapply becomes_exact; [eapply good_step; [exact Hg|exact Hi'| |done|done|]|..].
    + eapply keeps_trans; [apply (keeps_other a (wc_threads wc) ts); intros c; split; slots|]. apply keeps_append. cbn. by rewrite lookup_insert_ne by slots.
    + intros c. apply absent_eq. cbn. by rewrite !lookup_insert_ne by slots.
    + intros w. rewrite chan_put, decide_False by slots. apply Heff.
    + intros t' _ (y & Hy & Hz). unfold alive. rewrite Hth. destruct (decide (t' = t)) as [->|]; [rewrite lookup_insert_eq; eauto|rewrite lookup_insert_ne by done; eauto].
    + by apply same_others.
Qed.
Lemma becomes_wakeall s a me ex wc xs : good_at s a -> is_Some (cpus s !! me) -> chan a wc = Some xs ->
  wp (wchan_wakeall me wc) (fun _ => becomes s ex (set_chan wc (fun _ => []) (chan a)) None) s.
Proof.
  intros Hg Hme Hl. pose proof Hg as (Hi & Hq & _).
  eapply wp_wakeall; [done|done|done|exact Hl|]. intros s' a' Hi' Ho Hk Hwc Hnil (Hs & Hth). pose proof Hs as (_ & E1 & E2 & _).
  apply (becomes_exact _ _ _ _ _ a'); [eapply good_step; [exact Hg|exact Hi'|done|done|done|]|..].
  - intros c Hc. destruct (decide (c = me)) as [->|]; [by right|]. eapply absent_eq; [|exact Hc]. apply Ho. intros [?|[?|[c' ?]]]; slots.
  - intros w. unfold set_chan. destruct (decide (w = wc)) as [->|]; [unfold chan in *; by rewrite Hwc, Hl|]. apply Ho. intros [?|[?|[c' ?]]]; slots.
  - intros t _ (y & Hy & Hz). unfold alive. rewrite Hth, Hy. case_decide; eauto.
  - by apply same_others.
Qed.
Lemma becomes_next s a me c : good_at s a -> cpus s !! me = Some c -> c_isidle c = true -> migs s !! me = None ->
  wp (thread_next me) (fun _ => becomes s (Some me) (chan a) None) s.
Proof.
  intros Hg Hc Hidle Hm. pose proof Hg as (Hi & Hq & Hmo). destruct (inv_queues _ _ _ _ Hi me) as [[qs Hl] _]; [eauto|].
  eapply wp_next; [done|exact Hc|done|exact Hl|intros L _ [HL _ _ _ _ _ _ _ _ _ _]; eapply becomes_tls; [exact Hg|exact HL]|].
  intros t ts x s' a' -> Hx Hi' E (E1 & E2 & (c0 & Hc0 & E3) & Hth). apply (becomes_at _ _ _ _ a'); [split_and!; [done|..]|..].
  - intros c'. eapply absent_eq; [|apply Hq]. rewrite E. by rewrite !lookup_insert_ne by slots.
  - intros c' Hc'. assert (is_Some (cpus s !! c')) as Hcs by (rewrite E3, lookup_insert_is_Some in Hc'; destruct Hc' as [<-|[_ ?]]; eauto).
    rewrite E1. destruct (decide (c' = me)) as [->|Hne].
    + rewrite Hm. specialize (Hmo me Hcs). rewrite Hm in Hmo. eapply absent_eq; [|exact Hmo]. rewrite E. by rewrite !lookup_insert_ne by slots.
    + eapply (mig_keep (fun c => c = me) a); [|done|by apply Hmo]. intros c2 Hc2. rewrite E. rewrite !lookup_insert_ne by slots.
      split; [|done]. intros ys Hys. exists []. by rewrite app_nil_r.
  - intros w. unfold chan. rewrite E. by rewrite !lookup_insert_ne by slots.
  - intros t' (y & Hy & Hz). destruct (decide (t' = t)) as [->|].
    + eexists. split; [apply Hth; [by rewrite lookup_insert_eq|done]|done].
    + exists y. split; [|done]. apply Hth; [by rewrite lookup_insert_ne|done].
  - intros c' y Hne Hy. rewrite E3. exists y. by rewrite lookup_insert_ne by congruence.
Qed.

Lemma becomes_clock s a me c : good_at s a -> cpus s !! me = Some c -> migs s !! me = None -> wp (hardclock me) (fun _ => becomes s (Some me) (chan a) None) s.
Proof.
  intros Hg Hc Hm. pose proof Hg as (Hi & Hq & Hmo). unfold hardclock. wpsimp. eapply wp_get_cpu; [done|]. unfold put_cpu. wpsimp.
  set (c' := Cpu (c_curthread c) (c_isidle c) (c_ipi_pending c) (u32 (c_hardclocks c + 1))).
  assert (inv None None (with_cpu s me c') a) as Hi'.
  { eapply (inv_with_cpu None None None s a me c c'); [done|done|by right; right; right| |by left]. exact (inv_cpu _ _ _ _ Hi me c Hc). }
  assert (dom (cpus (with_cpu s me c')) = dom (cpus s)) as Hd by (apply dom_with; eauto).
  assert (good_at (with_cpu s me c') a) as Hg'.
  { split_and!; [done|done|]. eapply (migs_keep s); [apply keeps_refl|done|exact Hd|done]. }
  assert (others_same (Some me) s (with_cpu s me c')) as Ho by (intros c2 y Hne Hy; exists y; cbn; by rewrite lookup_insert_ne by congruence).
  destruct (_ =? 0).
  - apply wp_set_mig. apply (becomes_at _ _ _ _ a); [|done|done|exact Ho]. eapply (good_mig (with_cpu s me c') a); [done|apply Hg'|intros c2 _ Hc2; by apply Hg'|].
    destruct (inv_queues _ _ _ _ Hi me) as [[qs Hl] _]; [eauto|]. specialize (Hmo me ltac:(eauto)). rewrite Hm in Hmo. split; [done|].
    split; [done|]. exists qs. split; [done|lia].
  - apply wp_bind_ret. eapply wp_mono; [eapply becomes_yield; [exact Hg'|]; cbn; by rewrite lookup_insert_eq|].
    intros b s' (a' & Hga & Hch & Hal & Hot). exists a'. split_and!; [done|done|done|]. intros c2 y Hne Hy. apply Hot; [done|]. cbn. by rewrite lookup_insert_ne by congruence.
Qed.

(** Channels come and go. *)
Definition add_chan (w : Z) (ch : Z -> option (list Z)) (w' : Z) : option (list Z) := if decide (w' = w) then Some [] else ch w'.
Lemma becomes_added s ex ch gone w s' : ch w = None -> becomes s ex (add_chan w ch) gone s' -> becomes s ex ch gone s'.
Proof.
  intros Hw (a' & Hg & Hc & H'). exists a'. split; [done|]. split; [|done]. intros w'. specialize (Hc w'). unfold add_chan in Hc.
  case_decide as E; [subst w'|exact Hc]. right. split; [done|]. by destruct Hc as [?|[??]].
Qed.
Lemma becomes_newchan s a ex Q : good_at s a -> (forall s', becomes s ex (chan a) None s' -> Q None s') ->
  (forall w s', w = s_next s -> chan a w = None -> becomes s ex (add_chan w (chan a)) None s' -> Q (Some w) s') -> wp wchan_create Q s.
Proof.
  intros Hg H0 H1. pose proof Hg as (Hi & Hq & Hm). eapply wp_wchan_create; [done|..].
  - intros l Hi'. apply H0. apply (becomes_at _ _ _ _ a); [split_and!; done|done|done|exact (others_refl _ s)].
  - intros s' a' w Hi' -> Hno Ew Et Ec Ea Em. apply H1; [done|done|]. eapply becomes_exact.
    + eapply good_step; [exact Hg|exact Hi'|apply keeps_other; intros c'; split; slots|done|by rewrite Ec|].
      intros c'. apply absent_eq. cbn. by rewrite lookup_insert_ne by slots.
    + intros w'. rewrite chan_put. unfold add_chan. destruct (decide (w' = w)) as [->|]; [by rewrite decide_True|]. rewrite decide_False by slots. done.
    + intros t _. unfold alive. by rewrite Et.
    + intros c x _ Hx. rewrite Ec. eauto.
Qed.
Lemma becomes_destroychan s a ex wc : good_at s a -> chan a wc = Some [] -> wp (wchan_destroy wc) (fun _ => becomes s ex (chan a) None) s.
Proof.
  intros Hg Hl. pose proof Hg as (Hi & _). unfold wchan_destroy. rewrite wp_on_lists. eapply wp_cleanup; [apply Hi|exact Hl|done|]. rewrite with_tls_id.
  apply (becomes_at _ _ _ _ a); [done..|apply others_refl].
Qed.

(** Every operation runs, with its effect on the channels. *)
Definition gone (o : sop) (cur : Z) : option Z := match o with Exit => Some cur | _ => None end.
Lemma run_op_becomes s a me c o : good_at s a -> cpus s !! me = Some c -> allowed s me o = true ->
  wp (run_op me o) (fun _ => becomes s (Some me) (chan_effect o (c_curthread c) (chan a)) (gone o (c_curthread c))) s.
Proof.
  intros Hg Hc Hal. unfold allowed in Hal. rewrite Hc in Hal. apply andb_prop in Hal as [Hm Hal]. pose proof Hg as (Hi & Hq & Hmo).
  assert (forall wc, channel s wc = true -> exists xs, chan a wc = Some xs) as Hch by (intros wc; apply channel_list, Hi).
  destruct o as [proc| | | |wc|wc|wc| | | | |wc]; cbn [run_op chan_effect gone]; try (apply bool_decide_eq_true in Hm).
  - apply negb_true_iff in Hal. apply wp_bind_ret. by eapply becomes_fork.
  - apply wp_bind_ret. by eapply becomes_yield.
  - apply andb_prop in Hal as [Hr Hx]. apply negb_true_iff in Hr. destruct (threads s !! c_curthread c) as [x|] eqn:Ex; [|done].
    apply wp_bind_ret. eapply becomes_exit; [done..|lia].
  - apply negb_true_iff in Hal. by eapply becomes_detach.
  - apply andb_prop in Hal as [Hr [xs Hx]%Hch]. apply negb_true_iff in Hr. apply wp_bind_ret. by eapply becomes_sleep.
  - apply Hch in Hal as [xs Hx]. by eapply becomes_wakeone.
  - apply Hch in Hal as [xs Hx]. eapply becomes_wakeall; eauto.
  - apply wp_bind_ret. by eapply becomes_next.
  - by eapply becomes_clock.
  - destruct Hm as [m Hm]. wpsimp. rewrite Hm. exists m. split; [done|]. eapply wp_migration; eauto.
  - apply wp_bind_ret. apply negb_true_iff in Hal. eapply becomes_newchan; [done|done|]. intros w s' _. apply becomes_added.
  - apply bool_decide_eq_true in Hal. destruct (Hch wc) as [xs Hl]; [apply bool_decide_eq_true; rewrite Hal; eauto|].
    assert (xs = []) as ->; [|by eapply becomes_destroychan]. destruct (abs_count _ _ (inv_abs _ _ _ _ Hi) _ _ Hl) as [Hcnt _]. rewrite Hal in Hcnt.
    destruct xs; [done|]. injection Hcnt as Hcnt. simpl in Hcnt. lia.
Qed.

Lemma run_op_good s me o : good s -> allowed s me o = true -> wp (run_op me o) (fun _ => good) s.
Proof.
  intros [a Hg] Hal. destruct (cpus s !! me) as [c|] eqn:Hc; [|unfold allowed in Hal; by rewrite Hc in Hal].
  eapply wp_mono; [by eapply run_op_becomes|]. intros r s'. apply becomes_good.
Qed.

(** ** Runs of the machine *)

Fixpoint boot (kproc : Z) (n : nat) : M sched unit :=
  match n with O => mret tt | S n' => _ ← cpu_create kproc; boot kproc n' end.
Definition off : sched := Sched (TlState ∅ ∅) ∅ ∅ [] ∅ 1 [].

(** The states of a machine that was started with some processors and then runs,
    with memory that may give out at any time. *)
Inductive reach : sched -> Prop :=
| reach_boot kproc n l s : boot kproc n off = Ok tt s -> Z.of_nat n < 2 ^ 30 -> reach (with_mem s (s_next s) l)
| reach_step s me o s' : reach s -> allowed s me o = true -> run_op me o s = Ok tt s' -> reach s'.

Lemma boot_good kproc n s : good s -> s_allocs s = [] -> s_next s + 2 * Z.of_nat n <= 2 ^ 32 -> wp (boot kproc n) (fun _ => good) s.
Proof.
  revert s. induction n as [|n IH]; intros s Hg Ha Hn; cbn [boot]; [by wpsimp|]. wpsimp. eapply wp_mono; [apply cpu_create_good; [done|done|lia]|].
  cbn beta. intros c s' (Hg' & Ha' & Hn' & _). apply IH; [done..|lia].
Qed.

Lemma reach_good s : reach s -> good s.
Proof.
  induction 1 as [kproc n l s E Hn|s me o s' _ IH Hal E].
  - apply good_mem; [|lia]. pose proof (boot_good kproc n off (good_empty []) eq_refl ltac:(cbn; lia)) as Hb. unfold wp in Hb. by rewrite E in Hb.
  - pose proof (run_op_good s me o IH Hal) as Hb. unfold wp in Hb. by rewrite E in Hb.
Qed.

(** A thread is the current one of the processor it belongs to, and on no list;
    or on exactly one list, the one its state says, and runs nowhere.  The state
    of a thread that runs is S_RUN, or still the S_READY that thread_create gave
    to the thread a processor starts with. *)
Definition placed (s : sched) (a : seqs) (t : Z) (x : thread) : Prop :=
  ((t_state x = S_RUN \/ t_state x = S_READY) /\ ~ on_list t (lists a) /\ exists c, cpus s !! t_cpu x = Some c /\ c_curthread c = t /\ c_isidle c = false) \/
  (exists l, at_ a t l /\ fits l x /\ (forall l', at_ a t l' -> l' = l) /\ ~ running s t).

(** The linked lists stand for sequences, and every thread is in its place. *)
Definition in_place (s : sched) : Prop := exists a, abs (tls s) a /\ forall t x, threads s !! t = Some x -> placed s a t x.
(** The thread whose stack a processor uses exists, and is its own. *)
Definition own_stacks (s : sched) : Prop :=
  (forall c x, cpus s !! c = Some x -> exists y, threads s !! c_curthread x = Some y /\ t_cpu y = c) /\
  forall c c' x x', cpus s !! c = Some x -> cpus s !! c' = Some x' -> c_curthread x = c_curthread x' -> c = c'.

Lemma good_in_place s : good s -> in_place s.
Proof.
  intros (a & Hi & _). exists a. split; [apply Hi|]. intros t x Hx. destruct (inv_home _ _ _ _ Hi t x Hx) as [[l Hl]|Hr]; [done|right|left].
  - exists l. destruct (inv_place _ _ _ _ Hi t l Hl) as (x' & Hx' & Hf). rewrite Hx in Hx'. injection Hx' as <-.
    split_and!; [done|done|intros l' Hl'; by eapply at_unique; [apply Hi|..]|]. intros (c & y & Hy & <- & Hidle).
    pose proof (taken_idle _ _ _ _ Hi Hl c y Hy eq_refl). congruence.
  - destruct Hr as (c & y & Hy & Et & Hidle). destruct (inv_cpu _ _ _ _ Hi c y Hy) as (x' & Hx' & Hc & [|Hst]); [done|]. rewrite Hidle in Hst.
    rewrite Et, Hx in Hx'. injection Hx' as <-. rewrite Et in Hst. split; [apply Hst|]. split; [apply Hst|]. exists y. by rewrite Hc.
Qed.
Lemma good_own_stacks s : good s -> own_stacks s.
Proof. intros (a & Hi & _). split; [intros c x Hx; by eapply cur_on|]. intros c c' x x' Hx Hx'. by eapply cur_unique. Qed.

(** C20: the scheduler.  In every state a machine with any number of processors
    can reach, whatever their steps and however these are interleaved,
    migrations in progress included, every thread is in exactly one place: it
    runs on its own processor, in a state that says so, or is on the one list
    that its state says.
    Every operation that a processor may do next runs without a fault. *)
Theorem sched_safe s : reach s -> in_place s /\ forall me o, allowed s me o = true -> exists s', run_op me o s = Ok tt s' /\ in_place s'.
Proof.
  intros Hg%reach_good. split; [by apply good_in_place|]. intros me o Hal. pose proof (run_op_good s me o Hg Hal) as Hw. unfold wp in Hw.
  destruct (run_op me o s) as [[] s'|]; [|done]. exists s'. split; [done|by apply good_in_place].
Qed.

(** C21: stacks.  A processor, also an idle one that still stands on the stack of
    the thread it ran last, uses a thread that has not been destroyed and
    belongs to it; no two processors ever use the same thread. *)
Theorem own_stacks_safe s : reach s -> own_stacks s.
Proof. intros Hr. by apply good_own_stacks, reach_good. Qed.

(** Two processors, the first of which has forked a thread and sleeps. *)
Definition demo_ops : list (Z * sop) := [(1, NewChannel); (1, Fork 9); (1, Fork 9); (1, Sleep 5)].
Fixpoint demo_run (l : list (Z * sop)) : M sched unit :=
  match l with [] => mret tt | (me, o) :: l' => s ← get; kassert (allowed s me o) ;; run_op me o ;; demo_run l' end.
Definition demo_state : sched := match (boot 9 2 ;; demo_run demo_ops) off with Ok _ s => s | Fault _ => off end.

Lemma reach_run l s s' : reach s -> demo_run l s = Ok tt s' -> reach s'.
Proof.
  revert s. induction l as [|[me o] l IH]; intros s Hr; cbn [demo_run]; [by intros [= <-]|]. rewrite get_bind.
  destruct (allowed s me o) eqn:Ea; [|done]. rewrite kassert_bind by done. unfold mbind, M_bind. destruct (run_op me o s) as [[] s1|] eqn:E; [|done].
  intros E'. eapply IH; [|exact E']. by eapply reach_step.
Qed.
Lemma demo_reach : reach demo_state.
Proof.
  set (s0 := match boot 9 2 off with Ok _ s => s | Fault _ => off end).
  apply (reach_run demo_ops s0); [|vm_compute; reflexivity].
  assert (with_mem s0 (s_next s0) [] = s0) as <- by (vm_compute; reflexivity). apply (reach_boot 9 2 [] s0); [vm_compute; reflexivity|lia].
Qed.

Lemma sched_safe_witness : allowed demo_state 1 Next = true /\ in_place demo_state /\ exists s', run_op 1 Next demo_state = Ok tt s' /\ in_place s'.
Proof.
  split; [vm_compute; reflexivity|]. destruct (sched_safe demo_state demo_reach) as [H1 H2]. split; [exact H1|]. apply (H2 1 Next). vm_compute. reflexivity.
Defined.
Lemma own_stacks_safe_witness : own_stacks demo_state.
Proof. apply (own_stacks_safe demo_state). exact demo_reach. Defined.
End SchedProps.
