(* ===== verification/Synch.v ===== *)
(** * Semaphores, locks, condition variables and the clock

    Model of kern/thread/synch.c and of clocksleep and timerclock of
    kern/thread/clock.c on the wait channels of [Sched].  A section under a
    spinlock is one step; an operation that sleeps is cut there, and what its
    thread does when it runs again is the step [resume].  cv_wait has two
    spinlocks: it is cut also between the release of the lock, under the
    spinlock of the condition variable, and the sleep.  The deadlock detector
    and the names of objects are left out. *)

From S2P Require Import Prelude Kern Threadlist Sched.
Open Scope Z_scope.

Module Synch.
Import Sched.

(** ** State *)

Record semaphore := Semaphore { sem_wchan : Z; sem_count : Z }.
Record lock := Lock { lk_wchan : Z; lk_holder : Z }.
(** [cv_wchanlock]: the processor that holds the spinlock across two steps, 0
    for none *)
Record cv := Cv { cv_wchan : Z; cv_wchanlock : Z }.

Inductive object : Type := OSem (x : semaphore) | OLock (x : lock) | OCv (x : cv) | OLbolt (wc : Z).

(** What a thread that sleeps, or was woken and did not run yet, is in the
    middle of. *)
Inductive pc : Type :=
| InP (sem : Z) | InAcquire (lk : Z) | AtSleep (cv lk : Z) | InWait (cv lk : Z) | InClock (num_secs : Z).
#[export] Instance pc_eq_dec : EqDecision pc.
Proof. solve_decision. Defined.

(** The scheduler, the objects by address, with lbolt at 0, and the threads in
    the middle of an operation. *)
Record sync := Sync { sch : sched; heap : gmap Z object; pcs : gmap Z pc }.

Definition lift {A} (m : M sched A) : M sync A := fun y =>
  match m (sch y) with Ok a s => Ok a (Sync s (heap y) (pcs y)) | Fault f => Fault f end.
Definition get_sem (i : Z) : M sync semaphore :=
  y ← get; deref FDangling (match heap y !! i with Some (OSem x) => Some x | _ => None end).
Definition get_lock (i : Z) : M sync lock :=
  y ← get; deref FDangling (match heap y !! i with Some (OLock x) => Some x | _ => None end).
Definition get_cv (i : Z) : M sync cv :=
  y ← get; deref FDangling (match heap y !! i with Some (OCv x) => Some x | _ => None end).
Definition lbolt : M sync Z :=
  y ← get; deref FDangling (match heap y !! 0 with Some (OLbolt w) => Some w | _ => None end).
Definition put_obj (i : Z) (o : object) : M sync unit := modify (fun y => Sync (sch y) (<[i := o]> (heap y)) (pcs y)).
Definition kfree_obj (i : Z) : M sync unit := modify (fun y => Sync (sch y) (delete i (heap y)) (pcs y)).
Definition set_pc (t : Z) (p : option pc) : M sync unit :=
  modify (fun y => Sync (sch y) (heap y) (partial_alter (fun _ => p) t (pcs y))).
Definition curthread (me : Z) : M sync Z := c ← lift (get_cpu me); mret (c_curthread c).

(** What has happened on an object, for an observer. *)
Inductive event : Type :=
| Made (i : Z) (o : object) | Freed (i : Z)
| GotSem (sem : Z) | GaveSem (sem : Z)
| GotLock (t lk : Z) | GaveLock (t lk : Z) | Asked (t lk : Z) (held : bool).
Abbreviation step := (M sync (option event)).

(** sem_create, lock_create and cv_create share their shape: the object, its
    name and its channel, each of which may fail. *)
Definition obj_create (mk : Z -> object) : step :=
  i ← lift kmalloc_obj;
  match i with
  | None => mret None
  | Some i =>
      ok ← lift kmalloc; (* kstrdup *)
      if negb ok then mret None else
      wc ← lift wchan_create;
      match wc with
      | None => mret None
      | Some wc => put_obj i (mk wc) ;; mret (Some (Made i (mk wc)))
      end
  end.

(** ** Semaphores *)

Definition sem_create (initial_count : Z) : step := obj_create (fun wc => OSem (Semaphore wc (u32 initial_count))).
Definition sem_destroy (sem : Z) : step :=
  x ← get_sem sem;
  lift (wchan_destroy (sem_wchan x)) ;;
  kfree_obj sem ;;
  mret (Some (Freed sem)).

(** void P(sem): the loop, from the start and after each sleep *)
Definition P (me sem : Z) : step :=
  cur ← curthread me;
  x ← get_sem sem;
  if sem_count x =? 0 then
    set_pc cur (Some (InP sem)) ;;
    _ ← lift (wchan_sleep me (sem_wchan x));
    mret None
  else
    kassert (sem_count x >? 0) ;;
    put_obj sem (OSem (Semaphore (sem_wchan x) (u32 (sem_count x - 1)))) ;;
    set_pc cur None ;;
    mret (Some (GotSem sem)).

Definition V (me sem : Z) : step :=
  x ← get_sem sem;
  let n := u32 (sem_count x + 1) in
  put_obj sem (OSem (Semaphore (sem_wchan x) n)) ;;
  kassert (n >? 0) ;;
  lift (wchan_wakeone me (sem_wchan x)) ;;
  mret (Some (GaveSem sem)).

(** ** Locks *)

Definition lock_create : step := obj_create (fun wc => OLock (Lock wc 0)).
Definition lock_destroy (lk : Z) : step :=
  x ← get_lock lk;
  kassert (lk_holder x =? 0) ;;
  lift (wchan_destroy (lk_wchan x)) ;;
  kfree_obj lk ;;
  mret (Some (Freed lk)).

(** The loop of lock_acquire, and lock_acquire from the start. *)
Definition lock_loop (me lk : Z) : step :=
  cur ← curthread me;
  x ← get_lock lk;
  if negb (lk_holder x =? 0) then
    set_pc cur (Some (InAcquire lk)) ;;
    _ ← lift (wchan_sleep me (lk_wchan x));
    mret None
  else
    put_obj lk (OLock (Lock (lk_wchan x) cur)) ;;
    set_pc cur None ;;
    mret (Some (GotLock cur lk)).
Definition lock_acquire (me lk : Z) : step :=
  cur ← curthread me;
  x ← get_lock lk;
  kassert (negb (lk_holder x =? cur)) ;;
  lock_loop me lk.

Definition lock_release (me lk : Z) : step :=
  cur ← curthread me;
  x ← get_lock lk;
  kassert (lk_holder x =? cur) ;;
  put_obj lk (OLock (Lock (lk_wchan x) 0)) ;;
  lift (wchan_wakeone me (lk_wchan x)) ;;
  mret (Some (GaveLock cur lk)).

Definition lock_do_i_hold (me lk : Z) : step :=
  cur ← curthread me;
  x ← get_lock lk;
  mret (Some (Asked cur lk (lk_holder x =? cur))).

(** ** Condition variables *)

Definition cv_create : step := obj_create (fun wc => OCv (Cv wc 0)).
Definition cv_destroy (cv : Z) : step :=
  x ← get_cv cv;
  kassert (cv_wchanlock x =? 0) ;; (* spinlock_cleanup *)
  lift (wchan_destroy (cv_wchan x)) ;;
  kfree_obj cv ;;
  mret (Some (Freed cv)).

(** cv_wait up to the release of the lock, with the spinlock held, and from
    there to the sleep *)
Definition cv_wait (me cv lk : Z) : step :=
  cur ← curthread me;
  x ← get_cv cv;
  put_obj cv (OCv (Cv (cv_wchan x) me)) ;;
  set_pc cur (Some (AtSleep cv lk)) ;;
  lock_release me lk.
Definition cv_sleep (me cv lk : Z) : step :=
  cur ← curthread me;
  x ← get_cv cv;
  kassert (cv_wchanlock x =? me) ;;
  put_obj cv (OCv (Cv (cv_wchan x) 0)) ;;
  set_pc cur (Some (InWait cv lk)) ;;
  _ ← lift (wchan_sleep me (cv_wchan x));
  mret None.

Definition cv_signal (me cv : Z) : step :=
  x ← get_cv cv; lift (wchan_wakeone me (cv_wchan x)) ;; mret None.
Definition cv_broadcast (me cv : Z) : step :=
  x ← get_cv cv; lift (wchan_wakeall me (cv_wchan x)) ;; mret None.

(** ** The clock *)

Definition hardclock_bootstrap : M sync unit :=
  wc ← lift wchan_create;
  wc ← deref FPanic wc;
  put_obj 0 (OLbolt wc).
Definition timerclock (me : Z) : step := w ← lbolt; lift (wchan_wakeall me w) ;; mret None.
(** void clocksleep(num_secs), from the start and after each sleep *)
Definition clocksleep (me num_secs : Z) : step :=
  cur ← curthread me;
  w ← lbolt;
  if num_secs >? 0 then
    set_pc cur (Some (InClock num_secs)) ;;
    _ ← lift (wchan_sleep me w);
    mret None
  else set_pc cur None ;; mret None.

(** ** Going on after a sleep *)

Definition resume (me : Z) : step :=
  cur ← curthread me;
  y ← get;
  match pcs y !! cur with
  | Some (InP sem) => P me sem
  | Some (InAcquire lk) => lock_loop me lk
  | Some (AtSleep cv lk) => cv_sleep me cv lk
  | Some (InWait cv lk) => lock_acquire me lk
  | Some (InClock n) => clocksleep me (n - 1)
  | None => mret None
  end.
End Synch.
