(* ===== verification/SynchSpec.v ===== *)
(** * The invariant of the synchronisation objects

    The part that does not look into the scheduler: it is about the objects,
    the threads in the middle of an operation and the sleepers of each channel.
    [pinv_update] is the one step of it that all operations take. *)

From S2P Require Import Prelude Kern Threadlist Sched SchedSpec SchedOps SchedNew SchedMig SchedProps Synch.
Open Scope Z_scope.

Module SynchSpec.
Import Synch.

Abbreviation channels := (Z -> option (list Z)).

Definition wchan_of (o : object) : Z :=
  match o with OSem x => sem_wchan x | OLock x => lk_wchan x | OCv x => cv_wchan x | OLbolt w => w end.
(** The object on whose channel a thread with this program counter sleeps. *)
Definition pc_obj (p : pc) : option Z :=
  match p with InP i | InAcquire i | InWait i _ => Some i | InClock _ => Some 0 | AtSleep _ _ => None end.

(** The threads that were woken for semaphore [i] and did not run yet. *)
Definition on_way (pcs : gmap Z pc) (p : pc) (xs : list Z) : gset Z := filter (fun t => pcs !! t = Some p /\ t ∉ xs) (dom pcs).
Lemma elem_on_way pcs p xs t : t ∈ on_way pcs p xs <-> pcs !! t = Some p /\ t ∉ xs.
Proof. unfold on_way. rewrite elem_of_filter, elem_of_dom. naive_solver. Qed.

(** No wake-up is lost: while threads sleep, each unit of the semaphore has a
    thread on its way to it, and so has a lock that is free. *)
Definition obj_ok (pcs : gmap Z pc) (i : Z) (xs : list Z) (o : object) : Prop :=
  match o with
  | OSem x => 0 <= sem_count x < 2 ^ 32 /\ (xs <> [] -> sem_count x <= Z.of_nat (size (on_way pcs (InP i) xs)))
  | OLock x => xs <> [] -> lk_holder x = 0 -> exists t, t ∈ on_way pcs (InAcquire i) xs
  | OCv _ | OLbolt _ => True
  end.

Definition free_of (h : gmap Z object) (lk t : Z) : Prop := exists x, h !! lk = Some (OLock x) /\ lk_holder x <> t.
Definition pc_ok (h : gmap Z object) (t : Z) (p : pc) : Prop :=
  match p with
  | InP i => exists x, h !! i = Some (OSem x)
  | InAcquire i => free_of h i t
  | InWait c l | AtSleep c l => (exists v, h !! c = Some (OCv v)) /\ free_of h l t
  | InClock _ => exists w, h !! 0 = Some (OLbolt w)
  end.

(** A sleeper's program counter says on which object it sleeps; a sleeper
    without one sleeps on a channel of its own. *)
Definition asleep_ok (h : gmap Z object) (pcs : gmap Z pc) (w t : Z) : Prop :=
  match pcs !! t with
  | None => forall i o, h !! i = Some o -> wchan_of o <> w
  | Some p => exists i o, pc_obj p = Some i /\ h !! i = Some o /\ wchan_of o = w
  end.

Record pinv (h : gmap Z object) (pcs : gmap Z pc) (ch : channels) : Prop := {
  p_lbolt : exists w, h !! 0 = Some (OLbolt w);
  p_addr : forall i o, h !! i = Some o -> i < wchan_of o;
  p_chan : forall i o, h !! i = Some o -> is_Some (ch (wchan_of o));
  p_inj : forall i j o o', h !! i = Some o -> h !! j = Some o' -> wchan_of o = wchan_of o' -> i = j;
  p_asleep : forall w xs t, ch w = Some xs -> t ∈ xs -> asleep_ok h pcs w t;
  p_pc : forall t p, pcs !! t = Some p -> pc_ok h t p;
  p_obj : forall i o xs, h !! i = Some o -> ch (wchan_of o) = Some xs -> obj_ok pcs i xs o
}.

Lemma tail_in {A} (x : A) xs : x ∈ tail xs -> x ∈ xs.
Proof. destruct xs; [done|by right]. Qed.
Lemma on_way_sub pcs pcs' p xs xs' : (forall t, pcs !! t = Some p -> t ∉ xs -> pcs' !! t = Some p /\ t ∉ xs') -> on_way pcs p xs ⊆ on_way pcs' p xs'.
Proof. intros H t [H1 H2]%elem_on_way. by apply elem_on_way, H. Qed.

Lemma obj_ok_mono pcs pcs' i xs o : obj_ok pcs i xs o -> (forall t, pcs !! t = Some (InP i) -> pcs' !! t = Some (InP i)) ->
  (forall t, pcs !! t = Some (InAcquire i) -> pcs' !! t = Some (InAcquire i)) -> obj_ok pcs' i xs o.
Proof.
  intros Ho H1 H2. destruct o as [x|x| |]; cbn in *; [|intros Hx H0; destruct (Ho Hx H0) as [t [Ht1 Ht2]%elem_on_way]; exists t; apply elem_on_way; auto|done..].
  destruct Ho as [Hr Hw]. split; [done|]. intros Hx. etrans; [by apply Hw|]. apply inj_le, subseteq_size, on_way_sub. auto.
Qed.

(** Channels that come up empty change nothing. *)
Lemma pinv_ext h pcs ch ch' : pinv h pcs ch -> (forall w, ch' w = ch w \/ ch w = None /\ ch' w = Some []) -> pinv h pcs ch'.
Proof.
  intros Hp Hc. assert (forall w xs, ch' w = Some xs -> ch w = Some xs \/ ch w = None /\ xs = []) as Hr.
  { intros w xs Hw. destruct (Hc w) as [E|[E1 E2]]; [left; congruence|right; split; congruence]. }
  split; try apply Hp.
  - intros i o Ho. pose proof (p_chan _ _ _ Hp i o Ho) as [xs Hx]. destruct (Hc (wchan_of o)) as [->|[E _]]; [eauto|congruence].
  - intros w xs t Hw Ht. destruct (Hr w xs Hw) as [H|[_ ->]]; [by eapply p_asleep|by apply elem_of_nil in Ht].
  - intros i o xs Ho Hx. eapply p_obj; [done|done|]. destruct (Hr _ _ Hx) as [|[E _]]; [done|]. pose proof (p_chan _ _ _ Hp i o Ho) as [? ?]. congruence.
Qed.

Definition same_kind (o o' : object) : Prop :=
  match o, o' with OSem _, OSem _ | OLock _, OLock _ | OCv _, OCv _ | OLbolt _, OLbolt _ => True | _, _ => False end.
Lemma pc_ok_upd h i o o' t p : h !! i = Some o -> same_kind o o' -> (forall x, o' = OLock x -> lk_holder x <> t) -> pc_ok h t p -> pc_ok (<[i := o']> h) t p.
Proof.
  intros Hi Hk Hl Hok. assert (forall j q, h !! j = Some q -> exists q', <[i := o']> h !! j = Some q' /\ same_kind q q' /\ (q' = q \/ forall x, q' = OLock x -> lk_holder x <> t)) as Hj.
  { intros j q Hq. destruct (decide (j = i)) as [->|Hne]; [exists o'; rewrite lookup_insert_eq; naive_solver|].
    exists q. rewrite lookup_insert_ne by done. split_and!; [done|by destruct q|by left]. }
  assert (forall l, free_of h l t -> free_of (<[i := o']> h) l t) as Hf.
  { intros l (x & Hx & Hne). destruct (Hj l _ Hx) as ([| x' | |] & Hx' & Hs & Hor); try done. exists x'. split; [done|]. naive_solver. }
  destruct p as [j|j|k l|k l|n]; cbn in *.
  - destruct Hok as [x Hx]. destruct (Hj j _ Hx) as ([] & Hx' & Hs & _); try done. eauto.
  - by apply Hf.
  - destruct Hok as [[v Hv] ?]. split; [|by apply Hf]. destruct (Hj k _ Hv) as ([] & Hx' & Hs & _); try done. eauto.
  - destruct Hok as [[v Hv] ?]. split; [|by apply Hf]. destruct (Hj k _ Hv) as ([] & Hx' & Hs & _); try done. eauto.
  - destruct Hok as [w Hw]. destruct (Hj 0 _ Hw) as ([] & Hx' & Hs & _); try done. eauto.
Qed.

(** One object, the sleepers on its channel and some program counters change. *)
Section Update.
Variables (h : gmap Z object) (pcs pcs' : gmap Z pc) (ch ch' : channels) (i : Z) (o o' : object) (xs xs' : list Z).
Hypothesis Hp : pinv h pcs ch.
Hypothesis Hi : h !! i = Some o.
Hypothesis Hkind : same_kind o o'.
Hypothesis Hw : wchan_of o' = wchan_of o.
Hypothesis Hx : ch (wchan_of o) = Some xs.
Hypothesis Hch : forall w, ch' w = if decide (w = wchan_of o) then Some xs' else ch w.
Hypothesis Hsleep : forall w ys t, ch w = Some ys -> t ∈ ys -> pcs' !! t = pcs !! t.
Hypothesis Hnew : forall t, t ∈ xs' -> t ∈ xs \/ exists p, pcs' !! t = Some p /\ pc_obj p = Some i.
Hypothesis Hother : forall t p, pcs !! t = Some p -> (forall j, j <> i -> p = InP j \/ p = InAcquire j -> pcs' !! t = Some p).
Hypothesis Hpc : forall t p, pcs' !! t = Some p -> pc_ok (<[i := o']> h) t p.
Hypothesis Hok : obj_ok pcs' i xs' o'.

Lemma upd_chan j q : <[i := o']> h !! j = Some q -> exists q0, h !! j = Some q0 /\ wchan_of q0 = wchan_of q /\ (j <> i -> q0 = q).
Proof using Hi Hw. intros [[<- <-]|[Hne Hq]]%lookup_insert_Some; [by exists o|by exists q]. Qed.
Lemma upd_back j q : h !! j = Some q -> exists q', <[i := o']> h !! j = Some q' /\ wchan_of q' = wchan_of q.
Proof using Hi Hw.
  intros Hq. destruct (decide (j = i)) as [->|]; [exists o'; rewrite lookup_insert_eq; naive_solver|exists q; by rewrite lookup_insert_ne].
Qed.

Lemma pinv_update : pinv (<[i := o']> h) pcs' ch'.
Proof using All.
  split.
  - destruct (p_lbolt _ _ _ Hp) as [w H0]. destruct (decide (i = 0)) as [->|]; [rewrite lookup_insert_eq|rewrite lookup_insert_ne by done; eauto].
    rewrite Hi in H0. injection H0 as ->. destruct o'; try done. eauto.
  - intros j q (q0 & Hq & <- & _)%upd_chan. by eapply p_addr.
  - intros j q (q0 & Hq & <- & _)%upd_chan. rewrite Hch. case_decide; [eauto|by eapply p_chan].
  - intros j k q q' (q0 & Hq & <- & _)%upd_chan (q1 & Hq' & <- & _)%upd_chan. by eapply p_inj.
  - intros w ys t Hys Ht. assert (forall w ys, ch w = Some ys -> t ∈ ys -> asleep_ok (<[i := o']> h) pcs' w t) as Hold.
    { intros w0 ys0 H1 H2. unfold asleep_ok. rewrite (Hsleep _ _ _ H1 H2). pose proof (p_asleep _ _ _ Hp _ _ _ H1 H2) as Ha. unfold asleep_ok in Ha.
      destruct (pcs !! t) as [p|].
      - destruct Ha as (j & q & E & Hj & Ew). destruct (upd_back j q Hj) as (q' & Hq' & E'). exists j, q'. split_and!; [done..|congruence].
      - intros j q (q0 & Hq & <- & _)%upd_chan. by eapply Ha. }
    rewrite Hch in Hys. case_decide as E; [|by eapply Hold]. injection Hys as <-. destruct (Hnew t Ht) as [Hin|(p & Hpt & Hpo)]; [subst w; by eapply Hold|].
    unfold asleep_ok. rewrite Hpt. exists i, o'. rewrite lookup_insert_eq, Hw. done.
  - done.
  - intros j q ys Hq Hys. destruct (decide (j = i)) as [->|Hne].
    + rewrite lookup_insert_eq in Hq. injection Hq as <-. rewrite Hw, Hch, decide_True in Hys by done. by injection Hys as <-.
    + rewrite lookup_insert_ne in Hq by done. rewrite Hch in Hys. case_decide as E.
      { destruct Hne. by eapply p_inj. }
      eapply obj_ok_mono; [by eapply p_obj|..]; intros t Ht; eapply Hother; eauto.
Qed.
End Update.

(** A new object on a new channel. *)
Lemma pinv_add h pcs ch i o : pinv h pcs ch -> h !! i = None -> i < wchan_of o -> ch (wchan_of o) = None -> obj_ok pcs i [] o ->
  pinv (<[i := o]> h) pcs (SchedProps.add_chan (wchan_of o) ch).
Proof.
  intros Hp Hi Hlt Hw Hok. assert (forall j q, h !! j = Some q -> wchan_of q <> wchan_of o) as Hne.
  { intros j q Hq E. destruct (p_chan _ _ _ Hp j q Hq) as [xs Hx]. congruence. }
  assert (forall j q, h !! j = Some q -> <[i := o]> h !! j = Some q) as Hk by (intros j q Hq; rewrite lookup_insert_ne by congruence; done).
  unfold SchedProps.add_chan. split.
  - destruct (p_lbolt _ _ _ Hp) as [w H0]. eauto.
  - intros j q [[<- <-]|[Hj Hq]]%lookup_insert_Some; [done|by eapply p_addr].
  - intros j q [[<- <-]|[Hj Hq]]%lookup_insert_Some; [by rewrite decide_True|]. rewrite decide_False by eauto. by eapply p_chan.
  - intros j k q q' [[<- <-]|[Hj Hq]]%lookup_insert_Some [[<- <-]|[Hk' Hq']]%lookup_insert_Some E; [done|by destruct (Hne k q')|by destruct (Hne j q)|by eapply p_inj].
  - intros w xs t Hx Ht. case_decide; [injection Hx as <-; by apply elem_of_nil in Ht|]. pose proof (p_asleep _ _ _ Hp w xs t Hx Ht) as Ha.
    unfold asleep_ok in *. destruct (pcs !! t).
    + destruct Ha as (j & q & E & Hq & Eq). exists j, q. auto.
    + intros j q [[<- <-]|[Hj Hq]]%lookup_insert_Some; [congruence|eauto].
  - intros t p Hpt. pose proof (p_pc _ _ _ Hp t p Hpt) as Hok'. unfold pc_ok, free_of in *. destruct p; naive_solver.
  - intros j q xs [[<- <-]|[Hj Hq]]%lookup_insert_Some Hx; [rewrite decide_True in Hx by done; by injection Hx as <-|].
    rewrite decide_False in Hx by eauto. by eapply p_obj.
Qed.

(** An object that nobody uses goes away. *)
Definition uses (p : pc) (i : Z) : Prop :=
  match p with InP j | InAcquire j => j = i | InWait c l | AtSleep c l => c = i \/ l = i | InClock _ => i = 0 end.
#[export] Instance uses_dec p i : Decision (uses p i).
Proof. destruct p; cbn; apply _. Defined.

Lemma pinv_free h pcs ch i o : pinv h pcs ch -> h !! i = Some o -> (forall w, o <> OLbolt w) -> (forall t p, pcs !! t = Some p -> ~ uses p i) -> pinv (delete i h) pcs ch.
Proof.
  intros Hp Hi Hnl Hu. assert (forall j q, delete i h !! j = Some q -> h !! j = Some q) as Hd by (intros j q [_ Hq]%lookup_delete_Some; done).
  split.
  - destruct (p_lbolt _ _ _ Hp) as [w H0]. exists w. rewrite lookup_delete_ne; [done|]. intros ->. rewrite Hi in H0. injection H0 as ->. by destruct (Hnl w).
  - intros j q Hq%Hd. by eapply p_addr.
  - intros j q Hq%Hd. by eapply p_chan.
  - intros j k q q' Hq%Hd Hq'%Hd. by eapply p_inj.
  - intros w xs t Hx Ht. pose proof (p_asleep _ _ _ Hp w xs t Hx Ht) as Ha. unfold asleep_ok in *. destruct (pcs !! t) as [p|] eqn:Ept; [|eauto].
    destruct Ha as (j & q & E & Hq & Eq). exists j, q. split_and!; [done| |done]. rewrite lookup_delete_ne; [done|]. intros <-. apply (Hu t p Ept).
    destruct p; cbn in *; naive_solver.
  - intros t p Hpt. pose proof (p_pc _ _ _ Hp t p Hpt) as Hok. specialize (Hu t p Hpt).
    assert (forall j q, h !! j = Some q -> i <> j -> delete i h !! j = Some q) as Hk by (intros j q Hq Hne; by rewrite lookup_delete_ne).
    destruct p; unfold uses, pc_ok, free_of in *; naive_solver.
  - intros j q xs Hq%Hd. by eapply p_obj.
Qed.
End SynchSpec.
