(* ===== verification/SynchOps.v ===== *)
(** * The operations of synch.c keep the invariant

    Each step from a good state runs without a fault, ends in a good state and
    does on the objects what their specification allows. *)

From S2P Require Import Prelude Kern Threadlist Sched SchedSpec SchedOps SchedNew SchedMig SchedProps Synch SynchSpec.
Open Scope Z_scope.

Module SynchOps.
Import Threadlist Sched SchedSpec SchedOps SchedNew SchedMig SchedProps Synch SynchSpec.

(** ** The specification: counters and owners *)

Inductive aobj : Type := ASem (n : Z) | ALock (holder : option Z).
Definition absobj (o : object) : option aobj :=
  match o with
  | OSem x => Some (ASem (sem_count x))
  | OLock x => Some (ALock (if lk_holder x =? 0 then None else Some (lk_holder x)))
  | _ => None
  end.
Definition spec_of (h : gmap Z object) : gmap Z aobj := omap absobj h.

(** A semaphore is taken when it has units left, a lock when nobody owns it; it
    is given back by its owner, and destroyed when it has none. *)
Definition astep (a : gmap Z aobj) (e : event) : option (gmap Z aobj) :=
  match e with
  | Made i o => match a !! i with None => Some (match absobj o with Some x => <[i := x]> a | None => a end) | Some _ => None end
  | Freed i => match a !! i with Some (ALock (Some _)) => None | _ => Some (delete i a) end
  | GotSem i => match a !! i with Some (ASem n) => if 0 <? n then Some (<[i := ASem (n - 1)]> a) else None | _ => None end
  | GaveSem i => match a !! i with Some (ASem n) => Some (<[i := ASem (n + 1)]> a) | _ => None end
  | GotLock t i => match a !! i with Some (ALock None) => Some (<[i := ALock (Some t)]> a) | _ => None end
  | GaveLock t i =>
      match a !! i with Some (ALock (Some t')) => if t' =? t then Some (<[i := ALock None]> a) else None | _ => None end
  | Asked t i b =>
      match a !! i with Some (ALock h) => if bool_decide (b = bool_decide (h = Some t)) then Some a else None | _ => None end
  end.
Definition follows (a : gmap Z aobj) (e : option event) : option (gmap Z aobj) :=
  match e with None => Some a | Some e => astep a e end.

Lemma spec_lookup h i o : h !! i = Some o -> spec_of h !! i = absobj o.
Proof. intros Hi. unfold spec_of. by rewrite lookup_omap, Hi. Qed.
Lemma spec_same h i o o' : h !! i = Some o -> absobj o' = absobj o -> spec_of (<[i := o']> h) = spec_of h.
Proof.
  intros Hi E. unfold spec_of. rewrite omap_insert, E. pose proof (spec_lookup _ _ _ Hi) as Hs. destruct (absobj o); [by apply insert_id|by apply delete_id].
Qed.
Lemma spec_insert h i o x : absobj o = Some x -> spec_of (<[i := o]> h) = <[i := x]> (spec_of h).
Proof. intros E. by apply omap_insert_Some. Qed.

(** ** Good states *)

Definition spin (s : sched) (h : gmap Z object) (ps : gmap Z pc) : Prop := forall t c l, ps !! t = Some (AtSleep c l) ->
  exists m x v, cpus s !! m = Some x /\ c_curthread x = t /\ c_isidle x = false /\ h !! c = Some (OCv v) /\ cv_wchanlock v = m.
Definition ygood_at (y : sync) (a : seqs) : Prop :=
  good_at (sch y) a /\ pinv (heap y) (pcs y) (chan a) /\ (forall t p, pcs y !! t = Some p -> alive (sch y) t) /\ spin (sch y) (heap y) (pcs y).
Definition ygood (y : sync) : Prop := exists a, ygood_at y a.

(** What is proved of a step. *)
Definition fine (y : sync) (e : option event) (y' : sync) : Prop := ygood y' /\ follows (spec_of (heap y)) e = Some (spec_of (heap y')).

Lemma wp_on_sch {A} (m : M sched A) Q y : wp (lift m) Q y <-> wp m (fun r s => Q r (Sync s (heap y) (pcs y))) (sch y).
Proof. unfold wp, lift. by destruct (m (sch y)). Qed.
Lemma wp_get_sem i x (Q : semaphore -> sync -> Prop) y : heap y !! i = Some (OSem x) -> Q x y -> wp (get_sem i) Q y.
Proof. intros Hx HQ. unfold get_sem. wpsimp. rewrite Hx. eauto. Qed.
Lemma wp_get_lock i x (Q : lock -> sync -> Prop) y : heap y !! i = Some (OLock x) -> Q x y -> wp (get_lock i) Q y.
Proof. intros Hx HQ. unfold get_lock. wpsimp. rewrite Hx. eauto. Qed.
Lemma wp_get_cv i x (Q : cv -> sync -> Prop) y : heap y !! i = Some (OCv x) -> Q x y -> wp (get_cv i) Q y.
Proof. intros Hx HQ. unfold get_cv. wpsimp. rewrite Hx. eauto. Qed.
Lemma wp_lbolt w (Q : Z -> sync -> Prop) y : heap y !! 0 = Some (OLbolt w) -> Q w y -> wp lbolt Q y.
Proof. intros Hx HQ. unfold lbolt. wpsimp. rewrite Hx. eauto. Qed.
Lemma wp_curthread me c (Q : Z -> sync -> Prop) y : cpus (sch y) !! me = Some c -> Q (c_curthread c) y -> wp (curthread me) Q y.
Proof. intros Hc HQ. unfold curthread. wpsimp. rewrite wp_on_sch. eapply wp_get_cpu; [done|]. wpsimp. by destruct y. Qed.

(** The end of a step: the scheduler has done its part. *)
Lemma ygood_end s ex ch gone s' h ps : becomes s ex ch gone s' -> pinv h ps ch -> (forall t p, ps !! t = Some p -> gone <> Some t /\ alive s t) ->
  spin s h ps -> (forall m x c l, ex = Some m -> cpus s !! m = Some x -> ps !! c_curthread x <> Some (AtSleep c l)) -> ygood (Sync s' h ps).
Proof.
  intros (a & Hg & Hc & Hal & Ho) Hp Ha Hs Hex. exists a. split_and!; cbn [sch heap pcs]; [done|by eapply pinv_ext| |].
  - intros t p [H1 H2]%Ha. by apply Hal.
  - intros t c l Ht. destruct (Hs t c l Ht) as (m & x & v & Hx & E1 & E2 & H').
    destruct (Ho m x) as (x' & Hx' & E1' & E2'); [|done|exists m, x', v; split_and!; try congruence; apply H'].
    intros ->. eapply (Hex m x); [done|done|]. by rewrite E1.
Qed.

Lemma set_chan_at w f ch xs : ch w = Some xs -> forall w', set_chan w f ch w' = if decide (w' = w) then Some (f xs) else ch w'.
Proof. intros Hx w'. unfold set_chan. case_decide as E; [subst; by rewrite Hx|done]. Qed.
Lemma chan_keep (ch : channels) w xs : ch w = Some xs -> forall w', ch w' = if decide (w' = w) then Some xs else ch w'.
Proof. intros Hx w'. case_decide as E; [by subst|done]. Qed.

(** ** Steps from a good state *)

Section Steps.
Variables (y : sync) (a : seqs) (me : Z) (c : cpu).
Hypothesis Hy : ygood_at y a.
Hypothesis Hc : cpus (sch y) !! me = Some c.
Let Hg : good_at (sch y) a := proj1 Hy.
Let Hi : inv None None (sch y) a := proj1 Hg.
Let Hp : pinv (heap y) (pcs y) (chan a) := proj1 (proj2 Hy).
Let Hal : forall t p, pcs y !! t = Some p -> alive (sch y) t := proj1 (proj2 (proj2 Hy)).
Let Hsp : spin (sch y) (heap y) (pcs y) := proj2 (proj2 (proj2 Hy)).
Let cur : Z := c_curthread c.

Lemma pc_pos t p : pcs y !! t = Some p -> 0 < t.
Proof using Hy.
  intros (x & Hx & _)%Hal. apply (inv_addr _ _ _ _ Hi). rewrite (inv_known _ _ _ _ Hi). by apply elem_of_dom_2 in Hx.
Qed.
Lemma sleepers i o : heap y !! i = Some o -> exists xs, chan a (wchan_of o) = Some xs /\ NoDup xs.
Proof using Hy.
  intros Ho. destruct (p_chan _ _ _ Hp i o Ho) as [xs Hx]. exists xs. split; [done|]. exact (abs_nodup _ _ (inv_abs _ _ _ _ Hi) _ _ Hx).
Qed.
Lemma asleep_pc i o xs t : heap y !! i = Some o -> chan a (wchan_of o) = Some xs -> t ∈ xs -> exists p, pcs y !! t = Some p /\ pc_obj p = Some i.
Proof using Hy.
  intros Ho Hx Ht. pose proof (p_asleep _ _ _ Hp _ _ _ Hx Ht) as Ha. unfold asleep_ok in Ha. destruct (pcs y !! t) as [p|]; [|by destruct (Ha i o)].
  exists p. split; [done|]. destruct Ha as (j & q & E & Hq & Ew). rewrite E. f_equal. by eapply p_inj.
Qed.
Lemma asleep_sem i x xs t : heap y !! i = Some (OSem x) -> chan a (sem_wchan x) = Some xs -> t ∈ xs -> pcs y !! t = Some (InP i).
Proof using Hy.
  intros Ho Hx Ht. destruct (asleep_pc i _ xs t Ho Hx Ht) as (p & Hpt & E). rewrite Hpt. pose proof (p_pc _ _ _ Hp t p Hpt) as Hok.
  destruct p; cbn in *; unfold free_of in *; naive_solver.
Qed.
Lemma asleep_lock i x xs t : heap y !! i = Some (OLock x) -> chan a (lk_wchan x) = Some xs -> t ∈ xs -> pcs y !! t = Some (InAcquire i).
Proof using Hy.
  intros Ho Hx Ht. destruct (asleep_pc i _ xs t Ho Hx Ht) as (p & Hpt & E). rewrite Hpt. pose proof (p_pc _ _ _ Hp t p Hpt) as Hok.
  destruct p; cbn in *; unfold free_of in *; naive_solver.
Qed.

(** A step that changes no program counter, by an operation that does not switch. *)
Lemma fine_keep h ch s' e : becomes (sch y) None ch None s' -> pinv h (pcs y) ch ->
  (forall i v, heap y !! i = Some (OCv v) -> h !! i = Some (OCv v)) -> follows (spec_of (heap y)) e = Some (spec_of h) -> fine y e (Sync s' h (pcs y)).
Proof using Hy.
  intros Hb Hp' Hcv He. split; [|done]. eapply ygood_end; [exact Hb|exact Hp'|intros t p Ht; split; [done|by eapply Hal]| |done].
  intros t k l Ht. destruct (Hsp t k l Ht) as (m & x & v & H1 & H2 & H3 & H4 & H5). exists m, x, v. split_and!; auto.
Qed.

(** Waking: the head of a list of sleepers is on its way. *)
Lemma on_way_wake p x xs : x ∉ xs -> pcs y !! x = Some p -> on_way (pcs y) p xs = {[x]} ∪ on_way (pcs y) p (x :: xs).
Proof using.
  intros Hx Hpx. apply set_eq. intros t. rewrite elem_of_union, elem_of_singleton, !elem_on_way, not_elem_of_cons. destruct (decide (t = x)) as [->|]; naive_solver.
Qed.

Lemma wp_V i x : heap y !! i = Some (OSem x) -> sem_count x < 2 ^ 32 - 1 -> wp (V me i) (fine y) y.
Proof using Hy Hc.
  intros Hx Hmax. destruct (sleepers i _ Hx) as (xs & Hxs & Hnd). pose proof (p_obj _ _ _ Hp _ _ _ Hx Hxs) as [Hr Hw]. cbn [wchan_of] in *.
  assert (u32 (sem_count x + 1) = sem_count x + 1) as En by (apply u32_id; width_lia).
  unfold V. wpsimp. eapply wp_get_sem; [exact Hx|]. unfold put_obj. wpsimp. rewrite En. split; [destruct (Z.gtb_spec (sem_count x + 1) 0); [done|lia]|].
  rewrite wp_on_sch. cbn [sch heap pcs]. eapply wp_mono; [by eapply becomes_wakeone|]. cbn beta. intros _ s' Hb. wpsimp. eapply fine_keep; [exact Hb|..].
  - eapply (pinv_update _ _ _ _ _ i _ _ xs (tail xs) Hp Hx); [done|done|exact Hxs|by apply set_chan_at|done|intros t Ht; left; by apply tail_in|done|..].
    + intros t p Hpt. eapply pc_ok_upd; [exact Hx|done|done|by apply Hp].
    + cbn. split; [lia|]. intros Hne. destruct xs as [|t ts]; [done|]. cbn [tail] in *. apply NoDup_cons in Hnd as [Hnt _].
      rewrite (on_way_wake _ t ts Hnt); [|eapply asleep_sem; [done..|left]]. rewrite size_union, size_singleton; [specialize (Hw ltac:(done)); lia|].
      apply disjoint_singleton_l. rewrite elem_on_way. set_solver.
  - intros j v Hj. rewrite lookup_insert_ne; [done|congruence].
  - cbn. rewrite (spec_lookup _ _ _ Hx). cbn. by erewrite spec_insert.
Qed.

(** Waking on an object that has no condition on its sleepers. *)
Lemma pinv_wake i w f xs : heap y !! i = Some w -> match w with OCv _ | OLbolt _ => True | _ => False end -> chan a (wchan_of w) = Some xs ->
  (forall t, t ∈ f xs -> t ∈ xs) -> pinv (heap y) (pcs y) (set_chan (wchan_of w) f (chan a)).
Proof using Hy.
  intros Hw Hk Hxs Hf. rewrite <- (insert_id (heap y) i w Hw).
  eapply (pinv_update _ _ _ _ _ i w w xs (f xs) Hp Hw); [by destruct w|done|exact Hxs|by apply set_chan_at|done|auto|done|rewrite insert_id by done; apply Hp|by destruct w].
Qed.
Lemma wp_signal i v : heap y !! i = Some (OCv v) -> wp (cv_signal me i) (fine y) y.
Proof using Hy Hc.
  intros Hv. destruct (sleepers i _ Hv) as (xs & Hxs & _). unfold cv_signal. wpsimp. eapply wp_get_cv; [done|]. wpsimp. rewrite wp_on_sch.
  eapply wp_mono; [by eapply becomes_wakeone|]. cbn beta. intros _ s' Hb. wpsimp.
  eapply fine_keep; [exact Hb|eapply (pinv_wake i (OCv v)); [done|done|exact Hxs|intros t; apply tail_in]|done|done].
Qed.
Lemma wp_broadcast i v : heap y !! i = Some (OCv v) -> wp (cv_broadcast me i) (fine y) y.
Proof using Hy Hc.
  intros Hv. destruct (sleepers i _ Hv) as (xs & Hxs & _). unfold cv_broadcast. wpsimp. eapply wp_get_cv; [done|]. wpsimp. rewrite wp_on_sch.
  eapply wp_mono; [eapply becomes_wakeall; [done|eauto|exact Hxs]|]. cbn beta. intros _ s' Hb. wpsimp.
  eapply fine_keep; [exact Hb|eapply (pinv_wake i (OCv v)); [done|done|exact Hxs|by intros t ?%elem_of_nil]|done|done].
Qed.
Lemma wp_timerclock w : heap y !! 0 = Some (OLbolt w) -> wp (timerclock me) (fine y) y.
Proof using Hy Hc.
  intros Hw. destruct (sleepers 0 _ Hw) as (xs & Hxs & _). unfold timerclock. wpsimp. eapply wp_lbolt; [done|]. wpsimp. rewrite wp_on_sch.
  eapply wp_mono; [eapply becomes_wakeall; [done|eauto|exact Hxs]|]. cbn beta. intros _ s' Hb. wpsimp.
  eapply fine_keep; [exact Hb|eapply (pinv_wake 0 (OLbolt w)); [done|done|exact Hxs|by intros t ?%elem_of_nil]|done|done].
Qed.

(** ** Steps of a running thread *)

Hypothesis Hrun : c_isidle c = false.

Lemma cur_off w ys : chan a w = Some ys -> cur ∉ ys.
Proof using Hy Hc Hrun.
  intros Hw Hin. destruct (inv_cpu _ _ _ _ Hi me c Hc) as (x & _ & _ & [|Hst]); [done|]. rewrite Hrun in Hst. apply Hst, on_list_at. by exists (wc_threads w), ys.
Qed.
Lemma cur_alive : alive (sch y) cur.
Proof using Hy Hc Hrun.
  destruct (inv_cpu _ _ _ _ Hi me c Hc) as (x & Hx & _ & [|Hst]); [done|]. rewrite Hrun in Hst. exists x. split; [done|]. destruct Hst as [_ [-> | ->]]; done.
Qed.
Lemma cur_pos : 0 < cur.
Proof using Hy Hc Hrun. destruct cur_alive as (x & Hx & _). apply (inv_addr _ _ _ _ Hi). rewrite (inv_known _ _ _ _ Hi). by apply elem_of_dom_2 in Hx. Qed.

Abbreviation with_pc p := (partial_alter (fun _ => p) cur (pcs y)).
Lemma with_pc_eq (p : option pc) : with_pc p !! cur = p.
Proof using. apply lookup_partial_alter_eq. Qed.
Lemma with_pc_ne (p : option pc) t : t <> cur -> with_pc p !! t = pcs y !! t.
Proof using. intros Hne. by apply lookup_partial_alter_ne. Qed.

(** A step that sets the program counter of the current thread. *)
Lemma fine_pc p h ch s' e ex : becomes (sch y) ex ch None s' -> ex = None \/ ex = Some me -> pinv h (with_pc p) ch ->
  (forall t k l v, t <> cur -> pcs y !! t = Some (AtSleep k l) -> heap y !! k = Some (OCv v) -> cv_wchanlock v <> me -> h !! k = Some (OCv v)) ->
  (forall k l, p <> Some (AtSleep k l)) -> follows (spec_of (heap y)) e = Some (spec_of h) -> fine y e (Sync s' h (with_pc p)).
Proof using Hy Hc Hrun.
  intros Hb Hex Hp' Hcv Hna He. split; [|done]. eapply ygood_end; [exact Hb|exact Hp'|..].
  - intros t q Ht. split; [done|]. destruct (decide (t = cur)) as [->|Hne]; [exact cur_alive|]. rewrite with_pc_ne in Ht by done. by eapply Hal.
  - intros t k l Ht. destruct (decide (t = cur)) as [->|Hne]; [rewrite with_pc_eq in Ht; by destruct (Hna k l)|]. rewrite with_pc_ne in Ht by done.
    destruct (Hsp t k l Ht) as (m & x & v & H1 & H2 & H3 & H4 & H5). exists m, x, v. split_and!; try done. eapply Hcv; [done..|].
    intros E. rewrite H5 in E. rewrite E, Hc in H1. by injection H1 as <-.
  - intros m x k l E Hx. destruct Hex; [congruence|]. assert (m = me) as -> by congruence. rewrite Hc in Hx. injection Hx as <-. rewrite with_pc_eq. apply Hna.
Qed.

Lemma pinv_cur i o o' xs xs' p ch' : heap y !! i = Some o -> same_kind o o' -> wchan_of o' = wchan_of o -> chan a (wchan_of o) = Some xs ->
  (forall w, ch' w = if decide (w = wchan_of o) then Some xs' else chan a w) ->
  (forall t, t ∈ xs' -> t ∈ xs \/ t = cur /\ exists q, p = Some q /\ pc_obj q = Some i) ->
  (forall j, j <> i -> pcs y !! cur <> Some (InP j) /\ pcs y !! cur <> Some (InAcquire j)) ->
  (forall t q, pcs y !! t = Some q -> t <> cur -> pc_ok (<[i := o']> (heap y)) t q) ->
  (forall q, p = Some q -> pc_ok (<[i := o']> (heap y)) cur q) -> obj_ok (with_pc p) i xs' o' -> pinv (<[i := o']> (heap y)) (with_pc p) ch'.
Proof using Hy Hc Hrun.
  intros Ho Hk Ew Hxs Hch Hin Hcur Hl Hq Hok. eapply (pinv_update _ _ _ _ _ i o o' xs xs' Hp Ho); [done|done|exact Hxs|done|..|exact Hok].
  - intros w ys t Hys Ht. apply with_pc_ne. intros ->. by eapply cur_off.
  - intros t Ht. destruct (Hin t Ht) as [|(-> & q & -> & E)]; [by left|right]. exists q. by rewrite with_pc_eq.
  - intros t q Ht j Hne Hor. destruct (decide (t = cur)) as [->|]; [|by rewrite with_pc_ne]. destruct (Hcur j Hne). naive_solver.
  - intros t q Ht. destruct (decide (t = cur)) as [->|]; [rewrite with_pc_eq in Ht; by apply Hq|]. rewrite with_pc_ne in Ht by done. by apply Hl.
Qed.

(** The current thread goes to sleep on object [i]. *)
Lemma fine_sleep i o q s' : heap y !! i = Some o -> pc_obj q = Some i -> (forall k l, q <> AtSleep k l) ->
  (forall j, j <> i -> pcs y !! cur <> Some (InP j) /\ pcs y !! cur <> Some (InAcquire j)) -> pc_ok (heap y) cur q ->
  (forall xs ps, obj_ok ps i xs o) ->
  becomes (sch y) (Some me) (set_chan (wchan_of o) (fun xs => xs ++ [cur]) (chan a)) None s' -> fine y None (Sync s' (heap y) (with_pc (Some q))).
Proof using Hy Hc Hrun.
  intros Ho Hq Hna Hcur Hpc Hok Hb. destruct (sleepers i o Ho) as (xs & Hxs & _).
  eapply fine_pc; [exact Hb|by right| |done|intros k l [= E]; by eapply Hna|done]. rewrite <- (insert_id (heap y) i o Ho).
  apply (pinv_cur i o o xs (xs ++ [cur])); [done|by destruct o|done|exact Hxs|exact (set_chan_at _ (fun xs => xs ++ [cur]) _ _ Hxs)| |done| | |apply Hok].
  - intros t [Ht|Ht]%elem_of_app; [by left|right]. apply list_elem_of_singleton in Ht. eauto.
  - intros t q' Ht _. rewrite insert_id by done. by apply Hp.
  - intros q' [= <-]. by rewrite insert_id.
Qed.

(** The condition on the other program counters when the current thread is in
    no operation, or in one on [i]. *)
Lemma own_pc i : pcs y !! cur = None \/ pcs y !! cur = Some (InP i) \/ pcs y !! cur = Some (InAcquire i) ->
  forall j, j <> i -> pcs y !! cur <> Some (InP j) /\ pcs y !! cur <> Some (InAcquire j).
Proof using. intros [->|[-> | ->]] j Hne; split; congruence. Qed.

Lemma becomes_refl s0 a0 : good_at s0 a0 -> becomes s0 None (chan a0) None s0.
Proof using. intros Hg0. apply (becomes_at _ _ _ _ a0); [done..|apply others_refl]. Qed.

(** An object of the current thread changes, and its program counter is reset. *)
Lemma fine_done i o o' e xs : heap y !! i = Some o -> wchan_of o' = wchan_of o -> chan a (wchan_of o) = Some xs ->
  (forall j, j <> i -> pcs y !! cur <> Some (InP j) /\ pcs y !! cur <> Some (InAcquire j)) -> same_kind o o' -> (forall v, o <> OCv v) ->
  (forall x t q, o' = OLock x -> pcs y !! t = Some q -> t <> cur -> lk_holder x <> t) -> obj_ok (with_pc None) i xs o' ->
  follows (spec_of (heap y)) e = Some (spec_of (<[i := o']> (heap y))) -> fine y e (Sync (sch y) (<[i := o']> (heap y)) (with_pc None)).
Proof using Hy Hc Hrun.
  intros Ho Ew Hxs Hcur Hk Hncv Hl Hok He. eapply fine_pc; [apply becomes_refl, Hg|by left| |..|done|exact He].
  - apply (pinv_cur i o o' xs xs); [done|done|done|exact Hxs|by apply chan_keep|by left|done| |done|done].
    intros t q Ht Hne. eapply pc_ok_upd; [done|done| |by apply Hp]. intros x Ex. by eapply Hl.
  - intros t k l v Hne Ht Hkv _. rewrite lookup_insert_ne; [done|]. intros <-. rewrite Ho in Hkv. injection Hkv as ->. by destruct (Hncv v).
Qed.

Lemma wp_P i x : heap y !! i = Some (OSem x) -> pcs y !! cur = None \/ pcs y !! cur = Some (InP i) -> wp (P me i) (fine y) y.
Proof using Hy Hc Hrun.
  intros Hx Hpc. destruct (sleepers i _ Hx) as (xs & Hxs & _). pose proof (p_obj _ _ _ Hp _ _ _ Hx Hxs) as [Hr Hw]. cbn [wchan_of] in *.
  assert (forall j, j <> i -> pcs y !! cur <> Some (InP j) /\ pcs y !! cur <> Some (InAcquire j)) as Hcur by (apply own_pc; tauto).
  unfold P. wpsimp. eapply wp_curthread; [done|]. fold cur. wpsimp. eapply wp_get_sem; [done|]. destruct (Z.eqb_spec (sem_count x) 0) as [E|E].
  - unfold set_pc. wpsimp. rewrite wp_on_sch. cbn [sch heap pcs]. eapply wp_mono; [by eapply becomes_sleep|]. cbn beta. intros b s' Hb. wpsimp.
    eapply fine_sleep; [exact Hx|done|done|done|by exists x| |exact Hb]. intros ys ps. cbn. rewrite E. split; [lia|]. intros _. lia.
  - unfold put_obj, set_pc. wpsimp. split; [destruct (Z.gtb_spec (sem_count x) 0); [done|lia]|]. cbn [sch heap pcs].
    assert (u32 (sem_count x - 1) = sem_count x - 1) as En by (apply u32_id; width_lia). rewrite En.
    eapply fine_done; [exact Hx|done|exact Hxs|done|done|done|done| |].
    + cbn. split; [lia|]. intros Hne. specialize (Hw Hne). assert (on_way (pcs y) (InP i) xs ⊆ {[cur]} ∪ on_way (with_pc None) (InP i) xs) as Hsub.
      { intros t [H1 H2]%elem_on_way. destruct (decide (t = cur)); [set_solver|]. apply elem_of_union. right. apply elem_on_way. by rewrite with_pc_ne. }
      apply subseteq_size in Hsub. pose proof (size_union_alt {[cur]} (on_way (with_pc None) (InP i) xs)) as Hs. rewrite size_singleton in Hs.
      pose proof (subseteq_size (on_way (with_pc None) (InP i) xs ∖ {[cur]}) (on_way (with_pc None) (InP i) xs) ltac:(set_solver)). lia.
    + cbn. rewrite (spec_lookup _ _ _ Hx). cbn. destruct (Z.ltb_spec 0 (sem_count x)); [|lia]. by erewrite spec_insert.
Qed.

Lemma wp_lock_loop i x : heap y !! i = Some (OLock x) -> lk_holder x <> cur ->
  pcs y !! cur = None \/ pcs y !! cur = Some (InAcquire i) \/ (exists k, pcs y !! cur = Some (InWait k i)) -> wp (lock_loop me i) (fine y) y.
Proof using Hy Hc Hrun.
  intros Hx Hh Hpc. destruct (sleepers i _ Hx) as (xs & Hxs & _). pose proof (p_obj _ _ _ Hp _ _ _ Hx Hxs) as Hw. cbn [wchan_of obj_ok] in *. pose proof cur_pos.
  assert (forall j, j <> i -> pcs y !! cur <> Some (InP j) /\ pcs y !! cur <> Some (InAcquire j)) as Hcur.
  { intros j Hne. destruct Hpc as [->|[->|[k ->]]]; split; congruence. }
  unfold lock_loop. wpsimp. eapply wp_curthread; [done|]. fold cur. wpsimp. eapply wp_get_lock; [done|]. destruct (Z.eqb_spec (lk_holder x) 0) as [E|E]; cbn [negb].
  - unfold put_obj, set_pc. wpsimp. cbn [sch heap pcs]. eapply fine_done; [exact Hx|done|exact Hxs|done|done|done| | |].
    + intros x' t q [= <-] _ Hne. cbn. congruence.
    + cbn. lia.
    + cbn. rewrite (spec_lookup _ _ _ Hx). cbn. rewrite E. cbn. erewrite spec_insert; [done|]. cbn. destruct (Z.eqb_spec cur 0); [lia|done].
  - unfold set_pc. wpsimp. rewrite wp_on_sch. cbn [sch heap pcs]. eapply wp_mono; [by eapply becomes_sleep|]. cbn beta. intros b s' Hb. wpsimp.
    eapply fine_sleep; [exact Hx|done|done|done|by exists x| |exact Hb]. intros ys ps. cbn. done.
Qed.
Lemma wp_lock_acquire i x : heap y !! i = Some (OLock x) -> lk_holder x <> cur ->
  pcs y !! cur = None \/ (exists k, pcs y !! cur = Some (InWait k i)) -> wp (lock_acquire me i) (fine y) y.
Proof using Hy Hc Hrun.
  intros Hx Hh Hpc. unfold lock_acquire. wpsimp. eapply wp_curthread; [done|]. fold cur. wpsimp. eapply wp_get_lock; [done|]. wpsimp.
  split; [destruct (Z.eqb_spec (lk_holder x) cur); done|]. eapply wp_lock_loop; [done|done|tauto].
Qed.

Lemma wp_do_i_hold i x : heap y !! i = Some (OLock x) -> wp (lock_do_i_hold me i) (fine y) y.
Proof using Hy Hc Hrun.
  intros Hx. unfold lock_do_i_hold. wpsimp. eapply wp_curthread; [done|]. fold cur. wpsimp. eapply wp_get_lock; [done|]. wpsimp. split; [by exists a|].
  cbn. rewrite (spec_lookup _ _ _ Hx). cbn. pose proof cur_pos. rewrite bool_decide_eq_true_2; [done|].
  destruct (Z.eqb_spec (lk_holder x) cur), (Z.eqb_spec (lk_holder x) 0); symmetry; rewrite ?bool_decide_eq_true, ?bool_decide_eq_false; try congruence; lia.
Qed.

(** Releasing a lock: nobody holds it, and a sleeper, if any, is on its way. *)
Lemma pinv_release i x : heap y !! i = Some (OLock x) ->
  pinv (<[i := OLock (Lock (lk_wchan x) 0)]> (heap y)) (pcs y) (set_chan (lk_wchan x) (@tail Z) (chan a)).
Proof using Hy.
  intros Hx. destruct (sleepers i _ Hx) as (xs & Hxs & Hnd). cbn [wchan_of] in *.
  eapply (pinv_update _ _ _ _ _ i _ _ xs (tail xs) Hp Hx); [done|done|exact Hxs|by apply set_chan_at|done|intros t Ht; left; by apply tail_in|done|..].
  - intros t p Hpt. eapply pc_ok_upd; [exact Hx|done| |by apply Hp]. intros x' [= <-]. cbn. pose proof (pc_pos t p Hpt) as Hpos. clear -Hpos. lia.
  - cbn. intros Hne _. destruct xs as [|t ts]; [done|]. cbn [tail] in *. apply NoDup_cons in Hnd as [Hnt _]. exists t. apply elem_on_way.
    split; [eapply asleep_lock; [done..|left]|done].
Qed.
Lemma wp_lock_release i x : heap y !! i = Some (OLock x) -> lk_holder x = cur -> wp (lock_release me i) (fine y) y.
Proof using Hy Hc Hrun.
  intros Hx Hh. destruct (sleepers i _ Hx) as (xs & Hxs & _). pose proof cur_pos. unfold lock_release. wpsimp. eapply wp_curthread; [done|]. fold cur. wpsimp.
  eapply wp_get_lock; [done|]. unfold put_obj. wpsimp. split; [by apply Z.eqb_eq|]. rewrite wp_on_sch. cbn [sch heap pcs].
  eapply wp_mono; [by eapply becomes_wakeone|]. cbn beta. intros _ s' Hb. wpsimp. eapply fine_keep; [exact Hb|by apply pinv_release|..].
  - intros j v Hj. rewrite lookup_insert_ne; [done|congruence].
  - cbn. rewrite (spec_lookup _ _ _ Hx). cbn. rewrite Hh. destruct (Z.eqb_spec cur 0); [lia|]. rewrite Z.eqb_refl. by erewrite spec_insert.
Qed.

Lemma pinv_wait i x k v : heap y !! i = Some (OLock x) -> heap y !! k = Some (OCv v) -> pcs y !! cur = None ->
  pinv (<[i := OLock (Lock (lk_wchan x) 0)]> (<[k := OCv (Cv (cv_wchan v) me)]> (heap y))) (with_pc (Some (AtSleep k i)))
    (set_chan (lk_wchan x) (@tail Z) (chan a)).
Proof using Hy Hc Hrun.
  intros Hx Hv Hpc. assert (i <> k) as Hne by congruence. pose proof cur_pos. pose proof (pinv_release i x Hx) as Hp1.
  rewrite insert_insert_ne by done. set (h1 := <[i := _]> (heap y)) in *. assert (h1 !! k = Some (OCv v)) as Hv1 by (unfold h1; by rewrite lookup_insert_ne).
  destruct (p_chan _ _ _ Hp1 k _ Hv1) as [xs Hxs].
  apply (pinv_update _ _ _ _ _ k _ _ xs xs Hp1 Hv1); [done|done|exact Hxs|exact (chan_keep _ _ _ Hxs)|..|done].
  - intros w ys t Hys Ht. apply with_pc_ne. intros ->. destruct (sleepers i _ Hx) as (zs & Hzs & _). cbn [wchan_of] in Hzs.
    rewrite (set_chan_at _ _ _ _ Hzs) in Hys. case_decide; [injection Hys as <-; exact (cur_off _ _ Hzs (tail_in _ _ Ht))|exact (cur_off _ _ Hys Ht)].
  - by left.
  - intros t p Ht j Hj Hor. rewrite with_pc_ne; [done|]. intros ->. congruence.
  - intros t p Ht. destruct (decide (t = cur)) as [->|Hnc].
    + rewrite with_pc_eq in Ht. injection Ht as <-. cbn. split; [rewrite lookup_insert_eq; eauto|]. exists (Lock (lk_wchan x) 0). cbn. split; [|lia].
      rewrite lookup_insert_ne by done. unfold h1. by rewrite lookup_insert_eq.
    + rewrite with_pc_ne in Ht by done. eapply pc_ok_upd; [done|done|done|by apply Hp1].
Qed.
Lemma wp_wait i x k v : heap y !! i = Some (OLock x) -> lk_holder x = cur -> heap y !! k = Some (OCv v) -> cv_wchanlock v = 0 -> pcs y !! cur = None ->
  wp (cv_wait me k i) (fine y) y.
Proof using Hy Hc Hrun.
  intros Hx Hh Hv Hfree Hpc. assert (i <> k) as Hne by congruence. destruct (sleepers i _ Hx) as (xs & Hxs & _). pose proof cur_pos.
  unfold cv_wait. wpsimp. eapply wp_curthread; [done|]. fold cur. wpsimp. eapply wp_get_cv; [done|]. unfold put_obj, set_pc. wpsimp. cbn [sch heap pcs].
  unfold lock_release. wpsimp. eapply wp_curthread; [exact Hc|]. fold cur. wpsimp. eapply wp_get_lock; [cbn; rewrite lookup_insert_ne by done; exact Hx|].
  unfold put_obj. wpsimp. split; [by apply Z.eqb_eq|]. rewrite wp_on_sch. cbn [sch heap pcs].
  eapply wp_mono; [by eapply (becomes_wakeone _ a me None)|]. cbn beta. intros _ s' Hb. wpsimp. cbn [sch heap pcs]. split.
  - eapply ygood_end; [exact Hb|by apply pinv_wait|..|done].
    + intros t p Ht. split; [done|]. destruct (decide (t = cur)) as [->|]; [exact cur_alive|]. rewrite with_pc_ne in Ht by done. by eapply Hal.
    + intros t k' l Ht. destruct (decide (t = cur)) as [->|Hnc].
      * rewrite with_pc_eq in Ht. injection Ht as <- <-. exists me, c, (Cv (cv_wchan v) me). split_and!; [done..| |done].
        rewrite lookup_insert_ne by done. by rewrite lookup_insert_eq.
      * rewrite with_pc_ne in Ht by done. destruct (Hsp t k' l Ht) as (m & z & v' & H1 & H2 & H3 & H4 & H5). exists m, z, v'. split_and!; try done.
        destruct (inv_fresh _ _ _ _ Hi) as (_ & _ & F3 & _). specialize (F3 m ltac:(eauto)). rewrite !lookup_insert_ne; [done|..]; intros <-; [|congruence].
        rewrite Hv in H4. injection H4 as <-. lia.
  - cbn. rewrite (spec_lookup _ _ _ Hx). cbn. rewrite Hh. destruct (Z.eqb_spec cur 0); [lia|]. rewrite Z.eqb_refl.
    erewrite spec_insert by done. by erewrite spec_same.
Qed.

Lemma wp_cv_sleep k i : pcs y !! cur = Some (AtSleep k i) -> wp (cv_sleep me k i) (fine y) y.
Proof using Hy Hc Hrun.
  intros Hpc. pose proof (p_pc _ _ _ Hp _ _ Hpc) as [_ Hfree]. destruct (Hsp cur k i Hpc) as (m & z & v & H1 & H2 & H3 & H4 & H5).
  assert (m = me) as -> by (exact (cur_unique _ _ _ _ _ _ _ _ Hi H1 Hc H2)). clear dependent z. destruct (sleepers k _ H4) as (xs & Hxs & _). cbn [wchan_of] in Hxs.
  unfold cv_sleep. wpsimp. eapply wp_curthread; [done|]. fold cur. wpsimp. eapply wp_get_cv; [done|]. unfold put_obj, set_pc. wpsimp.
  split; [by apply Z.eqb_eq|]. rewrite wp_on_sch. cbn [sch heap pcs]. eapply wp_mono; [by eapply becomes_sleep|]. cbn beta. intros b s' Hb. wpsimp. cbn [sch heap pcs].
  eapply fine_pc; [exact Hb|by right|..|done|cbn; by erewrite spec_same].
  - apply (pinv_cur k (OCv v) _ xs (xs ++ [cur])); [done|done|done|exact Hxs|exact (set_chan_at _ (fun xs => xs ++ [cur]) _ _ Hxs)|..|done].
    + intros t [Ht|Ht]%elem_of_app; [by left|right]. apply list_elem_of_singleton in Ht. eauto.
    + rewrite Hpc. intros j _. split; congruence.
    + intros t q Ht _. eapply pc_ok_upd; [done|done|done|by apply Hp].
    + intros q [= <-]. cbn. split; [rewrite lookup_insert_eq; eauto|]. destruct Hfree as (x & Hx & Hn). exists x. rewrite lookup_insert_ne by congruence. done.
  - intros t k' l v' Hne Ht Hk' Hnl. rewrite lookup_insert_ne; [done|]. intros <-. rewrite H4 in Hk'. by injection Hk' as <-.
Qed.

Lemma wp_clocksleep n w : heap y !! 0 = Some (OLbolt w) -> pcs y !! cur = None \/ (exists m, pcs y !! cur = Some (InClock m)) -> wp (clocksleep me n) (fine y) y.
Proof using Hy Hc Hrun.
  intros Hw Hpc. destruct (sleepers 0 _ Hw) as (xs & Hxs & _). cbn [wchan_of] in Hxs.
  assert (forall j, j <> 0 -> pcs y !! cur <> Some (InP j) /\ pcs y !! cur <> Some (InAcquire j)) as Hcur by (intros j _; destruct Hpc as [->|[m ->]]; split; congruence).
  unfold clocksleep. wpsimp. eapply wp_curthread; [done|]. fold cur. wpsimp. eapply wp_lbolt; [done|]. destruct (n >? 0); unfold set_pc; wpsimp.
  - rewrite wp_on_sch. cbn [sch heap pcs]. eapply wp_mono; [by eapply becomes_sleep|]. cbn beta. intros b s' Hb. wpsimp.
    eapply fine_sleep; [exact Hw|done|done|done|by exists w|done|exact Hb].
  - rewrite <- (insert_id (heap y) 0 (OLbolt w) Hw). eapply fine_done; [exact Hw|done|exact Hxs|done|done|done|done|done|]. cbn. by erewrite spec_same.
Qed.

Lemma wp_resume : wp (resume me) (fine y) y.
Proof using Hy Hc Hrun.
  unfold resume. wpsimp. eapply wp_curthread; [done|]. fold cur. wpsimp. destruct (pcs y !! cur) as [p|] eqn:Hpc; [|wpsimp; split; [by exists a|done]].
  pose proof (p_pc _ _ _ Hp _ _ Hpc) as Hok. destruct p as [i|i|k i|k i|n]; cbn in Hok.
  - destruct Hok as [x Hx]. eapply wp_P; [done|by right].
  - destruct Hok as (x & Hx & Hne). eapply wp_lock_loop; [done|done|by right; left].
  - by apply wp_cv_sleep.
  - destruct Hok as (_ & x & Hx & Hne). eapply wp_lock_acquire; [done|done|right; eauto].
  - destruct Hok as [w Hw]. eapply wp_clocksleep; [done|eauto].
Qed.
End Steps.
End SynchOps.
