(* ===== verification/SynchProps.v ===== *)
(** * Properties of the synchronisation primitives

    Whatever the processors do and however their steps are interleaved: the
    objects behave as counters and as locks with owners, no assertion of
    synch.c fails, and no wake-up is lost. *)

From S2P Require Import Prelude Kern Threadlist Sched SchedSpec SchedOps SchedNew SchedMig SchedProps Synch SynchSpec SynchOps.
Open Scope Z_scope.

Module SynchProps.
Import Threadlist Sched SchedSpec SchedOps SchedNew SchedMig SchedProps Synch SynchSpec SynchOps.

(** ** What processors do *)

Inductive yop : Type :=
| Sch (o : sop)
| SemCreate (n : Z) | SemDestroy (i : Z) | SemP (i : Z) | SemV (i : Z)
| LockCreate | LockDestroy (i : Z) | Acquire (i : Z) | Release (i : Z) | DoIHold (i : Z)
| CvCreate | CvDestroy (k : Z) | CvWait (k i : Z) | CvSignal (k : Z) | CvBroadcast (k : Z)
| ClockSleep (n : Z) | Tick | Resume.

Definition run_yop (me : Z) (o : yop) : step :=
  match o with
  | Sch o => lift (run_op me o) ;; mret None
  | SemCreate n => sem_create n | SemDestroy i => sem_destroy i | SemP i => P me i | SemV i => V me i
  | LockCreate => lock_create | LockDestroy i => lock_destroy i
  | Acquire i => lock_acquire me i | Release i => lock_release me i | DoIHold i => lock_do_i_hold me i
  | CvCreate => cv_create | CvDestroy k => cv_destroy k
  | CvWait k i => cv_wait me k i | CvSignal k => cv_signal me k | CvBroadcast k => cv_broadcast me k
  | ClockSleep n => clocksleep me n | Tick => timerclock me | Resume => resume me
  end.

Definition unowned (y : sync) (w : Z) : bool := forallb (fun io => negb (wchan_of io.2 =? w)) (map_to_list (heap y)).
Definition unused (y : sync) (i : Z) : bool := forallb (fun tp => negb (bool_decide (uses tp.2 i))) (map_to_list (pcs y)).
Definition at_sleep (p : option pc) : bool := match p with Some (AtSleep _ _) => true | _ => false end.
Definition cv_free (y : sync) (k : Z) : bool := match heap y !! k with Some (OCv v) => cv_wchanlock v =? 0 | _ => false end.
Definition lock_is (y : sync) (i : Z) (f : Z -> bool) : bool := match heap y !! i with Some (OLock x) => f (lk_holder x) | _ => false end.

(** When an operation may be done.  Interrupts are off from the release of the
    lock in cv_wait to the sleep.  A thread in the middle of an operation goes on
    with it, but may be preempted; interrupt handlers may wake.  The users of
    the objects keep to what synch.h asks of them: a semaphore does not
    overflow, a thread does not acquire a lock it holds and releases one that it
    holds, objects that are destroyed are not in use. *)
Definition yallowed (y : sync) (me : Z) (o : yop) : bool :=
  match cpus (sch y) !! me with
  | None => false
  | Some c =>
      let cur := c_curthread c in
      let p := pcs y !! cur in
      let thread := bool_decide (migs (sch y) !! me = None) && negb (c_isidle c) in
      match o with
      | Resume => thread && match p with Some (InWait k _) => cv_free y k | Some _ => true | None => false end
      | _ =>
          negb (at_sleep p) &&
          match o with
          | Sch o =>
              allowed (sch y) me o &&
              match o with
              | Yield | Clock | Next | Migrate => true
              | WakeOne w | WakeAll w => unowned y w
              | Sleep w | DestroyChannel w => bool_decide (p = None) && unowned y w
              | Fork _ | Exit | Detach | NewChannel => bool_decide (p = None)
              end
          | SemV i => bool_decide (migs (sch y) !! me = None) && match heap y !! i with Some (OSem x) => sem_count x <? 2 ^ 32 - 1 | _ => false end
          | CvSignal k | CvBroadcast k => bool_decide (migs (sch y) !! me = None) && cv_free y k
          | Tick => bool_decide (migs (sch y) !! me = None)
          | _ =>
              thread && bool_decide (p = None) &&
              match o with
              | SemDestroy i => match heap y !! i with Some (OSem _) => unused y i | _ => false end
              | SemP i => match heap y !! i with Some (OSem _) => true | _ => false end
              | LockDestroy i => lock_is y i (fun h => h =? 0) && unused y i
              | Acquire i => lock_is y i (fun h => negb (h =? cur))
              | Release i => lock_is y i (fun h => h =? cur)
              | DoIHold i => lock_is y i (fun _ => true)
              | CvDestroy k => cv_free y k && unused y k
              | CvWait k i => cv_free y k && lock_is y i (fun h => h =? cur)
              | _ => true
              end
          end
      end
  end.

Lemma unowned_spec y w : unowned y w = true -> forall i o, heap y !! i = Some o -> wchan_of o <> w.
Proof.
  unfold unowned. rewrite forallb_forall. intros Hf i o Ho. specialize (Hf (i, o)). rewrite <- list_elem_of_In, elem_of_map_to_list in Hf.
  specialize (Hf Ho). cbn in Hf. by apply negb_true_iff, Z.eqb_neq in Hf.
Qed.
Lemma unused_spec y i : unused y i = true -> forall t p, pcs y !! t = Some p -> ~ uses p i.
Proof.
  unfold unused. rewrite forallb_forall. intros Hf t p Hp. specialize (Hf (t, p)). rewrite <- list_elem_of_In, elem_of_map_to_list in Hf.
  specialize (Hf Hp). cbn in Hf. by apply negb_true_iff, bool_decide_eq_false in Hf.
Qed.
Lemma cv_free_spec y k : cv_free y k = true -> exists v, heap y !! k = Some (OCv v) /\ cv_wchanlock v = 0.
Proof. unfold cv_free. destruct (heap y !! k) as [[]|]; try done. intros E%Z.eqb_eq. eauto. Qed.
Lemma lock_is_spec y i f : lock_is y i f = true -> exists x, heap y !! i = Some (OLock x) /\ f (lk_holder x) = true.
Proof. unfold lock_is. destruct (heap y !! i) as [[]|]; try done. eauto. Qed.

(** ** Objects come and go *)

Lemma good_at_mem s a n l : good_at s a -> s_next s <= n -> good_at (with_mem s n l) a.
Proof. intros (Hi & Hq & Hm) Hn. split_and!; [by apply inv_mem|done|done]. Qed.

Section Objects.
Variables (y : sync) (a : seqs) (me : Z) (c : cpu).
Hypothesis Hy : ygood_at y a.
Hypothesis Hc : cpus (sch y) !! me = Some c.
Let Hg : good_at (sch y) a := proj1 Hy.
Let Hp : pinv (heap y) (pcs y) (chan a) := proj1 (proj2 Hy).

Lemma next_free i : s_next (sch y) <= i -> heap y !! i = None.
Proof using Hy.
  intros Hn. apply eq_None_not_Some. intros [o Ho]. pose proof (p_addr _ _ _ Hp i o Ho). pose proof (p_chan _ _ _ Hp i o Ho) as Hs.
  destruct (inv_fresh _ _ _ _ (proj1 Hg)) as (_ & _ & _ & F4). specialize (F4 _ Hs). slots.
Qed.

Lemma wp_obj_create mk : (forall w, wchan_of (mk w) = w) -> (forall w i, obj_ok (pcs y) i [] (mk w)) -> wp (obj_create mk) (fine y) y.
Proof using Hy.
  intros Hw Hok. assert (forall s', becomes (sch y) None (chan a) None s' -> fine y None (Sync s' (heap y) (pcs y))) as Hnone.
  { intros s' Hb. eapply fine_keep; [exact Hy|exact Hb|exact Hp|done|done]. }
  unfold obj_create. wpsimp. rewrite wp_on_sch. apply wp_obj.
  { intros l. wpsimp. apply Hnone. apply (becomes_at _ _ _ _ a); [by apply good_at_mem|done|done|exact (others_refl _ (sch y))]. }
  intros l Hlt. wpsimp. rewrite wp_on_sch. cbn [sch heap pcs]. apply wp_kmalloc_s. intros b l2. cbn [with_mem s_next]. set (i := s_next (sch y)).
  assert (good_at (with_mem (sch y) (i + 1) l2) a) as Hg2 by (apply good_at_mem; [done|unfold i; lia]).
  destruct b; cbn [negb]; wpsimp.
  2: { apply Hnone. apply (becomes_at _ _ _ _ a); [exact Hg2|done|done|exact (others_refl _ (sch y))]. }
  rewrite wp_on_sch. cbn [sch heap pcs]. eapply (becomes_newchan _ a None); [exact Hg2|intros s' Hb; wpsimp; exact (Hnone s' Hb)|].
  intros w s' Ew Hno Hb. cbn in Ew. unfold put_obj. wpsimp. cbn [sch heap pcs]. pose proof (next_free i ltac:(lia)) as Hi.
  eapply fine_keep; [exact Hy|exact Hb|..].
  - rewrite <- (Hw w) at 2. apply pinv_add; [exact Hp|done|rewrite Hw; lia|by rewrite Hw|apply Hok].
  - intros j v Hj. rewrite lookup_insert_ne; [done|congruence].
  - cbn. unfold spec_of. rewrite lookup_omap, Hi. cbn. rewrite omap_insert. destruct (absobj (mk w)); [done|].
    rewrite delete_id; [done|]. rewrite lookup_omap, Hi. done.
Qed.

Lemma unused_empty i o : heap y !! i = Some o -> unused y i = true -> chan a (wchan_of o) = Some [].
Proof using Hy.
  intros Ho Hu. destruct (sleepers _ _ Hy i o Ho) as (xs & Hx & _). rewrite Hx. destruct xs as [|t xs]; [done|].
  destruct (asleep_pc _ _ Hy i o _ t Ho Hx ltac:(left)) as (p & Hpt & E). exfalso. apply (unused_spec y i Hu t p Hpt). destruct p; cbn in *; naive_solver.
Qed.
Lemma fine_free i o s' : heap y !! i = Some o -> unused y i = true -> (forall w, o <> OLbolt w) -> (forall x, o = OLock x -> lk_holder x = 0) ->
  becomes (sch y) None (chan a) None s' -> fine y (Some (Freed i)) (Sync s' (delete i (heap y)) (pcs y)).
Proof using Hy.
  intros Ho Hu Hnl Hl Hb. split.
  - eapply ygood_end; [exact Hb|by eapply pinv_free; [..|apply unused_spec]|intros t p Ht; split; [done|by eapply Hy]| |done].
    intros t k l Ht. destruct (proj2 (proj2 (proj2 Hy)) t k l Ht) as (m & x & v & H1 & H2 & H3 & H4 & H5). exists m, x, v. split_and!; try done.
    rewrite lookup_delete_ne; [done|]. intros <-. apply (unused_spec y i Hu t _ Ht). cbn. auto.
  - cbn. rewrite (spec_lookup _ _ _ Ho). unfold spec_of. rewrite omap_delete. destruct o as [x|x| |]; try done. cbn. by rewrite (Hl x eq_refl).
Qed.
Lemma wp_destroy_end i o : heap y !! i = Some o -> unused y i = true -> (forall w, o <> OLbolt w) -> (forall x, o = OLock x -> lk_holder x = 0) ->
  wp (lift (wchan_destroy (wchan_of o)) ;; kfree_obj i ;; mret (Some (Freed i))) (fine y) y.
Proof using Hy.
  intros Ho Hu Hnl Hl. wpsimp. rewrite wp_on_sch. eapply wp_mono; [eapply becomes_destroychan; [exact Hg|by eapply unused_empty]|].
  cbn beta. intros _ s' Hb. unfold kfree_obj. wpsimp. by eapply fine_free.
Qed.

(** A channel that belongs to no object. *)
Lemma pinv_unowned w f xs : unowned y w = true -> chan a w = Some xs -> (forall t, t ∈ f xs -> t ∈ xs \/ pcs y !! t = None) ->
  pinv (heap y) (pcs y) (set_chan w f (chan a)).
Proof using Hy.
  intros Hu Hx Hf. pose proof (unowned_spec y w Hu) as Hne. pose proof (set_chan_at w f _ _ Hx) as E. split; try apply Hp.
  - intros i o Ho. rewrite E, decide_False by eauto. by eapply p_chan.
  - intros w' ys t Hw' Ht. rewrite E in Hw'. case_decide as Ew; [|by eapply p_asleep]. subst w'. injection Hw' as <-.
    destruct (Hf t Ht) as [Hin|Hpn]; [by eapply p_asleep|]. unfold asleep_ok. by rewrite Hpn.
  - intros i o ys Ho Hys. rewrite E, decide_False in Hys by eauto. by eapply p_obj.
Qed.
Lemma wp_sch o : yallowed y me (Sch o) = true -> wp (run_yop me (Sch o)) (fine y) y.
Proof using Hy Hc.
  unfold yallowed. rewrite Hc. rewrite !andb_true_iff. intros (Has & Hal & Ho). apply negb_true_iff in Has.
  cbn [run_yop]. wpsimp. rewrite wp_on_sch. eapply wp_mono; [by eapply run_op_becomes|]. cbn beta. intros _ s' Hb. wpsimp. split; [|done].
  eapply ygood_end; [exact Hb|..|apply Hy|].
  - assert (forall w, channel (sch y) w = true -> exists xs, chan a w = Some xs) as Hch by (intros w; apply channel_list, Hg).
    unfold allowed in Hal. rewrite Hc in Hal. destruct o as [| | | |w|w|w| | | | |w]; cbn [chan_effect]; try exact Hp; rewrite !andb_true_iff in Hal.
    + destruct Hal as (_ & _ & [xs Hx]%Hch), (andb_prop _ _ Ho) as [Hpn%bool_decide_eq_true Hu]. eapply pinv_unowned; [done|done|]. cbn beta.
      intros t [Ht|Ht]%elem_of_app; [by left|]. apply list_elem_of_singleton in Ht as ->. by right.
    + destruct Hal as (_ & [xs Hx]%Hch). eapply pinv_unowned; [done|done|]. intros t Ht. left. by apply tail_in.
    + destruct Hal as (_ & [xs Hx]%Hch). eapply pinv_unowned; [done|done|]. by intros t ?%elem_of_nil.
  - intros t p Ht. split; [|by eapply Hy]. destruct o; try done. apply bool_decide_eq_true in Ho. cbn. congruence.
  - intros m x k l [= <-] Hx. rewrite Hc in Hx. injection Hx as <-. intros E. by rewrite E in Has.
Qed.
End Objects.

Lemma run_yop_fine y me o : ygood y -> yallowed y me o = true -> wp (run_yop me o) (fine y) y.
Proof.
  intros [a Hy] Hal. destruct (cpus (sch y) !! me) as [c|] eqn:Hc; [|unfold yallowed in Hal; by rewrite Hc in Hal].
  destruct o as [o|n|i|i|i| |i|i|i|i| |k|k i|k|k|n| |]; [by eapply wp_sch|..]; unfold yallowed in Hal; rewrite Hc in Hal; cbn [run_yop]; rewrite !andb_true_iff in Hal.
  - apply (wp_obj_create y a Hy); [done|]. intros w i. cbn. split; [|done]. pose proof (u32_range n). by width_lia.
  - destruct Hal as (_ & _ & Hu). destruct (heap y !! i) as [[x| | |]|] eqn:Hx; try done. unfold sem_destroy. rewrite wp_bind. eapply wp_get_sem; [done|].
    by apply (wp_destroy_end y a Hy i (OSem x)).
  - destruct Hal as (_ & ((_ & Hr) & Hpn) & Hu). apply negb_true_iff in Hr. apply bool_decide_eq_true in Hpn. destruct (heap y !! i) as [[x| | |]|] eqn:Hx; try done.
    eapply wp_P; [done..|by left].
  - destruct Hal as (_ & _ & Hu). destruct (heap y !! i) as [[x| | |]|] eqn:Hx; try done. eapply wp_V; [done..|lia].
  - apply (wp_obj_create y a Hy); [done|]. intros w i Hne. by destruct Hne.
  - destruct Hal as (_ & _ & Hl & Hu). apply lock_is_spec in Hl as (x & Hx & Hh). apply Z.eqb_eq in Hh. unfold lock_destroy. rewrite wp_bind.
    eapply wp_get_lock; [done|]. rewrite wp_bind. apply wp_kassert. split; [by apply Z.eqb_eq|]. apply (wp_destroy_end y a Hy i (OLock x)); [done|done|done|]. by intros x' [= <-].
  - destruct Hal as (_ & ((_ & Hr) & Hpn) & Hl). apply negb_true_iff in Hr. apply bool_decide_eq_true in Hpn. apply lock_is_spec in Hl as (x & Hx & Hh).
    apply negb_true_iff, Z.eqb_neq in Hh. eapply wp_lock_acquire; [done..|by left].
  - destruct Hal as (_ & ((_ & Hr) & Hpn) & Hl). apply negb_true_iff in Hr. apply lock_is_spec in Hl as (x & Hx & Hh). apply Z.eqb_eq in Hh. by eapply wp_lock_release.
  - destruct Hal as (_ & ((_ & Hr) & Hpn) & Hl). apply negb_true_iff in Hr. apply lock_is_spec in Hl as (x & Hx & Hh). by eapply wp_do_i_hold.
  - by apply (wp_obj_create y a Hy).
  - destruct Hal as (_ & _ & Hl & Hu). apply cv_free_spec in Hl as (v & Hv & Hh). unfold cv_destroy. rewrite wp_bind.
    eapply wp_get_cv; [done|]. rewrite wp_bind. apply wp_kassert. split; [by apply Z.eqb_eq|]. by apply (wp_destroy_end y a Hy k (OCv v)).
  - destruct Hal as (_ & ((_ & Hr) & Hpn) & Hk & Hl). apply negb_true_iff in Hr. apply bool_decide_eq_true in Hpn. apply lock_is_spec in Hl as (x & Hx & Hh).
    apply Z.eqb_eq in Hh. apply cv_free_spec in Hk as (v & Hv & Hv0). by eapply wp_wait.
  - destruct Hal as (_ & _ & Hk). apply cv_free_spec in Hk as (v & Hv & _). by eapply wp_signal.
  - destruct Hal as (_ & _ & Hk). apply cv_free_spec in Hk as (v & Hv & _). by eapply wp_broadcast.
  - destruct Hal as (_ & ((_ & Hr) & Hpn) & _). apply negb_true_iff in Hr. apply bool_decide_eq_true in Hpn.
    destruct (p_lbolt _ _ _ (proj1 (proj2 Hy))) as [w Hw]. eapply wp_clocksleep; [done..|by left].
  - destruct (p_lbolt _ _ _ (proj1 (proj2 Hy))) as [w Hw]. by eapply wp_timerclock.
  - destruct Hal as ((_ & Hr) & _). apply negb_true_iff in Hr. by eapply wp_resume.
Qed.

(** ** Runs of the machine *)

(** From the start of the processors and the clock, by any steps. *)
Inductive yreach : sync -> Prop :=
| yreach_boot kproc n l s y : boot kproc n off = Ok tt s -> Z.of_nat n < 2 ^ 30 ->
    hardclock_bootstrap (Sync (with_mem s (s_next s) l) ∅ ∅) = Ok tt y -> yreach y
| yreach_step y me o e y' : yreach y -> yallowed y me o = true -> run_yop me o y = Ok e y' -> yreach y'.

Lemma bootstrap_good s : good s -> forall y, hardclock_bootstrap (Sync s ∅ ∅) = Ok tt y -> ygood y.
Proof.
  intros [a Hg] y E. assert (wp hardclock_bootstrap (fun _ => ygood) (Sync s ∅ ∅) \/ hardclock_bootstrap (Sync s ∅ ∅) = Fault FPanic) as [Hw|Hf]; [|unfold wp in Hw; by rewrite E in Hw|congruence].
  unfold hardclock_bootstrap.
  assert (wp wchan_create (fun r s' => match r with Some w => w = s_next s /\ chan a w = None /\ becomes s None (add_chan w (chan a)) None s' | None => True end) s) as Hw.
  { eapply (becomes_newchan s a None); [done|done|]. intros w s' Ew Hno Hb. auto. }
  unfold wp in *. unfold mbind, M_bind, lift. cbn [sch]. destruct (wchan_create s) as [[w|] s'|]; [left|by right|done].
  destruct Hw as (Ew & Hno & Hb). cbn. eapply ygood_end; [exact Hb|..]; [|by intros t p ?%lookup_empty_Some|by intros t k l ?%lookup_empty_Some|done].
  destruct (inv_fresh _ _ _ _ (proj1 Hg)) as (F1 & _). unfold add_chan. split; cbn.
  - exists w. by rewrite lookup_insert_eq.
  - intros i o [<- <-]%lookup_singleton_Some. cbn. lia.
  - intros i o [<- <-]%lookup_singleton_Some. by rewrite decide_True.
  - by intros i j o o' [<- <-]%lookup_singleton_Some [<- <-]%lookup_singleton_Some.
  - intros w' xs t Hx Ht. unfold asleep_ok. rewrite lookup_empty. intros i o [<- <-]%lookup_singleton_Some. cbn. intros ->.
    rewrite decide_True in Hx by done. injection Hx as <-. by apply elem_of_nil in Ht.
  - by intros t q ?%lookup_empty_Some.
  - by intros i o xs [<- <-]%lookup_singleton_Some.
Qed.

Lemma yreach_good y : yreach y -> ygood y.
Proof.
  induction 1 as [kproc n l s y E Hn Ey|y me o e y' _ IH Hal E].
  - eapply bootstrap_good; [|exact Ey]. apply good_mem; [|lia]. pose proof (boot_good kproc n off (good_empty []) eq_refl ltac:(cbn; lia)) as Hb.
    unfold wp in Hb. by rewrite E in Hb.
  - pose proof (run_yop_fine y me o IH Hal) as Hb. unfold wp in Hb. rewrite E in Hb. apply Hb.
Qed.

(** A thread that is ready to run or runs. *)
Definition awake (s : sched) (t : Z) : Prop := exists x, threads s !! t = Some x /\ (t_state x = S_READY \/ t_state x = S_RUN).

(** While threads sleep on a semaphore, each of its units has a thread that is
    awake and on its way to it; while threads sleep on a lock that is free, one
    is awake and on its way to the lock. *)
Definition no_lost (y : sync) : Prop := exists a, abs (tls (sch y)) a /\ forall i o, heap y !! i = Some o ->
  exists xs, lists a !! wc_threads (wchan_of o) = Some xs /\ (forall t, t ∈ xs -> exists p, pcs y !! t = Some p /\ pc_obj p = Some i) /\
    match o with
    | OSem x => xs <> [] -> exists ts : gset Z, sem_count x <= Z.of_nat (size ts) /\ forall t, t ∈ ts -> pcs y !! t = Some (InP i) /\ awake (sch y) t
    | OLock x => xs <> [] -> lk_holder x = 0 -> exists t, pcs y !! t = Some (InAcquire i) /\ awake (sch y) t
    | OCv _ | OLbolt _ => True
    end.

Lemma on_way_awake y a i o p xs t : ygood_at y a -> heap y !! i = Some o -> chan a (wchan_of o) = Some xs -> pc_obj p = Some i -> t ∈ on_way (pcs y) p xs -> awake (sch y) t.
Proof.
  intros Hy Ho Hx Hpi [Hpt Hnt]%elem_on_way. pose proof Hy as ((Hi & Hq & _) & Hp & Hal & _). destruct (Hal t p Hpt) as (x & Htx & Hz). exists x. split; [done|].
  destruct (inv_home _ _ _ _ Hi t x Htx ltac:(done)) as [[l Hl]|(c & z & Hc & Ez & Hidle)].
  - destruct (inv_place _ _ _ _ Hi t l Hl) as (x' & Hx' & Hf). rewrite Htx in Hx'. injection Hx' as <-.
    destruct Hf as [[-> _]|[(E & _)|[_ [w [->| ->]]]]]; [by left|done|..]; exfalso; destruct Hl as (ys & Hys & Hin).
    + pose proof (p_asleep _ _ _ Hp w ys t Hys Hin) as Ha. unfold asleep_ok in Ha. rewrite Hpt in Ha. destruct Ha as (j & q & E & Hj & Ew).
      rewrite Hpi in E. injection E as <-. rewrite Ho in Hj. injection Hj as <-. subst w. unfold chan in Hx. rewrite Hx in Hys. by injection Hys as <-.
    + destruct (Hq w) as [E|E]; rewrite E in Hys; [done|]. injection Hys as <-. by apply elem_of_nil in Hin.
  - destruct (inv_cpu _ _ _ _ Hi c z Hc) as (x' & Hx' & _ & [|Hst]); [done|]. rewrite Hidle, Ez in *. rewrite Htx in Hx'. injection Hx' as <-. naive_solver.
Qed.

Lemma good_no_lost y : ygood y -> no_lost y.
Proof.
  intros [a Hy]. pose proof Hy as ((Hi & _) & Hp & _). exists a. split; [apply Hi|]. intros i o Ho. destruct (sleepers _ _ Hy i o Ho) as (xs & Hx & _).
  exists xs. split_and!; [done|intros t Ht; exact (asleep_pc _ _ Hy i o xs t Ho Hx Ht)|]. pose proof (p_obj _ _ _ Hp i o xs Ho Hx) as Hok. destruct o as [x|x| |]; cbn in Hok; [..|done|done].
  - intros Hne. exists (on_way (pcs y) (InP i) xs). split; [by apply Hok|]. intros t Ht. split; [exact (proj1 (proj1 (elem_on_way _ _ _ _) Ht))|]. exact (on_way_awake y a i _ (InP i) xs t Hy Ho Hx eq_refl Ht).
  - intros Hne H0. destruct (Hok Hne H0) as [t Ht]. exists t. split; [exact (proj1 (proj1 (elem_on_way _ _ _ _) Ht))|]. exact (on_way_awake y a i _ (InAcquire i) xs t Hy Ho Hx eq_refl Ht).
Qed.

(** C11: semaphores and locks.  In every run of any number of processors each
    operation that may be done next on semaphores, locks, condition variables,
    the clock or the scheduler runs without a fault, and what it does on the
    objects is a step of their specification: a semaphore is a counter that is
    taken only when it is positive; a lock has at most one owner, is taken only
    when it has none and given back only by its owner, and lock_do_i_hold tells
    the owner. *)
Theorem sync_refines y : yreach y -> forall me o, yallowed y me o = true ->
  exists e y', run_yop me o y = Ok e y' /\ follows (spec_of (heap y)) e = Some (spec_of (heap y')).
Proof.
  intros Hr%yreach_good me o Hal. pose proof (run_yop_fine y me o Hr Hal) as Hw. unfold wp in Hw. destruct (run_yop me o y) as [e y'|]; [|done].
  exists e, y'. split; [done|]. apply Hw.
Qed.

(** C12: no lost wake-ups.  In every state that can be reached a thread that
    sleeps in P, lock_acquire, cv_wait or clocksleep is on the channel of its
    object; while threads sleep on a semaphore, there are at least as many awake
    threads on their way to it as it has units, and while threads sleep on a
    lock that nobody holds, an awake thread is on its way to it. *)
Theorem no_lost_wakeups y : yreach y -> no_lost y.
Proof. intros Hr. by apply good_no_lost, yreach_good. Qed.

(** Two threads sleep on a semaphore and the other processor has given a unit:
    one sleeps, one is on its way. *)
Definition ydemo_ops : list (Z * yop) := [(1, SemCreate 0); (1, Sch (Fork 9)); (1, SemP 6); (1, Sch Next); (1, SemP 6); (3, SemV 6)].
Fixpoint ydemo_run (l : list (Z * yop)) : M sync unit :=
  match l with [] => mret tt | (me, o) :: l' => y ← get; kassert (yallowed y me o) ;; _ ← run_yop me o; ydemo_run l' end.
Definition ydemo_boot : sync :=
  match boot 9 2 off with
  | Ok _ s => match hardclock_bootstrap (Sync s ∅ ∅) with Ok _ y => y | Fault _ => Sync s ∅ ∅ end
  | Fault _ => Sync off ∅ ∅
  end.
Definition ydemo : sync := match ydemo_run ydemo_ops ydemo_boot with Ok _ y => y | Fault _ => ydemo_boot end.

Lemma yreach_run l y y' : yreach y -> ydemo_run l y = Ok tt y' -> yreach y'.
Proof.
  revert y. induction l as [|[me o] l IH]; intros y Hr; cbn [ydemo_run]; [by intros [= <-]|]. rewrite get_bind.
  destruct (yallowed y me o) eqn:Ea; [|done]. rewrite kassert_bind by done. unfold mbind, M_bind. destruct (run_yop me o y) as [e y1|] eqn:E; [|done].
  intros E'. eapply IH; [|exact E']. by eapply yreach_step.
Qed.
Lemma ydemo_reach : yreach ydemo.
Proof.
  apply (yreach_run ydemo_ops ydemo_boot); [|vm_compute; reflexivity].
  set (s0 := match boot 9 2 off with Ok _ s => s | Fault _ => off end).
  assert (with_mem s0 (s_next s0) [] = s0) as E by (vm_compute; reflexivity).
  apply (yreach_boot 9 2 [] s0); [vm_compute; reflexivity|lia|]. rewrite E. vm_compute. reflexivity.
Qed.

Lemma sync_refines_witness : yallowed ydemo 1 (Sch Next) = true /\
  exists e y', run_yop 1 (Sch Next) ydemo = Ok e y' /\ follows (spec_of (heap ydemo)) e = Some (spec_of (heap y')).
Proof. split; [vm_compute; reflexivity|]. apply (sync_refines ydemo ydemo_reach 1 (Sch Next)). vm_compute. reflexivity. Defined.
Lemma no_lost_wakeups_witness : pcs ydemo !! 8 = Some (InP 6) /\ spec_of (heap ydemo) !! 6 = Some (ASem 1) /\ no_lost ydemo.
Proof. split_and!; [vm_compute; reflexivity..|]. apply (no_lost_wakeups ydemo). exact ydemo_reach. Defined.
End SynchProps.
