(* ===== verification/Kmalloc.v ===== *)
(** * The kernel heap

    Model of kern/vm/kmalloc.c as it is compiled, without the debugging modes:
    the subpage allocator, which cuts pages into blocks of one size and keeps the
    free ones in a list that runs through the blocks themselves, its page
    references and their bitmaps, and kmalloc and kfree.  checksubpage and
    checksubpages, the consistency checks of the mode SLOWER, are modelled too.

    The page allocator below is an interface.  A section under kmalloc_spinlock
    is one step; the code releases it around calls of the page allocator, and
    [kpc] says where a call then stands.  Memory is kept by aligned words. *)

From S2P Require Import Prelude Kern Vm.
Open Scope Z_scope.

Class KPages (Pg : Type) := { alloc_kpages : Z -> Pg -> Z * Pg; free_kpages : Z -> Pg -> Pg }.

Module Kmalloc.

Abbreviation PAGE_SIZE := Vm.PAGE_SIZE.
Abbreviation PAGE_FRAME := Vm.PAGE_FRAME.
Abbreviation MIPS_KSEG0 := Vm.MIPS_KSEG0.
Definition MIPS_KSEG1 : Z := 0xa0000000.
Definition NSIZES : Z := 8.
Definition sizes : list Z := [16; 32; 64; 128; 256; 512; 1024; 2048].
Definition LARGEST_SUBPAGE_SIZE : Z := 2048.
Definition INVALID_OFFSET : Z := 0xffff.
Definition SIZEOF_PAGEREF : Z := 16.
Definition NPAGEREFS_PER_PAGE : Z := PAGE_SIZE / SIZEOF_PAGEREF.
Definition INUSE_WORDS : Z := NPAGEREFS_PER_PAGE / 32.
Definition NUM_PAGEREFPAGES : Z := 16.
Definition TOTAL_PAGEREFS : Z := NUM_PAGEREFPAGES * NPAGEREFS_PER_PAGE.

(** ** State *)

Record pageref := Pageref {
  next_samesize : Z; next_all : Z; pageaddr_and_blocktype : Z; freelist_offset : Z; nfree : Z
}.
Definition PR_PAGEADDR (pr : pageref) : Z := Z.land (pageaddr_and_blocktype pr) PAGE_FRAME.
Definition PR_BLOCKTYPE (pr : pageref) : Z := Z.land (pageaddr_and_blocktype pr) (u32 (Z.lnot PAGE_FRAME)).
Definition MKPAB (pa blk : Z) : Z := Z.lor (Z.land pa PAGE_FRAME) (Z.land blk (u32 (Z.lnot PAGE_FRAME))).

Record kheap_root := Root { page : Z; pagerefs_inuse : list Z; numinuse : Z }.

(** Memory by word address, the page references by address, the roots, the
    lists, and the page allocator.  0 is NULL. *)
Record kheap (Pg : Type) := Kheap {
  mem : gmap Z Z; refs : gmap Z pageref; kheaproots : list kheap_root;
  sizebases : list Z; allbase : Z; pages : Pg
}.
Arguments Kheap {Pg}.
Arguments mem {Pg}.
Arguments refs {Pg}.
Arguments kheaproots {Pg}.
Arguments sizebases {Pg}.
Arguments allbase {Pg}.
Arguments pages {Pg}.

(** Where a call stands that has released the lock: kmalloc before and after it
    got a page for blocks, in allocpagerefpage before and after it got a page for
    references, [root] and [ix] being the slot it has marked, and kmalloc or
    kfree before it gives a page back. *)
Inductive kpc : Type :=
| NeedPage (blktype : Z)
| HavePage (blktype prpage : Z)
| NeedRefPage (blktype prpage root ix : Z)
| HaveRefPage (blktype prpage root ix va : Z)
| SpareRefPage (blktype prpage root ix va : Z)
| FreePage (va : Z).

(** A step of a call: it returns, or goes on later. *)
Inductive kres : Type := Return (ptr : Z) | Goes (pc : kpc).

Section Heap.
Context {Pg : Type} `{KPages Pg}.
Abbreviation K := (M (kheap Pg)).

Definition word (m : gmap Z Z) (a : Z) : Z := default 0 (m !! a).
Definition load (a : Z) : K Z := if a =? 0 then raise FNull else s ← get; mret (word (mem s) a).
Definition store (a v : Z) : K unit :=
  if a =? 0 then raise FNull else
  modify (fun s => Kheap (<[a := v]> (mem s)) (refs s) (kheaproots s) (sizebases s) (allbase s) (pages s)).
Definition get_ref (p : Z) : K pageref := s ← get; deref FDangling (refs s !! p).
Definition put_ref (p : Z) (x : pageref) : K unit :=
  modify (fun s => Kheap (mem s) (<[p := x]> (refs s)) (kheaproots s) (sizebases s) (allbase s) (pages s)).
Definition get_root (r : Z) : K kheap_root := s ← get; deref FDangling (kheaproots s !! Z.to_nat r).
Definition put_root (r : Z) (x : kheap_root) : K unit :=
  modify (fun s => Kheap (mem s) (refs s) (<[Z.to_nat r := x]> (kheaproots s)) (sizebases s) (allbase s) (pages s)).
Definition size_of (blktype : Z) : K Z := deref FDangling (sizes !! Z.to_nat blktype).

(** The page allocator *)
Definition kpages (n : Z) : K Z := fun s =>
  let (va, p) := alloc_kpages n (pages s) in Ok va (Kheap (mem s) (refs s) (kheaproots s) (sizebases s) (allbase s) p).
Definition give_kpages (va : Z) : K unit :=
  modify (fun s => Kheap (mem s) (refs s) (kheaproots s) (sizebases s) (allbase s) (free_kpages va (pages s))).

(** The two lists that a reference is on. *)
Inductive which : Type := Same (blktype : Z) | All.
Definition base (w : which) (s : kheap Pg) : Z := match w with Same b => sizebases s !!! Z.to_nat b | All => allbase s end.
Definition set_base (w : which) (p : Z) (s : kheap Pg) : kheap Pg :=
  match w with
  | Same b => Kheap (mem s) (refs s) (kheaproots s) (<[Z.to_nat b := p]> (sizebases s)) (allbase s) (pages s)
  | All => Kheap (mem s) (refs s) (kheaproots s) (sizebases s) p (pages s)
  end.
Definition next (w : which) (x : pageref) : Z := match w with Same _ => next_samesize x | All => next_all x end.
Definition set_next (w : which) (p : Z) (x : pageref) : pageref :=
  match w with
  | Same _ => Pageref p (next_all x) (pageaddr_and_blocktype x) (freelist_offset x) (nfree x)
  | All => Pageref (next_samesize x) p (pageaddr_and_blocktype x) (freelist_offset x) (nfree x)
  end.

(** ** Page references *)

(** The slot that allocpageref takes: the first clear bit of the first word that
    is not full, in the first root that is not full. *)
Fixpoint find_bit (fuel : nat) (w k j : Z) : option Z :=
  match fuel with
  | O => None
  | S fuel' =>
      if k =? 0 then None else
      if Z.land w k =? 0 then Some j else find_bit fuel' w (u32 (Z.shiftl k 1)) (j + 1)
  end.
Fixpoint find_word (ws : list Z) (i : Z) : K (option (Z * Z)) :=
  match ws with
  | [] => mret None
  | w :: ws' =>
      if w =? 0xffffffff then find_word ws' (i + 1) else
      match find_bit 33 w 1 0 with
      | Some j => mret (Some (i, j))
      | None => raise FPanic
      end
  end.
Fixpoint find_root (rs : list kheap_root) (r : Z) : K (option (Z * Z * Z)) :=
  match rs with
  | [] => mret None
  | x :: rs' =>
      if numinuse x >=? NPAGEREFS_PER_PAGE then find_root rs' (r + 1) else
      s ← find_word (pagerefs_inuse x) 0;
      match s with
      | Some (i, j) => mret (Some (r, i, j))
      | None => find_root rs' (r + 1)
      end
  end.

(** struct pageref *allocpageref(void) up to the call of allocpagerefpage: the
    root and the index of the reference, [None] when there is none *)
Definition allocpageref : K (option (Z * Z)) :=
  s ← get;
  f ← find_root (kheaproots s) 0;
  match f with
  | None => mret None
  | Some (r, i, j) =>
      x ← get_root r;
      w ← deref FDangling (pagerefs_inuse x !! Z.to_nat i);
      put_root r (Root (page x) (<[Z.to_nat i := Z.lor w (u32 (Z.shiftl 1 j))]> (pagerefs_inuse x)) (u32 (numinuse x + 1))) ;;
      mret (Some (r, i * 32 + j))
  end.

(** void freepageref(struct pageref *p) *)
Fixpoint freepageref_loop (n : nat) (r p : Z) : K unit :=
  match n with
  | O => raise FPanic
  | S n' =>
      x ← get_root r;
      if page x =? 0 then kassert (numinuse x =? 0) ;; freepageref_loop n' (r + 1) p else
      let j := u32 (s32 (p - page x) / SIZEOF_PAGEREF) in
      if j <? NPAGEREFS_PER_PAGE then
        let i := j / 32 in
        let k := u32 (Z.shiftl 1 (j mod 32)) in
        w ← deref FDangling (pagerefs_inuse x !! Z.to_nat i);
        kassert (negb (Z.land w k =? 0)) ;;
        kassert (numinuse x >? 0) ;;
        put_root r (Root (page x) (<[Z.to_nat i := Z.land w (u32 (Z.lnot k))]> (pagerefs_inuse x)) (numinuse x - 1))
      else freepageref_loop n' (r + 1) p
  end.
Definition freepageref (p : Z) : K unit := freepageref_loop (Z.to_nat NUM_PAGEREFPAGES) 0 p.

(** The loop of remove_lists over one list: [guy] is the base or the link of a
    reference *)
Definition read_guy (w : which) (guy : option Z) : K Z :=
  match guy with None => gets (base w) | Some p => x ← get_ref p; mret (next w x) end.
Definition write_guy (w : which) (guy : option Z) (v : Z) : K unit :=
  match guy with None => modify (set_base w v) | Some p => x ← get_ref p; put_ref p (set_next w v x) end.
Fixpoint unlink (fuel : nat) (w : which) (guy : option Z) (pr : Z) : K unit :=
  p ← read_guy w guy;
  if p =? 0 then mret tt else
  if p =? pr then x ← get_ref pr; write_guy w guy (next w x) else
  match fuel with O => raise FFuel | S fuel' => unlink fuel' w (Some p) pr end.
Definition remove_lists (pr blktype : Z) : K unit :=
  kassert ((blktype >=? 0) && (blktype <? NSIZES)) ;;
  s ← get;
  unlink (size (refs s)) (Same blktype) None pr ;;
  unlink (size (refs s)) All None pr.

(** ** Blocks *)

(** int blocktype(size_t clientsz) *)
Fixpoint blocktype_loop (l : list Z) (i clientsz : Z) : K Z :=
  match l with
  | [] => raise FPanic
  | z :: l' => if clientsz <=? z then mret i else blocktype_loop l' (i + 1) clientsz
  end.
Definition blocktype (clientsz : Z) : K Z := blocktype_loop sizes 0 clientsz.

(** void fill_deadbeef(void *vptr, size_t len) *)
Fixpoint fill_words (n : nat) (ptr : Z) : K unit :=
  match n with O => mret tt | S n' => store ptr 0xdeadbeef ;; fill_words n' (ptr + 4) end.
Definition fill_deadbeef (ptr len : Z) : K unit := fill_words (Z.to_nat (len / 4)) ptr.

(** The label doalloc of subpage_kmalloc: the first free block of a page. *)
Definition doalloc (pr : Z) : K Z :=
  x ← get_ref pr;
  kassert (freelist_offset x <? PAGE_SIZE) ;;
  let prpage := PR_PAGEADDR x in
  let fla := u32 (prpage + freelist_offset x) in
  fl ← load fla;
  let n := u16 (nfree x - 1) in
  if negb (fl =? 0) then
    kassert (n >? 0) ;;
    kassert (u32 (fl - prpage) <? PAGE_SIZE) ;;
    put_ref pr (Pageref (next_samesize x) (next_all x) (pageaddr_and_blocktype x) (u16 (fl - prpage)) n) ;;
    mret fla
  else
    kassert (n =? 0) ;;
    put_ref pr (Pageref (next_samesize x) (next_all x) (pageaddr_and_blocktype x) INVALID_OFFSET n) ;;
    mret fla.

(** The search for a page with a free block: NULL when there is none. *)
Fixpoint find_page (fuel : nat) (pr blktype : Z) : K Z :=
  if pr =? 0 then mret 0 else
  x ← get_ref pr;
  kassert (PR_BLOCKTYPE x =? blktype) ;;
  if nfree x >? 0 then mret pr else
  match fuel with O => raise FFuel | S fuel' => find_page fuel' (next_samesize x) blktype end.

(** The blocks of a new page, chained. *)
Fixpoint chain_blocks (n : nat) (i fla sz fl : Z) : K Z :=
  match n with
  | O => mret fl
  | S n' =>
      let fl := u32 (fla + i * sz) in
      let nx := u32 (fla + (i - 1) * sz) in
      store fl nx ;;
      kassert (negb (fl =? nx)) ;;
      chain_blocks n' (i + 1) fla sz fl
  end.
(** The tail of subpage_kmalloc: the new page gets on the lists and its first
    block is taken. *)
Definition new_page (pr prpage blktype : Z) : K Z :=
  sz ← size_of blktype;
  let n := u16 (PAGE_SIZE / sz) in
  store prpage 0 ;;
  fl ← chain_blocks (Z.to_nat (n - 1)) 1 prpage sz prpage;
  let off := u16 (fl - prpage) in
  kassert (off =? (n - 1) * sz) ;;
  s ← get;
  put_ref pr (Pageref (base (Same blktype) s) (allbase s) (MKPAB prpage blktype) off n) ;;
  modify (set_base (Same blktype) pr) ;;
  modify (set_base All pr) ;;
  doalloc pr.

(** void *subpage_kmalloc(size_t sz), up to the first release of the lock *)
Definition subpage_kmalloc (sz : Z) : K kres :=
  blktype ← blocktype sz;
  s ← get;
  pr ← find_page (size (refs s)) (base (Same blktype) s) blktype;
  if negb (pr =? 0) then ptr ← doalloc pr; mret (Return ptr)
  else mret (Goes (NeedPage blktype)).

(** A reference on the page of a root: the page is set up with it. *)
Definition with_ref (blktype prpage root ix : Z) : K kres :=
  x ← get_root root;
  if page x =? 0 then mret (Goes (FreePage prpage)) else
  ptr ← new_page (page x + ix * SIZEOF_PAGEREF) prpage blktype;
  mret (Return ptr).

(** The rest of subpage_kmalloc and allocpagerefpage, step by step. *)
Definition resume (pc : kpc) : K kres :=
  match pc with
  | NeedPage blktype =>
      prpage ← kpages 1;
      if prpage =? 0 then mret (Return 0) else
      kassert (prpage mod PAGE_SIZE =? 0) ;;
      mret (Goes (HavePage blktype prpage))
  | HavePage blktype prpage =>
      r ← allocpageref;
      match r with
      | None => mret (Goes (FreePage prpage))
      | Some (root, ix) =>
          x ← get_root root;
          if page x =? 0 then mret (Goes (NeedRefPage blktype prpage root ix))
          else with_ref blktype prpage root ix
      end
  | NeedRefPage blktype prpage root ix =>
      va ← kpages 1;
      mret (Goes (HaveRefPage blktype prpage root ix va))
  | HaveRefPage blktype prpage root ix va =>
      if va =? 0 then with_ref blktype prpage root ix else
      kassert (va mod PAGE_SIZE =? 0) ;;
      x ← get_root root;
      if negb (page x =? 0) then mret (Goes (SpareRefPage blktype prpage root ix va)) else
      put_root root (Root va (pagerefs_inuse x) (numinuse x)) ;;
      with_ref blktype prpage root ix
  | SpareRefPage blktype prpage root ix va =>
      give_kpages va ;;
      x ← get_root root;
      kassert (negb (page x =? 0)) ;;
      with_ref blktype prpage root ix
  | FreePage va => give_kpages va ;; mret (Return 0)
  end.

(** The search of subpage_kfree: the reference of the page with the address. *)
Fixpoint find_owner (fuel : nat) (pr ptraddr : Z) : K Z :=
  if pr =? 0 then mret 0 else
  x ← get_ref pr;
  kassert ((PR_BLOCKTYPE x >=? 0) && (PR_BLOCKTYPE x <? NSIZES)) ;;
  if (ptraddr >=? PR_PAGEADDR x) && (ptraddr <? PR_PAGEADDR x + PAGE_SIZE) then mret pr else
  match fuel with O => raise FFuel | S fuel' => find_owner fuel' (next_all x) ptraddr end.

(** int subpage_kfree(void *ptr): [None] for -1 *)
Definition subpage_kfree (ptr : Z) : K (option kres) :=
  s ← get;
  pr ← find_owner (size (refs s)) (allbase s) ptr;
  if pr =? 0 then mret None else
  x ← get_ref pr;
  let prpage := PR_PAGEADDR x in
  let blktype := PR_BLOCKTYPE x in
  sz ← size_of blktype;
  let offset := u32 (ptr - prpage) in
  if (offset >=? PAGE_SIZE) || negb (offset mod sz =? 0) then raise FPanic else
  fill_deadbeef ptr sz ;;
  let fla := u32 (prpage + offset) in
  (if freelist_offset x =? INVALID_OFFSET then store fla 0
   else
     store fla (u32 (prpage + freelist_offset x)) ;;
     kassert (negb (fla =? u32 (prpage + freelist_offset x)))) ;;
  let n := u16 (nfree x + 1) in
  put_ref pr (Pageref (next_samesize x) (next_all x) (pageaddr_and_blocktype x) (u16 offset) n) ;;
  kassert (n <=? PAGE_SIZE / sz) ;;
  if n =? PAGE_SIZE / sz then
    remove_lists pr blktype ;;
    freepageref pr ;;
    mret (Some (Goes (FreePage prpage)))
  else mret (Some (Return 0)).

(** ** void *kmalloc(size_t sz), void kfree(void *ptr) *)

Definition kmalloc (sz : Z) : K kres :=
  if sz >=? LARGEST_SUBPAGE_SIZE then
    let npages := u32 (sz + PAGE_SIZE - 1) / PAGE_SIZE in
    address ← kpages npages;
    if address =? 0 then mret (Return 0) else
    kassert (address mod PAGE_SIZE =? 0) ;;
    mret (Return address)
  else subpage_kmalloc sz.

Definition kfree (ptr : Z) : K kres :=
  if ptr =? 0 then mret (Return 0) else
  r ← subpage_kfree ptr;
  match r with
  | Some k => mret k
  | None => kassert (ptr mod PAGE_SIZE =? 0) ;; mret (Goes (FreePage ptr))
  end.

(** ** The consistency checks *)

(** The walk over the free list of a page: its length. *)
Fixpoint check_free (fuel : nat) (fla prpage blocksize n : Z) : K Z :=
  if fla =? 0 then mret n else
  kassert ((fla >=? prpage) && (fla <? prpage + PAGE_SIZE)) ;;
  kassert ((fla - prpage) mod blocksize =? 0) ;;
  nx ← load fla;
  kassert (negb (nx =? fla)) ;;
  match fuel with O => raise FFuel | S fuel' => check_free fuel' nx prpage blocksize (n + 1) end.
Definition checksubpage (pr : Z) : K unit :=
  x ← get_ref pr;
  if freelist_offset x =? INVALID_OFFSET then kassert (nfree x =? 0) else
  let prpage := PR_PAGEADDR x in
  let blktype := PR_BLOCKTYPE x in
  kassert ((blktype >=? 0) && (blktype <? NSIZES)) ;;
  blocksize ← size_of blktype;
  kassert (prpage >=? MIPS_KSEG0) ;;
  kassert (prpage <? MIPS_KSEG1) ;;
  kassert (freelist_offset x <? PAGE_SIZE) ;;
  kassert (freelist_offset x mod blocksize =? 0) ;;
  n ← check_free (Z.to_nat PAGE_SIZE) (u32 (prpage + freelist_offset x)) prpage blocksize 0;
  kassert (n =? nfree x).

Fixpoint check_list (fuel : nat) (w : which) (pr c : Z) : K Z :=
  if pr =? 0 then mret c else
  checksubpage pr ;;
  kassert (c <? TOTAL_PAGEREFS) ;;
  x ← get_ref pr;
  match fuel with O => raise FFuel | S fuel' => check_list fuel' w (next w x) (c + 1) end.
Fixpoint check_sizes (bs : list Z) (sc : Z) : K Z :=
  match bs with
  | [] => mret sc
  | b :: bs' => s ← get; n ← check_list (size (refs s)) (Same b) (base (Same b) s) sc; check_sizes bs' n
  end.
Definition checksubpages : K unit :=
  sc ← check_sizes (seqZ 0 NSIZES) 0;
  s ← get;
  ac ← check_list (size (refs s)) All (allbase s) 0;
  kassert (sc =? ac).
End Heap.
End Kmalloc.
