(* ===== verification/KmallocSpec.v ===== *)
(** * The invariant of the kernel heap

    What the page allocator promises, and what the structures of kmalloc.c stand
    for: a list of pages, each with the type of its blocks and the offsets of its
    free blocks in the order of the free list. *)

From S2P Require Import Prelude Kern Vm VmSpec Kmalloc.
Open Scope Z_scope.

(** The contract of the page allocator: [u] are the ranges of pages that it has
    given out and not taken back, by their first address. *)
Definition apart (b n b' n' : Z) : Prop := b + n * 4096 <= b' \/ b' + n' * 4096 <= b.
Definition in_kseg0 (b n : Z) : Prop := b mod 4096 = 0 /\ 0x80000000 <= b /\ 0 < n /\ b + n * 4096 <= 0xa0000000.
Class KPagesSpec (Pg : Type) `{KPages Pg} := {
  pg_inv : Pg -> gmap Z Z -> Prop;
  pg_range p u b n : pg_inv p u -> u !! b = Some n -> in_kseg0 b n;
  pg_apart p u b n b' n' : pg_inv p u -> u !! b = Some n -> u !! b' = Some n' -> b <> b' -> apart b n b' n';
  alloc_spec n p u va p' : pg_inv p u -> 1 <= n <= 2 ^ 19 -> alloc_kpages n p = (va, p') ->
    va = 0 /\ pg_inv p' u \/ va <> 0 /\ u !! va = None /\ pg_inv p' (<[va := n]> u);
  free_spec p u va n : pg_inv p u -> u !! va = Some n -> pg_inv (free_kpages va p) (delete va u)
}.

Module KmallocSpec.
Import Kmalloc.

(** ** Block types *)

Definition bsize (b : Z) : Z := sizes !!! Z.to_nat b.
Definition nblocks (b : Z) : Z := 4096 / bsize b.
Definition is_type (b : Z) : Prop := 0 <= b < 8.
Definition is_block (b off : Z) : Prop := 0 <= off < 4096 /\ off mod bsize b = 0.

Ltac types H :=
  let b := match type of H with is_type ?b => b end in
  let E := fresh in
  assert (b = 0 \/ b = 1 \/ b = 2 \/ b = 3 \/ b = 4 \/ b = 5 \/ b = 6 \/ b = 7) as E by (unfold is_type in H; lia);
  destruct E as [->|[->|[->|[->|[->|[->|[->| ->]]]]]]].

Lemma bsize_bounds b : is_type b -> 16 <= bsize b <= 2048 /\ bsize b mod 16 = 0 /\ nblocks b * bsize b = 4096 /\ 2 <= nblocks b <= 256.
Proof. intros H. types H; cbn; unfold nblocks; cbn; split_and!; try lia; done. Qed.
Lemma sizes_at b : is_type b -> sizes !! Z.to_nat b = Some (bsize b).
Proof. intros H. by types H. Qed.

Lemma block_mul b off : is_type b -> is_block b off -> exists k, 0 <= k < nblocks b /\ off = k * bsize b.
Proof.
  intros Hb [Hr Hm]. destruct (bsize_bounds b Hb) as (H1 & _ & H3 & _). exists (off / bsize b).
  pose proof (Z.div_mod off (bsize b) ltac:(lia)). pose proof (Z.div_pos off (bsize b) ltac:(lia) ltac:(lia)). nia.
Qed.
Lemma mul_block b k : is_type b -> 0 <= k < nblocks b -> is_block b (k * bsize b).
Proof. intros Hb Hk. destruct (bsize_bounds b Hb) as (H1 & _ & H3 & _). split; [nia|]. apply Z_mod_mult. Qed.
(** Different blocks of a page do not overlap, and lie in the page. *)
Lemma block_apart b off off' : is_type b -> is_block b off -> is_block b off' -> off <> off' -> off + bsize b <= off' \/ off' + bsize b <= off.
Proof.
  intros Hb Ho Ho' Hne. destruct (block_mul b off Hb Ho) as (k & Hk & ->), (block_mul b off' Hb Ho') as (k' & Hk' & ->).
  destruct (bsize_bounds b Hb) as (H1 & _). assert (k < k' \/ k' < k) as [?|?] by nia; nia.
Qed.
Lemma block_in b off : is_type b -> is_block b off -> off + bsize b <= 4096.
Proof. intros Hb Ho. destruct (block_mul b off Hb Ho) as (k & Hk & ->). destruct (bsize_bounds b Hb) as (H1 & _ & H3 & _). nia. Qed.
Lemma block_align b off : is_type b -> is_block b off -> off mod 16 = 0.
Proof.
  intros Hb Ho. destruct (block_mul b off Hb Ho) as (k & Hk & ->). destruct (bsize_bounds b Hb) as (_ & H2 & _).
  rewrite Z.mul_mod, H2, Z.mul_0_r by lia. done.
Qed.

(** ** A page's address and type in one word *)

Definition page_addr (p : Z) : Prop := in_kseg0 p 1.
Lemma page_addr_pos p : page_addr p -> 0 < p /\ is_u32 p /\ p mod 4096 = 0 /\ 0x80000000 <= p /\ p + 4096 <= 0xa0000000.
Proof. intros (H1 & H2 & _ & H3). unfold is_u32. split_and!; lia || done. Qed.

Lemma frame_bits : u32 (Z.lnot PAGE_FRAME) = Z.ones 12.
Proof. done. Qed.
Lemma mkpab_eq p b : page_addr p -> is_type b -> MKPAB p b = p + b.
Proof.
  intros Hp Hb. destruct (page_addr_pos p Hp) as (H0 & H1 & H2 & _). unfold MKPAB. rewrite VmSpec.land_frame, frame_bits, Z.land_ones by (done || lia).
  rewrite Z.mod_small by (unfold is_type in Hb; change (2 ^ 12) with 4096; lia).
  assert (p / 4096 * 4096 = p) as E by (pose proof (Z.div_mod p 4096); lia).
  change 4096 with (2 ^ 12) at 2. rewrite lor_add by (unfold is_type in Hb; change (2 ^ 12) with 4096; lia). change (2 ^ 12) with 4096. lia.
Qed.
Lemma pab_addr x p b : page_addr p -> is_type b -> pageaddr_and_blocktype x = MKPAB p b -> PR_PAGEADDR x = p /\ PR_BLOCKTYPE x = b.
Proof.
  intros Hp Hb E. destruct (page_addr_pos p Hp) as (H0 & H1 & H2 & H3 & H4). unfold PR_PAGEADDR, PR_BLOCKTYPE. rewrite E, mkpab_eq by done.
  unfold is_type in Hb. rewrite VmSpec.land_frame, frame_bits, Z.land_ones by (unfold is_u32; lia). change (2 ^ 12) with 4096.
  pose proof (Z.div_mod p 4096 ltac:(lia)). rewrite Z.add_mod, H2, Z.add_0_l, Z.mod_mod, Z.mod_small by lia. split; [|done].
  replace (p + b) with (b + p / 4096 * 4096) by lia. rewrite Z.div_add, Z.div_small by lia. lia.
Qed.

(** ** Free lists *)

(** The free blocks of a page, chained through their first words. *)
Fixpoint chain (m : gmap Z Z) (pg : Z) (l : list Z) : Prop :=
  match l with
  | [] => True
  | o :: l' => word m (pg + o) = match l' with [] => 0 | o' :: _ => pg + o' end /\ chain m pg l'
  end.
Lemma chain_ext m m' pg l : (forall o, o ∈ l -> word m' (pg + o) = word m (pg + o)) -> chain m pg l -> chain m' pg l.
Proof.
  induction l as [|o l IH]; [done|]. intros Hm [H1 H2]. split; [rewrite Hm by left; done|]. apply IH; [|done]. intros o' Ho'. apply Hm. by right.
Qed.
Lemma word_insert m a v a' : word (<[a := v]> m) a' = if decide (a' = a) then v else word m a'.
Proof. unfold word. case_decide as E; [subst; by rewrite lookup_insert_eq|by rewrite lookup_insert_ne]. Qed.

Definition first_free (l : list Z) : Z := match l with [] => INVALID_OFFSET | o :: _ => o end.

(** ** Linked page references *)

Fixpoint linked (w : which) (rs : gmap Z pageref) (b : Z) (l : list Z) : Prop :=
  match l with
  | [] => b = 0
  | p :: l' => b = p /\ p <> 0 /\ exists x, rs !! p = Some x /\ linked w rs (next w x) l'
  end.
Lemma linked_ext w rs rs' b l : (forall p x, p ∈ l -> rs !! p = Some x -> exists x', rs' !! p = Some x' /\ next w x' = next w x) -> linked w rs b l -> linked w rs' b l.
Proof.
  revert b. induction l as [|p l IH]; intros b Hr; [done|]. intros (-> & Hp & x & Hx & Hl). destruct (Hr p x) as (x' & Hx' & E); [left|done|].
  cbn. split_and!; [done|done|]. exists x'. split; [done|]. rewrite E. apply IH; [|done]. intros q z Hq. apply Hr. by right.
Qed.
Lemma linked_in w rs b l p : linked w rs b l -> p ∈ l -> p <> 0 /\ exists x, rs !! p = Some x.
Proof.
  revert b. induction l as [|q l IH]; intros b; [by intros _ ?%elem_of_nil|]. intros (-> & Hq & x & Hx & Hl) [->|Hp]%elem_of_cons; eauto.
Qed.

(** ** Bits of a root *)

Definition bit (ws : list Z) (ix : Z) : bool := Z.testbit (ws !!! Z.to_nat (ix / 32)) (ix mod 32).
Definition used (ws : list Z) : gset Z := filter (fun ix => bit ws ix = true) (list_to_set (seqZ 0 256)).
Lemma elem_used ws ix : ix ∈ used ws <-> bit ws ix = true /\ 0 <= ix < 256.
Proof. unfold used. rewrite elem_of_filter, elem_of_list_to_set, elem_of_seqZ. intuition lia. Qed.

Lemma used_bound ws : (size (used ws) <= 256)%nat.
Proof.
  assert (used ws ⊆ list_to_set (seqZ 0 256)) as Hs by (intros i [_ Hi]%elem_used; apply elem_of_list_to_set, elem_of_seqZ; lia).
  apply subseteq_size in Hs. rewrite size_list_to_set in Hs by apply NoDup_seqZ. by rewrite length_seqZ in Hs.
Qed.
#[global] Opaque used.

Record root_ok (x : kheap_root) : Prop := {
  r_len : length (pagerefs_inuse x) = 8%nat;
  r_u32 : Forall is_u32 (pagerefs_inuse x);
  r_num : numinuse x = Z.of_nat (size (used (pagerefs_inuse x)));
  r_page : page x = 0 \/ page_addr (page x)
}.


(** ** The heap *)

Record pinfo := PInfo { p_ref : Z; p_slot : Z * Z; p_page : Z; p_type : Z; p_free : list Z }.

Record page_ok (m : gmap Z Z) (rs : gmap Z pageref) (pi : pinfo) : Prop := {
  pg_type : is_type (p_type pi);
  pg_addr : page_addr (p_page pi);
  pg_nodup : NoDup (p_free pi);
  pg_blocks : forall o, o ∈ p_free pi -> is_block (p_type pi) o;
  pg_chain : chain m (p_page pi) (p_free pi);
  pg_some : Z.of_nat (length (p_free pi)) < nblocks (p_type pi);
  pg_ref : exists ns na, rs !! p_ref pi = Some (Pageref ns na (MKPAB (p_page pi) (p_type pi)) (first_free (p_free pi)) (Z.of_nat (length (p_free pi))))
}.

(** The reference of a page is the one of its slot, which is marked. *)
Definition slot_ref (rts : list kheap_root) (sl : Z * Z) (p : Z) : Prop :=
  exists x, rts !! Z.to_nat sl.1 = Some x /\ page x <> 0 /\ p = page x + sl.2 * SIZEOF_PAGEREF.
Definition slot_used (rts : list kheap_root) (sl : Z * Z) : Prop :=
  0 <= sl.1 /\ 0 <= sl.2 < 256 /\ exists x, rts !! Z.to_nat sl.1 = Some x /\ bit (pagerefs_inuse x) sl.2 = true.

Definition of_type (b : Z) (A : list pinfo) : list pinfo := filter (fun pi => p_type pi = b) A.

Record hinv {Pg} (s : kheap Pg) (A : list pinfo) : Prop := {
  h_bases : length (sizebases s) = 8%nat;
  h_roots : length (kheaproots s) = 16%nat;
  h_root : forall r x, kheaproots s !! r = Some x -> root_ok x;
  h_all : linked All (refs s) (allbase s) (p_ref <$> A);
  h_same : forall b, is_type b -> linked (Same b) (refs s) (base (Same b) s) (p_ref <$> of_type b A);
  h_page : forall pi, pi ∈ A -> page_ok (mem s) (refs s) pi;
  h_slot : forall pi, pi ∈ A -> slot_ref (kheaproots s) (p_slot pi) (p_ref pi) /\ slot_used (kheaproots s) (p_slot pi);
  h_refs : NoDup (p_ref <$> A);
  h_pages : NoDup (p_page <$> A)
}.
End KmallocSpec.
