(* ===== verification/KmallocRefs.v ===== *)
(** * Page references of the kernel heap

    The bitmaps of the roots, allocpageref and freepageref, and remove_lists on
    the two lists that a reference is on. *)

From S2P Require Import Prelude Kern Vm Bitmap Kmalloc KmallocSpec.
Open Scope Z_scope.

Module KmallocRefs.
Import Kmalloc KmallocSpec.

(** ** Bits *)

Lemma pow2_u32 j : 0 <= j < 32 -> u32 (Z.shiftl 1 j) = 2 ^ j.
Proof. intros Hj. rewrite Z.shiftl_1_l. apply u32_id. unfold is_u32. split; [lia|]. apply Z.pow_lt_mono_r; lia. Qed.

Lemma find_bit_S n w k j : find_bit (S n) w k j =
  if k =? 0 then None else if Z.land w k =? 0 then Some j else find_bit n w (u32 (Z.shiftl k 1)) (j + 1).
Proof. done. Qed.
Lemma find_bit_ok w n : forall j, 0 <= j -> j + Z.of_nat n = 32 ->
  match find_bit (S n) w (u32 (2 ^ j)) j with
  | Some i => j <= i < 32 /\ Z.testbit w i = false
  | None => forall i, j <= i < 32 -> Z.testbit w i = true
  end.
Proof.
  induction n as [|n IH]; intros j Hj Hn; rewrite find_bit_S.
  - replace j with 32 by lia. change (u32 (2 ^ 32)) with 0. intros i. lia.
  - assert (u32 (2 ^ j) = 2 ^ j) as E by (rewrite <- (pow2_u32 j) at 2 by lia; by rewrite Z.shiftl_1_l). rewrite E.
    destruct (Z.eqb_spec (2 ^ j) 0); [pose proof (Z.pow_pos_nonneg 2 j); lia|]. rewrite Bitmap.land_pow2_zero by lia.
    destruct (Z.testbit w j) eqn:Ew; cbn [negb]; [|split; [lia|done]].
    specialize (IH (j + 1) ltac:(lia) ltac:(lia)). rewrite Z.pow_add_r in IH by lia. replace (Z.shiftl (2 ^ j) 1) with (2 ^ j * 2 ^ 1) by (rewrite Z.shiftl_mul_pow2 by lia; done).
    destruct (find_bit (S n) w _ _); [split; [lia|apply IH]|]. intros i Hi. destruct (decide (i = j)) as [->|]; [done|apply IH; lia].
Qed.

Lemma full_word w : is_u32 w -> (forall i, 0 <= i < 32 -> Z.testbit w i = true) -> w = 0xffffffff.
Proof.
  intros Hw Hb. change 0xffffffff with (Z.ones 32). apply Z.bits_inj'. intros i Hi. destruct (Z.ltb_spec i 32).
  - rewrite Hb, Z.ones_spec_low by lia. done.
  - rewrite Z.ones_spec_high by lia. unfold is_u32 in Hw. destruct (decide (w = 0)) as [->|]; [apply Z.bits_0|].
    apply Z.bits_above_log2; [lia|]. apply Z.log2_lt_pow2; [lia|]. pose proof (Z.pow_le_mono_r 2 32 i). lia.
Qed.
Lemma find_bit_some w : is_u32 w -> w <> 0xffffffff -> exists j, find_bit 33 w 1 0 = Some j /\ 0 <= j < 32 /\ Z.testbit w j = false.
Proof.
  intros Hw Hne. pose proof (find_bit_ok w 32 0 ltac:(lia) ltac:(lia)) as Hf. change (u32 (2 ^ 0)) with 1 in Hf.
  destruct (find_bit 33 w 1 0) as [j|]; [exists j; split; [done|split; [lia|apply Hf]]|]. destruct Hne. by apply full_word.
Qed.

Section Words.
Variables (ws : list Z) (i j w : Z).
Hypothesis Hw : ws !! Z.to_nat i = Some w.
Hypothesis Hi : 0 <= i.
Hypothesis Hj : 0 <= j < 32.

Lemma bit_word : bit ws (i * 32 + j) = Z.testbit w j.
Proof using All.
  unfold bit. rewrite Z.add_comm, Z.div_add, Z.div_small, Z.add_0_l by lia. rewrite (list_lookup_total_correct _ _ _ Hw).
  rewrite Z.add_mod, Z_mod_mult, Z.add_0_r, Z.mod_mod, Z.mod_small by lia. done.
Qed.
Lemma bit_other v k : 0 <= k -> bit (<[Z.to_nat i := v]> ws) k = if k / 32 =? i then Z.testbit v (k mod 32) else bit ws k.
Proof using All.
  intros Hk. unfold bit. pose proof (Z.div_pos k 32 Hk ltac:(lia)). destruct (Z.eqb_spec (k / 32) i) as [E|Hne].
  - rewrite E, list_lookup_total_insert_eq; [done|]. by apply lookup_lt_Some in Hw.
  - rewrite list_lookup_total_insert_ne; [done|lia].
Qed.
Lemma bit_same k : 0 <= k -> k / 32 = i -> bit ws k = Z.testbit w (k mod 32).
Proof using All. intros Hk E. unfold bit. by rewrite E, (list_lookup_total_correct _ _ _ Hw). Qed.
Lemma word_split k : 0 <= k -> (k =? i * 32 + j) = (k / 32 =? i) && (k mod 32 =? j).
Proof using All. intros Hk. pose proof (Z.div_mod k 32 ltac:(lia)). pose proof (Z.mod_pos_bound k 32 ltac:(lia)). destruct (Z.eqb_spec k (i * 32 + j)), (Z.eqb_spec (k / 32) i), (Z.eqb_spec (k mod 32) j); cbn; lia. Qed.

Lemma bit_set k : 0 <= k -> bit (<[Z.to_nat i := Z.lor w (u32 (Z.shiftl 1 j))]> ws) k = bit ws k || (k =? i * 32 + j).
Proof using All.
  intros Hk. rewrite bit_other, word_split by done. destruct (Z.eqb_spec (k / 32) i) as [E|]; cbn; [|by rewrite orb_false_r].
  rewrite (bit_same k Hk E), pow2_u32, Z.lor_spec, Z.pow2_bits_eqb, (Z.eqb_sym j) by lia. done.
Qed.
Lemma bit_clear k : is_u32 w -> 0 <= k -> bit (<[Z.to_nat i := Z.land w (u32 (Z.lnot (u32 (Z.shiftl 1 j))))]> ws) k = bit ws k && negb (k =? i * 32 + j).
Proof using All.
  intros Hu Hk. rewrite bit_other, word_split by done. pose proof (Z.mod_pos_bound k 32 ltac:(lia)).
  destruct (Z.eqb_spec (k / 32) i) as [E|]; cbn; [|by rewrite andb_true_r].
  rewrite (bit_same k Hk E), pow2_u32, Z.land_spec by lia. f_equal. unfold u32. rewrite Z.mod_pow2_bits_low, Z.lnot_spec, Z.pow2_bits_eqb, (Z.eqb_sym j) by lia. done.
Qed.
End Words.

Lemma lor_u32 w j : is_u32 w -> 0 <= j < 32 -> is_u32 (Z.lor w (u32 (Z.shiftl 1 j))).
Proof.
  intros [H1 H2] Hj. rewrite pow2_u32 by done. assert (2 ^ j < 2 ^ 32) by (apply Z.pow_lt_mono_r; lia). pose proof (Z.pow_pos_nonneg 2 j).
  split; [apply Z.lor_nonneg; lia|]. destruct (decide (Z.lor w (2 ^ j) = 0)) as [->|]; [done|]. apply Z.log2_lt_pow2; [pose proof (Z.lor_nonneg w (2 ^ j)); lia|].
  rewrite Z.log2_lor by lia. apply Z.max_lub_lt; [destruct (decide (w = 0)) as [->|]; [done|apply Z.log2_lt_pow2; lia]|rewrite Z.log2_pow2 by lia; lia].
Qed.
Lemma land_u32 w m : is_u32 w -> 0 <= m -> is_u32 (Z.land w m).
Proof.
  intros [H1 H2] Hm. assert (0 <= Z.land w m) by (apply Z.land_nonneg; lia). split; [done|]. destruct (decide (Z.land w m = 0)) as [->|]; [done|].
  apply Z.log2_lt_pow2; [lia|]. pose proof (Z.log2_land w m ltac:(lia) Hm). assert (w <> 0) by (intros ->; by rewrite Z.land_0_l in *).
  assert (Z.log2 w < 32) by (apply Z.log2_lt_pow2; lia). lia.
Qed.

(** One more, or one less, slot in use. *)
Lemma used_set ws ws' ix : 0 <= ix < 256 -> (forall k, 0 <= k -> bit ws' k = bit ws k || (k =? ix)) -> used ws' = {[ix]} ∪ used ws.
Proof.
  intros Hix Hset. apply set_eq. intros k. rewrite elem_of_union, elem_of_singleton, !elem_used. split.
  - intros [Hb Hk]. rewrite Hset in Hb by lia. apply orb_true_iff in Hb as [Hb|Hb]; [right; auto|left; lia].
  - intros [->|[Hb Hk]]; (split; [|lia]); rewrite Hset by lia; [by rewrite Z.eqb_refl, orb_true_r|by rewrite Hb].
Qed.
Lemma used_clear ws ws' ix : bit ws ix = true -> 0 <= ix < 256 -> (forall k, 0 <= k -> bit ws' k = bit ws k && negb (k =? ix)) -> size (used ws) = S (size (used ws')).
Proof.
  intros Hb Hix Hset. rewrite (used_set ws' ws ix); [|done|].
  - rewrite size_union, size_singleton; [done|]. apply disjoint_singleton_l. rewrite elem_used. intros [H _]. rewrite Hset, Z.eqb_refl, andb_false_r in H by lia. done.
  - intros k Hk. rewrite Hset by done. destruct (Z.eqb_spec k ix) as [->|]; [by rewrite Hb|by rewrite andb_true_r, orb_false_r].
Qed.

Lemma used_some ws ix : bit ws ix = true -> 0 <= ix < 256 -> (0 < size (used ws))%nat.
Proof.
  intros Hb Hix. assert ({[ix]} ⊆ used ws) as Hs by (intros k ->%elem_of_singleton; by apply elem_used). apply subseteq_size in Hs. rewrite size_singleton in Hs. lia.
Qed.

Lemma root_set x i j w : root_ok x -> pagerefs_inuse x !! Z.to_nat i = Some w -> 0 <= i -> 0 <= j < 32 -> Z.testbit w j = false -> i * 32 + j < 256 ->
  root_ok (Root (page x) (<[Z.to_nat i := Z.lor w (u32 (Z.shiftl 1 j))]> (pagerefs_inuse x)) (u32 (numinuse x + 1))).
Proof.
  intros [H1 H2 H3 H4] Hw Hi Hj Hb Hlt. assert (is_u32 w) as Hu by exact (proj1 (Forall_lookup _ _) H2 _ _ Hw).
  split; cbn [page pagerefs_inuse numinuse]; [by rewrite length_insert|apply Forall_insert; [exact H2|by apply lor_u32]| |exact H4].
  pose proof (used_set (pagerefs_inuse x) _ (i * 32 + j) ltac:(lia) (bit_set _ i j w Hw Hi Hj)) as Es. rewrite Es, size_union, size_singleton.
  - rewrite H3. pose proof (used_bound (pagerefs_inuse x)). rewrite u32_id; unfold is_u32; lia.
  - apply disjoint_singleton_l. rewrite elem_used, (bit_word _ i j w Hw Hi Hj), Hb. by intros [? _].
Qed.
Lemma root_clear x i j w : root_ok x -> pagerefs_inuse x !! Z.to_nat i = Some w -> 0 <= i -> 0 <= j < 32 -> Z.testbit w j = true -> i * 32 + j < 256 ->
  root_ok (Root (page x) (<[Z.to_nat i := Z.land w (u32 (Z.lnot (u32 (Z.shiftl 1 j))))]> (pagerefs_inuse x)) (numinuse x - 1)) /\ 0 < numinuse x.
Proof.
  intros [H1 H2 H3 H4] Hw Hi Hj Hb Hlt. assert (is_u32 w) as Hu by exact (proj1 (Forall_lookup _ _) H2 _ _ Hw).
  pose proof (used_clear (pagerefs_inuse x) _ (i * 32 + j) ltac:(by rewrite (bit_word _ i j w Hw Hi Hj)) ltac:(lia) (fun k => bit_clear _ i j w Hw Hi Hj k Hu)) as Es.
  split; [|lia]. split; cbn [page pagerefs_inuse numinuse]; [by rewrite length_insert| |lia|exact H4].
  apply Forall_insert; [exact H2|]. apply land_u32; [exact Hu|]. apply u32_range.
Qed.

Lemma used_full ws : length ws = 8%nat -> Forall (fun w => w = 0xffffffff) ws -> size (used ws) = 256%nat.
Proof.
  intros Hl Hf. pose proof (used_bound ws). assert (list_to_set (seqZ 0 256) ⊆ used ws) as Hs.
  { intros ix Hix%elem_of_list_to_set%elem_of_seqZ. apply elem_used. split; [|lia]. unfold bit.
    assert (exists w, ws !! Z.to_nat (ix / 32) = Some w) as [w Hw].
    { apply lookup_lt_is_Some. rewrite Hl. pose proof (Z.div_lt_upper_bound ix 32 8). pose proof (Z.div_pos ix 32). lia. }
    rewrite (list_lookup_total_correct _ _ _ Hw), (proj1 (Forall_lookup _ _) Hf _ _ Hw). pose proof (Z.mod_pos_bound ix 32 ltac:(lia)).
    change 0xffffffff with (Z.ones 32). by rewrite Z.ones_spec_low by lia. }
  apply subseteq_size in Hs. rewrite size_list_to_set in Hs by apply NoDup_seqZ. rewrite length_seqZ in Hs. lia.
Qed.

(** ** Taking and giving back references *)

Section Ops.
Context {Pg : Type} `{KPages Pg}.
Implicit Types (s : kheap Pg).

Definition with_roots s (rts : list kheap_root) : kheap Pg := Kheap (mem s) (refs s) rts (sizebases s) (allbase s) (pages s).

Lemma wp_find_word ws i0 Q s : Forall is_u32 ws ->
  (forall k w j, ws !! k = Some w -> 0 <= j < 32 -> Z.testbit w j = false -> Q (Some (i0 + Z.of_nat k, j)) s) ->
  (Forall (fun w => w = 0xffffffff) ws -> Q None s) -> wp (find_word ws i0) Q s.
Proof.
  revert i0. induction ws as [|w ws IH]; intros i0 Hu H1 H2; cbn [find_word]; [wpsimp; by apply H2|]. apply Forall_cons in Hu as [Hw Hu].
  destruct (Z.eqb_spec w 0xffffffff) as [->|Hne].
  - apply IH; [done| |intros Hf; apply H2; by constructor]. intros k w j Hk. specialize (H1 (S k) w j Hk).
    replace (i0 + 1 + Z.of_nat k) with (i0 + Z.of_nat (S k)) by lia. done.
  - destruct (find_bit_some w Hw Hne) as (j & -> & Hj & Hb). wpsimp. specialize (H1 0%nat w j eq_refl Hj Hb). by rewrite Z.add_0_r in H1.
Qed.

Lemma wp_find_root rs r0 Q s : (forall k x, rs !! k = Some x -> root_ok x) ->
  (forall k x i j w, rs !! k = Some x -> (forall k' x', (k' < k)%nat -> rs !! k' = Some x' -> 256 <= numinuse x') ->
     pagerefs_inuse x !! Z.to_nat i = Some w -> 0 <= i < 8 -> 0 <= j < 32 -> Z.testbit w j = false -> Q (Some (r0 + Z.of_nat k, i, j)) s) ->
  Q None s -> wp (find_root rs r0) Q s.
Proof.
  revert r0. induction rs as [|x rs IH]; intros r0 Hok H1 H2; cbn [find_root]; [by wpsimp|]. pose proof (Hok 0%nat x eq_refl) as Hx. change NPAGEREFS_PER_PAGE with 256.
  assert (256 <= numinuse x -> wp (find_root rs (r0 + 1)) Q s) as Hrec.
  { intros Hfull. apply IH; [intros k; apply (Hok (S k))| |done]. intros k y i j w Hy Hlow. replace (r0 + 1 + Z.of_nat k) with (r0 + Z.of_nat (S k)) by lia.
    apply (H1 (S k)); [done|]. intros [|k'] x' Hlt Hx'; [by injection Hx' as <-|]. eapply Hlow; [|exact Hx']. lia. }
  destruct (Z.geb_spec (numinuse x) 256) as [Hge|Hlt]; [by apply Hrec|]. wpsimp. destruct Hx as [L1 L2 L3 L4]. apply wp_find_word; [done|..].
  - intros k w j Hw Hj Hb. wpsimp. pose proof (lookup_lt_Some _ _ _ Hw) as Hk. rewrite L1 in Hk.
    specialize (H1 0%nat x (Z.of_nat k) j w eq_refl). rewrite Nat2Z.id, Z.add_0_r in H1. apply H1; [lia|done|lia|done|done].
  - intros Hf. apply Hrec. rewrite L3, used_full by done. lia.
Qed.

(** allocpageref marks a slot that is not in use, in the first root that is not
    full. *)
Lemma wp_allocpageref Q s : (forall r x, kheaproots s !! r = Some x -> root_ok x) -> Q None s ->
  (forall r ix x ws, kheaproots s !! r = Some x -> (forall r' x', (r' < r)%nat -> kheaproots s !! r' = Some x' -> 256 <= numinuse x') ->
     0 <= ix < 256 -> bit (pagerefs_inuse x) ix = false -> (forall k, 0 <= k -> bit ws k = bit (pagerefs_inuse x) k || (k =? ix)) ->
     root_ok (Root (page x) ws (u32 (numinuse x + 1))) ->
     Q (Some (Z.of_nat r, ix)) (with_roots s (<[r := Root (page x) ws (u32 (numinuse x + 1))]> (kheaproots s)))) ->
  wp allocpageref Q s.
Proof.
  intros Hok H1 H2. unfold allocpageref. wpsimp. apply wp_find_root; [done| |by wpsimp]. intros r x i j w Hx Hlow Hw Hi Hj Hb. rewrite Z.add_0_l.
  unfold get_root, put_root. wpsimp. rewrite Nat2Z.id. exists x. split; [done|]. wpsimp. exists w. split; [done|]. wpsimp.
  specialize (Hok r x Hx). apply (H2 r (i * 32 + j) x); [done|done|lia|by rewrite (bit_word _ i j w Hw) by lia|intros k Hk; apply bit_set; done || lia|]. apply root_set; done || lia.
Qed.

(** Where a reference lies, seen from the page of a root. *)
Lemma ref_index pg pg' ix : page_addr pg -> page_addr pg' -> 0 <= ix < 256 ->
  let j := u32 (s32 (pg + ix * 16 - pg') / 16) in if decide (pg = pg') then j = ix else 256 <= j.
Proof.
  intros (A1 & A2 & _ & A3) (B1 & B2 & _ & B3) Hix. cbv zeta. rewrite (s32_id (pg + ix * 16 - pg')) by (unfold is_s32; lia).
  assert (exists a b, pg = a * 4096 /\ pg' = b * 4096) as (a & b & -> & ->).
  { exists (pg / 4096), (pg' / 4096). pose proof (Z.div_mod pg 4096). pose proof (Z.div_mod pg' 4096). lia. }
  replace ((a * 4096 + ix * 16 - b * 4096) / 16) with ((a - b) * 256 + ix).
  2: { symmetry. replace (a * 4096 + ix * 16 - b * 4096) with (((a - b) * 256 + ix) * 16) by lia. by apply Z_div_mult. }
  case_decide as E; [assert (a = b) as -> by lia; rewrite Z.sub_diag, Z.add_0_l; apply u32_id; unfold is_u32; lia|].
  assert (a <> b) by congruence. destruct (Z.lt_ge_cases a b).
  - unfold u32. replace ((a - b) * 256 + ix) with ((2 ^ 32 + (a - b) * 256 + ix) + (-1) * 2 ^ 32) by lia. rewrite Z_mod_plus_full, Z.mod_small; lia.
  - rewrite u32_id; unfold is_u32; nia.
Qed.

Lemma wp_freepageref Q s r x ix : (forall r x, kheaproots s !! r = Some x -> root_ok x) -> length (kheaproots s) = 16%nat ->
  kheaproots s !! r = Some x -> page x <> 0 -> 0 <= ix < 256 -> bit (pagerefs_inuse x) ix = true ->
  (forall r' x', (r' < r)%nat -> kheaproots s !! r' = Some x' -> page x' = 0 /\ numinuse x' = 0 \/ page x' <> 0 /\ page x' <> page x) ->
  (forall ws, (forall k, 0 <= k -> bit ws k = bit (pagerefs_inuse x) k && negb (k =? ix)) -> root_ok (Root (page x) ws (numinuse x - 1)) ->
     Q tt (with_roots s (<[r := Root (page x) ws (numinuse x - 1)]> (kheaproots s)))) ->
  wp (freepageref (page x + ix * SIZEOF_PAGEREF)) Q s.
Proof.
  intros Hok Hlen Hx Hp Hix Hb Hlow HQ. unfold freepageref. change (Z.to_nat NUM_PAGEREFPAGES) with 16%nat. pose proof (lookup_lt_Some _ _ _ Hx) as Hr. rewrite Hlen in Hr.
  assert (forall n r0, (r0 <= r)%nat -> (r < r0 + n)%nat -> wp (freepageref_loop n (Z.of_nat r0) (page x + ix * SIZEOF_PAGEREF)) Q s) as Hloop; [|apply (Hloop 16%nat 0%nat); lia].
  assert (page_addr (page x)) as Hpx by (by destruct (r_page _ (Hok r x Hx))).
  induction n as [|n IH]; intros r0 Hr0 Hn; [lia|]. cbn [freepageref_loop]. unfold get_root. wpsimp. rewrite Nat2Z.id.
  assert (exists x0, kheaproots s !! r0 = Some x0) as [x0 Hx0] by (apply lookup_lt_is_Some; lia). exists x0. split; [done|].
  assert (r0 <> r -> wp (freepageref_loop n (Z.of_nat r0 + 1) (page x + ix * SIZEOF_PAGEREF)) Q s) as Hrec.
  { intros Hne. replace (Z.of_nat r0 + 1) with (Z.of_nat (S r0)) by lia. apply IH; lia. }
  destruct (Z.eqb_spec (page x0) 0) as [E0|Hp0].
  { assert (r0 <> r) by congruence. destruct (Hlow r0 x0 ltac:(lia) Hx0) as [[_ E]|[? _]]; [|done]. wpsimp. split; [by apply Z.eqb_eq|by apply Hrec]. }
  assert (page_addr (page x0)) as Hpx0 by (by destruct (r_page _ (Hok r0 x0 Hx0))).
  pose proof (ref_index (page x) (page x0) ix Hpx Hpx0 Hix) as Hj. cbv zeta in Hj. change SIZEOF_PAGEREF with 16 in *. change NPAGEREFS_PER_PAGE with 256.
  set (j := u32 _) in *. case_decide as E; [|destruct (Z.ltb_spec j 256); [lia|apply Hrec; congruence]].
  assert (r0 = r) as -> by (destruct (decide (r0 = r)) as [|Hne]; [done|]; destruct (Hlow r0 x0 ltac:(lia) Hx0) as [[? _]|[_ ?]]; congruence).
  rewrite Hx in Hx0. injection Hx0 as <-. rewrite Hj. destruct (Z.ltb_spec ix 256); [|lia].
  assert (0 <= ix / 32 < 8) as Hi by (split; [apply Z.div_pos; lia|apply Z.div_lt_upper_bound; lia]). pose proof (Z.mod_pos_bound ix 32 ltac:(lia)) as Hm.
  assert (exists w, pagerefs_inuse x !! Z.to_nat (ix / 32) = Some w) as [w Hw] by (apply lookup_lt_is_Some; rewrite (r_len _ (Hok r x Hx)); lia).
  assert (ix = ix / 32 * 32 + ix mod 32) as Eix by (pose proof (Z.div_mod ix 32); lia).
  assert (Z.testbit w (ix mod 32) = true) as Htb by (rewrite <- (bit_word _ (ix / 32) _ w Hw) by lia; by rewrite <- Eix).
  destruct (root_clear x (ix / 32) (ix mod 32) w (Hok r x Hx) Hw ltac:(lia) Hm Htb ltac:(lia)) as [Hok' Hnum].
  unfold put_root. wpsimp. exists w. split; [done|]. wpsimp. split; [rewrite pow2_u32, Bitmap.land_pow2_zero, Htb by lia; done|].
  split; [destruct (Z.gtb_spec (numinuse x) 0); [done|lia]|]. rewrite Nat2Z.id. apply HQ; [|exact Hok'].
  intros k Hk. assert (is_u32 w) as Hu by exact (proj1 (Forall_lookup _ _) (r_u32 _ (Hok r x Hx)) _ _ Hw).
  pose proof (bit_clear _ (ix / 32) (ix mod 32) w Hw ltac:(lia) Hm k Hu Hk) as Ec. by rewrite <- Eix in Ec.
Qed.

(** ** Taking a reference off its lists *)

Definition gv (w : which) s (guy : option Z) : Z :=
  match guy with None => base w s | Some p => match refs s !! p with Some x => next w x | None => 0 end end.
Definition w_ok (w : which) s : Prop := match w with Same b => is_type b /\ length (sizebases s) = 8%nat | All => True end.

(** Only links of the list [w] change. *)
Record relinked (w : which) s s' : Prop := {
  rl_mem : mem s' = mem s; rl_roots : kheaproots s' = kheaproots s; rl_pages : pages s' = pages s;
  rl_len : length (sizebases s') = length (sizebases s);
  rl_base : forall w', w' <> w -> (forall b, w' = Same b -> is_type b) -> base w' s' = base w' s;
  rl_refs : forall p, match refs s !! p, refs s' !! p with
            | Some x, Some x' => x' = set_next w (next w x') x | None, None => True | _, _ => False end
}.

Lemma set_next_same w x : x = set_next w (next w x) x.
Proof. by destruct w, x. Qed.
Lemma next_set w v x : next w (set_next w v x) = v.
Proof. by destruct w. Qed.
Lemma base_set w v s : w_ok w s -> base w (set_base w v s) = v.
Proof. destruct w as [b|]; [|done]. intros [Hb Hl]. cbn. apply list_lookup_total_insert_eq. rewrite Hl. unfold is_type in Hb. lia. Qed.
Lemma base_set_ne w w' v s : w' <> w -> w_ok w s -> (forall b, w' = Same b -> is_type b) -> base w' (set_base w v s) = base w' s.
Proof.
  destruct w as [b|], w' as [b'|]; try done. intros Hne [Hb _] Hb'. specialize (Hb' b' eq_refl). cbn. apply list_lookup_total_insert_ne. unfold is_type in *. intros E.
  destruct Hne. f_equal. lia.
Qed.
Lemma set_base_parts w v s : mem (set_base w v s) = mem s /\ refs (set_base w v s) = refs s /\ kheaproots (set_base w v s) = kheaproots s /\
  pages (set_base w v s) = pages s /\ length (sizebases (set_base w v s)) = length (sizebases s).
Proof. destruct w; cbn; [|done]. by rewrite length_insert. Qed.

Lemma relinked_base w v s : w_ok w s -> relinked w s (set_base w v s).
Proof.
  intros Hw. destruct (set_base_parts w v s) as (E1 & E2 & E3 & E4 & E5). split; [done..| |].
  - intros w' Hne Hb. by apply base_set_ne.
  - intros p. rewrite E2. destruct (refs s !! p) as [x|]; [apply set_next_same|done].
Qed.
Definition with_ref_at s (p : Z) (x : pageref) : kheap Pg := Kheap (mem s) (<[p := x]> (refs s)) (kheaproots s) (sizebases s) (allbase s) (pages s).
Lemma base_ref w s p x : base w (with_ref_at s p x) = base w s.
Proof. by destruct w. Qed.
Lemma relinked_ref w s p x v : refs s !! p = Some x -> relinked w s (with_ref_at s p (set_next w v x)).
Proof.
  intros Hx. split; cbn; [done..|intros w' _ _; by destruct w'|]. intros q. destruct (decide (q = p)) as [->|]; [|rewrite lookup_insert_ne by done; destruct (refs s !! q); [apply set_next_same|done]].
  rewrite Hx, lookup_insert_eq. by rewrite next_set.
Qed.

Lemma wp_read_guy w s guy v : (forall q, guy = Some q -> is_Some (refs s !! q)) -> gv w s guy = v -> wp (read_guy w guy) (fun v' s' => v' = v /\ s' = s) s.
Proof.
  intros Hg <-. destruct guy as [q|]; cbn [read_guy gv]; unfold get_ref; wpsimp; [|done]. destruct (Hg q eq_refl) as [x Hx]. rewrite Hx. exists x. split; [done|]. by wpsimp.
Qed.

Lemma wp_unlink w l1 : forall guy fuel s l2 pr (Q : unit -> kheap Pg -> Prop), w_ok w s -> linked w (refs s) (gv w s guy) (l1 ++ pr :: l2) ->
  (forall q, guy = Some q -> (q ∉ l1 ++ pr :: l2) /\ is_Some (refs s !! q)) -> NoDup (l1 ++ pr :: l2) -> (length l1 <= fuel)%nat ->
  (forall s', linked w (refs s') (gv w s' guy) (l1 ++ l2) -> relinked w s s' -> (forall q, q ∉ l1 -> guy <> Some q -> refs s' !! q = refs s !! q) ->
     (guy <> None \/ l1 <> [] -> base w s' = base w s) -> Q tt s') -> wp (unlink fuel w guy pr) Q s.
Proof.
  induction l1 as [|p l1 IH]; intros guy fuel s l2 pr Q Hw Hl Hg Hnd Hf HQ.
  - destruct Hl as (E & Hpr & x & Hx & Hl). assert (wp (read_guy w guy) (fun v s' => v = pr /\ s' = s) s) as Hread by (apply wp_read_guy; [intros q Hq; by destruct (Hg q Hq)|done]).
    destruct fuel; cbn [unlink]; wpsimp; (eapply wp_mono; [exact Hread|]); cbn beta; intros v s' [-> ->]; (destruct (Z.eqb_spec pr 0); [done|]); rewrite Z.eqb_refl;
      unfold get_ref; wpsimp; (exists x; split; [done|]); apply NoDup_cons in Hnd as [Hnpr Hnd].
    all: destruct guy as [q|]; cbn [write_guy]; unfold get_ref, put_ref; wpsimp.
    1, 3: destruct (Hg q eq_refl) as [Hq [z Hz]]; exists z; (split; [done|]); apply (HQ (with_ref_at s q (set_next w (next w x) z))); cbn [refs with_ref_at gv];
      [rewrite lookup_insert_eq, next_set; eapply linked_ext; [|exact Hl]|by apply relinked_ref| |intros _; apply base_ref].
    1, 3: intros q' y Hq' Hy; exists y; rewrite lookup_insert_ne; [done|]; intros <-; apply Hq; by right.
    1, 2: intros q' _ Hne; rewrite lookup_insert_ne; [done|congruence].
    all: destruct (set_base_parts w (next w x) s) as (E1 & E2 & E3 & E4 & E5); apply HQ; cbn [gv]; rewrite ?E2, ?base_set by done; [done|by apply relinked_base|done|naive_solver].
  - destruct Hl as (E & Hp & x & Hx & Hl). apply NoDup_cons in Hnd as [Hnp Hnd].
    assert (wp (read_guy w guy) (fun v s' => v = p /\ s' = s) s) as Hread by (apply wp_read_guy; [intros q Hq; by destruct (Hg q Hq)|done]).
    destruct fuel as [|fuel]; [simpl in Hf; lia|]. cbn [unlink]. wpsimp. eapply wp_mono; [exact Hread|]. cbn beta. intros v s' [-> ->].
    destruct (Z.eqb_spec p 0); [done|]. destruct (Z.eqb_spec p pr) as [->|Hne]; [exfalso; apply Hnp, elem_of_app; right; left|].
    eapply (IH (Some p)); [done|cbn; by rewrite Hx|intros q [= <-]; eauto|done|simpl in Hf; lia|].
    intros s' Hl' Hr Hsame Hb. apply HQ; [|done|intros q [Hq1 Hq2]%not_elem_of_cons _; apply Hsame; [done|congruence]|intros _; apply Hb; by left].
    cbn [app linked]. pose proof (rl_refs _ _ _ Hr p) as Hrp. rewrite Hx in Hrp. destruct (refs s' !! p) as [x'|] eqn:Hx'; [|done].
    split_and!; [|done|exists x'; split; [done|]; cbn in Hl'; by rewrite Hx' in Hl'].
    destruct guy as [q|]; cbn in *; [|rewrite Hb; [done|by left]]. destruct (Hg q eq_refl) as [Hq _]. rewrite Hsame; [done|set_solver|set_solver].
Qed.
End Ops.
End KmallocRefs.
