(* ===== verification/KmallocOps.v ===== *)
(** * The operations of the kernel heap

    Allocation from a page, a new page, and freeing a block, each with what it
    does to the pages and to memory. *)

From S2P Require Import Prelude Kern Vm Kmalloc KmallocSpec KmallocRefs.
Open Scope Z_scope.

Module KmallocOps.
Import Kmalloc KmallocSpec KmallocRefs.

(** ** Blocks of a new page *)

Fixpoint desc (n : nat) (sz : Z) : list Z := match n with O => [] | S n' => Z.of_nat n' * sz :: desc n' sz end.
Lemma desc_in n sz o : o ∈ desc n sz <-> exists k, (k < n)%nat /\ o = Z.of_nat k * sz.
Proof.
  induction n as [|n IH]; cbn; [split; [by intros ?%elem_of_nil|intros (k & Hk & _); lia]|]. rewrite elem_of_cons, IH. split.
  - intros [->|(k & Hk & ->)]; [exists n|exists k]; split; lia || done.
  - intros (k & Hk & ->). destruct (decide (k = n)) as [->|]; [by left|right; exists k; split; lia || done].
Qed.
Lemma desc_length n sz : length (desc n sz) = n.
Proof. induction n; cbn; lia. Qed.
Lemma desc_nodup n sz : 0 < sz -> NoDup (desc n sz).
Proof. intros Hsz. induction n; cbn; constructor; [|done]. intros (k & Hk & E)%desc_in. nia. Qed.
Lemma desc_chain m pg n sz : (forall k, (S k < n)%nat -> word m (pg + Z.of_nat (S k) * sz) = pg + Z.of_nat k * sz) -> ((0 < n)%nat -> word m pg = 0) -> chain m pg (desc n sz).
Proof.
  induction n as [|n IH]; intros H1 H0; [done|]. cbn [desc chain]. split; [|apply IH; [intros k Hk; apply H1; lia|intros Hn; apply H0; lia]].
  destruct n as [|n]; [rewrite Z.mul_0_l, Z.add_0_r; apply H0; lia|]. cbn [desc]. apply H1. lia.
Qed.

Section Ops.
Context {Pg : Type} `{KPages Pg}.
Implicit Types (s : kheap Pg) (A : list pinfo).

Definition with_mem s (m : gmap Z Z) : kheap Pg := Kheap m (refs s) (kheaproots s) (sizebases s) (allbase s) (pages s).

Lemma wp_store a v (Q : unit -> kheap Pg -> Prop) s : a <> 0 -> Q tt (with_mem s (<[a := v]> (mem s))) -> wp (store a v) Q s.
Proof. intros Ha HQ. unfold store. destruct (Z.eqb_spec a 0); [done|]. by wpsimp. Qed.
Lemma wp_load a (Q : Z -> kheap Pg -> Prop) s : a <> 0 -> Q (word (mem s) a) s -> wp (load a) Q s.
Proof. intros Ha HQ. unfold load. destruct (Z.eqb_spec a 0); [done|]. by wpsimp. Qed.
Lemma wp_get_ref p x (Q : pageref -> kheap Pg -> Prop) s : refs s !! p = Some x -> Q x s -> wp (get_ref p) Q s.
Proof. intros Hx HQ. unfold get_ref. wpsimp. rewrite Hx. eauto. Qed.
Lemma wp_size_of b (Q : Z -> kheap Pg -> Prop) s : is_type b -> Q (bsize b) s -> wp (size_of b) Q s.
Proof. intros Hb HQ. unfold size_of. wpsimp. rewrite (sizes_at b Hb). eauto. Qed.

Lemma u32_in pg o : page_addr pg -> 0 <= o < 4096 -> u32 (pg + o) = pg + o.
Proof. intros Hp Ho. destruct (page_addr_pos pg Hp) as (_ & _ & _ & _ & ?). pose proof (page_addr_pos pg Hp) as (? & _). apply u32_id. unfold is_u32. lia. Qed.

(** ** Taking a block *)

Lemma wp_doalloc Q s pr ns na pg b o fs : page_addr pg -> is_type b -> (forall o', o' ∈ o :: fs -> is_block b o') -> chain (mem s) pg (o :: fs) ->
  (length (o :: fs) <= 256)%nat -> refs s !! pr = Some (Pageref ns na (MKPAB pg b) o (Z.of_nat (length (o :: fs)))) ->
  Q (pg + o) (with_ref_at s pr (Pageref ns na (MKPAB pg b) (first_free fs) (Z.of_nat (length fs)))) -> wp (doalloc pr) Q s.
Proof.
  intros Hp Hb Hblk Hch Hlen Hr HQ. set (x := Pageref _ _ _ _ _) in Hr. destruct (pab_addr x pg b Hp Hb eq_refl) as [E1 E2].
  destruct (Hblk o ltac:(left)) as [Ho _]. pose proof (page_addr_pos pg Hp) as (Hpos & _). destruct Hch as [Hw Hch].
  unfold doalloc. wpsimp. eapply wp_get_ref; [exact Hr|]. rewrite E1. cbn [freelist_offset x next_samesize next_all pageaddr_and_blocktype nfree]. wpsimp.
  split; [change PAGE_SIZE with 4096; apply Z.ltb_lt; lia|]. rewrite u32_in by done. apply wp_load; [lia|]. rewrite Hw.
  assert (u16 (Z.of_nat (length (o :: fs)) - 1) = Z.of_nat (length fs)) as En by (simpl in *; unfold u16; rewrite Z.mod_small; lia). rewrite En.
  unfold put_ref. destruct fs as [|o' fs].
  - rewrite Z.eqb_refl. cbn [negb]. wpsimp. split; [done|exact HQ].
  - destruct (Hblk o' ltac:(right; left)) as [Ho' _]. destruct (Z.eqb_spec (pg + o') 0); [lia|]. cbn [negb]. wpsimp. replace (pg + o' - pg) with o' by lia.
    split; [destruct (Z.gtb_spec (Z.of_nat (length (o' :: fs))) 0); simpl in *; [done|lia]|].
    split; [change PAGE_SIZE with 4096; rewrite u32_id by (unfold is_u32; lia); apply Z.ltb_lt; lia|].
    assert (u16 o' = o') as Eo by (unfold u16; rewrite Z.mod_small; lia). rewrite Eo. exact HQ.
Qed.

(** The first page of a list that has a free block. *)
Lemma wp_find_page Q s b L : is_type b -> forall fuel pr, linked (Same b) (refs s) pr (p_ref <$> L) ->
  (forall pi, pi ∈ L -> page_ok (mem s) (refs s) pi /\ p_type pi = b) -> (length L <= fuel)%nat ->
  (forall pi, pi ∈ L -> p_free pi <> [] -> Q (p_ref pi) s) -> ((forall pi, pi ∈ L -> p_free pi = []) -> Q 0 s) -> wp (find_page fuel pr b) Q s.
Proof.
  intros Hb. induction L as [|pi L IH]; intros fuel pr Hl Hok Hf HQ HQ0; cbn in Hl.
  { subst pr. destruct fuel; cbn [find_page]; wpsimp; apply HQ0; by intros pi ?%elem_of_nil. }
  destruct Hl as (-> & Hne & x & Hx & Hl). destruct fuel as [|fuel]; [simpl in Hf; lia|]. cbn [find_page]. destruct (Z.eqb_spec (p_ref pi) 0); [done|].
  destruct (Hok pi ltac:(left)) as [[T Ad _ _ _ _ (ns & na & Hr)] Ht]. rewrite Hx in Hr. injection Hr as ->.
  wpsimp. eapply wp_get_ref; [exact Hx|]. rewrite Ht. match goal with |- context [PR_BLOCKTYPE ?y] => destruct (pab_addr y (p_page pi) b Ad Hb ltac:(by rewrite <- Ht)) as [_ E2] end.
  wpsimp. split; [rewrite <- Ht in E2 |- *; by apply Z.eqb_eq|]. cbn [nfree].
  destruct (Z.gtb_spec (Z.of_nat (length (p_free pi))) 0) as [Hg|Hg].
  - wpsimp. apply HQ; [left|]. intros E. rewrite E in Hg. simpl in Hg. lia.
  - eapply IH; [exact Hl|intros q Hq; apply Hok; by right|simpl in Hf; lia|intros q Hq; apply HQ; by right|]. intros Hn. apply HQ0.
    intros q [->|Hq]%elem_of_cons; [|by apply Hn]. destruct (p_free pi); [done|simpl in Hg; lia].
Qed.

(** ** A new page *)

Lemma wp_chain n : forall i pg sz fl (Q : Z -> kheap Pg -> Prop) s, page_addr pg -> 0 < sz -> 0 < i -> (i + Z.of_nat n) * sz <= 4096 ->
  fl = pg + (i - 1) * sz ->
  (forall m, (forall k, i <= k < i + Z.of_nat n -> word m (pg + k * sz) = pg + (k - 1) * sz) ->
     (forall a, (forall k, i <= k < i + Z.of_nat n -> a <> pg + k * sz) -> word m a = word (mem s) a) ->
     Q (pg + (i + Z.of_nat n - 1) * sz) (with_mem s m)) ->
  wp (chain_blocks n i pg sz fl) Q s.
Proof.
  induction n as [|n IH]; intros i pg sz fl Q s Hp Hsz Hi Hle -> HQ; cbn [chain_blocks].
  - wpsimp. specialize (HQ (mem s)). rewrite Z.add_0_r in HQ. destruct s. apply HQ; [lia|done].
  - pose proof (page_addr_pos pg Hp) as (Hpos & _). rewrite !u32_in by (done || nia). wpsimp. apply wp_store; [nia|]. wpsimp.
    split; [apply negb_true_iff, Z.eqb_neq; nia|]. apply IH; [done|done|lia|lia|f_equal; lia|].
    intros m H1 H2. replace (i + 1 + Z.of_nat n - 1) with (i + Z.of_nat (S n) - 1) by lia. apply (HQ m).
    + intros k Hk. destruct (decide (k = i)) as [->|]; [|apply H1; lia]. rewrite H2 by (intros k Hk'; nia). cbn. by rewrite word_insert, decide_True.
    + intros a Ha. rewrite H2 by (intros k Hk'; apply Ha; lia). cbn. rewrite word_insert, decide_False; [done|]. apply Ha. lia.
Qed.

Lemma desc_cons b : is_type b -> desc (Z.to_nat (nblocks b)) (bsize b) = (nblocks b - 1) * bsize b :: desc (Z.to_nat (nblocks b - 1)) (bsize b).
Proof.
  intros Hb. destruct (bsize_bounds b Hb) as (_ & _ & _ & Hn). replace (Z.to_nat (nblocks b)) with (S (Z.to_nat (nblocks b - 1))) by lia.
  cbn [desc]. rewrite Z2Nat.id by lia. done.
Qed.
Lemma desc_blocks b n o : is_type b -> (n <= Z.to_nat (nblocks b))%nat -> o ∈ desc n (bsize b) -> is_block b o.
Proof. intros Hb Hn (k & Hk & ->)%desc_in. apply mul_block; [done|]. lia. Qed.

(** The new page is on the lists, with all but its last block free. *)
Lemma wp_new_page (Q : Z -> kheap Pg -> Prop) s pr pg b : page_addr pg -> is_type b -> length (sizebases s) = 8%nat ->
  (forall m fs, let o := (nblocks b - 1) * bsize b in fs = desc (Z.to_nat (nblocks b - 1)) (bsize b) -> chain m pg fs ->
     (forall a, a < pg \/ pg + 4096 <= a -> word m a = word (mem s) a) ->
     Q (pg + o) (Kheap m (<[pr := Pageref (base (Same b) s) (allbase s) (MKPAB pg b) (first_free fs) (Z.of_nat (length fs))]> (refs s))
       (kheaproots s) (<[Z.to_nat b := pr]> (sizebases s)) pr (pages s))) ->
  wp (new_page pr pg b) Q s.
Proof.
  intros Hp Hb Hl HQ. destruct (bsize_bounds b Hb) as (B1 & B2 & B3 & B4). pose proof (page_addr_pos pg Hp) as (Hpos & _).
  unfold new_page. wpsimp. apply wp_size_of; [done|]. change (PAGE_SIZE / bsize b) with (nblocks b).
  assert (u16 (nblocks b) = nblocks b) as En by (unfold u16; rewrite Z.mod_small; lia). rewrite En. wpsimp. apply wp_store; [lia|]. wpsimp.
  apply wp_chain; [done|lia|lia|nia|lia|]. intros m H1 H2. rewrite Z2Nat.id by lia. cbn [with_mem mem] in *. wpsimp.
  replace (pg + (1 + (nblocks b - 1) - 1) * bsize b - pg) with ((nblocks b - 1) * bsize b) by lia.
  assert (u16 ((nblocks b - 1) * bsize b) = (nblocks b - 1) * bsize b) as Eo by (unfold u16; rewrite Z.mod_small; nia). rewrite Eo.
  split; [by apply Z.eqb_eq|]. unfold put_ref. wpsimp. cbn [set_base with_mem mem refs kheaproots sizebases allbase pages base].
  assert (chain m pg (desc (Z.to_nat (nblocks b)) (bsize b))) as Hch.
  { apply desc_chain; [|intros _; rewrite H2 by (intros k Hk; nia); by rewrite word_insert, decide_True].
    intros k Hk. rewrite H1 by lia. f_equal. lia. }
  rewrite desc_cons in Hch by done. set (fs := desc (Z.to_nat (nblocks b - 1)) (bsize b)) in *.
  assert (forall o', o' ∈ (nblocks b - 1) * bsize b :: fs -> is_block b o') as Hblk.
  { intros o' Ho'. eapply (desc_blocks b (Z.to_nat (nblocks b))); [done|lia|]. by rewrite desc_cons. }
  assert (Z.of_nat (length ((nblocks b - 1) * bsize b :: fs)) = nblocks b) as Elen by (unfold fs; simpl; rewrite desc_length; lia).
  eapply wp_doalloc; [done|done|exact Hblk|exact Hch|lia|rewrite Elen; cbn; by rewrite lookup_insert_eq|].
  unfold with_ref_at. cbn. rewrite insert_insert_eq. apply HQ; [done|apply Hch|].
  intros a Ha. rewrite H2 by (intros k Hk; nia). rewrite word_insert, decide_False; [done|lia].
Qed.

(** ** Freeing a block *)

Lemma wp_fill n : forall ptr (Q : unit -> kheap Pg -> Prop) s, 0 < ptr ->
  (forall m, (forall a, a < ptr \/ ptr + 4 * Z.of_nat n <= a -> word m a = word (mem s) a) -> Q tt (with_mem s m)) -> wp (fill_words n ptr) Q s.
Proof.
  induction n as [|n IH]; intros ptr Q s Hp HQ; cbn [fill_words]; wpsimp; [destruct s; by apply HQ|].
  apply wp_store; [lia|]. apply IH; [lia|]. intros m Hm. apply (HQ m). intros a Ha. rewrite Hm by lia. cbn. rewrite word_insert, decide_False; [done|lia].
Qed.

(** The page that an address lies in. *)
Lemma wp_find_owner (Q : Z -> kheap Pg -> Prop) s L ptr : forall fuel pr, linked All (refs s) pr (p_ref <$> L) -> (forall pi, pi ∈ L -> page_ok (mem s) (refs s) pi) ->
  (length L <= fuel)%nat -> (forall pi, pi ∈ L -> p_page pi <= ptr < p_page pi + 4096 -> Q (p_ref pi) s) ->
  ((forall pi, pi ∈ L -> ~ (p_page pi <= ptr < p_page pi + 4096)) -> Q 0 s) -> wp (find_owner fuel pr ptr) Q s.
Proof.
  induction L as [|pi L IH]; intros fuel pr Hl Hok Hf HQ HQ0; cbn in Hl.
  { subst pr. destruct fuel; cbn [find_owner]; wpsimp; apply HQ0; by intros pi ?%elem_of_nil. }
  destruct Hl as (-> & Hne & x & Hx & Hl). destruct fuel as [|fuel]; [simpl in Hf; lia|]. cbn [find_owner]. destruct (Z.eqb_spec (p_ref pi) 0); [done|].
  destruct (Hok pi ltac:(left)) as [T Ad _ _ _ _ (ns & na & Hr)]. rewrite Hx in Hr. injection Hr as ->.
  wpsimp. eapply wp_get_ref; [exact Hx|]. match goal with |- context [PR_BLOCKTYPE ?y] => destruct (pab_addr y (p_page pi) (p_type pi) Ad T eq_refl) as [E1 E2] end.
  rewrite E1, E2. change PAGE_SIZE with 4096. change NSIZES with 8. wpsimp. unfold is_type in T.
  split; [destruct (Z.geb_spec (p_type pi) 0), (Z.ltb_spec (p_type pi) 8); done || lia|].
  destruct (Z.geb_spec ptr (p_page pi)), (Z.ltb_spec ptr (p_page pi + 4096)); cbn [andb]; [wpsimp; apply HQ; [left|lia]|..].
  all: eapply IH; [exact Hl|intros q Hq; apply Hok; by right|simpl in Hf; lia|intros q Hq; apply HQ; by right|].
  all: intros Hno; apply HQ0; intros q [->|Hq]%elem_of_cons; [lia|by apply Hno].
Qed.

(** ** What happens to the heap *)

Lemma page_ok_ext m m' rs rs' pi : page_ok m rs pi -> rs' !! p_ref pi = rs !! p_ref pi ->
  (forall a, p_page pi <= a < p_page pi + 4096 -> word m' a = word m a) -> page_ok m' rs' pi.
Proof.
  intros [T Ad Nd Bl Ch So Rf] Hr Hm. split; [done..| |done|by rewrite Hr]. eapply chain_ext; [|exact Ch]. intros o Ho.
  apply Hm. destruct (Bl o Ho) as [Hb _]. lia.
Qed.

Lemma nodup_apart {B} (f : pinfo -> B) A1 pi A2 q : NoDup (f <$> A1 ++ pi :: A2) -> q ∈ A1 ++ A2 -> f q <> f pi.
Proof.
  rewrite fmap_app, fmap_cons. intros (H1 & H2 & H3)%NoDup_app [Hq|Hq]%elem_of_app E.
  - apply (H2 (f q)); [by apply list_elem_of_fmap_2|rewrite E; left].
  - apply NoDup_cons in H3 as [H3 _]. apply H3. rewrite <- E. by apply list_elem_of_fmap_2.
Qed.
Lemma fmap_unique {B} (f : pinfo -> B) l q q' : NoDup (f <$> l) -> q ∈ l -> q' ∈ l -> f q = f q' -> q = q'.
Proof.
  induction l as [|x l IH]; [by intros _ ?%elem_of_nil|]. rewrite fmap_cons. intros [Hx Hnd]%NoDup_cons [->|Hq]%elem_of_cons [->|Hq']%elem_of_cons E; [done|..|by apply IH].
  - destruct Hx. rewrite E. by apply list_elem_of_fmap_2.
  - destruct Hx. rewrite <- E. by apply list_elem_of_fmap_2.
Qed.
Lemma mid_in {B} (q x : B) l1 l2 : q ∈ l1 ++ x :: l2 -> q = x \/ q ∈ l1 ++ l2.
Proof. rewrite !elem_of_app, elem_of_cons. tauto. Qed.

Lemma elem_of_mid {B} (q x : B) l1 l2 : q ∈ l1 ++ l2 -> q ∈ l1 ++ x :: l2.
Proof. rewrite !elem_of_app, elem_of_cons. tauto. Qed.

Lemma linked_entry w rs p x x' b l : rs !! p = Some x -> next w x' = next w x -> linked w rs b l -> linked w (<[p := x']> rs) b l.
Proof.
  intros Hx E. apply linked_ext. intros q y _ Hy. destruct (decide (q = p)) as [->|]; [|exists y; by rewrite lookup_insert_ne].
  exists x'. rewrite lookup_insert_eq. split; [done|]. congruence.
Qed.

(** The free blocks of a page change. *)
Lemma hinv_page s A1 pi A2 m fs ns na fo nf : hinv s (A1 ++ pi :: A2) ->
  refs s !! p_ref pi = Some (Pageref ns na (MKPAB (p_page pi) (p_type pi)) fo nf) ->
  NoDup fs -> (forall o, o ∈ fs -> is_block (p_type pi) o) -> chain m (p_page pi) fs -> Z.of_nat (length fs) < nblocks (p_type pi) ->
  (forall q a, q ∈ A1 ++ A2 -> p_page q <= a < p_page q + 4096 -> word m a = word (mem s) a) ->
  hinv (Kheap m (<[p_ref pi := Pageref ns na (MKPAB (p_page pi) (p_type pi)) (first_free fs) (Z.of_nat (length fs))]> (refs s)) (kheaproots s) (sizebases s) (allbase s) (pages s))
    (A1 ++ PInfo (p_ref pi) (p_slot pi) (p_page pi) (p_type pi) fs :: A2).
Proof.
  intros Hh Hr Nd Bl Ch So Hm. set (pi' := PInfo _ _ _ _ _). set (x' := Pageref _ _ _ _ _).
  assert (forall w l b, linked w (refs s) b l -> linked w (<[p_ref pi := x']> (refs s)) b l) as Hlk by (intros w l b; eapply linked_entry; [exact Hr|by destruct w]).
  assert (p_ref <$> A1 ++ pi' :: A2 = p_ref <$> A1 ++ pi :: A2) as E1 by (by rewrite !fmap_app, !fmap_cons).
  assert (p_page <$> A1 ++ pi' :: A2 = p_page <$> A1 ++ pi :: A2) as E2 by (by rewrite !fmap_app, !fmap_cons).
  split; cbn [mem refs kheaproots sizebases allbase]; rewrite ?E1, ?E2; try apply Hh.
  - apply Hlk, Hh.
  - intros b Hb. apply Hlk. cbn [base sizebases]. pose proof (h_same _ _ Hh b Hb) as Hs. unfold of_type in *. rewrite filter_app, filter_cons in Hs |- *.
    cbn [p_type pi'] in *. destruct (decide (p_type pi = b)); [|exact Hs]. by rewrite fmap_app, fmap_cons in Hs |- *.
  - intros q [->|Hq]%mid_in.
    + destruct (h_page _ _ Hh pi) as [T Ad _ _ _ _ _]; [apply elem_of_app; right; left|]. split; [done..|]. exists ns, na. cbn. by rewrite lookup_insert_eq.
    + eapply page_ok_ext; [eapply (h_page _ _ Hh); rewrite elem_of_app, elem_of_cons; apply elem_of_app in Hq; tauto| |intros a; by apply Hm].
      rewrite lookup_insert_ne; [done|]. apply not_eq_sym. eapply nodup_apart; [apply Hh|done].
  - intros q [->|Hq]%mid_in; [apply (h_slot _ _ Hh pi); apply elem_of_app; right; left|]. apply (h_slot _ _ Hh q). rewrite elem_of_app, elem_of_cons. apply elem_of_app in Hq; tauto.
Qed.

(** A page comes to the heap. *)
Lemma hinv_add s A m pr sl pg b fs : hinv s A -> pr <> 0 -> pr ∉ p_ref <$> A -> pg ∉ p_page <$> A -> page_addr pg -> is_type b ->
  slot_ref (kheaproots s) sl pr -> slot_used (kheaproots s) sl -> NoDup fs -> (forall o, o ∈ fs -> is_block b o) -> chain m pg fs -> Z.of_nat (length fs) < nblocks b ->
  (forall q a, q ∈ A -> p_page q <= a < p_page q + 4096 -> word m a = word (mem s) a) ->
  hinv (Kheap m (<[pr := Pageref (base (Same b) s) (allbase s) (MKPAB pg b) (first_free fs) (Z.of_nat (length fs))]> (refs s))
       (kheaproots s) (<[Z.to_nat b := pr]> (sizebases s)) pr (pages s)) (PInfo pr sl pg b fs :: A).
Proof.
  intros Hh Hpr Hnr Hnp Hp Hb Hs1 Hs2 Nd Bl Ch So Hm. set (x := Pageref _ _ _ _ _).
  assert (forall w l b, (forall p, p ∈ l -> p ∈ p_ref <$> A) -> linked w (refs s) b l -> linked w (<[pr := x]> (refs s)) b l) as Hlk.
  { intros w l b' Hl. apply linked_ext. intros p y Hin Hy. exists y. rewrite lookup_insert_ne; [done|]. intros <-. by apply Hnr, Hl. }
  assert (forall b' p, p ∈ p_ref <$> of_type b' A -> p ∈ p_ref <$> A) as Hsub.
  { intros b' p (q & -> & Hq)%list_elem_of_fmap. apply list_elem_of_fmap_2. by apply list_elem_of_filter in Hq as [_ ?]. }
  split; cbn [mem refs kheaproots sizebases allbase].
  - rewrite length_insert. apply Hh.
  - apply Hh.
  - apply Hh.
  - rewrite fmap_cons. cbn. split_and!; [done|done|]. exists x. rewrite lookup_insert_eq. split; [done|]. cbn. apply Hlk; [done|apply Hh].
  - intros b' Hb'. unfold of_type. rewrite filter_cons. cbn [p_type base sizebases]. pose proof (h_same _ _ Hh b' Hb') as Hs. pose proof (h_bases _ _ Hh) as Hl8.
    unfold is_type in Hb, Hb'. destruct (decide (b = b')) as [<-|Hne].
    + rewrite list_lookup_total_insert_eq by lia. cbn. split_and!; [done|done|]. exists x. rewrite lookup_insert_eq. split; [done|]. cbn. apply Hlk; [apply Hsub|exact Hs].
    + rewrite list_lookup_total_insert_ne by lia. apply Hlk; [apply Hsub|exact Hs].
  - intros q [->|Hq]%elem_of_cons.
    + split; [done..|]. eexists _, _. cbn. by rewrite lookup_insert_eq.
    + eapply page_ok_ext; [by apply Hh| |intros a; by apply Hm]. rewrite lookup_insert_ne; [done|]. intros E. apply Hnr. rewrite E. by apply list_elem_of_fmap_2.
  - intros q [->|Hq]%elem_of_cons; [done|by apply Hh].
  - rewrite fmap_cons. constructor; [done|apply Hh].
  - rewrite fmap_cons. constructor; [done|apply Hh].
Qed.

Lemma linked_length w rs b l : linked w rs b l -> NoDup l -> (length l <= size rs)%nat.
Proof.
  intros Hl Hnd. rewrite <- size_dom, <- (size_list_to_set (C := gset Z)) by done. apply subseteq_size. intros p Hp%elem_of_list_to_set.
  destruct (linked_in _ _ _ _ _ Hl Hp) as (_ & x & Hx). by apply elem_of_dom_2 in Hx.
Qed.

(** Only links change: pages stay as they are, and so does another list. *)
Lemma page_ok_relinked w s s' m pi : relinked w s s' -> page_ok m (refs s) pi -> page_ok m (refs s') pi.
Proof.
  intros Hr [T Ad Nd Bl Ch So (ns & na & Hx)]. split; [done..|]. pose proof (rl_refs _ _ _ Hr (p_ref pi)) as Hp. rewrite Hx in Hp.
  destruct (refs s' !! p_ref pi) as [x'|]; [|done]. rewrite Hp. destruct w; cbn; eauto.
Qed.
Lemma linked_relinked w w' s s' b l : relinked w s s' -> (forall x v, next w' (set_next w v x) = next w' x) -> linked w' (refs s) b l -> linked w' (refs s') b l.
Proof.
  intros Hr Hn. apply linked_ext. intros p x _ Hx. pose proof (rl_refs _ _ _ Hr p) as Hp. rewrite Hx in Hp. destruct (refs s' !! p) as [x'|]; [|done].
  exists x'. split; [done|]. rewrite Hp. apply Hn.
Qed.

Definition type_refs b A : list Z := p_ref <$> of_type b A.
Lemma type_refs_mid b A1 pi A2 : type_refs b (A1 ++ pi :: A2) = type_refs b A1 ++ (if decide (p_type pi = b) then [p_ref pi] else []) ++ type_refs b A2.
Proof. unfold type_refs, of_type. rewrite filter_app, filter_cons. case_decide; by rewrite fmap_app. Qed.
Lemma type_refs_app b A1 A2 : type_refs b (A1 ++ A2) = type_refs b A1 ++ type_refs b A2.
Proof. unfold type_refs, of_type. by rewrite filter_app, fmap_app. Qed.
Lemma type_refs_in b A p : p ∈ type_refs b A <-> exists q, p = p_ref q /\ q ∈ A /\ p_type q = b.
Proof. unfold type_refs, of_type. rewrite list_elem_of_fmap. setoid_rewrite list_elem_of_filter. naive_solver. Qed.
Lemma type_refs_nodup b A : NoDup (p_ref <$> A) -> NoDup (type_refs b A).
Proof.
  induction A as [|q A IH]; [done|]. rewrite fmap_cons. intros [Hq Hnd]%NoDup_cons. specialize (IH Hnd). unfold type_refs, of_type in *. rewrite filter_cons.
  case_decide; [|done]. rewrite fmap_cons. constructor; [|done]. intros (q' & E & Hq')%list_elem_of_fmap. apply Hq. rewrite E. apply list_elem_of_fmap_2.
  by apply list_elem_of_filter in Hq' as [_ ?].
Qed.

(** The page [pi] goes: both lists without it. *)
Record delisted s A1 A2 s' : Prop := {
  dl_mem : mem s' = mem s; dl_roots : kheaproots s' = kheaproots s; dl_pages : pages s' = pages s; dl_len : length (sizebases s') = length (sizebases s);
  dl_all : linked All (refs s') (allbase s') (p_ref <$> A1 ++ A2);
  dl_same : forall b, is_type b -> linked (Same b) (refs s') (base (Same b) s') (type_refs b (A1 ++ A2));
  dl_page : forall m q, page_ok m (refs s) q -> page_ok m (refs s') q
}.
Lemma wp_remove_lists Q s A1 pi A2 : is_type (p_type pi) -> length (sizebases s) = 8%nat -> NoDup (p_ref <$> A1 ++ pi :: A2) ->
  linked All (refs s) (allbase s) (p_ref <$> A1 ++ pi :: A2) -> (forall b, is_type b -> linked (Same b) (refs s) (base (Same b) s) (type_refs b (A1 ++ pi :: A2))) ->
  (forall s', delisted s A1 A2 s' -> Q tt s') -> wp (remove_lists (p_ref pi) (p_type pi)) Q s.
Proof.
  intros Ht Hl8 Hnd Hall Hsame HQ. unfold remove_lists. wpsimp. change NSIZES with 8. pose proof Ht as Ht'. unfold is_type in Ht'.
  split; [destruct (Z.geb_spec (p_type pi) 0), (Z.ltb_spec (p_type pi) 8); done || lia|].
  pose proof (Hsame _ Ht) as Hs. pose proof (type_refs_nodup (p_type pi) _ Hnd) as Hnd1. rewrite type_refs_mid, decide_True in Hs, Hnd1 by done. cbn [app] in Hs, Hnd1.
  pose proof (linked_length _ _ _ _ Hs Hnd1) as Hsz. rewrite length_app in Hsz.
  eapply (wp_unlink (Same (p_type pi)) _ None); [done|exact Hs|done|exact Hnd1|lia|]. intros s1 L1 R1 S1 B1. cbn [gv] in L1.
  assert (linked All (refs s1) (allbase s1) (p_ref <$> A1 ++ pi :: A2)) as Hall1.
  { pose proof (rl_base _ _ _ R1 All ltac:(done) ltac:(done)) as Eb. cbn in Eb. rewrite Eb. by eapply linked_relinked. }
  pose proof (linked_length _ _ _ _ Hall Hnd) as Hsz2. rewrite fmap_app, fmap_cons in Hall1, Hnd, Hsz2. rewrite length_app in Hsz2.
  eapply (wp_unlink All _ None); [done|exact Hall1|done|exact Hnd|lia|]. intros s2 L2 R2 S2 B2. cbn [gv] in L2. apply HQ. split.
  - rewrite (rl_mem _ _ _ R2). apply R1.
  - rewrite (rl_roots _ _ _ R2). apply R1.
  - rewrite (rl_pages _ _ _ R2). apply R1.
  - rewrite (rl_len _ _ _ R2). apply R1.
  - by rewrite fmap_app.
  - intros b Hb. rewrite (rl_base _ _ _ R2 (Same b)) by (congruence || (intros ? [= <-]; done)). eapply linked_relinked; [exact R2|done|].
    destruct (decide (b = p_type pi)) as [->|Hne]; [by rewrite type_refs_app|].
    rewrite (rl_base _ _ _ R1 (Same b)) by (congruence || (intros ? [= <-]; done)). specialize (Hsame b Hb). rewrite type_refs_mid, decide_False, app_nil_l, <- type_refs_app in Hsame by done.
    eapply linked_ext; [|exact Hsame]. intros p x Hp Hx. exists x. split; [|done]. rewrite S1; [done| |done].
    intros (q & -> & Hq & Eq)%type_refs_in. apply type_refs_in in Hp as (q' & Er & Hq' & Eq').
    rewrite <- fmap_cons, <- fmap_app in Hnd. assert (q = q') as <-; [|congruence].
    eapply (fmap_unique p_ref (A1 ++ pi :: A2)); [exact Hnd|rewrite elem_of_app; by left|rewrite elem_of_app, elem_of_cons; apply elem_of_app in Hq'; tauto|done].
  - intros m q Hq. eapply page_ok_relinked; [exact R2|]. by eapply page_ok_relinked.
Qed.

(** The pages of the roots are different, and come in order. *)
Definition rts_ok (rts : list kheap_root) : Prop :=
  (forall r r' x x', r <> r' -> rts !! r = Some x -> rts !! r' = Some x' -> page x <> 0 -> page x <> page x') /\
  (forall r r' x x', (r' < r)%nat -> rts !! r = Some x -> rts !! r' = Some x' -> page x' = 0 -> page x = 0 /\ numinuse x = 0).

Definition outside (ptr n : Z) (m m' : gmap Z Z) : Prop := forall a, a < ptr \/ ptr + n <= a -> word m' a = word m a.

Lemma slot_inj rts sl p p' : slot_ref rts sl p -> slot_ref rts sl p' -> p = p'.
Proof. intros (x & Hx & _ & ->) (x' & Hx' & _ & ->). congruence. Qed.

(** Giving back the slot of a page that is off the lists. *)
Lemma wp_drop_ref Q s s0 s1 A1 pi A2 : hinv s (A1 ++ pi :: A2) -> rts_ok (kheaproots s) -> delisted s0 A1 A2 s1 -> kheaproots s1 = kheaproots s -> length (sizebases s1) = 8%nat ->
  (forall q, q ∈ A1 ++ A2 -> page_ok (mem s1) (refs s1) q) ->
  (forall s2 r x ws, r = Z.to_nat (p_slot pi).1 -> kheaproots s !! r = Some x -> kheaproots s2 = <[r := Root (page x) ws (numinuse x - 1)]> (kheaproots s) ->
     (forall k, 0 <= k -> bit ws k = bit (pagerefs_inuse x) k && negb (k =? (p_slot pi).2)) -> root_ok (Root (page x) ws (numinuse x - 1)) ->
     mem s2 = mem s1 -> pages s2 = pages s1 -> hinv s2 (A1 ++ A2) -> Q tt s2) -> wp (freepageref (p_ref pi)) Q s1.
Proof.
  intros Hh [Ra Rg] Hd Er Hl8 Hpo HQ. assert (pi ∈ A1 ++ pi :: A2) as Hin by (apply elem_of_app; right; left).
  assert (forall q, q ∈ A1 ++ A2 -> q ∈ A1 ++ pi :: A2) as Hsub by (intros q; rewrite !elem_of_app, elem_of_cons; tauto).
  destruct (h_slot _ _ Hh pi Hin) as [(x & Hx & Hp & Eref) (Hs1 & Hs2 & x' & Hx' & Hbit)]. rewrite Hx in Hx'. injection Hx' as <-.
  set (r := Z.to_nat (p_slot pi).1) in *. set (ix := (p_slot pi).2) in *. rewrite Eref.
  eapply (wp_freepageref Q s1 r x ix); rewrite ?Er; [apply Hh|apply Hh|done|done|done|done| |].
  - intros r' x' Hlt Hx'. right. split; [intros E; destruct (Rg r r' x x' Hlt Hx Hx' E); done|]. apply not_eq_sym. eapply (Ra r r'); [lia|done..].
  - intros ws Hws Hok. eapply (HQ _ r x ws); cbn [with_roots kheaproots mem pages]; [done|done|done|done|done|done|done|].
    split; cbn [with_roots mem refs kheaproots sizebases allbase]; rewrite ?Er.
    + exact Hl8.
    + rewrite length_insert. apply Hh.
    + intros r' y [[<- [<- _]]|[_ Hy]]%list_lookup_insert_Some; [done|by eapply Hh].
    + apply Hd.
    + apply Hd.
    + done.
    + intros q Hq. specialize (Hsub q Hq). destruct (h_slot _ _ Hh q Hsub) as [Hsr (U1 & U2 & y & Hy & Hyb)]. assert (p_slot q <> p_slot pi) as Hne.
      { intros E. apply (nodup_apart p_ref A1 pi A2 q (h_refs _ _ Hh) Hq). rewrite E in Hsr. eapply slot_inj; [exact Hsr|]. apply (h_slot _ _ Hh pi Hin). }
      assert (r < length (kheaproots s))%nat as Hr by (by eapply lookup_lt_Some). split.
      * destruct Hsr as (z & Hz & Hz0 & E). unfold slot_ref. destruct (decide (r = Z.to_nat (p_slot q).1)) as [Eq|Hn].
        -- rewrite <- Eq in Hz |- *. rewrite list_lookup_insert_eq by done. eexists. split; [done|]. cbn. rewrite Hx in Hz. by injection Hz as <-.
        -- rewrite list_lookup_insert_ne by done. eauto.
      * split; [exact U1|]. split; [exact U2|]. destruct (decide (r = Z.to_nat (p_slot q).1)) as [Eq|Hn].
        -- rewrite <- Eq in Hy |- *. rewrite list_lookup_insert_eq by done. eexists. split; [done|]. cbn. rewrite Hws by lia. rewrite Hx in Hy. injection Hy as <-.
           rewrite Hyb. cbn. apply negb_true_iff, Z.eqb_neq. intros E. destruct Hne. destruct (p_slot q), (p_slot pi). unfold r, ix in *. cbn in *. f_equal; lia.
        -- rewrite list_lookup_insert_ne by done. eauto.
    + pose proof (h_refs _ _ Hh) as Hn. rewrite fmap_app, fmap_cons in Hn. rewrite fmap_app. apply NoDup_app in Hn as (N1 & N2 & N3). apply NoDup_cons in N3 as [_ N3].
      apply NoDup_app. split_and!; [done| |done]. intros p H1 H2. apply (N2 p H1). by right.
    + pose proof (h_pages _ _ Hh) as Hn. rewrite fmap_app, fmap_cons in Hn. rewrite fmap_app. apply NoDup_app in Hn as (N1 & N2 & N3). apply NoDup_cons in N3 as [_ N3].
      apply NoDup_app. split_and!; [done| |done]. intros p H1 H2. apply (N2 p H1). by right.
Qed.

(** kfree's work on a block of a heap page. *)
Section Free.
Variables (s : kheap Pg) (A1 A2 : list pinfo) (pi : pinfo) (ptr : Z).
Abbreviation pg := (p_page pi).
Abbreviation b := (p_type pi).
Abbreviation off := (ptr - p_page pi).
Hypothesis Hh : hinv s (A1 ++ pi :: A2).
Hypothesis Hr : rts_ok (kheaproots s).
Hypothesis Hblk : is_block b off.
Hypothesis Hlive : off ∉ p_free pi.

Lemma pi_ok : page_ok (mem s) (refs s) pi.
Proof using Hh. apply (h_page _ _ Hh). apply elem_of_app. right. left. Qed.
Lemma other_page q : q ∈ A1 ++ A2 -> page_ok (mem s) (refs s) q /\ (p_page q + 4096 <= pg \/ pg + 4096 <= p_page q).
Proof using Hh.
  intros Hq. assert (page_ok (mem s) (refs s) q) as Hq' by (apply (h_page _ _ Hh); rewrite elem_of_app, elem_of_cons; apply elem_of_app in Hq; tauto).
  split; [done|]. pose proof (nodup_apart p_page A1 pi A2 q (h_pages _ _ Hh) Hq) as Hne. destruct (pg_addr _ _ _ Hq') as (M1 & _), (pg_addr _ _ _ pi_ok) as (M2 & _).
  pose proof (Z.div_mod (p_page q) 4096 ltac:(lia)). pose proof (Z.div_mod pg 4096 ltac:(lia)). lia.
Qed.
(** Other pages do not see a change of this block. *)
Lemma outside_other m : outside ptr (bsize b) (mem s) m -> forall q a, q ∈ A1 ++ A2 -> p_page q <= a < p_page q + 4096 -> word m a = word (mem s) a.
Proof using Hh Hblk.
  intros Ho q a Hq Ha. destruct (other_page q Hq) as [_ Hap]. pose proof (block_in b off (pg_type _ _ _ pi_ok) Hblk). destruct Hblk as [Hb _]. apply Ho. lia.
Qed.

(** The memory with the block in the free list. *)
Lemma freed_chain m : outside ptr (bsize b) (mem s) m -> chain (<[ptr := match p_free pi with [] => 0 | o :: _ => pg + o end]> m) pg (off :: p_free pi) /\
  outside ptr (bsize b) (mem s) (<[ptr := match p_free pi with [] => 0 | o :: _ => pg + o end]> m).
Proof using Hh Hblk Hlive.
  intros Ho. set (v := match p_free pi with [] => 0 | o :: _ => pg + o end). pose proof (bsize_bounds b (pg_type _ _ _ pi_ok)) as (B1 & _).
  assert (outside ptr (bsize b) (mem s) (<[ptr := v]> m)) as Ho'.
  { intros a Ha. rewrite word_insert, decide_False by lia. by apply Ho. }
  split; [|done]. cbn [chain]. replace (pg + off) with ptr by lia. rewrite word_insert, decide_True by done. split; [done|].
  eapply chain_ext; [|apply pi_ok]. intros o Hin. apply Ho'. pose proof (pg_blocks _ _ _ pi_ok o Hin) as Hbo.
  assert (o <> off) as Hne by congruence. destruct (block_apart b o off (pg_type _ _ _ pi_ok) Hbo Hblk Hne); lia.
Qed.

Lemma wp_free_block (Q : option kres -> kheap Pg -> Prop) x : refs s !! p_ref pi = Some x -> p_page pi <= ptr < p_page pi + 4096 ->
  (forall s', outside ptr (bsize b) (mem s) (mem s') -> kheaproots s' = kheaproots s -> pages s' = pages s ->
     hinv s' (A1 ++ PInfo (p_ref pi) (p_slot pi) pg b (off :: p_free pi) :: A2) -> Q (Some (Return 0)) s') ->
  (forall s' r z ws, Z.of_nat (length (off :: p_free pi)) = nblocks b -> outside ptr (bsize b) (mem s) (mem s') -> pages s' = pages s ->
     r = Z.to_nat (p_slot pi).1 -> kheaproots s !! r = Some z -> kheaproots s' = <[r := Root (page z) ws (numinuse z - 1)]> (kheaproots s) ->
     (forall k, 0 <= k -> bit ws k = bit (pagerefs_inuse z) k && negb (k =? (p_slot pi).2)) -> hinv s' (A1 ++ A2) -> Q (Some (Goes (FreePage pg))) s') ->
  wp (sz ← size_of (PR_BLOCKTYPE x);
      let offset := u32 (ptr - PR_PAGEADDR x) in
      if (offset >=? PAGE_SIZE) || negb (offset mod sz =? 0) then raise FPanic else
      fill_deadbeef ptr sz ;;
      let fla := u32 (PR_PAGEADDR x + offset) in
      (if freelist_offset x =? INVALID_OFFSET then store fla 0
       else
         store fla (u32 (PR_PAGEADDR x + freelist_offset x)) ;;
         kassert (negb (fla =? u32 (PR_PAGEADDR x + freelist_offset x)))) ;;
      let n := u16 (nfree x + 1) in
      put_ref (p_ref pi) (Pageref (next_samesize x) (next_all x) (pageaddr_and_blocktype x) (u16 offset) n) ;;
      kassert (n <=? PAGE_SIZE / sz) ;;
      if n =? PAGE_SIZE / sz then
        remove_lists (p_ref pi) (PR_BLOCKTYPE x) ;;
        freepageref (p_ref pi) ;;
        mret (Some (Goes (FreePage (PR_PAGEADDR x))))
      else mret (Some (Return 0))) Q s.
Proof using All.
  intros Hx Hin HR HG. destruct pi_ok as [T Ad Nd Bl Ch So (ns & na & Hx')]. rewrite Hx in Hx'. injection Hx' as Ex.
  destruct (pab_addr x pg b Ad T ltac:(by rewrite Ex)) as [E1 E2]. rewrite E1, E2. pose proof (bsize_bounds b T) as (B1 & B2 & B3 & B4).
  pose proof (page_addr_pos pg Ad) as (Hpos & _ & _ & _ & Htop). destruct Hblk as [Hoff Hmod]. assert (ptr = pg + off) as Ep by lia.
  wpsimp. apply wp_size_of; [done|]. cbv zeta. change PAGE_SIZE with 4096. change (4096 / bsize b) with (nblocks b). rewrite (u32_id off) by (unfold is_u32; lia).
  destruct (Z.geb_spec off 4096); [lia|]. rewrite Hmod. cbn [orb negb Z.eqb].
  rewrite u32_in by done. rewrite <- Ep. wpsimp. unfold fill_deadbeef. apply wp_fill; [lia|]. intros m0 Hm0.
  assert (outside ptr (bsize b) (mem s) m0) as Ho0.
  { intros a Ha. apply Hm0. pose proof (Z.mul_div_le (bsize b) 4 ltac:(lia)). rewrite Z2Nat.id by (apply Z.div_pos; lia). lia. }
  destruct (freed_chain m0 Ho0) as [Hch Hout]. set (v := match p_free pi with [] => 0 | o :: _ => pg + o end) in *.
  assert (u16 off = off) as Eoff by (unfold u16; rewrite Z.mod_small; lia). rewrite Eoff.
  assert (u16 (nfree x + 1) = Z.of_nat (length (off :: p_free pi))) as En by (rewrite Ex; cbn [nfree length]; unfold u16; rewrite Z.mod_small; lia). rewrite En.
  set (m := <[ptr := v]> m0) in *. set (x1 := Pageref ns na (MKPAB pg b) off (Z.of_nat (length (off :: p_free pi)))).
  assert (forall Q', Q' tt (with_mem s m) -> wp (if freelist_offset x =? INVALID_OFFSET then store ptr 0
     else store ptr (u32 (pg + freelist_offset x)) ;; kassert (negb (ptr =? u32 (pg + freelist_offset x)))) Q' (with_mem s m0)) as Hst.
  { intros Q' HQ'. rewrite Ex. cbn [freelist_offset]. unfold m, v in HQ'. destruct (p_free pi) as [|o fs] eqn:Ef; cbn [first_free].
    - rewrite Z.eqb_refl. apply wp_store; [lia|exact HQ'].
    - destruct (Bl o ltac:(left)) as [Hob _]. destruct (Z.eqb_spec o INVALID_OFFSET); [unfold INVALID_OFFSET in *; lia|]. rewrite u32_in by done. wpsimp. apply wp_store; [lia|].
      wpsimp. split; [|exact HQ']. apply negb_true_iff, Z.eqb_neq. intros E. apply Hlive. assert (o = off) as <- by lia. left. }
  wpsimp. apply Hst. unfold put_ref. wpsimp. split; [apply Z.leb_le; cbn [length]; lia|]. set (s1 := with_ref_at (with_mem s m) (p_ref pi) x1).
  match goal with |- wp _ _ ?st => replace st with s1 by (unfold s1, x1; rewrite Ex; done) end.
  destruct (Z.eqb_spec (Z.of_nat (length (off :: p_free pi))) (nblocks b)) as [Efull|Hnf].
  - wpsimp. assert (forall w l b, linked w (refs s) b l -> linked w (refs s1) b l) as Hlk by (intros w l b; eapply linked_entry; [exact Hx|rewrite Ex; by destruct w]).
    eapply (wp_remove_lists _ s1 A1 pi A2 T); [apply Hh|apply Hh|apply Hlk, Hh|intros b' Hb'; apply Hlk, Hh, Hb'|]. intros s2 Hd. wpsimp.
    eapply (wp_drop_ref _ s s1 s2 A1 pi A2 Hh Hr Hd); [apply Hd|rewrite (dl_len _ _ _ _ Hd); apply Hh| |].
    + intros q Hq. rewrite (dl_mem _ _ _ _ Hd). apply (dl_page _ _ _ _ Hd). destruct (other_page q Hq) as [Hok _]. eapply page_ok_ext; [exact Hok| |intros a; by apply outside_other].
      cbn. rewrite lookup_insert_ne; [done|]. apply not_eq_sym. eapply nodup_apart; [apply Hh|done].
    + intros s3 r z ws Er Hz Hroots Hws Hok Em Ep' Hh3. wpsimp. eapply HG; [done|rewrite Em, (dl_mem _ _ _ _ Hd); exact Hout|rewrite Ep', (dl_pages _ _ _ _ Hd); done|done..].
  - wpsimp. apply HR; [exact Hout|done|done|]. eapply (hinv_page s A1 pi A2 m (off :: p_free pi) ns na); [exact Hh|rewrite Hx, Ex; done| | |exact Hch| |by apply outside_other].
    + by constructor.
    + intros o [->|Ho]%elem_of_cons; [done|by apply Bl].
    + cbn [length] in *. lia.
Qed.
End Free.

(** int subpage_kfree(ptr), for a block in use or an address on no heap page. *)
Lemma wp_subpage_kfree (Q : option kres -> kheap Pg -> Prop) s A ptr : hinv s A -> rts_ok (kheaproots s) ->
  (forall pi, pi ∈ A -> p_page pi <= ptr < p_page pi + 4096 -> is_block (p_type pi) (ptr - p_page pi) /\ ptr - p_page pi ∉ p_free pi) ->
  ((forall pi, pi ∈ A -> ~ (p_page pi <= ptr < p_page pi + 4096)) -> Q None s) ->
  (forall A1 pi A2 s', A = A1 ++ pi :: A2 -> p_page pi <= ptr < p_page pi + 4096 -> outside ptr (bsize (p_type pi)) (mem s) (mem s') -> kheaproots s' = kheaproots s ->
     pages s' = pages s -> hinv s' (A1 ++ PInfo (p_ref pi) (p_slot pi) (p_page pi) (p_type pi) ((ptr - p_page pi) :: p_free pi) :: A2) -> Q (Some (Return 0)) s') ->
  (forall A1 pi A2 s' r z ws, A = A1 ++ pi :: A2 -> p_page pi <= ptr < p_page pi + 4096 -> Z.of_nat (length (ptr - p_page pi :: p_free pi)) = nblocks (p_type pi) ->
     outside ptr (bsize (p_type pi)) (mem s) (mem s') -> pages s' = pages s ->
     r = Z.to_nat (p_slot pi).1 -> kheaproots s !! r = Some z -> kheaproots s' = <[r := Root (page z) ws (numinuse z - 1)]> (kheaproots s) ->
     (forall k, 0 <= k -> bit ws k = bit (pagerefs_inuse z) k && negb (k =? (p_slot pi).2)) -> hinv s' (A1 ++ A2) -> Q (Some (Goes (FreePage (p_page pi)))) s') ->
  wp (subpage_kfree ptr) Q s.
Proof.
  intros Hh Hr Hb H0 H1 H2. unfold subpage_kfree. wpsimp. pose proof (linked_length _ _ _ _ (h_all _ _ Hh) (h_refs _ _ Hh)) as Hsz. rewrite length_fmap in Hsz.
  eapply wp_find_owner; [apply Hh|apply Hh|exact Hsz| |intros Hno; rewrite Z.eqb_refl; wpsimp; by apply H0].
  intros pi Hpi Hin. destruct (linked_in _ _ _ _ (p_ref pi) (h_all _ _ Hh)) as (Hne & x & Hx); [by apply list_elem_of_fmap_2|].
  destruct (Z.eqb_spec (p_ref pi) 0); [done|]. wpsimp. eapply wp_get_ref; [exact Hx|]. destruct (Hb pi Hpi Hin) as [Hblk Hlive].
  apply list_elem_of_split in Hpi as (A1 & A2 & ->). eapply (wp_free_block s A1 A2 pi ptr Hh Hr Hblk Hlive Q x Hx Hin).
  - intros s' Ho Er Ep Hh'. by eapply H1.
  - intros s' r z ws. intros. by eapply H2.
Qed.
End Ops.
End KmallocOps.
