(* ===== verification/KmallocSys.v ===== *)
(** * Calls of the kernel heap

    What each section of kmalloc and kfree under the lock does to the heap, to
    the slots of page references and to the pages that the page allocator has
    given out.  Every page is accounted for: it is cut into blocks, holds page
    references, or is with a call or a client. *)

From S2P Require Import Prelude Kern Vm Kmalloc KmallocSpec KmallocRefs KmallocOps.
Open Scope Z_scope.

Module KmallocSys.
Import Kmalloc KmallocSpec KmallocRefs KmallocOps.

(** ** Who has which pages *)

Definition heap_pages (A : list pinfo) : list (Z * Z) := (fun pi => (p_page pi, 1)) <$> A.
Definition ref_page (x : kheap_root) : option (Z * Z) := if page x =? 0 then None else Some (page x, 1).
Definition ref_pages (rts : list kheap_root) : list (Z * Z) := omap ref_page rts.

Lemma heap_pages_in A pi : pi ∈ A -> (p_page pi, 1) ∈ heap_pages A.
Proof. intros H. unfold heap_pages. apply list_elem_of_fmap. eauto. Qed.
Lemma ref_pages_in rts r x : rts !! r = Some x -> page x <> 0 -> (page x, 1) ∈ ref_pages rts.
Proof.
  intros Hx Hp. unfold ref_pages. apply list_elem_of_omap. exists x. split; [by eapply list_elem_of_lookup_2|]. unfold ref_page. by destruct (Z.eqb_spec (page x) 0).
Qed.
Lemma ref_pages_same rts r x ws n : rts !! r = Some x -> ref_pages (<[r := Root (page x) ws n]> rts) = ref_pages rts.
Proof.
  intros Hx. rewrite (insert_take_drop _ _ _ (lookup_lt_Some _ _ _ Hx)). rewrite <- (take_drop_middle rts r x Hx) at 3. unfold ref_pages. rewrite !omap_app. done.
Qed.
Lemma ref_pages_new rts r x va ws n : rts !! r = Some x -> page x = 0 -> va <> 0 -> ref_pages (<[r := Root va ws n]> rts) ≡ₚ (va, 1) :: ref_pages rts.
Proof.
  intros Hx Hp Hv. rewrite (insert_take_drop _ _ _ (lookup_lt_Some _ _ _ Hx)). rewrite <- (take_drop_middle rts r x Hx) at 3. unfold ref_pages. rewrite !omap_app.
  assert (ref_page x = None) as E1 by (unfold ref_page; by rewrite Hp). assert (ref_page (Root va ws n) = Some (va, 1)) as E2 by (unfold ref_page; cbn; by destruct (Z.eqb_spec va 0)).
  cbn [omap list_omap]. rewrite E1, E2. by rewrite Permutation_middle.
Qed.

Lemma ref_pages_length rts : (length (ref_pages rts) <= length rts)%nat.
Proof. unfold ref_pages. induction rts as [|x rts IH]; [done|]. cbn. destruct (ref_page x); cbn; lia. Qed.

(** ** The state between two steps

    [sl] are the slots that calls hold, [ex] the pages that calls and clients
    have, [u] the pages that are given out. *)
Section Sys.
Context {Pg : Type} `{KPagesSpec Pg}.
Implicit Types (h : kheap Pg) (A : list pinfo) (sl : list (Z * Z)) (ex : list (Z * Z)) (u : gmap Z Z).

Record core h A sl ex u : Prop := {
  c_h : hinv h A;
  c_rts : rts_ok (kheaproots h);
  c_slots : NoDup ((p_slot <$> A) ++ sl);
  c_used : forall l, l ∈ sl -> slot_used (kheaproots h) l;
  c_pg : pg_inv (pages h) u;
  c_own : map_to_list u ≡ₚ heap_pages A ++ ref_pages (kheaproots h) ++ ex
}.

Lemma core_perm h A sl sl' ex ex' u : sl ≡ₚ sl' -> ex ≡ₚ ex' -> core h A sl ex u -> core h A sl' ex' u.
Proof.
  intros E1 E2 [C1 C2 C3 C4 C5 C6]. split; [done|done|by rewrite <- E1|intros l Hl; apply C4; by rewrite E1|done|by rewrite <- E2].
Qed.

Section Core.
Context {h A sl ex u} (C : core h A sl ex u).

Lemma own_in b n : (b, n) ∈ heap_pages A ++ ref_pages (kheaproots h) ++ ex -> u !! b = Some n.
Proof using C. intros Hin. apply elem_of_map_to_list. by rewrite (c_own _ _ _ _ _ C). Qed.
Lemma own_nodup : NoDup (heap_pages A ++ ref_pages (kheaproots h) ++ ex).*1.
Proof using C. rewrite <- (c_own _ _ _ _ _ C). apply NoDup_fst_map_to_list. Qed.
Lemma own_addr b : (b, 1) ∈ ex -> page_addr b.
Proof using C. intros Hin. eapply pg_range; [apply C|]. apply own_in. rewrite !elem_of_app. auto. Qed.
Lemma heap_apart b n pi : (b, n) ∈ ref_pages (kheaproots h) ++ ex -> pi ∈ A -> apart b n (p_page pi) 1.
Proof using C.
  intros Hin Hpi. pose proof (heap_pages_in A pi Hpi) as Hpg. eapply pg_apart; [apply C|apply own_in; rewrite elem_of_app; by right|apply own_in; rewrite elem_of_app; by left|].
  intros ->. pose proof own_nodup as Hnd. rewrite fmap_app in Hnd. apply NoDup_app in Hnd as (_ & Hd & _).
  apply (Hd (p_page pi)); [exact (list_elem_of_fmap_2 fst _ _ Hpg)|exact (list_elem_of_fmap_2 fst _ _ Hin)].
Qed.
Lemma ex_apart b n b' n' : (b, n) ∈ ref_pages (kheaproots h) -> (b', n') ∈ ex -> apart b n b' n'.
Proof using C.
  intros Hb Hb'. eapply pg_apart; [apply C|apply own_in; rewrite !elem_of_app; auto|apply own_in; rewrite !elem_of_app; auto|].
  intros ->. pose proof own_nodup as Hnd. rewrite !fmap_app in Hnd. apply NoDup_app in Hnd as (_ & _ & Hnd). apply NoDup_app in Hnd as (_ & Hd & _).
  apply (Hd b'); [exact (list_elem_of_fmap_2 fst _ _ Hb)|exact (list_elem_of_fmap_2 fst _ _ Hb')].
Qed.
End Core.

(** ** The page allocator *)

Definition with_pages h (p : Pg) : kheap Pg := Kheap (mem h) (refs h) (kheaproots h) (sizebases h) (allbase h) p.
Lemma hinv_pages h A p : hinv h A -> hinv (with_pages h p) A.
Proof. intros [H1 H2 H3 H4 H5 H6 H7 H8 H9]. by split. Qed.
Lemma core_pages h A sl ex ex' u u' p : core h A sl ex u -> pg_inv p u' ->
  (map_to_list u ≡ₚ heap_pages A ++ ref_pages (kheaproots h) ++ ex -> map_to_list u' ≡ₚ heap_pages A ++ ref_pages (kheaproots h) ++ ex') ->
  core (with_pages h p) A sl ex' u'.
Proof. intros [C1 C2 C3 C4 C5 C6] Hp Ho. split; [by apply hinv_pages|done|done|done|done|by apply Ho]. Qed.

Lemma wp_kpages (Q : Z -> kheap Pg -> Prop) h A sl ex u n : core h A sl ex u -> 1 <= n <= 2 ^ 19 ->
  (forall p, core (with_pages h p) A sl ex u -> Q 0 (with_pages h p)) ->
  (forall p va, in_kseg0 va n -> core (with_pages h p) A sl ((va, n) :: ex) (<[va := n]> u) -> Q va (with_pages h p)) -> wp (kpages n) Q h.
Proof.
  intros C Hn H1 H2. unfold wp, kpages. destruct (alloc_kpages n (pages h)) as [va p] eqn:E.
  destruct (alloc_spec _ _ _ _ _ (c_pg _ _ _ _ _ C) Hn E) as [[-> Hp]|(Hv & Hnew & Hp)].
  - apply H1. by eapply core_pages.
  - apply H2; [eapply pg_range; [exact Hp|apply lookup_insert_eq]|]. eapply core_pages; [exact C|done|]. intros Ho.
    rewrite map_to_list_insert by done. rewrite Ho. by rewrite !Permutation_middle.
Qed.
Lemma wp_give_kpages (Q : unit -> kheap Pg -> Prop) h A sl ex u va n : core h A sl ((va, n) :: ex) u ->
  (forall p, core (with_pages h p) A sl ex (delete va u) -> Q tt (with_pages h p)) -> wp (give_kpages va) Q h.
Proof.
  intros C HQ. unfold give_kpages. wpsimp. assert (u !! va = Some n) as Hu by (apply (own_in C); rewrite !elem_of_app, elem_of_cons; auto).
  apply HQ. eapply core_pages; [exact C|eapply free_spec; [apply C|exact Hu]|]. intros Ho. apply (Permutation_cons_inv (a := (va, n))).
  rewrite map_to_list_delete by done. rewrite Ho. by rewrite !Permutation_middle.
Qed.

(** ** Slots *)

Lemma hinv_roots h A rts : hinv h A -> length rts = 16%nat -> (forall r x, rts !! r = Some x -> root_ok x) ->
  (forall pi, pi ∈ A -> slot_ref rts (p_slot pi) (p_ref pi) /\ slot_used rts (p_slot pi)) -> hinv (with_roots h rts) A.
Proof. intros [H1 H2 H3 H4 H5 H6 H7 H8 H9] Hl Hr Hs. by split. Qed.

(** Reference pages stay. *)
Definition grows (rts rts' : list kheap_root) : Prop :=
  forall r x, rts !! r = Some x -> exists x', rts' !! r = Some x' /\ (page x <> 0 -> page x' = page x).
Lemma grows_refl rts : grows rts rts.
Proof. intros r x Hx. eauto. Qed.
Lemma grows_insert rts r x y : rts !! r = Some x -> (page x <> 0 -> page y = page x) -> grows rts (<[r := y]> rts).
Proof.
  intros Hx Hp r' x' Hx'. destruct (decide (r' = r)) as [->|]; [|exists x'; by rewrite list_lookup_insert_ne]. exists y.
  rewrite list_lookup_insert_eq by (by eapply lookup_lt_Some). split; [done|]. intros Hp'. rewrite Hx in Hx'. injection Hx' as <-. auto.
Qed.

(** Fewer than 256 slots are held or lost while a root has no page. *)
Definition no_full (rts : list kheap_root) : Prop := forall r x, rts !! r = Some x -> page x = 0 -> numinuse x < 256.

Lemma rts_ok_insert rts r x y : rts_ok rts -> rts !! r = Some x -> page y = page x ->
  (forall r' x', (r' < r)%nat -> rts !! r' = Some x' -> page x' <> 0) -> rts_ok (<[r := y]> rts).
Proof.
  intros [R1 R2] Hx Hp Hb. split; intros r1 r2 x1 x2 Hr [(E1 & F1 & _)|(Hn1 & H1)]%list_lookup_insert_Some [(E2 & F2 & _)|(Hn2 & H2)]%list_lookup_insert_Some;
    subst; rewrite ?Hp; [lia|eauto..|lia| |eauto|eauto].
  intros Hp2. by destruct (Hb _ _ Hr H2).
Qed.
Lemma slot_ref_insert rts r x y l p : rts !! r = Some x -> (page x <> 0 -> page y = page x) -> slot_ref rts l p -> slot_ref (<[r := y]> rts) l p.
Proof.
  intros Hx Hp (z & Hz & Hzp & E). destruct (grows_insert rts r x y Hx Hp _ _ Hz) as (z' & Hz' & Ep). exists z'. rewrite (Ep Hzp). done.
Qed.
Lemma slot_used_insert rts r x y l : rts !! r = Some x -> (bit (pagerefs_inuse x) l.2 = true -> Z.to_nat l.1 = r -> bit (pagerefs_inuse y) l.2 = true) ->
  slot_used rts l -> slot_used (<[r := y]> rts) l.
Proof.
  intros Hx Hb (H1 & H2 & z & Hz & Hzb). split; [done|]. split; [done|]. destruct (decide (Z.to_nat l.1 = r)) as [E|Hne]; [|exists z; by rewrite list_lookup_insert_ne].
  exists y. rewrite E. rewrite list_lookup_insert_eq by (by eapply lookup_lt_Some). split; [done|]. rewrite E, Hx in Hz. injection Hz as <-. by apply Hb.
Qed.
Lemma slot_held h A sl ex u l : core h A sl ex u -> l ∈ (p_slot <$> A) ++ sl -> slot_used (kheaproots h) l.
Proof. intros C [(pi & -> & Hpi)%list_elem_of_fmap|Hl]%elem_of_app; [by apply (c_h _ _ _ _ _ C)|by apply C]. Qed.

Lemma wp_alloc_slot (Q : option (Z * Z) -> kheap Pg -> Prop) h A sl ex u : core h A sl ex u -> no_full (kheaproots h) -> Q None h ->
  (forall r ix rts, core (with_roots h rts) A ((r, ix) :: sl) ex u -> grows (kheaproots h) rts -> Q (Some (r, ix)) (with_roots h rts)) -> wp allocpageref Q h.
Proof.
  intros C Hnf HN HQ. pose proof (c_h _ _ _ _ _ C) as Hh. apply wp_allocpageref; [apply Hh|done|]. intros r ix x ws Hx Hbefore Hix Hbit Hws Hok. set (y := Root _ _ _) in *.
  assert (forall l, slot_used (kheaproots h) l -> slot_used (<[r := y]> (kheaproots h)) l) as Hsu.
  { intros l Hl. eapply slot_used_insert; [done| |done]. intros Hb _. cbn. rewrite Hws by (destruct Hl; lia). by rewrite Hb. }
  pose proof (lookup_lt_Some _ _ _ Hx) as Hlt. apply HQ; [|by eapply grows_insert]. split.
  - apply hinv_roots; [done|rewrite length_insert; apply Hh| |].
    + intros r' x' Hx'. apply list_lookup_insert_Some in Hx' as [(-> & <- & _)|(_ & Hx')]; [done|by eapply h_root].
    + intros pi Hpi. destruct (h_slot _ _ Hh pi Hpi) as [S1 S2]. split; [by eapply slot_ref_insert|by apply Hsu].
  - eapply rts_ok_insert; [apply C|done|done|]. intros r' x' Hr' Hx' Hp. specialize (Hbefore r' x' Hr' Hx'). specialize (Hnf r' x' Hx' Hp). lia.
  - rewrite <- Permutation_middle. constructor; [|apply C]. intros Hin. destruct (slot_held _ _ _ _ _ _ C Hin) as (_ & _ & z & Hz & Hzb). cbn [fst snd] in *.
    rewrite Nat2Z.id, Hx in Hz. injection Hz as <-. congruence.
  - intros l [->|Hl]%elem_of_cons; [|by apply Hsu, C]. split; [cbn; lia|]. split; [done|]. exists y. cbn [with_roots kheaproots fst snd].
    rewrite Nat2Z.id, list_lookup_insert_eq by done. split; [done|]. cbn. rewrite Hws by lia. by rewrite Z.eqb_refl, orb_true_r.
  - apply C.
  - cbn [with_roots kheaproots]. unfold y. rewrite ref_pages_same by done. apply C.
Qed.

(** ** A page with a reference *)

(** Different slots are different references. *)
Lemma slot_ref_inj rts l l' p : rts_ok rts -> (forall r x, rts !! r = Some x -> root_ok x) -> slot_used rts l -> slot_used rts l' -> slot_ref rts l p -> slot_ref rts l' p -> l = l'.
Proof.
  intros [R1 _] Hok (L1 & L2 & _) (M1 & M2 & _) (x & Hx & Hp & ->) (x' & Hx' & Hp' & E). unfold SIZEOF_PAGEREF in E.
  destruct (r_page _ (Hok _ _ Hx)) as [|(A1 & _)]; [done|]. destruct (r_page _ (Hok _ _ Hx')) as [|(B1 & _)]; [done|].
  pose proof (Z.div_mod (page x) 4096 ltac:(lia)). pose proof (Z.div_mod (page x') 4096 ltac:(lia)). assert (page x = page x') as Ep by lia.
  destruct (decide (Z.to_nat l.1 = Z.to_nat l'.1)) as [Er|Hne]; [|by destruct (R1 _ _ _ _ Hne Hx Hx' Hp)]. destruct l, l'; cbn in *. f_equal; lia.
Qed.

Lemma last_block b o : is_type b -> is_block b o -> o <> (nblocks b - 1) * bsize b -> o ∈ desc (Z.to_nat (nblocks b - 1)) (bsize b).
Proof.
  intros Hb Ho Hne. destruct (block_mul b o Hb Ho) as (k & Hk & ->). apply desc_in. exists (Z.to_nat k). destruct (bsize_bounds b Hb) as (H1 & _). split; [|by rewrite Z2Nat.id by lia].
  assert (k <> nblocks b - 1) by (intros ->; done). lia.
Qed.

Lemma wp_with_ref (Q : kres -> kheap Pg -> Prop) h A r ix sl pg b ex u : core h A ((r, ix) :: sl) ((pg, 1) :: ex) u -> is_type b ->
  (core h A sl ((pg, 1) :: ex) u -> Q (Goes (FreePage pg)) h) ->
  (forall h' pr fs o, core h' (PInfo pr (r, ix) pg b fs :: A) sl ex u -> is_block b o -> o ∉ fs -> (forall o', is_block b o' -> o' <> o -> o' ∈ fs) ->
     outside pg 4096 (mem h) (mem h') -> kheaproots h' = kheaproots h -> Q (Return (pg + o)) h') -> wp (with_ref b pg r ix) Q h.
Proof.
  intros C Hb HN HQ. pose proof (c_h _ _ _ _ _ C) as Hh. destruct (c_used _ _ _ _ _ C (r, ix)) as (U1 & U2 & x & Hx & Ub); [left|]. cbn [fst snd] in *.
  assert (page_addr pg) as Hpg by (apply (own_addr C); left). destruct (bsize_bounds b Hb) as (B1 & B2 & B3 & B4).
  pose proof (c_slots _ _ _ _ _ C) as Hnd. rewrite <- Permutation_middle in Hnd. apply NoDup_cons in Hnd as [Hnew Hnd].
  unfold with_ref, get_root. wpsimp. exists x. split; [done|]. destruct (Z.eqb_spec (page x) 0) as [Hp|Hp]; wpsimp.
  { apply HN. destruct C. split; [done..| |done|done]. intros l Hl. apply c_used0. by right. }
  set (pr := page x + ix * SIZEOF_PAGEREF). assert (slot_ref (kheaproots h) (r, ix) pr) as Hsr by (by exists x).
  assert (slot_used (kheaproots h) (r, ix)) as Hsu by (apply C; left).
  assert (forall pi, pi ∈ A -> p_page pi + 4096 <= pg \/ pg + 4096 <= p_page pi) as Hap.
  { intros pi Hpi. destruct (heap_apart C pg 1 pi); [rewrite elem_of_app, elem_of_cons; auto|done|lia..]. }
  apply wp_new_page; [done|done|apply Hh|]. intros m fs o Efs Hch Hm. subst o. wpsimp. apply (HQ _ pr fs).
  - split; cbn [kheaproots pages p_slot fmap list_fmap]; [|apply C|by constructor|intros l Hl; apply C; by right|apply C|].
    + apply hinv_add; [done|..|done|done|done|done| | |done|rewrite Efs, desc_length; lia|].
      * destruct (r_page _ (h_root _ _ Hh _ _ Hx)) as [|Ha]; [done|]. pose proof (page_addr_pos _ Ha). unfold pr, SIZEOF_PAGEREF. lia.
      * intros (q & E & Hq)%list_elem_of_fmap. destruct (h_slot _ _ Hh q Hq) as [S1 S2]. rewrite <- E in S1. apply Hnew. rewrite elem_of_app. left. apply list_elem_of_fmap. exists q.
        split; [|done]. eapply slot_ref_inj; [apply C|apply Hh|done..].
      * intros (q & E & Hq)%list_elem_of_fmap. destruct (Hap q Hq); lia.
      * rewrite Efs. apply desc_nodup. lia.
      * intros o. rewrite Efs. apply desc_blocks; [done|lia].
      * intros q a Hq Ha. apply Hm. destruct (Hap q Hq); lia.
    + rewrite (c_own _ _ _ _ _ C). unfold heap_pages. cbn [fmap list_fmap p_page]. by rewrite <- !Permutation_middle.
  - apply mul_block; [done|lia].
  - rewrite Efs. intros (k & Hk & E)%desc_in. assert (Z.of_nat k = nblocks b - 1) by nia. lia.
  - intros o' Ho' Hne. rewrite Efs. by apply last_block.
  - exact Hm.
  - done.
Qed.

(** A root gets its page. *)
Lemma core_root h A sl ex u va r ix x : core h A sl ((va, 1) :: ex) u -> (r, ix) ∈ sl -> kheaproots h !! Z.to_nat r = Some x -> page x = 0 ->
  core (with_roots h (<[Z.to_nat r := Root va (pagerefs_inuse x) (numinuse x)]> (kheaproots h))) A sl ex u.
Proof.
  intros C Hl Hx Hp. pose proof (c_h _ _ _ _ _ C) as Hh. destruct (c_used _ _ _ _ _ C _ Hl) as (U1 & U2 & x' & Hx' & Ub). cbn [fst snd] in *. rewrite Hx in Hx'. injection Hx' as <-.
  assert (page_addr va) as Hva by (apply (own_addr C); left). pose proof (page_addr_pos _ Hva) as (Hpos & _). set (y := Root _ _ _).
  assert (0 < numinuse x) as Hnum.
  { rewrite (r_num _ (h_root _ _ Hh _ _ Hx)). pose proof (used_some _ _ Ub U2). lia. }
  assert (forall l, slot_used (kheaproots h) l -> slot_used (<[Z.to_nat r := y]> (kheaproots h)) l) as Hsu by (intros l; by eapply slot_used_insert).
  assert (forall r' z, kheaproots h !! r' = Some z -> page z <> va) as Hfresh.
  { intros r' z Hz E. destruct (ex_apart C (page z) 1 va 1); [apply (ref_pages_in _ r' z Hz); lia|left|lia..]. }
  split; cbn [with_roots kheaproots pages].
  - apply hinv_roots; [done|rewrite length_insert; apply Hh| |].
    + intros r' z [(_ & <- & _)|(_ & Hz)]%list_lookup_insert_Some; [|by eapply h_root]. destruct (h_root _ _ Hh _ _ Hx). split; [done..|by right].
    + intros pi Hpi. destruct (h_slot _ _ Hh pi Hpi) as [S1 S2]. split; [by eapply slot_ref_insert|by apply Hsu].
  - destruct (c_rts _ _ _ _ _ C) as [R1 R2]. split; intros r1 r2 x1 x2 Hr [(E1 & F1 & _)|(Hn1 & H1)]%list_lookup_insert_Some [(E2 & F2 & _)|(Hn2 & H2)]%list_lookup_insert_Some; subst; cbn [page y].
    + lia.
    + intros _. apply not_eq_sym. by eapply Hfresh.
    + intros _. by eapply Hfresh.
    + eauto.
    + lia.
    + intros Hp2. destruct (R2 _ _ _ _ Hr Hx H2 Hp2). lia.
    + lia.
    + eauto.
  - apply C.
  - intros l Hin. by apply Hsu, C.
  - apply C.
  - unfold y. rewrite (ref_pages_new _ _ _ _ _ _ Hx Hp) by lia. rewrite (c_own _ _ _ _ _ C). by rewrite <- Permutation_middle.
Qed.

(** ** Blocks *)

Lemma wp_blocktype (Q : Z -> kheap Pg -> Prop) h sz : 0 <= sz < 2048 ->
  (forall b, is_type b -> sz <= bsize b -> (b = 0 \/ bsize (b - 1) < sz) -> Q b h) -> wp (blocktype sz) Q h.
Proof.
  intros Hsz HQ. unfold blocktype, sizes. cbn [blocktype_loop].
  repeat (match goal with |- context [?a <=? ?b] => destruct (Z.leb_spec a b) end; [wpsimp; apply HQ; [unfold is_type; lia|assumption|first [left; reflexivity|right; assumption]]|]). lia.
Qed.

(** The free blocks of one page change. *)
Lemma core_swap h h' A1 pi A2 fs sl ex u : core h (A1 ++ pi :: A2) sl ex u -> hinv h' (A1 ++ PInfo (p_ref pi) (p_slot pi) (p_page pi) (p_type pi) fs :: A2) ->
  kheaproots h' = kheaproots h -> pages h' = pages h -> core h' (A1 ++ PInfo (p_ref pi) (p_slot pi) (p_page pi) (p_type pi) fs :: A2) sl ex u.
Proof.
  intros [C1 C2 C3 C4 C5 C6] Hh Er Ep. split; [done|by rewrite Er| |intros l Hl; rewrite Er; by apply C4|by rewrite Ep|].
  - rewrite fmap_app, fmap_cons in *. done.
  - rewrite Er, C6. unfold heap_pages. rewrite !fmap_app, !fmap_cons. done.
Qed.

Lemma wp_subpage_kmalloc (Q : kres -> kheap Pg -> Prop) h A sl ex u sz : core h A sl ex u -> 0 <= sz < 2048 ->
  (forall A1 pi A2 o fs h', A = A1 ++ pi :: A2 -> p_free pi = o :: fs -> sz <= bsize (p_type pi) ->
     core h' (A1 ++ PInfo (p_ref pi) (p_slot pi) (p_page pi) (p_type pi) fs :: A2) sl ex u -> mem h' = mem h -> kheaproots h' = kheaproots h -> Q (Return (p_page pi + o)) h') ->
  (forall b, is_type b -> sz <= bsize b -> (forall pi, pi ∈ A -> p_type pi = b -> p_free pi = []) -> Q (Goes (NeedPage b)) h) -> wp (subpage_kmalloc sz) Q h.
Proof.
  intros C Hsz HR HG. pose proof (c_h _ _ _ _ _ C) as Hh. unfold subpage_kmalloc. wpsimp. apply wp_blocktype; [done|]. intros b Hb Hle _. wpsimp.
  pose proof (linked_length _ _ _ _ (h_same _ _ Hh b Hb) (type_refs_nodup b A (h_refs _ _ Hh))) as Hlen. rewrite length_fmap in Hlen.
  eapply (wp_find_page _ h b (of_type b A)); [done|by apply Hh| |done| |].
  - intros pi [Ht Hpi]%list_elem_of_filter. split; [by apply Hh|done].
  - intros pi [Ht Hpi]%list_elem_of_filter Hfree. destruct (linked_in _ _ _ _ (p_ref pi) (h_all _ _ Hh)) as (Hne & _); [by apply list_elem_of_fmap_2|].
    destruct (Z.eqb_spec (p_ref pi) 0); [done|]. cbn [negb]. wpsimp. destruct (h_page _ _ Hh pi Hpi) as [T Ad Nd Bl Ch So (ns & na & Hx)].
    destruct (p_free pi) as [|o fs] eqn:Ef; [done|]. apply list_elem_of_split in Hpi as (A1 & A2 & ->). destruct (bsize_bounds _ T) as (_ & _ & _ & B4).
    eapply (wp_doalloc _ h); [exact Ad|exact T|exact Bl|exact Ch|lia|exact Hx|]. wpsimp. apply (HR A1 pi A2 o fs); [done|done|by rewrite Ht| |done|done].
    apply NoDup_cons in Nd as [_ Nd]. eapply core_swap; [exact C| |done|done]. destruct h. eapply (hinv_page _ A1 pi A2 _ fs ns na); [done|exact Hx|done| |apply Ch|cbn [length] in So; lia|done].
    intros o' Ho'. apply Bl. by right.
  - intros Hfull. cbn [negb Z.eqb]. wpsimp. apply HG; [done|done|]. intros pi Hpi Ht. apply Hfull. by apply list_elem_of_filter.
Qed.

(** ** Freeing *)

Lemma nodup_mid {B} (l1 l2 l3 : list B) x : NoDup ((l1 ++ x :: l2) ++ l3) -> NoDup ((l1 ++ l2) ++ l3) /\ x ∉ (l1 ++ l2) ++ l3.
Proof. rewrite <- !app_assoc, <- app_comm_cons, <- Permutation_middle. intros [H1 H2]%NoDup_cons. done. Qed.

(** A page goes from the heap to the call. *)
Lemma core_drop h h' A1 pi A2 sl ex u z ws : core h (A1 ++ pi :: A2) sl ex u -> kheaproots h !! Z.to_nat (p_slot pi).1 = Some z ->
  kheaproots h' = <[Z.to_nat (p_slot pi).1 := Root (page z) ws (numinuse z - 1)]> (kheaproots h) ->
  (forall k, 0 <= k -> bit ws k = bit (pagerefs_inuse z) k && negb (k =? (p_slot pi).2)) -> pages h' = pages h -> hinv h' (A1 ++ A2) ->
  core h' (A1 ++ A2) sl ((p_page pi, 1) :: ex) u.
Proof.
  intros C Hz Er Hws Ep Hh'. pose proof (c_slots _ _ _ _ _ C) as Hnd. rewrite fmap_app, fmap_cons in Hnd. apply nodup_mid in Hnd as [Hnd Hnew]. rewrite <- fmap_app in Hnd, Hnew.
  destruct (h_slot _ _ (c_h _ _ _ _ _ C) pi) as [(z' & Hz' & Hp & _) _]; [apply elem_of_app; right; left|]. assert (z' = z) as -> by congruence.
  split; [done|..].
  - rewrite Er. eapply rts_ok_insert; [apply C|exact Hz|done|]. intros r' x' Hr Hx' E. destruct (proj2 (c_rts _ _ _ _ _ C) _ _ _ _ Hr Hz Hx' E). done.
  - done.
  - intros l Hl. pose proof (c_used _ _ _ _ _ C l Hl) as Hu. rewrite Er. eapply slot_used_insert; [exact Hz| |exact Hu]. intros Hb El. cbn. destruct Hu as (U1 & U2 & _). rewrite Hws by lia.
    rewrite Hb. cbn. apply negb_true_iff, Z.eqb_neq. intros E. apply Hnew. apply elem_of_app. right. replace (p_slot pi) with l; [done|].
    destruct (h_slot _ _ (c_h _ _ _ _ _ C) pi) as [_ (V1 & _)]; [apply elem_of_app; right; left|]. destruct l as [l1 l2], (p_slot pi) as [s1 s2]. cbn in *. apply (f_equal2 pair); [apply Z2Nat.inj; lia|done].
  - rewrite Ep. apply C.
  - rewrite Er, ref_pages_same by done. rewrite (c_own _ _ _ _ _ C). unfold heap_pages. rewrite !fmap_app, !fmap_cons, <- !app_assoc, <- app_comm_cons. by rewrite !Permutation_middle.
Qed.

Lemma wp_kfree (Q : kres -> kheap Pg -> Prop) h A sl ex u ptr : core h A sl ex u -> ptr <> 0 ->
  (forall pi, pi ∈ A -> p_page pi <= ptr < p_page pi + 4096 -> is_block (p_type pi) (ptr - p_page pi) /\ ptr - p_page pi ∉ p_free pi) ->
  ((forall pi, pi ∈ A -> ~ (p_page pi <= ptr < p_page pi + 4096)) -> ptr mod 4096 = 0 /\ Q (Goes (FreePage ptr)) h) ->
  (forall A1 pi A2 h', A = A1 ++ pi :: A2 -> p_page pi <= ptr < p_page pi + 4096 -> outside ptr (bsize (p_type pi)) (mem h) (mem h') -> kheaproots h' = kheaproots h ->
     core h' (A1 ++ PInfo (p_ref pi) (p_slot pi) (p_page pi) (p_type pi) ((ptr - p_page pi) :: p_free pi) :: A2) sl ex u -> Q (Return 0) h') ->
  (forall A1 pi A2 h', A = A1 ++ pi :: A2 -> p_page pi <= ptr < p_page pi + 4096 -> Z.of_nat (length (ptr - p_page pi :: p_free pi)) = nblocks (p_type pi) ->
     outside ptr (bsize (p_type pi)) (mem h) (mem h') -> grows (kheaproots h) (kheaproots h') ->
     core h' (A1 ++ A2) sl ((p_page pi, 1) :: ex) u -> Q (Goes (FreePage (p_page pi))) h') ->
  wp (kfree ptr) Q h.
Proof.
  intros C Hp Hb H1 H2 H3. unfold kfree. destruct (Z.eqb_spec ptr 0); [done|]. wpsimp. eapply wp_subpage_kfree; [apply C|apply C|exact Hb|..].
  - intros Hno. destruct (H1 Hno) as [Hm HQ]. wpsimp. split; [by apply Z.eqb_eq|done].
  - intros A1 pi A2 h' -> Hin Ho Er Ep Hh'. wpsimp. eapply H2; [done|done|done|done|]. by eapply core_swap.
  - intros A1 pi A2 h' r z ws -> Hin Hfull Ho Ep -> Hz Er Hws Hh'. wpsimp. eapply H3; [done|done|done|done| |by eapply core_drop]. rewrite Er. by eapply grows_insert.
Qed.
End Sys.
End KmallocSys.
