(* ===== verification/KmallocProps.v ===== *)
(** * The kernel heap in use

    Threads call kmalloc and kfree, their calls interleave wherever the lock is
    free, and clients write to their blocks.  Seen from outside the heap is a set
    of blocks with their contents. *)

From S2P Require Import Prelude Kern Vm VmSpec Kmalloc KmallocSpec KmallocRefs KmallocOps KmallocSys.
Open Scope Z_scope.

Module KmallocProps.
Import Kmalloc KmallocSpec KmallocRefs KmallocOps KmallocSys.

(** ** The system *)

(** The calls under way, with the size that is asked for or was given back, and
    the blocks that clients have, with their sizes. *)
Record sys (Pg : Type) := Sys { heap : kheap Pg; pend : gmap Z (Z * kpc); live : gmap Z Z }.
Arguments Sys {Pg}.
Arguments heap {Pg}.
Arguments pend {Pg}.
Arguments live {Pg}.

(** Thread [t] calls kmalloc or kfree, a call goes on to the next release of the
    lock, or a client writes word [i] of its block. *)
Inductive kop : Type := Malloc (t sz : Z) | Free (t ptr : Z) | Go (t : Z) | Write (ptr i v : Z).

Definition words (sz : Z) : Z := (sz + 3) / 4.
Definition npages (sz : Z) : Z := if sz <? 2048 then 1 else (sz + 4095) / 4096.

Section Run.
Context {Pg : Type} `{KPages Pg}.
Implicit Types (x : sys Pg).

Definition on_heap {A} (m : M (kheap Pg) A) : M (sys Pg) A := fun x =>
  match m (heap x) with Ok a h => Ok a (Sys h (pend x) (live x)) | Fault f => Fault f end.
Definition settle (t sz : Z) (r : kres) x : sys Pg :=
  match r with
  | Return p => Sys (heap x) (delete t (pend x)) (if p =? 0 then live x else <[p := sz]> (live x))
  | Goes pc => Sys (heap x) (<[t := (sz, pc)]> (pend x)) (live x)
  end.
Definition run_kop (o : kop) : M (sys Pg) unit :=
  match o with
  | Malloc t sz => r ← on_heap (kmalloc sz); modify (settle t sz r)
  | Free t ptr =>
      x ← get;
      modify (fun x => Sys (heap x) (pend x) (delete ptr (live x))) ;;
      r ← on_heap (kfree ptr);
      modify (settle t (default 0 (live x !! ptr)) r)
  | Go t =>
      x ← get;
      p ← deref FBlocked (pend x !! t);
      r ← on_heap (resume p.2);
      modify (settle t p.1 r)
  | Write ptr i v => on_heap (store (ptr + 4 * i) v)
  end.

(** What callers keep to.  A call is not made before the thread's last one has
    returned; a block is freed or written to by those who have it. *)
Definition allowed (o : kop) x : Prop :=
  match o with
  | Malloc t sz => pend x !! t = None /\ 0 <= sz <= 2 ^ 31
  | Free t ptr => pend x !! t = None /\ (ptr = 0 \/ is_Some (live x !! ptr))
  | Go t => exists sz pc, pend x !! t = Some (sz, pc) /\ (forall b p, pc = HavePage b p -> no_full (kheaproots (heap x)))
  | Write ptr i v => exists sz, live x !! ptr = Some sz /\ 0 <= i < words sz
  end.

Definition boot (p : Pg) : sys Pg :=
  Sys (Kheap ∅ ∅ (replicate 16 (Root 0 (replicate 8 0) 0)) (replicate 8 0) 0 p) ∅ ∅.

(** ** The blocks with their contents, and what a step may do to them *)

Definition contents (m : gmap Z Z) (p sz : Z) : list Z := (fun i => word m (p + 4 * i)) <$> seqZ 0 (words sz).
Definition blocks (m L : gmap Z Z) : gmap Z (Z * list Z) := map_imap (fun p sz => Some (sz, contents m p sz)) L.
Definition view x : gmap Z (Z * list Z) := blocks (mem (heap x)) (live x).

Definition free_of (p n : Z) (B : gmap Z (Z * list Z)) : Prop :=
  forall p' sz' ws', B !! p' = Some (sz', ws') -> p <> p' /\ (p + n <= p' \/ p' + 4 * words sz' <= p).

(** [want]: the size that the call asks for *)
Definition want (o : kop) x : option Z :=
  match o with Malloc _ sz => Some sz | Go t => fst <$> pend x !! t | _ => None end.
Inductive astep (w : option Z) : kop -> gmap Z (Z * list Z) -> gmap Z (Z * list Z) -> Prop :=
| a_malloc t sz B : astep w (Malloc t sz) B B
| a_go t B : astep w (Go t) B B
| a_new o B p sz ws : w = Some sz -> free_of p (4 * words sz) B -> p mod 16 = 0 -> 0x80000000 <= p -> p + 4 * words sz <= 0xa0000000 ->
    length ws = Z.to_nat (words sz) -> astep w o B (<[p := (sz, ws)]> B)
| a_free t p B : astep w (Free t p) B (delete p B)
| a_write p i v B sz ws : B !! p = Some (sz, ws) -> 0 <= i < words sz -> astep w (Write p i v) B (<[p := (sz, <[Z.to_nat i := v]> ws)]> B).

(** The steps that a call may still take. *)
Definition rank (pc : kpc) : nat :=
  match pc with NeedPage _ => 6 | HavePage _ _ => 5 | NeedRefPage _ _ _ _ => 4 | HaveRefPage _ _ _ _ _ => 3 | SpareRefPage _ _ _ _ _ => 2 | FreePage _ => 1 end.
Definition steps_left x (t : Z) : nat := match pend x !! t with Some (_, pc) => rank pc | None => 0 end.
End Run.

Inductive kreach {Pg : Type} `{KPagesSpec Pg} : sys Pg -> Prop :=
| k_boot p : pg_inv p ∅ -> kreach (boot p)
| k_step x o x' : kreach x -> allowed o x -> run_kop o x = Ok tt x' -> kreach x'.

(** ** The invariant *)

Definition flat {V B} (f : Z -> V -> list B) (m : gmap Z V) : list B := map_to_list m ≫= fun kv => f kv.1 kv.2.
Lemma flat_insert {V B} (f : Z -> V -> list B) m k v : m !! k = None -> flat f (<[k := v]> m) ≡ₚ f k v ++ flat f m.
Proof. intros Hk. unfold flat. rewrite map_to_list_insert by done. done. Qed.
Lemma flat_delete {V B} (f : Z -> V -> list B) m k v : m !! k = Some v -> flat f m ≡ₚ f k v ++ flat f (delete k m).
Proof. intros Hk. rewrite <- flat_insert by apply lookup_delete_eq. by rewrite insert_delete_id. Qed.
Lemma flat_in {V B} (f : Z -> V -> list B) m k v b : m !! k = Some v -> b ∈ f k v -> b ∈ flat f m.
Proof. intros Hk Hb. rewrite (flat_delete _ _ _ _ Hk). apply elem_of_app. by left. Qed.

Definition pc_slots (pc : kpc) : list (Z * Z) :=
  match pc with NeedRefPage _ _ r ix | HaveRefPage _ _ r ix _ | SpareRefPage _ _ r ix _ => [(r, ix)] | _ => [] end.
Definition pc_pages (sz : Z) (pc : kpc) : list (Z * Z) :=
  match pc with
  | NeedPage _ => []
  | HavePage _ p | NeedRefPage _ p _ _ => [(p, 1)]
  | HaveRefPage _ p _ _ va => (p, 1) :: (if va =? 0 then [] else [(va, 1)])
  | SpareRefPage _ p _ _ va => [(va, 1); (p, 1)]
  | FreePage va => [(va, npages sz)]
  end.
Definition type_ok (sz b : Z) : Prop := is_type b /\ 0 <= sz < 2048 /\ sz <= bsize b.
Definition pc_ok (rts : list kheap_root) (sz : Z) (pc : kpc) : Prop :=
  match pc with
  | NeedPage b | HavePage b _ | NeedRefPage b _ _ _ | HaveRefPage b _ _ _ _ => type_ok sz b
  | SpareRefPage b _ r _ _ => type_ok sz b /\ exists z, rts !! Z.to_nat r = Some z /\ page z <> 0
  | FreePage _ => True
  end.

Definition slots_of (_ : Z) (p : Z * kpc) : list (Z * Z) := pc_slots p.2.
Definition pages_of (_ : Z) (p : Z * kpc) : list (Z * Z) := pc_pages p.1 p.2.
Definition bigs (p sz : Z) : list (Z * Z) := if sz <? 2048 then [] else [(p, npages sz)].

(** The blocks that are in use are those that clients have. *)
Record lives (A : list pinfo) (L : gmap Z Z) : Prop := {
  l_small : forall p sz, L !! p = Some sz -> sz < 2048 -> exists pi, pi ∈ A /\ is_block (p_type pi) (p - p_page pi) /\ (p - p_page pi ∉ p_free pi) /\ sz <= bsize (p_type pi);
  l_block : forall pi o, pi ∈ A -> is_block (p_type pi) o -> o ∉ p_free pi -> exists sz, L !! (p_page pi + o) = Some sz /\ sz < 2048;
  l_size : forall p sz, L !! p = Some sz -> 0 <= sz <= 2 ^ 31
}.

Record kinv {Pg : Type} `{KPagesSpec Pg} (x : sys Pg) (A : list pinfo) (u : gmap Z Z) : Prop := {
  k_core : core (heap x) A (flat slots_of (pend x)) (flat pages_of (pend x) ++ flat bigs (live x)) u;
  k_live : lives A (live x);
  k_pend : forall t sz pc, pend x !! t = Some (sz, pc) -> pc_ok (kheaproots (heap x)) sz pc
}.

(** ** Blocks are apart *)

(** A block in use and its extent. *)
Inductive owner (A : list pinfo) (L : gmap Z Z) : Z -> Z -> Prop :=
| o_small pi o : pi ∈ A -> is_block (p_type pi) o -> o ∉ p_free pi -> owner A L (p_page pi + o) (bsize (p_type pi))
| o_big p sz : L !! p = Some sz -> 2048 <= sz -> owner A L p (npages sz * 4096).

Lemma align_16 p o : p mod 4096 = 0 -> o mod 16 = 0 -> (p + o) mod 16 = 0.
Proof. intros H1 H2. Z.to_euclidean_division_equations. lia. Qed.
Lemma words_le sz n : 0 <= sz -> sz <= n -> n mod 4 = 0 -> 4 * words sz <= n.
Proof. intros H1 H2 H3. unfold words. pose proof (Z.div_mod n 4 ltac:(lia)). pose proof (Z.mul_div_le (sz + 3) 4 ltac:(lia)). assert ((sz + 3) / 4 < n / 4 + 1) by (apply Z.div_lt_upper_bound; lia). lia. Qed.
Lemma npages_big sz : 2048 <= sz <= 2 ^ 31 -> npages sz = (sz + 4095) / 4096 /\ 1 <= npages sz <= 2 ^ 19 /\ sz <= npages sz * 4096.
Proof.
  intros Hsz. unfold npages. destruct (Z.ltb_spec sz 2048); [lia|]. pose proof (Z.div_mod (sz + 4095) 4096 ltac:(lia)). pose proof (Z.mod_pos_bound (sz + 4095) 4096 ltac:(lia)).
  split; [done|]. change (2 ^ 31) with 2147483648 in *. change (2 ^ 19) with 524288. lia.
Qed.
Lemma live_owner A L p sz : lives A L -> (forall pi, pi ∈ A -> is_type (p_type pi)) -> L !! p = Some sz -> exists e, owner A L p e /\ 4 * words sz <= e.
Proof.
  intros HL HT Hp. pose proof (l_size _ _ HL _ _ Hp) as Hsz. destruct (decide (sz < 2048)) as [Hs|Hs].
  - destruct (l_small _ _ HL _ _ Hp Hs) as (pi & Hpi & Hb & Hf & Hle). exists (bsize (p_type pi)). split; [replace p with (p_page pi + (p - p_page pi)) by lia; by constructor|].
    destruct (bsize_bounds _ (HT pi Hpi)) as (_ & B2 & _). apply words_le; [lia|done|]. pose proof (Z.div_mod (bsize (p_type pi)) 16 ltac:(lia)).
    replace (bsize (p_type pi)) with (4 * (bsize (p_type pi) / 16) * 4) by lia. apply Z_mod_mult.
  - destruct (npages_big sz ltac:(lia)) as (_ & _ & Hn). exists (npages sz * 4096). split; [constructor; [done|lia]|]. apply words_le; [lia|lia|].
    replace (npages sz * 4096) with (npages sz * 1024 * 4) by lia. apply Z_mod_mult.
Qed.

Section Apart.
Context {Pg : Type} `{KPagesSpec Pg}.
Context {h : kheap Pg} {A : list pinfo} {sl ex : list (Z * Z)} {u L : gmap Z Z} (C : core h A sl (ex ++ flat bigs L) u).

Lemma heap_types pi : pi ∈ A -> is_type (p_type pi).
Proof using C. intros Hpi. apply (h_page _ _ (c_h _ _ _ _ _ C) pi Hpi). Qed.
Lemma big_in p sz : L !! p = Some sz -> 2048 <= sz -> (p, npages sz) ∈ flat bigs L.
Proof using. intros Hp Hsz. eapply flat_in; [exact Hp|]. unfold bigs. destruct (Z.ltb_spec sz 2048); [lia|left]. Qed.

(** The pages of a block. *)
Lemma owner_pages p e : owner A L p e -> exists b n, (b, n) ∈ heap_pages A ++ flat bigs L /\ b <= p /\ p + e <= b + n * 4096 /\ in_kseg0 b n /\ p mod 16 = 0.
Proof using C.
  intros [pi o Hpi Hb _|q sz Hq Hsz].
  - pose proof (heap_types pi Hpi) as T. pose proof (block_in _ _ T Hb). pose proof (block_align _ _ T Hb). pose proof (pg_addr _ _ _ (h_page _ _ (c_h _ _ _ _ _ C) pi Hpi)) as Ha.
    exists (p_page pi), 1. split; [apply elem_of_app; left; by apply heap_pages_in|]. destruct Hb as [Hb _]. split; [lia|]. split; [lia|]. split; [done|].
    destruct Ha as (Ha & _). by apply align_16.
  - pose proof (big_in q sz Hq Hsz) as Hin. assert (in_kseg0 q (npages sz)) as Hk by (eapply pg_range; [apply C|apply (own_in C); rewrite !elem_of_app; auto]).
    exists q, (npages sz). split; [apply elem_of_app; by right|]. split; [lia|]. split; [lia|]. split; [done|]. destruct Hk as (Hk & _).
    rewrite <- (Z.add_0_r q). by apply align_16.
Qed.

Lemma owner_apart p e p' e' : owner A L p e -> owner A L p' e' -> p <> p' -> p + e <= p' \/ p' + e' <= p.
Proof using C.
  assert (forall pi o q sz, pi ∈ A -> is_block (p_type pi) o -> L !! q = Some sz -> 2048 <= sz ->
    p_page pi + o + bsize (p_type pi) <= q \/ q + npages sz * 4096 <= p_page pi + o) as Hmix.
  { intros pi o q sz Hpi Hb Hq Hsz. pose proof (block_in _ _ (heap_types pi Hpi) Hb). destruct Hb as [Hb _].
    destruct (heap_apart C q (npages sz) pi) as [?|?]; [rewrite !elem_of_app; right; right; by apply big_in|done|lia..]. }
  intros [pi o Hpi Hb Hf|q sz Hq Hsz] [pi' o' Hpi' Hb' Hf'|q' sz' Hq' Hsz'] Hne.
  - destruct (decide (p_page pi = p_page pi')) as [E|Hn].
    + assert (pi = pi') as <- by (eapply (fmap_unique p_page A); [apply (c_h _ _ _ _ _ C)|done..]). destruct (block_apart _ o o' (heap_types pi Hpi) Hb Hb'); lia.
    + pose proof (block_in _ _ (heap_types pi Hpi) Hb). pose proof (block_in _ _ (heap_types pi' Hpi') Hb'). destruct Hb as [Hb _], Hb' as [Hb' _].
      assert (apart (p_page pi) 1 (p_page pi') 1) as [?|?]; [|lia..].
      eapply pg_apart; [apply C|apply (own_in C), elem_of_app; left; by apply heap_pages_in|apply (own_in C), elem_of_app; left; by apply heap_pages_in|done].
  - by apply Hmix.
  - destruct (Hmix pi' o' q sz Hpi' Hb' Hq Hsz); lia.
  - eapply pg_apart; [apply C|apply (own_in C); rewrite !elem_of_app; right; right; right; by apply big_in..|done].
Qed.

(** An address is on one page. *)
Lemma same_page pi pi' p : pi ∈ A -> pi' ∈ A -> p_page pi <= p < p_page pi + 4096 -> p_page pi' <= p < p_page pi' + 4096 -> pi = pi'.
Proof using C.
  intros Hpi Hpi' H1 H2. eapply (fmap_unique p_page A); [apply (c_h _ _ _ _ _ C)|done|done|].
  destruct (pg_addr _ _ _ (h_page _ _ (c_h _ _ _ _ _ C) pi Hpi)) as (M1 & _), (pg_addr _ _ _ (h_page _ _ (c_h _ _ _ _ _ C) pi' Hpi')) as (M2 & _).
  Z.to_euclidean_division_equations. lia.
Qed.
(** A client's address on a heap page is a block in use there. *)
Lemma live_here pi p sz : lives A L -> pi ∈ A -> p_page pi <= p < p_page pi + 4096 -> L !! p = Some sz ->
  sz < 2048 /\ is_block (p_type pi) (p - p_page pi) /\ (p - p_page pi ∉ p_free pi) /\ sz <= bsize (p_type pi).
Proof using C.
  intros HL Hpi Hin Hp. pose proof (l_size _ _ HL _ _ Hp) as Hsz. destruct (decide (sz < 2048)) as [Hs|Hs].
  - destruct (l_small _ _ HL _ _ Hp Hs) as (q & Hq & Hb & Hf & Hle). assert (pi = q) as <- by (eapply same_page; [done|done|done|destruct Hb; lia]). done.
  - destruct (npages_big sz ltac:(lia)) as (_ & Hn & _).
    destruct (heap_apart C p (npages sz) pi) as [?|?]; [rewrite !elem_of_app; right; right; apply big_in; [done|lia]|done|lia..].
Qed.
End Apart.

(** ** Blocks come and go *)

Lemma lives_take A1 pi A2 o fs L sz : lives (A1 ++ pi :: A2) L -> p_free pi = o :: fs -> NoDup (p_free pi) -> is_block (p_type pi) o -> L !! (p_page pi + o) = None ->
  0 <= sz < 2048 -> sz <= bsize (p_type pi) -> lives (A1 ++ PInfo (p_ref pi) (p_slot pi) (p_page pi) (p_type pi) fs :: A2) (<[p_page pi + o := sz]> L).
Proof.
  intros [L1 L2 L3] Ef Hnd Hb Hnew Hsz Hle. rewrite Ef in Hnd. apply NoDup_cons in Hnd as [Hof _]. set (pi' := PInfo _ _ _ _ _).
  assert (pi' ∈ A1 ++ pi' :: A2) as Hin' by (apply elem_of_app; right; left). split.
  - intros p z [[<- <-]|[Hne Hp]]%lookup_insert_Some Hz.
    + exists pi'. cbn [p_type p_page p_free pi']. replace (p_page pi + o - p_page pi) with o by lia. done.
    + destruct (L1 p z Hp Hz) as (q & [->|Hq]%mid_in & Hqb & Hqf & Hql); [exists pi'|exists q; split; [by apply elem_of_mid|done]].
      split; [done|]. split; [done|]. split; [|done]. rewrite Ef in Hqf. cbn. set_solver.
  - intros q o' [->|Hq]%mid_in Hqb Hqf; cbn [p_type p_page p_free pi'] in *.
    + destruct (decide (o' = o)) as [->|Hne]; [exists sz; rewrite lookup_insert_eq; split; [done|lia]|]. rewrite lookup_insert_ne by lia.
      apply (L2 pi); [apply elem_of_app; right; left|done|]. rewrite Ef. set_solver.
    + destruct (L2 q o') as (z & Hz & Hlt); [by apply elem_of_mid|done|done|]. exists z. split; [|done]. rewrite lookup_insert_ne; [done|]. congruence.
  - intros p z [[<- <-]|[Hne Hp]]%lookup_insert_Some; [lia|by eapply L3].
Qed.
Lemma lives_new A pi o L sz : lives A L -> L !! (p_page pi + o) = None -> is_block (p_type pi) o -> o ∉ p_free pi -> (forall o', is_block (p_type pi) o' -> o' <> o -> o' ∈ p_free pi) ->
  0 <= sz < 2048 -> sz <= bsize (p_type pi) -> lives (pi :: A) (<[p_page pi + o := sz]> L).
Proof.
  intros [L1 L2 L3] Hnew Hb Hf Hall Hsz Hle. split.
  - intros p z [[<- <-]|[Hne Hp]]%lookup_insert_Some Hz.
    + exists pi. replace (p_page pi + o - p_page pi) with o by lia. split; [left|done].
    + destruct (L1 p z Hp Hz) as (q & Hq & Hr). exists q. split; [by right|done].
  - intros q o' [->|Hq]%elem_of_cons Hqb Hqf.
    + destruct (decide (o' = o)) as [->|Hne]; [exists sz; rewrite lookup_insert_eq; split; [done|lia]|]. destruct Hqf. by apply Hall.
    + destruct (L2 q o' Hq Hqb Hqf) as (z & Hz & Hlt). exists z. split; [|done]. rewrite lookup_insert_ne; [done|]. congruence.
  - intros p z [[<- <-]|[Hne Hp]]%lookup_insert_Some; [lia|by eapply L3].
Qed.
Lemma lives_big A L p sz : lives A L -> L !! p = None -> 2048 <= sz <= 2 ^ 31 -> lives A (<[p := sz]> L).
Proof.
  intros [L1 L2 L3] Hnew Hsz. split.
  - intros q z [[<- <-]|[Hne Hp]]%lookup_insert_Some Hz; [lia|by apply L1].
  - intros pi o Hpi Hb Hf. destruct (L2 pi o Hpi Hb Hf) as (z & Hz & Hlt). exists z. split; [|done]. rewrite lookup_insert_ne; [done|]. congruence.
  - intros q z [[<- <-]|[Hne Hp]]%lookup_insert_Some; [lia|by eapply L3].
Qed.
Lemma lives_big_free A L p sz : lives A L -> L !! p = Some sz -> 2048 <= sz -> lives A (delete p L).
Proof.
  intros [L1 L2 L3] Hp Hsz. split.
  - intros q z [Hne Hq]%lookup_delete_Some Hz. by apply L1.
  - intros pi o Hpi Hb Hf. destruct (L2 pi o Hpi Hb Hf) as (z & Hz & Hlt). exists z. split; [|done]. rewrite lookup_delete_ne; [done|]. intros ->. rewrite Hp in Hz. injection Hz as <-. lia.
  - intros q z [Hne Hq]%lookup_delete_Some. by eapply L3.
Qed.

(** Blocks of one page: no more than fit. *)
Lemma blocks_bound b l : is_type b -> NoDup l -> (forall o, o ∈ l -> is_block b o) -> Z.of_nat (length l) <= nblocks b.
Proof.
  intros Hb Hnd Hl. destruct (bsize_bounds b Hb) as (_ & _ & _ & B4). assert (l ⊆+ desc (Z.to_nat (nblocks b)) (bsize b)) as Hs.
  { apply NoDup_submseteq; [done|]. intros o Ho. destruct (block_mul b o Hb (Hl o Ho)) as (k & Hk & ->). apply desc_in. exists (Z.to_nat k). split; [lia|by rewrite Z2Nat.id by lia]. }
  apply submseteq_length in Hs. rewrite desc_length in Hs. lia.
Qed.

Section Freed.
Variables (A1 A2 : list pinfo) (pi : pinfo) (L : gmap Z Z) (ptr : Z).
Hypothesis HL : lives (A1 ++ pi :: A2) L.
Hypothesis Hin : p_page pi <= ptr < p_page pi + 4096.
Hypothesis Hone : forall q, q ∈ A1 ++ A2 -> p_page q + 4096 <= p_page pi \/ p_page pi + 4096 <= p_page q.

Lemma other_block q o : q ∈ A1 ++ A2 -> is_block (p_type q) o -> o ∉ p_free q -> exists sz, delete ptr L !! (p_page q + o) = Some sz /\ sz < 2048.
Proof using HL Hin Hone.
  intros Hq Hb Hf. destruct (l_block _ _ HL q o) as (z & Hz & Hlt); [by apply elem_of_mid|done|done|]. exists z. split; [|done]. rewrite lookup_delete_ne; [done|].
  destruct (Hone q Hq), Hb; lia.
Qed.
Lemma lives_free : lives (A1 ++ PInfo (p_ref pi) (p_slot pi) (p_page pi) (p_type pi) ((ptr - p_page pi) :: p_free pi) :: A2) (delete ptr L).
Proof using HL Hin Hone.
  set (pi' := PInfo _ _ _ _ _). split.
  - intros q z [Hne Hq]%lookup_delete_Some Hz. destruct (l_small _ _ HL _ _ Hq Hz) as (y & [->|Hy]%mid_in & Hb & Hf & Hle).
    + exists pi'. split; [apply elem_of_app; right; left|]. cbn. split; [done|]. split; [|done]. intros [E|?]%elem_of_cons; [lia|done].
    + exists y. split; [by apply elem_of_mid|done].
  - intros q o [->|Hq]%mid_in Hb Hf; [|by apply other_block]. cbn [p_type p_page p_free pi'] in *.
    destruct (l_block _ _ HL pi o) as (z & Hz & Hlt); [apply elem_of_app; right; left|done|set_solver|]. exists z. split; [|done]. rewrite lookup_delete_ne; [done|]. intros ->. apply Hf.
    replace (p_page pi + o - p_page pi) with o by lia. left.
  - intros q z [Hne Hq]%lookup_delete_Some. by eapply HL.
Qed.
Lemma lives_drop : is_type (p_type pi) -> NoDup (p_free pi) -> (forall o, o ∈ p_free pi -> is_block (p_type pi) o) -> is_block (p_type pi) (ptr - p_page pi) -> ptr - p_page pi ∉ p_free pi ->
  Z.of_nat (length (ptr - p_page pi :: p_free pi)) = nblocks (p_type pi) -> lives (A1 ++ A2) (delete ptr L).
Proof using HL Hin Hone.
  intros T Nd Bl Hb Hf Hfull. split.
  - intros q z [Hne Hq]%lookup_delete_Some Hz. destruct (l_small _ _ HL _ _ Hq Hz) as (y & [->|Hy]%mid_in & Hyb & Hyf & Hle); [|exists y; done]. exfalso.
    assert (Z.of_nat (length (q - p_page pi :: ptr - p_page pi :: p_free pi)) <= nblocks (p_type pi)) as Hbd; [|cbn [length] in *; lia]. apply blocks_bound; [done|..].
    + constructor; [|by constructor]. intros [E|?]%elem_of_cons; [lia|done].
    + intros o [->|[->|Ho]%elem_of_cons]%elem_of_cons; [done|done|by apply Bl].
  - intros q o Hq. by apply other_block.
  - intros q z [Hne Hq]%lookup_delete_Some. by eapply HL.
Qed.
End Freed.

(** ** The view from outside *)

Lemma blocks_at m L p : blocks m L !! p = (fun sz => (sz, contents m p sz)) <$> L !! p.
Proof. unfold blocks. rewrite map_lookup_imap. by destruct (L !! p). Qed.
Lemma contents_ext m m' p sz : (forall a, p <= a < p + 4 * words sz -> word m' a = word m a) -> contents m' p sz = contents m p sz.
Proof. intros Hm. unfold contents. apply list_fmap_ext. intros j i Hi%list_elem_of_lookup_2%elem_of_seqZ. apply Hm. lia. Qed.
Lemma blocks_ext m m' L : (forall p sz a, L !! p = Some sz -> p <= a < p + 4 * words sz -> word m' a = word m a) -> blocks m' L = blocks m L.
Proof.
  intros Hm. apply map_eq. intros p. rewrite !blocks_at. destruct (L !! p) as [sz|] eqn:E; [|done]. cbn. do 2 f_equal. apply contents_ext. intros a. by apply Hm.
Qed.
Lemma blocks_insert m L p sz : blocks m (<[p := sz]> L) = <[p := (sz, contents m p sz)]> (blocks m L).
Proof. apply map_eq. intros q. destruct (decide (q = p)) as [->|]; [by rewrite blocks_at, !lookup_insert_eq|by rewrite blocks_at, !lookup_insert_ne, blocks_at]. Qed.
Lemma blocks_delete m L p : blocks m (delete p L) = delete p (blocks m L).
Proof. apply map_eq. intros q. destruct (decide (q = p)) as [->|]; [by rewrite blocks_at, !lookup_delete_eq|by rewrite blocks_at, !lookup_delete_ne, blocks_at]. Qed.
Lemma contents_length m p sz : length (contents m p sz) = Z.to_nat (words sz).
Proof. unfold contents. by rewrite length_fmap, length_seqZ. Qed.
Lemma contents_write m p sz i v : 0 <= i < words sz -> contents (<[p + 4 * i := v]> m) p sz = <[Z.to_nat i := v]> (contents m p sz).
Proof.
  intros Hi. apply list_eq. intros j. unfold contents. destruct (decide (j < Z.to_nat (words sz))%nat) as [Hj|Hj].
  - destruct (decide (j = Z.to_nat i)) as [->|Hne].
    + rewrite list_lookup_insert_eq by (rewrite length_fmap, length_seqZ; lia). rewrite list_lookup_fmap, lookup_seqZ_lt by lia. cbn. rewrite word_insert, decide_True by lia. done.
    + rewrite list_lookup_insert_ne by done. rewrite !list_lookup_fmap, !lookup_seqZ_lt by lia. cbn. rewrite word_insert, decide_False by lia. done.
  - rewrite !lookup_ge_None_2; [done|rewrite length_insert|]; rewrite length_fmap, length_seqZ; lia.
Qed.

Section Steps.
Context {Pg : Type} `{KPagesSpec Pg}.
Implicit Types (x : sys Pg) (h : kheap Pg) (A : list pinfo) (L u : gmap Z Z).

(** Blocks in use are apart from the pages of others, and from free blocks. *)
Lemma owner_ex h A sl b n ex L u p e : core h A sl ((b, n) :: ex ++ flat bigs L) u -> owner A L p e -> p + e <= b \/ b + n * 4096 <= p.
Proof.
  intros C Ho. destruct (owner_pages (ex := (b, n) :: ex) C p e Ho) as (b' & n' & [Hin|Hin]%elem_of_app & H1 & H2 & _).
  - apply list_elem_of_fmap in Hin as (pi & [= -> ->] & Hpi). destruct (heap_apart C b n pi); [rewrite elem_of_app, elem_of_cons; auto|done|lia..].
  - assert (apart b n b' n') as [?|?]; [|lia..]. eapply pg_apart; [apply C|apply (own_in C); rewrite !elem_of_app, elem_of_cons; auto|apply (own_in C); rewrite !elem_of_app, elem_of_cons, elem_of_app; auto|].
    intros <-. pose proof (own_nodup C) as Hnd. rewrite !fmap_app in Hnd. apply NoDup_app in Hnd as (_ & _ & Hnd). apply NoDup_app in Hnd as (_ & _ & Hnd).
    rewrite fmap_cons in Hnd. apply NoDup_cons in Hnd as [Hnd _]. apply Hnd. apply (list_elem_of_fmap_2 fst (ex ++ flat bigs L) (b, n')), elem_of_app. by right.
Qed.
Lemma owner_free h A sl ex L u p e pi o : core h A sl (ex ++ flat bigs L) u -> owner A L p e -> pi ∈ A -> o ∈ p_free pi -> p + e <= p_page pi + o \/ p_page pi + o < p.
Proof.
  intros C Ho Hpi Hf. pose proof (pg_blocks _ _ _ (h_page _ _ (c_h _ _ _ _ _ C) pi Hpi) o Hf) as Hb. destruct Ho as [q o' Hq Hb' Hf'|q sz Hq Hsz].
  - pose proof (block_in _ _ (heap_types C q Hq) Hb'). destruct (decide (p_page pi = p_page q)) as [E|Hn].
    + assert (pi = q) as <- by (eapply (fmap_unique p_page A); [apply (c_h _ _ _ _ _ C)|done..]). assert (o <> o') as Hne by congruence.
      pose proof (bsize_bounds _ (heap_types C pi Hpi)) as (B1 & _). destruct (block_apart _ o o' (heap_types C pi Hpi) Hb Hb' Hne); lia.
    + destruct Hb as [Hb _], Hb' as [Hb' _]. assert (apart (p_page q) 1 (p_page pi) 1) as [?|?]; [|lia..].
      eapply pg_apart; [apply C|apply (own_in C), elem_of_app; left; by apply heap_pages_in|apply (own_in C), elem_of_app; left; by apply heap_pages_in|done].
  - destruct Hb as [Hb _]. destruct (heap_apart C q (npages sz) pi) as [?|?]; [rewrite !elem_of_app; right; right; by apply big_in|done|lia..].
Qed.

(** ** Where a step leads *)

Definition after (p sz : Z) L : gmap Z Z := if p =? 0 then L else <[p := sz]> L.
Definition settles x (t sz : Z) L (n : nat) (r : kres) (h' : kheap Pg) : Prop :=
  exists A u, grows (kheaproots (heap x)) (kheaproots h') /\ blocks (mem h') L = blocks (mem (heap x)) L /\
  let S0 := flat slots_of (delete t (pend x)) in
  let P0 := flat pages_of (delete t (pend x)) in
  match r with
  | Return p => core h' A S0 (P0 ++ flat bigs (after p sz L)) u /\ lives A (after p sz L) /\ (p <> 0 -> L !! p = None)
  | Goes pc => core h' A (pc_slots pc ++ S0) (pc_pages sz pc ++ P0 ++ flat bigs L) u /\ lives A L /\ pc_ok (kheaproots h') sz pc /\ (rank pc < n)%nat
  end.

Lemma pc_ok_grows rts rts' sz pc : grows rts rts' -> pc_ok rts sz pc -> pc_ok rts' sz pc.
Proof.
  intros Hg. destruct pc as [| | | |b p r ix va|]; try done. cbn. intros [Ht (z & Hz & Hp)]. split; [done|].
  destruct (Hg _ _ Hz) as (z' & Hz' & E). exists z'. split; [done|]. by rewrite (E Hp).
Qed.
Lemma pend_grows x A u t h' t' sz pc : kinv x A u -> grows (kheaproots (heap x)) (kheaproots h') -> delete t (pend x) !! t' = Some (sz, pc) -> pc_ok (kheaproots h') sz pc.
Proof. intros K Hg [_ Hp]%lookup_delete_Some. eapply pc_ok_grows; [exact Hg|]. by eapply k_pend. Qed.

Lemma settle_kinv x A u t sz L n r h' : kinv x A u -> settles x t sz L n r h' -> exists A' u', kinv (settle t sz r (Sys h' (pend x) L)) A' u'.
Proof.
  intros K (A' & u' & Hg & _ & Hr). exists A', u'. destruct r as [p|pc]; cbn [settle heap pend live] in *.
  - destruct Hr as (C & HL & _). split; [done|done|]. cbn. intros t' sz' pc' Hp. by eapply pend_grows.
  - destruct Hr as (C & HL & Hok & _). rewrite <- insert_delete_eq. split; cbn.
    + eapply core_perm; [..|exact C]; rewrite flat_insert by apply lookup_delete_eq; [done|]. by rewrite app_assoc.
    + done.
    + intros t' sz' pc' [[<- [= <- <-]]|[Hne Hp]]%lookup_insert_Some; [done|]. by eapply pend_grows.
Qed.

Lemma block_fresh h A sl ex L u p sz : core h A sl (ex ++ flat bigs (<[p := sz]> L)) u -> lives A (<[p := sz]> L) -> L !! p = None ->
  free_of p (4 * words sz) (blocks (mem h) L) /\ p mod 16 = 0 /\ 0x80000000 <= p /\ p + 4 * words sz <= 0xa0000000.
Proof.
  intros C HL Hnew. destruct (live_owner A _ p sz HL (heap_types C)) as (e & He & Hle); [apply lookup_insert_eq|].
  destruct (owner_pages C p e He) as (b & n & _ & H1 & H2 & (_ & H3 & _ & H4) & H5). split; [|split_and!; lia || done].
  intros p' sz' ws'. rewrite blocks_at. intros (z & Hz & [= -> ->])%fmap_Some. assert (p <> p') as Hne by congruence. split; [done|].
  destruct (live_owner A (<[p := sz]> L) p' z HL (heap_types C)) as (e' & He' & Hle'); [by rewrite lookup_insert_ne|].
  destruct (owner_apart C p e p' e' He He' Hne); lia.
Qed.
Lemma settle_view x o t sz n r h' : settles x t sz (live x) n r h' -> want o x = Some sz -> o = Malloc t sz \/ o = Go t ->
  astep (want o x) o (view x) (view (settle t sz r (Sys h' (pend x) (live x)))).
Proof.
  intros (A' & u' & _ & Em & Hr) Hw Ho. assert (astep (want o x) o (view x) (blocks (mem h') (live x))) as Hsame by (rewrite Em; destruct Ho as [-> | ->]; constructor).
  destruct r as [p|pc]; cbn [settle]; unfold view at 2; cbn [heap live]; [|exact Hsame]. destruct Hr as (C & HL & Hnew). unfold after in *.
  destruct (Z.eqb_spec p 0) as [->|Hp]; [exact Hsame|]. destruct (block_fresh _ _ _ _ _ _ _ _ C HL (Hnew Hp)) as (F1 & F2 & F3 & F4).
  rewrite blocks_insert, Em. rewrite Em in F1. apply a_new; [done|exact F1|done|done|done|apply contents_length].
Qed.

Lemma wp_on_heap {B} (m : M (kheap Pg) B) Q x : wp (on_heap m) Q x <-> wp m (fun a h => Q a (Sys h (pend x) (live x))) (heap x).
Proof. unfold wp, on_heap. by destruct (m (heap x)). Qed.

Lemma kinv_at x A u t sz pc : kinv x A u -> pend x !! t = Some (sz, pc) ->
  core (heap x) A (pc_slots pc ++ flat slots_of (delete t (pend x))) (pc_pages sz pc ++ flat pages_of (delete t (pend x)) ++ flat bigs (live x)) u.
Proof. intros K Hp. eapply core_perm; [..|apply K]; rewrite (flat_delete _ _ _ _ Hp); [done|]. by rewrite <- app_assoc. Qed.

(** *** kmalloc *)

Lemma small_bigs p sz L : L !! p = None -> sz < 2048 -> flat bigs (<[p := sz]> L) ≡ₚ flat bigs L.
Proof. intros Hp Hsz. rewrite flat_insert by done. unfold bigs at 1. destruct (Z.ltb_spec sz 2048); [done|lia]. Qed.
Lemma small_npages sz : sz < 2048 -> npages sz = 1.
Proof. unfold npages. destruct (Z.ltb_spec sz 2048); [done|lia]. Qed.
Lemma not_live h A sl b n ex L u p : core h A sl ((b, n) :: ex ++ flat bigs L) u -> lives A L -> b <= p < b + n * 4096 -> L !! p = None.
Proof.
  intros C HL Hp. destruct (L !! p) as [z|] eqn:E; [|done]. exfalso. destruct (live_owner A L p z HL) as (e & He & Hle); [intros pi; apply (heap_types (ex := (b, n) :: ex) C)|done|].
  destruct (owner_ex _ _ _ _ _ _ _ _ _ _ C He); [|lia]. pose proof (l_size _ _ HL _ _ E). assert (0 < e); [|lia].
  destruct He as [pi o Hpi _ _|q sz Hq Hsz]; [pose proof (bsize_bounds _ (heap_types (ex := (b, n) :: ex) C pi Hpi)); lia|].
  destruct (npages_big sz); [pose proof (l_size _ _ HL _ _ Hq); lia|lia].
Qed.

Lemma malloc_settles x A u t sz : kinv x A u -> pend x !! t = None -> 0 <= sz <= 2 ^ 31 -> wp (kmalloc sz) (settles x t sz (live x) 7) (heap x).
Proof.
  intros K Ht Hsz. pose proof (k_core _ _ _ K) as C. pose proof (k_live _ _ _ K) as HL. unfold kmalloc. change LARGEST_SUBPAGE_SIZE with 2048. change PAGE_SIZE with 4096.
  destruct (Z.geb_spec sz 2048) as [Hb|Hs].
  - destruct (npages_big sz ltac:(lia)) as (En & Hn & _). rewrite u32_id by (unfold is_u32; change (2 ^ 31) with 2147483648 in *; lia). replace (sz + 4096 - 1) with (sz + 4095) by lia. rewrite <- En.
    wpsimp. eapply wp_kpages; [exact C|done|..].
    + intros p C'. cbn [Z.eqb]. wpsimp. exists A, u. split; [apply grows_refl|]. split; [done|]. unfold after. cbn [Z.eqb]. by rewrite delete_id.
    + intros p va (Hk1 & Hk2 & Hk3 & Hk4) C'. destruct (Z.eqb_spec va 0); [lia|]. wpsimp. split; [by apply Z.eqb_eq|].
      assert (live x !! va = None) as Hnew by (eapply not_live; [exact C'|done|lia]).
      eexists A, _. split; [apply grows_refl|]. split; [done|]. unfold after. destruct (Z.eqb_spec va 0); [lia|]. rewrite delete_id by done. split; [|split; [by apply lives_big; [..|lia]|done]].
      eapply core_perm; [done| |exact C']. rewrite flat_insert by done. unfold bigs at 2. destruct (Z.ltb_spec sz 2048); [lia|]. cbn [app]. by rewrite Permutation_middle.
  - eapply wp_subpage_kmalloc; [exact C|lia|..].
    + intros A1 pi A2 o fs h' -> Ef Hle C' Em Er. assert (pi ∈ A1 ++ pi :: A2) as Hpi by (apply elem_of_app; right; left). pose proof (h_page _ _ (c_h _ _ _ _ _ C) pi Hpi) as [_ Ad Nd Bl _ _ _].
      assert (is_block (p_type pi) o) as Hbo by (apply Bl; rewrite Ef; left). assert (live x !! (p_page pi + o) = None) as Hnew.
      { destruct (live x !! (p_page pi + o)) as [z|] eqn:E; [|done]. destruct Hbo as [Hbo _]. destruct (live_here C pi (p_page pi + o) z HL Hpi ltac:(lia) E) as (_ & _ & Hf & _).
        replace (p_page pi + o - p_page pi) with o in Hf by lia. rewrite Ef in Hf. set_solver. }
      eexists _, u. rewrite Em, Er. split; [apply grows_refl|]. split; [done|]. pose proof (page_addr_pos _ Ad) as (Hpos & _). unfold after. destruct (Z.eqb_spec (p_page pi + o) 0); [destruct Hbo; lia|].
      rewrite delete_id by done. split; [|split; [by eapply lives_take; [..|lia|done]|done]]. eapply core_perm; [done| |exact C']. by rewrite small_bigs.
    + intros b Hb Hle _. exists A, u. split; [apply grows_refl|]. split; [done|]. rewrite delete_id by done. split; [done|]. split; [done|]. split; [|cbn; lia]. split; [done|]. lia.
Qed.

(** *** The later steps *)

Section Later.
Variables (x : sys Pg) (t sz : Z).
Abbreviation L := (live x).
Abbreviation S0 := (flat slots_of (delete t (pend x))).
Abbreviation P0 := (flat pages_of (delete t (pend x))).
Abbreviation rts := (kheaproots (heap x)).

Lemma goes_settles h A u n pc : core h A (pc_slots pc ++ S0) (pc_pages sz pc ++ P0 ++ flat bigs L) u -> lives A L -> pc_ok (kheaproots h) sz pc -> (rank pc < n)%nat ->
  mem h = mem (heap x) -> grows rts (kheaproots h) -> settles x t sz L n (Goes pc) h.
Proof. intros C HL Hok Hn Em Hg. exists A, u. rewrite Em. done. Qed.
Lemma null_settles h A u n : core h A S0 (P0 ++ flat bigs L) u -> lives A L -> mem h = mem (heap x) -> grows rts (kheaproots h) -> settles x t sz L n (Return 0) h.
Proof. intros C HL Em Hg. exists A, u. rewrite Em. done. Qed.

Lemma with_ref_settles h A u r ix pg b n : core h A ((r, ix) :: S0) ((pg, 1) :: P0 ++ flat bigs L) u -> lives A L -> type_ok sz b -> (1 < n)%nat ->
  mem h = mem (heap x) -> grows rts (kheaproots h) -> wp (with_ref b pg r ix) (settles x t sz L n) h.
Proof.
  intros C HL (Hb & Hsz & Hle) Hn Em Hg. eapply wp_with_ref; [exact C|done|..].
  - intros C'. eapply goes_settles; [cbn [pc_slots pc_pages app]; rewrite small_npages by lia; exact C'|done|done|done|done|done].
  - intros h' pr fs o C' Hbo Hf Hall Hout Er. pose proof (own_addr C pg ltac:(left)) as Hpg. pose proof (page_addr_pos _ Hpg) as (Hpos & _).
    assert (L !! (pg + o) = None) as Hnew by (eapply not_live; [exact C|done|destruct Hbo; lia]).
    eexists _, u. split; [by rewrite Er|]. unfold after. destruct (Z.eqb_spec (pg + o) 0); [destruct Hbo; lia|]. split; [|split; [|split; [|done]]].
    + rewrite <- Em. apply blocks_ext. intros p z a Hp Ha. apply Hout. destruct (live_owner A L p z HL) as (e & He & Hz); [intros pi; apply (heap_types (ex := (pg, 1) :: P0) C)|done|].
      destruct (owner_ex _ _ _ _ _ _ _ _ _ _ C He); lia.
    + eapply core_perm; [done| |exact C']. by rewrite small_bigs by (done || lia).
    + apply (lives_new A (PInfo pr (r, ix) pg b fs) o); done.
Qed.

Section Pc.
Context (A : list pinfo) (u : gmap Z Z) (pc : kpc) (K : kinv x A u) (Ht : pend x !! t = Some (sz, pc)).

Lemma pc_core : core (heap x) A (pc_slots pc ++ S0) (pc_pages sz pc ++ P0 ++ flat bigs L) u.
Proof using K Ht. by apply kinv_at. Qed.
Lemma pc_good : pc_ok rts sz pc.
Proof using K Ht. by eapply k_pend. Qed.
End Pc.

Lemma need_page A u b : kinv x A u -> pend x !! t = Some (sz, NeedPage b) -> wp (resume (NeedPage b)) (settles x t sz L 6) (heap x).
Proof.
  intros K Ht. pose proof (pc_core A u _ K Ht) as C. pose proof (pc_good A u _ K Ht) as Hok. cbn [resume]. wpsimp. eapply wp_kpages; [exact C|lia|..].
  - intros p C'. cbn [Z.eqb]. wpsimp. eapply null_settles; [exact C'|apply K|done|apply grows_refl].
  - intros p va (Hk1 & Hk2 & _) C'. destruct (Z.eqb_spec va 0); [lia|]. wpsimp. split; [by apply Z.eqb_eq|]. eapply goes_settles; [exact C'|apply K|done|cbn; lia|done|apply grows_refl].
Qed.
Lemma have_page A u b pg : kinv x A u -> pend x !! t = Some (sz, HavePage b pg) -> no_full rts -> wp (resume (HavePage b pg)) (settles x t sz L 5) (heap x).
Proof.
  intros K Ht Hnf. pose proof (pc_core A u _ K Ht) as C. pose proof (pc_good A u _ K Ht) as Hok. cbn [resume]. wpsimp. eapply wp_alloc_slot; [exact C|done|..].
  - wpsimp. eapply goes_settles; [|apply K|done|cbn; lia|done|apply grows_refl]. cbn [pc_slots pc_pages app]. rewrite small_npages by (destruct Hok; lia). exact C.
  - intros r ix rts' C' Hg. unfold get_root. wpsimp. destruct (c_used _ _ _ _ _ C' (r, ix)) as (_ & _ & z & Hz & _); [left|]. cbn [fst] in Hz. exists z. split; [done|].
    destruct (Z.eqb_spec (page z) 0); wpsimp; [by eapply goes_settles; [exact C'|apply K|done|cbn; lia|done|]|]. eapply with_ref_settles; [exact C'|apply K|done|lia|done|done].
Qed.
Lemma need_ref_page A u b pg r ix : kinv x A u -> pend x !! t = Some (sz, NeedRefPage b pg r ix) -> wp (resume (NeedRefPage b pg r ix)) (settles x t sz L 4) (heap x).
Proof.
  intros K Ht. pose proof (pc_core A u _ K Ht) as C. pose proof (pc_good A u _ K Ht) as Hok. cbn [resume]. wpsimp. eapply wp_kpages; [exact C|lia|..].
  - intros p C'. wpsimp. eapply goes_settles; [exact C'|apply K|done|cbn; lia|done|apply grows_refl].
  - intros p va (_ & Hk & _) C'. wpsimp. eapply goes_settles; [|apply K|done|cbn; lia|done|apply grows_refl]. cbn [pc_slots pc_pages app] in *. destruct (Z.eqb_spec va 0); [lia|].
    eapply core_perm; [done| |exact C']. apply perm_swap.
Qed.
Lemma have_ref_page A u b pg r ix va : kinv x A u -> pend x !! t = Some (sz, HaveRefPage b pg r ix va) -> wp (resume (HaveRefPage b pg r ix va)) (settles x t sz L 3) (heap x).
Proof.
  intros K Ht. pose proof (pc_core A u _ K Ht) as C. pose proof (pc_good A u _ K Ht) as Hok. cbn [resume]. cbn [pc_slots pc_pages app] in C. destruct (Z.eqb_spec va 0) as [->|Hv].
  { eapply with_ref_settles; [exact C|apply K|done|lia|done|apply grows_refl]. }
  assert (core (heap x) A ((r, ix) :: S0) ((va, 1) :: (pg, 1) :: P0 ++ flat bigs L) u) as C1 by (eapply core_perm; [done| |exact C]; apply perm_swap).
  destruct (own_addr C1 va ltac:(left)) as (Hm & _). destruct (c_used _ _ _ _ _ C (r, ix)) as (_ & _ & z & Hz & _); [left|]. cbn [fst] in Hz. unfold get_root, put_root. wpsimp.
  split; [by apply Z.eqb_eq|]. exists z. split; [done|]. destruct (Z.eqb_spec (page z) 0) as [Hp|Hp]; cbn [negb]; wpsimp.
  - pose proof (core_root _ _ _ _ _ _ _ ix _ C1 ltac:(left) Hz Hp) as C2. eapply with_ref_settles; [exact C2|apply K|done|lia|done|by eapply grows_insert].
  - eapply goes_settles; [exact C1|apply K|split; [done|by exists z]|cbn; lia|done|apply grows_refl].
Qed.
Lemma spare_ref_page A u b pg r ix va : kinv x A u -> pend x !! t = Some (sz, SpareRefPage b pg r ix va) -> wp (resume (SpareRefPage b pg r ix va)) (settles x t sz L 2) (heap x).
Proof.
  intros K Ht. pose proof (pc_core A u _ K Ht) as C. destruct (pc_good A u _ K Ht) as [Hok (z & Hz & Hp)]. cbn [resume]. cbn [pc_slots pc_pages app] in C. wpsimp.
  eapply wp_give_kpages; [exact C|]. intros p C'. unfold get_root. wpsimp. exists z. split; [done|]. wpsimp. split; [by apply negb_true_iff, Z.eqb_neq|].
  eapply with_ref_settles; [exact C'|apply K|done|lia|done|apply grows_refl].
Qed.
Lemma free_page A u va : kinv x A u -> pend x !! t = Some (sz, FreePage va) -> wp (resume (FreePage va)) (settles x t sz L 1) (heap x).
Proof.
  intros K Ht. pose proof (pc_core A u _ K Ht) as C. cbn [resume]. cbn [pc_slots pc_pages app] in C. wpsimp. eapply wp_give_kpages; [exact C|]. intros p C'. wpsimp.
  eapply null_settles; [exact C'|apply K|done|apply grows_refl].
Qed.
Lemma resume_settles A u pc : kinv x A u -> pend x !! t = Some (sz, pc) -> (forall b p, pc = HavePage b p -> no_full rts) -> wp (resume pc) (settles x t sz L (rank pc)) (heap x).
Proof.
  intros K Ht Hnf. destruct pc; [by eapply need_page|eapply have_page; [done|done|by eapply Hnf]|by eapply need_ref_page|by eapply have_ref_page|by eapply spare_ref_page|by eapply free_page].
Qed.
End Later.

(** *** kfree and the clients *)

Lemma live_pos x A u p sz : kinv x A u -> live x !! p = Some sz -> 0x80000000 <= p.
Proof.
  intros K Hp. destruct (live_owner A _ p sz (k_live _ _ _ K) (heap_types (k_core _ _ _ K)) Hp) as (e & He & _).
  destruct (owner_pages (k_core _ _ _ K) p e He) as (b & n & _ & H1 & _ & (_ & H2 & _) & _). lia.
Qed.

(** Clearing a block leaves the others. *)
Lemma freed_blocks x A u pi ptr m' : kinv x A u -> pi ∈ A -> is_block (p_type pi) (ptr - p_page pi) -> ptr - p_page pi ∉ p_free pi -> outside ptr (bsize (p_type pi)) (mem (heap x)) m' ->
  blocks m' (delete ptr (live x)) = blocks (mem (heap x)) (delete ptr (live x)).
Proof.
  intros K Hpi Hb Hf Hout. apply blocks_ext. intros p z a [Hne Hp]%lookup_delete_Some Ha. apply Hout.
  destruct (live_owner A _ p z (k_live _ _ _ K) (heap_types (k_core _ _ _ K)) Hp) as (e & He & Hle). pose proof (o_small A (live x) pi _ Hpi Hb Hf) as Ho.
  replace (p_page pi + (ptr - p_page pi)) with ptr in Ho by lia. destruct (owner_apart (k_core _ _ _ K) _ _ _ _ Ho He Hne); lia.
Qed.

Lemma free_settles x A u t ptr sz : kinv x A u -> pend x !! t = None -> live x !! ptr = Some sz -> wp (kfree ptr) (fun r h' => settles x t sz (delete ptr (live x)) 7 r h' /\ (forall p, r = Return p -> p = 0)) (heap x).
Proof.
  intros K Ht Hp. pose proof (k_core _ _ _ K) as C. pose proof (k_live _ _ _ K) as HL. pose proof (live_pos _ _ _ _ _ K Hp) as Hpos.
  assert (forall pi, pi ∈ A -> p_page pi <= ptr < p_page pi + 4096 -> sz < 2048 /\ is_block (p_type pi) (ptr - p_page pi) /\ (ptr - p_page pi ∉ p_free pi) /\
    flat bigs (live x) ≡ₚ flat bigs (delete ptr (live x))) as Hhere.
  { intros pi Hpi Hin. destruct (live_here C pi ptr sz HL Hpi Hin Hp) as (H1 & H2 & H3 & _). split_and!; [done..|]. rewrite (flat_delete bigs _ _ _ Hp).
    unfold bigs at 1. destruct (Z.ltb_spec sz 2048); [done|lia]. }
  assert (forall A1 pi A2, A = A1 ++ pi :: A2 -> forall q, q ∈ A1 ++ A2 -> p_page q + 4096 <= p_page pi \/ p_page pi + 4096 <= p_page q) as Hone.
  { intros A1 pi A2 -> q Hq. by eapply (other_page (heap x) A1 A2 pi (c_h _ _ _ _ _ C)). }
  eapply wp_kfree; [exact C|lia|intros pi Hpi Hin; by destruct (Hhere pi Hpi Hin) as (_ & ? & ? & _)|..].
  - intros Hno. assert (2048 <= sz) as Hsz.
    { destruct (decide (sz < 2048)) as [Hs|]; [|lia]. destruct (l_small _ _ HL _ _ Hp Hs) as (pi & Hpi & [Hb _] & _). destruct (Hno pi Hpi). lia. }
    pose proof (flat_delete bigs _ _ _ Hp) as Efl. unfold bigs at 2 in Efl. destruct (Z.ltb_spec sz 2048); [lia|].
    assert (in_kseg0 ptr (npages sz)) as (Hm & _). { eapply pg_range; [apply C|]. apply (own_in C). rewrite Efl, !elem_of_app. do 3 right. left. left. }
    split; [done|]. split; [|done]. exists A, u. split; [apply grows_refl|]. split; [done|]. rewrite delete_id by done. split; [|split; [by eapply lives_big_free|split; [done|cbn; lia]]].
    eapply core_perm; [done| |exact C]. rewrite Efl. cbn [pc_pages app]. by rewrite Permutation_middle.
  - intros A1 pi A2 h' -> Hin Hout Er C'. assert (pi ∈ A1 ++ pi :: A2) as Hpi by (apply elem_of_app; right; left). destruct (Hhere pi Hpi Hin) as (Hs & Hb & Hf & Efl).
    split; [|by intros p [= ->]]. eexists _, u. split; [rewrite Er; apply grows_refl|]. split; [by eapply freed_blocks|]. rewrite delete_id by done. unfold after. cbn [Z.eqb].
    split; [|split; [eapply lives_free; [done|done|by apply Hone]|done]]. eapply core_perm; [done| |exact C']. by rewrite Efl.
  - intros A1 pi A2 h' -> Hin Hfull Hout Hg C'. assert (pi ∈ A1 ++ pi :: A2) as Hpi by (apply elem_of_app; right; left). destruct (Hhere pi Hpi Hin) as (Hs & Hb & Hf & Efl).
    destruct (h_page _ _ (c_h _ _ _ _ _ C) pi Hpi) as [T _ Nd Bl _ _ _].
    split; [|done]. eexists _, u. split; [done|]. split; [by eapply freed_blocks|]. rewrite delete_id by done. split; [|split; [eapply lives_drop; [done|done|by apply Hone|done..]|split; [done|cbn; lia]]].
    cbn [pc_slots pc_pages app]. rewrite small_npages by done. eapply core_perm; [done| |exact C']. by rewrite Efl.
Qed.

Lemma hinv_mem h A m : hinv h A -> (forall pi o, pi ∈ A -> o ∈ p_free pi -> word m (p_page pi + o) = word (mem h) (p_page pi + o)) -> hinv (with_mem h m) A.
Proof.
  intros [H1 H2 H3 H4 H5 H6 H7 H8 H9] Hm. split; [done..| |done|done|done]. intros pi Hpi. destruct (H6 pi Hpi) as [T Ad Nd Bl Ch So Rf]. split; [done..| |done|done].
  eapply chain_ext; [|exact Ch]. intros o Ho. by apply Hm.
Qed.

Lemma write_kinv x A u p i v sz : kinv x A u -> live x !! p = Some sz -> 0 <= i < words sz -> kinv (Sys (with_mem (heap x) (<[p + 4 * i := v]> (mem (heap x)))) (pend x) (live x)) A u.
Proof.
  intros K Hp Hi. pose proof (k_core _ _ _ K) as C. destruct (live_owner A _ p sz (k_live _ _ _ K) (heap_types C) Hp) as (e & He & Hle).
  split; [|apply K|apply K]. destruct C as [C1 C2 C3 C4 C5 C6]. split; [|done..]. cbn [heap]. apply hinv_mem; [done|]. intros pi o Hpi Ho. rewrite word_insert, decide_False; [done|].
  destruct (owner_free _ _ _ _ _ _ _ _ _ _ (k_core _ _ _ K) He Hpi Ho); lia.
Qed.
Lemma write_view x A u p i v sz : kinv x A u -> live x !! p = Some sz -> 0 <= i < words sz ->
  blocks (<[p + 4 * i := v]> (mem (heap x))) (live x) = <[p := (sz, <[Z.to_nat i := v]> (contents (mem (heap x)) p sz))]> (view x).
Proof.
  intros K Hp Hi. pose proof (k_core _ _ _ K) as C. destruct (live_owner A _ p sz (k_live _ _ _ K) (heap_types C) Hp) as (e & He & Hle).
  apply map_eq. intros q. rewrite blocks_at. destruct (decide (q = p)) as [->|Hne]; [rewrite lookup_insert_eq, Hp; cbn; by rewrite contents_write|].
  rewrite lookup_insert_ne by done. unfold view. rewrite blocks_at. destruct (live x !! q) as [z|] eqn:Hq; [|done]. cbn. do 2 f_equal. apply contents_ext. intros a Ha. rewrite word_insert, decide_False; [done|].
  destruct (live_owner A _ q z (k_live _ _ _ K) (heap_types C) Hq) as (e' & He' & Hle'). destruct (owner_apart C _ _ _ _ He He' (not_eq_sym Hne)); lia.
Qed.

(** ** Every step *)

Definition step_post (o : kop) x : unit -> sys Pg -> Prop := fun _ x' =>
  (exists A u, kinv x' A u) /\ astep (want o x) o (view x) (view x') /\ (forall t, o = Go t -> (steps_left x' t < steps_left x t)%nat).

Lemma step_malloc x A u t sz : kinv x A u -> allowed (Malloc t sz) x -> wp (run_kop (Malloc t sz)) (step_post (Malloc t sz) x) x.
Proof.
  intros K [Ht Hsz]. cbn [run_kop]. rewrite wp_bind, wp_on_heap. eapply wp_mono; [by eapply malloc_settles|]. intros r h' Ho. wpsimp.
  split; [by eapply settle_kinv|]. split; [eapply settle_view; [done|done|by left]|done].
Qed.
Lemma step_go x A u t : kinv x A u -> allowed (Go t) x -> wp (run_kop (Go t)) (step_post (Go t) x) x.
Proof.
  intros K (sz & pc & Ht & Hnf). cbn [run_kop]. rewrite wp_bind, wp_get, wp_bind, wp_deref. exists (sz, pc). split; [done|]. cbn [fst snd]. rewrite wp_bind, wp_on_heap.
  eapply wp_mono; [by eapply resume_settles|]. intros r h' Ho. wpsimp.
  split; [by eapply settle_kinv|]. split; [eapply settle_view; [done|cbn; by rewrite Ht|by right]|]. intros t' [= <-]. unfold steps_left. rewrite Ht.
  destruct Ho as (A' & u' & _ & _ & Hr). destruct r as [p|pc']; cbn [settle pend]; [rewrite lookup_delete_eq; destruct pc; cbn; lia|]. rewrite lookup_insert_eq. apply Hr.
Qed.
Lemma step_free x A u t ptr : kinv x A u -> allowed (Free t ptr) x -> wp (run_kop (Free t ptr)) (step_post (Free t ptr) x) x.
Proof.
  intros K [Ht Hp]. cbn [run_kop]. wpsimp. rewrite wp_on_heap. cbn [heap pend live]. destruct (live x !! ptr) as [sz|] eqn:El.
  - eapply wp_mono; [by eapply free_settles|]. intros r h' [Ho Hz]. change (default 0 (Some sz)) with sz. wpsimp. cbn [heap pend live]. split; [by eapply settle_kinv|]. split; [|done].
    destruct Ho as (A' & u' & _ & Em & Hr). assert (view (settle t sz r (Sys h' (pend x) (delete ptr (live x)))) = delete ptr (view x)) as ->; [|constructor].
    unfold view. destruct r as [p|pc]; cbn [settle heap live]; [|by rewrite Em, blocks_delete].
    rewrite (Hz p) by done. cbn [Z.eqb]. by rewrite Em, blocks_delete.
  - destruct Hp as [->|[z Hz]]; [|congruence]. unfold kfree. cbn [Z.eqb]. wpsimp. cbn. rewrite delete_id by done. split; [|split; [|done]].
    + exists A, u. rewrite delete_id by done. by destruct x.
    + rewrite delete_id by done. assert (delete 0 (view x) = view x) as E by (apply delete_id; unfold view; by rewrite blocks_at, El).
      pose proof (a_free (want (Free t 0) x) t 0 (view x)) as Hs. rewrite E in Hs. by destruct x.
Qed.
Lemma step_write x A u p i v : kinv x A u -> allowed (Write p i v) x -> wp (run_kop (Write p i v)) (step_post (Write p i v) x) x.
Proof.
  intros K (sz & Hp & Hi). cbn [run_kop]. rewrite wp_on_heap. pose proof (live_pos _ _ _ _ _ K Hp) as Hpos. apply wp_store; [lia|]. split; [exists A, u; by eapply write_kinv|]. split; [|done].
  unfold view at 2. cbn [heap live with_mem mem]. erewrite write_view by done. apply a_write; [|done]. unfold view. by rewrite blocks_at, Hp.
Qed.
Lemma step_ok x A u o : kinv x A u -> allowed o x -> wp (run_kop o) (step_post o x) x.
Proof. intros K Ha. destruct o; [by eapply step_malloc|by eapply step_free|by eapply step_go|by eapply step_write]. Qed.

(** ** Reachable states *)

Lemma boot_kinv p : pg_inv p ∅ -> kinv (boot p) [] ∅.
Proof.
  intros Hp. assert (forall r z, replicate 16 (Root 0 (replicate 8 0) 0) !! r = Some z -> z = Root 0 (replicate 8 0) 0) as Hz by (by intros r z [-> _]%lookup_replicate_1).
  split; cbn [boot heap live pend]; [|split; [by intros ? ? ?%lookup_empty_Some|by intros ? ? ?%elem_of_nil|by intros ? ? ?%lookup_empty_Some]|by intros ? ? ? ?%lookup_empty_Some].
  split; cbn [kheaproots pages].
  - split; cbn; [done|done| |done| |by intros ? ?%elem_of_nil|by intros ? ?%elem_of_nil|constructor|constructor].
    + intros r z ->%Hz. split; [done| |by vm_compute|by left]. repeat constructor; lia.
    + intros b Hb. by types Hb.
  - split; intros r r' z z' _ ->%Hz ->%Hz; done.
  - constructor.
  - by intros ? ?%elem_of_nil.
  - done.
  - done.
Qed.
Lemma reach_kinv x : kreach x -> exists A u, kinv x A u.
Proof.
  induction 1 as [p Hp|x o x' _ (A & u & K) Ha Hr]; [eexists _, _; by apply boot_kinv|].
  pose proof (step_ok x A u o K Ha) as Hs. unfold wp in Hs. rewrite Hr in Hs. apply Hs.
Qed.
End Steps.
End KmallocProps.
