(* ===== verification/KmallocCheck.v ===== *)
(** * The consistency checks of the kernel heap, and the pages it holds

    checksubpage and checksubpages pass whenever the heap is in order, and dumbvm
    is a page allocator as the heap needs it. *)

From S2P Require Import Prelude Kern Vm VmSpec Kmalloc KmallocSpec KmallocRefs KmallocOps KmallocSys KmallocProps.
Open Scope Z_scope.

Module KmallocCheck.
Import Kmalloc KmallocSpec KmallocRefs KmallocOps KmallocSys KmallocProps.

(** ** checksubpages *)

Section Checks.
Context {Pg : Type} `{KPages Pg}.
Implicit Types (s : kheap Pg) (A : list pinfo).

Lemma wp_check_free pg b : page_addr pg -> is_type b -> forall fuel l fla n (Q : Z -> kheap Pg -> Prop) s, chain (mem s) pg l -> NoDup l -> (forall o, o ∈ l -> is_block b o) -> (length l < fuel)%nat ->
  fla = match l with [] => 0 | o :: _ => pg + o end -> Q (n + Z.of_nat (length l)) s -> wp (check_free fuel fla pg (bsize b) n) Q s.
Proof.
  intros Hp Hb. pose proof (page_addr_pos pg Hp) as (Hpos & _). induction fuel as [|fuel IH]; intros l fla n Q s Hch Hnd Hl Hf -> HQ; [lia|]. cbn [check_free].
  destruct l as [|o l]; [cbn [Z.eqb]; wpsimp; by rewrite Z.add_0_r in HQ|]. destruct Hch as [Hw Hch]. apply NoDup_cons in Hnd as [Ho Hnd].
  destruct (Hl o ltac:(left)) as [Hr Hm]. destruct (Z.eqb_spec (pg + o) 0); [lia|]. change PAGE_SIZE with 4096. replace (pg + o - pg) with o by lia. wpsimp.
  split; [destruct (Z.geb_spec (pg + o) pg), (Z.ltb_spec (pg + o) (pg + 4096)); done || lia|]. split; [by apply Z.eqb_eq|]. apply wp_load; [lia|]. rewrite Hw. wpsimp.
  split; [|eapply IH; [done|done|intros o' Ho'; apply Hl; by right|cbn in Hf; lia|by destruct l|cbn [length] in HQ; by replace (n + 1 + Z.of_nat (length l)) with (n + Z.of_nat (S (length l))) by lia]].
  apply negb_true_iff, Z.eqb_neq. destruct l as [|o' l]; [lia|]. intros E. apply Ho. replace o with o' by lia. left.
Qed.

Lemma wp_checksubpage pi (Q : unit -> kheap Pg -> Prop) s : page_ok (mem s) (refs s) pi -> Q tt s -> wp (checksubpage (p_ref pi)) Q s.
Proof.
  intros [T Ad Nd Bl Ch So (ns & na & Hx)] HQ. unfold checksubpage. wpsimp. eapply wp_get_ref; [exact Hx|]. set (x := Pageref _ _ _ _ _) in *.
  destruct (pab_addr x _ _ Ad T eq_refl) as [E1 E2]. rewrite E1, E2. cbn [freelist_offset nfree x]. destruct (p_free pi) as [|o fs] eqn:Ef; cbn [first_free]; [rewrite Z.eqb_refl; by wpsimp|].
  destruct (Bl o ltac:(left)) as [Hr Hm]. destruct (Z.eqb_spec o INVALID_OFFSET) as [E|_]; [unfold INVALID_OFFSET in E; lia|]. pose proof T as T'. unfold is_type in T'.
  pose proof (page_addr_pos _ Ad) as (Hpos & _ & _ & Hlo & Hhi). pose proof (bsize_bounds _ T) as (_ & _ & _ & B4). change NSIZES with 8. change MIPS_KSEG0 with 0x80000000. unfold MIPS_KSEG1. change PAGE_SIZE with 4096. wpsimp.
  split; [destruct (Z.geb_spec (p_type pi) 0), (Z.ltb_spec (p_type pi) 8); done || lia|]. apply wp_size_of; [done|]. wpsimp.
  split; [destruct (Z.geb_spec (p_page pi) 0x80000000); done || lia|]. split; [apply Z.ltb_lt; lia|]. split; [apply Z.ltb_lt; lia|]. split; [by apply Z.eqb_eq|].
  rewrite u32_in by done. eapply (wp_check_free (p_page pi) (p_type pi) Ad T _ (o :: fs)); [done|done|done|lia|done|]. wpsimp. split; [by apply Z.eqb_eq|done].
Qed.

Lemma wp_check_list w : forall l fuel pr c (Q : Z -> kheap Pg -> Prop) s, linked w (refs s) pr (p_ref <$> l) -> (forall pi, pi ∈ l -> page_ok (mem s) (refs s) pi) ->
  (length l <= fuel)%nat -> c + Z.of_nat (length l) <= 4096 -> Q (c + Z.of_nat (length l)) s -> wp (check_list fuel w pr c) Q s.
Proof.
  induction l as [|pi l IH]; intros fuel pr c Q s Hl Hok Hf Hc HQ; cbn in Hl.
  { subst pr. rewrite Z.add_0_r in HQ. by destruct fuel; cbn [check_list]; wpsimp. }
  destruct Hl as (-> & Hne & x & Hx & Hl). destruct fuel as [|fuel]; [simpl in Hf; lia|]. cbn [check_list]. destruct (Z.eqb_spec (p_ref pi) 0); [done|]. wpsimp.
  apply wp_checksubpage; [apply Hok; left|]. change TOTAL_PAGEREFS with 4096. wpsimp. cbn [length] in *. split; [apply Z.ltb_lt; lia|]. eapply wp_get_ref; [exact Hx|].
  eapply IH; [exact Hl|intros q Hq; apply Hok; by right|lia|lia|]. by replace (c + 1 + Z.of_nat (length l)) with (c + Z.of_nat (S (length l))) by lia.
Qed.

Definition count (A : list pinfo) (bs : list Z) : Z := Z.of_nat (length (bs ≫= fun b => of_type b A)).
Lemma count_all A : (forall pi, pi ∈ A -> is_type (p_type pi)) -> count A (seqZ 0 8) = Z.of_nat (length A).
Proof.
  unfold count. intros HT. f_equal. induction A as [|pi A IH]; [done|]. rewrite length_cons, <- IH by (intros q Hq; apply HT; by right). pose proof (HT pi ltac:(left)) as T.
  change (seqZ 0 8) with [0; 1; 2; 3; 4; 5; 6; 7]. cbn [mbind list_bind]. unfold of_type. rewrite !filter_cons, !length_app.
  types T; repeat first [rewrite decide_True by lia|rewrite decide_False by lia]; cbn [length]; lia.
Qed.
Lemma wp_check_sizes A s : hinv s A -> forall bs sc (Q : Z -> kheap Pg -> Prop), (forall b, b ∈ bs -> is_type b) -> sc + count A bs <= 4096 -> Q (sc + count A bs) s -> wp (check_sizes bs sc) Q s.
Proof.
  intros Hh. induction bs as [|b bs IH]; intros sc Q Hb Hc HQ; cbn [check_sizes]; wpsimp; [unfold count in HQ; cbn in HQ; by rewrite Z.add_0_r in HQ|].
  assert (count A (b :: bs) = Z.of_nat (length (of_type b A)) + count A bs) as E by (unfold count; cbn; rewrite length_app; lia). rewrite E in *.
  assert (0 <= count A bs) by (unfold count; lia). pose proof (Hb b ltac:(left)) as Tb. pose proof (linked_length _ _ _ _ (h_same _ _ Hh b Tb) (type_refs_nodup b A (h_refs _ _ Hh))) as Hlen. rewrite length_fmap in Hlen.
  eapply wp_check_list; [by apply Hh| |done|lia|].
  - intros pi [_ Hpi]%list_elem_of_filter. by apply Hh.
  - apply IH; [intros b' Hb'; apply Hb; by right|lia|]. by rewrite <- Z.add_assoc.
Qed.

Lemma pages_bound s A : hinv s A -> NoDup (p_slot <$> A) -> (length A <= 4096)%nat.
Proof.
  intros Hh Hnd. assert ((p_slot <$> A) ⊆+ (seqZ 0 16 ≫= fun r => (fun ix => (r, ix)) <$> seqZ 0 256)) as Hs.
  { apply NoDup_submseteq; [done|]. intros l (pi & -> & Hpi)%list_elem_of_fmap. destruct (h_slot _ _ Hh pi Hpi) as [_ (U1 & U2 & z & Hz & _)]. apply lookup_lt_Some in Hz. rewrite (h_roots _ _ Hh) in Hz.
    apply list_elem_of_bind. exists (p_slot pi).1. split; [|apply elem_of_seqZ; lia]. apply list_elem_of_fmap. exists (p_slot pi).2. split; [by destruct (p_slot pi)|apply elem_of_seqZ; lia]. }
  apply submseteq_length in Hs. rewrite length_fmap in Hs. exact Hs.
Qed.
Lemma wp_checksubpages A s : hinv s A -> NoDup (p_slot <$> A) -> wp checksubpages (fun _ s' => s' = s) s.
Proof.
  intros Hh Hnd. pose proof (pages_bound s A Hh Hnd) as Hb. assert (forall pi, pi ∈ A -> is_type (p_type pi)) as HT by (intros pi Hpi; apply (h_page _ _ Hh pi Hpi)).
  unfold checksubpages. change NSIZES with 8. wpsimp. eapply wp_check_sizes; [exact Hh|intros b Hin%elem_of_seqZ; unfold is_type; lia|rewrite count_all by done; lia|]. rewrite count_all by done. wpsimp.
  pose proof (linked_length _ _ _ _ (h_all _ _ Hh) (h_refs _ _ Hh)) as Hlen. rewrite length_fmap in Hlen.
  eapply wp_check_list; [apply Hh|apply Hh|done|lia|]. wpsimp. split; [by apply Z.eqb_eq|done].
Qed.
End Checks.

(** ** dumbvm as the page allocator *)

#[export] Instance dumb_pages : KPages vmstate := {
  alloc_kpages n s := match Vm.alloc_kpages n s with Ok va s' => (va, s') | Fault _ => (0, s) end;
  free_kpages va s := match Vm.free_kpages va s with Ok _ s' => s' | Fault _ => s end
}.
Record dumb_inv (s : vmstate) (u : gmap Z Z) : Prop := {
  d_ram : VmSpec.ram_ok s;
  d_range b n : u !! b = Some n -> in_kseg0 b n /\ b + n * 4096 <= firstpaddr s + MIPS_KSEG0;
  d_apart b n b' n' : u !! b = Some n -> u !! b' = Some n' -> b <> b' -> apart b n b' n'
}.
Lemma dumb_alloc_eq n s : VmSpec.ram_ok s -> 1 <= n <= 2 ^ 19 -> alloc_kpages n s =
  if firstpaddr s + n * 4096 <=? lastpaddr s then (firstpaddr s + MIPS_KSEG0, Vm.set_first (firstpaddr s + n * 4096) s) else (0, s).
Proof.
  intros R Hn. pose proof R as (R1 & R2 & R3). change (2 ^ 19) with 524288 in Hn. cbn [alloc_kpages dumb_pages]. unfold Vm.alloc_kpages, Vm.getppages, mbind, M_bind.
  rewrite VmSpec.stealmem_eq by (done || (change (2 ^ 31) with 2147483648; lia)). change Vm.PAGE_SIZE with 4096. destruct (Z.leb_spec (firstpaddr s + n * 4096) (lastpaddr s)); [|done].
  destruct (Z.eqb_spec (firstpaddr s) 0); [lia|]. change MIPS_KSEG0 with 0x80000000. rewrite u32_id by (unfold is_u32; lia). done.
Qed.
Lemma dumb_alloc n s u va s' : dumb_inv s u -> 1 <= n <= 2 ^ 19 -> alloc_kpages n s = (va, s') ->
  va = 0 /\ dumb_inv s' u \/ va <> 0 /\ u !! va = None /\ dumb_inv s' (<[va := n]> u).
Proof.
  intros [R D1 D2] Hn. rewrite dumb_alloc_eq by done. destruct (Z.leb_spec (firstpaddr s + n * 4096) (lastpaddr s)) as [Hle|]; intros [= <- <-]; [right|by left].
  pose proof R as (R1 & R2 & R3). pose proof (VmSpec.ram_ok_first s n R ltac:(lia) Hle) as R'. change Vm.PAGE_SIZE with 4096 in R'. change MIPS_KSEG0 with 0x80000000 in *.
  assert (forall b m, u !! b = Some m -> b + m * 4096 <= firstpaddr s + 0x80000000 /\ 0 < m) as Hu by (intros b m Hb; destruct (D1 b m Hb) as [(_ & _ & ? & _) ?]; lia).
  split; [lia|]. split; [destruct (u !! _) as [m|] eqn:E; [|done]; apply Hu in E; lia|]. split; [done|..]; cbn [firstpaddr Vm.set_first]; change MIPS_KSEG0 with 0x80000000.
  - intros b m [[<- <-]|[Hne Hb]]%lookup_insert_Some.
    + split; [|lia]. split; [|lia]. Z.to_euclidean_division_equations. lia.
    + destruct (D1 b m Hb). split; [done|lia].
  - intros b m b' m' [[<- <-]|[Hne Hb]]%lookup_insert_Some [[<- <-]|[Hne' Hb']]%lookup_insert_Some Hd; [done| | |by eapply D2].
    + apply Hu in Hb'. unfold apart. lia.
    + apply Hu in Hb. unfold apart. lia.
Qed.
#[export] Instance dumb_pages_ok : KPagesSpec vmstate.
Proof.
  refine {| pg_inv := dumb_inv; alloc_spec := dumb_alloc |}.
  - intros p u b n D Hb. apply (d_range _ _ D b n Hb).
  - intros p u b n b' n' D. apply D.
  - intros p u va n [R D1 D2] Hu. split; [done|..].
    + intros b m [_ Hb]%lookup_delete_Some. by apply D1.
    + intros b m b' m' [_ Hb]%lookup_delete_Some [_ Hb']%lookup_delete_Some. by apply D2.
Defined.

(** 1 MB of memory of which the kernel takes the first 256 kB *)
Definition dumb0 : vmstate := VmState 0x40000 0x100000 (fun _ => 0) ∅ [] 0 0 [] 1.
Lemma dumb0_ok : pg_inv dumb0 ∅.
Proof. split; [by vm_compute|by intros ? ? ?%lookup_empty_Some|by intros ? ? ? ? ?%lookup_empty_Some]. Qed.

(** ** The heap in use *)

(** C13: Callers ask for at most 2^31 bytes, one call at a time each, and free
    and write only blocks they have; and no call goes on with a page for page
    references while a root is full that has no page, which failed page
    allocations can bring about ([lost_refs_panic]).  In every state that such
    steps reach, whatever calls of kmalloc and kfree are under way and however
    they interleave, each such step runs without a fault: no assertion fails, no
    pointer is bad.  To the clients a step does nothing, or takes away the block
    that is freed, or changes the word that a client writes, or brings a block of
    the size that the call asked for, aligned, in the kernel segment and apart
    from all blocks in use; every other block keeps its contents.  A call that
    goes on comes nearer to its end. *)
Theorem heap_refines {Pg} `{KPagesSpec Pg} (x : sys Pg) o : kreach x -> allowed o x ->
  exists x', run_kop o x = Ok tt x' /\ kreach x' /\ astep (want o x) o (view x) (view x') /\ (forall t, o = Go t -> (steps_left x' t < steps_left x t)%nat).
Proof.
  intros Hx Ha. destruct (reach_kinv x Hx) as (A & u & K). destruct (proj1 (wp_ok _ _ _) (step_ok x A u o K Ha)) as ([] & x' & E & _ & Hs & Hn).
  exists x'. split; [done|]. split; [by eapply k_step|done].
Qed.

(** Blocks in use do not touch the pages of the page references. *)
Lemma refs_apart {Pg} `{KPagesSpec Pg} (x : sys Pg) p sz r z : kreach x -> live x !! p = Some sz -> kheaproots (heap x) !! r = Some z -> page z <> 0 ->
  p + 4 * words sz <= page z \/ page z + 4096 <= p.
Proof.
  intros Hx Hp Hz Hne. destruct (reach_kinv x Hx) as (A & u & K). pose proof (k_core _ _ _ K) as C. destruct (live_owner A _ p sz (k_live _ _ _ K) (heap_types C) Hp) as (e & He & Hle).
  destruct (owner_pages C p e He) as (b & n & [Hin|Hin]%elem_of_app & H1 & H2 & _); pose proof (ref_pages_in _ _ _ Hz Hne) as Hr.
  - apply list_elem_of_fmap in Hin as (pi & [= -> ->] & Hpi). destruct (heap_apart C (page z) 1 pi); [rewrite elem_of_app; auto|done|lia..].
  - destruct (ex_apart C (page z) 1 b n Hr); [rewrite elem_of_app; auto|lia..].
Qed.

(** A heap page has a block in use. *)
Lemma page_in_use m rs pi : page_ok m rs pi -> exists o, is_block (p_type pi) o /\ o ∉ p_free pi.
Proof.
  intros [T _ Nd Bl _ So _]. destruct (bsize_bounds _ T) as (B1 & _ & _ & B4). set (all := desc (Z.to_nat (nblocks (p_type pi))) (bsize (p_type pi))).
  destruct (decide (Forall (fun o => o ∈ p_free pi) all)) as [Hall|Hsome].
  - assert (all ⊆+ p_free pi) as Hs by (apply NoDup_submseteq; [apply desc_nodup; lia|intros o Ho; by eapply Forall_forall in Hall]). apply submseteq_length in Hs.
    unfold all in Hs. rewrite desc_length in Hs. lia.
  - apply not_Forall_Exists in Hsome; [|intros o; apply _]. apply Exists_exists in Hsome as (o & Ho & Hf). exists o. split; [by eapply desc_blocks; [..|exact Ho]|done].
Qed.

(** C15: In a state that the steps of [allowed] reach, when every block has
    been freed and every call has returned, the heap has given back all its
    pages: no page reference is on a list, and of the pages that the allocator
    has given out only those of page references are left. *)
Theorem heap_no_leak {Pg} `{KPagesSpec Pg} (x : sys Pg) : kreach x -> live x = ∅ -> pend x = ∅ ->
  allbase (heap x) = 0 /\ (forall b, is_type b -> base (Same b) (heap x) = 0) /\
  exists u, pg_inv (pages (heap x)) u /\ map_to_list u ≡ₚ ref_pages (kheaproots (heap x)) /\ (length (map_to_list u) <= 16)%nat.
Proof.
  intros Hx EL Ep. destruct (reach_kinv x Hx) as (A & u & [C HL _]). rewrite EL, Ep in *. assert (A = []) as ->.
  { destruct A as [|pi A]; [done|]. destruct (page_in_use _ _ _ (h_page _ _ (c_h _ _ _ _ _ C) pi ltac:(left))) as (o & Hb & Hf).
    destruct (l_block _ _ HL pi o ltac:(left) Hb Hf) as (z & Hz & _). by apply lookup_empty_Some in Hz. }
  split; [apply (h_all _ _ (c_h _ _ _ _ _ C))|]. split; [apply (h_same _ _ (c_h _ _ _ _ _ C))|]. exists u. split; [apply C|].
  pose proof (c_own _ _ _ _ _ C) as Ho. cbn in Ho. rewrite app_nil_r in Ho. split; [done|]. rewrite Ho, <- (h_roots _ _ (c_h _ _ _ _ _ C)). apply ref_pages_length.
Qed.

(** C38: The consistency checks that kmalloc.c can be compiled with pass in every
    state that the steps of [allowed] reach: the free list of every heap page
    holds as many blocks as the page's count says, in the page and aligned, and
    the lists by size hold together as many pages as the list of all pages. *)
Theorem heap_checks_pass {Pg} `{KPagesSpec Pg} (x : sys Pg) : kreach x -> checksubpages (heap x) = Ok tt (heap x).
Proof.
  intros Hx. destruct (reach_kinv x Hx) as (A & u & [C _ _]). pose proof (c_slots _ _ _ _ _ C) as Hnd. apply NoDup_app in Hnd as [Hnd _].
  destruct (proj1 (wp_ok _ _ _) (wp_checksubpages A (heap x) (c_h _ _ _ _ _ C) Hnd)) as ([] & h & E & ->). done.
Qed.

(** ** Runs *)

Section Runs.
Context {Pg : Type} `{KPages Pg}.
Implicit Types (x : sys Pg).

Definition no_fullb (rts : list kheap_root) : bool := forallb (fun z => negb (page z =? 0) || (numinuse z <? 256)) rts.
Definition allowedb (o : kop) x : bool :=
  match o with
  | Malloc t sz => negb (bool_decide (is_Some (pend x !! t))) && (0 <=? sz) && (sz <=? 2 ^ 31)
  | Free t ptr => negb (bool_decide (is_Some (pend x !! t))) && ((ptr =? 0) || bool_decide (is_Some (live x !! ptr)))
  | Go t => bool_decide (is_Some (pend x !! t)) && no_fullb (kheaproots (heap x))
  | Write ptr i v => match live x !! ptr with Some sz => (0 <=? i) && (i <? words sz) | None => false end
  end.
Lemma no_fullb_ok rts : no_fullb rts = true -> no_full rts.
Proof.
  intros Hb r z Hz Hp. unfold no_fullb in Hb. rewrite forallb_forall in Hb. specialize (Hb z). apply list_elem_of_lookup_2, list_elem_of_In in Hz. specialize (Hb Hz).
  rewrite Hp in Hb. cbn in Hb. by apply Z.ltb_lt.
Qed.
Lemma allowedb_ok o x : allowedb o x = true -> allowed o x.
Proof.
  destruct o as [t sz|t ptr|t|ptr i v]; cbn [allowedb allowed].
  - intros [[H1%negb_true_iff%bool_decide_eq_false H2%Z.leb_le]%andb_true_iff H3%Z.leb_le]%andb_true_iff. split; [by apply eq_None_not_Some|lia].
  - intros [H1%negb_true_iff%bool_decide_eq_false [H2%Z.eqb_eq|H2%bool_decide_eq_true]%orb_true_iff]%andb_true_iff; (split; [by apply eq_None_not_Some|auto]).
  - intros [[[sz pc] Hp]%bool_decide_eq_true H2%no_fullb_ok]%andb_true_iff. eauto.
  - destruct (live x !! ptr) as [sz|]; [|done]. intros [H1%Z.leb_le H2%Z.ltb_lt]%andb_true_iff. eauto.
Qed.
(** A run of steps that callers may make. *)
Fixpoint run_kops (ops : list kop) x : option (sys Pg) :=
  match ops with
  | [] => Some x
  | o :: ops' => if allowedb o x then match run_kop o x with Ok _ x' => run_kops ops' x' | Fault _ => None end else None
  end.
End Runs.
Lemma run_reach {Pg} `{KPagesSpec Pg} ops : forall x x' : sys Pg, kreach x -> run_kops ops x = Some x' -> kreach x'.
Proof.
  induction ops as [|o ops IH]; intros x x' Hx; cbn; [by intros [= <-]|]. destruct (allowedb o x) eqn:Ha; [|done]. destruct (run_kop o x) as [[] y|f] eqn:Er; [|done].
  apply IH. eapply k_step; [done|by apply allowedb_ok|done].
Qed.

(** A block of 100 bytes and one of 5000 are allocated, written to and freed. *)
Definition sample_ops : list kop :=
  [Malloc 0 100; Malloc 1 5000; Go 0; Go 0; Go 0; Go 0; Write 0x80042f80 3 7; Free 1 0x80040000; Go 1; Free 2 0x80042f80].
Definition sample : sys vmstate := default (boot dumb0) (run_kops sample_ops (boot dumb0)).
Definition sample_end : sys vmstate := default sample (run_kops [Go 2] sample).

Lemma sample_reach : kreach sample.
Proof. eapply (run_reach sample_ops); [apply k_boot, dumb0_ok|]. by vm_compute. Qed.
Lemma sample_end_reach : kreach sample_end.
Proof. eapply (run_reach [Go 2]); [apply sample_reach|]. by vm_compute. Qed.

Lemma heap_refines_witness : allowed (Go 2) sample /\ exists x', run_kop (Go 2) sample = Ok tt x' /\ kreach x' /\
  astep (want (Go 2) sample) (Go 2) (view sample) (view x') /\ (forall t, Go 2 = Go t -> (steps_left x' t < steps_left sample t)%nat).
Proof.
  assert (allowed (Go 2) sample) as Ha by (apply allowedb_ok; by vm_compute). split; [exact Ha|]. apply (heap_refines sample (Go 2) sample_reach Ha).
Defined.
Lemma heap_no_leak_witness : live sample_end = ∅ /\ pend sample_end = ∅ /\ allbase (heap sample_end) = 0 /\
  exists u, pg_inv (pages (heap sample_end)) u /\ map_to_list u ≡ₚ ref_pages (kheaproots (heap sample_end)) /\ (length (map_to_list u) <= 16)%nat.
Proof.
  assert (live sample_end = ∅) as E1 by (by vm_compute). assert (pend sample_end = ∅) as E2 by (by vm_compute).
  destruct (heap_no_leak sample_end sample_end_reach E1 E2) as (H1 & _ & H2).
  exact (conj E1 (conj E2 (conj H1 H2))).
Defined.
Lemma heap_checks_pass_witness : checksubpages (heap sample) = Ok tt (heap sample).
Proof. apply (heap_checks_pass sample sample_reach). Defined.

(** ** Lost page references *)

(** dumbvm, with the outcome of each request for pages given in advance *)
#[export] Instance short_pages : KPages (vmstate * list bool) := {
  alloc_kpages n s := match s.2 with
                      | false :: l => (0, (s.1, l))
                      | _ => let (va, p) := alloc_kpages n s.1 in (va, (p, tail s.2))
                      end;
  free_kpages va s := (free_kpages va s.1, s.2)
}.
#[export] Instance short_pages_ok : KPagesSpec (vmstate * list bool).
Proof.
  refine {| pg_inv s := pg_inv s.1 |}.
  - intros p u b n. apply pg_range.
  - intros p u b n b' n'. apply pg_apart.
  - intros n [p l] u va p' Hi Hn Ha. assert (va = 0 /\ p'.1 = p \/ alloc_kpages n p = (va, p'.1)) as [[-> ->]|E]; [|by left|exact (alloc_spec n p u va p'.1 Hi Hn E)].
    cbn [alloc_kpages short_pages fst snd] in Ha. destruct l as [|[] l]; [right|right|left; by injection Ha as <- <-]; destruct (alloc_kpages n p) as [w q]; by injection Ha as <- <-.
  - intros p u va n. apply free_spec.
Defined.

(** The steps of one call, without what [allowed] asks of the roots. *)
Fixpoint run_steps {Pg} `{KPages Pg} (ops : list kop) (x : sys Pg) : outcome (sys Pg) unit :=
  match ops with
  | [] => Ok tt x
  | o :: ops' => match run_kop o x with Ok _ x' => run_steps ops' x' | Fault f => Fault f end
  end.
Definition one_malloc : list kop := [Malloc 0 16; Go 0; Go 0; Go 0; Go 0].
Definition short0 : vmstate * list bool :=
  (VmState 0x40000 0x1000000 (fun _ => 0) ∅ [] 0 0 [] 1, concat (replicate 256 [true; false])).

Definition ends_badly (r : outcome (sys (vmstate * list bool)) unit) : bool :=
  match r with
  | Ok _ x => bool_decide (live x = {[0x80140ff0 := 16]}) && bool_decide (map_to_list (pend x) = []) && match run_kop (Free 0 0x80140ff0) x with Fault FPanic => true | _ => false end
  | Fault _ => false
  end.

(** A call of kmalloc that gets a page for blocks but none for page references
    keeps the slot it has marked.  After 256 such calls, one at a time, the next
    kmalloc takes its reference from the second root, and the kfree of its block
    fails an assertion, since the first root has slots in use and no page. *)
Theorem lost_refs_panic : exists x : sys (vmstate * list bool),
  run_steps (concat (replicate 256 (one_malloc ++ [Go 0])) ++ one_malloc) (boot short0) = Ok tt x /\
  live x = {[0x80140ff0 := 16]} /\ pend x = ∅ /\ run_kop (Free 0 0x80140ff0) x = Fault FPanic.
Proof.
  assert (ends_badly (run_steps (concat (replicate 256 (one_malloc ++ [Go 0])) ++ one_malloc) (boot short0)) = true) as Hb by (vm_compute; reflexivity).
  destruct (run_steps _ _) as [[] x|f]; [|discriminate Hb]. exists x. split; [reflexivity|]. cbn [ends_badly] in Hb.
  apply andb_true_iff in Hb as [[H1%bool_decide_eq_true H2%bool_decide_eq_true%map_to_list_empty_iff]%andb_true_iff H3]. split; [exact H1|]. split; [exact H2|].
  destruct (run_kop _ x) as [|[]]; try discriminate H3. reflexivity.
Qed.
End KmallocCheck.
