(* ===== verification/Lhd.v ===== *)
(** * The disk driver

    Model of kern/dev/lamebus/lhd.c.  The disk is hardware, an interface: the
    operation that a write to its status register starts, with the status that
    the interrupt handler then reads.  The operation and its interrupt are over
    when lhd_io waits for them.  The driver works on any kind of [struct uio]:
    the caller's, which goes through uiomove, and one for a buffer in the
    kernel, whose memory is kept as the buffer's bytes. *)

From S2P Require Import Prelude Kern Interfaces Copyinout Uio Vfs.
Open Scope Z_scope.

(** The disk: whether it is a write, the sector, the bytes of the card's
    buffer; the status, and the buffer after a read *)
Class DiskHw (D : Type) := { hw_io : bool -> Z -> list Z -> D -> Z * list Z * D }.

(** What the driver uses of a uio. *)
Class UioLike (S U : Type) := {
  u_offset : U -> Z; u_resid : U -> Z; u_rw : U -> uio_rw;
  u_set_resid : Z -> U -> U;
  u_move : list Z -> Z -> U -> M S (res unit * U * list Z)
}.

(** A uio for a buffer in the kernel: the bytes from [k_pos] on are to be used. *)
Record kuio := KUio { k_buf : list Z; k_pos : Z; k_offset : Z; k_resid : Z; k_rw : uio_rw }.

(** struct lhd_softc: the card's buffer, the result of the last operation, the
    counts of the semaphores, the disk *)
Record lhd_softc (D : Type) := Lhd { lh_buf : list Z; lh_result : res unit; lh_clear : Z; lh_done : Z; lh_hw : D }.
Arguments Lhd {D}.
Arguments lh_buf {D}.
Arguments lh_result {D}.
Arguments lh_clear {D}.
Arguments lh_done {D}.
Arguments lh_hw {D}.

(** A state of file systems and drivers with disks, by the address of their
    device. *)
Class HasLhd (G D : Type) := {
  lhds : G -> gmap Z (lhd_softc D);
  set_lhds : gmap Z (lhd_softc D) -> G -> G;
  lhds_set m g : lhds (set_lhds m g) = m;
  set_lhds_set m m' g : set_lhds m (set_lhds m' g) = set_lhds m g
}.

Module Lhd.
Import Vfs.

Definition LHD_IDLE : Z := 0.
Definition LHD_WORKING : Z := 1.
Definition LHD_OK : Z := 4.
Definition LHD_INVSECT : Z := 12.
Definition LHD_MEDIA : Z := 20.
Definition LHD_STATEMASK : Z := 0x1d.
Definition LHD_SECTSIZE : Z := 512.

#[export] Instance uio_like {G} : UioLike (vstate G) uio := {
  u_offset := uio_offset; u_resid := uio_resid; u_rw := uio_dir;
  u_set_resid n u := Interfaces.Uio (uio_iov u) (uio_offset u) n (uio_segflg u) (uio_dir u) (uio_space u);
  u_move := Uio.uiomove
}.

(** uiomove on a buffer in the kernel *)
Definition kuiomove {S} (out : list Z) (n : Z) (u : kuio) : M S (res unit * kuio * list Z) :=
  let size := Z.min n (k_resid u) in
  let pos := Z.to_nat (k_pos u) in
  let u' b := KUio b (k_pos u + size) (k_offset u + size) (k_resid u - size) (k_rw u) in
  match k_rw u with
  | UIO_READ => mret (Done tt, u' (take pos (k_buf u) ++ take (Z.to_nat size) out ++ drop (pos + Z.to_nat size) (k_buf u)), [])
  | UIO_WRITE => mret (Done tt, u' (k_buf u), take (Z.to_nat size) (drop pos (k_buf u)))
  end.
#[export] Instance kuio_like {S} : UioLike S kuio := {
  u_offset := k_offset; u_resid := k_resid; u_rw := k_rw;
  u_set_resid n u := KUio (k_buf u) (k_pos u) (k_offset u) n (k_rw u);
  u_move := kuiomove
}.

Section Driver.
Context {G D : Type} `{HasLhd G D} `{DiskHw D}.
Abbreviation V := (vstate G).

Definition get_lhd (d : Z) : M V (lhd_softc D) := s ← get; deref FDangling (lhds (v_backend s) !! d).
Definition put_lhd (d : Z) (x : lhd_softc D) : M V unit :=
  modify (fun s => set_backend (set_lhds (<[d := x]> (lhds (v_backend s))) (v_backend s)) s).

(** P and V on the two semaphores; P of one that is 0 waits. *)
Definition P_clear (d : Z) : M V unit :=
  x ← get_lhd d; if lh_clear x =? 0 then raise FBlocked else put_lhd d (Lhd (lh_buf x) (lh_result x) (lh_clear x - 1) (lh_done x) (lh_hw x)).
Definition V_clear (d : Z) : M V unit :=
  x ← get_lhd d; put_lhd d (Lhd (lh_buf x) (lh_result x) (lh_clear x + 1) (lh_done x) (lh_hw x)).
Definition P_done (d : Z) : M V unit :=
  x ← get_lhd d; if lh_done x =? 0 then raise FBlocked else put_lhd d (Lhd (lh_buf x) (lh_result x) (lh_clear x) (lh_done x - 1) (lh_hw x)).

(** static int lhd_code_to_errno(struct lhd_softc *lh, int code) *)
Definition lhd_code_to_errno (code : Z) : res unit :=
  let c := Z.land code LHD_STATEMASK in
  if c =? LHD_OK then Done tt else
  if c =? LHD_INVSECT then Err EINVAL else
  if c =? LHD_MEDIA then Err EIO else Err EAGAIN.

(** static void lhd_iodone(struct lhd_softc *lh, int err) *)
Definition lhd_iodone (d : Z) (err : res unit) : M V unit :=
  x ← get_lhd d; put_lhd d (Lhd (lh_buf x) err (lh_clear x) (lh_done x + 1) (lh_hw x)).

(** void lhd_irq(void *vlh), with the value of the status register *)
Definition lhd_irq (d val : Z) : M V unit :=
  let c := Z.land val LHD_STATEMASK in
  if (c =? LHD_IDLE) || (c =? LHD_WORKING) then mret tt else
  if (c =? LHD_OK) || (c =? LHD_INVSECT) || (c =? LHD_MEDIA) then lhd_iodone d (lhd_code_to_errno val)
  else mret tt.

(** The registers are written: the disk does its work and interrupts. *)
Definition lhd_start (d : Z) (iswrite : bool) (sector : Z) : M V unit :=
  x ← get_lhd d;
  let '(val, buf, hw) := hw_io iswrite sector (lh_buf x) (lh_hw x) in
  put_lhd d (Lhd buf (lh_result x) (lh_clear x) (lh_done x) hw) ;;
  lhd_irq d val.

Section Io.
Context {U : Type} `{UioLike V U}.

(** One sector of lhd_io *)
Definition lhd_sector (d sector : Z) (u : U) : M V (res unit * U) :=
  P_clear d ;;
  w ← (match u_rw u with
       | UIO_WRITE =>
           r ← u_move [] LHD_SECTSIZE u;
           let '(r, u, got) := r in
           x ← get_lhd d;
           put_lhd d (Lhd (got ++ drop (length got) (lh_buf x)) (lh_result x) (lh_clear x) (lh_done x) (lh_hw x)) ;;
           mret (r, u)
       | UIO_READ => mret (Done tt, u)
       end);
  let '(r, u) := w in
  match r with
  | Err e => V_clear d ;; mret (Err e, u)
  | Done _ =>
      lhd_start d (bool_decide (u_rw u = UIO_WRITE)) sector ;;
      P_done d ;;
      x ← get_lhd d;
      w ← (match lh_result x, u_rw u with
           | Done _, UIO_READ =>
               r ← u_move (lh_buf x) LHD_SECTSIZE u;
               let '(r, u, _) := r in mret (r, u)
           | r, _ => mret (r, u)
           end);
      V_clear d ;;
      mret w
  end.
Fixpoint lhd_loop (n : nat) (d sector : Z) (u : U) : M V (res unit * U) :=
  match n with
  | O => mret (Done tt, u)
  | S n' =>
      r ← lhd_sector d sector u;
      match r with
      | (Err e, u) => mret (Err e, u)
      | (Done _, u) => lhd_loop n' d (u32 (sector + 1)) u
      end
  end.

(** static int lhd_io(struct device *d, struct uio *uio) *)
Definition lhd_io (d : Z) (u : U) : M V (res unit * U) :=
  let sector := u32 (Z.quot (u_offset u) LHD_SECTSIZE) in
  let sectoff := u32 (Z.rem (u_offset u) LHD_SECTSIZE) in
  let len := u_resid u / LHD_SECTSIZE in
  let lenoff := u_resid u mod LHD_SECTSIZE in
  if negb (sectoff =? 0) || negb (lenoff =? 0) then mret (Err EINVAL, u) else
  x ← get_device d;
  if u32 (sector + len) >? d_blocks x then mret (Err EINVAL, u) else
  lhd_loop (Z.to_nat len) d sector u.

(** DEVOP_IO on any kind of uio *)
Definition devop_io (d : Z) (u : U) : M V (res unit * U) :=
  x ← get_device d;
  match d_ops x with
  | null_devops => mret (Done tt, match u_rw u with UIO_WRITE => u_set_resid 0 u | UIO_READ => u end)
  | drv_devops => lhd_io d u
  end.
End Io.

(** static int lhd_eachopen(d, openflags), lhd_ioctl(d, op, data) *)
Definition lhd_eachopen (d openflags : Z) : M V (res unit) := mret (Done tt).
Definition lhd_ioctl (d op data : Z) : M V (res unit) := mret (Err EIOCTL).
End Driver.
End Lhd.
