(* ===== verification/Sfs.v ===== *)
(** * The file system SFS

    Model of kern/fs/sfs: block allocation, block mapping and truncation, file
    and metadata I/O, the directory, the life of inodes, and the operations of
    vnodes and of the mounted file system.  The operations run on the state of
    the VFS layer, whose part for file systems and drivers holds the mounted
    volumes, the private data of loaded vnodes by the vnode's address, and the
    disks.  Buffers in the kernel are their bytes; words on the disk have their
    most significant byte first. *)

From S2P Require Import Prelude Kern Bswap Bitmap Array Interfaces Copyinout Uio Vfs Lhd.
Open Scope Z_scope.
Open Scope kern_scope.

(** ** On the disk *)

Record sfs_superblock := Superblock { sb_magic : Z; sb_nblocks : Z; sb_volname : list Z; sb_reserved : list Z }.
Record sfs_dinode := Dinode {
  sfi_size : Z; sfi_type : Z; sfi_linkcount : Z; sfi_direct : list Z; sfi_indirect : Z; sfi_waste : list Z
}.
Record sfs_direntry := Direntry { sfd_ino : Z; sfd_name : list Z }.

(** ** In memory *)

(** The tables of operations *)
Inductive sfs_ops : Type := sfs_fileops | sfs_dirops.

(** struct sfs_vnode; [sv_absvn] is the vnode at the same address. *)
Record sfs_vnode := SfsVnode { sv_i : sfs_dinode; sv_ino : Z; sv_dirty : bool; sv_ops : sfs_ops }.

(** struct sfs_fs *)
Record sfs_fs := SfsFs {
  sfs_sb : sfs_superblock; sfs_superdirty : bool; sfs_device : Z;
  sfs_vnodes : Array.array Z; sfs_freemap : option Bitmap.bitmap; sfs_freemapdirty : bool
}.

(** The volumes by address, the loaded vnodes, the disks *)
Record sfs_state (D : Type) := SfsState { fss : gmap Z sfs_fs; svs : gmap Z sfs_vnode; disks : gmap Z (lhd_softc D) }.
Arguments SfsState {D}.
Arguments fss {D}.
Arguments svs {D}.
Arguments disks {D}.

#[export] Instance sfs_lhds {D} : HasLhd (sfs_state D) D := { lhds := disks; set_lhds d g := SfsState (fss g) (svs g) d; lhds_set _ _ := eq_refl; set_lhds_set _ _ _ := eq_refl }.

Module Sfs.
Import Vfs Lhd.

Definition SFS_MAGIC : Z := 0xabadf001.
Definition SFS_BLOCKSIZE : Z := 512.
Definition SFS_VOLNAME_SIZE : Z := 32.
Definition SFS_NDIRECT : Z := 15.
Definition SFS_NINDIRECT : Z := 1.
Definition SFS_DBPERIDB : Z := 128.
Definition SFS_NAMELEN : Z := 60.
Definition SFS_SUPER_BLOCK : Z := 0.
Definition SFS_FREEMAP_START : Z := 2.
Definition SFS_NOINO : Z := 0.
Definition SFS_ROOTDIR_INO : Z := 1.
Definition SFS_BITSPERBLOCK : Z := SFS_BLOCKSIZE * 8.
Definition SFS_ROUNDUP (a b : Z) : Z := u32 (a + b - 1) / b * b.
Definition SFS_FREEMAPBITS (nblocks : Z) : Z := SFS_ROUNDUP nblocks SFS_BITSPERBLOCK.
Definition SFS_FREEMAPBLOCKS (nblocks : Z) : Z := SFS_FREEMAPBITS nblocks / SFS_BITSPERBLOCK.
Definition SFS_TYPE_INVAL : Z := 0.
Definition SFS_TYPE_FILE : Z := 1.
Definition SFS_TYPE_DIR : Z := 2.
Definition SIZEOF_DIRENTRY : Z := 64.

(** *** Structures as bytes *)

Definition word_at (bs : list Z) (i : nat) : Z := Bswap.be_value (take 4 (drop (4 * i) bs)).
Definition words_from (bs : list Z) (first n : nat) : list Z := word_at bs <$> seq first n.
Definition word_bytes (ws : list Z) : list Z := ws ≫= Bswap.be_bytes 4.

Definition read_super (bs : list Z) : sfs_superblock :=
  Superblock (word_at bs 0) (word_at bs 1) (take 32 (drop 8 bs)) (words_from bs 10 118).
Definition super_bytes (x : sfs_superblock) : list Z :=
  word_bytes [sb_magic x; sb_nblocks x] ++ sb_volname x ++ word_bytes (sb_reserved x).
Definition read_dinode (bs : list Z) : sfs_dinode :=
  Dinode (word_at bs 0) (Bswap.be_value (take 2 (drop 4 bs))) (Bswap.be_value (take 2 (drop 6 bs)))
    (words_from bs 2 15) (word_at bs 17) (words_from bs 18 110).
Definition dinode_bytes (x : sfs_dinode) : list Z :=
  Bswap.be_bytes 4 (sfi_size x) ++ Bswap.be_bytes 2 (sfi_type x) ++ Bswap.be_bytes 2 (sfi_linkcount x) ++
  word_bytes (sfi_direct x) ++ Bswap.be_bytes 4 (sfi_indirect x) ++ word_bytes (sfi_waste x).
Definition read_direntry (bs : list Z) : sfs_direntry := Direntry (word_at bs 0) (take 60 (drop 4 bs)).
Definition direntry_bytes (x : sfs_direntry) : list Z := Bswap.be_bytes 4 (sfd_ino x) ++ sfd_name x.

(** A string in a buffer: up to the first 0 *)
Fixpoint cstring (bs : list Z) : list Z := match bs with [] => [] | b :: bs' => if b =? 0 then [] else b :: cstring bs' end.

Section Ops.
Context {D : Type} `{DiskHw D}.
Abbreviation G := (sfs_state D).
Abbreviation V := (vstate G).

(** *** Access *)

Definition get_fs (f : Z) : M V sfs_fs := if f =? 0 then raise FNull else s ← get; deref FDangling (fss (v_backend s) !! f).
Definition put_fs (f : Z) (x : sfs_fs) : M V unit :=
  modify (fun s => set_backend (SfsState (<[f := x]> (fss (v_backend s))) (svs (v_backend s)) (disks (v_backend s))) s).
Definition get_sv (v : Z) : M V sfs_vnode := if v =? 0 then raise FNull else s ← get; deref FDangling (svs (v_backend s) !! v).
Definition put_sv (v : Z) (x : sfs_vnode) : M V unit :=
  modify (fun s => set_backend (SfsState (fss (v_backend s)) (<[v := x]> (svs (v_backend s))) (disks (v_backend s))) s).
(** sv->sv_absvn.vn_fs->fs_data *)
Definition fs_of (v : Z) : M V Z := x ← get_vnode v; mret (vn_fs x).
(** The inode is changed and marked dirty. *)
Definition set_inode (v : Z) (f : sfs_dinode -> sfs_dinode) : M V unit :=
  x ← get_sv v; put_sv v (SfsVnode (f (sv_i x)) (sv_ino x) true (sv_ops x)).
Definition set_size (n : Z) (i : sfs_dinode) : sfs_dinode := Dinode n (sfi_type i) (sfi_linkcount i) (sfi_direct i) (sfi_indirect i) (sfi_waste i).
Definition set_linkcount (n : Z) (i : sfs_dinode) : sfs_dinode := Dinode (sfi_size i) (sfi_type i) n (sfi_direct i) (sfi_indirect i) (sfi_waste i).
Definition set_direct (k b : Z) (i : sfs_dinode) : sfs_dinode :=
  Dinode (sfi_size i) (sfi_type i) (sfi_linkcount i) (<[Z.to_nat k := b]> (sfi_direct i)) (sfi_indirect i) (sfi_waste i).
Definition set_indirect (b : Z) (i : sfs_dinode) : sfs_dinode := Dinode (sfi_size i) (sfi_type i) (sfi_linkcount i) (sfi_direct i) b (sfi_waste i).
Definition set_type (t : Z) (i : sfs_dinode) : sfs_dinode := Dinode (sfi_size i) t (sfi_linkcount i) (sfi_direct i) (sfi_indirect i) (sfi_waste i).
(** An operation on the bitmap of free blocks *)
Definition on_freemap {A} (f : Z) (m : M Bitmap.bitmap A) : M V A :=
  x ← get_fs f;
  b ← deref FNull (sfs_freemap x);
  match m b with
  | Fault e => raise e
  | Ok a b' => put_fs f (SfsFs (sfs_sb x) (sfs_superdirty x) (sfs_device x) (sfs_vnodes x) (Some b') (sfs_freemapdirty x)) ;; mret a
  end.
Definition set_freemapdirty (f : Z) (d : bool) : M V unit :=
  x ← get_fs f; put_fs f (SfsFs (sfs_sb x) (sfs_superdirty x) (sfs_device x) (sfs_vnodes x) (sfs_freemap x) d).
Definition set_vnodearray (f : Z) (a : Array.array Z) : M V unit :=
  x ← get_fs f; put_fs f (SfsFs (sfs_sb x) (sfs_superdirty x) (sfs_device x) a (sfs_freemap x) (sfs_freemapdirty x)).
Definition must_hold : M V unit := held ← vfs_biglock_do_i_hold; kassert held.

(** ** sfs_io.c: blocks *)

(** static int sfs_rwblock(struct sfs_fs *sfs, struct uio *uio): it tries again
    after an I/O error, ten times *)
Section Rw.
Context {U : Type} `{UioLike V U}.
Fixpoint rwblock_loop (n : nat) (dev : Z) (u : U) : M V (res unit * U) :=
  r ← devop_io dev u;
  match r with
  | (Err EINVAL, _) => raise FPanic
  | (Err EIO, u') => match n with O => mret (Err EIO, u') | S n' => rwblock_loop n' dev u' end
  | _ => mret r
  end.
Definition sfs_rwblock (f : Z) (u : U) : M V (res unit * U) :=
  must_hold ;; x ← get_fs f; rwblock_loop 10 (sfs_device x) u.
End Rw.

Definition SFSUIO (data : list Z) (block : Z) (rw : uio_rw) : kuio := KUio data 0 (block * SFS_BLOCKSIZE) SFS_BLOCKSIZE rw.
(** int sfs_readblock(sfs, block, data, len), int sfs_writeblock(sfs, block, data, len) *)
Definition sfs_readblock (f block : Z) : M V (res (list Z)) :=
  r ← sfs_rwblock f (SFSUIO (replicate (Z.to_nat SFS_BLOCKSIZE) 0) block UIO_READ);
  mret (match r.1 with Done _ => Done (k_buf r.2) | Err e => Err e end).
Definition sfs_writeblock (f block : Z) (data : list Z) : M V (res unit) :=
  kassert (Z.of_nat (length data) =? SFS_BLOCKSIZE) ;;
  r ← sfs_rwblock f (SFSUIO data block UIO_WRITE);
  mret r.1.

(** ** sfs_balloc.c *)

Definition sfs_clearblock (f block : Z) : M V (res unit) := sfs_writeblock f block (replicate (Z.to_nat SFS_BLOCKSIZE) 0).
Definition sfs_balloc (f : Z) : M V (res Z) :=
  diskblock ←? on_freemap f Bitmap.bitmap_alloc;
  set_freemapdirty f true ;;
  x ← get_fs f;
  if diskblock >=? sb_nblocks (sfs_sb x) then raise FPanic else
  r ← sfs_clearblock f diskblock;
  match r with
  | Err e => on_freemap f (Bitmap.bitmap_unmark diskblock) ;; mret (Err e)
  | Done _ => mret (Done diskblock)
  end.
Definition sfs_bfree (f diskblock : Z) : M V unit := on_freemap f (Bitmap.bitmap_unmark diskblock) ;; set_freemapdirty f true.
Definition sfs_bused (f diskblock : Z) : M V bool :=
  x ← get_fs f;
  if diskblock >=? sb_nblocks (sfs_sb x) then raise FPanic else
  r ← on_freemap f (Bitmap.bitmap_isset diskblock);
  mret (negb (r =? 0)).

(** ** sfs_bmap.c *)

(** The check before a block is handed back *)
Definition hand_back (f block : Z) : M V (res Z) :=
  used ← (if block =? 0 then mret true else sfs_bused f block);
  if negb used then raise FPanic else mret (Done block).
(** int sfs_bmap(sv, fileblock, doalloc, diskblock) *)
Definition bmap_direct (v f fileblock : Z) (doalloc : bool) : M V (res Z) :=
  x ← get_sv v;
  block ← deref FBounds (sfi_direct (sv_i x) !! Z.to_nat fileblock);
  block ←? (if (block =? 0) && doalloc
            then b ←? sfs_balloc f; set_inode v (set_direct fileblock b) ;; mret (Done b)
            else mret (Done block));
  hand_back f block.
(** The entry [idoff] of the indirect block, which is in memory *)
Definition bmap_entry (f idblock : Z) (idbuf : list Z) (idoff : Z) (doalloc : bool) : M V (res Z) :=
  block ← deref FBounds (idbuf !! Z.to_nat idoff);
  block ←? (if (block =? 0) && doalloc
            then b ←? sfs_balloc f;
                 _ ←? sfs_writeblock f idblock (word_bytes (<[Z.to_nat idoff := b]> idbuf));
                 mret (Done b)
            else mret (Done block));
  hand_back f block.
Definition bmap_indirect (v f fileblock : Z) (doalloc : bool) : M V (res Z) :=
  let fileblock := fileblock - SFS_NDIRECT in
  let idnum := fileblock / SFS_DBPERIDB in
  let idoff := fileblock mod SFS_DBPERIDB in
  if idnum >=? SFS_NINDIRECT then mret (Err EFBIG) else
  x ← get_sv v;
  let idblock := sfi_indirect (sv_i x) in
  if (idblock =? 0) && negb doalloc then mret (Done 0) else
  ib ←? (if idblock =? 0
         then b ←? sfs_balloc f; set_inode v (set_indirect b) ;; mret (Done (b, replicate (Z.to_nat SFS_DBPERIDB) 0))
         else bs ←? sfs_readblock f idblock; mret (Done (idblock, words_from bs 0 (Z.to_nat SFS_DBPERIDB))));
  let '(idblock, idbuf) := ib in
  bmap_entry f idblock idbuf idoff doalloc.
Definition sfs_bmap (v fileblock : Z) (doalloc : bool) : M V (res Z) :=
  f ← fs_of v;
  must_hold ;;
  if fileblock <? SFS_NDIRECT then bmap_direct v f fileblock doalloc else bmap_indirect v f fileblock doalloc.

(** int sfs_itrunc(struct sfs_vnode *sv, off_t len) *)
Definition trunc_direct (v f blocklen i : Z) : M V unit :=
  x ← get_sv v;
  block ← deref FBounds (sfi_direct (sv_i x) !! Z.to_nat i);
  if (i >=? blocklen) && negb (block =? 0) then sfs_bfree f block ;; set_inode v (set_direct i 0) else mret tt.
(** The loop over the indirect block: the block, whether an entry is left,
    whether one was cleared *)
Fixpoint trunc_loop (n : nat) (f blocklen j : Z) (idbuf : list Z) (hasnonzero iddirty : bool) : M V (list Z * bool * bool) :=
  match n with
  | O => mret (idbuf, hasnonzero, iddirty)
  | S n' =>
      b ← deref FBounds (idbuf !! Z.to_nat j);
      if (blocklen <? SFS_NDIRECT + j) && negb (b =? 0) then
        sfs_bfree f b ;; trunc_loop n' f blocklen (j + 1) (<[Z.to_nat j := 0]> idbuf) hasnonzero true
      else trunc_loop n' f blocklen (j + 1) idbuf (hasnonzero || negb (b =? 0)) iddirty
  end.
Definition trunc_indirect (v f blocklen : Z) : M V (res unit) :=
  x ← get_sv v;
  let idblock := sfi_indirect (sv_i x) in
  let highblock := SFS_NDIRECT + SFS_DBPERIDB - 1 in
  if negb ((blocklen <? highblock) && negb (idblock =? 0)) then mret (Done tt) else
  bs ←? sfs_readblock f idblock;
  t ← trunc_loop (Z.to_nat SFS_DBPERIDB) f blocklen 0 (words_from bs 0 (Z.to_nat SFS_DBPERIDB)) false false;
  let '(idbuf, hasnonzero, iddirty) := t in
  if negb hasnonzero then sfs_bfree f idblock ;; set_inode v (set_indirect 0) ;; mret (Done tt) else
  if (iddirty : bool) then sfs_writeblock f idblock (word_bytes idbuf) else mret (Done tt).
Definition sfs_itrunc (v len : Z) : M V (res unit) :=
  f ← fs_of v;
  let blocklen := u32 (Z.quot (len + SFS_BLOCKSIZE - 1) SFS_BLOCKSIZE) in
  vfs_biglock_acquire ;;
  for_each (seqZ 0 SFS_NDIRECT) (trunc_direct v f blocklen) ;;
  r ← trunc_indirect v f blocklen;
  match r with
  | Err e => unlock_ret (Err e)
  | Done _ => set_inode v (set_size (u32 len)) ;; unlock_ret (Done tt)
  end.

(** ** sfs_io.c: files *)

Definition set_pos (offset resid : Z) (u : uio) : uio := Interfaces.Uio (uio_iov u) offset resid (uio_segflg u) (uio_dir u) (uio_space u).

(** static int sfs_partialio(sv, uio, skipstart, len) *)
Definition sfs_partialio (v : Z) (u : uio) (skipstart len : Z) : M V (res unit * uio) :=
  let doalloc := bool_decide (uio_dir u = UIO_WRITE) in
  kassert (skipstart + len <=? SFS_BLOCKSIZE) ;;
  must_hold ;;
  f ← fs_of v;
  r ← sfs_bmap v (u32 (Z.quot (uio_offset u) SFS_BLOCKSIZE)) doalloc;
  match r with
  | Err e => mret (Err e, u)
  | Done diskblock =>
      r ← (if diskblock =? 0 then kassert (negb doalloc) ;; mret (Done (replicate (Z.to_nat SFS_BLOCKSIZE) 0)) else sfs_readblock f diskblock);
      match r with
      | Err e => mret (Err e, u)
      | Done iobuf =>
          r ← Uio.uiomove (drop (Z.to_nat skipstart) iobuf) len u;
          let '(r, u, got) := r in
          match r with
          | Err e => mret (Err e, u)
          | Done _ =>
              if doalloc then
                r ← sfs_writeblock f diskblock (take (Z.to_nat skipstart) iobuf ++ got ++ drop (Z.to_nat skipstart + length got) iobuf);
                mret (r, u)
              else mret (Done tt, u)
          end
      end
  end.

(** static int sfs_blockio(struct sfs_vnode *sv, struct uio *uio) *)
Definition sfs_blockio (v : Z) (u : uio) : M V (res unit * uio) :=
  let doalloc := bool_decide (uio_dir u = UIO_WRITE) in
  f ← fs_of v;
  r ← sfs_bmap v (u32 (Z.quot (uio_offset u) SFS_BLOCKSIZE)) doalloc;
  match r with
  | Err e => mret (Err e, u)
  | Done diskblock =>
      if diskblock =? 0 then kassert (negb doalloc) ;; Uio.uiomovezeros SFS_BLOCKSIZE u else
      let saveoff := uio_offset u in
      let diskoff := u32 (diskblock * SFS_BLOCKSIZE) in
      kassert (uio_resid u >=? SFS_BLOCKSIZE) ;;
      let saveres := uio_resid u in
      r ← sfs_rwblock f (set_pos diskoff SFS_BLOCKSIZE u);
      let '(r, u) := r in
      mret (r, set_pos (uio_offset u - diskoff + saveoff) (u32 (uio_resid u - SFS_BLOCKSIZE + saveres)) u)
  end.
Fixpoint blockio_loop (n : nat) (v : Z) (u : uio) : M V (res unit * uio) :=
  match n with
  | O => mret (Done tt, u)
  | S n' =>
      r ← sfs_blockio v u;
      match r with
      | (Err e, u) => mret (Err e, u)
      | (Done _, u) => blockio_loop n' v u
      end
  end.

(** int sfs_io(struct sfs_vnode *sv, struct uio *uio): the first part of a
    block, the whole blocks, the last part, and the label [out] *)
Definition io_first (v : Z) (u : uio) : M V (res unit * uio) :=
  let blkoff := u32 (Z.rem (uio_offset u) SFS_BLOCKSIZE) in
  if blkoff =? 0 then mret (Done tt, u) else
  let len := SFS_BLOCKSIZE - blkoff in
  sfs_partialio v u blkoff (if len >? uio_resid u then uio_resid u else len).
Definition io_rest (v : Z) (u : uio) : M V (res unit * uio) :=
  if uio_resid u =? 0 then mret (Done tt, u) else
  kassert (Z.rem (uio_offset u) SFS_BLOCKSIZE =? 0) ;;
  r ← blockio_loop (Z.to_nat (uio_resid u / SFS_BLOCKSIZE)) v u;
  match r with
  | (Err e, u) => mret (Err e, u)
  | (Done _, u) =>
      kassert (uio_resid u <? SFS_BLOCKSIZE) ;;
      if uio_resid u >? 0 then sfs_partialio v u 0 (uio_resid u) else mret (Done tt, u)
  end.
Definition io_out (v origresid : Z) (reading : bool) (extraresid : Z) (r : res unit * uio) : M V (res unit * uio) :=
  let '(r, u) := r in
  x ← get_sv v;
  (if negb (uio_resid u =? origresid) && negb reading && (uio_offset u >? sfi_size (sv_i x))
   then set_inode v (set_size (u32 (uio_offset u))) else mret tt) ;;
  mret (r, set_pos (uio_offset u) (u32 (uio_resid u + extraresid)) u).
Definition sfs_io (v : Z) (u : uio) : M V (res unit * uio) :=
  let origresid := uio_resid u in
  x ← get_sv v;
  let size := sfi_size (sv_i x) in
  let endpos := uio_offset u + uio_resid u in
  let reading := bool_decide (uio_dir u = UIO_READ) in
  if reading && (uio_offset u >=? size) then mret (Done tt, u) else
  let extraresid := if reading && (endpos >? size) then u32 (endpos - size) else 0 in
  kassert ((extraresid =? 0) || (uio_resid u >? extraresid)) ;;
  let u := set_pos (uio_offset u) (uio_resid u - extraresid) u in
  r ← io_first v u;
  r ← (match r with (Err e, u) => mret (Err e, u) | (Done _, u) => io_rest v u end);
  io_out v origresid reading extraresid r.

(** int sfs_metaio(sv, actualpos, data, len, rw): the bytes read, or [data]
    written *)
Definition sfs_metaio (v actualpos : Z) (data : list Z) (len : Z) (rw : uio_rw) : M V (res (list Z)) :=
  f ← fs_of v;
  must_hold ;;
  let vnblock := u32 (Z.quot actualpos SFS_BLOCKSIZE) in
  let blockoffset := Z.to_nat (u32 (Z.rem actualpos SFS_BLOCKSIZE)) in
  let doalloc := bool_decide (rw = UIO_WRITE) in
  diskblock ←? sfs_bmap v vnblock doalloc;
  if diskblock =? 0 then kassert (negb doalloc) ;; mret (Done (replicate (Z.to_nat len) 0)) else
  metaiobuf ←? sfs_readblock f diskblock;
  match rw with
  | UIO_READ => mret (Done (take (Z.to_nat len) (drop blockoffset metaiobuf)))
  | UIO_WRITE =>
      _ ←? sfs_writeblock f diskblock (take blockoffset metaiobuf ++ data ++ drop (blockoffset + length data) metaiobuf);
      let endpos := actualpos + len in
      x ← get_sv v;
      (if endpos >? sfi_size (sv_i x) then set_inode v (set_size (u32 endpos)) else mret tt) ;;
      mret (Done [])
  end.

(** ** sfs_dir.c *)

Definition sfs_readdir (v slot : Z) : M V (res sfs_direntry) :=
  bs ←? sfs_metaio v (u32 (slot * SIZEOF_DIRENTRY)) [] SIZEOF_DIRENTRY UIO_READ; mret (Done (read_direntry bs)).
Definition sfs_writedir (v slot : Z) (sd : sfs_direntry) : M V (res unit) :=
  kassert (slot >=? 0) ;;
  _ ←? sfs_metaio v (u32 (slot * SIZEOF_DIRENTRY)) (direntry_bytes sd) SIZEOF_DIRENTRY UIO_WRITE; mret (Done tt).
Definition sfs_dir_nentries (v : Z) : M V Z :=
  x ← get_sv v;
  kassert (sfi_type (sv_i x) =? SFS_TYPE_DIR) ;;
  if negb (sfi_size (sv_i x) mod SIZEOF_DIRENTRY =? 0) then raise FPanic else mret (sfi_size (sv_i x) / SIZEOF_DIRENTRY).

(** int sfs_dir_findname(sv, name, ino, slot, emptyslot): the inode and the slot
    if the name is there, and the last empty slot or -1 *)
Fixpoint findname_loop (n : nat) (v i : Z) (name : list Z) (found : option (Z * Z)) (emptyslot : Z) : M V (res (option (Z * Z)) * Z) :=
  match n with
  | O => mret (Done found, emptyslot)
  | S n' =>
      r ← sfs_readdir v i;
      match r with
      | Err e => mret (Err e, emptyslot)
      | Done tsd =>
          if sfd_ino tsd =? SFS_NOINO then findname_loop n' v (i + 1) name found i else
          if streq (cstring (take 59 (sfd_name tsd))) name then
            kassert (match found with None => true | Some _ => false end) ;;
            findname_loop n' v (i + 1) name (Some (sfd_ino tsd, i)) emptyslot
          else findname_loop n' v (i + 1) name found emptyslot
      end
  end.
Definition sfs_dir_findname (v : Z) (name : list Z) : M V (res (Z * Z) * Z) :=
  nentries ← sfs_dir_nentries v;
  r ← findname_loop (Z.to_nat nentries) v 0 name None (-1);
  mret (match r.1 with Err e => Err e | Done (Some p) => Done p | Done None => Err ENOENT end, r.2).

(** int sfs_dir_link(sv, name, ino, slot): the slot *)
Definition sfs_dir_link (v : Z) (name : list Z) (ino : Z) : M V (res Z) :=
  r ← sfs_dir_findname v name;
  match r with
  | (Done _, _) => mret (Err EEXIST)
  | (Err ENOENT, emptyslot) =>
      if Z.of_nat (length name) + 1 >? SFS_NAMELEN then mret (Err ENAMETOOLONG) else
      emptyslot ← (if emptyslot <? 0 then sfs_dir_nentries v else mret emptyslot);
      _ ←? sfs_writedir v emptyslot (Direntry ino (name ++ replicate (60 - length name) 0));
      mret (Done emptyslot)
  | (Err e, _) => mret (Err e)
  end.
Definition sfs_dir_unlink (v slot : Z) : M V (res unit) := sfs_writedir v slot (Direntry SFS_NOINO (replicate 60 0)).

(** ** sfs_inode.c *)

Definition sfs_sync_inode (v : Z) : M V (res unit) :=
  f ← fs_of v;
  x ← get_sv v;
  if sv_dirty x then
    _ ←? sfs_writeblock f (sv_ino x) (dinode_bytes (sv_i x));
    put_sv v (SfsVnode (sv_i x) (sv_ino x) false (sv_ops x)) ;; mret (Done tt)
  else mret (Done tt).

(** The search of sfs_reclaim for the vnode in the table *)
Fixpoint find_vnode (n : nat) (a : Array.array Z) (i v : Z) : M V Z :=
  match n with
  | O => raise FPanic
  | S n' => v2 ← Array.array_get a i; if v2 =? v then mret i else find_vnode n' a (i + 1) v
  end.
(** The end of sfs_reclaim: the vnode leaves the table and is freed. *)
Definition drop_vnode (f v : Z) : M V (res unit) :=
  fs ← get_fs f;
  ix ← find_vnode (Z.to_nat (Array.array_num (sfs_vnodes fs))) (sfs_vnodes fs) 0 v;
  a ← Array.array_remove (sfs_vnodes fs) ix;
  set_vnodearray f a ;;
  vnode_cleanup v ;;
  vfs_biglock_release ;;
  modify (fun s => set_vnodes (delete v (vnodes s))
    (set_backend (SfsState (fss (v_backend s)) (delete v (svs (v_backend s))) (disks (v_backend s))) s)) ;;
  mret (Done tt).
(** int sfs_reclaim(struct vnode *v) *)
Definition sfs_reclaim (v : Z) : M V (res unit) :=
  f ← fs_of v;
  vfs_biglock_acquire ;;
  vn ← get_vnode v;
  if negb (vn_refcount vn =? 1) then
    kassert (vn_refcount vn >? 1) ;;
    put_vnode v (Vnode (vn_refcount vn - 1) (vn_fs vn) (vn_data vn) (vn_ops vn)) ;;
    unlock_ret (Err EBUSY)
  else
  x ← get_sv v;
  r ← (if sfi_linkcount (sv_i x) =? 0 then sfs_itrunc v 0 else mret (Done tt));
  match r with
  | Err e => unlock_ret (Err e)
  | Done _ =>
      r ← sfs_sync_inode v;
      match r with
      | Err e => unlock_ret (Err e)
      | Done _ =>
          x ← get_sv v;
          (if sfi_linkcount (sv_i x) =? 0 then sfs_bfree f (sv_ino x) else mret tt) ;;
          drop_vnode f v
      end
  end.

(** int sfs_loadvnode(sfs, ino, forcetype, ret) *)
Fixpoint find_loaded (n : nat) (f : Z) (a : Array.array Z) (i ino : Z) : M V (option Z) :=
  match n with
  | O => mret None
  | S n' =>
      v ← Array.array_get a i;
      x ← get_sv v;
      used ← sfs_bused f (sv_ino x);
      if negb used then raise FPanic else
      if sv_ino x =? ino then mret (Some v) else find_loaded n' f a (i + 1) ino
  end.
(** The end of sfs_loadvnode: the new vnode goes into the table. *)
Definition enter_vnode (f v : Z) (y : sfs_vnode) : M V (res Z) :=
  vnode_init v fs_vnode_ops f v ;;
  fs ← get_fs f;
  r ← Array.array_add (sfs_vnodes fs) v;
  set_vnodearray f r.2 ;;
  match r.1 with
  | Err e => vnode_cleanup v ;; modify (fun s => set_vnodes (delete v (vnodes s)) s) ;; mret (Err e)
  | Done _ => put_sv v y ;; mret (Done v)
  end.
Definition sfs_loadvnode (f ino forcetype : Z) : M V (res Z) :=
  fs ← get_fs f;
  r ← find_loaded (Z.to_nat (Array.array_num (sfs_vnodes fs))) f (sfs_vnodes fs) 0 ino;
  match r with
  | Some v => kassert (forcetype =? SFS_TYPE_INVAL) ;; vnode_incref v ;; mret (Done v)
  | None =>
      v ← kmalloc_addr;
      if v =? 0 then mret (Err ENOMEM) else
      used ← sfs_bused f ino;
      if negb used then raise FPanic else
      bs ←? sfs_readblock f ino;
      let i := read_dinode bs in
      i ← (if forcetype =? SFS_TYPE_INVAL then mret (i, false)
           else kassert (sfi_type i =? SFS_TYPE_INVAL) ;; mret (set_type forcetype i, true));
      ops ← (if sfi_type i.1 =? SFS_TYPE_FILE then mret sfs_fileops else
             if sfi_type i.1 =? SFS_TYPE_DIR then mret sfs_dirops else raise FPanic);
      enter_vnode f v (SfsVnode i.1 ino i.2 ops)
  end.
Definition sfs_makeobj (f type : Z) : M V (res Z) :=
  ino ←? sfs_balloc f;
  r ← sfs_loadvnode f ino type;
  match r with
  | Err e => sfs_bfree f ino ;; mret (Err e)
  | Done v => mret (Done v)
  end.
Definition sfs_getroot (f : Z) : M V (res Z) :=
  vfs_biglock_acquire ;;
  r ← sfs_loadvnode f SFS_ROOTDIR_INO SFS_TYPE_INVAL;
  match r with
  | Err e => unlock_ret (Err e)
  | Done v =>
      x ← get_sv v;
      if negb (sfi_type (sv_i x) =? SFS_TYPE_DIR) then unlock_ret (Err EINVAL) else unlock_ret (Done v)
  end.

(** int sfs_lookonce(sv, name, ret, slot): the vnode and the slot *)
Definition sfs_lookonce (v : Z) (name : list Z) : M V (res (Z * Z)) :=
  f ← fs_of v;
  r ← sfs_dir_findname v name;
  match r.1 with
  | Err e => mret (Err e)
  | Done (ino, slot) =>
      w ←? sfs_loadvnode f ino SFS_TYPE_INVAL;
      x ← get_sv w;
      if sfi_linkcount (sv_i x) =? 0 then raise FPanic else mret (Done (w, slot))
  end.

(** ** sfs_vnops.c *)

(** The operations of any vnode *)
Definition sfs_eachopen (v openflags : Z) : M V (res unit) := mret (Done tt).
Definition sfs_eachopendir (v openflags : Z) : M V (res unit) :=
  if negb (Z.land openflags O_ACCMODE =? O_RDONLY) then mret (Err EISDIR) else
  if has_flag openflags O_APPEND then mret (Err EISDIR) else mret (Done tt).
Definition sfs_rw (dir : uio_rw) (v : Z) (u : uio) : M V (res unit * uio) :=
  kassert (bool_decide (uio_dir u = dir)) ;;
  vfs_biglock_acquire ;; r ← sfs_io v u; unlock_ret r.
Definition sfs_read := sfs_rw UIO_READ.
Definition sfs_write := sfs_rw UIO_WRITE.
Definition sfs_ioctl (v op data : Z) : M V (res unit) := mret (Err EINVAL).
Definition sfs_gettype (v : Z) : M V (res Z) :=
  x ← get_sv v;
  vfs_biglock_acquire ;;
  if sfi_type (sv_i x) =? SFS_TYPE_FILE then unlock_ret (Done S_IFREG) else
  if sfi_type (sv_i x) =? SFS_TYPE_DIR then unlock_ret (Done S_IFDIR) else raise FPanic.
Definition sfs_isseekable (v : Z) : M V bool := mret true.
Definition sfs_fsync (v : Z) : M V (res unit) := vfs_biglock_acquire ;; r ← sfs_sync_inode v; unlock_ret r.
Definition sfs_truncate (v len : Z) : M V (res unit) := sfs_itrunc v len.
Definition sfs_namefile (v : Z) (u : uio) : M V (res unit * uio) :=
  x ← get_sv v; kassert (sv_ino x =? SFS_ROOTDIR_INO) ;; mret (Done tt, u).

(** The macros VOP_DECREF, VOP_FSYNC and VOP_GETTYPE on vnodes of SFS call the
    operations above; the other operations of this table are not reached
    through it. *)
Definition sfs_base : Backend G := {|
  fop_reclaim := sfs_reclaim; fop_fsync := sfs_fsync; fop_gettype := sfs_gettype;
  fop_eachopen _ _ := raise FPanic; fop_read _ _ := raise FPanic; fop_readlink _ _ := raise FPanic; fop_getdirentry _ _ := raise FPanic;
  fop_write _ _ := raise FPanic; fop_ioctl _ _ _ := raise FPanic; fop_stat _ := raise FPanic; fop_isseekable _ := raise FPanic;
  fop_truncate _ _ := raise FPanic; fop_namefile _ _ := raise FPanic; fop_creat _ _ _ _ := raise FPanic; fop_symlink _ _ _ := raise FPanic;
  fop_mkdir _ _ _ := raise FPanic; fop_link _ _ _ := raise FPanic; fop_remove _ _ := raise FPanic; fop_rmdir _ _ := raise FPanic;
  fop_rename _ _ _ _ := raise FPanic; fop_lookup _ _ := raise FPanic; fop_lookparent _ _ _ := raise FPanic;
  fsop_sync _ := raise FPanic; fsop_getvolname _ := raise FPanic; fsop_getroot _ := raise FPanic; fsop_unmount _ := raise FPanic;
  drv_eachopen _ _ := raise FPanic; drv_io _ _ := raise FPanic; drv_ioctl _ _ _ := raise FPanic
|}.
Definition VOP_DECREF (v : Z) : M V unit := Vfs.VOP_DECREF (H := sfs_base) v.
Definition VOP_FSYNC (v : Z) : M V (res unit) := Vfs.VOP_FSYNC (H := sfs_base) v.
Definition VOP_GETTYPE (v : Z) : M V (res Z) := Vfs.VOP_GETTYPE (H := sfs_base) v.

(** static int sfs_stat(struct vnode *v, struct stat *statbuf) *)
Definition sfs_stat (v : Z) : M V (res stat) :=
  ty ←? VOP_GETTYPE v;
  x ← get_sv v;
  mret (Done (Stat (sfi_size (sv_i x)) ty (sfi_linkcount (sv_i x)) 0 0 0)).

(** The operations of the directory *)
Definition sfs_creat (v : Z) (name : list Z) (excl : bool) (mode : Z) : M V (res Z) :=
  f ← fs_of v;
  vfs_biglock_acquire ;;
  r ← sfs_dir_findname v name;
  match r.1 with
  | Done (ino, _) =>
      if excl then unlock_ret (Err EEXIST) else
      r ← sfs_loadvnode f ino SFS_TYPE_INVAL; unlock_ret r
  | Err ENOENT =>
      r ← sfs_makeobj f SFS_TYPE_FILE;
      match r with
      | Err e => unlock_ret (Err e)
      | Done newguy =>
          y ← get_sv newguy;
          r ← sfs_dir_link v name (sv_ino y);
          match r with
          | Err e => VOP_DECREF newguy ;; unlock_ret (Err e)
          | Done _ =>
              y ← get_sv newguy;
              set_inode newguy (set_linkcount (u16 (sfi_linkcount (sv_i y) + 1))) ;;
              unlock_ret (Done newguy)
          end
      end
  | Err e => unlock_ret (Err e)
  end.
Definition sfs_link (dir : Z) (name : list Z) (file : Z) : M V (res unit) :=
  fd ← fs_of dir; ff ← fs_of file;
  kassert (ff =? fd) ;;
  vfs_biglock_acquire ;;
  x ← get_sv file;
  if sfi_type (sv_i x) =? SFS_TYPE_DIR then unlock_ret (Err EINVAL) else
  r ← sfs_dir_link dir name (sv_ino x);
  match r with
  | Err e => unlock_ret (Err e)
  | Done _ =>
      x ← get_sv file;
      set_inode file (set_linkcount (u16 (sfi_linkcount (sv_i x) + 1))) ;;
      unlock_ret (Done tt)
  end.
Definition sfs_remove (dir : Z) (name : list Z) : M V (res unit) :=
  vfs_biglock_acquire ;;
  r ← sfs_lookonce dir name;
  match r with
  | Err e => unlock_ret (Err e)
  | Done (victim, slot) =>
      r ← sfs_dir_unlink dir slot;
      (match r with
       | Err _ => mret tt
       | Done _ =>
           x ← get_sv victim;
           kassert (sfi_linkcount (sv_i x) >? 0) ;;
           set_inode victim (set_linkcount (sfi_linkcount (sv_i x) - 1))
       end) ;;
      VOP_DECREF victim ;;
      unlock_ret r
  end.
Definition sfs_rename (d1 : Z) (n1 : list Z) (d2 : Z) (n2 : list Z) : M V (res unit) :=
  vfs_biglock_acquire ;;
  kassert (d1 =? d2) ;;
  sv ← get_sv d1;
  kassert (sv_ino sv =? SFS_ROOTDIR_INO) ;;
  r ← sfs_lookonce d1 n1;
  match r with
  | Err e => unlock_ret (Err e)
  | Done (g1, slot1) =>
      x ← get_sv g1;
      kassert (sfi_type (sv_i x) =? SFS_TYPE_FILE) ;;
      r ← sfs_dir_link d1 n2 (sv_ino x);
      match r with
      | Err e => VOP_DECREF g1 ;; unlock_ret (Err e)
      | Done slot2 =>
          x ← get_sv g1;
          set_inode g1 (set_linkcount (u16 (sfi_linkcount (sv_i x) + 1))) ;;
          r ← sfs_dir_unlink d1 slot1;
          match r with
          | Done _ =>
              x ← get_sv g1;
              kassert (sfi_linkcount (sv_i x) >? 0) ;;
              set_inode g1 (set_linkcount (sfi_linkcount (sv_i x) - 1)) ;;
              VOP_DECREF g1 ;; unlock_ret (Done tt)
          | Err e =>
              r2 ← sfs_dir_unlink d1 slot2;
              match r2 with
              | Err _ => raise FPanic
              | Done _ =>
                  x ← get_sv g1;
                  put_sv g1 (SfsVnode (set_linkcount (u16 (sfi_linkcount (sv_i x) - 1)) (sv_i x)) (sv_ino x) (sv_dirty x) (sv_ops x)) ;;
                  VOP_DECREF g1 ;; unlock_ret (Err e)
              end
          end
      end
  end.
Definition sfs_lookparent (v : Z) (path : list Z) (buflen : Z) : M V (res (Z * list Z)) :=
  vfs_biglock_acquire ;;
  x ← get_sv v;
  if negb (sfi_type (sv_i x) =? SFS_TYPE_DIR) then unlock_ret (Err ENOTDIR) else
  if Z.of_nat (length path) + 1 >? buflen then unlock_ret (Err ENAMETOOLONG) else
  vnode_incref v ;; unlock_ret (Done (v, path)).
Definition sfs_lookup (v : Z) (path : list Z) : M V (res Z) :=
  vfs_biglock_acquire ;;
  x ← get_sv v;
  if negb (sfi_type (sv_i x) =? SFS_TYPE_DIR) then unlock_ret (Err ENOTDIR) else
  r ← sfs_lookonce v path;
  match r with
  | Err e => unlock_ret (Err e)
  | Done (w, _) => unlock_ret (Done w)
  end.

(** ** sfs_fsops.c *)

(** static int sfs_freemapio(sfs, rw), from block [j] of the map *)
Definition put_freemap (f : Z) (b : Bitmap.bitmap) : M V unit :=
  x ← get_fs f; put_fs f (SfsFs (sfs_sb x) (sfs_superdirty x) (sfs_device x) (sfs_vnodes x) (Some b) (sfs_freemapdirty x)).
Definition freemap_block (f : Z) (rw : uio_rw) (j : Z) : M V (res unit) :=
  x ← get_fs f;
  b ← deref FNull (sfs_freemap x);
  let data := Bitmap.bitmap_getdata b in
  let at_ := Z.to_nat (j * SFS_BLOCKSIZE) in
  match rw with
  | UIO_READ =>
      bs ←? sfs_readblock f (SFS_FREEMAP_START + j);
      put_freemap f (Bitmap.Bm (Bitmap.nbits b) (take at_ data ++ bs ++ drop (at_ + length bs) data)) ;; mret (Done tt)
  | UIO_WRITE => sfs_writeblock f (SFS_FREEMAP_START + j) (take (Z.to_nat SFS_BLOCKSIZE) (drop at_ data))
  end.
Definition sfs_freemapio (f : Z) (rw : uio_rw) : M V (res unit) :=
  x ← get_fs f;
  each (seqZ 0 (SFS_FREEMAPBLOCKS (sb_nblocks (sfs_sb x)))) (freemap_block f rw).
Fixpoint sync_loop (n : nat) (a : Array.array Z) (i : Z) : M V unit :=
  match n with
  | O => mret tt
  | S n' => v ← Array.array_get a i; VOP_FSYNC v ;; sync_loop n' a (i + 1)
  end.
Definition sfs_sync_vnodes (f : Z) : M V (res unit) :=
  x ← get_fs f; sync_loop (Z.to_nat (Array.array_num (sfs_vnodes x))) (sfs_vnodes x) 0 ;; mret (Done tt).
Definition sfs_sync_freemap (f : Z) : M V (res unit) :=
  x ← get_fs f;
  if sfs_freemapdirty x then _ ←? sfs_freemapio f UIO_WRITE; set_freemapdirty f false ;; mret (Done tt) else mret (Done tt).
Definition sfs_sync_superblock (f : Z) : M V (res unit) :=
  x ← get_fs f;
  if sfs_superdirty x then
    _ ←? sfs_writeblock f SFS_SUPER_BLOCK (super_bytes (sfs_sb x));
    x ← get_fs f;
    put_fs f (SfsFs (sfs_sb x) false (sfs_device x) (sfs_vnodes x) (sfs_freemap x) (sfs_freemapdirty x)) ;; mret (Done tt)
  else mret (Done tt).
Definition sfs_sync (f : Z) : M V (res unit) :=
  vfs_biglock_acquire ;;
  r ← (_ ←? sfs_sync_vnodes f; _ ←? sfs_sync_freemap f; sfs_sync_superblock f);
  unlock_ret r.
Definition sfs_getvolname (f : Z) : M V (option (list Z)) :=
  vfs_biglock_acquire ;; x ← get_fs f; unlock_ret (Some (cstring (sb_volname (sfs_sb x)))).
Definition sfs_fs_destroy (f : Z) : M V unit :=
  x ← get_fs f;
  Array.array_destroy (sfs_vnodes x) ;;
  kassert (sfs_device x =? 0) ;;
  modify (fun s => set_backend (SfsState (delete f (fss (v_backend s))) (svs (v_backend s)) (disks (v_backend s))) s).
Definition set_device (f d : Z) : M V unit :=
  x ← get_fs f; put_fs f (SfsFs (sfs_sb x) (sfs_superdirty x) d (sfs_vnodes x) (sfs_freemap x) (sfs_freemapdirty x)).
Definition sfs_unmount (f : Z) : M V (res unit) :=
  vfs_biglock_acquire ;;
  x ← get_fs f;
  if Array.array_num (sfs_vnodes x) >? 0 then unlock_ret (Err EBUSY) else
  kassert (negb (sfs_superdirty x)) ;;
  kassert (negb (sfs_freemapdirty x)) ;;
  set_device f 0 ;;
  sfs_fs_destroy f ;;
  unlock_ret (Done tt).

(** static struct sfs_fs *sfs_fs_create(void): 0 when out of memory.  The
    superblock is not set yet. *)
Definition sfs_fs_create : M V Z :=
  f ← kmalloc_addr;
  if f =? 0 then mret 0 else
  a ← Array.array_create;
  match a with
  | None => mret 0
  | Some a => put_fs f (SfsFs (Superblock 0 0 [] []) false 0 a None false) ;; mret f
  end.
(** static int sfs_domount(options, dev, ret); the failures give the object back *)
Definition mount_fail {A} (f : Z) (e : errno) : M V (res A) := set_device f 0 ;; sfs_fs_destroy f ;; unlock_ret (Err e).
Definition sfs_domount (dev : Z) : M V (res Z) :=
  vfs_biglock_acquire ;;
  d ← get_device dev;
  if negb (d_blocksize d =? SFS_BLOCKSIZE) then unlock_ret (Err ENXIO) else
  f ← sfs_fs_create;
  if f =? 0 then unlock_ret (Err ENOMEM) else
  set_device f dev ;;
  r ← sfs_readblock f SFS_SUPER_BLOCK;
  match r with
  | Err e => mount_fail f e
  | Done bs =>
      let sb := read_super bs in
      if negb (sb_magic sb =? SFS_MAGIC) then mount_fail f EINVAL else
      let sb := Superblock (sb_magic sb) (sb_nblocks sb) (<[31%nat := 0]> (sb_volname sb)) (sb_reserved sb) in
      x ← get_fs f;
      put_fs f (SfsFs sb (sfs_superdirty x) (sfs_device x) (sfs_vnodes x) (sfs_freemap x) (sfs_freemapdirty x)) ;;
      b ← Bitmap.bitmap_create (SFS_FREEMAPBITS (sb_nblocks sb));
      match b with
      | None => mount_fail f ENOMEM
      | Some b =>
          put_freemap f b ;;
          r ← sfs_freemapio f UIO_READ;
          match r with
          | Err e => mount_fail f e
          | Done _ => unlock_ret (Done f)
          end
      end
  end.

(** ** The tables of operations *)

(** The operations of a vnode, by its table *)
Definition by_table {A} (v : Z) (file dir : M V A) : M V A :=
  x ← get_sv v; match sv_ops x with sfs_fileops => file | sfs_dirops => dir end.
Definition fails {A} (e : errno) : M V (res A) := mret (Err e).
Definition fails_uio (e : errno) (u : uio) : M V (res unit * uio) := mret (Err e, u).

#[export] Instance sfs_backend : Backend G := {|
  fop_eachopen v fl := by_table v (sfs_eachopen v fl) (sfs_eachopendir v fl);
  fop_reclaim := sfs_reclaim;
  fop_read v u := by_table v (sfs_read v u) (fails_uio EISDIR u);
  fop_readlink v u := by_table v (fails_uio ENOTDIR u) (fails_uio EINVAL u);
  fop_getdirentry v u := by_table v (fails_uio ENOTDIR u) (fails_uio ENOSYS u);
  fop_write v u := by_table v (sfs_write v u) (fails_uio EISDIR u);
  fop_ioctl := sfs_ioctl;
  fop_stat := sfs_stat;
  fop_gettype := sfs_gettype;
  fop_isseekable := sfs_isseekable;
  fop_fsync := sfs_fsync;
  fop_truncate v n := by_table v (sfs_truncate v n) (fails EISDIR);
  fop_namefile v u := by_table v (fails_uio ENOTDIR u) (sfs_namefile v u);
  fop_creat v n e m := by_table v (fails ENOTDIR) (sfs_creat v n e m);
  fop_symlink v a b := by_table v (fails ENOTDIR) (fails ENOSYS);
  fop_mkdir v n m := by_table v (fails ENOTDIR) (fails ENOSYS);
  fop_link v n w := by_table v (fails ENOTDIR) (sfs_link v n w);
  fop_remove v n := by_table v (fails ENOTDIR) (sfs_remove v n);
  fop_rmdir v n := by_table v (fails ENOTDIR) (fails ENOSYS);
  fop_rename v n w m := by_table v (fails ENOTDIR) (sfs_rename v n w m);
  fop_lookup v n := by_table v (fails ENOTDIR) (sfs_lookup v n);
  fop_lookparent v n len := by_table v (fails ENOTDIR) (sfs_lookparent v n len);
  fsop_sync := sfs_sync;
  fsop_getvolname := sfs_getvolname;
  fsop_getroot := sfs_getroot;
  fsop_unmount := sfs_unmount;
  drv_eachopen := lhd_eachopen;
  drv_io := lhd_io;
  drv_ioctl := lhd_ioctl
|}.

(** int sfs_mount(const char *device) *)
Definition sfs_mount (device : list Z) : M V (res unit) := vfs_mount device sfs_domount.
End Ops.
End Sfs.
