(* ===== verification/LhdSpec.v ===== *)
(** * What the disk driver does with a working disk

    The contract of the disk: any read may fail, up to ten times in a row, and
    any write may fail; a disk is lossless when no write to come does.  The
    driver's operations on a lossless disk. *)

From S2P Require Import Prelude Kern Interfaces Copyinout Uio Vfs Lhd.
Open Scope Z_scope.

(** The contract of the disk: [nsect] sectors with the bytes [sect]; [patience]
    bounds the read errors in a row; [lossless] says that no write to come
    fails.  A write that fails leaves the sectors as they were. *)
Class DiskSpec (D : Type) `{DiskHw D} := {
  hw_ok : D -> Prop;
  lossless : D -> Prop;
  nsect : D -> Z;
  sect : D -> Z -> list Z;
  patience : D -> nat;
  hw_patience d : hw_ok d -> (patience d <= 10)%nat;
  hw_sector d n : hw_ok d -> 0 <= n < nsect d -> length (sect d n) = 512%nat;
  hw_read d n buf c buf' d' : hw_ok d -> 0 <= n < nsect d -> length buf = 512%nat -> hw_io false n buf d = (c, buf', d') ->
    hw_ok d' /\ (lossless d -> lossless d') /\ nsect d' = nsect d /\ (forall k, sect d' k = sect d k) /\ length buf' = 512%nat /\
    (c = Lhd.LHD_OK /\ buf' = sect d n \/ c = Lhd.LHD_MEDIA /\ (patience d' < patience d)%nat);
  hw_write d n buf c buf' d' : hw_ok d -> 0 <= n < nsect d -> length buf = 512%nat -> hw_io true n buf d = (c, buf', d') ->
    hw_ok d' /\ (lossless d -> lossless d') /\ nsect d' = nsect d /\ length buf' = 512%nat /\
    (c = Lhd.LHD_OK /\ (forall k, sect d' k = if k =? n then buf else sect d k) \/
     c = Lhd.LHD_MEDIA /\ (forall k, sect d' k = sect d k) /\ ~ lossless d)
}.

Module LhdSpec.
Import Vfs Lhd.

Section Spec.
Context {G D : Type} `{L : HasLhd G D} `{W : DiskSpec D}.
Abbreviation V := (vstate G).
Implicit Types (s : V) (x : lhd_softc D).

(** A disk in order, no write to which will fail *)
Definition sound (d : D) : Prop := hw_ok d /\ lossless d.

Lemma sound_patience d : sound d -> (patience d <= 10)%nat.
Proof. intros [Hd _]. by apply hw_patience. Qed.
Lemma sound_sector d n : sound d -> 0 <= n < nsect d -> length (sect d n) = 512%nat.
Proof. intros [Hd _]. by apply hw_sector. Qed.
Lemma sound_read d n buf c buf' d' : sound d -> 0 <= n < nsect d -> length buf = 512%nat -> hw_io false n buf d = (c, buf', d') ->
  sound d' /\ nsect d' = nsect d /\ (forall k, sect d' k = sect d k) /\ length buf' = 512%nat /\
  (c = LHD_OK /\ buf' = sect d n \/ c = LHD_MEDIA /\ (patience d' < patience d)%nat).
Proof. intros [Hd Hl] Hn Hb E. destruct (hw_read _ _ _ _ _ _ Hd Hn Hb E) as (H1 & H2 & H3). split; [split; auto|exact H3]. Qed.
Lemma sound_write d n buf c buf' d' : sound d -> 0 <= n < nsect d -> length buf = 512%nat -> hw_io true n buf d = (c, buf', d') ->
  sound d' /\ nsect d' = nsect d /\ (forall k, sect d' k = if k =? n then buf else sect d k) /\ length buf' = 512%nat /\ c = LHD_OK.
Proof.
  intros [Hd Hl] Hn Hb E. destruct (hw_write _ _ _ _ _ _ Hd Hn Hb E) as (H1 & H2 & H3 & H4 & [[-> H5]|(_ & _ & Hno)]); [|done].
  split; [split; auto|]. by split_and!.
Qed.

(** The device [d] is a sound disk at rest. *)
Record at_rest s (d : Z) x : Prop := {
  ar_lhd : lhds (v_backend s) !! d = Some x;
  ar_dev : exists y, devices s !! d = Some y /\ d_ops y = drv_devops /\ d_blocks y = nsect (lh_hw x) /\ d_blocks y < 2 ^ 32 - 1 /\ d <> 0;
  ar_clear : lh_clear x = 1; ar_done : lh_done x = 0; ar_buf : length (lh_buf x) = 512%nat; ar_hw : sound (lh_hw x)
}.
Definition with_lhd s (d : Z) x : V := set_backend (set_lhds (<[d := x]> (lhds (v_backend s))) (v_backend s)) s.

Lemma with_lhd_twice s d x x' : with_lhd (with_lhd s d x) d x' = with_lhd s d x'.
Proof. unfold with_lhd. cbn. rewrite lhds_set, set_lhds_set, insert_insert_eq. done. Qed.
Lemma lhd_at s d x : lhds (v_backend (with_lhd s d x)) !! d = Some x.
Proof. unfold with_lhd. cbn. rewrite lhds_set. apply lookup_insert_eq. Qed.

Lemma wp_get_lhd s d x (Q : lhd_softc D -> V -> Prop) : lhds (v_backend s) !! d = Some x -> Q x s -> wp (get_lhd d) Q s.
Proof. intros Hx HQ. unfold get_lhd. wpsimp. rewrite Hx. eauto. Qed.
Lemma wp_put_lhd s d x (Q : unit -> V -> Prop) : Q tt (with_lhd s d x) -> wp (put_lhd d x) Q s.
Proof. intros HQ. unfold put_lhd. by wpsimp. Qed.

Lemma wp_get_dev s d y (Q : device -> V -> Prop) : d <> 0 -> devices s !! d = Some y -> Q y s -> wp (get_device d) Q s.
Proof. intros Hd Hy HQ. unfold get_device. destruct (Z.eqb_spec d 0); [done|]. wpsimp. rewrite Hy. eauto. Qed.

(** [x'] is [x] after work that left the sectors [c]. *)
Record worked x x' (c : Z -> list Z) : Prop := {
  wk_clear : lh_clear x' = lh_clear x; wk_done : lh_done x' = 0; wk_buf : length (lh_buf x') = 512%nat;
  wk_hw : sound (lh_hw x'); wk_nsect : nsect (lh_hw x') = nsect (lh_hw x); wk_sect : forall k, sect (lh_hw x') k = c k
}.
Lemma worked_rest s d x x' c : at_rest s d x -> worked x x' c -> at_rest (with_lhd s d x') d x'.
Proof.
  intros [A1 (y & A2 & A3 & A4) A5 A6 A7 A8] [B1 B2 B3 B4 B5 B6]. split; [apply lhd_at| |congruence|done..]. exists y. rewrite B5. done.
Qed.

Lemma at_rest_same s s' d x : lhds (v_backend s') !! d = lhds (v_backend s) !! d -> devices s' = devices s -> at_rest s d x -> at_rest s' d x.
Proof. intros E1 E2 [A1 A2 A3 A4 A5 A6]. split; [by rewrite E1|by rewrite E2|done..]. Qed.

(** On a sound disk a read gives the sector or an error, a write succeeds. *)
Lemma wp_start_read s d x n (Q : unit -> V -> Prop) : lhds (v_backend s) !! d = Some x -> sound (lh_hw x) -> 0 <= n < nsect (lh_hw x) -> length (lh_buf x) = 512%nat -> lh_done x = 0 ->
  (forall x', worked x (Lhd (lh_buf x') (lh_result x') (lh_clear x') 0 (lh_hw x')) (sect (lh_hw x)) -> lh_done x' = 1 ->
     (lh_result x' = Done tt /\ lh_buf x' = sect (lh_hw x) n \/ lh_result x' = Err EIO /\ (patience (lh_hw x') < patience (lh_hw x))%nat) ->
     Q tt (with_lhd s d x')) -> wp (lhd_start d false n) Q s.
Proof.
  intros Hx Hok Hn Hb Hd HQ. unfold lhd_start. wpsimp. eapply wp_get_lhd; [exact Hx|]. destruct (hw_io false n (lh_buf x) (lh_hw x)) as [[c buf] hw] eqn:E.
  destruct (sound_read _ _ _ _ _ _ Hok Hn Hb E) as (H1 & H2 & H3 & H4 & H5). wpsimp. apply wp_put_lhd.
  assert (forall r, (r = Done tt /\ buf = sect (lh_hw x) n \/ r = Err EIO /\ (patience hw < patience (lh_hw x))%nat) ->
    wp (lhd_iodone d r) Q (with_lhd s d (Lhd buf (lh_result x) (lh_clear x) (lh_done x) hw))) as Hfin.
  { intros r Hr. unfold lhd_iodone. wpsimp. eapply wp_get_lhd; [apply lhd_at|]. apply wp_put_lhd. rewrite with_lhd_twice. apply HQ; [by split|cbn; lia|exact Hr]. }
  destruct H5 as [[-> Hbuf]|[-> Hp]]; apply Hfin; [by left|by right].
Qed.
Lemma wp_start_write s d x n (Q : unit -> V -> Prop) : lhds (v_backend s) !! d = Some x -> sound (lh_hw x) -> 0 <= n < nsect (lh_hw x) -> length (lh_buf x) = 512%nat -> lh_done x = 0 ->
  (forall x', worked x (Lhd (lh_buf x') (lh_result x') (lh_clear x') 0 (lh_hw x')) (fun k => if k =? n then lh_buf x else sect (lh_hw x) k) -> lh_done x' = 1 -> lh_result x' = Done tt ->
     Q tt (with_lhd s d x')) -> wp (lhd_start d true n) Q s.
Proof.
  intros Hx Hok Hn Hb Hd HQ. unfold lhd_start. wpsimp. eapply wp_get_lhd; [exact Hx|]. destruct (hw_io true n (lh_buf x) (lh_hw x)) as [[c buf] hw] eqn:E.
  destruct (sound_write _ _ _ _ _ _ Hok Hn Hb E) as (H1 & H2 & H3 & H4 & ->). wpsimp. apply wp_put_lhd. change (lhd_irq d LHD_OK) with (lhd_iodone (G := G) (D := D) d (Done tt)). unfold lhd_iodone. wpsimp.
  eapply wp_get_lhd; [apply lhd_at|]. apply wp_put_lhd. rewrite with_lhd_twice. apply HQ; [by split|cbn; lia|done].
Qed.
Lemma wp_P_clear s d x (Q : unit -> V -> Prop) : lhds (v_backend s) !! d = Some x -> lh_clear x = 1 ->
  Q tt (with_lhd s d (Lhd (lh_buf x) (lh_result x) 0 (lh_done x) (lh_hw x))) -> wp (P_clear d) Q s.
Proof. intros Hx Hc HQ. unfold P_clear. wpsimp. eapply wp_get_lhd; [exact Hx|]. rewrite Hc. cbn. by apply wp_put_lhd. Qed.
Lemma wp_V_clear s d x (Q : unit -> V -> Prop) : lhds (v_backend s) !! d = Some x ->
  Q tt (with_lhd s d (Lhd (lh_buf x) (lh_result x) (lh_clear x + 1) (lh_done x) (lh_hw x))) -> wp (V_clear d) Q s.
Proof. intros Hx HQ. unfold V_clear. wpsimp. eapply wp_get_lhd; [exact Hx|]. by apply wp_put_lhd. Qed.
Lemma wp_P_done s d x (Q : unit -> V -> Prop) : lhds (v_backend s) !! d = Some x -> lh_done x = 1 ->
  Q tt (with_lhd s d (Lhd (lh_buf x) (lh_result x) (lh_clear x) 0 (lh_hw x))) -> wp (P_done d) Q s.
Proof. intros Hx Hc HQ. unfold P_done. wpsimp. eapply wp_get_lhd; [exact Hx|]. rewrite Hc. cbn. by apply wp_put_lhd. Qed.

(** One sector is read: the bytes go through [u_move], unless the disk reports an
    error. *)
Section Sector.
Context {U : Type} `{UL : UioLike V U}.

Lemma wp_sector_read s d x n (u : U) (Q : res unit * U -> V -> Prop) : at_rest s d x -> 0 <= n < nsect (lh_hw x) -> u_rw u = UIO_READ ->
  (forall x', worked x x' (sect (lh_hw x)) -> (patience (lh_hw x') < patience (lh_hw x))%nat -> Q (Err EIO, u) (with_lhd s d x')) ->
  (forall x', worked x (Lhd (lh_buf x') (lh_result x') 1 0 (lh_hw x')) (sect (lh_hw x)) -> lh_clear x' = 0 -> lh_done x' = 0 ->
     wp (u_move (sect (lh_hw x) n) 512 u) (fun r s2 => lhds (v_backend s2) !! d = Some x' /\
       Q (r.1.1, r.1.2) (with_lhd s2 d (Lhd (lh_buf x') (lh_result x') 1 0 (lh_hw x')))) (with_lhd s d x')) ->
  wp (lhd_sector d n u) Q s.
Proof.
  intros [A1 A2 A3 A4 A5 A6] Hn Hu HE HQ. unfold lhd_sector. rewrite wp_bind. eapply wp_P_clear; [exact A1|done|]. rewrite Hu. wpsimp. rewrite bool_decide_false by (by rewrite Hu).
  eapply wp_start_read; [apply lhd_at|done|done|done|done|]. intros x' Hw Hd Hr. wpsimp. rewrite with_lhd_twice. eapply wp_P_done; [apply lhd_at|done|]. wpsimp. rewrite with_lhd_twice.
  eapply wp_get_lhd; [apply lhd_at|]. cbn [lh_result lh_buf lh_clear lh_hw] in *. destruct Hw as [W1 W2 W3 W4 W5 W6]. cbn in *. destruct Hr as [[-> Eb]|[-> Hp]].
  - rewrite Hu, Eb. wpsimp. rewrite Eb in *. eapply wp_mono; [apply (HQ (Lhd (sect (lh_hw x) n) (Done tt) (lh_clear x') 0 (lh_hw x')))|].
    + by split.
    + done.
    + done.
    + intros [[r u'] got] s2 [Hx2 HQ2]. cbn. wpsimp. eapply wp_V_clear; [exact Hx2|]. cbn. by rewrite W1.
  - wpsimp. eapply wp_V_clear; [apply lhd_at|]. rewrite with_lhd_twice. cbn. apply HE; [|done]. split; cbn; [lia|done..].
Qed.

(** One sector is written: the bytes come through [u_move]. *)
Lemma wp_sector_write s d x n (u : U) (Q : res unit * U -> V -> Prop) : at_rest s d x -> 0 <= n < nsect (lh_hw x) -> u_rw u = UIO_WRITE ->
  (forall x', worked x (Lhd (lh_buf x') (lh_result x') 1 0 (lh_hw x')) (sect (lh_hw x)) -> lh_clear x' = 0 -> lh_done x' = 0 ->
     wp (u_move [] 512 u) (fun r s2 => lhds (v_backend s2) !! d = Some x' /\ u_rw r.1.2 = UIO_WRITE /\
       match r.1.1 with
       | Err e => Q (Err e, r.1.2) (with_lhd s2 d (Lhd (r.2 ++ drop (length r.2) (lh_buf x')) (lh_result x') 1 0 (lh_hw x'))) /\ (length r.2 <= 512)%nat
       | Done _ => length r.2 = 512%nat /\ forall x2, worked x x2 (fun k => if k =? n then r.2 else sect (lh_hw x) k) -> Q (Done tt, r.1.2) (with_lhd s2 d x2)
       end) (with_lhd s d x')) ->
  wp (lhd_sector d n u) Q s.
Proof.
  intros [A1 A2 A3 A4 A5 A6] Hn Hu HQ. unfold lhd_sector. rewrite wp_bind. eapply wp_P_clear; [exact A1|done|]. rewrite Hu. wpsimp.
  eapply wp_mono; [apply (HQ (Lhd (lh_buf x) (lh_result x) 0 (lh_done x) (lh_hw x)))|]; [by split|done|done|].
  intros [[r u'] got] s2 (Hx2 & Hu2 & HQ2). cbn [fst snd lh_buf lh_result lh_hw] in *. wpsimp. eapply wp_get_lhd; [exact Hx2|]. wpsimp. apply wp_put_lhd. cbn [lh_buf lh_result lh_hw lh_clear lh_done]. destruct r as [[]|e].
  - destruct HQ2 as (Hl & HQ2). rewrite drop_ge, app_nil_r by lia. wpsimp. rewrite bool_decide_true by done. eapply wp_start_write; [apply lhd_at|done..|]. intros x3 Hw Hd Hr.
    wpsimp. rewrite with_lhd_twice. eapply wp_P_done; [apply lhd_at|done|]. wpsimp. eapply wp_get_lhd; [apply lhd_at|]. cbn [lh_result]. rewrite Hr. cbn. rewrite Hu2. wpsimp. rewrite with_lhd_twice.
    eapply wp_V_clear; [apply lhd_at|]. rewrite with_lhd_twice. apply HQ2. destruct Hw. cbn in *. by split; cbn; try lia.
  - wpsimp. eapply wp_V_clear; [apply lhd_at|]. rewrite with_lhd_twice. cbn. rewrite A4. apply HQ2.
Qed.

(** lhd_io on one sector *)
Lemma lhd_one s d x n (u : U) : at_rest s d x -> 0 <= n < nsect (lh_hw x) -> u_offset u = n * 512 -> u_resid u = 512 ->
  forall Q : res unit * U -> V -> Prop, wp (lhd_sector d n u) Q s -> wp (devop_io d u) Q s.
Proof.
  intros [A1 (y & A2 & A3 & A4 & A5 & A7) _ _ _ _] Hn Ho Hr Q HQ. unfold devop_io. rewrite wp_bind. eapply wp_get_dev; [done|exact A2|]. rewrite A3.
  unfold lhd_io. rewrite Ho, Hr. change LHD_SECTSIZE with 512. rewrite Z.quot_mul, Z.rem_mul, (u32_id n) by width_lia. change (512 mod 512) with 0. change (u32 0) with 0. rewrite Z.eqb_refl. cbn [negb orb].
  rewrite wp_bind. eapply wp_get_dev; [done|exact A2|]. change (512 / 512) with 1. rewrite u32_id by width_lia.
  destruct (Z.gtb_spec (n + 1) (d_blocks y)); [lia|]. change (Z.to_nat 1) with 1%nat. cbn [lhd_loop]. rewrite wp_bind. eapply wp_mono; [exact HQ|].
  intros [[[]|e] u'] s' HQ'; cbn; by wpsimp.
Qed.
End Sector.
End Spec.
End LhdSpec.
