(* ===== verification/SfsSpec.v ===== *)
(** * A logic for the file system SFS

    The operations of one volume on a working disk, seen through the state they
    use: the volume's record, the sectors of its disk, the loaded vnodes, and
    what the VFS layer keeps.  [vwp m a Q]: from any state that shows [a] the
    operation [m] runs without a fault, ends, leaves everything else alone, and
    its result and the state then shown satisfy [Q]. *)

From S2P Require Import Prelude Kern Bswap Bitmap Array Interfaces Copyinout Uio Vfs Lhd LhdSpec Sfs.
Open Scope Z_scope.

(** What an operation sees: the volume, the sectors of its disk, the private
    data of vnodes, the vnodes, the memory, the next address kmalloc gives, the
    depth of the big lock, the current address space. *)
Record view := View {
  a_fs : sfs_fs; a_sect : Z -> list Z; a_svs : gmap Z sfs_vnode; a_nodes : gmap Z vnode;
  a_mem : gmap Z Z; a_next : Z; a_depth : Z; a_space : Z
}.

Module SfsSpec.
Import Vfs Lhd LhdSpec Sfs.

Definition with_fs x a := View x (a_sect a) (a_svs a) (a_nodes a) (a_mem a) (a_next a) (a_depth a) (a_space a).
Definition with_sect t a := View (a_fs a) t (a_svs a) (a_nodes a) (a_mem a) (a_next a) (a_depth a) (a_space a).
Definition with_svs m a := View (a_fs a) (a_sect a) m (a_nodes a) (a_mem a) (a_next a) (a_depth a) (a_space a).
Definition with_nodes m a := View (a_fs a) (a_sect a) (a_svs a) m (a_mem a) (a_next a) (a_depth a) (a_space a).
Definition with_mem m a := View (a_fs a) (a_sect a) (a_svs a) (a_nodes a) m (a_next a) (a_depth a) (a_space a).
Definition with_next n a := View (a_fs a) (a_sect a) (a_svs a) (a_nodes a) (a_mem a) n (a_depth a) (a_space a).
Definition with_depth n a := View (a_fs a) (a_sect a) (a_svs a) (a_nodes a) (a_mem a) (a_next a) n (a_space a).
(** A sector is written. *)
Definition upd (t : Z -> list Z) (n : Z) (bs : list Z) (k : Z) : list Z := if k =? n then bs else t k.

Section Logic.
Context {D : Type} `{W : DiskSpec D}.
Abbreviation G := (sfs_state D).
Abbreviation V := (vstate G).
(** The volume, its device, the number of sectors. *)
Context (f dev ns : Z).
Implicit Types (s : V) (a : view).

Record now s a : Prop := Now {
  now_f : f <> 0; now_fs : fss (v_backend s) !! f = Some (a_fs a);
  now_disk : exists x, at_rest s dev x /\ nsect (lh_hw x) = ns /\ forall k, sect (lh_hw x) k = a_sect a k;
  now_svs : svs (v_backend s) = a_svs a; now_nodes : vnodes s = a_nodes a; now_mem : v_mem s = a_mem a;
  now_next : v_next s = a_next a;
  now_lock : biglock_depth s = a_depth a /\ 0 <= a_depth a /\ biglock s = if a_depth a =? 0 then None else Some (v_thread s);
  now_space : v_space s = a_space a
}.
(** The rest of the state is the same. *)
Record framed s s' : Prop := Framed {
  fr_devices : devices s' = devices s; fr_knowndevs : knowndevs s' = knowndevs s; fr_boot : bootfs_vnode s' = bootfs_vnode s; fr_cwd : p_cwd s' = p_cwd s;
  fr_cur : v_thread s' = v_thread s /\ v_proc s' = v_proc s;
  fr_fss : delete f (fss (v_backend s')) = delete f (fss (v_backend s));
  fr_disks : delete dev (disks (v_backend s')) = delete dev (disks (v_backend s))
}.
#[local] Instance framed_pre : PreOrder framed.
Proof.
  split; [by intros s; split|]. intros s1 s2 s3 [A1 A2 A3 A4 [A5 A6] A7 A8] [B1 B2 B3 B4 [B5 B6] B7 B8].
  split; [congruence..|split|congruence|]; congruence.
Qed.

Lemma disk_same s s' a : disks (v_backend s') !! dev = disks (v_backend s) !! dev -> devices s' = devices s ->
  (exists x, at_rest s dev x /\ nsect (lh_hw x) = ns /\ forall k, sect (lh_hw x) k = a_sect a k) ->
  exists x, at_rest s' dev x /\ nsect (lh_hw x) = ns /\ forall k, sect (lh_hw x) k = a_sect a k.
Proof. intros E1 E2 (x & H1 & H2). exists x. split; [|done]. by apply (at_rest_same s). Qed.
Ltac same_disk := match goal with A3 : exists x, at_rest _ _ _ /\ _ |- _ => refine (disk_same _ _ _ _ _ A3); reflexivity end.
Ltac show := split; cbn; try same_disk; try done.

Definition vwp {A} (m : M V A) a (Q : A -> view -> Prop) : Prop :=
  forall s, now s a -> wp m (fun r s' => exists a', now s' a' /\ framed s s' /\ Q r a') s.

Lemma vwp_ret {A} (r : A) a Q : Q r a -> vwp (mret r) a Q.
Proof. intros HQ s Hs. wpsimp. by exists a. Qed.
Lemma vwp_bind {A B} (m : M V A) (k : A -> M V B) a Q : vwp m a (fun r a' => vwp (k r) a' Q) -> vwp (m ≫= k) a Q.
Proof.
  intros Hm s Hs. rewrite wp_bind. eapply wp_mono; [exact (Hm s Hs)|]. intros r s1 (a1 & H1 & F1 & Hk).
  eapply wp_mono; [exact (Hk s1 H1)|]. intros r2 s2 (a2 & H2 & F2 & HQ). exists a2. split; [done|]. split; [by etrans|done].
Qed.
Lemma vwp_mono {A} (m : M V A) a (Q Q' : A -> view -> Prop) : vwp m a Q -> (forall r a', Q r a' -> Q' r a') -> vwp m a Q'.
Proof. intros Hm HQ s Hs. eapply wp_mono; [exact (Hm s Hs)|]. intros r s1 (a1 & H1 & F1 & Hk). eauto. Qed.
Lemma vwp_kassert b a Q : b = true -> Q tt a -> vwp (kassert b) a Q.
Proof. intros -> HQ s Hs. wpsimp. split; [done|]. by exists a. Qed.
Lemma vwp_deref {A} e (o : option A) r a Q : o = Some r -> Q r a -> vwp (deref e o) a Q.
Proof. intros -> HQ s Hs. wpsimp. exists r. split; [done|]. by exists a. Qed.

Lemma vwp_depth {A} (m : M V A) a Q : (0 <= a_depth a -> vwp m a Q) -> vwp m a Q.
Proof. intros Hm s Hs. apply Hm; [|done]. apply (now_lock _ _ Hs). Qed.
(** A loop over indices, with an invariant *)
Lemma vwp_for_seq N body (J : nat -> view -> Prop) a (Q : unit -> view -> Prop) : J 0%nat a ->
  (forall m a', (m < N)%nat -> J m a' -> vwp (body (Z.of_nat m)) a' (fun _ a2 => J (S m) a2)) -> (forall a', J N a' -> Q tt a') -> vwp (for_each (seqZ 0 (Z.of_nat N)) body) a Q.
Proof.
  intros H0 Hs HQ. assert (forall k m a', (m + k = N)%nat -> J m a' -> vwp (for_each (seqZ (Z.of_nat m) (Z.of_nat k)) body) a' Q) as Hall; [|by apply (Hall N 0%nat)].
  induction k as [|k IH]; intros m a' Hm HJ.
  - apply vwp_ret, HQ. by replace N with m by lia.
  - rewrite seqZ_cons by lia. cbn [for_each]. apply vwp_bind. eapply vwp_mono; [by apply Hs; [lia|]|]. intros [] a2 HJ2.
    replace (Z.succ (Z.of_nat m)) with (Z.of_nat (S m)) by lia. replace (Z.pred (Z.of_nat (S k))) with (Z.of_nat k) by lia. apply IH; [lia|done].
Qed.

(** The state of the model that is read or set. *)
Lemma vwp_get_fs a Q : Q (a_fs a) a -> vwp (get_fs f) a Q.
Proof. intros HQ s Hs. unfold get_fs. destruct (Z.eqb_spec f 0); [by destruct (now_f _ _ Hs)|]. wpsimp. rewrite (now_fs _ _ Hs). exists (a_fs a). split; [done|]. by exists a. Qed.
Lemma vwp_put_fs x a (Q : unit -> view -> Prop) : Q tt (with_fs x a) -> vwp (put_fs f x) a Q.
Proof.
  intros HQ s [A1 A2 A3 A4 A5 A6 A7 A8 A9]. unfold put_fs. wpsimp. exists (with_fs x a). split; [|split; [|done]].
  - show. apply lookup_insert_eq.
  - show. apply delete_insert_eq.
Qed.
Lemma vwp_get_sv v y a Q : v <> 0 -> a_svs a !! v = Some y -> Q y a -> vwp (get_sv v) a Q.
Proof. intros Hv Hy HQ s Hs. unfold get_sv. destruct (Z.eqb_spec v 0); [done|]. wpsimp. rewrite (now_svs _ _ Hs), Hy. exists y. split; [done|]. by exists a. Qed.
Lemma vwp_put_sv v y a (Q : unit -> view -> Prop) : Q tt (with_svs (<[v := y]> (a_svs a)) a) -> vwp (put_sv v y) a Q.
Proof.
  intros HQ s [A1 A2 A3 A4 A5 A6 A7 A8 A9]. unfold put_sv. wpsimp. exists (with_svs (<[v := y]> (a_svs a)) a). split; [|split; [|done]].
  - show. by rewrite A4.
  - by split.
Qed.
Lemma vwp_get_vnode v y a Q : v <> 0 -> a_nodes a !! v = Some y -> Q y a -> vwp (get_vnode v) a Q.
Proof. intros Hv Hy HQ s Hs. unfold get_vnode. destruct (Z.eqb_spec v 0); [done|]. wpsimp. rewrite (now_nodes _ _ Hs), Hy. exists y. split; [done|]. by exists a. Qed.
Lemma vwp_put_vnode v y a (Q : unit -> view -> Prop) : Q tt (with_nodes (<[v := y]> (a_nodes a)) a) -> vwp (put_vnode v y) a Q.
Proof.
  intros HQ s [A1 A2 A3 A4 A5 A6 A7 A8 A9]. unfold put_vnode. wpsimp. exists (with_nodes (<[v := y]> (a_nodes a)) a). split; [|split; [|done]].
  - show. by rewrite A5.
  - by split.
Qed.
Lemma vwp_must_hold a (Q : unit -> view -> Prop) : 0 < a_depth a -> Q tt a -> vwp must_hold a Q.
Proof.
  intros Hd HQ s Hs. unfold must_hold, vfs_biglock_do_i_hold. wpsimp. split; [|by exists a]. unfold biglock_held. apply bool_decide_eq_true.
  destruct (now_lock _ _ Hs) as (_ & _ & ->). by destruct (Z.eqb_spec (a_depth a) 0); [lia|].
Qed.
Lemma vwp_acquire a (Q : unit -> view -> Prop) : Q tt (with_depth (a_depth a + 1) a) -> vwp vfs_biglock_acquire a Q.
Proof.
  intros HQ s [A1 A2 A3 A4 A5 A6 A7 (L1 & L2 & L3) A8]. unfold vfs_biglock_acquire, biglock_held. wpsimp. rewrite L3. destruct (Z.eqb_spec (a_depth a) 0).
  - rewrite bool_decide_false by done. cbn. wpsimp. exists (with_depth (a_depth a + 1) a). split; [|split; [by split|done]].
    show. split; [lia|]. split; [lia|]. by destruct (Z.eqb_spec (a_depth a + 1) 0); [lia|].
  - rewrite bool_decide_true by done. cbn. rewrite (proj2 (Z.eqb_neq (biglock_depth s) 0)) by lia. wpsimp. exists (with_depth (a_depth a + 1) a). split; [|split; [by split|done]].
    show. split; [lia|]. split; [lia|]. by destruct (Z.eqb_spec (a_depth a + 1) 0); [lia|].
Qed.
Lemma vwp_kmalloc a (Q : bool -> view -> Prop) : (forall b, Q b a) -> vwp kmalloc a Q.
Proof.
  intros HQ s Hs. assert (forall b al, exists a', now (set_v_allocs al s) a' /\ framed s (set_v_allocs al s) /\ Q b a') as Hany.
  { intros b al. destruct Hs as [A1 A2 A3 A4 A5 A6 A7 A8 A9]. exists a. split; [|split; [by split|done]]. by show. }
  unfold wp, kmalloc. simpl. destruct (v_allocs s) eqn:E; [|apply Hany]. exists a. done.
Qed.
Lemma vwp_kmalloc_addr a (Q : Z -> view -> Prop) : Q 0 a -> Q (a_next a) (with_next (a_next a + 1) a) -> vwp kmalloc_addr a Q.
Proof.
  intros H0 H1. unfold kmalloc_addr. apply vwp_bind, vwp_kmalloc. intros []; [|by apply vwp_ret]. intros s [A1 A2 A3 A4 A5 A6 A7 A8 A9]. cbn. wpsimp.
  exists (with_next (a_next a + 1) a). rewrite A7. split; [|split; [by split|done]]. by show; congruence.
Qed.

(** An operation that leaves the state alone, and one that may allocate *)
Lemma vwp_run {A} (m : M V A) r a Q : (forall s, m s = Ok r s) -> Q r a -> vwp m a Q.
Proof. intros Hm HQ s Hs. unfold wp. rewrite Hm. by exists a. Qed.
Lemma vwp_alloc {A} (m : M V A) a Q : (forall s, exists r s', m s = Ok r s' /\ Array.alloc_step s s' /\ Q r a) -> vwp m a Q.
Proof.
  intros Hm s Hs. destruct (Hm s) as (r & s' & He & Hst & HQ). unfold wp. rewrite He. exists a. destruct Hst as [->|[al ->]]; [done|]. destruct Hs as [A1 A2 A3 A4 A5 A6 A7 A8 A9].
  split; [|split; [by split|done]]. by show.
Qed.
(** The vnodes are changed. *)
Lemma vwp_set_nodes g a (Q : unit -> view -> Prop) : Q tt (with_nodes (g (a_nodes a)) a) -> vwp (modify (fun s => set_vnodes (g (vnodes s)) s)) a Q.
Proof.
  intros HQ s [A1 A2 A3 A4 A5 A6 A7 A8 A9]. wpsimp. exists (with_nodes (g (a_nodes a)) a). split; [|split; [by split|done]]. show. by rewrite A5.
Qed.
(** A vnode and its private data are freed. *)
Lemma vwp_forget v a (Q : unit -> view -> Prop) : Q tt (with_svs (delete v (a_svs a)) (with_nodes (delete v (a_nodes a)) a)) ->
  vwp (modify (fun s => set_vnodes (delete v (vnodes s)) (set_backend (SfsState (fss (v_backend s)) (delete v (svs (v_backend s))) (disks (v_backend s))) s))) a Q.
Proof.
  intros HQ s [A1 A2 A3 A4 A5 A6 A7 A8 A9]. wpsimp. exists (with_svs (delete v (a_svs a)) (with_nodes (delete v (a_nodes a)) a)). split; [|split; [by split|done]]. show; [by rewrite A4|by rewrite A5].
Qed.
Lemma vwp_release a (Q : unit -> view -> Prop) : 0 < a_depth a -> Q tt (with_depth (a_depth a - 1) a) -> vwp vfs_biglock_release a Q.
Proof.
  intros Hd HQ s [A1 A2 A3 A4 A5 A6 A7 (L1 & L2 & L3) A8]. unfold vfs_biglock_release, biglock_held. wpsimp. rewrite L3.
  rewrite (proj2 (Z.eqb_neq (a_depth a) 0)) by lia. rewrite bool_decide_true by done. split; [done|]. split; [rewrite L1; by apply Z.gtb_lt|]. wpsimp.
  exists (with_depth (a_depth a - 1) a). split; [|split; [by split|done]]. show. rewrite L1. split; [done|]. split; [lia|].
  by destruct (a_depth a - 1 =? 0).
Qed.
Lemma vwp_unlock {A} (r : A) a Q : 0 < a_depth a -> Q r (with_depth (a_depth a - 1) a) -> vwp (unlock_ret r) a Q.
Proof. intros Hd HQ. unfold unlock_ret. by apply vwp_bind, vwp_release, vwp_ret. Qed.
(** A section under the big lock *)
Lemma vwp_locked {A} (m : M V A) a Q : vwp m (with_depth (a_depth a + 1) a) Q -> vwp (vfs_biglock_acquire ≫= fun _ => m) a Q.
Proof. intros Hm. apply vwp_bind, vwp_acquire, Hm. Qed.

(** An operation on the bitmap of free blocks *)
Definition with_freemap b a := let x := a_fs a in
  with_fs (SfsFs (sfs_sb x) (sfs_superdirty x) (sfs_device x) (sfs_vnodes x) (Some b) (sfs_freemapdirty x)) a.
Lemma vwp_on_freemap {A} (m : M Bitmap.bitmap A) b a Q : sfs_freemap (a_fs a) = Some b -> wp m (fun r b' => Q r (with_freemap b' a)) b -> vwp (on_freemap f m) a Q.
Proof.
  intros Hb Hm. unfold on_freemap. apply vwp_bind, vwp_get_fs, vwp_bind. eapply vwp_deref; [exact Hb|]. unfold wp in Hm. destruct (m b) as [r b'|e]; [|done].
  apply vwp_bind, vwp_put_fs, vwp_ret, Hm.
Qed.

(** ** Blocks *)

Lemma vwp_sectors {A} (m : M V A) a Q : ((forall n, 0 <= n < ns -> length (a_sect a n) = 512%nat) -> vwp m a Q) -> vwp m a Q.
Proof.
  intros Hm s Hs. apply Hm; [|done]. intros n Hn. destruct (now_disk _ _ Hs) as (x & Hr & <- & Hx). rewrite <- Hx. apply sound_sector; [apply Hr|done].
Qed.
Lemma now_lhd s a x x' t t' : now s a -> at_rest s dev x -> nsect (lh_hw x) = ns -> worked x x' t -> (forall k, t k = t' k) -> now (with_lhd s dev x') (with_sect t' a).
Proof.
  intros [A1 A2 A3 A4 A5 A6 A7 A8 A9] Hr Hns Hw Ht. split; cbn; try done. exists x'. split; [by eapply worked_rest|]. split; [by rewrite (wk_nsect _ _ _ Hw)|].
  intros k. by rewrite (wk_sect _ _ _ Hw).
Qed.
Lemma framed_lhd s x : framed s (with_lhd s dev x).
Proof. split; cbn; try done. apply delete_insert_eq. Qed.

Section Rw.
Context {U : Type} `{UL : UioLike V U}.
(** One block is read, with at most [n] tries more. *)
Lemma rw_read n s x blk (u : U) (Q : res unit * U -> V -> Prop) : at_rest s dev x -> 0 <= blk < nsect (lh_hw x) ->
  u_offset u = blk * 512 -> u_resid u = 512 -> u_rw u = UIO_READ -> (patience (lh_hw x) <= n)%nat ->
  (forall x', worked x (Lhd (lh_buf x') (lh_result x') 1 0 (lh_hw x')) (sect (lh_hw x)) -> lh_clear x' = 0 -> lh_done x' = 0 ->
     wp (u_move (sect (lh_hw x) blk) 512 u) (fun r s2 => disks (v_backend s2) !! dev = Some x' /\ (r.1.1 = Done tt \/ r.1.1 = Err EFAULT) /\
       Q (r.1.1, r.1.2) (with_lhd s2 dev (Lhd (lh_buf x') (lh_result x') 1 0 (lh_hw x')))) (with_lhd s dev x')) ->
  wp (rwblock_loop n dev u) Q s.
Proof.
  intros Hr Hb Ho Hres Hrw. revert s x Hr Hb. induction n as [|n IH]; intros s x Hr Hb Hp HQ; cbn; rewrite wp_bind; eapply lhd_one; try done; eapply wp_sector_read; try done.
  1: intros x' Hw Hlt; lia.
  2: intros x' Hw Hlt; cbn; apply (IH _ x'); [by eapply worked_rest|by rewrite (wk_nsect _ _ _ Hw)|lia|];
    intros x2 [B1 B2 B3 B4 B5 B6] Hc Hd; cbn in *; rewrite (wk_sect _ _ _ Hw), with_lhd_twice; apply HQ; [|done..];
    split; cbn; [by rewrite (ar_clear _ _ _ Hr)|done|done|done|by rewrite B5, (wk_nsect _ _ _ Hw)|intros k; by rewrite B6, (wk_sect _ _ _ Hw)].
  all: intros x' Hw Hc Hd; eapply wp_mono; [by apply HQ|]; intros [[r u'] got] s2 (Hx & Hok & HQ2); split; [done|]; cbn in *; destruct Hok as [->| ->]; by wpsimp.
Qed.
Lemma rw_write n s x blk (u : U) (Q : res unit * U -> V -> Prop) : at_rest s dev x -> 0 <= blk < nsect (lh_hw x) ->
  u_offset u = blk * 512 -> u_resid u = 512 -> u_rw u = UIO_WRITE ->
  (forall x', worked x (Lhd (lh_buf x') (lh_result x') 1 0 (lh_hw x')) (sect (lh_hw x)) -> lh_clear x' = 0 -> lh_done x' = 0 ->
     wp (u_move [] 512 u) (fun r s2 => disks (v_backend s2) !! dev = Some x' /\ u_rw r.1.2 = UIO_WRITE /\
       match r.1.1 with
       | Err e => e = EFAULT /\ Q (Err e, r.1.2) (with_lhd s2 dev (Lhd (r.2 ++ drop (length r.2) (lh_buf x')) (lh_result x') 1 0 (lh_hw x'))) /\ (length r.2 <= 512)%nat
       | Done _ => length r.2 = 512%nat /\ forall x2, worked x x2 (upd (sect (lh_hw x)) blk r.2) -> Q (Done tt, r.1.2) (with_lhd s2 dev x2)
       end) (with_lhd s dev x')) ->
  wp (rwblock_loop n dev u) Q s.
Proof.
  intros Hr Hb Ho Hres Hrw HQ. destruct n; cbn; rewrite wp_bind; (eapply lhd_one; [done..|]); (eapply wp_sector_write; [done..|]); intros x' Hw Hc Hd;
    (eapply wp_mono; [by apply HQ|]); intros [[[[]|e] u'] got] s2 (Hx & Hu & HQ2); cbn in *; (split; [done|]); (split; [done|]).
  1, 3: destruct HQ2 as [Hl HQ2]; (split; [done|]); intros x2 Hw2; wpsimp; by apply HQ2.
  all: destruct HQ2 as (-> & HQ2 & Hl); wpsimp; done.
Qed.
End Rw.

Lemma vwp_readblock blk a (Q : res (list Z) -> view -> Prop) : sfs_device (a_fs a) = dev -> 0 < a_depth a -> 0 <= blk < ns ->
  Q (Done (a_sect a blk)) a -> vwp (sfs_readblock f blk) a Q.
Proof.
  intros Hd Hdep Hb HQ. apply vwp_sectors. intros Hlen. unfold sfs_readblock, sfs_rwblock. apply vwp_bind, vwp_bind, vwp_must_hold, vwp_bind, vwp_get_fs; [done|]. rewrite Hd.
  intros s Hs. destruct (now_disk _ _ Hs) as (x & Hr & Hns & Hx). eapply (rw_read 10 s x blk); try done; [by rewrite Hns|apply sound_patience, Hr|]. intros x' Hw Hc Hd'.
  cbn. wpsimp. split; [apply lookup_insert_eq|]. split; [by left|]. rewrite with_lhd_twice. exists (with_sect (a_sect a) a).
  split; [by eapply now_lhd|]. split; [apply framed_lhd|]. apply vwp_ret. cbn [fst snd k_buf]. change (Z.to_nat (512 `min` SFS_BLOCKSIZE)) with 512%nat.
  rewrite Hx, drop_ge, app_nil_r, (take_ge (a_sect a blk)) by (rewrite ?(Hlen blk Hb); done). by destruct a.
Qed.
Lemma vwp_writeblock blk data a (Q : res unit -> view -> Prop) : sfs_device (a_fs a) = dev -> 0 < a_depth a -> 0 <= blk < ns -> length data = 512%nat ->
  Q (Done tt) (with_sect (upd (a_sect a) blk data) a) -> vwp (sfs_writeblock f blk data) a Q.
Proof.
  intros Hd Hdep Hb Hl HQ. unfold sfs_writeblock, sfs_rwblock. apply vwp_bind, vwp_kassert; [by rewrite Hl|]. apply vwp_bind, vwp_bind, vwp_must_hold, vwp_bind, vwp_get_fs; [done|]. rewrite Hd.
  intros s Hs. destruct (now_disk _ _ Hs) as (x & Hr & Hns & Hx). eapply (rw_write 10 s x blk); try done; [by rewrite Hns|]. intros x' Hw Hc Hd'.
  cbn. wpsimp. split; [apply lookup_insert_eq|]. split; [done|]. cbn [fst snd k_buf]. change (Z.to_nat (512 `min` SFS_BLOCKSIZE)) with 512%nat. rewrite drop_0, take_ge by lia.
  split; [done|]. intros x2 Hw2. rewrite with_lhd_twice. exists (with_sect (upd (a_sect a) blk data) a).
  split; [eapply now_lhd; try done; intros k; unfold upd; by rewrite Hx|]. split; [apply framed_lhd|]. by apply vwp_ret.
Qed.
End Logic.
End SfsSpec.
