(* ===== verification/SfsMap.v ===== *)
(** * Blocks of a volume

    Words and bytes, the blocks of a file and who owns them.  The free map marks
    exactly the blocks of the system, of the live inodes and of their files, and
    no block is owned twice; sfs_balloc and sfs_bfree keep this. *)

From S2P Require Import Prelude Kern Bswap Bitmap Array Interfaces Copyinout Uio Vfs Lhd LhdSpec Sfs SfsSpec.
Open Scope Z_scope.

Module SfsMap.
Import Vfs Lhd LhdSpec Sfs SfsSpec.

(** ** Words and bytes *)

Lemma word_bytes_cons w ws : word_bytes (w :: ws) = Bswap.be_bytes 4 w ++ word_bytes ws.
Proof. done. Qed.
Lemma word_bytes_length ws : length (word_bytes ws) = (4 * length ws)%nat.
Proof. induction ws as [|w ws IH]; [done|]. rewrite word_bytes_cons, length_app, Bswap.be_bytes_length, IH. cbn. lia. Qed.
Lemma be_word n x : 0 <= x < 2 ^ (8 * Z.of_nat n) -> Bswap.be_value (Bswap.be_bytes n x) = x.
Proof. intros Hx. rewrite Bswap.be_value_bytes. by apply Z.mod_small. Qed.
(** The words read at a place where words were written *)
Lemma words_at ws pre post i : length pre = (4 * i)%nat -> Forall is_u32 ws -> words_from (pre ++ word_bytes ws ++ post) i (length ws) = ws.
Proof.
  unfold words_from. revert pre i. induction ws as [|w ws IH]; intros pre i Hp Hws; [done|]. inversion Hws as [|? ? Hw Hws']; subst. cbn [length seq fmap list_fmap]. f_equal.
  - unfold word_at. rewrite <- Hp, drop_app_length, word_bytes_cons, <- !app_assoc, take_app_length' by (by rewrite Bswap.be_bytes_length). by apply be_word.
  - rewrite word_bytes_cons. specialize (IH (pre ++ Bswap.be_bytes 4 w) (S i)). rewrite <- !app_assoc in *. apply IH; [|done].
    rewrite length_app, Bswap.be_bytes_length. lia.
Qed.
Lemma words_back ws : Forall is_u32 ws -> words_from (word_bytes ws) 0 (length ws) = ws.
Proof. intros Hws. rewrite <- (words_at ws [] [] 0) at 3 by done. by rewrite app_nil_r. Qed.
Lemma words_from_length bs i n : length (words_from bs i n) = n.
Proof. unfold words_from. by rewrite length_fmap, length_seq. Qed.

Definition zeros : list Z := replicate 512 0.
Lemma words_zeros : words_from zeros 0 128 = replicate 128 0.
Proof. vm_compute. reflexivity. Qed.

(** ** The blocks of a file *)

Definition nz : list Z -> list Z := filter (fun z => z <> 0).
(** The words of the indirect block, all 0 if there is none *)
Definition iwords (t : Z -> list Z) (i : sfs_dinode) : list Z :=
  if sfi_indirect i =? 0 then replicate 128 0 else words_from (t (sfi_indirect i)) 0 128.
(** The disk block of block [k] of the file, 0 if there is none *)
Definition blockno t i (k : nat) : Z := default 0 ((sfi_direct i ++ iwords t i) !! k).
(** What block [k] of the file holds *)
Definition fblock t i (k : nat) : list Z := if blockno t i k =? 0 then zeros else t (blockno t i k).
Definition file_blocks t i : list Z := nz (sfi_indirect i :: sfi_direct i ++ iwords t i).

Lemma nz_insert l k b c : l !! k = Some c -> nz [c] ++ nz (<[k := b]> l) ≡ₚ nz [b] ++ nz l.
Proof.
  revert k. induction l as [|x l IH]; intros [|k]; cbn [lookup list_lookup]; [done..| |].
  - intros [= ->]. cbn [insert list_insert]. unfold nz. rewrite !(filter_cons _ _ l). cbn. repeat case_decide; try done. apply Permutation_swap.
  - intros Hk. cbn [insert list_insert]. specialize (IH k Hk). unfold nz in *. rewrite !(filter_cons _ x). destruct (decide (x <> 0)); [|done]. by rewrite <- !Permutation_middle, IH.
Qed.
Lemma nz_zeros n : nz (replicate n 0) = [].
Proof. induction n as [|n IH]; [done|]. cbn [replicate]. unfold nz in *. rewrite filter_cons. by case_decide. Qed.
Lemma elem_nz b l : b ∈ nz l <-> b ∈ l /\ b <> 0.
Proof. unfold nz. rewrite list_elem_of_filter. naive_solver. Qed.

Lemma nz_one b : b <> 0 -> nz [b] = [b].
Proof. intros Hb. unfold nz. by rewrite filter_cons_True. Qed.
Lemma file_blocks_split t i : file_blocks t i = nz [sfi_indirect i] ++ nz (sfi_direct i ++ iwords t i).
Proof. unfold file_blocks, nz. by rewrite <- filter_app. Qed.
Lemma nz_app l l' : nz (l ++ l') = nz l ++ nz l'.
Proof. apply filter_app. Qed.
Lemma file_blocks_some t i : sfi_indirect i <> 0 -> file_blocks t i = sfi_indirect i :: nz (sfi_direct i) ++ nz (iwords t i).
Proof. intros Hi. by rewrite file_blocks_split, nz_one, nz_app. Qed.
Lemma file_blocks_none t i : sfi_indirect i = 0 -> file_blocks t i = nz (sfi_direct i).
Proof. intros Hi. rewrite file_blocks_split, nz_app. unfold iwords. rewrite Hi. cbn [Z.eqb]. by rewrite nz_zeros, app_nil_r. Qed.
(** A word that was 0 is set. *)
Lemma nz_set l k b : l !! k = Some 0 -> b <> 0 -> nz (<[k := b]> l) ≡ₚ b :: nz l.
Proof. intros Hk Hb. pose proof (nz_insert l k b 0 Hk) as HP. by rewrite (nz_one b) in HP. Qed.
Lemma nz_clear l k b : l !! k = Some b -> b <> 0 -> nz l ≡ₚ b :: nz (<[k := 0]> l).
Proof. intros Hk Hb. pose proof (nz_insert l k 0 b Hk) as HP. by rewrite (nz_one b) in HP. Qed.

Lemma blockno_in t i k : blockno t i k <> 0 -> blockno t i k ∈ file_blocks t i.
Proof.
  unfold blockno. intros Hk. destruct ((sfi_direct i ++ iwords t i) !! k) as [b|] eqn:E; [|done]. change (default 0 (Some b)) with b in *. apply elem_nz. split; [|done]. right. by eapply list_elem_of_lookup_2.
Qed.
Lemma iwords_length t i : length (iwords t i) = 128%nat.
Proof. unfold iwords. destruct (_ =? _); [done|apply words_from_length]. Qed.
Lemma iwords_upd t b bs i : sfi_indirect i = 0 \/ b <> sfi_indirect i -> iwords (upd t b bs) i = iwords t i.
Proof. intros Hb. unfold iwords, upd. destruct (Z.eqb_spec (sfi_indirect i) 0); [done|]. destruct (Z.eqb_spec (sfi_indirect i) b); [|done]. naive_solver. Qed.
Lemma indirect_not t b i : b ∉ file_blocks t i -> sfi_indirect i = 0 \/ b <> sfi_indirect i.
Proof. intros Hb. destruct (decide (sfi_indirect i = 0)); [by left|]. right. intros ->. apply Hb, elem_nz. split; [left|done]. Qed.
Lemma file_blocks_upd t b bs i : b ∉ file_blocks t i -> file_blocks (upd t b bs) i = file_blocks t i.
Proof. intros Hb. unfold file_blocks. by rewrite (iwords_upd _ _ _ _ (indirect_not _ _ _ Hb)). Qed.
Lemma blockno_upd t b bs i k : b ∉ file_blocks t i -> blockno (upd t b bs) i k = blockno t i k.
Proof. intros Hb. unfold blockno. by rewrite (iwords_upd _ _ _ _ (indirect_not _ _ _ Hb)). Qed.
(** Writing a block that is not the file's leaves the file alone. *)
Lemma fblock_upd t b bs i k : b ∉ file_blocks t i -> fblock (upd t b bs) i k = fblock t i k.
Proof.
  intros Hb. unfold fblock. rewrite blockno_upd by done. destruct (Z.eqb_spec (blockno t i k) 0) as [|Hk]; [done|]. unfold upd.
  destruct (Z.eqb_spec (blockno t i k) b) as [He|]; [|done]. destruct Hb. rewrite <- He. by apply blockno_in.
Qed.

(** ** Who owns the blocks *)

Definition owned t (I : gmap Z sfs_dinode) : list Z := map_to_list I ≫= fun p => p.1 :: file_blocks t p.2.
Lemma owned_insert t I ino i : I !! ino = None -> owned t (<[ino := i]> I) ≡ₚ (ino :: file_blocks t i) ++ owned t I.
Proof. intros Hi. unfold owned. by rewrite map_to_list_insert. Qed.
Lemma owned_delete t I ino i : I !! ino = Some i -> owned t I ≡ₚ (ino :: file_blocks t i) ++ owned t (delete ino I).
Proof. intros Hi. rewrite <- (insert_delete_id I ino i Hi) at 1. by rewrite owned_insert by apply lookup_delete_eq. Qed.
Lemma owned_update t I ino i : owned t (<[ino := i]> I) ≡ₚ (ino :: file_blocks t i) ++ owned t (delete ino I).
Proof. rewrite <- insert_delete_eq. by rewrite owned_insert by apply lookup_delete_eq. Qed.
Lemma owned_same t t' I : (forall ino i, I !! ino = Some i -> file_blocks t' i = file_blocks t i) -> owned t' I = owned t I.
Proof.
  intros HI. unfold owned. assert (forall l, l ⊆ map_to_list I -> (l ≫= fun p => p.1 :: file_blocks t' p.2) = l ≫= fun p => p.1 :: file_blocks t p.2) as Hl; [|by apply Hl].
  induction l as [|[ino i] l IH]; intros Hs; [done|]. cbn [mbind list_bind fst snd]. rewrite (HI ino i), IH; [done| |].
  - intros p Hp. apply Hs. by right.
  - apply elem_of_map_to_list, Hs. by left.
Qed.
Lemma in_owned t I b : b ∈ owned t I <-> exists ino i, I !! ino = Some i /\ (b = ino \/ b ∈ file_blocks t i).
Proof.
  unfold owned. rewrite list_elem_of_bind. split.
  - intros ([ino i] & Hb & Hp). apply elem_of_map_to_list in Hp. apply elem_of_cons in Hb. eauto.
  - intros (ino & i & Hi & Hb). exists (ino, i). split; [by apply elem_of_cons|]. by apply elem_of_map_to_list.
Qed.
Lemma owned_upd t b bs I : b ∉ owned t I -> owned (upd t b bs) I = owned t I.
Proof. intros Hb. apply owned_same. intros ino i Hi. apply file_blocks_upd. intros Hf. apply Hb, in_owned. eauto. Qed.

(** The superblock and the free map *)
Definition system (nb : Z) : list Z := 0 :: seqZ 2 (SFS_FREEMAPBLOCKS nb).
(** All blocks in use: [E] are those in the hands of an operation. *)
Definition in_use nb t I (E : list Z) : list Z := system nb ++ E ++ owned t I.

(** No block is left. *)
Definition full (x : sfs_fs) t I (E : list Z) : Prop := forall b, 0 <= b < sb_nblocks (sfs_sb x) -> b ∈ in_use (sb_nblocks (sfs_sb x)) t I E.

(** An inode in memory; no file is longer than its blocks allow. *)
Definition MAXSIZE : Z := 143 * 512.
Record dinode_ok (i : sfs_dinode) : Prop := {
  di_size : 0 <= sfi_size i <= MAXSIZE; di_type : 0 <= sfi_type i < 2 ^ 16; di_link : 0 <= sfi_linkcount i < 2 ^ 16;
  di_direct : length (sfi_direct i) = 15%nat; di_waste : length (sfi_waste i) = 110%nat /\ Forall is_u32 (sfi_waste i)
}.

Section Space.
Context (ns : Z).
Record space_ok (x : sfs_fs) t (I : gmap Z sfs_dinode) (E : list Z) : Prop := {
  so_nb : 0 < sb_nblocks (sfs_sb x) <= Z.min (2 ^ 23) ns;
  so_map : exists b, sfs_freemap x = Some b /\ Bitmap.wf b /\ Bitmap.nbits b = SFS_FREEMAPBITS (sb_nblocks (sfs_sb x)) /\
    forall k, 0 <= k < Bitmap.nbits b -> Bitmap.marked b k = true <-> sb_nblocks (sfs_sb x) <= k \/ k ∈ in_use (sb_nblocks (sfs_sb x)) t I E;
  so_nodup : NoDup (in_use (sb_nblocks (sfs_sb x)) t I E);
  so_range : forall k, k ∈ in_use (sb_nblocks (sfs_sb x)) t I E -> 0 <= k < sb_nblocks (sfs_sb x);
  so_inodes : forall ino i, I !! ino = Some i -> dinode_ok i
}.

(** Blocks change hands. *)
Lemma space_moves x t I E t' I' E' : space_ok x t I E -> E' ++ owned t' I' ≡ₚ E ++ owned t I -> (forall ino i, I' !! ino = Some i -> dinode_ok i) -> space_ok x t' I' E'.
Proof.
  intros [A1 (b & A2 & A3 & A4 & A5) A6 A7 A8] HP HI. assert (in_use (sb_nblocks (sfs_sb x)) t' I' E' ≡ₚ in_use (sb_nblocks (sfs_sb x)) t I E) as HU by (unfold in_use; by rewrite HP).
  split; [done| | | |done].
  - exists b. split_and!; [done..|]. intros k Hk. by rewrite HU, A5.
  - by rewrite HU.
  - intros k. rewrite HU. apply A7.
Qed.
Lemma freemap_bits nb : 0 < nb <= 2 ^ 23 -> nb <= SFS_FREEMAPBITS nb < 2 ^ 32 - 8.
Proof.
  intros Hnb. unfold SFS_FREEMAPBITS, SFS_ROUNDUP. change SFS_BITSPERBLOCK with 4096. rewrite u32_id by width_lia. Z.to_euclidean_division_equations. lia.
Qed.
End Space.

(** The sectors of the file system's own are the same. *)
Definition fixed (x : sfs_fs) (t t' : Z -> list Z) : Prop := forall b, b ∈ system (sb_nblocks (sfs_sb x)) -> t' b = t b.
Lemma fixed_trans x x1 t t1 t2 : sfs_sb x1 = sfs_sb x -> fixed x t t1 -> fixed x1 t1 t2 -> fixed x t t2.
Proof. unfold fixed. intros -> H1 H2 b Hb. rewrite H2, H1 by done. done. Qed.
Lemma fixed_new x t I E b bs : b ∉ in_use (sb_nblocks (sfs_sb x)) t I E -> fixed x t (upd t b bs).
Proof. intros Hb c Hc. unfold upd. destruct (Z.eqb_spec c b) as [->|]; [|done]. destruct Hb. apply elem_of_app. by left. Qed.
Lemma fixed_own ns x t I E b bs : space_ok ns x t I E -> b ∈ E ++ owned t I -> fixed x t (upd t b bs).
Proof.
  intros Ho Hb c Hc. unfold upd. destruct (Z.eqb_spec c b) as [->|]; [|done]. pose proof (so_nodup _ _ _ _ _ Ho) as Hn. unfold in_use in Hn. apply NoDup_app in Hn as (_ & Hd & _). by destruct (Hd b Hc).
Qed.
(** The volume's record after work on the free map *)
Record fs_step (x x' : sfs_fs) : Prop := {
  fst_sb : sfs_sb x' = sfs_sb x; fst_superdirty : sfs_superdirty x' = sfs_superdirty x; fst_device : sfs_device x' = sfs_device x; fst_vnodes : sfs_vnodes x' = sfs_vnodes x;
  fst_dirty : x' = x \/ sfs_freemapdirty x' = true
}.
#[export] Instance fs_step_pre : PreOrder fs_step.
Proof.
  split; [intros x; split; auto|]. intros x1 x2 x3 [A1 A2 A3 A4 A5] [B1 B2 B3 B4 B5]. split; try congruence. destruct B5 as [->|]; auto.
Qed.

Section Alloc.
Context {D : Type} `{W : DiskSpec D}.
Context (f dev ns : Z).
Abbreviation vwp := (vwp (D := D) f dev ns).
Abbreviation space_ok := (space_ok ns).
Implicit Types (a : view) (I : gmap Z sfs_dinode).

Lemma clear_zeros : replicate (Z.to_nat SFS_BLOCKSIZE) 0 = zeros.
Proof. reflexivity. Qed.
Lemma vwp_set_freemapdirty d a (Q : unit -> view -> Prop) : let x := a_fs a in
  Q tt (with_fs (SfsFs (sfs_sb x) (sfs_superdirty x) (sfs_device x) (sfs_vnodes x) (sfs_freemap x) d) a) -> vwp (set_freemapdirty f d) a Q.
Proof. intros x HQ. unfold set_freemapdirty. apply vwp_bind, vwp_get_fs, vwp_put_fs, HQ. Qed.
Lemma with_freemap_id b a : sfs_freemap (a_fs a) = Some b -> with_freemap b a = a.
Proof. intros Hb. unfold with_freemap, with_fs. rewrite <- Hb. by destruct a as [[] ]. Qed.

(** sfs_balloc: a block nobody owns, cleared; ENOSPC changes nothing, and no block is left. *)
Lemma vwp_balloc a I E (Q : res Z -> view -> Prop) : space_ok (a_fs a) (a_sect a) I E -> sfs_device (a_fs a) = dev -> 0 < a_depth a ->
  (forall b x', fs_step (a_fs a) x' -> sfs_freemapdirty x' = true -> b <> 0 -> (b ∉ in_use (sb_nblocks (sfs_sb (a_fs a))) (a_sect a) I E) -> space_ok x' (upd (a_sect a) b zeros) I (b :: E) ->
     Q (Done b) (with_sect (upd (a_sect a) b zeros) (with_fs x' a))) ->
  (full (a_fs a) (a_sect a) I E -> Q (Err ENOSPC) a) -> vwp (sfs_balloc f) a Q.
Proof.
  intros [A1 (m & A2 & A3 & A4 & A5) A6 A7 A8] Hd Hdep HQ HE. unfold sfs_balloc. pose proof (freemap_bits (sb_nblocks (sfs_sb (a_fs a))) ltac:(lia)) as Hbits.
  apply vwp_bind. eapply vwp_on_freemap; [exact A2|]. eapply wp_mono; [by apply Bitmap.bitmap_alloc_first_fit|]. intros [b|e] m' (B1 & B2 & B3).
  2:{ destruct B3 as (-> & -> & Hall). rewrite with_freemap_id by done. apply vwp_ret, HE. intros b Hb. destruct (proj1 (A5 b ltac:(lia)) (Hall b ltac:(lia))); [lia|done]. }
  destruct B3 as (Hb & Hfree & _ & Hmark). assert (b ∉ in_use (sb_nblocks (sfs_sb (a_fs a))) (a_sect a) I E) as Hnot.
  { intros Hin. destruct (A5 b Hb) as [_ H1]. rewrite H1 in Hfree; [done|by right]. }
  assert (b < sb_nblocks (sfs_sb (a_fs a))) as Hlt. { destruct (Z.lt_ge_cases b (sb_nblocks (sfs_sb (a_fs a)))); [done|]. destruct (A5 b Hb) as [_ H1]. rewrite H1 in Hfree; [done|by left]. }
  apply vwp_bind, vwp_set_freemapdirty. cbn. apply vwp_bind, vwp_get_fs. cbn. destruct (Z.geb_spec b (sb_nblocks (sfs_sb (a_fs a)))); [lia|].
  unfold sfs_clearblock. rewrite clear_zeros. apply vwp_bind, vwp_writeblock; [done|done|lia|done|]. cbn. apply vwp_ret. apply HQ; [by split; auto|done| |done|].
  { intros ->. apply Hnot. left. }
  assert (in_use (sb_nblocks (sfs_sb (a_fs a))) (upd (a_sect a) b zeros) I (b :: E) ≡ₚ b :: in_use (sb_nblocks (sfs_sb (a_fs a))) (a_sect a) I E) as HU.
  { unfold in_use. rewrite owned_upd; [by rewrite Permutation_middle|]. intros Hin. apply Hnot. apply elem_of_app. right. apply elem_of_app. by right. }
  split; cbn; [done| | | |done].
  - exists m'. split_and!; [done|done|congruence|]. intros k Hk. rewrite B2 in Hk. rewrite Hmark, HU, elem_of_cons by lia. destruct (Z.eqb_spec k b) as [->|Hne]; [naive_solver|]. rewrite A5 by done. naive_solver.
  - rewrite HU. by constructor.
  - intros k. rewrite HU, elem_of_cons. intros [->|Hk]; [lia|by apply A7].
Qed.

(** sfs_bfree of a block in hand *)
Lemma vwp_bfree a I E b (Q : unit -> view -> Prop) : space_ok (a_fs a) (a_sect a) I (b :: E) ->
  (forall x', fs_step (a_fs a) x' -> sfs_freemapdirty x' = true -> space_ok x' (a_sect a) I E -> Q tt (with_fs x' a)) -> vwp (sfs_bfree f b) a Q.
Proof.
  intros [A1 (m & A2 & A3 & A4 & A5) A6 A7 A8] HQ. unfold sfs_bfree. pose proof (freemap_bits (sb_nblocks (sfs_sb (a_fs a))) ltac:(lia)) as Hbits.
  assert (in_use (sb_nblocks (sfs_sb (a_fs a))) (a_sect a) I (b :: E) ≡ₚ b :: in_use (sb_nblocks (sfs_sb (a_fs a))) (a_sect a) I E) as HU by (unfold in_use; by rewrite Permutation_middle).
  assert (b ∈ in_use (sb_nblocks (sfs_sb (a_fs a))) (a_sect a) I (b :: E)) as Hin by (rewrite HU; left). pose proof (A7 b Hin) as Hb. rewrite HU in A6. apply NoDup_cons in A6 as [Hnot A6].
  apply vwp_bind. eapply vwp_on_freemap; [exact A2|]. pose proof (Bitmap.bitmap_unmark_spec m b A3 ltac:(lia)) as Hun. rewrite (proj2 (A5 b ltac:(lia)) (or_intror Hin)) in Hun.
  eapply wp_mono; [exact Hun|]. intros [] m' (B1 & B2 & Hmark). apply vwp_set_freemapdirty. cbn. apply HQ; [by split; auto|done|]. split; cbn; [done| |done| |done].
  - exists m'. split_and!; [done|done|congruence|]. intros k Hk. rewrite B2 in Hk. rewrite Hmark by lia. pose proof (A5 k Hk) as H5. rewrite HU, elem_of_cons in H5.
    destruct (Z.eqb_spec k b) as [->|Hne]; [|rewrite H5; naive_solver]. split; [done|]. intros [?|?]; [lia|done].
  - intros k Hk. apply A7. rewrite HU. by right.
Qed.

(** sfs_bused of a block of the volume *)
Lemma vwp_bused a I E b (Q : bool -> view -> Prop) : space_ok (a_fs a) (a_sect a) I E -> b ∈ in_use (sb_nblocks (sfs_sb (a_fs a))) (a_sect a) I E -> Q true a -> vwp (sfs_bused f b) a Q.
Proof.
  intros [A1 (m & A2 & A3 & A4 & A5) A6 A7 A8] Hin HQ. pose proof (A7 b Hin) as Hb. unfold sfs_bused. pose proof (freemap_bits (sb_nblocks (sfs_sb (a_fs a))) ltac:(lia)) as Hbits.
  apply vwp_bind, vwp_get_fs. destruct (Z.geb_spec b (sb_nblocks (sfs_sb (a_fs a)))); [lia|]. apply vwp_bind. eapply vwp_on_freemap; [exact A2|].
  eapply wp_mono; [by apply (Bitmap.bitmap_mark_unmark m b A3 ltac:(lia))|]. cbn. intros r m' (-> & Hr). apply vwp_ret. rewrite with_freemap_id, Hr by done.
  by rewrite (proj2 (A5 b ltac:(lia)) (or_intror Hin)).
Qed.
Lemma vwp_hand_back a I E b (Q : res Z -> view -> Prop) : space_ok (a_fs a) (a_sect a) I E -> b = 0 \/ b ∈ in_use (sb_nblocks (sfs_sb (a_fs a))) (a_sect a) I E -> Q (Done b) a -> vwp (hand_back f b) a Q.
Proof.
  intros Ho Hb HQ. unfold hand_back. apply vwp_bind. destruct (Z.eqb_spec b 0).
  - apply vwp_ret. cbn. by apply vwp_ret.
  - destruct Hb as [|Hb]; [done|]. eapply vwp_bused; [done|done|]. cbn. by apply vwp_ret.
Qed.
End Alloc.
End SfsMap.
