(* ===== verification/SfsBmap.v ===== *)
(** * Mapping file blocks to disk blocks

    sfs_bmap finds or allocates the disk block of a block of a file.  What the
    files hold stays the same: a block that was not there reads as zeros, and the
    new one is zeros. *)

From S2P Require Import Prelude Kern Bswap Bitmap Array Interfaces Copyinout Uio Vfs Lhd LhdSpec Sfs SfsSpec SfsMap.
Open Scope Z_scope.

Module SfsBmap.
Import Vfs Lhd LhdSpec Sfs SfsSpec SfsMap.

(** ** Ownership when one inode changes *)

Section Pure.
Context (ns : Z).
Abbreviation space_ok := (space_ok ns).
Implicit Types (I : gmap Z sfs_dinode).

(** A block in hand or of one inode belongs to nobody else. *)
Lemma own_apart x t I E ino i c : space_ok x t I E -> I !! ino = Some i -> c ∈ E \/ c = ino \/ c ∈ file_blocks t i ->
  c ∉ owned t (delete ino I).
Proof.
  intros Ho Hi Hc Hin. pose proof (so_nodup _ _ _ _ _ Ho) as Hn. unfold in_use in Hn. rewrite (owned_delete t I ino i Hi) in Hn.
  apply NoDup_app in Hn as (_ & _ & Hn). apply NoDup_app in Hn as (_ & HE & Hn). apply NoDup_app in Hn as (_ & HF & _). destruct Hc as [Hc|Hc].
  - apply (HE c Hc), elem_of_app. by right.
  - apply (HF c); [|done]. by apply elem_of_cons.
Qed.
Lemma file_nodup x t I E ino i : space_ok x t I E -> I !! ino = Some i -> NoDup (E ++ ino :: file_blocks t i).
Proof.
  intros Ho Hi. pose proof (so_nodup _ _ _ _ _ Ho) as Hn. unfold in_use in Hn. rewrite (owned_delete t I ino i Hi) in Hn.
  apply NoDup_app in Hn as (_ & _ & Hn). rewrite (assoc_L (++)) in Hn. by apply NoDup_app in Hn as (Hn & _ & _).
Qed.
Lemma own_used x t I E ino i c : I !! ino = Some i -> c = ino \/ c ∈ file_blocks t i -> c ∈ in_use (sb_nblocks (sfs_sb x)) t I E.
Proof. intros Hi Hc. unfold in_use. apply elem_of_app. right. apply elem_of_app. right. apply in_owned. eauto. Qed.
Lemma own_range x t I E ino i c : space_ok x t I E -> I !! ino = Some i -> c = ino \/ c ∈ file_blocks t i -> 0 <= c < sb_nblocks (sfs_sb x).
Proof. intros Ho Hi Hc. apply (so_range _ _ _ _ _ Ho). by eapply own_used. Qed.

Lemma reown x t t' I E E' ino i i' : space_ok x t I E -> I !! ino = Some i -> owned t' (delete ino I) = owned t (delete ino I) ->
  E' ++ file_blocks t' i' ≡ₚ E ++ file_blocks t i -> dinode_ok i' -> space_ok x t' (<[ino := i']> I) E'.
Proof.
  intros Ho Hi Ht HP Hok. eapply space_moves; [exact Ho| |].
  - rewrite owned_update, (owned_delete t I ino i Hi), Ht. cbn [app]. rewrite <- !Permutation_middle, !(assoc_L (++)), HP. done.
  - intros ino2 i2. rewrite lookup_insert_Some. intros [[<- <-]|[_ H2]]; [done|by eapply so_inodes].
Qed.
(** A file other than the one whose block is written *)
Lemma other_files x t I E ino i c bs ino2 i2 k : space_ok x t I E -> I !! ino = Some i -> c ∈ E \/ c = ino \/ c ∈ file_blocks t i ->
  I !! ino2 = Some i2 -> ino2 <> ino -> fblock (upd t c bs) i2 k = fblock t i2 k /\ c <> ino2.
Proof.
  intros Ho Hi Hc H2 Hne. assert (c ∉ owned t (delete ino I)) as Hn by (by eapply own_apart). split.
  - apply fblock_upd. intros Hin. apply Hn, in_owned. exists ino2, i2. rewrite lookup_delete_ne by done. auto.
  - intros ->. apply Hn, in_owned. exists ino2, i2. rewrite lookup_delete_ne by done. auto.
Qed.
Lemma words_range x t I E ino i w : space_ok x t I E -> I !! ino = Some i -> w ∈ iwords t i -> is_u32 w.
Proof.
  intros Ho Hi Hw. destruct (decide (w = 0)) as [->|]; [unfold is_u32; lia|]. pose proof (so_nb _ _ _ _ _ Ho). assert (0 <= w < sb_nblocks (sfs_sb x)); [|unfold is_u32; lia].
  eapply own_range; [done|done|]. right. apply elem_nz. split; [|done]. right. apply elem_of_app. by right.
Qed.
End Pure.

(** ** The state of an operation on one inode *)

Definition put_i (y : sfs_vnode) (i : sfs_dinode) : sfs_vnode := SfsVnode i (sv_ino y) true (sv_ops y).
Definition evolve a v x t y : view := with_svs (<[v := y]> (a_svs a)) (with_sect t (with_fs x a)).
Lemma evolve_id a v y : a_svs a !! v = Some y -> evolve a v (a_fs a) (a_sect a) y = a.
Proof. intros Hv. unfold evolve, with_svs, with_sect, with_fs. cbn. rewrite insert_id by done. by destruct a. Qed.

Lemma evolve_unlocked a v x t y : let s := evolve (with_depth (a_depth a + 1) a) v x t y in with_depth (a_depth s - 1) s = evolve a v x t y.
Proof. unfold evolve, with_depth, with_svs, with_sect, with_fs. cbn. f_equal. lia. Qed.

(** The inode after blocks were added *)
Record same_meta (i i' : sfs_dinode) : Prop := {
  sm_size : sfi_size i' = sfi_size i; sm_type : sfi_type i' = sfi_type i; sm_link : sfi_linkcount i' = sfi_linkcount i; sm_waste : sfi_waste i' = sfi_waste i
}.
Section Grown.
Context (ns : Z) (E : list Z).
Record grown x t y I x' t' y' I' : Prop := {
  gr_step : fs_step x x'; gr_ino : sv_ino y' = sv_ino y; gr_ops : sv_ops y' = sv_ops y; gr_dirty : y' = y \/ sv_dirty y' = true;
  gr_I : I' = <[sv_ino y := sv_i y']> I; gr_meta : same_meta (sv_i y) (sv_i y');
  gr_files : forall ino i i', I !! ino = Some i -> I' !! ino = Some i' -> forall k, fblock t' i' k = fblock t i k;
  gr_inodes : forall ino i, I !! ino = Some i -> t' ino = t ino;
  gr_space : space_ok ns x' t' I' E; gr_sys : fixed x t t'
}.
Lemma grown_refl x t y I : space_ok ns x t I E -> I !! sv_ino y = Some (sv_i y) -> grown x t y I x t y I.
Proof. intros Ho Hy. split; try done; [auto|by rewrite insert_id|]. intros ino i i' H1 H2. by simplify_eq. Qed.
Lemma grown_trans x t y I x' t' y' I' x2 t2 y2 I2 : I !! sv_ino y = Some (sv_i y) -> grown x t y I x' t' y' I' -> grown x' t' y' I' x2 t2 y2 I2 -> grown x t y I x2 t2 y2 I2.
Proof.
  intros Hy [A1 A2 A3 A4 A5 [M1 M2 M3 M4] A7 A8 A9 A10] [B1 B2 B3 B4 B5 [N1 N2 N3 N4] B7 B8 B9 B10].
  assert (forall ino i, I !! ino = Some i -> is_Some (I' !! ino)) as Hdom. { intros ino i Hi. rewrite A5. destruct (decide (sv_ino y = ino)) as [->|]; [rewrite lookup_insert_eq; eauto|rewrite lookup_insert_ne by done; eauto]. }
  split; [by etrans|congruence|congruence| | | | | |done|by eapply fixed_trans; [apply (fst_sb _ _ A1)|..]].
  - destruct B4 as [->|]; auto.
  - rewrite B5, A5, A2. by rewrite insert_insert_eq.
  - split; congruence.
  - intros ino i i' H1 H2 k. destruct (Hdom _ _ H1) as [i1 Hi1]. rewrite (B7 ino i1 i') by done. by eapply A7.
  - intros ino i H1. destruct (Hdom _ _ H1) as [i1 Hi1]. rewrite (B8 ino i1) by done. by eapply A8.
Qed.
End Grown.

(** ** Attaching a new block *)

Section Attach.
Context (ns : Z).
Abbreviation space_ok := (space_ok ns).

Lemma unused_file x t I E ino i b : b ∉ in_use (sb_nblocks (sfs_sb x)) t I E -> I !! ino = Some i -> (b ∉ file_blocks t i) /\ b <> ino.
Proof. intros Hb Hi. split; [intros H1|intros ->]; apply Hb; eapply own_used; eauto. Qed.

(** A block just allocated becomes a block of the inode. *)
Lemma grown_new x x' t y I E b i' : I !! sv_ino y = Some (sv_i y) -> fs_step x x' -> b ∉ in_use (sb_nblocks (sfs_sb x)) t I E -> space_ok x' (upd t b zeros) I (b :: E) ->
  file_blocks (upd t b zeros) i' ≡ₚ b :: file_blocks (upd t b zeros) (sv_i y) -> same_meta (sv_i y) i' -> length (sfi_direct i') = 15%nat ->
  (forall k, fblock (upd t b zeros) i' k = fblock (upd t b zeros) (sv_i y) k) ->
  grown ns E x t y I x' (upd t b zeros) (put_i y i') (<[sv_ino y := i']> I).
Proof.
  intros Hy Hst Hb Ho HF Hm Hl Hk. split; cbn; try done; [by right| | | |by eapply fixed_new].
  - intros ino i i2. rewrite lookup_insert_Some. intros Hi [[<- <-]|[_ Hi2]] k; simplify_eq.
    + rewrite Hk. apply fblock_upd. by apply (unused_file _ _ _ _ _ _ _ Hb Hy).
    + apply fblock_upd. by apply (unused_file _ _ _ _ _ _ _ Hb Hi).
  - intros ino i Hi. unfold upd. destruct (Z.eqb_spec ino b) as [->|]; [|done]. by destruct (unused_file _ _ _ _ _ _ _ Hb Hi).
  - eapply reown; [done|done|done| |].
    + cbn [app]. by rewrite HF, Permutation_middle.
    + destruct (so_inodes _ _ _ _ _ Ho _ _ Hy), Hm. split; congruence.
Qed.
Lemma set_direct_blocks t i k b : sfi_direct i !! Z.to_nat k = Some 0 -> b <> 0 -> file_blocks t (set_direct k b i) ≡ₚ b :: file_blocks t i.
Proof.
  intros Hk Hb. rewrite !file_blocks_split. change (iwords t (set_direct k b i)) with (iwords t i). cbn [sfi_indirect sfi_direct set_direct].
  rewrite <- insert_app_l, nz_set by (done || by apply lookup_app_l_Some || by eapply lookup_lt_Some). by rewrite Permutation_middle.
Qed.
Lemma set_direct_contents t i k b n : sfi_direct i !! Z.to_nat k = Some 0 -> b <> 0 -> fblock (upd t b zeros) (set_direct k b i) n = fblock (upd t b zeros) i n.
Proof.
  intros Hk Hb. unfold fblock, blockno. change (iwords (upd t b zeros) (set_direct k b i)) with (iwords (upd t b zeros) i). cbn [sfi_direct set_direct].
  rewrite <- insert_app_l by (by eapply lookup_lt_Some). destruct (decide (n = Z.to_nat k)) as [->|]; [|by rewrite list_lookup_insert_ne].
  rewrite list_lookup_insert_eq by (rewrite length_app; apply lookup_lt_Some in Hk; lia). rewrite (lookup_app_l_Some _ _ _ _ Hk). cbn [default from_option id].
  destruct (Z.eqb_spec b 0); [done|]. unfold upd at 1. by rewrite Z.eqb_refl.
Qed.
Lemma set_indirect_words t i b : sfi_indirect i = 0 -> iwords (upd t b zeros) (set_indirect b i) = iwords (upd t b zeros) i.
Proof.
  intros Hi. unfold iwords. cbn [set_indirect sfi_indirect]. rewrite Hi. cbn. destruct (Z.eqb_spec b 0); [done|]. unfold upd. rewrite Z.eqb_refl. apply words_zeros.
Qed.
Lemma set_indirect_blocks t i b : sfi_indirect i = 0 -> b <> 0 -> file_blocks (upd t b zeros) (set_indirect b i) ≡ₚ b :: file_blocks (upd t b zeros) i.
Proof. intros Hi Hb. rewrite !file_blocks_split, set_indirect_words, Hi by done. cbn [set_indirect sfi_indirect sfi_direct]. by rewrite (nz_one b). Qed.
Lemma owned_indirect t I ino i b : I !! ino = Some i -> sfi_indirect i = 0 -> b <> 0 -> b ∉ owned t I -> length (owned (upd t b zeros) (<[ino := set_indirect b i]> I)) = S (length (owned t I)).
Proof.
  intros Hi Hi0 Hb0 Hnot. rewrite owned_update, (owned_delete t I _ _ Hi) in *. apply not_elem_of_app in Hnot as [Hn1 Hn2]. apply not_elem_of_cons in Hn1 as [_ Hn1].
  rewrite owned_upd by done. rewrite !length_app. cbn [length]. rewrite (Permutation_length (set_indirect_blocks t i b Hi0 Hb0)). cbn [length]. by rewrite file_blocks_upd.
Qed.
Lemma set_indirect_contents t i b n : sfi_indirect i = 0 -> fblock (upd t b zeros) (set_indirect b i) n = fblock (upd t b zeros) i n.
Proof. intros Hi. unfold fblock, blockno. by rewrite set_indirect_words. Qed.

(** A block in hand is entered in the indirect block. *)
Definition set_word t i (j : nat) b : Z -> list Z := upd t (sfi_indirect i) (word_bytes (<[j := b]> (iwords t i))).
Lemma set_word_words x t I E ino i j b : space_ok x t I E -> I !! ino = Some i -> sfi_indirect i <> 0 -> is_u32 b -> iwords (set_word t i j b) i = <[j := b]> (iwords t i).
Proof.
  intros Ho Hi Hne Hb. unfold set_word. unfold iwords at 1. rewrite (proj2 (Z.eqb_neq _ _)) by done. unfold upd. rewrite Z.eqb_refl.
  assert (length (<[j := b]> (iwords t i)) = 128%nat) as Hl by (rewrite length_insert; apply iwords_length). rewrite <- Hl. apply words_back.
  apply Forall_insert; [|done]. apply Forall_forall. intros w Hw. by eapply words_range.
Qed.
(** What is done after an allocation *)
Lemma grown_alloc x t y I E x1 b x' t' y' I' : fs_step x x1 -> b ∉ in_use (sb_nblocks (sfs_sb x)) t I E -> grown ns E x1 (upd t b zeros) y I x' t' y' I' -> grown ns E x t y I x' t' y' I'.
Proof.
  intros Hst Hb [A1 A2 A3 A4 A5 A6 A7 A8 A9 A10]. split; try done; [by etrans| | |eapply fixed_trans; [apply (fst_sb _ _ Hst)|by eapply fixed_new|done]].
  - intros ino i i' Hi Hi' n. rewrite (A7 ino i i') by done. apply fblock_upd, (unused_file _ _ _ _ _ _ _ Hb Hi).
  - intros ino i Hi. rewrite (A8 ino i) by done. unfold upd. destruct (Z.eqb_spec ino b) as [->|]; [|done]. by destruct (unused_file _ _ _ _ _ _ _ Hb Hi).
Qed.
(** The indirect block is nothing else. *)
Lemma indirect_apart x t I E ino i : space_ok x t I E -> I !! ino = Some i -> sfi_indirect i <> 0 ->
  (sfi_indirect i ∉ E) /\ (sfi_indirect i ∉ nz (sfi_direct i ++ iwords t i)) /\ (forall ino2 i2, I !! ino2 = Some i2 -> ino2 <> sfi_indirect i).
Proof.
  intros Ho Hi Hne. pose proof (file_nodup _ _ _ _ _ _ _ Ho Hi) as Hn. rewrite file_blocks_split, (nz_one (sfi_indirect i) Hne) in Hn.
  assert (sfi_indirect i ∈ file_blocks t i) as Hin by (apply elem_nz; split; [left|done]).
  apply NoDup_app in Hn as (_ & HE & Hn). apply NoDup_cons in Hn as [Hino Hn]. cbn in Hn. apply NoDup_cons in Hn as [Hn _]. split_and!; [|done|].
  - intros HiE. apply (HE _ HiE). right. left.
  - intros ino2 i2 H2 ->. destruct (decide (sfi_indirect i = ino)) as [He|Hneq]; [apply Hino; rewrite <- He; left|].
    destruct (other_files ns x t I E ino i (sfi_indirect i) [] (sfi_indirect i) i2 0 Ho Hi (or_intror (or_intror Hin)) H2 Hneq) as [_ Hd]. done.
Qed.
Lemma blockno_word x t I E ino i j b k : space_ok x t I E -> I !! ino = Some i -> sfi_indirect i <> 0 -> is_u32 b -> (j < 128)%nat ->
  blockno (set_word t i j b) i k = if decide (k = (15 + j)%nat) then b else blockno t i k.
Proof.
  intros Ho Hi Hne Hb Hj. unfold blockno. erewrite set_word_words by done. assert (length (sfi_direct i) = 15%nat) as Hl by apply (so_inodes _ _ _ _ _ Ho _ _ Hi). case_decide as Hk.
  - subst k. rewrite lookup_app_r by lia. rewrite Hl. replace (15 + j - 15)%nat with j by lia. by rewrite list_lookup_insert_eq by (rewrite iwords_length; lia).
  - destruct (decide (k < 15)%nat); [by rewrite !lookup_app_l by lia|]. rewrite !lookup_app_r by lia. rewrite list_lookup_insert_ne by lia. done.
Qed.
Lemma word_contents x t I E ino i j b k : I !! ino = Some i -> space_ok x t I (b :: E) -> sfi_indirect i <> 0 -> iwords t i !! j = Some 0 -> b <> 0 -> is_u32 b -> t b = zeros ->
  fblock (set_word t i j b) i k = fblock t i k.
Proof.
  intros Hi Ho Hne Hj Hb Hbu Ht. pose proof (lookup_lt_Some _ _ _ Hj) as Hj128. rewrite iwords_length in Hj128. assert (length (sfi_direct i) = 15%nat) as Hl by apply (so_inodes _ _ _ _ _ Ho _ _ Hi).
  destruct (indirect_apart _ _ _ _ _ _ Ho Hi Hne) as (HE & Hnz & _). unfold fblock. erewrite !(blockno_word _ _ _ _ _ _ _ _ _ Ho) by done. case_decide as Hk.
  - subst k. unfold blockno at 1. rewrite lookup_app_r by lia. rewrite Hl. replace (15 + j - 15)%nat with j by lia. rewrite Hj. cbn [default from_option id]. rewrite (proj2 (Z.eqb_neq b 0)) by done. cbn.
    unfold set_word, upd. destruct (Z.eqb_spec b (sfi_indirect i)) as [Heq|]; [|done]. destruct HE. rewrite <- Heq. left.
  - destruct (Z.eqb_spec (blockno t i k) 0) as [|Hb0]; [done|]. unfold set_word, upd. destruct (Z.eqb_spec (blockno t i k) (sfi_indirect i)) as [Heq|]; [|done].
    destruct Hnz. rewrite <- Heq. apply elem_nz. split; [|done]. unfold blockno in *. destruct ((sfi_direct i ++ iwords t i) !! k) eqn:Ek; [|done]. by eapply list_elem_of_lookup_2.
Qed.
Lemma grown_word x t y I E b j : I !! sv_ino y = Some (sv_i y) -> space_ok x t I (b :: E) -> sfi_indirect (sv_i y) <> 0 -> iwords t (sv_i y) !! j = Some 0 -> b <> 0 -> t b = zeros ->
  grown ns E x t y I x (set_word t (sv_i y) j b) y I.
Proof.
  intros Hy Ho Hne Hj Hb Ht. set (i := sv_i y) in *. set (t' := set_word t i j b).
  assert (is_u32 b) as Hbu. { pose proof (so_nb _ _ _ _ _ Ho). assert (0 <= b < sb_nblocks (sfs_sb x)); [|unfold is_u32; lia]. apply (so_range _ _ _ _ _ Ho). unfold in_use. apply elem_of_app. right. left. }
  pose proof (set_word_words _ _ _ _ _ _ j b Ho Hy Hne Hbu) as Hw. fold t' in Hw. destruct (indirect_apart _ _ _ _ _ _ Ho Hy Hne) as (_ & _ & Hinos).
  assert (sfi_indirect i ∈ file_blocks t i) as Hin by (apply elem_nz; split; [left|done]). pose proof (so_inodes _ _ _ _ _ Ho _ _ Hy) as Hdi.
  split; try done; [by left|by rewrite insert_id| | | |eapply fixed_own; [exact Ho|]; apply elem_of_app; right; apply in_owned; exists (sv_ino y), i; split; [done|by right]].
  - intros ino i1 i2 H1 H2 k. simplify_eq. destruct (decide (ino = sv_ino y)) as [->|Hneq]; [|by eapply (other_files ns x t I (b :: E) (sv_ino y)); eauto].
    simplify_eq. by eapply word_contents.
  - intros ino i1 H1. unfold t', set_word, upd. destruct (Z.eqb_spec ino (sfi_indirect i)) as [Heq|]; [|done]. by destruct (Hinos _ _ H1).
  - rewrite <- (insert_id I (sv_ino y) i Hy). eapply reown; [done|done| | |done]; [apply owned_upd; eapply own_apart; eauto|].
    rewrite !file_blocks_split, Hw. assert (nz (sfi_direct i ++ <[j := b]> (iwords t i)) ≡ₚ b :: nz (sfi_direct i ++ iwords t i)) as ->; [|cbn; by rewrite !Permutation_middle].
    unfold nz. rewrite !filter_app. fold nz. rewrite (nz_set _ _ _ Hj Hb). by rewrite Permutation_middle.
Qed.
End Attach.

(** ** sfs_bmap *)

Section Bmap.
Context {D : Type} `{W : DiskSpec D}.
Context (f dev ns : Z).
Abbreviation vwp := (vwp (D := D) f dev ns).
Abbreviation space_ok := (space_ok ns).
(** The vnode, and the state around its inode *)
Context (a : view) (v : Z) (n : vnode).
Context (Hv : v <> 0) (Hn : a_nodes a !! v = Some n) (Hnf : vn_fs n = f) (Hdep : 0 < a_depth a).
Abbreviation st := (evolve a v).

Lemma vwp_sv x t y (Q : sfs_vnode -> view -> Prop) : Q y (st x t y) -> vwp (get_sv v) (st x t y) Q.
Proof using Hv. intros HQ. eapply vwp_get_sv; [done|apply lookup_insert_eq|done]. Qed.
Lemma st_put x t y y' : with_svs (<[v := y']> (a_svs (st x t y))) (st x t y) = st x t y'.
Proof using . unfold evolve, with_svs. cbn. by rewrite insert_insert_eq. Qed.
Lemma vwp_set_inode x t y g (Q : unit -> view -> Prop) : Q tt (st x t (put_i y (g (sv_i y)))) -> vwp (set_inode v g) (st x t y) Q.
Proof using Hv. intros HQ. unfold set_inode. apply vwp_bind, vwp_sv, vwp_put_sv. by rewrite st_put. Qed.
Lemma vwp_fs_of x t y (Q : Z -> view -> Prop) : Q f (st x t y) -> vwp (fs_of v) (st x t y) Q.
Proof using Hv Hn Hnf. intros HQ. unfold fs_of. apply vwp_bind. eapply vwp_get_vnode; [done|exact Hn|]. apply vwp_ret. by rewrite Hnf. Qed.

(** What sfs_bmap gives for block [k] of the file *)
Definition bmap_post (E : list Z) (doalloc : bool) (k : nat) (x : sfs_fs) t y I (r : res Z) (x' : sfs_fs) t' y' I' : Prop :=
  match r with
  | Done b => b = blockno t' (sv_i y') k /\ (doalloc = true -> b <> 0) /\ (k < 143)%nat
  | Err e => e = EFBIG /\ (143 <= k)%nat \/ e = ENOSPC /\ doalloc = true /\ blockno t (sv_i y) k = 0 /\ full x' t' I' E /\ (length (owned t' I') <= S (length (owned t I)))%nat
  end /\ (doalloc = false -> x' = x /\ t' = t /\ y' = y).

Lemma blockno_hole t i k : sfi_indirect i = 0 -> length (sfi_direct i) = 15%nat -> (15 <= k)%nat -> blockno t i k = 0.
Proof using .
  intros Hi Hl Hk. unfold blockno. rewrite lookup_app_r by lia. unfold iwords. rewrite Hi. cbn [Z.eqb]. destruct (replicate 128 0 !! _) eqn:Ek; [|done]. by apply lookup_replicate in Ek as [-> _].
Qed.

Section Found.
Context (E : list Z) (k : nat) (Q : res Z -> view -> Prop).

(** The block is there, or none is wanted. *)
Lemma vwp_bmap_found x t y I : space_ok x t I E -> I !! sv_ino y = Some (sv_i y) -> Q (Done (blockno t (sv_i y) k)) (st x t y) -> vwp (hand_back f (blockno t (sv_i y) k)) (st x t y) Q.
Proof.
  intros Ho Hy HQ. eapply vwp_hand_back; [exact Ho| |exact HQ]. destruct (decide (blockno t (sv_i y) k = 0)); [by left|]. right. eapply own_used; [done|]. right. by apply blockno_in.
Qed.
Lemma found_post doalloc x t y I : (k < 143)%nat -> (doalloc = true -> blockno t (sv_i y) k <> 0) -> bmap_post E doalloc k x t y I (Done (blockno t (sv_i y) k)) x t y I.
Proof using . done. Qed.

Lemma vwp_bmap_direct doalloc x t y I : space_ok x t I E -> I !! sv_ino y = Some (sv_i y) -> sfs_device x = dev -> (k < 15)%nat ->
  (forall r x' t' y' I', grown ns E x t y I x' t' y' I' -> bmap_post E doalloc k x t y I r x' t' y' I' -> Q r (st x' t' y')) -> vwp (bmap_direct v f (Z.of_nat k) doalloc) (st x t y) Q.
Proof using Hv Hdep.
  intros Ho Hy Hd Hk HQ. assert (length (sfi_direct (sv_i y)) = 15%nat) as Hl by apply (so_inodes _ _ _ _ _ Ho _ _ Hy). destruct (lookup_lt_is_Some_2 (sfi_direct (sv_i y)) k) as [b Hb]; [lia|].
  assert (blockno t (sv_i y) k = b) as Hbn by (unfold blockno; by rewrite (lookup_app_l_Some _ _ _ _ Hb)).
  unfold bmap_direct. rewrite Nat2Z.id. apply vwp_bind, vwp_sv, vwp_bind. eapply vwp_deref; [exact Hb|]. apply vwp_bind. destruct (Z.eqb_spec b 0) as [->|Hb0]; cbn [andb].
  2:{ apply vwp_ret. rewrite <- Hbn. eapply vwp_bmap_found; [done|done|]. eapply HQ; [by apply grown_refl|apply found_post; [lia|by rewrite Hbn]]. }
  destruct doalloc.
  2:{ apply vwp_ret. rewrite <- Hbn. eapply vwp_bmap_found; [done|done|]. eapply HQ; [by apply grown_refl|apply found_post; [lia|done]]. }
  apply vwp_bind. eapply vwp_balloc; [exact Ho|done|done| |].
  2:{ intros Hfull. apply vwp_ret, vwp_ret. eapply (HQ (Err ENOSPC)); [by apply grown_refl|]. split; [right; split_and!; try done; apply Nat.le_succ_diag_r|done]. }
  intros b x' Hst Hdirty Hb0 Hnot Ho2. apply vwp_bind, (vwp_set_inode x' (upd t b zeros) y), vwp_ret.
  assert (grown ns E x t y I x' (upd t b zeros) (put_i y (set_direct (Z.of_nat k) b (sv_i y))) (<[sv_ino y := set_direct (Z.of_nat k) b (sv_i y)]> I)) as Hg.
  { apply grown_new; try done; [apply set_direct_blocks; [by rewrite Nat2Z.id|done]|cbn; by rewrite length_insert|]. intros n'. apply set_direct_contents; [by rewrite Nat2Z.id|done]. }
  assert (blockno (upd t b zeros) (set_direct (Z.of_nat k) b (sv_i y)) k = b) as Hbn2.
  { unfold blockno. cbn. rewrite Nat2Z.id, lookup_app_l, list_lookup_insert_eq by (rewrite ?length_insert; lia). done. }
  eapply vwp_hand_back; [apply (gr_space _ _ _ _ _ _ _ _ _ _ Hg)| |].
  - right. eapply own_used; [apply lookup_insert_eq|]. right. pose proof (blockno_in (upd t b zeros) (set_direct (Z.of_nat k) b (sv_i y)) k) as Hin. rewrite Hbn2 in Hin. by apply Hin.
  - eapply HQ; [exact Hg|]. split; [|done]. split; [symmetry; exact Hbn2|]. split; [done|lia].
Qed.


Lemma vwp_bmap_entry doalloc x t y ws j I : space_ok x t I E -> I !! sv_ino y = Some (sv_i y) -> sfs_device x = dev -> sfi_indirect (sv_i y) <> 0 -> ws = iwords t (sv_i y) -> k = (15 + j)%nat -> (j < 128)%nat ->
  (forall r x' t' y' I', grown ns E x t y I x' t' y' I' -> bmap_post E doalloc k x t y I r x' t' y' I' -> match r with Err _ => t' = t /\ I' = I | Done _ => True end -> Q r (st x' t' y')) ->
  vwp (bmap_entry f (sfi_indirect (sv_i y)) ws (Z.of_nat j) doalloc) (st x t y) Q.
Proof using Hv Hdep.
  intros Ho Hy Hd Hne -> Hk Hj HQ. assert (length (sfi_direct (sv_i y)) = 15%nat) as Hl by apply (so_inodes _ _ _ _ _ Ho _ _ Hy). destruct (lookup_lt_is_Some_2 (iwords t (sv_i y)) j) as [b Hb]; [by rewrite iwords_length|].
  assert (blockno t (sv_i y) k = b) as Hbn by (unfold blockno; rewrite Hk, lookup_app_r, Hl by lia; replace (15 + j - 15)%nat with j by lia; by rewrite Hb).
  unfold bmap_entry. rewrite Nat2Z.id. apply vwp_bind. eapply vwp_deref; [exact Hb|]. apply vwp_bind. destruct (Z.eqb_spec b 0) as [->|Hb0]; cbn [andb].
  2:{ apply vwp_ret. rewrite <- Hbn. eapply vwp_bmap_found; [done|done|]. eapply HQ; [by apply grown_refl|apply found_post; [lia|by rewrite Hbn]|done]. }
  destruct doalloc.
  2:{ apply vwp_ret. rewrite <- Hbn. eapply vwp_bmap_found; [done|done|]. eapply HQ; [by apply grown_refl|apply found_post; [lia|done]|done]. }
  apply vwp_bind. eapply vwp_balloc; [exact Ho|done|done| |].
  2:{ intros Hfull. apply vwp_ret, vwp_ret. eapply (HQ (Err ENOSPC)); [by apply grown_refl| |done]. split; [right; split_and!; try done; apply Nat.le_succ_diag_r|done]. }
  intros b x' Hst Hdirty Hb0 Hnot Ho2. assert (iwords (upd t b zeros) (sv_i y) = iwords t (sv_i y)) as Hiw by (apply iwords_upd, (indirect_not t), (unused_file _ _ _ _ _ _ _ Hnot Hy)).
  pose proof (so_nb _ _ _ _ _ Ho) as Hnb. pose proof (own_range ns _ _ _ _ _ _ (sfi_indirect (sv_i y)) Ho Hy ltac:(right; apply elem_nz; split; [left|done])) as Hir.
  apply vwp_bind, vwp_writeblock; [cbn; by rewrite (fst_device _ _ Hst)|done|lia|by rewrite word_bytes_length, length_insert, iwords_length|]. rewrite <- Hiw. apply vwp_ret.
  assert (grown ns E x t y I x' (set_word (upd t b zeros) (sv_i y) j b) y I) as Hg.
  { eapply grown_alloc; [exact Hst|exact Hnot|]. apply grown_word; try done; [by rewrite Hiw|]. unfold upd. by rewrite Z.eqb_refl. }
  assert (is_u32 b) as Hbu. { assert (0 <= b < sb_nblocks (sfs_sb x')) as Hbr; [apply (so_range _ _ _ _ _ Ho2), elem_of_app; right; left|]. rewrite (fst_sb _ _ Hst) in Hbr. cbn in Hbr. unfold is_u32; lia. }
  assert (blockno (set_word (upd t b zeros) (sv_i y) j b) (sv_i y) k = b) as Hbn2. { erewrite (blockno_word _ _ _ _ _ _ _ _ _ _ Ho2 Hy) by done. by rewrite decide_True. }
  eapply vwp_hand_back; [apply (gr_space _ _ _ _ _ _ _ _ _ _ Hg)| |].
  - right. eapply own_used; [done|]. right. pose proof (blockno_in (set_word (upd t b zeros) (sv_i y) j b) (sv_i y) k) as Hin. rewrite Hbn2 in Hin. by apply Hin.
  - eapply HQ; [exact Hg| |done]. split; [|done]. split; [symmetry; exact Hbn2|]. split; [done|lia].
Qed.

Lemma vwp_bmap_indirect doalloc x t y I : space_ok x t I E -> I !! sv_ino y = Some (sv_i y) -> sfs_device x = dev -> (15 <= k)%nat ->
  (forall r x' t' y' I', grown ns E x t y I x' t' y' I' -> bmap_post E doalloc k x t y I r x' t' y' I' -> Q r (st x' t' y')) -> vwp (bmap_indirect v f (Z.of_nat k) doalloc) (st x t y) Q.
Proof using Hv Hdep.
  intros Ho Hy Hd Hk HQ. set (j := (k - 15)%nat). unfold bmap_indirect. replace (Z.of_nat k - SFS_NDIRECT) with (Z.of_nat j) by (unfold SFS_NDIRECT; lia).
  change SFS_NINDIRECT with 1. change SFS_DBPERIDB with 128. destruct (Z.geb_spec (Z.of_nat j / 128) 1) as [Hge|Hlt].
  { apply vwp_ret. eapply HQ; [by apply grown_refl|]. split; [|done]. left. split; [done|]. Z.to_euclidean_division_equations. lia. }
  assert (j < 128)%nat as Hj by (Z.to_euclidean_division_equations; lia). rewrite Z.mod_small by lia. apply vwp_bind, vwp_sv.
  assert (length (sfi_direct (sv_i y)) = 15%nat) as Hl by apply (so_inodes _ _ _ _ _ Ho _ _ Hy).
  destruct (Z.eqb_spec (sfi_indirect (sv_i y)) 0) as [Hi0|Hi0]; cbn [andb negb].
  - destruct doalloc; cbn [negb].
    2:{ apply vwp_ret. eapply HQ; [by apply grown_refl|]. split; [|done]. split; [by rewrite blockno_hole|split; [done|lia]]. }
    apply vwp_bind, vwp_bind. eapply vwp_balloc; [exact Ho|done|done| |].
    2:{ intros Hfull. apply vwp_ret, vwp_ret. eapply (HQ (Err ENOSPC)); [by apply grown_refl|]. split; [|done]. right. split_and!; try done; [by apply blockno_hole|apply Nat.le_succ_diag_r]. }
    intros b x' Hst Hdirty Hb0 Hnot Ho2. apply vwp_bind, (vwp_set_inode x' (upd t b zeros) y), vwp_ret.
    assert (grown ns E x t y I x' (upd t b zeros) (put_i y (set_indirect b (sv_i y))) (<[sv_ino y := set_indirect b (sv_i y)]> I)) as Hg.
    { apply grown_new; try done; [by apply set_indirect_blocks|]. intros n'. by apply set_indirect_contents. }
    assert (replicate (Z.to_nat 128) 0 = iwords (upd t b zeros) (set_indirect b (sv_i y))) as Hw by (rewrite set_indirect_words by done; unfold iwords; by rewrite Hi0).
    replace b with (sfi_indirect (sv_i (put_i y (set_indirect b (sv_i y))))) at 1 by done.
    eapply (vwp_bmap_entry true); [apply (gr_space _ _ _ _ _ _ _ _ _ _ Hg)|apply lookup_insert_eq|by rewrite (fst_device _ _ Hst)|done|exact Hw|lia|done|].
    intros r x2 t2 y2 I2 Hg2 [Hpost _] Hsame. eapply HQ; [by eapply grown_trans|]. split; [|done]. destruct r as [c|e]; [done|]. destruct Hsame as [-> ->]. destruct Hpost as [?|(? & ? & _ & ? & _)]; [by left|right]. split_and!; try done; [by apply blockno_hole|].
    by rewrite (owned_indirect t I (sv_ino y) (sv_i y) b Hy Hi0 Hb0 ltac:(intros Hin; apply Hnot; unfold in_use; rewrite !elem_of_app; auto)).
  - apply vwp_bind, vwp_bind. pose proof (so_nb _ _ _ _ _ Ho) as Hnb. pose proof (own_range ns _ _ _ _ _ _ (sfi_indirect (sv_i y)) Ho Hy ltac:(right; apply elem_nz; split; [left|done])) as Hir.
    apply vwp_readblock; [done|done|lia|]. apply vwp_ret. eapply (vwp_bmap_entry doalloc); try done; [unfold iwords; by rewrite (proj2 (Z.eqb_neq _ _))|lia|]. intros r x' t' y' I' Hg Hp _. by eapply HQ.
Qed.

(** sfs_bmap, for block [k] of the file *)
Lemma vwp_bmap doalloc x t y I : space_ok x t I E -> I !! sv_ino y = Some (sv_i y) -> sfs_device x = dev ->
  (forall r x' t' y' I', grown ns E x t y I x' t' y' I' -> bmap_post E doalloc k x t y I r x' t' y' I' -> Q r (st x' t' y')) -> vwp (sfs_bmap v (Z.of_nat k) doalloc) (st x t y) Q.
Proof using Hv Hdep Hn Hnf.
  intros Ho Hy Hd HQ. unfold sfs_bmap. apply vwp_bind, vwp_fs_of, vwp_bind, vwp_must_hold; [done|]. change SFS_NDIRECT with 15. destruct (Z.ltb_spec (Z.of_nat k) 15).
  - eapply vwp_bmap_direct; try done. lia.
  - eapply vwp_bmap_indirect; try done. lia.
Qed.
End Found.
End Bmap.
End SfsBmap.
