(* ===== verification/SfsTrunc.v ===== *)
(** * Truncation

    sfs_itrunc gives back the blocks past the new end of the file, except that
    of the blocks of the indirect block the first one past the end stays. *)

From S2P Require Import Prelude Kern Bswap Bitmap Array Interfaces Copyinout Uio Vfs Lhd LhdSpec Sfs SfsSpec SfsMap SfsBmap.
Open Scope Z_scope.

Module SfsTrunc.
Import Vfs Lhd LhdSpec Sfs SfsSpec SfsMap SfsBmap.

(** The blocks that stay when the file is cut to [bl] blocks *)
Definition kept (bl : Z) (k : nat) : bool := (Z.of_nat k <? bl) || ((15 <=? Z.of_nat k) && (Z.of_nat k <=? bl)).
(** The entries of a list of blocks, of which those from [from] on may be cleared,
    after [m] of them were looked at *)
Definition cut (gone : nat -> bool) (m : nat) (l l' : list Z) : Prop :=
  length l' = length l /\ forall k b, l !! k = Some b -> l' !! k = Some (if decide (k < m)%nat then if gone k then 0 else b else b).

Lemma cut_start gone l : cut gone 0 l l.
Proof. split; [done|]. intros k b Hk. rewrite decide_False by lia. done. Qed.
Lemma cut_keep gone m l l' b : cut gone m l l' -> l' !! m = Some b -> gone m = false \/ b = 0 -> cut gone (S m) l l'.
Proof.
  intros [Hl Hc] Hm Hg. split; [done|]. intros k c Hk. rewrite (Hc k c Hk). destruct (decide (k = m)) as [->|].
  - rewrite (Hc m c Hk) in Hm. rewrite decide_False in Hm by lia. simplify_eq. rewrite decide_False, decide_True by lia. destruct Hg as [-> | ->]; [done|]. by destruct (gone m).
  - f_equal. destruct (decide (k < m)%nat), (decide (k < S m)%nat); try done; lia.
Qed.
Lemma cut_clear gone m l l' b : cut gone m l l' -> l' !! m = Some b -> gone m = true -> cut gone (S m) l (<[m := 0]> l').
Proof.
  intros [Hl Hc] Hm Hg. pose proof (lookup_lt_Some _ _ _ Hm). split; [by rewrite length_insert|]. intros k c Hk. destruct (decide (k = m)) as [->|].
  - rewrite list_lookup_insert_eq, decide_True, Hg by lia. done.
  - rewrite list_lookup_insert_ne, (Hc k c Hk) by done. f_equal. destruct (decide (k < m)%nat), (decide (k < S m)%nat); try done; lia.
Qed.

Section Trunc.
Context {D : Type} `{W : DiskSpec D}.
Context (f dev ns : Z).
Abbreviation vwp := (vwp (D := D) f dev ns).
Abbreviation space_ok := (space_ok ns).
Context (a : view) (v : Z) (n : vnode).
Context (Hv : v <> 0) (Hn : a_nodes a !! v = Some n) (Hnf : vn_fs n = f) (Hdep : 0 < a_depth a).
Abbreviation st := (evolve a v).
Context (bl : Z) (E : list Z) (I : gmap Z sfs_dinode).

(** After [m] of the direct blocks *)
Record tdirect x t y (m : nat) x' y' : Prop := {
  td_step : fs_step x x'; td_ino : sv_ino y' = sv_ino y; td_ops : sv_ops y' = sv_ops y; td_dirty : y' = y \/ sv_dirty y' = true;
  td_meta : same_meta (sv_i y) (sv_i y'); td_ind : sfi_indirect (sv_i y') = sfi_indirect (sv_i y);
  td_cut : cut (fun k => bl <=? Z.of_nat k) m (sfi_direct (sv_i y)) (sfi_direct (sv_i y'));
  td_space : space_ok x' t (<[sv_ino y := sv_i y']> I) E
}.

Lemma clear_direct_blocks t i k b : sfi_direct i !! k = Some b -> b <> 0 -> file_blocks t i ≡ₚ b :: file_blocks t (set_direct (Z.of_nat k) 0 i).
Proof using .
  intros Hk Hb. rewrite !file_blocks_split. change (iwords t (set_direct (Z.of_nat k) 0 i)) with (iwords t i). cbn [sfi_indirect sfi_direct set_direct]. rewrite Nat2Z.id.
  rewrite <- insert_app_l by (by eapply lookup_lt_Some). rewrite (nz_clear (sfi_direct i ++ iwords t i) k b) by (done || by apply lookup_app_l_Some). by rewrite Permutation_middle.
Qed.
Lemma vwp_trunc_direct x t y m x' y' (Q : unit -> view -> Prop) : (m < 15)%nat -> tdirect x t y m x' y' ->
  (forall x2 y2, tdirect x t y (S m) x2 y2 -> Q tt (st x2 t y2)) -> vwp (trunc_direct v f bl (Z.of_nat m)) (st x' t y') Q.
Proof using Hv.
  intros Hm [A1 A2 A3 A4 A5 A6 A7 A8] HQ. assert (dinode_ok (sv_i y')) as Hdi by (eapply (so_inodes _ _ _ _ _ A8), lookup_insert_eq).
  destruct (lookup_lt_is_Some_2 (sfi_direct (sv_i y')) m) as [b Hb]; [by rewrite (di_direct _ Hdi)|].
  unfold trunc_direct. rewrite Nat2Z.id. apply vwp_bind, vwp_sv; [done|]. apply vwp_bind. eapply vwp_deref; [exact Hb|]. destruct ((Z.of_nat m >=? bl) && negb (b =? 0)) eqn:Ec.
  - apply andb_true_iff in Ec as [E1 E2]. apply negb_true_iff, Z.eqb_neq in E2. rewrite Z.geb_leb in E1. apply vwp_bind. set (i2 := set_direct (Z.of_nat m) 0 (sv_i y')).
    eapply (vwp_bfree f dev ns _ (<[sv_ino y := i2]> I) E b).
    { rewrite <- (insert_insert_eq I (sv_ino y) i2 (sv_i y')). eapply reown; [exact A8|apply lookup_insert_eq|done| |].
      - cbn [app]. unfold i2. by rewrite (clear_direct_blocks t (sv_i y') m b Hb E2), Permutation_middle.
      - destruct Hdi. split; try done. cbn. by rewrite length_insert. }
    intros x2 Hst Hdirty Ho2. apply (vwp_set_inode f dev ns a v Hv x2 t y'), HQ. destruct A5. split; cbn; try done; [by etrans|by right| ]. by rewrite Nat2Z.id; eapply cut_clear.
  - apply vwp_ret, HQ. split; try done. eapply cut_keep; [done|done|]. rewrite Z.geb_leb in Ec. apply andb_false_iff in Ec as [|Ec]; [by left|]. right. by apply negb_false_iff, Z.eqb_eq in Ec.
Qed.
Lemma vwp_trunc_directs x t y (Q : unit -> view -> Prop) : space_ok x t I E -> I !! sv_ino y = Some (sv_i y) ->
  (forall x2 y2, tdirect x t y 15 x2 y2 -> Q tt (st x2 t y2)) -> vwp (for_each (seqZ 0 SFS_NDIRECT) (trunc_direct v f bl)) (st x t y) Q.
Proof using Hv.
  intros Ho Hy HQ. change SFS_NDIRECT with (Z.of_nat 15). apply (vwp_for_seq f dev ns 15 _ (fun m a' => exists x2 y2, a' = st x2 t y2 /\ tdirect x t y m x2 y2)).
  - exists x, y. split; [done|]. split; [done..|by left|done|done|apply cut_start|by rewrite insert_id].
  - intros m a' Hm (x2 & y2 & -> & Ht). eapply vwp_trunc_direct; [done|exact Ht|]. intros x3 y3 Ht3. by exists x3, y3.
  - intros a' (x2 & y2 & -> & Ht). by apply HQ.
Qed.

(** ** The indirect block *)

(** The loop over the indirect block, whose blocks are in hand *)
Record tloop x t I0 ws ind (j : nat) x' ws' hnz (d : bool) : Prop := {
  tl_step : fs_step x x'; tl_cut : cut (fun k => bl <? 15 + Z.of_nat k) j ws ws'; tl_space : space_ok x' t I0 (ind :: nz ws' ++ E);
  tl_hnz : hnz = true <-> exists k b, (k < j)%nat /\ ws' !! k = Some b /\ b <> 0; tl_dirty : d = false -> ws' = ws
}.
Lemma hnz_step (ws : list Z) j b hnz : ws !! j = Some b -> (hnz = true <-> exists k b, (k < j)%nat /\ ws !! k = Some b /\ b <> 0) ->
  hnz || negb (b =? 0) = true <-> exists k b, (k < S j)%nat /\ ws !! k = Some b /\ b <> 0.
Proof using .
  intros Hb Hh. rewrite orb_true_iff, negb_true_iff, Z.eqb_neq, Hh. split.
  - intros [(k & c & Hk & Hc)|Hb0]; [exists k, c; split; [lia|done]|]. exists j, b. split; [lia|done].
  - intros (k & c & Hk & Hc & Hc0). destruct (decide (k = j)) as [->|]; [right; congruence|]. left. exists k, c. split; [lia|done].
Qed.
Lemma vwp_trunc_loop x t I0 ws ind m j x' ws' hnz d y (Q : list Z * bool * bool -> view -> Prop) : length ws = 128%nat -> (m + j = 128)%nat -> tloop x t I0 ws ind j x' ws' hnz d ->
  (forall x2 ws2 hnz2 d2, tloop x t I0 ws ind 128 x2 ws2 hnz2 d2 -> Q (ws2, hnz2, d2) (st x2 t y)) -> vwp (trunc_loop m f bl (Z.of_nat j) ws' hnz d) (st x' t y) Q.
Proof using Hv.
  intros Hws. revert j x' ws' hnz d. induction m as [|m IH]; intros j x' ws' hnz d Hm Ht HQ; cbn [trunc_loop].
  { apply vwp_ret, HQ. by replace 128%nat with j by lia. }
  pose proof Ht as [A1 A2 A3 A4 A5]. destruct (lookup_lt_is_Some_2 ws' j) as [b Hb]; [rewrite (proj1 A2); lia|]. rewrite Nat2Z.id. apply vwp_bind. eapply vwp_deref; [exact Hb|].
  change SFS_NDIRECT with 15. replace (Z.of_nat j + 1) with (Z.of_nat (S j)) by lia. destruct ((bl <? 15 + Z.of_nat j) && negb (b =? 0)) eqn:Ec.
  - apply andb_true_iff in Ec as [E1 E2]. apply negb_true_iff, Z.eqb_neq in E2. apply vwp_bind. eapply (vwp_bfree f dev ns (st x' t y) I0 (ind :: nz (<[j := 0]> ws') ++ E) b).
    { eapply space_moves; [exact A3| |apply (so_inodes _ _ _ _ _ A3)]. cbn [app]. rewrite (nz_clear ws' j b Hb E2). cbn [app]. by rewrite Permutation_swap. }
    intros x2 Hst Hdirty Ho2. apply IH; [lia| |done]. split; [by etrans|by eapply cut_clear|done| |done].
    rewrite A4. split; intros (k & c & Hk & Hc & Hc0).
    + exists k, c. rewrite list_lookup_insert_ne by lia. split; [lia|done].
    + destruct (decide (k = j)) as [->|]; [rewrite list_lookup_insert_eq in Hc by (by eapply lookup_lt_Some); congruence|]. rewrite list_lookup_insert_ne in Hc by lia. exists k, c. split; [lia|done].
  - apply IH; [lia| |done]. split; [done| |done|by apply hnz_step|done]. eapply cut_keep; [done|done|]. apply andb_false_iff in Ec as [|Ec]; [by left|]. right. by apply negb_false_iff, Z.eqb_eq in Ec.
Qed.

(** After the indirect block *)
Record tindirect x t y x' t' y' : Prop := {
  ti_step : fs_step x x'; ti_ino : sv_ino y' = sv_ino y; ti_ops : sv_ops y' = sv_ops y; ti_dirty : y' = y \/ sv_dirty y' = true;
  ti_meta : same_meta (sv_i y) (sv_i y'); ti_direct : sfi_direct (sv_i y') = sfi_direct (sv_i y);
  ti_cut : cut (fun k => bl <? 15 + Z.of_nat k) 128 (iwords t (sv_i y)) (iwords t' (sv_i y'));
  ti_ind : sfi_indirect (sv_i y') = 0 \/ 142 <= bl \/ exists k b, iwords t' (sv_i y') !! k = Some b /\ b <> 0;
  ti_sect : t' = t \/ sfi_indirect (sv_i y) <> 0 /\ exists bs, t' = upd t (sfi_indirect (sv_i y)) bs;
  ti_space : space_ok x' t' (<[sv_ino y := sv_i y']> I) E
}.
(** An inode without its indirect block *)
Lemma detach x t y : space_ok x t I E -> I !! sv_ino y = Some (sv_i y) -> sfi_indirect (sv_i y) <> 0 ->
  space_ok x t (<[sv_ino y := set_indirect 0 (sv_i y)]> I) (sfi_indirect (sv_i y) :: nz (iwords t (sv_i y)) ++ E).
Proof.
  intros Ho Hy Hne. eapply reown; [exact Ho|done|done| |].
  - rewrite (file_blocks_some t _ Hne), file_blocks_none by done. cbn [set_indirect sfi_direct]. cbn [app]. rewrite <- Permutation_middle. apply perm_skip.
    rewrite (Permutation_app_comm (nz (iwords t (sv_i y)))), <- !(assoc_L (++)), (Permutation_app_comm (nz (iwords t (sv_i y)))). done.
  - destruct (so_inodes _ _ _ _ _ Ho _ _ Hy). by split.
Qed.
(** The indirect block with the words that are left goes back to the inode. *)
Lemma reattach x t t' y ws : space_ok x t (<[sv_ino y := set_indirect 0 (sv_i y)]> I) (sfi_indirect (sv_i y) :: nz ws ++ E) -> I !! sv_ino y = Some (sv_i y) -> sfi_indirect (sv_i y) <> 0 -> dinode_ok (sv_i y) ->
  iwords t' (sv_i y) = ws -> owned t' (delete (sv_ino y) I) = owned t (delete (sv_ino y) I) -> space_ok x t' (<[sv_ino y := sv_i y]> I) E.
Proof.
  intros Ho Hy Hne Hdi Hw Ht. rewrite <- (insert_insert_eq I (sv_ino y) (sv_i y) (set_indirect 0 (sv_i y))). eapply reown; [exact Ho|apply lookup_insert_eq|by rewrite delete_insert_eq| |done].
  rewrite (file_blocks_some t' _ Hne), file_blocks_none, Hw by done. cbn [set_indirect sfi_direct]. cbn [app]. rewrite <- Permutation_middle. apply perm_skip.
  rewrite (Permutation_app_comm (nz ws)), <- !(assoc_L (++)), (Permutation_app_comm (nz ws)). done.
Qed.
Lemma no_words (ws : list Z) : length ws = 128%nat -> (forall k b, ws !! k = Some b -> b = 0) -> ws = replicate 128 0.
Proof using . intros Hl Hz. symmetry. apply replicate_as_elem_of. split; [done|]. intros b Hb. apply list_elem_of_lookup in Hb as [k Hk]. by eapply Hz. Qed.

Lemma cut_zeros gone m : cut gone m (replicate 128 0) (replicate 128 0).
Proof using . split; [done|]. intros k b Hk. rewrite Hk. apply lookup_replicate in Hk as [-> _]. by destruct (decide _), (gone k). Qed.
Lemma iwords_write t i ws : sfi_indirect i <> 0 -> length ws = 128%nat -> Forall is_u32 ws -> iwords (upd t (sfi_indirect i) (word_bytes ws)) i = ws.
Proof using . intros Hi Hl Hu. unfold iwords, upd. rewrite (proj2 (Z.eqb_neq _ _) Hi), Z.eqb_refl, <- Hl. by apply words_back. Qed.
Lemma cut_u32 gone m l l' : Forall is_u32 l -> cut gone m l l' -> Forall is_u32 l'.
Proof using .
  intros Hl [Hlen Hc]. apply Forall_lookup. intros k b Hk. destruct (lookup_lt_is_Some_2 l k) as [c Hck]; [apply lookup_lt_Some in Hk; lia|].
  rewrite (Hc k c Hck) in Hk. pose proof (Forall_lookup_1 _ _ _ _ Hl Hck). destruct (decide (k < m)%nat), (gone k); simplify_eq; try done; unfold is_u32; lia.
Qed.

(** The words are looked at: the three ways to go on *)
Lemma vwp_trunc_words x t y (Q : res unit -> view -> Prop) : space_ok x t I E -> I !! sv_ino y = Some (sv_i y) -> sfs_device x = dev -> sfi_indirect (sv_i y) <> 0 ->
  (forall x' t' y', tindirect x t y x' t' y' -> Q (Done tt) (st x' t' y')) ->
  forall x' ws hnz d, tloop x t (<[sv_ino y := set_indirect 0 (sv_i y)]> I) (iwords t (sv_i y)) (sfi_indirect (sv_i y)) 128 x' ws hnz d ->
  vwp (if negb hnz then sfs_bfree f (sfi_indirect (sv_i y)) ;; set_inode v (set_indirect 0) ;; mret (Done tt) else
       if d then sfs_writeblock f (sfi_indirect (sv_i y)) (word_bytes ws) else mret (Done tt)) (st x' t y) Q.
Proof using Hv Hdep.
  intros Ho Hy Hd Hne HQ x' ws hnz d [A1 A2 A3 A4 A5]. assert (dinode_ok (sv_i y)) as Hdi by apply (so_inodes _ _ _ _ _ Ho _ _ Hy).
  assert (length ws = 128%nat) as Hl by (rewrite (proj1 A2); apply iwords_length). destruct hnz; cbn [negb].
  - assert (exists k b, ws !! k = Some b /\ b <> 0) as (k & b & Hb) by (destruct A4 as [A4 _]; destruct (A4 eq_refl) as (k & b & _ & Hb); eauto). destruct d.
    + assert (Forall is_u32 ws) as Hu. { eapply cut_u32; [|exact A2]. apply Forall_forall. intros w Hw. eapply words_range; [exact Ho|exact Hy|done]. }
      pose proof (iwords_write t (sv_i y) ws Hne Hl Hu) as Hiw. pose proof (so_nb _ _ _ _ _ Ho) as Hnb. pose proof (own_range ns _ _ _ _ _ _ (sfi_indirect (sv_i y)) Ho Hy ltac:(right; apply elem_nz; split; [left|done])) as Hir.
      apply vwp_writeblock; [cbn; by rewrite (fst_device _ _ A1)|done|lia|by rewrite word_bytes_length, Hl|]. apply (HQ x' (upd t (sfi_indirect (sv_i y)) (word_bytes ws)) y). split; try done; [by left|by rewrite Hiw|rewrite Hiw; eauto|right; eauto|].
      eapply reattach; [exact A3|done|done|done|exact Hiw|]. apply owned_upd. eapply own_apart; [done|done|]. right. right. apply elem_nz. split; [left|done].
    + rewrite (A5 eq_refl) in *. apply vwp_ret, HQ. split; try done; [by left|eauto|by left|]. by eapply reattach.
  - assert (ws = replicate 128 0) as Hz. { apply no_words; [done|]. intros k b Hk. destruct (decide (b = 0)); [done|]. exfalso. destruct A4 as [_ A4]. discriminate A4. exists k, b. split; [|done]. rewrite <- Hl. by eapply lookup_lt_Some. }
    rewrite Hz, nz_zeros in A3. apply vwp_bind. eapply (vwp_bfree f dev ns (st x' t y) _ E (sfi_indirect (sv_i y))); [exact A3|]. intros x2 Hst Hdirty Ho2.
    apply vwp_bind, (vwp_set_inode f dev ns a v Hv x2 t y), vwp_ret, HQ. split; try done; [by etrans|by right| |by left|by left]. cbn [put_i sv_i]. change (iwords t (set_indirect 0 (sv_i y))) with (replicate 128 0). by rewrite <- Hz.
Qed.
Lemma vwp_trunc_indirect x t y (Q : res unit -> view -> Prop) : space_ok x t I E -> I !! sv_ino y = Some (sv_i y) -> sfs_device x = dev ->
  (forall x' t' y', tindirect x t y x' t' y' -> Q (Done tt) (st x' t' y')) -> vwp (trunc_indirect v f bl) (st x t y) Q.
Proof using Hv Hdep.
  intros Ho Hy Hd HQ. unfold trunc_indirect. apply vwp_bind, vwp_sv; [done|]. change (SFS_NDIRECT + SFS_DBPERIDB - 1) with 142.
  destruct (Z.eqb_spec (sfi_indirect (sv_i y)) 0) as [H0|Hne].
  { rewrite andb_false_r. apply vwp_ret, HQ. split; try done; [by left| |by left|by left|by rewrite insert_id]. unfold iwords. rewrite H0. apply cut_zeros. }
  rewrite andb_true_r. destruct (Z.ltb_spec bl 142); cbn [negb].
  2:{ apply vwp_ret, HQ. split; try done; [by left| |by right; left|by left|by rewrite insert_id]. split; [done|]. intros k b Hk. rewrite Hk. pose proof (lookup_lt_Some _ _ _ Hk) as Hl. rewrite iwords_length in Hl.
      destruct (decide _); [|done]. by destruct (Z.ltb_spec bl (15 + Z.of_nat k)); [lia|]. }
  pose proof (so_nb _ _ _ _ _ Ho) as Hnb. pose proof (own_range ns _ _ _ _ _ _ (sfi_indirect (sv_i y)) Ho Hy ltac:(right; apply elem_nz; split; [left|done])) as Hir.
  apply vwp_bind, vwp_readblock; [done|done|lia|]. change (Z.to_nat SFS_DBPERIDB) with 128%nat. cbn [evolve with_svs with_sect a_sect].
  assert (words_from (t (sfi_indirect (sv_i y))) 0 128 = iwords t (sv_i y)) as -> by (unfold iwords; by rewrite (proj2 (Z.eqb_neq _ _) Hne)).
  apply vwp_bind. eapply (vwp_trunc_loop x t (<[sv_ino y := set_indirect 0 (sv_i y)]> I) (iwords t (sv_i y)) (sfi_indirect (sv_i y)) 128 0); [apply iwords_length|done| |].
  - split; [done|apply cut_start|by apply detach| |done]. split; [done|]. intros (k & b & Hk & _). lia.
  - intros x2 ws2 hnz2 d2 Ht. by apply (vwp_trunc_words x).
Qed.
End Trunc.

(** ** The whole of sfs_itrunc *)

Section Result.
Context (ns bl : Z) (E : list Z) (I : gmap Z sfs_dinode).
Abbreviation space_ok := (space_ok ns).

(** The blocks are cut; [len] is the new size. *)
Record truncated (len : Z) x t y x' t' y' : Prop := {
  tr_step : fs_step x x'; tr_ino : sv_ino y' = sv_ino y; tr_ops : sv_ops y' = sv_ops y; tr_dirty : sv_dirty y' = true;
  tr_size : sfi_size (sv_i y') = len; tr_type : sfi_type (sv_i y') = sfi_type (sv_i y); tr_link : sfi_linkcount (sv_i y') = sfi_linkcount (sv_i y);
  tr_self : forall k, fblock t' (sv_i y') k = if kept bl k then fblock t (sv_i y) k else zeros;
  tr_others : forall ino i, I !! ino = Some i -> ino <> sv_ino y -> forall k, fblock t' i k = fblock t i k;
  tr_inodes : forall ino i, I !! ino = Some i -> t' ino = t ino;
  tr_empty : bl = 0 -> file_blocks t' (sv_i y') = [];
  tr_space : space_ok x' t' (<[sv_ino y := sv_i y']> I) E; tr_sys : fixed x t t'
}.

Context (x x1 x2 : sfs_fs) (t t2 : Z -> list Z) (y y1 y2 : sfs_vnode).
Context (Ho : space_ok x t I E) (Hy : I !! sv_ino y = Some (sv_i y)).
Context (T1 : tdirect ns bl E I x t y 15 x1 y1) (T2 : tindirect ns bl E (<[sv_ino y := sv_i y1]> I) x1 t y1 x2 t2 y2).

Lemma same_words : iwords t (sv_i y1) = iwords t (sv_i y).
Proof. unfold iwords. by rewrite (td_ind _ _ _ _ _ _ _ _ _ _ T1). Qed.
Lemma cut_blockno k : blockno t2 (sv_i y2) k = if kept bl k then blockno t (sv_i y) k else 0.
Proof.
  destruct (td_cut _ _ _ _ _ _ _ _ _ _ T1) as [L1 C1]. destruct (ti_cut _ _ _ _ _ _ _ _ _ _ T2) as [L2 C2]. rewrite same_words in L2, C2.
  assert (length (sfi_direct (sv_i y)) = 15%nat) as Hl by apply (so_inodes _ _ _ _ _ Ho _ _ Hy). unfold blockno. rewrite (ti_direct _ _ _ _ _ _ _ _ _ _ T2). unfold kept. destruct (decide (k < 15)%nat).
  - rewrite !lookup_app_l by lia. destruct (lookup_lt_is_Some_2 (sfi_direct (sv_i y)) k) as [b Hb]; [lia|]. rewrite (C1 k b Hb), Hb, decide_True by done. cbn [default from_option id].
    destruct (Z.leb_spec 15 (Z.of_nat k)); [lia|]. cbn [andb]. rewrite orb_false_r. destruct (Z.leb_spec bl (Z.of_nat k)), (Z.ltb_spec (Z.of_nat k) bl); try done; lia.
  - rewrite !lookup_app_r, L1 by lia. destruct ((iwords t (sv_i y)) !! (k - length (sfi_direct (sv_i y)))%nat) as [b|] eqn:Eb.
    + pose proof (lookup_lt_Some _ _ _ Eb) as Hlt. rewrite iwords_length in Hlt. rewrite (C2 _ b Eb), decide_True by done. cbn [default from_option id]. rewrite Hl.
      replace (15 + Z.of_nat (k - 15)) with (Z.of_nat k) by lia. destruct (Z.leb_spec 15 (Z.of_nat k)); [|lia]. cbn [andb]. destruct (Z.ltb_spec bl (Z.of_nat k)), (Z.leb_spec (Z.of_nat k) bl), (Z.ltb_spec (Z.of_nat k) bl); try done; lia.
    + rewrite (lookup_ge_None_2 (iwords t2 (sv_i y2))) by (apply lookup_ge_None in Eb; lia). cbn. by destruct (_ || _).
Qed.
(** Only the indirect block may have changed. *)
Lemma cut_sect c : t2 c = t c \/ sfi_indirect (sv_i y) <> 0 /\ c = sfi_indirect (sv_i y).
Proof.
  destruct (ti_sect _ _ _ _ _ _ _ _ _ _ T2) as [->|(Hne & bs & ->)]; [by left|]. rewrite (td_ind _ _ _ _ _ _ _ _ _ _ T1) in *. unfold upd. destruct (Z.eqb_spec c (sfi_indirect (sv_i y))); auto.
Qed.
Lemma cut_self k : fblock t2 (sv_i y2) k = if kept bl k then fblock t (sv_i y) k else zeros.
Proof.
  unfold fblock. rewrite cut_blockno. destruct (kept bl k); [|done]. destruct (Z.eqb_spec (blockno t (sv_i y) k) 0) as [|Hb]; [done|]. destruct (cut_sect (blockno t (sv_i y) k)) as [|[Hne He]]; [done|].
  destruct (indirect_apart _ _ _ _ _ _ _ Ho Hy Hne) as (_ & Hn & _). destruct Hn. rewrite <- He. apply elem_nz. split; [|done]. unfold blockno in *. destruct ((sfi_direct (sv_i y) ++ iwords t (sv_i y)) !! k) eqn:Ek; [|done]. by eapply list_elem_of_lookup_2.
Qed.
Lemma cut_others ino i : I !! ino = Some i -> ino <> sv_ino y -> forall k, fblock t2 i k = fblock t i k.
Proof.
  intros Hi Hne k. destruct (ti_sect _ _ _ _ _ _ _ _ _ _ T2) as [->|(Hnz & bs & ->)]; [done|]. rewrite (td_ind _ _ _ _ _ _ _ _ _ _ T1) in *.
  eapply (other_files ns x t I E (sv_ino y)); [done|done| |done|done]. right. right. apply elem_nz. split; [left|done].
Qed.
Lemma cut_inodes ino i : I !! ino = Some i -> t2 ino = t ino.
Proof. intros Hi. destruct (cut_sect ino) as [|[Hne He]]; [done|]. destruct (indirect_apart _ _ _ _ _ _ _ Ho Hy Hne) as (_ & _ & Hn). by destruct (Hn _ _ Hi). Qed.
Lemma cut_sys : fixed x t t2.
Proof.
  intros b Hb. destruct (cut_sect b) as [|[Hne ->]]; [done|]. pose proof (fixed_own ns x t I E (sfi_indirect (sv_i y)) (t2 (sfi_indirect (sv_i y))) Ho) as Hf. specialize (Hf ltac:(apply elem_of_app; right; apply in_owned; exists (sv_ino y), (sv_i y); split; [exact Hy|right; apply elem_nz; split; [left|done]]) _ Hb).
  unfold upd in Hf. by rewrite Z.eqb_refl in Hf.
Qed.
Lemma cut_empty : bl = 0 -> file_blocks t2 (sv_i y2) = [].
Proof.
  intros Hbl. assert (forall k b, (sfi_direct (sv_i y2) ++ iwords t2 (sv_i y2)) !! k = Some b -> b = 0) as Hz.
  { intros k b Hk. pose proof (cut_blockno k) as Hb. unfold blockno at 1 in Hb. rewrite Hk in Hb. cbn in Hb. rewrite Hb. unfold kept. rewrite Hbl. destruct (Z.ltb_spec (Z.of_nat k) 0), (Z.leb_spec 15 (Z.of_nat k)), (Z.leb_spec (Z.of_nat k) 0); try lia; done. }
  assert (sfi_indirect (sv_i y2) = 0) as H0. { destruct (ti_ind _ _ _ _ _ _ _ _ _ _ T2) as [|[|(k & b & Hk & Hb)]]; [done|lia|]. destruct Hb. apply (Hz (length (sfi_direct (sv_i y2)) + k)%nat). rewrite lookup_app_r by lia. by replace (_ + k - _)%nat with k by lia. }
  rewrite file_blocks_none by done. destruct (nz (sfi_direct (sv_i y2))) as [|b l] eqn:En; [done|]. assert (b ∈ nz (sfi_direct (sv_i y2))) as Hb by (rewrite En; left). apply elem_nz in Hb as [Hb Hb0]. destruct Hb0.
  apply list_elem_of_lookup in Hb as [k Hk]. apply (Hz k). by apply lookup_app_l_Some.
Qed.
End Result.

Section Whole.
Context {D : Type} `{W : DiskSpec D}.
Context (f dev ns : Z).
Abbreviation vwp := (vwp (D := D) f dev ns).

Lemma vwp_itrunc a v n x t y I E len (Q : res unit -> view -> Prop) : v <> 0 -> a_nodes a !! v = Some n -> vn_fs n = f -> space_ok ns x t I E -> I !! sv_ino y = Some (sv_i y) -> sfs_device x = dev -> 0 <= len <= MAXSIZE ->
  (forall x' t' y', truncated ns ((len + 511) / 512) E I len x t y x' t' y' -> Q (Done tt) (evolve a v x' t' y')) -> vwp (sfs_itrunc v len) (evolve a v x t y) Q.
Proof.
  intros Hv Hn Hnf Ho Hy Hd Hlen HQ. unfold MAXSIZE in Hlen. unfold sfs_itrunc. apply vwp_bind, (vwp_fs_of f dev ns a v n Hv Hn Hnf). change SFS_BLOCKSIZE with 512.
  replace (u32 (Z.quot (len + 512 - 1) 512)) with ((len + 511) / 512) by (rewrite Z.quot_div_nonneg, u32_id by width_lia; f_equal; lia). set (bl := (len + 511) / 512) in *.
  apply vwp_depth. intros Hdep. cbn in Hdep. apply vwp_locked. set (a1 := with_depth (a_depth a + 1) a). change (with_depth (a_depth (evolve a v x t y) + 1) (evolve a v x t y)) with (evolve a1 v x t y).
  assert (0 < a_depth a1) as Hdep1 by (cbn; lia).
  apply vwp_bind. apply (vwp_trunc_directs f dev ns a1 v Hv bl E I x t y); [done|done|]. intros x1 y1 T1. set (I1 := <[sv_ino y := sv_i y1]> I).
  apply vwp_bind. apply (vwp_trunc_indirect f dev ns a1 v Hv Hdep1 bl E I1).
  { apply (td_space _ _ _ _ _ _ _ _ _ _ T1). }
  { rewrite (td_ino _ _ _ _ _ _ _ _ _ _ T1). apply lookup_insert_eq. }
  { by rewrite (fst_device _ _ (td_step _ _ _ _ _ _ _ _ _ _ T1)). }
  intros x2 t2 y2 T2. apply vwp_bind, (vwp_set_inode f dev ns a1 v Hv). apply vwp_unlock; [cbn; lia|].
  unfold a1. rewrite evolve_unlocked.
  apply HQ. rewrite u32_id by width_lia. pose proof (ti_space _ _ _ _ _ _ _ _ _ _ T2) as Ho2. pose proof (so_inodes _ _ _ _ _ Ho2) as Hdi.
  destruct (td_meta _ _ _ _ _ _ _ _ _ _ T1) as [S1 S2 S3 S4], (ti_meta _ _ _ _ _ _ _ _ _ _ T2) as [U1 U2 U3 U4]. split; cbn [put_i sv_ino sv_ops sv_dirty sv_i set_size sfi_size sfi_type sfi_linkcount]; try congruence.
  - etrans; [apply (td_step _ _ _ _ _ _ _ _ _ _ T1)|apply (ti_step _ _ _ _ _ _ _ _ _ _ T2)].
  - by rewrite (ti_ino _ _ _ _ _ _ _ _ _ _ T2), (td_ino _ _ _ _ _ _ _ _ _ _ T1).
  - by rewrite (ti_ops _ _ _ _ _ _ _ _ _ _ T2), (td_ops _ _ _ _ _ _ _ _ _ _ T1).
  - exact (cut_self ns bl E I x x1 x2 t t2 y y1 y2 Ho Hy T1 T2).
  - exact (cut_others ns bl E I x x1 x2 t t2 y y1 y2 Ho Hy T1 T2).
  - exact (cut_inodes ns bl E I x x1 x2 t t2 y y1 y2 Ho Hy T1 T2).
  - exact (cut_empty ns bl E I x x1 x2 t t2 y y1 y2 Ho Hy T1 T2).
  - rewrite (td_ino _ _ _ _ _ _ _ _ _ _ T1) in *. unfold I1 in *. rewrite insert_insert_eq in *.
    rewrite <- (insert_insert_eq I (sv_ino y) _ (sv_i y2)). eapply reown; [exact Ho2|apply lookup_insert_eq|done|done|]. destruct (Hdi _ _ (lookup_insert_eq _ _ _)). by split.
  - exact (cut_sys ns bl E I x x1 x2 t t2 y y1 y2 Ho Hy T1 T2).
Qed.
End Whole.
End SfsTrunc.
