(* ===== verification/SfsUio.v ===== *)
(** * Moving data between a file system and a uio of one block

    What uiomove does to a uio with one block, in user space or in kernel memory
    that is mapped, and the sectors read and written through such a uio. *)

From S2P Require Import Prelude Kern Bswap Bitmap Array Interfaces Copyinout Uio Vfs Lhd LhdSpec Sfs SfsSpec.
Open Scope Z_scope.

Module SfsUio.
Import Vfs Lhd LhdSpec Sfs SfsSpec Copyinout Uio.

(** ** Memory *)

Lemma store_app m a bs1 bs2 m1 m2 ok : store_bytes m a bs1 = (m1, true) -> store_bytes m1 (a + Z.of_nat (length bs1)) bs2 = (m2, ok) -> store_bytes m a (bs1 ++ bs2) = (m2, ok).
Proof.
  revert m a. induction bs1 as [|b bs1 IH]; intros m a; cbn [store_bytes app length]; [intros [= ->]; by rewrite Z.add_0_r|]. destruct (m !! a); [|done].
  intros H1 H2. apply IH; [done|]. by replace (a + 1 + Z.of_nat (length bs1)) with (a + Z.of_nat (S (length bs1))) by lia.
Qed.
Lemma load_app m a n1 n2 bs1 bs2 : load_bytes m a n1 = Some bs1 -> load_bytes m (a + Z.of_nat n1) n2 = Some bs2 -> load_bytes m a (n1 + n2) = Some (bs1 ++ bs2).
Proof.
  intros [L1 H1]%load_bytes_Some [L2 H2]%load_bytes_Some. apply load_bytes_Some. rewrite length_app. split; [lia|]. intros i Hi. destruct (decide (i < n1)%nat).
  - rewrite lookup_app_l by lia. by apply H1.
  - rewrite lookup_app_r by lia. rewrite L1. rewrite <- H2 by lia. f_equal. lia.
Qed.

(** [cnt] bytes of [d] went to memory from [base] on; of a transfer that failed, maybe some more. *)
Definition delivered (d : list Z) m base (cnt : nat) m' : Prop := store_bytes m base (take cnt d) = (m', true).
Definition spilled (d : list Z) m base (cnt : nat) m' : Prop :=
  exists m1, delivered d m base cnt m1 /\ (m' = m1 \/ exists k, store_bytes m1 (base + Z.of_nat cnt) (take k (drop cnt d)) = (m', false)).

(** The memory of a uio can be used for [n] bytes from [base] on. *)
Definition usable (seg : uio_seg) (m : gmap Z Z) (base n : Z) : Prop := seg = UIO_SYSSPACE \/ base + n <= USERSPACETOP /\ forall i, 0 <= i < n -> is_Some (m !! (base + i)).
Lemma usable_sub seg m m' base n k n' : usable seg m base n -> 0 <= k -> 0 <= n' -> k + n' <= n -> (forall z, is_Some (m !! z) -> is_Some (m' !! z)) -> usable seg m' (base + k) n'.
Proof. intros [Hs|[Ht Hm]] Hk Hn' Hle Hmm; [by left|]. right. split; [lia|]. intros i Hi. apply Hmm. rewrite <- Z.add_assoc. apply Hm. lia. Qed.

Lemma delivered_0 d m base : delivered d m base 0 m.
Proof. done. Qed.
Lemma delivered_app d1 d2 m base n cnt m1 m2 : n = length d1 -> delivered d1 m base n m1 -> delivered d2 m1 (base + Z.of_nat n) cnt m2 -> delivered (d1 ++ d2) m base (n + cnt) m2.
Proof. intros ->. unfold delivered. intros H1 H2. rewrite take_app_add. rewrite take_ge in H1 by done. by eapply store_app. Qed.
Lemma spilled_app d1 d2 m base n cnt m1 m2 : n = length d1 -> delivered d1 m base n m1 -> spilled d2 m1 (base + Z.of_nat n) cnt m2 -> spilled (d1 ++ d2) m base (n + cnt) m2.
Proof.
  intros Hn H1 (m3 & H3 & H2). exists m3. split; [by eapply delivered_app|]. destruct H2 as [|[k H2]]; [by left|]. right. exists k. subst n. rewrite drop_app_add.
  by replace (base + Z.of_nat (length d1 + cnt)) with (base + Z.of_nat (length d1) + Z.of_nat cnt) by lia.
Qed.
Lemma spilled_weak d d' m base cnt m' : (cnt <= length d)%nat -> spilled d m base cnt m' -> spilled (d ++ d') m base cnt m'.
Proof.
  intros Hc (m1 & H1 & H2). exists m1. unfold delivered in *. rewrite take_app_le by done. split; [done|]. destruct H2 as [|[k H2]]; [by left|]. right.
  exists (min k (length (drop cnt d))). rewrite drop_app_le, take_app_le, <- firstn_firstn, firstn_all by (done || lia). done.
Qed.

(** ** A uio of one block *)

Section Uio.
Context (seg : uio_seg) (dir : uio_rw) (sp : Z).
Definition ub (base len off rm : Z) : uio := Interfaces.Uio [Iovec base len] off rm seg dir sp.

(** It can be used: in kernel space its memory is mapped. *)
Record ublock (base len off rm space : Z) (m : gmap Z Z) : Prop := {
  ub_base : is_u32 base; ub_len : is_u32 len; ub_res : 0 <= rm <= len; ub_off : is_s64 off /\ is_s64 (off + rm);
  ub_space : if decide (seg = UIO_SYSSPACE) then sp = 0 /\ is_u32 (base + rm) /\ forall i, 0 <= i < rm -> is_Some (m !! (base + i)) else sp = space
}.

Context {G : Type}.
Abbreviation V := (vstate G).
Implicit Types s : V.

Lemma uiomove_ub_loop s base len off rm n out : 0 < n <= rm -> rm <= len -> is_u32 len -> is_s64 off -> is_s64 (off + rm) ->
  uiomove_loop 2 out n (ub base len off rm) [] s =
  match move_block (ub base len off rm) base out n s with
  | Ok (Done bs) s' => Ok (Done tt, ub (base + n) (len - n) (off + n) (rm - n), bs) s'
  | Ok (Err e) s' => Ok (Err e, ub base len off rm, []) s'
  | Fault e => Fault e
  end.
Proof.
  intros Hn Hr Hl Ho1 Ho2. cbn [uiomove_loop ub uio_iov uio_resid iov_len iov_base uio_offset uio_segflg uio_dir uio_space]. destruct (Z.gtb_spec n 0), (Z.gtb_spec rm 0); try lia. cbn [andb negb].
  assert ((if len >? n then n else len) = n) as -> by (destruct (Z.gtb_spec len n); lia). destruct (Z.eqb_spec n 0); [lia|]. unfold mbind, M_bind.
  fold (ub base len off rm). destruct (move_block (ub base len off rm) base out n s) as [[bs|e] s'|e]; try done.
  rewrite s64_id by (unfold is_s64 in *; lia). rewrite u32_id by (unfold is_u32 in *; lia). destruct (Z.gtb_spec (n - n) 0); [lia|]. done.
Qed.

Lemma set_mem_id s : set_mem (v_mem s) s = s.
Proof using . by destruct s. Qed.
Lemma wp_uiomove_none s base len off rm out (Q : res unit * uio * list Z -> V -> Prop) : ublock base len off rm (v_space s) (v_mem s) -> Q (Done tt, ub base len off rm, []) s -> wp (uiomove out 0 (ub base len off rm)) Q s.
Proof.
  intros [A1 A2 A3 A4 A5] HQ. unfold uiomove. wpsimp. destruct (decide (seg = UIO_SYSSPACE)) as [Hs|Hs]; cbn [ub uio_segflg uio_space].
  - rewrite Hs. wpsimp. split; [|done]. apply Z.eqb_eq, A5.
  - assert (wp (kassert (sp =? proc_getas s)) (fun _ s' => s' = s) s) as Hk by (rewrite wp_kassert; split; [by apply Z.eqb_eq|done]). destruct seg; try done; (eapply wp_mono; [exact Hk|]; by intros _ s' ->).
Qed.
Lemma uiomove_ub s base len off rm n out (Q : res unit * uio * list Z -> V -> Prop) : ublock base len off rm (v_space s) (v_mem s) -> 0 < n <= rm ->
  wp (move_block (ub base len off rm) base out n) (fun r s' => match r with
    | Done bs => Q (Done tt, ub (base + n) (len - n) (off + n) (rm - n), bs) s'
    | Err e => Q (Err e, ub base len off rm, []) s'
    end) s -> wp (uiomove out n (ub base len off rm)) Q s.
Proof.
  intros [A1 A2 A3 [A4 A5] A6] Hn HQ. unfold uiomove. rewrite wp_bind, wp_get, wp_bind. assert (wp (S := V) (match uio_segflg (ub base len off rm) with UIO_SYSSPACE => kassert (uio_space (ub base len off rm) =? 0) | _ => kassert (uio_space (ub base len off rm) =? proc_getas s) end)
    (fun _ s' => s' = s) s) as Hk. { cbn. destruct seg; rewrite wp_kassert; (split; [|done]); apply Z.eqb_eq; try apply A6. }
  eapply wp_mono; [exact Hk|]. intros _ s' ->. unfold wp. cbn [length ub uio_iov]. change (2 * 1)%nat with 2%nat. fold (ub base len off rm). rewrite uiomove_ub_loop by (done || lia).
  unfold wp in HQ. destruct (move_block _ _ _ _ _) as [[bs|e] s'|e]; done.
Qed.
Lemma wp_uiomove_out s base len off rm n out (Q : res unit * uio * list Z -> V -> Prop) : dir = UIO_READ -> ublock base len off rm (v_space s) (v_mem s) -> 0 < n <= rm -> n <= Z.of_nat (length out) ->
  (forall m', delivered out (v_mem s) base (Z.to_nat n) m' -> is_u32 (base + n) -> Q (Done tt, ub (base + n) (len - n) (off + n) (rm - n), []) (set_mem m' s)) ->
  (forall m', ~ usable seg (v_mem s) base n -> spilled (take (Z.to_nat n) out) (v_mem s) base 0 m' -> Q (Err EFAULT, ub base len off rm, []) (set_mem m' s)) -> wp (uiomove out n (ub base len off rm)) Q s.
Proof.
  intros Hdir Hu Hn Hl HQ HE. apply uiomove_ub; [done|done|]. destruct Hu as [A1 A2 A3 [A4 A5] A6]. assert (is_u32 (Z.of_nat (length (take (Z.to_nat n) out)))) as Hlen by (rewrite length_take; unfold is_u32 in *; lia).
  assert (seg <> UIO_SYSSPACE -> wp (r ← copyout (take (Z.to_nat n) out) base; mret (match r with Done _ => Done [] | Err e => Err e end)) (fun r s' => match r with
    | Done bs => Q (Done tt, ub (base + n) (len - n) (off + n) (rm - n), bs) s' | Err e => Q (Err e, ub base len off rm, []) s' end) s) as Huser.
  { intros Hs. rewrite wp_bind. unfold wp at 1. rewrite copyout_eq by done. destruct (block_ok base _) eqn:Eb.
    2:{ apply wp_ret. rewrite <- (set_mem_id s). apply HE; [|exists (v_mem s); split; [done|by left]]. intros [|[Ht _]]; [done|]. unfold block_ok in Eb. rewrite length_take in Eb. apply andb_false_iff in Eb as [Eb%Z.ltb_ge|Eb%Z.leb_gt]; lia. }
    destruct (store_bytes _ _ _) as [m []] eqn:Em; apply wp_ret.
    - apply HQ; [done|]. unfold block_ok, USERSPACETOP in Eb. apply andb_true_iff in Eb as [_ Eb%Z.leb_le]. rewrite length_take in Eb. unfold is_u32 in *. lia.
    - apply HE; [|exists (v_mem s); split; [done|]; right; exists (Z.to_nat n); by rewrite Z.add_0_r, drop_0, take_take, Nat.min_id]. intros [|[_ Hm]]; [done|]. assert (false = true); [|done]. apply (proj1 (store_bytes_ok _ _ _ _ _ Em)). intros i Hi. apply Hm. rewrite length_take in Hi. lia. }
  unfold move_block. cbn [ub uio_segflg uio_dir]. rewrite Hdir. destruct seg; try (by apply Huser). wpsimp. cbn in A6. destruct (store_bytes (vmem s) base (take (Z.to_nat n) out)) as [m ok] eqn:Es.
  assert (ok = true) as ->. { apply (proj1 (store_bytes_ok _ _ _ _ _ Es)). intros i Hi. rewrite length_take in Hi. apply A6. lia. }
  wpsimp. apply HQ; [done|]. destruct A6 as (_ & Hbu & _). unfold is_u32 in *. lia.
Qed.
Lemma wp_uiomove_in s base len off rm n (Q : res unit * uio * list Z -> V -> Prop) : dir = UIO_WRITE -> ublock base len off rm (v_space s) (v_mem s) -> 0 < n <= rm ->
  (forall bs, load_bytes (v_mem s) base (Z.to_nat n) = Some bs -> is_u32 (base + n) -> Q (Done tt, ub (base + n) (len - n) (off + n) (rm - n), bs) s) ->
  (~ usable seg (v_mem s) base n -> Q (Err EFAULT, ub base len off rm, []) s) -> forall out, wp (uiomove out n (ub base len off rm)) Q s.
Proof.
  intros Hdir Hu Hn HQ HE out. apply uiomove_ub; [done|done|]. destruct Hu as [A1 A2 A3 [A4 A5] A6]. assert (is_u32 n) as Hnu by (unfold is_u32 in *; lia).
  assert (forall k b, (forall i, 0 <= i < Z.of_nat k -> is_Some (v_mem s !! (b + i))) -> is_Some (load_bytes (v_mem s) b k)) as Hsome.
  { induction k as [|k IH]; intros b Hb; [by eexists|]. cbn. destruct (Hb 0 ltac:(lia)) as [c Hc]. rewrite Z.add_0_r in Hc. rewrite Hc. cbn. destruct (IH (b + 1)) as [bs ->]; [|by eexists]. intros i Hi. rewrite <- Z.add_assoc. apply Hb. lia. }
  unfold move_block. cbn [ub uio_segflg uio_dir]. rewrite Hdir. destruct (decide (seg = UIO_SYSSPACE)) as [Hseg|Hseg].
  2:{ assert (wp (copyin base n) (fun r s' => match r with Done bs => Q (Done tt, ub (base + n) (len - n) (off + n) (rm - n), bs) s' | Err e => Q (Err e, ub base len off rm, []) s' end) s) as Huser; [|by destruct seg].
      unfold wp. rewrite copyin_eq by done. destruct (block_ok base n) eqn:Eb.
      2:{ apply HE. intros [|[Ht _]]; [done|]. unfold block_ok in Eb. apply andb_false_iff in Eb as [Eb%Z.ltb_ge|Eb%Z.leb_gt]; lia. }
      destruct (load_bytes _ _ _) eqn:El. 2:{ apply HE. intros [|[_ Hm]]; [done|]. destruct (Hsome (Z.to_nat n) base) as [bs Hbs]; [intros i Hi; apply Hm; lia|]. cbn in El. congruence. }
      apply HQ; [done|].
      unfold block_ok, USERSPACETOP in Eb. apply andb_true_iff in Eb as [_ Eb%Z.leb_le]. unfold is_u32 in *. lia. }
  rewrite Hseg. destruct A6 as (_ & Hbu & A6). wpsimp.
  destruct (load_bytes (vmem s) base (Z.to_nat n)) as [bs|] eqn:El; [exists bs; split; [done|]; apply HQ; [done|unfold is_u32 in *; lia]|]. exfalso.
  destruct (Hsome (Z.to_nat n) base) as [bs Hbs]; [|by cbn in El; congruence]. intros i Hi. apply A6. lia.
Qed.
End Uio.

(** ** In the logic *)

Section Logic.
Context {D : Type} `{W : DiskSpec D}.
Context (f dev ns : Z).
Abbreviation vwp := (vwp (D := D) f dev ns).
Context (seg : uio_seg) (sp : Z).
Abbreviation ub := (ub seg).
Implicit Types a : view.

Lemma with_mem_twice m m' a : with_mem m (with_mem m' a) = with_mem m a.
Proof using . done. Qed.
Lemma with_mem_id a : with_mem (a_mem a) a = a.
Proof using . by destruct a. Qed.

Lemma vwp_uiomove_out a base len off rm n out (Q : res unit * uio * list Z -> view -> Prop) : ublock seg sp base len off rm (a_space a) (a_mem a) -> 0 <= n <= rm -> n <= Z.of_nat (length out) ->
  (forall m', delivered out (a_mem a) base (Z.to_nat n) m' -> is_u32 (base + n) -> Q (Done tt, ub UIO_READ sp (base + n) (len - n) (off + n) (rm - n), []) (with_mem m' a)) ->
  (forall m', ~ usable seg (a_mem a) base n -> spilled (take (Z.to_nat n) out) (a_mem a) base 0 m' -> Q (Err EFAULT, ub UIO_READ sp base len off rm, []) (with_mem m' a)) -> vwp (uiomove out n (ub UIO_READ sp base len off rm)) a Q.
Proof.
  intros Hu Hn Hl HQ HE s Hs. pose proof Hs as [A1 A2 A3 A4 A5 A6 A7 A8 A9]. destruct (decide (n = 0)) as [->|].
  { apply wp_uiomove_none; [by rewrite A9, A6|]. exists a. split; [done|]. split; [done|]. specialize (HQ (a_mem a)). rewrite !Z.add_0_r, !Z.sub_0_r in HQ. rewrite <- (with_mem_id a). apply HQ; [done|apply Hu]. }
  apply wp_uiomove_out; [done|by rewrite A9, A6|lia|done| |].
  - intros m'. rewrite A6. intros Hm Hb. exists (with_mem m' a). split; [|split; [by split|by apply HQ]]. split; cbn; try done. refine (disk_same dev ns s _ a _ _ A3); reflexivity.
  - intros m'. rewrite A6. intros Hnu Hm. exists (with_mem m' a). split; [|split; [by split|by apply HE]]. split; cbn; try done. refine (disk_same dev ns s _ a _ _ A3); reflexivity.
Qed.
Lemma vwp_uiomove_in a base len off rm n out (Q : res unit * uio * list Z -> view -> Prop) : ublock seg sp base len off rm (a_space a) (a_mem a) -> 0 <= n <= rm ->
  (forall bs, load_bytes (a_mem a) base (Z.to_nat n) = Some bs -> is_u32 (base + n) -> Q (Done tt, ub UIO_WRITE sp (base + n) (len - n) (off + n) (rm - n), bs) a) ->
  (~ usable seg (a_mem a) base n -> Q (Err EFAULT, ub UIO_WRITE sp base len off rm, []) a) -> vwp (uiomove out n (ub UIO_WRITE sp base len off rm)) a Q.
Proof.
  intros Hu Hn HQ HE s Hs. pose proof Hs as [A1 A2 A3 A4 A5 A6 A7 A8 A9]. destruct (decide (n = 0)) as [->|].
  { apply wp_uiomove_none; [by rewrite A9, A6|]. exists a. split; [done|]. split; [done|]. specialize (HQ []). rewrite !Z.add_0_r, !Z.sub_0_r in HQ. apply HQ; [done|apply Hu]. }
  apply wp_uiomove_in; [done|by rewrite A9, A6|lia| |].
  - intros bs. rewrite A6. intros Hbs Hb. exists a. split; [done|]. split; [done|by apply HQ].
  - rewrite A6. intros Hnu. exists a. split; [done|]. split; [done|by apply HE].
Qed.

(** A sector goes from the disk to the uio, or from the uio to the disk. *)
Lemma vwp_rw_out a base len blk (Q : res unit * uio -> view -> Prop) : sfs_device (a_fs a) = dev -> 0 < a_depth a -> 0 <= blk < ns -> ublock seg sp base len (blk * 512) 512 (a_space a) (a_mem a) ->
  (forall m', delivered (a_sect a blk) (a_mem a) base 512 m' -> is_u32 (base + 512) -> Q (Done tt, ub UIO_READ sp (base + 512) (len - 512) (blk * 512 + 512) 0) (with_mem m' a)) ->
  (forall m', ~ usable seg (a_mem a) base 512 -> spilled (a_sect a blk) (a_mem a) base 0 m' -> Q (Err EFAULT, ub UIO_READ sp base len (blk * 512) 512) (with_mem m' a)) -> vwp (sfs_rwblock f (ub UIO_READ sp base len (blk * 512) 512)) a Q.
Proof.
  intros Hd Hdep Hb Hu HQ HE. apply vwp_sectors. intros Hlen. unfold sfs_rwblock. apply vwp_bind, vwp_must_hold; [done|]. apply vwp_bind, vwp_get_fs. rewrite Hd.
  intros s Hs. destruct (now_disk _ _ _ _ _ Hs) as (x & Hr & Hns & Hx). pose proof Hs as [A1 A2 A3 A4 A5 A6 A7 A8 A9]. eapply (rw_read dev 10 s x blk); try done; [by rewrite Hns|apply sound_patience, Hr|]. intros x' Hw Hc Hd'.
  assert (forall m', now f dev ns (with_lhd (set_mem m' (with_lhd s dev x')) dev (Lhd (lh_buf x') (lh_result x') 1 0 (lh_hw x'))) (with_mem m' a) /\ framed f dev s (with_lhd (set_mem m' (with_lhd s dev x')) dev (Lhd (lh_buf x') (lh_result x') 1 0 (lh_hw x')))) as Hnow.
  { intros m'. change (set_mem m' (with_lhd s dev x')) with (with_lhd (set_mem m' s) dev x'). rewrite with_lhd_twice. split.
    - change (with_mem m' a) with (with_sect (a_sect a) (with_mem m' a)). eapply (now_lhd f dev ns (set_mem m' s) (with_mem m' a) x _ (sect (lh_hw x))); [|by apply (at_rest_same s)|done|done|done].
      split; cbn; try done. refine (disk_same dev ns s _ a _ _ A3); reflexivity.
    - split; cbn; try done. apply delete_insert_eq. }
  rewrite Hx. apply wp_uiomove_out; [done|cbn; by rewrite A9, A6|lia|rewrite (Hlen blk Hb); lia| |].
  - cbn. rewrite A6. intros m' Hm Hbu. split; [apply lookup_insert_eq|]. split; [by left|]. destruct (Hnow m') as [N1 N2]. exists (with_mem m' a). split; [done|]. split; [done|]. by apply HQ.
  - cbn. rewrite A6. intros m' Hnu Hm. rewrite take_ge in Hm by (rewrite (Hlen blk Hb); lia). split; [apply lookup_insert_eq|]. split; [by right|]. destruct (Hnow m') as [N1 N2]. exists (with_mem m' a). split; [done|]. split; [done|]. by apply HE.
Qed.
Lemma vwp_rw_in a base len blk (Q : res unit * uio -> view -> Prop) : sfs_device (a_fs a) = dev -> 0 < a_depth a -> 0 <= blk < ns -> ublock seg sp base len (blk * 512) 512 (a_space a) (a_mem a) ->
  (forall bs, load_bytes (a_mem a) base 512 = Some bs -> is_u32 (base + 512) -> Q (Done tt, ub UIO_WRITE sp (base + 512) (len - 512) (blk * 512 + 512) 0) (with_sect (upd (a_sect a) blk bs) a)) ->
  (~ usable seg (a_mem a) base 512 -> Q (Err EFAULT, ub UIO_WRITE sp base len (blk * 512) 512) a) -> vwp (sfs_rwblock f (ub UIO_WRITE sp base len (blk * 512) 512)) a Q.
Proof.
  intros Hd Hdep Hb Hu HQ HE. unfold sfs_rwblock. apply vwp_bind, vwp_must_hold; [done|]. apply vwp_bind, vwp_get_fs. rewrite Hd.
  intros s Hs. destruct (now_disk _ _ _ _ _ Hs) as (x & Hr & Hns & Hx). pose proof Hs as [A1 A2 A3 A4 A5 A6 A7 A8 A9]. eapply (rw_write dev 10 s x blk); try done; [by rewrite Hns|]. intros x' Hw Hc Hd'.
  apply wp_uiomove_in; [done|cbn; by rewrite A9, A6|lia| |].
  - cbn. rewrite A6. intros bs Hbs Hbu. split; [apply lookup_insert_eq|]. split; [done|]. split; [apply load_bytes_Some in Hbs; apply Hbs|]. intros x2 Hw2. rewrite with_lhd_twice. exists (with_sect (upd (a_sect a) blk bs) a).
    split; [eapply now_lhd; try done; intros k; unfold upd; by rewrite Hx|]. split; [apply framed_lhd|]. by apply HQ.
  - cbn. rewrite A6. intros Hnu. specialize (HE Hnu). split; [apply lookup_insert_eq|]. split; [done|]. split; [done|]. split; [|lia]. rewrite with_lhd_twice. exists (with_sect (a_sect a) a). split; [|split; [apply framed_lhd|by destruct a]].
    by eapply now_lhd.
Qed.

(** uiomovezeros: [n] zeros, or the bytes sent before a fault *)
Lemma ublock_adv base len off rm k space m m' : ublock seg sp base len off rm space m -> 0 <= k <= rm -> is_u32 (base + k) -> (forall z, is_Some (m !! z) -> is_Some (m' !! z)) -> ublock seg sp (base + k) (len - k) (off + k) (rm - k) space m'.
Proof using .
  intros [A1 A2 A3 [A4 A5] A6] Hk Hb Hm. unfold is_u32, is_s64 in *. split; unfold is_u32, is_s64; try lia. destruct (decide _); [|done]. destruct A6 as (A6 & A7 & A8). split; [done|]. split; [unfold is_u32 in *; lia|]. intros i Hi. apply Hm. rewrite <- Z.add_assoc. apply A8. lia.
Qed.
Lemma delivered_u32 d m base n m' : delivered d m base n m' -> forall z, is_Some (m !! z) -> is_Some (m' !! z).
Proof using . intros Hd z. by apply (store_bytes_mapped _ _ _ _ _ _ Hd). Qed.
(** The outcome of sending the bytes [d]: [u at] the uio after so many bytes *)
Definition sends (d : list Z) (u : Z -> uio) a (Q : res unit * uio -> view -> Prop) base : Prop :=
  (forall m', delivered d (a_mem a) base (length d) m' -> is_u32 (base + Z.of_nat (length d)) -> Q (Done tt, u (Z.of_nat (length d))) (with_mem m' a)) /\
  (forall m' cnt, (cnt <= length d)%nat -> ~ usable seg (a_mem a) base (Z.of_nat (length d)) -> spilled d (a_mem a) base cnt m' -> Q (Err EFAULT, u (Z.of_nat cnt)) (with_mem m' a)).
Lemma sends_step d1 d2 n u u' a Q base m' : Z.of_nat (length d1) = n -> sends (d1 ++ d2) u a Q base -> delivered d1 (a_mem a) base (length d1) m' -> (forall k, u' k = u (n + k)) -> sends d2 u' (with_mem m' a) Q (base + n).
Proof using .
  intros Hn [HQ HE] Hd Hu. rewrite length_app in *. split.
  - intros m2 Hd2 Hb. rewrite Hu, with_mem_twice. cbn in Hd2. specialize (HQ m2). rewrite Nat2Z.inj_add, Hn in HQ. apply HQ; [|by rewrite Z.add_assoc]. eapply delivered_app; [done|exact Hd|]. by rewrite Hn.
  - intros m2 cnt Hc Hnu Hs. rewrite Hu, with_mem_twice. cbn in Hs, Hnu. specialize (HE m2 (length d1 + cnt)%nat). rewrite !Nat2Z.inj_add, Hn in HE. apply HE; [lia| |].
    { intros Hok. apply Hnu. eapply usable_sub; [exact Hok|lia|lia|lia|]. intros z. by apply (store_bytes_mapped _ _ _ _ _ _ Hd). }
    eapply spilled_app; [done|exact Hd|]. by rewrite Hn.
Qed.
Lemma sends_fault d1 d2 u a Q base m' : sends (d1 ++ d2) u a Q base -> ~ usable seg (a_mem a) base (Z.of_nat (length d1)) -> spilled d1 (a_mem a) base 0 m' -> Q (Err EFAULT, u 0) (with_mem m' a).
Proof using .
  intros [_ HE] Hnu Hs. apply (HE m' 0%nat); [lia| |eapply spilled_weak; [lia|done]]. intros Hok. apply Hnu. rewrite <- (Z.add_0_r base). rewrite length_app in Hok. eapply usable_sub; [exact Hok|lia..|done].
Qed.
Lemma sends_nil u a Q base : is_u32 base -> sends [] u a Q base -> Q (Done tt, u 0) a.
Proof using . intros Hb [HQ _]. rewrite <- (with_mem_id a). apply HQ; [done|]. by rewrite Z.add_0_r. Qed.
Lemma ub_0 base len off rm : ub UIO_READ sp base len off rm = ub UIO_READ sp (base + 0) (len - 0) (off + 0) (rm - 0).
Proof using . by rewrite !Z.add_0_r, !Z.sub_0_r. Qed.
Lemma ub_add base len off rm n k : ub UIO_READ sp (base + n + k) (len - n - k) (off + n + k) (rm - n - k) = ub UIO_READ sp (base + (n + k)) (len - (n + k)) (off + (n + k)) (rm - (n + k)).
Proof using . f_equal; lia. Qed.

Lemma vwp_zeros_loop fuel a base len off rm n (Q : res unit * uio -> view -> Prop) : ublock seg sp base len off rm (a_space a) (a_mem a) -> 0 <= n <= rm -> (n + 15) / 16 <= Z.of_nat fuel ->
  sends (replicate (Z.to_nat n) 0) (fun k => ub UIO_READ sp (base + k) (len - k) (off + k) (rm - k)) a Q base -> vwp (uiomovezeros_loop fuel n (ub UIO_READ sp base len off rm)) a Q.
Proof.
  revert a base len off rm n. induction fuel as [|fuel IH]; intros a base len off rm n Hu Hn Hf HS; cbn [uiomovezeros_loop]; (destruct (Z.gtb_spec n 0) as [Hpos|]; cbn [negb]);
    [exfalso; Z.to_euclidean_division_equations; lia| | |];
    try (apply vwp_ret; assert (n = 0) as -> by lia; rewrite ub_0; apply (sends_nil (fun k => ub UIO_READ sp (base + k) (len - k) (off + k) (rm - k)) a Q base); [apply Hu|exact HS]).
  set (amt := if 16 >? n then n else 16). assert (0 < amt <= n /\ amt <= 16 /\ (n - amt + 15) / 16 <= Z.of_nat fuel) as (Ha1 & Ha2 & Ha3). { unfold amt. destruct (Z.gtb_spec 16 n); Z.to_euclidean_division_equations; lia. }
  assert (replicate (Z.to_nat n) 0 = replicate (Z.to_nat amt) 0 ++ replicate (Z.to_nat (n - amt)) 0) as Hrep by (rewrite <- replicate_add; f_equal; lia). rewrite Hrep in HS.
  apply vwp_bind. apply vwp_uiomove_out; [done|lia|rewrite length_replicate; lia| |].
  - intros m' Hd Hb. apply IH; [|lia|lia|].
    + cbn. eapply ublock_adv; [exact Hu|lia|done|]. by eapply delivered_u32.
    + eapply (sends_step (replicate (Z.to_nat amt) 0) _ amt); [rewrite length_replicate; lia|exact HS|by rewrite length_replicate|]. intros k. apply ub_add.
  - intros m' Hnu Hs. apply vwp_ret. rewrite ub_0. apply (sends_fault _ _ _ _ _ _ _ HS); [by rewrite length_replicate, Z2Nat.id by lia|]. by rewrite take_ge in Hs by (by rewrite length_replicate).
Qed.
Lemma vwp_zeros a base len off rm (Q : res unit * uio -> view -> Prop) : ublock seg sp base len off rm (a_space a) (a_mem a) -> 512 <= rm ->
  sends (replicate 512 0) (fun k => ub UIO_READ sp (base + k) (len - k) (off + k) (rm - k)) a Q base -> vwp (uiomovezeros 512 (ub UIO_READ sp base len off rm)) a Q.
Proof.
  intros Hu Hr HQ. unfold uiomovezeros. apply vwp_bind, vwp_kassert; [done|]. apply vwp_zeros_loop; [done|lia| |done]. vm_compute. congruence.
Qed.
End Logic.
End SfsUio.
