(* ===== verification/SfsIo.v ===== *)
(** * Reading and writing files

    The contents of a file as bytes, and sfs_io: a read delivers the bytes of the
    file up to its end, a write replaces bytes of this file and of no other. *)

From S2P Require Import Prelude Kern Bswap Bitmap Array Interfaces Copyinout Uio Vfs Lhd LhdSpec Sfs SfsSpec SfsMap SfsBmap SfsTrunc SfsUio.
Open Scope Z_scope.

Module SfsIo.
Import Vfs Lhd LhdSpec Sfs SfsSpec SfsMap SfsBmap SfsUio Copyinout Uio.

(** ** The bytes of a file *)

Definition fbyte t i (p : Z) : Z := default 0 (fblock t i (Z.to_nat (p / 512)) !! Z.to_nat (p mod 512)).
Definition frange t i (off : Z) (n : nat) : list Z := fbyte t i <$> seqZ off (Z.of_nat n).

Lemma frange_length t i off n : length (frange t i off n) = n.
Proof. unfold frange. rewrite length_fmap, length_seqZ. lia. Qed.
Lemma frange_app t i off n1 n2 : frange t i off (n1 + n2) = frange t i off n1 ++ frange t i (off + Z.of_nat n1) n2.
Proof. unfold frange. rewrite <- fmap_app, <- seqZ_app by lia. by rewrite Nat2Z.inj_add. Qed.
Lemma block_pos k s : 0 <= s < 512 -> (512 * Z.of_nat k + s) / 512 = Z.of_nat k /\ (512 * Z.of_nat k + s) mod 512 = s.
Proof. intros Hs. Z.to_euclidean_division_equations. lia. Qed.
(** A part of a block *)
Lemma frange_block t i k s n : length (fblock t i k) = 512%nat -> (s + n <= 512)%nat -> frange t i (512 * Z.of_nat k + Z.of_nat s) n = take n (drop s (fblock t i k)).
Proof.
  intros Hl Hs. apply list_eq. intros j. destruct (decide (j < n)%nat) as [Hj|Hj].
  - rewrite lookup_take_lt, lookup_drop by done. unfold frange. rewrite list_lookup_fmap. assert (seqZ (512 * Z.of_nat k + Z.of_nat s) (Z.of_nat n) !! j = Some (512 * Z.of_nat k + Z.of_nat (s + j))) as -> by (apply lookup_seqZ; lia).
    cbn [fmap option_fmap option_map]. unfold fbyte. destruct (block_pos k (Z.of_nat (s + j))) as [-> ->]; [lia|]. rewrite !Nat2Z.id. destruct (lookup_lt_is_Some_2 (fblock t i k) (s + j)) as [b ->]; [lia|]. done.
  - rewrite !lookup_ge_None_2; [done| |rewrite frange_length; lia]. rewrite length_take. lia.
Qed.

(** ** Writing one block of a file *)

Lemma nz_inj l k k' b : NoDup (nz l) -> l !! k = Some b -> l !! k' = Some b -> b <> 0 -> k = k'.
Proof.
  revert k k'. induction l as [|c l IH]; intros k k' Hn H1 H2 Hb; [done|]. unfold nz in Hn. rewrite filter_cons in Hn. fold nz in Hn.
  assert (forall j, l !! j = Some b -> c <> b) as Hne. { intros j Hj ->. rewrite decide_True in Hn by done. apply NoDup_cons in Hn as [Hn _]. apply Hn, elem_nz. split; [by eapply list_elem_of_lookup_2|done]. }
  destruct k as [|k], k' as [|k']; cbn in H1, H2; simplify_eq; [done|by destruct (Hne _ H2)|by destruct (Hne _ H1)|]. f_equal. apply IH; try done. case_decide; [|done]. by apply NoDup_cons in Hn as [_ Hn].
Qed.
Lemma blockno_inj ns x t I E ino i k k' : space_ok ns x t I E -> I !! ino = Some i -> blockno t i k = blockno t i k' -> blockno t i k <> 0 -> k = k'.
Proof.
  intros Ho Hi He Hne. pose proof (file_nodup _ _ _ _ _ _ _ Ho Hi) as Hn. apply NoDup_app in Hn as (_ & _ & Hn). apply NoDup_cons in Hn as [_ Hn]. rewrite file_blocks_split in Hn. apply NoDup_app in Hn as (_ & _ & Hn).
  unfold blockno in *. destruct ((sfi_direct i ++ iwords t i) !! k) as [b|] eqn:E1; [|done]. destruct ((sfi_direct i ++ iwords t i) !! k') as [b'|] eqn:E2; cbn in *; [|congruence]. subst b'. by eapply nz_inj.
Qed.
Lemma blockno_not_indirect ns x t I E ino i k : space_ok ns x t I E -> I !! ino = Some i -> blockno t i k <> 0 -> sfi_indirect i = 0 \/ blockno t i k <> sfi_indirect i.
Proof.
  intros Ho Hi Hb. destruct (decide (sfi_indirect i = 0)); [by left|]. right. intros He. destruct (indirect_apart _ _ _ _ _ _ _ Ho Hi n) as (_ & Hn & _). apply Hn. rewrite <- He. apply elem_nz. split; [|done].
  unfold blockno in *. destruct ((sfi_direct i ++ iwords t i) !! k) eqn:Ek; [|done]. by eapply list_elem_of_lookup_2.
Qed.
Section Write.
Context (ns : Z) (x : sfs_fs) (t : Z -> list Z) (I : gmap Z sfs_dinode) (E : list Z) (ino : Z) (i : sfs_dinode) (k : nat) (data : list Z).
Context (Ho : space_ok ns x t I E) (Hi : I !! ino = Some i) (Hb : blockno t i k <> 0).
Abbreviation t' := (upd t (blockno t i k) data).

Lemma own_write_words : iwords t' i = iwords t i.
Proof. apply iwords_upd. eapply blockno_not_indirect; [exact Ho|done|done]. Qed.
Lemma own_write_blocks k' : blockno t' i k' = blockno t i k'.
Proof. unfold blockno at 1. by rewrite own_write_words. Qed.
Lemma own_write k' : fblock t' i k' = if decide (k' = k) then data else fblock t i k'.
Proof.
  unfold fblock. rewrite own_write_blocks. case_decide as Hk.
  - subst k'. rewrite (proj2 (Z.eqb_neq _ _) Hb). unfold upd. by rewrite Z.eqb_refl.
  - destruct (Z.eqb_spec (blockno t i k') 0) as [|Hb']; [done|]. unfold upd. destruct (Z.eqb_spec (blockno t i k') (blockno t i k)) as [He|]; [|done]. destruct Hk. by eapply blockno_inj.
Qed.
Lemma own_write_others ino2 i2 : I !! ino2 = Some i2 -> ino2 <> ino -> forall k', fblock t' i2 k' = fblock t i2 k'.
Proof. intros H2 Hne k'. eapply (other_files ns x t I E ino); try done. right. right. by apply blockno_in. Qed.
Lemma own_write_inodes ino2 i2 : I !! ino2 = Some i2 -> t' ino2 = t ino2.
Proof.
  intros H2. unfold upd. destruct (Z.eqb_spec ino2 (blockno t i k)) as [He|]; [|done]. exfalso. destruct (decide (ino2 = ino)) as [->|Hne].
  - pose proof (file_nodup _ _ _ _ _ _ _ Ho Hi) as Hn. apply NoDup_app in Hn as (_ & _ & Hn). apply NoDup_cons in Hn as [Hn _]. apply Hn. rewrite He. by apply blockno_in.
  - destruct (other_files ns x t I E ino i (blockno t i k) [] ino2 i2 0 Ho Hi) as [_ Hn]; [right; right; by apply blockno_in|done|done|]. congruence.
Qed.
Lemma own_write_space : space_ok ns x t' I E.
Proof.
  rewrite <- (insert_id I ino i Hi). eapply reown; [exact Ho|done| | |].
  - apply owned_upd. eapply own_apart; [exact Ho|done|]. right. right. by apply blockno_in.
  - by rewrite !file_blocks_split, own_write_words.
  - by eapply so_inodes.
Qed.
End Write.

Lemma fblock_length ns x t I E ino i k : (forall n, 0 <= n < ns -> length (t n) = 512%nat) -> space_ok ns x t I E -> I !! ino = Some i -> length (fblock t i k) = 512%nat.
Proof.
  intros Hlen Ho Hi. unfold fblock. destruct (Z.eqb_spec (blockno t i k) 0) as [|Hb]; [done|]. apply Hlen. pose proof (so_nb _ _ _ _ _ Ho).
  pose proof (own_range ns _ _ _ _ _ _ (blockno t i k) Ho Hi ltac:(right; by apply blockno_in)). lia.
Qed.

Lemma file_block off : 0 <= off < 2 ^ 41 -> u32 (Z.quot off SFS_BLOCKSIZE) = Z.of_nat (Z.to_nat (off / 512)).
Proof. change SFS_BLOCKSIZE with 512. intros Ho'. assert (0 <= off / 512 < 2 ^ 32) by (Z.to_euclidean_division_equations; lia). rewrite Z.quot_div_nonneg, u32_id by width_lia. by rewrite Z2Nat.id by lia. Qed.

Section Read.
Context {D : Type} `{W : DiskSpec D}.
Context (f dev ns : Z).
Abbreviation vwp := (vwp (D := D) f dev ns).
(** The vnode, its inode and its volume *)
Context (v : Z) (n : vnode) (x : sfs_fs) (t : Z -> list Z) (y : sfs_vnode) (I : gmap Z sfs_dinode) (E : list Z).
Context (Hv : v <> 0) (Hnf : vn_fs n = f) (Ho : space_ok ns x t I E) (Hy : I !! sv_ino y = Some (sv_i y)) (Hd : sfs_device x = dev).
Context (seg : uio_seg) (sp : Z).
Abbreviation ub := (ub seg UIO_READ sp).
Abbreviation ublock := (ublock seg sp).
Abbreviation sends := (sends seg).
Definition ready (a : view) : Prop := a_nodes a !! v = Some n /\ 0 < a_depth a.
Abbreviation st a := (evolve a v x t y).
Abbreviation step base len off rm := (fun k => ub (base + k) (len - k) (off + k) (rm - k)).

Lemma unusable_more m b n1 n2 : ~ usable seg m b n1 -> 0 <= n1 <= n2 -> ~ usable seg m b n2.
Proof using . intros Hnu Hn Hok. apply Hnu. rewrite <- (Z.add_0_r b). by eapply usable_sub; [exact Hok|lia..|]. Qed.
(** sfs_partialio, reading *)
Lemma vwp_partial_read a base len off rm cnt (Q : res unit * uio -> view -> Prop) : ready a -> ublock base len off rm (a_space a) (a_mem a) -> 0 <= cnt <= rm -> 0 <= off < MAXSIZE -> off mod 512 + cnt <= 512 ->
  sends (frange t (sv_i y) off (Z.to_nat cnt)) (step base len off rm) (st a) Q base -> vwp (sfs_partialio v (ub base len off rm) (off mod 512) cnt) (st a) Q.
Proof using Hv Hnf Ho Hy Hd.
  intros [Hn Hdep] Hu Hc Hoff Hblk HS. apply vwp_sectors. intros Hlen. cbn in Hlen. unfold sfs_partialio. cbn [uio_dir SfsUio.ub uio_offset]. rewrite bool_decide_false by done.
  apply vwp_bind, vwp_kassert; [by apply Z.leb_le|]. apply vwp_bind, vwp_must_hold; [done|]. apply vwp_bind, (vwp_fs_of f dev ns a v n Hv Hn Hnf). rewrite file_block by (unfold MAXSIZE in Hoff; lia). set (k := Z.to_nat (off / 512)).
  pose proof (Z.mod_pos_bound off 512 ltac:(lia)) as Hmod. assert (k < 143)%nat as Hk by (unfold MAXSIZE in Hoff; unfold k; Z.to_euclidean_division_equations; lia).
  pose proof (fblock_length ns x t I E (sv_ino y) (sv_i y) k Hlen Ho Hy) as Hfl.
  assert (frange t (sv_i y) off (Z.to_nat cnt) = take (Z.to_nat cnt) (drop (Z.to_nat (off mod 512)) (fblock t (sv_i y) k))) as Hfr.
  { rewrite <- frange_block by (done || lia). f_equal. unfold k. Z.to_euclidean_division_equations; lia. }
  apply vwp_bind, (vwp_bmap f dev ns a v n Hv Hn Hnf Hdep E k _ false x t y I Ho Hy Hd). intros r x' t' y' I' _ [Hpost Hsame]. destruct (Hsame eq_refl) as (-> & -> & ->). destruct r as [b|e]; [|naive_solver lia].
  destruct Hpost as (-> & _ & _). apply vwp_bind.
  assert (vwp (if blockno t (sv_i y) k =? 0 then kassert (negb false) ;; mret (Done (replicate (Z.to_nat SFS_BLOCKSIZE) 0)) else sfs_readblock f (blockno t (sv_i y) k)) (st a) (fun r a' => r = Done (fblock t (sv_i y) k) /\ a' = st a)) as Hr.
  { unfold fblock. destruct (Z.eqb_spec (blockno t (sv_i y) k) 0) as [|Hb]; [apply vwp_bind, vwp_kassert; [done|]; by apply vwp_ret|]. pose proof (so_nb _ _ _ _ _ Ho).
    pose proof (own_range ns _ _ _ _ _ _ (blockno t (sv_i y) k) Ho Hy ltac:(right; by apply blockno_in)). apply vwp_readblock; [done|done|lia|done]. }
  eapply vwp_mono; [exact Hr|]. intros r a' [-> ->]. apply vwp_bind. rewrite Hfr in HS. rewrite <- (app_nil_r (take _ _)) in HS. apply vwp_uiomove_out; [done|done|rewrite length_drop; lia| |].
  - intros m' Hm Hb. apply vwp_ret. assert (length (take (Z.to_nat cnt) (drop (Z.to_nat (off mod 512)) (fblock t (sv_i y) k))) = Z.to_nat cnt) as Hl by (rewrite length_take, length_drop; lia).
    rewrite app_nil_r in HS. destruct HS as [HQ _]. rewrite Hl, Z2Nat.id in HQ by lia. apply HQ; [|done]. unfold delivered in *. by rewrite take_take, Nat.min_id.
  - intros m' Hnu Hs. apply vwp_ret. rewrite ub_0. apply (sends_fault seg _ _ _ _ _ _ _ HS); [|done]. rewrite length_take, length_drop. by replace (Z.of_nat _) with cnt by lia.
Qed.

(** sfs_blockio, reading *)
Lemma vwp_block_read a base len off rm (Q : res unit * uio -> view -> Prop) : ready a -> ublock base len off rm (a_space a) (a_mem a) -> 512 <= rm -> 0 <= off < MAXSIZE -> off mod 512 = 0 ->
  sends (frange t (sv_i y) off 512) (step base len off rm) (st a) Q base -> vwp (sfs_blockio v (ub base len off rm)) (st a) Q.
Proof using Hv Hnf Ho Hy Hd.
  intros [Hn Hdep] Hu Hrm Hoff Hmod HS. apply vwp_sectors. intros Hlen. cbn in Hlen. unfold sfs_blockio. cbn [uio_dir SfsUio.ub uio_offset uio_resid]. rewrite bool_decide_false by done.
  apply vwp_bind, (vwp_fs_of f dev ns a v n Hv Hn Hnf). rewrite file_block by (unfold MAXSIZE in Hoff; lia). set (k := Z.to_nat (off / 512)). assert (k < 143)%nat as Hk by (unfold MAXSIZE in Hoff; unfold k; Z.to_euclidean_division_equations; lia).
  pose proof (fblock_length ns x t I E (sv_ino y) (sv_i y) k Hlen Ho Hy) as Hfl.
  assert (frange t (sv_i y) off 512 = fblock t (sv_i y) k) as Hfr. { rewrite <- (take_ge (fblock t (sv_i y) k) 512), <- (drop_0 (fblock t (sv_i y) k)) by lia. rewrite <- frange_block by (done || lia). f_equal. unfold k. Z.to_euclidean_division_equations; lia. }
  apply vwp_bind, (vwp_bmap f dev ns a v n Hv Hn Hnf Hdep E k _ false x t y I Ho Hy Hd). intros r x' t' y' I' _ [Hpost Hsame]. destruct (Hsame eq_refl) as (-> & -> & ->). destruct r as [b|e]; [|naive_solver lia].
  destruct Hpost as (-> & _ & _). rewrite Hfr in HS. unfold fblock in HS. destruct (Z.eqb_spec (blockno t (sv_i y) k) 0) as [|Hb].
  { apply vwp_bind, vwp_kassert; [done|]. by apply vwp_zeros. }
  apply vwp_bind, vwp_kassert; [by apply Z.geb_le|]. pose proof (so_nb _ _ _ _ _ Ho) as Hnb. pose proof (own_range ns _ _ _ _ _ _ (blockno t (sv_i y) k) Ho Hy ltac:(right; by apply blockno_in)) as Hbr.
  change SFS_BLOCKSIZE with 512. set (blk := blockno t (sv_i y) k) in *. rewrite (u32_id (blk * 512)) by width_lia. pose proof Hu as [U1 U2 U3 [U4 U5] U6]. assert (length (t blk) = 512%nat) as Hlb by (apply Hlen; lia).
  apply vwp_bind. change (set_pos (blk * 512) 512 (SfsUio.ub seg UIO_READ sp base len off rm)) with (ub base len (blk * 512) 512). apply vwp_rw_out; [done|done|lia| | |].
  - split; [done|done|lia|unfold is_s64; lia|]. destruct (decide _); [|done]. destruct U6 as (U6 & U7 & U8). unfold is_u32 in *. split; [done|]. split; [unfold is_u32; lia|]. intros i Hi. apply U8. lia.
  - intros m' Hm Hb2. apply vwp_ret. destruct HS as [HQ _]. rewrite Hlb in HQ. cbn [set_pos SfsUio.ub uio_iov uio_offset uio_resid uio_segflg uio_dir uio_space]. unfold set_pos. cbn [SfsUio.ub uio_iov uio_segflg uio_dir uio_space].
    replace (blk * 512 + 512 - blk * 512 + off) with (off + 512) by lia. rewrite u32_id by (unfold is_u32 in *; lia). replace (0 - 512 + rm) with (rm - 512) by lia. apply HQ; [|done]. done.
  - intros m' Hnu Hs. apply vwp_ret. unfold set_pos. cbn [SfsUio.ub uio_iov uio_offset uio_resid uio_segflg uio_dir uio_space]. replace (blk * 512 - blk * 512 + off) with off by lia. rewrite u32_id by (unfold is_u32 in *; lia). replace (512 - 512 + rm) with rm by lia.
    fold (ub base len off rm). rewrite ub_0. rewrite <- (app_nil_r (t blk)) in HS. apply (sends_fault seg _ _ _ _ _ _ _ HS); [by rewrite Hlb|done].
Qed.

(** The whole blocks *)
Lemma vwp_blocks_read j a base len off rm (Q : res unit * uio -> view -> Prop) : ready a -> ublock base len off rm (a_space a) (a_mem a) -> 512 * Z.of_nat j <= rm -> 0 <= off -> off + 512 * Z.of_nat j <= MAXSIZE -> off mod 512 = 0 ->
  sends (frange t (sv_i y) off (512 * j)) (step base len off rm) (st a) Q base -> vwp (blockio_loop j v (ub base len off rm)) (st a) Q.
Proof using Hv Hnf Ho Hy Hd.
  revert a base len off rm. induction j as [|j IH]; intros a base len off rm Hr Hu Hrm Hoff Hmax Hmod HS; cbn [blockio_loop].
  { apply vwp_ret. rewrite ub_0. apply (sends_nil seg (step base len off rm) (st a) Q base); [apply Hu|done]. }
  replace (512 * S j)%nat with (512 + 512 * j)%nat in HS by lia. rewrite frange_app in HS. apply vwp_bind. apply vwp_block_read; [done|done|lia|lia|done|]. split; rewrite ?frange_length.
  - intros m' Hm Hb. apply (IH (with_mem m' a)); [done| |lia|lia|lia|by rewrite Z.add_mod, Hmod by lia|].
    + eapply ublock_adv; [exact Hu|lia|done|]. by eapply delivered_u32.
    + change (st (with_mem m' a)) with (with_mem m' (st a)). eapply (sends_step seg (frange t (sv_i y) off 512) _ (Z.of_nat 512)); [by rewrite frange_length|exact HS|by rewrite frange_length|]. intros k. apply ub_add.
  - intros m' cnt Hc Hnu Hs. apply vwp_ret. destruct HS as [_ HE]. apply HE; [rewrite length_app, frange_length; lia|rewrite length_app, !frange_length; eapply unusable_more; [exact Hnu|lia]|]. by apply spilled_weak; [rewrite frange_length|].
Qed.

Lemma rem_mod off : 0 <= off < 2 ^ 63 -> u32 (Z.rem off SFS_BLOCKSIZE) = off mod 512.
Proof using . change SFS_BLOCKSIZE with 512. intros Hoff. rewrite Z.rem_mod_nonneg by lia. pose proof (Z.mod_pos_bound off 512 ltac:(lia)). apply u32_id. width_lia. Qed.
(** The bytes before the first whole block *)
Definition head_part (off rm : Z) : Z := if off mod 512 =? 0 then 0 else Z.min (512 - off mod 512) rm.
Lemma head_bounds off rm : 0 <= rm -> 0 <= head_part off rm <= rm /\ (rm - head_part off rm = 0 \/ (off + head_part off rm) mod 512 = 0).
Proof using . intros Hrm. unfold head_part. destruct (Z.eqb_spec (off mod 512) 0); [split; [lia|]; right; by rewrite Z.add_0_r|]. Z.to_euclidean_division_equations. lia. Qed.

Lemma vwp_first_read a base len off rm (Q : res unit * uio -> view -> Prop) : ready a -> ublock base len off rm (a_space a) (a_mem a) -> 0 <= off < MAXSIZE ->
  sends (frange t (sv_i y) off (Z.to_nat (head_part off rm))) (step base len off rm) (st a) Q base -> vwp (io_first v (ub base len off rm)) (st a) Q.
Proof using Hv Hnf Ho Hy Hd.
  intros Hr Hu Hoff HS. pose proof (ub_res _ _ _ _ _ _ _ _ Hu) as Hrm. unfold io_first, head_part in *. cbn [SfsUio.ub uio_offset uio_resid]. unfold MAXSIZE in Hoff. rewrite rem_mod by lia. destruct (Z.eqb_spec (off mod 512) 0) as [Hz|Hz].
  - apply vwp_ret. rewrite ub_0. apply (sends_nil seg (step base len off rm) (st a) Q base); [apply Hu|done].
  - change SFS_BLOCKSIZE with 512. assert ((if 512 - off mod 512 >? rm then rm else 512 - off mod 512) = Z.min (512 - off mod 512) rm) as -> by (destruct (Z.gtb_spec (512 - off mod 512) rm); lia).
    pose proof (Z.mod_pos_bound off 512 ltac:(lia)). apply vwp_partial_read; [done|done|lia|done|lia|done].
Qed.
Lemma vwp_rest_read a base len off rm (Q : res unit * uio -> view -> Prop) : ready a -> ublock base len off rm (a_space a) (a_mem a) -> 0 <= off -> off + rm <= MAXSIZE -> rm = 0 \/ off mod 512 = 0 ->
  sends (frange t (sv_i y) off (Z.to_nat rm)) (step base len off rm) (st a) Q base -> vwp (io_rest v (ub base len off rm)) (st a) Q.
Proof using Hv Hnf Ho Hy Hd.
  intros Hr Hu Hoff Hmax Hmod HS. pose proof (ub_res _ _ _ _ _ _ _ _ Hu) as Hrm. unfold io_rest. cbn [SfsUio.ub uio_offset uio_resid]. destruct (Z.eqb_spec rm 0) as [->|Hne].
  { apply vwp_ret. rewrite ub_0. apply (sends_nil seg (step base len off 0) (st a) Q base); [apply Hu|done]. }
  destruct Hmod as [|Hmod]; [lia|]. change SFS_BLOCKSIZE with 512. apply vwp_bind, vwp_kassert; [rewrite Z.rem_mod_nonneg by lia; by apply Z.eqb_eq|]. set (j := Z.to_nat (rm / 512)). pose proof (Z.mod_pos_bound rm 512 ltac:(lia)) as Hm.
  assert (rm = 512 * Z.of_nat j + rm mod 512) as Hsp by (unfold j; Z.to_euclidean_division_equations; lia). assert (Z.to_nat rm = 512 * j + Z.to_nat (rm mod 512))%nat as Hsn by lia. rewrite Hsn, frange_app in HS. fold (ub base len off rm).
  apply vwp_bind, vwp_blocks_read; [done|done|lia|lia|lia|done|]. split; rewrite ?frange_length.
  - intros m' Hd' Hb. set (c := Z.of_nat (512 * j)) in *. assert (c = 512 * Z.of_nat j) as Hc by lia. cbn [SfsUio.ub uio_resid]. replace (rm - c) with (rm mod 512) by lia.
    apply vwp_bind, vwp_kassert; [apply Z.ltb_lt; lia|]. pose proof (sends_step seg _ _ c _ (step (base + c) (len - c) (off + c) (rm mod 512)) _ _ _ m' ltac:(by rewrite frange_length) HS ltac:(by rewrite frange_length)) as HS'.
    assert (ublock (base + c) (len - c) (off + c) (rm mod 512) (a_space a) m') as Hu'. { replace (rm mod 512) with (rm - c) by lia. eapply ublock_adv; [exact Hu|lia|done|]. by eapply delivered_u32. }
    destruct (Z.gtb_spec (rm mod 512) 0) as [Hgt|Hle].
    + assert ((off + c) mod 512 = 0) as Hz by (rewrite Hc; Z.to_euclidean_division_equations; lia). fold (ub (base + c) (len - c) (off + c) (rm mod 512)). rewrite <- Hz at 1. apply (vwp_partial_read (with_mem m' a)); [done|done|lia|unfold MAXSIZE in *; lia|lia|].
      apply HS'. intros k. rewrite <- ub_add. f_equal. lia.
    + apply vwp_ret. fold (ub (base + c) (len - c) (off + c) (rm mod 512)). rewrite ub_0. assert (rm mod 512 = 0) as Hz by lia. apply (sends_nil seg (step (base + c) (len - c) (off + c) (rm mod 512)) (with_mem m' (st a)) Q (base + c)); [done|].
      rewrite Hz in HS' at 1. apply HS'. intros k. rewrite <- ub_add. f_equal. lia.
  - intros m' cnt Hc Hnu Hs. apply vwp_ret. destruct HS as [_ HE]. apply HE; [rewrite length_app, frange_length; lia|rewrite length_app, !frange_length; eapply unusable_more; [exact Hnu|lia]|]. by apply spilled_weak; [rewrite frange_length|].
Qed.

(** How many of [rm] bytes from [off] on are in the file *)
Definition readable (off rm : Z) : Z := if off <? sfi_size (sv_i y) then Z.min rm (sfi_size (sv_i y) - off) else 0.

(** sfs_io, reading *)
Lemma vwp_io_read a base len off rm (Q : res unit * uio -> view -> Prop) : ready a -> ublock base len off rm (a_space a) (a_mem a) -> 0 <= off ->
  sends (frange t (sv_i y) off (Z.to_nat (readable off rm))) (step base len off rm) (st a) Q base -> vwp (sfs_io v (ub base len off rm)) (st a) Q.
Proof using Hv Hnf Ho Hy Hd.
  intros Hr Hu Hoff HS. pose proof Hu as [U1 U2 U3 [U4 U5] U6]. pose proof (di_size _ (so_inodes _ _ _ _ _ Ho _ _ Hy)) as Hsz. unfold MAXSIZE in Hsz. unfold sfs_io, readable in *. cbn [SfsUio.ub uio_resid uio_offset uio_dir].
  apply vwp_bind, vwp_sv; [done|]. rewrite bool_decide_true by done. cbn [andb negb]. rewrite Z.geb_leb. set (size := sfi_size (sv_i y)) in *. destruct (Z.leb_spec size off) as [Hge|Hlt].
  { apply vwp_ret. destruct (Z.ltb_spec off size); [lia|]. fold (ub base len off rm). rewrite ub_0. apply (sends_nil seg (step base len off rm) (st a) Q base); [done|exact HS]. }
  destruct (Z.ltb_spec off size); [|lia]. set (extra := if off + rm >? size then u32 (off + rm - size) else 0). assert (extra = Z.max 0 (off + rm - size)) as Hex.
  { unfold extra. destruct (Z.gtb_spec (off + rm) size); [rewrite u32_id by (unfold is_u32 in *; lia)|]; lia. }
  apply vwp_bind, vwp_kassert. { destruct (Z.eqb_spec extra 0); [done|]. apply Z.gtb_lt. lia. }
  set (rm' := rm - extra). replace (Z.min rm (size - off)) with rm' in HS by lia. change (set_pos off rm' (SfsUio.ub seg UIO_READ sp base len off rm)) with (ub base len off rm').
  assert (ublock base len off rm' (a_space a) (a_mem a)) as Hu'. { split; [done|done|lia|unfold is_s64 in *; lia|]. destruct (decide _); [|done]. destruct U6 as (U6 & U7 & U8). split; [done|]. split; [unfold is_u32 in *; lia|]. intros i Hi. apply U8. lia. }
  assert (forall r k m, 0 <= k <= rm' -> Q (r, step base len off rm k) (with_mem m (st a)) -> vwp (io_out v rm true extra (r, step base len off rm' k)) (with_mem m (st a)) Q) as HK.
  { intros r k m Hk HQ. unfold io_out. apply vwp_bind, (vwp_sv f dev ns (with_mem m a) v Hv x t y). cbn [negb]. rewrite andb_false_r. cbn [andb]. apply vwp_bind, vwp_ret, vwp_ret.
    unfold set_pos. cbn [SfsUio.ub uio_iov uio_offset uio_resid uio_segflg uio_dir uio_space]. rewrite u32_id by (unfold is_u32 in *; lia). by replace (rm' - k + extra) with (rm - k) by lia. }
  destruct (head_bounds off rm' ltac:(lia)) as [Hh1 Hh2]. set (h := head_part off rm') in *. replace (Z.to_nat rm') with (Z.to_nat h + Z.to_nat (rm' - h))%nat in HS by lia. rewrite frange_app in HS.
  apply vwp_bind, vwp_first_read; [done|done|unfold MAXSIZE; lia|]. fold h. split; rewrite ?frange_length, ?Z2Nat.id by lia.
  - intros m' Hm Hb. apply vwp_bind. apply (vwp_rest_read (with_mem m' a)); [done| |lia|unfold MAXSIZE; lia|done|].
    + eapply ublock_adv; [exact Hu'|lia|done|]. by eapply delivered_u32.
    + eapply (sends_step seg _ _ h (step base len off rm)) in HS; [|rewrite frange_length; lia|rewrite frange_length; exact Hm|intros k; reflexivity]. rewrite Z2Nat.id in HS by lia. destruct HS as [HQ HE]. rewrite frange_length in HQ, HE. split; rewrite ?frange_length.
      * intros m2 Hd2 Hb2. rewrite ub_add. apply (HK _ _ m2); [lia|]. by apply HQ.
      * intros m2 cnt Hc Hnu2 Hs2. rewrite ub_add. apply (HK _ _ m2); [lia|]. by apply HE.
  - intros m' cnt Hc Hnu Hs. apply vwp_bind, vwp_ret. apply (HK _ _ m'); [lia|]. destruct HS as [_ HE]. apply HE; [rewrite length_app, frange_length; lia|rewrite length_app, !frange_length; eapply unusable_more; [exact Hnu|lia]|]. by apply spilled_weak; [rewrite frange_length|].
Qed.
End Read.
End SfsIo.

(** * Writing files

    sfs_io on a write: some of the bytes of the uio replace bytes of the file,
    nothing else in any file changes, and the file grows to their end. *)


Module SfsWrite.
Import Vfs Lhd LhdSpec Sfs SfsSpec SfsMap SfsBmap SfsUio SfsIo Copyinout Uio.

Section Wrote.
Context (ns : Z) (E : list Z).
(** The bytes [bs] were written at [off] of the file of [y]. *)
Record wrote x t y I (off : Z) (bs : list Z) x' t' y' I' : Prop := {
  wr_step : fs_step x x'; wr_ino : sv_ino y' = sv_ino y; wr_ops : sv_ops y' = sv_ops y; wr_dirty : y' = y \/ sv_dirty y' = true;
  wr_I : I' = <[sv_ino y := sv_i y']> I; wr_meta : same_meta (sv_i y) (sv_i y');
  wr_self : forall p, 0 <= p -> fbyte t' (sv_i y') p = if decide (off <= p < off + Z.of_nat (length bs)) then default 0 (bs !! Z.to_nat (p - off)) else fbyte t (sv_i y) p;
  wr_others : forall ino i, I !! ino = Some i -> ino <> sv_ino y -> forall k, fblock t' i k = fblock t i k;
  wr_inodes : forall ino i, I !! ino = Some i -> t' ino = t ino;
  wr_max : bs = [] \/ off + Z.of_nat (length bs) <= MAXSIZE;
  wr_space : space_ok ns x' t' I' E; wr_sys : fixed x t t'
}.
Lemma grown_wrote x t y I off x' t' y' I' : I !! sv_ino y = Some (sv_i y) -> grown ns E x t y I x' t' y' I' -> wrote x t y I off [] x' t' y' I'.
Proof.
  intros Hy [A1 A2 A3 A4 A5 A6 A7 A8 A9]. split; try done; [| |by left].
  - intros p Hp. rewrite decide_False by (cbn; lia). unfold fbyte. rewrite (A7 (sv_ino y) (sv_i y) (sv_i y')); [done|done|]. rewrite A5. apply lookup_insert_eq.
  - intros ino i Hi Hne k. apply (A7 ino); [done|]. rewrite A5, lookup_insert_ne by done. done.
Qed.
Lemma wrote_app x t y I off bs x1 t1 y1 I1 bs2 x2 t2 y2 I2 off2 : 0 <= off -> I !! sv_ino y = Some (sv_i y) -> off2 = off + Z.of_nat (length bs) -> wrote x t y I off bs x1 t1 y1 I1 -> wrote x1 t1 y1 I1 off2 bs2 x2 t2 y2 I2 -> wrote x t y I off (bs ++ bs2) x2 t2 y2 I2.
Proof.
  intros Hoff Hy -> [A1 A2 A3 A4 A5 [M1 M2 M3 M4] A7 A8 A9 AM A10 AF] [B1 B2 B3 B4 B5 [N1 N2 N3 N4] B7 B8 B9 BM B10 BF].
  assert (forall ino i, I !! ino = Some i -> ino <> sv_ino y -> I1 !! ino = Some i) as HI. { intros ino i Hi Hne. by rewrite A5, lookup_insert_ne. }
  assert (I1 !! sv_ino y = Some (sv_i y1)) as Hy1 by (rewrite A5; apply lookup_insert_eq).
  split; [by etrans|congruence|congruence| | | | | | | |done|by eapply fixed_trans; [apply (fst_sb _ _ A1)|..]].
  - destruct B4 as [->|]; auto.
  - rewrite B5, A5, A2. by rewrite insert_insert_eq.
  - split; congruence.
  - intros p Hp. rewrite B7, A7, length_app by done. rewrite Nat2Z.inj_add. repeat case_decide; try lia; try done.
    + rewrite lookup_app_r by lia. do 2 f_equal. lia.
    + by rewrite lookup_app_l by lia.
  - intros ino i Hi Hne k. rewrite A2 in B8. rewrite (B8 ino i) by (done || by apply HI). by apply (A8 ino).
  - intros ino i Hi. destruct (decide (ino = sv_ino y)) as [->|Hne]; [rewrite (B9 _ _ Hy1); by eapply A9|]. rewrite (B9 ino i) by (by apply HI). by eapply A9.
  - destruct BM as [->|BM]; [by rewrite app_nil_r|]. right. rewrite length_app, Nat2Z.inj_add. lia.
Qed.
(** A block of the file is written after sfs_bmap gave it. *)
Lemma block_wrote x t y I k s bs data : space_ok ns x t I E -> I !! sv_ino y = Some (sv_i y) -> blockno t (sv_i y) k <> 0 -> length (fblock t (sv_i y) k) = 512%nat ->
  data = take s (fblock t (sv_i y) k) ++ bs ++ drop (s + length bs) (fblock t (sv_i y) k) -> (s + length bs <= 512)%nat -> (k < 143)%nat ->
  wrote x t y I (512 * Z.of_nat k + Z.of_nat s) bs x (upd t (blockno t (sv_i y) k) data) y I.
Proof.
  intros Ho Hy Hb Hl Hdata Hs Hk143. split; try done; [by left|by rewrite insert_id| | | |right; unfold MAXSIZE; lia|by eapply own_write_space|eapply fixed_own; [exact Ho|]; apply elem_of_app; right; apply in_owned; exists (sv_ino y), (sv_i y); split; [done|right; by apply blockno_in]].
  - intros p Hp. unfold fbyte. rewrite (own_write ns x t I E (sv_ino y)) by done. destruct (decide (Z.to_nat (p / 512) = k)) as [Hk|Hk].
    + assert (exists j, (j < 512)%nat /\ p = 512 * Z.of_nat k + Z.of_nat j) as (j & Hj & ->) by (exists (Z.to_nat (p mod 512)); Z.to_euclidean_division_equations; lia).
      destruct (block_pos k (Z.of_nat j) ltac:(lia)) as [-> ->]. rewrite !Nat2Z.id. subst data. assert (length (take s (fblock t (sv_i y) k)) = s) as Hts by (rewrite length_take; lia). case_decide as Hin.
      * rewrite lookup_app_r, lookup_app_l, Hts by lia. do 2 f_equal. lia.
      * destruct (decide (j < s)%nat); [by rewrite lookup_app_l, lookup_take_lt by lia|]. rewrite !lookup_app_r, lookup_drop, Hts by lia. do 2 f_equal. lia.
    + rewrite decide_False; [done|]. intros Hin. apply Hk. Z.to_euclidean_division_equations. lia.
  - intros ino i Hi Hne k'. by eapply own_write_others.
  - intros ino i Hi. by eapply own_write_inodes.
Qed.
End Wrote.

Section Io.
Context {D : Type} `{W : DiskSpec D}.
Context (f dev ns : Z).
Abbreviation vwp := (vwp (D := D) f dev ns).
Abbreviation space_ok := (space_ok ns).
Context (a : view) (v : Z) (n : vnode) (E : list Z).
Context (Hv : v <> 0) (Hn : a_nodes a !! v = Some n) (Hnf : vn_fs n = f) (Hdep : 0 < a_depth a).
Abbreviation st := (evolve a v).
Context (seg : uio_seg) (sp : Z).
Abbreviation ub := (ub seg UIO_WRITE sp).
Abbreviation ublock base len off rm := (ublock seg sp base len off rm (a_space a) (a_mem a)).
Abbreviation step base len off rm := (fun k => ub (base + k) (len - k) (off + k) (rm - k)).

(** Why a write of [cnt] bytes fails: memory that cannot be read, no block left, the largest size *)
Definition cause (cnt : nat) (base off : Z) (e : errno) x' t' I' : Prop :=
  e = EFAULT /\ ~ usable seg (a_mem a) base (Z.of_nat cnt) \/ e = ENOSPC /\ full x' t' I' E \/ e = EFBIG /\ MAXSIZE < off + Z.of_nat cnt.
Lemma cause_sub cnt cnt' k base off e x' t' I' : cause cnt' (base + Z.of_nat k) (off + Z.of_nat k) e x' t' I' -> (k + cnt' <= cnt)%nat -> cause cnt base off e x' t' I'.
Proof using .
  intros [[-> Hu]|[?|[-> Hm]]] Hle; [left|right; by left|right; right]; (split; [done|]); [|lia]. intros Hok. apply Hu. by eapply usable_sub; [exact Hok|lia..|].
Qed.
Lemma cause_more cnt cnt' base off e x' t' I' : cause cnt' base off e x' t' I' -> (cnt' <= cnt)%nat -> cause cnt base off e x' t' I'.
Proof using . intros Hc Hle. apply (cause_sub cnt cnt' 0); [by rewrite !Z.add_0_r|lia]. Qed.
(** The outcome of writing [cnt] bytes from the uio at [off] *)
Definition writes (cnt : nat) (base off : Z) (u : Z -> uio) x t y I (Q : res unit * uio -> view -> Prop) : Prop :=
  forall r k bs x' t' y' I', (k <= cnt)%nat -> load_bytes (a_mem a) base k = Some bs -> wrote ns E x t y I off bs x' t' y' I' ->
    match r with Done _ => k = cnt | Err e => cause cnt base off e x' t' I' end -> is_u32 (base + Z.of_nat k) -> Q (r, u (Z.of_nat k)) (st x' t' y').

Lemma writes_none e cnt base off u x t y I Q x' t' y' I' : I !! sv_ino y = Some (sv_i y) -> is_u32 base -> grown ns E x t y I x' t' y' I' -> cause cnt base off e x' t' I' -> writes cnt base off u x t y I Q -> Q (Err e, u 0) (st x' t' y').
Proof using . intros Hy Hb Hg He HW. apply (HW (Err e) 0%nat [] x' t' y' I'); [lia|done| |done|by rewrite Z.add_0_r]. by apply grown_wrote. Qed.
Lemma writes_nil base off u x t y I Q : space_ok x t I E -> I !! sv_ino y = Some (sv_i y) -> is_u32 base -> writes 0 base off u x t y I Q -> Q (Done tt, u 0) (st x t y).
Proof using . intros Ho Hy Hb HW. apply (HW (Done tt) 0%nat [] x t y I); [lia|done| |done|by rewrite Z.add_0_r]. apply grown_wrote; [done|]. by apply grown_refl. Qed.
(** After [k] bytes were written *)
Lemma writes_step cnt k base off u u' x t y I Q bs x' t' y' I' : 0 <= off -> I !! sv_ino y = Some (sv_i y) -> (k <= cnt)%nat -> load_bytes (a_mem a) base k = Some bs -> wrote ns E x t y I off bs x' t' y' I' -> (forall z, u' z = u (Z.of_nat k + z)) ->
  writes cnt base off u x t y I Q -> writes (cnt - k) (base + Z.of_nat k) (off + Z.of_nat k) u' x' t' y' I' Q.
Proof using .
  intros Hoff Hy Hk Hl Hw Hu HW r k2 bs2 x2 t2 y2 I2 Hk2 Hl2 Hw2 Hr Hb2. rewrite Hu, <- Nat2Z.inj_add. apply (HW r (k + k2)%nat (bs ++ bs2) x2 t2 y2 I2); [lia|by eapply load_app| | |].
  - eapply wrote_app; [done|done| |done|done]. apply load_bytes_Some in Hl as [-> _]. done.
  - destruct r; [lia|]. eapply cause_sub; [exact Hr|lia].
  - by rewrite Nat2Z.inj_add, Z.add_assoc.
Qed.
(** sfs_bmap fails *)
Lemma bmap_cause k cnt base off e t y I x' t' I' : e = EFBIG /\ (143 <= k)%nat \/ e = ENOSPC /\ true = true /\ blockno t (sv_i y) k = 0 /\ full x' t' I' E /\ (length (owned t' I') <= S (length (owned t I)))%nat -> ((143 <= k)%nat -> MAXSIZE < off + Z.of_nat cnt) -> cause cnt base off e x' t' I'.
Proof using . intros [[-> Hk]|(-> & _ & _ & Hf & _)] Hm; right; [right|left]; auto. Qed.
Lemma wub_0 base len off rm : ub base len off rm = ub (base + 0) (len - 0) (off + 0) (rm - 0).
Proof using . by rewrite !Z.add_0_r, !Z.sub_0_r. Qed.

(** sfs_partialio, writing *)
Lemma vwp_partial_write x t y I base len off rm cnt (Q : res unit * uio -> view -> Prop) : space_ok x t I E -> I !! sv_ino y = Some (sv_i y) -> sfs_device x = dev -> ublock base len off rm -> 0 <= cnt <= rm -> 0 <= off < 2 ^ 41 -> off mod 512 + cnt <= 512 -> 0 < cnt \/ off mod 512 <> 0 ->
  writes (Z.to_nat cnt) base off (step base len off rm) x t y I Q -> vwp (sfs_partialio v (ub base len off rm) (off mod 512) cnt) (st x t y) Q.
Proof using Hv Hn Hnf Hdep.
  intros Ho Hy Hd Hu Hc Hoff Hblk Hnz HW. unfold sfs_partialio. cbn [uio_dir SfsUio.ub uio_offset]. rewrite bool_decide_true by done.
  apply vwp_bind, vwp_kassert; [by apply Z.leb_le|]. apply vwp_bind, vwp_must_hold; [done|]. apply vwp_bind, (vwp_fs_of f dev ns a v n Hv Hn Hnf). rewrite file_block by done. set (k := Z.to_nat (off / 512)). pose proof (Z.mod_pos_bound off 512 ltac:(lia)) as Hmod.
  apply vwp_bind, (vwp_bmap f dev ns a v n Hv Hn Hnf Hdep E k _ true x t y I Ho Hy Hd). intros r x1 t1 y1 I1 Hg [Hpost _]. fold (ub base len off rm). destruct r as [b|e].
  2:{ apply vwp_ret. rewrite wub_0. apply (writes_none e (Z.to_nat cnt) base off (step base len off rm) x t y I Q x1 t1 y1 I1); [exact Hy|apply Hu|exact Hg| |exact HW]. eapply bmap_cause; [exact Hpost|]. unfold k, MAXSIZE. Z.to_euclidean_division_equations; lia. }
  destruct Hpost as (-> & Hb & Hk). specialize (Hb eq_refl). pose proof (gr_space _ _ _ _ _ _ _ _ _ _ Hg) as Ho1. assert (I1 !! sv_ino y1 = Some (sv_i y1)) as Hy1 by (rewrite (gr_I _ _ _ _ _ _ _ _ _ _ Hg), (gr_ino _ _ _ _ _ _ _ _ _ _ Hg); apply lookup_insert_eq).
  assert (sfs_device x1 = dev) as Hd1 by (by rewrite (fst_device _ _ (gr_step _ _ _ _ _ _ _ _ _ _ Hg))).
  apply vwp_sectors. intros Hlen. cbn in Hlen. pose proof (fblock_length ns x1 t1 I1 E (sv_ino y1) (sv_i y1) k Hlen Ho1 Hy1) as Hfl. pose proof (so_nb _ _ _ _ _ Ho1) as Hnb. pose proof (own_range ns _ _ _ _ _ _ (blockno t1 (sv_i y1) k) Ho1 Hy1 ltac:(right; by apply blockno_in)) as Hbr.
  rewrite (proj2 (Z.eqb_neq _ _) Hb). apply vwp_bind, vwp_readblock; [done|done|lia|]. cbn [evolve a_sect with_svs with_sect]. assert (t1 (blockno t1 (sv_i y1) k) = fblock t1 (sv_i y1) k) as Hfb by (unfold fblock; by rewrite (proj2 (Z.eqb_neq _ _) Hb)). rewrite Hfb.
  apply vwp_bind, vwp_uiomove_in; [done|lia| |].
  2:{ intros Hnu. apply vwp_ret. rewrite wub_0. apply (writes_none EFAULT (Z.to_nat cnt) base off (step base len off rm) x t y I Q x1 t1 y1 I1); [exact Hy|apply Hu|exact Hg|left; by rewrite Z2Nat.id by lia|exact HW]. }
  intros bs Hbs Hbu. assert (length bs = Z.to_nat cnt) as Hbl by (apply load_bytes_Some in Hbs; apply Hbs). apply vwp_bind, vwp_writeblock; [done|done|lia|rewrite !length_app, length_take, length_drop; lia|]. apply vwp_ret.
  replace cnt with (Z.of_nat (Z.to_nat cnt)) at 1 2 3 4 by lia. eapply (HW (Done tt) (Z.to_nat cnt) bs x1 _ y1 I1); [lia|done| |done|by rewrite Z2Nat.id by lia].
  change bs with ([] ++ bs). eapply wrote_app; [lia|exact Hy| |by apply grown_wrote; [|exact Hg]|]; [done|]. cbn [length]. rewrite Z.add_0_r.
  replace off with (512 * Z.of_nat k + Z.of_nat (Z.to_nat (off mod 512))) at 1 by (unfold k; Z.to_euclidean_division_equations; lia). eapply block_wrote; try done. lia.
Qed.

(** A view of the file after a step of the write *)
Record held x t y I : Prop := { hd_space : space_ok x t I E; hd_inode : I !! sv_ino y = Some (sv_i y); hd_dev : sfs_device x = dev }.
Lemma wrote_held x t y I off bs x' t' y' I' : held x t y I -> wrote ns E x t y I off bs x' t' y' I' -> held x' t' y' I'.
Proof using .
  intros [H1 H2 H3] Hw. split; [by eapply wr_space| |by rewrite (fst_device _ _ (wr_step _ _ _ _ _ _ _ _ _ _ _ _ Hw))].
  rewrite (wr_I _ _ _ _ _ _ _ _ _ _ _ _ Hw), (wr_ino _ _ _ _ _ _ _ _ _ _ _ _ Hw). apply lookup_insert_eq.
Qed.

(** sfs_blockio, writing *)
Lemma vwp_block_write x t y I base len off rm (Q : res unit * uio -> view -> Prop) : held x t y I -> ublock base len off rm -> 512 <= rm -> 0 <= off < 2 ^ 41 -> off mod 512 = 0 ->
  writes 512 base off (step base len off rm) x t y I Q -> vwp (sfs_blockio v (ub base len off rm)) (st x t y) Q.
Proof using Hv Hn Hnf Hdep.
  intros [Ho Hy Hd] Hu Hrm Hoff Hmod HW. unfold sfs_blockio. cbn [uio_dir SfsUio.ub uio_offset uio_resid]. rewrite bool_decide_true by done.
  apply vwp_bind, (vwp_fs_of f dev ns a v n Hv Hn Hnf). rewrite file_block by done. set (k := Z.to_nat (off / 512)).
  apply vwp_bind, (vwp_bmap f dev ns a v n Hv Hn Hnf Hdep E k _ true x t y I Ho Hy Hd). intros r x1 t1 y1 I1 Hg [Hpost _]. fold (ub base len off rm). destruct r as [b|e].
  2:{ apply vwp_ret. rewrite wub_0. apply (writes_none e 512 base off (step base len off rm) x t y I Q x1 t1 y1 I1); [exact Hy|apply Hu|exact Hg| |exact HW]. eapply bmap_cause; [exact Hpost|]. unfold k, MAXSIZE. Z.to_euclidean_division_equations; lia. }
  destruct Hpost as (-> & Hb & Hk). specialize (Hb eq_refl). pose proof (wrote_held _ _ _ _ 0 _ _ _ _ _ (Build_held _ _ _ _ Ho Hy Hd) (grown_wrote ns E _ _ _ _ 0 _ _ _ _ Hy Hg)) as [Ho1 Hy1 Hd1].
  apply vwp_sectors. intros Hlen. cbn in Hlen. pose proof (fblock_length ns x1 t1 I1 E (sv_ino y1) (sv_i y1) k Hlen Ho1 Hy1) as Hfl. pose proof (so_nb _ _ _ _ _ Ho1) as Hnb. pose proof (own_range ns _ _ _ _ _ _ (blockno t1 (sv_i y1) k) Ho1 Hy1 ltac:(right; by apply blockno_in)) as Hbr.
  rewrite (proj2 (Z.eqb_neq _ _) Hb). apply vwp_bind, vwp_kassert; [by apply Z.geb_le|]. change SFS_BLOCKSIZE with 512. set (blk := blockno t1 (sv_i y1) k) in *. rewrite (u32_id (blk * 512)) by width_lia. pose proof Hu as [U1 U2 U3 [U4 U5] U6].
  apply vwp_bind. change (set_pos (blk * 512) 512 (ub base len off rm)) with (ub base len (blk * 512) 512). apply vwp_rw_in; [done|done|lia| | |].
  - split; [done|done|lia|unfold is_s64; lia|]. destruct (decide _); [|done]. destruct U6 as (U6 & U7 & U8). unfold is_u32 in *. split; [done|]. split; [unfold is_u32; lia|]. intros i Hi. apply U8. lia.
  - intros bs Hbs Hbu. assert (length bs = 512%nat) as Hbl by (apply load_bytes_Some in Hbs; apply Hbs). apply vwp_ret. unfold set_pos. cbn [SfsUio.ub uio_iov uio_offset uio_resid uio_segflg uio_dir uio_space].
    replace (blk * 512 + 512 - blk * 512 + off) with (off + 512) by lia. rewrite u32_id by (unfold is_u32 in *; lia). replace (0 - 512 + rm) with (rm - 512) by lia.
    eapply (HW (Done tt) 512%nat bs x1 _ y1 I1); [lia|done| |done|done]. change bs with ([] ++ bs). eapply wrote_app; [lia|exact Hy| |by apply grown_wrote; [|exact Hg]|]; [done|]. cbn [length]. rewrite Z.add_0_r.
    replace off with (512 * Z.of_nat k + Z.of_nat 0) at 1 by (unfold k; Z.to_euclidean_division_equations; lia). apply (block_wrote ns E x1 t1 y1 I1 k 0 bs bs); try done; [|rewrite Hbl; lia]. cbn [take app]. rewrite drop_ge, app_nil_r by lia. done.
  - intros Hnu. apply vwp_ret. unfold set_pos. cbn [SfsUio.ub uio_iov uio_offset uio_resid uio_segflg uio_dir uio_space]. replace (blk * 512 - blk * 512 + off) with off by lia. rewrite u32_id by (unfold is_u32 in *; lia). replace (512 - 512 + rm) with rm by lia.
    fold (ub base len off rm). rewrite wub_0. apply (writes_none EFAULT 512 base off (step base len off rm) x t y I Q x1 t1 y1 I1); [exact Hy|apply Hu|exact Hg|by left|exact HW].
Qed.
Lemma wub_add base len off rm i k : ub (base + i + k) (len - i - k) (off + i + k) (rm - i - k) = ub (base + (i + k)) (len - (i + k)) (off + (i + k)) (rm - (i + k)).
Proof using . f_equal; lia. Qed.
Lemma wublock_adv base len off rm k : ublock base len off rm -> 0 <= k <= rm -> is_u32 (base + k) -> ublock (base + k) (len - k) (off + k) (rm - k).
Proof using . intros Hu Hk Hb. by eapply ublock_adv. Qed.

Lemma vwp_blocks_write j x t y I base len off rm (Q : res unit * uio -> view -> Prop) : held x t y I -> ublock base len off rm -> 512 * Z.of_nat j <= rm -> 0 <= off -> off + 512 * Z.of_nat j <= 2 ^ 41 -> off mod 512 = 0 ->
  writes (512 * j) base off (step base len off rm) x t y I Q -> vwp (blockio_loop j v (ub base len off rm)) (st x t y) Q.
Proof using Hv Hn Hnf Hdep.
  revert x t y I base len off rm. induction j as [|j IH]; intros x t y I base len off rm Hh Hu Hrm Hoff Hmax Hmod HW; cbn [blockio_loop].
  { apply vwp_ret. rewrite wub_0. apply (writes_nil base off (step base len off rm) x t y I Q); [apply Hh|apply Hh|apply Hu|done]. }
  apply vwp_bind. eapply vwp_block_write; [exact Hh|done|lia|lia|done|]. intros r k bs x1 t1 y1 I1 Hk Hbs Hw Hr Hb. destruct r as [[]|e].
  - subst k. apply (IH x1 t1 y1 I1); [by eapply wrote_held|by apply wublock_adv; [|lia|]|lia|lia|lia|by rewrite Z.add_mod, Hmod by lia|].
    replace (512 * j)%nat with (512 * S j - 512)%nat by lia. eapply writes_step; [done|apply Hh|lia|exact Hbs|exact Hw| |exact HW]. intros z. apply wub_add.
  - apply vwp_ret. eapply (HW (Err e)); try done; [lia|]. eapply cause_more; [exact Hr|lia].
Qed.

Lemma vwp_first_write x t y I base len off rm (Q : res unit * uio -> view -> Prop) : held x t y I -> ublock base len off rm -> 0 <= off < 2 ^ 41 ->
  writes (Z.to_nat (head_part off rm)) base off (step base len off rm) x t y I Q -> vwp (io_first v (ub base len off rm)) (st x t y) Q.
Proof using Hv Hn Hnf Hdep.
  intros Hh Hu Hoff HW. pose proof (ub_res _ _ _ _ _ _ _ _ Hu) as Hrm. unfold io_first, head_part in *. cbn [SfsUio.ub uio_offset uio_resid]. rewrite rem_mod by lia. destruct (Z.eqb_spec (off mod 512) 0) as [Hz|Hz].
  - apply vwp_ret. fold (ub base len off rm). rewrite wub_0. apply (writes_nil base off (step base len off rm) x t y I Q); [apply Hh|apply Hh|apply Hu|done].
  - change SFS_BLOCKSIZE with 512. assert ((if 512 - off mod 512 >? rm then rm else 512 - off mod 512) = Z.min (512 - off mod 512) rm) as -> by (destruct (Z.gtb_spec (512 - off mod 512) rm); lia).
    pose proof (Z.mod_pos_bound off 512 ltac:(lia)). destruct Hh. apply (vwp_partial_write x t y I); [done|done|done|done|lia|done|lia|by right|done].
Qed.
Lemma vwp_rest_write x t y I base len off rm (Q : res unit * uio -> view -> Prop) : held x t y I -> ublock base len off rm -> 0 <= off -> off + rm <= 2 ^ 41 -> rm = 0 \/ off mod 512 = 0 ->
  writes (Z.to_nat rm) base off (step base len off rm) x t y I Q -> vwp (io_rest v (ub base len off rm)) (st x t y) Q.
Proof using Hv Hn Hnf Hdep.
  intros Hh Hu Hoff Hmax Hmod HW. pose proof (ub_res _ _ _ _ _ _ _ _ Hu) as Hrm. unfold io_rest. cbn [SfsUio.ub uio_offset uio_resid]. destruct (Z.eqb_spec rm 0) as [->|Hne].
  { apply vwp_ret. fold (ub base len off 0). rewrite wub_0. apply (writes_nil base off (step base len off 0) x t y I Q); [apply Hh|apply Hh|apply Hu|done]. }
  destruct Hmod as [|Hmod]; [lia|]. change SFS_BLOCKSIZE with 512. apply vwp_bind, vwp_kassert; [rewrite Z.rem_mod_nonneg by lia; by apply Z.eqb_eq|]. set (j := Z.to_nat (rm / 512)). pose proof (Z.mod_pos_bound rm 512 ltac:(lia)) as Hm.
  assert (rm = 512 * Z.of_nat j + rm mod 512) as Hsp by (unfold j; Z.to_euclidean_division_equations; lia). fold (ub base len off rm).
  apply vwp_bind. apply (vwp_blocks_write j x t y I); [done|done|lia|lia|lia|done|]. intros r k bs x1 t1 y1 I1 Hk Hbs Hw Hr Hb. destruct r as [[]|e].
  2:{ apply vwp_ret. eapply (HW (Err e)); try done; [lia|]. eapply cause_more; [exact Hr|lia]. }
  subst k. set (c := Z.of_nat (512 * j)) in *. assert (c = 512 * Z.of_nat j) as Hc by lia. cbn [SfsUio.ub uio_resid]. apply vwp_bind, vwp_kassert; [apply Z.ltb_lt; lia|].
  pose proof (writes_step (Z.to_nat rm) (512 * j) base off (step base len off rm) (step (base + c) (len - c) (off + c) (rm - c)) x t y I Q bs x1 t1 y1 I1 Hoff (hd_inode _ _ _ _ Hh) ltac:(lia) Hbs Hw ltac:(intros z; apply wub_add) HW) as HW'.
  pose proof (wrote_held _ _ _ _ _ _ _ _ _ _ Hh Hw) as Hh1. assert (ublock (base + c) (len - c) (off + c) (rm - c)) as Hu' by (by apply wublock_adv; [|lia|]). fold (ub (base + c) (len - c) (off + c) (rm - c)). destruct (Z.gtb_spec (rm - c) 0) as [Hgt|Hle].
  - assert ((off + c) mod 512 = 0) as Hz by (rewrite Hc; Z.to_euclidean_division_equations; lia). rewrite <- Hz at 1. destruct Hh1. apply (vwp_partial_write x1 t1 y1 I1); [done|done|done|done|lia|lia|lia|left; lia|]. by replace (Z.to_nat (rm - c)) with (Z.to_nat rm - 512 * j)%nat by lia.
  - apply vwp_ret. rewrite wub_0. apply (writes_nil (base + c) (off + c) (step (base + c) (len - c) (off + c) (rm - c)) x1 t1 y1 I1 Q); [apply Hh1|apply Hh1|done|]. by replace (Z.to_nat rm - 512 * j)%nat with 0%nat in HW' by lia.
Qed.

(** The inode when bytes up to [e] were written *)
Definition grow_size (e : Z) (y : sfs_vnode) : sfs_vnode := if sfi_size (sv_i y) <? e then put_i y (set_size e (sv_i y)) else y.
(** sfs_io, writing *)
Lemma vwp_io_write x t y I base len off rm (Q : res unit * uio -> view -> Prop) : held x t y I -> ublock base len off rm -> 0 <= off < 2 ^ 41 -> off + rm <= 2 ^ 41 ->
  (forall r k bs x' t' y' I', (k <= Z.to_nat rm)%nat -> load_bytes (a_mem a) base k = Some bs -> wrote ns E x t y I off bs x' t' y' I' ->
    match r with Done _ => k = Z.to_nat rm | Err e => cause (Z.to_nat rm) base off e x' t' I' end -> Q (r, step base len off rm (Z.of_nat k)) (st x' t' (grow_size (if decide (k = 0%nat) then 0 else off + Z.of_nat k) y'))) ->
  vwp (sfs_io v (ub base len off rm)) (st x t y) Q.
Proof using Hv Hn Hnf Hdep.
  intros Hh Hu Hoff Hmax HQ. pose proof Hu as [U1 U2 U3 [U4 U5] U6]. unfold sfs_io. cbn [SfsUio.ub uio_resid uio_offset uio_dir]. apply vwp_bind, vwp_sv; [done|]. rewrite bool_decide_false by done. cbn [andb].
  apply vwp_bind, vwp_kassert; [done|]. rewrite Z.sub_0_r. change (set_pos off rm (SfsUio.ub seg UIO_WRITE sp base len off rm)) with (ub base len off rm). fold (ub base len off rm).
  assert (writes (Z.to_nat rm) base off (step base len off rm) x t y I (fun p s => vwp (io_out v rm false 0 p) s Q)) as HW.
  { intros r k bs x' t' y' I' Hk Hbs Hw Hr Hb. unfold io_out. apply vwp_bind, vwp_sv; [done|]. cbn [SfsUio.ub uio_resid uio_offset negb andb]. specialize (HQ r k bs x' t' y' I' Hk Hbs Hw Hr). unfold grow_size in HQ.
    assert (length bs = k) as Hbl by (apply load_bytes_Some in Hbs; apply Hbs). pose proof (di_size _ (so_inodes _ _ _ _ _ (wr_space _ _ _ _ _ _ _ _ _ _ _ _ Hw) _ _ (hd_inode _ _ _ _ (wrote_held _ _ _ _ _ _ _ _ _ _ Hh Hw)))) as Hsz.
    assert (set_pos (off + Z.of_nat k) (u32 (rm - Z.of_nat k + 0)) (ub (base + Z.of_nat k) (len - Z.of_nat k) (off + Z.of_nat k) (rm - Z.of_nat k)) = step base len off rm (Z.of_nat k)) as Hpos by (unfold set_pos; rewrite u32_id by (unfold is_u32 in *; lia); by rewrite Z.add_0_r).
    rewrite andb_true_r. destruct (decide (k = 0%nat)) as [Hk0|Hk0].
    - rewrite (proj2 (Z.eqb_eq (rm - Z.of_nat k) rm)) by lia. cbn [negb andb]. apply vwp_bind, vwp_ret, vwp_ret. fold (step base len off rm (Z.of_nat k)). rewrite Hpos. destruct (Z.ltb_spec (sfi_size (sv_i y')) 0); [lia|done].
    - rewrite (proj2 (Z.eqb_neq (rm - Z.of_nat k) rm)) by lia. cbn [negb andb]. rewrite Z.gtb_ltb. destruct (Z.ltb_spec (sfi_size (sv_i y')) (off + Z.of_nat k)).
      + destruct (wr_max _ _ _ _ _ _ _ _ _ _ _ _ Hw) as [->|Hmx]; [done|]. unfold MAXSIZE in Hmx. rewrite (u32_id (off + Z.of_nat k)) by width_lia. apply vwp_bind, vwp_set_inode; [done|]. apply vwp_ret. fold (step base len off rm (Z.of_nat k)). by rewrite Hpos.
      + apply vwp_bind, vwp_ret, vwp_ret. fold (step base len off rm (Z.of_nat k)). by rewrite Hpos. }
  destruct (head_bounds off rm ltac:(lia)) as [Hh1 Hh2]. set (h := head_part off rm) in *. apply vwp_bind. apply (vwp_first_write x t y I); [done|done|lia|]. fold h. intros r k bs x1 t1 y1 I1 Hk Hbs Hw Hr Hb. apply vwp_bind. destruct r as [[]|e].
  2:{ apply vwp_ret. eapply (HW (Err e)); try done; [lia|]. eapply cause_more; [exact Hr|lia]. }
  subst k. rewrite Z2Nat.id in * by lia. apply (vwp_rest_write x1 t1 y1 I1); [by eapply wrote_held|by apply wublock_adv; [|lia|]|lia|lia|done|]. replace (Z.to_nat (rm - h)) with (Z.to_nat rm - Z.to_nat h)%nat by lia.
  replace (base + h) with (base + Z.of_nat (Z.to_nat h)) at 1 by lia. replace (off + h) with (off + Z.of_nat (Z.to_nat h)) at 1 by lia. eapply writes_step; [lia|apply Hh|lia|exact Hbs|exact Hw| |exact HW]. intros z. rewrite Z2Nat.id by lia. apply wub_add.
Qed.
End Io.
End SfsWrite.
