(* ===== verification/SfsDir.v ===== *)
(** * The directory

    The entries of the directory, sfs_metaio on one of them, the search for a
    name, and linking and unlinking. *)

From S2P Require Import Prelude Kern Bswap Bitmap Array Interfaces Copyinout Uio Vfs Lhd LhdSpec Sfs SfsSpec SfsMap SfsBmap SfsTrunc SfsUio SfsIo.
Open Scope Z_scope.

Module SfsDir.
Import Vfs Lhd LhdSpec Sfs SfsSpec SfsMap SfsBmap SfsUio SfsIo SfsWrite.

(** ** Entries *)

Definition dirent t i (k : nat) : sfs_direntry := read_direntry (frange t i (64 * Z.of_nat k) 64).
Definition nentries (i : sfs_dinode) : nat := Z.to_nat (sfi_size i / 64).
(** The name in an entry *)
Definition dname (e : sfs_direntry) : list Z := cstring (take 59 (sfd_name e)).
Definition new_entry (name : list Z) (ino : Z) : sfs_direntry := Direntry ino (name ++ replicate (60 - length name) 0).
Definition no_entry : sfs_direntry := Direntry SFS_NOINO (replicate 60 0).

Lemma direntry_length e : length (sfd_name e) = 60%nat -> length (direntry_bytes e) = 64%nat.
Proof. intros Hl. unfold direntry_bytes. by rewrite length_app, Bswap.be_bytes_length, Hl. Qed.
Lemma direntry_back e : is_u32 (sfd_ino e) -> length (sfd_name e) = 60%nat -> read_direntry (direntry_bytes e) = e.
Proof.
  intros Hi Hl. unfold read_direntry, direntry_bytes, word_at. rewrite drop_0, take_app_length' by (by rewrite Bswap.be_bytes_length). rewrite drop_app_length' by (by rewrite Bswap.be_bytes_length).
  rewrite be_word, take_ge by (done || lia). by destruct e.
Qed.
Lemma cstring_app name rest : 0 ∉ name -> cstring (name ++ 0 :: rest) = name.
Proof. induction name as [|c name IH]; intros H0; [done|]. cbn [app cstring]. apply not_elem_of_cons in H0 as [Hc H0]. rewrite (proj2 (Z.eqb_neq c 0)) by done. by rewrite IH. Qed.
Lemma dname_new name ino : 0 ∉ name -> (length name <= 59)%nat -> dname (new_entry name ino) = name.
Proof.
  intros H0 Hl. unfold dname, new_entry. cbn [sfd_name]. destruct (decide (length name = 59%nat)) as [He|].
  - rewrite take_app_length' by done. clear Hl He. induction name as [|c name IH]; [done|]. cbn. apply not_elem_of_cons in H0 as [Hc H0]. rewrite (proj2 (Z.eqb_neq c 0)) by done. by rewrite IH.
  - rewrite take_app_ge, take_replicate by lia. replace ((59 - length name) `min` (60 - length name))%nat with (S (58 - length name)) by lia. cbn [replicate]. by apply cstring_app.
Qed.
Lemma new_entry_length name ino : (length name <= 60)%nat -> length (sfd_name (new_entry name ino)) = 60%nat.
Proof. intros Hl. cbn. rewrite length_app, length_replicate. lia. Qed.

(** ** What a write does to the entries *)

Lemma frange_lookup t i off n j : (j < n)%nat -> frange t i off n !! j = Some (fbyte t i (off + Z.of_nat j)).
Proof. intros Hj. unfold frange. rewrite list_lookup_fmap. assert (seqZ off (Z.of_nat n) !! j = Some (off + Z.of_nat j)) as -> by (apply lookup_seqZ; lia). done. Qed.
Section Entry.
Context (ns : Z) (E : list Z) (x x' : sfs_fs) (t t' : Z -> list Z) (y y' : sfs_vnode) (I I' : gmap Z sfs_dinode) (off : Z) (bs : list Z).
Context (Hw : wrote ns E x t y I off bs x' t' y' I').

Lemma wrote_here : 0 <= off -> frange t' (sv_i y') off (length bs) = bs.
Proof using Hw.
  intros Hoff. apply list_eq. intros j. destruct (decide (j < length bs)%nat) as [Hj|Hj].
  - rewrite frange_lookup by done. rewrite (wr_self _ _ _ _ _ _ _ _ _ _ _ _ Hw), decide_True by lia. replace (Z.to_nat (off + Z.of_nat j - off)) with j by lia. destruct (lookup_lt_is_Some_2 bs j) as [b ->]; [lia|]. done.
  - rewrite !lookup_ge_None_2; [done|lia|]. rewrite frange_length. lia.
Qed.
Lemma wrote_there off2 n : 0 <= off2 -> off2 + Z.of_nat n <= off \/ off + Z.of_nat (length bs) <= off2 -> frange t' (sv_i y') off2 n = frange t (sv_i y) off2 n.
Proof using Hw.
  intros Hoff Hap. apply list_eq. intros j. destruct (decide (j < n)%nat) as [Hj|Hj].
  - rewrite !frange_lookup by done. rewrite (wr_self _ _ _ _ _ _ _ _ _ _ _ _ Hw), decide_False by lia. done.
  - rewrite !lookup_ge_None_2; [done|rewrite frange_length; lia..].
Qed.
Lemma wrote_entry e k : off = 64 * Z.of_nat k -> bs = direntry_bytes e -> is_u32 (sfd_ino e) -> length (sfd_name e) = 60%nat ->
  forall k', dirent t' (sv_i y') k' = if decide (k' = k) then e else dirent t (sv_i y) k'.
Proof using Hw.
  intros Hoff Hbs Hi Hl k'. assert (length bs = 64%nat) as Hlen by (subst bs; by apply direntry_length). unfold dirent. case_decide as Hk.
  - subst k'. rewrite <- Hoff, <- Hlen, wrote_here by lia. subst bs. by apply direntry_back.
  - rewrite wrote_there; [done|lia|]. rewrite Hlen. lia.
Qed.
End Entry.

(** ** Holes *)

Lemma blockno_far t i k ns x I E ino : space_ok ns x t I E -> I !! ino = Some i -> (143 <= k)%nat -> blockno t i k = 0.
Proof. intros Ho Hi Hk. unfold blockno. rewrite lookup_ge_None_2; [done|]. rewrite length_app, iwords_length, (di_direct _ (so_inodes _ _ _ _ _ Ho _ _ Hi)). lia. Qed.
Lemma dirent_hole t i k : blockno t i (Z.to_nat (64 * Z.of_nat k / 512)) = 0 -> sfd_ino (dirent t i k) = 0.
Proof.
  intros Hb. set (j := Z.to_nat (64 * Z.of_nat k / 512)) in *. assert (fblock t i j = zeros) as Hf by (unfold fblock; by rewrite Hb). unfold dirent. set (s := Z.to_nat (64 * Z.of_nat k mod 512)).
  replace (64 * Z.of_nat k) with (512 * Z.of_nat j + Z.of_nat s) by (unfold j, s; Z.to_euclidean_division_equations; lia). assert (s + 64 <= 512)%nat as Hs by (unfold s; Z.to_euclidean_division_equations; lia).
  rewrite frange_block by (rewrite ?Hf; done). rewrite Hf. unfold zeros. rewrite drop_replicate, take_replicate. replace (64 `min` (512 - s))%nat with 64%nat by lia. done.
Qed.

(** ** sfs_metaio *)

Section Meta.
Context {D : Type} `{W : DiskSpec D}.
Context (f dev ns : Z).
Abbreviation vwp := (vwp (D := D) f dev ns).
Context (a : view) (v : Z) (n : vnode) (E : list Z).
Context (Hv : v <> 0) (Hn : a_nodes a !! v = Some n) (Hnf : vn_fs n = f) (Hdep : 0 < a_depth a).
Abbreviation st := (evolve a v).
Abbreviation held := (held dev ns E).

Lemma vwp_meta_read x t y I pos cnt (Q : res (list Z) -> view -> Prop) : held x t y I -> 0 <= pos < MAXSIZE -> pos mod 512 + Z.of_nat cnt <= 512 ->
  Q (Done (frange t (sv_i y) pos cnt)) (st x t y) -> forall data, vwp (sfs_metaio v pos data (Z.of_nat cnt) UIO_READ) (st x t y) Q.
Proof using Hv Hn Hnf Hdep.
  intros [Ho Hy Hd] Hpos Hblk HQ data. apply vwp_sectors. intros Hlen. cbn in Hlen. unfold sfs_metaio. apply vwp_bind, (vwp_fs_of f dev ns a v n Hv Hn Hnf). apply vwp_bind, vwp_must_hold; [done|]. unfold MAXSIZE in Hpos. rewrite file_block, rem_mod by lia.
  set (k := Z.to_nat (pos / 512)). assert (k < 143)%nat as Hk by (unfold k; Z.to_euclidean_division_equations; lia). rewrite bool_decide_false by done. pose proof (Z.mod_pos_bound pos 512 ltac:(lia)) as Hmod.
  pose proof (fblock_length ns x t I E (sv_ino y) (sv_i y) k Hlen Ho Hy) as Hfl.
  assert (frange t (sv_i y) pos cnt = take cnt (drop (Z.to_nat (pos mod 512)) (fblock t (sv_i y) k))) as Hfr by (rewrite <- frange_block by (done || lia); f_equal; unfold k; Z.to_euclidean_division_equations; lia). rewrite Hfr in HQ.
  apply vwp_bind, (vwp_bmap f dev ns a v n Hv Hn Hnf Hdep E k _ false x t y I Ho Hy Hd). intros r x' t' y' I' _ [Hpost Hsame]. destruct (Hsame eq_refl) as (-> & -> & ->). destruct r as [b|e]; [|naive_solver lia]. destruct Hpost as (-> & _ & _).
  rewrite Nat2Z.id. unfold fblock in HQ, Hfl. destruct (Z.eqb_spec (blockno t (sv_i y) k) 0) as [|Hb].
  - apply vwp_bind, vwp_kassert; [done|]. apply vwp_ret. unfold zeros in HQ. rewrite drop_replicate, take_replicate in HQ. by replace (cnt `min` (512 - Z.to_nat (pos mod 512)))%nat with cnt in HQ by lia.
  - pose proof (so_nb _ _ _ _ _ Ho). pose proof (own_range ns _ _ _ _ _ _ (blockno t (sv_i y) k) Ho Hy ltac:(right; by apply blockno_in)). apply vwp_bind, vwp_readblock; [done|done|lia|]. by apply vwp_ret.
Qed.
Lemma vwp_meta_write x t y I pos data (Q : res (list Z) -> view -> Prop) : held x t y I -> 0 <= pos < 2 ^ 32 -> pos mod 512 + Z.of_nat (length data) <= 512 -> (0 < length data)%nat ->
  (forall x' t' y' I', wrote ns E x t y I pos data x' t' y' I' -> Q (Done []) (st x' t' (grow_size (pos + Z.of_nat (length data)) y'))) ->
  (forall e x' t' y' I', grown ns E x t y I x' t' y' I' -> blockno t (sv_i y) (Z.to_nat (pos / 512)) = 0 -> e = ENOSPC /\ full x' t' I' E /\ (length (owned t' I') <= S (length (owned t I)))%nat \/ e = EFBIG /\ MAXSIZE <= pos -> Q (Err e) (st x' t' y')) ->
  vwp (sfs_metaio v pos data (Z.of_nat (length data)) UIO_WRITE) (st x t y) Q.
Proof using Hv Hn Hnf Hdep.
  intros [Ho Hy Hd] Hpos Hblk Hne HQ HE. unfold sfs_metaio. apply vwp_bind, (vwp_fs_of f dev ns a v n Hv Hn Hnf). apply vwp_bind, vwp_must_hold; [done|]. rewrite file_block, rem_mod by lia.
  set (k := Z.to_nat (pos / 512)). rewrite bool_decide_true by done. pose proof (Z.mod_pos_bound pos 512 ltac:(lia)) as Hmod.
  apply vwp_bind, (vwp_bmap f dev ns a v n Hv Hn Hnf Hdep E k _ true x t y I Ho Hy Hd). intros r x1 t1 y1 I1 Hg [Hpost _]. destruct r as [b|e].
  2:{ apply vwp_ret. eapply HE; [exact Hg| |]; destruct Hpost as [[-> Hk]|(-> & _ & Hb & Hf)]; [by eapply blockno_far|done|right|by left]. split; [done|]. unfold k, MAXSIZE in *. Z.to_euclidean_division_equations; lia. }
  destruct Hpost as (-> & Hb & Hk). specialize (Hb eq_refl). pose proof (wrote_held dev ns E _ _ _ _ 0 _ _ _ _ _ (Build_held _ _ _ _ _ _ _ Ho Hy Hd) (grown_wrote ns E _ _ _ _ 0 _ _ _ _ Hy Hg)) as [Ho1 Hy1 Hd1].
  apply vwp_sectors. intros Hlen. cbn in Hlen. pose proof (fblock_length ns x1 t1 I1 E (sv_ino y1) (sv_i y1) k Hlen Ho1 Hy1) as Hfl. pose proof (so_nb _ _ _ _ _ Ho1) as Hnb. pose proof (own_range ns _ _ _ _ _ _ (blockno t1 (sv_i y1) k) Ho1 Hy1 ltac:(right; by apply blockno_in)) as Hbr.
  rewrite (proj2 (Z.eqb_neq _ _) Hb). apply vwp_bind, vwp_readblock; [done|done|lia|]. cbn [evolve a_sect with_svs with_sect]. assert (t1 (blockno t1 (sv_i y1) k) = fblock t1 (sv_i y1) k) as -> by (unfold fblock; by rewrite (proj2 (Z.eqb_neq _ _) Hb)).
  apply vwp_bind, vwp_writeblock; [done|done|lia|rewrite !length_app, length_take, length_drop; lia|].
  set (t2 := upd t1 (blockno t1 (sv_i y1) k) (take (Z.to_nat (pos mod 512)) (fblock t1 (sv_i y1) k) ++ data ++ drop (Z.to_nat (pos mod 512) + length data) (fblock t1 (sv_i y1) k))). assert (wrote ns E x t y I pos data x1 t2 y1 I1) as Hw.
  { change data with ([] ++ data). eapply wrote_app; [lia|exact Hy| |by apply grown_wrote; [|exact Hg]|]; [done|]. cbn [length]. rewrite Z.add_0_r.
    replace pos with (512 * Z.of_nat k + Z.of_nat (Z.to_nat (pos mod 512))) at 1 by (unfold k; Z.to_euclidean_division_equations; lia). eapply block_wrote; try done. lia. }
  specialize (HQ _ _ _ _ Hw). unfold grow_size in HQ. change (with_sect _ (st x1 t1 y1)) with (st x1 t2 y1). apply vwp_bind, vwp_sv; [done|]. rewrite Z.gtb_ltb. destruct (Z.ltb_spec (sfi_size (sv_i y1)) (pos + Z.of_nat (length data))).
  - destruct (wr_max _ _ _ _ _ _ _ _ _ _ _ _ Hw) as [Hnil|Hmx]; [exfalso; rewrite Hnil in Hne; cbn in Hne; lia|]. unfold MAXSIZE in Hmx. rewrite u32_id by width_lia. apply vwp_bind, vwp_set_inode; [done|]. by apply vwp_ret.
  - by apply vwp_bind, vwp_ret, vwp_ret.
Qed.

(** ** The entries of the directory *)

(** A directory: distinct names *)
Record dir_ok t i : Prop := {
  do_type : sfi_type i = SFS_TYPE_DIR; do_size : sfi_size i = 64 * Z.of_nat (nentries i);
  do_names : forall j k, (j < nentries i)%nat -> (k < nentries i)%nat -> sfd_ino (dirent t i j) <> 0 -> sfd_ino (dirent t i k) <> 0 -> dname (dirent t i j) = dname (dirent t i k) -> j = k
}.
Lemma dir_entries x t y I : held x t y I -> dir_ok t (sv_i y) -> (nentries (sv_i y) <= 1144)%nat.
Proof using . intros [Ho Hy Hd] [_ Hs _]. pose proof (di_size _ (so_inodes _ _ _ _ _ Ho _ _ Hy)) as Hsz. unfold MAXSIZE in Hsz. lia. Qed.
Lemma vwp_readdir x t y I k (Q : res sfs_direntry -> view -> Prop) : held x t y I -> dir_ok t (sv_i y) -> (k < nentries (sv_i y))%nat -> Q (Done (dirent t (sv_i y) k)) (st x t y) -> vwp (sfs_readdir v (Z.of_nat k)) (st x t y) Q.
Proof using Hv Hn Hnf Hdep.
  intros Hh Hdir Hk HQ. pose proof (dir_entries _ _ _ _ Hh Hdir). unfold sfs_readdir. change SIZEOF_DIRENTRY with 64. rewrite u32_id by width_lia. rewrite (Z.mul_comm _ 64). apply vwp_bind. change 64 with (Z.of_nat 64) at 2.
  apply (vwp_meta_read x t y I); [done|unfold MAXSIZE; lia|Z.to_euclidean_division_equations; lia|]. by apply vwp_ret.
Qed.
Lemma vwp_dir_nentries x t y I (Q : Z -> view -> Prop) : held x t y I -> dir_ok t (sv_i y) -> Q (Z.of_nat (nentries (sv_i y))) (st x t y) -> vwp (sfs_dir_nentries v) (st x t y) Q.
Proof using Hv.
  intros Hh [Hty Hs _] HQ. unfold sfs_dir_nentries. change SIZEOF_DIRENTRY with 64. apply vwp_bind, vwp_sv; [done|]. apply vwp_bind, vwp_kassert; [by apply Z.eqb_eq|].
  rewrite Hs, Z.mul_comm, Z.mod_mul, Z.div_mul by lia. cbn [Z.eqb negb]. by apply vwp_ret.
Qed.

(** What the search has found among the first [k] entries *)
Definition found_ok t i (name : list Z) (k : nat) (r : option (Z * Z)) : Prop :=
  match r with
  | Some (ino, slot) => exists j, (j < k)%nat /\ slot = Z.of_nat j /\ sfd_ino (dirent t i j) = ino /\ ino <> 0 /\ dname (dirent t i j) = name
  | None => forall j, (j < k)%nat -> sfd_ino (dirent t i j) <> 0 -> dname (dirent t i j) <> name
  end.
Definition empty_ok t i (k : nat) (e : Z) : Prop := e = -1 /\ (forall j, (j < k)%nat -> sfd_ino (dirent t i j) <> 0) \/ exists j, (j < k)%nat /\ e = Z.of_nat j /\ sfd_ino (dirent t i j) = 0.
Lemma found_S t i name k r : found_ok t i name k r -> sfd_ino (dirent t i k) = 0 \/ dname (dirent t i k) <> name -> found_ok t i name (S k) r.
Proof using .
  intros Hf Hk. destruct r as [[ino slot]|]; cbn in *; [destruct Hf as (j & Hj & Hrest); exists j; split; [lia|done]|].
  intros j Hj Hne. destruct (decide (j = k)) as [->|]; [by destruct Hk|]. apply Hf; [lia|done].
Qed.
Lemma empty_S t i k e : empty_ok t i k e -> sfd_ino (dirent t i k) <> 0 -> empty_ok t i (S k) e.
Proof using .
  intros [[-> Hall]|(j & Hj & Hrest)] Hk; [left|right; exists j; split; [lia|done]]. split; [done|]. intros j Hj. destruct (decide (j = k)) as [->|]; [done|]. apply Hall. lia.
Qed.

Lemma vwp_findname_loop x t y I name m k found e (Q : res (option (Z * Z)) * Z -> view -> Prop) : held x t y I -> dir_ok t (sv_i y) -> (m + k = nentries (sv_i y))%nat -> found_ok t (sv_i y) name k found -> empty_ok t (sv_i y) k e ->
  (forall found' e', found_ok t (sv_i y) name (nentries (sv_i y)) found' -> empty_ok t (sv_i y) (nentries (sv_i y)) e' -> Q (Done found', e') (st x t y)) -> vwp (findname_loop m v (Z.of_nat k) name found e) (st x t y) Q.
Proof using Hv Hn Hnf Hdep.
  intros Hh Hdir. revert k found e. induction m as [|m IH]; intros k found e Hm Hf He HQ; cbn [findname_loop].
  { apply vwp_ret, HQ; by replace (nentries (sv_i y)) with k by lia. }
  apply vwp_bind. apply (vwp_readdir x t y I); [done|done|lia|]. replace (Z.of_nat k + 1) with (Z.of_nat (S k)) by lia. change SFS_NOINO with 0. destruct (Z.eqb_spec (sfd_ino (dirent t (sv_i y) k)) 0) as [H0|H0].
  { apply IH; [lia|apply found_S; auto| |done]. right. exists k. split; [lia|done]. }
  fold (dname (dirent t (sv_i y) k)). unfold streq. destruct (bool_decide (dname (dirent t (sv_i y) k) = name)) eqn:Es.
  - apply bool_decide_eq_true in Es. apply vwp_bind, vwp_kassert.
    { destruct found as [[ino slot]|]; [|done]. destruct Hf as (j & Hj & -> & Hi & Hne & Hnm). assert (j = k); [|lia]. eapply (do_names _ _ Hdir); [lia|lia|congruence|done|congruence]. }
    apply IH; [lia| |by apply empty_S|done]. exists k. split; [lia|done].
  - apply IH; [lia| |by apply empty_S|done]. apply found_S; [done|]. right. by apply bool_decide_eq_false in Es.
Qed.

(** The outcome of the search in the whole directory *)
Definition find_ok t i (name : list Z) (r : res (Z * Z)) : Prop :=
  match r with
  | Done p => found_ok t i name (nentries i) (Some p)
  | Err e => e = ENOENT /\ found_ok t i name (nentries i) None
  end.
Lemma vwp_findname x t y I name (Q : res (Z * Z) * Z -> view -> Prop) : held x t y I -> dir_ok t (sv_i y) ->
  (forall r e, find_ok t (sv_i y) name r -> empty_ok t (sv_i y) (nentries (sv_i y)) e -> Q (r, e) (st x t y)) -> vwp (sfs_dir_findname v name) (st x t y) Q.
Proof using Hv Hn Hnf Hdep.
  intros Hh Hdir HQ. unfold sfs_dir_findname. apply vwp_bind, (vwp_dir_nentries x t y I); [done|done|]. rewrite Nat2Z.id. apply vwp_bind, (vwp_findname_loop x t y I name (nentries (sv_i y)) 0); [done|done|lia|cbn; lia|left; split; [done|lia]|].
  intros found e Hf He. apply vwp_ret. apply HQ; [|done]. destruct found as [p|]; [done|]. by split.
Qed.

(** ** Linking and unlinking *)

Lemma vwp_writedir x t y I k e (Q : res unit -> view -> Prop) : held x t y I -> dir_ok t (sv_i y) -> (k <= nentries (sv_i y))%nat -> is_u32 (sfd_ino e) -> length (sfd_name e) = 60%nat ->
  (forall x' t' y' I', wrote ns E x t y I (64 * Z.of_nat k) (direntry_bytes e) x' t' y' I' -> Q (Done tt) (st x' t' (grow_size (64 * Z.of_nat k + 64) y'))) ->
  (forall er x' t' y' I', grown ns E x t y I x' t' y' I' -> sfd_ino (dirent t (sv_i y) k) = 0 -> er = ENOSPC /\ full x' t' I' E /\ (length (owned t' I') <= S (length (owned t I)))%nat \/ er = EFBIG /\ k = 1144%nat -> Q (Err er) (st x' t' y')) -> vwp (sfs_writedir v (Z.of_nat k) e) (st x t y) Q.
Proof using Hv Hn Hnf Hdep.
  intros Hh Hdir Hk Hi Hl HQ HE. pose proof (dir_entries _ _ _ _ Hh Hdir). pose proof (direntry_length e Hl) as Hlen. unfold sfs_writedir. apply vwp_bind, vwp_kassert; [apply Z.geb_le; lia|].
  change SIZEOF_DIRENTRY with 64. rewrite u32_id by width_lia. rewrite (Z.mul_comm _ 64). apply vwp_bind. replace 64 with (Z.of_nat (length (direntry_bytes e))) at 2 by (by rewrite Hlen).
  apply (vwp_meta_write x t y I); [done|lia|rewrite Hlen; Z.to_euclidean_division_equations; lia|rewrite Hlen; lia| |].
  - intros x' t' y' I' Hw. apply vwp_ret. rewrite Hlen. by eapply HQ.
  - intros er x' t' y' I' Hg Hb Her. apply vwp_ret. eapply HE; [exact Hg|by apply dirent_hole|]. destruct Her as [?|[-> Hk2]]; [by left|]. right. split; [done|]. unfold MAXSIZE in *. lia.
Qed.
End Meta.
End SfsDir.

(** * Names

    The directory as a map from names to inodes, and what sfs_dir_findname,
    sfs_dir_link and sfs_dir_unlink do to it. *)


Module SfsNames.
Import Vfs Lhd LhdSpec Sfs SfsSpec SfsMap SfsBmap SfsUio SfsIo SfsWrite SfsDir.

(** ** One entry is written *)

Section Edit.
Context (ns : Z) (E : list Z).
Record edited (k : nat) (e : sfs_direntry) x t y I x' t' y' I' : Prop := {
  ed_step : fs_step x x'; ed_ino : sv_ino y' = sv_ino y; ed_ops : sv_ops y' = sv_ops y; ed_dirty : y' = y \/ sv_dirty y' = true;
  ed_I : I' = <[sv_ino y := sv_i y']> I; ed_type : sfi_type (sv_i y') = sfi_type (sv_i y); ed_link : sfi_linkcount (sv_i y') = sfi_linkcount (sv_i y);
  ed_size : sfi_size (sv_i y') = Z.max (sfi_size (sv_i y)) (64 * Z.of_nat k + 64);
  ed_ents : forall k', dirent t' (sv_i y') k' = if decide (k' = k) then e else dirent t (sv_i y) k';
  ed_others : forall ino i, I !! ino = Some i -> ino <> sv_ino y -> forall k, fblock t' i k = fblock t i k;
  ed_inodes : forall ino i, I !! ino = Some i -> t' ino = t ino;
  ed_space : space_ok ns x' t' I' E; ed_sys : fixed x t t'
}.
Lemma wrote_edited k e x t y I x' t' y' I' : space_ok ns x t I E -> I !! sv_ino y = Some (sv_i y) -> is_u32 (sfd_ino e) -> length (sfd_name e) = 60%nat -> wrote ns E x t y I (64 * Z.of_nat k) (direntry_bytes e) x' t' y' I' ->
  let y2 := grow_size (64 * Z.of_nat k + 64) y' in edited k e x t y I x' t' y2 (<[sv_ino y := sv_i y2]> I).
Proof.
  intros Ho Hy Hi Hl Hw y2. pose proof (direntry_length e Hl) as Hlen. pose proof Hw as [A1 A2 A3 A4 A5 [M1 M2 M3 M4] A7 A8 A9 A10 A11]. pose proof (wrote_entry ns E x x' t t' y y' I I' _ _ Hw e k eq_refl eq_refl Hi Hl) as Hent.
  assert (I' !! sv_ino y = Some (sv_i y')) as Hy' by (rewrite A5; apply lookup_insert_eq). unfold y2, grow_size. destruct (Z.ltb_spec (sfi_size (sv_i y')) (64 * Z.of_nat k + 64)) as [Hlt|Hge].
  - split; try done; cbn; [by right|lia|]. destruct A10 as [Hnil|Hmax]; [by rewrite Hnil in Hlen|]. rewrite Hlen in Hmax. rewrite <- (insert_insert_eq I (sv_ino y) _ (sv_i y')), <- A5. eapply reown; [exact A11|exact Hy'|done|done|].
    destruct (so_inodes _ _ _ _ _ A11 _ _ Hy'). split; try done. cbn. lia.
  - split; try done; [lia|]. by rewrite <- A5.
Qed.
End Edit.

(** ** The map of names *)

(** [N] are the names in the directory. *)
Definition lists (t : Z -> list Z) (i : sfs_dinode) (N : gmap (list Z) Z) : Prop :=
  forall name ino, N !! name = Some ino <-> exists k, (k < nentries i)%nat /\ sfd_ino (dirent t i k) = ino /\ ino <> 0 /\ dname (dirent t i k) = name.

Lemma lists_found t i N name ino slot : lists t i N -> found_ok t i name (nentries i) (Some (ino, slot)) -> N !! name = Some ino.
Proof. intros HN (j & Hj & _ & Hi & H0 & Hn). apply HN. by exists j. Qed.
Lemma lists_none t i N name : lists t i N -> found_ok t i name (nentries i) None -> N !! name = None.
Proof. intros HN Hf. destruct (N !! name) as [ino|] eqn:He; [|done]. apply HN in He as (k & Hk & Hi & H0 & Hn). destruct (Hf k Hk); [congruence|done]. Qed.
Lemma lists_same t t' i i' N : lists t i N -> sfi_size i' = sfi_size i -> (forall k, fblock t' i' k = fblock t i k) -> lists t' i' N.
Proof.
  intros HN Hs Hf name ino. assert (nentries i' = nentries i) as Hn by (unfold nentries; by rewrite Hs). assert (forall k, dirent t' i' k = dirent t i k) as Hd by (intros k; unfold dirent, frange, fbyte; by setoid_rewrite Hf).
  rewrite Hn. setoid_rewrite Hd. apply HN.
Qed.
Lemma dir_same t t' i i' : dir_ok t i -> sfi_size i' = sfi_size i -> sfi_type i' = sfi_type i -> (forall k, fblock t' i' k = fblock t i k) -> dir_ok t' i'.
Proof.
  intros [D1 D2 D3] Hs Hty Hf. assert (nentries i' = nentries i) as Hn by (unfold nentries; by rewrite Hs). assert (forall k, dirent t' i' k = dirent t i k) as Hd by (intros k; unfold dirent, frange, fbyte; by setoid_rewrite Hf).
  split; [congruence|congruence|]. intros j k. rewrite Hn, !Hd. apply D3.
Qed.
(** No more names than entries *)
Lemma lists_size t i N : lists t i N -> (size N <= nentries i)%nat.
Proof.
  intros HN. replace (nentries i) with (length ((fun k => dname (dirent t i k)) <$> seq 0 (nentries i))) by (by rewrite length_fmap, length_seq).
  rewrite <- (size_dom (D := gset (list Z))). unfold size, set_size. apply submseteq_length, NoDup_submseteq; [apply NoDup_elements|]. intros name Hin%elem_of_elements. apply elem_of_dom in Hin as [ino Hi]. apply HN in Hi as (k & Hk & _ & _ & Hn).
  apply list_elem_of_fmap. exists k. split; [done|]. apply elem_of_seq. lia.
Qed.

(** A directory without an empty entry has as many names as entries. *)
Lemma lists_full t i N : lists t i N -> dir_ok t i -> (forall j, (j < nentries i)%nat -> sfd_ino (dirent t i j) <> 0) -> size N = nentries i.
Proof.
  intros HN Hd Hall. apply Nat.le_antisymm; [by eapply lists_size|]. replace (nentries i) with (length ((fun k => dname (dirent t i k)) <$> seq 0 (nentries i))) at 1 by (by rewrite length_fmap, length_seq).
  rewrite <- (size_dom (D := gset (list Z))). unfold size, set_size. apply submseteq_length, NoDup_submseteq.
  - apply NoDup_fmap_2_strong; [|apply NoDup_seq]. intros j k Hj%elem_of_seq Hk%elem_of_seq He. apply (do_names _ _ Hd); [lia|lia|apply Hall; lia|apply Hall; lia|done].
  - intros name (k & -> & Hk%elem_of_seq)%list_elem_of_fmap. apply elem_of_elements, elem_of_dom. exists (sfd_ino (dirent t i k)). apply HN. exists k. split; [lia|]. split; [done|]. split; [apply Hall; lia|done].
Qed.

(** ** An entry is added or cleared *)

Section Names.
Context (ns : Z) (E : list Z) (k : nat) (e : sfs_direntry) (x x' : sfs_fs) (t t' : Z -> list Z) (y y' : sfs_vnode) (I I' : gmap Z sfs_dinode) (N : gmap (list Z) Z).
Context (Hdir : dir_ok t (sv_i y)) (HN : lists t (sv_i y) N) (Hed : edited ns E k e x t y I x' t' y' I').
Abbreviation n := (nentries (sv_i y)).

Lemma edited_nentries : nentries (sv_i y') = (n `max` S k)%nat.
Proof using Hdir Hed. unfold nentries at 1. rewrite (ed_size _ _ _ _ _ _ _ _ _ _ _ _ Hed), (do_size _ _ Hdir). Z.to_euclidean_division_equations; lia. Qed.
Lemma edited_size : sfi_size (sv_i y') = 64 * Z.of_nat (nentries (sv_i y')).
Proof using Hdir Hed. rewrite edited_nentries, (ed_size _ _ _ _ _ _ _ _ _ _ _ _ Hed), (do_size _ _ Hdir). lia. Qed.

Lemma link_names name ino : e = new_entry name ino -> 0 ∉ name -> (length name <= 59)%nat -> ino <> 0 -> (k <= n)%nat -> k = n \/ sfd_ino (dirent t (sv_i y) k) = 0 -> N !! name = None ->
  dir_ok t' (sv_i y') /\ lists t' (sv_i y') (<[name := ino]> N).
Proof using Hdir HN Hed.
  intros Heq Hz Hlen Hino Hk Hfree Hnone. pose proof (ed_ents _ _ _ _ _ _ _ _ _ _ _ _ Hed) as He. rewrite Heq in He. pose proof edited_nentries as Hn. pose proof (dname_new name ino Hz Hlen) as Hdn.
  assert (forall j, (j < n)%nat -> sfd_ino (dirent t (sv_i y) j) <> 0 -> dname (dirent t (sv_i y) j) <> name) as Hno. { intros j Hj H0 Hnm. assert (N !! name = Some (sfd_ino (dirent t (sv_i y) j))); [apply HN; by exists j|congruence]. }
  assert (forall j, (j < nentries (sv_i y'))%nat -> j <> k -> (j < n)%nat) as Hlt by (intros; lia). split.
  - split; [rewrite (ed_type _ _ _ _ _ _ _ _ _ _ _ _ Hed); apply Hdir|apply edited_size|]. intros i j Hi Hj. rewrite !He. destruct (decide (i = k)) as [->|Hik], (decide (j = k)) as [->|Hjk]; intros H1 H2 Hnm; [done| | |].
    + rewrite Hdn in Hnm. destruct (Hno j); auto.
    + rewrite Hdn in Hnm. destruct (Hno i); auto.
    + apply (do_names _ _ Hdir); auto.
  - intros nm i. rewrite lookup_insert_Some. split.
    + intros [[<- <-]|[Hne (j & Hj & Hi & H0 & Hnm)%HN]].
      * exists k. rewrite He, decide_True by done. split; [lia|]. by split_and!.
      * exists j. assert (j <> k) as Hjk by (intros ->; destruct Hfree; [lia|congruence]). rewrite He, decide_False by done. split; [lia|done].
    + intros (j & Hj & Hi & H0 & Hnm). rewrite He in Hi, Hnm. destruct (decide (j = k)) as [->|Hjk]; [cbn in Hi; left; split; congruence|]. right. split; [|apply HN; exists j; auto]. intros ->. by apply (Hno j); [auto|congruence|].
Qed.
Lemma unlink_names name ino : e = no_entry -> (k < n)%nat -> sfd_ino (dirent t (sv_i y) k) = ino -> ino <> 0 -> dname (dirent t (sv_i y) k) = name ->
  dir_ok t' (sv_i y') /\ lists t' (sv_i y') (delete name N).
Proof using Hdir HN Hed.
  intros Heq Hk Hi H0 Hnm. pose proof (ed_ents _ _ _ _ _ _ _ _ _ _ _ _ Hed) as He. rewrite Heq in He. pose proof edited_nentries as Hn. replace (n `max` S k)%nat with n in Hn by lia. split.
  - split; [rewrite (ed_type _ _ _ _ _ _ _ _ _ _ _ _ Hed); apply Hdir|apply edited_size|]. intros i j. rewrite Hn, !He. intros Hi2 Hj2. destruct (decide (i = k)); [done|]. destruct (decide (j = k)); [done|]. by apply (do_names _ _ Hdir).
  - intros nm i. rewrite lookup_delete_Some, Hn. split.
    + intros [Hne (j & Hj & Hji & Hj0 & Hjn)%HN]. exists j. rewrite He, decide_False by (intros ->; congruence). done.
    + intros (j & Hj & Hji & Hj0 & Hjn). rewrite He in Hji, Hjn. destruct (decide (j = k)) as [->|Hjk]; [cbn in Hji; unfold SFS_NOINO in Hji; congruence|]. split; [|apply HN; by exists j]. intros ->. apply Hjk. apply (do_names _ _ Hdir); [exact Hj|exact Hk|congruence..].
Qed.
End Names.

(** ** The operations *)

Section Ops.
Context {D : Type} `{W : DiskSpec D}.
Context (f dev ns : Z).
Abbreviation vwp := (vwp (D := D) f dev ns).
Context (a : view) (v : Z) (n : vnode) (E : list Z).
Context (Hv : v <> 0) (Hn : a_nodes a !! v = Some n) (Hnf : vn_fs n = f) (Hdep : 0 < a_depth a).
Abbreviation st := (evolve a v).
Abbreviation held := (held dev ns E).

(** Why an entry cannot be added *)
Definition no_room (t : Z -> list Z) (I : gmap Z sfs_dinode) (N : gmap (list Z) Z) (er : errno) x' t' I' : Prop :=
  er = ENOSPC /\ full x' t' I' E /\ (length (owned t' I') <= S (length (owned t I)))%nat \/ er = EFBIG /\ size N = 1144%nat.

Lemma vwp_link x t y I N name ino (Q : res Z -> view -> Prop) : held x t y I -> dir_ok t (sv_i y) -> lists t (sv_i y) N -> 0 ∉ name -> is_u32 ino -> ino <> 0 ->
  (is_Some (N !! name) -> Q (Err EEXIST) (st x t y)) -> (N !! name = None -> (59 < length name)%nat -> Q (Err ENAMETOOLONG) (st x t y)) ->
  (N !! name = None -> (length name <= 59)%nat -> forall k x' t' y' I', edited ns E k (new_entry name ino) x t y I x' t' y' I' -> (k < nentries (sv_i y'))%nat -> k = nentries (sv_i y) \/ sfd_ino (dirent t (sv_i y) k) = 0 -> dir_ok t' (sv_i y') -> lists t' (sv_i y') (<[name := ino]> N) -> Q (Done (Z.of_nat k)) (st x' t' y')) ->
  (N !! name = None -> (length name <= 59)%nat -> forall er x' t' y' I', grown ns E x t y I x' t' y' I' -> no_room t I N er x' t' I' -> Q (Err er) (st x' t' y')) -> vwp (sfs_dir_link v name ino) (st x t y) Q.
Proof using Hv Hn Hnf Hdep.
  intros Hh Hdir HN Hz Hu Hi HX HL HQ HE. unfold sfs_dir_link. apply vwp_bind, (vwp_findname f dev ns a v n E Hv Hn Hnf Hdep x t y I name); [done|done|]. intros r e Hfind Hempty. destruct r as [[i s]|er].
  { apply vwp_ret, HX. rewrite (lists_found _ _ _ _ _ _ HN Hfind). by eexists. }
  destruct Hfind as [-> Hf]. pose proof (lists_none _ _ _ _ HN Hf) as Hnone. change SFS_NAMELEN with 60. destruct (Z.gtb_spec (Z.of_nat (length name) + 1) 60) as [Hlong|Hshort]; [apply vwp_ret, HL; [done|lia]|].
  assert (length name <= 59)%nat as Hlen by lia. specialize (HQ Hnone Hlen). specialize (HE Hnone Hlen).
  assert (exists k, (k <= nentries (sv_i y))%nat /\ (k = nentries (sv_i y) /\ size N = nentries (sv_i y) \/ (k < nentries (sv_i y))%nat /\ sfd_ino (dirent t (sv_i y) k) = 0) /\ vwp (if e <? 0 then sfs_dir_nentries v else mret e) (st x t y) (fun r a' => r = Z.of_nat k /\ a' = st x t y)) as (k & Hk & Hfr & Hslot).
  { destruct Hempty as [[-> Hall]|(j & Hj & -> & H0)].
    - exists (nentries (sv_i y)). split; [done|]. split; [left; split; [done|by eapply lists_full]|]. by eapply (vwp_dir_nentries f dev ns a v E Hv x t y I).
    - exists j. split; [lia|]. split; [by right|]. rewrite (proj2 (Z.ltb_ge _ _)) by lia. by apply vwp_ret. }
  assert (k = nentries (sv_i y) \/ sfd_ino (dirent t (sv_i y) k) = 0) as Hfree by naive_solver. apply vwp_bind. eapply vwp_mono; [exact Hslot|]. intros r a' [-> ->]. fold (new_entry name ino). apply vwp_bind. apply (vwp_writedir f dev ns a v n E Hv Hn Hnf Hdep x t y I k); [done|done|done|done|apply new_entry_length; lia| |].
  - intros x' t' y' I' Hw. apply vwp_ret. pose proof Hh as [Ho Hy Hd]. pose proof (wrote_edited ns E k (new_entry name ino) x t y I x' t' y' I' Ho Hy Hu (new_entry_length name ino ltac:(lia)) Hw) as Hed.
    destruct (link_names ns E k _ x x' t t' y _ I _ N Hdir HN Hed name ino eq_refl Hz Hlen Hi Hk Hfree Hnone) as [Hd2 HN2]. eapply HQ; try done. rewrite (edited_nentries ns E k _ x x' t t' y _ I _ Hdir Hed). lia.
  - intros er x' t' y' I' Hg H0 Her. apply vwp_ret. eapply HE; [exact Hg|]. destruct Her as [?|[-> Hk2]]; [by left|]. right. split; [done|]. pose proof (dir_entries dev ns E _ _ _ _ Hh Hdir). destruct Hfr as [[-> ->]|[? _]]; lia.
Qed.
Lemma vwp_unlink x t y I N name ino k (Q : res unit -> view -> Prop) : held x t y I -> dir_ok t (sv_i y) -> lists t (sv_i y) N -> (k < nentries (sv_i y))%nat -> sfd_ino (dirent t (sv_i y) k) = ino -> ino <> 0 -> dname (dirent t (sv_i y) k) = name ->
  (forall x' t' y' I', edited ns E k no_entry x t y I x' t' y' I' -> dir_ok t' (sv_i y') -> lists t' (sv_i y') (delete name N) -> Q (Done tt) (st x' t' y')) -> vwp (sfs_dir_unlink v (Z.of_nat k)) (st x t y) Q.
Proof using Hv Hn Hnf Hdep.
  intros Hh Hdir HN Hk Hi H0 Hnm HQ. unfold sfs_dir_unlink. fold no_entry. apply (vwp_writedir f dev ns a v n E Hv Hn Hnf Hdep x t y I k); [done|done|lia|done|done| |].
  - intros x' t' y' I' Hw. pose proof Hh as [Ho Hy Hd]. pose proof (wrote_edited ns E k no_entry x t y I x' t' y' I' Ho Hy ltac:(done) ltac:(done) Hw) as Hed.
    destruct (unlink_names ns E k _ x x' t t' y _ I _ N Hdir HN Hed name ino eq_refl Hk Hi H0 Hnm) as [Hd2 HN2]. by eapply HQ.
  - intros er x' t' y' I' _ Hz _. congruence.
Qed.
End Ops.
End SfsNames.
