(* ===== verification/SfsCache.v ===== *)
(** * Loaded vnodes

    The table of the vnodes of a volume: which inodes are in memory, what of them
    is on the disk, and the operations that load a vnode and give it back. *)

From S2P Require Import Prelude Kern Bswap Bitmap Array Interfaces Copyinout Uio Vfs Lhd LhdSpec Sfs SfsSpec SfsMap SfsBmap SfsTrunc SfsUio SfsIo SfsDir.
Open Scope Z_scope.

Module SfsCache.
Import Vfs Lhd LhdSpec Sfs SfsSpec SfsMap SfsBmap SfsTrunc SfsUio SfsIo SfsWrite.

(** ** Inodes as bytes *)

Lemma dinode_length i : dinode_ok i -> length (dinode_bytes i) = 512%nat.
Proof. intros [_ _ _ Hd [Hw _]]. unfold dinode_bytes. rewrite !length_app, !word_bytes_length, !Bswap.be_bytes_length, Hd, Hw. done. Qed.
Lemma dinode_back i : dinode_ok i -> Forall is_u32 (sfi_direct i) -> is_u32 (sfi_indirect i) -> read_dinode (dinode_bytes i) = i.
Proof.
  intros [Hs Ht Hl Hd [Hw Hwu]] Hdu Hi. unfold MAXSIZE in Hs. unfold read_dinode. assert (is_u32 (sfi_size i)) as Hsu by (unfold is_u32; lia).
  assert (word_at (dinode_bytes i) 0 = sfi_size i) as ->. { unfold word_at, dinode_bytes. rewrite drop_0, take_app_length' by (by rewrite Bswap.be_bytes_length). by apply be_word. }
  assert (forall n, take n (drop 4 (dinode_bytes i)) = take n (Bswap.be_bytes 2 (sfi_type i) ++ Bswap.be_bytes 2 (sfi_linkcount i) ++ word_bytes (sfi_direct i) ++ Bswap.be_bytes 4 (sfi_indirect i) ++ word_bytes (sfi_waste i))) as H4.
  { intros n. unfold dinode_bytes. by rewrite drop_app_length' by (by rewrite Bswap.be_bytes_length). }
  rewrite H4, take_app_length', be_word by (by rewrite ?Bswap.be_bytes_length).
  assert (take 2 (drop 6 (dinode_bytes i)) = Bswap.be_bytes 2 (sfi_linkcount i)) as ->.
  { unfold dinode_bytes. rewrite (assoc_L (++)), drop_app_length' by (by rewrite length_app, !Bswap.be_bytes_length). by rewrite take_app_length' by (by rewrite Bswap.be_bytes_length). }
  rewrite be_word by done. set (pre := Bswap.be_bytes 4 (sfi_size i) ++ Bswap.be_bytes 2 (sfi_type i) ++ Bswap.be_bytes 2 (sfi_linkcount i)).
  assert (length pre = 8%nat) as Hp by (unfold pre; by rewrite !length_app, !Bswap.be_bytes_length).
  assert (dinode_bytes i = pre ++ word_bytes (sfi_direct i) ++ word_bytes [sfi_indirect i] ++ word_bytes (sfi_waste i)) as Hb.
  { unfold dinode_bytes, pre. by rewrite <- !(assoc_L (++)). }
  assert (words_from (dinode_bytes i) 2 15 = sfi_direct i) as -> by (rewrite Hb, <- Hd; by apply words_at).
  assert (words_from (dinode_bytes i) 17 1 = [sfi_indirect i]) as Hw1. { rewrite Hb, (assoc_L (++)). apply (words_at [sfi_indirect i]); [|by apply Forall_singleton]. rewrite length_app, word_bytes_length, Hp, Hd. done. }
  assert (word_at (dinode_bytes i) 17 = sfi_indirect i) as -> by (by injection Hw1).
  assert (words_from (dinode_bytes i) 18 110 = sfi_waste i) as ->.
  { rewrite Hb, !(assoc_L (++)), <- Hw. rewrite <- (app_nil_r (word_bytes (sfi_waste i))). apply words_at; [|done]. rewrite !length_app, !word_bytes_length, Hp, Hd. done. }
  by destruct i.
Qed.
(** A dinode of zeros, as sfs_balloc leaves a new block *)
Definition blank : sfs_dinode := Dinode 0 0 0 (replicate 15 0) 0 (replicate 110 0).
Lemma read_zeros : read_dinode zeros = blank.
Proof. vm_compute. reflexivity. Qed.

(** ** The table *)

Definition ops_ok (y : sfs_vnode) : Prop := sfi_type (sv_i y) = SFS_TYPE_FILE /\ sv_ops y = sfs_fileops \/ sfi_type (sv_i y) = SFS_TYPE_DIR /\ sv_ops y = sfs_dirops.
Definition ino_of a (v : Z) : Z := match a_svs a !! v with Some y => sv_ino y | None => 0 end.
Definition refs a (v : Z) : Z := match a_nodes a !! v with Some n => vn_refcount n | None => 0 end.

Section Cache.
Context (f : Z).
(** A vnode in the table, its inode and its private data *)
Record node a (I : gmap Z sfs_dinode) (v : Z) (y : sfs_vnode) (n : vnode) : Prop := {
  nd_addr : 0 < v < a_next a; nd_sv : a_svs a !! v = Some y; nd_vn : a_nodes a !! v = Some n;
  nd_fs : vn_fs n = f; nd_ops : vn_ops n = fs_vnode_ops; nd_refs : 0 < vn_refcount n;
  nd_inode : I !! sv_ino y = Some (sv_i y); nd_table : ops_ok y;
  nd_clean : sv_dirty y = false -> read_dinode (a_sect a (sv_ino y)) = sv_i y
}.
Record cache a I (L : list Z) : Prop := {
  ca_arr : Array.holds (sfs_vnodes (a_fs a)) L; ca_cap : Array.cap_ok (Array.arr_max (sfs_vnodes (a_fs a))) /\ Array.arr_max (sfs_vnodes (a_fs a)) <= 2 ^ 31;
  ca_nodup : NoDup L; ca_node : forall v, v ∈ L -> exists y n, node a I v y n;
  ca_inj : forall v w, v ∈ L -> w ∈ L -> ino_of a v = ino_of a w -> v = w;
  ca_disk : forall ino i, I !! ino = Some i -> (forall v, v ∈ L -> ino_of a v <> ino) -> read_dinode (a_sect a ino) = i;
  ca_next : 0 < a_next a; ca_fresh : forall u, a_next a <= u -> a_nodes a !! u = None
}.

Lemma node_ino a I v y n : node a I v y n -> ino_of a v = sv_ino y.
Proof. intros Hn. unfold ino_of. by rewrite (nd_sv _ _ _ _ _ Hn). Qed.
Lemma node_at a I L v y : cache a I L -> v ∈ L -> a_svs a !! v = Some y -> exists n, node a I v y n.
Proof. intros Hc Hv Hy. destruct (ca_node _ _ _ Hc v Hv) as (y' & n & Hn). pose proof (nd_sv _ _ _ _ _ Hn). exists n. by simplify_eq. Qed.

(** No more vnodes than blocks *)
Lemma cache_length ns a I L E : space_ok ns (a_fs a) (a_sect a) I E -> cache a I L -> Z.of_nat (length L) < 2 ^ 31.
Proof.
  intros Ho Hc. pose proof (so_nb _ _ _ _ _ Ho) as Hnb. assert (NoDup (ino_of a <$> L)) as Hn.
  { pose proof (ca_inj _ _ _ Hc) as Hinj. pose proof (ca_nodup _ _ _ Hc) as Hd. clear -Hinj Hd. induction Hd as [|v L Hv Hd IH]; [constructor|]. cbn. constructor.
    - intros (w & He & Hw)%list_elem_of_fmap. apply Hv. replace v with w; [done|]. symmetry. apply Hinj; [left|by right|done].
    - apply IH. intros a1 a2 H1 H2. apply Hinj; by right. }
  assert (length (ino_of a <$> L) <= length (seqZ 0 (sb_nblocks (sfs_sb (a_fs a)))))%nat as Hle.
  { apply submseteq_length. apply NoDup_submseteq; [done|]. intros ino (v & -> & Hv)%list_elem_of_fmap. apply elem_of_seqZ. destruct (ca_node _ _ _ Hc v Hv) as (y & n & Hn').
    rewrite (node_ino _ _ _ _ _ Hn'). pose proof (own_range ns _ _ _ _ _ _ (sv_ino y) Ho (nd_inode _ _ _ _ _ Hn') (or_introl eq_refl)). lia. }
  rewrite length_fmap, length_seqZ in Hle. lia.
Qed.

(** The table when the inode of one vnode has changed *)
Lemma cache_evolve a I L v y n x' t' y' I' : cache a I L -> v ∈ L -> node a I v y n -> sfs_vnodes x' = sfs_vnodes (a_fs a) -> sv_ino y' = sv_ino y -> sv_ops y' = sv_ops y -> sfi_type (sv_i y') = sfi_type (sv_i y) ->
  sv_dirty y' = true \/ read_dinode (t' (sv_ino y)) = sv_i y' -> I' = <[sv_ino y := sv_i y']> I -> (forall ino i, I !! ino = Some i -> ino <> sv_ino y -> t' ino = a_sect a ino) -> cache (evolve a v x' t' y') I' L.
Proof.
  intros Hc Hv Hn Hx Hi Hop Hty Hd -> Ht. pose proof Hc as [C1 C2 C3 C4 C5 C6 C7 C8]. assert (forall w, ino_of (evolve a v x' t' y') w = ino_of a w) as Hino.
  { intros w. unfold ino_of. cbn. destruct (decide (w = v)) as [->|]; [rewrite lookup_insert_eq, (nd_sv _ _ _ _ _ Hn); done|by rewrite lookup_insert_ne]. }
  split; try done; [by cbn; rewrite Hx|by cbn; rewrite Hx| | |].
  - intros w Hw. destruct (decide (w = v)) as [->|Hne].
    + exists y', n. pose proof Hn as [N1 N2 N3 N4 N5 N6 N7 N8 N9]. split; try done; cbn; [by rewrite lookup_insert_eq|rewrite Hi; by rewrite lookup_insert_eq| |].
      * unfold ops_ok in *. by rewrite Hty, Hop.
      * intros Hcl. rewrite Hi. destruct Hd; [congruence|done].
    + destruct (C4 w Hw) as (z & m & [N1 N2 N3 N4 N5 N6 N7 N8 N9]). assert (sv_ino z <> sv_ino y) as Hzi. { intros He. apply Hne, C5; try done. unfold ino_of. by rewrite N2, (nd_sv _ _ _ _ _ Hn). }
      exists z, m. split; try done; cbn; [by rewrite lookup_insert_ne|by rewrite lookup_insert_ne|]. intros Hcl. rewrite (Ht _ _ N7) by done. by apply N9.
  - intros w1 w2. rewrite !Hino. apply C5.
  - intros ino i. setoid_rewrite Hino. rewrite lookup_insert_Some. intros [[<- <-]|[Hne H2]] Hnl; [by destruct (Hnl v Hv); rewrite (node_ino _ _ _ _ _ Hn)|]. cbn. rewrite (Ht _ _ H2) by done. by apply C6.
Qed.
End Cache.

(** ** Loading *)

Section Load.
Context {D : Type} `{W : DiskSpec D}.
Context (f dev ns : Z).
Abbreviation vwp := (vwp (D := D) f dev ns).
Abbreviation space_ok := (space_ok ns).
Abbreviation cache := (cache f).
Abbreviation node := (node f).
Context (E : list Z).

Lemma vwp_array_get a I L k v (Q : Z -> view -> Prop) : cache a I L -> L !! k = Some v -> Q v a -> vwp (Array.array_get (sfs_vnodes (a_fs a)) (Z.of_nat k)) a Q.
Proof using . intros Hc Hk HQ. eapply vwp_run; [|exact HQ]. intros s. pose proof (Array.array_access_spec _ _ (Z.of_nat k) s (ca_arr _ _ _ _ Hc) ltac:(lia)) as Ha. rewrite Nat2Z.id, Hk in Ha. apply Ha. Qed.
Lemma vwp_find_loaded a I L ino m k (Q : option Z -> view -> Prop) : space_ok (a_fs a) (a_sect a) I E -> cache a I L -> (m + k = length L)%nat -> (forall j w, (j < k)%nat -> L !! j = Some w -> ino_of a w <> ino) ->
  (forall v, v ∈ L -> ino_of a v = ino -> Q (Some v) a) -> ((forall v, v ∈ L -> ino_of a v <> ino) -> Q None a) -> vwp (find_loaded m f (sfs_vnodes (a_fs a)) (Z.of_nat k) ino) a Q.
Proof.
  intros Ho Hc. revert k. induction m as [|m IH]; intros k Hm Hbefore HS HN; cbn [find_loaded].
  { apply vwp_ret, HN. intros v Hv. apply list_elem_of_lookup in Hv as [j Hj]. apply (Hbefore j); [|done]. apply lookup_lt_Some in Hj. lia. }
  destruct (lookup_lt_is_Some_2 L k) as [v Hk]; [lia|]. assert (v ∈ L) as Hv by (by eapply list_elem_of_lookup_2). destruct (ca_node _ _ _ _ Hc v Hv) as (y & n & Hn).
  apply vwp_bind. eapply vwp_array_get; [done|exact Hk|]. apply vwp_bind. eapply vwp_get_sv; [pose proof (nd_addr _ _ _ _ _ _ Hn); lia|apply (nd_sv _ _ _ _ _ _ Hn)|].
  apply vwp_bind. eapply vwp_bused; [exact Ho|eapply own_used; [apply (nd_inode _ _ _ _ _ _ Hn)|by left]|]. cbn [negb]. rewrite <- (node_ino _ _ _ _ _ _ Hn). destruct (Z.eqb_spec (ino_of a v) ino) as [He|Hne].
  - apply vwp_ret. by apply HS.
  - replace (Z.of_nat k + 1) with (Z.of_nat (S k)) by lia. apply IH; [lia| |done|done]. intros j w Hj Hw. destruct (decide (j = k)) as [->|]; [by simplify_eq|]. apply (Hbefore j); [lia|done].
Qed.

(** A new vnode for an inode that is not in memory *)
Definition with_array arr (x : sfs_fs) : sfs_fs := SfsFs (sfs_sb x) (sfs_superdirty x) (sfs_device x) arr (sfs_freemap x) (sfs_freemapdirty x).
Definition with_vnode a v arr y : view :=
  with_svs (<[v := y]> (a_svs a)) (with_nodes (<[v := Vnode 1 f v fs_vnode_ops]> (a_nodes a)) (with_fs (with_array arr (a_fs a)) a)).
Lemma cache_enter a I I' L v arr y : cache a I L -> 0 < v < a_next a -> (v ∉ L) -> Array.holds arr (L ++ [v]) -> Array.cap_ok (Array.arr_max arr) /\ Array.arr_max arr <= 2 ^ 31 ->
  (forall w, w ∈ L -> ino_of a w <> sv_ino y) -> I' !! sv_ino y = Some (sv_i y) -> (forall ino, ino <> sv_ino y -> I' !! ino = I !! ino) -> ops_ok y -> (sv_dirty y = false -> read_dinode (a_sect a (sv_ino y)) = sv_i y) ->
  cache (with_vnode a v arr y) I' (L ++ [v]).
Proof.
  intros [C1 C2 C3 C4 C5 C6 C7 C8] Hv Hnot Harr Hcap Hino Hy HI Hops Hcl. assert (forall w, w ∈ L -> w <> v) as Hwv by (intros w Hw ->; done).
  assert (forall w, w ∈ L -> ino_of (with_vnode a v arr y) w = ino_of a w) as Hold. { intros w Hw. unfold ino_of. cbn. by rewrite lookup_insert_ne by (apply not_eq_sym; by apply Hwv). }
  assert (ino_of (with_vnode a v arr y) v = sv_ino y) as Hnew by (unfold ino_of; cbn; by rewrite lookup_insert_eq).
  split; try done; cbn.
  - apply NoDup_app. split; [done|]. split; [|apply NoDup_singleton]. intros w Hw ->%list_elem_of_singleton. done.
  - intros w [Hw| ->%list_elem_of_singleton]%elem_of_app.
    + destruct (C4 w Hw) as (z & n & [N1 N2 N3 N4 N5 N6 N7 N8 N9]). exists z, n. pose proof (Hwv w Hw). split; try done; cbn; [by rewrite lookup_insert_ne|by rewrite lookup_insert_ne|].
      rewrite HI; [done|]. intros He. apply (Hino w Hw). unfold ino_of. by rewrite N2.
    + exists y, (Vnode 1 f v fs_vnode_ops). split; try done; cbn; [by rewrite lookup_insert_eq..].
  - intros w1 w2 [H1| ->%list_elem_of_singleton]%elem_of_app [H2| ->%list_elem_of_singleton]%elem_of_app; [| | |done].
    + rewrite (Hold w1 H1), (Hold w2 H2). by apply C5.
    + rewrite (Hold w1 H1), Hnew. intros He. by destruct (Hino w1 H1).
    + rewrite (Hold w2 H2), Hnew. intros He. by destruct (Hino w2 H2).
  - intros ino i Hi Hnl. assert (ino <> sv_ino y) as Hne. { intros ->. apply (Hnl v); [apply elem_of_app; right; by apply list_elem_of_singleton|done]. }
    rewrite HI in Hi by done. apply C6; [done|]. intros w Hw. rewrite <- Hold by done. apply Hnl, elem_of_app. by left.
  - intros u Hu. rewrite lookup_insert_ne by lia. by apply C8.
Qed.

Lemma vwp_enter a I I' L v y (Q : res Z -> view -> Prop) : cache a I L -> Z.of_nat (length L) < 2 ^ 31 -> 0 < v < a_next a -> a_nodes a !! v = None -> (forall w, w ∈ L -> ino_of a w <> sv_ino y) -> I' !! sv_ino y = Some (sv_i y) ->
  (forall ino, ino <> sv_ino y -> I' !! ino = I !! ino) -> ops_ok y -> (sv_dirty y = false -> read_dinode (a_sect a (sv_ino y)) = sv_i y) ->
  (forall arr, cache (with_vnode a v arr y) I' (L ++ [v]) -> Q (Done v) (with_vnode a v arr y)) -> Q (Err ENOMEM) a -> vwp (enter_vnode f v y) a Q.
Proof.
  intros Hc Hlen Hv Hfresh Hino Hy HI Hops Hcl HQ HE. assert (v ∉ L) as Hnot by (intros Hin; destruct (ca_node _ _ _ _ Hc v Hin) as (z & n & Hn); pose proof (nd_vn _ _ _ _ _ _ Hn); congruence).
  unfold enter_vnode, vnode_init. apply vwp_bind, vwp_bind, vwp_kassert; [by destruct (Z.eqb_spec v 0); [lia|]|]. apply vwp_put_vnode, vwp_bind, vwp_get_fs, vwp_bind. cbn [a_fs with_nodes].
  apply vwp_alloc. intros s. destruct (Array.array_add_ok (sfs_vnodes (a_fs a)) L v s) as (r & arr & s' & He & Hst & Hcap & Hmax & Hr); [apply Hc|apply (ca_cap _ _ _ _ Hc)|apply (ca_cap _ _ _ _ Hc)|done|].
  exists (r, arr), s'. split; [done|]. split; [done|]. apply vwp_bind. unfold set_vnodearray. apply vwp_bind, vwp_get_fs, vwp_put_fs. cbn [fst snd]. destruct r as [k|e].
  - apply vwp_bind, vwp_put_sv, vwp_ret. apply HQ. by apply cache_enter with I; [done|done|done|apply Hr|..].
  - destruct Hr as [-> ->]. apply vwp_bind. unfold vnode_cleanup. apply vwp_bind. eapply vwp_get_vnode; [lia|apply lookup_insert_eq|]. apply vwp_bind, vwp_kassert; [done|]. apply vwp_put_vnode. cbn.
    apply vwp_bind, (vwp_set_nodes f dev ns (delete v)), vwp_ret. cbn. rewrite insert_insert_eq, delete_insert_id by done. destruct a as [[] ]. exact HE.
Qed.

(** A vnode is held [c] times. *)
Definition with_refs a v (n : vnode) (c : Z) : view := with_nodes (<[v := Vnode c (vn_fs n) (vn_data n) (vn_ops n)]> (a_nodes a)) a.
Lemma cache_refs a I L v y n c : cache a I L -> v ∈ L -> node a I v y n -> 0 < c -> cache (with_refs a v n c) I L.
Proof.
  intros Hc Hv Hn Hpos. pose proof Hc as [C1 C2 C3 C4 C5 C6 C7 C8]. split; try done.
  - intros w Hw. destruct (C4 w Hw) as (z & m & Hm). destruct (decide (w = v)) as [->|Hne].
    + exists y, (Vnode c (vn_fs n) (vn_data n) (vn_ops n)). destruct Hn. split; try done. apply lookup_insert_eq.
    + exists z, m. destruct Hm. split; try done. cbn. by rewrite lookup_insert_ne.
  - cbn. intros u Hu. rewrite lookup_insert_ne; [by apply C8|]. pose proof (nd_addr _ _ _ _ _ _ Hn). lia.
Qed.

(** A handle: the inode and the references to its vnode *)
Definition handle a (L : list Z) v : option (Z * Z) := if decide (v ∈ L) then Some (ino_of a v, refs a v) else None.

(** [a'] is [a] with the vnode [v] for [ino] in one more pair of hands. *)
Record taken a (L : list Z) v ino a' (L' : list Z) : Prop := {
  tk_in : v ∈ L'; tk_same : v ∈ L -> ino_of a v = ino; tk_handle : forall w, handle a' L' w = if decide (w = v) then Some (ino, 1 + if decide (v ∈ L) then refs a v else 0) else handle a L w;
  tk_sect : a_sect a' = a_sect a; tk_fs : exists arr, a_fs a' = with_array arr (a_fs a); tk_mem : a_mem a' = a_mem a; tk_depth : a_depth a' = a_depth a; tk_space : a_space a' = a_space a; tk_next : a_next a <= a_next a';
  tk_svs : forall w, w ∈ L \/ w < a_next a /\ w <> v -> a_svs a' !! w = a_svs a !! w; tk_nodes : forall w, w <> v -> a_nodes a' !! w = a_nodes a !! w
}.
Lemma with_array_id x : with_array (sfs_vnodes x) x = x.
Proof using . by destruct x. Qed.
Lemma taken_again a I L v y n : cache a I L -> v ∈ L -> node a I v y n -> taken a L v (ino_of a v) (with_refs a v n (vn_refcount n + 1)) L.
Proof using .
  intros Hc Hv Hn. split; try done; [|by exists (sfs_vnodes (a_fs a)); rewrite with_array_id|intros w Hw; cbn; by rewrite lookup_insert_ne].
  intros w. unfold handle. rewrite (decide_True _ _ Hv). case_decide as Hw; [|by rewrite decide_False by (by intros ->)]. destruct (decide (w = v)) as [->|Hne].
  - f_equal. f_equal. unfold refs. cbn. rewrite lookup_insert_eq, (nd_vn _ _ _ _ _ _ Hn). cbn. lia.
  - f_equal. f_equal. unfold refs. cbn. by rewrite lookup_insert_ne.
Qed.
Lemma taken_new a L arr y (v := a_next a) : (v ∉ L) -> taken a L v (sv_ino y) (with_vnode (with_next (a_next a + 1) a) v arr y) (L ++ [v]).
Proof using .
  intros Hv. assert (forall w, w ∈ L -> w <> v) as Hwv by (intros w Hw ->; done). split; try done; cbn.
  - apply elem_of_app. right. by apply list_elem_of_singleton.
  - intros w. unfold handle. rewrite (decide_False _ _ Hv). destruct (decide (w = v)) as [->|Hne].
    + rewrite decide_True by (apply elem_of_app; right; by apply list_elem_of_singleton). unfold ino_of, refs. cbn. by rewrite !lookup_insert_eq.
    + assert (w ∈ L ++ [v] <-> w ∈ L) as Hin by (rewrite elem_of_app, list_elem_of_singleton; naive_solver). unfold ino_of, refs. cbn. rewrite !lookup_insert_ne by done. destruct (decide (w ∈ L)), (decide (w ∈ L ++ [v])); try done; tauto.
  - by exists arr.
  - lia.
  - intros w Hw. rewrite lookup_insert_ne; [done|]. destruct Hw as [Hw|[Hw _]]; [by apply not_eq_sym, Hwv|unfold v; lia].
  - intros w Hw. by rewrite lookup_insert_ne.
Qed.

Lemma cache_next a I L k : cache a I L -> a_next a <= k -> cache (with_next k a) I L.
Proof using .
  intros [C1 C2 C3 C4 C5 C6 C7 C8] Hk. split; try done; cbn; [|lia|intros u Hu; apply C8; lia]. intros v Hv. destruct (C4 v Hv) as (y & n & [N1 N2 N3 N4 N5 N6 N7 N8 N9]). exists y, n. split; try done. cbn. lia.
Qed.
Lemma fresh_notin a I L : cache a I L -> a_next a ∉ L.
Proof using . intros Hc Hin. destruct (ca_node _ _ _ _ Hc _ Hin) as (y & n & Hn). pose proof (nd_addr _ _ _ _ _ _ Hn). lia. Qed.
Lemma with_next_id a : with_next (a_next a) a = a.
Proof using . by destruct a. Qed.

(** sfs_loadvnode of a live inode *)
Lemma vwp_load a I L ino i (Q : res Z -> view -> Prop) : space_ok (a_fs a) (a_sect a) I E -> cache a I L -> sfs_device (a_fs a) = dev -> 0 < a_depth a -> I !! ino = Some i -> sfi_type i = SFS_TYPE_FILE \/ sfi_type i = SFS_TYPE_DIR ->
  (forall v a' L', taken a L v ino a' L' -> cache a' I L' -> Q (Done v) a') -> (forall k, a_next a <= k -> Q (Err ENOMEM) (with_next k a)) -> vwp (sfs_loadvnode f ino SFS_TYPE_INVAL) a Q.
Proof.
  intros Ho Hc Hd Hdep Hi Hty HQ HE. pose proof (cache_length f ns a I L E Ho Hc) as Hlen. unfold sfs_loadvnode. apply vwp_bind, vwp_get_fs, vwp_bind. unfold Array.array_num. rewrite (Array.h_num _ _ (ca_arr _ _ _ _ Hc)), Nat2Z.id.
  change 0 with (Z.of_nat 0) at 1. apply (vwp_find_loaded a I L ino (length L) 0); [done|done|lia|lia| |].
  - intros v Hv Hino. apply vwp_bind, vwp_kassert; [done|]. destruct (ca_node _ _ _ _ Hc v Hv) as (y & n & Hn). pose proof (nd_addr _ _ _ _ _ _ Hn). apply vwp_bind. unfold vnode_incref. apply vwp_bind, vwp_kassert; [by destruct (Z.eqb_spec v 0); [lia|]|].
    apply vwp_bind. eapply vwp_get_vnode; [lia|apply (nd_vn _ _ _ _ _ _ Hn)|]. apply vwp_put_vnode, vwp_ret. eapply (HQ v (with_refs a v n (vn_refcount n + 1)) L); [rewrite <- Hino; by eapply taken_again|].
    eapply cache_refs; [done|done|done|]. pose proof (nd_refs _ _ _ _ _ _ Hn). lia.
  - intros Hnl. apply vwp_bind, vwp_kmalloc_addr; [cbn; apply vwp_ret; rewrite <- (with_next_id a); apply HE; lia|]. pose proof (ca_next _ _ _ _ Hc) as Hpos. destruct (Z.eqb_spec (a_next a) 0); [lia|]. set (a1 := with_next (a_next a + 1) a).
    apply vwp_bind. eapply (vwp_bused f dev ns a1); [exact Ho|eapply own_used; [exact Hi|by left]|]. cbn [negb]. pose proof (so_nb _ _ _ _ _ Ho). pose proof (own_range ns _ _ _ _ _ _ ino Ho Hi (or_introl eq_refl)).
    apply vwp_bind, vwp_readblock; [done|done|lia|]. cbn [a_sect a1 with_next]. rewrite (ca_disk _ _ _ _ Hc ino i Hi Hnl). apply vwp_bind, vwp_ret. cbn [fst snd].
    assert (exists ops, ops_ok (SfsVnode i ino false ops) /\ vwp (if sfi_type i =? SFS_TYPE_FILE then mret sfs_fileops else if sfi_type i =? SFS_TYPE_DIR then mret sfs_dirops else raise FPanic) a1 (fun r a' => r = ops /\ a' = a1)) as (ops & Hops & Hrun).
    { destruct Hty as [Hty|Hty]; rewrite Hty; [exists sfs_fileops|exists sfs_dirops]; (split; [unfold ops_ok; cbn; rewrite Hty; auto|by apply vwp_ret]). }
    apply vwp_bind. eapply vwp_mono; [exact Hrun|]. intros r a' [-> ->]. eapply (vwp_enter a1 I I L); [apply cache_next; [done|lia]|done|cbn; lia|by apply (ca_fresh _ _ _ _ Hc)|done|done|done|done|intros _; by apply (ca_disk _ _ _ _ Hc)| |apply HE; lia].
    intros arr Hc'. eapply HQ; [|exact Hc']. apply (taken_new a L arr (SfsVnode i ino false ops)). by eapply fresh_notin.
Qed.
(** sfs_loadvnode of a new inode, whose block was just allocated *)
Lemma vwp_load_force a I L ino (i := set_type SFS_TYPE_FILE blank) (Q : res Z -> view -> Prop) : space_ok (a_fs a) (a_sect a) I E -> ino ∈ E -> cache a I L -> sfs_device (a_fs a) = dev -> 0 < a_depth a -> I !! ino = None -> a_sect a ino = zeros ->
  (forall v a' L', taken a L v ino a' L' -> (v ∉ L) -> cache a' (<[ino := i]> I) L' -> a_svs a' !! v = Some (SfsVnode i ino true sfs_fileops) -> Q (Done v) a') -> (forall k, a_next a <= k -> Q (Err ENOMEM) (with_next k a)) -> vwp (sfs_loadvnode f ino SFS_TYPE_FILE) a Q.
Proof.
  intros Ho HinE Hc Hd Hdep Hi Hz HQ HE. pose proof (cache_length f ns a I L E Ho Hc) as Hlen. assert (ino ∈ in_use (sb_nblocks (sfs_sb (a_fs a))) (a_sect a) I E) as Huse by (unfold in_use; rewrite !elem_of_app; auto).
  unfold sfs_loadvnode. apply vwp_bind, vwp_get_fs, vwp_bind. unfold Array.array_num. rewrite (Array.h_num _ _ (ca_arr _ _ _ _ Hc)), Nat2Z.id.
  assert (forall v, v ∈ L -> ino_of a v <> ino) as Hnot. { intros v Hv He. destruct (ca_node _ _ _ _ Hc v Hv) as (y & n & Hn). rewrite (node_ino _ _ _ _ _ _ Hn) in He. pose proof (nd_inode _ _ _ _ _ _ Hn). congruence. }
  change 0 with (Z.of_nat 0) at 1. apply (vwp_find_loaded a I L ino (length L) 0); [done|done|lia|lia|intros v Hv He; by destruct (Hnot v Hv)|]. intros _.
  apply vwp_bind, vwp_kmalloc_addr; [cbn; apply vwp_ret; rewrite <- (with_next_id a); apply HE; lia|]. pose proof (ca_next _ _ _ _ Hc) as Hpos. destruct (Z.eqb_spec (a_next a) 0); [lia|]. set (a1 := with_next (a_next a + 1) a).
  apply vwp_bind. eapply (vwp_bused f dev ns a1); [exact Ho|exact Huse|]. cbn [negb]. pose proof (so_nb _ _ _ _ _ Ho). pose proof (so_range _ _ _ _ _ Ho _ Huse).
  apply vwp_bind, vwp_readblock; [done|done|lia|]. cbn [a_sect a1 with_next]. rewrite Hz, read_zeros. apply vwp_bind. change (SFS_TYPE_FILE =? SFS_TYPE_INVAL) with false. cbv iota. apply vwp_bind, vwp_kassert; [done|]. apply vwp_ret. fold i. cbn [fst snd].
  change (sfi_type i =? SFS_TYPE_FILE) with true. cbv iota. apply vwp_bind, vwp_ret. apply (vwp_enter a1 I (<[ino := i]> I) L); [apply cache_next; [done|lia]|done|cbn; lia|by apply (ca_fresh _ _ _ _ Hc)|done|cbn; by rewrite lookup_insert_eq| | |done| |apply HE; lia].
  - intros ino2 Hne. cbn in Hne. by rewrite lookup_insert_ne.
  - by left.
  - intros arr Hc'. pose proof (fresh_notin _ _ _ Hc) as Hfr. eapply HQ; [by apply (taken_new a L arr (SfsVnode i ino true sfs_fileops))|done|exact Hc'|]. cbn. apply lookup_insert_eq.
Qed.

(** ** Writing back *)

Definition clean (y : sfs_vnode) : sfs_vnode := SfsVnode (sv_i y) (sv_ino y) false (sv_ops y).
Definition same_files (t t' : Z -> list Z) (I : gmap Z sfs_dinode) : Prop := forall ino i, I !! ino = Some i -> file_blocks t' i = file_blocks t i /\ forall k, fblock t' i k = fblock t i k.

Lemma dinode_stored x t I ino i : space_ok x t I E -> I !! ino = Some i -> read_dinode (dinode_bytes i) = i.
Proof using .
  intros Ho Hi. pose proof (so_nb _ _ _ _ _ Ho) as Hnb. assert (forall b, b ∈ sfi_indirect i :: sfi_direct i -> is_u32 b) as Hb.
  { intros b Hb. destruct (decide (b = 0)) as [->|H0]; [unfold is_u32; lia|]. assert (0 <= b < sb_nblocks (sfs_sb x)); [|unfold is_u32; lia]. eapply own_range; [exact Ho|exact Hi|]. right. unfold file_blocks. apply elem_nz. split; [|done].
    apply elem_of_cons in Hb as [->|Hb]; [left|right; apply elem_of_app; by left]. }
  apply dinode_back; [by eapply so_inodes| |apply Hb; left]. apply Forall_forall. intros b Hin. apply Hb. by right.
Qed.
(** The sector of an inode is written. *)
Lemma inode_written x t I ino i bs : space_ok x t I E -> I !! ino = Some i ->
  space_ok x (upd t ino bs) I E /\ same_files t (upd t ino bs) I /\ forall ino2, ino2 <> ino -> upd t ino bs ino2 = t ino2.
Proof using .
  intros Ho Hi. assert (ino ∉ file_blocks t i) as Hself. { pose proof (file_nodup _ _ _ _ _ _ _ Ho Hi) as Hn. apply NoDup_app in Hn as (_ & _ & Hn). by apply NoDup_cons in Hn as [Hn _]. }
  assert (forall ino2 i2, I !! ino2 = Some i2 -> ino ∉ file_blocks t i2) as Hall. { intros ino2 i2 H2. destruct (decide (ino2 = ino)) as [->|Hne]; [congruence|]. intros Hin. eapply (own_apart ns x t I E ino i ino); [done|done|auto|]. apply in_owned. exists ino2, i2. rewrite lookup_delete_ne by done. auto. }
  split_and!.
  - eapply space_moves; [exact Ho| |by eapply so_inodes]. rewrite (owned_same t (upd t ino bs) I); [done|]. intros ino2 i2 H2. apply file_blocks_upd. by eapply Hall.
  - intros ino2 i2 H2. split; [apply file_blocks_upd; by eapply Hall|]. intros k. apply fblock_upd. by eapply Hall.
  - intros ino2 Hne. unfold upd. by rewrite (proj2 (Z.eqb_neq _ _) Hne).
Qed.

Lemma vwp_sync_inode a I L v y n (Q : res unit -> view -> Prop) : space_ok (a_fs a) (a_sect a) I E -> cache a I L -> v ∈ L -> node a I v y n -> sfs_device (a_fs a) = dev -> 0 < a_depth a ->
  (forall t', space_ok (a_fs a) t' I E -> fixed (a_fs a) (a_sect a) t' -> same_files (a_sect a) t' I -> (forall ino i, I !! ino = Some i -> ino <> sv_ino y -> t' ino = a_sect a ino) -> read_dinode (t' (sv_ino y)) = sv_i y -> cache (evolve a v (a_fs a) t' (clean y)) I L -> Q (Done tt) (evolve a v (a_fs a) t' (clean y))) ->
  vwp (sfs_sync_inode v) a Q.
Proof.
  intros Ho Hc Hv Hn Hd Hdep HQ. pose proof Hn as [N1 N2 N3 N4 N5 N6 N7 N8 N9]. assert (v <> 0) as Hv0 by lia. unfold sfs_sync_inode. apply vwp_bind. unfold fs_of. apply vwp_bind. eapply vwp_get_vnode; [done|exact N3|]. apply vwp_ret. rewrite N4.
  assert (forall t', (forall ino i, I !! ino = Some i -> ino <> sv_ino y -> t' ino = a_sect a ino) -> read_dinode (t' (sv_ino y)) = sv_i y -> cache (evolve a v (a_fs a) t' (clean y)) I L) as Hca.
  { intros t' Ht Hr. rewrite <- (insert_id I (sv_ino y) (sv_i y)) by done. eapply (cache_evolve f a I L v y n _ t' (clean y)); try done. by right. }
  apply vwp_bind. eapply vwp_get_sv; [done|exact N2|]. destruct (sv_dirty y) eqn:Hdirty.
  - pose proof (so_nb _ _ _ _ _ Ho). pose proof (own_range ns _ _ _ _ _ _ (sv_ino y) Ho N7 (or_introl eq_refl)). apply vwp_bind, vwp_writeblock; [done|done|lia|apply dinode_length; by eapply so_inodes|].
    apply vwp_bind, vwp_put_sv, vwp_ret. fold (clean y). destruct (inode_written _ _ _ _ _ (dinode_bytes (sv_i y)) Ho N7) as (T1 & T2 & T3).
    assert (read_dinode (upd (a_sect a) (sv_ino y) (dinode_bytes (sv_i y)) (sv_ino y)) = sv_i y) as Hr by (unfold upd; rewrite Z.eqb_refl; by eapply dinode_stored).
    change (with_svs _ _) with (evolve a v (a_fs a) (upd (a_sect a) (sv_ino y) (dinode_bytes (sv_i y))) (clean y)).
    eapply HQ; try done; [eapply fixed_own; [exact Ho|]; apply elem_of_app; right; apply in_owned; exists (sv_ino y), (sv_i y); split; [exact N7|by left]|intros; by apply T3|]. apply Hca; [intros; by apply T3|done].
  - assert (clean y = y) as Hcy by (destruct y; cbn in *; by subst). apply vwp_ret. specialize (HQ (a_sect a)). rewrite Hcy, evolve_id in HQ by done. rewrite <- (evolve_id a v y), <- Hcy in Hc by done. apply HQ; try done; [by apply N9|]. rewrite Hcy, evolve_id in Hc by done. done.
Qed.

(** ** Giving a vnode back *)

Lemma cache_fs a I L x' : sfs_vnodes x' = sfs_vnodes (a_fs a) -> cache a I L -> cache (with_fs x' a) I L.
Proof using . intros Hx [C1 C2 C3 C4 C5 C6 C7 C8]. split; try done; cbn; [by rewrite Hx|by rewrite Hx|]. intros v Hv. destruct (C4 v Hv) as (y & n & []). exists y, n. by split. Qed.
Lemma elem_delete (L : list Z) ix v w : NoDup L -> L !! ix = Some v -> w ∈ delete ix L <-> w ∈ L /\ w <> v.
Proof using .
  intros Hn Hix. rewrite delete_take_drop. pose proof (take_drop_middle L ix v Hix) as HL. rewrite <- HL in Hn. apply NoDup_app in Hn as (_ & Hn1 & Hn2). apply NoDup_cons in Hn2 as [Hn2 _].
  rewrite <- HL at 3. rewrite !elem_of_app, elem_of_cons. split; [|naive_solver]. intros [Hw|Hw]; (split; [auto|intros ->]); [by apply (Hn1 v Hw); left|done].
Qed.
Definition without a v arr : view := with_svs (delete v (a_svs a)) (with_nodes (delete v (a_nodes a)) (with_fs (with_array arr (a_fs a)) a)).
Lemma cache_without a I I' L ix v y n arr : cache a I L -> L !! ix = Some v -> node a I v y n -> Array.holds arr (delete ix L) -> Array.arr_max arr = Array.arr_max (sfs_vnodes (a_fs a)) ->
  (forall ino, ino <> sv_ino y -> I' !! ino = I !! ino) -> (forall i, I' !! sv_ino y = Some i -> read_dinode (a_sect a (sv_ino y)) = i) -> cache (without a v arr) I' (delete ix L).
Proof using .
  intros [C1 C2 C3 C4 C5 C6 C7 C8] Hix Hn Harr Hmax HI Hd. assert (v ∈ L) as Hv by (by eapply list_elem_of_lookup_2). pose proof (fun w => elem_delete L ix v w C3 Hix) as Hel.
  assert (forall w, w <> v -> ino_of (without a v arr) w = ino_of a w) as Hino. { intros w Hw. unfold ino_of. cbn. by rewrite lookup_delete_ne. }
  split; cbn; try done.
  - by rewrite Hmax.
  - rewrite delete_take_drop. pose proof (take_drop_middle L ix v Hix) as HL. rewrite <- HL in C3. rewrite <- Permutation_middle in C3. by apply NoDup_cons in C3 as [_ C3].
  - intros w [Hw Hne]%Hel. destruct (C4 w Hw) as (z & m & [M1 M2 M3 M4 M5 M6 M7 M8 M9]). exists z, m. split; try done; cbn; [by rewrite lookup_delete_ne..|].
    rewrite HI; [done|]. intros He. apply Hne, C5; try done. unfold ino_of. by rewrite M2, (nd_sv _ _ _ _ _ _ Hn).
  - intros w1 w2 [H1 N1]%Hel [H2 N2]%Hel. rewrite !Hino by done. by apply C5.
  - intros ino i Hi Hnl. destruct (decide (ino = sv_ino y)) as [->|Hne]; [by apply Hd|]. rewrite HI in Hi by done. apply C6; [done|]. intros w Hw. destruct (decide (w = v)) as [->|Hwv]; [by rewrite (node_ino _ _ _ _ _ _ Hn)|]. rewrite <- Hino by done. by apply Hnl, Hel.
  - intros u Hu. apply lookup_delete_None. right. by apply C8.
Qed.
Lemma handle_without a I L ix v arr w : cache a I L -> L !! ix = Some v -> handle (without a v arr) (delete ix L) w = if decide (w = v) then None else handle a L w.
Proof using .
  intros Hc Hix. pose proof (elem_delete L ix v w (ca_nodup _ _ _ _ Hc) Hix) as Hel. unfold handle. destruct (decide (w = v)) as [->|Hne]; [rewrite decide_False; [done|]; tauto|].
  unfold ino_of, refs. cbn. rewrite !lookup_delete_ne by done. destruct (decide (w ∈ L)), (decide (w ∈ delete ix L)); try done; tauto.
Qed.

Lemma vwp_find_vnode a I L v m k (Q : Z -> view -> Prop) : cache a I L -> v ∈ L -> (m + k = length L)%nat -> (forall j, (j < k)%nat -> L !! j <> Some v) ->
  (forall ix, L !! ix = Some v -> Q (Z.of_nat ix) a) -> vwp (find_vnode m (sfs_vnodes (a_fs a)) (Z.of_nat k) v) a Q.
Proof.
  intros Hc Hv. revert k. induction m as [|m IH]; intros k Hm Hbefore HQ; cbn [find_vnode].
  { apply list_elem_of_lookup in Hv as [j Hj]. destruct (Hbefore j); [|done]. apply lookup_lt_Some in Hj. lia. }
  destruct (lookup_lt_is_Some_2 L k) as [w Hk]; [lia|]. apply vwp_bind. eapply vwp_array_get; [done|exact Hk|]. destruct (Z.eqb_spec w v) as [->|Hne].
  - apply vwp_ret. by apply HQ.
  - replace (Z.of_nat k + 1) with (Z.of_nat (S k)) by lia. apply IH; [lia| |done]. intros j Hj. destruct (decide (j = k)) as [->|]; [congruence|]. apply Hbefore. lia.
Qed.
(** The end of sfs_reclaim *)
Lemma vwp_drop a I I' L v y n (Q : res unit -> view -> Prop) : cache a I L -> v ∈ L -> node a I v y n -> vn_refcount n = 1 -> 0 < a_depth a ->
  (forall ino, ino <> sv_ino y -> I' !! ino = I !! ino) -> (forall i, I' !! sv_ino y = Some i -> read_dinode (a_sect a (sv_ino y)) = i) ->
  (forall arr L', cache (without a v arr) I' L' -> (forall w, handle (without a v arr) L' w = if decide (w = v) then None else handle a L w) -> Q (Done tt) (with_depth (a_depth a - 1) (without a v arr))) -> vwp (drop_vnode f v) a Q.
Proof.
  intros Hc Hv Hn Hr Hdep HI Hdk HQ. pose proof (nd_addr _ _ _ _ _ _ Hn) as Haddr. unfold drop_vnode. apply vwp_bind, vwp_get_fs. unfold Array.array_num. rewrite (Array.h_num _ _ (ca_arr _ _ _ _ Hc)), Nat2Z.id. apply vwp_bind. change 0 with (Z.of_nat 0) at 1.
  eapply vwp_find_vnode; [exact Hc|done|lia|lia|]. intros ix Hix. assert (exists arr, (forall s : vstate (sfs_state D), Array.array_remove (sfs_vnodes (a_fs a)) (Z.of_nat ix) s = Ok arr s) /\ Array.holds arr (delete ix L) /\ Array.arr_max arr = Array.arr_max (sfs_vnodes (a_fs a))) as (arr & Hrm & Harr & Hmax).
  { pose proof (Array.array_access_spec _ _ (Z.of_nat ix) ([] : list bool) (ca_arr _ _ _ _ Hc) ltac:(lia)) as Ha. rewrite Nat2Z.id, Hix in Ha. destruct Ha as (_ & _ & arr & He & Hh). unfold Array.array_remove, mbind, M_bind, kassert in *.
    destruct (Array.arr_num (sfs_vnodes (a_fs a)) <=? Array.arr_max (sfs_vnodes (a_fs a))); [|discriminate He]. destruct (Z.of_nat ix <? Array.arr_num (sfs_vnodes (a_fs a))); [|discriminate He]. injection He as <-. eexists. split; [reflexivity|]. by split. }
  apply vwp_bind. eapply vwp_run; [exact Hrm|]. apply vwp_bind. unfold set_vnodearray. apply vwp_bind, vwp_get_fs, vwp_put_fs. apply vwp_bind. unfold vnode_cleanup. apply vwp_bind. eapply vwp_get_vnode; [lia|apply (nd_vn _ _ _ _ _ _ Hn)|].
  apply vwp_bind, vwp_kassert; [by rewrite Hr|]. apply vwp_put_vnode. apply vwp_bind, vwp_release; [done|]. apply vwp_bind, vwp_forget, vwp_ret.
  assert (cache (without a v arr) I' (delete ix L)) as Hc' by (by eapply cache_without). specialize (HQ arr (delete ix L) Hc' (fun w => handle_without a I L ix v arr w Hc Hix)). unfold without, with_array, with_depth, with_svs, with_nodes, with_fs in *. cbn in *. by rewrite delete_insert_eq.
Qed.
End Load.
End SfsCache.
