(* ===== verification/SfsVol.v ===== *)
(** * A mounted volume

    The invariant of a mounted volume: the blocks, the table of vnodes, the
    directory and the link counts agree.  The state of the file system that a
    user sees is an abstraction of it. *)

From S2P Require Import Prelude Kern Bswap Bitmap Array Interfaces Copyinout Uio Vfs Lhd LhdSpec Sfs SfsSpec SfsMap SfsBmap SfsTrunc SfsUio SfsIo SfsDir SfsCache.
Open Scope Z_scope.

(** A file: its size and its bytes, with those after its end *)
Record afile := AFile { fl_size : Z; fl_data : list Z }.
(** What a user sees: names, files by inode, for each vnode in use its inode and
    the number of references, the memory; the number of free blocks *)
Record astate := AState {
  s_names : gmap (list Z) Z; s_files : gmap Z afile; s_handles : gmap Z (Z * Z); s_mem : gmap Z Z; s_free : Z
}.

Module SfsVol.
Import Vfs Lhd LhdSpec Sfs SfsSpec SfsMap SfsBmap SfsTrunc SfsUio SfsIo SfsWrite SfsDir SfsNames SfsCache.

(** ** Link counts *)

Definition nlinks (N : gmap (list Z) Z) (ino : Z) : Z := Z.of_nat (size (filter (fun p => p.2 = ino) N)).
Lemma nlinks_insert N name ino i : N !! name = None -> nlinks (<[name := ino]> N) i = nlinks N i + if decide (i = ino) then 1 else 0.
Proof.
  intros Hn. unfold nlinks. destruct (decide (i = ino)) as [->|Hne].
  - rewrite map_filter_insert_True by done. rewrite map_size_insert_None; [lia|]. apply map_lookup_filter_None. by left.
  - rewrite map_filter_insert_False by (cbn; congruence). rewrite delete_id by done. lia.
Qed.
Lemma nlinks_delete N name ino i : N !! name = Some ino -> nlinks (delete name N) i = nlinks N i - if decide (i = ino) then 1 else 0.
Proof. intros Hn. rewrite <- (insert_delete_id N name ino Hn) at 2. rewrite nlinks_insert by apply lookup_delete_eq. lia. Qed.
Lemma nlinks_size N ino : 0 <= nlinks N ino <= Z.of_nat (size N).
Proof. unfold nlinks. split; [lia|]. apply inj_le, map_subseteq_size, map_filter_subseteq. Qed.
Lemma nlinks_pos N name ino : N !! name = Some ino -> 0 < nlinks N ino.
Proof. intros Hn. rewrite <- (insert_delete_id N name ino Hn), nlinks_insert by apply lookup_delete_eq. rewrite decide_True by done. pose proof (nlinks_size (delete name N) ino). lia. Qed.

Lemma nlinks_none N ino : (forall name, N !! name <> Some ino) -> nlinks N ino = 0.
Proof.
  intros Hn. unfold nlinks. assert (filter (fun p => p.2 = ino) N = ∅) as ->; [|done]. apply map_empty. intros name. apply map_lookup_filter_None. right. intros i Hi He. cbn in He. subst i. by apply (Hn name).
Qed.

(** ** The invariant *)

Section Vol.
Context (f dev ns : Z).
Abbreviation space_ok := (space_ok ns).
Abbreviation cache := (cache f).
Abbreviation node := (node f).
(** What is on the disk of the superblock and, unless it is dirty, of the free map *)
Definition fix_super (sb : sfs_superblock) : sfs_superblock := Superblock (sb_magic sb) (sb_nblocks sb) (<[31%nat := 0]> (sb_volname sb)) (sb_reserved sb).
Definition map_part (b : Bitmap.bitmap) (j : Z) : list Z := take 512 (drop (Z.to_nat (j * 512)) (Bitmap.v b)).
Record meta_ok (x : sfs_fs) (t : Z -> list Z) : Prop := {
  mo_clean : sfs_superdirty x = false; mo_super : sfs_sb x = fix_super (read_super (t 0)); mo_magic : sb_magic (sfs_sb x) = SFS_MAGIC;
  mo_map : sfs_freemapdirty x = false -> forall b j, sfs_freemap x = Some b -> 0 <= j < SFS_FREEMAPBLOCKS (sb_nblocks (sfs_sb x)) -> t (2 + j) = map_part b j
}.
Lemma meta_step x x' t t' : fs_step x x' -> fixed x t t' -> meta_ok x t -> meta_ok x' t'.
Proof.
  intros [A1 A2 A3 A4 A5] Hf [M1 M2 M3 M4]. split; [congruence|rewrite A1, Hf; [done|left]|by rewrite A1|]. destruct A5 as [->|A5]; [|congruence]. intros Hd b j Hb Hj. rewrite Hf; [by apply M4|]. right. apply elem_of_seqZ. lia.
Qed.
(** [E] are blocks in the hands of an operation. *)
Record vol_ok (E : list Z) (a : view) (I : gmap Z sfs_dinode) (L : list Z) (N : gmap (list Z) Z) : Prop := {
  ok_space : space_ok (a_fs a) (a_sect a) I E; ok_cache : cache a I L; ok_dev : sfs_device (a_fs a) = dev;
  ok_root : exists r, I !! 1 = Some r /\ dir_ok (a_sect a) r /\ lists (a_sect a) r N /\ sfi_linkcount r <> 0;
  ok_names : forall name ino, N !! name = Some ino -> ino <> 1 /\ is_Some (I !! ino);
  ok_files : forall ino i, I !! ino = Some i -> ino <> 1 -> sfi_type i = SFS_TYPE_FILE /\ sfi_linkcount i = nlinks N ino /\ (nlinks N ino = 0 -> exists v, v ∈ L /\ ino_of a v = ino);
  ok_meta : meta_ok (a_fs a) (a_sect a)
}.
Abbreviation fs_ok := (vol_ok []).

(** ** The abstraction *)

Definition NBYTES : nat := Z.to_nat MAXSIZE.
Lemma nbytes_max : Z.of_nat NBYTES = MAXSIZE.
Proof. unfold NBYTES. rewrite Z2Nat.id; [done|]. unfold MAXSIZE. lia. Qed.
#[global] Opaque NBYTES.
Definition afile_of t (i : sfs_dinode) : afile := AFile (sfi_size i) (frange t i 0 NBYTES).
Definition files t (I : gmap Z sfs_dinode) : gmap Z afile := afile_of t <$> delete 1 I.
Definition free_blocks a (I : gmap Z sfs_dinode) : Z := let nb := sb_nblocks (sfs_sb (a_fs a)) in nb - Z.of_nat (length (in_use nb (a_sect a) I [])).
Record repr (a : view) (I : gmap Z sfs_dinode) (L : list Z) (A : astate) : Prop := {
  re_ok : fs_ok a I L (s_names A); re_handles : forall v, s_handles A !! v = handle a L v;
  re_files : s_files A = files (a_sect a) I; re_mem : s_mem A = a_mem a; re_free : s_free A = free_blocks a I
}.

Lemma frange_same t t' i i' off n : (forall k, fblock t' i' k = fblock t i k) -> frange t' i' off n = frange t i off n.
Proof. intros Hf. unfold frange, fbyte. by setoid_rewrite Hf. Qed.
Lemma afile_same t t' i i' : sfi_size i' = sfi_size i -> (forall k, fblock t' i' k = fblock t i k) -> afile_of t' i' = afile_of t i.
Proof. intros Hs Hf. unfold afile_of. by rewrite Hs, (frange_same t t' i i'). Qed.
Lemma fmap_afile t t' (o : option sfs_dinode) : (forall i, o = Some i -> forall k, fblock t' i k = fblock t i k) -> afile_of t' <$> o = afile_of t <$> o.
Proof. intros Hf. destruct o as [i|]; cbn [fmap option_fmap option_map]; [|reflexivity]. rewrite (afile_same t t' i i eq_refl (Hf i eq_refl)). reflexivity. Qed.
(** A new file *)
Definition empty_file : afile := AFile 0 (replicate NBYTES 0).
Lemma blank_block t k : fblock t (set_type SFS_TYPE_FILE blank) k = zeros.
Proof.
  unfold fblock. assert (blockno t (set_type SFS_TYPE_FILE blank) k = 0) as ->; [|done]. unfold blockno. change (sfi_direct _ ++ iwords t _) with (replicate 15 0 ++ replicate 128 0). rewrite <- replicate_add.
  destruct (_ !! k) as [b|] eqn:Hb; [|done]. by apply lookup_replicate in Hb as [-> _].
Qed.
Lemma afile_blank t : afile_of t (set_type SFS_TYPE_FILE blank) = empty_file.
Proof.
  unfold afile_of, empty_file. enough (frange t (set_type SFS_TYPE_FILE blank) 0 NBYTES = replicate NBYTES 0) as -> by reflexivity. apply list_eq. intros j. destruct (decide (j < NBYTES)%nat) as [Hj|Hj].
  - rewrite frange_lookup, lookup_replicate_2 by done. unfold fbyte. rewrite blank_block. unfold zeros. destruct (replicate 512 0 !! _) as [b|] eqn:Hb; [|reflexivity]. by apply lookup_replicate in Hb as [-> _].
  - rewrite !lookup_ge_None_2; [reflexivity|rewrite length_replicate; lia|rewrite frange_length; lia].
Qed.
Lemma afile_size t i : fl_size (afile_of t i) = sfi_size i.
Proof. reflexivity. Qed.
Lemma afile_data t i : fl_data (afile_of t i) = frange t i 0 NBYTES.
Proof. reflexivity. Qed.
Lemma afile_eq t i F : fl_size F = sfi_size i -> fl_data F = frange t i 0 NBYTES -> afile_of t i = F.
Proof. destruct F as [s d]. cbn [fl_size fl_data]. by intros -> ->. Qed.
#[global] Opaque afile_of.
Lemma files_lookup t I ino : files t I !! ino = if decide (ino = 1) then None else afile_of t <$> I !! ino.
Proof. unfold files. rewrite lookup_fmap. destruct (decide (ino = 1)) as [->|]; [by rewrite lookup_delete_eq|by rewrite lookup_delete_ne]. Qed.
(** One file has changed. *)
Lemma files_update t t' I ino i' : ino <> 1 -> (forall ino2 i2, I !! ino2 = Some i2 -> ino2 <> ino -> forall k, fblock t' i2 k = fblock t i2 k) -> files t' (<[ino := i']> I) = <[ino := afile_of t' i']> (files t I).
Proof.
  intros H1 Hf. apply map_eq. intros ino2. rewrite files_lookup. destruct (decide (ino2 = ino)) as [->|Hne].
  - rewrite decide_False, !lookup_insert_eq by done. done.
  - rewrite !lookup_insert_ne, files_lookup by done. destruct (decide (ino2 = 1)); [done|]. apply fmap_afile. intros i2 Hi. by apply (Hf ino2).
Qed.
(** Only the directory has changed. *)
Lemma files_root t t' I r' : (forall ino2 i2, I !! ino2 = Some i2 -> ino2 <> 1 -> forall k, fblock t' i2 k = fblock t i2 k) -> files t' (<[1 := r']> I) = files t I.
Proof.
  intros Hf. apply map_eq. intros ino2. rewrite !files_lookup. destruct (decide (ino2 = 1)) as [->|Hne]; [done|]. rewrite lookup_insert_ne by done. apply fmap_afile. intros i2 Hi. by apply (Hf ino2).
Qed.
Lemma files_same t t' I : (forall ino2 i2, I !! ino2 = Some i2 -> ino2 <> 1 -> forall k, fblock t' i2 k = fblock t i2 k) -> files t' I = files t I.
Proof.
  intros Hf. apply map_eq. intros ino2. rewrite !files_lookup. destruct (decide (ino2 = 1)) as [->|Hne]; [done|]. apply fmap_afile. intros i2 Hi. by apply (Hf ino2).
Qed.

Lemma ok_type a I L N ino i : fs_ok a I L N -> I !! ino = Some i -> sfi_type i = if decide (ino = 1) then SFS_TYPE_DIR else SFS_TYPE_FILE.
Proof.
  intros Ho Hi. destruct (decide (ino = 1)) as [->|Hne]; [|by eapply ok_files]. destruct (ok_root _ _ _ _ _ Ho) as (r & Hr & Hd & _). replace i with r by congruence. apply Hd.
Qed.
Lemma ok_ops a I L N v y n : fs_ok a I L N -> node a I v y n -> sv_ops y = if decide (sv_ino y = 1) then sfs_dirops else sfs_fileops.
Proof.
  intros Ho Hn. pose proof (ok_type _ _ _ _ _ _ Ho (nd_inode _ _ _ _ _ _ Hn)) as Hty. destruct (nd_table _ _ _ _ _ _ Hn) as [[H1 ->]|[H1 ->]]; rewrite H1 in Hty; by destruct (decide (sv_ino y = 1)).
Qed.
(** The link counts do not overflow. *)
Lemma ok_count a I L N : fs_ok a I L N -> Z.of_nat (size N) <= 1144.
Proof.
  intros Ho. destruct (ok_root _ _ _ _ _ Ho) as (r & Hr & Hd & HN & _). pose proof (lists_size _ _ _ HN). pose proof (di_size _ (so_inodes _ _ _ _ _ (ok_space _ _ _ _ _ Ho) _ _ Hr)) as Hs. unfold MAXSIZE in Hs. pose proof (do_size _ _ Hd). lia.
Qed.

(** ** Changes of one vnode *)

Record changed E x t y I x' t' y' I' : Prop := {
  cg_step : fs_step x x'; cg_ino : sv_ino y' = sv_ino y; cg_ops : sv_ops y' = sv_ops y; cg_type : sfi_type (sv_i y') = sfi_type (sv_i y); cg_dirty : y' = y \/ sv_dirty y' = true;
  cg_I : I' = <[sv_ino y := sv_i y']> I; cg_others : forall ino i, I !! ino = Some i -> ino <> sv_ino y -> forall k, fblock t' i k = fblock t i k;
  cg_inodes : forall ino i, I !! ino = Some i -> t' ino = t ino; cg_space : space_ok x' t' I' E; cg_sys : fixed x t t'
}.
Lemma grown_changed E x t y I x' t' y' I' : grown ns E x t y I x' t' y' I' -> changed E x t y I x' t' y' I'.
Proof. intros [A1 A2 A3 A4 A5 [M1 M2 M3 M4] A7 A8 A9]. split; try done. intros ino i Hi Hne k. apply (A7 ino); [done|]. by rewrite A5, lookup_insert_ne. Qed.
Lemma edited_changed E k e x t y I x' t' y' I' : edited ns E k e x t y I x' t' y' I' -> changed E x t y I x' t' y' I'.
Proof. by intros []. Qed.
Lemma truncated_changed bl E I len x t y x' t' y' : truncated ns bl E I len x t y x' t' y' -> changed E x t y I x' t' y' (<[sv_ino y := sv_i y']> I).
Proof. intros []. split; try done. by right. Qed.
Lemma wrote_changed E x t y I off bs x' t' y' I' e : wrote ns E x t y I off bs x' t' y' I' -> 0 <= e <= MAXSIZE -> let y2 := grow_size e y' in changed E x t y I x' t' y2 (<[sv_ino y := sv_i y2]> I).
Proof.
  intros [A1 A2 A3 A4 A5 [M1 M2 M3 M4] A7 A8 A9 A10 A11] He y2. unfold y2, grow_size. destruct (Z.ltb_spec (sfi_size (sv_i y')) e) as [Hlt|Hge]; [|split; try done; by rewrite <- A5]. split; try done; [by right|]. cbn.
  assert (I' !! sv_ino y = Some (sv_i y')) as Hy' by (rewrite A5; apply lookup_insert_eq). rewrite <- (insert_insert_eq I (sv_ino y) _ (sv_i y')), <- A5. eapply reown; [exact A11|exact Hy'|done|done|]. by destruct (so_inodes _ _ _ _ _ A11 _ _ Hy').
Qed.
(** The link count is set. *)
Lemma link_changed E x t y I c : space_ok x t I E -> I !! sv_ino y = Some (sv_i y) -> 0 <= c < 2 ^ 16 -> let y2 := put_i y (set_linkcount c (sv_i y)) in changed E x t y I x t y2 (<[sv_ino y := sv_i y2]> I).
Proof.
  intros Ho Hy Hc y2. split; try done; [by right|]. cbn. eapply reown; [exact Ho|exact Hy|done|done|]. by destruct (so_inodes _ _ _ _ _ Ho _ _ Hy).
Qed.

Lemma cache_changed a I L v y n E x' t' y' I' : cache a I L -> v ∈ L -> node a I v y n -> changed E (a_fs a) (a_sect a) y I x' t' y' I' -> cache (evolve a v x' t' y') I' L.
Proof.
  intros Hc Hv Hn [A1 A2 A3 A4 A5 A6 A7 A8 A9]. eapply (cache_evolve f a I L v y n); try done; [by rewrite (fst_vnodes _ _ A1)| |].
  - destruct A5 as [->|]; [|by left]. destruct (sv_dirty y) eqn:Hd; [by left|]. right. rewrite (A8 _ _ (nd_inode _ _ _ _ _ _ Hn)). by apply (nd_clean _ _ _ _ _ _ Hn).
  - intros ino i Hi _. by eapply A8.
Qed.
Lemma node_changed a I v y n E x' t' y' I' : node a I v y n -> changed E (a_fs a) (a_sect a) y I x' t' y' I' -> node (evolve a v x' t' y') I' v y' n.
Proof.
  intros [N1 N2 N3 N4 N5 N6 N7 N8 N9] [A1 A2 A3 A4 A5 A6 A7 A8 A9]. split; try done; cbn; [apply lookup_insert_eq|rewrite A2, A6; apply lookup_insert_eq|unfold ops_ok in *; by rewrite A4, A3|].
  intros Hcl. destruct A5 as [->|]; [|congruence]. rewrite (A8 _ _ N7). by apply N9.
Qed.
Lemma ino_evolve a I v y n w x' t' y' : node a I v y n -> sv_ino y' = sv_ino y -> ino_of (evolve a v x' t' y') w = ino_of a w.
Proof. intros Hn Hi. unfold ino_of. cbn. destruct (decide (w = v)) as [->|]; [by rewrite lookup_insert_eq, (nd_sv _ _ _ _ _ _ Hn)|by rewrite lookup_insert_ne]. Qed.
Lemma handle_evolve a I v y n L w x' t' y' : node a I v y n -> sv_ino y' = sv_ino y -> handle (evolve a v x' t' y') L w = handle a L w.
Proof. intros Hn Hi. unfold handle. by rewrite (ino_evolve a I v y n w x' t' y' Hn Hi). Qed.

(** A file changes. *)
Lemma fs_file a I L N v y n x' t' y' I' : fs_ok a I L N -> v ∈ L -> node a I v y n -> sv_ino y <> 1 -> changed [] (a_fs a) (a_sect a) y I x' t' y' I' -> sfi_linkcount (sv_i y') = sfi_linkcount (sv_i y) -> fs_ok (evolve a v x' t' y') I' L N.
Proof.
  intros Ho Hv Hn H1 Hc Hl. pose proof Ho as [O1 O2 O3 (r & R1 & R2 & R3 & R4) O5 O6 O7]. pose proof Hc as [A1 A2 A3 A4 A5 A6 A7 A8 A9 A10]. split; [done|by eapply cache_changed|cbn; by rewrite (fst_device _ _ A1)| | | |by eapply meta_step].
  - exists r. rewrite A6, lookup_insert_ne by done. pose proof (fun k => A7 1 r R1 (not_eq_sym H1) k) as Hf. split; [done|]. split; [by eapply dir_same|]. split; [by eapply lists_same|done].
  - intros name ino HN. destruct (O5 name ino HN) as [Hi1 Hi2]. split; [done|]. rewrite A6. destruct (decide (sv_ino y = ino)) as [->|]; [rewrite lookup_insert_eq; by eexists|by rewrite lookup_insert_ne].
  - intros ino i. setoid_rewrite (fun w => ino_evolve a I v y n w x' t' y' Hn A2). rewrite A6, lookup_insert_Some. intros [[<- <-]|[Hne Hi]] Hi1; [|by apply O6]. destruct (O6 _ _ (nd_inode _ _ _ _ _ _ Hn) Hi1) as (F1 & F2 & F3). split; [congruence|]. split; [congruence|done].
Qed.
(** The directory changes and still has the same names. *)
Lemma fs_dir a I L N v y n x' t' y' I' : fs_ok a I L N -> v ∈ L -> node a I v y n -> sv_ino y = 1 -> changed [] (a_fs a) (a_sect a) y I x' t' y' I' -> sfi_linkcount (sv_i y') = sfi_linkcount (sv_i y) ->
  dir_ok t' (sv_i y') -> lists t' (sv_i y') N -> fs_ok (evolve a v x' t' y') I' L N.
Proof.
  intros Ho Hv Hn H1 Hc Hl Hdir HL. pose proof Ho as [O1 O2 O3 (r & R1 & R2 & R3 & R4) O5 O6 O7]. pose proof Hc as [A1 A2 A3 A4 A5 A6 A7 A8 A9 A10]. rewrite H1 in *. assert (r = sv_i y) as -> by (pose proof (nd_inode _ _ _ _ _ _ Hn); congruence).
  split; [done|by eapply cache_changed|cbn; by rewrite (fst_device _ _ A1)| | | |by eapply meta_step].
  - exists (sv_i y'). rewrite A6, lookup_insert_eq. split; [done|]. split; [done|]. split; [done|congruence].
  - intros name ino HN. destruct (O5 name ino HN) as [Hi1 Hi2]. split; [done|]. by rewrite A6, lookup_insert_ne.
  - intros ino i. setoid_rewrite (fun w => ino_evolve a I v y n w x' t' y' Hn (eq_trans A2 (eq_sym H1))). rewrite A6, lookup_insert_Some. intros [[<- <-]|[Hne Hi]] Hi1; [done|by apply O6].
Qed.

(** Another vnode *)
Lemma node_other a I v y n d yd nd E x' t' yd' I' : node a I v y n -> node a I d yd nd -> sv_ino y <> sv_ino yd -> changed E (a_fs a) (a_sect a) yd I x' t' yd' I' -> node (evolve a d x' t' yd') I' v y n.
Proof.
  intros [N1 N2 N3 N4 N5 N6 N7 N8 N9] Hd Hne [A1 A2 A3 A4 A5 A6 A7 A8 A9]. assert (v <> d) as Hvd. { intros ->. apply Hne. pose proof (nd_sv _ _ _ _ _ _ Hd). congruence. }
  split; try done; cbn; [by rewrite lookup_insert_ne|by rewrite A6, lookup_insert_ne by congruence|]. intros Hcl. rewrite (A8 _ _ N7). by apply N9.
Qed.
(** The directory and the link count of one file change together. *)
Lemma fs_relink a I L N d yd nd k e x' t' yd' I1 v y n N' : fs_ok a I L N -> d ∈ L -> node a I d yd nd -> sv_ino yd = 1 -> edited ns [] k e (a_fs a) (a_sect a) yd I x' t' yd' I1 -> dir_ok t' (sv_i yd') -> lists t' (sv_i yd') N' ->
  v ∈ L -> node a I v y n -> sv_ino y <> 1 -> (forall ino, ino <> sv_ino y -> nlinks N' ino = nlinks N ino) -> (forall name ino, N' !! name = Some ino -> ino = sv_ino y \/ N !! name = Some ino) ->
  let y2 := put_i y (set_linkcount (nlinks N' (sv_ino y)) (sv_i y)) in fs_ok (evolve (evolve a d x' t' yd') v x' t' y2) (<[sv_ino y := sv_i y2]> I1) L N'.
Proof.
  intros Ho Hd Hnd Hd1 Hed Hdir HL Hv Hn H1 Hcnt Hnm y2. pose proof (edited_changed _ _ _ _ _ _ _ _ _ _ _ Hed) as Hc. pose proof Ho as [O1 O2 O3 (r & R1 & R2 & R3 & R4) O5 O6 O7]. pose proof Hc as [A1 A2 A3 A4 A5 A6 A7 A8 A9 A10]. rewrite Hd1 in *.
  assert (r = sv_i yd) as -> by (pose proof (nd_inode _ _ _ _ _ _ Hnd); congruence). assert (node (evolve a d x' t' yd') I1 v y n) as Hn1 by (eapply node_other; [done|done|congruence|done]).
  assert (I1 !! 1 = Some (sv_i yd')) as HI1 by (by rewrite A6, lookup_insert_eq). assert (0 <= nlinks N' (sv_ino y) < 2 ^ 16) as Hb.
  { pose proof (nlinks_size N' (sv_ino y)). pose proof (lists_size _ _ _ HL). pose proof (di_size _ (so_inodes _ _ _ _ _ A9 _ _ HI1)) as Hs. unfold MAXSIZE in Hs. pose proof (do_size _ _ Hdir). lia. }
  pose proof (link_changed [] x' t' y I1 _ A9 (nd_inode _ _ _ _ _ _ Hn1) Hb) as Hc2. fold y2 in Hc2. assert (cache (evolve a d x' t' yd') I1 L) as Hca by (by eapply cache_changed).
  split; [apply Hc2|by eapply cache_changed|cbn; by rewrite (fst_device _ _ A1)| | | |by eapply meta_step].
  - exists (sv_i yd'). rewrite lookup_insert_ne by done. split; [done|]. split; [done|]. split; [done|]. by rewrite (ed_link _ _ _ _ _ _ _ _ _ _ _ _ Hed).
  - intros name ino HN. destruct (Hnm name ino HN) as [->|HN0]; [rewrite lookup_insert_eq; split; [done|by eexists]|]. destruct (O5 name ino HN0) as [Hi1 Hi2]. split; [done|]. destruct (decide (sv_ino y = ino)) as [->|]; [rewrite lookup_insert_eq; by eexists|]. by rewrite lookup_insert_ne, A6, lookup_insert_ne.
  - intros ino i. setoid_rewrite (fun w => ino_evolve (evolve a d x' t' yd') I1 v y n w x' t' y2 Hn1 eq_refl). setoid_rewrite (fun w => ino_evolve a I d yd nd w x' t' yd' Hnd (eq_trans A2 (eq_sym Hd1))). rewrite lookup_insert_Some. intros [[<- <-]|[Hne Hi]] Hi1.
    + cbn. split; [by eapply O6; [apply (nd_inode _ _ _ _ _ _ Hn)|]|]. split; [done|]. intros _. exists v. split; [done|]. by apply (node_ino f a I v y n).
    + rewrite Hcnt by done. rewrite A6, lookup_insert_ne in Hi by done. by apply O6.
Qed.

(** ** Views that differ in the lock or in the memory *)

Lemma cache_view a a' I L : a_fs a' = a_fs a -> a_sect a' = a_sect a -> a_svs a' = a_svs a -> a_nodes a' = a_nodes a -> a_next a' = a_next a -> cache a I L -> cache a' I L.
Proof.
  intros E1 E2 E3 E4 E5 [C1 C2 C3 C4 C5 C6 C7 C8]. assert (forall v, ino_of a' v = ino_of a v) as Hi by (intros v; unfold ino_of; by rewrite E3). split; try done; [by rewrite E1|by rewrite E1| | | |by rewrite E5|intros u; rewrite E5, E4; apply C8].
  - intros v Hv. destruct (C4 v Hv) as (y & n & [N1 N2 N3 N4 N5 N6 N7 N8 N9]). exists y, n. split; try done; [by rewrite E5|by rewrite E3|by rewrite E4|by rewrite E2].
  - intros v w. rewrite !Hi. apply C5.
  - intros ino i Hino. setoid_rewrite Hi. rewrite E2. by apply C6.
Qed.
Lemma repr_view a a' I L A : a_fs a' = a_fs a -> a_sect a' = a_sect a -> a_svs a' = a_svs a -> a_nodes a' = a_nodes a -> a_next a' = a_next a -> repr a I L A -> repr a' I L (AState (s_names A) (s_files A) (s_handles A) (a_mem a') (s_free A)).
Proof.
  intros E1 E2 E3 E4 E5 [[O1 O2 O3 O4 O5 O6 O7] R2 R3 R4 R5]. split; cbn [s_names s_files s_handles s_mem s_free]; [|intros v; rewrite R2; unfold handle, ino_of, refs; by rewrite E3, E4|by rewrite E2|reflexivity|rewrite R5; unfold free_blocks; by rewrite E1, E2].
  split; [by rewrite E1, E2|by eapply cache_view|by rewrite E1|by rewrite E2|exact O5| |by rewrite E1, E2]. intros ino i Hi H1. destruct (O6 ino i Hi H1) as (F1 & F2 & F3). split; [done|]. split; [done|]. unfold ino_of. rewrite E3. apply F3.
Qed.
End Vol.
End SfsVol.

(** * The operations of the volume

    What the operations of vnodes and of the file system do to the state that a
    user sees. *)


Module SfsOps.
Import Vfs Lhd LhdSpec Sfs SfsSpec SfsMap SfsBmap SfsTrunc SfsUio SfsIo SfsWrite SfsDir SfsNames SfsCache SfsVol.

(** ** References *)

(** One more reference to the vnode [v] of [ino], which is new if there was none *)
Definition takes (H : gmap Z (Z * Z)) (ino v : Z) (H' : gmap Z (Z * Z)) : Prop :=
  (exists c, H !! v = Some (ino, c) /\ H' = <[v := (ino, c + 1)]> H) \/ H !! v = None /\ (forall w c, H !! w <> Some (ino, c)) /\ H' = <[v := (ino, 1)]> H.
(** One reference less; a file with no name goes with the last one. *)
Definition drop_handles (H : gmap Z (Z * Z)) (v : Z) : gmap Z (Z * Z) :=
  match H !! v with Some (ino, c) => if 1 <? c then <[v := (ino, c - 1)]> H else delete v H | None => H end.
Definition drop_files (N : gmap (list Z) Z) (H : gmap Z (Z * Z)) (F : gmap Z afile) (v : Z) : gmap Z afile :=
  match H !! v with Some (ino, c) => if (c =? 1) && (nlinks N ino =? 0) then delete ino F else F | None => F end.

Section Ops.
Context {D : Type} `{W : DiskSpec D}.
Context (f dev ns : Z).
Abbreviation vwp := (vwp (D := D) f dev ns).
Abbreviation space_ok := (space_ok ns).
Abbreviation cache := (cache f).
Abbreviation node := (node f).
Abbreviation fs_ok := (vol_ok f dev ns []).
Abbreviation repr := (repr f dev ns).
Definition rest a a' : Prop := a_depth a' = a_depth a /\ a_space a' = a_space a.

Lemma handle_in a L v p : handle a L v = Some p -> v ∈ L /\ p = (ino_of a v, refs a v).
Proof using . unfold handle. case_decide; [|done]. by intros [= <-]. Qed.
Lemma node_refs a I v y n : node a I v y n -> refs a v = vn_refcount n.
Proof using . intros Hn. unfold refs. by rewrite (nd_vn _ _ _ _ _ _ Hn). Qed.
Lemma repr_node a I L A v ino c : repr a I L A -> s_handles A !! v = Some (ino, c) -> exists y n, v ∈ L /\ node a I v y n /\ sv_ino y = ino /\ vn_refcount n = c.
Proof using .
  intros Hr Hv. rewrite (re_handles _ _ _ _ _ _ _ Hr) in Hv. apply handle_in in Hv as [Hin [= -> ->]]. destruct (ca_node _ _ _ _ (ok_cache _ _ _ _ _ _ _ _ (re_ok _ _ _ _ _ _ _ Hr)) v Hin) as (y & n & Hn).
  exists y, n. split; [done|]. split; [done|]. by rewrite (node_ino _ _ _ _ _ _ Hn), (node_refs _ _ _ _ _ Hn).
Qed.
Lemma taken_takes a L (T : gmap Z (Z * Z)) v ino a' I' L' T' : (forall w, T !! w = handle a L w) -> taken a L v ino a' L' -> cache a' I' L' -> (forall w, T' !! w = handle a' L' w) -> takes T ino v T'.
Proof using .
  intros Hr Ht Hc HH. pose proof (tk_handle _ _ _ _ _ _ Ht) as Hh. assert (forall w, w <> v -> T' !! w = T !! w) as Hw by (intros w Hw; rewrite HH, Hh, decide_False, Hr by done; done).
  assert (handle a' L' v = Some (ino, 1 + if decide (v ∈ L) then refs a v else 0)) as Hv by (rewrite Hh; by rewrite decide_True).
  assert (forall q, T' !! v = Some q -> T' = <[v := q]> T) as HI. { intros q Hq. apply map_eq. intros w. destruct (decide (w = v)) as [->|]; [by rewrite lookup_insert_eq|]. rewrite lookup_insert_ne by done. by apply Hw. }
  destruct (decide (v ∈ L)) as [Hin|Hin].
  - left. exists (refs a v). split; [|rewrite Z.add_comm; apply HI; by rewrite HH]. rewrite Hr. unfold handle. rewrite decide_True by done. by rewrite (tk_same _ _ _ _ _ _ Ht).
  - right. split; [rewrite Hr; unfold handle; by rewrite decide_False|]. split; [|apply HI; by rewrite HH].
    intros w c Hwc. assert (w <> v) as Hne. { intros ->. rewrite Hr in Hwc. by apply handle_in in Hwc as [? _]. }
    rewrite <- Hw, HH in Hwc by done. apply handle_in in Hwc as [Hin2 [= Hi _]]. apply handle_in in Hv as [Hin3 [= Hi3 _]]. apply Hne, (ca_inj _ _ _ _ Hc); [done|done|congruence].
Qed.

(** ** VOP_DECREF *)

Lemma space_array x t I E arr : space_ok x t I E -> space_ok (with_array arr x) t I E.
Proof using . by intros []. Qed.

Lemma meta_array x t arr : meta_ok x t -> meta_ok (with_array arr x) t.
Proof using . by intros []. Qed.
(** sfs_reclaim of the last reference, after the inode was written back: what
    is left of the state *)
Record reclaimed a I L v y a' I' L' : Prop := {
  rc_ok : space_ok (a_fs a') (a_sect a') I' []; rc_cache : cache a' I' L'; rc_dev : sfs_device (a_fs a') = sfs_device (a_fs a); rc_handle : forall w, handle a' L' w = if decide (w = v) then None else handle a L w;
  rc_inodes : I' = if sfi_linkcount (sv_i y) =? 0 then delete (sv_ino y) I else I; rc_files : forall ino i, I' !! ino = Some i -> forall k, fblock (a_sect a') i k = fblock (a_sect a) i k;
  rc_rest : rest a a'; rc_mem : a_mem a' = a_mem a; rc_meta : meta_ok (a_fs a) (a_sect a) -> meta_ok (a_fs a') (a_sect a')
}.
(** The inode to be dropped has no blocks of its own left. *)
Lemma space_drop x t I ino i : space_ok x t I [] -> I !! ino = Some i -> file_blocks t i = [] -> space_ok x t (delete ino I) [ino].
Proof using .
  intros Ho Hi Hb. eapply space_moves; [exact Ho| |].
  - rewrite (owned_delete t I ino i Hi), Hb. done.
  - intros ino2 i2. rewrite lookup_delete_Some. intros [_ H2]. by eapply so_inodes.
Qed.
(** The file is emptied when it has no name. *)
Lemma vwp_empty a I L v y n (Q : res unit -> view -> Prop) : space_ok (a_fs a) (a_sect a) I [] -> cache a I L -> sfs_device (a_fs a) = dev -> v ∈ L -> node a I v y n ->
  (forall x' t' y' I', changed ns [] (a_fs a) (a_sect a) y I x' t' y' I' -> sfi_linkcount (sv_i y') = sfi_linkcount (sv_i y) -> (sfi_linkcount (sv_i y) = 0 -> file_blocks t' (sv_i y') = []) -> (sfi_linkcount (sv_i y) <> 0 -> t' = a_sect a /\ y' = y /\ I' = I) -> Q (Done tt) (evolve a v x' t' y')) ->
  vwp (if sfi_linkcount (sv_i y) =? 0 then sfs_itrunc v 0 else mret (Done tt)) a Q.
Proof.
  intros Ho Hc Hd Hv Hn HQ. pose proof Hn as [N1 N2 N3 N4 N5 N6 N7 N8 N9]. rewrite <- (evolve_id a v y N2). destruct (Z.eqb_spec (sfi_linkcount (sv_i y)) 0) as [H0|H0].
  - eapply (vwp_itrunc f dev ns a v n (a_fs a) (a_sect a) y I [] 0); [lia|done|done|done|done|done|unfold MAXSIZE; lia|]. intros x' t' y' Ht. eapply HQ; [by eapply truncated_changed|apply (tr_link _ _ _ _ _ _ _ _ _ _ _ Ht)|intros _; by apply (tr_empty _ _ _ _ _ _ _ _ _ _ _ Ht)|done].
  - apply vwp_ret. eapply HQ; [|done|done|done]. split; try done; [by left|by rewrite insert_id].
Qed.
Lemma vwp_reclaim a I L v y n (Q : res unit -> view -> Prop) : space_ok (a_fs a) (a_sect a) I [] -> cache a I L -> sfs_device (a_fs a) = dev -> v ∈ L -> node a I v y n -> vn_refcount n = 1 ->
  (forall a' I' L', reclaimed a I L v y a' I' L' -> Q (Done tt) a') -> vwp (sfs_reclaim v) a Q.
Proof.
  intros Ho Hc Hd Hv Hn Hr HQ. pose proof Hn as [N1 N2 N3 N4 N5 N6 N7 N8 N9]. assert (v <> 0) as Hv0 by lia. unfold sfs_reclaim, fs_of. apply vwp_bind, vwp_bind. eapply vwp_get_vnode; [done|exact N3|]. apply vwp_ret. rewrite N4.
  apply vwp_depth. intros Hdep. apply vwp_locked. set (a1 := with_depth (a_depth a + 1) a). assert (cache a1 I L) as Hc1 by (by apply (cache_view f a)). assert (node a1 I v y n) as Hn1 by (by split).
  apply vwp_bind. eapply vwp_get_vnode; [done|exact N3|]. rewrite Hr. cbn [Z.eqb negb Pos.eqb]. apply vwp_bind. eapply vwp_get_sv; [done|exact N2|]. apply vwp_bind.
  apply (vwp_empty a1 I L v y n); [done..|]. intros x2 t2 y2 I2 Hch Hl2 Hb2 Hsame. set (a2 := evolve a1 v x2 t2 y2). pose proof (cache_changed f ns a1 I L v y n [] x2 t2 y2 I2 Hc1 Hv Hn1 Hch) as Hc2. pose proof (node_changed f ns a1 I v y n [] x2 t2 y2 I2 Hn1 Hch) as Hn2.
  pose proof Hch as [A1 A2 A3 A4 A5 A6 A7 A8 A9 A10]. apply vwp_bind. eapply (vwp_sync_inode f dev ns [] a2 I2 L v y2 n); [exact A9|done|done|done|cbn; by rewrite (fst_device _ _ A1)|cbn; lia|]. intros t3 Ho3 Hs3 Hf3 Hi3 Hr3 Hc3. set (a3 := evolve a2 v (a_fs a2) t3 (clean y2)) in *.
  apply vwp_bind. eapply vwp_get_sv; [done|apply lookup_insert_eq|]. cbn [clean sv_i sv_ino]. rewrite Hl2, A2. set (I' := if sfi_linkcount (sv_i y) =? 0 then delete (sv_ino y) I else I).
  assert (I2 !! sv_ino y = Some (sv_i y2)) as Hy2 by (rewrite A6; apply lookup_insert_eq). assert (node a3 I2 v (clean y2) n) as Hn3. { destruct Hn2. split; try done. cbn. apply lookup_insert_eq. }
  apply vwp_bind. assert (vwp (if sfi_linkcount (sv_i y) =? 0 then sfs_bfree f (sv_ino y) else mret tt) a3 (fun _ a4 => exists x4, fs_step x2 x4 /\ space_ok x4 t3 I' [] /\ a4 = with_fs x4 a3)) as Hfree.
  { unfold I'. destruct (Z.eqb_spec (sfi_linkcount (sv_i y)) 0) as [H0|H0].
    - eapply (vwp_bfree f dev ns a3 (delete (sv_ino y) I) [] (sv_ino y)).
      + assert (delete (sv_ino y) I = delete (sv_ino y) I2) as -> by (rewrite A6; by rewrite delete_insert_eq). eapply space_drop; [exact Ho3|exact Hy2|]. destruct (Hf3 _ _ Hy2) as [Hfb _]. exact (eq_trans Hfb (Hb2 H0)).
      + intros x4 Hst _ Ho4. by exists x4.
    - apply vwp_ret. exists x2. split; [done|]. destruct (Hsame H0) as (-> & -> & ->). by split. }
  eapply vwp_mono; [exact Hfree|]. intros _ a4 (x4 & Hst4 & Ho4 & ->). eapply (vwp_drop f dev ns (with_fs x4 a3) I2 I' L v (clean y2) n); [apply cache_fs; [by apply fst_vnodes|exact Hc3]|done|destruct Hn3; by split|done|cbn; lia| | |].
  - intros ino Hne. cbn [clean sv_ino] in Hne. rewrite A2 in Hne. rewrite A6, lookup_insert_ne by done. unfold I'. destruct (_ =? 0); [by rewrite lookup_delete_ne|done].
  - cbn [clean sv_ino]. rewrite A2. intros i. unfold I'. destruct (Z.eqb_spec (sfi_linkcount (sv_i y)) 0) as [H0|H0]; [by rewrite lookup_delete_eq|]. destruct (Hsame H0) as (_ & -> & _). rewrite N7. intros [= <-]. exact Hr3.
  - intros arr L' Hc' Hh'. eapply (HQ _ I' L'). split; [by apply space_array|by apply (cache_view f (without (with_fs x4 a3) v arr))|cbn; by rewrite (fst_device _ _ Hst4), (fst_device _ _ A1)| |done| |split; cbn; [lia|done]|done|intros Hm; apply meta_array, (meta_step x2 x4 t2); [done|done|by eapply meta_step]].
    + intros w. transitivity (handle (without (with_fs x4 a3) v arr) L' w); [done|]. rewrite Hh'. destruct (decide (w = v)); [done|]. transitivity (handle a3 L w); [done|].
      unfold a3. rewrite (handle_evolve f a2 I2 v y2 n L w _ _ (clean y2) Hn2 eq_refl). unfold a2. by rewrite (handle_evolve f a1 I v y n L w _ _ y2 Hn1 A2).
    + intros ino i Hi k. change (fblock t3 i k = fblock (a_sect a) i k). unfold I' in Hi. destruct (Z.eqb_spec (sfi_linkcount (sv_i y)) 0) as [H0|H0].
      * apply lookup_delete_Some in Hi as [Hne Hi]. transitivity (fblock t2 i k); [|by apply (A7 ino)]. apply (Hf3 ino). by rewrite A6, lookup_insert_ne.
      * destruct (Hsame H0) as (E1 & _ & E3). change (same_files t2 t3 I2) in Hf3. rewrite E1, E3 in Hf3. by apply (Hf3 ino).
Qed.

(** The invariant after a vnode was dropped *)
Lemma reclaimed_ok a I L N v y n a' I' L' : fs_ok a I L N -> v ∈ L -> node a I v y n -> reclaimed a I L v y a' I' L' -> fs_ok a' I' L' N.
Proof using .
  intros Ho Hv Hn [R1 R2 R3 R4 R5 R6 R7 R8 R9]. pose proof Ho as [O1 O2 O3 (r & S1 & S2 & S3 & S4) O5 O6 O7]. pose proof (nd_inode _ _ _ _ _ _ Hn) as Hi. assert (sv_ino y = 1 -> sfi_linkcount (sv_i y) <> 0) as Hroot by (intros He; rewrite He in Hi; congruence).
  assert (forall ino i, I' !! ino = Some i -> I !! ino = Some i) as Hsub. { intros ino i. rewrite R5. destruct (_ =? 0); [|done]. rewrite lookup_delete_Some. by intros []. }
  assert (forall ino, ino <> sv_ino y \/ sfi_linkcount (sv_i y) <> 0 -> I' !! ino = I !! ino) as Hkeep. { intros ino Hc. rewrite R5. destruct (Z.eqb_spec (sfi_linkcount (sv_i y)) 0); [|done]. rewrite lookup_delete_ne; [done|]. intros <-. by destruct Hc. }
  assert (I' !! 1 = Some r) as Hr1 by (rewrite Hkeep; [done|]; destruct (decide (1 = sv_ino y)); [right; by apply Hroot|by left]). split; [done|done|congruence| | | |by apply R9].
  - exists r. split; [done|]. split; [by eapply dir_same; [..|by apply (R6 1)]|]. split; [by eapply lists_same; [..|by apply (R6 1)]|done].
  - intros name ino HN. destruct (O5 name ino HN) as [H1 H2]. split; [done|]. rewrite Hkeep; [done|]. destruct (decide (ino = sv_ino y)) as [->|]; [|by left]. right. destruct (O6 _ _ Hi H1) as (_ & -> & _). pose proof (nlinks_pos _ _ _ HN). lia.
  - intros ino i Hi' H1. destruct (O6 ino i (Hsub _ _ Hi') H1) as (F1 & F2 & F3). split; [done|]. split; [done|]. intros H0. destruct (F3 H0) as (w & Hw & Hwi). assert (w <> v) as Hne.
    { intros ->. rewrite (node_ino _ _ _ _ _ _ Hn) in Hwi. subst ino. assert (sfi_linkcount (sv_i y) = 0) as Hz by (rewrite (Hsub _ _ Hi') in Hi; congruence). rewrite R5, Hz in Hi'. cbn [Z.eqb] in Hi'. by rewrite lookup_delete_eq in Hi'. }
    pose proof (R4 w) as Hh. rewrite decide_False in Hh by done. unfold handle at 2 in Hh. rewrite decide_True in Hh by done. apply handle_in in Hh as [Hin [= He _]]. exists w. split; [done|congruence].
Qed.
Lemma reclaimed_files a I L N v y n a' I' L' : fs_ok a I L N -> v ∈ L -> node a I v y n -> reclaimed a I L v y a' I' L' -> files (a_sect a') I' = if nlinks N (sv_ino y) =? 0 then delete (sv_ino y) (files (a_sect a) I) else files (a_sect a) I.
Proof using .
  intros Ho Hv Hn [R1 R2 R3 R4 R5 R6 R7 R8]. pose proof (nd_inode _ _ _ _ _ _ Hn) as Hi. rewrite (files_same (a_sect a) (a_sect a') I') by (intros ino i Hi' _; by apply (R6 ino)).
  assert (sv_ino y <> 1 -> sfi_linkcount (sv_i y) = nlinks N (sv_ino y)) as Hl by (intros H1; by apply (ok_files _ _ _ _ _ _ _ _ Ho)).
  rewrite R5. destruct (decide (sv_ino y = 1)) as [H1|H1].
  - assert (sfi_linkcount (sv_i y) <> 0) as H0. { destruct (ok_root _ _ _ _ _ _ _ _ Ho) as (r & S1 & _ & _ & S4). rewrite H1 in Hi. congruence. }
    rewrite (proj2 (Z.eqb_neq _ _) H0), H1. destruct (nlinks N 1 =? 0); [|reflexivity]. rewrite delete_id; [reflexivity|]. by rewrite files_lookup.
  - rewrite (Hl H1). destruct (nlinks N (sv_ino y) =? 0); [|reflexivity]. apply map_eq. intros ino. rewrite files_lookup. destruct (decide (ino = sv_ino y)) as [->|Hne].
    + by rewrite !lookup_delete_eq, decide_False.
    + by rewrite !lookup_delete_ne, files_lookup.
Qed.
Lemma vwp_decref a I L A v ino c (Q : unit -> view -> Prop) (B : Backend (sfs_state D)) : fop_reclaim v = sfs_reclaim v -> repr a I L A -> s_handles A !! v = Some (ino, c) ->
  (forall a' I' L' A', repr a' I' L' A' -> rest a a' -> A' = AState (s_names A) (drop_files (s_names A) (s_handles A) (s_files A) v) (drop_handles (s_handles A) v) (s_mem A) (s_free A') -> Q tt a') -> vwp (Vfs.VOP_DECREF (H := B) v) a Q.
Proof.
  intros HB Hr Hv HQ. destruct (repr_node _ _ _ _ _ _ _ Hr Hv) as (y & n & Hin & Hn & Hy & Hc). pose proof Hn as [N1 N2 N3 N4 N5 N6 N7 N8 N9]. pose proof Hr as [O1 O2 O3 O4 O5]. unfold VOP_DECREF, vnode_decref.
  apply vwp_bind, vwp_kassert; [by destruct (Z.eqb_spec v 0); [lia|]|]. apply vwp_bind. eapply vwp_get_vnode; [lia|exact N3|]. apply vwp_bind, vwp_kassert; [by apply Z.gtb_lt|]. rewrite Hc, Z.gtb_ltb. destruct (Z.ltb_spec 1 c) as [Hc1|Hc1].
  - apply vwp_put_vnode. set (a' := with_refs a v n (c - 1)). eapply (HQ a' I L (AState (s_names A) (drop_files (s_names A) (s_handles A) (s_files A) v) (drop_handles (s_handles A) v) (s_mem A) (free_blocks a' I))); [|done|done]. unfold drop_files, drop_handles. rewrite Hv.
    rewrite (proj2 (Z.ltb_lt _ _) Hc1), (proj2 (Z.eqb_neq c 1)) by lia. cbn [andb]. split; cbn [s_names s_files s_handles s_mem s_free]; [|intros w|exact O3|exact O4|reflexivity].
    + destruct O1 as [P1 P2 P3 P4 P5 P6]. split; try done. eapply cache_refs; [done|done|done|lia].
    + unfold handle. destruct (decide (w = v)) as [->|Hne].
      * rewrite lookup_insert_eq, decide_True by done. unfold refs. cbn. rewrite lookup_insert_eq. cbn. f_equal. f_equal. unfold ino_of. cbn. by rewrite N2.
      * rewrite lookup_insert_ne, O2 by done. unfold handle, refs. cbn. by rewrite lookup_insert_ne.
  - assert (c = 1) as -> by lia. unfold VOP_RECLAIM, vnode_check. apply vwp_bind, vwp_bind. rewrite (proj2 (Z.eqb_neq v 0)) by lia. apply vwp_bind. eapply vwp_get_vnode; [lia|exact N3|]. rewrite N5. apply vwp_bind, vwp_kassert; [done|]. apply vwp_bind, vwp_kassert; [by apply Z.gtb_lt|]. apply vwp_ret. rewrite N5, HB.
    destruct O1 as [P1 P2 P3 P4 P5 P6]. eapply (vwp_reclaim a I L v y n); [done|done|done|done|done|lia|]. intros a' I' L' Hrc. apply vwp_ret. pose proof (reclaimed_ok _ _ _ _ _ _ _ _ _ _ (re_ok _ _ _ _ _ _ _ Hr) Hin Hn Hrc) as Ho'.
    eapply (HQ a' I' L' (AState (s_names A) _ _ (s_mem A) (free_blocks a' I'))); [|apply Hrc|reflexivity]. split; cbn [s_names s_files s_handles s_mem s_free]; [done| | | |reflexivity].
    + intros w. rewrite (rc_handle _ _ _ _ _ _ _ _ Hrc). unfold drop_handles. rewrite Hv. cbn [Z.ltb Z.compare Pos.compare Pos.compare_cont]. destruct (decide (w = v)) as [->|]; [by rewrite lookup_delete_eq|by rewrite lookup_delete_ne, O2].
    + rewrite (reclaimed_files _ _ _ _ _ _ _ _ _ _ (re_ok _ _ _ _ _ _ _ Hr) Hin Hn Hrc), <- O3, Hy. unfold drop_files. rewrite Hv. done.
    + by rewrite (rc_mem _ _ _ _ _ _ _ _ Hrc).
Qed.

(** ** Loading *)

Lemma taken_in a L v ino a' L' w : taken a L v ino a' L' -> w ∈ L -> w ∈ L' /\ ino_of a' w = ino_of a w.
Proof using .
  intros Ht Hw. pose proof (tk_handle _ _ _ _ _ _ Ht w) as Hh. destruct (decide (w = v)) as [->|Hne].
  - apply handle_in in Hh as [Hin [= Hi _]]. split; [done|]. by rewrite (tk_same _ _ _ _ _ _ Ht).
  - unfold handle at 2 in Hh. rewrite decide_True in Hh by done. apply handle_in in Hh as [Hin [= Hi _]]. by split.
Qed.
(** The invariant when a vnode was taken, perhaps for a new file *)
Lemma taken_ok E E' a I L N v ino a' I' L' : vol_ok f dev ns E a I L N -> taken a L v ino a' L' -> cache a' I' L' -> space_ok (a_fs a) (a_sect a) I' E' -> (forall ino2, ino2 <> ino -> I' !! ino2 = I !! ino2) ->
  I' !! ino = I !! ino \/ ino <> 1 /\ I' !! ino = Some (set_type SFS_TYPE_FILE blank) /\ nlinks N ino = 0 -> vol_ok f dev ns E' a' I' L' N.
Proof using .
  intros [O1 O2 O3 (r & S1 & S2 & S3 & S4) O5 O6 O7] Ht Hc Hsp HI Hino. destruct (tk_fs _ _ _ _ _ _ Ht) as [arr Hfs]. pose proof (tk_sect _ _ _ _ _ _ Ht) as Hse. split; [rewrite Hfs, Hse; by apply space_array|done|by rewrite Hfs| | | |rewrite Hfs, Hse; by apply meta_array].
  - exists r. rewrite Hse. split; [|done]. destruct (decide (1 = ino)) as [<-|]; [|by rewrite HI]. by destruct Hino as [->|[? _]].
  - intros name ino2 HN. destruct (O5 name ino2 HN) as [H1 H2]. split; [done|]. destruct (decide (ino2 = ino)) as [->|]; [|by rewrite HI]. destruct Hino as [->|(_ & -> & _)]; [done|by eexists].
  - intros ino2 i Hi H1. assert (I !! ino2 = Some i \/ ino2 = ino /\ i = set_type SFS_TYPE_FILE blank /\ nlinks N ino = 0) as [Ho|(-> & -> & H0)]. { destruct (decide (ino2 = ino)) as [->|]; [|left; by rewrite <- HI]. destruct Hino as [He|(_ & He & H0)]; [left; congruence|right; split; [done|split; [congruence|done]]]. }
    + destruct (O6 ino2 i Ho H1) as (F1 & F2 & F3). split; [done|]. split; [done|]. intros H0. destruct (F3 H0) as (w & Hw & Hwi). destruct (taken_in _ _ _ _ _ _ w Ht Hw) as [Hw2 Hw3]. exists w. split; [done|congruence].
    + split; [done|]. split; [done|]. intros _. exists v. split; [apply Ht|]. pose proof (tk_handle _ _ _ _ _ _ Ht v) as Hh. rewrite decide_True in Hh by done. by apply handle_in in Hh as [_ [= <- _]].
Qed.
Lemma repr_next a I L A k : repr a I L A -> a_next a <= k -> repr (with_next k a) I L A.
Proof using . intros [[O1 O2 O3 O4 O5 O6 O7] R2 R3 R4 R5] Hk. split; try assumption. split; try assumption. by apply cache_next. Qed.

(** The maps of references agree with the table of vnodes. *)
Definition handles a L : gmap Z (Z * Z) := list_to_map ((fun v => (v, (ino_of a v, refs a v))) <$> L).
Lemma handles_lookup a L v : NoDup L -> handles a L !! v = handle a L v.
Proof using .
  intros Hn. unfold handle. case_decide as Hin.
  - apply elem_of_list_to_map_1; [|apply list_elem_of_fmap; by exists v]. rewrite <- list_fmap_compose. unfold compose. cbn. by rewrite list_fmap_id.
  - apply not_elem_of_list_to_map_1. rewrite <- list_fmap_compose. unfold compose. cbn. by rewrite list_fmap_id.
Qed.

(** sfs_loadvnode of an inode in use *)
Lemma vwp_get a I L A ino i (Q : res Z -> view -> Prop) : repr a I L A -> I !! ino = Some i -> 0 < a_depth a ->
  (forall v a' L' H', repr a' I L' (AState (s_names A) (s_files A) H' (s_mem A) (s_free A)) -> takes (s_handles A) ino v H' -> rest a a' -> a_sect a' = a_sect a -> Q (Done v) a') -> (forall a', repr a' I L A -> rest a a' -> Q (Err ENOMEM) a') ->
  vwp (sfs_loadvnode f ino SFS_TYPE_INVAL) a Q.
Proof.
  intros Hr Hi Hdep HQ HE. pose proof Hr as [Ho R2 R3 R4 R5]. eapply (vwp_load f dev ns [] a I L ino i); [apply Ho|apply Ho|apply (ok_dev _ _ _ _ _ _ _ _ Ho)|done|done| | |].
  - rewrite (ok_type _ _ _ _ _ _ _ _ _ Ho Hi). destruct (decide (ino = 1)); auto.
  - intros v a' L' Ht Hc. eapply (HQ v a' L' (handles a' L')).
    + pose proof (tk_sect _ _ _ _ _ _ Ht) as Hse. destruct (tk_fs _ _ _ _ _ _ Ht) as [arr Hfs]. split; cbn [s_names s_files s_handles s_mem s_free]; [|intros w; apply handles_lookup; apply Hc|by rewrite Hse|by rewrite (tk_mem _ _ _ _ _ _ Ht)|unfold free_blocks; by rewrite Hfs, Hse].
      eapply (taken_ok [] []); [exact Ho|exact Ht|exact Hc|apply Ho|done|by left].
    + eapply taken_takes; [exact R2|exact Ht|exact Hc|]. intros w. apply handles_lookup, Hc.
    + split; [apply (tk_depth _ _ _ _ _ _ Ht)|apply (tk_space _ _ _ _ _ _ Ht)].
    + apply Ht.
  - intros k Hk. apply HE; [by apply repr_next|done].
Qed.

(** ** Making a file *)

Lemma cache_sect a I L x' t' : cache a I L -> sfs_vnodes x' = sfs_vnodes (a_fs a) -> (forall ino i, I !! ino = Some i -> t' ino = a_sect a ino) -> cache (with_sect t' (with_fs x' a)) I L.
Proof using .
  intros [C1 C2 C3 C4 C5 C6 C7 C8] Hx Ht. split; try done; cbn; [by rewrite Hx|by rewrite Hx| |].
  - intros v Hv. destruct (C4 v Hv) as (y & n & [N1 N2 N3 N4 N5 N6 N7 N8 N9]). exists y, n. split; try done. cbn. by rewrite (Ht _ _ N7).
  - intros ino i Hi Hnl. rewrite (Ht _ _ Hi). by apply C6.
Qed.
(** A block was allocated. *)
Lemma alloc_ok a I L N b x' (t' := upd (a_sect a) b zeros) : fs_ok a I L N -> fs_step (a_fs a) x' -> b ∉ in_use (sb_nblocks (sfs_sb (a_fs a))) (a_sect a) I [] -> space_ok x' t' I [b] ->
  vol_ok f dev ns [b] (with_sect t' (with_fs x' a)) I L N /\ (forall ino i, I !! ino = Some i -> forall k, fblock t' i k = fblock (a_sect a) i k) /\ I !! b = None /\ owned t' I = owned (a_sect a) I.
Proof using .
  intros [O1 O2 O3 (r & S1 & S2 & S3 & S4) O5 O6 O7] Hst Hnot Hsp. assert (forall ino i, I !! ino = Some i -> forall k, fblock t' i k = fblock (a_sect a) i k) as Hf. { intros ino i Hi k. apply fblock_upd. by apply (unused_file _ _ _ _ _ _ _ Hnot Hi). }
  assert (I !! b = None) as Hb. { destruct (I !! b) as [i|] eqn:Hi; [|done]. by destruct (unused_file _ _ _ _ _ _ _ Hnot Hi). }
  assert (owned t' I = owned (a_sect a) I) as Hown by (apply owned_upd; intros Hin; apply Hnot; unfold in_use; rewrite !elem_of_app; auto). split; [|done]. split; [done| |by rewrite <- O3; apply fst_device| |done|done|by eapply meta_step; [..|by eapply fixed_new|]].
  - apply cache_sect; [done|by apply fst_vnodes|]. intros ino i Hi. unfold t', upd. rewrite (proj2 (Z.eqb_neq ino b)); [done|]. congruence.
  - exists r. cbn. split; [done|]. split; [by eapply dir_same; [..|by apply (Hf 1)]|]. split; [by eapply lists_same; [..|by apply (Hf 1)]|done].
Qed.
Lemma names_live a I L N b : fs_ok a I L N -> I !! b = None -> nlinks N b = 0.
Proof using . intros Ho Hb. apply nlinks_none. intros name HN. destruct (ok_names _ _ _ _ _ _ _ _ Ho name b HN) as [_ [i Hi]]. congruence. Qed.
Lemma blank_space x t I b : space_ok x t I [b] -> I !! b = None -> space_ok x t (<[b := set_type SFS_TYPE_FILE blank]> I) [].
Proof using .
  intros Ho Hb. eapply space_moves; [exact Ho| |].
  - rewrite (owned_insert t I b _ Hb). done.
  - intros ino i. rewrite lookup_insert_Some. intros [[<- <-]|[_ Hi]]; [|by eapply so_inodes]. split; cbn; [unfold MAXSIZE; lia|unfold SFS_TYPE_FILE; lia|lia|done|]. split; [done|]. change (Forall is_u32 (replicate 110 0)). by apply Forall_replicate.
Qed.
Lemma full_free a I : space_ok (a_fs a) (a_sect a) I [] -> full (a_fs a) (a_sect a) I [] -> free_blocks a I = 0.
Proof using .
  intros Ho Hf. unfold free_blocks. set (nb := sb_nblocks (sfs_sb (a_fs a))) in *. set (u := in_use nb (a_sect a) I []) in *. pose proof (so_nb _ _ _ _ _ Ho) as Hnb. fold nb in Hnb.
  assert (length (seqZ 0 nb) <= length u)%nat as H1. { apply submseteq_length, NoDup_submseteq; [apply NoDup_seqZ|]. intros b Hb%elem_of_seqZ. apply Hf. fold nb. lia. }
  assert (length u <= length (seqZ 0 nb))%nat as H2. { apply submseteq_length, NoDup_submseteq; [apply Ho|]. intros b Hb. apply elem_of_seqZ. pose proof (so_range _ _ _ _ _ Ho b Hb) as Hr. fold nb in Hr. lia. }
  rewrite length_seqZ in *. lia.
Qed.

Lemma vwp_makeobj a I L A (Q : res Z -> view -> Prop) : repr a I L A -> 0 < a_depth a ->
  (forall b v a' L' T' (I' := <[b := set_type SFS_TYPE_FILE blank]> I), repr a' I' L' (AState (s_names A) (<[b := empty_file]> (s_files A)) T' (s_mem A) (free_blocks a' I')) -> takes (s_handles A) b v T' -> b <> 0 -> b <> 1 -> is_u32 b -> I !! b = None ->
     a_svs a' !! v = Some (SfsVnode (set_type SFS_TYPE_FILE blank) b true sfs_fileops) -> (length (owned (a_sect a') I') = S (length (owned (a_sect a) I)))%nat -> sb_nblocks (sfs_sb (a_fs a')) = sb_nblocks (sfs_sb (a_fs a)) -> rest a a' -> Q (Done v) a') ->
  (s_free A = 0 -> Q (Err ENOSPC) a) -> (forall a', repr a' I L A -> rest a a' -> Q (Err ENOMEM) a') -> vwp (sfs_makeobj f SFS_TYPE_FILE) a Q.
Proof.
  intros Hr Hdep HQ HS HE. pose proof Hr as [Ho R2 R3 R4 R5]. unfold sfs_makeobj. apply vwp_bind. eapply (vwp_balloc f dev ns a I []); [apply Ho|apply (ok_dev _ _ _ _ _ _ _ _ Ho)|done| |].
  2:{ intros Hfull. apply vwp_ret, HS. rewrite R5. apply full_free; [apply Ho|done]. }
  intros b x' Hst Hdirty Hb0 Hnot Hsp. set (t' := upd (a_sect a) b zeros) in *. set (a1 := with_sect t' (with_fs x' a)). destruct (alloc_ok a I L (s_names A) b x' Ho Hst Hnot Hsp) as (Ho1 & Hf & Hb & Hown). fold t' a1 in Ho1, Hf, Hown.
  assert (b <> 1) as Hb1. { intros ->. destruct (ok_root _ _ _ _ _ _ _ _ Ho) as (r & Hr1 & _). congruence. } pose proof (so_nb _ _ _ _ _ Hsp). pose proof (so_range _ _ _ _ _ Hsp b ltac:(unfold in_use; rewrite !elem_of_app, list_elem_of_singleton; auto)) as Hbr.
  pose proof (blank_space _ _ _ _ Hsp Hb) as Hsp2. apply vwp_bind. eapply (vwp_load_force f dev ns [b] a1 I L b); [apply Ho1|by apply list_elem_of_singleton|apply Ho1|apply (ok_dev _ _ _ _ _ _ _ _ Ho1)|done|done|cbn; unfold t', upd; by rewrite Z.eqb_refl| |].
  - intros v a' L' Ht Hv Hc Hsv. apply vwp_ret. pose proof (tk_sect _ _ _ _ _ _ Ht) as Hse. destruct (tk_fs _ _ _ _ _ _ Ht) as [arr Hfs]. assert (sb_nblocks (sfs_sb (a_fs a')) = sb_nblocks (sfs_sb (a_fs a))) as Hsb by (rewrite Hfs; cbn; by rewrite (fst_sb _ _ Hst)).
    eapply (HQ b v a' L' (handles a' L')); [|by eapply (taken_takes a1); [exact R2|exact Ht|exact Hc|]; intros w; apply handles_lookup, Hc|done|done|unfold is_u32; lia|done|done| |done|split; [apply (tk_depth _ _ _ _ _ _ Ht)|apply (tk_space _ _ _ _ _ _ Ht)]].
    + split; cbn [s_names s_files s_handles s_mem s_free]; [|intros w; apply handles_lookup, Hc| |by rewrite (tk_mem _ _ _ _ _ _ Ht)|reflexivity].
      * eapply (taken_ok [b] []); [exact Ho1|exact Ht|exact Hc|exact Hsp2|intros ino Hne; by rewrite lookup_insert_ne|]. right. split; [done|]. split; [apply lookup_insert_eq|]. by eapply names_live.
      * rewrite Hse, R3. cbn [a1 a_sect with_sect]. rewrite (files_update (a_sect a) t') by (done || (intros; by apply (Hf ino2))). by rewrite afile_blank.
    + rewrite Hse. cbn [a1 a_sect with_sect]. rewrite (owned_insert t' I b _ Hb), Hown. done.
  - intros kx Hk. apply vwp_bind. eapply (vwp_bfree f dev ns _ I [] b); [exact Hsp|]. intros x4 Hst4 _ Ho4. apply vwp_ret. apply HE; [|done]. destruct Ho1 as [P1 P2 P3 P4 P5 P6 P7]. split; [|exact R2| |exact R4|].
    + split; try assumption; [|cbn; by rewrite (fst_device _ _ Hst4)|by eapply meta_step]. apply cache_fs; [by apply fst_vnodes|]. by apply cache_next.
    + rewrite R3. cbn [a_sect with_fs with_next]. symmetry. apply files_same. intros ino i Hi _. by apply (Hf ino).
    + rewrite R5. unfold free_blocks, in_use. cbn [a_sect with_fs with_next a_fs]. rewrite (fst_sb _ _ Hst4). cbn. rewrite (fst_sb _ _ Hst). by rewrite Hown.
Qed.
End Ops.
End SfsOps.
