(* ===== verification/SfsDirOps.v ===== *)
(** * The directory operations

    sfs_getroot, sfs_lookup, sfs_lookparent, sfs_creat, sfs_link, sfs_remove and
    sfs_rename on the state that a user sees. *)

From S2P Require Import Prelude Kern Bswap Bitmap Array Interfaces Copyinout Uio Vfs Lhd LhdSpec Sfs SfsSpec SfsMap SfsBmap SfsTrunc SfsUio SfsIo SfsDir SfsCache SfsVol.
Open Scope Z_scope.

Module SfsDirOps.
Import Vfs Lhd LhdSpec Sfs SfsSpec SfsMap SfsBmap SfsTrunc SfsUio SfsIo SfsWrite SfsDir SfsNames SfsCache SfsVol SfsOps.

(** ** What the operations promise *)

Definition with_handles T A : astate := AState (s_names A) (s_files A) T (s_mem A) (s_free A).
(** A vnode for [ino], or no memory *)
Definition gets A (ino : Z) (r : res Z) (A' : astate) : Prop :=
  match r with Done v => exists T, takes (s_handles A) ino v T /\ A' = with_handles T A | Err e => e = ENOMEM /\ A' = A end.
(** The same but for the number of free blocks *)
Definition keeps A (A' : astate) : Prop := A' = AState (s_names A) (s_files A) (s_handles A) (s_mem A) (s_free A').
(** Why a name cannot be entered; [n] blocks may be needed. *)
Definition cannot_enter A (name : list Z) (n : Z) (e : errno) : Prop :=
  e = ENAMETOOLONG /\ (59 < length name)%nat \/ e = ENOSPC /\ s_free A < n \/ e = EFBIG /\ size (s_names A) = 1144%nat.

Definition lookup_spec A (path : list Z) (r : res Z) (A' : astate) : Prop :=
  match s_names A !! path with Some ino => gets A ino r A' | None => r = Err ENOENT /\ A' = A end.
Definition creat_spec A (name : list Z) (excl : bool) (r : res Z) (A' : astate) : Prop :=
  match s_names A !! name with
  | Some ino => if excl then r = Err EEXIST /\ A' = A else gets A ino r A'
  | None =>
      match r with
      | Done v => (length name <= 59)%nat /\ exists b T, s_files A !! b = None /\ takes (s_handles A) b v T /\ A' = AState (<[name := b]> (s_names A)) (<[b := empty_file]> (s_files A)) T (s_mem A) (s_free A')
      | Err e => keeps A A' /\ (e = ENOMEM \/ cannot_enter A name 3 e)
      end
  end.
Definition link_spec A (name : list Z) (ino : Z) (r : res unit) (A' : astate) : Prop :=
  if decide (ino = 1) then r = Err EINVAL /\ A' = A else
  match s_names A !! name with
  | Some _ => r = Err EEXIST /\ A' = A
  | None =>
      match r with
      | Done _ => (length name <= 59)%nat /\ A' = AState (<[name := ino]> (s_names A)) (s_files A) (s_handles A) (s_mem A) (s_free A')
      | Err e => keeps A A' /\ cannot_enter A name 2 e
      end
  end.
Definition in_use_by (T : gmap Z (Z * Z)) (ino : Z) : bool := bool_decide (map_Exists (fun _ p => p.1 = ino) T).
Definition remove_spec A (name : list Z) (r : res unit) (A' : astate) : Prop :=
  match s_names A !! name with
  | None => r = Err ENOENT /\ A' = A
  | Some ino =>
      match r with
      | Done _ =>
          let N := delete name (s_names A) in
          A' = AState N (if negb (in_use_by (s_handles A) ino) && (nlinks N ino =? 0) then delete ino (s_files A) else s_files A) (s_handles A) (s_mem A) (s_free A')
      | Err e => e = ENOMEM /\ A' = A
      end
  end.
Definition rename_spec A (n1 n2 : list Z) (r : res unit) (A' : astate) : Prop :=
  match s_names A !! n1 with
  | None => r = Err ENOENT /\ A' = A
  | Some ino =>
      match r with
      | Done _ => s_names A !! n2 = None /\ (length n2 <= 59)%nat /\ A' = AState (delete n1 (<[n2 := ino]> (s_names A))) (s_files A) (s_handles A) (s_mem A) (s_free A')
      | Err e => keeps A A' /\ (e = ENOMEM \/ e = EEXIST /\ is_Some (s_names A !! n2) \/ s_names A !! n2 = None /\ cannot_enter A n2 2 e)
      end
  end.

(** A reference that is taken and dropped again *)
Lemma takes_drop T ino v T' : takes T ino v T' -> (forall w p, T !! w = Some p -> 0 < p.2) -> drop_handles T' v = T.
Proof.
  intros [(c & Hv & ->)|(Hv & _ & ->)] Hpos; unfold drop_handles; rewrite lookup_insert_eq.
  - pose proof (Hpos _ _ Hv) as Hc. cbn in Hc. rewrite (proj2 (Z.ltb_lt _ _)) by lia. rewrite insert_insert_eq. apply insert_id. rewrite Hv. f_equal. f_equal. lia.
  - cbn. rewrite delete_insert_eq. by apply delete_id.
Qed.
Lemma takes_files N T ino v T' F : takes T ino v T' -> (forall w p, T !! w = Some p -> 0 < p.2) -> drop_files N T' F v = if negb (in_use_by T ino) && (nlinks N ino =? 0) then delete ino F else F.
Proof.
  intros [(c & Hv & ->)|(Hv & Hno & ->)] Hpos; unfold drop_files; rewrite lookup_insert_eq.
  - pose proof (Hpos _ _ Hv) as Hc. cbn in Hc. rewrite (proj2 (Z.eqb_neq (c + 1) 1)) by lia. unfold in_use_by. rewrite bool_decide_true by (by exists v, (ino, c)). done.
  - unfold in_use_by. rewrite bool_decide_false; [done|]. intros (w & [i c] & Hw & Hi). cbn in Hi. subst i. by apply (Hno w c).
Qed.

Section Ops.
Context {D : Type} `{W : DiskSpec D}.
Context (f dev ns : Z).
Abbreviation vwp := (vwp (D := D) f dev ns).
Abbreviation space_ok := (space_ok ns).
Abbreviation cache := (cache f).
Abbreviation node := (node f).
Abbreviation fs_ok := (vol_ok f dev ns []).
Abbreviation repr := (repr f dev ns).
Definition vol a A : Prop := exists I L, repr a I L A.
(** The operation runs without fault and does what [R] says. *)
Definition refines {B} (m : M (vstate (sfs_state D)) B) a A (R : B -> astate -> Prop) : Prop := vol a A -> vwp m a (fun r a' => exists A', R r A' /\ vol a' A' /\ rest a a').

Lemma repr_depth a I L A d : repr a I L A -> repr (with_depth d a) I L A.
Proof using . intros [[O1 O2 O3 O4 O5 O6] R2 R3 R4 R5]. split; try assumption. split; try assumption. by apply (cache_view f a). Qed.
Lemma handles_pos a I L A w p : repr a I L A -> s_handles A !! w = Some p -> 0 < p.2.
Proof using . intros Hr Hw. destruct p as [ino c]. destruct (repr_node f dev ns _ _ _ _ _ _ _ Hr Hw) as (y & n & _ & Hn & _ & <-). apply (nd_refs _ _ _ _ _ _ Hn). Qed.
(** The end of an operation *)
Lemma vwp_finish {B} (r : B) a a' I L A' (R : B -> astate -> Prop) : 0 <= a_depth a -> repr a' I L A' -> rest (with_depth (a_depth a + 1) a) a' -> R r A' -> vwp (unlock_ret r) a' (fun r a' => exists A', R r A' /\ vol a' A' /\ rest a a').
Proof using .
  intros Hd Hr [H1 H2] HR. cbn in H1, H2. apply vwp_unlock; [lia|]. exists A'. split; [done|]. split; [exists I, L; by apply repr_depth|]. split; cbn; [lia|done].
Qed.

(** sfs_getroot *)
Lemma getroot_refines a A : refines (sfs_getroot f) a A (gets A 1).
Proof.
  intros (I & L & Hr). unfold sfs_getroot. apply vwp_depth. intros Hd. apply vwp_locked. apply (repr_depth _ _ _ _ (a_depth a + 1)) in Hr. destruct (ok_root _ _ _ _ _ _ _ _ (re_ok _ _ _ _ _ _ _ Hr)) as (i & Hi & Hdir & _).
  apply vwp_bind. eapply (vwp_get f dev ns _ I L A 1 i); [exact Hr|done|cbn; lia| |].
  - intros v a' L' T Hr' Ht Hre _. assert (exists c, T !! v = Some (1, c)) as [c Hv]. { destruct Ht as [(c & _ & ->)|(_ & _ & ->)]; rewrite lookup_insert_eq; eauto. }
    destruct (repr_node f dev ns _ _ _ _ _ _ _ Hr' Hv) as (y & n & _ & Hn & Hy & _). pose proof (nd_addr _ _ _ _ _ _ Hn). apply vwp_bind. eapply vwp_get_sv; [lia|apply (nd_sv _ _ _ _ _ _ Hn)|].
    assert (sv_i y = i) as -> by (pose proof (nd_inode _ _ _ _ _ _ Hn); congruence). rewrite (do_type _ _ Hdir). cbn. eapply vwp_finish; [done|exact Hr'|done|]. by exists T.
  - intros a' Hr' Hre. by eapply vwp_finish.
Qed.

(** ** Looking up *)

(** The directory: its vnode and its entries *)
Lemma repr_held a I L A v y n : repr a I L A -> node a I v y n -> held dev ns [] (a_fs a) (a_sect a) y I.
Proof using . intros Hr Hn. pose proof (re_ok _ _ _ _ _ _ _ Hr) as Ho. split; [apply Ho|apply Hn|apply (ok_dev _ _ _ _ _ _ _ _ Ho)]. Qed.
Lemma repr_dir a I L A d yd nd : repr a I L A -> node a I d yd nd -> sv_ino yd = 1 -> dir_ok (a_sect a) (sv_i yd) /\ lists (a_sect a) (sv_i yd) (s_names A).
Proof using .
  intros Hr Hn H1. destruct (ok_root _ _ _ _ _ _ _ _ (re_ok _ _ _ _ _ _ _ Hr)) as (i & Hi & Hd & HN & _). pose proof (nd_inode _ _ _ _ _ _ Hn) as Hy. rewrite H1 in Hy. by replace (sv_i yd) with i by congruence.
Qed.
Definition entry_at t (i : sfs_dinode) (name : list Z) (ino : Z) (k : nat) : Prop := (k < nentries i)%nat /\ sfd_ino (dirent t i k) = ino /\ dname (dirent t i k) = name.

Lemma vwp_findname_repr a I L A d yd nd name (Q : res (Z * Z) * Z -> view -> Prop) : repr a I L A -> node a I d yd nd -> sv_ino yd = 1 -> 0 < a_depth a ->
  (forall ino k e, s_names A !! name = Some ino -> entry_at (a_sect a) (sv_i yd) name ino k -> Q (Done (ino, Z.of_nat k), e) a) -> (forall e, s_names A !! name = None -> Q (Err ENOENT, e) a) -> vwp (sfs_dir_findname d name) a Q.
Proof.
  intros Hr Hn H1 Hdep HS HN. destruct (repr_dir _ _ _ _ _ _ _ Hr Hn H1) as [Hd Hl]. pose proof (nd_addr _ _ _ _ _ _ Hn). rewrite <- (evolve_id a d yd (nd_sv _ _ _ _ _ _ Hn)).
  apply (vwp_findname f dev ns a d nd [] ltac:(lia) (nd_vn _ _ _ _ _ _ Hn) (nd_fs _ _ _ _ _ _ Hn) Hdep (a_fs a) (a_sect a) yd I); [by eapply repr_held|done|]. rewrite (evolve_id a d yd (nd_sv _ _ _ _ _ _ Hn)). intros r e Hf _. destruct r as [[ino slot]|er].
  - pose proof (lists_found _ _ _ _ _ _ Hl Hf). destruct Hf as (k & Hk & -> & Hi & _ & Hnm). by apply HS.
  - destruct Hf as [-> Hf]. apply HN. by eapply lists_none.
Qed.
Lemma vwp_lookonce a I L A d yd nd name (Q : res (Z * Z) -> view -> Prop) : repr a I L A -> node a I d yd nd -> sv_ino yd = 1 -> 0 < a_depth a ->
  (s_names A !! name = None -> Q (Err ENOENT) a) -> (forall ino a', s_names A !! name = Some ino -> repr a' I L A -> rest a a' -> Q (Err ENOMEM) a') ->
  (forall ino w k a' L' T, s_names A !! name = Some ino -> repr a' I L' (with_handles T A) -> takes (s_handles A) ino w T -> rest a a' -> entry_at (a_sect a') (sv_i yd) name ino k -> Q (Done (w, Z.of_nat k)) a') -> vwp (sfs_lookonce d name) a Q.
Proof.
  intros Hr Hn H1 Hdep HN HE HQ. pose proof Hn as [N1 N2 N3 N4 N5 N6 N7 N8 N9]. unfold sfs_lookonce, fs_of. apply vwp_bind, vwp_bind. eapply vwp_get_vnode; [lia|exact N3|]. apply vwp_ret. rewrite N4. apply vwp_bind. eapply vwp_findname_repr; [exact Hr|exact Hn|done|done| |].
  2:{ intros e He. cbn. by apply vwp_ret, HN. }
  intros ino k e Hnm Hent. cbn [fst]. destruct (ok_names _ _ _ _ _ _ _ _ (re_ok _ _ _ _ _ _ _ Hr) _ _ Hnm) as [Hi1 [i Hi]]. apply vwp_bind. eapply (vwp_get f dev ns a I L A ino i); [exact Hr|done|done| |].
  2:{ intros a' Hr' Hre. apply vwp_ret. by eapply HE. }
  intros w a' L' T Hr' Ht Hre Hse. assert (exists c, T !! w = Some (ino, c)) as [c Hw]. { destruct Ht as [(c & _ & ->)|(_ & _ & ->)]; rewrite lookup_insert_eq; eauto. }
  destruct (repr_node f dev ns _ _ _ _ _ _ _ Hr' Hw) as (y & n & _ & Hnw & Hy & _). pose proof (nd_addr _ _ _ _ _ _ Hnw). apply vwp_bind. eapply vwp_get_sv; [lia|apply (nd_sv _ _ _ _ _ _ Hnw)|].
  assert (sfi_linkcount (sv_i y) = nlinks (s_names A) ino) as Hl. { destruct (ok_files _ _ _ _ _ _ _ _ (re_ok _ _ _ _ _ _ _ Hr') _ _ (nd_inode _ _ _ _ _ _ Hnw)) as (_ & Hl & _); rewrite Hy in *; done. }
  pose proof (nlinks_pos _ _ _ Hnm). rewrite (proj2 (Z.eqb_neq _ _)) by lia. apply vwp_ret. eapply HQ; [done|exact Hr'|done|done|]. by rewrite Hse.
Qed.
Lemma lookup_refines a A d path c : s_handles A !! d = Some (1, c) -> refines (sfs_lookup d path) a A (lookup_spec A path).
Proof.
  intros Hd (I & L & Hr). unfold sfs_lookup. apply vwp_depth. intros Hdep. apply vwp_locked. apply (repr_depth _ _ _ _ (a_depth a + 1)) in Hr. destruct (repr_node f dev ns _ _ _ _ _ _ _ Hr Hd) as (y & n & Hin & Hn & Hy & _). pose proof (nd_addr _ _ _ _ _ _ Hn).
  apply vwp_bind. eapply vwp_get_sv; [lia|apply (nd_sv _ _ _ _ _ _ Hn)|]. destruct (repr_dir _ _ _ _ _ _ _ Hr Hn Hy) as [Hdir _]. rewrite (do_type _ _ Hdir). cbn [Z.eqb SFS_TYPE_DIR Pos.eqb negb]. apply vwp_bind. eapply vwp_lookonce; [exact Hr|exact Hn|done|cbn; lia| | |].
  - intros Hnm. eapply vwp_finish; [done|exact Hr|done|]. unfold lookup_spec. by rewrite Hnm.
  - intros ino a' Hnm Hr' Hre. eapply vwp_finish; [done|exact Hr'|done|]. unfold lookup_spec. by rewrite Hnm.
  - intros ino w k a' L' T Hnm Hr' Ht Hre _. eapply vwp_finish; [done|exact Hr'|done|]. unfold lookup_spec. rewrite Hnm. by exists T.
Qed.

(** ** More references *)

Lemma vwp_incref a I L A v ino c (Q : unit -> view -> Prop) : repr a I L A -> s_handles A !! v = Some (ino, c) ->
  (forall a', repr a' I L (with_handles (<[v := (ino, c + 1)]> (s_handles A)) A) -> rest a a' -> Q tt a') -> vwp (vnode_incref v) a Q.
Proof.
  intros Hr Hv HQ. destruct (repr_node f dev ns _ _ _ _ _ _ _ Hr Hv) as (y & n & Hin & Hn & Hy & Hc). pose proof Hn as [N1 N2 N3 N4 N5 N6 N7 N8 N9]. pose proof Hr as [O1 O2 O3 O4 O5]. unfold vnode_incref.
  apply vwp_bind, vwp_kassert; [by destruct (Z.eqb_spec v 0); [lia|]|]. apply vwp_bind. eapply vwp_get_vnode; [lia|exact N3|]. apply vwp_put_vnode. rewrite Hc. apply (HQ (with_refs a v n (c + 1))); [|done]. split; [|intros w|exact O3|exact O4|exact O5].
  - destruct O1 as [P1 P2 P3 P4 P5 P6]. split; try assumption. eapply cache_refs; [done|done|done|lia].
  - cbn [s_handles with_handles]. unfold handle. destruct (decide (w = v)) as [->|Hne].
    + rewrite lookup_insert_eq, decide_True by done. unfold refs. cbn. rewrite lookup_insert_eq. cbn. f_equal. f_equal. unfold ino_of. cbn. by rewrite N2.
    + rewrite lookup_insert_ne, O2 by done. unfold handle, refs. cbn. by rewrite lookup_insert_ne.
Qed.
Definition lookparent_spec A (d : Z) (path : list Z) (buflen : Z) (r : res (Z * list Z)) (A' : astate) : Prop :=
  if Z.of_nat (length path) + 1 >? buflen then r = Err ENAMETOOLONG /\ A' = A else r = Done (d, path) /\ exists T, takes (s_handles A) 1 d T /\ A' = with_handles T A.
Lemma lookparent_refines a A d path buflen c : s_handles A !! d = Some (1, c) -> refines (sfs_lookparent d path buflen) a A (lookparent_spec A d path buflen).
Proof.
  intros Hd (I & L & Hr). unfold sfs_lookparent, lookparent_spec. apply vwp_depth. intros Hdep. apply vwp_locked. apply (repr_depth _ _ _ _ (a_depth a + 1)) in Hr. destruct (repr_node f dev ns _ _ _ _ _ _ _ Hr Hd) as (y & n & Hin & Hn & Hy & _). pose proof (nd_addr _ _ _ _ _ _ Hn).
  apply vwp_bind. eapply vwp_get_sv; [lia|apply (nd_sv _ _ _ _ _ _ Hn)|]. destruct (repr_dir _ _ _ _ _ _ _ Hr Hn Hy) as [Hdir _]. rewrite (do_type _ _ Hdir). cbn [Z.eqb SFS_TYPE_DIR Pos.eqb negb]. destruct (_ >? buflen); [by eapply vwp_finish|].
  apply vwp_bind. eapply vwp_incref; [exact Hr|exact Hd|]. intros a' Hr' Hre. eapply vwp_finish; [done|exact Hr'|done|]. split; [done|]. eexists. split; [|done]. left. eauto.
Qed.

(** ** Changing the directory and a link count *)

Lemma relink_repr a I L A d yd nd k e x' t' yd' I1 v y n N' (y2 := put_i y (set_linkcount (nlinks N' (sv_ino y)) (sv_i y))) (a2 := evolve (evolve a d x' t' yd') v x' t' y2) (I2 := <[sv_ino y := sv_i y2]> I1) :
  repr a I L A -> d ∈ L -> node a I d yd nd -> sv_ino yd = 1 -> edited ns [] k e (a_fs a) (a_sect a) yd I x' t' yd' I1 -> dir_ok t' (sv_i yd') -> lists t' (sv_i yd') N' -> v ∈ L -> node a I v y n -> sv_ino y <> 1 ->
  (forall ino, ino <> sv_ino y -> nlinks N' ino = nlinks (s_names A) ino) -> (forall name ino, N' !! name = Some ino -> ino = sv_ino y \/ s_names A !! name = Some ino) ->
  repr a2 I2 L (AState N' (s_files A) (s_handles A) (s_mem A) (free_blocks a2 I2)).
Proof.
  intros Hr Hd Hnd Hd1 Hed Hdir HL Hv Hn H1 Hcnt Hnm. pose proof Hr as [O1 O2 O3 O4 O5]. pose proof (edited_changed _ _ _ _ _ _ _ _ _ _ _ _ Hed) as Hc. assert (node (evolve a d x' t' yd') I1 v y n) as Hn1 by (eapply node_other; [exact Hn|exact Hnd|congruence|exact Hc]). pose proof Hc as [A1 A2 A3 A4 A5 A6 A7 A8 A9].
  split; cbn [s_names s_files s_handles s_mem s_free]; [by eapply fs_relink| | |exact O4|reflexivity].
  - intros w. rewrite O2. unfold a2. rewrite (handle_evolve f (evolve a d x' t' yd') I1 v y n L w x' t' y2 Hn1 eq_refl). by rewrite (handle_evolve f a I d yd nd L w x' t' yd' Hnd A2).
  - rewrite O3. cbn [a2 evolve a_sect with_svs with_sect]. unfold I2. rewrite A6, Hd1. rewrite (files_update t' t' _ (sv_ino y)) by done. rewrite (files_root (a_sect a) t' I) by (intros ino2 i2 H2 Hne k2; apply (A7 ino2); congruence).
    rewrite (afile_same (a_sect a) t' (sv_i y) (sv_i y2)); [symmetry; apply insert_id; rewrite files_lookup, decide_False by done; by rewrite (nd_inode _ _ _ _ _ _ Hn)|done|]. intros k2. change (fblock t' (sv_i y2) k2) with (fblock t' (sv_i y) k2). apply (A7 (sv_ino y)); [apply Hn|congruence].
Qed.
Lemma vwp_set_links v y x t a c (Q : unit -> view -> Prop) : v <> 0 -> a_svs a !! v = Some y -> a_fs a = x -> a_sect a = t -> Q tt (evolve a v x t (put_i y (set_linkcount c (sv_i y)))) -> vwp (set_inode v (set_linkcount c)) a Q.
Proof using .
  intros Hv Hy <- <- HQ. unfold set_inode. apply vwp_bind. eapply vwp_get_sv; [done|exact Hy|]. apply vwp_put_sv. unfold evolve, with_svs, with_sect, with_fs in *. done.
Qed.

(** ** Entering a name *)

Lemma ino_range a I L A v y n : repr a I L A -> node a I v y n -> sv_ino y <> 0 /\ is_u32 (sv_ino y).
Proof using .
  intros Hr Hn. pose proof (ok_space _ _ _ _ _ _ _ _ (re_ok _ _ _ _ _ _ _ Hr)) as Ho. pose proof (own_range ns _ _ _ _ _ _ (sv_ino y) Ho (nd_inode _ _ _ _ _ _ Hn) (or_introl eq_refl)) as Hb. pose proof (so_nb _ _ _ _ _ Ho). split; [|unfold is_u32; lia].
  intros Hz. pose proof (so_nodup _ _ _ _ _ Ho) as Hnd. unfold in_use in Hnd. apply NoDup_app in Hnd as (_ & Hd & _). apply (Hd 0); [left|]. apply elem_of_app. right. apply in_owned. exists (sv_ino y), (sv_i y). split; [apply Hn|by left].
Qed.
(** The directory has new blocks. *)
Lemma grown_repr a I L A d yd nd x' t' yd' I' (a' := evolve a d x' t' yd') : repr a I L A -> d ∈ L -> node a I d yd nd -> sv_ino yd = 1 -> grown ns [] (a_fs a) (a_sect a) yd I x' t' yd' I' ->
  repr a' I' L (AState (s_names A) (s_files A) (s_handles A) (s_mem A) (free_blocks a' I')).
Proof using .
  intros Hr Hd Hn H1 Hg. pose proof Hr as [O1 O2 O3 O4 O5]. pose proof (grown_changed _ _ _ _ _ _ _ _ _ _ Hg) as Hc. destruct (repr_dir _ _ _ _ _ _ _ Hr Hn H1) as [Hdir HN]. pose proof Hg as [A1 A2 A3 A4 A5 [M1 M2 M3 M4] A7 A8 A9].
  assert (forall k, fblock t' (sv_i yd') k = fblock (a_sect a) (sv_i yd) k) as Hf by (apply (A7 (sv_ino yd)); [apply Hn|rewrite A5; apply lookup_insert_eq]). split; cbn [s_names s_files s_handles s_mem s_free]; [| | |exact O4|reflexivity].
  - eapply fs_dir; [exact O1|done|exact Hn|done|exact Hc|done|by eapply dir_same|by eapply lists_same].
  - intros w. rewrite O2. unfold a'. by rewrite (handle_evolve f a I d yd nd L w x' t' yd' Hn A2).
  - rewrite O3. cbn [a' evolve a_sect with_svs with_sect]. rewrite A5, H1. symmetry. apply files_root. intros ino2 i2 H2 Hne. apply (cg_others _ _ _ _ _ _ _ _ _ _ Hc ino2 i2 H2). congruence.
Qed.
Lemma free_bound a I a' I' : sb_nblocks (sfs_sb (a_fs a')) = sb_nblocks (sfs_sb (a_fs a)) -> free_blocks a' I' = 0 -> (length (owned (a_sect a') I') <= S (length (owned (a_sect a) I)))%nat -> free_blocks a I < 2.
Proof using . unfold free_blocks, in_use. intros ->. rewrite !length_app. cbn [length]. lia. Qed.

Lemma vwp_enter_name a I L A d yd nd name ino (Q : res Z -> view -> Prop) : repr a I L A -> d ∈ L -> node a I d yd nd -> sv_ino yd = 1 -> ino <> 0 -> is_u32 ino -> 0 ∉ name -> 0 < a_depth a ->
  (is_Some (s_names A !! name) -> Q (Err EEXIST) a) ->
  (s_names A !! name = None -> (length name <= 59)%nat -> forall k x' t' yd' I1, edited ns [] k (new_entry name ino) (a_fs a) (a_sect a) yd I x' t' yd' I1 -> (k < nentries (sv_i yd'))%nat -> k = nentries (sv_i yd) \/ sfd_ino (dirent (a_sect a) (sv_i yd) k) = 0 ->
     dir_ok t' (sv_i yd') -> lists t' (sv_i yd') (<[name := ino]> (s_names A)) -> Q (Done (Z.of_nat k)) (evolve a d x' t' yd')) ->
  (s_names A !! name = None -> forall e a' I' A', repr a' I' L A' -> rest a a' -> keeps A A' -> cannot_enter A name 2 e -> Q (Err e) a') -> vwp (sfs_dir_link d name ino) a Q.
Proof.
  intros Hr Hd Hn H1 Hi0 Hiu Hz Hdep HX HQ HE. destruct (repr_dir _ _ _ _ _ _ _ Hr Hn H1) as [Hdir HN]. pose proof (nd_addr _ _ _ _ _ _ Hn). pose proof (evolve_id a d yd (nd_sv _ _ _ _ _ _ Hn)) as Hid. rewrite <- Hid.
  apply (vwp_link f dev ns a d nd [] ltac:(lia) (nd_vn _ _ _ _ _ _ Hn) (nd_fs _ _ _ _ _ _ Hn) Hdep (a_fs a) (a_sect a) yd I (s_names A)); try done; [by eapply repr_held| | |].
  - rewrite Hid. done.
  - rewrite Hid. intros Hnone Hlen. eapply HE; [done|exact Hr|done|by destruct A|by left].
  - intros Hnone Hlen er x' t' yd' I' Hg Hroom. pose proof (grown_repr a I L A d yd nd x' t' yd' I' Hr Hd Hn H1 Hg) as Hr'. eapply HE; [done|exact Hr'|done|done|]. right. destruct Hroom as [(-> & Hfull & Hown)|[-> Hsz]]; [left|by right]. split; [done|].
    rewrite (re_free _ _ _ _ _ _ _ Hr). eapply free_bound; [|apply (full_free ns (evolve a d x' t' yd') I'); [apply Hg|done]|done]. cbn. by rewrite (fst_sb _ _ (gr_step _ _ _ _ _ _ _ _ _ _ Hg)).
Qed.

(** ** sfs_link *)

Lemma link_counts N name ino i : N !! name = None -> i <> ino -> nlinks (<[name := ino]> N) i = nlinks N i.
Proof using . intros Hn Hne. rewrite nlinks_insert, decide_False by done. lia. Qed.
Lemma link_names_of (N : gmap (list Z) Z) name ino nm i : <[name := ino]> N !! nm = Some i -> i = ino \/ N !! nm = Some i.
Proof using . rewrite lookup_insert_Some. intros [[_ ->]|[_ ?]]; auto. Qed.
Lemma u16_links a I L A v y n name : repr a I L A -> node a I v y n -> sv_ino y <> 1 -> s_names A !! name = None -> u16 (sfi_linkcount (sv_i y) + 1) = nlinks (<[name := sv_ino y]> (s_names A)) (sv_ino y).
Proof using .
  intros Hr Hn H1 Hnone. pose proof (re_ok _ _ _ _ _ _ _ Hr) as Ho. destruct (ok_files _ _ _ _ _ _ _ _ Ho _ _ (nd_inode _ _ _ _ _ _ Hn) H1) as (_ & -> & _). rewrite nlinks_insert, decide_True by done.
  pose proof (ok_count _ _ _ _ _ _ _ Ho). pose proof (nlinks_size (s_names A) (sv_ino y)). apply Z.mod_small. lia.
Qed.
Lemma svs_other a I d yd nd v y n x' t' yd' : node a I d yd nd -> node a I v y n -> sv_ino y <> sv_ino yd -> a_svs (evolve a d x' t' yd') !! v = Some y.
Proof using . intros Hd Hn Hne. cbn. rewrite lookup_insert_ne; [apply Hn|]. intros ->. apply Hne. pose proof (nd_sv _ _ _ _ _ _ Hd). pose proof (nd_sv _ _ _ _ _ _ Hn). congruence. Qed.
Lemma link_refines a A d name file c ino c' : s_handles A !! d = Some (1, c) -> s_handles A !! file = Some (ino, c') -> 0 ∉ name -> refines (sfs_link d name file) a A (link_spec A name ino).
Proof.
  intros Hd Hv Hz (I & L & Hr). unfold sfs_link, fs_of. apply vwp_depth. intros Hdep. destruct (repr_node f dev ns _ _ _ _ _ _ _ Hr Hd) as (yd & nd & Hdin & Hnd & Hyd & _). destruct (repr_node f dev ns _ _ _ _ _ _ _ Hr Hv) as (y & n & Hin & Hn & Hy & _). pose proof (nd_addr _ _ _ _ _ _ Hn) as Hva. pose proof (nd_addr _ _ _ _ _ _ Hnd).
  apply vwp_bind, vwp_bind. eapply vwp_get_vnode; [lia|apply (nd_vn _ _ _ _ _ _ Hnd)|]. apply vwp_ret. apply vwp_bind, vwp_bind. eapply vwp_get_vnode; [lia|apply (nd_vn _ _ _ _ _ _ Hn)|]. apply vwp_ret. apply vwp_bind, vwp_kassert; [rewrite (nd_fs _ _ _ _ _ _ Hnd), (nd_fs _ _ _ _ _ _ Hn); apply Z.eqb_refl|].
  apply vwp_locked. apply (repr_depth _ _ _ _ (a_depth a + 1)) in Hr. set (a1 := with_depth (a_depth a + 1) a) in *. assert (node a1 I d yd nd) as Hnd1 by (by destruct Hnd; split). assert (node a1 I file y n) as Hn1 by (by destruct Hn; split). clear Hnd Hn.
  apply vwp_bind. eapply vwp_get_sv; [lia|apply (nd_sv _ _ _ _ _ _ Hn1)|]. rewrite (ok_type _ _ _ _ _ _ _ _ _ (re_ok _ _ _ _ _ _ _ Hr) (nd_inode _ _ _ _ _ _ Hn1)), Hy. unfold link_spec. destruct (decide (ino = 1)) as [Hi1|Hi1]; cbn [Z.eqb SFS_TYPE_DIR SFS_TYPE_FILE Pos.eqb]; [by eapply vwp_finish|].
  rewrite <- Hy in Hi1 |- *. destruct (ino_range _ _ _ _ _ _ _ Hr Hn1) as [Hi0 Hiu]. apply vwp_bind. eapply (vwp_enter_name a1 I L A d yd nd name (sv_ino y)); try done; [cbn; lia| | |].
  - intros [i Hnm]. eapply vwp_finish; [done|exact Hr|done|]. by rewrite Hnm.
  - intros Hnone Hlen k x' t' yd' I1 Hed _ _ Hdir HL. rewrite Hnone. apply vwp_bind. eapply vwp_get_sv; [lia|eapply svs_other; [exact Hnd1|exact Hn1|congruence]|]. apply vwp_bind. rewrite (u16_links _ _ _ _ _ _ _ _ Hr Hn1 Hi1 Hnone).
    apply (vwp_set_links file y x' t'); [lia|eapply svs_other; [exact Hnd1|exact Hn1|congruence]|done|done|]. eapply vwp_finish; [done|eapply relink_repr; try done; [intros i Hne; by apply link_counts|intros nm i; apply link_names_of]|done|]. by split.
  - intros Hnone e a' I' A' Hr' Hre Hk He. rewrite Hnone. by eapply vwp_finish.
Qed.

(** ** sfs_remove *)

Lemma takes_other T ino v T' d i c : takes T ino v T' -> T !! d = Some (i, c) -> i <> ino -> T' !! d = Some (i, c).
Proof using . intros [(c' & Hv & ->)|(Hv & _ & ->)] Hd Hne; rewrite lookup_insert_ne; congruence. Qed.
Lemma takes_self T ino v T' : takes T ino v T' -> exists c, T' !! v = Some (ino, c).
Proof using . intros [(c & _ & ->)|(_ & _ & ->)]; rewrite lookup_insert_eq; eauto. Qed.
Lemma vwp_clear_name a I L A d yd nd name ino k (Q : res unit -> view -> Prop) : repr a I L A -> node a I d yd nd -> sv_ino yd = 1 -> 0 < a_depth a -> entry_at (a_sect a) (sv_i yd) name ino k -> ino <> 0 ->
  (forall x' t' yd' I1, edited ns [] k no_entry (a_fs a) (a_sect a) yd I x' t' yd' I1 -> dir_ok t' (sv_i yd') -> lists t' (sv_i yd') (delete name (s_names A)) -> Q (Done tt) (evolve a d x' t' yd')) -> vwp (sfs_dir_unlink d (Z.of_nat k)) a Q.
Proof.
  intros Hr Hn H1 Hdep (Hk & Hi & Hnm) Hi0 HQ. destruct (repr_dir _ _ _ _ _ _ _ Hr Hn H1) as [Hdir HN]. pose proof (nd_addr _ _ _ _ _ _ Hn). rewrite <- (evolve_id a d yd (nd_sv _ _ _ _ _ _ Hn)).
  by apply (vwp_unlink f dev ns a d nd [] ltac:(lia) (nd_vn _ _ _ _ _ _ Hn) (nd_fs _ _ _ _ _ _ Hn) Hdep (a_fs a) (a_sect a) yd I (s_names A) name ino k); [by eapply repr_held|..].
Qed.
(** The directory's vnode after another vnode was taken *)
Lemma repr_dir_again a a' I L L' A T d yd nd ino v c : repr a I L A -> node a I d yd nd -> sv_ino yd = 1 -> s_handles A !! d = Some (1, c) -> repr a' I L' (with_handles T A) -> takes (s_handles A) ino v T -> ino <> 1 ->
  exists yd2 nd2, d ∈ L' /\ node a' I d yd2 nd2 /\ sv_ino yd2 = 1 /\ sv_i yd2 = sv_i yd.
Proof using .
  intros Hr Hn H1 Hd Hr' Ht Hi1. pose proof (takes_other _ _ _ _ _ _ _ Ht Hd (not_eq_sym Hi1)) as Hd'. destruct (repr_node f dev ns _ _ _ _ _ _ _ Hr' Hd') as (yd2 & nd2 & Hin & Hn2 & Hy2 & _). exists yd2, nd2. split; [done|]. split; [done|]. split; [done|].
  pose proof (nd_inode _ _ _ _ _ _ Hn) as E1. pose proof (nd_inode _ _ _ _ _ _ Hn2) as E2. congruence.
Qed.
Lemma unlink_counts N name ino i : N !! name = Some ino -> i <> ino -> nlinks (delete name N) i = nlinks N i.
Proof using . intros Hn Hne. rewrite (nlinks_delete N name ino), decide_False by done. lia. Qed.
(** The link count after a name is gone *)
Lemma links_minus a I L A v y n name : repr a I L A -> node a I v y n -> sv_ino y <> 1 -> s_names A !! name = Some (sv_ino y) -> 0 < sfi_linkcount (sv_i y) /\ sfi_linkcount (sv_i y) - 1 = nlinks (delete name (s_names A)) (sv_ino y).
Proof using .
  intros Hr Hn H1 Hnm. destruct (ok_files _ _ _ _ _ _ _ _ (re_ok _ _ _ _ _ _ _ Hr) _ _ (nd_inode _ _ _ _ _ _ Hn) H1) as (_ & -> & _). split; [by eapply nlinks_pos|]. by rewrite (nlinks_delete _ _ _ _ Hnm), decide_True.
Qed.
(** A reference that the operation took is given back. *)
Lemma vwp_put_back {B} (r : B) a a' I L A N T v ino fr (R : B -> astate -> Prop) : 0 <= a_depth a -> repr a' I L (AState N (s_files A) T (s_mem A) fr) -> takes (s_handles A) ino v T -> (forall w p, s_handles A !! w = Some p -> 0 < p.2) -> rest (with_depth (a_depth a + 1) a) a' ->
  (forall fr', R r (AState N (if negb (in_use_by (s_handles A) ino) && (nlinks N ino =? 0) then delete ino (s_files A) else s_files A) (s_handles A) (s_mem A) fr')) -> vwp (VOP_DECREF v ;; unlock_ret r) a' (fun r a' => exists A', R r A' /\ vol a' A' /\ rest a a').
Proof.
  intros Hdep Hr Ht Hpos Hre HR. destruct (takes_self _ _ _ _ Ht) as [c Hc]. apply vwp_bind. unfold Sfs.VOP_DECREF. eapply (vwp_decref f dev ns a' I L _ v ino c); [done|exact Hr|exact Hc|]. intros a2 I2 L2 A2 Hr2 [Hre1 Hre2] HA.
  eapply (vwp_finish r a); [done|exact Hr2|destruct Hre as [E1 E2]; split; congruence|]. rewrite HA. cbn [s_names s_files s_handles s_mem]. rewrite (takes_drop _ _ _ _ Ht Hpos), (takes_files _ _ _ _ _ _ Ht Hpos). apply HR.
Qed.
Lemma remove_refines a A d name c : s_handles A !! d = Some (1, c) -> refines (sfs_remove d name) a A (remove_spec A name).
Proof.
  intros Hd (I & L & Hr). unfold sfs_remove. apply vwp_depth. intros Hdep. apply vwp_locked. apply (repr_depth _ _ _ _ (a_depth a + 1)) in Hr. set (a1 := with_depth (a_depth a + 1) a) in *. destruct (repr_node f dev ns _ _ _ _ _ _ _ Hr Hd) as (yd & nd & Hdin & Hnd & Hyd & _).
  apply vwp_bind. unfold remove_spec. eapply vwp_lookonce; [exact Hr|exact Hnd|done|cbn; lia| | |].
  - intros Hnm. rewrite Hnm. by eapply vwp_finish.
  - intros ino a' Hnm Hr' Hre. rewrite Hnm. by eapply vwp_finish.
  - intros ino w k a' L' T Hnm Hr' Ht Hre Hent. rewrite Hnm. destruct (ok_names _ _ _ _ _ _ _ _ (re_ok _ _ _ _ _ _ _ Hr) _ _ Hnm) as [Hi1 _]. destruct (repr_dir_again _ _ _ _ _ _ _ _ _ _ _ _ _ Hr Hnd Hyd Hd Hr' Ht Hi1) as (yd2 & nd2 & Hdin2 & Hnd2 & Hyd2 & Hsame). rewrite <- Hsame in Hent.
    destruct (takes_self _ _ _ _ Ht) as [cw Hw]. destruct (repr_node f dev ns _ _ _ _ _ _ _ Hr' Hw) as (y & n & Hwin & Hn & Hy & _). pose proof (nd_addr _ _ _ _ _ _ Hn). rewrite <- Hy in *. destruct (ino_range _ _ _ _ _ _ _ Hr' Hn) as [Hi0 _].
    apply vwp_bind. eapply (vwp_clear_name a' I L' (with_handles T A) d yd2 nd2 name (sv_ino y) k); try done; [destruct Hre as [-> _]; cbn; lia|]. intros x' t' yd' I1 Hed Hdir HL. destruct (links_minus _ _ _ _ _ _ _ name Hr' Hn Hi1 Hnm) as [Hpos Hlk].
    assert (a_svs (evolve a' d x' t' yd') !! w = Some y) as Hsv by (eapply svs_other; [exact Hnd2|exact Hn|congruence]). apply vwp_bind, vwp_bind. eapply vwp_get_sv; [lia|exact Hsv|]. apply vwp_bind, vwp_kassert; [by apply Z.gtb_lt|]. rewrite Hlk. apply (vwp_set_links w y x' t'); [lia|exact Hsv|done|done|].
    eapply (vwp_put_back (Done tt) a _ _ _ A (delete name (s_names A)) T w (sv_ino y)); [done|eapply (relink_repr a' I L' (with_handles T A)); try done; [intros i Hne; by apply (unlink_counts (s_names A) name (sv_ino y))|intros nm i [_ ?]%lookup_delete_Some; by right]|exact Ht|intros w' p'; by apply (handles_pos a1 I L A)|done|done].
Qed.

(** ** sfs_creat *)

Lemma unused_inode a I L A b : repr a I L A -> I !! b = None -> s_files A !! b = None /\ in_use_by (s_handles A) b = false.
Proof using .
  intros Hr Hb. split.
  - rewrite (re_files _ _ _ _ _ _ _ Hr), files_lookup, Hb. by destruct (decide (b = 1)).
  - apply bool_decide_eq_false. intros (w & [i c] & Hw & Hi). cbn in Hi. subst i. destruct (repr_node f dev ns _ _ _ _ _ _ _ Hr Hw) as (y & n & _ & Hn & Hy & _). pose proof (nd_inode _ _ _ _ _ _ Hn). congruence.
Qed.
Lemma enter_more A A1 name e : s_names A1 = s_names A -> s_free A = s_free A1 + 1 -> cannot_enter A1 name 2 e -> cannot_enter A name 3 e.
Proof using . unfold cannot_enter. intros -> ->. intros [?|[[? ?]|?]]; [by left|right; left; split; [done|lia]|by right; right]. Qed.
Lemma vwp_creat_new a I L A d yd nd name c (R := creat_spec A name) excl : 0 <= a_depth a -> repr (with_depth (a_depth a + 1) a) I L A -> node (with_depth (a_depth a + 1) a) I d yd nd -> sv_ino yd = 1 -> s_handles A !! d = Some (1, c) -> s_names A !! name = None -> 0 ∉ name ->
  vwp (r ← sfs_makeobj f SFS_TYPE_FILE;
       match r with
       | Err e => unlock_ret (Err e)
       | Done newguy =>
           y ← get_sv newguy;
           r ← sfs_dir_link d name (sv_ino y);
           match r with
           | Err e => VOP_DECREF newguy ;; unlock_ret (Err e)
           | Done _ => y ← get_sv newguy; set_inode newguy (set_linkcount (u16 (sfi_linkcount (sv_i y) + 1))) ;; unlock_ret (Done newguy)
           end
       end) (with_depth (a_depth a + 1) a) (fun r a' => exists A', R excl r A' /\ vol a' A' /\ rest a a').
Proof.
  intros Hdep Hr Hnd Hyd Hd Hnone Hz. set (a1 := with_depth (a_depth a + 1) a) in *. unfold R, creat_spec. rewrite Hnone. apply vwp_bind. eapply (vwp_makeobj f dev ns a1 I L A); [exact Hr|cbn; lia| | |].
  2:{ intros Hfr. eapply vwp_finish; [done|exact Hr|done|]. split; [by destruct A|]. right. right. left. split; [done|lia]. }
  2:{ intros a' Hr' Hre. eapply vwp_finish; [done|exact Hr'|done|]. split; [by destruct A|by left]. }
  intros b v a' L' T I' Hr' Ht Hb0 Hb1 Hbu Hb Hsv Hown Hnb Hre. destruct (takes_self _ _ _ _ Ht) as [cv Hcv]. destruct (repr_node f dev ns _ _ _ _ _ _ _ Hr' Hcv) as (y & n & Hin & Hn & Hy & _). pose proof (nd_addr _ _ _ _ _ _ Hn). subst b.
  pose proof (takes_other _ _ _ _ _ _ _ Ht Hd (not_eq_sym Hb1)) as Hd'. destruct (repr_node f dev ns _ _ _ _ _ _ _ Hr' Hd') as (yd2 & nd2 & Hdin2 & Hnd2 & Hyd2 & _). destruct (unused_inode _ _ _ _ _ Hr Hb) as [Hfb Hub].
  apply vwp_bind. eapply vwp_get_sv; [lia|apply (nd_sv _ _ _ _ _ _ Hn)|]. apply vwp_bind. eapply (vwp_enter_name a' I' L' _ d yd2 nd2 name (sv_ino y)); [exact Hr'|done|exact Hnd2|done|done|done|done|destruct Hre as [-> _]; cbn; lia| | |].
  - cbn [s_names]. rewrite Hnone. by intros [].
  - intros _ Hlen k x' t' yd' I1 Hed _ _ Hdir HL. assert (a_svs (evolve a' d x' t' yd') !! v = Some y) as Hsv2 by (eapply svs_other; [exact Hnd2|exact Hn|congruence]). apply vwp_bind. eapply vwp_get_sv; [lia|exact Hsv2|]. apply vwp_bind.
    rewrite (u16_links _ _ _ _ _ _ _ name Hr' Hn Hb1 Hnone). apply (vwp_set_links v y x' t'); [lia|exact Hsv2|done|done|]. cbn [s_names] in HL.
    eapply vwp_finish; [done|eapply (relink_repr a' I' L'); try done; [intros i Hne; by apply link_counts|intros nm i; apply link_names_of]|destruct Hre; by split|]. split; [done|]. exists (sv_ino y), T. split; [done|]. done.
  - intros _ e a2 I2 A2 Hr2 [E1 E2] Hk He. rewrite Hk in Hr2. cbn [s_names s_files s_handles s_mem] in Hr2.
    eapply (vwp_put_back (Err e) a a2 I2 L' (AState (s_names A) (<[sv_ino y := empty_file]> (s_files A)) (s_handles A) (s_mem A) 0) (s_names A) T v (sv_ino y)); [done|exact Hr2|exact Ht|intros w' p'; by apply (handles_pos a1 I L A)|destruct Hre as [F1 F2]; split; [by rewrite E1|by rewrite E2]|].
    intros fr. cbn [s_files s_handles s_mem]. rewrite Hub, (names_live f dev ns _ _ _ _ _ (re_ok _ _ _ _ _ _ _ Hr) Hb). cbn [negb andb Z.eqb]. rewrite delete_insert_id by done. split; [done|]. right. eapply enter_more; [|..|exact He]; [done|].
    rewrite (re_free _ _ _ _ _ _ _ Hr). cbn [s_free]. unfold free_blocks, in_use. rewrite Hnb, !length_app. cbn [length]. lia.
Qed.
Lemma creat_refines a A d name excl mode c : s_handles A !! d = Some (1, c) -> 0 ∉ name -> refines (sfs_creat d name excl mode) a A (creat_spec A name excl).
Proof.
  intros Hd Hz (I & L & Hr). unfold sfs_creat, fs_of. apply vwp_depth. intros Hdep. destruct (repr_node f dev ns _ _ _ _ _ _ _ Hr Hd) as (yd & nd & Hdin & Hnd & Hyd & _). pose proof (nd_addr _ _ _ _ _ _ Hnd).
  apply vwp_bind, vwp_bind. eapply vwp_get_vnode; [lia|apply (nd_vn _ _ _ _ _ _ Hnd)|]. apply vwp_ret. rewrite (nd_fs _ _ _ _ _ _ Hnd). apply vwp_locked. apply (repr_depth _ _ _ _ (a_depth a + 1)) in Hr. set (a1 := with_depth (a_depth a + 1) a) in *. assert (node a1 I d yd nd) as Hnd1 by (by destruct Hnd; split). clear Hnd.
  apply vwp_bind. eapply vwp_findname_repr; [exact Hr|exact Hnd1|done|cbn; lia| |].
  - intros ino k e Hnm _. cbn [fst]. unfold creat_spec. rewrite Hnm. destruct excl; [by eapply vwp_finish|]. destruct (ok_names _ _ _ _ _ _ _ _ (re_ok _ _ _ _ _ _ _ Hr) _ _ Hnm) as [Hi1 [i Hi]]. apply vwp_bind. eapply (vwp_get f dev ns a1 I L A ino i); [exact Hr|done|cbn; lia| |].
    + intros v a' L' T Hr' Ht Hre _. eapply vwp_finish; [done|exact Hr'|done|]. by exists T.
    + intros a' Hr' Hre. by eapply vwp_finish.
  - intros e Hnone. cbn [fst]. by eapply vwp_creat_new.
Qed.

(** ** sfs_rename *)

Lemma entry_kept k0 e x t y I x' t' y' I' name ino k : edited ns [] k e x t y I x' t' y' I' -> dir_ok t (sv_i y) -> entry_at t (sv_i y) name ino k0 -> ino <> 0 -> k = nentries (sv_i y) \/ sfd_ino (dirent t (sv_i y) k) = 0 -> entry_at t' (sv_i y') name ino k0.
Proof using .
  intros Hed Hdir (Hk & Hi & Hnm) Hi0 Hfree. assert (k0 <> k) as Hne by (intros ->; destruct Hfree; [lia|congruence]). unfold entry_at. rewrite (ed_ents _ _ _ _ _ _ _ _ _ _ _ _ Hed), decide_False by done. split; [|done].
  rewrite (edited_nentries _ _ _ _ _ _ _ _ _ _ _ _ Hdir Hed). lia.
Qed.
Definition rename_rest (d1 g1 slot1 slot2 : Z) : M (vstate (sfs_state D)) (res unit) :=
  r ← sfs_dir_unlink d1 slot1;
  match r with
  | Done _ =>
      x ← get_sv g1;
      kassert (sfi_linkcount (sv_i x) >? 0) ;;
      set_inode g1 (set_linkcount (sfi_linkcount (sv_i x) - 1)) ;;
      VOP_DECREF g1 ;; unlock_ret (Done tt)
  | Err e =>
      r2 ← sfs_dir_unlink d1 slot2;
      match r2 with
      | Err _ => raise FPanic
      | Done _ =>
          x ← get_sv g1;
          put_sv g1 (SfsVnode (set_linkcount (u16 (sfi_linkcount (sv_i x) - 1)) (sv_i x)) (sv_ino x) (sv_dirty x) (sv_ops x)) ;;
          VOP_DECREF g1 ;; unlock_ret (Err e)
      end
  end.
Lemma vwp_rename_rest a a' I L A N T fr d yd w ino c name k slot2 (R : res unit -> astate -> Prop) : 0 <= a_depth a -> repr a' I L (AState N (s_files A) T (s_mem A) fr) -> takes (s_handles A) ino w T -> (forall w p, s_handles A !! w = Some p -> 0 < p.2) -> rest (with_depth (a_depth a + 1) a) a' ->
  T !! d = Some (1, c) -> a_svs a' !! d = Some yd -> N !! name = Some ino -> entry_at (a_sect a') (sv_i yd) name ino k -> nlinks (delete name N) ino <> 0 ->
  (forall fr', R (Done tt) (AState (delete name N) (s_files A) (s_handles A) (s_mem A) fr')) ->
  vwp (rename_rest d w (Z.of_nat k) slot2) a' (fun r a' => exists A', R r A' /\ vol a' A' /\ rest a a').
Proof.
  intros Hdep Hr Ht Hpos Hre Hd Hyd Hnm Hent Hlk HR. destruct (ok_names _ _ _ _ _ _ _ _ (re_ok _ _ _ _ _ _ _ Hr) _ _ Hnm) as [Hi1 _]. destruct (repr_node f dev ns _ _ _ _ _ _ _ Hr Hd) as (yd' & nd & Hdin & Hnd & Hyd1 & _). assert (yd' = yd) as -> by (pose proof (nd_sv _ _ _ _ _ _ Hnd); congruence).
  destruct (takes_self _ _ _ _ Ht) as [cw Hw]. destruct (repr_node f dev ns _ _ _ _ _ _ _ Hr Hw) as (y & n & Hwin & Hn & Hy & _). pose proof (nd_addr _ _ _ _ _ _ Hn). subst ino. destruct (ino_range _ _ _ _ _ _ _ Hr Hn) as [Hi0 _].
  unfold rename_rest. apply vwp_bind. eapply (vwp_clear_name a' I L _ d yd nd name (sv_ino y) k); try done; [destruct Hre as [-> _]; cbn; lia|]. intros x' t' yd' I1 Hed Hdir HL. destruct (links_minus _ _ _ _ _ _ _ name Hr Hn Hi1 Hnm) as [Hlp Hlm].
  assert (a_svs (evolve a' d x' t' yd') !! w = Some y) as Hsv by (eapply svs_other; [exact Hnd|exact Hn|congruence]). apply vwp_bind. eapply vwp_get_sv; [lia|exact Hsv|]. apply vwp_bind, vwp_kassert; [by apply Z.gtb_lt|]. rewrite Hlm. apply vwp_bind, (vwp_set_links w y x' t'); [lia|exact Hsv|done|done|].
  eapply (vwp_put_back (Done tt) a _ _ _ A (delete name N) T w (sv_ino y)); [done|eapply (relink_repr a' I L (AState N (s_files A) T (s_mem A) fr)); try done; [intros i Hne; by apply (unlink_counts N name (sv_ino y))|intros nm i [_ ?]%lookup_delete_Some; by right]|exact Ht|exact Hpos|done|].
  intros fr'. cbn [s_names] in *. rewrite (proj2 (Z.eqb_neq _ _) Hlk), andb_false_r. apply HR.
Qed.
Lemma rename_refines a A d n1 n2 c : s_handles A !! d = Some (1, c) -> 0 ∉ n2 -> refines (sfs_rename d n1 d n2) a A (rename_spec A n1 n2).
Proof.
  intros Hd Hz (I & L & Hr). unfold sfs_rename. apply vwp_depth. intros Hdep. apply vwp_locked. apply (repr_depth _ _ _ _ (a_depth a + 1)) in Hr. set (a1 := with_depth (a_depth a + 1) a) in *. destruct (repr_node f dev ns _ _ _ _ _ _ _ Hr Hd) as (yd & nd & Hdin & Hnd & Hyd & _). pose proof (nd_addr _ _ _ _ _ _ Hnd).
  apply vwp_bind, vwp_kassert; [apply Z.eqb_refl|]. apply vwp_bind. eapply vwp_get_sv; [lia|apply (nd_sv _ _ _ _ _ _ Hnd)|]. apply vwp_bind, vwp_kassert; [by rewrite Hyd|].
  apply vwp_bind. unfold rename_spec. eapply vwp_lookonce; [exact Hr|exact Hnd|done|cbn; lia| | |].
  - intros Hnm. rewrite Hnm. by eapply vwp_finish.
  - intros ino a' Hnm Hr' Hre. rewrite Hnm. eapply vwp_finish; [done|exact Hr'|done|]. split; [by destruct A|by left].
  - intros ino w k a' L' T Hnm Hr' Ht Hre Hent. rewrite Hnm. destruct (ok_names _ _ _ _ _ _ _ _ (re_ok _ _ _ _ _ _ _ Hr) _ _ Hnm) as [Hi1 _]. destruct (repr_dir_again _ _ _ _ _ _ _ _ _ _ _ _ _ Hr Hnd Hyd Hd Hr' Ht Hi1) as (yd2 & nd2 & Hdin2 & Hnd2 & Hyd2 & Hsame). rewrite <- Hsame in Hent. destruct (repr_dir _ _ _ _ _ _ _ Hr' Hnd2 Hyd2) as [Hdir2 _].
    destruct (takes_self _ _ _ _ Ht) as [cw Hw]. destruct (repr_node f dev ns _ _ _ _ _ _ _ Hr' Hw) as (y & n & Hwin & Hn & Hy & _). pose proof (nd_addr _ _ _ _ _ _ Hn). subst ino. destruct (ino_range _ _ _ _ _ _ _ Hr' Hn) as [Hi0 Hiu].
    assert (forall w' p', s_handles A !! w' = Some p' -> 0 < p'.2) as Hpos by (intros w' p'; by apply (handles_pos a1 I L A)). pose proof (takes_other _ _ _ _ _ _ _ Ht Hd (not_eq_sym Hi1)) as HdT.
    apply vwp_bind. eapply vwp_get_sv; [lia|apply (nd_sv _ _ _ _ _ _ Hn)|]. apply vwp_bind, vwp_kassert; [rewrite (ok_type _ _ _ _ _ _ _ _ _ (re_ok _ _ _ _ _ _ _ Hr') (nd_inode _ _ _ _ _ _ Hn)); by rewrite decide_False|].
    assert (forall M', M' !! n1 = Some (sv_ino y) -> (nlinks M' (sv_ino y) =? 0) = false) as Hlive by (intros M' HM; apply Z.eqb_neq; pose proof (nlinks_pos M' n1 (sv_ino y) HM); lia).
    apply vwp_bind. eapply (vwp_enter_name a' I L' _ d yd2 nd2 n2 (sv_ino y)); [exact Hr'|done|exact Hnd2|done|done|done|done|destruct Hre as [-> _]; cbn; lia| | |].
    + intros Hex. eapply (vwp_put_back (Err EEXIST) a a' I L' A (s_names A) T w (sv_ino y)); [done|exact Hr'|exact Ht|exact Hpos|done|]. intros fr'. rewrite (Hlive _ Hnm), andb_false_r. split; [done|]. right. by left.
    + intros Hnone Hlen k2 x' t' yd' I1 Hed _ Hfree Hdir HL. assert (a_svs (evolve a' d x' t' yd') !! w = Some y) as Hsv by (eapply svs_other; [exact Hnd2|exact Hn|congruence]). assert (n1 <> n2) as Hn12 by (intros ->; cbn in Hnone; congruence).
      apply vwp_bind. eapply vwp_get_sv; [lia|exact Hsv|]. apply vwp_bind. rewrite (u16_links _ _ _ _ _ _ _ n2 Hr' Hn Hi1 Hnone). apply (vwp_set_links w y x' t'); [lia|exact Hsv|done|done|]. cbn [with_handles s_names] in *.
      eapply (vwp_rename_rest a _ _ _ A (<[n2 := sv_ino y]> (s_names A)) T _ d yd' w (sv_ino y) c n1 k); [done|eapply (relink_repr a' I L' (with_handles T A)); try done; [intros i Hne; by apply link_counts|intros nm i; apply link_names_of]|exact Ht|exact Hpos|done|done| | | | |].
      * cbn. rewrite lookup_insert_ne; [apply lookup_insert_eq|]. intros ->. pose proof (nd_sv _ _ _ _ _ _ Hnd2). pose proof (nd_sv _ _ _ _ _ _ Hn). congruence.
      * by rewrite lookup_insert_ne.
      * by eapply entry_kept.
      * rewrite delete_insert_ne by done. pose proof (nlinks_pos (<[n2 := sv_ino y]> (delete n1 (s_names A))) n2 (sv_ino y) (lookup_insert_eq _ _ _)). lia.
      * intros fr'. done.
    + intros Hnone e a2 I2 A2 Hr2 [E1 E2] Hk He. rewrite Hk in Hr2. eapply (vwp_put_back (Err e) a a2 I2 L' A (s_names A) T w (sv_ino y)); [done|exact Hr2|exact Ht|exact Hpos|destruct Hre as [F1 F2]; split; [by rewrite E1|by rewrite E2]|].
      intros fr'. rewrite (Hlive _ Hnm), andb_false_r. split; [done|]. right. right. by split.
Qed.
End Ops.
End SfsDirOps.
