(* ===== verification/SfsFileOps.v ===== *)
(** * The operations of files

    sfs_read, sfs_write, sfs_truncate, sfs_stat, sfs_fsync and the other
    operations of a vnode on the state that a user sees. *)

From S2P Require Import Prelude Kern Bswap Bitmap Array Interfaces Copyinout Uio Vfs Lhd LhdSpec Sfs SfsSpec SfsMap SfsBmap SfsTrunc SfsUio SfsIo SfsDir SfsCache SfsVol SfsDirOps.
Open Scope Z_scope.

Module SfsFileOps.
Import Copyinout Uio Vfs Lhd LhdSpec Sfs SfsSpec SfsMap SfsBmap SfsTrunc SfsUio SfsIo SfsWrite SfsDir SfsNames SfsCache SfsVol SfsOps SfsDirOps.

(** ** What the operations promise *)

(** The bytes that a read of [rm] bytes at [off] delivers *)
Definition file_part (F : afile) (off rm : Z) : list Z :=
  take (Z.to_nat (if off <? fl_size F then Z.min rm (fl_size F - off) else 0)) (drop (Z.to_nat off) (fl_data F)).
(** The file when [bs] was written at [off] *)
Definition written (off : Z) (bs : list Z) (F : afile) : afile :=
  AFile (match bs with [] => fl_size F | _ => Z.max (fl_size F) (off + Z.of_nat (length bs)) end)
        (take (Z.to_nat off) (fl_data F) ++ bs ++ drop (Z.to_nat off + length bs) (fl_data F)).
(** The file when it was truncated to [len]: the blocks not kept read as zeros. *)
Definition cut_file (len : Z) (F : afile) : afile :=
  AFile len (imap (fun p b => if kept ((len + 511) / 512) (p / 512) then b else 0) (fl_data F)).

Definition with_memory m A : astate := AState (s_names A) (s_files A) (s_handles A) m (s_free A).
Definition with_file ino F fr A : astate := AState (s_names A) (<[ino := F]> (s_files A)) (s_handles A) (s_mem A) fr.
(** A uio of one block after [k] bytes *)
Definition moved seg dir sp (base len off rm : Z) (k : nat) : uio := ub seg dir sp (base + Z.of_nat k) (len - Z.of_nat k) (off + Z.of_nat k) (rm - Z.of_nat k).

Definition read_spec A F seg sp (base len off rm : Z) (r : res unit * uio) (A' : astate) : Prop :=
  let d := file_part F off rm in
  exists cnt m, r.2 = moved seg UIO_READ sp base len off rm cnt /\ A' = with_memory m A /\
    match r.1 with
    | Done _ => cnt = length d /\ delivered d (s_mem A) base cnt m
    | Err e => e = EFAULT /\ (cnt <= length d)%nat /\ ~ usable seg (s_mem A) base (Z.of_nat (length d)) /\ spilled d (s_mem A) base cnt m
    end.
Definition write_spec A ino F seg sp (base len off rm : Z) (r : res unit * uio) (A' : astate) : Prop :=
  exists cnt bs, load_bytes (s_mem A) base cnt = Some bs /\ r.2 = moved seg UIO_WRITE sp base len off rm cnt /\ A' = with_file ino (written off bs F) (s_free A') A /\
    match r.1 with
    | Done _ => cnt = Z.to_nat rm
    | Err e => (cnt <= Z.to_nat rm)%nat /\ (e = EFAULT /\ ~ usable seg (s_mem A) base rm \/ e = ENOSPC /\ s_free A' = 0 \/ e = EFBIG /\ MAXSIZE < off + rm)
    end.

(** ** The bytes of a file *)

Lemma frange_part t i n off k : (off + k <= n)%nat -> take k (drop off (frange t i 0 n)) = frange t i (Z.of_nat off) k.
Proof.
  intros Hle. apply list_eq. intros j. destruct (decide (j < k)%nat) as [Hj|Hj].
  - rewrite lookup_take_lt, lookup_drop, !frange_lookup by lia. do 2 f_equal. lia.
  - rewrite !lookup_ge_None_2; [done|rewrite frange_length; lia|rewrite length_take; lia].
Qed.
Lemma part_frange t i off rm : 0 <= off -> 0 <= rm -> 0 <= sfi_size i <= MAXSIZE -> file_part (afile_of t i) off rm = frange t i off (Z.to_nat (if off <? sfi_size i then Z.min rm (sfi_size i - off) else 0)).
Proof.
  intros Hoff Hrm Hs. unfold file_part. rewrite afile_size, afile_data. destruct (Z.ltb_spec off (sfi_size i)) as [Hlt|Hge]; [|done]. pose proof nbytes_max. rewrite frange_part by lia. by rewrite Z2Nat.id.
Qed.
Lemma wrote_data ns E x t y I off bs x' t' y' I' n : 0 <= off -> bs = [] \/ off + Z.of_nat (length bs) <= Z.of_nat n -> wrote ns E x t y I off bs x' t' y' I' ->
  frange t' (sv_i y') 0 n = take (Z.to_nat off) (frange t (sv_i y) 0 n) ++ bs ++ drop (Z.to_nat off + length bs) (frange t (sv_i y) 0 n).
Proof.
  intros Hoff Hmax Hw. apply list_eq. intros j. destruct (decide (j < n)%nat) as [Hj|Hj].
  - rewrite frange_lookup, (wr_self _ _ _ _ _ _ _ _ _ _ _ _ Hw) by lia. rewrite Z.add_0_l. case_decide as Hin.
    + destruct Hmax as [->|Hmax]; [cbn in Hin; lia|]. rewrite lookup_app_r; rewrite length_take, frange_length; [|lia]. rewrite lookup_app_l by lia. destruct (lookup_lt_is_Some_2 bs (Z.to_nat (Z.of_nat j - off))) as [b Hb]; [lia|]. rewrite Hb. replace (j - Z.to_nat off `min` n)%nat with (Z.to_nat (Z.of_nat j - off)) by lia. by rewrite Hb.
    + destruct (decide (j < Z.to_nat off)%nat) as [Hlt|Hge]; [rewrite lookup_app_l by (rewrite length_take, frange_length; lia); rewrite lookup_take_lt, frange_lookup by lia; done|].
      rewrite lookup_app_r; rewrite length_take, frange_length; [|lia]. rewrite lookup_app_r by lia. rewrite lookup_drop, frange_lookup by (destruct Hmax as [->|]; cbn in *; lia). do 2 f_equal. destruct Hmax as [->|]; cbn in *; lia.
  - symmetry. rewrite !lookup_ge_None_2; [done|rewrite frange_length; lia|]. rewrite !length_app, length_take, length_drop, frange_length. destruct Hmax as [->|]; cbn; lia.
Qed.
Lemma grow_block e t y k : fblock t (sv_i (grow_size e y)) k = fblock t (sv_i y) k.
Proof. unfold grow_size. by destruct (_ <? _). Qed.
Lemma grow_file_blocks e t y : file_blocks t (sv_i (grow_size e y)) = file_blocks t (sv_i y).
Proof. unfold grow_size. by destruct (_ <? _). Qed.
Lemma grow_to e y : 0 <= sfi_size (sv_i y) -> sfi_size (sv_i (grow_size e y)) = Z.max (sfi_size (sv_i y)) e.
Proof. intros Hs. unfold grow_size. destruct (Z.ltb_spec (sfi_size (sv_i y)) e); cbn; lia. Qed.
Lemma afile_written ns E x t y I off bs x' t' y' I' : 0 <= off -> 0 <= sfi_size (sv_i y) -> wrote ns E x t y I off bs x' t' y' I' ->
  afile_of t' (sv_i (grow_size (if decide (length bs = 0%nat) then 0 else off + Z.of_nat (length bs)) y')) = written off bs (afile_of t (sv_i y)).
Proof.
  intros Hoff Hs Hw. pose proof nbytes_max as Hn. destruct (wr_meta _ _ _ _ _ _ _ _ _ _ _ _ Hw) as [M1 M2 M3 M4]. apply afile_eq; unfold written; cbn [fl_size fl_data].
  - rewrite afile_size, grow_to by lia. destruct bs; cbn [length]; [rewrite decide_True by done; lia|]. rewrite decide_False by done. congruence.
  - rewrite afile_data. rewrite (frange_same t' t' (sv_i y')) by (intros; apply grow_block). symmetry. eapply wrote_data; [done| |exact Hw]. rewrite Hn. exact (wr_max _ _ _ _ _ _ _ _ _ _ _ _ Hw).
Qed.
Lemma afile_cut ns bl E I len x t y x' t' y' : bl = (len + 511) / 512 -> truncated ns bl E I len x t y x' t' y' -> afile_of t' (sv_i y') = cut_file len (afile_of t (sv_i y)).
Proof.
  intros -> Ht. apply afile_eq; unfold cut_file; cbn [fl_size fl_data]; [symmetry; apply Ht|]. rewrite afile_data. apply list_eq. intros j. rewrite list_lookup_imap. destruct (decide (j < NBYTES)%nat) as [Hj|Hj].
  - rewrite !frange_lookup by done. cbn [fmap option_fmap option_map]. f_equal. unfold fbyte. rewrite (tr_self _ _ _ _ _ _ _ _ _ _ _ Ht), Z.add_0_l. replace (Z.to_nat (Z.of_nat j / 512)) with (j / 512)%nat by (pose proof (Nat2Z.inj_div j 512); lia).
    destruct (kept _ _); [done|]. unfold zeros. destruct (replicate 512 0 !! _) as [b|] eqn:Hb; [|done]. by apply lookup_replicate in Hb as [-> _].
  - rewrite !lookup_ge_None_2 by (rewrite frange_length; lia). done.
Qed.

Section Ops.
Context {D : Type} `{W : DiskSpec D}.
Context (f dev ns : Z).
Abbreviation vwp := (vwp (D := D) f dev ns).
Abbreviation node := (node f).
Abbreviation repr := (repr f dev ns).
Abbreviation vol := (vol f dev ns).
Abbreviation refines := (refines f dev ns).

(** A file changes. *)
Lemma repr_file a I L A v ino c : repr a I L A -> s_handles A !! v = Some (ino, c) -> ino <> 1 -> exists y n, v ∈ L /\ node a I v y n /\ sv_ino y = ino /\ s_files A !! ino = Some (afile_of (a_sect a) (sv_i y)).
Proof using .
  intros Hr Hv H1. destruct (repr_node f dev ns _ _ _ _ _ _ _ Hr Hv) as (y & n & Hin & Hn & Hy & _). exists y, n. split; [done|]. split; [done|]. split; [done|]. rewrite (re_files _ _ _ _ _ _ _ Hr), files_lookup, decide_False by done. rewrite <- Hy, (nd_inode _ _ _ _ _ _ Hn). done.
Qed.
Lemma changed_repr a I L A v y n x' t' y' I' (a' := evolve a v x' t' y') : repr a I L A -> v ∈ L -> node a I v y n -> sv_ino y <> 1 -> changed ns [] (a_fs a) (a_sect a) y I x' t' y' I' -> sfi_linkcount (sv_i y') = sfi_linkcount (sv_i y) ->
  repr a' I' L (with_file (sv_ino y) (afile_of t' (sv_i y')) (free_blocks a' I') A).
Proof using .
  intros Hr Hv Hn H1 Hc Hl. pose proof Hr as [O1 O2 O3 O4 O5]. unfold with_file. split; cbn [s_names s_files s_handles s_mem s_free]; [by eapply fs_file| | |exact O4|reflexivity].
  - intros w. rewrite O2. symmetry. eapply handle_evolve; [exact Hn|apply Hc].
  - rewrite O3, (cg_I _ _ _ _ _ _ _ _ _ _ Hc). cbn [a' evolve a_sect with_svs with_sect]. symmetry. apply files_update; [done|]. apply (cg_others _ _ _ _ _ _ _ _ _ _ Hc).
Qed.
Lemma repr_memory a I L A m : repr a I L A -> repr (with_mem m a) I L (with_memory m A).
Proof using . intros Hr. by apply (repr_view f dev ns a). Qed.

(** ** sfs_read and sfs_write *)

Lemma read_refines a A v ino c F seg sp base len off rm : s_handles A !! v = Some (ino, c) -> ino <> 1 -> s_files A !! ino = Some F -> ublock seg sp base len off rm (a_space a) (s_mem A) -> 0 <= off ->
  refines (sfs_read v (ub seg UIO_READ sp base len off rm)) a A (read_spec A F seg sp base len off rm).
Proof.
  intros Hv H1 HF Hu Hoff (I & L & Hr). unfold sfs_read, sfs_rw. apply vwp_bind, vwp_kassert; [done|]. apply vwp_depth. intros Hdep. apply vwp_locked. apply (repr_depth _ _ _ _ _ _ _ (a_depth a + 1)) in Hr. set (a1 := with_depth (a_depth a + 1) a) in *.
  destruct (repr_file _ _ _ _ _ _ _ Hr Hv H1) as (y & n & Hin & Hn & Hy & HF'). assert (F = afile_of (a_sect a1) (sv_i y)) as -> by congruence. clear HF. pose proof (repr_held _ _ _ _ _ _ _ _ _ _ Hr Hn) as [P1 P2 P3]. pose proof (nd_addr _ _ _ _ _ _ Hn). pose proof (di_size _ (so_inodes _ _ _ _ _ P1 _ _ P2)) as Hsz.
  apply vwp_bind. rewrite <- (evolve_id a1 v y) by apply Hn. rewrite (re_mem _ _ _ _ _ _ _ Hr) in Hu. pose proof (part_frange (a_sect a1) (sv_i y) off rm Hoff ltac:(apply Hu) Hsz) as Hpart.
  eapply (vwp_io_read f dev ns v n (a_fs a1) (a_sect a1) y I []); [lia|apply Hn|exact P1|exact P2|exact P3|split; [apply Hn|cbn; lia]|exact Hu|done|]. fold (readable y off rm) in Hpart. rewrite <- Hpart. rewrite evolve_id by apply Hn. unfold read_spec. rewrite (re_mem _ _ _ _ _ _ _ Hr).
  split; [intros m' Hd _|intros m' cnt Hc Hnu Hs]; (eapply vwp_finish; [done|apply repr_memory; exact Hr|done|]); [exists (length (file_part (afile_of (a_sect a1) (sv_i y)) off rm)), m'|exists cnt, m']; cbn [fst snd]; done.
Qed.
Lemma write_refines a A v ino c F seg sp base len off rm : s_handles A !! v = Some (ino, c) -> ino <> 1 -> s_files A !! ino = Some F -> ublock seg sp base len off rm (a_space a) (s_mem A) -> 0 <= off < 2 ^ 41 -> off + rm <= 2 ^ 41 ->
  refines (sfs_write v (ub seg UIO_WRITE sp base len off rm)) a A (write_spec A ino F seg sp base len off rm).
Proof.
  intros Hv H1 HF Hu Hoff Hmax (I & L & Hr). unfold sfs_write, sfs_rw. apply vwp_bind, vwp_kassert; [done|]. apply vwp_depth. intros Hdep. apply vwp_locked. apply (repr_depth _ _ _ _ _ _ _ (a_depth a + 1)) in Hr. set (a1 := with_depth (a_depth a + 1) a) in *.
  destruct (repr_file _ _ _ _ _ _ _ Hr Hv H1) as (y & n & Hin & Hn & Hy & HF'). assert (F = afile_of (a_sect a1) (sv_i y)) as -> by congruence. clear HF. subst ino. pose proof (repr_held _ _ _ _ _ _ _ _ _ _ Hr Hn) as Hh. pose proof Hh as [P1 P2 P3]. pose proof (nd_addr _ _ _ _ _ _ Hn). pose proof (di_size _ (so_inodes _ _ _ _ _ P1 _ _ P2)) as Hsz.
  apply vwp_bind. rewrite <- (evolve_id a1 v y) by apply Hn. rewrite (re_mem _ _ _ _ _ _ _ Hr) in Hu. pose proof (ub_res _ _ _ _ _ _ _ _ Hu) as Hrm.
  eapply (vwp_io_write f dev ns a1 v n []); [lia|apply Hn|apply Hn|cbn; lia|exact Hh|exact Hu|done|done|]. intros r k bs x' t' y' I' Hk Hbs Hw Hres. pose proof (proj1 (load_bytes_Some _ _ _ _) Hbs) as [Hlen _].
  set (e := if decide (k = 0%nat) then 0 else off + Z.of_nat k). assert (0 <= e <= MAXSIZE) as He. { unfold e, MAXSIZE in *. destruct (decide (k = 0%nat)) as [|Hne]; [lia|]. destruct (wr_max _ _ _ _ _ _ _ _ _ _ _ _ Hw) as [->|Hm]; [by cbn in Hlen|]. unfold MAXSIZE in Hm. lia. }
  pose proof (wrote_changed ns _ _ _ _ _ _ _ _ _ _ _ e Hw He) as Hc. cbn zeta in Hc. pose proof (afile_written _ _ _ _ _ _ _ _ _ _ _ _ (proj1 Hoff) (proj1 Hsz) Hw) as Haf. rewrite Hlen in Haf. fold e in Haf.
  eapply vwp_finish; [exact Hdep|eapply (changed_repr a1 I L A v y n); [exact Hr|exact Hin|exact Hn|exact H1|exact Hc|]|split; reflexivity|].
  - unfold grow_size. destruct (wr_meta _ _ _ _ _ _ _ _ _ _ _ _ Hw) as [M1 M2 M3 M4]. by destruct (_ <? _).
  - exists k, bs. rewrite (re_mem _ _ _ _ _ _ _ Hr), Haf. cbn [fst snd]. split; [done|]. split; [done|]. split; [reflexivity|]. destruct r as [[]|er]; [done|]. split; [done|]. destruct Hres as [[-> Hnu]|[[-> Hfull]|[-> Hbig]]]; [left|right; left|right; right]; (split; [done|]).
    + by rewrite Z2Nat.id in Hnu by lia.
    + cbn [with_file s_free]. apply (full_free ns); [apply Hc|]. intros b Hb. cbn [evolve a_sect a_fs with_svs with_sect with_fs] in *. specialize (Hfull b Hb). revert Hfull. unfold in_use. rewrite (wr_I _ _ _ _ _ _ _ _ _ _ _ _ Hw), !elem_of_app, !owned_update, !elem_of_app, !elem_of_cons. by rewrite grow_file_blocks.
    + lia.
Qed.

(** ** The other operations *)

Definition truncate_spec A ino F len (r : res unit) (A' : astate) : Prop := r = Done tt /\ A' = with_file ino (cut_file len F) (s_free A') A.
Lemma truncate_refines a A v ino c F len : s_handles A !! v = Some (ino, c) -> ino <> 1 -> s_files A !! ino = Some F -> 0 <= len <= MAXSIZE -> refines (sfs_truncate v len) a A (truncate_spec A ino F len).
Proof.
  intros Hv H1 HF Hlen (I & L & Hr). unfold sfs_truncate. destruct (repr_file _ _ _ _ _ _ _ Hr Hv H1) as (y & n & Hin & Hn & Hy & HF'). assert (afile_of (a_sect a) (sv_i y) = F) as HFe by congruence. subst ino. pose proof (repr_held _ _ _ _ _ _ _ _ _ _ Hr Hn) as [P1 P2 P3]. pose proof (nd_addr _ _ _ _ _ _ Hn).
  rewrite <- (evolve_id a v y) by apply Hn. eapply (vwp_itrunc f dev ns a v n (a_fs a) (a_sect a) y I []); [lia|apply Hn|apply Hn|exact P1|exact P2|exact P3|done|]. intros x' t' y' Ht. pose proof (afile_cut _ _ _ _ _ _ _ _ _ _ _ eq_refl Ht) as Hcut. rewrite HFe in Hcut. unfold truncate_spec. rewrite <- Hcut.
  eexists. split; [|split; [eexists _, L; eapply (changed_repr a I L A v y n); [exact Hr|exact Hin|exact Hn|exact H1|eapply truncated_changed; exact Ht|apply Ht]|split; reflexivity]]. by split.
Qed.

(** sfs_fsync changes nothing that can be seen. *)
Lemma synced_repr a I L A v y n t' : repr a I L A -> node a I v y n -> space_ok ns (a_fs a) t' I [] -> fixed (a_fs a) (a_sect a) t' -> same_files (a_sect a) t' I -> cache f (evolve a v (a_fs a) t' (clean y)) I L -> repr (evolve a v (a_fs a) t' (clean y)) I L A.
Proof using .
  intros [[O1 O2 O3 (r & R1 & R2 & R3 & R4) O5 O6 O7] Q2 Q3 Q4 Q5] Hn Ho Hfix Hsame Hc. assert (forall w, ino_of (evolve a v (a_fs a) t' (clean y)) w = ino_of a w) as Hino by (intros w; by eapply ino_evolve). split; [|intros w; rewrite Q2; symmetry; by eapply handle_evolve| |exact Q4|].
  - split; [exact Ho|exact Hc|exact O3| |exact O5| |by apply (meta_step (a_fs a) (a_fs a) (a_sect a))]. { exists r. pose proof (proj2 (Hsame 1 r R1)) as Hf. split; [done|]. split; [by eapply dir_same|]. split; [by eapply lists_same|done]. }
    intros ino i Hi Hi1. setoid_rewrite Hino. by apply O6.
  - rewrite Q3. symmetry. apply files_same. intros ino i Hi _. by apply (Hsame ino).
  - rewrite Q5. unfold free_blocks, in_use. cbn [evolve a_sect a_fs with_svs with_sect with_fs]. rewrite (owned_same (a_sect a) t' I); [reflexivity|]. intros ino i Hi. by apply (Hsame ino).
Qed.
Lemma fsync_refines a A v ino c : s_handles A !! v = Some (ino, c) -> refines (sfs_fsync v) a A (fun r A' => r = Done tt /\ A' = A).
Proof.
  intros Hv (I & L & Hr). unfold sfs_fsync. apply vwp_depth. intros Hdep. apply vwp_locked. apply (repr_depth _ _ _ _ _ _ _ (a_depth a + 1)) in Hr. set (a1 := with_depth (a_depth a + 1) a) in *. destruct (repr_node f dev ns _ _ _ _ _ _ _ Hr Hv) as (y & n & Hin & Hn & Hy & _).
  pose proof (re_ok _ _ _ _ _ _ _ Hr) as Ho. apply vwp_bind. eapply (vwp_sync_inode f dev ns [] a1 I L v y n); [apply Ho|apply Ho|done|exact Hn|apply (ok_dev _ _ _ _ _ _ _ _ Ho)|cbn; lia|]. intros t' Ht Hfix Hsame _ _ Hc. eapply vwp_finish; [done|by eapply synced_repr|split; reflexivity|by split].
Qed.

(** The type of a vnode, and what stat says *)
Definition type_of (ino : Z) : Z := if decide (ino = 1) then S_IFDIR else S_IFREG.
Lemma gettype_refines a A v ino c : s_handles A !! v = Some (ino, c) -> refines (sfs_gettype v) a A (fun r A' => r = Done (type_of ino) /\ A' = A).
Proof.
  intros Hv (I & L & Hr). destruct (repr_node f dev ns _ _ _ _ _ _ _ Hr Hv) as (y & n & Hin & Hn & Hy & _). pose proof (nd_addr _ _ _ _ _ _ Hn). unfold sfs_gettype. apply vwp_bind. eapply vwp_get_sv; [lia|apply (nd_sv _ _ _ _ _ _ Hn)|].
  apply vwp_depth. intros Hdep. apply vwp_locked. apply (repr_depth _ _ _ _ _ _ _ (a_depth a + 1)) in Hr. pose proof (ok_type _ _ _ _ _ _ _ _ _ (re_ok _ _ _ _ _ _ _ Hr) (nd_inode _ _ _ _ _ _ Hn)) as ->. unfold type_of. rewrite Hy. destruct (decide (ino = 1)); cbn; by eapply vwp_finish.
Qed.
End Ops.
End SfsFileOps.

(** * sfs_sync

    sfs_sync writes the inodes, the free map and the superblock; it changes
    nothing that can be seen. *)


Module SfsSync.
Import Vfs Lhd LhdSpec Sfs SfsSpec SfsMap SfsBmap SfsTrunc SfsUio SfsIo SfsWrite SfsDir SfsNames SfsCache SfsVol SfsOps SfsDirOps SfsFileOps.

(** ** The free map on the disk *)

Lemma freemap_blocks nb : 0 < nb <= 2 ^ 23 -> SFS_FREEMAPBITS nb = 4096 * SFS_FREEMAPBLOCKS nb /\ 0 < SFS_FREEMAPBLOCKS nb <= 2 ^ 11.
Proof.
  intros Hnb. unfold SFS_FREEMAPBLOCKS, SFS_FREEMAPBITS, SFS_ROUNDUP. change SFS_BITSPERBLOCK with 4096. rewrite u32_id by width_lia. rewrite Z.div_mul by lia. split; [lia|]. Z.to_euclidean_division_equations. lia.
Qed.
Lemma map_bytes b nb : 0 < nb <= 2 ^ 23 -> Bitmap.wf b -> Bitmap.nbits b = SFS_FREEMAPBITS nb -> Z.of_nat (length (Bitmap.v b)) = 512 * SFS_FREEMAPBLOCKS nb.
Proof.
  intros Hnb Hw Hb. rewrite (Bitmap.wf_length b Hw). unfold Bitmap.nwords. rewrite Hb. destruct (freemap_blocks nb Hnb) as [-> Hn]. Z.to_euclidean_division_equations. lia.
Qed.
Lemma map_part_length b n j : Z.of_nat (length (Bitmap.v b)) = 512 * n -> 0 <= j < n -> length (map_part b j) = 512%nat.
Proof. intros Hl Hj. unfold map_part. rewrite length_take, length_drop. lia. Qed.

(** Sectors of the file system's own are written. *)
Lemma blocks_agree t t' i : (forall b, b ∈ file_blocks t i -> t' b = t b) -> file_blocks t' i = file_blocks t i /\ forall k, fblock t' i k = fblock t i k.
Proof.
  intros Ha. assert (iwords t' i = iwords t i) as Hw. { unfold iwords. destruct (Z.eqb_spec (sfi_indirect i) 0); [done|]. rewrite Ha; [done|]. apply elem_nz. split; [left|done]. }
  assert (forall k, blockno t' i k = blockno t i k) as Hb by (intros k; unfold blockno; by rewrite Hw). split; [unfold file_blocks; by rewrite Hw|]. intros k. unfold fblock. rewrite Hb. destruct (Z.eqb_spec (blockno t i k) 0); [done|]. apply Ha. by apply blockno_in.
Qed.
Lemma system_agree ns x t t' I E : space_ok ns x t I E -> (forall b, b ∉ system (sb_nblocks (sfs_sb x)) -> t' b = t b) -> same_files t t' I /\ (forall ino i, I !! ino = Some i -> t' ino = t ino) /\ owned t' I = owned t I.
Proof.
  intros Ho Ha. assert (forall b, b ∈ owned t I -> t' b = t b) as Hown.
  { intros b Hb. apply Ha. intros Hs. pose proof (so_nodup _ _ _ _ _ Ho) as Hn. unfold in_use in Hn. apply NoDup_app in Hn as (_ & Hd & _). apply (Hd b Hs), elem_of_app. by right. }
  assert (forall ino i, I !! ino = Some i -> file_blocks t' i = file_blocks t i /\ forall k, fblock t' i k = fblock t i k) as Hf. { intros ino i Hi. apply blocks_agree. intros b Hb. apply Hown, in_owned. exists ino, i. split; [done|by right]. }
  split; [done|]. split; [|apply owned_same; intros ino i Hi; by apply (Hf ino)]. intros ino i Hi. apply Hown, in_owned. exists ino, i. split; [done|by left].
Qed.

Section Sync.
Context {D : Type} `{W : DiskSpec D}.
Context (f dev ns : Z).
Abbreviation V := (vstate (sfs_state D)).
Abbreviation vwp := (vwp (D := D) f dev ns).
Abbreviation repr := (repr f dev ns).

Lemma vwp_map_write b n m j t a (Q : res unit -> view -> Prop) : sfs_freemap (a_fs a) = Some b -> sfs_device (a_fs a) = dev -> 0 < a_depth a -> Z.of_nat (length (Bitmap.v b)) = 512 * n -> 2 + n <= ns -> 0 <= j -> j + Z.of_nat m = n ->
  (forall t', (forall k, j <= k < n -> t' (2 + k) = map_part b k) -> (forall c, c < 2 + j \/ 2 + n <= c -> t' c = t c) -> Q (Done tt) (with_sect t' a)) ->
  vwp (each (seqZ j (Z.of_nat m)) (freemap_block f UIO_WRITE)) (with_sect t a) Q.
Proof.
  intros Hb Hd Hdep Hl Hns. revert j t. induction m as [|m IH]; intros j t Hj Hm HQ.
  - apply vwp_ret, HQ; [lia|done].
  - rewrite (seqZ_cons j (Z.of_nat (S m))) by lia. cbn [each]. apply vwp_bind. unfold freemap_block. apply vwp_bind, vwp_get_fs, vwp_bind. eapply vwp_deref; [exact Hb|]. change SFS_FREEMAP_START with 2. change SFS_BLOCKSIZE with 512. change (Z.to_nat 512) with 512%nat.
    cbv zeta. unfold Bitmap.bitmap_getdata. fold (map_part b j). apply vwp_writeblock; [done|done|lia|apply (map_part_length b n); lia|]. replace (Z.pred (Z.of_nat (S m))) with (Z.of_nat m) by lia. cbn [with_sect a_sect]. apply IH; [lia|lia|]. intros t' H1 H2. apply HQ.
    + intros k Hk. destruct (decide (k = j)) as [->|Hne]; [|apply H1; lia]. rewrite H2 by lia. unfold upd. by rewrite Z.eqb_refl.
    + intros c Hc. rewrite H2 by lia. unfold upd. by rewrite (proj2 (Z.eqb_neq c (2 + j))) by lia.
Qed.
Lemma with_sect_twice t t' a : with_sect t (with_sect t' a) = with_sect t a.
Proof using . done. Qed.
Lemma with_sect_id a : with_sect (a_sect a) a = a.
Proof using . by destruct a. Qed.

(** sfs_sync_freemap, sfs_sync_superblock *)
Definition set_clean (x : sfs_fs) : sfs_fs := SfsFs (sfs_sb x) (sfs_superdirty x) (sfs_device x) (sfs_vnodes x) (sfs_freemap x) false.
Lemma vwp_sync_freemap a b (n := SFS_FREEMAPBLOCKS (sb_nblocks (sfs_sb (a_fs a)))) (Q : res unit -> view -> Prop) : sfs_freemap (a_fs a) = Some b -> sfs_device (a_fs a) = dev -> 0 < a_depth a -> Z.of_nat (length (Bitmap.v b)) = 512 * n -> 0 <= n -> 2 + n <= ns ->
  (sfs_freemapdirty (a_fs a) = false -> forall j, 0 <= j < n -> a_sect a (2 + j) = map_part b j) ->
  (forall t', (forall k, 0 <= k < n -> t' (2 + k) = map_part b k) -> (forall c, c < 2 \/ 2 + n <= c -> t' c = a_sect a c) -> Q (Done tt) (with_sect t' (with_fs (set_clean (a_fs a)) a))) -> vwp (sfs_sync_freemap f) a Q.
Proof.
  intros Hb Hd Hdep Hl Hn Hns Hcl HQ. unfold sfs_sync_freemap. apply vwp_bind, vwp_get_fs. destruct (sfs_freemapdirty (a_fs a)) eqn:Hdirty.
  - apply vwp_bind. unfold sfs_freemapio. apply vwp_bind, vwp_get_fs. fold n. rewrite <- (with_sect_id a) at 1. rewrite <- (Z2Nat.id n Hn). apply (vwp_map_write b n); [done|done|done|done|done|lia|lia|]. intros t' H1 H2. apply vwp_bind, vwp_set_freemapdirty, vwp_ret. apply (HQ t'); [done|]. intros c Hc. apply H2. lia.
  - apply vwp_ret. specialize (HQ (a_sect a) (Hcl eq_refl) (fun _ _ => eq_refl)). assert (set_clean (a_fs a) = a_fs a) as Hx by (unfold set_clean; rewrite <- Hdirty; by destruct (a_fs a)). rewrite Hx in HQ. by destruct a.
Qed.

Lemma map_written a I L A b t' (n := SFS_FREEMAPBLOCKS (sb_nblocks (sfs_sb (a_fs a)))) (a' := with_sect t' (with_fs (set_clean (a_fs a)) a)) : repr a I L A -> sfs_freemap (a_fs a) = Some b -> 0 <= n ->
  (forall k, 0 <= k < n -> t' (2 + k) = map_part b k) -> (forall c, c < 2 \/ 2 + n <= c -> t' c = a_sect a c) -> repr a' I L A.
Proof using .
  intros Hr Hb Hn H1 H2. pose proof Hr as [[O1 O2 O3 (r & R1 & R2 & R3 & R4) O5 O6 O7] Q2 Q3 Q4 Q5]. assert (forall c, c ∉ system (sb_nblocks (sfs_sb (a_fs a))) -> t' c = a_sect a c) as Hag. { intros c Hc. apply H2. unfold system in Hc. apply not_elem_of_cons in Hc as [_ Hc]. rewrite elem_of_seqZ in Hc. fold n in Hc. lia. }
  destruct (system_agree ns _ _ _ _ _ O1 Hag) as (Hs & Hi & Ho). split; [|exact Q2| |exact Q4|].
  - split; [|apply cache_sect; [done|done|exact Hi]|done| |done|done|].
    + destruct O1 as [S1 S2 S3 S4 S5]. unfold in_use in *. split; cbn [a' a_fs a_sect with_sect with_fs set_clean sfs_sb sfs_freemap]; unfold in_use; by rewrite ?Ho.
    + exists r. pose proof (proj2 (Hs 1 r R1)) as Hf. split; [done|]. split; [by eapply dir_same|]. split; [by eapply lists_same|done].
    + destruct O7 as [M1 M2 M3 M4]. split; cbn [a' a_fs a_sect with_sect with_fs set_clean sfs_sb sfs_freemap sfs_superdirty]; [done|by rewrite H2 by lia|done|]. intros _ b' j Hb'. assert (b' = b) as -> by congruence. apply H1.
  - rewrite Q3. symmetry. apply files_same. intros ino i Hino _. by apply (Hs ino).
  - rewrite Q5. unfold free_blocks, in_use. cbn [a' a_fs a_sect with_sect with_fs set_clean sfs_sb]. by rewrite Ho.
Qed.

(** ** The vnodes *)

Definition all_clean a (L : list Z) : Prop := forall v y, v ∈ L -> a_svs a !! v = Some y -> sv_dirty y = false.
Lemma vwp_fsync a I L A v (Q : res unit -> view -> Prop) : repr a I L A -> v ∈ L ->
  (forall y t', repr (evolve a v (a_fs a) t' (clean y)) I L A -> Q (Done tt) (evolve a v (a_fs a) t' (clean y))) -> vwp (Sfs.VOP_FSYNC v) a Q.
Proof.
  intros Hr Hv HQ. pose proof (re_ok _ _ _ _ _ _ _ Hr) as Ho. destruct (ca_node _ _ _ _ (ok_cache _ _ _ _ _ _ _ _ Ho) v Hv) as (y & n & Hn). pose proof (nd_addr _ _ _ _ _ _ Hn). unfold Sfs.VOP_FSYNC, Vfs.VOP_FSYNC, VOP, vnode_check. destruct (Z.eqb_spec v 0); [lia|].
  apply vwp_bind, vwp_bind. eapply vwp_get_vnode; [done|apply (nd_vn _ _ _ _ _ _ Hn)|]. rewrite (nd_ops _ _ _ _ _ _ Hn). apply vwp_bind, vwp_kassert; [done|]. apply vwp_bind, vwp_kassert; [apply Z.gtb_lt, Hn|]. apply vwp_ret. rewrite (nd_ops _ _ _ _ _ _ Hn). cbn [sfs_base fop_fsync].
  unfold sfs_fsync. apply vwp_depth. intros Hdep. apply vwp_locked. set (a1 := with_depth (a_depth a + 1) a). assert (repr a1 I L A) as Hr1 by (by apply repr_depth). assert (node f a1 I v y n) as Hn1 by (by destruct Hn; split). pose proof (re_ok _ _ _ _ _ _ _ Hr1) as Ho1.
  apply vwp_bind. eapply (vwp_sync_inode f dev ns [] a1 I L v y n); [apply Ho1|apply Ho1|done|exact Hn1|apply (ok_dev _ _ _ _ _ _ _ _ Ho1)|cbn; lia|]. intros t' Ht Hfix Hsame _ _ Hc. apply vwp_unlock; [cbn; lia|]. change (a_fs a1) with (a_fs a) in *. unfold a1. rewrite evolve_unlocked. apply HQ.
  rewrite <- (evolve_unlocked a v (a_fs a) t' (clean y)). apply repr_depth. exact (synced_repr f dev ns a1 I L A v y n t' Hr1 Hn1 Ht Hfix Hsame Hc).
Qed.
Lemma vwp_sync_loop m k a I L A (Q : unit -> view -> Prop) : repr a I L A -> (m + k = length L)%nat -> all_clean a (take k L) ->
  (forall a', repr a' I L A -> rest a a' -> a_fs a' = a_fs a -> all_clean a' L -> Q tt a') -> vwp (sync_loop m (sfs_vnodes (a_fs a)) (Z.of_nat k)) a Q.
Proof.
  revert k a. induction m as [|m IH]; intros k a Hr Hm Hcl HQ; cbn [sync_loop].
  - apply vwp_ret, HQ; [done|done|done|]. by rewrite take_ge in Hcl by lia.
  - destruct (lookup_lt_is_Some_2 L k) as [v Hk]; [lia|]. apply vwp_bind. eapply vwp_array_get; [apply (re_ok _ _ _ _ _ _ _ Hr)|exact Hk|]. apply vwp_bind. eapply vwp_fsync; [exact Hr|by eapply list_elem_of_lookup_2|]. intros y t' Hr'. replace (Z.of_nat k + 1) with (Z.of_nat (S k)) by lia.
    change (sfs_vnodes (a_fs a)) with (sfs_vnodes (a_fs (evolve a v (a_fs a) t' (clean y)))). apply IH; [exact Hr'|lia| |].
    + intros w z Hw. cbn [evolve a_svs with_svs]. destruct (decide (w = v)) as [->|Hne]; [rewrite lookup_insert_eq; by intros [= <-]|]. rewrite lookup_insert_ne by done. apply Hcl. rewrite (take_S_r _ _ _ Hk), elem_of_app, list_elem_of_singleton in Hw. naive_solver.
    + intros a' Hr2 Hre Hfs Hcl2. apply HQ; [done|done|done|done].
Qed.

(** ** sfs_sync *)

Lemma vwp_sync a I L A (Q : res unit -> view -> Prop) : repr a I L A ->
  (forall a', repr a' I L A -> rest a a' -> sfs_freemapdirty (a_fs a') = false -> all_clean a' L -> Q (Done tt) a') -> vwp (sfs_sync f) a Q.
Proof.
  intros Hr HQ. unfold sfs_sync. apply vwp_depth. intros Hdep. apply vwp_locked. set (a1 := with_depth (a_depth a + 1) a). assert (repr a1 I L A) as Hr1 by (by apply repr_depth). apply vwp_bind, vwp_bind. unfold sfs_sync_vnodes. apply vwp_bind, vwp_get_fs.
  pose proof (ok_cache _ _ _ _ _ _ _ _ (re_ok _ _ _ _ _ _ _ Hr1)) as Hc. unfold Array.array_num. rewrite (Array.h_num _ _ (ca_arr _ _ _ _ Hc)), Nat2Z.id. apply vwp_bind. eapply (vwp_sync_loop (length L) 0); [exact Hr1|lia|intros v y Hv; by apply elem_of_nil in Hv|]. intros a2 Hr2 [E1 E2] Hfs Hcl. apply vwp_ret.
  pose proof (re_ok _ _ _ _ _ _ _ Hr2) as Ho2. destruct (so_map _ _ _ _ _ (ok_space _ _ _ _ _ _ _ _ Ho2)) as (b & B1 & B2 & B3 & _). pose proof (so_nb _ _ _ _ _ (ok_space _ _ _ _ _ _ _ _ Ho2)) as Hnb.
  set (nb := sb_nblocks (sfs_sb (a_fs a2))) in *. destruct (freemap_blocks nb ltac:(lia)) as [_ Hn]. assert (2 + SFS_FREEMAPBLOCKS nb <= ns) as Hns.
  { pose proof (so_range _ _ _ _ _ (ok_space _ _ _ _ _ _ _ _ Ho2) (2 + (SFS_FREEMAPBLOCKS nb - 1))) as Hrg. fold nb in Hrg. assert (0 <= 2 + (SFS_FREEMAPBLOCKS nb - 1) < nb); [|lia]. apply Hrg. unfold in_use, system. apply elem_of_app. left. right. apply elem_of_seqZ. lia. }
  apply vwp_bind. eapply (vwp_sync_freemap a2 b); [exact B1|apply (ok_dev _ _ _ _ _ _ _ _ Ho2)|rewrite E1; cbn; lia|apply map_bytes; [fold nb; lia|exact B2|exact B3]|fold nb; lia|exact Hns|intros Hd j Hj; by apply (mo_map _ _ (ok_meta _ _ _ _ _ _ _ _ Ho2) Hd)|].
  intros t' H1 H2. pose proof (map_written a2 I L A b t' Hr2 B1 ltac:(fold nb; lia) H1 H2) as Hr3. set (a3 := with_sect t' _) in *. unfold sfs_sync_superblock. apply vwp_bind, vwp_get_fs. rewrite (mo_clean _ _ (ok_meta _ _ _ _ _ _ _ _ (re_ok _ _ _ _ _ _ _ Hr3))). apply vwp_ret.
  apply vwp_unlock; [cbn; rewrite E1; cbn; lia|]. apply HQ; [by apply repr_depth|split; cbn; [rewrite E1; cbn; lia|by rewrite E2]|done|exact Hcl].
Qed.
End Sync.
End SfsSync.
