(* ===== verification/SfsClient.v ===== *)
(** * A mounted SFS volume and its clients

    The operations of a volume as the rest of the kernel calls them, through the
    VOP_ macros, refine an abstract file system: names, files, references. *)

From S2P Require Import Prelude Kern Bswap Bitmap Array Interfaces Copyinout Uio Vfs Lhd LhdSpec Sfs SfsSpec SfsMap SfsBmap SfsTrunc SfsUio SfsIo SfsDir SfsCache SfsVol SfsDirOps SfsFileOps.
Open Scope Z_scope.

Module SfsClient.
Import Copyinout Uio Vfs Lhd LhdSpec Sfs SfsSpec SfsMap SfsBmap SfsTrunc SfsUio SfsIo SfsWrite SfsDir SfsNames SfsCache SfsVol SfsOps SfsDirOps SfsFileOps SfsSync.

(** ** Operations *)

Inductive op :=
  | Root | Sync | Lookup (d : Z) (path : list Z) | Lookparent (d : Z) (path : list Z) (buflen : Z) | Creat (d : Z) (name : list Z) (excl : bool) (mode : Z)
  | Link (d : Z) (name : list Z) (file : Z) | Remove (d : Z) (name : list Z) | Rename (d : Z) (n1 n2 : list Z)
  | Read (v : Z) (seg : uio_seg) (sp base len off rm : Z) | Write (v : Z) (seg : uio_seg) (sp base len off rm : Z) | Truncate (v len : Z)
  | Stat_ (v : Z) | Gettype (v : Z) | Fsync (v : Z) | Eachopen (v flags : Z) | Incref (v : Z) | Decref (v : Z).
Inductive ret := RUnit (r : res unit) | RNode (r : res Z) | RParent (r : res (Z * list Z)) | RUio (r : res unit * uio) | RStat (r : res stat).

(** ** What they promise *)

Definition on_dir {B} A (ino : Z) (R : res B -> astate -> Prop) (r : res B) (A' : astate) : Prop := if decide (ino = 1) then R r A' else r = Err ENOTDIR /\ A' = A.
Definition on_file {B} A (ino : Z) (R : afile -> B -> astate -> Prop) (isdir r : B) (A' : astate) : Prop :=
  if decide (ino = 1) then r = isdir /\ A' = A else exists F, s_files A !! ino = Some F /\ R F r A'.
Definition ino_at A (v : Z) : Z := match s_handles A !! v with Some (ino, _) => ino | None => 0 end.
Definition size_at A (ino : Z) : Z := match s_files A !! ino with Some F => fl_size F | None => 0 end.

Definition step_spec A (o : op) (r : ret) (A' : astate) : Prop :=
  match o, r with
  | Root, RNode r => gets A 1 r A'
  | Sync, RUnit r => r = Done tt /\ A' = A
  | Lookup d path, RNode r => on_dir A (ino_at A d) (lookup_spec A path) r A'
  | Lookparent d path n, RParent r => on_dir A (ino_at A d) (lookparent_spec A d path n) r A'
  | Creat d name excl _, RNode r => on_dir A (ino_at A d) (creat_spec A name excl) r A'
  | Link d name file, RUnit r => on_dir A (ino_at A d) (link_spec A name (ino_at A file)) r A'
  | Remove d name, RUnit r => on_dir A (ino_at A d) (remove_spec A name) r A'
  | Rename d n1 n2, RUnit r => on_dir A (ino_at A d) (rename_spec A n1 n2) r A'
  | Read v seg sp base len off rm, RUio r => on_file A (ino_at A v) (fun F => read_spec A F seg sp base len off rm) (Err EISDIR, ub seg UIO_READ sp base len off rm) r A'
  | Write v seg sp base len off rm, RUio r => on_file A (ino_at A v) (fun F => write_spec A (ino_at A v) F seg sp base len off rm) (Err EISDIR, ub seg UIO_WRITE sp base len off rm) r A'
  | Truncate v len, RUnit r => on_file A (ino_at A v) (fun F => truncate_spec A (ino_at A v) F len) (Err EISDIR) r A'
  | Stat_ v, RStat r => A' = A /\ (exists st, r = Done st /\ st_mode st = type_of (ino_at A v) /\ (ino_at A v <> 1 -> st_size st = size_at A (ino_at A v) /\ st_nlink st = nlinks (s_names A) (ino_at A v)))
  | Gettype v, RNode r => r = Done (type_of (ino_at A v)) /\ A' = A
  | Fsync v, RUnit r => r = Done tt /\ A' = A
  | Eachopen v flags, RUnit r => r = (if decide (ino_at A v = 1) then if (Z.land flags O_ACCMODE =? O_RDONLY) && negb (has_flag flags O_APPEND) then Done tt else Err EISDIR else Done tt) /\ A' = A
  | Incref v, RUnit r => r = Done tt /\ exists T, takes (s_handles A) (ino_at A v) v T /\ A' = with_handles T A
  | Decref v, RUnit r => r = Done tt /\ A' = AState (s_names A) (drop_files (s_names A) (s_handles A) (s_files A) v) (drop_handles (s_handles A) v) (s_mem A) (s_free A')
  | _, _ => False
  end.

(** ** What they need: vnodes in use, names without NUL, buffers that are there *)

Definition held_by A (v : Z) : Prop := is_Some (s_handles A !! v).
Definition op_ok (space : Z) A (o : op) : Prop :=
  match o with
  | Root => True
  | Sync => True
  | Lookup d _ => held_by A d
  | Lookparent d _ _ => held_by A d
  | Remove d _ => held_by A d
  | Creat d name _ _ => held_by A d /\ 0 ∉ name
  | Rename d _ name => held_by A d /\ 0 ∉ name
  | Link d name file => held_by A d /\ (0 ∉ name) /\ held_by A file
  | Read v seg sp base len off rm => held_by A v /\ ublock seg sp base len off rm space (s_mem A) /\ 0 <= off
  | Write v seg sp base len off rm => held_by A v /\ ublock seg sp base len off rm space (s_mem A) /\ 0 <= off < 2 ^ 41 /\ off + rm <= 2 ^ 41
  | Truncate v len => held_by A v /\ 0 <= len <= MAXSIZE
  | Stat_ v | Gettype v | Fsync v | Eachopen v _ | Incref v | Decref v => held_by A v
  end.

Section Client.
Context {D : Type} `{W : DiskSpec D}.
Context (f dev ns : Z).
Abbreviation V := (vstate (sfs_state D)).
Abbreviation vwp := (vwp (D := D) f dev ns).
Abbreviation node := (node f).
Abbreviation repr := (repr f dev ns).
Abbreviation vol := (vol f dev ns).
Abbreviation refines := (refines f dev ns).

Definition exec (o : op) : M V ret :=
  match o with
  | Root => r ← fsop_getroot f; mret (RNode r)
  | Sync => r ← fsop_sync f; mret (RUnit r)
  | Lookup d path => r ← VOP_LOOKUP d path; mret (RNode r)
  | Lookparent d path n => r ← VOP_LOOKPARENT d path n; mret (RParent r)
  | Creat d name excl mode => r ← VOP_CREAT d name excl mode; mret (RNode r)
  | Link d name file => r ← VOP_LINK d name file; mret (RUnit r)
  | Remove d name => r ← VOP_REMOVE d name; mret (RUnit r)
  | Rename d n1 n2 => r ← VOP_RENAME d n1 d n2; mret (RUnit r)
  | Read v seg sp base len off rm => r ← VOP_READ v (ub seg UIO_READ sp base len off rm); mret (RUio r)
  | Write v seg sp base len off rm => r ← VOP_WRITE v (ub seg UIO_WRITE sp base len off rm); mret (RUio r)
  | Truncate v len => r ← VOP_TRUNCATE v len; mret (RUnit r)
  | Stat_ v => r ← VOP_STAT v; mret (RStat r)
  | Gettype v => r ← Vfs.VOP_GETTYPE v; mret (RNode r)
  | Fsync v => r ← Vfs.VOP_FSYNC v; mret (RUnit r)
  | Eachopen v flags => r ← VOP_EACHOPEN v flags; mret (RUnit r)
  | Incref v => VOP_INCREF v ;; mret (RUnit (Done tt))
  | Decref v => Vfs.VOP_DECREF v ;; mret (RUnit (Done tt))
  end.

(** ** From the macros to the operations *)

Lemma refines_map {B C} (m : M V B) (K : B -> C) a A R S : (forall r A', R r A' -> S (K r) A') -> refines m a A R -> refines (r ← m; mret (K r)) a A S.
Proof using .
  intros HRS Hm Hv. apply vwp_bind. eapply vwp_mono; [by apply Hm|]. intros r a' (A' & HR & Hv' & Hre). apply vwp_ret. exists A'. split; [by apply HRS|done].
Qed.
Lemma refines_ret {B} (r : B) a A (R : B -> astate -> Prop) : R r A -> refines (mret r) a A R.
Proof using . intros HR Hv. apply vwp_ret. exists A. split; [done|]. split; [done|split; reflexivity]. Qed.
Lemma refines_vop {B} v (m1 m2 : M V B) a A R : held_by A v -> refines m2 a A R -> refines (VOP v m1 m2) a A R.
Proof using .
  intros [[ino c] Hh] Hm Hv. pose proof Hv as (I & L & Hr). destruct (repr_node f dev ns _ _ _ _ _ _ _ Hr Hh) as (y & n & _ & Hn & _). pose proof (nd_addr _ _ _ _ _ _ Hn). unfold VOP, vnode_check. destruct (Z.eqb_spec v 0); [lia|].
  apply vwp_bind, vwp_bind. eapply vwp_get_vnode; [done|apply (nd_vn _ _ _ _ _ _ Hn)|]. rewrite (nd_ops _ _ _ _ _ _ Hn). apply vwp_bind, vwp_kassert; [done|]. apply vwp_bind, vwp_kassert; [apply Z.gtb_lt, Hn|]. apply vwp_ret. rewrite (nd_ops _ _ _ _ _ _ Hn). by apply Hm.
Qed.
Lemma refines_table {B} v (m1 m2 : M V B) a A (R : B -> astate -> Prop) : held_by A v -> (ino_at A v = 1 -> refines m2 a A R) -> (ino_at A v <> 1 -> refines m1 a A R) -> refines (by_table v m1 m2) a A R.
Proof using .
  intros [[ino c] Hh] H2 H1 Hv. unfold ino_at in *. rewrite Hh in *. pose proof Hv as (I & L & Hr). destruct (repr_node f dev ns _ _ _ _ _ _ _ Hr Hh) as (y & n & _ & Hn & Hy & _). pose proof (nd_addr _ _ _ _ _ _ Hn).
  unfold by_table. apply vwp_bind. eapply vwp_get_sv; [lia|apply (nd_sv _ _ _ _ _ _ Hn)|]. rewrite (ok_ops _ _ _ _ _ _ _ _ _ _ (re_ok _ _ _ _ _ _ _ Hr) Hn), Hy. destruct (decide (ino = 1)); [by apply H2|by apply H1].
Qed.
Lemma refines_mono {B} (m : M V B) a A (R S : B -> astate -> Prop) : (forall r A', R r A' -> S r A') -> refines m a A R -> refines m a A S.
Proof using . intros HRS Hm Hv. eapply vwp_mono; [by apply Hm|]. intros r a' (A' & HR & Hv'). exists A'. split; [by apply HRS|done]. Qed.
Lemma refines_dir {B} v (m : M V (res B)) a A R : held_by A v -> (forall c, s_handles A !! v = Some (1, c) -> refines m a A R) -> refines (by_table v (fails ENOTDIR) m) a A (on_dir A (ino_at A v) R).
Proof using .
  intros Hh Hm. apply refines_table; [done| |]; intros Hi; [apply (refines_mono _ _ _ R); [intros r A' HR; unfold on_dir; by rewrite decide_True|]|apply refines_ret; unfold on_dir; by rewrite decide_False]. destruct Hh as [[ino c] Hh]. unfold ino_at in Hi. rewrite Hh in Hi. subst ino. by apply (Hm c).
Qed.
Lemma refines_file {B} v (m1 m2 : M V B) z a A (R : afile -> B -> astate -> Prop) : held_by A v -> m2 = mret z -> (forall c F, s_handles A !! v = Some (ino_at A v, c) -> ino_at A v <> 1 -> s_files A !! ino_at A v = Some F -> refines m1 a A (R F)) ->
  refines (by_table v m1 m2) a A (on_file A (ino_at A v) R z).
Proof using .
  intros Hh -> Hm. apply refines_table; [done| |]; intros Hi; [apply refines_ret; unfold on_file; by rewrite decide_True|]. intros Hv. pose proof Hv as (I & L & Hr). destruct Hh as [[ino c] Hh]. assert (ino = ino_at A v) as -> by (unfold ino_at; by rewrite Hh).
  destruct (repr_file f dev ns _ _ _ _ _ _ _ Hr Hh Hi) as (y & n & _ & _ & _ & HF). eapply vwp_mono; [by eapply (Hm c _ Hh Hi HF)|]. intros r a' (A' & HR & Hv'). exists A'. split; [|done]. unfold on_file. rewrite decide_False by done. by eexists.
Qed.
Lemma stat_refines a A v : held_by A v -> refines (sfs_stat v) a A (fun r A' => step_spec A (Stat_ v) (RStat r) A').
Proof.
  intros Hh Hv. pose proof Hh as [[ino c] Hvc]. assert (ino_at A v = ino) as Hi by (unfold ino_at; by rewrite Hvc). unfold sfs_stat. apply vwp_bind. eapply vwp_mono; [refine (refines_vop v _ (sfs_gettype v) a A _ Hh _ Hv); by eapply gettype_refines|].
  intros r a' (A' & [-> ->] & (I & L & Hr) & Hre). destruct (repr_node f dev ns _ _ _ _ _ _ _ Hr Hvc) as (y & n & Hin & Hn & Hy & _). pose proof (nd_addr _ _ _ _ _ _ Hn). apply vwp_bind. eapply vwp_get_sv; [lia|apply (nd_sv _ _ _ _ _ _ Hn)|]. apply vwp_ret.
  exists A. split; [|split; [by exists I, L|done]]. split; [done|]. eexists. split; [reflexivity|]. rewrite Hi. cbn [st_mode st_size st_nlink]. split; [done|]. intros H1. unfold size_at. rewrite (re_files _ _ _ _ _ _ _ Hr), files_lookup, decide_False by done. rewrite <- Hy, (nd_inode _ _ _ _ _ _ Hn). cbn [fmap option_fmap option_map].
  rewrite afile_size. split; [done|]. rewrite <- Hy in H1. by destruct (ok_files _ _ _ _ _ _ _ _ (re_ok _ _ _ _ _ _ _ Hr) _ _ (nd_inode _ _ _ _ _ _ Hn) H1) as (_ & -> & _).
Qed.

(** ** Every operation *)

Lemma eachopendir_eq v flags : sfs_eachopendir (D := D) v flags = mret (if (Z.land flags O_ACCMODE =? O_RDONLY) && negb (has_flag flags O_APPEND) then Done tt else Err EISDIR).
Proof using . unfold sfs_eachopendir. destruct (_ =? _); cbn; [|done]. by destruct (has_flag _ _). Qed.
Theorem op_refines a A o : op_ok (a_space a) A o -> refines (exec o) a A (step_spec A o).
Proof.
  destruct o; cbn [op_ok exec].
  - intros _. eapply refines_map; [|apply getroot_refines]. done.
  - intros _ (I & L & Hr). apply vwp_bind. eapply vwp_sync; [exact Hr|]. intros a' Hr' Hre _ _. apply vwp_ret. exists A. split; [done|]. split; [by exists I, L|done].
  - intros Hd. eapply refines_map; [|apply refines_vop, refines_dir; [done|done|]; intros c Hc; by eapply lookup_refines]. done.
  - intros Hd. eapply refines_map; [|apply refines_vop, refines_dir; [done|done|]; intros c Hc; by eapply lookparent_refines]. done.
  - intros [Hd Hz]. eapply refines_map; [|apply refines_vop, refines_dir; [done|done|]; intros c Hc; by eapply creat_refines]. done.
  - intros (Hd & Hz & [[ino c'] Hf]). eapply refines_map; [|apply refines_vop, refines_dir; [done|done|]; intros c Hc; by eapply link_refines]. intros r A'. cbn [step_spec]. by replace (ino_at A file) with ino by (unfold ino_at; by rewrite Hf).
  - intros Hd. eapply refines_map; [|apply refines_vop, refines_dir; [done|done|]; intros c Hc; by eapply remove_refines]. done.
  - intros [Hd Hz]. eapply refines_map; [|apply refines_vop, refines_dir; [done|done|]; intros c Hc; by eapply rename_refines]. done.
  - intros (Hv & Hu & Hoff). eapply refines_map; [|apply refines_vop, refines_file; [done|done|reflexivity|]; intros c F Hc H1 HF; by eapply (read_refines f dev ns a A v _ c F)]. done.
  - intros (Hv & Hu & Hoff & Hmax). eapply refines_map; [|apply refines_vop, refines_file; [done|done|reflexivity|]; intros c F Hc H1 HF; by eapply (write_refines f dev ns a A v _ c F)]. done.
  - intros [Hv Hlen]. eapply refines_map; [|apply refines_vop, refines_file; [done|done|reflexivity|]; intros c F Hc H1 HF; by eapply (truncate_refines f dev ns a A v _ c F)]. done.
  - intros Hv. eapply refines_map; [|apply refines_vop; [done|by apply stat_refines]]. done.
  - intros Hv. pose proof Hv as [[ino c] Hc]. eapply refines_map; [|apply refines_vop; [done|by eapply gettype_refines]]. intros r A'. cbn [step_spec]. unfold ino_at. by rewrite Hc.
  - intros Hv. pose proof Hv as [[ino c] Hc]. eapply refines_map; [|apply refines_vop; [done|by eapply fsync_refines]]. done.
  - intros Hv. eapply (refines_map _ _ _ _ (fun r A' => step_spec A (Eachopen v flags) (RUnit r) A')); [done|]. apply refines_vop; [done|]. apply refines_table; [done| |]; intros Hi; cbn [sfs_backend fop_eachopen]; rewrite ?eachopendir_eq; apply refines_ret; cbn [step_spec]; [by rewrite decide_True|by rewrite decide_False].
  - intros [[ino c] Hc] (I & L & Hr). apply vwp_bind. eapply vwp_incref; [exact Hr|exact Hc|]. intros a' Hr' Hre. apply vwp_ret. eexists. split; [|split; [by exists I, L|done]]. split; [done|]. eexists. split; [|reflexivity]. left. exists c. unfold ino_at. by rewrite Hc.
  - intros [[ino c] Hc] (I & L & Hr). apply vwp_bind. eapply vwp_decref; [reflexivity|exact Hr|exact Hc|]. intros a' I' L' A' Hr' Hre HA. apply vwp_ret. exists A'. split; [by split|]. split; [by exists I', L'|done].
Qed.

(** ** Clients *)

(** A client chooses its next operation by the results so far, the last one first. *)
Definition client := list ret -> option op.
Fixpoint run_client (n : nat) (c : client) (h : list ret) : M V (list ret) :=
  match n with
  | O => mret h
  | S n' => match c h with None => mret h | Some o => r ← exec o; run_client n' c (r :: h) end
  end.
(** The runs of the abstract file system *)
Fixpoint allowed (n : nat) (c : client) (h : list ret) A (h' : list ret) (A' : astate) : Prop :=
  match n with
  | O => h' = h /\ A' = A
  | S n' => match c h with None => h' = h /\ A' = A | Some o => exists r A1, step_spec A o r A1 /\ allowed n' c (r :: h) A1 h' A' end
  end.
(** Whatever the file system answers, the client keeps to what the operations need. *)
Fixpoint well_behaved (space : Z) (n : nat) (c : client) (h : list ret) A : Prop :=
  match n with
  | O => True
  | S n' => match c h with None => True | Some o => op_ok space A o /\ forall r A1, step_spec A o r A1 -> well_behaved space n' c (r :: h) A1 end
  end.
Lemma client_refines n c h a A : well_behaved (a_space a) n c h A -> refines (run_client n c h) a A (allowed n c h A).
Proof.
  revert h a A. induction n as [|n IH]; intros h a A; cbn [well_behaved run_client allowed]; [intros _; by apply refines_ret|]. destruct (c h) as [o|]; [|intros _; by apply refines_ret]. intros [Hok Hnext] Hv. apply vwp_bind. eapply vwp_mono; [by apply op_refines|].
  intros r a1 (A1 & HR & Hv1 & [Hd Hs]). eapply vwp_mono; [apply IH; [rewrite Hs; by apply Hnext|done]|]. intros h' a' (A' & HA & Hv' & [Hd' Hs']). exists A'. split; [by exists r, A1|]. split; [done|]. split; congruence.
Qed.
(** The volume [f] on the device [dev] is mounted and shows [A]. *)
Definition mounted (s : V) A : Prop := exists a, now f dev ns s a /\ vol a A.
Lemma client_runs n c s A : mounted s A -> well_behaved (v_space s) n c [] A ->
  exists h s' A', run_client n c [] s = Ok h s' /\ allowed n c [] A h A' /\ mounted s' A' /\ framed f dev s s'.
Proof.
  intros (a & Hn & Hv) Hw. rewrite (now_space _ _ _ _ _ Hn) in Hw. pose proof (client_refines n c [] a A Hw Hv s Hn) as Hwp. unfold wp in Hwp. destruct (run_client n c [] s) as [h s'|e]; [|done]. destruct Hwp as (a' & Hn' & Hf & A' & HA & Hv' & _). exists h, s', A'. split; [done|]. split; [done|]. split; [by exists a'|done].
Qed.
End Client.
End SfsClient.
