(* ===== verification/SfsMount.v ===== *)
(** * Unmount and mount

    A volume that is unmounted and mounted again shows the same files. *)

From S2P Require Import Prelude Kern Bswap Bitmap Array Interfaces Copyinout Uio Vfs Lhd LhdSpec Sfs SfsSpec SfsMap SfsBmap SfsTrunc SfsUio SfsIo SfsDir SfsCache SfsVol SfsDirOps SfsFileOps SfsClient.
Open Scope Z_scope.

Module SfsMount.
Import Vfs Lhd LhdSpec Sfs SfsSpec SfsMap SfsBmap SfsTrunc SfsUio SfsIo SfsWrite SfsDir SfsNames SfsCache SfsVol SfsOps SfsDirOps SfsFileOps SfsSync SfsClient.

(** ** A volume on the disk *)

Definition super_of (t : Z -> list Z) : sfs_superblock := fix_super (read_super (t 0)).
(** The record of a volume just mounted *)
Definition fresh_fs (dev : Z) (sb : sfs_superblock) (b : Bitmap.bitmap) : sfs_fs := SfsFs sb false dev Array.array_init (Some b) false.
(** A volume not in use: [b] are its free blocks, [I] the inodes, [N] the names. *)
Record image (ns : Z) (t : Z -> list Z) (b : Bitmap.bitmap) (I : gmap Z sfs_dinode) (N : gmap (list Z) Z) : Prop := {
  im_magic : sb_magic (super_of t) = SFS_MAGIC; im_map : forall j, 0 <= j < SFS_FREEMAPBLOCKS (sb_nblocks (super_of t)) -> t (2 + j) = map_part b j;
  im_space : space_ok ns (fresh_fs 0 (super_of t) b) t I []; im_inodes : forall ino i, I !! ino = Some i -> read_dinode (t ino) = i;
  im_root : exists r, I !! 1 = Some r /\ dir_ok t r /\ lists t r N /\ sfi_linkcount r <> 0;
  im_names : forall name ino, N !! name = Some ino -> ino <> 1 /\ is_Some (I !! ino);
  im_files : forall ino i, I !! ino = Some i -> ino <> 1 -> sfi_type i = SFS_TYPE_FILE /\ sfi_linkcount i = nlinks N ino /\ nlinks N ino <> 0
}.
(** What a user sees of it once it is mounted *)
Definition seen (t : Z -> list Z) (I : gmap Z sfs_dinode) (N : gmap (list Z) Z) (mem : gmap Z Z) : astate :=
  AState N (files t I) ∅ mem (sb_nblocks (super_of t) - Z.of_nat (length (in_use (sb_nblocks (super_of t)) t I []))).

Section Mount.
Context {D : Type} `{W : DiskSpec D}.
Context (dev ns : Z).
Abbreviation V := (vstate (sfs_state D)).
Implicit Types s : V.

Lemma image_repr f a b I N : image ns (a_sect a) b I N -> a_fs a = fresh_fs dev (super_of (a_sect a)) b -> 0 < a_next a -> (forall u, a_next a <= u -> a_nodes a !! u = None) -> repr f dev ns a I [] (seen (a_sect a) I N (a_mem a)).
Proof using .
  intros [M1 M2 M3 M4 M5 M6 M7] Hfs Hn Hf. unfold seen. split; cbn [s_names s_files s_handles s_mem s_free]; [|intros v; unfold handle; by rewrite decide_False by apply not_elem_of_nil|reflexivity|reflexivity|unfold free_blocks; by rewrite Hfs].
  split; [rewrite Hfs; by destruct M3| |by rewrite Hfs|done|done| |].
  - split; [rewrite Hfs; by split|rewrite Hfs; split; [by left|done]|constructor|intros v Hv; by apply elem_of_nil in Hv|intros v w Hv; by apply elem_of_nil in Hv|intros ino i Hi _; by apply M4|done|done].
  - intros ino i Hi H1. destruct (M7 ino i Hi H1) as (F1 & F2 & F3). by split_and!.
  - split; rewrite Hfs; try done. intros _ b' j [= <-]. apply M2.
Qed.
(** A volume that is synced and has no vnodes in use *)
Lemma repr_image f a I A b : repr f dev ns a I [] A -> sfs_freemapdirty (a_fs a) = false -> sfs_freemap (a_fs a) = Some b -> image ns (a_sect a) b I (s_names A) /\ (s_handles A = ∅ -> A = seen (a_sect a) I (s_names A) (a_mem a)).
Proof using .
  intros [[O1 O2 O3 O4 O5 O6 [M1 M2 M3 M4]] R2 R3 R4 R5] Hd Hb. assert (sfs_sb (a_fs a) = super_of (a_sect a)) as Hsb by (by rewrite M2). split.
  - split; [by rewrite <- Hsb|intros j Hj; apply M4; [done|done|by rewrite Hsb]| |intros ino i Hi; apply (ca_disk _ _ _ _ O2 ino i Hi); intros v Hv; by apply elem_of_nil in Hv|done|done|].
    + destruct O1 as [S1 S2 S3 S4 S5]. rewrite Hsb in *. split; try done. cbn [sfs_sb sfs_freemap fresh_fs]. by rewrite <- Hb.
    + intros ino i Hi H1. destruct (O6 ino i Hi H1) as (F1 & F2 & F3). split; [done|]. split; [done|]. intros H0. destruct (F3 H0) as (v & Hv & _). by apply elem_of_nil in Hv.
  - intros Hh. destruct A as [N F T m fr]. cbn in *. subst T F m fr. unfold seen, free_blocks. by rewrite Hsb.
Qed.

(** ** Between the volumes *)

(** The disk is at rest and the lock in order; addresses from [v_next] on are free. *)
Record offline s (t : Z -> list Z) : Prop := {
  of_disk : exists x, at_rest s dev x /\ nsect (lh_hw x) = ns /\ forall k, sect (lh_hw x) k = t k;
  of_lock : 0 <= biglock_depth s /\ biglock s = if biglock_depth s =? 0 then None else Some (v_thread s);
  of_next : 0 < v_next s /\ forall u, v_next s <= u -> vnodes s !! u = None
}.
(** From the view of a volume to the state *)
Lemma vwp_wp f {B} (m : M V B) a Q s (R : B -> V -> Prop) : now f dev ns s a -> vwp f dev ns m a Q -> (forall r s' a', now f dev ns s' a' -> framed f dev s s' -> Q r a' -> R r s') -> wp m R s.
Proof using . intros Hs Hm HR. eapply wp_mono; [by apply Hm|]. intros r s' (a' & Hn & Hf & HQ). by eapply HR. Qed.
Definition locked s : V := set_biglock (Some (v_thread s)) (biglock_depth s + 1) s.
Lemma wp_take_lock s (Q : unit -> V -> Prop) : 0 <= biglock_depth s -> (biglock s = if biglock_depth s =? 0 then None else Some (v_thread s)) -> Q tt (locked s) -> wp vfs_biglock_acquire Q s.
Proof using .
  intros Hd Hb HQ. unfold vfs_biglock_acquire, biglock_held. wpsimp. rewrite Hb. destruct (Z.eqb_spec (biglock_depth s) 0).
  - rewrite bool_decide_false by done. cbn. by wpsimp.
  - rewrite bool_decide_true by done. cbn. wpsimp. unfold locked in HQ. done.
Qed.
Definition unlocked s : V := set_biglock (if biglock_depth s - 1 =? 0 then None else biglock s) (biglock_depth s - 1) s.
Lemma wp_unlock {B} (r : B) s (Q : B -> V -> Prop) : 0 < biglock_depth s -> biglock s = Some (v_thread s) -> Q r (unlocked s) -> wp (unlock_ret r) Q s.
Proof using .
  intros Hd Hb HQ. unfold unlock_ret, vfs_biglock_release, biglock_held. wpsimp. rewrite Hb, bool_decide_true by done. split; [done|]. split; [by apply Z.gtb_lt|]. wpsimp. unfold unlocked in HQ. by rewrite Hb in HQ.
Qed.

(** ** sfs_unmount *)

Definition without_fs f s : V := set_backend (SfsState (delete f (fss (v_backend s))) (svs (v_backend s)) (disks (v_backend s))) s.
Lemma offline_after f s a : now f dev ns s a -> 0 < a_depth a -> 0 < a_next a -> (forall u, a_next a <= u -> a_nodes a !! u = None) -> offline (unlocked (without_fs f s)) (a_sect a).
Proof using .
  intros [A1 A2 A3 A4 A5 A6 A7 (L1 & L2 & L3) A9] Hd Hn Hf. split.
  - destruct A3 as (x & Hx & Hns & Ht). exists x. split; [|done]. by apply (at_rest_same s).
  - cbn. rewrite L1, L3, (proj2 (Z.eqb_neq (a_depth a) 0)) by lia. split; [lia|]. by destruct (a_depth a - 1 =? 0).
  - cbn. rewrite A7, A5. done.
Qed.
(** One step of the logic in a proof about states *)
Lemma wp_step f {B C} (m : M V B) (k : B -> M V C) a Q s (R : C -> V -> Prop) : now f dev ns s a -> vwp f dev ns m a Q -> (forall r s' a', now f dev ns s' a' -> framed f dev s s' -> Q r a' -> wp (k r) R s') -> wp (m ≫= k) R s.
Proof using . intros Hs Hm HR. rewrite wp_bind. by eapply vwp_wp. Qed.
(** The end of a volume: sfs_fs_destroy, and the lock is given back. *)
Lemma wp_destroy_fs f {B} (r : B) s a (Q : B -> V -> Prop) : now f dev ns s a -> 0 < a_depth a -> Array.arr_num (sfs_vnodes (a_fs a)) = 0 -> sfs_device (a_fs a) = 0 -> Q r (unlocked (without_fs f s)) -> wp (sfs_fs_destroy f ;; unlock_ret r) Q s.
Proof.
  intros [A1 A2 A3 A4 A5 A6 A7 (L1 & L2 & L3) A9] Hd Hnum Hdev HQ. unfold sfs_fs_destroy, get_fs, Array.array_destroy, Array.array_cleanup. destruct (Z.eqb_spec f 0); [done|]. wpsimp. rewrite A2. exists (a_fs a). split; [done|]. wpsimp. rewrite Hnum, Hdev. split; [done|]. split; [done|]. wpsimp.
  apply wp_unlock; cbn; [lia|by rewrite L3, (proj2 (Z.eqb_neq _ _)) by lia|exact HQ].
Qed.
Lemma vwp_set_device f d a (Q : unit -> view -> Prop) : let x := a_fs a in Q tt (with_fs (SfsFs (sfs_sb x) (sfs_superdirty x) d (sfs_vnodes x) (sfs_freemap x) (sfs_freemapdirty x)) a) -> vwp f dev ns (set_device f d) a Q.
Proof using . intros x HQ. unfold set_device. apply vwp_bind, vwp_get_fs, vwp_put_fs, HQ. Qed.
Lemma wp_unmount f s a I A (Q : res unit -> V -> Prop) : now f dev ns s a -> repr f dev ns a I [] A -> sfs_freemapdirty (a_fs a) = false ->
  (forall s', offline s' (a_sect a) -> v_mem s' = a_mem a -> devices s' = devices s -> Q (Done tt) s') -> wp (sfs_unmount f) Q s.
Proof.
  intros Hs Hr Hd HQ. pose proof (re_ok _ _ _ _ _ _ _ Hr) as Ho. pose proof (ok_cache _ _ _ _ _ _ _ _ Ho) as Hc. pose proof (Array.h_num _ _ (ca_arr _ _ _ _ Hc)) as Hnum. cbn in Hnum. destruct (now_lock _ _ _ _ _ Hs) as (_ & Hdep & _). unfold sfs_unmount.
  eapply (wp_step f _ _ a (fun _ a' => a' = with_depth (a_depth a + 1) a)); [exact Hs|by apply vwp_acquire|]. intros _ s1 a1 Hs1 F1 ->. eapply (wp_step f _ _ _ (fun x a' => x = a_fs a /\ a' = with_depth (a_depth a + 1) a)); [exact Hs1|by apply vwp_get_fs|]. intros x s2 a2 Hs2 F2 [-> ->].
  unfold Array.array_num. rewrite Hnum, Hd, (mo_clean _ _ (ok_meta _ _ _ _ _ _ _ _ Ho)). change (Z.of_nat 0 >? 0) with false. cbn [negb]. rewrite wp_bind, wp_kassert. split; [done|]. rewrite wp_bind, wp_kassert. split; [done|].
  eapply (wp_step f _ _ _ (fun _ a' => exists x, sfs_vnodes x = sfs_vnodes (a_fs a) /\ sfs_device x = 0 /\ a' = with_fs x (with_depth (a_depth a + 1) a))); [exact Hs2|apply vwp_set_device; eexists; split; [|split; [|reflexivity]]; reflexivity|]. intros _ s3 a3 Hs3 F3 (x & Hx1 & Hx2 & ->).
  eapply wp_destroy_fs; [exact Hs3|cbn; lia|cbn; by rewrite Hx1|done|]. apply HQ.
  - apply (offline_after f s3 _ Hs3); [cbn; lia|apply (ca_next _ _ _ _ Hc)|apply (ca_fresh _ _ _ _ Hc)].
  - apply (now_mem _ _ _ _ _ Hs3).
  - cbn. by rewrite (fr_devices _ _ _ _ F3), (fr_devices _ _ _ _ F2), (fr_devices _ _ _ _ F1).
Qed.

(** ** sfs_domount *)

Lemma vwp_bitmap_create f nb a (Q : option Bitmap.bitmap -> view -> Prop) : 0 <= nb < 2 ^ 32 - 8 -> Q None a -> (forall b, Bitmap.wf b -> Bitmap.nbits b = nb -> Q (Some b) a) -> vwp f dev ns (Bitmap.bitmap_create nb) a Q.
Proof.
  intros Hnb HN HS. unfold Bitmap.bitmap_create. apply vwp_bind, vwp_kmalloc. intros []; [|by apply vwp_ret]. apply vwp_bind, vwp_kmalloc. intros []; [|by apply vwp_ret]. apply vwp_bind. intros s Hs.
  destruct (Bitmap.bitmap_fill_spec nb s Hnb) as (b & Hb & B1 & B2 & _). unfold wp. cbn [negb]. rewrite Hb. exists a. split; [done|]. split; [done|]. apply vwp_ret. by apply HS.
Qed.
(** The blocks of the free map are read, from [j] on. *)
Lemma vwp_map_read f b n m j c a (Q : res unit -> view -> Prop) : sfs_freemap (a_fs a) = Some c -> Bitmap.nbits c = Bitmap.nbits b -> Z.of_nat (length (Bitmap.v b)) = 512 * n -> length (Bitmap.v c) = length (Bitmap.v b) -> take (Z.to_nat (512 * j)) (Bitmap.v c) = take (Z.to_nat (512 * j)) (Bitmap.v b) ->
  sfs_device (a_fs a) = dev -> 0 < a_depth a -> 2 + n <= ns -> 0 <= j -> j + Z.of_nat m = n -> (forall k, 0 <= k < n -> a_sect a (2 + k) = map_part b k) ->
  Q (Done tt) (with_freemap b a) -> vwp f dev ns (each (seqZ j (Z.of_nat m)) (freemap_block f UIO_READ)) a Q.
Proof.
  revert j c a. induction m as [|m IH]; intros j c a Hc Hnb Hl Hlc Ht Hd Hdep Hns Hj Hm Hmap HQ.
  - apply vwp_ret. assert (c = b) as ->. { destruct b, c. cbn in *. subst. f_equal. rewrite !take_ge in Ht by lia. done. } by rewrite with_freemap_id in HQ.
  - rewrite (seqZ_cons j (Z.of_nat (S m))) by lia. cbn [each]. apply vwp_bind. unfold freemap_block. apply vwp_bind, vwp_get_fs, vwp_bind. eapply vwp_deref; [exact Hc|]. change SFS_FREEMAP_START with 2. change SFS_BLOCKSIZE with 512. unfold Bitmap.bitmap_getdata.
    apply vwp_bind, vwp_readblock; [done|done|lia|]. rewrite Hmap by lia. apply vwp_bind. unfold put_freemap. apply vwp_bind, vwp_get_fs, vwp_put_fs, vwp_ret. replace (Z.pred (Z.of_nat (S m))) with (Z.of_nat m) by lia.
    pose proof (map_part_length b n j Hl ltac:(lia)) as Hpl. set (at_ := Z.to_nat (j * 512)). replace (Z.to_nat (512 * j)) with at_ in Ht by lia. eapply (IH (Z.succ j) (Bitmap.Bm (Bitmap.nbits c) (take at_ (Bitmap.v c) ++ map_part b j ++ drop (at_ + length (map_part b j)) (Bitmap.v c)))); cbn [Bitmap.nbits Bitmap.v]; try done; [| |lia|lia].
    + rewrite !length_app, length_take, length_drop, Hpl. lia.
    + rewrite Ht, Hpl. replace (Z.to_nat (512 * Z.succ j)) with (at_ + 512)%nat by lia. rewrite app_assoc, take_app_le by (rewrite length_app, length_take, Hpl; lia). rewrite take_ge by (rewrite length_app, length_take, Hpl; lia). unfold map_part. fold at_. apply take_take_drop.
Qed.
Definition empty_fs : sfs_fs := SfsFs (Superblock 0 0 [] []) false 0 Array.array_init None false.
(** The same but for allocations and new addresses *)
Record alike s s' : Prop := {
  al_backend : v_backend s' = v_backend s; al_vnodes : vnodes s' = vnodes s; al_devices : devices s' = devices s; al_mem : v_mem s' = v_mem s; al_space : v_space s' = v_space s;
  al_lock : biglock s' = biglock s /\ biglock_depth s' = biglock_depth s /\ v_thread s' = v_thread s; al_next : v_next s <= v_next s'
}.
Lemma wp_fs_create s (Q : Z -> V -> Prop) : v_next s <> 0 -> (forall s', alike s s' -> Q 0 s') ->
  (forall s', alike s s' -> v_next s < v_next s' -> Q (v_next s) (set_backend (SfsState (<[v_next s := empty_fs]> (fss (v_backend s'))) (svs (v_backend s')) (disks (v_backend s'))) s')) -> wp sfs_fs_create Q s.
Proof.
  intros Hn H0 H1. assert (forall s0 (P : bool -> V -> Prop), (forall b l, P b (set_allocs l s0)) -> wp kmalloc P s0) as Hk. { intros s0 P HP. unfold wp, kmalloc. destruct (allocs s0) as [|b l] eqn:Ha; [|apply HP]. specialize (HP true []). rewrite <- Ha in HP at 1. by destruct s0. }
  unfold sfs_fs_create, kmalloc_addr. rewrite !wp_bind. apply Hk. intros [] l; cbn [negb].
  2:{ apply wp_ret, wp_ret. apply H0. by split. }
  wpsimp. cbn. rewrite (proj2 (Z.eqb_neq (v_next s) 0)) by done. unfold Array.array_create. rewrite !wp_bind. apply Hk. intros [] l2; apply wp_ret.
  - unfold put_fs. wpsimp. apply H1; [|cbn; lia]. split; cbn; try done. lia.
  - apply wp_ret. apply H0. split; cbn; try done. lia.
Qed.
Lemma offline_now s s' t (f := v_next s) : offline s t -> alike (locked s) s' -> v_next s < v_next s' ->
  now f dev ns (set_backend (SfsState (<[f := empty_fs]> (fss (v_backend s'))) (svs (v_backend s')) (disks (v_backend s'))) s') (View empty_fs t (svs (v_backend s)) (vnodes s) (v_mem s) (v_next s') (biglock_depth s + 1) (v_space s)).
Proof using .
  intros [(x & Hx & Hns & Ht) [L1 L2] [N1 N2]] [A1 A2 A3 A4 A5 (A6 & A7 & A8) A9] Hn. split; cbn; [lia|apply lookup_insert_eq| |by rewrite A1|by rewrite A2|by rewrite A4|done|rewrite A6, A7, A8; cbn; split; [done|]; split; [lia|by rewrite (proj2 (Z.eqb_neq _ _)) by lia]|by rewrite A5].
  exists x. split; [|done]. apply (at_rest_same s); [cbn; by rewrite A1|cbn; by rewrite A3|done].
Qed.
Lemma wp_mount_fail {B} f e s a (Q : res B -> V -> Prop) : now f dev ns s a -> 0 < a_depth a -> Array.arr_num (sfs_vnodes (a_fs a)) = 0 -> (forall s', Q (Err e) s') -> wp (mount_fail f e) Q s.
Proof.
  intros Hs Hd Hnum HQ. unfold mount_fail. eapply (wp_step f _ _ a (fun _ a' => exists x, sfs_vnodes x = sfs_vnodes (a_fs a) /\ sfs_device x = 0 /\ a' = with_fs x a)); [exact Hs|apply vwp_set_device; eexists; split; [|split; [|reflexivity]]; reflexivity|]. intros _ s1 a1 Hs1 F1 (x & Hx1 & Hx2 & ->).
  eapply wp_destroy_fs; [exact Hs1|done|cbn; by rewrite Hx1|done|apply HQ].
Qed.
(** After sfs_fs_create *)
Definition mount_rest (f : Z) : M V (res Z) :=
  set_device f dev ;;
  r ← sfs_readblock f SFS_SUPER_BLOCK;
  match r with
  | Err e => mount_fail f e
  | Done bs =>
      let sb := read_super bs in
      if negb (sb_magic sb =? SFS_MAGIC) then mount_fail f EINVAL else
      let sb := Superblock (sb_magic sb) (sb_nblocks sb) (<[31%nat := 0]> (sb_volname sb)) (sb_reserved sb) in
      x ← get_fs f;
      put_fs f (SfsFs sb (sfs_superdirty x) (sfs_device x) (sfs_vnodes x) (sfs_freemap x) (sfs_freemapdirty x)) ;;
      b ← Bitmap.bitmap_create (SFS_FREEMAPBITS (sb_nblocks sb));
      match b with
      | None => mount_fail f ENOMEM
      | Some b =>
          put_freemap f b ;;
          r ← sfs_freemapio f UIO_READ;
          match r with
          | Err e => mount_fail f e
          | Done _ => unlock_ret (Done f)
          end
      end
  end.
Lemma wp_mount_rest f s a b I N (Q : res Z -> V -> Prop) : now f dev ns s a -> image ns (a_sect a) b I N -> a_fs a = empty_fs -> 0 < a_next a -> (forall u, a_next a <= u -> a_nodes a !! u = None) -> 0 < a_depth a -> (forall s', Q (Err ENOMEM) s') ->
  (forall s' a', now f dev ns s' a' -> repr f dev ns a' I [] (seen (a_sect a) I N (a_mem a)) -> Q (Done f) s') -> wp (mount_rest f) Q s.
Proof.
  intros Hs Him Hfs Hn Hf Hdep HE HQ. pose proof Him as [M1 M2 M3 M4 M5 M6 M7]. pose proof (so_nb _ _ _ _ _ M3) as Hnb. cbn [fresh_fs sfs_sb] in Hnb. set (t := a_sect a) in *. set (sb := super_of t) in *. set (nb := sb_nblocks sb) in *.
  destruct (freemap_blocks nb ltac:(lia)) as [Hbits Hblk]. destruct (so_map _ _ _ _ _ M3) as (b' & [= <-] & B2 & B3 & _). cbn [fresh_fs sfs_sb] in B3. fold nb in B3. pose proof (map_bytes b nb ltac:(lia) B2 B3) as Hbl. pose proof (freemap_bits nb ltac:(lia)) as Hb32.
  assert (2 + SFS_FREEMAPBLOCKS nb <= ns) as Hns. { assert (0 <= 2 + (SFS_FREEMAPBLOCKS nb - 1) < nb); [|lia]. apply (so_range _ _ _ _ _ M3). unfold in_use, system. cbn [fresh_fs sfs_sb]. fold nb. apply elem_of_app. left. right. apply elem_of_seqZ. lia. }
  set (st x := with_fs x a). unfold mount_rest. eapply (wp_step f _ _ a (fun _ a' => a' = st (SfsFs (Superblock 0 0 [] []) false dev Array.array_init None false))); [exact Hs|apply vwp_set_device; unfold st; by rewrite Hfs|]. intros _ s1 a1 Hs1 _ ->.
  eapply (wp_step f _ _ _ (fun r a' => r = Done (t 0) /\ a' = st _)); [exact Hs1|apply vwp_readblock; [done|done|unfold SFS_SUPER_BLOCK; lia|]; by split|]. intros r s2 a2 Hs2 _ [-> ->].
  cbv zeta. change (sb_magic (read_super (t 0))) with (sb_magic sb). rewrite M1, Z.eqb_refl. cbn [negb]. rewrite <- M1. change (Superblock _ _ _ _) with sb. fold nb.
  eapply (wp_step f _ _ _ (fun x a' => x = SfsFs (Superblock 0 0 [] []) false dev Array.array_init None false /\ a' = st _)); [exact Hs2|by apply vwp_get_fs|]. intros x s3 a3 Hs3 _ [-> ->]. cbn [sfs_superdirty sfs_device sfs_vnodes sfs_freemap sfs_freemapdirty].
  eapply (wp_step f _ _ _ (fun _ a' => a' = st (SfsFs sb false dev Array.array_init None false))); [exact Hs3|by apply vwp_put_fs|]. intros _ s4 a4 Hs4 _ ->.
  eapply (wp_step f _ _ _ (fun o a' => a' = st _ /\ match o with Some c => Bitmap.wf c /\ Bitmap.nbits c = SFS_FREEMAPBITS nb | None => True end)); [exact Hs4|apply vwp_bitmap_create; [lia|done|done]|]. intros [c|] s5 a5 Hs5 _ [-> Hc].
  2:{ eapply wp_mount_fail; [exact Hs5|done|done|done]. }
  destruct Hc as [C1 C2]. pose proof (map_bytes c nb ltac:(lia) C1 C2) as Hcl.
  eapply (wp_step f _ _ _ (fun _ a' => a' = st (SfsFs sb false dev Array.array_init (Some c) false))); [exact Hs5|unfold put_freemap; by apply vwp_bind, vwp_get_fs, vwp_put_fs|]. intros _ s6 a6 Hs6 _ ->.
  eapply (wp_step f _ _ _ (fun r a' => r = Done tt /\ a' = st (fresh_fs dev sb b))); [exact Hs6| |].
  { unfold sfs_freemapio. apply vwp_bind, vwp_get_fs. cbn [st with_fs a_fs sfs_sb]. fold nb. rewrite <- (Z2Nat.id (SFS_FREEMAPBLOCKS nb)) by lia. eapply (vwp_map_read f b (SFS_FREEMAPBLOCKS nb) _ 0 c); try done; [congruence|lia|lia]. }
  intros r s7 a7 Hs7 _ [-> ->]. eapply vwp_wp; [exact Hs7|apply (vwp_unlock f dev ns (Done f) _ (fun r a' => r = Done f /\ a' = with_depth (a_depth a - 1) (st (fresh_fs dev sb b)))); [done|by split]|]. intros r s8 a8 Hs8 _ [-> ->]. eapply HQ; [exact Hs8|]. apply repr_depth. exact (image_repr f (st (fresh_fs dev sb b)) b I N Him eq_refl Hn Hf).
Qed.
Lemma wp_mount s y t b I N (Q : res Z -> V -> Prop) : offline s t -> devices s !! dev = Some y -> d_blocksize y = 512 -> image ns t b I N -> (forall s', Q (Err ENOMEM) s') ->
  (forall f s', mounted f dev ns s' (seen t I N (v_mem s)) -> Q (Done f) s') -> wp (sfs_domount dev) Q s.
Proof.
  intros Hof Hy Hbs Him HE HQ. pose proof Hof as [(x & Hx & Hns & Ht) [L1 L2] [N1 N2]]. destruct (ar_dev _ _ _ Hx) as (_ & _ & _ & _ & _ & Hd0). unfold sfs_domount. rewrite wp_bind. apply wp_take_lock; [done|done|]. rewrite wp_bind. eapply wp_get_dev; [done|exact Hy|]. rewrite Hbs. change (negb (512 =? SFS_BLOCKSIZE)) with false. cbn match.
  rewrite wp_bind. apply wp_fs_create; [cbn; lia| |].
  { intros s' [A1 A2 A3 A4 A5 (A6 & A7 & A8) A9]. cbn in *. apply wp_unlock; [lia|congruence|apply HE]. }
  intros s' Hal Hn. change (v_next (locked s)) with (v_next s) in *. pose proof (offline_now s s' t Hof Hal Hn) as Hs1. set (f := v_next s) in *. set (a1 := View empty_fs _ _ _ _ _ _ _) in Hs1. rewrite (proj2 (Z.eqb_neq f 0)) by lia.
  pose proof Him as [M1 M2 M3 M4 M5 M6 M7]. pose proof (so_nb _ _ _ _ _ M3) as Hnb. cbn [fresh_fs sfs_sb] in Hnb. apply (wp_mount_rest f _ a1 b I N); [exact Hs1|exact Him|reflexivity|cbn; lia|intros u Hu; apply N2; cbn in Hu; lia|cbn; lia|exact HE|].
  intros s2 a2 Hs2 Hr. apply HQ. exists a2. split; [exact Hs2|]. by exists I, [].
Qed.

(** ** Unmount and mount again *)

Lemma no_vnodes f a I L A : repr f dev ns a I L A -> s_handles A = ∅ -> L = [].
Proof using .
  intros Hr Hh. destruct L as [|v L]; [done|]. pose proof (re_handles _ _ _ _ _ _ _ Hr v) as Hv. rewrite Hh in Hv. unfold handle in Hv. rewrite decide_True in Hv by left. done.
Qed.
Lemma wp_remount f s y A (Q : res Z -> V -> Prop) : mounted f dev ns s A -> s_handles A = ∅ -> devices s !! dev = Some y -> d_blocksize y = 512 -> (forall s', Q (Err ENOMEM) s') -> (forall f' s', mounted f' dev ns s' A -> Q (Done f') s') ->
  wp (_ ←? sfs_sync f; _ ←? sfs_unmount f; sfs_domount dev) Q s.
Proof.
  intros (a & Hs & I & L & Hr) Hh Hy Hbs HE HQ. pose proof (no_vnodes _ _ _ _ _ Hr Hh) as ->. rewrite wp_try. eapply (vwp_wp f _ a (fun r a' => r = Done tt /\ repr f dev ns a' I [] A /\ sfs_freemapdirty (a_fs a') = false)); [exact Hs|eapply vwp_sync; [exact Hr|]; by intros a' Hr' _ Hd _|].
  intros r s1 a1 Hs1 F1 (-> & Hr1 & Hd1). destruct (so_map _ _ _ _ _ (ok_space _ _ _ _ _ _ _ _ (re_ok _ _ _ _ _ _ _ Hr1))) as (b & Hb & _). destruct (repr_image f a1 I A b Hr1 Hd1 Hb) as [Him HA]. rewrite wp_try. eapply wp_unmount; [exact Hs1|exact Hr1|exact Hd1|].
  intros s2 Hof Hm Hdv. eapply wp_mount; [exact Hof|by rewrite Hdv, (fr_devices _ _ _ _ F1)|done|exact Him|exact HE|]. intros f' s3. rewrite Hm, <- (HA Hh). apply HQ.
Qed.
End Mount.
End SfsMount.
