(* ===== verification/Mksfs.v ===== *)
(** * mksfs

    The program that writes an empty SFS volume
    ([src/userland/sbin/mksfs/mksfs.c] and disk.c, as built for OS/161), and that
    the kernel mounts what it writes. *)

From S2P Require Import Prelude Kern Bswap Bitmap Array Interfaces Copyinout Uio Vfs Lhd LhdSpec Sfs SfsSpec SfsMap SfsBmap SfsTrunc SfsUio SfsIo SfsDir SfsCache SfsVol SfsDirOps SfsFileOps SfsClient SfsMount.
Open Scope Z_scope.

(** What write() does: it writes so many bytes, it is interrupted, it fails. *)
Inductive write_answer := Wrote (n : Z) | Interrupted | Failed.
(** The program goes on, or it has ended with a status. *)
Inductive ended (A : Type) := Goes (a : A) | Exits (status : Z).
Arguments Goes {A}. Arguments Exits {A}.

(** The disk as a file, with its offset; the answers of write() to come, after
    which everything is written at once; the static variables *)
Record mkstate := MkState { mk_open : bool; mk_nblocks : Z; mk_file : list Z; mk_pos : Z; mk_answers : list write_answer; freemapbuf : list Z }.

(** Whether the other system calls of the program succeed; lseek by block *)
Record calls := Calls { c_open : bool; c_fstat : bool; c_lseek : Z -> bool; c_close : bool }.

Module Mksfs.
Import Vfs Lhd LhdSpec Sfs SfsSpec SfsMap SfsBmap SfsDir SfsNames SfsCache SfsVol SfsSync SfsClient SfsMount.

Definition then_ {A B} (m : M mkstate (ended A)) (k : A -> M mkstate (ended B)) : M mkstate (ended B) := r ← m; match r with Goes a => k a | Exits n => mret (Exits n) end.
Notation "x ←! m ; k" := (then_ m (fun x => k)) (at level 20, m at level 100, k at level 200, right associativity).
Definition errx {A} (status : Z) : M mkstate (ended A) := mret (Exits status).

(** ** disk.c *)

Definition BLOCKSIZE : Z := 512.
Definition set_pos (p : Z) (s : mkstate) : mkstate := MkState (mk_open s) (mk_nblocks s) (mk_file s) p (mk_answers s) (freemapbuf s).
Definition overlay (p : Z) (bs l : list Z) : list Z := take (Z.to_nat p) l ++ bs ++ drop (Z.to_nat p + length bs) l.
(** [bs] is written at the offset; [l] are the answers left. *)
Definition put_bytes (bs : list Z) (l : list write_answer) (s : mkstate) : mkstate :=
  MkState (mk_open s) (mk_nblocks s) (overlay (mk_pos s) bs (mk_file s)) (mk_pos s + Z.of_nat (length bs)) l (freemapbuf s).

Section Program.
Context (sys : calls).

Definition opendisk : M mkstate (ended unit) :=
  s ← get; kassert (negb (mk_open s)) ;;
  if negb (c_open sys) then errx 1 else
  if negb (c_fstat sys) then errx 1 else
  modify (fun s => MkState true (u32 (Z.of_nat (length (mk_file s)) / BLOCKSIZE)) (mk_file s) 0 (mk_answers s) (freemapbuf s)) ;; mret (Goes tt).
Definition diskblocksize : M mkstate Z := s ← get; kassert (mk_open s) ;; mret BLOCKSIZE.
Definition diskblocks : M mkstate Z := s ← get; kassert (mk_open s) ;; mret (mk_nblocks s).
(** The loop of diskwrite from [tot] on *)
Fixpoint write_loop (l : list write_answer) (data : list Z) (tot : Z) : M mkstate (ended unit) :=
  if negb (tot <? BLOCKSIZE) then modify (put_bytes [] l) ;; mret (Goes tt) else
  match l with
  | [] => modify (put_bytes (drop (Z.to_nat tot) data) []) ;; mret (Goes tt)
  | Interrupted :: l' => write_loop l' data tot
  | Failed :: _ => errx 1
  | Wrote n :: l' =>
      let len := Z.min n (BLOCKSIZE - tot) in
      if len =? 0 then errx 1 else
      modify (put_bytes (take (Z.to_nat len) (drop (Z.to_nat tot) data)) l') ;; write_loop l' data (u32 (tot + len))
  end.
Definition diskwrite (data : list Z) (block : Z) : M mkstate (ended unit) :=
  s ← get; kassert (mk_open s) ;;
  if negb (c_lseek sys block) then errx 1 else
  modify (set_pos (u32 (block * BLOCKSIZE))) ;;
  write_loop (mk_answers s) data 0.
Definition closedisk : M mkstate (ended unit) :=
  s ← get; kassert (mk_open s) ;;
  if negb (c_close sys) then errx 1 else
  modify (fun s => MkState false (mk_nblocks s) (mk_file s) (mk_pos s) (mk_answers s) (freemapbuf s)) ;; mret (Goes tt).

(** ** mksfs.c *)

Definition MAXFREEMAPBLOCKS : Z := 32.
Definition set_freemapbuf (l : list Z) (s : mkstate) : mkstate := MkState (mk_open s) (mk_nblocks s) (mk_file s) (mk_pos s) (mk_answers s) l.
(** static void allocblock(uint32_t block) *)
Definition allocblock (block : Z) : M mkstate unit :=
  let mapbyte := block / 8 in
  let mask := u8 (Z.shiftl 1 (block mod 8)) in
  s ← get;
  c ← deref FBounds (freemapbuf s !! Z.to_nat mapbyte);
  kassert (Z.land c mask =? 0) ;;
  modify (set_freemapbuf (<[Z.to_nat mapbyte := Z.lor c mask]> (freemapbuf s))).
(** static void initfreemap(uint32_t fsblocks) *)
Definition initfreemap (fsblocks : Z) : M mkstate (ended unit) :=
  let freemapbits := SFS_FREEMAPBITS fsblocks in
  let freemapblocks := SFS_FREEMAPBLOCKS fsblocks in
  if freemapblocks >? MAXFREEMAPBLOCKS then errx 1 else
  allocblock SFS_SUPER_BLOCK ;;
  allocblock SFS_ROOTDIR_INO ;;
  for_each (seqZ 0 freemapblocks) (fun i => allocblock (SFS_FREEMAP_START + i)) ;;
  for_each (seqZ fsblocks (freemapbits - fsblocks)) allocblock ;;
  mret (Goes tt).
Definition SFS_VOLNAME_SIZE : Z := 32.
(** The superblock that writesuper fills in *)
Definition new_super (volname : list Z) (nblocks : Z) : sfs_superblock :=
  Superblock SFS_MAGIC nblocks (volname ++ replicate (32 - length volname) 0) (replicate 118 0).
Definition writesuper (volname : list Z) (nblocks : Z) : M mkstate (ended unit) :=
  if Z.of_nat (length volname) >=? SFS_VOLNAME_SIZE then errx 1 else
  diskwrite (super_bytes (new_super volname nblocks)) SFS_SUPER_BLOCK.
Fixpoint map_loop (l : list Z) : M mkstate (ended unit) :=
  match l with
  | [] => mret (Goes tt)
  | i :: l' =>
      s ← get;
      _ ←! diskwrite (take (Z.to_nat SFS_BLOCKSIZE) (drop (Z.to_nat (i * SFS_BLOCKSIZE)) (freemapbuf s))) (SFS_FREEMAP_START + i);
      map_loop l'
  end.
Definition writefreemap (fsblocks : Z) : M mkstate (ended unit) := map_loop (seqZ 0 (SFS_FREEMAPBLOCKS fsblocks)).
Definition new_root : sfs_dinode := Dinode 0 SFS_TYPE_DIR 1 (replicate 15 0) 0 (replicate 110 0).
Definition writerootdir : M mkstate (ended unit) := diskwrite (dinode_bytes new_root) SFS_ROOTDIR_INO.
(** The volume name of main: one colon at its end is removed; None if it is illegal. *)
Definition volume_name (arg : list Z) : option (list Z) :=
  let cut := match list_find (eq 58) arg with
             | None => Some arg
             | Some (i, _) => if (length arg - i =? 1)%nat then Some (take i arg) else None
             end in
  match cut with
  | None => None
  | Some name => match list_find (eq 47) name with None => Some name | Some _ => None end
  end.
Definition main (argc : Z) (arg : list Z) : M mkstate (ended unit) :=
  if negb (argc =? 3) then errx 1 else
  match volume_name arg with
  | None => errx 1
  | Some volname =>
      _ ←! opendisk;
      blocksize ← diskblocksize;
      if negb (blocksize =? SFS_BLOCKSIZE) then errx 1 else
      size ← diskblocks;
      _ ←! initfreemap size;
      _ ←! writesuper volname size;
      _ ←! writefreemap size;
      _ ←! writerootdir;
      _ ←! closedisk;
      mret (Exits 0)
  end.

(** ** Writing blocks *)

(** Block [n] of the file *)
Definition sector (l : list Z) (n : Z) : list Z := take 512 (drop (Z.to_nat (512 * n)) l).
Lemma overlay_length p bs l : 0 <= p -> (Z.to_nat p + length bs <= length l)%nat -> length (overlay p bs l) = length l.
Proof. intros Hp Hl. unfold overlay. rewrite !length_app, length_take, length_drop. lia. Qed.
Lemma overlay_app p bs1 bs2 l : 0 <= p -> (Z.to_nat p + length bs1 + length bs2 <= length l)%nat -> overlay (p + Z.of_nat (length bs1)) bs2 (overlay p bs1 l) = overlay p (bs1 ++ bs2) l.
Proof.
  intros Hp Hl. unfold overlay. replace (Z.to_nat (p + Z.of_nat (length bs1))) with (Z.to_nat p + length bs1)%nat by lia. rewrite <- !app_assoc. rewrite !(app_assoc (take (Z.to_nat p) l)). assert (length (take (Z.to_nat p) l ++ bs1) = Z.to_nat p + length bs1)%nat as Hlen by (rewrite length_app, length_take; lia).
  rewrite <- Hlen at 1. rewrite take_app_length. do 2 f_equal. rewrite drop_app_ge by lia. rewrite Hlen, drop_drop, length_app. f_equal. lia.
Qed.
Lemma overlay_lookup p bs l k : 0 <= p -> (Z.to_nat p + length bs <= length l)%nat -> overlay p bs l !! k = if decide (Z.to_nat p <= k < Z.to_nat p + length bs)%nat then bs !! (k - Z.to_nat p)%nat else l !! k.
Proof.
  intros Hp Hl. unfold overlay. assert (length (take (Z.to_nat p) l) = Z.to_nat p) as Ht by (rewrite length_take; lia). destruct (decide _) as [Hk|Hk].
  - rewrite lookup_app_r, lookup_app_l by lia. by rewrite Ht.
  - destruct (decide (k < Z.to_nat p)%nat); [rewrite lookup_app_l by lia; by rewrite lookup_take_lt|]. rewrite !lookup_app_r, Ht, lookup_drop by lia. f_equal. lia.
Qed.
Lemma sector_overlay n bs l k : 0 <= n -> 0 <= k -> length bs = 512%nat -> 512 * (n + 1) <= Z.of_nat (length l) -> sector (overlay (512 * n) bs l) k = if k =? n then bs else sector l k.
Proof.
  intros Hn Hk Hb Hl. apply list_eq. intros j. unfold sector. destruct (decide (j < 512)%nat) as [Hj|Hj].
  - rewrite lookup_take_lt, lookup_drop, overlay_lookup by lia. destruct (Z.eqb_spec k n) as [->|Hne].
    + rewrite decide_True by lia. f_equal. lia.
    + rewrite decide_False by lia. by rewrite lookup_take_lt, lookup_drop.
  - rewrite lookup_ge_None_2 by (rewrite length_take; lia). destruct (k =? n); rewrite lookup_ge_None_2; [done|lia|done|rewrite length_take; lia].
Qed.

(** write() does not fail and writes something. *)
Definition works (w : write_answer) : Prop := match w with Wrote n => 0 < n | Interrupted => True | Failed => False end.
Definition all_work : Prop := c_open sys = true /\ c_fstat sys = true /\ (forall block, c_lseek sys block = true) /\ c_close sys = true.
Context (Hc : all_work).
Let Hc_open : c_open sys = true := proj1 Hc.
Let Hc_fstat : c_fstat sys = true := proj1 (proj2 Hc).
Let Hc_lseek : forall block, c_lseek sys block = true := proj1 (proj2 (proj2 Hc)).
Let Hc_close : c_close sys = true := proj2 (proj2 (proj2 Hc)).
Definition wrote_at (p : Z) (bs : list Z) (s s' : mkstate) : Prop :=
  mk_open s' = mk_open s /\ mk_nblocks s' = mk_nblocks s /\ freemapbuf s' = freemapbuf s /\ mk_file s' = overlay p bs (mk_file s) /\ Forall works (mk_answers s').
Lemma wp_write_loop l data tot s (Q : ended unit -> mkstate -> Prop) : Forall works l -> length data = 512%nat -> 0 <= tot <= 512 -> 0 <= mk_pos s -> (Z.to_nat (mk_pos s) + (512 - Z.to_nat tot) <= length (mk_file s))%nat ->
  (forall s', wrote_at (mk_pos s) (drop (Z.to_nat tot) data) s s' -> Q (Goes tt) s') -> wp (write_loop l data tot) Q s.
Proof.
  revert tot s. induction l as [|w l IH]; intros tot s Hl Hd Ht Hp Hf HQ; cbn [write_loop]; unfold BLOCKSIZE; destruct (Z.ltb_spec tot 512) as [Hlt|Hge]; cbn [negb].
  - wpsimp. apply HQ. by split_and!.
  - wpsimp. apply HQ. split_and!; try done. cbn. by rewrite drop_ge by lia.
  - inversion Hl as [|? ? Hw Hl']; subst. destruct w as [n| |]; [|by apply IH|done]. cbn in Hw. set (len := Z.min n (512 - tot)). destruct (Z.eqb_spec len 0); [lia|]. rewrite u32_id by (unfold is_u32; lia). rewrite wp_bind, wp_modify.
    set (bs := take (Z.to_nat len) (drop (Z.to_nat tot) data)). assert (length bs = Z.to_nat len) as Hbs by (unfold bs; rewrite length_take, length_drop; lia).
    apply IH; [done|done|lia|cbn; lia|cbn; rewrite overlay_length; lia|]. intros s' (E1 & E2 & E3 & E4 & E5). apply HQ. split_and!; try done. cbn in E4. rewrite E4, overlay_app by (rewrite ?length_drop; lia). f_equal.
    replace (Z.to_nat (tot + len)) with (Z.to_nat tot + Z.to_nat len)%nat by lia. rewrite <- drop_drop. unfold bs. apply take_drop.
  - wpsimp. apply HQ. split_and!; try done. cbn. by rewrite drop_ge by lia.
Qed.
Lemma wp_diskwrite data block s (Q : ended unit -> mkstate -> Prop) : mk_open s = true -> Forall works (mk_answers s) -> length data = 512%nat -> 0 <= block -> 512 * (block + 1) <= Z.of_nat (length (mk_file s)) < 2 ^ 32 ->
  (forall s', wrote_at (512 * block) data s s' -> Q (Goes tt) s') -> wp (diskwrite data block) Q s.
Proof.
  intros Ho Ha Hd Hb Hf HQ. unfold diskwrite, BLOCKSIZE. wpsimp. split; [done|]. rewrite (Hc_lseek block). cbn [negb]. rewrite u32_id by (unfold is_u32; lia). wpsimp. apply wp_write_loop; cbn; try done; try lia. rewrite drop_0. intros s' Hw. apply HQ. by rewrite Z.mul_comm.
Qed.

(** ** The free map *)

(** The buffer as a bitmap *)
Definition MAPBITS : Z := 8 * (MAXFREEMAPBLOCKS * SFS_BLOCKSIZE).
Definition new_map : list Z := replicate (Z.to_nat (MAXFREEMAPBLOCKS * SFS_BLOCKSIZE)) 0.
Definition bits (l : list Z) : Bitmap.bitmap := Bitmap.Bm MAPBITS l.
Lemma bits_new : Bitmap.wf (bits new_map) /\ forall k, Bitmap.marked (bits new_map) k = false.
Proof.
  unfold new_map, bits. split.
  - split; cbn [Bitmap.nbits Bitmap.v]; [done|rewrite length_replicate, Z2Nat.id by done; done|by apply Forall_replicate|]. unfold Bitmap.nwords. cbn [Bitmap.nbits]. intros i Hi. change (8 * ((MAPBITS + 7) / 8)) with MAPBITS in Hi. lia.
  - intros k. unfold Bitmap.marked. cbn [Bitmap.v]. destruct (replicate _ 0 !! _) as [w|] eqn:E; [|done]. apply lookup_replicate in E as [-> _]. apply Z.testbit_0_l.
Qed.
Lemma wp_allocblock block s (Q : unit -> mkstate -> Prop) : Bitmap.wf (bits (freemapbuf s)) -> 0 <= block < MAPBITS -> Bitmap.marked (bits (freemapbuf s)) block = false ->
  (forall l, Bitmap.wf (bits l) -> (forall k, 0 <= k -> Bitmap.marked (bits l) k = (k =? block) || Bitmap.marked (bits (freemapbuf s)) k) -> Q tt (set_freemapbuf l s)) -> wp (allocblock block) Q s.
Proof.
  intros Hw Hb Hm HQ. pose proof (Bitmap.bitmap_mark_spec (bits (freemapbuf s)) block Hw Hb) as Hs. rewrite Hm in Hs. destruct (Bitmap.translate_spec _ _ Hw Hb) as (w & Ht & Hl & _ & _ & Hk & Htb & Hlt). cbn [bits Bitmap.v] in Hl.
  assert (u8 (Z.shiftl 1 (block mod 8)) = 2 ^ (block mod 8)) as Hmask by (injection Ht; done). unfold Bitmap.bitmap_mark, Bitmap.read_word, Bitmap.write_word in Hs. rewrite Ht, !wp_bind, wp_get, wp_bind, wp_kassert in Hs. destruct Hs as [_ Hs].
  rewrite !wp_bind, wp_get, wp_deref in Hs. destruct Hs as (w' & Hw' & Hs). cbn [bits Bitmap.v] in Hw'. assert (w' = w) as -> by congruence. rewrite wp_bind, wp_kassert, wp_modify in Hs. destruct Hs as [Hand (P1 & _ & P3)].
  unfold allocblock. rewrite Hmask, wp_bind, wp_get, wp_bind, wp_deref. exists w. split; [done|]. rewrite wp_bind, wp_kassert, wp_modify. split; [done|]. apply HQ; [exact P1|]. intros k Hk0. etrans; [apply (P3 k Hk0)|]. by destruct (k =? block).
Qed.
(** Different blocks are marked one after the other. *)
Lemma wp_alloc_all (l : list Z) (g : Z -> Z) s (Q : unit -> mkstate -> Prop) : Bitmap.wf (bits (freemapbuf s)) -> NoDup (g <$> l) -> (forall b, b ∈ g <$> l -> 0 <= b < MAPBITS /\ Bitmap.marked (bits (freemapbuf s)) b = false) ->
  (forall m, Bitmap.wf (bits m) -> (forall k, 0 <= k -> Bitmap.marked (bits m) k = bool_decide (k ∈ g <$> l) || Bitmap.marked (bits (freemapbuf s)) k) -> Q tt (set_freemapbuf m s)) -> wp (for_each l (fun i => allocblock (g i))) Q s.
Proof.
  revert s. induction l as [|x l IH]; intros s Hw Hn Hf HQ; cbn [for_each].
  - apply wp_ret. specialize (HQ (freemapbuf s) Hw). destruct s. apply HQ. intros k Hk. by rewrite bool_decide_false by (cbn; apply not_elem_of_nil).
  - cbn in Hn. apply NoDup_cons in Hn as [Hx Hn]. destruct (Hf (g x)) as [Hr Hm]; [left|]. rewrite wp_bind. apply wp_allocblock; [done|done|done|]. intros m Hwm Hmm. apply IH; [done|done| |].
    + intros b Hb. destruct (Hf b) as [Hbr Hbm]; [by right|]. split; [done|]. cbn. rewrite Hmm by lia. rewrite Hbm, (proj2 (Z.eqb_neq b (g x))); [done|]. by intros ->.
    + intros m' Hw' Hm'. apply (HQ m'); [done|]. intros k Hk. rewrite (Hm' k Hk). cbn [set_freemapbuf freemapbuf]. rewrite (Hmm k Hk), orb_assoc. f_equal. destruct (Z.eqb_spec k (g x)) as [->|Hne]; [rewrite orb_true_r; symmetry; apply bool_decide_eq_true; left|]. rewrite orb_false_r. apply bool_decide_ext. cbn. rewrite elem_of_cons. naive_solver.
Qed.
(** The blocks in use of an empty volume *)
Definition used (n : Z) (k : Z) : Prop := k < 2 + SFS_FREEMAPBLOCKS n \/ n <= k.
#[local] Instance used_dec n k : Decision (used n k) := ltac:(unfold used; apply _).
Lemma size_range n : 2 + SFS_FREEMAPBLOCKS n <= n <= MAPBITS -> 0 < n <= 2 ^ 23.
Proof.
  intros Hn. change MAPBITS with 131072 in Hn. split; [|lia]. destruct (Z.lt_ge_cases 0 n) as [|Hle]; [done|]. exfalso. unfold SFS_FREEMAPBLOCKS, SFS_FREEMAPBITS, SFS_ROUNDUP in Hn. change SFS_BITSPERBLOCK with 4096 in Hn. pose proof (Z.mod_pos_bound (n + 4096 - 1) (2 ^ 32) ltac:(lia)). unfold u32 in Hn. rewrite Z.div_mul in Hn by lia. Z.to_euclidean_division_equations. lia.
Qed.
Lemma map_range n : 2 + SFS_FREEMAPBLOCKS n <= n <= MAPBITS -> SFS_FREEMAPBITS n <= MAPBITS /\ SFS_FREEMAPBLOCKS n <= 32.
Proof.
  intros Hn. pose proof (size_range n Hn) as Hr. destruct (freemap_blocks n Hr) as [Hb _]. change MAPBITS with 131072 in *. enough (SFS_FREEMAPBLOCKS n <= 32) by lia. unfold SFS_FREEMAPBLOCKS, SFS_FREEMAPBITS, SFS_ROUNDUP. change SFS_BITSPERBLOCK with 4096. rewrite u32_id by width_lia. rewrite Z.div_mul by lia. Z.to_euclidean_division_equations. lia.
Qed.
Lemma wp_initfreemap n s (Q : ended unit -> mkstate -> Prop) : freemapbuf s = new_map -> 2 + SFS_FREEMAPBLOCKS n <= n <= MAPBITS ->
  (forall m, Bitmap.wf (bits m) -> (forall k, 0 <= k < SFS_FREEMAPBITS n -> Bitmap.marked (bits m) k = true <-> used n k) -> Q (Goes tt) (set_freemapbuf m s)) -> wp (initfreemap n) Q s.
Proof.
  intros Hmap Hn HQ. pose proof (size_range n Hn) as Hnr.
  destruct (freemap_blocks n Hnr) as [Hbits Hblk]. destruct bits_new as [Hw0 Hm0]. pose proof (map_range n Hn) as [Hbm Hb32].
  pose proof (freemap_bits n Hnr) as Hge. unfold initfreemap. destruct (Z.gtb_spec (SFS_FREEMAPBLOCKS n) MAXFREEMAPBLOCKS) as [Hgt|_]; [unfold MAXFREEMAPBLOCKS in Hgt; lia|].
  rewrite wp_bind. apply wp_allocblock; [by rewrite Hmap|done|by rewrite Hmap|]. intros m1 W1 M1. rewrite wp_bind. apply wp_allocblock; [done|done|cbn; rewrite M1 by done; by rewrite Hmap, Hm0|]. intros m2 W2 M2.
  assert (forall k, 0 <= k -> Bitmap.marked (bits m2) k = (k =? 1) || (k =? 0)) as M2'. { intros k Hk. rewrite (M2 k Hk). cbn [set_freemapbuf freemapbuf]. by rewrite (M1 k Hk), Hmap, Hm0, orb_false_r. } clear M1 M2.
  rewrite wp_bind. apply (wp_alloc_all _ (fun i => SFS_FREEMAP_START + i)); [done|apply NoDup_fmap_2; [intros x y; lia|apply NoDup_seqZ]| |].
  { intros b Hb. apply list_elem_of_fmap in Hb as (i & -> & Hi%elem_of_seqZ). change SFS_FREEMAP_START with 2. split; [lia|]. cbn. rewrite M2' by lia. by rewrite !(proj2 (Z.eqb_neq _ _)) by lia. }
  intros m3 W3 M3. assert (forall k, 0 <= k -> Bitmap.marked (bits m3) k = bool_decide (k < 2 + SFS_FREEMAPBLOCKS n)) as M3'.
  { intros k Hk. rewrite (M3 k Hk). cbn [set_freemapbuf freemapbuf]. rewrite (M2' k Hk). apply eq_bool_prop_intro. rewrite !orb_True, !bool_decide_spec, !Is_true_true, !Z.eqb_eq, list_elem_of_fmap. change SFS_FREEMAP_START with 2. split; [intros [(i & -> & Hi%elem_of_seqZ)|]; lia|]. intros Hlt. destruct (decide (k < 2)); [lia|left]. exists (k - 2). rewrite elem_of_seqZ. lia. }
  rewrite wp_bind. apply (wp_alloc_all _ (fun i => i)); [done|rewrite list_fmap_id; apply NoDup_seqZ| |].
  { rewrite list_fmap_id. intros b Hb%elem_of_seqZ. split; [lia|]. cbn. rewrite M3' by lia. apply bool_decide_eq_false. lia. }
  rewrite list_fmap_id. intros m4 W4 M4. apply wp_ret. apply (HQ m4); [done|]. intros k Hk. rewrite (M4 k) by lia. cbn [set_freemapbuf freemapbuf]. rewrite M3' by lia. rewrite orb_true_iff, !bool_decide_eq_true, elem_of_seqZ. unfold used. lia.
Qed.

(** ** What is written *)

Lemma super_back sb : is_u32 (sb_magic sb) -> is_u32 (sb_nblocks sb) -> length (sb_volname sb) = 32%nat -> length (sb_reserved sb) = 118%nat -> Forall is_u32 (sb_reserved sb) -> read_super (super_bytes sb) = sb /\ length (super_bytes sb) = 512%nat.
Proof.
  intros Hm Hn Hv Hr Hru. unfold super_bytes. set (w := word_bytes [sb_magic sb; sb_nblocks sb]). assert (length w = 8%nat) as Hw by (unfold w; by rewrite word_bytes_length). split; [|rewrite !length_app, word_bytes_length, Hw, Hv, Hr; done].
  assert (words_from (w ++ sb_volname sb ++ word_bytes (sb_reserved sb)) 0 2 = [sb_magic sb; sb_nblocks sb]) as Hw2 by (apply (words_at [sb_magic sb; sb_nblocks sb] [] _ 0); [done|apply Forall_cons_2; [done|]; apply Forall_cons_2; [done|constructor]]). clearbody w. unfold words_from in Hw2. cbn [seq fmap list_fmap] in Hw2. injection Hw2 as H0 H1.
  unfold read_super. rewrite H0, H1. rewrite drop_app_length' by done. rewrite take_app_length' by done. assert (words_from (w ++ sb_volname sb ++ word_bytes (sb_reserved sb)) 10 118 = sb_reserved sb) as ->; [|by destruct sb].
  rewrite app_assoc, <- Hr. rewrite <- (app_nil_r (word_bytes (sb_reserved sb))). apply words_at; [|done]. rewrite length_app, Hw, Hv. done.
Qed.
Lemma new_super_back name n : (length name < 32)%nat -> is_u32 n -> fix_super (read_super (super_bytes (new_super name n))) = new_super name n /\ length (super_bytes (new_super name n)) = 512%nat.
Proof.
  intros Hl Hn. destruct (super_back (new_super name n)) as [-> Hlen]; [done|done|cbn [new_super sb_volname]; rewrite length_app, length_replicate; lia|done|by apply Forall_replicate|]. split; [|done]. unfold fix_super, new_super. cbn [sb_magic sb_nblocks sb_volname sb_reserved]. f_equal.
  apply list_insert_id. rewrite lookup_app_r by lia. apply lookup_replicate. split; [done|lia].
Qed.
Lemma new_root_ok : dinode_ok new_root.
Proof. split; cbn; [unfold MAXSIZE; lia|done|lia|done|]. split; [done|]. by apply (Forall_replicate _ 110). Qed.
Lemma root_back : read_dinode (dinode_bytes new_root) = new_root /\ length (dinode_bytes new_root) = 512%nat.
Proof. split; [vm_compute; reflexivity|apply dinode_length, new_root_ok]. Qed.

(** The bitmap of the volume, in the buffer *)
Definition volume_map (n : Z) (m : list Z) : Bitmap.bitmap := Bitmap.Bm (SFS_FREEMAPBITS n) (take (Z.to_nat (512 * SFS_FREEMAPBLOCKS n)) m).
Lemma volume_map_part n m j : 0 <= j < SFS_FREEMAPBLOCKS n -> map_part (volume_map n m) j = take 512 (drop (Z.to_nat (j * 512)) m).
Proof.
  intros Hj. unfold map_part, volume_map. cbn [Bitmap.v]. apply list_eq. intros i. destruct (decide (i < 512)%nat) as [Hi|Hi].
  - rewrite !lookup_take_lt, !lookup_drop by done. by rewrite lookup_take_lt by lia.
  - rewrite !lookup_ge_None_2; [done|rewrite length_take; lia|rewrite length_take; lia].
Qed.
Section Fresh.
Context (n : Z) (m : list Z) (Hn : 2 + SFS_FREEMAPBLOCKS n <= n <= MAPBITS) (Hpos : 0 < n) (Hw : Bitmap.wf (bits m)).
Context (Hm : forall k, 0 <= k < SFS_FREEMAPBITS n -> Bitmap.marked (bits m) k = true <-> used n k).

Lemma volume_map_wf : Bitmap.wf (volume_map n m) /\ forall k, 0 <= k < SFS_FREEMAPBITS n -> Bitmap.marked (volume_map n m) k = Bitmap.marked (bits m) k.
Proof using Hn Hpos Hw.
  destruct (map_range n Hn) as [_ H32]. change MAPBITS with 131072 in Hn. destruct (freemap_blocks n ltac:(lia)) as [Hb Hblk]. pose proof (freemap_bits n ltac:(lia)) as Hfb. pose proof (Bitmap.wf_length _ Hw) as Hlen. cbn [bits Bitmap.v] in Hlen. change (Bitmap.nwords (bits m)) with 16384 in Hlen.
  assert (Bitmap.nwords (volume_map n m) = 512 * SFS_FREEMAPBLOCKS n) as Hnw by (unfold Bitmap.nwords, volume_map; cbn [Bitmap.nbits]; rewrite Hb; Z.to_euclidean_division_equations; lia). split.
  - split; [cbn [volume_map Bitmap.nbits]; lia|rewrite Hnw; cbn [volume_map Bitmap.v]; rewrite length_take; lia|cbn [volume_map Bitmap.v]; apply Forall_take; apply (Bitmap.wf_bytes _ Hw)|]. rewrite Hnw. cbn [volume_map Bitmap.nbits]. lia.
  - intros k Hk. unfold Bitmap.marked, volume_map, bits. cbn [Bitmap.v]. rewrite lookup_take_lt; [done|]. Z.to_euclidean_division_equations. lia.
Qed.
Lemma fresh_image t name : (length name < 32)%nat -> t 0 = super_bytes (new_super name n) -> t 1 = dinode_bytes new_root -> (forall j, 0 <= j < SFS_FREEMAPBLOCKS n -> t (2 + j) = take 512 (drop (Z.to_nat (j * 512)) m)) ->
  image n t (volume_map n m) {[1 := new_root]} ∅ /\ super_of t = new_super name n /\ seen t {[1 := new_root]} ∅ ∅ = AState ∅ ∅ ∅ ∅ (n - 2 - SFS_FREEMAPBLOCKS n).
Proof using Hn Hpos Hw Hm.
  intros Hname T0 T1 T2. change MAPBITS with 131072 in Hn. destruct (freemap_blocks n ltac:(lia)) as [Hb Hblk]. pose proof (freemap_bits n ltac:(lia)) as Hfb. destruct volume_map_wf as [Vw Vm].
  assert (super_of t = new_super name n) as Hsb by (unfold super_of; rewrite T0; apply new_super_back; [done|unfold is_u32; lia]). assert (file_blocks t new_root = []) as Hfbk by (vm_compute; reflexivity).
  assert (in_use n t {[1 := new_root]} [] = 0 :: seqZ 2 (SFS_FREEMAPBLOCKS n) ++ [1]) as Huse. { unfold in_use, system, owned. cbn [app]. rewrite map_to_list_singleton. cbn [mbind list_bind fst snd]. by rewrite Hfbk. }
  split; [|split; [done|]].
  - split; rewrite ?Hsb; cbn [new_super sb_magic sb_nblocks]; [done|intros j Hj; rewrite T2, volume_map_part by done; done| | | |by intros name' ino; rewrite lookup_empty|].
    + split; cbn [fresh_fs sfs_sb sb_nblocks sfs_freemap new_super]; rewrite ?Huse; [lia| | | |].
      * exists (volume_map n m). split; [done|]. split; [done|]. split; [done|]. intros k Hk. cbn [volume_map Bitmap.nbits] in Hk. rewrite Vm, Hm by done. rewrite elem_of_cons, elem_of_app, list_elem_of_singleton, elem_of_seqZ. unfold used. lia.
      * constructor; [rewrite elem_of_app, list_elem_of_singleton, elem_of_seqZ; lia|]. apply NoDup_app. split; [apply NoDup_seqZ|]. split; [|apply NoDup_singleton]. intros k Hk%elem_of_seqZ. rewrite list_elem_of_singleton. lia.
      * intros k. rewrite elem_of_cons, elem_of_app, list_elem_of_singleton, elem_of_seqZ. lia.
      * intros ino i. rewrite lookup_singleton_Some. intros [_ <-]. apply new_root_ok.
    + intros ino i. rewrite lookup_singleton_Some. intros [<- <-]. rewrite T1. apply root_back.
    + exists new_root. split; [apply lookup_singleton_eq|]. split; [split; [done|done|intros j k Hj; change (nentries new_root) with 0%nat in Hj; lia]|]. split; [|done]. intros name' ino. rewrite lookup_empty. split; [done|]. intros (k & Hk & _). change (nentries new_root) with 0%nat in Hk. lia.
    + intros ino i. rewrite lookup_singleton_Some. by intros [<- _].
  - unfold seen. rewrite Hsb. cbn [new_super sb_nblocks]. rewrite Huse. f_equal. cbn [length]. rewrite length_app, length_seqZ. cbn [length]. lia.
Qed.
End Fresh.

(** ** The program *)

(** Nothing but sectors of the file has changed; write() goes on to work. *)
Record same_but (s s' : mkstate) : Prop := {
  sb_open : mk_open s' = mk_open s; sb_blocks : mk_nblocks s' = mk_nblocks s; sb_map : freemapbuf s' = freemapbuf s; sb_length : length (mk_file s') = length (mk_file s); sb_answers : Forall works (mk_answers s')
}.
Lemma wp_put_sector data block s (Q : ended unit -> mkstate -> Prop) : mk_open s = true -> Forall works (mk_answers s) -> length data = 512%nat -> 0 <= block -> 512 * (block + 1) <= Z.of_nat (length (mk_file s)) < 2 ^ 32 ->
  (forall s', same_but s s' -> (forall k, 0 <= k -> sector (mk_file s') k = if k =? block then data else sector (mk_file s) k) -> Q (Goes tt) s') -> wp (diskwrite data block) Q s.
Proof.
  intros Ho Ha Hd Hb Hf HQ. apply wp_diskwrite; [done..|]. intros s' (E1 & E2 & E3 & E4 & E5). apply HQ; [split; try done; rewrite E4; apply overlay_length; lia|]. intros k Hk. rewrite E4. apply sector_overlay; [done|done|done|lia].
Qed.
Lemma same_but_trans s1 s2 s3 : same_but s1 s2 -> same_but s2 s3 -> same_but s1 s3.
Proof. intros [] []. split; congruence. Qed.
Lemma wp_map_loop c j s (Q : ended unit -> mkstate -> Prop) : mk_open s = true -> Forall works (mk_answers s) -> 0 <= j -> 512 * (j + Z.of_nat c) <= Z.of_nat (length (freemapbuf s)) -> 512 * (2 + j + Z.of_nat c) <= Z.of_nat (length (mk_file s)) < 2 ^ 32 ->
  (forall s', same_but s s' -> (forall k, 0 <= k -> sector (mk_file s') k = if decide (2 + j <= k < 2 + j + Z.of_nat c) then take 512 (drop (Z.to_nat ((k - 2) * 512)) (freemapbuf s)) else sector (mk_file s) k) -> Q (Goes tt) s') -> wp (map_loop (seqZ j (Z.of_nat c))) Q s.
Proof.
  revert j s. induction c as [|c IH]; intros j s Ho Ha Hj Hm Hf HQ.
  - apply wp_ret. apply HQ; [by split|]. intros k Hk. rewrite decide_False by lia. done.
  - rewrite (seqZ_cons j (Z.of_nat (S c))) by lia. cbn [map_loop]. rewrite wp_bind, wp_get. unfold then_. rewrite wp_bind. change (Z.to_nat SFS_BLOCKSIZE) with 512%nat. change SFS_BLOCKSIZE with 512. change SFS_FREEMAP_START with 2.
    apply wp_put_sector; [done|done|rewrite length_take, length_drop; lia|lia|lia|]. intros s1 S1 T1. pose proof S1 as [E1 E2 E3 E4 E5]. replace (Z.pred (Z.of_nat (S c))) with (Z.of_nat c) by lia. apply IH; [congruence|done|lia|rewrite E3; lia|rewrite E4; lia|].
    intros s2 S2 T2. apply HQ; [by eapply same_but_trans|]. intros k Hk. rewrite (T2 k Hk), E3. repeat case_decide; try lia; try done.
    + rewrite (T1 k Hk). rewrite (proj2 (Z.eqb_eq k (2 + j))) by lia. do 3 f_equal. lia.
    + rewrite (T1 k Hk). by rewrite (proj2 (Z.eqb_neq k (2 + j))) by lia.
Qed.
Lemma wp_main n arg name s (Q : ended unit -> mkstate -> Prop) : volume_name arg = Some name -> (length name < 32)%nat -> mk_open s = false -> freemapbuf s = new_map -> Forall works (mk_answers s) ->
  Z.of_nat (length (mk_file s)) / 512 = n -> 2 + SFS_FREEMAPBLOCKS n <= n <= MAPBITS ->
  (forall s' m, length (mk_file s') = length (mk_file s) -> (forall t, (forall k, 0 <= k < n -> t k = sector (mk_file s') k) -> image n t (volume_map n m) {[1 := new_root]} ∅ /\ super_of t = new_super name n /\ seen t {[1 := new_root]} ∅ ∅ = AState ∅ ∅ ∅ ∅ (n - 2 - SFS_FREEMAPBLOCKS n)) -> Q (Exits 0) s') ->
  wp (main 3 arg) Q s.
Proof.
  intros Hname Hlen Ho Hmap Ha Hfile Hn HQ. pose proof (size_range n Hn) as Hnr. assert (0 <= Z.of_nat (length (mk_file s)) < 2 ^ 32) as Hfl by (change MAPBITS with 131072 in Hn; Z.to_euclidean_division_equations; lia). assert (512 * n <= Z.of_nat (length (mk_file s))) as Hfn by (Z.to_euclidean_division_equations; lia).
  unfold main. cbn [Z.eqb Pos.eqb negb]. rewrite Hname. unfold then_ at 1, opendisk. rewrite Hc_open, Hc_fstat. cbn [negb]. wpsimp. rewrite Ho. split; [done|]. wpsimp. unfold diskblocksize, diskblocks. wpsimp. split; [done|]. change (negb (BLOCKSIZE =? SFS_BLOCKSIZE)) with false. cbn match. wpsimp. split; [done|]. unfold BLOCKSIZE. cbn [mk_nblocks].
  rewrite Hfile, u32_id by (unfold is_u32; lia). set (s1 := MkState true n (mk_file s) 0 (mk_answers s) (freemapbuf s)). unfold then_ at 1. rewrite wp_bind. apply wp_initfreemap; [done|done|]. intros m Hwf Hmk. set (s2 := set_freemapbuf m s1). assert (Z.of_nat (length m) = 16384) as Hml by (apply (Bitmap.wf_length _ Hwf)).
  destruct (new_super_back name n Hlen ltac:(unfold is_u32; lia)) as [_ Hsl]. destruct root_back as [_ Hrl]. destruct (freemap_blocks n Hnr) as [Hbits Hblk]. destruct (map_range n Hn) as [_ H32].
  unfold then_ at 1. rewrite wp_bind. unfold writesuper. destruct (Z.geb_spec (Z.of_nat (length name)) SFS_VOLNAME_SIZE) as [Hge|_]; [unfold SFS_VOLNAME_SIZE in Hge; lia|]. apply wp_put_sector; [done|done|done|done|unfold SFS_SUPER_BLOCK; cbn; lia|]. intros s3 S3 T3. pose proof S3 as [E1 E2 E3 E4 E5]. cbn in E1, E3, E4.
  unfold then_ at 1. rewrite wp_bind. unfold writefreemap. rewrite <- (Z2Nat.id (SFS_FREEMAPBLOCKS n)) at 1 by lia. apply wp_map_loop; [done|done|lia|rewrite E3; lia|rewrite E4; lia|]. rewrite Z2Nat.id by lia. intros s4 S4 T4. pose proof S4 as [F1 F2 F3 F4 F5].
  unfold then_ at 1. rewrite wp_bind. unfold writerootdir. apply wp_put_sector; [congruence|done|done|done|unfold SFS_ROOTDIR_INO; rewrite F4, E4; lia|]. intros s5 S5 T5. pose proof S5 as [G1 G2 G3 G4 G5]. unfold then_, closedisk. rewrite Hc_close. cbn [negb]. wpsimp. split; [congruence|]. wpsimp.
  apply (HQ _ m); [cbn; congruence|]. cbn [mk_file]. intros t Ht. apply (fresh_image n m Hn ltac:(lia) Hwf Hmk t name Hlen).
  - rewrite Ht, (T5 0), (T4 0), (T3 0) by lia. done.
  - by rewrite Ht, (T5 1) by lia.
  - intros j Hj. rewrite Ht, (T5 (2 + j)) by lia. rewrite (proj2 (Z.eqb_neq (2 + j) SFS_ROOTDIR_INO)) by (unfold SFS_ROOTDIR_INO; lia). rewrite (T4 (2 + j)) by lia. rewrite decide_True by lia. rewrite E3. do 3 f_equal. lia.
Qed.
End Program.
End Mksfs.
