(* ===== verification/SfsProps.v ===== *)
(** * Correctness of SFS and mksfs

    What a volume promises to its users over any run of operations, over unmount
    and mount, and from mksfs on; a disk in memory on which it can be seen. *)

From S2P Require Import Prelude Kern Bswap Bitmap Array Interfaces Copyinout Uio Vfs Lhd LhdSpec Sfs SfsSpec SfsMap SfsBmap SfsTrunc SfsUio SfsIo SfsDir SfsCache SfsVol SfsDirOps SfsFileOps SfsClient SfsMount Mksfs.
Open Scope Z_scope.

(** ** A disk in memory *)

(** The sectors written so far, the number of reads that will fail, and of the
    coming writes, whether they fail *)
Record ramdisk := Ram { rd_size : Z; rd_sectors : gmap Z (list Z); rd_errors : nat; rd_fails : list bool }.

Module SfsProps.
Import Copyinout Uio Vfs Lhd LhdSpec Sfs SfsSpec SfsMap SfsTrunc SfsUio SfsIo SfsDir SfsVol SfsOps SfsDirOps SfsFileOps SfsClient SfsMount Mksfs.

Definition rd_sector (d : ramdisk) (n : Z) : list Z := default zeros (rd_sectors d !! n).
Definition rd_io (iswrite : bool) (n : Z) (buf : list Z) (d : ramdisk) : Z * list Z * ramdisk :=
  if iswrite then
    if hd false (rd_fails d) then (LHD_MEDIA, buf, Ram (rd_size d) (rd_sectors d) (rd_errors d) (tail (rd_fails d)))
    else (LHD_OK, buf, Ram (rd_size d) (<[n := buf]> (rd_sectors d)) (rd_errors d) (tail (rd_fails d)))
  else match rd_errors d with
       | O => (LHD_OK, rd_sector d n, d)
       | S e => (LHD_MEDIA, buf, Ram (rd_size d) (rd_sectors d) e (rd_fails d))
       end.
#[export] Instance ramdisk_hw : DiskHw ramdisk := {| hw_io := rd_io |}.
Definition rd_ok (d : ramdisk) : Prop := (rd_errors d <= 10)%nat /\ map_Forall (fun _ bs => length bs = 512%nat) (rd_sectors d).
Lemma rd_length d n : rd_ok d -> length (rd_sector d n) = 512%nat.
Proof. intros [_ Hd]. unfold rd_sector. destruct (rd_sectors d !! n) as [bs|] eqn:E; [by apply (Hd n)|done]. Qed.
#[export] Program Instance ramdisk_spec : DiskSpec ramdisk := {| hw_ok := rd_ok; lossless d := Forall (eq false) (rd_fails d); nsect := rd_size; sect := rd_sector; patience := rd_errors |}.
Next Obligation. by intros d [H _]. Qed.
Next Obligation. intros d n H _. by apply rd_length. Qed.
Next Obligation.
  intros d n buf c buf' d' H _ Hb. pose proof H as [He Hs]. unfold hw_io, ramdisk_hw, rd_io. destruct (rd_errors d) as [|e] eqn:E; intros [= <- <- <-].
  - split; [done|]. split; [done|]. split; [done|]. split; [done|]. split; [by apply rd_length|by left].
  - split; [split; [cbn; lia|done]|]. split; [done|]. split; [done|]. split; [done|]. split; [done|]. right. split; [done|cbn; lia].
Qed.
Next Obligation.
  intros d n buf c buf' d' [He Hs] _ Hb. unfold hw_io, ramdisk_hw, rd_io. assert (Forall (eq false) (rd_fails d) -> Forall (eq false) (tail (rd_fails d))) as Ht by (by intros []).
  destruct (hd false (rd_fails d)) eqn:E; intros [= <- <- <-].
  - split; [done|]. split; [done|]. split; [done|]. split; [done|]. right. split; [done|]. split; [done|]. intros Hl. by destruct Hl as [|? ? <-].
  - split; [split; [done|by apply map_Forall_insert_2]|]. split; [done|]. split; [done|]. split; [done|]. left. split; [done|]. intros k. unfold rd_sector. cbn.
    destruct (Z.eqb_spec k n) as [->|Hne]; [by rewrite lookup_insert_eq|by rewrite lookup_insert_ne].
Qed.

(** ** A machine with such a disk *)

(** The free map that mksfs makes for 64 blocks, and the disk it writes *)
Definition map_of (r : outcome mkstate (ended unit)) : list Z := match r with Ok _ k => freemapbuf k | Fault _ => [] end.
Definition map64 : list Z := [7] ++ replicate 7 0 ++ replicate 504 255 ++ replicate (Z.to_nat 15872) 0.
Definition disk64 : ramdisk := Ram 64 {[0 := super_bytes (new_super [118] 64); 1 := dinode_bytes new_root; 2 := take 512 map64]} 2 [].
Definition memory : gmap Z Z := list_to_map (zip (seqZ 4096 16) (seqZ 65 16)).
(** A kernel with the disk [d] as device 1 and the file systems [x] *)
Definition machine (d : ramdisk) (x : gmap Z sfs_fs) : vstate (sfs_state ramdisk) :=
  VState ∅ {[1 := Device drv_devops 64 512 1]} Array.array_init None 0 0 ∅ 1 1 1 memory [] 10 (SfsState x ∅ {[1 := Lhd (replicate 512 0) (Done tt) 1 0 d]}).
Definition start : vstate (sfs_state ramdisk) := machine disk64 {[5 := fresh_fs 1 (new_super [118] 64) (volume_map 64 map64)]}.

Lemma map_of_wp (m : M mkstate (ended unit)) (Q : list Z -> Prop) k : wp m (fun _ k' => Q (freemapbuf k')) k -> Q (map_of (m k)).
Proof. unfold wp. by destruct (m k). Qed.
Lemma map64_made : map_of (initfreemap 64 (MkState true 64 [] 0 [] new_map)) = map64.
Proof. vm_compute. reflexivity. Qed.
Lemma map64_ok : Bitmap.wf (bits map64) /\ forall k, 0 <= k < SFS_FREEMAPBITS 64 -> Bitmap.marked (bits map64) k = true <-> used 64 k.
Proof.
  rewrite <- map64_made. apply (map_of_wp (initfreemap 64) (fun l => Bitmap.wf (bits l) /\ forall k, 0 <= k < SFS_FREEMAPBITS 64 -> Bitmap.marked (bits l) k = true <-> used 64 k)).
  apply wp_initfreemap; [reflexivity|vm_compute; split; discriminate|]. intros m H1 H2. split; [exact H1|exact H2].
Qed.
#[local] Opaque map64.
Lemma disk64_ok : sound disk64.
Proof. split; [|constructor]. split; [cbn; lia|]. apply map_Forall_to_list. vm_compute. repeat constructor. Qed.
Lemma machine_rest d x : sound d -> rd_size d = 64 -> at_rest (machine d x) 1 (Lhd (replicate 512 0) (Done tt) 1 0 d).
Proof. intros Hd Hs. split; [done| |done|done|done|done]. exists (Device drv_devops 64 512 1). split; [done|]. split; [done|]. split; [symmetry; exact Hs|]. cbn. lia. Qed.
Lemma start_mounted : mounted 5 1 64 start (AState ∅ ∅ ∅ memory 61).
Proof.
  destruct map64_ok as [Hw Hm]. destruct (fresh_image 64 map64 ltac:(vm_compute; split; discriminate) ltac:(lia) Hw Hm (rd_sector disk64) [118]) as (Him & Hsb & Hseen); [cbn; lia|done|done| |].
  { intros j Hj. change (SFS_FREEMAPBLOCKS 64) with 1 in Hj. assert (j = 0) as -> by lia. done. }
  exists (View (fresh_fs 1 (new_super [118] 64) (volume_map 64 map64)) (rd_sector disk64) ∅ ∅ memory 10 0 1). split.
  - split; [lia|reflexivity| |reflexivity|reflexivity|reflexivity|reflexivity|cbn; split; [reflexivity|]; split; [lia|reflexivity]|reflexivity]. eexists. split; [apply machine_rest; [apply disk64_ok|reflexivity]|]. split; reflexivity.
  - exists {[1 := new_root]}, []. change (AState ∅ ∅ ∅ memory 61) with (with_memory memory (AState ∅ ∅ ∅ ∅ 61)). change 61 with (64 - 2 - SFS_FREEMAPBLOCKS 64). rewrite <- Hseen. apply image_repr with (b := volume_map 64 map64); [exact Him|cbn [a_fs a_sect]; by rewrite Hsb|cbn; lia|]. intros u _. apply lookup_empty.
Qed.

(** ** One operation *)

Section Volume.
Context {D : Type} `{W : DiskSpec D}.
Context (f dev ns : Z).
Abbreviation V := (vstate (sfs_state D)).
Implicit Types s : V.

Lemma op_runs s A o : mounted f dev ns s A -> op_ok (v_space s) A o ->
  exists r s' A', exec f o s = Ok r s' /\ step_spec A o r A' /\ mounted f dev ns s' A' /\ v_space s' = v_space s.
Proof.
  intros (a & Hn & Hv) Hok. rewrite (now_space _ _ _ _ _ Hn) in Hok. pose proof (op_refines f dev ns a A o Hok Hv s Hn) as Hwp. unfold wp in Hwp. destruct (exec f o s) as [r s'|e]; [|done]. destruct Hwp as (a' & Hn' & _ & A' & HA & Hv' & _ & Hs).
  exists r, s', A'. split; [done|]. split; [done|]. split; [by exists a'|]. by rewrite (now_space _ _ _ _ _ Hn'), Hs, (now_space _ _ _ _ _ Hn).
Qed.
Lemma mounted_mem s A : mounted f dev ns s A -> v_mem s = s_mem A.
Proof using . intros (a & Hn & I & L & Hr). by rewrite (re_mem _ _ _ _ _ _ _ Hr), (now_mem _ _ _ _ _ Hn). Qed.
Lemma mounted_file s A ino F : mounted f dev ns s A -> s_files A !! ino = Some F -> 0 <= fl_size F <= MAXSIZE /\ length (fl_data F) = NBYTES.
Proof using .
  intros (a & _ & I & L & Hr). rewrite (re_files _ _ _ _ _ _ _ Hr), files_lookup. destruct (decide _); [done|]. destruct (I !! ino) as [i|] eqn:Hi; [|done]. cbn [fmap option_fmap option_map]. intros HF. assert (F = afile_of (a_sect a) i) as -> by congruence. rewrite afile_size, afile_data, frange_length.
  split; [|done]. apply (so_inodes _ _ _ _ _ (ok_space _ _ _ _ _ _ _ _ (re_ok _ _ _ _ _ _ _ Hr)) _ _ Hi).
Qed.
(** What was written is the part of the file. *)
Lemma part_written F off bs : 0 <= off -> length (fl_data F) = NBYTES -> fl_size (written off bs F) <= MAXSIZE -> file_part (written off bs F) off (Z.of_nat (length bs)) = bs.
Proof using .
  intros Hoff Hl Hs. destruct bs as [|b bs]; [unfold file_part; destruct (Z.ltb_spec off (fl_size (written off [] F))); [rewrite Z.min_l by (cbn [length]; lia)|]; done|]. set (l := b :: bs) in *. assert (fl_size (written off l F) = Z.max (fl_size F) (off + Z.of_nat (length l))) as Hsz by done. assert (0 < length l)%nat by (cbn; lia). clearbody l.
  pose proof nbytes_max. unfold file_part. rewrite Hsz in *. rewrite (proj2 (Z.ltb_lt _ _)) by lia. rewrite Z.min_l by lia. cbn [written fl_data]. rewrite drop_app_length' by (rewrite length_take; lia). rewrite Nat2Z.id. by rewrite take_app_length.
Qed.

End Volume.

(** ** A run on the disk in memory *)

Definition ret_of (r : outcome (vstate (sfs_state ramdisk)) ret) : option ret := match r with Ok r _ => Some r | Fault _ => None end.
Definition state_of (s : vstate (sfs_state ramdisk)) (r : outcome (vstate (sfs_state ramdisk)) ret) : vstate (sfs_state ramdisk) := match r with Ok _ s' => s' | Fault _ => s end.
Definition after (o : op) (s : vstate (sfs_state ramdisk)) : vstate (sfs_state ramdisk) := state_of s (exec 5 o s).
Lemma after_runs s A o r : mounted 5 1 64 s A -> op_ok (v_space s) A o -> ret_of (exec 5 o s) = Some r -> exists A', step_spec A o r A' /\ mounted 5 1 64 (after o s) A'.
Proof.
  intros Hm Hok Hr. destruct (op_runs _ _ _ _ _ _ Hm Hok) as (r' & s' & A' & E & HR & Hm' & _). unfold after. rewrite E in *. injection Hr as <-. by exists A'.
Qed.
(** The root is opened, a file is created and written, and closed again. *)
Definition created : vstate (sfs_state ramdisk) := after (Creat 10 [97] true 0) (after Root start).
Definition closed : vstate (sfs_state ramdisk) := after (Decref 10) (after (Decref 11) created).
Lemma created_mounted : exists A b, mounted 5 1 64 created A /\ b <> 1 /\ s_names A = {[ [97] := b ]} /\ s_handles A = {[ 11 := (b, 1); 10 := (1, 1) ]} /\ s_mem A = memory.
Proof.
  destruct (after_runs _ _ Root (RNode (Done 10)) start_mounted Logic.I ltac:(vm_compute; reflexivity)) as (A1 & (T & Ht & ->) & Hm1). destruct Ht as [(c & Hc & _)|(_ & _ & ->)]; [done|].
  destruct (after_runs _ _ (Creat 10 [97] true 0) (RNode (Done 11)) Hm1) as (A2 & HR & Hm2); [split; [by eexists|apply not_elem_of_cons; split; [lia|apply not_elem_of_nil]]|vm_compute; reflexivity|]. destruct HR as (_ & b & T & _ & Ht & HA). destruct Ht as [(c & Hc & _)|(_ & Hb & ->)]; [done|].
  exists A2, b. split; [exact Hm2|]. split; [intros ->; by apply (Hb 10 1)|]. rewrite HA. done.
Qed.
Lemma closed_mounted : exists A b, mounted 5 1 64 closed A /\ s_names A = {[ [97] := b ]} /\ s_handles A = ∅.
Proof.
  destruct created_mounted as (A & b & Hm & Hb & Hn & Hh & _).
  destruct (after_runs _ _ (Decref 11) (RUnit (Done tt)) Hm) as (A1 & (_ & HA1) & Hm1); [cbn [op_ok]; unfold held_by; rewrite Hh; by eexists|vm_compute; reflexivity|].
  assert (s_names A1 = {[ [97] := b ]}) as Hn1 by (by rewrite HA1). assert (s_handles A1 = {[10 := (1, 1)]}) as Hh1 by (rewrite HA1; cbn [s_handles]; unfold drop_handles; by rewrite Hh).
  destruct (after_runs _ _ (Decref 10) (RUnit (Done tt)) Hm1) as (A2 & (_ & HA2) & Hm2); [cbn [op_ok]; unfold held_by; rewrite Hh1; by eexists|vm_compute; reflexivity|].
  exists A2, b. split; [exact Hm2|]. rewrite HA2. cbn [s_names s_handles]. split; [done|]. unfold drop_handles. by rewrite Hh1.
Qed.

(** ** A disk that loses a write *)

(** The promises below are about disks whose writes do not fail.  When one does,
    sfs_rwblock tries again with the uio that the first try has used up: the
    write of a block reports success, and the block is as it was. *)
Definition lossy : vstate (sfs_state ramdisk) :=
  machine (Ram 64 (rd_sectors disk64) 0 [true]) {[5 := fresh_fs 1 (new_super [118] 64) (volume_map 64 map64)]}.
Definition left_on (b : Z) (r : outcome (vstate (sfs_state ramdisk)) (res unit)) : option (res unit * option (list Z)) :=
  match r with Ok x s => Some (x, (fun y => rd_sector (lh_hw y) b) <$> (lhds (v_backend s) !! 1)) | Fault _ => None end.
Example lost_write : left_on 10 ((vfs_biglock_acquire ;; sfs_writeblock 5 10 (replicate 512 9)) lossy) = Some (Done tt, Some zeros).
Proof. vm_compute. reflexivity. Qed.

(** ** What a volume promises *)

Section Promises.
Context {D : Type} `{W : DiskSpec D}.
Context (f dev ns : Z).
Abbreviation V := (vstate (sfs_state D)).
Implicit Types s : V.

(** C14: A client that chooses every operation by the results it got sees nothing
    but an abstract file system.  Asked of the client is [op_ok]: it uses vnodes
    it holds, gives new names without NUL and kernel buffers that are there,
    writes no further than offset 2^41, and cuts files to lengths a file can
    have; asked of the disk, in [mounted], is that no write to it fails
    ([lost_write] shows why) and that no more than ten reads in a row do.  From
    such a volume, any number of calls of the VOP_ and FSOP_ operations runs
    without a fault and ends; the results are those of names, files, references
    and memory that the abstract operations give, ENOMEM and ENOSPC included;
    the volume stays mounted and shows their state, and nothing else of the
    kernel changes. *)
Theorem sfs_refines n (c : client) s A : mounted f dev ns s A -> well_behaved (v_space s) n c [] A ->
  exists h s' A', run_client f n c [] s = Ok h s' /\ allowed n c [] A h A' /\ mounted f dev ns s' A' /\ framed f dev s s'.
Proof. apply client_runs. Qed.

(** C17: What is written to a file is read back.  On a mounted volume, whose disk
    fails no write and at most ten reads in a row, a write through a vnode in use
    that ends at or below offset 2^41 ends; if it succeeds then a read of the
    same range into memory that is there ends too, succeeds, and stores at its
    own address the bytes that the writer had. *)
Theorem write_read_back s A v seg sp base len off rm seg' sp' base' len' : mounted f dev ns s A -> ino_at A v <> 1 ->
  op_ok (v_space s) A (Write v seg sp base len off rm) -> op_ok (v_space s) A (Read v seg' sp' base' len' off rm) -> usable seg' (v_mem s) base' rm ->
  exists r s', exec f (Write v seg sp base len off rm) s = Ok (RUio r) s' /\
    (r.1 = Done tt -> exists u s'' bs, exec f (Read v seg' sp' base' len' off rm) s' = Ok (RUio (Done tt, u)) s'' /\
       length bs = Z.to_nat rm /\ load_bytes (v_mem s) base (Z.to_nat rm) = Some bs /\ load_bytes (v_mem s'') base' (Z.to_nat rm) = Some bs).
Proof.
  intros Hm H1 Hw Hrd Hu. rewrite (mounted_mem _ _ _ _ _ Hm) in *. destruct (op_runs _ _ _ _ _ _ Hm Hw) as (r & s' & A1 & -> & HR & Hm1 & Hsp). destruct r as [| | |[r u]|]; try done. exists (r, u), s'. split; [done|]. cbn [fst]. intros ->.
  cbn [step_spec] in HR. unfold on_file in HR. rewrite decide_False in HR by done. destruct HR as (F & HF & cnt & bs & Hbs & Hu1 & HA & Hcnt). cbn [fst] in Hcnt. subst cnt. destruct Hrd as (Hv & Hub & Hoff). pose proof (ub_res _ _ _ _ _ _ _ _ Hub) as Hrm.
  assert (s_mem A1 = s_mem A /\ s_handles A1 = s_handles A /\ s_files A1 = <[ino_at A v := written off bs F]> (s_files A)) as (Em & Eh & Ef) by (rewrite HA; done). clear HA.
  destruct (op_runs f dev ns s' A1 (Read v seg' sp' base' len' off rm) Hm1) as (r2 & s2 & A2 & -> & HR2 & Hm2 & _); [rewrite Hsp; cbn [op_ok]; unfold held_by; rewrite Eh, Em; done|]. destruct r2 as [| | |[r2 u2]|]; try done. cbn [step_spec] in HR2.
  assert (ino_at A1 v = ino_at A v) as Hi by (unfold ino_at; by rewrite Eh). rewrite Hi in HR2. unfold on_file in HR2. rewrite decide_False in HR2 by done. destruct HR2 as (F1 & HF1 & cnt & m & _ & HA2 & HR2). pose proof HF1 as HF2. rewrite Ef, lookup_insert_eq in HF1. injection HF1 as <-.
  destruct (mounted_file _ _ _ _ _ _ _ Hm HF) as [_ Hl]. destruct (mounted_file _ _ _ _ _ _ _ Hm1 HF2) as [Hsz _]. pose proof (proj1 (load_bytes_Some _ _ _ _) Hbs) as [Hlen _]. pose proof (part_written F off bs Hoff Hl (proj2 Hsz)) as Hpart. rewrite Hlen, Z2Nat.id in Hpart by lia. rewrite Hpart in HR2. cbn [fst] in HR2. rewrite Em in HR2. destruct r2 as [[]|e].
  - destruct HR2 as [-> Hdel]. unfold delivered in Hdel. rewrite take_ge in Hdel by done. destruct (store_bytes_ok _ _ _ _ _ Hdel) as [_ Hld]. exists u2, s2, bs. split; [done|]. split; [done|]. split; [done|]. rewrite (mounted_mem _ _ _ _ _ Hm2), HA2. cbn [with_memory s_mem]. rewrite <- Hlen. by apply Hld.
  - destruct HR2 as (_ & _ & Hn & _). exfalso. apply Hn. rewrite Hlen, Z2Nat.id by lia. done.
Qed.
End Promises.

(** ** Unmount and mount, mksfs *)

Section Volumes.
Context {D : Type} `{W : DiskSpec D}.
Context (dev ns : Z).
Abbreviation V := (vstate (sfs_state D)).
Implicit Types s : V.

(** C16: A volume survives unmount.  When no vnode of a mounted volume is in use,
    and its disk fails no write and at most ten reads in a row, sync, unmount and
    mount of the same device end without a fault, and the volume shows the same
    names, files, contents and free blocks as before; only for lack of kernel
    memory does the mount fail, with ENOMEM. *)
Theorem remount_same f s y A : mounted f dev ns s A -> s_handles A = ∅ -> devices s !! dev = Some y -> d_blocksize y = 512 ->
  exists r s', (_ ←? sfs_sync f; _ ←? sfs_unmount f; sfs_domount dev) s = Ok r s' /\
    match r with Done f' => mounted f' dev ns s' A | Err e => e = ENOMEM end.
Proof.
  intros Hm Hh Hy Hb. pose proof (wp_remount dev ns f s y A (fun r s' => match r with Done f' => mounted f' dev ns s' A | Err e => e = ENOMEM end) Hm Hh Hy Hb (fun _ => eq_refl) (fun _ _ H => H)) as Hwp.
  apply wp_ok in Hwp as (r & s' & E & HQ). by exists r, s'.
Qed.
End Volumes.

(** The state of a run of mksfs on a disk, before it opens it *)
Definition ready (n : Z) (k : mkstate) : Prop :=
  mk_open k = false /\ freemapbuf k = new_map /\ Forall works (mk_answers k) /\ Z.of_nat (length (mk_file k)) / 512 = n.

(** C18: The kernel mounts what mksfs writes, as an empty volume.  On a disk that
    has room for the system's own blocks and at most 131072 blocks, with a legal
    volume name shorter than 32 bytes, whatever is on the disk and however
    write() cuts the writes, mksfs ends with status 0 if no system call fails.  A
    kernel with a disk that has the sectors that mksfs left, fails no write and
    at most ten reads in a row, mounts it without a fault, or is out of memory;
    the volume has no names, no files, and all blocks but those of the system are
    free. *)
Theorem mksfs_mounts {D : Type} `{W : DiskSpec D} dev n sys arg name k : all_work sys -> volume_name arg = Some name -> (length name < 32)%nat -> ready n k -> 2 + SFS_FREEMAPBLOCKS n <= n <= MAPBITS ->
  exists k', main sys 3 arg k = Ok (Exits 0) k' /\ length (mk_file k') = length (mk_file k) /\
    forall (s : vstate (sfs_state D)) t y, (forall b, 0 <= b < n -> t b = sector (mk_file k') b) -> offline dev n s t -> devices s !! dev = Some y -> d_blocksize y = 512 ->
    exists r s', sfs_domount dev s = Ok r s' /\
      match r with Done f => mounted f dev n s' (AState ∅ ∅ ∅ (v_mem s) (n - 2 - SFS_FREEMAPBLOCKS n)) | Err e => e = ENOMEM end.
Proof.
  intros Hc Hname Hlen (Ho & Hmap & Ha & Hn) Hr. set (P := fun k' => forall t, (forall b, 0 <= b < n -> t b = sector (mk_file k') b) -> exists b, image n t b {[1 := new_root]} ∅ /\ seen t {[1 := new_root]} ∅ ∅ = AState ∅ ∅ ∅ ∅ (n - 2 - SFS_FREEMAPBLOCKS n)).
  assert (wp (main sys 3 arg) (fun r k' => r = Exits 0 /\ length (mk_file k') = length (mk_file k) /\ P k') k) as Hwp by (eapply (wp_main sys Hc n); try done; intros k' m Hk HI; split; [done|]; split; [done|]; intros t Ht; destruct (HI t Ht) as (I1 & _ & I3); by exists (volume_map n m)).
  unfold wp in Hwp. destruct (main sys 3 arg k) as [r k'|]; [|done]. destruct Hwp as (-> & Hk & HP). exists k'. split; [done|]. split; [done|]. intros s t y Ht Hof Hy Hb. destruct (HP t Ht) as (b & Him & Hseen).
  assert (seen t {[1 := new_root]} ∅ (v_mem s) = AState ∅ ∅ ∅ (v_mem s) (n - 2 - SFS_FREEMAPBLOCKS n)) as Hs by (change (with_memory (v_mem s) (seen t {[1 := new_root]} ∅ ∅) = AState ∅ ∅ ∅ (v_mem s) (n - 2 - SFS_FREEMAPBLOCKS n)); by rewrite Hseen).
  pose proof (wp_mount dev n s y t b {[1 := new_root]} ∅ (fun r s' => match r with Done f => mounted f dev n s' (seen t {[1 := new_root]} ∅ (v_mem s)) | Err e => e = ENOMEM end) Hof Hy Hb Him (fun _ => eq_refl) (fun _ _ H => H)) as Hwp.
  unfold wp in Hwp. destruct (sfs_domount dev s) as [r s'|]; [|done]. exists r, s'. split; [done|]. by rewrite <- Hs.
Qed.

(** ** Instances *)

#[local] Opaque created closed.

(** A client that opens the root, creates a file, writes to it and reads it *)
Definition demo : client := fun h =>
  match h with
  | [] => Some Root
  | [RNode (Done d)] => Some (Creat d [97] true 0)
  | [RNode (Done v); RNode _] => Some (Write v UIO_USERSPACE 1 4096 4 0 4)
  | [RUio _; RNode (Done v); RNode _] => Some (Read v UIO_USERSPACE 1 4104 4 0 4)
  | _ => None
  end.
Lemma user_block base off m : 0 <= base < 2 ^ 31 -> 0 <= off < 2 ^ 31 -> ublock UIO_USERSPACE 1 base 4 off 4 1 m.
Proof. intros Hb Ho. split; [unfold is_u32; lia|unfold is_u32; lia|lia|unfold is_s64; lia|]. by rewrite decide_False. Qed.
Lemma takes_held H ino v T : takes H ino v T -> is_Some (T !! v).
Proof. intros [(c & _ & ->)|(_ & _ & ->)]; rewrite lookup_insert_eq; by eexists. Qed.
Lemma demo_behaves : well_behaved 1 4 demo [] (AState ∅ ∅ ∅ memory 61).
Proof.
  split; [done|]. intros r A1 H1. destruct r as [|[d|]| | |]; try done. destruct H1 as (T & Ht & ->). apply takes_held in Ht.
  split; [split; [exact Ht|apply not_elem_of_cons; split; [lia|apply not_elem_of_nil]]|]. intros r A2 H2. destruct r as [|[v|]| | |]; try done. assert (held_by A2 v) as Hv.
  { cbn [step_spec] in H2. unfold on_dir in H2. destruct (decide _); [|by destruct H2]. destruct H2 as (_ & b & T' & _ & Ht' & ->). by apply takes_held in Ht'. }
  split; [split; [exact Hv|]; split; [by apply user_block|lia]|]. intros r A3 H3. destruct r as [| | |u|]; try done. assert (held_by A3 v) as Hv3.
  { cbn [step_spec] in H3. unfold on_file in H3. destruct (decide _); [by destruct H3 as [_ ->]|]. destruct H3 as (F & _ & cnt & bs & _ & _ & HA & _). unfold held_by. by rewrite HA. }
  split; [split; [exact Hv3|]; split; [by apply user_block|lia]|]. intros r A4 _. done.
Qed.
Lemma sfs_refines_witness : exists h s' A', run_client 5 4 demo [] start = Ok h s' /\ allowed 4 demo [] (AState ∅ ∅ ∅ memory 61) h A' /\ mounted 5 1 64 s' A' /\ framed 5 1 start s'.
Proof. apply (sfs_refines 5 1 64 4 demo start (AState ∅ ∅ ∅ memory 61)); [exact start_mounted|exact demo_behaves]. Defined.

Lemma created_user : v_space created = 1 /\ v_mem created = memory.
Proof. split; vm_compute; reflexivity. Qed.
Lemma memory_usable : usable UIO_USERSPACE memory 4104 4.
Proof.
  right. split; [vm_compute; discriminate|]. intros i Hi. assert (i = 0 \/ i = 1 \/ i = 2 \/ i = 3) as [->|[->|[->| ->]]] by lia; eexists; vm_compute; reflexivity.
Qed.
Lemma write_read_back_witness : exists r s', exec 5 (Write 11 UIO_USERSPACE 1 4096 4 100 4) created = Ok (RUio r) s' /\
  (r.1 = Done tt -> exists u s'' bs, exec 5 (Read 11 UIO_USERSPACE 1 4104 4 100 4) s' = Ok (RUio (Done tt, u)) s'' /\
     length bs = 4%nat /\ load_bytes (v_mem created) 4096 4 = Some bs /\ load_bytes (v_mem s'') 4104 4 = Some bs).
Proof.
  destruct created_mounted as (A & b & Hm & Hb & _ & Hh & _). destruct created_user as [Hs Hmem]. assert (held_by A 11) as Hv by (unfold held_by; rewrite Hh; by eexists).
  apply (write_read_back 5 1 64 created A 11 UIO_USERSPACE 1 4096 4 100 4 UIO_USERSPACE 1 4104 4); [exact Hm|unfold ino_at; rewrite Hh, lookup_insert_eq; exact Hb| | |].
  - rewrite Hs. clear Hs Hmem. split; [exact Hv|]. split; [by apply user_block|lia].
  - rewrite Hs. clear Hs Hmem. split; [exact Hv|]. split; [by apply user_block|lia].
  - rewrite Hmem. exact memory_usable.
Defined.

Lemma remount_same_witness : exists A b, s_names A = {[ [97] := b ]} /\ exists r s', (_ ←? sfs_sync 5; _ ←? sfs_unmount 5; sfs_domount 1) closed = Ok r s' /\
  match r with Done f' => mounted f' 1 64 s' A | Err e => e = ENOMEM end.
Proof.
  destruct closed_mounted as (A & b & Hm & Hn & Hh). exists A, b. split; [exact Hn|]. apply (remount_same 1 64 5 closed (Device drv_devops 64 512 1) A); [exact Hm|exact Hh|vm_compute; reflexivity|reflexivity].
Defined.

(** A disk of 64 sectors that a file gives *)
Definition disk_of (l : list Z) : ramdisk := Ram 64 (list_to_map ((fun b => (b, sector l b)) <$> seqZ 0 64)) 0 [].
Lemma disk_of_sector l b : 0 <= b < 64 -> rd_sectors (disk_of l) !! b = Some (sector l b).
Proof.
  intros Hb. apply elem_of_list_to_map_1; [rewrite <- list_fmap_compose; apply NoDup_fmap_2; [intros x y; done|apply NoDup_seqZ]|]. apply list_elem_of_fmap. exists b. split; [done|]. by apply elem_of_seqZ.
Qed.
Lemma disk_of_ok l : length l = Z.to_nat 32768 -> sound (disk_of l).
Proof.
  intros Hl. split; [|constructor]. split; [cbn; lia|]. intros b bs Hb. cbn [disk_of rd_sectors] in Hb. apply elem_of_list_to_map_2, list_elem_of_fmap in Hb as (b' & [= -> ->] & Hb'%elem_of_seqZ). unfold sector. rewrite length_take, length_drop. lia.
Qed.
(** Nothing is known of the disk; the first write is cut and then interrupted. *)
Definition unformatted : mkstate := MkState false 0 (replicate (Z.to_nat 32768) 7) 0 [Wrote 100; Interrupted; Wrote 500] new_map.
Lemma unformatted_length : length (mk_file unformatted) = Z.to_nat 32768.
Proof. apply length_replicate. Qed.
Lemma unformatted_ready : ready 64 unformatted.
Proof.
  split; [reflexivity|]. split; [reflexivity|]. split; [cbn [unformatted mk_answers]; repeat constructor|]. rewrite unformatted_length, Z2Nat.id by lia. reflexivity.
Qed.
#[local] Opaque unformatted.
Lemma machine_offline l : length l = Z.to_nat 32768 -> offline 1 64 (machine (disk_of l) ∅) (rd_sector (disk_of l)).
Proof.
  intros Hl. split; [|split; [cbn; lia|reflexivity]|split; [cbn; lia|intros u _; apply lookup_empty]]. eexists. split; [apply machine_rest; [by apply disk_of_ok|reflexivity]|]. split; reflexivity.
Qed.
Lemma mksfs_mounts_witness : exists k' r s', main (Calls true true (fun _ => true) true) 3 [118; 58] unformatted = Ok (Exits 0) k' /\ sfs_domount 1 (machine (disk_of (mk_file k')) ∅) = Ok r s' /\
  match r with Done f => mounted f 1 64 s' (AState ∅ ∅ ∅ memory 61) | Err e => e = ENOMEM end.
Proof.
  destruct (mksfs_mounts (D := ramdisk) 1 64 (Calls true true (fun _ => true) true) [118; 58] [118] unformatted) as (k' & E & Hl & HM); [by split_and!|reflexivity|cbn; lia|exact unformatted_ready|vm_compute; split; discriminate|].
  rewrite unformatted_length in Hl. destruct (HM (machine (disk_of (mk_file k')) ∅) (rd_sector (disk_of (mk_file k'))) (Device drv_devops 64 512 1)) as (r & s' & Er & Hr); [|exact (machine_offline _ Hl)|reflexivity|reflexivity|].
  - intros b Hb. unfold rd_sector. by rewrite (disk_of_sector _ _ Hb).
  - exists k', r, s'. split; [exact E|]. split; [exact Er|exact Hr].
Defined.
End SfsProps.
